(* ===== verification/_CoqProject ===== *)
-Q . S2P
Prelude.v
Cstring.v
Riscv.v
Kalloc.v
Vm.v
PageTable.v
Uvm.v
UvmFree.v
AddrSpace.v
UvmCopy.v
Ucopy.v
Bytes.v
Ring.v
Sleeplock.v
Bio.v
Bcache.v
Log.v
Recovery.v
LogRun.v
LogSpace.v
Store.v
Fs.v
FsBlocks.v
FsInode.v
FsFile.v
FsWrite.v
FsDir.v
FsPath.v
Spinlock.v
Kernel.v
KernelProof.v
Sample.v
Sched.v
Console.v
File.v
PipeProof.v
ConsoleProof.v
Proc.v
ProcMem.v
ProcSample.v
ForkProof.v
GrowProof.v
WaitProof.v
ExitProof.v
Exec.v
ExecProof.v
ExecLoad.v
Sysfile.v
Sysproc.v
Virtio.v
Trap.v
Boot.v
TrapProof.v
VirtioProof.v
VirtioLive.v
User.v
Ulib.v
Uprintf.v
Grep.v
Utils.v
Find.v
Tools.v
Umalloc.v
Sh.v
ShPrint.v
ShRun.v
Mkfs.v
MkfsProof.v
MkfsImage.v
Oxo.v
OxoProof.v
Devine.v
DevineProof.v
Pingpong.v
