(* ===== verification/Prelude.v ===== *)
(** * A verification development for xv6-riscv

    The repository is the teaching kernel xv6 for RISC-V, with a few programs
    of its own: the kernel (src/kernel), the user programs (src/user) and the
    builder of the disk image (src/mkfs).  This library translates that C code
    into functions and step relations of Rocq and proves what makes it correct.

    ** How C becomes Rocq

    - Integers are [Z]; wherever a C type wraps around, the conversion is
      written out ([u8] ... [s64] below).
    - Physical memory is a map from addresses to bytes (Cstring.v).  Page
      tables, the free list, trap frames and the headers of the user allocator
      are bytes in it, as in the code.  Disk blocks are lists of 1024 bytes,
      with the structures overlaid on them read and written by offset (Bytes.v).
    - Tables of structures are lists of records, a pointer into a table is an
      index, 0 is [NULL].
    - Sequential code is a function of the monad [M] below: it returns a value
      and a state, panics with its message, or blocks.  Code that sleeps ends
      in [Block] in the state sleep() leaves, so a theorem about a system call
      speaks of one stretch of it between two points where it sleeps.
    - Concurrent code is a step relation: the spin locks, the scheduler with
      sleep and wakeup, the disk driver with its device, and the games of
      communicating user processes interleave step by step.
    - A user program is a function of the monad [U] of User.v over its open
      files, with the sizes of the reads left open.

    ** Files

    Memory.
    - Cstring: kernel/string.c and byte memory.  Riscv: the macros of
      kernel/riscv.h and kernel/memlayout.h.
    - Kalloc: kernel/kalloc.c.  Vm: the page tables of kernel/vm.c, with
      PageTable (proofs).  Uvm, UvmFree, UvmCopy, AddrSpace, Ucopy: the user
      address spaces of vm.c and the copies to and from them.

    Disk and files.
    - Ring: indices of ring buffers.  Sleeplock: kernel/sleeplock.c.
    - Bio: kernel/bio.c, with Bcache (proofs).  Log: kernel/log.c, with
      Recovery and LogRun (crashes) and LogSpace (reservations).
    - Store: the class [BlockStore], what fs.c relies on; [log_store] shows
      that the cache and the log provide it.
    - Fs: kernel/fs.c on any block store, with FsBlocks, FsInode, FsFile,
      FsWrite, FsDir and FsPath (proofs).
    - Virtio: kernel/virtio_disk.c with the device, VirtioProof (refinement)
      and VirtioLive (sleeping and waking).

    Processes and the rest of the kernel.
    - Spinlock: kernel/spinlock.c on several harts.  Sched: scheduler, sched,
      yield, sleep and wakeup of kernel/proc.c on several harts.
    - Kernel: the state shared by the files that follow, and sleep and wakeup
      on it; KernelProof.  Sample and ProcSample: concrete states.
    - Console: kernel/uart.c, kernel/console.c, kernel/printf.c, with
      ConsoleProof.  File: kernel/file.c and kernel/pipe.c, with PipeProof.
    - Proc: the rest of kernel/proc.c, with ProcMem, ForkProof, GrowProof,
      WaitProof and ExitProof.
    - Exec: kernel/exec.c and the argument functions of kernel/syscall.c, with
      ExecProof (the stack of a program) and ExecLoad (its image).  Sysfile: kernel/sysfile.c.  Sysproc: kernel/sysproc.c and the dispatcher.
    - Trap: kernel/trap.c and kernel/plic.c, with TrapProof.  Boot:
      kernel/start.c and kernel/main.c.

    User programs and the image.
    - User (their world), Ulib (user/ulib.c), Uprintf (user/printf.c), Umalloc
      (user/umalloc.c), Grep, Utils (cat, wc, echo), Find (find, ls), Tools
      (init, kill, ln, mkdir, rm, sleep, uptime, ps, pstree, zombie).
    - Sh: the parser of user/sh.c; ShPrint: parsing printed commands; ShRun:
      runcmd, getcmd and main.
    - Oxo, Devine, Pingpong (with OxoProof, DevineProof): the programs of
      several processes that talk through pipes.
    - Mkfs: mkfs/mkfs.c, with MkfsProof and MkfsImage.

    ** What the theorems show

    - Memory: kinit() puts every page on the free list once and no sequence of
      kalloc() and kfree() loses or duplicates one; mappages() and uvmunmap()
      change exactly the mappings and pages they should; copyin(), copyout()
      and copyinstr() touch exactly the bytes a user access could.
    - Disk: the cache refines a map of blocks with held and pinned ones; in any
      interleaving of calls a crash at any write leaves, after recovery, the
      contents of a whole number of commits; the admission rule of begin_op()
      reserves log space, but one block too much for the log that mkfs lays
      out; the driver with the device refines an atomic disk, and every call
      of it returns after a bounded number of steps.
    - Files: balloc(), readi(), writei() and dirlink() against the contents of
      blocks, files and directories (writei() for sources that do not fault); namex() finds the inode a path names and
      counts its reference; mkfs builds an image on which the invariants these
      rely on hold.
    - Processes: locks exclude and restore the interrupt state; a process runs
      on one hart at most; no wakeup is lost; fork(), exit(), wait() and
      growproc() with every page accounted for; exec() builds the image its
      ELF file describes or changes nothing; pipes are bounded queues whose
      sleepers are woken unless a kill() cuts a write short; the console edits lines, hands them over whole and
      echoes; a system call goes from user mode through the dispatcher and
      back; start() hands a hart over to main().
    - Programs: grep's matcher decides its patterns and grep, cat and wc work
      for any sizes of the reads; malloc() and free() keep the heap; the shell
      parses what it prints, terminates its strings and gives every program of
      a command line its descriptors; find reports what lies below a path; the
      games end in every interleaving with the right output; init restarts the
      shell.

    ** Bounds and fuel

    A loop that is not structural takes a number of turns.  The bound comes
    from the loop itself: a page range ([map_fuel]), the blocks of a transfer
    ([rw_fuel]), the entries of a directory ([dir_fuel]), the buffers of the
    cache ([lru_fuel]), the bits of a bitmap block ([bits_fuel]), the length of
    a line or an input.  The theorems about these functions give their result,
    so the bound is shown to be enough: running out is a panic, or an outcome
    of its own, that the theorems exclude.  The searches of malloc() and free()
    take any number of turns larger than the number of free blocks.
    Step relations have no bound; where the code ends, a measure gives the
    number of steps.

    ** Not modelled

    - Assembly (entry.S, kernelvec.S, trampoline.S, swtch.S, initcode.S) and
      the stubs of usys.pl: the models start and end at its boundaries.
    - The processor: no weak memory, no TLB, no instruction timing.
      Spin locks are atomic in Sched and in the sequential models, which
      Spinlock justifies; a sequential system call runs alone between the
      points where it sleeps, except that kill() may strike a writer of a pipe
      before any byte (the argument [kills] of File.pipewrite).
    - Devices: the disk follows the virtio specification (Virtio.v, after the
      driver); the theorems on runs of the driver take it to report success,
      and VirtioLive shows the panic that follows when it does not.
    - Size of stacks, kernel and user.
    - kernel/ramdisk.c, which the build leaves out and no longer compiles.
    - The test programs (usertests, grind, forktest, stressfs, pmem_test,
      psync_tst, phierarchy_tst): they have no function of their own; what
      they try is stated of the kernel here.
    - The system calls of Sysfile and Sysproc are modelled in full as the
      callers of the verified layers, and carry no theorem beyond those used by
      the trap path.
    - Addresses the linker decides ([kend], [etext], [trampoline], ...) are
      arguments, with what the linker script guarantees as hypotheses. *)

From Stdlib Require Import ZArith Lia.
From stdpp Require Import base numbers list list_numbers gmap strings.

#[global] Open Scope Z_scope.

(** ** Machine integers

    A C integer is a [Z]; the conversions below are the wrap-around of the
    fixed-width types of kernel/types.h and of the signed C types. *)

Definition u8 (z : Z) : Z := z mod 2 ^ 8.
Definition u16 (z : Z) : Z := z mod 2 ^ 16.
Definition u32 (z : Z) : Z := z mod 2 ^ 32.
Definition u64 (z : Z) : Z := z mod 2 ^ 64.

Definition wrap_signed (w z : Z) : Z :=
  let r := z mod 2 ^ w in if r <? 2 ^ (w - 1) then r else r - 2 ^ w.

Definition s8 : Z -> Z := wrap_signed 8.
Definition s16 : Z -> Z := wrap_signed 16.
Definition s32 : Z -> Z := wrap_signed 32.
Definition s64 : Z -> Z := wrap_signed 64.

(** Machine-width facts are linear once the powers are numerals. *)
Ltac word :=
  unfold u8, u16, u32, u64, s8, s16, s32, s64, wrap_signed in *;
  change (2 ^ 8) with 256 in *; change (2 ^ 16) with 65536 in *;
  change (2 ^ 32) with 4294967296 in *;
  change (2 ^ 64) with 18446744073709551616 in *;
  change (2 ^ (8 - 1)) with 128 in *; change (2 ^ (16 - 1)) with 32768 in *;
  change (2 ^ (32 - 1)) with 2147483648 in *;
  change (2 ^ (64 - 1)) with 9223372036854775808 in *;
  repeat match goal with
    | |- context [ if ?a <? ?b then _ else _ ] => destruct (Z.ltb_spec a b)
    | H : context [ if ?a <? ?b then _ else _ ] |- _ => destruct (Z.ltb_spec a b)
    end;
  Z.div_mod_to_equations; lia.

Lemma u8_range z : 0 <= u8 z < 256.
Proof. word. Qed.
Lemma u32_range z : 0 <= u32 z < 2 ^ 32.
Proof. word. Qed.
Lemma u64_range z : 0 <= u64 z < 2 ^ 64.
Proof. word. Qed.
Lemma u8_small z : 0 <= z < 256 -> u8 z = z.
Proof. intros. word. Qed.
Lemma u16_small z : 0 <= z < 2 ^ 16 -> u16 z = z.
Proof. intros. word. Qed.
Lemma u32_small z : 0 <= z < 2 ^ 32 -> u32 z = z.
Proof. intros. word. Qed.
Lemma u64_small z : 0 <= z < 2 ^ 64 -> u64 z = z.
Proof. intros. word. Qed.
Lemma s32_small z : - 2 ^ 31 <= z < 2 ^ 31 -> s32 z = z.
Proof.
  change (2 ^ 31) with 2147483648. intros. word.
Qed.
Lemma s16_u16 z : - 2 ^ 15 <= z < 2 ^ 15 -> s16 (u16 z) = z.
Proof.
  change (2 ^ 15) with 32768. intros. word.
Qed.
Lemma u8_idemp z : u8 (u8 z) = u8 z.
Proof. word. Qed.

Create HintDb xv6.
#[export] Hint Rewrite u8_idemp : xv6.
#[export] Hint Resolve u8_range u32_range u64_range : xv6.

(** ** Outcomes

    A kernel function run from a state either returns a value, or stops in
    [panic], or gives up the processor in [sleep] with no way to proceed on
    its own (the argument is the wait channel). *)

Inductive outcome (S A : Type) : Type :=
| Ret (a : A) (s : S)
| Panic (msg : string) (s : S)
| Block (chan : Z) (s : S).

Arguments Ret {S A} a s.
Arguments Panic {S A} msg s.
Arguments Block {S A} chan s.

Definition M (S A : Type) : Type := S -> outcome S A.

Declare Scope xv6_scope.
Delimit Scope xv6_scope with xv6.

Section Monad.
Context {S : Type}.

Definition ret {A} (a : A) : M S A := fun s => Ret a s.

Definition bind {A B} (m : M S A) (k : A -> M S B) : M S B := fun s =>
  match m s with
  | Ret a s' => k a s'
  | Panic e s' => Panic e s'
  | Block c s' => Block c s'
  end.

Definition panic {A} (msg : string) : M S A := fun s => Panic msg s.
Definition get : M S S := fun s => Ret s s.
Definition gets {A} (f : S -> A) : M S A := fun s => Ret (f s) s.
Definition modify (f : S -> S) : M S unit := fun s => Ret tt (f s).

(** A spin lock seen by the one thread that uses the component: acquiring
    a lock this thread holds is the panic of acquire(), releasing one it
    does not hold the panic of release(). *)
Definition lk_acquire (l : S -> bool) (set : bool -> S -> S) : M S unit :=
  fun s => if l s then Panic "acquire" s else Ret tt (set true s).
Definition lk_release (l : S -> bool) (set : bool -> S -> S) : M S unit :=
  fun s => if l s then Ret tt (set false s) else Panic "release" s.

(** sleep(chan, lk) with nothing left to wake this thread: it stays blocked. *)
Definition sleep_on {A} (chan : Z) : M S A := fun s => Block chan s.

Lemma bind_Ret {A B} (m : M S A) (k : A -> M S B) s a s' :
  m s = Ret a s' -> bind m k s = k a s'.
Proof. unfold bind. by intros ->. Qed.

Lemma bind_inv {A B} (m : M S A) (k : A -> M S B) s b s'' :
  bind m k s = Ret b s'' ->
  exists a s', m s = Ret a s' /\ k a s' = Ret b s''.
Proof. unfold bind. destruct (m s); naive_solver. Qed.

Lemma bind_assoc {A B C} (m : M S A) (k : A -> M S B) (h : B -> M S C) s :
  bind (bind m k) h s = bind m (fun a => bind (k a) h) s.
Proof. unfold bind. by destruct (m s). Qed.
End Monad.

(** An operation of a component run inside a larger state. *)
Definition zoom {S T A} (view : T -> S) (set : S -> T -> T) (m : M S A) : M T A := fun t =>
  match m (view t) with
  | Ret a s => Ret a (set s t)
  | Panic e s => Panic e (set s t)
  | Block c s => Block c (set s t)
  end.

Lemma zoom_Ret {S T A} (view : T -> S) (set : S -> T -> T) (m : M S A) t a s :
  m (view t) = Ret a s -> zoom view set m t = Ret a (set s t).
Proof. unfold zoom. by intros ->. Qed.

Notation "'let*' x := m 'in' k" := (bind m (fun x => k))
  (at level 200, x name, m at level 100, k at level 200, right associativity)
  : xv6_scope.
Notation "m ;; k" := (bind m (fun _ => k))
  (at level 100, k at level 200, right associativity) : xv6_scope.
Notation "'when' b 'do' m" := (if b then m else ret tt)
  (at level 200, b at level 100, m at level 100) : xv6_scope.

#[global] Open Scope xv6_scope.

(** Run the head of a bind on a concrete or already analysed computation. *)
Ltac mstep := first
  [ erewrite bind_Ret by (first [eassumption | reflexivity])
  | progress cbn [bind ret gets modify] ].

(** ** Lists indexed by Z *)

Definition nthZ {A} (d : A) (l : list A) (i : Z) : A :=
  if i <? 0 then d else nth (Z.to_nat i) l d.

Definition updZ {A} (i : Z) (x : A) (l : list A) : list A :=
  if i <? 0 then l else <[Z.to_nat i := x]> l.

Definition zlen {A} (l : list A) : Z := Z.of_nat (length l).

Section ListZ.
Context {A : Type} (d : A).
Implicit Types (l : list A) (i j : Z) (x : A).

Lemma length_updZ i x l : length (updZ i x l) = length l.
Proof. unfold updZ. destruct (i <? 0); [done|]. apply length_insert. Qed.

Lemma zlen_updZ i x l : zlen (updZ i x l) = zlen l.
Proof. unfold zlen. by rewrite length_updZ. Qed.

Lemma nthZ_updZ_eq i x l : 0 <= i < zlen l -> nthZ d (updZ i x l) i = x.
Proof.
  unfold nthZ, updZ, zlen. intros. destruct (Z.ltb_spec i 0); [lia|].
  apply nth_lookup_Some. apply list_lookup_insert_eq. lia.
Qed.

Lemma nthZ_updZ_ne i j x l : i <> j -> nthZ d (updZ i x l) j = nthZ d l j.
Proof.
  unfold nthZ, updZ. intros. destruct (Z.ltb_spec i 0), (Z.ltb_spec j 0); try done.
  rewrite !nth_lookup. rewrite list_lookup_insert_ne; [done|lia].
Qed.

Lemma nthZ_overflow l i : zlen l <= i -> nthZ d l i = d.
Proof.
  unfold nthZ, zlen. intros. destruct (Z.ltb_spec i 0); [done|].
  apply nth_overflow. lia.
Qed.

Lemma nthZ_lookup l i x : 0 <= i -> l !! Z.to_nat i = Some x -> nthZ d l i = x.
Proof.
  unfold nthZ. intros. destruct (Z.ltb_spec i 0); [lia|].
  by apply nth_lookup_Some.
Qed.

Lemma lookup_nthZ l i : 0 <= i < zlen l -> l !! Z.to_nat i = Some (nthZ d l i).
Proof.
  unfold nthZ, zlen. intros. destruct (Z.ltb_spec i 0); [lia|].
  destruct (nth_lookup_or_length l (Z.to_nat i) d); [done|lia].
Qed.

Lemma nthZ_ext l1 l2 :
  length l1 = length l2 ->
  (forall i, 0 <= i < zlen l1 -> nthZ d l1 i = nthZ d l2 i) -> l1 = l2.
Proof.
  intros Hlen H. apply list_eq_same_length with (length l2); try done.
  intros i x y Hi H1 H2.
  specialize (H (Z.of_nat i)). unfold zlen in H.
  unfold nthZ in H. destruct (Z.ltb_spec (Z.of_nat i) 0); [lia|].
  rewrite Nat2Z.id in H.
  rewrite (nth_lookup_Some _ _ d _ H1), (nth_lookup_Some _ _ d _ H2) in H.
  apply H. lia.
Qed.

Lemma zlen_nonneg l : 0 <= zlen l.
Proof. unfold zlen. lia. Qed.

Lemma zlen_app l1 l2 : zlen (l1 ++ l2) = zlen l1 + zlen l2.
Proof. unfold zlen. rewrite length_app. lia. Qed.

Lemma zlen_take n l : zlen (take (Z.to_nat n) l) = Z.min (Z.max 0 n) (zlen l).
Proof. unfold zlen. rewrite length_take. lia. Qed.

Lemma zlen_drop n l : zlen (drop (Z.to_nat n) l) = Z.max 0 (zlen l - Z.max 0 n).
Proof. unfold zlen. rewrite length_drop. lia. Qed.

Lemma zlen_zero l : zlen l <= 0 -> l = [].
Proof. destruct l; [done|]. unfold zlen. cbn [length]. lia. Qed.

Lemma nthZ_drop l n i :
  0 <= n -> 0 <= i -> nthZ d (drop (Z.to_nat n) l) i = nthZ d l (n + i).
Proof.
  intros. unfold nthZ. destruct (Z.ltb_spec i 0), (Z.ltb_spec (n + i) 0); try lia.
  rewrite !nth_lookup, lookup_drop. do 2 f_equal. lia.
Qed.

Lemma nthZ_take l n i :
  0 <= i < n -> nthZ d (take (Z.to_nat n) l) i = nthZ d l i.
Proof.
  intros. unfold nthZ. destruct (Z.ltb_spec i 0); [lia|].
  rewrite !nth_lookup, lookup_take_lt by lia. done.
Qed.

Lemma nthZ_app l1 l2 i :
  0 <= i -> nthZ d (l1 ++ l2) i = if i <? zlen l1 then nthZ d l1 i else nthZ d l2 (i - zlen l1).
Proof.
  intros. unfold nthZ, zlen. destruct (Z.ltb_spec i 0); [lia|].
  destruct (Z.ltb_spec i (Z.of_nat (length l1))).
  - apply app_nth1. lia.
  - destruct (Z.ltb_spec (i - Z.of_nat (length l1)) 0); [lia|].
    rewrite app_nth2 by lia. f_equal. lia.
Qed.
End ListZ.

#[export] Hint Rewrite @length_updZ @zlen_updZ @zlen_app @zlen_take @zlen_drop : xv6.

Lemma NoDup_perm {A} (l l' : list A) : l ≡ₚ l' -> NoDup l -> NoDup l'.
Proof. by intros ->. Qed.
