(* ===== verification/Cstring.v ===== *)
(** * Kernel memory and kernel/string.c

    Physical memory is a byte map; the memory functions of kernel/string.c
    ([memset], [memcmp], [memmove], [memcpy]) are loops over it.  The string
    functions read a C string through a pointer that only moves forward: the
    bytes from the pointer on are a list, whose end stands for the NUL.  A
    function that writes through a forward pointer returns the list of bytes
    it writes.  [char] is unsigned on RISC-V. *)

From Stdlib Require Import ZArith Lia.
From stdpp Require Import base numbers list list_numbers gmap strings.
From S2P Require Import Prelude.

(** ** Byte memory *)

Notation mem := (gmap Z Z).

Definition load8 (m : mem) (a : Z) : Z := u8 (default 0 (m !! a)).
Definition store8 (m : mem) (a v : Z) : mem := <[a := u8 v]> m.

Fixpoint loadn (m : mem) (a : Z) (n : nat) : list Z :=
  match n with
  | O => []
  | S k => load8 m a :: loadn m (a + 1) k
  end.

Fixpoint storen (m : mem) (a : Z) (bs : list Z) : mem :=
  match bs with
  | [] => m
  | b :: bs' => storen (store8 m a b) (a + 1) bs'
  end.

(** Little-endian words. *)
Fixpoint le_val (bs : list Z) : Z :=
  match bs with
  | [] => 0
  | b :: bs' => u8 b + 256 * le_val bs'
  end.

Fixpoint le_bytes (n : nat) (v : Z) : list Z :=
  match n with
  | O => []
  | S k => u8 v :: le_bytes k (v / 256)
  end.

Definition load64 (m : mem) (a : Z) : Z := le_val (loadn m a 8).
Definition store64 (m : mem) (a v : Z) : mem := storen m a (le_bytes 8 v).
Definition load32 (m : mem) (a : Z) : Z := le_val (loadn m a 4).
Definition store32 (m : mem) (a v : Z) : mem := storen m a (le_bytes 4 v).

(** ** kernel/string.c: memory *)

Fixpoint memset_loop (m : mem) (cdst c i : Z) (k : nat) : mem :=
  match k with
  | O => m
  | S k' => memset_loop (store8 m (cdst + i) c) cdst c (i + 1) k'
  end.

Definition memset (m : mem) (dst c n : Z) : mem :=
  memset_loop m dst c 0 (Z.to_nat n).

Fixpoint memcmp_loop (m : mem) (s1 s2 : Z) (n : nat) : Z :=
  match n with
  | O => 0
  | S n' =>
      if load8 m s1 =? load8 m s2 then memcmp_loop m (s1 + 1) (s2 + 1) n'
      else load8 m s1 - load8 m s2
  end.

Definition memcmp (m : mem) (v1 v2 n : Z) : Z :=
  memcmp_loop m v1 v2 (Z.to_nat n).

(** [*d++ = *s++] and [*--d = *--s]. *)
Fixpoint move_up (m : mem) (d s : Z) (n : nat) : mem :=
  match n with
  | O => m
  | S n' => move_up (store8 m d (load8 m s)) (d + 1) (s + 1) n'
  end.

Fixpoint move_down (m : mem) (d s : Z) (n : nat) : mem :=
  match n with
  | O => m
  | S n' => move_down (store8 m (d - 1) (load8 m (s - 1))) (d - 1) (s - 1) n'
  end.

Definition memmove (m : mem) (dst src n : Z) : mem :=
  if n =? 0 then m
  else if (src <? dst) && (dst <? src + n)
  then move_down m (dst + n) (src + n) (Z.to_nat n)
  else move_up m dst src (Z.to_nat n).

Definition memcpy (m : mem) (dst src n : Z) : mem := memmove m dst src n.

(** ** kernel/string.c: strings *)

(** The C string a byte sequence denotes: the bytes before the first NUL. *)
Fixpoint cstr (s : list Z) : list Z :=
  match s with
  | [] => []
  | c :: s' => if c =? 0 then [] else c :: cstr s'
  end.

(** [*p] and [p + 1] *)
Definition chr (p : list Z) : Z := match p with [] => 0 | c :: _ => c end.
Definition nxt (p : list Z) : list Z := match p with [] => [] | _ :: p' => p' end.

Fixpoint strncmp (p q : list Z) (n : nat) : Z :=
  match n with
  | O => 0
  | S n' =>
      if negb (chr p =? 0) && (chr p =? chr q) then strncmp (nxt p) (nxt q) n'
      else chr p - chr q
  end.

Fixpoint strncpy (t : list Z) (n : nat) : list Z :=
  match n with
  | O => []
  | S n' => if chr t =? 0 then 0 :: repeat 0 n' else chr t :: strncpy (nxt t) n'
  end.

(** The loop body runs while [--n > 0]; [k] is [n - 1] on entry. *)
Fixpoint safestrcpy_loop (t : list Z) (k : nat) : list Z :=
  match k with
  | O => []
  | S k' => if chr t =? 0 then [0] else chr t :: safestrcpy_loop (nxt t) k'
  end.

Definition safestrcpy (t : list Z) (n : Z) : list Z :=
  if n <=? 0 then [] else safestrcpy_loop t (Z.to_nat (n - 1)) ++ [0].

Fixpoint strlen (s : list Z) : Z :=
  match s with
  | [] => 0
  | c :: s' => if c =? 0 then 0 else 1 + strlen s'
  end.

(** ** Memory lemmas *)

Lemma load8_range m a : 0 <= load8 m a < 256.
Proof. apply u8_range. Qed.

Lemma u8_load8 m a : u8 (load8 m a) = load8 m a.
Proof. apply u8_idemp. Qed.

Lemma load8_store8_eq m a v : load8 (store8 m a v) a = u8 v.
Proof. unfold load8, store8. rewrite lookup_insert_eq. apply u8_idemp. Qed.

Lemma load8_store8_ne m a b v : a <> b -> load8 (store8 m a v) b = load8 m b.
Proof. intros. unfold load8, store8. by rewrite lookup_insert_ne. Qed.

Lemma load8_store8 m a b v :
  load8 (store8 m a v) b = if decide (a = b) then u8 v else load8 m b.
Proof.
  case_decide; subst; [apply load8_store8_eq | by apply load8_store8_ne].
Qed.

#[export] Hint Rewrite u8_load8 load8_store8_eq : xv6.
#[export] Hint Rewrite load8_store8_ne using (lia || congruence) : xv6.

Lemma length_loadn m a n : length (loadn m a n) = n.
Proof. revert a. induction n; simpl; intros; [done|]. by rewrite IHn. Qed.

Lemma lookup_loadn m a n i :
  (i < n)%nat -> loadn m a n !! i = Some (load8 m (a + Z.of_nat i)).
Proof.
  revert a i. induction n as [|n IH]; intros a i Hi; [lia|].
  destruct i as [|i]; simpl.
  - do 2 f_equal. lia.
  - rewrite IH by lia. do 2 f_equal. lia.
Qed.

Lemma loadn_ext m1 m2 a n :
  (forall x, a <= x < a + Z.of_nat n -> load8 m1 x = load8 m2 x) ->
  loadn m1 a n = loadn m2 a n.
Proof.
  revert a. induction n as [|n IH]; intros a H; [done|]. simpl.
  rewrite (H a) by lia. f_equal. apply IH. intros. apply H. lia.
Qed.

Lemma load8_storen m a bs x :
  load8 (storen m a bs) x =
    if decide (a <= x < a + zlen bs) then u8 (nthZ 0 bs (x - a)) else load8 m x.
Proof.
  unfold zlen. revert m a. induction bs as [|b bs IH]; intros m a; simpl.
  - rewrite decide_False by lia. done.
  - rewrite IH. rewrite load8_store8.
    destruct (decide (a = x)) as [->|].
    + rewrite decide_False by lia. rewrite decide_True by lia.
      by replace (x - x) with 0 by lia.
    + repeat case_decide; try lia; try done.
      f_equal. unfold nthZ. destruct (Z.ltb_spec (x - (a + 1)) 0); [lia|].
      destruct (Z.ltb_spec (x - a) 0); [lia|].
      replace (Z.to_nat (x - a)) with (S (Z.to_nat (x - (a + 1)))) by lia. done.
Qed.

Lemma load8_storen_in m a bs x :
  a <= x < a + zlen bs -> load8 (storen m a bs) x = u8 (nthZ 0 bs (x - a)).
Proof. intros. rewrite load8_storen. by rewrite decide_True. Qed.

Lemma load8_storen_out m a bs x :
  ~ (a <= x < a + zlen bs) -> load8 (storen m a bs) x = load8 m x.
Proof. intros. rewrite load8_storen. by rewrite decide_False. Qed.

Lemma length_le_bytes n v : length (le_bytes n v) = n.
Proof. revert v. induction n; simpl; intros; [done|]. by rewrite IHn. Qed.

Lemma le_val_bytes n v : le_val (le_bytes n v) = v mod 2 ^ (8 * Z.of_nat n).
Proof.
  revert v. induction n as [|n IH]; intros v.
  - simpl. by rewrite Z.mod_1_r.
  - cbn [le_bytes le_val]. rewrite IH, u8_idemp.
    replace (8 * Z.of_nat (S n)) with (8 + 8 * Z.of_nat n) by lia.
    rewrite Z.pow_add_r by lia. unfold u8. change (2 ^ 8) with 256.
    rewrite Z.rem_mul_r by (try apply Z.pow_pos_nonneg; lia). lia.
Qed.

Lemma le_val_range bs : 0 <= le_val bs < 2 ^ (8 * zlen bs).
Proof.
  unfold zlen. induction bs as [|b bs IH]; [simpl; lia|].
  cbn [le_val length]. pose proof (u8_range b).
  replace (8 * Z.of_nat (S (length bs))) with (8 + 8 * Z.of_nat (length bs)) by lia.
  rewrite Z.pow_add_r by lia. change (2 ^ 8) with 256. lia.
Qed.

Lemma le_bytes_val bs :
  Forall (fun b => 0 <= b < 256) bs -> le_bytes (length bs) (le_val bs) = bs.
Proof.
  induction 1 as [|b bs Hb _ IH]; [done|]. cbn [length le_bytes le_val].
  rewrite (u8_small b) by done.
  replace ((b + 256 * le_val bs) / 256) with (le_val bs).
  2: { pose proof (le_val_range bs). Z.div_mod_to_equations. lia. }
  rewrite IH. f_equal. unfold u8. change (2 ^ 8) with 256.
  Z.div_mod_to_equations. lia.
Qed.

Lemma loadn_storen m a bs n :
  length bs = n -> loadn (storen m a bs) a n = map u8 bs.
Proof.
  intros <-. apply list_eq_same_length with (length bs);
    rewrite ?length_map, ?length_loadn; try done.
  intros i x y Hi. rewrite lookup_loadn by lia.
  rewrite load8_storen_in by (unfold zlen; lia).
  rewrite list_lookup_fmap. replace (a + Z.of_nat i - a) with (Z.of_nat i) by lia.
  pose proof (lookup_nthZ 0 bs (Z.of_nat i)) as Hl.
  rewrite Nat2Z.id in Hl. rewrite Hl by (unfold zlen; lia). simpl. congruence.
Qed.

Lemma le_val_map_u8 bs : le_val (map u8 bs) = le_val bs.
Proof. induction bs; [done|]. simpl. by rewrite u8_idemp, IHbs. Qed.

Lemma load64_store64_eq m a v : load64 (store64 m a v) a = u64 v.
Proof.
  unfold load64, store64. rewrite loadn_storen by apply length_le_bytes.
  rewrite le_val_map_u8. apply le_val_bytes.
Qed.

Lemma load8_store64_out m a v x :
  ~ (a <= x < a + 8) -> load8 (store64 m a v) x = load8 m x.
Proof. intros. apply load8_storen_out. unfold zlen. by rewrite length_le_bytes. Qed.

Lemma load64_ext m1 m2 a :
  (forall x, a <= x < a + 8 -> load8 m1 x = load8 m2 x) -> load64 m1 a = load64 m2 a.
Proof. intros. unfold load64. f_equal. by apply loadn_ext. Qed.

Lemma load64_store64_ne m a b v :
  a + 8 <= b \/ b + 8 <= a -> load64 (store64 m a v) b = load64 m b.
Proof.
  intros. apply load64_ext. intros. apply load8_store64_out. lia.
Qed.

Lemma load64_range m a : 0 <= load64 m a < 2 ^ 64.
Proof.
  pose proof (le_val_range (loadn m a 8)) as H. unfold zlen in H.
  by rewrite length_loadn in H.
Qed.

Lemma load32_store32_eq m a v : load32 (store32 m a v) a = u32 v.
Proof.
  unfold load32, store32. rewrite loadn_storen by apply length_le_bytes. rewrite le_val_map_u8. apply le_val_bytes.
Qed.

Lemma load8_store32_out m a v x : ~ (a <= x < a + 4) -> load8 (store32 m a v) x = load8 m x.
Proof. intros. apply load8_storen_out. unfold zlen. by rewrite length_le_bytes. Qed.

Lemma load32_ext m1 m2 a : (forall x, a <= x < a + 4 -> load8 m1 x = load8 m2 x) -> load32 m1 a = load32 m2 a.
Proof. intros. unfold load32. f_equal. by apply loadn_ext. Qed.

Lemma load32_range m a : 0 <= load32 m a < 2 ^ 32.
Proof.
  pose proof (le_val_range (loadn m a 4)) as H. unfold zlen in H. by rewrite length_loadn in H.
Qed.

Lemma le_val_zero bs : Forall (fun b => b = 0) bs -> le_val bs = 0.
Proof. induction 1 as [|b bs -> _ IH]; [done|]. simpl. by rewrite IH. Qed.

Lemma load64_zero m a : (forall x, a <= x < a + 8 -> load8 m x = 0) -> load64 m a = 0.
Proof.
  intros H. apply le_val_zero. apply Forall_lookup. intros i b Hb.
  pose proof (lookup_lt_Some _ _ _ Hb) as Hi. rewrite length_loadn in Hi.
  rewrite lookup_loadn in Hb by done. simplify_eq. apply H. lia.
Qed.

(** ** What the memory functions do, byte by byte *)

Lemma load8_memset_loop m cdst c i k x :
  load8 (memset_loop m cdst c i k) x =
    if decide (cdst + i <= x < cdst + i + Z.of_nat k) then u8 c else load8 m x.
Proof.
  revert m i. induction k as [|k IH]; intros m i; simpl.
  - by rewrite decide_False by lia.
  - rewrite IH, load8_store8.
    repeat case_decide; try lia; done.
Qed.

Lemma load8_memset m dst c n x :
  load8 (memset m dst c n) x =
    if decide (dst <= x < dst + n) then u8 c else load8 m x.
Proof.
  unfold memset. rewrite load8_memset_loop. repeat case_decide; try lia; done.
Qed.

Lemma load8_move_up m d s n x :
  (s <= d -> s + Z.of_nat n <= d \/ s = d) ->
  load8 (move_up m d s n) x =
    if decide (d <= x < d + Z.of_nat n) then load8 m (s + (x - d)) else load8 m x.
Proof.
  revert m d s. induction n as [|n IH]; intros m d s H; cbn [move_up].
  - by rewrite decide_False by lia.
  - rewrite IH by lia. rewrite !load8_store8.
    destruct (decide (d = x)) as [->|Hdx].
    + rewrite decide_False by lia. rewrite decide_True by lia.
      rewrite u8_load8. f_equal. lia.
    + repeat case_decide; try lia; try done; f_equal; lia.
Qed.

Lemma load8_move_down m d s n x :
  s <= d ->
  load8 (move_down m d s n) x =
    if decide (d - Z.of_nat n <= x < d) then load8 m (s - (d - x)) else load8 m x.
Proof.
  revert m d s. induction n as [|n IH]; intros m d s H; cbn [move_down].
  - by rewrite decide_False by lia.
  - rewrite IH by lia. rewrite !load8_store8.
    destruct (decide (d - 1 = x)) as [<-|Hdx].
    + rewrite decide_False by lia. rewrite decide_True by lia.
      rewrite u8_load8. f_equal. lia.
    + repeat case_decide; try lia; try done; f_equal; lia.
Qed.

(** The whole specification of [memmove]: whatever the overlap, the
    destination holds what the source held before the call, and nothing else
    changes. *)
Lemma load8_memmove m dst src n x :
  0 <= n ->
  load8 (memmove m dst src n) x =
    if decide (dst <= x < dst + n) then load8 m (src + (x - dst)) else load8 m x.
Proof.
  intros Hn. unfold memmove. destruct (Z.eqb_spec n 0) as [->|].
  { by rewrite decide_False by lia. }
  destruct (Z.ltb_spec src dst), (Z.ltb_spec dst (src + n)); simpl.
  - rewrite load8_move_down by lia. repeat case_decide; try lia; try done.
    f_equal. lia.
  - rewrite load8_move_up by lia. repeat case_decide; try lia; done.
  - rewrite load8_move_up by lia. repeat case_decide; try lia; done.
  - rewrite load8_move_up by lia. repeat case_decide; try lia; done.
Qed.

(** memmove is correct for every overlap of source and destination: the
    destination range holds exactly the bytes the source range held before
    the call, and no byte outside the destination range changes. *)
Theorem memmove_correct (m : mem) (dst src n : Z) :
  0 <= n ->
  loadn (memmove m dst src n) dst (Z.to_nat n) = loadn m src (Z.to_nat n) /\
  (forall x, ~ (dst <= x < dst + n) -> load8 (memmove m dst src n) x = load8 m x).
Proof.
  intros Hn. split.
  - apply list_eq_same_length with (Z.to_nat n); rewrite ?length_loadn; try done.
    intros i x y Hi. rewrite !lookup_loadn by lia.
    rewrite load8_memmove by done. rewrite decide_True by lia.
    replace (dst + Z.of_nat i - dst) with (Z.of_nat i) by lia. congruence.
  - intros x Hx. rewrite load8_memmove by done. by rewrite decide_False.
Qed.

Lemma memmove_correct_witness :
  let m := storen ∅ 100 [1; 2; 3; 4; 5] in
  0 <= 4 /\ loadn (memmove m 101 100 4) 101 4 = [1; 2; 3; 4].
Proof.
  split; [lia|].
  rewrite (proj1 (memmove_correct (storen ∅ 100 [1; 2; 3; 4; 5]) 101 100 4 ltac:(lia))).
  vm_compute. reflexivity.
Defined.

Lemma memcmp_zero m v1 v2 n :
  memcmp m v1 v2 n = 0 <-> loadn m v1 (Z.to_nat n) = loadn m v2 (Z.to_nat n).
Proof.
  unfold memcmp. generalize (Z.to_nat n) as k. intros k. revert v1 v2.
  induction k as [|k IH]; intros; simpl; [done|].
  destruct (Z.eqb_spec (load8 m v1) (load8 m v2)) as [->|].
  - rewrite IH. split; [by intros ->|]. by intros [=].
  - split; [lia|]. intros [=]. lia.
Qed.

(** ** What the string functions do *)

Lemma cstr_app_nul s t : Forall (fun c => c <> 0) s -> cstr (s ++ 0 :: t) = s.
Proof.
  induction 1 as [|c s Hc _ IH]; [done|]. simpl.
  destruct (Z.eqb_spec c 0); [done|]. by rewrite IH.
Qed.

Lemma cstr_nonzero s : Forall (fun c => c <> 0) (cstr s).
Proof.
  induction s as [|c s IH]; simpl; [constructor|].
  destruct (Z.eqb_spec c 0); constructor; done.
Qed.

Lemma strlen_cstr s : strlen s = zlen (cstr s).
Proof.
  unfold zlen. induction s as [|c s IH]; simpl; [done|].
  destruct (c =? 0); [done|]. cbn [length]. lia.
Qed.

(** Two strings compare equal exactly when they agree on their first [n]
    characters. *)
Lemma strncmp_zero p q n :
  strncmp p q n = 0 <-> take n (cstr p) = take n (cstr q).
Proof.
  revert p q. induction n as [|n IH]; intros p q; [done|].
  cbn [strncmp]. destruct p as [|c p], q as [|d q]; simpl.
  - done.
  - destruct (Z.eqb_spec d 0); simpl; split; intros; try lia; done.
  - destruct (Z.eqb_spec c 0) as [->|]; simpl; [done|].
    destruct (Z.eqb_spec c 0); simpl; [lia|]. split; intros; [lia|done].
  - destruct (Z.eqb_spec c 0) as [->|Hc]; simpl.
    + destruct (Z.eqb_spec d 0); simpl; split; intros; try lia; done.
    + destruct (Z.eqb_spec c d) as [->|Hcd]; simpl.
      * destruct (Z.eqb_spec d 0); [done|]. simpl. rewrite IH.
        split; [by intros ->|by intros [=]].
      * destruct (Z.eqb_spec d 0); simpl; split; intros H; try lia; naive_solver.
Qed.

Lemma length_strncpy t n : length (strncpy t n) = n.
Proof.
  revert t. induction n as [|n IH]; intros t; simpl; [done|].
  destruct (chr t =? 0); simpl; [by rewrite repeat_length|by rewrite IH].
Qed.

Lemma cstr_repeat0 n : cstr (repeat 0 n) = [].
Proof. by destruct n. Qed.

Lemma cstr_strncpy t n : cstr (strncpy t n) = take n (cstr t).
Proof.
  revert t. induction n as [|n IH]; intros t; simpl; [done|].
  destruct t as [|c t]; simpl; [done|].
  destruct (Z.eqb_spec c 0) as [->|]; simpl; [done|].
  destruct (Z.eqb_spec c 0); [done|]. by rewrite IH.
Qed.

Lemma safestrcpy_loop_spec t k :
  (length (safestrcpy_loop t k) <= k)%nat /\
  cstr (safestrcpy_loop t k ++ [0]) = take k (cstr t).
Proof.
  revert t. induction k as [|k IH]; intros t; simpl; [done|].
  destruct t as [|c t]; simpl.
  { split; [lia|done]. }
  destruct (Z.eqb_spec c 0) as [->|Hc]; simpl; [split; [lia|done]|].
  destruct (IH t) as [Hl Hs]. destruct (Z.eqb_spec c 0); [done|].
  split; [lia|]. by rewrite Hs.
Qed.

(** safestrcpy into an array of n > 0 bytes writes at most n bytes,
    always leaves a NUL-terminated string there, and that string is the
    source truncated to n - 1 characters; for n <= 0 it writes nothing. *)
Theorem safestrcpy_bounded (t : list Z) (n : Z) :
  zlen (safestrcpy t n) <= Z.max 0 n /\
  (0 < n ->
   last (safestrcpy t n) = Some 0 /\
   cstr (safestrcpy t n) = take (Z.to_nat (n - 1)) (cstr t)).
Proof.
  unfold safestrcpy. destruct (Z.leb_spec n 0).
  { split; [unfold zlen; simpl; lia|lia]. }
  destruct (safestrcpy_loop_spec t (Z.to_nat (n - 1))) as [Hl Hs].
  split.
  - unfold zlen. rewrite length_app. simpl. lia.
  - intros _. split; [apply last_snoc|done].
Qed.

Lemma safestrcpy_bounded_witness :
  last (safestrcpy [105; 110; 105; 116] 3) = Some 0 /\
  cstr (safestrcpy [105; 110; 105; 116] 3) = [105; 110].
Proof.
  destruct (proj2 (safestrcpy_bounded [105; 110; 105; 116] 3) ltac:(lia)) as [H1 H2].
  split; [exact H1|]. rewrite H2. reflexivity.
Defined.

(** Clients use the lemmas above, not the loops. *)
#[global] Opaque load64 store64 load32 store32 memset memmove memcmp.
