(* ===== verification/Riscv.v ===== *)
(** * kernel/riscv.h and kernel/memlayout.h

    The page and page-table-entry macros, the address-space constants, and the
    arithmetic facts about them that the allocator and the page-table code
    rely on. *)

From Stdlib Require Import ZArith Lia.
From stdpp Require Import base numbers list list_numbers gmap strings.
From S2P Require Import Prelude.

(** ** kernel/riscv.h *)

Definition PGSIZE : Z := 4096.
Definition PGSHIFT : Z := 12.

Definition PGROUNDUP (sz : Z) : Z := Z.land (u64 (sz + PGSIZE - 1)) (u64 (Z.lnot (PGSIZE - 1))).
Definition PGROUNDDOWN (a : Z) : Z := Z.land a (u64 (Z.lnot (PGSIZE - 1))).

Definition PTE_V : Z := Z.shiftl 1 0.
Definition PTE_R : Z := Z.shiftl 1 1.
Definition PTE_W : Z := Z.shiftl 1 2.
Definition PTE_X : Z := Z.shiftl 1 3.
Definition PTE_U : Z := Z.shiftl 1 4.

Definition PA2PTE (pa : Z) : Z := u64 (Z.shiftl (Z.shiftr pa 12) 10).
Definition PTE2PA (pte : Z) : Z := u64 (Z.shiftl (Z.shiftr pte 10) 12).
Definition PTE_FLAGS (pte : Z) : Z := Z.land pte 0x3FF.

Definition PXMASK : Z := 0x1FF.
Definition PXSHIFT (level : Z) : Z := PGSHIFT + 9 * level.
Definition PX (level va : Z) : Z := Z.land (Z.shiftr va (PXSHIFT level)) PXMASK.

Definition MAXVA : Z := Z.shiftl 1 (9 + 9 + 9 + 12 - 1).

Definition SATP_SV39 : Z := Z.shiftl 8 60.
Definition MAKE_SATP (pagetable : Z) : Z := Z.lor SATP_SV39 (Z.shiftr pagetable 12).

(** ** kernel/memlayout.h *)

Definition UART0 : Z := 0x10000000.
Definition UART0_IRQ : Z := 10.
Definition VIRTIO0 : Z := 0x10001000.
Definition VIRTIO0_IRQ : Z := 1.
Definition PLIC : Z := 0x0c000000.
Definition KERNBASE : Z := 0x80000000.
Definition PHYSTOP : Z := KERNBASE + 128 * 1024 * 1024.
Definition TRAMPOLINE : Z := MAXVA - PGSIZE.
Definition KSTACK (p : Z) : Z := TRAMPOLINE - (p + 1) * 2 * PGSIZE.
Definition TRAPFRAME : Z := TRAMPOLINE - PGSIZE.

(** ** Rounding *)

(** Two's complement: [Z.lnot (PGSIZE - 1)] at 64 bits is 52 ones above 12 zeros. *)
Lemma page_mask_shift : u64 (Z.lnot (PGSIZE - 1)) = Z.shiftl (Z.ones 52) 12.
Proof. reflexivity. Qed.

Lemma testbit_above n p i : 0 <= n < 2 ^ p -> 0 <= p <= i -> Z.testbit n i = false.
Proof.
  intros [H0 H] Hp. destruct (Z.eq_dec n 0) as [->|]; [apply Z.testbit_0_l|].
  apply Z.bits_above_log2; [done|]. apply Z.log2_lt_pow2; [lia|].
  eapply Z.lt_le_trans; [done|]. apply Z.pow_le_mono_r; lia.
Qed.

Lemma land_page_mask a :
  0 <= a < 2 ^ 64 -> Z.land a (u64 (Z.lnot (PGSIZE - 1))) = a / 4096 * 4096.
Proof.
  intros Ha. rewrite page_mask_shift.
  change 4096 with (2 ^ 12). rewrite <- Z.shiftr_div_pow2, <- Z.shiftl_mul_pow2 by lia.
  apply Z.bits_inj'. intros i Hi. rewrite Z.land_spec.
  destruct (Z.lt_ge_cases i 12).
  - rewrite !Z.shiftl_spec_low by lia. apply andb_false_r.
  - rewrite !Z.shiftl_spec by lia. rewrite Z.shiftr_spec by lia.
    replace (i - 12 + 12) with i by lia.
    destruct (Z.lt_ge_cases i 64).
    + rewrite Z.ones_spec_low by lia. apply andb_true_r.
    + by rewrite (testbit_above a 64) by lia.
Qed.

Lemma PGROUNDDOWN_eq a : 0 <= a < 2 ^ 64 -> PGROUNDDOWN a = a / 4096 * 4096.
Proof. apply land_page_mask. Qed.

Lemma PGROUNDUP_eq a :
  0 <= a <= 2 ^ 64 - 4096 -> PGROUNDUP a = (a + 4095) / 4096 * 4096.
Proof.
  change (2 ^ 64) with 18446744073709551616. intros Ha.
  unfold PGROUNDUP. rewrite land_page_mask by apply u64_range.
  rewrite u64_small by (unfold PGSIZE; word). unfold PGSIZE.
  by replace (a + 4096 - 1) with (a + 4095) by lia.
Qed.

Lemma PGROUNDDOWN_aligned a : 0 <= a < 2 ^ 64 -> PGROUNDDOWN a mod 4096 = 0.
Proof. intros. rewrite PGROUNDDOWN_eq by done. apply Z.mod_mul. lia. Qed.

Lemma PGROUNDUP_aligned a : 0 <= a <= 2 ^ 64 - 4096 -> PGROUNDUP a mod 4096 = 0.
Proof. intros. rewrite PGROUNDUP_eq by done. apply Z.mod_mul. lia. Qed.

(** ** Page-table entries *)

Lemma land_shift_mask a s w : 0 <= s -> 0 <= w ->
  Z.land (Z.shiftr a s) (Z.ones w) = (a / 2 ^ s) mod 2 ^ w.
Proof. intros. rewrite Z.land_ones by done. by rewrite Z.shiftr_div_pow2. Qed.

Lemma PX_eq level va :
  0 <= level -> PX level va = (va / 2 ^ (12 + 9 * level)) mod 512.
Proof.
  intros. unfold PX, PXSHIFT, PGSHIFT, PXMASK. change 0x1FF with (Z.ones 9).
  rewrite land_shift_mask by lia. done.
Qed.

Lemma PX_range level va : 0 <= level -> 0 <= PX level va < 512.
Proof. intros. rewrite PX_eq by done. apply Z.mod_pos_bound. lia. Qed.

Lemma PTE_FLAGS_eq pte : PTE_FLAGS pte = pte mod 1024.
Proof. unfold PTE_FLAGS. change 0x3FF with (Z.ones 10). by rewrite Z.land_ones by lia. Qed.

Lemma PTE2PA_eq pte : 0 <= pte < 2 ^ 54 -> PTE2PA pte = pte / 1024 * 4096.
Proof.
  change (2 ^ 54) with 18014398509481984.
  intros. unfold PTE2PA. rewrite Z.shiftr_div_pow2, Z.shiftl_mul_pow2 by lia.
  change (2 ^ 10) with 1024. change (2 ^ 12) with 4096. apply u64_small. word.
Qed.

Lemma PA2PTE_eq pa : 0 <= pa < 2 ^ 56 -> PA2PTE pa = pa / 4096 * 1024.
Proof.
  change (2 ^ 56) with 72057594037927936.
  intros. unfold PA2PTE. rewrite Z.shiftr_div_pow2, Z.shiftl_mul_pow2 by lia.
  change (2 ^ 10) with 1024. change (2 ^ 12) with 4096. apply u64_small. word.
Qed.

(** [lor] of a multiple of a power of two and a smaller number is a sum. *)
Lemma lor_add_disjoint a b n :
  0 <= n -> 0 <= b < 2 ^ n -> Z.lor (a * 2 ^ n) b = a * 2 ^ n + b.
Proof.
  intros Hn Hb.
  assert (Hland : Z.land (a * 2 ^ n) b = 0).
  { apply Z.bits_inj'. intros i Hi. rewrite Z.land_spec, Z.testbit_0_l.
    destruct (Z.lt_ge_cases i n).
    - by rewrite <- Z.shiftl_mul_pow2, Z.shiftl_spec_low by lia.
    - rewrite (testbit_above b n) by lia. apply andb_false_r. }
  rewrite <- Z.lxor_lor by done. symmetry. by apply Z.add_nocarry_lxor.
Qed.

Section Pte.
Context (pa perm : Z).
Hypothesis Hpa : 0 <= pa < 2 ^ 56.
Hypothesis Halign : pa mod 4096 = 0.
Hypothesis Hperm : 0 <= perm < 1024.

(** [PA2PTE(pa) | perm], as mappages() and walk() write it. *)
Definition mk_pte : Z := Z.lor (PA2PTE pa) perm.

Lemma mk_pte_eq : mk_pte = pa / 4 + perm.
Proof.
  unfold mk_pte. rewrite PA2PTE_eq by done. change 1024 with (2 ^ 10).
  rewrite lor_add_disjoint by (try done; lia). change (2 ^ 10) with 1024.
  change (2 ^ 56) with 72057594037927936 in *. Z.div_mod_to_equations. lia.
Qed.

Lemma mk_pte_range : 0 <= mk_pte < 2 ^ 54.
Proof.
  rewrite mk_pte_eq. change (2 ^ 54) with 18014398509481984.
  change (2 ^ 56) with 72057594037927936 in *. Z.div_mod_to_equations. lia.
Qed.

Lemma PTE2PA_mk_pte : PTE2PA mk_pte = pa.
Proof.
  rewrite PTE2PA_eq by apply mk_pte_range. rewrite mk_pte_eq.
  change (2 ^ 56) with 72057594037927936 in *. Z.div_mod_to_equations. lia.
Qed.

Lemma PTE_FLAGS_mk_pte : PTE_FLAGS mk_pte = perm.
Proof.
  rewrite PTE_FLAGS_eq, mk_pte_eq.
  change (2 ^ 56) with 72057594037927936 in *. Z.div_mod_to_equations. lia.
Qed.
End Pte.

(** [x & f] as a C condition. *)
Definition has (x f : Z) : bool := negb (Z.land x f =? 0).

Lemma has_pow2 x k : 0 <= k -> has x (Z.shiftl 1 k) = Z.testbit x k.
Proof.
  intros Hk. unfold has. rewrite Z.shiftl_1_l.
  destruct (Z.testbit x k) eqn:E.
  - destruct (Z.eqb_spec (Z.land x (2 ^ k)) 0) as [H|]; [|done].
    apply (f_equal (fun z => Z.testbit z k)) in H.
    rewrite Z.land_spec, Z.pow2_bits_true, E, Z.testbit_0_l in H by done. done.
  - replace (Z.land x (2 ^ k)) with 0; [done|]. symmetry.
    apply Z.bits_inj'. intros i Hi. rewrite Z.land_spec, Z.testbit_0_l.
    destruct (Z.eq_dec i k) as [->|]; [by rewrite E|].
    rewrite Z.pow2_bits_false by done. apply andb_false_r.
Qed.

Lemma has_V_flags x y :
  PTE_FLAGS x = PTE_FLAGS y -> has x PTE_V = has y PTE_V.
Proof.
  rewrite !PTE_FLAGS_eq. intros H. unfold PTE_V. rewrite !has_pow2 by lia.
  rewrite <- (Z.mod_pow2_bits_low x 10 0), <- (Z.mod_pow2_bits_low y 10 0) by lia.
  change (2 ^ 10) with 1024. by rewrite H.
Qed.

Lemma has_lor x y f : has (Z.lor x y) f = has x f || has y f.
Proof.
  unfold has. rewrite Z.land_lor_distr_l.
  destruct (Z.eqb_spec (Z.land x f) 0) as [->|Hx].
  - by rewrite Z.lor_0_l.
  - simpl. destruct (Z.eqb_spec (Z.lor (Z.land x f) (Z.land y f)) 0) as [H|]; [|done].
    by apply Z.lor_eq_0_l in H.
Qed.

Lemma has_0 f : has 0 f = false.
Proof. unfold has. by rewrite Z.land_0_l. Qed.

(** Three page-table indices and the page offset determine a virtual address. *)
Lemma va_split va :
  0 <= va < MAXVA ->
  va = PX 2 va * 2 ^ 30 + PX 1 va * 2 ^ 21 + PX 0 va * 2 ^ 12 + va mod 4096.
Proof.
  change MAXVA with 274877906944. intros. rewrite !PX_eq by lia.
  change (2 ^ (12 + 9 * 2)) with 1073741824. change (2 ^ (12 + 9 * 1)) with 2097152.
  change (2 ^ (12 + 9 * 0)) with 4096. change (2 ^ 30) with 1073741824.
  change (2 ^ 21) with 2097152. change (2 ^ 12) with 4096.
  Z.div_mod_to_equations. lia.
Qed.

Lemma va_page_inj va va' :
  0 <= va < MAXVA -> 0 <= va' < MAXVA ->
  PX 2 va = PX 2 va' -> PX 1 va = PX 1 va' -> PX 0 va = PX 0 va' ->
  va / 4096 = va' / 4096.
Proof.
  intros H H' E2 E1 E0. pose proof (va_split va H) as S. pose proof (va_split va' H') as S'.
  rewrite E2, E1, E0 in S. change (2 ^ 30) with 1073741824 in *.
  change (2 ^ 21) with 2097152 in *. change (2 ^ 12) with 4096 in *.
  Z.div_mod_to_equations. lia.
Qed.

Lemma PX_MAXVA va : 0 <= va < MAXVA -> 0 <= PX 2 va < 256.
Proof.
  change MAXVA with (256 * 2 ^ 30). intros. rewrite PX_eq by lia. change (12 + 9 * 2) with 30.
  rewrite Z.mod_small; (split; [apply Z.div_pos; lia|]); (apply Z.div_lt_upper_bound; lia).
Qed.

Lemma PX_page level va :
  0 <= level -> PX level (va / 4096 * 4096) = PX level va.
Proof.
  intros. rewrite !PX_eq by done. f_equal.
  rewrite Z.pow_add_r by lia. change (2 ^ 12) with 4096.
  assert (0 < 2 ^ (9 * level)) by (apply Z.pow_pos_nonneg; lia).
  rewrite <- !Z.div_div by lia. by rewrite Z.div_mul by lia.
Qed.

Lemma lor_bound a b n :
  0 <= n -> 0 <= a < 2 ^ n -> 0 <= b < 2 ^ n -> 0 <= Z.lor a b < 2 ^ n.
Proof.
  intros Hn Ha Hb. assert (0 <= Z.lor a b) by (apply Z.lor_nonneg; lia).
  split; [done|]. destruct (Z.eq_dec (Z.lor a b) 0) as [->|]; [lia|].
  apply Z.log2_lt_pow2; [lia|]. rewrite Z.log2_lor by lia.
  assert (forall z, 0 <= z < 2 ^ n -> z = 0 \/ Z.log2 z < n) as Hl.
  { intros z Hz. destruct (Z.eq_dec z 0); [by left|right]. apply Z.log2_lt_pow2; lia. }
  destruct (Hl a Ha) as [->|Hla], (Hl b Hb) as [->|Hlb].
  - done.
  - rewrite Z.max_r; [done|]. apply Z.log2_nonneg.
  - rewrite Z.max_l; [done|]. apply Z.log2_nonneg.
  - lia.
Qed.
