(* ===== verification/Kalloc.v ===== *)
(** * kernel/kalloc.c: the physical page allocator

    The free list is the one of the code: it is threaded through the free
    pages themselves ([struct run]), so a page's first eight bytes in
    [phys] hold the address of the next free page.  [kend] stands for the
    linker symbol [end]. *)

From Stdlib Require Import ZArith Lia.
From stdpp Require Import base numbers list list_numbers gmap strings sorting.
From S2P Require Import Prelude Cstring Riscv.

(** Physical memory, [kmem.freelist] and [kmem.lock]. *)
Record kmem := Kmem { phys : mem; freelist : Z; klock : bool }.

Definition set_phys (m : mem) (s : kmem) : kmem := Kmem m (freelist s) (klock s).
Definition set_freelist (p : Z) (s : kmem) : kmem := Kmem (phys s) p (klock s).
Definition set_klock (b : bool) (s : kmem) : kmem := Kmem (phys s) (freelist s) b.

(** [memset], [memmove] and word access on the memory of the state. *)
Definition k_memset (dst c n : Z) : M kmem unit :=
  modify (fun s => set_phys (memset (phys s) dst c n) s).
Definition k_memmove (dst src n : Z) : M kmem unit :=
  modify (fun s => set_phys (memmove (phys s) dst src n) s).
Definition k_load64 (a : Z) : M kmem Z := gets (fun s => load64 (phys s) a).
Definition k_store64 (a v : Z) : M kmem unit :=
  modify (fun s => set_phys (store64 (phys s) a v) s).

Definition kacquire : M kmem unit := lk_acquire klock set_klock.
Definition krelease : M kmem unit := lk_release klock set_klock.

Section Kalloc.
Context (kend : Z).

Definition kfree (pa : Z) : M kmem unit :=
  if negb (pa mod PGSIZE =? 0) || (pa <? kend) || (PHYSTOP <=? pa)
  then panic "kfree"
  else
    k_memset pa 1 PGSIZE ;;
    kacquire ;;
    let* next := gets freelist in
    k_store64 pa next ;;
    modify (set_freelist pa) ;;
    krelease.

Definition kalloc : M kmem Z :=
  kacquire ;;
  let* r := gets freelist in
  (if r =? 0 then ret tt
   else let* next := k_load64 r in modify (set_freelist next)) ;;
  krelease ;;
  (if r =? 0 then ret tt else k_memset r 5 PGSIZE) ;;
  ret r.

Fixpoint freerange_loop (fuel : nat) (p pa_end : Z) : M kmem unit :=
  match fuel with
  | O => panic "freerange: fuel"
  | S k =>
      if p + PGSIZE <=? pa_end
      then kfree p ;; freerange_loop k (p + PGSIZE) pa_end
      else ret tt
  end.

(** One more iteration than pages fit in the range. *)
Definition freerange (pa_start pa_end : Z) : M kmem unit :=
  let p := PGROUNDUP pa_start in
  freerange_loop (S (Z.to_nat ((pa_end - p) / PGSIZE))) p pa_end.

Definition kinit : M kmem unit :=
  modify (set_klock false) ;; freerange kend PHYSTOP.

(** ** The free list as a list of pages *)

Definition page_ok (p : Z) : Prop := p mod 4096 = 0 /\ kend <= p < PHYSTOP.

Definition in_page (p x : Z) : Prop := p <= x < p + 4096.

Fixpoint flist (m : mem) (head : Z) (l : list Z) : Prop :=
  match l with
  | [] => head = 0
  | p :: l' => head = p /\ page_ok p /\ flist m (load64 m p) l'
  end.

Definition kwf (s : kmem) (l : list Z) : Prop :=
  flist (phys s) (freelist s) l /\ NoDup l /\ klock s = false.

Hypothesis Hkend : KERNBASE <= kend.

Lemma page_ok_pos p : page_ok p -> 0 < p < 2 ^ 56.
Proof.
  unfold page_ok. unfold PHYSTOP, KERNBASE in *. change (2 ^ 56) with 72057594037927936. lia.
Qed.

Lemma flist_page_ok m h l p : flist m h l -> p ∈ l -> page_ok p.
Proof.
  revert h. induction l as [|q l IH]; simpl; intros h Hf Hp; [by apply elem_of_nil in Hp|].
  destruct Hf as (-> & Hq & Hf). apply elem_of_cons in Hp as [->|Hp]; [done|eauto].
Qed.

(** Distinct pages do not overlap. *)
Lemma page_disjoint p q x :
  page_ok p -> page_ok q -> in_page p x -> in_page q x -> p = q.
Proof. unfold page_ok, in_page. intros. Z.div_mod_to_equations. lia. Qed.

Lemma flist_frame m m' h l :
  flist m h l ->
  (forall p x, p ∈ l -> in_page p x -> load8 m' x = load8 m x) ->
  flist m' h l.
Proof.
  revert h. induction l as [|q l IH]; simpl; intros h Hf Heq; [done|].
  destruct Hf as (-> & Hq & Hf). split; [done|]. split; [done|].
  assert (Hload : load64 m' q = load64 m q).
  { apply load64_ext. intros x Hx. apply (Heq q); [left|unfold in_page; lia]. }
  rewrite Hload. apply IH; [done|]. intros. apply (Heq p); [by right|done].
Qed.

Lemma kwf_phys_frame s m l :
  kwf s l ->
  (forall p x, p ∈ l -> in_page p x -> load8 m x = load8 (phys s) x) ->
  kwf (set_phys m s) l.
Proof.
  intros (Hf & Hnd & Hlk) Heq. split; [|done]. by apply (flist_frame (phys s)).
Qed.

(** ** Operations on the list *)

Lemma kalloc_nil s : kwf s [] -> kalloc s = Ret 0 s.
Proof.
  destruct s as [m fl lk]. intros (Hf & _ & Hlk). simpl in *. subst. reflexivity.
Qed.

Lemma kalloc_cons s p l :
  kwf s (p :: l) ->
  exists s', kalloc s = Ret p s' /\ kwf s' l /\ page_ok p /\ p ∉ l /\
    (forall x, load8 (phys s') x =
       if decide (in_page p x) then 5 else load8 (phys s) x).
Proof.
  destruct s as [m fl lk]. intros (Hf & Hnd & Hlk). simpl in *. subst.
  destruct Hf as (-> & Hp & Hf). apply NoDup_cons in Hnd as [Hni Hnd].
  pose proof (page_ok_pos p Hp).
  eexists. split; [|split; [|split; [done|split; [done|]]]].
  - unfold kalloc, kacquire, krelease, lk_acquire, lk_release, k_load64, k_memset.
    unfold bind, gets, modify, ret, set_freelist, set_klock, set_phys. simpl.
    destruct (Z.eqb_spec p 0); [lia|]. reflexivity.
  - split; [|done]. simpl. apply (flist_frame m); [done|].
    intros q x Hq Hx. rewrite load8_memset. rewrite decide_False; [done|].
    intros Hpx. assert (p = q); [|by subst].
    apply (page_disjoint p q x); [done|by eapply flist_page_ok|done|done].
  - intros x. simpl. rewrite load8_memset. unfold in_page.
    change (u8 5) with 5. done.
Qed.

Lemma kfree_cons s p l :
  kwf s l -> page_ok p -> p ∉ l ->
  exists s', kfree p s = Ret tt s' /\ kwf s' (p :: l) /\
    (forall x, ~ in_page p x -> load8 (phys s') x = load8 (phys s) x).
Proof.
  destruct s as [m fl lk]. intros (Hf & Hnd & Hlk) Hp Hni. simpl in *. subst.
  eexists. split; [|split].
  - unfold kfree. destruct Hp as [Ha Hr]. unfold PGSIZE. rewrite Ha.
    destruct (Z.ltb_spec p kend), (Z.leb_spec PHYSTOP p); simpl; try lia.
    reflexivity.
  - assert (Hout : forall q x, q ∈ l -> in_page q x -> ~ in_page p x).
    { intros q x Hq Hqx Hpx. assert (p = q); [|by subst].
      apply (page_disjoint p q x); [done|by eapply flist_page_ok|done|done]. }
    split; [|split; [by constructor|done]]. simpl.
    split; [done|]. split; [done|]. rewrite load64_store64_eq.
    assert (u64 fl = fl) as ->.
    { apply u64_small. destruct l as [|q l]; simpl in Hf; [subst; done|].
      destruct Hf as (-> & Hq & _). apply page_ok_pos in Hq.
      change (2 ^ 56) with 72057594037927936 in Hq.
      change (2 ^ 64) with 18446744073709551616. lia. }
    apply (flist_frame m); [done|]. intros q x Hq Hqx.
    specialize (Hout q x Hq Hqx). unfold in_page in Hout.
    rewrite load8_store64_out by lia. rewrite load8_memset.
    by rewrite decide_False by (unfold PGSIZE; lia).
  - intros x Hx. unfold in_page in Hx. simpl. rewrite load8_store64_out by lia.
    rewrite load8_memset. by rewrite decide_False by (unfold PGSIZE; lia).
Qed.

Lemma kfree_bad_panics s pa : ~ page_ok pa -> exists s', kfree pa s = Panic "kfree" s'.
Proof.
  unfold page_ok, kfree, PGSIZE. intros H.
  destruct (Z.eqb_spec (pa mod 4096) 0), (Z.ltb_spec pa kend), (Z.leb_spec PHYSTOP pa);
    simpl; unfold panic; eauto. exfalso. apply H. lia.
Qed.

(** ** Initialisation *)

(** The pages of [start, stop), in the order freerange() pushes them. *)
Definition range_pages (start stop : Z) : list Z :=
  (fun i => start + 4096 * i) <$> seqZ 0 ((stop - start) / 4096).

Lemma elem_of_range_pages p start stop :
  p ∈ range_pages start stop <->
  exists i, p = start + 4096 * i /\ 0 <= i < (stop - start) / 4096.
Proof.
  unfold range_pages. rewrite list_elem_of_fmap. setoid_rewrite elem_of_seqZ.
  split; intros (i & Hi & Hr); exists i; (split; [done|lia]).
Qed.

Lemma range_pages_cons start stop :
  start + 4096 <= stop ->
  range_pages start stop = start :: range_pages (start + 4096) stop.
Proof.
  intros. unfold range_pages. rewrite seqZ_cons by (Z.div_mod_to_equations; lia).
  rewrite fmap_cons. f_equal; [lia|].
  replace ((stop - (start + 4096)) / 4096) with (Z.pred ((stop - start) / 4096))
    by (Z.div_mod_to_equations; lia).
  change (Z.succ 0) with (1 + 0). rewrite <- fmap_add_seqZ, <- list_fmap_compose.
  apply list_fmap_ext. intros _ i _. simpl. lia.
Qed.

Lemma range_pages_nil start stop : stop < start + 4096 -> range_pages start stop = [].
Proof.
  intros. unfold range_pages. rewrite seqZ_nil; [done|]. Z.div_mod_to_equations. lia.
Qed.

Lemma freerange_loop_spec fuel p pa_end s l :
  (Z.to_nat ((pa_end - p) / 4096) < fuel)%nat ->
  kwf s l -> p mod 4096 = 0 -> kend <= p -> pa_end <= PHYSTOP ->
  (forall q, q ∈ l -> q < p) ->
  exists s', freerange_loop fuel p pa_end s = Ret tt s' /\
    kwf s' (reverse (range_pages p pa_end) ++ l).
Proof.
  revert p s l. induction fuel as [|k IH]; intros p s l Hfuel Hwf Ha Hp Hend Hlt; [lia|].
  simpl. change PGSIZE with 4096. destruct (Z.leb_spec (p + 4096) pa_end) as [Hle|Hgt].
  - assert (Hok : page_ok p) by (split; [done|lia]).
    assert (Hni : p ∉ l) by (intros Hin; specialize (Hlt p Hin); lia).
    destruct (kfree_cons s p l Hwf Hok Hni) as (s1 & E1 & Hwf1 & _).
    destruct (IH (p + 4096) s1 (p :: l)) as (s2 & E2 & Hwf2).
    + revert Hfuel. clear -Hle. Z.div_mod_to_equations. lia.
    + done.
    + revert Ha. clear. Z.div_mod_to_equations. lia.
    + lia.
    + done.
    + intros q Hq. apply elem_of_cons in Hq as [->|Hq]; [lia|].
      specialize (Hlt q Hq). lia.
    + exists s2. split; [by erewrite bind_Ret|].
      rewrite range_pages_cons by lia. rewrite reverse_cons, <- app_assoc. done.
  - exists s. rewrite range_pages_nil by lia. done.
Qed.

(** C24: kinit() from any memory builds a well-formed free list holding
    every page frame between [end] rounded up and PHYSTOP exactly once,
    and terminates without panic. *)
Theorem kinit_all_pages (s : kmem) :
  kend <= PHYSTOP -> freelist s = 0 ->
  exists s', kinit s = Ret tt s' /\
    kwf s' (reverse (range_pages (PGROUNDUP kend) PHYSTOP)).
Proof.
  intros Hk Hf.
  assert (Hr : 0 <= kend <= 2 ^ 64 - 4096).
  { unfold PHYSTOP, KERNBASE in *. change (2 ^ 64) with 18446744073709551616. lia. }
  destruct (freerange_loop_spec (S (Z.to_nat ((PHYSTOP - PGROUNDUP kend) / 4096)))
              (PGROUNDUP kend) PHYSTOP (set_klock false s) []) as (s' & E & Hwf).
  - lia.
  - split; [done|]. split; [constructor|done].
  - by apply PGROUNDUP_aligned.
  - rewrite PGROUNDUP_eq by done. Z.div_mod_to_equations. lia.
  - lia.
  - intros q Hq. by apply elem_of_nil in Hq.
  - exists s'. split; [|by rewrite app_nil_r in Hwf]. exact E.
Qed.

(** ** Clients

    A run of the allocator with its clients: [held] are the pages handed
    out and not yet freed; a client may write anything to a page it holds. *)
Inductive kstep : kmem * list Z -> kmem * list Z -> Prop :=
| kstep_alloc s s' held p :
    kalloc s = Ret p s' -> p <> 0 -> kstep (s, held) (s', p :: held)
| kstep_nomem s s' held :
    kalloc s = Ret 0 s' -> kstep (s, held) (s', held)
| kstep_free s s' h1 p h2 :
    kfree p s = Ret tt s' -> kstep (s, h1 ++ p :: h2) (s', h1 ++ h2)
| kstep_write s m held p :
    p ∈ held -> (forall x, ~ in_page p x -> load8 m x = load8 (phys s) x) ->
    kstep (s, held) (set_phys m s, held).

Definition kinv (pages : list Z) (c : kmem * list Z) : Prop :=
  exists l, kwf (fst c) l /\ l ++ snd c ≡ₚ pages.

Lemma kstep_inv pages c c' :
  NoDup pages -> (forall p, p ∈ pages -> page_ok p) ->
  kstep c c' -> kinv pages c -> kinv pages c'.
Proof.
  intros Hnd Hok Hstep (l & Hwf & Hperm). simpl in *.
  assert (Hnd' : NoDup (l ++ snd c)) by (by rewrite Hperm).
  assert (Hok' : forall p, p ∈ l ++ snd c -> page_ok p).
  { intros p Hp. apply Hok. by rewrite <- Hperm. }
  destruct Hstep as [s s' held p E Hp|s s' held E|s s' h1 p h2 E|s m held p Hp Hm]; simpl in *.
  - destruct l as [|q l].
    { rewrite kalloc_nil in E by done. congruence. }
    destruct (kalloc_cons s q l Hwf) as (s1 & E1 & Hwf1 & _). rewrite E1 in E.
    simplify_eq. exists l. split; [done|]. simpl. rewrite <- Hperm. simpl.
    by rewrite Permutation_middle.
  - destruct l as [|q l].
    { rewrite kalloc_nil in E by done. simplify_eq. by exists []. }
    destruct (kalloc_cons s q l Hwf) as (s1 & E1 & _ & Hq & _). rewrite E1 in E.
    simplify_eq. apply page_ok_pos in Hq. lia.
  - assert (Hpl : p ∉ l).
    { intros Hin. apply NoDup_app in Hnd' as (_ & Hdis & _).
      apply (Hdis p Hin). set_solver. }
    destruct (kfree_cons s p l Hwf (Hok' p ltac:(set_solver)) Hpl) as (s1 & E1 & Hwf1 & _).
    rewrite E1 in E. simplify_eq. exists (p :: l). split; [done|]. simpl.
    rewrite <- Hperm. rewrite !(Permutation_app_comm l). simpl. rewrite <- !app_assoc.
    simpl. by rewrite (Permutation_middle h1).
  - exists l. split; [|done]. apply kwf_phys_frame; [done|].
    intros q x Hq Hx. apply Hm. intros Hpx.
    assert (p = q).
    { apply (page_disjoint p q x); [apply Hok'; set_solver|apply Hok'; set_solver|done|done]. }
    subst. apply NoDup_app in Hnd' as (_ & Hdis & _). by apply (Hdis q Hq).
Qed.

(** C25: whatever clients do with the pages they hold, over any sequence of
    kalloc() and kfree() calls the free list stays well formed, the free and
    the allocated pages together are exactly the pages the allocator
    started with, and no page is ever both free and allocated or allocated
    twice. *)
Theorem kalloc_conserves_pages (s0 s : kmem) (l0 held : list Z) :
  kwf s0 l0 -> rtc kstep (s0, []) (s, held) ->
  exists l, kwf s l /\ NoDup (l ++ held) /\ l ++ held ≡ₚ l0.
Proof.
  intros Hwf Hsteps.
  assert (Hnd : NoDup l0) by apply Hwf.
  assert (Hok : forall p, p ∈ l0 -> page_ok p).
  { intros p. by apply (flist_page_ok (phys s0) (freelist s0)), Hwf. }
  assert (kinv l0 (s, held)) as (l & Hl & Hp).
  { apply (rtc_ind_r (kinv l0) (s0, [])) with (z := (s, held)) in Hsteps;
      [done| |intros; eapply kstep_inv; eauto].
    exists l0. simpl. by rewrite app_nil_r. }
  exists l. split; [done|]. simpl in Hp. split; [by rewrite Hp|done].
Qed.
End Kalloc.

(** Two pages of RAM above the kernel. *)
Definition tiny_end : Z := PHYSTOP - 8192.
Definition tiny_boot : kmem := Kmem ∅ 0 true.

Lemma kinit_all_pages_witness :
  KERNBASE <= tiny_end /\ tiny_end <= PHYSTOP /\ freelist tiny_boot = 0 /\
  exists s', kinit tiny_end tiny_boot = Ret tt s' /\
    kwf tiny_end s' (reverse (range_pages (PGROUNDUP tiny_end) PHYSTOP)).
Proof.
  split; [done|]. split; [done|]. split; [done|].
  apply (kinit_all_pages tiny_end); done.
Defined.

Definition tiny_free : kmem := Kmem (store64 ∅ (PHYSTOP - 4096) 0) (PHYSTOP - 4096) false.

Lemma tiny_free_wf : kwf tiny_end tiny_free [PHYSTOP - 4096].
Proof. split; [|split; [apply NoDup_singleton|done]]. vm_compute. intuition congruence. Qed.

Lemma kalloc_conserves_pages_witness :
  exists s held, rtc (kstep tiny_end) (tiny_free, []) (s, held) /\ held = [PHYSTOP - 4096] /\
  exists l, kwf tiny_end s l /\ NoDup (l ++ held) /\ l ++ held ≡ₚ [PHYSTOP - 4096].
Proof.
  assert (HS : exists s, kalloc tiny_free = Ret (PHYSTOP - 4096) s).
  { eexists. reflexivity. }
  destruct HS as [s E].
  assert (Hr : rtc (kstep tiny_end) (tiny_free, []) (s, [PHYSTOP - 4096])).
  { apply rtc_once. by apply kstep_alloc. }
  exists s, [PHYSTOP - 4096]. split; [exact Hr|]. split; [reflexivity|].
  apply (kalloc_conserves_pages tiny_end ltac:(done) tiny_free s [PHYSTOP - 4096]);
    [exact tiny_free_wf|exact Hr].
Defined.
