(* ===== verification/Vm.v ===== *)
(** * kernel/vm.c: page tables

    A page table is what it is in the kernel: 4096-byte pages of physical
    memory holding 64-bit entries.  [walk], [mappages], [uvmunmap] and the
    rest read and write those bytes and call the page allocator of Kalloc.v.
    The proofs view the table as the list of its pages ([ip], the pages of
    levels 2 and 1, and [lp], the pages of level 0) and as the function
    [leaf] from virtual addresses to leaf entries. *)

From Stdlib Require Import ZArith Lia.
From stdpp Require Import base numbers list list_numbers gmap strings sorting.
From S2P Require Import Prelude Cstring Riscv Kalloc.

Section Vm.
Context (kend : Z).

(** [pte_t *walk(pagetable, va, alloc)]; a null pointer is 0.  The loop runs
    for level 2 and 1. *)
Fixpoint walk_loop (level : nat) (pagetable va : Z) (alloc : bool) : M kmem Z :=
  match level with
  | O => ret (pagetable + 8 * PX 0 va)
  | S level' =>
      let pte := pagetable + 8 * PX (Z.of_nat level) va in
      let* e := k_load64 pte in
      if has e PTE_V then walk_loop level' (PTE2PA e) va alloc
      else if negb alloc then ret 0
      else
        let* pt := kalloc in
        if pt =? 0 then ret 0
        else
          k_memset pt 0 PGSIZE ;;
          k_store64 pte (Z.lor (PA2PTE pt) PTE_V) ;;
          walk_loop level' pt va alloc
  end.

Definition walk (pagetable va : Z) (alloc : bool) : M kmem Z :=
  if MAXVA <=? va then panic "walk" else walk_loop 2 pagetable va alloc.

Definition walkaddr (pagetable va : Z) : M kmem Z :=
  if MAXVA <=? va then ret 0
  else
    let* pte := walk pagetable va false in
    if pte =? 0 then ret 0
    else
      let* e := k_load64 pte in
      if negb (has e PTE_V) then ret 0
      else if negb (has e PTE_U) then ret 0
      else ret (PTE2PA e).

(** The [for(;;)] of mappages(): one page per iteration, [fuel] iterations
    at most. *)
Fixpoint mappages_loop (fuel : nat) (pagetable a last pa perm : Z) : M kmem Z :=
  match fuel with
  | O => panic "mappages: fuel"
  | S k =>
      let* pte := walk pagetable a true in
      if pte =? 0 then ret (-1)
      else
        let* e := k_load64 pte in
        if has e PTE_V then panic "mappages: remap"
        else
          k_store64 pte (Z.lor (Z.lor (PA2PTE pa) perm) PTE_V) ;;
          if a =? last then ret 0
          else mappages_loop k pagetable (u64 (a + PGSIZE)) last (u64 (pa + PGSIZE)) perm
  end.

(** Iterations of a loop that steps by pages from [a] until it meets [last];
    when [last] is below [a] (the sum wrapped) walk() panics at MAXVA. *)
Definition map_fuel (a last : Z) : nat :=
  if last <? a then S (S (Z.to_nat ((MAXVA - a) / PGSIZE)))
  else S (Z.to_nat ((last - a) / PGSIZE)).

Definition mappages (pagetable va size pa perm : Z) : M kmem Z :=
  if size =? 0 then panic "mappages: size"
  else
    let a := PGROUNDDOWN va in
    let last := PGROUNDDOWN (u64 (va + size - 1)) in
    mappages_loop (map_fuel a last) pagetable a last pa perm.

Definition kvmmap (kpgtbl va pa sz perm : Z) : M kmem unit :=
  let* r := mappages kpgtbl va sz pa perm in
  if negb (r =? 0) then panic "kvmmap" else ret tt.

(** [kvmmake] maps the kernel; [etext] and [trampoline] are linker symbols.
    The kernel stacks are proc_mapstacks() of proc.c. *)
Fixpoint proc_mapstacks_loop (n : nat) (p kpgtbl : Z) : M kmem unit :=
  match n with
  | O => ret tt
  | S n' =>
      let* pa := kalloc in
      if pa =? 0 then panic "kalloc"
      else
        kvmmap kpgtbl (KSTACK p) pa PGSIZE (Z.lor PTE_R PTE_W) ;;
        proc_mapstacks_loop n' (p + 1) kpgtbl
  end.

Definition NPROC : Z := 64.

Definition proc_mapstacks (kpgtbl : Z) : M kmem unit :=
  proc_mapstacks_loop (Z.to_nat NPROC) 0 kpgtbl.

Definition kvmmake (etext trampoline : Z) : M kmem Z :=
  let* kpgtbl := kalloc in
  k_memset kpgtbl 0 PGSIZE ;;
  kvmmap kpgtbl UART0 UART0 PGSIZE (Z.lor PTE_R PTE_W) ;;
  kvmmap kpgtbl VIRTIO0 VIRTIO0 PGSIZE (Z.lor PTE_R PTE_W) ;;
  kvmmap kpgtbl PLIC PLIC 0x400000 (Z.lor PTE_R PTE_W) ;;
  kvmmap kpgtbl KERNBASE KERNBASE (etext - KERNBASE) (Z.lor PTE_R PTE_X) ;;
  kvmmap kpgtbl etext etext (PHYSTOP - etext) (Z.lor PTE_R PTE_W) ;;
  kvmmap kpgtbl TRAMPOLINE trampoline PGSIZE (Z.lor PTE_R PTE_X) ;;
  proc_mapstacks kpgtbl ;;
  ret kpgtbl.

Fixpoint uvmunmap_loop (fuel : nat) (pagetable a stop : Z) (do_free : bool) : M kmem unit :=
  match fuel with
  | O => panic "uvmunmap: fuel"
  | S k =>
      if stop <=? a then ret tt
      else
        let* pte := walk pagetable a false in
        if pte =? 0 then panic "uvmunmap: walk"
        else
          let* e := k_load64 pte in
          if negb (has e PTE_V) then panic "uvmunmap: not mapped"
          else if PTE_FLAGS e =? PTE_V then panic "uvmunmap: not a leaf"
          else
            (if do_free then kfree kend (PTE2PA e) else ret tt) ;;
            k_store64 pte 0 ;;
            uvmunmap_loop k pagetable (u64 (a + PGSIZE)) stop do_free
  end.

(** [npages] iterations reach the bound [va + npages * PGSIZE], one more
    tests it. *)
Definition uvmunmap (pagetable va npages : Z) (do_free : bool) : M kmem unit :=
  if negb (va mod PGSIZE =? 0) then panic "uvmunmap: not aligned"
  else uvmunmap_loop (S (Z.to_nat npages)) pagetable va (u64 (va + npages * PGSIZE)) do_free.

Definition uvmcreate : M kmem Z :=
  let* pagetable := kalloc in
  if pagetable =? 0 then ret 0
  else k_memset pagetable 0 PGSIZE ;; ret pagetable.

(** The loop of freewalk() over the entries of a table, from [i] on; [rec]
    is the recursive call. *)
Fixpoint freewalk_entries (rec : Z -> M kmem unit) (pagetable : Z) (n : nat) (i : Z) : M kmem unit :=
  match n with
  | O => ret tt
  | S n' =>
      let* pte := k_load64 (pagetable + 8 * i) in
      (if has pte PTE_V && negb (has pte (Z.lor (Z.lor PTE_R PTE_W) PTE_X))
       then
         rec (PTE2PA pte) ;;
         k_store64 (pagetable + 8 * i) 0
       else if has pte PTE_V then panic "freewalk: leaf"
       else ret tt) ;;
      freewalk_entries rec pagetable n' (i + 1)
  end.

(** [fuel] is the height of the table: a child page is one level lower. *)
Fixpoint freewalk_at (fuel : nat) (pagetable : Z) : M kmem unit :=
  match fuel with
  | O => panic "freewalk: fuel"
  | S k => freewalk_entries (freewalk_at k) pagetable 512 0 ;; kfree kend pagetable
  end.

Definition freewalk (pagetable : Z) : M kmem unit := freewalk_at 3 pagetable.

Definition uvmfree (pagetable sz : Z) : M kmem unit :=
  (if 0 <? sz then uvmunmap pagetable 0 (PGROUNDUP sz / PGSIZE) true else ret tt) ;;
  freewalk pagetable.

Definition uvmclear (pagetable va : Z) : M kmem unit :=
  let* pte := walk pagetable va false in
  if pte =? 0 then panic "uvmclear"
  else
    let* e := k_load64 pte in
    k_store64 pte (Z.land e (u64 (Z.lnot PTE_U))).
End Vm.

(** ** The pages of a table *)

Definition entry (m : mem) (pt i : Z) : Z := load64 m (pt + 8 * i).

Definition child (f : Z -> list Z) (m : mem) (pt i : Z) : list Z :=
  if has (entry m pt i) PTE_V then f (PTE2PA (entry m pt i)) else [].

(** Interior pages (levels above 0) and leaf tables (level 0). *)
Fixpoint ip (lvl : nat) (m : mem) (pt : Z) : list Z :=
  match lvl with
  | O => []
  | S l => pt :: (seqZ 0 512 ≫= child (ip l m) m pt)
  end.

Fixpoint lp (lvl : nat) (m : mem) (pt : Z) : list Z :=
  match lvl with
  | O => [pt]
  | S l => seqZ 0 512 ≫= child (lp l m) m pt
  end.

Definition tp (lvl : nat) (m : mem) (pt : Z) : list Z := ip lvl m pt ++ lp lvl m pt.

(** Where the leaf entry of [va] is, and what it holds (0 when some level is
    missing: not valid either way). *)
Fixpoint wk (lvl : nat) (m : mem) (pt va : Z) : option Z :=
  match lvl with
  | O => Some (pt + 8 * PX 0 va)
  | S l =>
      let e := entry m pt (PX (Z.of_nat lvl) va) in
      if has e PTE_V then wk l m (PTE2PA e) va else None
  end.

Definition leaf_at (lvl : nat) (m : mem) (pt va : Z) : Z :=
  match wk lvl m pt va with Some a => load64 m a | None => 0 end.

Definition leaf (m : mem) (root va : Z) : Z := leaf_at 2 m root va.

(** ** List lemmas *)

Lemma bind_ext_in {A B} (f g : A -> list B) (l : list A) :
  (forall x, x ∈ l -> f x = g x) -> l ≫= f = l ≫= g.
Proof.
  induction l as [|a l IH]; intros H; [done|]. rewrite !bind_cons.
  rewrite (H a) by left. f_equal. apply IH. intros. apply H. by right.
Qed.

Lemma bind_perm_in {A B} (f g : A -> list B) (l : list A) :
  (forall x, x ∈ l -> f x ≡ₚ g x) -> l ≫= f ≡ₚ l ≫= g.
Proof.
  induction l as [|a l IH]; intros H; [done|]. rewrite !bind_cons.
  rewrite (H a) by left. f_equiv. apply IH. intros. apply H. by right.
Qed.

Lemma bind_app_perm {A B} (f g : A -> list B) (l : list A) :
  (l ≫= f) ++ (l ≫= g) ≡ₚ l ≫= (fun x => f x ++ g x).
Proof.
  induction l as [|a l IH]; [done|]. rewrite !bind_cons. rewrite <- IH.
  solve_Permutation.
Qed.

Lemma bind_split {B} (f : Z -> list B) (i : Z) :
  0 <= i < 512 ->
  seqZ 0 512 ≫= f ≡ₚ f i ++ (filter (fun j => j <> i) (seqZ 0 512) ≫= f).
Proof.
  intros Hi.
  assert (Hp : seqZ 0 512 ≡ₚ i :: filter (fun j => j <> i) (seqZ 0 512)).
  { apply NoDup_Permutation.
    - apply NoDup_seqZ.
    - apply NoDup_cons. split; [rewrite list_elem_of_filter; naive_solver|].
      apply NoDup_filter, NoDup_seqZ.
    - intros x. rewrite elem_of_cons, list_elem_of_filter, !elem_of_seqZ.
      destruct (decide (x = i)); naive_solver lia. }
  rewrite Hp at 1. done.
Qed.

Lemma tp_S l m pt :
  tp (S l) m pt ≡ₚ pt :: (seqZ 0 512 ≫= child (tp l m) m pt).
Proof.
  unfold tp. cbn [ip lp]. rewrite <- app_comm_cons. f_equiv.
  rewrite bind_app_perm. apply bind_perm_in. intros j _.
  unfold child. by destruct (has _ _).
Qed.
