(* ===== verification/PageTable.v ===== *)
(** * Page tables: the proofs

    [walk] with allocation adds only empty table pages and changes no
    mapping; writing the entry it returns changes the mapping of exactly one
    virtual page; [mappages] and [uvmunmap] follow. *)

From Stdlib Require Import ZArith Lia.
From stdpp Require Import base numbers list list_numbers gmap strings sorting.
From S2P Require Import Prelude Cstring Riscv Kalloc Vm.

Section PageTable.
Context (kend : Z).
Hypothesis Hkend : KERNBASE <= kend.

Notation page_ok := (page_ok kend).

(** ** Frame properties *)

Lemma entry_frame m m' pt i :
  0 <= i < 512 ->
  (forall x, in_page pt x -> load8 m' x = load8 m x) -> entry m' pt i = entry m pt i.
Proof.
  intros Hi H. apply load64_ext. intros x Hx. apply H. unfold in_page. lia.
Qed.

Definition same_on (pages : list Z) (m m' : mem) : Prop :=
  forall p x, p ∈ pages -> in_page p x -> load8 m' x = load8 m x.

Lemma same_on_sub l1 l2 m m' : l1 ⊆ l2 -> same_on l2 m m' -> same_on l1 m m'.
Proof. unfold same_on. intros Hs H p x Hp Hx. apply (H p); [by apply Hs|done]. Qed.

Lemma elem_of_bind_child f m pt i p :
  0 <= i < 512 -> has (entry m pt i) PTE_V = true ->
  p ∈ f (PTE2PA (entry m pt i)) -> p ∈ seqZ 0 512 ≫= child f m pt.
Proof.
  intros Hi Hv Hp. apply list_elem_of_bind. exists i. unfold child. rewrite Hv.
  split; [done|]. apply elem_of_seqZ. lia.
Qed.

(** The shape of a table depends on its interior pages only. *)
Lemma table_frame lvl m m' pt :
  same_on (ip lvl m pt) m m' ->
  ip lvl m' pt = ip lvl m pt /\ lp lvl m' pt = lp lvl m pt /\
  (forall va, wk lvl m' pt va = wk lvl m pt va).
Proof.
  revert pt. induction lvl as [|l IH]; intros pt H; [done|].
  assert (Hent : forall i, 0 <= i < 512 -> entry m' pt i = entry m pt i).
  { intros i Hi. apply entry_frame; [done|]. intros x Hx. apply (H pt); [left|done]. }
  assert (Hsub : forall i, 0 <= i < 512 -> has (entry m pt i) PTE_V = true ->
            same_on (ip l m (PTE2PA (entry m pt i))) m m').
  { intros i Hi Hv. eapply same_on_sub; [|exact H]. intros p Hp. cbn [ip].
    right. by eapply elem_of_bind_child. }
  split; [|split].
  - cbn [ip]. f_equal. apply bind_ext_in. intros i Hi%elem_of_seqZ. unfold child.
    rewrite Hent by lia. destruct (has _ _) eqn:Hv; [|done].
    apply (IH (PTE2PA (entry m pt i))), Hsub; [lia|done].
  - cbn [lp]. apply bind_ext_in. intros i Hi%elem_of_seqZ. unfold child.
    rewrite Hent by lia. destruct (has _ _) eqn:Hv; [|done].
    apply (IH (PTE2PA (entry m pt i))), Hsub; [lia|done].
  - intros va. cbn [wk].
    assert (Hr : 0 <= PX (Z.of_nat (S l)) va < 512) by (apply PX_range; lia).
    rewrite Hent by done. destruct (has _ _) eqn:Hv; [|done].
    apply (IH (PTE2PA (entry m pt (PX (Z.of_nat (S l)) va)))), Hsub; done.
Qed.

(** Above level 0 a valid entry points to a table: no permission bit is set. *)
Definition RWX : Z := Z.lor (Z.lor PTE_R PTE_W) PTE_X.

Fixpoint pointers (lvl : nat) (m : mem) (pt : Z) : Prop :=
  match lvl with
  | O => True
  | S l => forall i, 0 <= i < 512 -> has (entry m pt i) PTE_V = true ->
      has (entry m pt i) RWX = false /\ pointers l m (PTE2PA (entry m pt i))
  end.

Lemma pointers_frame lvl m m' pt :
  same_on (ip lvl m pt) m m' -> pointers lvl m pt -> pointers lvl m' pt.
Proof.
  revert pt. induction lvl as [|l IH]; intros pt Hs H; [done|]. intros i Hi.
  rewrite (entry_frame m m' pt i Hi) by (intros x Hx; apply (Hs pt); [left|done]).
  intros Hv. destruct (H i Hi Hv) as [Hr Hc]. split; [done|]. apply IH; [|done].
  eapply same_on_sub; [|exact Hs]. intros p Hp. cbn [ip]. right. by eapply elem_of_bind_child.
Qed.

(** A user or kernel table: interior entries are pointers, and nothing is
    mapped from MAXVA on, the upper half of the root page. *)
Definition tidy (m : mem) (root : Z) : Prop :=
  pointers 2 m root /\ forall i, 256 <= i < 512 -> has (entry m root i) PTE_V = false.

Lemma tidy_frame m m' root : same_on (ip 2 m root) m m' -> tidy m root -> tidy m' root.
Proof.
  intros Hs [Hp Hu]. split; [by eapply pointers_frame|]. intros i Hi.
  rewrite (entry_frame m m' root i) by (lia || (intros x Hx; apply (Hs root); [left|done])). by apply Hu.
Qed.

Lemma ip_tp lvl m pt : ip lvl m pt ⊆ tp lvl m pt.
Proof. intros p Hp. apply elem_of_app. by left. Qed.

Lemma tp_frame lvl m m' pt : same_on (tp lvl m pt) m m' -> tp lvl m' pt = tp lvl m pt.
Proof.
  intros Hs. assert (Hi : same_on (ip lvl m pt) m m') by (eapply same_on_sub; [apply ip_tp|exact Hs]).
  apply table_frame in Hi as (H1 & H2 & _). unfold tp. by rewrite H1, H2.
Qed.

Lemma lp_tp lvl m pt : lp lvl m pt ⊆ tp lvl m pt.
Proof. intros p Hp. apply elem_of_app. by right. Qed.

(** The leaf entry of [va] lies in a level-0 page, at index [PX 0 va]. *)
Lemma wk_in_lp lvl m pt va a :
  wk lvl m pt va = Some a -> exists p, p ∈ lp lvl m pt /\ a = p + 8 * PX 0 va.
Proof.
  revert pt. induction lvl as [|l IH]; intros pt H; cbn [wk lp] in *.
  { simplify_eq. exists pt. split; [left|done]. }
  destruct (has _ _) eqn:Hv; [|done]. destruct (IH _ H) as (p & Hp & ->).
  exists p. split; [|done]. eapply elem_of_bind_child; [|done|done]. apply PX_range. lia.
Qed.

Lemma tp_0 m pt : tp 0 m pt = [pt].
Proof. done. Qed.

Lemma tp_child lvl m pt i p :
  0 <= i < 512 -> has (entry m pt i) PTE_V = true ->
  p ∈ tp lvl m (PTE2PA (entry m pt i)) -> p ∈ tp (S lvl) m pt.
Proof.
  intros Hi Hv Hp. rewrite tp_S. right. by eapply elem_of_bind_child.
Qed.

Lemma tp_self lvl m pt : pt ∈ tp lvl m pt.
Proof. destruct lvl; [unfold tp; simpl; left|]. rewrite tp_S. left. Qed.

Lemma NoDup_child lvl m pt i :
  0 <= i < 512 -> NoDup (tp (S lvl) m pt) ->
  NoDup (child (tp lvl m) m pt i).
Proof.
  intros Hi Hnd. rewrite tp_S in Hnd. apply NoDup_cons in Hnd as [_ Hnd].
  rewrite (bind_split _ i) in Hnd by done. by apply NoDup_app in Hnd as [? _].
Qed.

(** Children at different indices share no page, and none is the parent. *)
Lemma child_disjoint lvl m pt i j p :
  0 <= i < 512 -> 0 <= j < 512 -> NoDup (tp (S lvl) m pt) ->
  p ∈ child (tp lvl m) m pt i -> p ∈ child (tp lvl m) m pt j -> i = j.
Proof.
  intros Hi Hj Hnd Hp Hq. destruct (decide (i = j)) as [|Hne]; [done|exfalso].
  rewrite tp_S in Hnd. apply NoDup_cons in Hnd as [_ Hnd].
  rewrite (bind_split _ i) in Hnd by done. apply NoDup_app in Hnd as (_ & Hdis & _).
  apply (Hdis p Hp). apply list_elem_of_bind. exists j. split; [done|].
  apply list_elem_of_filter. split; [done|]. apply elem_of_seqZ. lia.
Qed.

Lemma child_not_parent lvl m pt i :
  0 <= i < 512 -> NoDup (tp (S lvl) m pt) -> pt ∉ child (tp lvl m) m pt i.
Proof.
  intros Hi Hnd Hp. rewrite tp_S in Hnd. apply NoDup_cons in Hnd as [Hni _].
  apply Hni. apply list_elem_of_bind. exists i. split; [done|]. apply elem_of_seqZ. lia.
Qed.

(** Two addresses whose leaf entries are in one page agree on every index
    above level 0. *)
Lemma wk_inj lvl m pt va va' p :
  NoDup (tp lvl m pt) ->
  wk lvl m pt va = Some (p + 8 * PX 0 va) ->
  wk lvl m pt va' = Some (p + 8 * PX 0 va') ->
  (forall q, q ∈ tp lvl m pt -> q mod 4096 = 0) -> p mod 4096 = 0 ->
  forall j, 1 <= j <= Z.of_nat lvl -> PX j va = PX j va'.
Proof.
  revert pt. induction lvl as [|l IH]; intros pt Hnd H H' Hal Hp j Hj; [lia|].
  cbn [wk] in H, H'.
  destruct (has (entry m pt (PX (Z.of_nat (S l)) va)) _) eqn:Hv; [|done].
  destruct (has (entry m pt (PX (Z.of_nat (S l)) va')) _) eqn:Hv'; [|done].
  assert (Hi : 0 <= PX (Z.of_nat (S l)) va < 512) by (apply PX_range; lia).
  assert (Hi' : 0 <= PX (Z.of_nat (S l)) va' < 512) by (apply PX_range; lia).
  assert (Hin : p ∈ child (tp l m) m pt (PX (Z.of_nat (S l)) va)).
  { unfold child. rewrite Hv. destruct (wk_in_lp _ _ _ _ _ H) as (q & Hq & Hqe).
    assert (p = q) as -> by lia. by apply lp_tp. }
  assert (Hin' : p ∈ child (tp l m) m pt (PX (Z.of_nat (S l)) va')).
  { unfold child. rewrite Hv'. destruct (wk_in_lp _ _ _ _ _ H') as (q & Hq & Hqe).
    assert (p = q) as -> by lia. by apply lp_tp. }
  assert (Heq : PX (Z.of_nat (S l)) va = PX (Z.of_nat (S l)) va')
    by (by apply (child_disjoint l m pt _ _ p)).
  destruct (decide (j = Z.of_nat (S l))) as [->|]; [done|].
  rewrite <- Heq in H'. apply (IH (PTE2PA (entry m pt (PX (Z.of_nat (S l)) va)))); try done.
  - pose proof (NoDup_child l m pt _ Hi Hnd) as Hc. unfold child in Hc. by rewrite Hv in Hc.
  - intros q Hq. apply Hal. apply (tp_child l m pt _ q Hi Hv Hq).
  - lia.
Qed.

(** ** Updating one child of a table *)

Section Update.
Context (l : nat) (m m' : mem) (pt i q : Z) (U : list Z).
Let C := child (tp l m) m pt i.
Hypothesis Hi : 0 <= i < 512.
Hypothesis Hnd : NoDup (tp (S l) m pt ++ U).
Hypothesis Hok : Forall page_ok (tp (S l) m pt ++ U).
(** Entry [i] now points to [q], the other entries are as before. *)
Hypothesis Hv : has (entry m' pt i) PTE_V = true.
Hypothesis Hq : PTE2PA (entry m' pt i) = q.
Hypothesis Hent : forall j, 0 <= j < 512 -> j <> i -> entry m' pt j = entry m pt j.
(** Only the parent, the old child's pages and fresh pages changed. *)
Hypothesis Hmem : forall x, ~ in_page pt x -> (forall p, p ∈ C ++ U -> ~ in_page p x) ->
  load8 m' x = load8 m x.
Hypothesis Hsub : tp l m' q ≡ₚ C ++ U.

Lemma other_child_frame j : 0 <= j < 512 -> j <> i ->
  has (entry m pt j) PTE_V = true -> same_on (tp l m (PTE2PA (entry m pt j))) m m'.
Proof.
  intros Hj Hne Hvj p x Hp Hx.
  apply NoDup_app in Hnd as (Hnd1 & Hdis & _). rewrite Forall_forall in Hok.
  assert (Hpj : p ∈ child (tp l m) m pt j) by (unfold child; by rewrite Hvj).
  assert (Hpt : p ∈ tp (S l) m pt) by (by apply (tp_child l m pt j)).
  assert (Hokp : page_ok p) by (apply Hok, elem_of_app; by left).
  apply Hmem.
  - intros Hx'. assert (p = pt) as ->.
    { apply (page_disjoint kend p pt x); try done. apply Hok. apply elem_of_app. left.
      apply tp_self. }
    by apply (child_not_parent l m pt j).
  - intros r Hr Hx'. assert (p = r) as ->.
    { apply (page_disjoint kend p r x); try done. apply Hok.
      apply elem_of_app in Hr as [Hr|Hr]; apply elem_of_app; [left|by right].
      unfold C, child in Hr. destruct (has (entry m pt i) PTE_V) eqn:Hvi; [|by apply elem_of_nil in Hr].
      by apply (tp_child l m pt i). }
    apply elem_of_app in Hr as [Hr|Hr]; [|by apply (Hdis r)].
    by apply Hne, (child_disjoint l m pt j i r).
Qed.

Lemma other_child j : 0 <= j < 512 -> j <> i ->
  child (tp l m') m' pt j = child (tp l m) m pt j.
Proof.
  intros Hj Hne. unfold child. rewrite Hent by done.
  destruct (has (entry m pt j) PTE_V) eqn:Hvj; [|done].
  assert (same_on (ip l m (PTE2PA (entry m pt j))) m m') as Hs.
  { eapply same_on_sub; [|exact (other_child_frame j Hj Hne Hvj)]. apply ip_tp. }
  apply table_frame in Hs as (H1 & H2 & _). unfold tp. by rewrite H1, H2.
Qed.

Lemma tp_update : tp (S l) m' pt ≡ₚ tp (S l) m pt ++ U.
Proof.
  rewrite !tp_S. rewrite !(bind_split _ i) by done.
  assert (Hci : child (tp l m') m' pt i = tp l m' q).
  { unfold child. by rewrite Hv, Hq. }
  rewrite Hci, Hsub. fold C.
  rewrite (bind_ext_in (child (tp l m') m' pt) (child (tp l m) m pt)).
  - solve_Permutation.
  - intros j. rewrite list_elem_of_filter, elem_of_seqZ. intros [Hne Hj].
    apply other_child; [lia|done].
Qed.

Lemma pointers_update :
  pointers (S l) m pt -> has (entry m' pt i) RWX = false -> pointers l m' q -> pointers (S l) m' pt.
Proof.
  intros H Hr Hc j Hj Hvj. destruct (decide (j = i)) as [->|Hne]; [by rewrite Hq|].
  rewrite Hent in * by done. destruct (H j Hj Hvj) as [Hrj Hpj]. split; [done|].
  eapply pointers_frame; [|exact Hpj]. eapply same_on_sub; [apply ip_tp|by apply other_child_frame].
Qed.

Lemma leaf_update va : PX (Z.of_nat (S l)) va <> i ->
  leaf_at (S l) m' pt va = leaf_at (S l) m pt va.
Proof.
  intros Hne. unfold leaf_at. cbn [wk].
  assert (Hr : 0 <= PX (Z.of_nat (S l)) va < 512) by (apply PX_range; lia).
  rewrite Hent by done.
  destruct (has (entry m pt (PX (Z.of_nat (S l)) va)) PTE_V) eqn:Hvj; [|done].
  pose proof (other_child_frame _ Hr Hne Hvj) as Hs.
  assert (same_on (ip l m (PTE2PA (entry m pt (PX (Z.of_nat (S l)) va)))) m m') as Hs'.
  { eapply same_on_sub; [|exact Hs]. apply ip_tp. }
  apply table_frame in Hs' as (_ & _ & Hwk). rewrite Hwk.
  destruct (wk l m _ va) as [a|] eqn:Ha; [|done].
  destruct (wk_in_lp _ _ _ _ _ Ha) as (p & Hp & ->).
  apply load64_ext. intros x Hx. apply (Hs p); [by apply lp_tp|].
  pose proof (PX_range 0 va). unfold in_page. lia.
Qed.
End Update.

(** ** A zeroed page is an empty table *)

Definition zero_page (m : mem) (p : Z) : Prop := forall x, in_page p x -> load8 m x = 0.

Lemma zero_page_entry m p i : zero_page m p -> 0 <= i < 512 -> entry m p i = 0.
Proof. intros H Hi. apply load64_zero. intros x Hx. apply H. unfold in_page. lia. Qed.

Lemma zero_page_child f m p i : zero_page m p -> 0 <= i < 512 -> child f m p i = [].
Proof. intros H Hi. unfold child. rewrite zero_page_entry by done. by rewrite has_0. Qed.

Lemma bind_nil_in {A B} (f : A -> list B) (ls : list A) :
  (forall x, x ∈ ls -> f x = []) -> ls ≫= f = [].
Proof.
  induction ls as [|a ls IH]; intros H; [done|]. rewrite bind_cons, (H a) by left.
  apply IH. intros. apply H. by right.
Qed.

Lemma zero_page_tp l m p : zero_page m p -> tp l m p = [p].
Proof.
  intros H. destruct l as [|l]; [done|]. unfold tp. cbn [ip lp].
  rewrite !bind_nil_in; [done| |];
    intros j Hj%elem_of_seqZ; apply zero_page_child; (done || lia).
Qed.

Lemma zero_page_leaf l m p va : zero_page m p -> leaf_at l m p va = 0.
Proof.
  intros H. destruct l as [|l]; unfold leaf_at; cbn [wk].
  - apply (zero_page_entry m p (PX 0 va)); [done|]. apply PX_range. lia.
  - rewrite zero_page_entry by (done || apply PX_range; lia). by rewrite has_0.
Qed.

(** ** walk() *)

Lemma page_not_self p pt x :
  page_ok p -> page_ok pt -> p <> pt -> in_page p x -> ~ in_page pt x.
Proof. intros Hp Hpt Hne Hx Hx'. by apply Hne, (page_disjoint kend p pt x). Qed.

Lemma walk_loop_lookup lvl pt va s :
  walk_loop lvl pt va false s =
    Ret (match wk lvl (phys s) pt va with Some a => a | None => 0 end) s.
Proof.
  revert pt. induction lvl as [|l IH]; intros pt; [done|].
  cbn [walk_loop wk]. unfold bind, k_load64, gets. fold (entry (phys s) pt (PX (Z.of_nat (S l)) va)).
  destruct (has _ _); [apply IH|done].
Qed.

Lemma leaf_at_child l m pt va :
  has (entry m pt (PX (Z.of_nat (S l)) va)) PTE_V = true ->
  leaf_at (S l) m pt va = leaf_at l m (PTE2PA (entry m pt (PX (Z.of_nat (S l)) va))) va.
Proof. intros H. unfold leaf_at. cbn [wk]. by rewrite H. Qed.

Lemma leaf_at_missing l m pt va :
  has (entry m pt (PX (Z.of_nat (S l)) va)) PTE_V = false -> leaf_at (S l) m pt va = 0.
Proof. intros H. unfold leaf_at. cbn [wk]. by rewrite H. Qed.

(** What a walk that may allocate does to the table at [pt], whose pages are
    disjoint from the free list. *)
Definition walk_post (lvl : nat) (pt va : Z) (m : mem) (l : list Z)
    (r : Z) (s' : kmem) : Prop :=
  exists used l', l = used ++ l' /\ (length used <= lvl)%nat /\ kwf kend s' l' /\
    tp lvl (phys s') pt ≡ₚ tp lvl m pt ++ used /\
    (forall x, (forall p, p ∈ ip lvl m pt ++ used -> ~ in_page p x) ->
       load8 (phys s') x = load8 m x) /\
    (forall va', leaf_at lvl (phys s') pt va' = leaf_at lvl m pt va') /\
    (pointers lvl m pt -> pointers lvl (phys s') pt) /\
    (forall j, 0 <= j < 512 -> j <> PX (Z.of_nat lvl) va -> entry (phys s') pt j = entry m pt j) /\
    ((r = 0 /\ l' = []) \/ wk lvl (phys s') pt va = Some r).

(** The state after walk() has linked the fresh page [p] at entry [i]. *)
Definition link_page (s : kmem) (pt i p : Z) : kmem :=
  set_phys (store64 (memset (phys s) p 0 PGSIZE) (pt + 8 * i) (Z.lor (PA2PTE p) PTE_V)) s.

Section Link.
Context (s : kmem) (pt i p : Z) (l : list Z).
Hypothesis Hwf : kwf kend s l.
Hypothesis Hi : 0 <= i < 512.
Hypothesis Hp : page_ok p.
Hypothesis Hpt : page_ok pt.
Hypothesis Hne : p <> pt.
Hypothesis Hpl : p ∉ l.
Hypothesis Hptl : pt ∉ l.
Let s' := link_page s pt i p.

Lemma link_load8 x :
  ~ in_page p x -> ~ (pt + 8 * i <= x < pt + 8 * i + 8) ->
  load8 (phys s') x = load8 (phys s) x.
Proof.
  intros Hx Hx'. unfold s', link_page. simpl. rewrite load8_store64_out by done.
  rewrite load8_memset. by rewrite decide_False.
Qed.

Lemma link_zero : zero_page (phys s') p.
Proof.
  intros x Hx. unfold s', link_page. simpl.
  assert (~ in_page pt x) by (by apply (page_not_self p pt x)).
  unfold in_page in *. rewrite load8_store64_out by lia.
  rewrite load8_memset. by rewrite decide_True by (unfold PGSIZE; lia).
Qed.

Lemma link_entry : entry (phys s') pt i = mk_pte p PTE_V.
Proof.
  unfold entry, s', link_page. cbn [phys set_phys]. rewrite load64_store64_eq.
  fold (mk_pte p PTE_V). apply u64_small.
  assert (0 <= mk_pte p PTE_V < 2 ^ 54) as Hr.
  { apply mk_pte_range; [|apply Hp|done]. apply page_ok_pos in Hp; [lia|done]. }
  change (2 ^ 54) with 18014398509481984 in Hr.
  change (2 ^ 64) with 18446744073709551616. lia.
Qed.

Lemma link_entry_valid : has (entry (phys s') pt i) PTE_V = true.
Proof.
  rewrite link_entry. unfold mk_pte. rewrite has_lor. apply orb_true_r.
Qed.

Lemma link_entry_pa : PTE2PA (entry (phys s') pt i) = p.
Proof.
  rewrite link_entry. apply PTE2PA_mk_pte; [|apply Hp|done].
  apply page_ok_pos in Hp; [lia|done].
Qed.

Lemma link_entry_other j :
  0 <= j < 512 -> j <> i -> entry (phys s') pt j = entry (phys s) pt j.
Proof.
  intros Hj Hji. apply load64_ext. intros x Hx. apply link_load8; [|lia].
  intros Hpx. apply (page_not_self p pt x); try done. unfold in_page. lia.
Qed.

Lemma link_kwf : kwf kend s' l.
Proof.
  apply (kwf_phys_frame kend s (phys s')); [done|]. intros q x Hq Hx.
  assert (page_ok q) by (eapply flist_page_ok; [apply Hwf|done]).
  assert (p <> q) by (by intros ->). assert (pt <> q) by (by intros ->).
  apply link_load8.
  - by apply (page_not_self q p x).
  - intros Hx'. apply (page_not_self q pt x); try done. unfold in_page. lia.
Qed.
End Link.

(** The child of [pt] for [va] exists: a walk below it is a walk of [pt]. *)
Lemma walk_old_child k pt va m l r s' :
  let i := PX (Z.of_nat (S k)) va in
  let q := PTE2PA (entry m pt i) in
  NoDup (tp (S k) m pt ++ l) -> Forall page_ok (tp (S k) m pt) -> Forall page_ok l ->
  has (entry m pt i) PTE_V = true ->
  walk_post k q va m l r s' -> walk_post (S k) pt va m l r s'.
Proof.
  intros i q Hnd Hok Hlok Hv (used & l' & -> & Hlen & Hwf' & Htp & Hmem & Hleaf & Hptr & _ & Hr).
  assert (Hi : 0 <= i < 512) by (apply PX_range; lia).
  assert (Hc : child (tp k m) m pt i = tp k m q) by (unfold child; by rewrite Hv).
  assert (Hpt : page_ok pt) by (rewrite Forall_forall in Hok; apply Hok, tp_self).
  pose proof Hnd as Hnd0. apply NoDup_app in Hnd0 as (HndT & HndD & HndL).
  assert (HndU : NoDup (tp (S k) m pt ++ used)).
  { rewrite app_assoc in Hnd. by apply NoDup_app in Hnd as [? _]. }
  assert (HokU : Forall page_ok (tp (S k) m pt ++ used)).
  { apply Forall_app. split; [done|]. by apply Forall_app in Hlok as [? _]. }
  assert (Hent : forall j, 0 <= j < 512 -> entry (phys s') pt j = entry m pt j).
  { intros j Hj. apply entry_frame; [done|]. intros x Hx. apply Hmem. intros p Hp Hpx.
    assert (Hin : page_ok p /\ p <> pt).
    { apply elem_of_app in Hp as [Hp%ip_tp|Hp].
      - split; [rewrite Forall_forall in Hok; by apply Hok, (tp_child k m pt i)|].
        intros ->. apply (child_not_parent k m pt i); [done..|by rewrite Hc].
      - split; [rewrite Forall_forall in Hlok; apply Hlok, elem_of_app; by left|].
        intros ->. apply (HndD pt); [apply tp_self|]. apply elem_of_app. by left. }
    destruct Hin as [Hokp Hne]. by apply (page_not_self pt p x). }
  assert (Hchg : forall x, ~ in_page pt x -> (forall p, p ∈ child (tp k m) m pt i ++ used -> ~ in_page p x) ->
    load8 (phys s') x = load8 m x).
  { intros x _ Hx. apply Hmem. intros p Hp. apply Hx.
    rewrite Hc. apply elem_of_app in Hp as [Hp|Hp]; apply elem_of_app; [left; by apply ip_tp|by right]. }
  exists used, l'. split; [done|]. split; [lia|]. split; [done|]. split; [|split; [|split; [|split; [|split]]]].
  - apply (tp_update k m (phys s') pt i q used); rewrite ?Hent; try done; [intros j Hj _; by apply Hent|by rewrite Hc].
  - intros x Hx. apply Hmem. intros p Hp. apply Hx.
    apply elem_of_app in Hp as [Hp|Hp]; apply elem_of_app; [left|by right].
    cbn [ip]. right. by apply (elem_of_bind_child (ip k m) m pt i).
  - intros va'. destruct (decide (PX (Z.of_nat (S k)) va' = i)) as [Hei|Hne].
    + rewrite !leaf_at_child; rewrite ?Hent; rewrite ?Hei; done.
    + apply (leaf_update k m (phys s') pt i used); try done. intros j Hj _. by apply Hent.
  - intros Hp. destruct (Hp i Hi Hv) as [Hpr Hpc].
    apply (pointers_update k m (phys s') pt i q used); rewrite ?Hent; try done; [|by apply Hptr].
    intros j Hj _. by apply Hent.
  - intros j Hj _. by apply Hent.
  - destruct Hr as [Hr|Hr]; [by left|right]. cbn [wk]. fold i. rewrite Hent by done. by rewrite Hv.
Qed.

Lemma mk_pte_no_rwx p : page_ok p -> has (mk_pte p PTE_V) RWX = false.
Proof.
  intros Hp. pose proof (page_ok_pos kend Hkend p Hp). unfold has.
  assert (Z.land (mk_pte p PTE_V) RWX = 0) as ->; [|done].
  change RWX with 14. replace 14 with (Z.land (Z.ones 10) 14) by done. rewrite Z.land_assoc.
  change (Z.land (mk_pte p PTE_V) (Z.ones 10)) with (PTE_FLAGS (mk_pte p PTE_V)).
  rewrite PTE_FLAGS_mk_pte; [done|lia|apply Hp|done].
Qed.

(** The child was missing: page [p] is linked and the walk goes on below it. *)
Lemma walk_new_child k pt va s s1 p l r s' :
  let i := PX (Z.of_nat (S k)) va in
  let m := phys s in
  let s2 := link_page s1 pt i p in
  NoDup (tp (S k) m pt ++ p :: l) -> Forall page_ok (tp (S k) m pt) -> Forall page_ok (p :: l) ->
  has (entry m pt i) PTE_V = false -> kwf kend s1 l ->
  (forall x, load8 (phys s1) x = if decide (in_page p x) then 5 else load8 m x) ->
  walk_post k p va (phys s2) l r s' -> walk_post (S k) pt va m (p :: l) r s'.
Proof.
  intros i m s2 Hnd Hok Hlok Hv Hwf1 Hm1 (used & l' & -> & Hlen & Hwf' & Htp & Hmem & Hleaf & Hptr & _ & Hr).
  assert (Hi : 0 <= i < 512) by (apply PX_range; lia).
  assert (Hpt : page_ok pt) by (rewrite Forall_forall in Hok; apply Hok, tp_self).
  assert (Hp : page_ok p) by (by apply Forall_cons in Hlok as [? _]).
  pose proof Hnd as Hnd0. apply NoDup_app in Hnd0 as (HndT & HndD & HndL).
  assert (Hptn : pt ∉ p :: used ++ l') by (apply HndD, tp_self).
  assert (Hne : p <> pt) by (intros ->; apply Hptn; left).
  assert (Hz : zero_page (phys s2) p) by (by apply link_zero).
  assert (Hlok' : Forall page_ok (p :: used)) by (apply (Forall_app _ (p :: used) l') in Hlok; apply Hlok).
  assert (Hchg2 : forall x, (forall r, r ∈ p :: used -> ~ in_page r x) -> load8 (phys s') x = load8 (phys s2) x).
  { intros x Hx. apply Hmem. intros r' Hr'. apply Hx.
    apply elem_of_app in Hr' as [Hr'|Hr']; [|by right].
    apply ip_tp in Hr'. rewrite zero_page_tp in Hr' by done. apply list_elem_of_singleton in Hr' as ->. left. }
  assert (Hent2 : forall j, 0 <= j < 512 -> entry (phys s') pt j = entry (phys s2) pt j).
  { intros j Hj. apply entry_frame; [done|]. intros x Hx. apply Hchg2. intros r' Hr'.
    rewrite Forall_forall in Hlok'. apply (page_not_self pt r' x); [done|by apply Hlok'| |done].
    intros <-. apply Hptn. apply (elem_of_app (p :: used) l'). by left. }
  assert (Hent : forall j, 0 <= j < 512 -> j <> i -> entry (phys s') pt j = entry m pt j).
  { intros j Hj Hji. rewrite Hent2 by done. unfold s2. rewrite link_entry_other by done.
    apply entry_frame; [done|]. intros x Hx. rewrite Hm1, decide_False; [done|]. by apply (page_not_self pt p x). }
  assert (Hei : entry (phys s') pt i = mk_pte p PTE_V) by (rewrite Hent2 by done; by apply link_entry).
  assert (Hvi : has (entry (phys s') pt i) PTE_V = true) by (rewrite Hent2 by done; by apply link_entry_valid).
  assert (Hpi : PTE2PA (entry (phys s') pt i) = p) by (rewrite Hent2 by done; by apply link_entry_pa).
  assert (Hc : child (tp k m) m pt i = []) by (unfold child; by rewrite Hv).
  assert (Hchg : forall x, ~ in_page pt x -> (forall r, r ∈ p :: used -> ~ in_page r x) ->
    load8 (phys s') x = load8 m x).
  { intros x Hx Hxu. rewrite Hchg2 by done. assert (~ in_page p x) by (apply Hxu; left).
    unfold s2. rewrite link_load8; [|done|unfold in_page in Hx; lia]. rewrite Hm1. by rewrite decide_False. }
  assert (HndU : NoDup (tp (S k) m pt ++ p :: used)).
  { change (p :: used ++ l') with ((p :: used) ++ l') in Hnd.
    rewrite app_assoc in Hnd. by apply NoDup_app in Hnd as [? _]. }
  assert (HokU : Forall page_ok (tp (S k) m pt ++ p :: used)) by (by apply Forall_app).
  exists (p :: used), l'. split; [done|]. split; [cbn [length]; lia|]. split; [done|]. split; [|split; [|split; [|split; [|split]]]].
  - apply (tp_update k m (phys s') pt i p (p :: used)); rewrite ?Hc; try done.
    rewrite Htp. by rewrite zero_page_tp by done.
  - intros x Hx. apply Hchg; [apply Hx; cbn [ip]; left|]. intros r' Hr'. apply Hx, elem_of_app. by right.
  - intros va'. destruct (decide (PX (Z.of_nat (S k)) va' = i)) as [Hvi'|Hji].
    + rewrite leaf_at_child; rewrite Hvi'; [|done]. rewrite Hpi, Hleaf.
      rewrite zero_page_leaf by done. rewrite leaf_at_missing; [done|]. by rewrite Hvi'.
    + apply (leaf_update k m (phys s') pt i (p :: used)); rewrite ?Hc; try done.
  - intros HP. apply (pointers_update k m (phys s') pt i p (p :: used)); rewrite ?Hc; try done.
    + rewrite Hei. by apply mk_pte_no_rwx.
    + apply Hptr. destruct k as [|k]; [done|]. intros j Hj. by rewrite zero_page_entry, has_0.
  - done.
  - destruct Hr as [Hr|Hr]; [by left|right]. cbn [wk]. fold i. by rewrite Hvi, Hpi.
Qed.

Lemma walk_loop_alloc lvl pt va s l :
  kwf kend s l -> NoDup (tp lvl (phys s) pt ++ l) ->
  Forall page_ok (tp lvl (phys s) pt) ->
  exists r s', walk_loop lvl pt va true s = Ret r s' /\
    walk_post lvl pt va (phys s) l r s'.
Proof.
  revert pt s l. induction lvl as [|k IH]; intros pt s l Hwf Hnd Hok.
  { exists (pt + 8 * PX 0 va), s. split; [done|]. exists [], l.
    rewrite !app_nil_r. split; [done|]. split; [cbn; lia|]. do 6 (split; [done|]). by right. }
  assert (Hi : 0 <= PX (Z.of_nat (S k)) va < 512) by (apply PX_range; lia).
  set (i := PX (Z.of_nat (S k)) va) in *.
  assert (Hlok : Forall page_ok l).
  { apply Forall_forall. intros q Hq. by eapply flist_page_ok; [apply Hwf|]. }
  pose proof Hnd as Hnd0. apply NoDup_app in Hnd0 as (HndT & HndD & HndL).
  cbn [walk_loop]. fold i. erewrite bind_Ret by reflexivity. fold (entry (phys s) pt i).
  destruct (has (entry (phys s) pt i) PTE_V) eqn:Hv.
  - destruct (IH (PTE2PA (entry (phys s) pt i)) s l) as (r & s' & E & Hpost); [done| | |].
    + apply NoDup_app. split; [|split; [|done]].
      * pose proof (NoDup_child k (phys s) pt i Hi HndT) as Hc. unfold child in Hc. by rewrite Hv in Hc.
      * intros p Hp. apply HndD. by apply (tp_child k (phys s) pt i).
    + apply Forall_forall. intros p Hp. rewrite Forall_forall in Hok. apply Hok. by apply (tp_child k (phys s) pt i).
    + exists r, s'. split; [done|]. by apply walk_old_child.
  - cbn [negb]. destruct l as [|p l].
    { erewrite bind_Ret by (by apply (kalloc_nil kend)). exists 0, s. split; [done|].
      exists [], []. rewrite !app_nil_r. split; [done|]. split; [cbn; lia|]. do 6 (split; [done|]). by left. }
    destruct (kalloc_cons kend Hkend s p l Hwf) as (s1 & E1 & Hwf1 & Hp & Hpl & Hm1).
    erewrite bind_Ret by exact E1. pose proof (page_ok_pos kend Hkend p Hp) as Hppos.
    destruct (Z.eqb_spec p 0); [lia|].
    assert (Hptn : pt ∉ p :: l) by (apply HndD, tp_self).
    assert (Hpt : page_ok pt) by (rewrite Forall_forall in Hok; apply Hok, tp_self).
    assert (Hz : zero_page (phys (link_page s1 pt i p)) p) by (apply link_zero; [done..|intros ->; apply Hptn; left]).
    destruct (IH p (link_page s1 pt i p) l) as (r & s' & E & Hpost).
    { apply link_kwf; try done; [intros ->; apply Hptn; left|intros Hin; apply Hptn; by right]. }
    { rewrite zero_page_tp by done. done. }
    { rewrite zero_page_tp by done. by apply Forall_singleton. }
    exists r, s'. split; [exact E|]. by apply (walk_new_child k pt va s s1 p l r s').
Qed.

(** ** Well-formed tables, and writing a leaf entry *)

(** The table at [root] and the free list [l] own disjoint pages. *)
Definition ptwf (s : kmem) (root : Z) (l : list Z) : Prop :=
  kwf kend s l /\ NoDup (tp 2 (phys s) root ++ l) /\ Forall page_ok (tp 2 (phys s) root).

Lemma wk_same_page lvl m pt va va' :
  va / 4096 = va' / 4096 -> wk lvl m pt va = wk lvl m pt va'.
Proof.
  intros H. assert (HPX : forall j, 0 <= j -> PX j va = PX j va').
  { intros j Hj. rewrite <- (PX_page j va), <- (PX_page j va') by done. by rewrite H. }
  revert pt. induction lvl as [|l IH]; intros pt; cbn [wk].
  - by rewrite HPX by lia.
  - rewrite HPX by lia. destruct (has _ _); [apply IH|done].
Qed.

Lemma leaf_page s root va a l :
  ptwf s root l -> wk 2 (phys s) root va = Some a ->
  exists p, p ∈ lp 2 (phys s) root /\ page_ok p /\ a = p + 8 * PX 0 va.
Proof.
  intros (_ & _ & Hok) Ha. destruct (wk_in_lp _ _ _ _ _ Ha) as (p & Hp & ->).
  exists p. split; [done|]. split; [|done]. rewrite Forall_forall in Hok.
  apply Hok. by apply lp_tp.
Qed.

Section SetLeaf.
Context (s : kmem) (root va a v : Z) (l : list Z).
Hypothesis Hwf : ptwf s root l.
Hypothesis Hva : 0 <= va < MAXVA.
Hypothesis Ha : wk 2 (phys s) root va = Some a.
Let s' := set_phys (store64 (phys s) a v) s.

Lemma set_leaf_load8 x : ~ (a <= x < a + 8) -> load8 (phys s') x = load8 (phys s) x.
Proof. intros. by apply load8_store64_out. Qed.

Lemma set_leaf_interior : same_on (ip 2 (phys s) root) (phys s) (phys s').
Proof.
  intros q x Hq Hx. apply set_leaf_load8. intros Hax.
  destruct (leaf_page s root va a l Hwf Ha) as (p & Hp & Hpok & ->). pose proof (PX_range 0 va).
  destruct Hwf as (_ & Hnd & Hok). rewrite Forall_forall in Hok.
  assert (p = q) as ->.
  { apply (page_disjoint kend p q x); [done|by apply Hok, ip_tp| |done]. unfold in_page. lia. }
  apply NoDup_app in Hnd as (Hnd & _). apply NoDup_app in Hnd as (_ & Hdis & _).
  by apply (Hdis q).
Qed.

Lemma set_leaf_shape :
  ip 2 (phys s') root = ip 2 (phys s) root /\ lp 2 (phys s') root = lp 2 (phys s) root /\
  (forall va', wk 2 (phys s') root va' = wk 2 (phys s) root va').
Proof. apply table_frame, set_leaf_interior. Qed.

Lemma set_leaf_tp : tp 2 (phys s') root = tp 2 (phys s) root.
Proof. destruct set_leaf_shape as (H1 & H2 & _). unfold tp. by rewrite H1, H2. Qed.

Lemma set_leaf_ptwf : ptwf s' root l.
Proof.
  destruct (leaf_page s root va a l Hwf Ha) as (p & Hp & Hpok & Hae). pose proof (PX_range 0 va).
  destruct Hwf as (Hk & Hnd & Hok). split; [|by rewrite set_leaf_tp].
  apply (kwf_phys_frame kend s (phys s')); [done|]. intros q x Hq Hx.
  apply set_leaf_load8. intros Hax.
  assert (p = q) as ->.
  { apply (page_disjoint kend p q x); [done| | |done].
    - eapply flist_page_ok; [apply Hk|done].
    - unfold in_page. lia. }
  apply NoDup_app in Hnd as (_ & Hdis & _). apply (Hdis q); [by apply lp_tp|done].
Qed.

Lemma set_leaf_other_addr va' a' :
  0 <= va' < MAXVA -> wk 2 (phys s) root va' = Some a' -> va' / 4096 <> va / 4096 ->
  a + 8 <= a' \/ a' + 8 <= a.
Proof.
  intros Hva' Ha' Hne. destruct (leaf_page s root va a l Hwf Ha) as (p & Hp & Hpok & Hae).
  destruct (wk_in_lp _ _ _ _ _ Ha') as (p' & Hp' & Hae').
  destruct Hwf as (_ & Hnd & Hok). rewrite Forall_forall in Hok.
  assert (Hpok' : page_ok p') by (by apply Hok, lp_tp).
  pose proof (PX_range 0 va) as Hr. pose proof (PX_range 0 va') as Hr'.
  destruct (decide (p = p')) as [<-|Hpp].
  - destruct (decide (PX 0 va = PX 0 va')) as [H0|]; [|lia]. exfalso. apply Hne.
    assert (HPX : forall j, 1 <= j <= Z.of_nat 2 -> PX j va' = PX j va).
    { apply (wk_inj 2 (phys s) root va' va p).
      - by apply NoDup_app in Hnd as [? _].
      - by rewrite Ha', Hae'.
      - by rewrite Ha, Hae.
      - intros q Hq. apply (Hok q Hq).
      - apply Hpok. }
    apply va_page_inj; try done; apply HPX; lia.
  - destruct Hpok as [Hpa _], Hpok' as [Hpa' _]. clear -Hpa Hpa' Hpp Hae Hae' Hr Hr'.
    Z.div_mod_to_equations. lia.
Qed.

Lemma set_leaf_leaf va' : 0 <= va' < MAXVA ->
  leaf (phys s') root va' =
    if decide (va' / 4096 = va / 4096) then u64 v else leaf (phys s) root va'.
Proof.
  intros Hva'. unfold leaf, leaf_at.
  destruct set_leaf_shape as (_ & _ & Hwk). rewrite Hwk.
  case_decide as Hc.
  - rewrite (wk_same_page _ _ _ _ _ Hc), Ha. apply load64_store64_eq.
  - destruct (wk 2 (phys s) root va') as [a'|] eqn:Ha'; [|done].
    apply load64_store64_ne. by eapply set_leaf_other_addr.
Qed.
End SetLeaf.

(** Writes outside the table's pages change neither its shape nor a mapping. *)
Lemma tp_same m m' root :
  same_on (tp 2 m root) m m' ->
  tp 2 m' root = tp 2 m root /\ (forall va, leaf m' root va = leaf m root va) /\
  (forall va, wk 2 m' root va = wk 2 m root va).
Proof.
  intros H. assert (Hs : same_on (ip 2 m root) m m')
    by (eapply same_on_sub; [apply ip_tp|exact H]).
  apply table_frame in Hs as (H1 & H2 & H3).
  split; [unfold tp; by rewrite H1, H2|]. split; [|done].
  intros va. unfold leaf, leaf_at. rewrite H3.
  destruct (wk 2 m root va) as [a|] eqn:Ha; [|done].
  destruct (wk_in_lp _ _ _ _ _ Ha) as (p & Hp & ->).
  apply load64_ext. intros x Hx. apply (H p); [by apply lp_tp|].
  pose proof (PX_range 0 va). unfold in_page. lia.
Qed.

(** ** Growing a table

    [grow]: the table took the pages [used] from the free list and wrote
    only to its own pages. *)
Definition grow (root : Z) (s : kmem) (l : list Z) (s' : kmem) (l' : list Z) : Prop :=
  exists used, l = used ++ l' /\ ptwf s' root l' /\
    tp 2 (phys s') root ≡ₚ tp 2 (phys s) root ++ used /\
    (forall x, (forall p, p ∈ tp 2 (phys s) root ++ used -> ~ in_page p x) ->
       load8 (phys s') x = load8 (phys s) x) /\
    (tidy (phys s) root -> tidy (phys s') root).

Lemma grow_refl root s l : ptwf s root l -> grow root s l s l.
Proof. intros H. exists []. by rewrite app_nil_r. Qed.

Lemma grow_trans root s1 l1 s2 l2 s3 l3 :
  grow root s1 l1 s2 l2 -> grow root s2 l2 s3 l3 -> grow root s1 l1 s3 l3.
Proof.
  intros (u1 & -> & _ & Htp1 & Hm1 & Ht1) (u2 & -> & Hwf & Htp2 & Hm2 & Ht2).
  exists (u1 ++ u2). split; [by rewrite app_assoc|]. split; [done|].
  split; [by rewrite Htp2, Htp1, app_assoc|]. split; [|auto].
  intros x Hx. rewrite Hm2; [apply Hm1|].
  - intros p Hp. apply Hx. rewrite app_assoc. apply elem_of_app. by left.
  - intros p Hp. apply Hx. rewrite Htp1, <- app_assoc in Hp. done.
Qed.

Lemma grow_ptwf root s l s' l' : grow root s l s' l' -> ptwf s' root l'.
Proof. by intros (? & _ & ? & _). Qed.

Lemma set_leaf_grow s root va a v l :
  ptwf s root l -> wk 2 (phys s) root va = Some a ->
  grow root s l (set_phys (store64 (phys s) a v) s) l.
Proof.
  intros Hwf Ha. exists []. split; [done|]. split; [by eapply set_leaf_ptwf|].
  rewrite app_nil_r. split; [by erewrite set_leaf_tp|].
  split; [|apply tidy_frame; by eapply set_leaf_interior].
  intros x Hx. destruct (leaf_page s root va a l Hwf Ha) as (p & Hp & _ & ->).
  apply load8_store64_out. intros Hax. apply (Hx p); [by apply lp_tp|].
  pose proof (PX_range 0 va). unfold in_page. lia.
Qed.

(** walk() with allocation: no mapping changes; it fails only when the free
    list is exhausted. *)
Lemma walk_alloc s root va l :
  ptwf s root l -> 0 <= va < MAXVA ->
  exists r s' l', walk root va true s = Ret r s' /\ grow root s l s' l' /\ (length l <= length l' + 2)%nat /\
    (forall va', leaf (phys s') root va' = leaf (phys s) root va') /\
    ((r = 0 /\ l' = []) \/ (r <> 0 /\ wk 2 (phys s') root va = Some r)).
Proof.
  intros (Hk & Hnd & Hok) Hva. unfold walk. destruct (Z.leb_spec MAXVA va); [lia|].
  destruct (walk_loop_alloc 2 root va s l Hk Hnd Hok)
    as (r & s' & E & used & l' & -> & Hlen & Hwf' & Htp & Hm & Hleaf & Hptr & Hent & Hr).
  assert (Hlok : Forall page_ok (used ++ l')).
  { apply Forall_forall. intros q Hq. by eapply flist_page_ok; [apply Hk|]. }
  assert (Hwf2 : ptwf s' root l').
  { split; [done|]. split.
    - by rewrite Htp, <- app_assoc.
    - rewrite Htp. apply Forall_app. split; [done|]. by apply Forall_app in Hlok as [? _]. }
  exists r, s', l'. split; [done|]. split; [|split; [rewrite length_app; lia|split; [done|]]].
  - exists used. split; [done|]. split; [done|]. split; [done|]. split.
    2: { intros [Hp Hu]. split; [by apply Hptr|]. intros i Hi. rewrite Hent; [by apply Hu|lia|].
         pose proof (PX_MAXVA va Hva). change (Z.of_nat 2) with 2. lia. }
    intros x Hx. apply Hm. intros p Hp. apply Hx.
    apply elem_of_app in Hp as [Hp|Hp]; apply elem_of_app; [left|by right]. by apply ip_tp.
  - destruct Hr as [Hr|Hr]; [by left|right]. split; [|done].
    destruct (leaf_page s' root va r l' Hwf2 Hr) as (p & _ & Hp & ->).
    apply page_ok_pos in Hp; [|done]. pose proof (PX_range 0 va). lia.
Qed.

Lemma walk_lookup s root va :
  0 <= va < MAXVA ->
  walk root va false s =
    Ret (match wk 2 (phys s) root va with Some a => a | None => 0 end) s.
Proof.
  intros. unfold walk. destruct (Z.leb_spec MAXVA va); [lia|]. apply walk_loop_lookup.
Qed.

(** ** mappages() *)

(** The entry mappages() writes for the page at [pa]. *)
Definition map_pte (pa perm : Z) : Z := Z.lor (Z.lor (PA2PTE pa) perm) PTE_V.

Lemma map_pte_mk pa perm : map_pte pa perm = mk_pte pa (Z.lor perm PTE_V).
Proof. unfold map_pte, mk_pte. by rewrite Z.lor_assoc. Qed.

Lemma perm_V_range perm : 0 <= perm < 1024 -> 0 <= Z.lor perm PTE_V < 1024.
Proof. intros. by apply (lor_bound _ _ 10). Qed.

Lemma map_pte_range pa perm :
  0 <= pa < 2 ^ 56 -> pa mod 4096 = 0 -> 0 <= perm < 1024 -> 0 <= map_pte pa perm < 2 ^ 54.
Proof. intros. rewrite map_pte_mk. apply mk_pte_range; try done. by apply perm_V_range. Qed.

Lemma map_pte_valid pa perm : has (map_pte pa perm) PTE_V = true.
Proof. unfold map_pte. rewrite has_lor. apply orb_true_r. Qed.

Lemma map_pte_pa pa perm :
  0 <= pa < 2 ^ 56 -> pa mod 4096 = 0 -> 0 <= perm < 1024 -> PTE2PA (map_pte pa perm) = pa.
Proof. intros. rewrite map_pte_mk. apply PTE2PA_mk_pte; try done. by apply perm_V_range. Qed.

Lemma map_pte_flags pa perm :
  0 <= pa < 2 ^ 56 -> pa mod 4096 = 0 -> 0 <= perm < 1024 ->
  PTE_FLAGS (map_pte pa perm) = Z.lor perm PTE_V.
Proof. intros. rewrite map_pte_mk. apply PTE_FLAGS_mk_pte; try done. by apply perm_V_range. Qed.

(** The mapping [f] with the [k] pages from [a] on sent to [pa] on. *)
Definition map_range (f : Z -> Z) (a pa perm k va : Z) : Z :=
  if decide (a <= va < a + 4096 * k)
  then map_pte (pa + (va / 4096 * 4096 - a)) perm else f va.

Lemma mappages_loop_spec fuel n a pa perm s root l :
  (n < fuel)%nat -> ptwf s root l ->
  a mod 4096 = 0 -> 0 <= a -> a + 4096 * (Z.of_nat n + 1) <= MAXVA ->
  pa mod 4096 = 0 -> 0 <= pa -> pa + 4096 * (Z.of_nat n + 1) <= 2 ^ 56 ->
  0 <= perm < 1024 ->
  (forall va, a <= va < a + 4096 * (Z.of_nat n + 1) -> has (leaf (phys s) root va) PTE_V = false) ->
  exists r s' l' k, mappages_loop fuel root a (a + 4096 * Z.of_nat n) pa perm s = Ret r s' /\
    grow root s l s' l' /\ (length l <= length l' + 2 * S n)%nat /\
    (forall va, 0 <= va < MAXVA ->
       leaf (phys s') root va = map_range (leaf (phys s) root) a pa perm k va) /\
    ((r = 0 /\ k = Z.of_nat n + 1) \/ (r = -1 /\ 0 <= k <= Z.of_nat n /\ l' = [])).
Proof.
  revert n a pa s l. induction fuel as [|fuel IH];
    intros n a pa s l Hf Hwf Ha Ha0 Hamax Hpa Hpa0 Hpamax Hperm Hun; [lia|].
  cbn [mappages_loop].
  destruct (walk_alloc s root a l Hwf) as (p & s1 & l1 & E1 & Hg1 & Hn1 & Hl1 & Hp); [lia|].
  erewrite bind_Ret by exact E1.
  destruct Hp as [[-> ->]|[Hp0 Hp]].
  { exists (-1), s1, [], 0. split; [done|]. split; [done|]. split; [lia|]. split.
    - intros va Hva. unfold map_range. rewrite decide_False by lia. apply Hl1.
    - right. split; [done|]. split; [lia|done]. }
  destruct (Z.eqb_spec p 0); [done|].
  erewrite bind_Ret by reflexivity.
  assert (Hle : leaf (phys s1) root a = load64 (phys s1) p)
    by (unfold leaf, leaf_at; by rewrite Hp).
  rewrite <- Hle, Hl1, Hun by lia.
  erewrite bind_Ret by reflexivity. fold (map_pte pa perm).
  set (s2 := set_phys (store64 (phys s1) p (map_pte pa perm)) s1).
  pose proof (grow_ptwf _ _ _ _ _ Hg1) as Hwf1.
  assert (Hg2 : grow root s l s2 l1).
  { eapply grow_trans; [exact Hg1|]. by eapply set_leaf_grow. }
  pose proof (grow_ptwf _ _ _ _ _ Hg2) as Hwf2.
  assert (Hu : u64 (map_pte pa perm) = map_pte pa perm).
  { apply u64_small. pose proof (map_pte_range pa perm) as Hr.
    change (2 ^ 54) with 18014398509481984 in Hr.
    change (2 ^ 64) with 18446744073709551616. lia. }
  assert (Hl2 : forall va, 0 <= va < MAXVA ->
            leaf (phys s2) root va = map_range (leaf (phys s) root) a pa perm 1 va).
  { intros va Hva. unfold s2. rewrite (set_leaf_leaf s1 root a p _ l1) by (done || lia).
    unfold map_range. rewrite Hu. repeat case_decide.
    - f_equal. revert H H0 Ha. clear. intros. Z.div_mod_to_equations. lia.
    - exfalso. revert H H0 Ha. clear. intros. Z.div_mod_to_equations. lia.
    - exfalso. revert H H0 Ha. clear. intros. Z.div_mod_to_equations. lia.
    - apply Hl1. }
  destruct (Z.eqb_spec a (a + 4096 * Z.of_nat n)) as [Hn|Hn].
  { exists 0, s2, l1, 1. split; [done|]. split; [done|]. split; [lia|]. split; [done|]. left. lia. }
  destruct n as [|n]; [lia|].
  change PGSIZE with 4096. change MAXVA with 274877906944 in *.
  change (2 ^ 56) with 72057594037927936 in *.
  rewrite !u64_small by (change (2 ^ 64) with 18446744073709551616; lia).
  destruct (IH n (a + 4096) (pa + 4096) s2 l1) as (r & s3 & l3 & k & E3 & Hg3 & Hn3 & Hl3 & Hr3);
    try done; try lia.
  { revert Ha. clear. intros. Z.div_mod_to_equations. lia. }
  { revert Hpa. clear. intros. Z.div_mod_to_equations. lia. }
  { intros va Hva. rewrite Hl2 by lia. unfold map_range. rewrite decide_False by lia.
    apply Hun. lia. }
  exists r, s3, l3, (k + 1). split.
  { rewrite <- E3. f_equal. lia. }
  split; [by eapply grow_trans|]. split; [lia|]. split; [|naive_solver lia].
  intros va Hva. rewrite Hl3 by done. unfold map_range. rewrite Hl2 by done.
  unfold map_range. repeat case_decide; try lia; try done; f_equal; lia.
Qed.

Lemma mappages_spec (s : kmem) (root va size pa perm : Z) (l : list Z) :
  ptwf s root l ->
  0 <= va -> 0 < size -> va + size <= MAXVA ->
  pa mod 4096 = 0 -> 0 <= pa -> pa + size + 8192 <= 2 ^ 56 -> 0 <= perm < 1024 ->
  (forall w, PGROUNDDOWN va <= w < va + size -> has (leaf (phys s) root w) PTE_V = false) ->
  let a := PGROUNDDOWN va in
  let n := (va + size - 1) / 4096 - va / 4096 + 1 in
  exists r s' l' k, mappages root va size pa perm s = Ret r s' /\
    grow root s l s' l' /\ Z.of_nat (length l) <= Z.of_nat (length l') + 2 * n /\
    (forall w, 0 <= w < MAXVA ->
       leaf (phys s') root w = map_range (leaf (phys s) root) a pa perm k w) /\
    ((r = 0 /\ k = n) \/ (r = -1 /\ 0 <= k < n /\ l' = [])).
Proof.
  intros Hwf Hva Hsz Hmax Hpa Hpa0 Hpamax Hperm Hun a n.
  change MAXVA with 274877906944 in *. change (2 ^ 56) with 72057594037927936 in *.
  assert (Ha : a = va / 4096 * 4096).
  { apply PGROUNDDOWN_eq. change (2 ^ 64) with 18446744073709551616. lia. }
  assert (Hlast : PGROUNDDOWN (u64 (va + size - 1)) = a + 4096 * Z.of_nat (Z.to_nat (n - 1))).
  { rewrite u64_small by (change (2 ^ 64) with 18446744073709551616; lia).
    rewrite PGROUNDDOWN_eq by (change (2 ^ 64) with 18446744073709551616; lia).
    unfold n. rewrite Ha. Z.div_mod_to_equations. lia. }
  unfold mappages. destruct (Z.eqb_spec size 0); [lia|]. fold a. rewrite Hlast.
  assert (Hava : 0 <= a <= va) by (rewrite Ha; Z.div_mod_to_equations; lia).
  assert (Hn : 1 <= n) by (unfold n; Z.div_mod_to_equations; lia).
  assert (Hns : 4096 * n <= size + 4095 + (va - a)).
  { unfold n. rewrite Ha. Z.div_mod_to_equations. lia. }
  assert (Hna : a + 4096 * n <= 274877906944).
  { unfold n. rewrite Ha. Z.div_mod_to_equations. lia. }
  destruct (mappages_loop_spec (map_fuel a (a + 4096 * Z.of_nat (Z.to_nat (n - 1))))
              (Z.to_nat (n - 1)) a pa perm s root l)
    as (r & s' & l' & k & E & Hg & Hlen & Hl & Hr); try done; try lia.
  - unfold map_fuel. destruct (Z.ltb_spec (a + 4096 * Z.of_nat (Z.to_nat (n - 1))) a); [lia|].
    change PGSIZE with 4096. replace (a + 4096 * Z.of_nat (Z.to_nat (n - 1)) - a)
      with (Z.of_nat (Z.to_nat (n - 1)) * 4096) by lia.
    rewrite Z.div_mul by lia. lia.
  - rewrite Ha. apply Z.mod_mul. lia.
  - change MAXVA with 274877906944. lia.
  - change (2 ^ 56) with 72057594037927936.
    unfold n in *. revert Hpamax Hpa0 Hsz. clear. intros. Z.div_mod_to_equations. lia.
  - intros w Hw.
    destruct (decide (w < va + size)) as [Hlt|Hge]; [apply Hun; lia|].
    assert (Hpg : w / 4096 = (va + size - 1) / 4096).
    { unfold n in *. revert Hw Hge Hlast Hn Ha. clear. intros. Z.div_mod_to_equations. lia. }
    unfold leaf, leaf_at. rewrite (wk_same_page _ _ _ _ _ Hpg).
    apply (Hun (va + size - 1)). fold a. lia.
  - exists r, s', l', k. split; [done|]. split; [done|]. split; [lia|]. split; [done|].
    destruct Hr as [[-> ->]|(-> & Hk & ->)]; [left|right]; (split; [done|]); [lia|].
    split; [lia|done].
Qed.

(** C5: mappages() on a well-formed table with the range unmapped.  It
    returns 0 and then every page the byte range [va, va+size) touches maps
    to the corresponding page from [pa] on with the given permissions, or
    it returns -1 and then memory is exhausted and only a proper prefix of
    the range is mapped.  In both cases no other mapping changes, the
    table stays well formed, the pages it gained come off the free list,
    and no byte outside the table's own pages is written. *)
Theorem mappages_correct (s : kmem) (root va size pa perm : Z) (l : list Z) :
  ptwf s root l ->
  0 <= va -> 0 < size -> va + size <= MAXVA ->
  pa mod 4096 = 0 -> 0 <= pa -> pa + size + 8192 <= 2 ^ 56 -> 0 <= perm < 1024 ->
  (forall w, PGROUNDDOWN va <= w < va + size -> has (leaf (phys s) root w) PTE_V = false) ->
  let a := PGROUNDDOWN va in
  let n := (va + size - 1) / 4096 - va / 4096 + 1 in
  exists r s' l' k, mappages root va size pa perm s = Ret r s' /\
    grow root s l s' l' /\
    (forall w, 0 <= w < MAXVA ->
       leaf (phys s') root w = map_range (leaf (phys s) root) a pa perm k w) /\
    ((r = 0 /\ k = n) \/ (r = -1 /\ 0 <= k < n /\ l' = [])).
Proof.
  intros. destruct (mappages_spec s root va size pa perm l) as (r & s' & l' & k & E & Hg & _ & Hl & Hr); try done.
  by exists r, s', l', k.
Qed.
End PageTable.

(** The pages of a table are reasoned about through the lemmas above. *)
#[global] Opaque tp.

(** ** A concrete table: an empty root page and three free pages *)

Module TinyTable.
Definition tend : Z := PHYSTOP - 16384.
Definition root : Z := PHYSTOP - 4096.
Definition p1 : Z := PHYSTOP - 8192.
Definition p2 : Z := PHYSTOP - 12288.
Definition p3 : Z := PHYSTOP - 16384.
Definition st : kmem :=
  Kmem (store64 (store64 (store64 ∅ p1 p2) p2 p3) p3 0) p1 false.

Lemma root_zero : zero_page (phys st) root.
Proof.
  intros x Hx. unfold st, in_page in *. cbn [phys].
  rewrite !load8_store64_out by (unfold root, p1, p2, p3 in *; lia). done.
Qed.

Lemma TinyTable_wf : ptwf tend st root [p1; p2; p3].
Proof.
  split; [|rewrite zero_page_tp by exact root_zero; split].
  - split; [|split; [|done]].
    + vm_compute. intuition congruence.
    + refine (bool_decide_unpack (NoDup _) _). vm_compute. exact I.
  - refine (bool_decide_unpack (NoDup _) _). vm_compute. exact I.
  - apply Forall_singleton. vm_compute. intuition congruence.
Qed.
End TinyTable.

Lemma mappages_correct_witness :
  exists r s' l' k, mappages TinyTable.root 0 4096 KERNBASE 6 TinyTable.st = Ret r s' /\
    grow TinyTable.tend TinyTable.root TinyTable.st [TinyTable.p1; TinyTable.p2; TinyTable.p3] s' l' /\
    (forall w, 0 <= w < MAXVA ->
       leaf (phys s') TinyTable.root w =
         map_range (leaf (phys TinyTable.st) TinyTable.root) (PGROUNDDOWN 0) KERNBASE 6 k w) /\
    ((r = 0 /\ k = (0 + 4096 - 1) / 4096 - 0 / 4096 + 1) \/
     (r = -1 /\ 0 <= k < (0 + 4096 - 1) / 4096 - 0 / 4096 + 1 /\ l' = [])).
Proof.
  apply (mappages_correct TinyTable.tend ltac:(done) TinyTable.st TinyTable.root 0 4096 KERNBASE 6
           [TinyTable.p1; TinyTable.p2; TinyTable.p3] TinyTable.TinyTable_wf); try done.
  intros w _. unfold leaf. rewrite zero_page_leaf; [done|].
  exact TinyTable.root_zero.
Defined.
