(* ===== verification/Uvm.v ===== *)
(** * kernel/vm.c: user memory

    Growing, shrinking, copying and freeing a user address space, and the
    copies between kernel and user memory.  A kernel buffer outside the page
    allocator's memory (a local variable, a cached disk block) is a list of
    bytes: [copyout] takes the bytes at [src], [copyin] returns the bytes it
    has put at [dst] along with its result. *)

From Stdlib Require Import ZArith Lia.
From stdpp Require Import base numbers list list_numbers gmap strings sorting.
From S2P Require Import Prelude Cstring Riscv Kalloc Vm PageTable.

Definition k_write (a : Z) (bs : list Z) : M kmem unit :=
  modify (fun s => set_phys (storen (phys s) a bs) s).
Definition k_read (a : Z) (n : Z) : M kmem (list Z) :=
  gets (fun s => loadn (phys s) a (Z.to_nat n)).

Section Uvm.
Context (kend : Z).

Definition uvmfirst (pagetable : Z) (src : list Z) (sz : Z) : M kmem unit :=
  if PGSIZE <=? sz then panic "uvmfirst: more than a page"
  else
    let* mem := kalloc in
    k_memset mem 0 PGSIZE ;;
    mappages pagetable 0 PGSIZE mem (Z.lor (Z.lor (Z.lor PTE_W PTE_R) PTE_X) PTE_U) ;;
    k_write mem (take (Z.to_nat sz) src).

Definition uvmdealloc (pagetable oldsz newsz : Z) : M kmem Z :=
  if oldsz <=? newsz then ret oldsz
  else
    (if PGROUNDUP newsz <? PGROUNDUP oldsz
     then
       let npages := s32 ((PGROUNDUP oldsz - PGROUNDUP newsz) / PGSIZE) in
       uvmunmap kend pagetable (PGROUNDUP newsz) npages true
     else ret tt) ;;
    ret newsz.

Fixpoint uvmalloc_loop (fuel : nat) (pagetable oldsz newsz a xperm : Z) : M kmem Z :=
  match fuel with
  | O => panic "uvmalloc: fuel"
  | S k =>
      if a <? newsz
      then
        let* mem := kalloc in
        if mem =? 0
        then uvmdealloc pagetable a oldsz ;; ret 0
        else
          k_memset mem 0 PGSIZE ;;
          let* r := mappages pagetable a PGSIZE mem (Z.lor (Z.lor PTE_R PTE_U) xperm) in
          if negb (r =? 0)
          then kfree kend mem ;; uvmdealloc pagetable a oldsz ;; ret 0
          else uvmalloc_loop k pagetable oldsz newsz (u64 (a + PGSIZE)) xperm
      else ret newsz
  end.

Definition uvmalloc (pagetable oldsz newsz xperm : Z) : M kmem Z :=
  if newsz <? oldsz then ret oldsz
  else
    let oldsz := PGROUNDUP oldsz in
    uvmalloc_loop (S (Z.to_nat ((newsz - oldsz + PGSIZE - 1) / PGSIZE)))
      pagetable oldsz newsz oldsz xperm.

Fixpoint uvmcopy_loop (fuel : nat) (old new sz i : Z) : M kmem Z :=
  match fuel with
  | O => panic "uvmcopy: fuel"
  | S k =>
      if i <? sz
      then
        let err := uvmunmap kend new 0 (i / PGSIZE) true ;; ret (-1) in
        let* pte := walk old i false in
        if pte =? 0 then panic "uvmcopy: pte should exist"
        else
          let* e := k_load64 pte in
          if negb (has e PTE_V) then panic "uvmcopy: page not present"
          else
            let pa := PTE2PA e in
            let flags := PTE_FLAGS e in
            let* mem := kalloc in
            if mem =? 0 then err
            else
              k_memmove mem pa PGSIZE ;;
              let* r := mappages new i PGSIZE mem flags in
              if negb (r =? 0) then kfree kend mem ;; err
              else uvmcopy_loop k old new sz (u64 (i + PGSIZE))
      else ret 0
  end.

Definition uvmcopy (old new sz : Z) : M kmem Z :=
  uvmcopy_loop (S (Z.to_nat ((sz + PGSIZE - 1) / PGSIZE))) old new sz 0.
End Uvm.

(** At least one byte per iteration. *)
Fixpoint copyout_loop (fuel : nat) (pagetable dstva : Z) (src : list Z) : M kmem Z :=
  match fuel with
  | O => panic "copyout: fuel"
  | S k =>
      let len := zlen src in
      if 0 <? len
      then
        let va0 := PGROUNDDOWN dstva in
        let* pa0 := walkaddr pagetable va0 in
        if pa0 =? 0 then ret (-1)
        else
          let n := Z.min (PGSIZE - (dstva - va0)) len in
          k_write (pa0 + (dstva - va0)) (take (Z.to_nat n) src) ;;
          copyout_loop k pagetable (u64 (va0 + PGSIZE)) (drop (Z.to_nat n) src)
      else ret 0
  end.

Definition copyout (pagetable dstva : Z) (src : list Z) : M kmem Z :=
  copyout_loop (S (length src)) pagetable dstva src.

Fixpoint copyin_loop (fuel : nat) (pagetable : Z) (dst : list Z) (srcva len : Z)
    : M kmem (Z * list Z) :=
  match fuel with
  | O => panic "copyin: fuel"
  | S k =>
      if 0 <? len
      then
        let va0 := PGROUNDDOWN srcva in
        let* pa0 := walkaddr pagetable va0 in
        if pa0 =? 0 then ret (-1, dst)
        else
          let n := Z.min (PGSIZE - (srcva - va0)) len in
          let* bs := k_read (pa0 + (srcva - va0)) n in
          copyin_loop k pagetable (dst ++ bs) (u64 (va0 + PGSIZE)) (len - n)
      else ret (0, dst)
  end.

Definition copyin (pagetable srcva len : Z) : M kmem (Z * list Z) :=
  copyin_loop (S (Z.to_nat len)) pagetable [] srcva len.

(** The inner loop of copyinstr() over the bytes at [p]: what it stores and
    whether it met a NUL. *)
Fixpoint copystr_chunk (p : list Z) : list Z * bool :=
  match p with
  | [] => ([], false)
  | c :: p' =>
      if c =? 0 then ([0], true)
      else let '(d, got_null) := copystr_chunk p' in (c :: d, got_null)
  end.

Fixpoint copyinstr_loop (fuel : nat) (pagetable : Z) (dst : list Z) (srcva max : Z)
    : M kmem (Z * list Z) :=
  match fuel with
  | O => panic "copyinstr: fuel"
  | S k =>
      if 0 <? max
      then
        let va0 := PGROUNDDOWN srcva in
        let* pa0 := walkaddr pagetable va0 in
        if pa0 =? 0 then ret (-1, dst)
        else
          let n := Z.min (PGSIZE - (srcva - va0)) max in
          let* bs := k_read (pa0 + (srcva - va0)) n in
          let '(d, got_null) := copystr_chunk bs in
          if got_null then ret (0, dst ++ d)
          else copyinstr_loop k pagetable (dst ++ d) (u64 (va0 + PGSIZE)) (max - n)
      else ret (-1, dst)
  end.

Definition copyinstr (pagetable srcva max : Z) : M kmem (Z * list Z) :=
  copyinstr_loop (S (Z.to_nat max)) pagetable [] srcva max.

(** ** Unmapping *)

Section UnmapProofs.
Context (kend : Z).
Hypothesis Hkend : KERNBASE <= kend.
Notation page_ok := (page_ok kend).
Notation ptwf := (ptwf kend).

(** The values of [f] at [n] consecutive pages. *)
Fixpoint at_pages (f : Z -> Z) (a : Z) (n : nat) : list Z :=
  match n with
  | O => []
  | S k => f a :: at_pages f (a + 4096) k
  end.

Lemma at_pages_ext f g a n :
  (forall i, 0 <= i < Z.of_nat n -> f (a + 4096 * i) = g (a + 4096 * i)) ->
  at_pages f a n = at_pages g a n.
Proof.
  revert a. induction n as [|n IH]; intros a H; [done|]. simpl. f_equal.
  - specialize (H 0). rewrite Z.mul_0_r, Z.add_0_r in H. apply H. lia.
  - apply IH. intros i Hi. specialize (H (i + 1)).
    replace (a + 4096 * (i + 1)) with (a + 4096 + 4096 * i) in H by lia. apply H. lia.
Qed.

Lemma length_at_pages f a n : length (at_pages f a n) = n.
Proof. revert a. induction n; intros; simpl; auto. Qed.

Lemma elem_of_at_pages f a n p :
  p ∈ at_pages f a n <-> exists i, 0 <= i < Z.of_nat n /\ p = f (a + 4096 * i).
Proof.
  revert a. induction n as [|n IH]; intros a; simpl.
  - split; [by intros ?%elem_of_nil|]. intros (i & Hi & _). lia.
  - rewrite elem_of_cons, IH. split.
    + intros [->|(i & Hi & ->)].
      * exists 0. split; [lia|]. f_equal. lia.
      * exists (i + 1). split; [lia|]. f_equal. lia.
    + intros (i & Hi & ->). destruct (decide (i = 0)) as [->|].
      * left. f_equal. lia.
      * right. exists (i - 1). split; [lia|]. f_equal. lia.
Qed.

(** Freeing a page outside the table. *)
Lemma kfree_ptwf s root l p :
  ptwf s root l -> page_ok p -> p ∉ tp 2 (phys s) root -> p ∉ l ->
  exists s', kfree kend p s = Ret tt s' /\ ptwf s' root (p :: l) /\
    tp 2 (phys s') root = tp 2 (phys s) root /\
    (forall va, leaf (phys s') root va = leaf (phys s) root va) /\
    (forall va, wk 2 (phys s') root va = wk 2 (phys s) root va) /\
    (forall x, ~ in_page p x -> load8 (phys s') x = load8 (phys s) x).
Proof.
  intros (Hk & Hnd & Hok) Hp Ht Hl.
  destruct (kfree_cons kend Hkend s p l Hk Hp Hl) as (s' & E & Hk' & Hm).
  assert (Hs : same_on (tp 2 (phys s) root) (phys s) (phys s')).
  { intros q x Hq Hx. apply Hm. apply (page_not_self kend q p x); try done.
    - rewrite Forall_forall in Hok. by apply Hok.
    - by intros ->. }
  destruct (tp_same _ _ _ Hs) as (Htp & Hleaf & Hwk).
  exists s'. split; [done|]. split; [|done]. split; [done|]. rewrite Htp. split; [|done].
  apply NoDup_app in Hnd as (H1 & H2 & H3). apply NoDup_app. split; [done|]. split.
  - intros q Hq [->|Hq']%elem_of_cons; [done|]. by apply (H2 q).
  - by apply NoDup_cons.
Qed.

(** One iteration of uvmunmap() on a mapped leaf. *)
Lemma unmap_step k root a stop do_free s l :
  ptwf s root l -> 0 <= a < MAXVA -> a < stop ->
  let e := leaf (phys s) root a in
  has e PTE_V = true -> PTE_FLAGS e <> PTE_V ->
  (do_free = true -> page_ok (PTE2PA e) /\ PTE2PA e ∉ tp 2 (phys s) root /\ PTE2PA e ∉ l) ->
  exists s', uvmunmap_loop kend (S k) root a stop do_free s =
      uvmunmap_loop kend k root (u64 (a + PGSIZE)) stop do_free s' /\
    ptwf s' root ((if do_free then [PTE2PA e] else []) ++ l) /\
    tp 2 (phys s') root = tp 2 (phys s) root /\
    (forall va, 0 <= va < MAXVA -> leaf (phys s') root va =
       if decide (va / 4096 = a / 4096) then 0 else leaf (phys s) root va) /\
    (forall x, (forall p, p ∈ tp 2 (phys s) root ++ (if do_free then [PTE2PA e] else []) ->
       ~ in_page p x) -> load8 (phys s') x = load8 (phys s) x) /\
    same_on (ip 2 (phys s) root) (phys s) (phys s').
Proof.
  intros Hwf Ha Hstop e Hv Hfl Hfree.
  destruct (wk 2 (phys s) root a) as [pte|] eqn:Hpte.
  2: { unfold e, leaf, leaf_at in Hv. by rewrite Hpte, has_0 in Hv. }
  assert (Hpe : load64 (phys s) pte = e) by (unfold e, leaf, leaf_at; by rewrite Hpte).
  destruct (leaf_page kend s root a pte l Hwf Hpte) as (p & Hp & Hpok & Hpa).
  pose proof (page_ok_pos kend Hkend p Hpok). pose proof (PX_range 0 a).
  assert (Hrun : forall (s1 : kmem), (if do_free then kfree kend (PTE2PA e) else ret tt) s = Ret tt s1 ->
    uvmunmap_loop kend (S k) root a stop do_free s =
      uvmunmap_loop kend k root (u64 (a + PGSIZE)) stop do_free
        (set_phys (store64 (phys s1) pte 0) s1)).
  { intros s1 E1. cbn [uvmunmap_loop]. destruct (Z.leb_spec stop a); [lia|].
    erewrite bind_Ret by (by apply walk_lookup). rewrite Hpte.
    destruct (Z.eqb_spec pte 0); [lia|]. erewrite bind_Ret by reflexivity.
    rewrite Hpe, Hv. cbn [negb]. destruct (Z.eqb_spec (PTE_FLAGS e) PTE_V); [done|].
    erewrite bind_Ret by exact E1. by erewrite bind_Ret by reflexivity. }
  destruct do_free.
  - destruct (Hfree eq_refl) as (Hpe1 & Hpe2 & Hpe3).
    destruct (kfree_ptwf s root l (PTE2PA e) Hwf Hpe1 Hpe2 Hpe3)
      as (s1 & E1 & Hwf1 & Htp1 & Hl1 & Hw1 & Hm1).
    assert (Hpte1 : wk 2 (phys s1) root a = Some pte) by (by rewrite Hw1).
    assert (Hin1 : same_on (ip 2 (phys s) root) (phys s) (phys s1)).
    { intros q x Hq Hx. apply Hm1. apply ip_tp in Hq. destruct Hwf as (_ & _ & Hok0). rewrite Forall_forall in Hok0.
      apply (page_not_self kend q (PTE2PA e) x); try done; [by apply Hok0|by intros ->]. }
    eexists. split; [by apply Hrun|]. split; [by eapply set_leaf_ptwf|].
    split; [erewrite set_leaf_tp; [exact Htp1|exact Hwf1|exact Hpte1]|]. split; [|split].
    + intros va Hva. rewrite (set_leaf_leaf kend s1 root a pte 0 _ Hwf1 Ha Hpte1 va Hva).
      by rewrite Hl1.
    + intros x Hx. cbn [phys set_phys]. rewrite load8_store64_out.
      * apply Hm1. apply Hx. apply elem_of_app. right. left.
      * intros Hx'. apply (Hx p); [apply elem_of_app; left; by apply lp_tp|].
        unfold in_page. lia.
    + destruct (table_frame _ _ _ _ Hin1) as (Hip & _). intros q x Hq Hx. rewrite <- (Hin1 q x Hq Hx).
      eapply (set_leaf_interior kend s1 root a pte); [exact Hwf1|exact Hpte1|by rewrite Hip|done].
  - eexists. split; [by apply Hrun|]. split; [by eapply set_leaf_ptwf|].
    split; [by erewrite set_leaf_tp|]. split; [|split].
    + intros va Hva. by rewrite (set_leaf_leaf kend s root a pte 0 _ Hwf Ha Hpte va Hva).
    + intros x Hx. cbn [phys set_phys]. apply load8_store64_out.
      intros Hx'. apply (Hx p); [apply elem_of_app; left; by apply lp_tp|].
      unfold in_page. lia.
    + by eapply set_leaf_interior.
Qed.

(** The pages an unmap of [n] pages from [a] on hands back. *)
Definition freed (do_free : bool) (m : mem) (root a : Z) (n : nat) : list Z :=
  if do_free then at_pages (fun va => PTE2PA (leaf m root va)) a n else [].

Lemma freed_S do_free m root a n :
  freed do_free m root a (S n) =
    (if do_free then [PTE2PA (leaf m root a)] else []) ++ freed do_free m root (a + 4096) n.
Proof. by destruct do_free. Qed.

Lemma freed_ext do_free m m' root a n :
  (forall i, 0 <= i < Z.of_nat n -> leaf m' root (a + 4096 * i) = leaf m root (a + 4096 * i)) ->
  freed do_free m' root a n = freed do_free m root a n.
Proof.
  intros H. unfold freed. destruct do_free; [|done]. apply at_pages_ext. intros i Hi.
  by rewrite H.
Qed.

(** [n] mapped leaves from [a] on. *)
Definition mapped (m : mem) (root a : Z) (n : nat) : Prop :=
  forall i, 0 <= i < Z.of_nat n ->
    has (leaf m root (a + 4096 * i)) PTE_V = true /\
    PTE_FLAGS (leaf m root (a + 4096 * i)) <> PTE_V.

Definition unmap_range (f : Z -> Z) (a : Z) (n : nat) (va : Z) : Z :=
  if decide (a <= va < a + 4096 * Z.of_nat n) then 0 else f va.

Lemma uvmunmap_loop_spec n fuel a s root l do_free :
  (n < fuel)%nat -> ptwf s root l -> a mod 4096 = 0 -> 0 <= a ->
  a + 4096 * Z.of_nat n <= MAXVA -> mapped (phys s) root a n ->
  NoDup (freed do_free (phys s) root a n ++ tp 2 (phys s) root ++ l) ->
  Forall page_ok (freed do_free (phys s) root a n) ->
  exists s', uvmunmap_loop kend fuel root a (a + 4096 * Z.of_nat n) do_free s = Ret tt s' /\
    ptwf s' root (reverse (freed do_free (phys s) root a n) ++ l) /\
    tp 2 (phys s') root = tp 2 (phys s) root /\
    (forall va, 0 <= va < MAXVA ->
       leaf (phys s') root va = unmap_range (leaf (phys s) root) a n va) /\
    (forall x, (forall p, p ∈ tp 2 (phys s) root ++ freed do_free (phys s) root a n ->
       ~ in_page p x) -> load8 (phys s') x = load8 (phys s) x) /\
    same_on (ip 2 (phys s) root) (phys s) (phys s').
Proof.
  revert fuel a s l. induction n as [|n IH]; intros fuel a s l Hf Hwf Ha Ha0 Hmax Hmap Hnd Hok.
  { destruct fuel as [|k]; [lia|]. exists s. split.
    - cbn [uvmunmap_loop]. destruct (Z.leb_spec (a + 4096 * Z.of_nat 0) a); [done|lia].
    - replace (freed do_free (phys s) root a 0) with (@nil Z) by (by destruct do_free).
      split; [done|]. split; [done|]. split; [|done].
      intros va Hva. unfold unmap_range. by rewrite decide_False by lia. }
  destruct fuel as [|fuel]; [lia|].
  assert (Hm0 := Hmap 0 ltac:(lia)). rewrite Z.mul_0_r, Z.add_0_r in Hm0. destruct Hm0 as [Hv Hfl].
  rewrite freed_S in Hnd, Hok. set (e := leaf (phys s) root a) in *.
  set (F := freed do_free (phys s) root (a + 4096) n) in *.
  apply Forall_app in Hok as [Hok1 Hok2].
  destruct (unmap_step fuel root a (a + 4096 * Z.of_nat (S n)) do_free s l)
    as (s1 & E1 & Hwf1 & Htp1 & Hl1 & Hm1 & Hi1); try done; try lia.
  { intros ->. fold e. cbn [app] in Hnd. apply NoDup_cons in Hnd as [Hni _].
    split; [exact (proj1 (Forall_singleton _ _) Hok1)|].
    split; intros Hin; apply Hni; apply elem_of_app; right; apply elem_of_app; auto. }
  fold e in Hwf1, Hm1.
  assert (Hsame : forall i, 0 <= i < Z.of_nat n ->
    leaf (phys s1) root (a + 4096 + 4096 * i) = leaf (phys s) root (a + 4096 + 4096 * i)).
  { intros i Hi. rewrite Hl1 by lia. rewrite decide_False; [done|].
    revert Ha Hi. clear. intros. Z.div_mod_to_equations. lia. }
  assert (HF : freed do_free (phys s1) root (a + 4096) n = F) by (by apply freed_ext).
  change MAXVA with 274877906944 in *.
  destruct (IH fuel (a + 4096) s1 ((if do_free then [PTE2PA e] else []) ++ l))
    as (s2 & E2 & Hwf2 & Htp2 & Hl2 & Hm2 & Hi2); rewrite ?HF, ?Htp1; try done; try lia.
  { revert Ha. clear. intros. Z.div_mod_to_equations. lia. }
  { intros i Hi. rewrite Hsame by done.
    replace (a + 4096 + 4096 * i) with (a + 4096 * (i + 1)) by lia. apply Hmap. lia. }
  { eapply NoDup_perm; [|exact Hnd]. solve_Permutation. }
  rewrite HF, Htp1 in *.
  exists s2. rewrite E1. change PGSIZE with 4096.
  rewrite u64_small by (change (2 ^ 64) with 18446744073709551616; lia).
  split.
  { rewrite <- E2. f_equal. lia. }
  rewrite freed_S. fold e F. split; [|split; [done|split; [|split]]].
  - rewrite reverse_app, <- app_assoc.
    assert (reverse (if do_free then [PTE2PA e] else []) = (if do_free then [PTE2PA e] else [])) as ->
      by (by destruct do_free). done.
  - intros va Hva. rewrite Hl2 by done. unfold unmap_range. rewrite Hl1 by done.
    repeat case_decide; try lia; try done; exfalso; revert H H0 H1 Ha; clear; intros;
      Z.div_mod_to_equations; lia.
  - intros x Hx. rewrite Hm2; [apply Hm1|]; intros p Hp; apply Hx;
      apply elem_of_app in Hp as [Hp|Hp]; apply elem_of_app; auto; right;
      apply elem_of_app; auto.
  - destruct (table_frame _ _ _ _ Hi1) as (Hip & _). intros q x Hq Hx. rewrite <- (Hi1 q x Hq Hx). apply (Hi2 q); [by rewrite Hip|done].
Qed.

Lemma uvmunmap_spec (s : kmem) (root va : Z) (npages : nat) (do_free : bool) (l : list Z) :
  ptwf s root l -> va mod 4096 = 0 -> 0 <= va -> va + 4096 * Z.of_nat npages <= MAXVA ->
  mapped (phys s) root va npages ->
  NoDup (freed do_free (phys s) root va npages ++ tp 2 (phys s) root ++ l) ->
  Forall page_ok (freed do_free (phys s) root va npages) ->
  exists s', uvmunmap kend root va (Z.of_nat npages) do_free s = Ret tt s' /\
    ptwf s' root (reverse (freed do_free (phys s) root va npages) ++ l) /\
    tp 2 (phys s') root = tp 2 (phys s) root /\
    (forall w, 0 <= w < MAXVA ->
       leaf (phys s') root w = unmap_range (leaf (phys s) root) va npages w) /\
    (forall x, (forall p, p ∈ tp 2 (phys s) root ++ freed do_free (phys s) root va npages ->
       ~ in_page p x) -> load8 (phys s') x = load8 (phys s) x) /\
    same_on (ip 2 (phys s) root) (phys s) (phys s').
Proof.
  intros Hwf Ha Ha0 Hmax Hmap Hnd Hok. unfold uvmunmap. change PGSIZE with 4096.
  rewrite Ha. cbn [Z.eqb negb]. change MAXVA with 274877906944 in Hmax.
  rewrite u64_small by (change (2 ^ 64) with 18446744073709551616; lia).
  replace (va + Z.of_nat npages * 4096) with (va + 4096 * Z.of_nat npages) by lia.
  apply uvmunmap_loop_spec; try done. lia.
Qed.

(** uvmunmap() of [npages] mapped pages: afterwards exactly those pages
    are unmapped and every other mapping is as before; with [do_free] the
    physical pages they mapped are on the free list, newest first; the
    page-table pages stay, and no byte outside the table and the freed
    pages is written. *)
Theorem uvmunmap_correct (s : kmem) (root va : Z) (npages : nat) (do_free : bool) (l : list Z) :
  ptwf s root l -> va mod 4096 = 0 -> 0 <= va -> va + 4096 * Z.of_nat npages <= MAXVA ->
  mapped (phys s) root va npages ->
  NoDup (freed do_free (phys s) root va npages ++ tp 2 (phys s) root ++ l) ->
  Forall page_ok (freed do_free (phys s) root va npages) ->
  exists s', uvmunmap kend root va (Z.of_nat npages) do_free s = Ret tt s' /\
    ptwf s' root (reverse (freed do_free (phys s) root va npages) ++ l) /\
    tp 2 (phys s') root = tp 2 (phys s) root /\
    (forall w, 0 <= w < MAXVA ->
       leaf (phys s') root w = unmap_range (leaf (phys s) root) va npages w) /\
    (forall x, (forall p, p ∈ tp 2 (phys s) root ++ freed do_free (phys s) root va npages ->
       ~ in_page p x) -> load8 (phys s') x = load8 (phys s) x).
Proof.
  intros Hwf Ha Ha0 Hmax Hmap Hnd Hok. destruct (uvmunmap_spec s root va npages do_free l) as (s' & ? & ? & ? & ? & ? & _); try done.
  by exists s'.
Qed.
End UnmapProofs.

(** ** A concrete address space: one user page at address 0 *)

Module TinySpace.
Definition tend : Z := PHYSTOP - 16384.
Definition root : Z := PHYSTOP - 4096.
Definition p1 : Z := PHYSTOP - 8192.
Definition p2 : Z := PHYSTOP - 12288.
Definition p3 : Z := PHYSTOP - 16384.
Definition pte : Z := map_pte p3 (Z.lor PTE_R (Z.lor PTE_W PTE_U)).
Definition st : kmem :=
  Kmem (store8 (store64 (store64 (store64 ∅ root (mk_pte p1 PTE_V)) p1 (mk_pte p2 PTE_V)) p2 pte)
          p3 104) 0 false.

Lemma tables : tp 2 (phys st) root = [root; p1; p2].
Proof. vm_compute. reflexivity. Qed.

Lemma TinySpace_wf : ptwf tend st root [].
Proof.
  split; [|rewrite tables; split].
  - split; [|split; [|done]].
    + vm_compute. intuition congruence.
    + apply NoDup_nil_2.
  - refine (bool_decide_unpack (NoDup _) _). vm_compute. exact I.
  - repeat constructor; vm_compute; intuition congruence.
Qed.

Lemma entries pt e : (pt, e) ∈ [(root, mk_pte p1 PTE_V); (p1, mk_pte p2 PTE_V); (p2, pte)] ->
  forall i, 0 <= i < 512 -> entry (phys st) pt i = if i =? 0 then e else 0.
Proof.
  intros Hin i Hi.
  enough (forallb (fun i => entry (phys st) pt i =? if i =? 0 then e else 0) (seqZ 0 512) = true)
    as H.
  { rewrite forallb_forall in H. apply Z.eqb_eq, H. apply list_elem_of_In, elem_of_seqZ. lia. }
  repeat (apply elem_of_cons in Hin as [Hin|Hin]); [..|by apply elem_of_nil in Hin];
    injection Hin as -> ->; vm_compute; reflexivity.
Qed.

Lemma leaves va : 0 <= va < MAXVA ->
  leaf (phys st) root va = if va / 4096 =? 0 then pte else 0.
Proof.
  intros Hva. pose proof (va_split va Hva) as Hs.
  pose proof (PX_range 2 va). pose proof (PX_range 1 va). pose proof (PX_range 0 va).
  unfold leaf, leaf_at. cbn [wk]. change (Z.of_nat 2) with 2. change (Z.of_nat 1) with 1.
  rewrite (entries root (mk_pte p1 PTE_V)) by (first [lia | left]).
  destruct (Z.eqb_spec (PX 2 va) 0).
  2: { destruct (Z.eqb_spec (va / 4096) 0); [|done]. Z.div_mod_to_equations. lia. }
  change (has (mk_pte p1 PTE_V) PTE_V) with true. cbv iota.
  change (PTE2PA (mk_pte p1 PTE_V)) with p1.
  rewrite (entries p1 (mk_pte p2 PTE_V)) by (first [lia | right; left]).
  destruct (Z.eqb_spec (PX 1 va) 0).
  2: { destruct (Z.eqb_spec (va / 4096) 0); [|done]. Z.div_mod_to_equations. lia. }
  change (has (mk_pte p2 PTE_V) PTE_V) with true. cbv iota.
  change (PTE2PA (mk_pte p2 PTE_V)) with p2.
  fold (entry (phys st) p2 (PX 0 va)).
  rewrite (entries p2 pte) by (first [lia | right; right; left]).
  destruct (Z.eqb_spec (PX 0 va) 0), (Z.eqb_spec (va / 4096) 0); try done;
    Z.div_mod_to_equations; lia.
Qed.
End TinySpace.

Lemma uvmunmap_correct_witness :
  exists s', uvmunmap TinySpace.tend TinySpace.root 0 (Z.of_nat 1) true TinySpace.st = Ret tt s' /\
    ptwf TinySpace.tend s' TinySpace.root
      (reverse (freed true (phys TinySpace.st) TinySpace.root 0 1) ++ []) /\
    tp 2 (phys s') TinySpace.root = tp 2 (phys TinySpace.st) TinySpace.root /\
    (forall w, 0 <= w < MAXVA -> leaf (phys s') TinySpace.root w =
       unmap_range (leaf (phys TinySpace.st) TinySpace.root) 0 1 w) /\
    (forall x, (forall p, p ∈ tp 2 (phys TinySpace.st) TinySpace.root ++
         freed true (phys TinySpace.st) TinySpace.root 0 1 -> ~ in_page p x) ->
       load8 (phys s') x = load8 (phys TinySpace.st) x).
Proof.
  apply (uvmunmap_correct TinySpace.tend ltac:(done)); try done.
  - exact TinySpace.TinySpace_wf.
  - intros i Hi. replace i with 0 by lia. vm_compute. intuition congruence.
  - rewrite TinySpace.tables. refine (bool_decide_unpack (NoDup _) _). vm_compute. exact I.
  - repeat constructor; vm_compute; intuition congruence.
Defined.
