(* ===== verification/UvmFree.v ===== *)
(** * kernel/vm.c: giving an address space back

    freewalk() returns every page of an emptied table to the free list, and
    uvmfree() every page of the table and of the memory it maps. *)

From Stdlib Require Import ZArith Lia.
From stdpp Require Import base numbers list list_numbers gmap strings sorting.
From S2P Require Import Prelude Cstring Riscv Kalloc Vm PageTable Uvm.

Section UvmFree.
Context (kend : Z).
Hypothesis Hkend : KERNBASE <= kend.
Notation page_ok := (page_ok kend).
Notation ptwf := (ptwf kend).

(** A table that maps nothing. *)
Fixpoint bare (lvl : nat) (m : mem) (pt : Z) : Prop :=
  match lvl with
  | O => forall i, 0 <= i < 512 -> has (entry m pt i) PTE_V = false
  | S l => forall i, 0 <= i < 512 -> has (entry m pt i) PTE_V = true ->
      has (entry m pt i) RWX = false /\ bare l m (PTE2PA (entry m pt i))
  end.

Lemma bare_frame lvl m m' pt : same_on (tp lvl m pt) m m' -> bare lvl m pt -> bare lvl m' pt.
Proof.
  revert pt. induction lvl as [|l IH]; intros pt Hs H i Hi;
    rewrite (entry_frame m m' pt i Hi) by (intros x Hx; apply (Hs pt); [apply tp_self|done]); [by apply H|].
  intros Hv. destruct (H i Hi Hv) as [Hr Hb]. split; [done|]. apply IH; [|done].
  eapply same_on_sub; [|exact Hs]. intros p Hp. by apply (tp_child l m pt i).
Qed.

(** What freeing the pages [ps] does. *)
Definition gives (ps : list Z) (s : kmem) (l : list Z) (s' : kmem) : Prop :=
  exists l', l' ≡ₚ ps ++ l /\ kwf kend s' l' /\
    (forall x, (forall p, p ∈ ps -> ~ in_page p x) -> load8 (phys s') x = load8 (phys s) x).

(** The loop over the entries of a table, with [rec] for the recursive call. *)
Section Entries.
Context (rec : Z -> M kmem unit) (pt : Z).

Lemma freewalk_skip n i s : has (entry (phys s) pt i) PTE_V = false -> freewalk_entries rec pt (S n) i s = freewalk_entries rec pt n (i + 1) s.
Proof.
  intros Hv. cbn [freewalk_entries]. erewrite bind_Ret by reflexivity. fold (entry (phys s) pt i).
  rewrite Hv. cbn [andb]. by erewrite bind_Ret by reflexivity.
Qed.

Lemma freewalk_child n i s s1 :
  has (entry (phys s) pt i) PTE_V = true -> has (entry (phys s) pt i) RWX = false ->
  rec (PTE2PA (entry (phys s) pt i)) s = Ret tt s1 ->
  freewalk_entries rec pt (S n) i s = freewalk_entries rec pt n (i + 1) (set_phys (store64 (phys s1) (pt + 8 * i) 0) s1).
Proof.
  intros Hv Hr E. cbn [freewalk_entries]. erewrite bind_Ret by reflexivity. fold (entry (phys s) pt i).
  fold RWX. rewrite Hv, Hr. cbn [andb negb].
  erewrite bind_Ret; [done|]. by erewrite bind_Ret by exact E.
Qed.

Lemma freewalk_none n i s : 0 <= i -> i + Z.of_nat n = 512 ->
  (forall j, i <= j < 512 -> has (entry (phys s) pt j) PTE_V = false) -> freewalk_entries rec pt n i s = Ret tt s.
Proof.
  revert i. induction n as [|n IH]; intros i Hi Hn H; [done|]. rewrite freewalk_skip by (apply H; lia).
  apply IH; [lia..|]. intros. apply H. lia.
Qed.
End Entries.

(** The pages below the entries [i, 512) of [pt]. *)
Definition below (lvl : nat) (m : mem) (pt i : Z) (n : nat) : list Z :=
  seqZ i (Z.of_nat n) ≫= child (tp lvl m) m pt.

Lemma below_S lvl m pt i n : below lvl m pt i (S n) = child (tp lvl m) m pt i ++ below lvl m pt (i + 1) n.
Proof.
  unfold below. rewrite seqZ_cons by lia. rewrite bind_cons. do 3 f_equal; lia.
Qed.

Lemma elem_of_below lvl m pt i n j p : i <= j < i + Z.of_nat n ->
  p ∈ child (tp lvl m) m pt j -> p ∈ below lvl m pt i n.
Proof. intros Hj Hp. apply list_elem_of_bind. exists j. split; [done|]. apply elem_of_seqZ. lia. Qed.

Lemma below_frame lvl m m' pt i n : 0 <= i -> i + Z.of_nat n <= 512 ->
  (forall j, i <= j < i + Z.of_nat n -> entry m' pt j = entry m pt j) ->
  same_on (below lvl m pt i n) m m' ->
  below lvl m' pt i n = below lvl m pt i n.
Proof.
  intros Hi Hn He Hs. apply bind_ext_in. intros j Hj%elem_of_seqZ. unfold child. rewrite He by lia.
  destruct (has (entry m pt j) PTE_V) eqn:Hv; [|done]. apply tp_frame. eapply same_on_sub; [|exact Hs].
  intros p Hp. apply (elem_of_below lvl m pt i n j); [lia|]. unfold child. by rewrite Hv.
Qed.

Section Loop.
Context (lvl : nat) (rec : Z -> M kmem unit).
Hypothesis Hrec : forall pt s l, kwf kend s l -> bare lvl (phys s) pt ->
  NoDup (tp lvl (phys s) pt ++ l) -> Forall page_ok (tp lvl (phys s) pt) ->
  exists s', rec pt s = Ret tt s' /\ gives (tp lvl (phys s) pt) s l s'.

Definition bare_from (m : mem) (pt i : Z) : Prop :=
  forall j, i <= j < 512 -> has (entry m pt j) PTE_V = true ->
    has (entry m pt j) RWX = false /\ bare lvl m (PTE2PA (entry m pt j)).

(** One child: its pages are on the free list, the entries and the tables
    after it are untouched. *)
Lemma freewalk_step pt n i s l :
  0 <= i -> i + Z.of_nat (S n) = 512 -> kwf kend s l -> page_ok pt ->
  bare_from (phys s) pt i ->
  NoDup (pt :: below lvl (phys s) pt i (S n) ++ l) -> Forall page_ok (below lvl (phys s) pt i (S n)) ->
  exists s' l1, freewalk_entries rec pt (S n) i s = freewalk_entries rec pt n (i + 1) s' /\
    l1 ≡ₚ child (tp lvl (phys s)) (phys s) pt i ++ l /\ kwf kend s' l1 /\
    (forall x, ~ in_page pt x -> (forall p, p ∈ child (tp lvl (phys s)) (phys s) pt i -> ~ in_page p x) ->
       load8 (phys s') x = load8 (phys s) x) /\
    (forall j, i + 1 <= j < 512 -> entry (phys s') pt j = entry (phys s) pt j).
Proof.
  intros Hi Hn Hwf Hpt Hb Hnd Hok. rewrite below_S in Hnd, Hok.
  destruct (has (entry (phys s) pt i) PTE_V) eqn:Hv.
  2: { exists s, l. rewrite freewalk_skip by done. unfold child. by rewrite Hv. }
  destruct (Hb i ltac:(lia) Hv) as [Hr Hbi]. set (q := PTE2PA (entry (phys s) pt i)) in *.
  assert (Hc : child (tp lvl (phys s)) (phys s) pt i = tp lvl (phys s) q) by (unfold child; by rewrite Hv).
  rewrite Hc in *. apply NoDup_cons in Hnd as [Hni Hnd]. apply Forall_app in Hok as [Hokq _].
  assert (Hnq : NoDup (tp lvl (phys s) q ++ l)).
  { eapply (sublist_NoDup _ ((tp lvl (phys s) q ++ below lvl (phys s) pt (i + 1) n) ++ l)); [done|].
    apply sublist_app; [apply sublist_inserts_r; reflexivity|reflexivity]. }
  destruct (Hrec q s l Hwf Hbi Hnq Hokq) as (s1 & E & l1 & Hl1 & Hwf1 & Hm1).
  assert (Hptq : pt ∉ tp lvl (phys s) q ++ l).
  { rewrite elem_of_app. intros [H|H]; apply Hni; rewrite !elem_of_app; auto. }
  exists (set_phys (store64 (phys s1) (pt + 8 * i) 0) s1), l1.
  rewrite (freewalk_child rec pt n i s s1) by done. split; [done|]. split; [done|]. split; [|split].
  - apply kwf_phys_frame; [done|]. intros p x Hp Hx. apply load8_store64_out. intros Hx'.
    assert (page_ok p) by (eapply flist_page_ok; [apply Hwf1|done]).
    assert (p = pt) as -> by (apply (page_disjoint kend p pt x); try done; unfold in_page; lia).
    apply Hptq. by rewrite <- Hl1.
  - intros x Hx Hxp. cbn [phys set_phys]. rewrite load8_store64_out by (unfold in_page in Hx; lia). by apply Hm1.
  - intros j Hj. apply load64_ext. intros x Hx. cbn [phys set_phys]. rewrite load8_store64_out by lia.
    apply Hm1. intros p Hp. rewrite Forall_forall in Hokq.
    apply (page_not_self kend pt p x); [done|by apply Hokq| |unfold in_page; lia].
    intros <-. apply Hptq, elem_of_app. by left.
Qed.

Lemma freewalk_all pt n i s l :
  0 <= i -> i + Z.of_nat n = 512 -> kwf kend s l -> page_ok pt ->
  bare_from (phys s) pt i ->
  NoDup (pt :: below lvl (phys s) pt i n ++ l) -> Forall page_ok (below lvl (phys s) pt i n) ->
  exists s', freewalk_entries rec pt n i s = Ret tt s' /\
    exists l', l' ≡ₚ below lvl (phys s) pt i n ++ l /\ kwf kend s' l' /\
    (forall x, ~ in_page pt x -> (forall p, p ∈ below lvl (phys s) pt i n -> ~ in_page p x) ->
       load8 (phys s') x = load8 (phys s) x).
Proof.
  revert i s l. induction n as [|n IH]; intros i s l Hi Hn Hwf Hpt Hb Hnd Hok.
  { exists s. split; [done|]. by exists l. }
  destruct (freewalk_step pt n i s l) as (s1 & l1 & E & Hl1 & Hwf1 & Hm1 & He1); try done.
  rewrite below_S in *. set (C := child (tp lvl (phys s)) (phys s) pt i) in *.
  set (B := below lvl (phys s) pt (i + 1) n) in *.
  apply Forall_app in Hok as [HokC HokB]. rewrite Forall_forall in HokC, HokB.
  pose proof Hnd as Hnd0. apply NoDup_cons in Hnd0 as [Hni Hnd0]. rewrite <- app_assoc in Hnd0.
  assert (Hs : same_on B (phys s) (phys s1)).
  { intros p x Hp Hx. pose proof (HokB p Hp) as Hokp. apply Hm1.
    - apply (page_not_self kend p pt x); try done. intros ->. apply Hni. rewrite !elem_of_app. auto.
    - intros r Hr. apply (page_not_self kend p r x); try done; [by apply HokC|].
      intros ->. apply NoDup_app in Hnd0 as (_ & Hd & _). apply (Hd r Hr), elem_of_app. by left. }
  assert (HB : below lvl (phys s1) pt (i + 1) n = B)
    by (apply below_frame; try lia; try done; intros j Hj; apply He1; lia).
  destruct (IH (i + 1) s1 l1) as (s2 & E2 & l2 & Hl2 & Hwf2 & Hm2); rewrite ?HB; try done; try lia.
  - intros j Hj. rewrite He1 by lia. intros Hv. destruct (Hb j ltac:(lia) Hv) as [Hr Hbj]. split; [done|].
    eapply bare_frame; [|exact Hbj]. eapply same_on_sub; [|exact Hs]. intros p Hp.
    apply (elem_of_below lvl (phys s) pt (i + 1) n j); [lia|]. unfold child. by rewrite Hv.
  - rewrite Hl1. eapply NoDup_perm; [|exact Hnd]. solve_Permutation.
  - by apply Forall_forall.
  - rewrite HB in *. exists s2. rewrite E. split; [done|]. exists l2. split; [|split; [done|]].
    + rewrite Hl2, Hl1. solve_Permutation.
    + intros x Hx Hxp. rewrite Hm2; [apply Hm1|done|]; try done; intros p Hp; apply Hxp, elem_of_app; auto.
Qed.
End Loop.

Lemma kfree_gives p ps s l s1 :
  gives ps s l s1 -> page_ok p -> p ∉ ps ++ l ->
  exists s', kfree kend p s1 = Ret tt s' /\ gives (p :: ps) s l s'.
Proof.
  intros (l1 & Hl1 & Hwf1 & Hm1) Hp Hni. rewrite <- Hl1 in Hni.
  destruct (kfree_cons kend Hkend s1 p l1 Hwf1 Hp Hni) as (s' & E & Hwf' & Hm).
  exists s'. split; [done|]. exists (p :: l1). split; [by rewrite Hl1|]. split; [done|].
  intros x Hx. rewrite Hm by (apply Hx; left). apply Hm1. intros q Hq. apply Hx. by right.
Qed.

Lemma gives_perm ps ps' s l s' : ps ≡ₚ ps' -> gives ps s l s' -> gives ps' s l s'.
Proof.
  intros Hp (l' & Hl & Hwf & Hm). exists l'. split; [by rewrite <- Hp|]. split; [done|].
  intros x Hx. apply Hm. intros q. rewrite Hp. apply Hx.
Qed.

Lemma gives_nil s l : kwf kend s l -> gives [] s l s.
Proof. intros H. by exists l. Qed.

(** freewalk() of a table that maps nothing hands back all its pages. *)
Lemma freewalk_at_gives lvl pt s l :
  kwf kend s l -> bare lvl (phys s) pt -> NoDup (tp lvl (phys s) pt ++ l) ->
  Forall page_ok (tp lvl (phys s) pt) ->
  exists s', freewalk_at kend (S lvl) pt s = Ret tt s' /\ gives (tp lvl (phys s) pt) s l s'.
Proof.
  revert pt s l. induction lvl as [|k IH]; intros pt s l Hwf Hb Hnd Hok.
  - rewrite tp_0 in *. apply Forall_cons in Hok as [Hok _]. cbn [app] in Hnd. apply NoDup_cons in Hnd as [Hni _].
    destruct (kfree_gives pt [] s l s) as (s' & E & Hg); [by apply gives_nil|exact Hok|exact Hni|].
    exists s'. split; [|done]. cbn [freewalk_at]. erewrite bind_Ret; [exact E|].
    apply freewalk_none; [lia|lia|]. intros j Hj. apply Hb. lia.
  - rewrite tp_S in Hnd, Hok. apply Forall_cons in Hok as [Hpt Hok]. rewrite <- app_comm_cons in Hnd.
    change (seqZ 0 512 ≫= child (tp k (phys s)) (phys s) pt) with (below k (phys s) pt 0 512) in *.
    destruct (freewalk_all k (freewalk_at kend (S k)) IH pt 512 0 s l) as (s1 & E & l1 & Hl1 & Hwf1 & Hm1); try done.
    assert (Hg1 : exists s', kfree kend pt s1 = Ret tt s' /\ gives (pt :: below k (phys s) pt 0 512) s l s').
    { apply NoDup_cons in Hnd as [Hni Hnd]. rewrite <- Hl1 in Hni.
      destruct (kfree_cons kend Hkend s1 pt l1 Hwf1 Hpt Hni) as (s' & E' & Hwf' & Hm').
      exists s'. split; [done|]. exists (pt :: l1). split; [by rewrite Hl1|]. split; [done|].
      intros x Hx. rewrite Hm' by (apply Hx; left). apply Hm1; [apply Hx; left|]. intros p Hp. apply Hx. by right. }
    destruct Hg1 as (s' & E' & Hg). exists s'. split.
    + cbn [freewalk_at]. erewrite bind_Ret; [exact E'|exact E].
    + eapply gives_perm; [|exact Hg]. by rewrite tp_S.
Qed.

(** ** A table with no mapping is bare *)

Lemma PX_build i j k : 0 <= i < 256 -> 0 <= j < 512 -> 0 <= k < 512 ->
  let va := i * 2 ^ 30 + j * 2 ^ 21 + k * 2 ^ 12 in
  0 <= va < MAXVA /\ PX 2 va = i /\ PX 1 va = j /\ PX 0 va = k.
Proof.
  intros Hi Hj Hk va. unfold va. rewrite !PX_eq by lia. change MAXVA with 274877906944.
  change (12 + 9 * 2) with 30. change (12 + 9 * 1) with 21. change (12 + 9 * 0) with 12.
  change (2 ^ 30) with 1073741824. change (2 ^ 21) with 2097152. change (2 ^ 12) with 4096.
  split; [lia|]. split_and!; Z.div_mod_to_equations; lia.
Qed.

Lemma unmapped_bare m root :
  tidy m root -> (forall va, 0 <= va < MAXVA -> has (leaf m root va) PTE_V = false) -> bare 2 m root.
Proof.
  intros [Hp Hu] Hl i Hi Hvi. destruct (Hp i Hi Hvi) as [Hri Hpi]. split; [done|].
  intros j Hj Hvj. destruct (Hpi j Hj Hvj) as [Hrj _]. split; [done|]. intros k Hk.
  assert (Hi' : 0 <= i < 256) by (destruct (decide (i < 256)); [lia|]; rewrite Hu in Hvi; [done|lia]).
  destruct (PX_build i j k Hi' Hj Hk) as (Hva & H2 & H1 & H0).
  specialize (Hl _ Hva). unfold leaf, leaf_at in Hl. cbn [wk] in Hl.
  change (Z.of_nat 2) with 2 in Hl. change (Z.of_nat 1) with 1 in Hl. rewrite H2, Hvi, H1, Hvj, H0 in Hl. exact Hl.
Qed.
End UvmFree.
