(* ===== verification/AddrSpace.v ===== *)
(** * kernel/vm.c: the life of an address space

    What a process owns: the pages of its page table and the user pages the
    table maps from address 0 on.  uvmalloc() and uvmdealloc() move pages
    between this and the free list, uvmcopy() copies it for fork(), uvmfree()
    gives all of it back; no page is lost or shared, on the error paths
    too. *)

From Stdlib Require Import ZArith Lia.
From stdpp Require Import base numbers list list_numbers gmap strings sorting.
From S2P Require Import Prelude Cstring Riscv Kalloc Vm PageTable Uvm UvmFree.

Section AddrSpace.
Context (kend : Z).
Hypothesis Hkend : KERNBASE <= kend.
Notation page_ok := (page_ok kend).
Notation ptwf := (ptwf kend).
Notation gives := (gives kend).

(** The user pages of a table with [n] pages from address 0 on. *)
Definition upages (m : mem) (root : Z) (n : nat) : list Z :=
  at_pages (fun va => PTE2PA (leaf m root va)) 0 n.

(** Every page the table or the allocator holds. *)
Definition owns (s : kmem) (root : Z) (n : nat) (l : list Z) : list Z :=
  upages (phys s) root n ++ tp 2 (phys s) root ++ l.

(** A mapping that user code cannot use. *)
Definition kernel_leaf (e : Z) : Prop := has e PTE_V = true /\ PTE_FLAGS e <> PTE_V /\ has e PTE_U = false.

(** The table at [root] maps [n] user pages of its own from address 0 on,
    and above them only the pages of [extra], which it does not own (the
    trampoline and the trap frame). *)
Record uspace (s : kmem) (root : Z) (n : nat) (extra l : list Z) : Prop := Uspace {
  us_wf : ptwf s root l;
  us_tidy : tidy (phys s) root;
  us_fit : 4096 * Z.of_nat n <= TRAPFRAME;
  us_map : mapped (phys s) root 0 n;
  us_own : NoDup (owns s root n l);
  us_ok : Forall page_ok (upages (phys s) root n);
  us_extra : forall va, va ∈ extra -> va mod 4096 = 0 /\ TRAPFRAME <= va < MAXVA /\ kernel_leaf (leaf (phys s) root va);
  us_distinct : NoDup extra;
  us_rest : forall va, 4096 * Z.of_nat n <= va < MAXVA -> va / 4096 * 4096 ∉ extra ->
    has (leaf (phys s) root va) PTE_V = false
}.

(** Pages have moved between the table and the free list, and only bytes of
    those pages were written. *)
Definition moved (s : kmem) (root : Z) (n : nat) (l : list Z) (s' : kmem) (n' : nat) (l' : list Z) : Prop :=
  owns s' root n' l' ≡ₚ owns s root n l /\
  (forall x, (forall p, p ∈ owns s root n l -> ~ in_page p x) -> load8 (phys s') x = load8 (phys s) x).

Lemma moved_refl s root n l : moved s root n l s n l.
Proof. done. Qed.

Lemma moved_trans s1 n1 l1 s2 n2 l2 s3 n3 l3 root :
  moved s1 root n1 l1 s2 n2 l2 -> moved s2 root n2 l2 s3 n3 l3 -> moved s1 root n1 l1 s3 n3 l3.
Proof.
  intros [H1 H2] [H3 H4]. split; [by rewrite H3|]. intros x Hx. rewrite H4; [by apply H2|].
  intros p. rewrite H1. apply Hx.
Qed.

Lemma at_pages_app f a n k : at_pages f a (n + k) = at_pages f a n ++ at_pages f (a + 4096 * Z.of_nat n) k.
Proof.
  revert a. induction n as [|n IH]; intros a; cbn [at_pages Nat.add app].
  - f_equal. lia.
  - f_equal. rewrite IH. do 2 f_equal. lia.
Qed.

Lemma upages_ext m m' root n :
  (forall va, 0 <= va < 4096 * Z.of_nat n -> leaf m' root va = leaf m root va) -> upages m' root n = upages m root n.
Proof. intros H. apply at_pages_ext. intros i Hi. by rewrite H by lia. Qed.

Lemma elem_of_upages m root n p :
  p ∈ upages m root n <-> exists i, 0 <= i < Z.of_nat n /\ p = PTE2PA (leaf m root (4096 * i)).
Proof. unfold upages. rewrite elem_of_at_pages. by setoid_rewrite Z.add_0_l. Qed.

Lemma page_base va : va mod 4096 = 0 -> va / 4096 * 4096 = va.
Proof. intros. Z.div_mod_to_equations. lia. Qed.

Lemma leaf_base m root va : leaf m root (va / 4096 * 4096) = leaf m root va.
Proof. unfold leaf, leaf_at. by rewrite (wk_same_page _ _ _ _ va) by (rewrite Z.div_mul; lia). Qed.

(** Freeing the pages above the first [n]. *)
Lemma uspace_shrink s root n k extra l :
  uspace s root (n + k) extra l ->
  let gone := at_pages (fun va => PTE2PA (leaf (phys s) root va)) (4096 * Z.of_nat n) k in
  exists s', uvmunmap kend root (4096 * Z.of_nat n) (Z.of_nat k) true s = Ret tt s' /\
    uspace s' root n extra (reverse gone ++ l) /\
    moved s root (n + k) l s' n (reverse gone ++ l) /\
    same_on (upages (phys s) root n) (phys s) (phys s') /\
    (forall va, 0 <= va < 4096 * Z.of_nat n -> leaf (phys s') root va = leaf (phys s) root va).
Proof.
  intros [Hwf Ht Hfit Hmap Hown Hok Hex Hdis Hrest] gone.
  assert (Hsplit : upages (phys s) root (n + k) = upages (phys s) root n ++ gone) by (apply at_pages_app).
  unfold owns in Hown. rewrite Hsplit in Hown, Hok. apply Forall_app in Hok as [Hokn Hokg].
  change TRAPFRAME with 274877898752 in *. change MAXVA with 274877906944 in *.
  destruct (uvmunmap_spec kend Hkend s root (4096 * Z.of_nat n) k true l)
    as (s' & E & Hwf' & Htp & Hl & Hm & Hip); try done; try lia.
  { rewrite Z.mul_comm. apply Z.mod_mul. lia. }
  { change MAXVA with 274877906944. lia. }
  { intros i Hi. specialize (Hmap (Z.of_nat n + i)). rewrite Z.add_0_l in Hmap.
    replace (4096 * Z.of_nat n + 4096 * i) with (4096 * (Z.of_nat n + i)) by lia. apply Hmap. lia. }
  { rewrite <- app_assoc in Hown. by apply NoDup_app in Hown as (_ & _ & ?). }
  change (freed true (phys s) root (4096 * Z.of_nat n) k) with gone in *.
  change MAXVA with 274877906944 in *.
  assert (Hlo : forall va, 0 <= va < 4096 * Z.of_nat n -> leaf (phys s') root va = leaf (phys s) root va).
  { intros va Hva. rewrite Hl by lia. unfold unmap_range. by rewrite decide_False by lia. }
  assert (Hhi : forall va, 274877898752 <= va < 274877906944 -> leaf (phys s') root va = leaf (phys s) root va).
  { intros va Hva. rewrite Hl by lia. unfold unmap_range. by rewrite decide_False by lia. }
  assert (Hup : upages (phys s') root n = upages (phys s) root n) by (by apply upages_ext).
  assert (Hperm : owns s' root n (reverse gone ++ l) ≡ₚ owns s root (n + k) l).
  { unfold owns. rewrite Hup, Htp, Hsplit, reverse_Permutation. solve_Permutation. }
  exists s'. split; [done|]. split; [|split; [split|split]]; try done.
  - split; try done.
    + by eapply tidy_frame.
    + change TRAPFRAME with 274877898752. lia.
    + intros i Hi. rewrite Z.add_0_l, Hlo by lia. apply Hmap. lia.
    + rewrite Hperm. unfold owns. by rewrite Hsplit.
    + by rewrite Hup.
    + intros va Hva. destruct (Hex va Hva) as (Ha & Hr & Hv). split; [done|]. split; [done|].
      by rewrite Hhi by lia.
    + intros va Hva Hni. change MAXVA with 274877906944 in Hva. rewrite Hl by lia. unfold unmap_range.
      case_decide; [apply has_0|]. apply Hrest; [|done]. change MAXVA with 274877906944. lia.
  - intros x Hx. apply Hm. intros p Hp. apply Hx. unfold owns. rewrite Hsplit, !elem_of_app.
    apply elem_of_app in Hp as [Hp|Hp]; auto.
  - intros p x Hp Hx. apply Hm. intros q Hq.
    assert (Hpq : p <> q).
    { intros ->. rewrite <- app_assoc in Hown. apply NoDup_app in Hown as (_ & Hd & _). apply (Hd q Hp).
      rewrite !elem_of_app. apply elem_of_app in Hq as [Hq|Hq]; auto. }
    rewrite Forall_forall in Hokn, Hokg. apply (page_not_self kend p q x); try done; [by apply Hokn|].
    apply elem_of_app in Hq as [Hq|Hq]; [|by apply Hokg].
    destruct Hwf as (_ & _ & Hokt). rewrite Forall_forall in Hokt. by apply Hokt.
Qed.

(** Nothing in the table changed. *)
Lemma uspace_frame s s' root n extra l l' :
  uspace s root n extra l -> kwf kend s' l' -> same_on (tp 2 (phys s) root) (phys s) (phys s') ->
  NoDup (owns s root n l') ->
  uspace s' root n extra l' /\ upages (phys s') root n = upages (phys s) root n /\
  tp 2 (phys s') root = tp 2 (phys s) root /\ (forall va, leaf (phys s') root va = leaf (phys s) root va).
Proof.
  intros [Hwf Ht Hfit Hmap Hown Hok Hex Hdis Hrest] Hk Hs Hnd. destruct (tp_same _ _ _ Hs) as (Htp & Hl & _).
  assert (Hup : upages (phys s') root n = upages (phys s) root n) by (apply upages_ext; intros; apply Hl).
  split; [|done]. destruct Hwf as (_ & _ & Hokt). unfold owns in Hnd.
  split; try done; unfold owns, mapped; rewrite ?Hup, ?Htp; try done.
  - split; [done|]. rewrite Htp. split; [|done]. by apply NoDup_app in Hnd as (_ & _ & ?).
  - eapply tidy_frame; [|done]. eapply same_on_sub; [apply ip_tp|done].
  - intros i Hi. rewrite Hl. by apply Hmap.
  - intros va Hva. destruct (Hex va Hva) as (Ha & Hr & Hv). split; [done|]. split; [done|]. by rewrite Hl.
  - intros va Hva Hni. rewrite Hl. by apply Hrest.
Qed.

Lemma owns_ok s root n extra l p : uspace s root n extra l -> p ∈ owns s root n l -> page_ok p.
Proof.
  intros [(Hk & _ & Hokt) _ _ _ _ Hok _ _ _] Hp. rewrite Forall_forall in Hok, Hokt.
  unfold owns in Hp. rewrite !elem_of_app in Hp. destruct Hp as [Hp|[Hp|Hp]]; auto.
  eapply flist_page_ok; [apply Hk|done].
Qed.

(** Writing to pages that neither the table nor the allocator holds. *)
Lemma uspace_write s m root n extra l (ps : list Z) :
  uspace s root n extra l -> Forall page_ok ps -> (forall p, p ∈ ps -> p ∉ owns s root n l) ->
  (forall x, (forall p, p ∈ ps -> ~ in_page p x) -> load8 m x = load8 (phys s) x) ->
  uspace (set_phys m s) root n extra l /\ same_on (owns s root n l) (phys s) m.
Proof.
  intros Hu Hps Hni Hm.
  assert (Hs : same_on (owns s root n l) (phys s) m).
  { intros q x Hq Hx. apply Hm. intros p Hp. rewrite Forall_forall in Hps.
    apply (page_not_self kend q p x); [by eapply owns_ok|by apply Hps| |done]. intros ->. by apply (Hni p). }
  split; [|done]. apply (uspace_frame s _ root n extra l l); try done; [| |apply Hu].
  - apply kwf_phys_frame; [apply Hu|]. intros p x Hp. apply Hs. unfold owns. rewrite !elem_of_app. auto.
  - eapply same_on_sub; [|exact Hs]. intros p Hp. unfold owns. rewrite !elem_of_app. auto.
Qed.

Lemma uspace_kalloc s root n extra p l :
  uspace s root n extra (p :: l) ->
  exists s', kalloc s = Ret p s' /\ page_ok p /\ uspace s' root n extra l /\ p ∉ owns s' root n l /\
    upages (phys s') root n = upages (phys s) root n /\ tp 2 (phys s') root = tp 2 (phys s) root /\
    (forall va, leaf (phys s') root va = leaf (phys s) root va) /\
    (forall x, ~ in_page p x -> load8 (phys s') x = load8 (phys s) x).
Proof.
  intros Hu. pose proof (us_wf _ _ _ _ _ Hu) as (Hk & _ & Hokt). pose proof (us_own _ _ _ _ _ Hu) as Hown.
  destruct (kalloc_cons kend Hkend s p l Hk) as (s' & E & Hk' & Hp & Hpl & Hm).
  assert (Hperm : owns s root n (p :: l) ≡ₚ p :: owns s root n l) by (unfold owns; solve_Permutation).
  rewrite Hperm in Hown. apply NoDup_cons in Hown as [Hni Hown].
  assert (Hm' : forall x, ~ in_page p x -> load8 (phys s') x = load8 (phys s) x)
    by (intros x Hx; rewrite Hm; by rewrite decide_False).
  destruct (uspace_frame s s' root n extra (p :: l) l) as (Hu' & Hup & Htp & Hl); try done.
  { intros q x Hq Hx. apply Hm'. rewrite Forall_forall in Hokt. apply (page_not_self kend q p x); try done; [by apply Hokt|].
    intros ->. apply Hni. unfold owns. rewrite !elem_of_app. auto. }
  exists s'. split; [done|]. split; [done|]. split; [done|]. split; [|done].
  unfold owns. by rewrite Hup, Htp.
Qed.

(** mappages() of one page. *)
Lemma map_one s root va pa perm l :
  ptwf s root l -> va mod 4096 = 0 -> 0 <= va -> va + 4096 <= MAXVA ->
  pa mod 4096 = 0 -> 0 <= pa < 2 ^ 55 -> 0 <= perm < 1024 ->
  has (leaf (phys s) root va) PTE_V = false ->
  exists r s' l', mappages root va PGSIZE pa perm s = Ret r s' /\ grow kend root s l s' l' /\ (length l <= length l' + 2)%nat /\
    ((r = 0 /\ forall w, 0 <= w < MAXVA -> leaf (phys s') root w =
        if decide (w / 4096 * 4096 = va) then map_pte pa perm else leaf (phys s) root w) \/
     (r = -1 /\ l' = [] /\ forall w, 0 <= w < MAXVA -> leaf (phys s') root w = leaf (phys s) root w)).
Proof.
  intros Hwf Ha Hva Hmax Hpa Hpar Hperm Hun. change PGSIZE with 4096. change MAXVA with 274877906944 in *.
  change (2 ^ 55) with 36028797018963968 in *.
  assert (HPG : PGROUNDDOWN va = va).
  { rewrite PGROUNDDOWN_eq by (change (2 ^ 64) with 18446744073709551616; lia). by apply page_base. }
  assert (Hdn : (va + 4096 - 1) / 4096 - va / 4096 + 1 = 1) by (Z.div_mod_to_equations; lia).
  destruct (mappages_spec kend Hkend s root va 4096 pa perm l) as (r & s' & l' & k & E & Hg & Hlen & Hl & Hr); try done; try lia.
  { intros w Hw. rewrite HPG in Hw. rewrite <- leaf_base. replace (w / 4096 * 4096) with va; [done|].
    revert Ha Hw. clear. intros. Z.div_mod_to_equations. lia. }
  rewrite HPG, Hdn in *. exists r, s', l'. split; [done|]. split; [done|]. split; [lia|].
  change MAXVA with 274877906944 in *.
  destruct Hr as [[-> ->]|(-> & Hk & ->)]; [left|right]; (split; [done|]).
  - intros w Hw. rewrite Hl by lia. unfold map_range. repeat case_decide; try done.
    + f_equal. lia.
    + exfalso. revert Ha H H0. clear. intros. Z.div_mod_to_equations. lia.
    + exfalso. revert Ha H H0. clear. intros. Z.div_mod_to_equations. lia.
  - split; [done|]. intros w Hw. rewrite Hl by lia. unfold map_range. by rewrite decide_False by lia.
Qed.

(** The table after a failed mapping, which may have grown. *)
Lemma uspace_grown s root n extra l s' l' :
  uspace s root n extra l -> grow kend root s l s' l' ->
  (forall w, 0 <= w < MAXVA -> leaf (phys s') root w = leaf (phys s) root w) ->
  uspace s' root n extra l' /\ moved s root n l s' n l' /\ upages (phys s') root n = upages (phys s) root n.
Proof.
  intros [Hwf Ht Hfit Hmap Hown Hok Hex Hdis Hrest] (used & -> & Hwf' & Htp & Hm & Ht') Hl.
  change TRAPFRAME with 274877898752 in *. change MAXVA with 274877906944 in *.
  assert (Hup : upages (phys s') root n = upages (phys s) root n) by (apply upages_ext; intros; apply Hl; lia).
  assert (Hperm : owns s' root n l' ≡ₚ owns s root n (used ++ l')) by (unfold owns; rewrite Hup, Htp; solve_Permutation).
  split; [|split; [split; [done|]|done]].
  - split; try done; rewrite ?Hup; try done.
    + by apply Ht'.
    + intros i Hi. rewrite Hl by lia. by apply Hmap.
    + by rewrite Hperm.
    + intros va Hva. destruct (Hex va Hva) as (Ha & Hr & Hv). split; [done|]. split; [done|].
      by rewrite Hl by lia.
    + intros va Hva Hni. change MAXVA with 274877906944 in Hva. rewrite Hl by lia. by apply Hrest.
  - intros x Hx. apply Hm. intros p Hp. apply Hx. unfold owns. rewrite !elem_of_app in *. tauto.
Qed.

Lemma tidy_grow root s l s' l' : grow kend root s l s' l' -> tidy (phys s) root -> tidy (phys s') root.
Proof. by intros (? & _ & _ & _ & _ & ?). Qed.

Lemma map_pte_leaf pa perm : 0 <= pa < 2 ^ 55 -> pa mod 4096 = 0 -> 0 <= perm < 1024 -> Z.lor perm PTE_V <> PTE_V ->
  has (map_pte pa perm) PTE_V = true /\ PTE_FLAGS (map_pte pa perm) <> PTE_V /\ PTE2PA (map_pte pa perm) = pa.
Proof.
  intros Hpa Ha Hperm Hrwx. assert (0 <= pa < 2 ^ 56) by (change (2 ^ 55) with 36028797018963968 in Hpa; change (2 ^ 56) with 72057594037927936; lia).
  split; [apply map_pte_valid|]. by rewrite map_pte_flags, map_pte_pa by done.
Qed.

Lemma map_pte_no_user pa perm : 0 <= pa < 2 ^ 55 -> pa mod 4096 = 0 -> 0 <= perm < 1024 -> Z.land perm PTE_U = 0 ->
  has (map_pte pa perm) PTE_U = false.
Proof.
  intros Hpa Ha Hperm HnU. assert (0 <= pa < 2 ^ 56) by (change (2 ^ 55) with 36028797018963968 in Hpa; change (2 ^ 56) with 72057594037927936; lia).
  unfold has. assert (Z.land (map_pte pa perm) PTE_U = 0) as ->; [|done].
  replace PTE_U with (Z.land (Z.ones 10) PTE_U) by done. rewrite Z.land_assoc.
  change (Z.land (map_pte pa perm) (Z.ones 10)) with (PTE_FLAGS (map_pte pa perm)).
  rewrite map_pte_flags, Z.land_lor_distr_l by done. change (Z.land (Z.ones 10) PTE_U) with PTE_U. by rewrite HnU.
Qed.

(** Adding a page at the end of the user memory. *)
Lemma uspace_extend s root n extra l p perm :
  uspace s root n extra l -> page_ok p -> p ∉ owns s root n l ->
  4096 * Z.of_nat (S n) <= TRAPFRAME -> 0 <= perm < 1024 -> Z.lor perm PTE_V <> PTE_V ->
  exists r s' l', mappages root (4096 * Z.of_nat n) PGSIZE p perm s = Ret r s' /\
    (forall x, (forall q, q ∈ tp 2 (phys s) root ++ l -> ~ in_page q x) -> load8 (phys s') x = load8 (phys s) x) /\
    (forall w, 0 <= w < 4096 * Z.of_nat n -> leaf (phys s') root w = leaf (phys s) root w) /\
    (length l <= length l' + 2)%nat /\
    ((r = 0 /\ uspace s' root (S n) extra l' /\ owns s' root (S n) l' ≡ₚ p :: owns s root n l /\
      leaf (phys s') root (4096 * Z.of_nat n) = map_pte p perm) \/
     (r = -1 /\ l' = [] /\ uspace s' root n extra l' /\ moved s root n l s' n l')).
Proof.
  intros Hu Hp Hni Hfit' Hperm Hrwx. pose proof Hu as [Hwf Ht Hfit Hmap Hown Hok Hex Hdis Hrest].
  pose proof (page_ok_pos kend Hkend p Hp) as Hpp.
  assert (Hp55 : 0 <= p < 2 ^ 55).
  { destruct Hp as (_ & Hp). unfold PHYSTOP, KERNBASE in *. change (2 ^ 55) with 36028797018963968. lia. }
  assert (HTF : TRAPFRAME = 274877898752) by done. assert (HMX : MAXVA = 274877906944) by done.
  assert (Hva : 4096 * Z.of_nat n mod 4096 = 0) by (rewrite Z.mul_comm; apply Z.mod_mul; lia).
  destruct (map_one s root (4096 * Z.of_nat n) p perm l) as (r & s' & l' & E & Hg & Hlen & Hr); try done; try lia.
  { apply Hp. }
  { apply Hrest; [lia|]. rewrite page_base by done. intros Hin. destruct (Hex _ Hin) as (_ & ? & _). lia. }
  exists r, s', l'. split; [done|]. pose proof Hg as (used & -> & Hwf' & Htp & Hm & _).
  assert (Hlow : forall w, 0 <= w < 4096 * Z.of_nat n -> leaf (phys s') root w = leaf (phys s) root w).
  { intros w Hw. destruct Hr as [[_ Hl]|(_ & _ & Hl)]; rewrite Hl by lia; [|done].
    rewrite decide_False; [done|]. revert Hw Hva. clear. intros. Z.div_mod_to_equations. lia. }
  split. { intros x Hx. apply Hm. intros q Hq. apply Hx. rewrite !elem_of_app in *. tauto. }
  split; [done|]. split; [done|].
  destruct (map_pte_leaf p perm Hp55 (proj1 Hp) Hperm Hrwx) as (Hpv & Hpf & Hppa).
  destruct Hr as [[-> Hl]|(-> & -> & Hl)]; [left|right].
  2: { split; [done|]. split; [done|]. by destruct (uspace_grown s root n extra (used ++ []) s' []) as (? & ? & _). }
  assert (Hln : leaf (phys s') root (4096 * Z.of_nat n) = map_pte p perm).
  { rewrite Hl by lia. by rewrite decide_True by (by apply page_base). }
  assert (Hup : upages (phys s') root (S n) = upages (phys s) root n ++ [p]).
  { replace (S n) with (n + 1)%nat by lia. unfold upages. rewrite at_pages_app. cbn [at_pages].
    rewrite Z.add_0_l, Hln, Hppa. f_equal. by apply upages_ext. }
  assert (Hperm' : owns s' root (S n) l' ≡ₚ p :: owns s root n (used ++ l')).
  { unfold owns. rewrite Hup, Htp. solve_Permutation. }
  split; [done|]. split; [|done].
  assert (Hmap' : mapped (phys s') root 0 (S n)).
  { intros i Hi. rewrite Z.add_0_l. destruct (decide (i = Z.of_nat n)) as [->|]; [by rewrite Hln|].
    rewrite Hlow by lia. specialize (Hmap i ltac:(lia)). by rewrite Z.add_0_l in Hmap. }
  split; try done.
  - by eapply tidy_grow.
  - rewrite Hperm'. by apply NoDup_cons.
  - rewrite Hup. apply Forall_app. split; [done|]. by apply Forall_singleton.
  - intros va Hin. destruct (Hex va Hin) as (Ha & Hr & Hv). split; [done|]. split; [done|].
    rewrite Hl by lia. rewrite decide_False; [done|]. rewrite page_base by done. lia.
  - intros va Hin Hnx. rewrite Hl by lia. rewrite decide_False; [apply Hrest; [lia|done]|].
    revert Hin. clear. intros. Z.div_mod_to_equations. lia.
Qed.

(** ** How many pages there are *)

Lemma range_bound a b ps : a <= b -> NoDup ps ->
  (forall p, p ∈ ps -> (p - a) mod 4096 = 0 /\ a <= p /\ p + 4096 <= b) -> Z.of_nat (length ps) <= (b - a) / 4096.
Proof.
  intros Hab Hnd Hok. assert (Hsub : ps ⊆+ range_pages a b).
  { apply NoDup_submseteq; [done|]. intros p Hp. destruct (Hok p Hp) as (Ha & Hr). apply elem_of_range_pages.
    exists ((p - a) / 4096). Z.div_mod_to_equations. lia. }
  apply submseteq_length, Nat2Z.inj_le in Hsub. unfold range_pages in Hsub.
  rewrite length_fmap, length_seqZ, Z2Nat.id in Hsub; [done|]. apply Z.div_pos; lia.
Qed.

Lemma pages_bound ps : NoDup ps -> Forall page_ok ps -> Z.of_nat (length ps) <= 32768.
Proof.
  intros Hnd Hok. apply (range_bound KERNBASE PHYSTOP); [done|done|]. intros p Hp.
  rewrite Forall_forall in Hok. destruct (Hok p Hp) as [Ha Hr]. unfold PHYSTOP, KERNBASE in *.
  revert Ha Hr Hkend. clear. intros. Z.div_mod_to_equations. lia.
Qed.

Lemma uspace_bound s root n extra l : uspace s root n extra l -> Z.of_nat n <= 32768.
Proof.
  intros [_ _ _ _ Hown Hok _ _ _]. apply NoDup_app in Hown as (Hnd & _).
  pose proof (pages_bound _ Hnd Hok) as H. unfold upages in H. by rewrite length_at_pages in H.
Qed.

(** With a page in hand there is room for one more. *)
Lemma uspace_room s root n extra l p :
  uspace s root n extra l -> page_ok p -> p ∉ owns s root n l -> 4096 * Z.of_nat (S n) <= TRAPFRAME.
Proof.
  intros Hu Hp Hni. pose proof (us_own _ _ _ _ _ Hu) as Hown. apply NoDup_app in Hown as (Hnd & _).
  assert (H : Z.of_nat (length (p :: upages (phys s) root n)) <= 32768).
  { apply pages_bound.
    - apply NoDup_cons. split; [|done]. intros Hin. apply Hni. unfold owns. rewrite !elem_of_app. auto.
    - apply Forall_cons. split; [done|]. apply Hu. }
  cbn [length] in H. unfold upages in H. rewrite length_at_pages in H. change TRAPFRAME with 274877898752. lia.
Qed.

(** ** uvmdealloc() *)

(** Pages that hold [sz] bytes. *)
Definition pgs (sz : Z) : nat := Z.to_nat ((sz + 4095) / 4096).

Lemma pgs_of sz : 0 <= sz -> Z.of_nat (pgs sz) = (sz + 4095) / 4096.
Proof. intros. unfold pgs. apply Z2Nat.id. Z.div_mod_to_equations. lia. Qed.

Lemma PGROUNDUP_pgs sz : 0 <= sz <= 2 ^ 64 - 4096 -> PGROUNDUP sz = 4096 * Z.of_nat (pgs sz).
Proof. intros. rewrite PGROUNDUP_eq, pgs_of by lia. lia. Qed.

Lemma pgs_mul n : pgs (4096 * Z.of_nat n) = n.
Proof. unfold pgs. replace ((4096 * Z.of_nat n + 4095) / 4096) with (Z.of_nat n); [lia|]. Z.div_mod_to_equations. lia. Qed.

Lemma pgs_mono a b : 0 <= a <= b -> (pgs a <= pgs b)%nat.
Proof. intros. apply Nat2Z.inj_le. rewrite !pgs_of by lia. apply Z.div_le_mono; lia. Qed.

Lemma pgs_small sz n : 0 <= sz -> (pgs sz <= n)%nat -> Z.of_nat n <= 32768 -> sz <= 134217728.
Proof. intros ? H ?. apply Nat2Z.inj_le in H. rewrite pgs_of in H by done. Z.div_mod_to_equations. lia. Qed.

(** What stays of the user memory: the mappings and the bytes below [n]
    pages. *)
Definition keeps (root : Z) (n : nat) (m m' : mem) : Prop :=
  (forall va, 0 <= va < 4096 * Z.of_nat n -> leaf m' root va = leaf m root va) /\
  same_on (upages m root n) m m'.

Lemma keeps_upages root n m m' : keeps root n m m' -> upages m' root n = upages m root n.
Proof. intros [H _]. by apply upages_ext. Qed.

Lemma keeps_refl root n m : keeps root n m m.
Proof. done. Qed.

Lemma keeps_trans root n m1 m2 m3 : keeps root n m1 m2 -> keeps root n m2 m3 -> keeps root n m1 m3.
Proof.
  intros K1 K2. pose proof (keeps_upages _ _ _ _ K1) as Hu. destruct K1 as [H1 H2], K2 as [H3 H4].
  split; [intros va Hva; by rewrite H3, H1|]. intros p x Hp Hx. rewrite (H4 p x) by (by rewrite ?Hu). by apply (H2 p).
Qed.

Lemma keeps_le root n k m m' : (k <= n)%nat -> keeps root n m m' -> keeps root k m m'.
Proof.
  intros Hk [H1 H2]. split; [intros; apply H1; lia|]. eapply same_on_sub; [|exact H2].
  intros p. rewrite !elem_of_upages. intros (i & Hi & ->). exists i. split; [lia|done].
Qed.

Lemma uvmdealloc_spec s root oldsz newsz extra l :
  uspace s root (pgs oldsz) extra l -> 0 <= oldsz -> 0 <= newsz ->
  exists s' l', uvmdealloc kend root oldsz newsz s = Ret (Z.min oldsz newsz) s' /\
    uspace s' root (pgs (Z.min oldsz newsz)) extra l' /\
    moved s root (pgs oldsz) l s' (pgs (Z.min oldsz newsz)) l' /\
    keeps root (pgs (Z.min oldsz newsz)) (phys s) (phys s').
Proof.
  intros Hu Ho Hn. unfold uvmdealloc. destruct (Z.leb_spec oldsz newsz).
  { rewrite Z.min_l by done. by exists s, l. }
  rewrite Z.min_r by lia. pose proof (uspace_bound _ _ _ _ _ Hu) as Hb.
  pose proof (pgs_mono newsz oldsz ltac:(lia)) as Hle. pose proof (pgs_small oldsz (pgs oldsz) Ho ltac:(lia) Hb).
  rewrite !PGROUNDUP_pgs by (change (2 ^ 64) with 18446744073709551616; lia).
  destruct (Z.ltb_spec (4096 * Z.of_nat (pgs newsz)) (4096 * Z.of_nat (pgs oldsz))).
  2: { replace (pgs newsz) with (pgs oldsz) by lia. by exists s, l. }
  set (k := (pgs oldsz - pgs newsz)%nat). change PGSIZE with 4096.
  replace ((4096 * Z.of_nat (pgs oldsz) - 4096 * Z.of_nat (pgs newsz)) / 4096) with (Z.of_nat k)
    by (unfold k; rewrite <- Z.mul_sub_distr_l, Z.mul_comm, Z.div_mul; lia).
  rewrite s32_small by (change (2 ^ 31) with 2147483648; unfold k; lia).
  replace (pgs oldsz) with (pgs newsz + k)%nat in Hu |- * by (unfold k; lia).
  destruct (uspace_shrink _ _ _ _ _ _ Hu) as (s' & E & Hu' & Hmv & Hs & Hl).
  erewrite bind_Ret by exact E. by eexists s', _.
Qed.

(** ** Adding a page *)

(** Bytes of pages in [ps] may have changed; the user memory is not among
    them. *)
Lemma keeps_outside root n m m' ps :
  (forall va, 0 <= va < 4096 * Z.of_nat n -> leaf m' root va = leaf m root va) ->
  Forall page_ok ps -> Forall page_ok (upages m root n) -> (forall p, p ∈ ps -> p ∉ upages m root n) ->
  (forall x, (forall p, p ∈ ps -> ~ in_page p x) -> load8 m' x = load8 m x) -> keeps root n m m'.
Proof.
  intros Hl Hps Hup Hd Hm. split; [done|]. intros q x Hq Hx. apply Hm. intros p Hp.
  rewrite Forall_forall in Hps, Hup. apply (page_not_self kend q p x); [by apply Hup|by apply Hps| |done].
  intros ->. by apply (Hd p).
Qed.

Lemma owns_split s root n extra l : uspace s root n extra l ->
  forall p, p ∈ tp 2 (phys s) root ++ l -> p ∉ upages (phys s) root n.
Proof. intros Hu p Hp Hin. pose proof (us_own _ _ _ _ _ Hu) as Hown. apply NoDup_app in Hown as (_ & Hd & _). by apply (Hd p). Qed.

(** Taking page [p] off the free list and writing to it. *)
Lemma take_page s root n extra p l (g : mem -> mem) :
  uspace s root n extra (p :: l) ->
  (forall m x, ~ in_page p x -> load8 (g m) x = load8 m x) ->
  exists s1, kalloc s = Ret p s1 /\ page_ok p /\
    let s2 := set_phys (g (phys s1)) s1 in
    uspace s2 root n extra l /\ p ∉ owns s2 root n l /\ owns s root n (p :: l) ≡ₚ p :: owns s2 root n l /\
    keeps root n (phys s) (phys s2) /\
    (forall va, leaf (phys s2) root va = leaf (phys s) root va) /\
    (forall x, ~ in_page p x -> load8 (phys s2) x = load8 (phys s) x) /\
    (forall x, ~ in_page p x -> load8 (phys s1) x = load8 (phys s) x).
Proof.
  intros Hu Hg. destruct (uspace_kalloc _ _ _ _ _ _ Hu) as (s1 & E & Hp & Hu1 & Hni & Hup & Htp & Hl & Hm).
  exists s1. split; [done|]. split; [done|]. intros s2.
  destruct (uspace_write s1 (g (phys s1)) root n extra l [p]) as [Hu2 Hs2]; try done.
  { by apply Forall_singleton. }
  { by intros q ->%list_elem_of_singleton. }
  { intros x Hx. apply Hg, Hx. left. }
  assert (Hs2t : same_on (tp 2 (phys s1) root) (phys s1) (phys s2)).
  { eapply same_on_sub; [|exact Hs2]. intros q Hq. unfold owns. rewrite !elem_of_app. auto. }
  destruct (tp_same _ _ _ Hs2t) as (Htp2 & Hl2 & _).
  assert (Hup2 : upages (phys s2) root n = upages (phys s1) root n) by (apply upages_ext; intros; apply Hl2).
  assert (Hm2 : forall x, ~ in_page p x -> load8 (phys s2) x = load8 (phys s) x).
  { intros x Hx. cbn [phys set_phys s2]. by rewrite Hg, Hm. }
  split; [done|]. split; [unfold owns; by rewrite Hup2, Htp2|]. split.
  { unfold owns. rewrite Hup2, Htp2, Hup, Htp. solve_Permutation. }
  split; [|split; [|done]].
  - apply (keeps_outside root n _ _ [p]).
    + intros va _. by rewrite Hl2, Hl.
    + by apply Forall_singleton.
    + rewrite <- Hup. apply Hu1.
    + intros q ->%list_elem_of_singleton. rewrite <- Hup. intros Hin. apply Hni. unfold owns. rewrite !elem_of_app. auto.
    + intros x Hx. apply Hm2, Hx. left.
  - intros va. by rewrite Hl2, Hl.
Qed.

(** Mapping the page in hand, or putting it back. *)
Lemma put_page s root n extra l p perm :
  uspace s root n extra l -> page_ok p -> p ∉ owns s root n l -> 0 <= perm < 1024 -> Z.lor perm PTE_V <> PTE_V ->
  exists r s1, mappages root (4096 * Z.of_nat n) PGSIZE p perm s = Ret r s1 /\
    ((r = 0 /\ exists l', (length l <= length l' + 2)%nat /\ uspace s1 root (S n) extra l' /\ owns s1 root (S n) l' ≡ₚ p :: owns s root n l /\
        leaf (phys s1) root (4096 * Z.of_nat n) = map_pte p perm /\ keeps root n (phys s) (phys s1) /\
        (forall x, in_page p x -> load8 (phys s1) x = load8 (phys s) x) /\
        (forall x, (forall q, q ∈ owns s root n l -> ~ in_page q x) -> load8 (phys s1) x = load8 (phys s) x)) \/
     (r = -1 /\ (length l <= 2)%nat /\ exists s2, kfree kend p s1 = Ret tt s2 /\ uspace s2 root n extra [p] /\
        owns s2 root n [p] ≡ₚ p :: owns s root n l /\ keeps root n (phys s) (phys s2) /\
        (forall x, (forall q, q ∈ p :: owns s root n l -> ~ in_page q x) -> load8 (phys s2) x = load8 (phys s) x))).
Proof.
  intros Hu Hp Hni Hperm Hrwx. pose proof (uspace_room _ _ _ _ _ _ Hu Hp Hni) as Hroom.
  destruct (uspace_extend s root n extra l p perm) as (r & s1 & l' & E & Hm & Hl & Hlen & Hr); try done.
  assert (Hokt : Forall page_ok (tp 2 (phys s) root ++ l)).
  { apply Forall_forall. intros q Hq. eapply owns_ok; [exact Hu|]. unfold owns. apply elem_of_app. by right. }
  assert (Hk : keeps root n (phys s) (phys s1)).
  { eapply keeps_outside; [exact Hl|exact Hokt|apply Hu|by eapply owns_split|exact Hm]. }
  exists r, s1. split; [done|]. destruct Hr as [(-> & Hu1 & Hperm' & Hln)|(-> & -> & Hu1 & Hmv)]; [left|right]; (split; [done|]).
  - exists l'. split; [done|]. split; [done|]. split; [done|]. split; [done|]. split; [done|]. split.
    + intros x Hx. apply Hm. intros q Hq. rewrite Forall_forall in Hokt. apply (page_not_self kend p q x); try done; [by apply Hokt|].
      intros ->. apply Hni. unfold owns. apply elem_of_app. by right.
    + intros x Hx. apply Hm. intros q Hq. apply Hx. unfold owns. apply elem_of_app. by right.
  - split; [exact Hlen|]. destruct Hmv as [Hperm' Hm']. assert (Hni1 : p ∉ owns s1 root n []) by (by rewrite Hperm').
    destruct (kfree_cons kend Hkend s1 p []) as (s2 & E2 & Hk2 & Hm2); [apply Hu1|done|apply not_elem_of_nil|].
    assert (Hperm2 : owns s1 root n [p] ≡ₚ p :: owns s1 root n []) by (unfold owns; solve_Permutation).
    destruct (uspace_frame s1 s2 root n extra [] [p]) as (Hu2 & Hup2 & Htp2 & Hl2); try done.
    { intros q x Hq Hx. apply Hm2. apply (page_not_self kend q p x); try done.
      - eapply owns_ok; [exact Hu1|]. unfold owns. rewrite !elem_of_app. auto.
      - intros ->. apply Hni1. unfold owns. rewrite !elem_of_app. auto. }
    { rewrite Hperm2. apply NoDup_cons. split; [done|]. apply Hu1. }
    exists s2. split; [done|]. split; [done|]. split; [|split].
    + unfold owns in Hperm2 |- *. rewrite Hup2, Htp2, Hperm2. by rewrite Hperm'.
    + eapply keeps_trans; [exact Hk|]. apply (keeps_outside root n _ _ [p]).
      * intros va _. apply Hl2.
      * by apply Forall_singleton.
      * apply Hu1.
      * intros q ->%list_elem_of_singleton Hin. apply Hni1. unfold owns. rewrite !elem_of_app. auto.
      * intros x Hx. apply Hm2, Hx. left.
    + intros x Hx. rewrite Hm2 by (apply Hx; left). apply Hm'. intros q Hq. apply Hx. by right.
Qed.

(** ** uvmalloc() *)

(** Pages [n] to [n'] are new: mapped with [perm], and zero. *)
Definition fresh (root : Z) (n n' : nat) (perm : Z) (m : mem) : Prop :=
  forall i, Z.of_nat n <= i < Z.of_nat n' ->
    exists p, leaf m root (4096 * i) = map_pte p perm /\ PTE2PA (map_pte p perm) = p /\ zero_page m p.

Lemma fresh_keeps root n n' k perm m m' :
  fresh root n n' perm m -> (n' <= k)%nat -> keeps root k m m' -> fresh root n n' perm m'.
Proof.
  intros Hf Hk [Hl Hs] i Hi. destruct (Hf i Hi) as (p & Hp & Hpa & Hz). exists p. rewrite Hl by lia.
  split; [done|]. split; [done|]. intros x Hx. rewrite (Hs p x); [by apply Hz| |done].
  apply elem_of_upages. exists i. split; [lia|]. by rewrite Hp.
Qed.

Lemma user_perm xperm : 0 <= xperm < 1024 ->
  0 <= Z.lor (Z.lor PTE_R PTE_U) xperm < 1024 /\ Z.lor (Z.lor (Z.lor PTE_R PTE_U) xperm) PTE_V <> PTE_V.
Proof.
  intros H. split; [by apply (lor_bound _ _ 10)|]. intros He.
  apply (f_equal (fun z => Z.testbit z 1)) in He. rewrite !Z.lor_spec in He. by vm_compute in He.
Qed.

(** One turn of uvmalloc()'s loop: a page more, or what there was. *)
Lemma uvmalloc_turn fuel s root n0 n newsz xperm extra l :
  4096 * Z.of_nat n < newsz < 2 ^ 64 -> (n0 <= n)%nat -> 0 <= xperm < 1024 -> uspace s root n extra l ->
  (exists s' l', uvmalloc_loop kend (S fuel) root (4096 * Z.of_nat n0) newsz (4096 * Z.of_nat n) xperm s =
       uvmalloc_loop kend fuel root (4096 * Z.of_nat n0) newsz (4096 * Z.of_nat (S n)) xperm s' /\
     uspace s' root (S n) extra l' /\ moved s root n l s' (S n) l' /\ keeps root n (phys s) (phys s') /\
     fresh root n (S n) (Z.lor (Z.lor PTE_R PTE_U) xperm) (phys s') /\ (length l <= length l' + 3)%nat) \/
  (exists s' l', uvmalloc_loop kend (S fuel) root (4096 * Z.of_nat n0) newsz (4096 * Z.of_nat n) xperm s = Ret 0 s' /\
     uspace s' root n0 extra l' /\ moved s root n l s' n0 l' /\ keeps root n0 (phys s) (phys s') /\ (length l <= 3)%nat).
Proof.
  intros Hn Hle Hx Hu. destruct (user_perm xperm Hx) as [Hperm Hrwx].
  set (perm := Z.lor (Z.lor PTE_R PTE_U) xperm) in *. cbn [uvmalloc_loop].
  destruct (Z.ltb_spec (4096 * Z.of_nat n) newsz); [|lia].
  assert (Hback : (length l <= 3)%nat -> forall s1 l1, uspace s1 root n extra l1 -> moved s root n l s1 n l1 -> keeps root n (phys s) (phys s1) ->
    exists s' l', bind (uvmdealloc kend root (4096 * Z.of_nat n) (4096 * Z.of_nat n0)) (fun _ => ret 0) s1 = Ret 0 s' /\
      uspace s' root n0 extra l' /\ moved s root n l s' n0 l' /\ keeps root n0 (phys s) (phys s') /\ (length l <= 3)%nat).
  { intros Hl3 s1 l1 Hu1 Hmv1 Hk1. rewrite <- (pgs_mul n) in Hu1, Hmv1.
    destruct (uvmdealloc_spec s1 root (4096 * Z.of_nat n) (4096 * Z.of_nat n0) extra l1) as (s' & l' & E & Hu' & Hmv & Hk); [done|lia|lia|].
    rewrite Z.min_r, pgs_mul in * by lia. exists s', l'. split; [by erewrite bind_Ret by exact E|]. split; [done|].
    split; [rewrite pgs_mul in *; by eapply moved_trans|]. split; [|done]. by eapply keeps_trans; [eapply keeps_le; [exact Hle|exact Hk1]|]. }
  destruct l as [|p l].
  { erewrite bind_Ret by (apply (kalloc_nil kend), Hu). right. apply (Hback ltac:(cbn; lia) s []); done. }
  destruct (take_page s root n extra p l (fun m => memset m p 0 PGSIZE) Hu) as (s1 & E & Hp & Ht).
  { intros m x Hx'. rewrite load8_memset. by rewrite decide_False. }
  cbn zeta in Ht. set (s2 := set_phys (memset (phys s1) p 0 PGSIZE) s1) in *.
  destruct Ht as (Hu2 & Hni & Hown2 & Hk2 & Hl2 & Hm2 & _).
  assert (Hz : zero_page (phys s2) p).
  { intros x Hx'. cbn [s2 phys set_phys]. rewrite load8_memset. by rewrite decide_True. }
  erewrite bind_Ret by exact E. pose proof (page_ok_pos kend Hkend p Hp).
  destruct (Z.eqb_spec p 0); [lia|]. erewrite bind_Ret by reflexivity. fold s2 perm.
  destruct (put_page s2 root n extra l p perm Hu2 Hp Hni Hperm Hrwx) as (r & s3 & E3 & Hr).
  erewrite bind_Ret by exact E3. destruct Hr as [(-> & l3 & Hlen & Hu3 & Hown3 & Hln & Hk3 & Hpg & Hm3)|(-> & Hlen & s4 & E4 & Hu4 & Hown4 & Hk4 & Hm4)].
  - left. cbn [Z.eqb negb]. exists s3, l3. change PGSIZE with 4096. pose proof (uspace_bound _ _ _ _ _ Hu).
    rewrite u64_small by (change (2 ^ 64) with 18446744073709551616; lia).
    split; [f_equal; lia|]. split; [done|]. split; [|split; [by eapply keeps_trans|split; [|cbn [length]; lia]]].
    + split; [by rewrite Hown3, Hown2|]. intros x Hx'. rewrite Hm3; [apply Hm2, Hx'; rewrite Hown2; left|].
      intros q Hq. apply Hx'. rewrite Hown2. by right.
    + intros i Hi. replace i with (Z.of_nat n) by lia. exists p. split; [done|]. split.
      * apply map_pte_leaf; try done; [|apply Hp]. destruct Hp as (_ & Hp). unfold PHYSTOP, KERNBASE in *.
        change (2 ^ 55) with 36028797018963968. lia.
      * intros x Hx'. rewrite Hpg by done. by apply Hz.
  - right. cbn [Z.eqb negb]. erewrite bind_Ret by exact E4. apply (Hback ltac:(cbn [length]; lia) s4 [p]); [done| |by eapply keeps_trans].
    split; [by rewrite Hown4, Hown2|]. intros x Hx'. rewrite Hm4; [apply Hm2, Hx'; rewrite Hown2; left|].
    intros q Hq. apply Hx'. by rewrite Hown2.
Qed.

(** What uvmalloc() from [n0] pages to [newsz] bytes leaves. *)
Definition alloc_post (root : Z) (n0 : nat) (newsz xperm : Z) (extra : list Z) (s : kmem) (l : list Z) (n : nat)
    (r : Z) (s' : kmem) : Prop :=
  exists n' l', uspace s' root n' extra l' /\ moved s root n l s' n' l' /\ keeps root n0 (phys s) (phys s') /\
    ((r = newsz /\ n' = Nat.max n (pgs newsz) /\ keeps root n (phys s) (phys s') /\
        fresh root n n' (Z.lor (Z.lor PTE_R PTE_U) xperm) (phys s') /\ (length l <= length l' + 3 * (n' - n))%nat) \/
     (r = 0 /\ n' = n0 /\ (length l <= 3 * (pgs newsz - n))%nat)).

Lemma uvmalloc_loop_spec fuel s root n0 n newsz xperm extra l :
  (Z.to_nat ((newsz - 4096 * Z.of_nat n + 4095) / 4096) < fuel)%nat -> 0 <= newsz < 2 ^ 64 ->
  (n0 <= n)%nat -> 0 <= xperm < 1024 -> uspace s root n extra l ->
  exists r s', uvmalloc_loop kend fuel root (4096 * Z.of_nat n0) newsz (4096 * Z.of_nat n) xperm s = Ret r s' /\
    alloc_post root n0 newsz xperm extra s l n r s'.
Proof.
  revert s n l. induction fuel as [|fuel IH]; intros s n l Hf Hsz Hle Hx Hu; [lia|].
  destruct (decide (4096 * Z.of_nat n < newsz)) as [Hlt|Hge].
  2: { exists newsz, s. cbn [uvmalloc_loop]. destruct (Z.ltb_spec (4096 * Z.of_nat n) newsz); [lia|]. split; [done|].
       exists n, l. split; [done|]. split; [done|]. split; [done|]. left. split; [done|].
       split; [|split; [done|split; [intros i Hi; lia|lia]]].
       assert (pgs newsz <= n)%nat; [|lia]. rewrite <- (pgs_mul n). apply pgs_mono. lia. }
  assert (Hnp : (n < pgs newsz)%nat) by (apply Nat2Z.inj_lt; rewrite pgs_of by lia; Z.div_mod_to_equations; lia).
  destruct (uvmalloc_turn fuel s root n0 n newsz xperm extra l ltac:(lia) Hle Hx Hu)
    as [(s1 & l1 & E & Hu1 & Hmv1 & Hk1 & Hf1 & Hlen)|(s1 & l1 & E & Hu1 & Hmv1 & Hk1 & Hlen)].
  2: { exists 0, s1. split; [done|]. exists n0, l1. do 3 (split; [done|]). right. split; [done|]. split; [done|]. lia. }
  assert (Hmax : Nat.max (S n) (pgs newsz) = Nat.max n (pgs newsz)) by lia.
  destruct (IH s1 (S n) l1) as (r & s' & E' & n' & l' & Hu' & Hmv & Hk0 & Hr); try done; try lia.
  { revert Hlt Hf. clear. intros. rewrite Nat2Z.inj_succ. Z.div_mod_to_equations. lia. }
  exists r, s'. rewrite E. split; [done|]. exists n', l'. split; [done|]. split; [by eapply moved_trans|].
  split; [eapply keeps_trans; [by eapply keeps_le; [|exact Hk1]|done]|].
  destruct Hr as [(-> & -> & HkS & Hfr & Hl3)|(-> & -> & Hl3)]; [left|right; split; [done|]; split; [done|lia]]. split; [done|]. split; [done|].
  split; [|split; [|lia]].
  - eapply keeps_trans; [exact Hk1|]. eapply keeps_le; [|exact HkS]. lia.
  - intros i Hi. destruct (decide (i = Z.of_nat n)) as [->|]; [|apply Hfr; lia].
    apply (fresh_keeps root n (S n) (S n) _ (phys s1)); [done|lia|done|lia].
Qed.

Lemma uvmalloc_spec s root oldsz newsz xperm extra l :
  uspace s root (pgs oldsz) extra l -> 0 <= oldsz <= newsz -> newsz < 2 ^ 64 -> 0 <= xperm < 1024 ->
  exists r s', uvmalloc kend root oldsz newsz xperm s = Ret r s' /\
    alloc_post root (pgs oldsz) newsz xperm extra s l (pgs oldsz) r s'.
Proof.
  intros Hu Ho Hn Hx. unfold uvmalloc. destruct (Z.ltb_spec newsz oldsz); [lia|].
  pose proof (uspace_bound _ _ _ _ _ Hu) as Hb. pose proof (pgs_small oldsz (pgs oldsz) ltac:(lia) ltac:(lia) Hb).
  rewrite PGROUNDUP_pgs by (change (2 ^ 64) with 18446744073709551616; lia). change PGSIZE with 4096.
  apply uvmalloc_loop_spec; try done; try lia.
  replace (newsz - 4096 * Z.of_nat (pgs oldsz) + 4096 - 1) with (newsz - 4096 * Z.of_nat (pgs oldsz) + 4095) by lia. lia.
Qed.

(** ** Creating a table, its pages at the top, and freeing all of it *)

Lemma uvmcreate_spec s l : kwf kend s l ->
  exists r s', uvmcreate s = Ret r s' /\
    ((r = 0 /\ l = [] /\ s' = s) \/
     (r <> 0 /\ exists l', l = r :: l' /\ uspace s' r 0 [] l' /\ owns s' r 0 l' ≡ₚ l /\
        (forall x, ~ in_page r x -> load8 (phys s') x = load8 (phys s) x))).
Proof.
  intros Hk. unfold uvmcreate. destruct l as [|p l].
  { exists 0, s. erewrite bind_Ret by (by apply (kalloc_nil kend)). split; [done|]. by left. }
  destruct (kalloc_cons kend Hkend s p l Hk) as (s1 & E & Hk1 & Hp & Hpl & Hm).
  pose proof (page_ok_pos kend Hkend p Hp). erewrite bind_Ret by exact E. destruct (Z.eqb_spec p 0); [lia|].
  set (s2 := set_phys (memset (phys s1) p 0 PGSIZE) s1). exists p, s2. split; [by erewrite bind_Ret by reflexivity|].
  right. split; [done|]. exists l. split; [done|].
  assert (Hm2 : forall x, load8 (phys s2) x = if decide (in_page p x) then 0 else load8 (phys s1) x).
  { intros x. cbn [s2 phys set_phys]. by rewrite load8_memset. }
  assert (Hk2 : kwf kend s2 l).
  { apply kwf_phys_frame; [done|]. intros q x Hq Hx. fold s2 in Hm2. specialize (Hm2 x). cbn [s2 phys set_phys] in Hm2.
    rewrite Hm2, decide_False; [done|]. apply (page_not_self kend q p x); [eapply flist_page_ok; [apply Hk1|exact Hq]|exact Hp| |exact Hx].
    intros ->. exact (Hpl Hq). }
  clearbody s2.
  assert (Hz : zero_page (phys s2) p) by (intros x Hx; rewrite Hm2; by rewrite decide_True).
  assert (Htp : tp 2 (phys s2) p = [p]) by (by apply zero_page_tp).
  split; [|split].
  - apply Uspace.
    + split; [done|]. rewrite Htp. split; [|by apply Forall_singleton]. cbn [app]. apply NoDup_cons. split; [done|apply Hk1].
    + split; [|intros i Hi; by rewrite zero_page_entry, has_0 by (done || lia)].
      intros i Hi. by rewrite zero_page_entry, has_0.
    + done.
    + intros i Hi. lia.
    + unfold owns. rewrite Htp. cbn [upages at_pages app]. apply NoDup_cons. split; [done|]. apply Hk1.
    + constructor.
    + intros va Hva. by apply elem_of_nil in Hva.
    + constructor.
    + intros va _ _. unfold leaf. by rewrite zero_page_leaf, has_0.
  - unfold owns. by rewrite Htp.
  - intros x Hx. rewrite Hm2, decide_False by done. rewrite Hm. by rewrite decide_False.
Qed.

(** Unmapping a page the table does not own. *)
Lemma uspace_drop s root n va extra l :
  uspace s root n (va :: extra) l ->
  exists s', uvmunmap kend root va 1 false s = Ret tt s' /\ uspace s' root n extra l /\ moved s root n l s' n l.
Proof.
  intros [Hwf Ht Hfit Hmap Hown Hok Hex Hdis Hrest]. apply NoDup_cons in Hdis as [Hnx Hdis].
  destruct (Hex va ltac:(left)) as (Ha & Hr & Hv).
  assert (Hv1 : mapped (phys s) root va 1) by (intros i Hi; replace (va + 4096 * i) with va by lia; by destruct Hv as (? & ? & _)). change TRAPFRAME with 274877898752 in *. assert (HMX : MAXVA = 274877906944) by done.
  destruct (uvmunmap_spec kend Hkend s root va 1 false l) as (s' & E & Hwf' & Htp & Hl & Hm & Hip); try done.
  { lia. }
  { revert Ha Hr. rewrite HMX. clear. intros. Z.div_mod_to_equations. lia. }
  { by apply NoDup_app in Hown as (_ & _ & ?). }
  cbn [freed app] in *. rewrite app_nil_r in Hm.
  assert (Hl' : forall w, 0 <= w < MAXVA -> leaf (phys s') root w = if decide (w / 4096 * 4096 = va) then 0 else leaf (phys s) root w).
  { intros w Hw. rewrite Hl by done. unfold unmap_range. repeat case_decide; try done;
      exfalso; revert Ha H H0; clear; intros; Z.div_mod_to_equations; lia. }
  assert (Hup : upages (phys s') root n = upages (phys s) root n).
  { apply upages_ext. intros w Hw. rewrite Hl' by lia. rewrite decide_False; [done|].
    revert Hw Hfit Hr. clear. intros. Z.div_mod_to_equations. lia. }
  exists s'. split; [done|]. split; [|split].
  - split; try done; unfold owns; rewrite ?Hup, ?Htp; try done.
    + by eapply tidy_frame.
    + intros i Hi. rewrite Hl' by lia. rewrite decide_False; [by apply Hmap|].
      revert Hi Hfit Hr. clear. intros. Z.div_mod_to_equations. lia.
    + intros w Hw. destruct (Hex w ltac:(by right)) as (Hwa & Hwr & Hwv). split; [done|]. split; [done|].
      rewrite Hl' by lia. rewrite decide_False; [done|]. rewrite page_base by done. by intros ->.
    + intros w Hw Hni. rewrite Hl' by lia. case_decide; [apply has_0|]. apply Hrest; [done|].
      intros [?|?]%elem_of_cons; [done|done].
  - unfold owns. by rewrite Hup, Htp.
  - intros x Hx. apply Hm. intros p Hp. apply Hx. unfold owns. rewrite !elem_of_app. auto.
Qed.

(** Mapping a page the table does not own at the top. *)
Lemma uspace_add s root n va extra l pa perm :
  uspace s root n extra l -> va mod 4096 = 0 -> TRAPFRAME <= va < MAXVA -> va ∉ extra ->
  pa mod 4096 = 0 -> 0 <= pa < 2 ^ 55 -> 0 <= perm < 1024 -> Z.lor perm PTE_V <> PTE_V -> Z.land perm PTE_U = 0 ->
  exists r s' l', mappages root va PGSIZE pa perm s = Ret r s' /\ moved s root n l s' n l' /\ (length l <= length l' + 2)%nat /\
    ((r = 0 /\ uspace s' root n (va :: extra) l' /\ leaf (phys s') root va = map_pte pa perm) \/ (r = -1 /\ l' = [] /\ uspace s' root n extra l')).
Proof.
  intros Hu Ha Hr Hnx Hpa Hpar Hperm Hlor HnU. pose proof Hu as [Hwf Ht Hfit Hmap Hown Hok Hex Hdis Hrest].
  change TRAPFRAME with 274877898752 in *. assert (HMX : MAXVA = 274877906944) by done.
  destruct (map_one s root va pa perm l) as (r & s' & l' & E & Hg & Hlen & Hr'); try done.
  { lia. }
  { revert Ha Hr. rewrite HMX. clear. intros. Z.div_mod_to_equations. lia. }
  { apply Hrest; [lia|]. by rewrite page_base. }
  exists r, s', l'. split; [done|]. destruct Hr' as [[-> Hl]|(-> & -> & Hl)].
  2: { destruct (uspace_grown s root n extra l s' [] Hu Hg Hl) as (? & ? & _). split; [done|]. split; [done|]. by right. }
  destruct (map_pte_leaf pa perm Hpar Hpa Hperm Hlor) as (Hpv & Hpf & _).
  pose proof (map_pte_no_user pa perm Hpar Hpa Hperm HnU) as Hpu.
  assert (Hlow : forall w, 0 <= w < 4096 * Z.of_nat n -> leaf (phys s') root w = leaf (phys s) root w).
  { intros w Hw. rewrite Hl by lia. rewrite decide_False; [done|]. revert Hw Hfit Hr. clear. intros. Z.div_mod_to_equations. lia. }
  assert (Hup : upages (phys s') root n = upages (phys s) root n) by (by apply upages_ext).
  pose proof Hg as (used & -> & Hwf' & Htp & Hm & Ht').
  assert (Hperm' : owns s' root n l' ≡ₚ owns s root n (used ++ l')) by (unfold owns; rewrite Hup, Htp; solve_Permutation).
  assert (Hlv : leaf (phys s') root va = map_pte pa perm) by (rewrite Hl by lia; by rewrite decide_True by (by apply page_base)).
  split; [split; [done|]|split; [done|left; split; [done|]; split; [|done]]].
  - intros x Hx. apply Hm. intros p Hp. apply Hx. unfold owns. rewrite !elem_of_app in *. tauto.
  - split; try done; rewrite ?Hup; try done.
    + by apply Ht'.
    + intros i Hi. rewrite Hlow by lia. by apply Hmap.
    + by rewrite Hperm'.
    + intros w [->|Hw]%elem_of_cons.
      * split; [done|]. split; [done|]. by rewrite Hlv.
      * destruct (Hex w Hw) as (Hwa & Hwr & Hwv). split; [done|]. split; [done|].
        rewrite Hl by lia. rewrite decide_False; [done|]. rewrite page_base by done. by intros ->.
    + by apply NoDup_cons.
    + intros w Hw Hni. rewrite Hl by lia. rewrite decide_False; [|intros Heq; apply Hni; rewrite Heq; left].
      apply Hrest; [done|]. intros ?. apply Hni. by right.
Qed.

(** uvmfree() hands back every page the table owns and maps. *)
Lemma uvmfree_spec s root sz l :
  0 <= sz -> uspace s root (pgs sz) [] l ->
  exists s' l', uvmfree kend root sz s = Ret tt s' /\ kwf kend s' l' /\ l' ≡ₚ owns s root (pgs sz) l /\
    (forall x, (forall p, p ∈ owns s root (pgs sz) l -> ~ in_page p x) -> load8 (phys s') x = load8 (phys s) x).
Proof.
  intros Hsz Hu. pose proof (uspace_bound _ _ _ _ _ Hu) as Hb. pose proof (pgs_small sz (pgs sz) Hsz ltac:(lia) Hb).
  assert (Hun : exists s1 l1, (if 0 <? sz then uvmunmap kend root 0 (PGROUNDUP sz / PGSIZE) true else ret tt) s = Ret tt s1 /\
    uspace s1 root 0 [] l1 /\ moved s root (pgs sz) l s1 0 l1).
  { destruct (Z.ltb_spec 0 sz).
    - rewrite PGROUNDUP_pgs by (change (2 ^ 64) with 18446744073709551616; lia). change PGSIZE with 4096.
      rewrite Z.mul_comm, Z.div_mul by lia.
      destruct (uspace_shrink s root 0 (pgs sz) [] l Hu) as (s1 & E & Hu1 & Hmv & _). eauto.
    - replace (pgs sz) with 0%nat in * by (replace sz with 0 by lia; done). by exists s, l. }
  destruct Hun as (s1 & l1 & E & Hu1 & [Hperm Hm]). pose proof Hu1 as [(Hk1 & Hnd1 & Hok1) Ht1 _ _ _ _ _ _ Hrest1].
  destruct (freewalk_at_gives kend Hkend 2 root s1 l1) as (s' & E' & l' & Hl' & Hk' & Hm'); try done.
  { apply unmapped_bare; [done|]. intros va Hva. apply Hrest1; [lia|]. apply not_elem_of_nil. }
  exists s', l'. split; [unfold uvmfree; by erewrite bind_Ret by exact E|]. split; [done|]. split; [by rewrite Hl'|].
  intros x Hx. rewrite Hm'; [by apply Hm|]. intros p Hp. apply Hx. rewrite <- Hperm. unfold owns. rewrite !elem_of_app. auto.
Qed.
End AddrSpace.
