(* ===== verification/UvmCopy.v ===== *)
(** * kernel/vm.c: uvmcopy()

    fork() gets a page of its own for each page of the parent, with the same
    bytes and permissions; when memory runs out the copy is undone. *)

From Stdlib Require Import ZArith Lia.
From stdpp Require Import base numbers list list_numbers gmap strings sorting.
From S2P Require Import Prelude Cstring Riscv Kalloc Vm PageTable Uvm UvmFree AddrSpace.

Section UvmCopy.
Context (kend : Z).
Hypothesis Hkend : KERNBASE <= kend.
Notation page_ok := (page_ok kend).
Notation uspace := (uspace kend).

(** The parent: memory [m0], table [old] with [n] pages from 0 on. *)
Context (m0 : mem) (old : Z) (n : nat).
Hypothesis Hmap : mapped m0 old 0 n.

Definition pages0 : list Z := tp 2 m0 old ++ upages m0 old n.
Hypothesis Hok0 : Forall page_ok pages0.

(** The child's first [k] pages are copies of the parent's. *)
Definition copied (new : Z) (k : nat) (m : mem) : Prop :=
  forall i, 0 <= i < Z.of_nat k ->
    let e := leaf m0 old (4096 * i) in
    exists p, leaf m new (4096 * i) = map_pte p (PTE_FLAGS e) /\ PTE2PA (map_pte p (PTE_FLAGS e)) = p /\
      forall off, 0 <= off < 4096 -> load8 m (p + off) = load8 m0 (PTE2PA e + off).

(** The child's table is apart from the parent's pages, which have not
    changed. *)
Definition apart (s : kmem) (new : Z) (k : nat) (l : list Z) : Prop :=
  (forall p, p ∈ pages0 -> p ∉ owns s new k l) /\ same_on pages0 m0 (phys s).

Lemma apart_moved s new k l s' k' l' extra :
  uspace s new k extra l -> apart s new k l -> moved s new k l s' k' l' -> apart s' new k' l'.
Proof.
  intros Hu [Hd Hs] [Hp Hm]. split.
  - intros p Hin. rewrite Hp. by apply Hd.
  - intros p x Hin Hx. rewrite Hm; [by apply (Hs p)|]. intros q Hq. rewrite Forall_forall in Hok0.
    apply (page_not_self kend p q x); [by apply Hok0|by eapply owns_ok| |done]. intros ->. by apply (Hd q).
Qed.

Lemma copied_keeps new k m m' : copied new k m -> keeps new k m m' -> copied new k m'.
Proof.
  intros Hc [Hl Hs] i Hi e. destruct (Hc i Hi) as (p & Hp & Hpa & Hb). exists p. rewrite Hl by lia.
  split; [done|]. split; [done|]. intros off Hoff. rewrite (Hs p (p + off)); [by apply Hb| |unfold in_page; lia].
  apply elem_of_upages. exists i. split; [done|]. by rewrite Hp.
Qed.

Lemma flags_perm e : has e PTE_V = true -> PTE_FLAGS e <> PTE_V ->
  0 <= PTE_FLAGS e < 1024 /\ Z.lor (PTE_FLAGS e) PTE_V <> PTE_V.
Proof.
  intros Hv Hf. change PTE_V with (Z.shiftl 1 0) in Hv. rewrite has_pow2 in Hv by done.
  unfold PTE_FLAGS in *. change 0x3FF with (Z.ones 10) in *.
  split; [rewrite Z.land_ones by lia; apply Z.mod_pos_bound; lia|]. intros He. apply Hf. rewrite <- He.
  apply Z.bits_inj'. intros j Hj. rewrite Z.lor_spec. change PTE_V with (2 ^ 0).
  destruct (decide (j = 0)) as [->|]; [|by rewrite Z.pow2_bits_false, orb_false_r by lia].
  by rewrite Z.land_spec, Hv.
Qed.

(** Undoing a copy of [k] pages. *)
Lemma copy_undo s new k extra l :
  uspace s new k extra l ->
  exists s' l', bind (uvmunmap kend new 0 (4096 * Z.of_nat k / PGSIZE) true) (fun _ => ret (-1)) s = Ret (-1) s' /\
    uspace s' new 0 extra l' /\ moved s new k l s' 0 l'.
Proof.
  intros Hu. replace (4096 * Z.of_nat k / PGSIZE) with (Z.of_nat k) by (change PGSIZE with 4096; rewrite Z.mul_comm, Z.div_mul; lia).
  destruct (uspace_shrink kend Hkend s new 0 k extra l Hu) as (s' & E & Hu' & Hmv & _).
  exists s', (reverse (at_pages (fun va => PTE2PA (leaf (phys s) new va)) (4096 * Z.of_nat 0) k) ++ l).
  split; [|done]. by erewrite bind_Ret by exact E.
Qed.

Lemma parent_leaf m i : same_on pages0 m0 m -> 0 <= i < Z.of_nat n -> 4096 * Z.of_nat n <= MAXVA ->
  exists pte, wk 2 m old (4096 * i) = Some pte /\ load64 m pte = leaf m0 old (4096 * i) /\ pte <> 0.
Proof.
  intros Hs Hi Hmax. destruct (tp_same m0 m old) as (Htp & Hl & Hw).
  { eapply same_on_sub; [|exact Hs]. intros p Hp. apply elem_of_app. by left. }
  destruct (Hmap i Hi) as [Hv _]. rewrite Z.add_0_l, <- Hl in Hv. rewrite <- Hl. unfold leaf, leaf_at in *.
  destruct (wk 2 m old (4096 * i)) as [pte|] eqn:E; [|by rewrite has_0 in Hv].
  exists pte. split; [done|]. split; [done|]. rewrite Hw in E. destruct (wk_in_lp _ _ _ _ _ E) as (p & Hp & ->).
  apply lp_tp in Hp. rewrite Forall_forall in Hok0.
  pose proof (page_ok_pos kend Hkend p (Hok0 p ltac:(apply elem_of_app; by left))). pose proof (PX_range 0 (4096 * i)). lia.
Qed.

Lemma uvmcopy_turn fuel s new k sz extra l :
  (k < n)%nat -> 4096 * Z.of_nat k < sz -> 4096 * Z.of_nat n <= MAXVA ->
  uspace s new k extra l -> apart s new k l -> copied new k (phys s) ->
  (exists s' l', uvmcopy_loop kend (S fuel) old new sz (4096 * Z.of_nat k) s =
       uvmcopy_loop kend fuel old new sz (4096 * Z.of_nat (S k)) s' /\
     uspace s' new (S k) extra l' /\ moved s new k l s' (S k) l' /\ copied new (S k) (phys s') /\ (length l <= length l' + 3)%nat) \/
  (exists s' l', uvmcopy_loop kend (S fuel) old new sz (4096 * Z.of_nat k) s = Ret (-1) s' /\
     uspace s' new 0 extra l' /\ moved s new k l s' 0 l' /\ (length l <= 3)%nat).
Proof.
  intros Hk Hsz Hmax Hu Hap Hc. pose proof Hap as [Hd Hs]. cbn [uvmcopy_loop].
  assert (HMX : MAXVA = 274877906944) by done.
  destruct (Z.ltb_spec (4096 * Z.of_nat k) sz); [|lia].
  destruct (parent_leaf (phys s) (Z.of_nat k) Hs ltac:(lia) Hmax) as (pte & Hwk & Hle & Hpte).
  destruct (Hmap (Z.of_nat k) ltac:(lia)) as [Hv Hfl]. rewrite Z.add_0_l in Hv, Hfl.
  set (e := leaf m0 old (4096 * Z.of_nat k)) in *.
  erewrite bind_Ret by (apply walk_lookup; lia). rewrite Hwk. destruct (Z.eqb_spec pte 0); [done|].
  erewrite bind_Ret by reflexivity. rewrite Hle, Hv. cbn [negb].
  destruct (flags_perm e Hv Hfl) as [Hperm Hlor].
  destruct l as [|p l].
  { erewrite bind_Ret by (apply (kalloc_nil kend), Hu). right.
    destruct (copy_undo s new k extra [] Hu) as (s' & l' & E' & Hu' & Hmv). exists s', l'. split; [exact E'|]. split; [done|]. split; [done|cbn; lia]. }
  assert (Hpa : PTE2PA e ∈ pages0).
  { apply elem_of_app. right. apply elem_of_upages. exists (Z.of_nat k). split; [lia|done]. }
  assert (Hpap : PTE2PA e <> p).
  { intros Heq. apply (Hd _ Hpa). rewrite Heq. unfold owns. rewrite !elem_of_app. right. right. left. }
  destruct (take_page kend Hkend s new k extra p l (fun m => memmove m p (PTE2PA e) PGSIZE) Hu) as (s1 & E & Hp & Ht).
  { intros m x Hx'. rewrite load8_memmove by done. by rewrite decide_False. }
  cbn zeta in Ht. set (s2 := set_phys (memmove (phys s1) p (PTE2PA e) PGSIZE) s1) in *.
  destruct Ht as (Hu2 & Hni & Hown2 & Hk2 & Hl2 & Hm2 & Hm1).
  assert (Hcp : forall off, 0 <= off < 4096 -> load8 (phys s2) (p + off) = load8 m0 (PTE2PA e + off)).
  { intros off Hoff. cbn [s2 phys set_phys]. rewrite load8_memmove by done. change PGSIZE with 4096. rewrite decide_True by lia.
    replace (PTE2PA e + (p + off - p)) with (PTE2PA e + off) by lia. rewrite Hm1; [apply (Hs _ _ Hpa); unfold in_page; lia|].
    rewrite Forall_forall in Hok0. apply (page_not_self kend (PTE2PA e) p); try done; [by apply Hok0|unfold in_page; lia]. }
  erewrite bind_Ret by exact E. pose proof (page_ok_pos kend Hkend p Hp).
  destruct (Z.eqb_spec p 0); [lia|]. erewrite bind_Ret by reflexivity. fold s2.
  destruct (put_page kend Hkend s2 new k extra l p (PTE_FLAGS e) Hu2 Hp Hni Hperm Hlor) as (r & s3 & E3 & Hr).
  erewrite bind_Ret by exact E3. destruct Hr as [(-> & l3 & Hlen & Hu3 & Hown3 & Hln & Hk3 & Hpg & Hm3)|(-> & Hlen & s4 & E4 & Hu4 & Hown4 & Hk4 & Hm4)].
  - left. cbn [Z.eqb negb]. exists s3, l3. change PGSIZE with 4096.
    rewrite u64_small by (change (2 ^ 64) with 18446744073709551616; lia).
    split; [f_equal; lia|]. split; [done|]. split; [|split; [|cbn [length]; lia]].
    + split; [by rewrite Hown3, Hown2|]. intros x Hx'. rewrite Hm3; [apply Hm2, Hx'; rewrite Hown2; left|].
      intros q Hq. apply Hx'. rewrite Hown2. by right.
    + intros i Hi. destruct (decide (i = Z.of_nat k)) as [->|].
      2: { apply (copied_keeps new k (phys s)); [done|by eapply keeps_trans|lia]. }
      fold e. exists p. split; [done|]. split.
      * apply map_pte_leaf; try done; [|apply Hp]. destruct Hp as (_ & Hp). unfold PHYSTOP, KERNBASE in *.
        change (2 ^ 55) with 36028797018963968. lia.
      * intros off Hoff. rewrite Hpg by (unfold in_page; lia). by apply Hcp.
  - right. cbn [Z.eqb negb]. erewrite bind_Ret by exact E4.
    destruct (copy_undo s4 new k extra [p] Hu4) as (s' & l' & E' & Hu' & Hmv). exists s', l'. split; [exact E'|]. split; [done|]. split; [|cbn [length]; lia].
    eapply moved_trans; [|exact Hmv]. split; [by rewrite Hown4, Hown2|].
    intros x Hx'. rewrite Hm4; [apply Hm2, Hx'; rewrite Hown2; left|]. intros q Hq. apply Hx'. by rewrite Hown2.
Qed.

(** The end of a copy: all [n] pages, or none. *)
Definition copy_post (new : Z) (extra : list Z) (s : kmem) (k : nat) (l : list Z) (r : Z) (s' : kmem) (l' : list Z) : Prop :=
  (r = 0 /\ uspace s' new n extra l' /\ moved s new k l s' n l' /\ copied new n (phys s')) \/
  (r = -1 /\ uspace s' new 0 extra l' /\ moved s new k l s' 0 l' /\ (length l <= 3 * (n - k))%nat).

Lemma uvmcopy_loop_spec fuel s new k sz extra l :
  n = pgs sz -> 0 <= sz -> (n - k < fuel)%nat -> (k <= n)%nat -> 4096 * Z.of_nat n <= MAXVA ->
  uspace s new k extra l -> apart s new k l -> copied new k (phys s) ->
  exists r s' l', uvmcopy_loop kend fuel old new sz (4096 * Z.of_nat k) s = Ret r s' /\ copy_post new extra s k l r s' l'.
Proof.
  intros Hn Hsz. pose proof (pgs_of sz Hsz) as Hpg. rewrite <- Hn in Hpg. revert s k l.
  induction fuel as [|fuel IH]; intros s k l Hf Hk Hmax Hu Hap Hc; [lia|].
  destruct (decide (k = n)) as [->|Hne].
  { exists 0, s, l. cbn [uvmcopy_loop]. destruct (Z.ltb_spec (4096 * Z.of_nat n) sz); [|split; [done|by left]].
    revert Hpg H. clear. intros. Z.div_mod_to_equations. lia. }
  destruct (uvmcopy_turn fuel s new k sz extra l) as [(s1 & l1 & E & Hu1 & Hmv & Hc1 & Hlen)|(s1 & l1 & E & Hu1 & Hmv & Hlen)]; try done; try lia.
  { assert (Z.of_nat k < Z.of_nat n) by lia. revert Hpg H. clear. intros. Z.div_mod_to_equations. lia. }
  - destruct (IH s1 (S k) l1) as (r & s' & l' & E' & Hpost); try done; try lia; [by apply (apart_moved s new k l s1 (S k) l1 extra)|].
    exists r, s', l'. rewrite E. split; [done|]. destruct Hpost as [(-> & ? & ? & ?)|(-> & ? & ? & Hl3)]; [left|right].
    + split_and!; try done. by eapply moved_trans.
    + split_and!; try done; [by eapply moved_trans|lia].
  - exists (-1), s1, l1. rewrite E. split; [done|]. right. split; [done|]. split; [done|]. split; [done|lia].
Qed.
End UvmCopy.

Section Fork.
Context (kend : Z).
Hypothesis Hkend : KERNBASE <= kend.

(** What uvmcopy() leaves to a parent with [n] pages and the child. *)
Definition forked (s : kmem) (old new : Z) (n : nat) (extra extra' l : list Z) (r : Z) (s' : kmem) (l' : list Z) : Prop :=
  uspace kend s' old n extra l' /\ keeps old n (phys s) (phys s') /\
  ((r = 0 /\ uspace kend s' new n extra' l' /\ moved s new 0 l s' n l' /\ copied (phys s) old new n (phys s')) \/
   (r = -1 /\ uspace kend s' new 0 extra' l' /\ moved s new 0 l s' 0 l' /\ (length l <= 3 * n)%nat)).

Lemma uvmcopy_spec s old new sz extra extra' l :
  0 <= sz -> uspace kend s old (pgs sz) extra l -> uspace kend s new 0 extra' l ->
  (forall p, p ∈ upages (phys s) old (pgs sz) ++ tp 2 (phys s) old -> p ∉ tp 2 (phys s) new) ->
  exists r s' l', uvmcopy kend old new sz s = Ret r s' /\ forked s old new (pgs sz) extra extra' l r s' l'.
Proof.
  intros Hsz Ho Hn Hd. set (n := pgs sz) in *. pose proof Ho as [Hwf _ _ Hmap Hown Hok _ _ _].
  assert (Hok0 : Forall (page_ok kend) (pages0 (phys s) old n)) by (apply Forall_app; split; [apply Hwf|done]).
  assert (Hmv0 : owns s new 0 l = tp 2 (phys s) new ++ l) by done.
  assert (Hap : apart (phys s) old n s new 0 l).
  { split; [|done]. intros p Hp. rewrite Hmv0. unfold owns in Hown. rewrite app_assoc in Hown. apply NoDup_app in Hown as (_ & Hdl & _).
    assert (Hp' : p ∈ upages (phys s) old n ++ tp 2 (phys s) old) by (unfold pages0 in Hp; rewrite elem_of_app in *; tauto).
    rewrite elem_of_app. intros [Hin|Hin]; [by apply (Hd p)|by apply (Hdl p)]. }
  pose proof (uspace_bound _ Hkend _ _ _ _ _ Ho) as Hb.
  destruct (uvmcopy_loop_spec kend Hkend (phys s) old n Hmap Hok0 (S n) s new 0 sz extra' l) as (r & s' & l' & E & Hpost); try done; try lia.
  { change MAXVA with 274877906944. lia. }
  { intros i Hi. lia. }
  exists r, s', l'. split.
  { unfold uvmcopy. change PGSIZE with 4096. replace (sz + 4096 - 1) with (sz + 4095) by lia. exact E. }
  assert (Hend : exists k, uspace kend s' new k extra' l' /\ moved s new 0 l s' k l').
  { destruct Hpost as [(_ & ? & ? & _)|(_ & ? & ? & _)]; eauto. }
  destruct Hend as (k & Hu' & Hmv). pose proof (apart_moved kend (phys s) old n Hok0 s new 0 l s' k l' extra' Hn Hap Hmv) as [Hd' Hs'].
  destruct (uspace_frame kend s s' old n extra l l') as (Hu & Hup & Htp & Hl); try done.
  { apply Hu'. }
  { eapply same_on_sub; [|exact Hs']. intros p Hp. apply elem_of_app. by left. }
  { unfold owns in Hown |- *. rewrite app_assoc in Hown. apply NoDup_app in Hown as (Hnd1 & _ & _). rewrite app_assoc. apply NoDup_app.
    split; [done|]. split; [|apply Hu'].
    intros p Hp Hin. apply (Hd' p); [unfold pages0; rewrite elem_of_app in *; tauto|]. unfold owns. rewrite !elem_of_app. auto. }
  split; [done|]. split; [|unfold copy_post in Hpost; rewrite Nat.sub_0_r in Hpost; exact Hpost]. split; [intros; apply Hl|].
  eapply same_on_sub; [|exact Hs']. intros p Hp. apply elem_of_app. by right.
Qed.
End Fork.
