(* ===== verification/Ucopy.v ===== *)
(** * copyin, copyout, copyinstr: the proofs

    The kernel reaches user memory only through the user's page table.
    [uaddr] is the translation the hardware would do for a user access. *)

From Stdlib Require Import ZArith Lia.
From stdpp Require Import base numbers list list_numbers gmap strings sorting.
From S2P Require Import Prelude Cstring Riscv Kalloc Vm PageTable Uvm.

Definition user_leaf (e : Z) : bool := has e PTE_V && has e PTE_U.

Definition uaddr (m : mem) (root va : Z) : option Z :=
  if bool_decide (0 <= va < MAXVA) && user_leaf (leaf m root va)
  then Some (PTE2PA (leaf m root va) + va mod 4096) else None.

(** The byte a user program reads at [va]. *)
Definition ubyte (m : mem) (root va : Z) : option Z := load8 m <$> uaddr m root va.

Fixpoint ubytes (m : mem) (root va : Z) (n : nat) : option (list Z) :=
  match n with
  | O => Some []
  | S k => b ← ubyte m root va; bs ← ubytes m root (va + 1) k; Some (b :: bs)
  end.

(** The NUL-terminated string at [va], at most [n] bytes of it. *)
Fixpoint ustr (m : mem) (root va : Z) (n : nat) : option (list Z) :=
  match n with
  | O => None
  | S k =>
      b ← ubyte m root va;
      if b =? 0 then Some [0] else bs ← ustr m root (va + 1) k; Some (b :: bs)
  end.

Section Ucopy.
Context (kend : Z).
Hypothesis Hkend : KERNBASE <= kend.
Notation page_ok := (page_ok kend).
Notation ptwf := (ptwf kend).

(** User pages are RAM pages that are neither free nor part of the page
    table, and no two virtual pages share one. *)
Definition user_ok (m : mem) (root : Z) (l : list Z) : Prop :=
  forall va, 0 <= va < MAXVA -> user_leaf (leaf m root va) = true ->
    page_ok (PTE2PA (leaf m root va)) /\ PTE2PA (leaf m root va) ∉ tp 2 m root ++ l.

Definition user_inj (m : mem) (root : Z) : Prop :=
  forall va va', 0 <= va < MAXVA -> 0 <= va' < MAXVA ->
    user_leaf (leaf m root va) = true -> user_leaf (leaf m root va') = true ->
    PTE2PA (leaf m root va) = PTE2PA (leaf m root va') -> va / 4096 = va' / 4096.

Lemma leaf_same_page m root va va' :
  va / 4096 = va' / 4096 -> leaf m root va = leaf m root va'.
Proof. intros H. unfold leaf, leaf_at. by rewrite (wk_same_page _ _ _ _ _ H). Qed.

Lemma walkaddr_spec s root va l :
  ptwf s root l -> 0 <= va ->
  walkaddr root va s =
    Ret (if bool_decide (0 <= va < MAXVA) && user_leaf (leaf (phys s) root va)
         then PTE2PA (leaf (phys s) root va) else 0) s.
Proof.
  intros Hwf Hva. unfold walkaddr. destruct (Z.leb_spec MAXVA va).
  { by rewrite bool_decide_false by lia. }
  rewrite bool_decide_true by lia. erewrite bind_Ret by (by apply walk_lookup).
  unfold user_leaf, leaf, leaf_at.
  destruct (wk 2 (phys s) root va) as [a|] eqn:Ha.
  - destruct (leaf_page kend s root va a l Hwf Ha) as (p & _ & Hp & Hae).
    apply page_ok_pos in Hp; [|done]. pose proof (PX_range 0 va).
    destruct (Z.eqb_spec a 0); [lia|]. erewrite bind_Ret by reflexivity.
    destruct (has _ PTE_V); [|done]. by destruct (has _ PTE_U).
  - by rewrite has_0.
Qed.

(** The bytes of one virtual page are contiguous in physical memory. *)
Lemma uaddr_chunk m root va w :
  uaddr m root (va / 4096 * 4096) = Some w -> 0 <= va ->
  forall i, va / 4096 * 4096 <= va + i < va / 4096 * 4096 + 4096 ->
  uaddr m root (va + i) = Some (w + (va + i - va / 4096 * 4096)).
Proof.
  unfold uaddr. intros Hw Hva i Hi. change MAXVA with 274877906944 in *.
  assert (Hp : (va / 4096 * 4096) / 4096 = (va + i) / 4096) by (Z.div_mod_to_equations; lia).
  rewrite (leaf_same_page _ _ _ _ Hp) in Hw.
  destruct (bool_decide_reflect (0 <= va / 4096 * 4096 < 274877906944)); [|done].
  rewrite bool_decide_true by (Z.div_mod_to_equations; lia).
  destruct (user_leaf _); [|done]. simpl in *. simplify_eq. f_equal.
  rewrite Z.mod_mul by lia. Z.div_mod_to_equations. lia.
Qed.

Lemma uaddr_chunk_None m root va :
  uaddr m root (va / 4096 * 4096) = None -> 0 <= va -> uaddr m root va = None.
Proof.
  unfold uaddr. intros Hw Hva. change MAXVA with 274877906944 in *.
  assert (Hp : (va / 4096 * 4096) / 4096 = va / 4096) by (Z.div_mod_to_equations; lia).
  rewrite (leaf_same_page _ _ _ _ Hp) in Hw.
  destruct (bool_decide_reflect (0 <= va < 274877906944)); [|done].
  rewrite bool_decide_true in Hw by (Z.div_mod_to_equations; lia).
  by destruct (user_leaf _).
Qed.

Lemma ubytes_app m root va n k :
  ubytes m root va (n + k) =
    (bs ← ubytes m root va n; bs' ← ubytes m root (va + Z.of_nat n) k; Some (bs ++ bs')).
Proof.
  revert va. induction n as [|n IH]; intros va.
  - simpl. replace (va + Z.of_nat 0) with va by lia. by destruct (ubytes m root va k).
  - cbn [ubytes Nat.add]. destruct (ubyte m root va) as [b|]; [|done]. simpl. rewrite IH.
    replace (va + 1 + Z.of_nat n) with (va + Z.of_nat (S n)) by lia.
    destruct (ubytes m root (va + 1) n); [|done]. simpl.
    by destruct (ubytes m root (va + Z.of_nat (S n)) k).
Qed.

Lemma ubytes_length m root n : forall va bs, ubytes m root va n = Some bs -> length bs = n.
Proof.
  induction n as [|n IH]; intros va bs; cbn [ubytes]; [by intros [= <-]|]. destruct (ubyte m root va); [|done]. cbn.
  destruct (ubytes m root (va + 1) n) eqn:E; [|done]. intros [= <-]. cbn [length]. f_equal. by eapply IH.
Qed.

Lemma ubytes_load m root va w n :
  (forall i, 0 <= i < Z.of_nat n -> uaddr m root (va + i) = Some (w + i)) ->
  ubytes m root va n = Some (loadn m w n).
Proof.
  revert va w. induction n as [|n IH]; intros va w H; [done|]. cbn [ubytes loadn].
  unfold ubyte. specialize (H 0) as H0. rewrite !Z.add_0_r in H0. rewrite H0 by lia. simpl.
  rewrite (IH (va + 1) (w + 1)); [done|]. intros i Hi.
  specialize (H (i + 1)). replace (va + (i + 1)) with (va + 1 + i) in H by lia.
  rewrite H by lia. f_equal. lia.
Qed.

(** The page step the three copies share: the page frame walkaddr() finds and
    how many bytes of the request lie in the page. *)
Lemma page_step va len :
  0 <= va < 2 ^ 64 -> 0 < len ->
  PGROUNDDOWN va = va / 4096 * 4096 /\
  let n := Z.min (PGSIZE - (va - va / 4096 * 4096)) len in
  0 < n <= len /\ va + n <= va / 4096 * 4096 + 4096 /\
  (n < len -> va / 4096 * 4096 + 4096 = va + n).
Proof.
  intros Hva Hlen. rewrite PGROUNDDOWN_eq by done. split; [done|]. unfold PGSIZE.
  Z.div_mod_to_equations. lia.
Qed.

Lemma walkaddr_uaddr s root va l :
  ptwf s root l -> user_ok (phys s) root l -> 0 <= va ->
  let va0 := va / 4096 * 4096 in
  (exists pa0, walkaddr root va0 s = Ret pa0 s /\ pa0 <> 0 /\ page_ok pa0 /\
     uaddr (phys s) root va0 = Some pa0 /\ pa0 = PTE2PA (leaf (phys s) root va) /\
     user_leaf (leaf (phys s) root va) = true /\ va0 < MAXVA) \/
  (walkaddr root va0 s = Ret 0 s /\ uaddr (phys s) root va = None).
Proof.
  intros Hwf Huo Hva va0.
  assert (H0 : 0 <= va0) by (unfold va0; Z.div_mod_to_equations; lia).
  rewrite (walkaddr_spec s root va0 l Hwf H0).
  assert (Hp : va0 / 4096 = va / 4096) by (unfold va0; Z.div_mod_to_equations; lia).
  destruct (bool_decide (0 <= va0 < MAXVA)) eqn:Hb; simpl.
  2: { right. split; [done|]. apply uaddr_chunk_None; [|done]. fold va0. unfold uaddr.
       by rewrite Hb. }
  destruct (user_leaf (leaf (phys s) root va0)) eqn:Hu.
  2: { right. split; [done|]. apply uaddr_chunk_None; [|done]. fold va0. unfold uaddr.
       by rewrite Hb, Hu. }
  left. apply bool_decide_eq_true in Hb. destruct (Huo va0 Hb Hu) as [Hpok _].
  pose proof (page_ok_pos kend Hkend _ Hpok).
  exists (PTE2PA (leaf (phys s) root va0)). split; [done|]. split; [lia|]. split; [done|].
  split; [|split; [|split; [|lia]]].
  - unfold uaddr. rewrite bool_decide_true by done. rewrite Hu. simpl. f_equal.
    unfold va0. rewrite Z.mod_mul; lia.
  - by rewrite (leaf_same_page _ _ _ _ Hp).
  - by rewrite <- (leaf_same_page _ _ _ _ Hp).
Qed.

(** ** copyin *)

Lemma copyin_loop_spec fuel root dst va len s l :
  ptwf s root l -> user_ok (phys s) root l -> 0 <= va < 2 ^ 64 -> 0 <= len < Z.of_nat fuel ->
  match ubytes (phys s) root va (Z.to_nat len) with
  | Some bs => copyin_loop fuel root dst va len s = Ret (0, dst ++ bs) s
  | None => exists bs, copyin_loop fuel root dst va len s = Ret (-1, dst ++ bs) s
  end.
Proof.
  intros Hwf Huo. revert dst va len. induction fuel as [|fuel IH]; intros dst va len Hva Hlen; [lia|].
  cbn [copyin_loop]. destruct (Z.ltb_spec 0 len) as [Hpos|].
  2: { replace (Z.to_nat len) with 0%nat by lia. simpl. by rewrite app_nil_r. }
  destruct (page_step va len Hva Hpos) as [Hpg Hn]. rewrite Hpg. cbv zeta in Hn.
  set (va0 := va / 4096 * 4096) in *. set (n := Z.min (PGSIZE - (va - va0)) len) in *.
  destruct (walkaddr_uaddr s root va l Hwf Huo (proj1 Hva))
    as [(pa0 & E & Hne & Hpok & Hua & _ & _ & Hmax)|[E Hua]];
    fold va0 in E; erewrite bind_Ret by exact E.
  2: { replace (Z.to_nat len) with (S (Z.to_nat (len - 1))) by lia.
       cbn [ubytes]. unfold ubyte. rewrite Hua. simpl. exists []. by rewrite app_nil_r. }
  destruct (Z.eqb_spec pa0 0); [done|]. erewrite bind_Ret by reflexivity.
  assert (Hchunk : ubytes (phys s) root va (Z.to_nat n) =
                   Some (loadn (phys s) (pa0 + (va - va0)) (Z.to_nat n))).
  { apply ubytes_load. intros i Hi. rewrite (uaddr_chunk _ _ va pa0 Hua (proj1 Hva)).
    - f_equal. fold va0. lia.
    - fold va0. unfold va0 in *. revert Hi Hn. clear. intros. Z.div_mod_to_equations. lia. }
  replace (Z.to_nat len) with (Z.to_nat n + Z.to_nat (len - n))%nat by lia.
  rewrite ubytes_app, Hchunk. simpl.
  replace (va + Z.of_nat (Z.to_nat n)) with (va + n) by lia.
  destruct (decide (n = len)) as [Heq|Hneq].
  - rewrite Heq, Z.sub_diag. simpl. rewrite app_nil_r.
    destruct fuel as [|fuel]; [lia|]. reflexivity.
  - assert (Hnext : u64 (va0 + PGSIZE) = va + n).
    { unfold PGSIZE. change MAXVA with 274877906944 in Hmax. rewrite u64_small; [lia|].
      change (2 ^ 64) with 18446744073709551616. lia. }
    rewrite Hnext.
    specialize (IH (dst ++ loadn (phys s) (pa0 + (va - va0)) (Z.to_nat n)) (va + n) (len - n)).
    change MAXVA with 274877906944 in Hmax.
    destruct (ubytes (phys s) root (va + n) (Z.to_nat (len - n))) as [bs|]; simpl in *.
    + rewrite IH; [by rewrite app_assoc| |lia].
      change (2 ^ 64) with 18446744073709551616. unfold PGSIZE in *. lia.
    + destruct IH as [bs Hbs]; [|lia|].
      * change (2 ^ 64) with 18446744073709551616. unfold PGSIZE in *. lia.
      * exists (loadn (phys s) (pa0 + (va - va0)) (Z.to_nat n) ++ bs).
        by rewrite Hbs, app_assoc.
Qed.

(** C26: copyin() returns 0 and exactly the [len] bytes a user access at
    [srcva] would read, if every one of those addresses is mapped valid and
    user-accessible; otherwise it returns -1.  It never changes kernel or
    user memory, for any 64-bit address and any length. *)
Theorem copyin_correct (s : kmem) (root srcva len : Z) (l : list Z) :
  ptwf s root l -> user_ok (phys s) root l -> 0 <= srcva < 2 ^ 64 -> 0 <= len ->
  match ubytes (phys s) root srcva (Z.to_nat len) with
  | Some bs => copyin root srcva len s = Ret (0, bs) s
  | None => exists bs, copyin root srcva len s = Ret (-1, bs) s
  end.
Proof.
  intros Hwf Huo Hva Hlen. unfold copyin.
  apply (copyin_loop_spec (S (Z.to_nat len)) root [] srcva len s l); try done. lia.
Qed.

(** ** copyout *)

Lemma uaddr_inj m root l va va' w :
  user_ok m root l -> user_inj m root ->
  uaddr m root va = Some w -> uaddr m root va' = Some w -> va = va'.
Proof.
  unfold uaddr. intros Huo Hui H H'.
  destruct (bool_decide_reflect (0 <= va < MAXVA)) as [Hva|]; [|done].
  destruct (bool_decide_reflect (0 <= va' < MAXVA)) as [Hva'|]; [|done].
  destruct (user_leaf (leaf m root va)) eqn:Hu; [|done].
  destruct (user_leaf (leaf m root va')) eqn:Hu'; [|done]. simpl in *.
  destruct (Huo va Hva Hu) as [[Ha _] _]. destruct (Huo va' Hva' Hu') as [[Ha' _] _].
  specialize (Hui va va' Hva Hva' Hu Hu').
  assert (Hpa : PTE2PA (leaf m root va) = PTE2PA (leaf m root va')).
  { apply (inj Some) in H, H'. revert Ha Ha' H H'. clear. unfold PGSIZE. intros.
    Z.div_mod_to_equations. lia. }
  specialize (Hui Hpa). rewrite Hpa in H. apply (inj Some) in H, H'.
  revert Hui H H'. clear. intros. Z.div_mod_to_equations. lia.
Qed.

(** A write inside one user page leaves the table and the free list alone. *)
Lemma user_write_frame s root l pa0 a bs :
  ptwf s root l -> page_ok pa0 -> pa0 ∉ tp 2 (phys s) root ++ l ->
  pa0 <= a -> a + zlen bs <= pa0 + 4096 ->
  let s' := set_phys (storen (phys s) a bs) s in
  ptwf s' root l /\ tp 2 (phys s') root = tp 2 (phys s) root /\
  (forall va, leaf (phys s') root va = leaf (phys s) root va).
Proof.
  intros (Hk & Hnd & Hok) Hp Hni Ha Hlen s'.
  assert (Hout : forall q x, page_ok q -> q <> pa0 -> in_page q x ->
            load8 (phys s') x = load8 (phys s) x).
  { intros q x Hq Hne Hx. apply load8_storen_out. intros Hx'.
    apply (page_not_self kend q pa0 x); try done. unfold in_page. lia. }
  rewrite Forall_forall in Hok.
  destruct (tp_same (phys s) (phys s') root) as (Htp & Hleaf & _).
  { intros q x Hq. apply Hout; [by apply Hok|]. intros ->. apply Hni, elem_of_app. by left. }
  split; [|done]. split; [|rewrite Htp; split; [done|by apply Forall_forall]].
  apply (kwf_phys_frame kend s (phys s')); [done|]. intros q x Hq. apply Hout.
  - eapply flist_page_ok; [apply Hk|done].
  - intros ->. apply Hni, elem_of_app. by right.
Qed.

Definition copyout_post (s : kmem) (root va : Z) (src : list Z) (l : list Z) (r : Z) (s' : kmem) : Prop :=
  ptwf s' root l /\ tp 2 (phys s') root = tp 2 (phys s) root /\
  (forall w, leaf (phys s') root w = leaf (phys s) root w) /\
  (forall x, (forall i, 0 <= i < zlen src -> uaddr (phys s) root (va + i) <> Some x) ->
     load8 (phys s') x = load8 (phys s) x) /\
  ((r = 0 /\ forall i, 0 <= i < zlen src -> exists w,
      uaddr (phys s) root (va + i) = Some w /\ load8 (phys s') w = u8 (nthZ 0 src i)) \/
   (r = -1 /\ exists i, 0 <= i < zlen src /\ uaddr (phys s) root (va + i) = None)).

Lemma uaddr_leaf_ext m m' root :
  (forall w, leaf m' root w = leaf m root w) -> forall va, uaddr m' root va = uaddr m root va.
Proof. intros H va. unfold uaddr. by rewrite H. Qed.

Lemma copyout_post_nil s root va l : ptwf s root l -> copyout_post s root va [] l 0 s.
Proof. intros Hwf. do 4 (split; [done|]). left. split; [done|]. intros i Hi. change (zlen []) with 0 in Hi. lia. Qed.

(** One page of the copy followed by the rest of it. *)
Lemma copyout_post_step s root va src l n a r s' :
  user_ok (phys s) root l -> user_inj (phys s) root -> 0 < n <= zlen src ->
  let s1 := set_phys (storen (phys s) a (take (Z.to_nat n) src)) s in
  ptwf s1 root l -> tp 2 (phys s1) root = tp 2 (phys s) root ->
  (forall w, leaf (phys s1) root w = leaf (phys s) root w) ->
  (forall i, 0 <= i < n -> uaddr (phys s) root (va + i) = Some (a + i)) ->
  copyout_post s1 root (va + n) (drop (Z.to_nat n) src) l r s' ->
  copyout_post s root va src l r s'.
Proof.
  intros Huo Hui Hn s1 Hwf1 Htp1 Hl1 Hchunk (Hwf' & Htp' & Hl' & Hm' & Hr').
  assert (Hcl : zlen (take (Z.to_nat n) src) = n) by (rewrite zlen_take; lia).
  assert (Hdl : zlen (drop (Z.to_nat n) src) = zlen src - n)
    by (rewrite zlen_drop; lia).
  pose proof (uaddr_leaf_ext (phys s) (phys s1) root Hl1) as Hue.
  split; [done|]. split; [by rewrite Htp', Htp1|].
  split; [intros w; by rewrite Hl', Hl1|]. split.
  - intros x Hx. rewrite Hm'.
    + apply load8_storen_out. intros Hax. apply (Hx (x - a)); [lia|].
      rewrite Hchunk by lia. f_equal. lia.
    + intros i Hi. rewrite Hue. replace (va + n + i) with (va + (n + i)) by lia. apply Hx. lia.
  - destruct Hr' as [[-> Hr']|[-> (i & Hi & Hr')]].
    + left. split; [done|]. intros i Hi. destruct (decide (i < n)) as [Hin|Hin].
      * exists (a + i). split; [apply Hchunk; lia|]. rewrite Hm'.
        -- unfold s1. cbn [phys set_phys]. rewrite load8_storen_in by lia. f_equal.
           replace (a + i - a) with i by lia. apply nthZ_take. lia.
        -- intros j Hj Hc. rewrite Hue in Hc.
           assert (va + n + j = va + i); [|lia].
           eapply uaddr_inj; [exact Huo|exact Hui|exact Hc|apply Hchunk; lia].
      * destruct (Hr' (i - n)) as (w & Hw & Hb); [lia|]. exists w.
        rewrite Hue in Hw. replace (va + n + (i - n)) with (va + i) in Hw by lia.
        split; [done|]. rewrite Hb, nthZ_drop by lia. do 2 f_equal. lia.
    + right. split; [done|]. exists (n + i). split; [lia|]. rewrite <- Hue.
      by replace (va + (n + i)) with (va + n + i) by lia.
Qed.

Lemma copyout_loop_spec fuel root va src s l :
  ptwf s root l -> user_ok (phys s) root l -> user_inj (phys s) root ->
  0 <= va < 2 ^ 64 -> zlen src < Z.of_nat fuel ->
  exists r s', copyout_loop fuel root va src s = Ret r s' /\
    copyout_post s root va src l r s'.
Proof.
  revert va src s. induction fuel as [|fuel IH]; intros va src s Hwf Huo Hui Hva Hlen;
    [pose proof (zlen_nonneg src); lia|].
  cbn [copyout_loop]. destruct (Z.ltb_spec 0 (zlen src)) as [Hpos|Hz].
  2: { exists 0, s. destruct src; [|unfold zlen in Hz; simpl in Hz; lia].
       split; [done|]. by apply copyout_post_nil. }
  destruct (page_step va (zlen src) Hva Hpos) as [Hpg Hn]. rewrite Hpg. cbv zeta in Hn.
  set (va0 := va / 4096 * 4096) in *. set (n := Z.min (PGSIZE - (va - va0)) (zlen src)) in *.
  destruct (walkaddr_uaddr s root va l Hwf Huo (proj1 Hva))
    as [(pa0 & E & Hne & Hpok & Hua & Hpa & Hul & Hmax)|[E Hua]];
    fold va0 in E; erewrite bind_Ret by exact E.
  2: { exists (-1), s. split; [done|]. do 4 (split; [done|]). right. split; [done|].
       exists 0. split; [lia|]. by rewrite Z.add_0_r. }
  destruct (Z.eqb_spec pa0 0); [done|]. erewrite bind_Ret by reflexivity. clearbody n.
  assert (Hva0 : va0 <= va < va0 + 4096) by (unfold va0; Z.div_mod_to_equations; lia).
  assert (Hpni : pa0 ∉ tp 2 (phys s) root ++ l).
  { rewrite Hpa. apply Huo; [|done]. change MAXVA with 274877906944 in *.
    split; [lia|]. unfold va0 in Hmax. revert Hmax. clear. intros. Z.div_mod_to_equations. lia. }
  destruct (user_write_frame s root l pa0 (pa0 + (va - va0)) (take (Z.to_nat n) src) Hwf Hpok Hpni)
    as (Hwf1 & Htp1 & Hl1); [lia|rewrite zlen_take; lia|].
  set (s1 := set_phys (storen (phys s) (pa0 + (va - va0)) (take (Z.to_nat n) src)) s) in *.
  assert (Hchunk : forall i, 0 <= i < n -> uaddr (phys s) root (va + i) = Some (pa0 + (va - va0) + i)).
  { intros i Hi. rewrite (uaddr_chunk _ _ va pa0 Hua (proj1 Hva)); [f_equal|]; fold va0; lia. }
  assert (Hdl : zlen (drop (Z.to_nat n) src) = zlen src - n)
    by (rewrite zlen_drop; lia).
  enough (exists r s', copyout_loop fuel root (u64 (va0 + PGSIZE)) (drop (Z.to_nat n) src) s1 = Ret r s' /\
      copyout_post s1 root (va + n) (drop (Z.to_nat n) src) l r s') as (r & s' & E' & Hp').
  { exists r, s'. split; [done|]. by eapply copyout_post_step; [..|exact Hp']; try done; lia. }
  destruct (decide (n = zlen src)) as [Heq|Hneq].
  - rewrite (zlen_zero (drop (Z.to_nat n) src)) by lia.
    destruct fuel as [|fuel']; [lia|].
    exists 0, s1. split; [done|]. by apply copyout_post_nil.
  - change MAXVA with 274877906944 in Hmax. unfold PGSIZE in *.
    rewrite u64_small by (change (2 ^ 64) with 18446744073709551616; lia).
    replace (va0 + 4096) with (va + n) by lia. apply IH; try done.
    + intros w Hw. rewrite Hl1, Htp1. by apply Huo.
    + intros w w'. rewrite !Hl1. by apply Hui.
    + change (2 ^ 64) with 18446744073709551616. lia.
    + lia.
Qed.

(** A well-formed address space, as copies keep it. *)
Definition uview (s : kmem) (root : Z) (l : list Z) : Prop :=
  ptwf s root l /\ user_ok (phys s) root l /\ user_inj (phys s) root.

Lemma copyout_spec (s : kmem) (root dstva : Z) (src l : list Z) :
  uview s root l -> 0 <= dstva < 2 ^ 64 ->
  exists r s', copyout root dstva src s = Ret r s' /\ uview s' root l /\
    (forall w, leaf (phys s') root w = leaf (phys s) root w) /\
    (forall x, (forall i, 0 <= i < zlen src -> uaddr (phys s) root (dstva + i) <> Some x) ->
       load8 (phys s') x = load8 (phys s) x) /\
    ((r = 0 /\ forall w, ubyte (phys s') root w =
        if decide (dstva <= w < dstva + zlen src)
        then Some (u8 (nthZ 0 src (w - dstva))) else ubyte (phys s) root w) \/
     (r = -1 /\ exists i, 0 <= i < zlen src /\ uaddr (phys s) root (dstva + i) = None)).
Proof.
  intros (Hwf & Huo & Hui) Hva.
  destruct (copyout_loop_spec (S (length src)) root dstva src s l Hwf Huo Hui Hva)
    as (r & s' & E & Hwf' & Htp & Hl & Hm & Hr); [unfold zlen; lia|].
  exists r, s'. split; [done|]. split.
  { split; [done|]. split; [intros w Hw; rewrite Hl, Htp; by apply Huo|intros w w'; rewrite !Hl; by apply Hui]. }
  split; [done|]. split; [done|].
  destruct Hr as [[-> Hr]|Hr]; [left|by right]. split; [done|].
  intros w. unfold ubyte. rewrite (uaddr_leaf_ext _ _ _ Hl). case_decide as Hw.
  - destruct (Hr (w - dstva)) as (x & Hx & Hb); [lia|].
    replace (dstva + (w - dstva)) with w in Hx by lia. rewrite Hx. simpl. by rewrite Hb.
  - destruct (uaddr (phys s) root w) as [x|] eqn:Hx; [|done]. simpl. f_equal. apply Hm.
    intros i Hi Hc. assert (dstva + i = w); [|lia].
    eapply uaddr_inj; [exact Huo|exact Hui|exact Hc|exact Hx].
Qed.

(** C27: copyout() returns 0 exactly when every destination byte is mapped
    valid and user-accessible; then user memory reads as the source in the
    destination range and is unchanged elsewhere.  In every case, the
    failing one included, the page table, its mappings and the free list
    are intact and no byte of physical memory outside the translations of
    the destination range is written. *)
Theorem copyout_correct (s : kmem) (root dstva : Z) (src l : list Z) :
  ptwf s root l -> user_ok (phys s) root l -> user_inj (phys s) root -> 0 <= dstva < 2 ^ 64 ->
  exists r s', copyout root dstva src s = Ret r s' /\ ptwf s' root l /\
    (forall w, leaf (phys s') root w = leaf (phys s) root w) /\
    (forall x, (forall i, 0 <= i < zlen src -> uaddr (phys s) root (dstva + i) <> Some x) ->
       load8 (phys s') x = load8 (phys s) x) /\
    ((r = 0 /\ forall w, ubyte (phys s') root w =
        if decide (dstva <= w < dstva + zlen src)
        then Some (u8 (nthZ 0 src (w - dstva))) else ubyte (phys s) root w) \/
     (r = -1 /\ exists i, 0 <= i < zlen src /\ uaddr (phys s) root (dstva + i) = None)).
Proof.
  intros Hwf Huo Hui Hva. destruct (copyout_spec s root dstva src l) as (r & s' & E & (Hwf' & _) & H); [done|done|].
  by exists r, s'.
Qed.

(** ** copyinstr *)

Lemma ustr_chunk m root va w n k :
  (forall i, 0 <= i < Z.of_nat n -> uaddr m root (va + i) = Some (w + i)) ->
  ustr m root va (n + k) =
    let '(d, got_null) := copystr_chunk (loadn m w n) in
    if got_null then Some d else (bs ← ustr m root (va + Z.of_nat n) k; Some (d ++ bs)).
Proof.
  revert va w. induction n as [|n IH]; intros va w H.
  - cbn [loadn copystr_chunk Nat.add]. replace (va + Z.of_nat 0) with va by lia.
    by destruct (ustr m root va k).
  - cbn [loadn copystr_chunk Nat.add ustr]. unfold ubyte.
    specialize (H 0) as H0. rewrite !Z.add_0_r in H0. rewrite H0 by lia. cbn.
    destruct (load8 m w =? 0); [done|]. rewrite (IH (va + 1) (w + 1)).
    + destruct (copystr_chunk (loadn m (w + 1) n)) as [d []]; [done|].
      replace (va + 1 + Z.of_nat n) with (va + Z.of_nat (S n)) by lia.
      by destruct (ustr m root (va + Z.of_nat (S n)) k).
    + intros i Hi. specialize (H (i + 1)). replace (va + (i + 1)) with (va + 1 + i) in H by lia.
      rewrite H by lia. f_equal. lia.
Qed.

Lemma copyinstr_loop_spec fuel root dst va max s l :
  ptwf s root l -> user_ok (phys s) root l -> 0 <= va < 2 ^ 64 -> 0 <= max < Z.of_nat fuel ->
  match ustr (phys s) root va (Z.to_nat max) with
  | Some bs => copyinstr_loop fuel root dst va max s = Ret (0, dst ++ bs) s
  | None => exists bs, copyinstr_loop fuel root dst va max s = Ret (-1, dst ++ bs) s
  end.
Proof.
  intros Hwf Huo. revert dst va max. induction fuel as [|fuel IH]; intros dst va max Hva Hmx; [lia|].
  cbn [copyinstr_loop]. destruct (Z.ltb_spec 0 max) as [Hpos|].
  2: { replace (Z.to_nat max) with 0%nat by lia. exists []. by rewrite app_nil_r. }
  destruct (page_step va max Hva Hpos) as [Hpg Hn]. rewrite Hpg. cbv zeta in Hn.
  set (va0 := va / 4096 * 4096) in *. set (n := Z.min (PGSIZE - (va - va0)) max) in *.
  destruct (walkaddr_uaddr s root va l Hwf Huo (proj1 Hva))
    as [(pa0 & E & Hne & Hpok & Hua & _ & _ & Hmax)|[E Hua]];
    fold va0 in E; erewrite bind_Ret by exact E.
  2: { replace (Z.to_nat max) with (S (Z.to_nat (max - 1))) by lia.
       cbn [ustr]. unfold ubyte. rewrite Hua. exists []. by rewrite app_nil_r. }
  destruct (Z.eqb_spec pa0 0); [done|]. erewrite bind_Ret by reflexivity. clearbody n.
  assert (Hva0 : va0 <= va < va0 + 4096) by (unfold va0; Z.div_mod_to_equations; lia).
  replace (Z.to_nat max) with (Z.to_nat n + Z.to_nat (max - n))%nat by lia.
  rewrite (ustr_chunk _ _ va (pa0 + (va - va0))).
  2: { intros i Hi. rewrite (uaddr_chunk _ _ va pa0 Hua (proj1 Hva)); [f_equal|]; fold va0; lia. }
  destruct (copystr_chunk _) as [d []]; [done|].
  replace (va + Z.of_nat (Z.to_nat n)) with (va + n) by lia.
  destruct (decide (n = max)) as [->|Hneq].
  - rewrite Z.sub_diag. cbn. exists d. destruct fuel as [|fuel]; [lia|]. reflexivity.
  - change MAXVA with 274877906944 in Hmax. unfold PGSIZE in *.
    rewrite u64_small by (change (2 ^ 64) with 18446744073709551616; lia).
    replace (va0 + 4096) with (va + n) by lia.
    specialize (IH (dst ++ d) (va + n) (max - n)).
    destruct (ustr (phys s) root (va + n) (Z.to_nat (max - n))) as [bs|]; cbn.
    + rewrite IH; [by rewrite app_assoc| |lia]. change (2 ^ 64) with 18446744073709551616. lia.
    + destruct IH as [bs Hbs]; [change (2 ^ 64) with 18446744073709551616; lia|lia|].
      exists (d ++ bs). by rewrite Hbs, app_assoc.
Qed.

(** copyinstr() returns 0 and the user string with its NUL when a NUL
    occurs within the first [max] bytes and every byte up to it is mapped
    and user-accessible, even if later bytes of the range are not; it
    returns -1 in every other case, and changes no memory. *)
Theorem copyinstr_correct (s : kmem) (root srcva max : Z) (l : list Z) :
  ptwf s root l -> user_ok (phys s) root l -> 0 <= srcva < 2 ^ 64 -> 0 <= max ->
  match ustr (phys s) root srcva (Z.to_nat max) with
  | Some bs => copyinstr root srcva max s = Ret (0, bs) s
  | None => exists bs, copyinstr root srcva max s = Ret (-1, bs) s
  end.
Proof.
  intros Hwf Huo Hva Hmx. unfold copyinstr.
  apply (copyinstr_loop_spec (S (Z.to_nat max)) root [] srcva max s l); try done. lia.
Qed.
End Ucopy.

(** ** The copies at a concrete address space *)

Lemma TinySpace_user_ok : user_ok TinySpace.tend (phys TinySpace.st) TinySpace.root [].
Proof.
  intros va Hva. rewrite TinySpace.leaves by done. destruct (va / 4096 =? 0); [|done]. intros _.
  split.
  - vm_compute. intuition congruence.
  - rewrite TinySpace.tables. refine (bool_decide_unpack (_ ∉ _) _). vm_compute. exact I.
Qed.

Lemma TinySpace_user_inj : user_inj (phys TinySpace.st) TinySpace.root.
Proof.
  intros va va' Hva Hva'. rewrite !TinySpace.leaves by done.
  destruct (Z.eqb_spec (va / 4096) 0), (Z.eqb_spec (va' / 4096) 0); try done. lia.
Qed.

Lemma copyin_correct_witness : copyin TinySpace.root 0 2 TinySpace.st = Ret (0, [104; 0]) TinySpace.st.
Proof.
  apply (copyin_correct TinySpace.tend ltac:(done) TinySpace.st TinySpace.root 0 2 []
           TinySpace.TinySpace_wf TinySpace_user_ok); done.
Defined.

Lemma copyout_correct_witness :
  exists r s', copyout TinySpace.root 1 [105; 0] TinySpace.st = Ret r s' /\
    ptwf TinySpace.tend s' TinySpace.root [] /\
    (forall w, leaf (phys s') TinySpace.root w = leaf (phys TinySpace.st) TinySpace.root w) /\
    (forall x, (forall i, 0 <= i < zlen [105; 0] ->
         uaddr (phys TinySpace.st) TinySpace.root (1 + i) <> Some x) ->
       load8 (phys s') x = load8 (phys TinySpace.st) x) /\
    ((r = 0 /\ forall w, ubyte (phys s') TinySpace.root w =
        if decide (1 <= w < 1 + zlen [105; 0])
        then Some (u8 (nthZ 0 [105; 0] (w - 1))) else ubyte (phys TinySpace.st) TinySpace.root w) \/
     (r = -1 /\ exists i, 0 <= i < zlen [105; 0] /\
        uaddr (phys TinySpace.st) TinySpace.root (1 + i) = None)).
Proof.
  apply (copyout_correct TinySpace.tend ltac:(done) TinySpace.st TinySpace.root 1 [105; 0] []
           TinySpace.TinySpace_wf TinySpace_user_ok TinySpace_user_inj); done.
Defined.

Lemma copyinstr_correct_witness :
  copyinstr TinySpace.root 0 16 TinySpace.st = Ret (0, [104; 0]) TinySpace.st.
Proof.
  apply (copyinstr_correct TinySpace.tend ltac:(done) TinySpace.st TinySpace.root 0 16 []
           TinySpace.TinySpace_wf TinySpace_user_ok); done.
Defined.
