(* ===== verification/Bytes.v ===== *)
(** * Integers inside byte blocks

    A disk block is a list of bytes; the structures the kernel overlays on it
    (log header, dinodes, directory entries, indirect blocks) are little-endian
    integers at fixed offsets. *)

From Stdlib Require Import ZArith Lia.
From stdpp Require Import base numbers list list_numbers gmap strings sorting.
From S2P Require Import Prelude Cstring.

(** [n] bytes at offset [off], and their replacement. *)
Definition slice (d : list Z) (off n : Z) : list Z :=
  take (Z.to_nat n) (drop (Z.to_nat off) d).

Definition patch (d : list Z) (off : Z) (bs : list Z) : list Z :=
  take (Z.to_nat off) d ++ bs ++ drop (Z.to_nat (off + zlen bs)) d.

Definition get32 (d : list Z) (off : Z) : Z := le_val (slice d off 4).
Definition put32 (d : list Z) (off v : Z) : list Z := patch d off (le_bytes 4 v).
Definition get16 (d : list Z) (off : Z) : Z := le_val (slice d off 2).
Definition put16 (d : list Z) (off v : Z) : list Z := patch d off (le_bytes 2 v).

Lemma zlen_patch d off bs :
  0 <= off -> off + zlen bs <= zlen d -> zlen (patch d off bs) = zlen d.
Proof.
  intros. unfold patch. rewrite !zlen_app, zlen_take, zlen_drop.
  pose proof (zlen_nonneg bs). lia.
Qed.

Lemma nthZ_patch d off bs i :
  0 <= off -> off + zlen bs <= zlen d -> 0 <= i ->
  nthZ 0 (patch d off bs) i =
    if decide (off <= i < off + zlen bs) then nthZ 0 bs (i - off) else nthZ 0 d i.
Proof.
  intros Ho Hl Hi. pose proof (zlen_nonneg bs). unfold patch.
  rewrite nthZ_app, zlen_take by lia.
  replace (Z.min (Z.max 0 off) (zlen d)) with off by lia.
  destruct (Z.ltb_spec i off).
  { rewrite nthZ_take by lia. case_decide; [lia|done]. }
  rewrite nthZ_app by lia. destruct (Z.ltb_spec (i - off) (zlen bs)).
  { case_decide; [done|lia]. }
  rewrite nthZ_drop by lia. case_decide; [lia|]. f_equal. lia.
Qed.

Lemma nthZ_slice d off n i :
  0 <= off -> 0 <= i < n -> nthZ 0 (slice d off n) i = nthZ 0 d (off + i).
Proof. intros. unfold slice. rewrite nthZ_take by lia. apply nthZ_drop; lia. Qed.

Lemma zlen_slice d off n :
  0 <= off -> 0 <= n -> off + n <= zlen d -> zlen (slice d off n) = n.
Proof. intros. unfold slice. rewrite zlen_take, zlen_drop. lia. Qed.

Lemma slice_ext d d' off n :
  0 <= off -> 0 <= n -> off + n <= zlen d -> off + n <= zlen d' ->
  (forall i, off <= i < off + n -> nthZ 0 d i = nthZ 0 d' i) -> slice d off n = slice d' off n.
Proof.
  intros Ho Hn Hl Hl' H. apply (nthZ_ext 0).
  - apply Nat2Z.inj. change (zlen (slice d off n) = zlen (slice d' off n)).
    by rewrite !zlen_slice.
  - intros i Hi. rewrite zlen_slice in Hi by done. rewrite !nthZ_slice by lia. apply H. lia.
Qed.

Lemma slice_patch_same d off bs :
  0 <= off -> off + zlen bs <= zlen d -> slice (patch d off bs) off (zlen bs) = bs.
Proof.
  intros Ho Hl. pose proof (zlen_nonneg bs). apply (nthZ_ext 0).
  - apply Nat2Z.inj. change (zlen (slice (patch d off bs) off (zlen bs)) = zlen bs).
    rewrite zlen_slice; rewrite ?zlen_patch; lia.
  - intros i Hi. rewrite zlen_slice in Hi by (rewrite ?zlen_patch; lia).
    rewrite nthZ_slice, nthZ_patch by lia. case_decide; [|lia]. f_equal. lia.
Qed.

Lemma slice_patch_other d off bs off' n :
  0 <= off -> off + zlen bs <= zlen d -> 0 <= off' -> 0 <= n -> off' + n <= zlen d ->
  off' + n <= off \/ off + zlen bs <= off' ->
  slice (patch d off bs) off' n = slice d off' n.
Proof.
  intros. apply slice_ext; rewrite ?zlen_patch; try lia.
  intros i Hi. rewrite nthZ_patch by lia. case_decide; [lia|done].
Qed.

Lemma zlen_le_bytes n v : zlen (le_bytes n v) = Z.of_nat n.
Proof. unfold zlen. by rewrite length_le_bytes. Qed.

Lemma zlen_put32 d off v : 0 <= off -> off + 4 <= zlen d -> zlen (put32 d off v) = zlen d.
Proof. intros. unfold put32. apply zlen_patch; rewrite ?zlen_le_bytes; lia. Qed.

Lemma zlen_put16 d off v : 0 <= off -> off + 2 <= zlen d -> zlen (put16 d off v) = zlen d.
Proof. intros. unfold put16. apply zlen_patch; rewrite ?zlen_le_bytes; lia. Qed.

Lemma get32_put32_same d off v :
  0 <= off -> off + 4 <= zlen d -> get32 (put32 d off v) off = u32 v.
Proof.
  intros. unfold get32, put32. pose proof (slice_patch_same d off (le_bytes 4 v)) as H1.
  rewrite zlen_le_bytes in H1. change (Z.of_nat 4) with 4 in H1. rewrite H1 by lia.
  rewrite le_val_bytes. done.
Qed.

Lemma get32_put32_other d off off' v :
  0 <= off -> off + 4 <= zlen d -> 0 <= off' -> off' + 4 <= zlen d ->
  off' + 4 <= off \/ off + 4 <= off' -> get32 (put32 d off v) off' = get32 d off'.
Proof.
  intros. unfold get32, put32. f_equal. apply slice_patch_other; rewrite ?zlen_le_bytes; lia.
Qed.

Lemma get16_put16_same d off v :
  0 <= off -> off + 2 <= zlen d -> get16 (put16 d off v) off = u16 v.
Proof.
  intros. unfold get16, put16. pose proof (slice_patch_same d off (le_bytes 2 v)) as H1.
  rewrite zlen_le_bytes in H1. change (Z.of_nat 2) with 2 in H1. rewrite H1 by lia.
  rewrite le_val_bytes. done.
Qed.

Lemma get16_put16_other d off off' v :
  0 <= off -> off + 2 <= zlen d -> 0 <= off' -> off' + 2 <= zlen d ->
  off' + 2 <= off \/ off + 2 <= off' -> get16 (put16 d off v) off' = get16 d off'.
Proof.
  intros. unfold get16, put16. f_equal. apply slice_patch_other; rewrite ?zlen_le_bytes; lia.
Qed.

Lemma get16_put32_other d off off' v :
  0 <= off -> off + 4 <= zlen d -> 0 <= off' -> off' + 2 <= zlen d ->
  off' + 2 <= off \/ off + 4 <= off' -> get16 (put32 d off v) off' = get16 d off'.
Proof.
  intros. unfold get16, put32. f_equal. apply slice_patch_other; rewrite ?zlen_le_bytes; lia.
Qed.

Lemma get32_put16_other d off off' v :
  0 <= off -> off + 2 <= zlen d -> 0 <= off' -> off' + 4 <= zlen d ->
  off' + 4 <= off \/ off + 2 <= off' -> get32 (put16 d off v) off' = get32 d off'.
Proof.
  intros. unfold get32, put16. f_equal. apply slice_patch_other; rewrite ?zlen_le_bytes; lia.
Qed.

Lemma slice_put32_other d off off' n v :
  0 <= off -> off + 4 <= zlen d -> 0 <= off' -> 0 <= n -> off' + n <= zlen d ->
  off' + n <= off \/ off + 4 <= off' -> slice (put32 d off v) off' n = slice d off' n.
Proof. intros. unfold put32. apply slice_patch_other; rewrite ?zlen_le_bytes; lia. Qed.

Lemma slice_put16_other d off off' n v :
  0 <= off -> off + 2 <= zlen d -> 0 <= off' -> 0 <= n -> off' + n <= zlen d ->
  off' + n <= off \/ off + 2 <= off' -> slice (put16 d off v) off' n = slice d off' n.
Proof. intros. unfold put16. apply slice_patch_other; rewrite ?zlen_le_bytes; lia. Qed.

Lemma get16_range d off : 0 <= off -> off + 2 <= zlen d -> 0 <= get16 d off < 2 ^ 16.
Proof.
  intros. pose proof (le_val_range (slice d off 2)) as Hr.
  rewrite zlen_slice in Hr by lia. exact Hr.
Qed.

Lemma get32_slice d d' o o' : slice d o 4 = slice d' o' 4 -> get32 d o = get32 d' o'.
Proof. unfold get32. by intros ->. Qed.
Lemma get16_slice d d' o o' : slice d o 2 = slice d' o' 2 -> get16 d o = get16 d' o'.
Proof. unfold get16. by intros ->. Qed.

(** All bytes zero: every integer zero. *)
Lemma nthZ_repeat (v : Z) n i : nthZ 0 (repeat v n) i = if decide (0 <= i < Z.of_nat n) then v else 0.
Proof.
  unfold nthZ. destruct (Z.ltb_spec i 0); case_decide; try lia; try done.
  - by apply nth_repeat_lt; lia.
  - apply nth_overflow. rewrite repeat_length. lia.
Qed.

Lemma slice_zero n off k : 0 <= off -> off + k <= Z.of_nat n -> 0 <= k -> Forall (fun v => v = 0) (slice (repeat 0 n) off k).
Proof.
  intros Ho Hn Hk0. apply Forall_forall. intros v Hv.
  apply list_elem_of_lookup in Hv as [j Hj]. pose proof (lookup_lt_Some _ _ _ Hj) as Hlt.
  assert (Hz : zlen (slice (repeat 0 n) off k) = k).
  { apply zlen_slice; try lia. unfold zlen. rewrite repeat_length. lia. }
  unfold zlen in Hz. rewrite <- (nthZ_lookup 0 (slice (repeat 0 n) off k) (Z.of_nat j) v); [|lia|by rewrite Nat2Z.id].
  rewrite nthZ_slice, nthZ_repeat by lia. by case_decide.
Qed.

Lemma get32_zero n off : 0 <= off -> off + 4 <= Z.of_nat n -> get32 (repeat 0 n) off = 0.
Proof. intros. unfold get32. apply le_val_zero. by apply slice_zero. Qed.

Lemma get16_zero n off : 0 <= off -> off + 2 <= Z.of_nat n -> get16 (repeat 0 n) off = 0.
Proof. intros. unfold get16. apply le_val_zero. by apply slice_zero. Qed.

Lemma get32_range d off : 0 <= off -> off + 4 <= zlen d -> 0 <= get32 d off < 2 ^ 32.
Proof.
  intros. pose proof (le_val_range (slice d off 4)) as Hr.
  rewrite zlen_slice in Hr by lia. exact Hr.
Qed.

(** A piece of a concatenation of pieces of the same size. *)
Lemma slice_mjoin (n : Z) (es : list (list Z)) : forall j e, 0 <= n -> Forall (fun e => zlen e = n) es -> es !! j = Some e ->
  slice (mjoin es) (n * Z.of_nat j) n = e.
Proof.
  unfold slice, zlen. induction es as [|x es IH]; intros j e Hn Hall Hj; [done|].
  apply Forall_cons in Hall as [Hx Hall]. cbn [mjoin list_join]. destruct j as [|j].
  - injection Hj as ->. rewrite Z.mul_0_r, drop_0. apply take_app_length'. lia.
  - cbn in Hj. rewrite <- (IH j e Hn Hall Hj). rewrite drop_app_ge by nia. do 2 f_equal. nia.
Qed.

Lemma get32_mjoin (ws : list Z) j w : ws !! j = Some w -> get32 (mjoin (le_bytes 4 <$> ws)) (4 * Z.of_nat j) = u32 w.
Proof.
  intros Hj. unfold get32. rewrite (slice_mjoin 4 _ j (le_bytes 4 w)).
  - apply le_val_bytes.
  - done.
  - apply Forall_fmap, Forall_true. intros x. apply zlen_le_bytes.
  - by rewrite list_lookup_fmap, Hj.
Qed.

#[global] Opaque get32 put32 get16 put16 slice patch.
