(* ===== verification/Ring.v ===== *)
(** * Ring buffers

    Several components keep a queue in an array of N entries with free-running
    indices that wrap at the width of their C type: the virtio rings (16 bits),
    a pipe (32 bits), the console's input (32 bits) and the UART's output (64
    bits).  N divides the wrap-around, so an index modulo N survives it. *)

From Stdlib Require Import ZArith Lia.
From stdpp Require Import base numbers list list_numbers.
From S2P Require Import Prelude.

Section Ring.
Context {A : Type} (d : A) (N W : Z).

(** Entries [lo, hi) hold [q]. *)
Definition ring_ok (ring : list A) (lo hi : Z) (q : list A) : Prop :=
  zlen ring = N /\ 0 <= lo < W /\ hi = (lo + zlen q) mod W /\ zlen q <= N /\
  forall k, 0 <= k < zlen q -> nthZ d ring ((lo + k) mod N) = nthZ d q k.

Context (HN : 0 < N) (HNW : N < W) (HW : (N | W)).

Lemma mod_apart a i j : 0 <= i -> i < j -> j - i < N -> (a + i) mod N <> (a + j) mod N.
Proof.
  intros Hi Hij Hlt E. assert (Hz : (j - i) mod N = 0).
  { replace (j - i) with ((a + j) - (a + i)) by lia. rewrite Zminus_mod, E, Z.sub_diag. apply Zmod_0_l. }
  rewrite Z.mod_small in Hz; lia.
Qed.

Lemma ring_nil ring lo : zlen ring = N -> 0 <= lo < W -> ring_ok ring lo lo [].
Proof using HN.
  intros Hr Hlo. unfold ring_ok. change (zlen (@nil A)) with 0. rewrite Z.add_0_r, (Z.mod_small lo W) by done.
  split_and!; try done; lia.
Qed.

Lemma ring_push ring lo hi q x :
  ring_ok ring lo hi q -> zlen q < N -> ring_ok (updZ (hi mod N) x ring) lo ((hi + 1) mod W) (q ++ [x]).
Proof using HN HNW HW.
  intros (Hr & Hlo & -> & Hq & Hk) Hlt. pose proof (zlen_nonneg q). unfold ring_ok.
  rewrite zlen_updZ, zlen_app. change (zlen [x]) with 1. split; [done|]. split; [done|].
  split; [rewrite Zplus_mod_idemp_l; f_equal; lia|]. split; [lia|].
  rewrite Z.mod_mod_divide by done. intros k Hkk. destruct (decide (k = zlen q)) as [->|Hne].
  - rewrite nthZ_updZ_eq by (rewrite Hr; by apply Z.mod_pos_bound).
    rewrite nthZ_app by lia. rewrite Z.ltb_irrefl. by rewrite Z.sub_diag.
  - rewrite nthZ_updZ_ne by (apply not_eq_sym, mod_apart; lia).
    rewrite nthZ_app by lia. destruct (Z.ltb_spec k (zlen q)); [|lia]. apply Hk. lia.
Qed.

Lemma ring_pop ring lo hi x q :
  ring_ok ring lo hi (x :: q) -> nthZ d ring (lo mod N) = x /\ ring_ok ring ((lo + 1) mod W) hi q.
Proof using HN HNW HW.
  intros (Hr & Hlo & -> & Hq & Hk). assert (Hz : zlen (x :: q) = zlen q + 1) by (unfold zlen; cbn [length]; lia).
  pose proof (zlen_nonneg q). rewrite Hz in *. split.
  - specialize (Hk 0 ltac:(lia)). by rewrite Z.add_0_r in Hk.
  - split; [done|]. split; [apply Z.mod_pos_bound; lia|].
    split; [rewrite Zplus_mod_idemp_l; f_equal; lia|]. split; [lia|].
    intros k Hkk. specialize (Hk (k + 1) ltac:(lia)). rewrite <- Zplus_mod_idemp_l, Z.mod_mod_divide, Zplus_mod_idemp_l by done.
    replace (lo + 1 + k) with (lo + (k + 1)) by lia. rewrite Hk.
    unfold nthZ. destruct (Z.ltb_spec (k + 1) 0), (Z.ltb_spec k 0); try lia.
    replace (Z.to_nat (k + 1)) with (S (Z.to_nat k)) by lia. done.
Qed.

(** Taking back the last entry. *)
Lemma ring_unpush ring lo hi q x :
  ring_ok ring lo hi (q ++ [x]) -> ring_ok ring lo ((hi - 1) mod W) q /\ nthZ d ring (((hi - 1) mod W) mod N) = x.
Proof using HN HNW HW.
  intros (Hr & Hlo & -> & Hq & Hk). rewrite zlen_app in *. change (zlen [x]) with 1 in *. pose proof (zlen_nonneg q).
  rewrite Zminus_mod_idemp_l. replace (lo + (zlen q + 1) - 1) with (lo + zlen q) by lia. split.
  - split_and!; try done; try lia. intros k Hkk. rewrite Hk by lia. rewrite nthZ_app by lia.
    destruct (Z.ltb_spec k (zlen q)); [done|lia].
  - rewrite Z.mod_mod_divide by done. rewrite Hk by lia. rewrite nthZ_app by lia. rewrite Z.ltb_irrefl.
    by rewrite Z.sub_diag.
Qed.

Lemma ring_empty ring lo hi q : ring_ok ring lo hi q -> (lo =? hi) = bool_decide (q = []).
Proof using HN HNW HW.
  intros (_ & Hlo & -> & Hq & _). destruct q as [|x q].
  - rewrite bool_decide_true by done. change (zlen []) with 0. rewrite Z.add_0_r, Z.mod_small by done. apply Z.eqb_refl.
  - rewrite bool_decide_false by done. apply Z.eqb_neq. intros E.
    unfold zlen in *. cbn [length] in *. revert E. rewrite <- (Z.mod_small lo W) at 1 by done. intros E.
    assert (Hz : (Z.of_nat (S (length q))) mod W = 0).
    { replace (Z.of_nat (S (length q))) with (lo + Z.of_nat (S (length q)) - lo) by lia.
      rewrite Zminus_mod, <- E, Z.sub_diag. apply Zmod_0_l. }
    rewrite Z.mod_small in Hz; lia.
Qed.

Lemma ring_count ring lo hi q : ring_ok ring lo hi q -> (hi - lo) mod W = zlen q.
Proof using HN HNW HW.
  intros (_ & Hlo & -> & Hq & _). pose proof (zlen_nonneg q). rewrite Zminus_mod_idemp_l.
  replace (lo + zlen q - lo) with (zlen q) by lia. apply Z.mod_small. lia.
Qed.

Lemma ring_full ring lo hi q : ring_ok ring lo hi q -> (hi =? (lo + N) mod W) = bool_decide (zlen q = N).
Proof using HN HNW HW.
  intros H. pose proof (ring_count _ _ _ _ H) as Hc. destruct H as (_ & Hlo & -> & Hq & _). pose proof (zlen_nonneg q).
  apply Bool.eq_iff_eq_true. rewrite Z.eqb_eq, bool_decide_eq_true. split; [|by intros ->].
  intros E. rewrite E, Zminus_mod_idemp_l in Hc. replace (lo + N - lo) with N in Hc by lia.
  rewrite Z.mod_small in Hc; lia.
Qed.

Lemma ring_len ring lo hi q : ring_ok ring lo hi q -> zlen q <= N.
Proof. by intros (_ & _ & _ & H & _). Qed.
End Ring.
