(* ===== verification/Sleeplock.v ===== *)
(** * Sleep locks (kernel/sleeplock.c)

    A sleep lock as its fields; its operations run as process [pid].  The
    spin lock [lk] inside it guards the fields for the length of one
    operation. *)

From Stdlib Require Import ZArith Lia.
From stdpp Require Import base numbers list strings.
From S2P Require Import Prelude.

Record sleeplock := SleepLock { sl_locked : Z; sl_lk : bool; sl_pid : Z }.

Definition set_sl_lk (b : bool) (l : sleeplock) : sleeplock := SleepLock (sl_locked l) b (sl_pid l).
Definition set_sl (locked pid : Z) (l : sleeplock) : sleeplock := SleepLock locked (sl_lk l) pid.

Definition initsleeplock : M sleeplock unit :=
  modify (fun _ => SleepLock 0 false 0).

(** [chan] is the address of the lock, the channel a waiter sleeps on;
    sleep() gives up [lk] while it waits. *)
Definition acquiresleep (chan pid : Z) : M sleeplock unit :=
  lk_acquire sl_lk set_sl_lk ;;
  let* l := get in
  if negb (sl_locked l =? 0) then lk_release sl_lk set_sl_lk ;; sleep_on chan
  else
    modify (set_sl 1 pid) ;;
    lk_release sl_lk set_sl_lk.

(** The wakeup(lk) inside changes only the states of waiting processes. *)
Definition releasesleep : M sleeplock unit :=
  lk_acquire sl_lk set_sl_lk ;;
  modify (set_sl 0 0) ;;
  lk_release sl_lk set_sl_lk.

Definition holdingsleep (pid : Z) : M sleeplock bool :=
  lk_acquire sl_lk set_sl_lk ;;
  let* r := gets (fun l => negb (sl_locked l =? 0) && (sl_pid l =? pid)) in
  lk_release sl_lk set_sl_lk ;;
  ret r.

(** The two states a sleep lock has between operations. *)
Definition sl_free : sleeplock := SleepLock 0 false 0.
Definition sl_held (pid : Z) : sleeplock := SleepLock 1 false pid.

Lemma acquiresleep_free chan pid : acquiresleep chan pid sl_free = Ret tt (sl_held pid).
Proof. done. Qed.

Lemma acquiresleep_held chan pid q : acquiresleep chan pid (sl_held q) = Block chan (sl_held q).
Proof. done. Qed.

Lemma releasesleep_held pid : releasesleep (sl_held pid) = Ret tt sl_free.
Proof. done. Qed.

Lemma holdingsleep_held pid q : holdingsleep pid (sl_held q) = Ret (q =? pid) (sl_held q).
Proof. done. Qed.

Lemma holdingsleep_free pid : holdingsleep pid sl_free = Ret false sl_free.
Proof. done. Qed.
