(* ===== verification/Bio.v ===== *)
(** * The buffer cache (kernel/bio.c)

    [bufs] is bcache.buf[] followed by bcache.head (index [HEAD]), with the
    prev/next links of the LRU list as indices.  The disk is a map from block
    numbers to 1024-byte blocks; [writes] records every block written, oldest
    first, for the crash arguments of the log. *)

From Stdlib Require Import ZArith Lia.
From stdpp Require Import base numbers list list_numbers gmap strings sorting.
From S2P Require Import Prelude Cstring Bytes Sleeplock.

Definition BSIZE : Z := 1024.
Definition ROOTDEV : Z := 1.
Definition MAXOPBLOCKS : Z := 10.
Definition NBUF : Z := MAXOPBLOCKS * 3.
Definition HEAD : Z := NBUF.

Record buf := Buf {
  b_valid : bool;
  b_dev : Z;
  b_blockno : Z;
  b_lock : sleeplock;
  b_refcnt : Z;
  b_prev : Z;
  b_next : Z;
  b_data : list Z
}.

Definition zero_block : list Z := repeat 0 (Z.to_nat BSIZE).

(** A buffer as static storage leaves it. *)
Definition buf0 : buf := Buf false 0 0 sl_free 0 0 0 zero_block.

Definition set_b_valid v (b : buf) : buf :=
  Buf v (b_dev b) (b_blockno b) (b_lock b) (b_refcnt b) (b_prev b) (b_next b) (b_data b).
Definition set_b_lock l (b : buf) : buf :=
  Buf (b_valid b) (b_dev b) (b_blockno b) l (b_refcnt b) (b_prev b) (b_next b) (b_data b).
Definition set_b_refcnt r (b : buf) : buf :=
  Buf (b_valid b) (b_dev b) (b_blockno b) (b_lock b) r (b_prev b) (b_next b) (b_data b).
Definition set_b_prev p (b : buf) : buf :=
  Buf (b_valid b) (b_dev b) (b_blockno b) (b_lock b) (b_refcnt b) p (b_next b) (b_data b).
Definition set_b_next n (b : buf) : buf :=
  Buf (b_valid b) (b_dev b) (b_blockno b) (b_lock b) (b_refcnt b) (b_prev b) n (b_data b).
Definition set_b_data d (b : buf) : buf :=
  Buf (b_valid b) (b_dev b) (b_blockno b) (b_lock b) (b_refcnt b) (b_prev b) (b_next b) d.
Definition set_b_block dev blockno (b : buf) : buf :=
  Buf (b_valid b) dev blockno (b_lock b) (b_refcnt b) (b_prev b) (b_next b) (b_data b).

Record bio := Bio {
  bufs : list buf;
  bcache_lock : bool;
  disk : gmap Z (list Z);
  writes : list (Z * list Z);
  curpid : Z
}.

Definition set_bufs bs (s : bio) : bio := Bio bs (bcache_lock s) (disk s) (writes s) (curpid s).
Definition set_bcache_lock l (s : bio) : bio := Bio (bufs s) l (disk s) (writes s) (curpid s).

(** The block the disk holds at [bno]. *)
Definition dblk (d : gmap Z (list Z)) (bno : Z) : list Z := default zero_block (d !! bno).

Definition buf_at (s : bio) (i : Z) : buf := nthZ buf0 (bufs s) i.
Definition getb {A} (i : Z) (f : buf -> A) : M bio A := gets (fun s => f (buf_at s i)).
Definition updb (i : Z) (f : buf -> buf) : M bio unit :=
  modify (fun s => set_bufs (updZ i (f (buf_at s i)) (bufs s)) s).

(** An operation on the sleep lock of buffer [i]. *)
Definition on_lock {A} (i : Z) (m : M sleeplock A) : M bio A :=
  zoom (fun s => b_lock (buf_at s i))
       (fun l s => set_bufs (updZ i (set_b_lock l (buf_at s i)) (bufs s)) s) m.

Definition bacquire : M bio unit := lk_acquire bcache_lock set_bcache_lock.
Definition brelease : M bio unit := lk_release bcache_lock set_bcache_lock.

Fixpoint binit_loop (n : nat) (b : Z) : M bio unit :=
  match n with
  | O => ret tt
  | S k =>
      let* first := getb HEAD b_next in
      updb b (set_b_next first) ;;
      updb b (set_b_prev HEAD) ;;
      on_lock b initsleeplock ;;
      updb first (set_b_prev b) ;;
      updb HEAD (set_b_next b) ;;
      binit_loop k (b + 1)
  end.

Definition binit : M bio unit :=
  modify (set_bcache_lock false) ;;
  updb HEAD (set_b_prev HEAD) ;;
  updb HEAD (set_b_next HEAD) ;;
  binit_loop (Z.to_nat NBUF) 0.

(** The first scan of bget(): the cached buffer of the block, if any. *)
Fixpoint bget_cached (fuel : nat) (b dev blockno : Z) : M bio (option Z) :=
  match fuel with
  | O => panic "bget: fuel"
  | S k =>
      if b =? HEAD then ret None
      else
        let* x := getb b (fun x => x) in
        if (b_dev x =? dev) && (b_blockno x =? blockno) then ret (Some b)
        else bget_cached k (b_next x) dev blockno
  end.

(** The second scan: the least recently used unreferenced buffer. *)
Fixpoint bget_unused (fuel : nat) (b : Z) : M bio (option Z) :=
  match fuel with
  | O => panic "bget: fuel"
  | S k =>
      if b =? HEAD then ret None
      else
        let* x := getb b (fun x => x) in
        if b_refcnt x =? 0 then ret (Some b)
        else bget_unused k (b_prev x)
  end.

(** The list has NBUF buffers and the head, so NBUF + 1 steps reach its end. *)
Definition lru_fuel : nat := S (Z.to_nat NBUF).

Definition bget (dev blockno : Z) : M bio Z :=
  bacquire ;;
  let* first := getb HEAD b_next in
  let* r := bget_cached lru_fuel first dev blockno in
  let* pid := gets curpid in
  match r with
  | Some b =>
      updb b (fun x => set_b_refcnt (u32 (b_refcnt x + 1)) x) ;;
      brelease ;;
      on_lock b (acquiresleep b pid) ;;
      ret b
  | None =>
      let* last := getb HEAD b_prev in
      let* r := bget_unused lru_fuel last in
      match r with
      | Some b =>
          updb b (set_b_block dev blockno) ;;
          updb b (set_b_valid false) ;;
          updb b (set_b_refcnt 1) ;;
          brelease ;;
          on_lock b (acquiresleep b pid) ;;
          ret b
      | None => panic "bget: no buffers"
      end
  end.

(** A completed disk request: virtio_disk_rw() returns when the device has
    moved the block. *)
Definition virtio_disk_rw (b : Z) (write : bool) : M bio unit :=
  modify (fun s =>
    let x := buf_at s b in
    if write
    then Bio (bufs s) (bcache_lock s) (<[b_blockno x := b_data x]> (disk s))
             (writes s ++ [(b_blockno x, b_data x)]) (curpid s)
    else set_bufs (updZ b (set_b_data (dblk (disk s) (b_blockno x)) x) (bufs s)) s).

Definition bread (dev blockno : Z) : M bio Z :=
  let* b := bget dev blockno in
  let* valid := getb b b_valid in
  (if negb valid then virtio_disk_rw b false ;; updb b (set_b_valid true) else ret tt) ;;
  ret b.

Definition bwrite (b : Z) : M bio unit :=
  let* pid := gets curpid in
  let* h := on_lock b (holdingsleep pid) in
  if negb h then panic "bwrite"
  else virtio_disk_rw b true.

(** Unlink [b] and link it in again at the head of the list. *)
Definition move_to_front (b : Z) : M bio unit :=
  let* x := getb b (fun x => x) in
  updb (b_next x) (set_b_prev (b_prev x)) ;;
  let* x := getb b (fun x => x) in
  updb (b_prev x) (set_b_next (b_next x)) ;;
  let* first := getb HEAD b_next in
  updb b (set_b_next first) ;;
  updb b (set_b_prev HEAD) ;;
  let* first := getb HEAD b_next in
  updb first (set_b_prev b) ;;
  updb HEAD (set_b_next b).

Definition brelse (b : Z) : M bio unit :=
  let* pid := gets curpid in
  let* h := on_lock b (holdingsleep pid) in
  if negb h then panic "brelse"
  else
    on_lock b releasesleep ;;
    bacquire ;;
    updb b (fun x => set_b_refcnt (u32 (b_refcnt x - 1)) x) ;;
    let* r := getb b b_refcnt in
    (if r =? 0 then move_to_front b else ret tt) ;;
    brelease.

Definition bpin (b : Z) : M bio unit :=
  bacquire ;;
  updb b (fun x => set_b_refcnt (u32 (b_refcnt x + 1)) x) ;;
  brelease.

Definition bunpin (b : Z) : M bio unit :=
  bacquire ;;
  updb b (fun x => set_b_refcnt (u32 (b_refcnt x - 1)) x) ;;
  brelease.

(** Access to the data of a buffer its holder has. *)
Definition bdata (b : Z) : M bio (list Z) := getb b b_data.
Definition set_bdata (b : Z) (d : list Z) : M bio unit := updb b (set_b_data d).
