(* ===== verification/Bcache.v ===== *)
(** * The buffer cache: the proofs

    [ring] says the prev/next links form a circular list through the head and
    every buffer; [bcore] relates the buffers to the logical contents [V] of
    the blocks: what a reader of the cache sees, whether a block is cached or
    only on disk.  [H] are the buffers held (locked) with their blocks, [P]
    the blocks the log has pinned, [D] the blocks modified in a held buffer
    and not yet handed to the log. *)

From Stdlib Require Import ZArith Lia.
From stdpp Require Import base numbers list list_numbers gmap strings sorting.
From S2P Require Import Prelude Cstring Bytes Sleeplock Bio.

(** ** Doubly linked paths *)

(** From [x] through [l] to [y], both ways. *)
Fixpoint path (nx pv : Z -> Z) (x : Z) (l : list Z) (y : Z) : Prop :=
  match l with
  | [] => nx x = y /\ pv y = x
  | z :: l' => nx x = z /\ pv z = x /\ path nx pv z l' y
  end.

Lemma path_app nx pv x l1 z l2 y :
  path nx pv x (l1 ++ z :: l2) y <-> path nx pv x l1 z /\ path nx pv z l2 y.
Proof.
  revert x. induction l1 as [|w l1 IH]; intros x; simpl; [tauto|]. rewrite IH. tauto.
Qed.

Lemma path_rev nx pv x l y : path nx pv x l y -> path pv nx y (reverse l) x.
Proof.
  revert x. induction l as [|z l IH]; intros x; simpl; [tauto|].
  intros (H1 & H2 & H3). rewrite reverse_cons. apply path_app. simpl. auto.
Qed.

Lemma path_ext nx pv nx' pv' x l y :
  (forall w, w ∈ x :: l -> nx' w = nx w) -> (forall w, w ∈ l ++ [y] -> pv' w = pv w) ->
  path nx pv x l y -> path nx' pv' x l y.
Proof.
  revert x. induction l as [|z l IH]; intros x Hn Hp; simpl.
  - rewrite (Hn x), (Hp y); [done|simpl; left|left].
  - rewrite (Hn x), (Hp z); [|simpl; left|left]. intros (? & ? & ?). split_and!; try done.
    apply IH; try done; intros w Hw; [apply Hn|apply Hp]; by right.
Qed.

Lemma path_first nx pv x l y : path nx pv x l y -> nx x = default y (head l).
Proof. destruct l; simpl; naive_solver. Qed.

Lemma path_last nx pv x l y : path nx pv x l y -> pv y = default x (last l).
Proof.
  intros H%path_rev%path_first. by rewrite head_reverse in H.
Qed.

Definition fupd (f : Z -> Z) (k v : Z) : Z -> Z := fun x => if decide (x = k) then v else f x.

(** Unlinking [b]. *)
Lemma path_remove nx pv x l1 b l2 y :
  NoDup (x :: l1 ++ b :: l2) -> y ∉ l1 ++ b :: l2 ->
  path nx pv x (l1 ++ b :: l2) y ->
  path (fupd nx (pv b) (nx b)) (fupd pv (nx b) (pv b)) x (l1 ++ l2) y.
Proof.
  intros Hnd Hy Hp. apply path_app in Hp as [Hp1 Hp2].
  assert (Hcore : forall p, pv b = p -> p ∉ l2 -> p <> b ->
    path (fupd nx (pv b) (nx b)) (fupd pv (nx b) (pv b)) p l2 y).
  { intros p <- Hpl Hpb. apply NoDup_cons in Hnd as [_ Hnd].
    apply NoDup_app in Hnd as (_ & _ & Hnd). apply NoDup_cons in Hnd as [Hb Hnd].
    destruct l2 as [|z l2]; simpl in *.
    - destruct Hp2 as [-> _]. split; unfold fupd; case_decide; congruence.
    - destruct Hp2 as (-> & Hz & Hp2). apply NoDup_cons in Hnd as [Hz2 Hnd].
      split; [unfold fupd; case_decide; congruence|].
      split; [unfold fupd; case_decide; congruence|].
      eapply path_ext; [..|exact Hp2]; intros w Hw; unfold fupd; case_decide as Hc; try done.
      + exfalso. subst w. done.
      + exfalso. subst w. apply elem_of_app in Hw as [Hw|Hw%list_elem_of_singleton]; [done|]. rewrite Hw in *.
        apply Hy. apply elem_of_app. right. right. left. }
  destruct l1 as [|p l1] using rev_ind; simpl in *.
  - apply Hcore; [tauto|..]; [|apply NoDup_cons in Hnd as [Hx _]; intros ->; apply Hx; left].
    apply NoDup_cons in Hnd as [Hx _]. intros Hc. apply Hx. by right.
  - clear IHl1. rewrite <- app_assoc in *. simpl in *. apply path_app in Hp1 as [Hp1 Hp3].
    destruct Hp3 as [Hpb Hbp]. apply path_app. split.
    + eapply path_ext; [..|exact Hp1]; intros w Hw; unfold fupd; case_decide as Hc; try done; subst w.
      * exfalso. rewrite Hbp in Hw. rewrite app_comm_cons in Hnd.
        apply NoDup_app in Hnd as (_ & Hd & _). apply (Hd p); [done|left].
      * exfalso. assert (Hin : nx b ∈ l2 ++ [y]).
        { rewrite (path_first _ _ _ _ _ Hp2). destruct l2; simpl; left. }
        apply elem_of_app in Hin as [Hin|Hin%list_elem_of_singleton].
        -- apply NoDup_cons in Hnd as [_ Hnd].
           replace (l1 ++ p :: b :: l2) with ((l1 ++ [p]) ++ b :: l2) in Hnd by (by rewrite <- app_assoc).
           apply NoDup_app in Hnd as (_ & Hd & _). apply (Hd (nx b)); [done|by right].
        -- rewrite Hin in Hw. apply Hy. apply elem_of_app in Hw as [Hw|Hw%list_elem_of_singleton];
             apply elem_of_app; [by left|right]. subst. left.
    + apply NoDup_cons in Hnd as [_ Hnd]. apply NoDup_app in Hnd as (_ & _ & Hnd).
      apply NoDup_cons in Hnd as [Hpn _]. apply Hcore; [done|..].
      * intros Hc. apply Hpn. by right.
      * intros ->. apply Hpn. left.
Qed.

(** Linking [b] in behind [x]. *)
Lemma path_insert nx pv x l b y :
  NoDup (x :: l) -> y ∉ l -> b ∉ x :: l -> b <> y ->
  path nx pv x l y ->
  path (fupd (fupd nx b (nx x)) x b) (fupd (fupd pv b x) (nx x) b) x (b :: l) y.
Proof.
  intros Hnd Hy Hb Hby Hp. apply NoDup_cons in Hnd as [Hx Hnd].
  assert (Hbx : b <> x) by (intros ->; apply Hb; left).
  assert (Hnb : nx x <> b).
  { rewrite (path_first _ _ _ _ _ Hp). destruct l as [|z l]; simpl; [done|].
    intros ->. apply Hb. right. left. }
  simpl. split; [unfold fupd; by case_decide|]. split.
  { unfold fupd. case_decide; [congruence|]. by case_decide. }
  destruct l as [|z l]; simpl in *.
  - destruct Hp as [-> Hp]. unfold fupd. split; repeat case_decide; congruence.
  - destruct Hp as (-> & Hz & Hp). apply NoDup_cons in Hnd as [Hzl Hnd].
    split; [unfold fupd; repeat case_decide; congruence|].
    split; [unfold fupd; repeat case_decide; congruence|].
    eapply path_ext; [..|exact Hp]; intros w Hw; unfold fupd; repeat case_decide; try done; subst w.
    + exfalso. by apply Hx.
    + exfalso. apply Hb. by right.
    + exfalso. apply elem_of_app in Hw as [Hw|Hw%list_elem_of_singleton]; [done|].
      subst. apply Hy. left.
    + exfalso. apply elem_of_app in Hw as [Hw|Hw%list_elem_of_singleton]; [|done].
      apply Hb. right. by right.
Qed.

(** ** States after updates *)

Definition upd (s : bio) (i : Z) (f : buf -> buf) : bio :=
  set_bufs (updZ i (f (buf_at s i)) (bufs s)) s.

Lemma updb_eq i f s : updb i f s = Ret tt (upd s i f).
Proof. done. Qed.

Lemma on_lock_Ret {A} i (m : M sleeplock A) s a l :
  m (b_lock (buf_at s i)) = Ret a l -> on_lock i m s = Ret a (upd s i (set_b_lock l)).
Proof. intros H. unfold on_lock. by erewrite zoom_Ret by exact H. Qed.

Lemma buf_at_upd s i f j :
  0 <= i < zlen (bufs s) ->
  buf_at (upd s i f) j = if decide (j = i) then f (buf_at s i) else buf_at s j.
Proof.
  intros Hi. unfold buf_at at 1, upd. cbn [set_bufs bufs]. case_decide.
  - subst. by rewrite nthZ_updZ_eq.
  - by rewrite nthZ_updZ_ne.
Qed.

Lemma zlen_upd s i f : zlen (bufs (upd s i f)) = zlen (bufs s).
Proof. unfold upd. cbn [set_bufs bufs]. apply zlen_updZ. Qed.

Definition nx (s : bio) (i : Z) : Z := b_next (buf_at s i).
Definition pv (s : bio) (i : Z) : Z := b_prev (buf_at s i).

Definition ring (s : bio) (l : list Z) : Prop :=
  l ≡ₚ seqZ 0 NBUF /\ path (nx s) (pv s) HEAD l HEAD.

Lemma ring_range s l i : ring s l -> i ∈ l <-> 0 <= i < NBUF.
Proof. intros [Hl _]. rewrite Hl, elem_of_seqZ. lia. Qed.

Lemma ring_length s l : ring s l -> length l = Z.to_nat NBUF.
Proof. intros [Hl _]. by rewrite Hl, length_seqZ. Qed.

Lemma ring_NoDup s l : ring s l -> NoDup (HEAD :: l).
Proof.
  intros Hr. apply NoDup_cons. split.
  - rewrite (ring_range s l HEAD Hr). unfold HEAD. lia.
  - destruct Hr as [Hl _]. eapply NoDup_perm; [symmetry; exact Hl|apply NoDup_seqZ].
Qed.

Lemma ring_ext s s' l :
  (forall j, nx s' j = nx s j) -> (forall j, pv s' j = pv s j) -> ring s l -> ring s' l.
Proof.
  intros Hn Hp [Hl Hr]. split; [done|]. eapply path_ext; [..|exact Hr]; auto.
Qed.

(** The relation between the buffers and the logical block contents. *)
Record bcore (s : bio) (V : Z -> list Z) (H : gmap Z Z) (P D : list Z) : Prop := {
  bc_len : zlen (bufs s) = NBUF + 1;
  bc_lock : bcache_lock s = false;
  bc_sl : forall i, 0 <= i < NBUF ->
    b_lock (buf_at s i) = match H !! i with Some _ => sl_held (curpid s) | None => sl_free end;
  bc_held : forall i b, H !! i = Some b ->
    0 <= i < NBUF /\ b_dev (buf_at s i) = ROOTDEV /\ b_blockno (buf_at s i) = b /\
    b_valid (buf_at s i) = true;
  bc_dev : forall i, 0 <= i < NBUF -> b_dev (buf_at s i) = ROOTDEV \/
    (b_dev (buf_at s i) = 0 /\ b_refcnt (buf_at s i) = 0);
  bc_uniq : forall i j, 0 <= i < NBUF -> 0 <= j < NBUF ->
    b_dev (buf_at s i) = ROOTDEV -> b_dev (buf_at s j) = ROOTDEV ->
    b_blockno (buf_at s i) = b_blockno (buf_at s j) -> i = j;
  bc_ref : forall i, 0 <= i < NBUF -> b_dev (buf_at s i) = ROOTDEV ->
    b_refcnt (buf_at s i) =
      (match H !! i with Some _ => 1 | None => 0 end) +
      (if decide (b_blockno (buf_at s i) ∈ P) then 1 else 0);
  bc_pin : forall b, b ∈ P -> exists i, 0 <= i < NBUF /\
    b_dev (buf_at s i) = ROOTDEV /\ b_blockno (buf_at s i) = b /\ b_valid (buf_at s i) = true;
  bc_valid : forall i, 0 <= i < NBUF -> b_dev (buf_at s i) = ROOTDEV ->
    b_valid (buf_at s i) = true -> b_data (buf_at s i) = V (b_blockno (buf_at s i));
  bc_clean : forall b, b ∉ P -> b ∉ D -> V b = dblk (disk s) b;
  bc_dirty : forall b, b ∈ D -> exists i, H !! i = Some b
}.

Definition brep (s : bio) (V : Z -> list Z) (H : gmap Z Z) (P D : list Z) : Prop :=
  bcore s V H P D /\ exists l, ring s l.

(** ** The scans of bget *)

Lemma bget_cached_spec fuel x l s dev bno :
  path (nx s) (pv s) x l HEAD -> HEAD ∉ l -> (length l < fuel)%nat ->
  exists r, bget_cached fuel (nx s x) dev bno s = Ret r s /\
    match r with
    | Some i => i ∈ l /\ b_dev (buf_at s i) = dev /\ b_blockno (buf_at s i) = bno
    | None => forall i, i ∈ l -> ~ (b_dev (buf_at s i) = dev /\ b_blockno (buf_at s i) = bno)
    end.
Proof.
  revert x fuel. induction l as [|z l IH]; intros x fuel Hp Hh Hf; (destruct fuel as [|fuel]; [simpl in Hf; lia|]);
    cbn [bget_cached path] in *.
  - destruct Hp as [-> _]. exists None. split; [done|]. by intros i ?%elem_of_nil.
  - destruct Hp as (-> & _ & Hp). apply not_elem_of_cons in Hh as [Hz Hh].
    destruct (Z.eqb_spec z HEAD); [congruence|]. erewrite bind_Ret by reflexivity.
    destruct (Z.eqb_spec (b_dev (buf_at s z)) dev), (Z.eqb_spec (b_blockno (buf_at s z)) bno);
      cbn [andb]; try (exists (Some z); split; [done|]; split; [left|done]).
    all: destruct (IH z fuel Hp Hh ltac:(simpl in Hf; lia)) as (r & E & Hr);
      exists r; split; [exact E|]; destruct r as [i|];
      [split; [right; apply Hr|apply Hr]|intros i Hi; apply elem_of_cons in Hi as [->|Hi]; [naive_solver|by apply Hr]].
Qed.

Lemma bget_unused_spec fuel y l s :
  path (pv s) (nx s) y l HEAD -> HEAD ∉ l -> (length l < fuel)%nat ->
  exists r, bget_unused fuel (pv s y) s = Ret r s /\
    match r with
    | Some i => i ∈ l /\ b_refcnt (buf_at s i) = 0
    | None => forall i, i ∈ l -> b_refcnt (buf_at s i) <> 0
    end.
Proof.
  revert y fuel. induction l as [|z l IH]; intros y fuel Hp Hh Hf; (destruct fuel as [|fuel]; [simpl in Hf; lia|]);
    cbn [bget_unused path] in *.
  - destruct Hp as [-> _]. exists None. split; [done|]. by intros i ?%elem_of_nil.
  - destruct Hp as (-> & _ & Hp). apply not_elem_of_cons in Hh as [Hz Hh].
    destruct (Z.eqb_spec z HEAD); [congruence|]. erewrite bind_Ret by reflexivity.
    destruct (Z.eqb_spec (b_refcnt (buf_at s z)) 0).
    { exists (Some z). split; [done|]. split; [left|done]. }
    destruct (IH z fuel Hp Hh ltac:(simpl in Hf; lia)) as (r & E & Hr).
    exists r. split; [exact E|]. destruct r as [i|].
    + split; [right; apply Hr|apply Hr].
    + intros i Hi. apply elem_of_cons in Hi as [->|Hi]; [done|by apply Hr].
Qed.

(** ** bread *)

(** With fewer than NBUF buffers held or pinned, one is unused. *)
Lemma bcore_unused s V H P D :
  bcore s V H P D -> (size H + length P < Z.to_nat NBUF)%nat ->
  exists i, 0 <= i < NBUF /\ b_refcnt (buf_at s i) = 0.
Proof.
  intros HC Hsz.
  destruct (decide (Exists (fun i => b_refcnt (buf_at s i) = 0) (seqZ 0 NBUF))) as [He|Hn].
  { apply Exists_exists in He as (i & Hi%elem_of_seqZ & Hr). exists i. split; [lia|done]. }
  exfalso. apply not_Exists_Forall in Hn; [|intros; apply _]. rewrite Forall_forall in Hn.
  assert (Hr : forall i, 0 <= i < NBUF -> b_dev (buf_at s i) = ROOTDEV /\
            (H !! i = None -> b_blockno (buf_at s i) ∈ P)).
  { intros i Hi. specialize (Hn i ltac:(apply elem_of_seqZ; lia)). simpl in Hn.
    destruct (bc_dev _ _ _ _ _ HC i Hi) as [Hd|[_ Hd]]; [|done]. split; [done|]. intros HN.
    pose proof (bc_ref _ _ _ _ _ HC i Hi Hd) as Hf. rewrite HN in Hf. case_decide; [done|lia]. }
  set (g := fun i => match H !! i with Some _ => inl i | None => inr (b_blockno (buf_at s i)) end : Z + Z).
  assert (Hsub : g <$> seqZ 0 NBUF ⊆+ (inl <$> elements (dom H)) ++ (inr <$> P)).
  { apply NoDup_submseteq.
    - apply NoDup_fmap_2_strong; [|apply NoDup_seqZ]. intros i j Hi%elem_of_seqZ Hj%elem_of_seqZ.
      unfold g. destruct (H !! i) eqn:Ei, (H !! j) eqn:Ej; intros Hg; simplify_eq; [done|].
      apply (bc_uniq _ _ _ _ _ HC); try lia; try done; apply Hr; lia.
    - intros x (i & -> & Hi%elem_of_seqZ)%list_elem_of_fmap. unfold g. apply elem_of_app.
      destruct (H !! i) eqn:Ei; [left|right]; apply list_elem_of_fmap; eexists; (split; [done|]).
      + apply elem_of_elements, elem_of_dom. by eexists.
      + apply Hr; [lia|done]. }
  apply submseteq_length in Hsub. rewrite length_fmap, length_seqZ, length_app, !length_fmap in Hsub.
  assert (Hd : length (elements (dom H)) = size H) by exact (size_dom H). lia.
Qed.

(** The state of buffer [i] after bread(ROOTDEV, bno) chose it. *)
Definition loaded (s : bio) (V : Z -> list Z) (P : list Z) (i bno : Z) : buf :=
  Buf true ROOTDEV bno (sl_held (curpid s)) (1 + (if decide (bno ∈ P) then 1 else 0))
      (pv s i) (nx s i) (V bno).

Definition only_changes (s s' : bio) (i : Z) (b : buf) : Prop :=
  (forall j, buf_at s' j = if decide (j = i) then b else buf_at s j) /\
  zlen (bufs s') = zlen (bufs s) /\ bcache_lock s' = bcache_lock s /\
  disk s' = disk s /\ writes s' = writes s /\ curpid s' = curpid s.

Lemma bread_core s s' V H P D i bno :
  bcore s V H P D -> 0 <= i < NBUF -> H !! i = None ->
  (b_dev (buf_at s i) = ROOTDEV /\ b_blockno (buf_at s i) = bno) \/
  (b_refcnt (buf_at s i) = 0 /\ forall j, 0 <= j < NBUF ->
     ~ (b_dev (buf_at s j) = ROOTDEV /\ b_blockno (buf_at s j) = bno)) ->
  only_changes s s' i (loaded s V P i bno) ->
  bcore s' V (<[i := bno]> H) P D.
Proof.
  intros HC Hi HN Hcase (Hb & Hlen & Hlk & Hdk & Hwr & Hpid).
  assert (Hother : forall j, 0 <= j < NBUF -> j <> i ->
    ~ (b_dev (buf_at s j) = ROOTDEV /\ b_blockno (buf_at s j) = bno)).
  { intros j Hj Hji [Hd Hbl]. destruct Hcase as [[Hd' Hb']|[_ Hn]]; [|by apply (Hn j)].
    apply Hji. apply (bc_uniq _ _ _ _ _ HC); try done. congruence. }
  split.
  - by rewrite Hlen, (bc_len _ _ _ _ _ HC).
  - by rewrite Hlk, (bc_lock _ _ _ _ _ HC).
  - intros j Hj. rewrite Hb, Hpid. case_decide as Hji.
    + subst. by rewrite lookup_insert_eq.
    + rewrite lookup_insert_ne by done. by apply (bc_sl _ _ _ _ _ HC).
  - intros j b. rewrite Hb. case_decide as Hji.
    + subst. rewrite lookup_insert_eq. intros [= <-]. split; [lia|]. split_and!; done.
    + rewrite lookup_insert_ne by done. apply (bc_held _ _ _ _ _ HC).
  - intros j Hj. rewrite Hb. case_decide; [by left|]. by apply (bc_dev _ _ _ _ _ HC).
  - intros j k Hj Hk. rewrite !Hb. repeat case_decide; subst; try done; cbn [loaded b_dev b_blockno].
    + intros _ Hd Hbl. exfalso. by apply (Hother k).
    + intros Hd _ Hbl. exfalso. by apply (Hother j).
    + by apply (bc_uniq _ _ _ _ _ HC).
  - intros j Hj. rewrite Hb. case_decide as Hji.
    + subst. rewrite lookup_insert_eq. done.
    + rewrite lookup_insert_ne by done. by apply (bc_ref _ _ _ _ _ HC).
  - intros b Hbp. destruct (bc_pin _ _ _ _ _ HC b Hbp) as (j & Hj & Hd & Hbl & Hv).
    destruct (decide (j = i)) as [->|Hji].
    + exists i. rewrite Hb, decide_True by done. split_and!; try done; try lia. cbn.
      destruct Hcase as [[_ Hc]|[Hc _]]; [congruence|]. exfalso.
      pose proof (bc_ref _ _ _ _ _ HC i Hi Hd) as Hr. rewrite Hbl, decide_True, HN in Hr by done. lia.
    + exists j. rewrite Hb, decide_False by done. split_and!; try done; lia.
  - intros j Hj. rewrite Hb. case_decide as Hji; [done|]. by apply (bc_valid _ _ _ _ _ HC).
  - intros b HbP HbD. rewrite Hdk. by apply (bc_clean _ _ _ _ _ HC).
  - intros b HbD. destruct (bc_dirty _ _ _ _ _ HC b HbD) as [j Hj]. exists j.
    rewrite lookup_insert_ne; [done|]. intros ->. congruence.
Qed.

Lemma only_changes_trans s s1 s2 i b1 b2 :
  only_changes s s1 i b1 -> only_changes s1 s2 i b2 -> only_changes s s2 i b2.
Proof.
  intros [Ha Hb] [Hc Hd]. destruct_and!. split; [|split_and!; congruence].
  intros j. rewrite Hc, Ha. by case_decide.
Qed.

Lemma only_changes_upd s i f :
  0 <= i < zlen (bufs s) -> only_changes s (upd s i f) i (f (buf_at s i)).
Proof.
  intros Hi. split; [intros j; by apply buf_at_upd|]. rewrite zlen_upd. done.
Qed.

(** What the critical section of bcache.lock does, seen from outside. *)
Lemma only_changes_locked s s1 i b :
  only_changes (set_bcache_lock true s) s1 i b -> bcache_lock s = false ->
  only_changes s (set_bcache_lock false s1) i b.
Proof. intros [Ha Hb] Hl. destruct_and!. split; [exact Ha|]. split_and!; done. Qed.

Lemma only_changes_at s s' i b : only_changes s s' i b -> buf_at s' i = b.
Proof. intros [H _]. by rewrite H, decide_True. Qed.

Lemma only_changes_ring s s' i b l :
  only_changes s s' i b -> b_next b = nx s i -> b_prev b = pv s i -> ring s l -> ring s' l.
Proof.
  intros [H _] Hn Hp. apply ring_ext; intros j; unfold nx, pv in *; rewrite H; case_decide; congruence.
Qed.

Lemma only_changes_set s s1 i b f :
  only_changes s s1 i b -> 0 <= i < zlen (bufs s) -> only_changes s (upd s1 i f) i (f b).
Proof.
  intros Hc Hi. eapply only_changes_trans; [exact Hc|].
  rewrite <- (only_changes_at _ _ _ _ Hc). apply only_changes_upd.
  destruct Hc as (_ & -> & _). done.
Qed.

Lemma only_changes_acquire s s1 i b pid :
  only_changes s s1 i b -> 0 <= i < zlen (bufs s) -> b_lock b = sl_free ->
  exists s2, on_lock i (acquiresleep i pid) s1 = Ret tt s2 /\
    only_changes s s2 i (set_b_lock (sl_held pid) b).
Proof.
  intros Hc Hi Hb. eexists. split; [|by apply only_changes_set].
  apply on_lock_Ret. rewrite (only_changes_at _ _ _ _ Hc), Hb. apply acquiresleep_free.
Qed.

Lemma bacquire_free s V H P D : bcore s V H P D -> bacquire s = Ret tt (set_bcache_lock true s).
Proof. intros HC. unfold bacquire, lk_acquire. by rewrite (bc_lock _ _ _ _ _ HC). Qed.

Lemma not_held s V H P D i bno :
  bcore s V H P D -> (forall i, H !! i <> Some bno) -> b_blockno (buf_at s i) = bno -> H !! i = None.
Proof.
  intros HC Hnh Hb. destruct (H !! i) as [b|] eqn:E; [|done].
  destruct (bc_held _ _ _ _ _ HC i b E) as (_ & _ & Hbb & _). exfalso. apply (Hnh i). congruence.
Qed.

Lemma unused_not_held s V H P D i :
  bcore s V H P D -> 0 <= i < NBUF -> b_refcnt (buf_at s i) = 0 -> H !! i = None.
Proof.
  intros HC Hi Hr. destruct (H !! i) as [b|] eqn:Hb; [|done].
  destruct (bc_held _ _ _ _ _ HC i b Hb) as (_ & Hd & _).
  pose proof (bc_ref _ _ _ _ _ HC i Hi Hd) as Href. rewrite Hb in Href. case_decide; lia.
Qed.

(** What bget() leaves behind: buffer [i] locked, referenced and labelled with
    the block, its data right if it is marked valid. *)
Definition got (s s1 : bio) (V : Z -> list Z) (P : list Z) (i bno : Z) : Prop :=
  exists v d, only_changes s s1 i (Buf v ROOTDEV bno (sl_held (curpid s))
      (1 + (if decide (bno ∈ P) then 1 else 0)) (pv s i) (nx s i) d) /\
    (v = true -> d = V bno) /\ (v = false -> bno ∉ P).

Lemma bget_spec s V H P D bno :
  brep s V H P D -> (forall i, H !! i <> Some bno) ->
  bno ∈ P \/ (size H + length P < Z.to_nat NBUF)%nat ->
  exists i s1, bget ROOTDEV bno s = Ret i s1 /\ 0 <= i < NBUF /\ H !! i = None /\
    ((b_dev (buf_at s i) = ROOTDEV /\ b_blockno (buf_at s i) = bno) \/
     (b_refcnt (buf_at s i) = 0 /\ forall j, 0 <= j < NBUF ->
        ~ (b_dev (buf_at s j) = ROOTDEV /\ b_blockno (buf_at s j) = bno))) /\
    got s s1 V P i bno.
Proof.
  intros [HC [l Hring]] Hnh Hroom. unfold bget.
  pose proof (ring_NoDup s l Hring) as [Hh Hnd]%NoDup_cons.
  pose proof (ring_length s l Hring) as Hll. pose proof (proj2 Hring) as Hpath.
  pose proof (bc_len _ _ _ _ _ HC) as Hlen. pose proof (bc_lock _ _ _ _ _ HC) as Hlk.
  erewrite bind_Ret by (by eapply bacquire_free). set (sl := set_bcache_lock true s).
  assert (Hrefl : forall i, 0 <= i < NBUF -> 0 <= i < zlen (bufs sl))
    by (intros; change (bufs sl) with (bufs s); lia).
  erewrite bind_Ret by reflexivity.
  destruct (bget_cached_spec lru_fuel HEAD l sl ROOTDEV bno Hpath Hh ltac:(unfold lru_fuel; lia))
    as (r & E & Hr).
  erewrite bind_Ret by exact E. erewrite bind_Ret by reflexivity. destruct r as [i|].
  - destruct Hr as (Hi & Hd & Hbl). apply (ring_range s l i Hring) in Hi.
    change (buf_at sl i) with (buf_at s i) in *.
    assert (HN : H !! i = None) by (by eapply not_held).
    pose proof (bc_ref _ _ _ _ _ HC i Hi Hd) as Href. rewrite HN, Hbl in Href.
    pose proof (bc_sl _ _ _ _ _ HC i Hi) as Hsl. rewrite HN in Hsl.
    pose proof (only_changes_locked s _ i _ (only_changes_upd sl i
      (fun x => set_b_refcnt (u32 (b_refcnt x + 1)) x) (Hrefl i Hi)) Hlk) as Hc.
    do 2 erewrite bind_Ret by reflexivity.
    destruct (only_changes_acquire s _ i _ (curpid s) Hc ltac:(lia) Hsl) as (s2 & E2 & Hc2).
    erewrite bind_Ret by exact E2. exists i, s2. do 3 (split; [done|]). split; [by left|].
    exists (b_valid (buf_at s i)), (b_data (buf_at s i)). split; [|split].
    + unfold set_b_lock, set_b_refcnt in Hc2.
      cbn [b_valid b_dev b_blockno b_lock b_refcnt b_prev b_next b_data] in Hc2.
      change (buf_at sl i) with (buf_at s i) in Hc2. rewrite Href, Hd, Hbl in Hc2.
      rewrite u32_small in Hc2 by (case_decide; lia).
      by rewrite (Z.add_comm 1), <- (Z.add_0_l (if decide (bno ∈ P) then 1 else 0)).
    + intros Hv. rewrite (bc_valid _ _ _ _ _ HC i) by done. by rewrite Hbl.
    + intros Hv HbP. destruct (bc_pin _ _ _ _ _ HC bno HbP) as (j & Hj & Hdj & Hbj & Hvj).
      assert (i = j) by (apply (bc_uniq _ _ _ _ _ HC); congruence). congruence.
  - assert (Hnc : forall j, 0 <= j < NBUF ->
        ~ (b_dev (buf_at s j) = ROOTDEV /\ b_blockno (buf_at s j) = bno)).
    { intros j Hj. apply Hr. by apply (ring_range s l j Hring). }
    assert (HbP : bno ∉ P).
    { intros HbP. destruct (bc_pin _ _ _ _ _ HC bno HbP) as (j & Hj & Hdj & Hbj & _).
      by apply (Hnc j Hj). }
    erewrite bind_Ret by reflexivity.
    destruct (bget_unused_spec lru_fuel HEAD (reverse l) sl) as (r & E2 & Hr2).
    { by apply path_rev. }
    { by rewrite elem_of_reverse. }
    { rewrite length_reverse. unfold lru_fuel. lia. }
    erewrite bind_Ret by exact E2. destruct r as [i|].
    2: { exfalso. destruct Hroom as [?|Hroom]; [done|].
         destruct (bcore_unused s V H P D HC Hroom) as (i & Hi & Hr0). apply (Hr2 i); [|done].
         apply elem_of_reverse. by apply (ring_range s l i Hring). }
    destruct Hr2 as [Hi Hr0]. apply elem_of_reverse, (ring_range s l i Hring) in Hi.
    change (buf_at sl i) with (buf_at s i) in *.
    assert (HN : H !! i = None) by (by eapply unused_not_held).
    pose proof (bc_sl _ _ _ _ _ HC i Hi) as Hsl. rewrite HN in Hsl.
    pose proof (only_changes_upd sl i (set_b_block ROOTDEV bno) (Hrefl i Hi)) as Hc.
    apply (only_changes_set _ _ _ _ (set_b_valid false)) in Hc; [|by apply Hrefl].
    apply (only_changes_set _ _ _ _ (set_b_refcnt 1)) in Hc; [|by apply Hrefl].
    apply only_changes_locked in Hc; [|done].
    do 4 erewrite bind_Ret by reflexivity.
    destruct (only_changes_acquire s _ i _ (curpid s) Hc ltac:(lia) Hsl) as (s2 & E3 & Hc2).
    erewrite bind_Ret by exact E3. exists i, s2. do 3 (split; [done|]). split; [by right|].
    exists false, (b_data (buf_at s i)). split; [|done].
    by rewrite (decide_False (P := bno ∈ P)).
Qed.

Lemma virtio_disk_read b s :
  virtio_disk_rw b false s = Ret tt (upd s b (set_b_data (dblk (disk s) (b_blockno (buf_at s b))))).
Proof. done. Qed.

(** bread() returns a locked buffer with the current contents of the block,
    and changes the contents of none. *)
Lemma bread_spec s V H P D bno :
  brep s V H P D -> (forall i, H !! i <> Some bno) ->
  bno ∈ P \/ (size H + length P < Z.to_nat NBUF)%nat ->
  exists i s', bread ROOTDEV bno s = Ret i s' /\ 0 <= i < NBUF /\ H !! i = None /\
    brep s' V (<[i := bno]> H) P D /\ disk s' = disk s /\ writes s' = writes s /\ curpid s' = curpid s.
Proof.
  intros HR Hnh Hroom.
  destruct (bget_spec s V H P D bno HR Hnh Hroom) as (i & s1 & E & Hi & HN & Hcase & v & d & Hc & Hv & HvP).
  destruct HR as [HC [l Hring]]. pose proof (bc_len _ _ _ _ _ HC) as Hlen.
  unfold bread. erewrite bind_Ret by exact E. erewrite bind_Ret by reflexivity.
  rewrite (only_changes_at _ _ _ _ Hc). cbn [b_valid].
  enough (exists s', (if negb v then virtio_disk_rw i false ;; updb i (set_b_valid true) else ret tt) s1 = Ret tt s' /\
            only_changes s s' i (loaded s V P i bno)) as (s' & E' & Hc').
  { exists i, s'. split; [by erewrite bind_Ret by exact E'|]. do 2 (split; [done|]).
    split; [|destruct Hc' as (_ & _ & _ & ? & ? & ?); done].
    split; [by eapply bread_core|]. exists l. by eapply only_changes_ring. }
  destruct v; cbn [negb].
  - exists s1. split; [done|]. unfold loaded. by rewrite <- Hv.
  - assert (Hd : dblk (disk s1) (b_blockno (buf_at s1 i)) = V bno).
    { rewrite (only_changes_at _ _ _ _ Hc). destruct Hc as (_ & _ & _ & -> & _ & _).
      symmetry. apply (bc_clean _ _ _ _ _ HC bno); [by apply HvP|].
      intros HbD. destruct (bc_dirty _ _ _ _ _ HC bno HbD) as [j Hj]. by apply (Hnh j). }
    erewrite bind_Ret by apply virtio_disk_read. rewrite Hd.
    eexists. split; [reflexivity|].
    apply (only_changes_set _ _ _ _ (set_b_data (V bno))) in Hc as Hc1; [|lia].
    by apply (only_changes_set _ _ _ _ (set_b_valid true)) in Hc1; [|lia].
Qed.

(** ** Operations on a held buffer *)

(** Equality up to the list links. *)
Definition same_core (x y : buf) : Prop :=
  b_valid x = b_valid y /\ b_dev x = b_dev y /\ b_blockno x = b_blockno y /\
  b_lock x = b_lock y /\ b_refcnt x = b_refcnt y /\ b_data x = b_data y.

(** A change that concerns only buffer [i], which holds block [b]. *)
Lemma bcore_change s s' V V' H H' P P' D D' i b b' :
  bcore s V H P D -> H !! i = Some b ->
  (forall j, 0 <= j < NBUF -> same_core (buf_at s' j) (if decide (j = i) then b' else buf_at s j)) ->
  zlen (bufs s') = zlen (bufs s) -> bcache_lock s' = false -> curpid s' = curpid s ->
  b_dev b' = ROOTDEV -> b_blockno b' = b -> b_valid b' = true ->
  (forall j, j <> i -> H' !! j = H !! j) ->
  (H' !! i = Some b /\ b_lock b' = sl_held (curpid s) \/ H' !! i = None /\ b_lock b' = sl_free) ->
  b_refcnt b' = (match H' !! i with Some _ => 1 | None => 0 end) + (if decide (b ∈ P') then 1 else 0) ->
  (forall x, x <> b -> x ∈ P' <-> x ∈ P) ->
  (forall x, x <> b -> V' x = V x) -> b_data b' = V' b ->
  (forall x, x ∉ P' -> x ∉ D' -> V' x = dblk (disk s') x) ->
  (forall x, x ∈ D' -> exists j, H' !! j = Some x) ->
  bcore s' V' H' P' D'.
Proof.
  intros HC HH Hb Hlen Hlk Hpid Hdv Hbn Hval HHo HHi Href HP HV Hda Hcl Hdi.
  destruct (bc_held _ _ _ _ _ HC i b HH) as (Hi & Hd & Hbl & Hv).
  assert (Hne : forall j, 0 <= j < NBUF -> j <> i -> b_dev (buf_at s j) = ROOTDEV ->
            b_blockno (buf_at s j) <> b).
  { intros j Hj Hji Hdj Hc. apply Hji, (bc_uniq _ _ _ _ _ HC); try done; congruence. }
  assert (Hat : forall j, 0 <= j < NBUF -> j <> i -> same_core (buf_at s' j) (buf_at s j)).
  { intros j Hj Hji. specialize (Hb j Hj). by rewrite decide_False in Hb. }
  specialize (Hb i Hi). rewrite decide_True in Hb by done. destruct Hb as (Bv & Bd & Bb & Bl & Br & Bda).
  split; try done.
  - by rewrite Hlen, (bc_len _ _ _ _ _ HC).
  - intros j Hj. rewrite Hpid. destruct (decide (j = i)) as [->|Hji].
    + rewrite Bl. destruct HHi as [[-> ->]|[-> ->]]; done.
    + destruct (Hat j Hj Hji) as (_ & _ & _ & -> & _). rewrite HHo by done.
      by apply (bc_sl _ _ _ _ _ HC).
  - intros j c Hc. destruct (decide (j = i)) as [->|Hji].
    + split; [lia|]. rewrite Bd, Bb, Bv. split_and!; try done. destruct HHi as [[Hx _]|[Hx _]]; congruence.
    + rewrite HHo in Hc by done. destruct (bc_held _ _ _ _ _ HC j c Hc) as (Hj & ? & ? & ?).
      destruct (Hat j Hj Hji) as (-> & -> & -> & _). done.
  - intros j Hj. destruct (decide (j = i)) as [->|Hji]; [left; congruence|].
    destruct (Hat j Hj Hji) as (_ & -> & _ & _ & -> & _). by apply (bc_dev _ _ _ _ _ HC).
  - intros j k Hj Hk. destruct (decide (j = i)) as [->|Hji], (decide (k = i)) as [->|Hki]; try done.
    + destruct (Hat k Hk Hki) as (_ & -> & -> & _). rewrite Bb. intros _ Hdk Hc.
      exfalso. apply (Hne k Hk Hki Hdk). congruence.
    + destruct (Hat j Hj Hji) as (_ & -> & -> & _). rewrite Bb. intros Hdj _ Hc.
      exfalso. apply (Hne j Hj Hji Hdj). congruence.
    + destruct (Hat k Hk Hki) as (_ & -> & -> & _). destruct (Hat j Hj Hji) as (_ & -> & -> & _).
      by apply (bc_uniq _ _ _ _ _ HC).
  - intros j Hj. destruct (decide (j = i)) as [->|Hji].
    + intros _. by rewrite Br, Bb, Hbn.
    + destruct (Hat j Hj Hji) as (_ & -> & -> & _ & -> & _). intros Hdj.
      rewrite (bc_ref _ _ _ _ _ HC j Hj Hdj), HHo by done. f_equal.
      pose proof (HP _ (Hne j Hj Hji Hdj)). repeat case_decide; tauto.
  - intros x Hx. destruct (decide (x = b)) as [->|Hxb].
    + exists i. split_and!; try lia; congruence.
    + apply HP in Hx; [|done]. destruct (bc_pin _ _ _ _ _ HC x Hx) as (j & Hj & ? & ? & ?).
      exists j. destruct (decide (j = i)) as [->|Hji]; [congruence|].
      destruct (Hat j Hj Hji) as (-> & -> & -> & _). split_and!; try done; lia.
  - intros j Hj. destruct (decide (j = i)) as [->|Hji].
    + intros _ _. by rewrite Bda, Bb, Hbn.
    + destruct (Hat j Hj Hji) as (-> & -> & -> & _ & _ & ->). intros Hdj Hvj.
      rewrite HV; [by apply (bc_valid _ _ _ _ _ HC)|by apply Hne].
Qed.

Lemma same_core_refl x : same_core x x.
Proof. by split_and!. Qed.

Lemma only_changes_core s s' i b' :
  only_changes s s' i b' -> forall j, 0 <= j < NBUF ->
  same_core (buf_at s' j) (if decide (j = i) then b' else buf_at s j).
Proof. intros [Hc _] j _. rewrite Hc. apply same_core_refl. Qed.

(** The fields of a held buffer. *)
Lemma held_fields s V H P D i b :
  bcore s V H P D -> H !! i = Some b ->
  0 <= i < NBUF /\ i < zlen (bufs s) /\
  buf_at s i = Buf true ROOTDEV b (sl_held (curpid s)) (1 + (if decide (b ∈ P) then 1 else 0))
                   (pv s i) (nx s i) (V b).
Proof.
  intros HC HH. destruct (bc_held _ _ _ _ _ HC i b HH) as (Hi & Hd & Hbl & Hv).
  pose proof (bc_len _ _ _ _ _ HC). split; [done|]. split; [lia|].
  pose proof (bc_sl _ _ _ _ _ HC i Hi) as Hs. pose proof (bc_ref _ _ _ _ _ HC i Hi Hd) as Hr.
  pose proof (bc_valid _ _ _ _ _ HC i Hi Hd Hv) as Hda. rewrite HH in Hs, Hr. rewrite Hbl in *.
  unfold pv, nx. destruct (buf_at s i). simpl in *. congruence.
Qed.

Definition vset (V : Z -> list Z) (b : Z) (d : list Z) : Z -> list Z :=
  fun x => if decide (x = b) then d else V x.

Lemma vset_eq V b d : vset V b d b = d.
Proof. unfold vset. by rewrite decide_True. Qed.

Lemma vset_ne V b d x : x <> b -> vset V b d x = V x.
Proof. intros. unfold vset. by rewrite decide_False. Qed.

Definition without (b : Z) (D : list Z) : list Z := filter (fun x => x <> b) D.

Lemma elem_of_without x b D : x ∈ without b D <-> x <> b /\ x ∈ D.
Proof. unfold without. by rewrite list_elem_of_filter. Qed.

(** Storing into the data of a held buffer. *)
Lemma set_bdata_spec s V H P D i b d :
  brep s V H P D -> H !! i = Some b ->
  exists s', set_bdata i d s = Ret tt s' /\ brep s' (vset V b d) H P (b :: D) /\
    disk s' = disk s /\ writes s' = writes s /\ curpid s' = curpid s.
Proof.
  intros [HC [l Hr]] HH. destruct (held_fields _ _ _ _ _ _ _ HC HH) as (Hi & Hz & Hf).
  eexists. split; [apply updb_eq|].
  pose proof (only_changes_upd s i (set_b_data d) ltac:(lia)) as Hc.
  split; [|by destruct Hc as (_ & _ & _ & -> & -> & ->)].
  split; [|exists l; eapply only_changes_ring; [exact Hc|..|exact Hr]; done].
  rewrite Hf in Hc. pose proof Hc as (Hb & ? & Hlk & Hdk & Hwr & Hpid).
  eapply (bcore_change s _ V _ H H P P _ _ i b _ HC HH (only_changes_core _ _ _ _ Hc)); try done.
  - by rewrite Hlk, (bc_lock _ _ _ _ _ HC).
  - by left.
  - by rewrite HH.
  - intros x Hx. by apply vset_ne.
  - by rewrite vset_eq.
  - intros x HxP [HxD1 HxD2]%not_elem_of_cons. rewrite vset_ne by done.
    rewrite Hdk. by apply (bc_clean _ _ _ _ _ HC).
  - intros x [->|Hx]%elem_of_cons; [by exists i|]. by apply (bc_dirty _ _ _ _ _ HC).
Qed.

Lemma holdingsleep_ok s V H P D i b :
  bcore s V H P D -> H !! i = Some b ->
  exists s1, on_lock i (holdingsleep (curpid s)) s = Ret true s1 /\ only_changes s s1 i (buf_at s i).
Proof.
  intros HC HH. destruct (held_fields _ _ _ _ _ _ _ HC HH) as (Hi & Hz & Hf).
  eexists. split.
  - apply on_lock_Ret. rewrite Hf. cbn [b_lock]. by rewrite holdingsleep_held, Z.eqb_refl.
  - pose proof (only_changes_upd s i (set_b_lock (sl_held (curpid s))) ltac:(lia)) as Hc.
    rewrite Hf in *. exact Hc.
Qed.

(** bwrite() makes the disk agree with the held buffer. *)
Lemma bwrite_spec s V H P D i b :
  brep s V H P D -> H !! i = Some b ->
  exists s', bwrite i s = Ret tt s' /\ brep s' V H P (without b D) /\
    disk s' = <[b := V b]> (disk s) /\ writes s' = writes s ++ [(b, V b)] /\ curpid s' = curpid s.
Proof.
  intros [HC [l Hr]] HH. destruct (held_fields _ _ _ _ _ _ _ HC HH) as (Hi & Hz & Hf).
  destruct (holdingsleep_ok _ _ _ _ _ _ _ HC HH) as (s1 & E & Hc).
  unfold bwrite. erewrite bind_Ret by reflexivity. erewrite bind_Ret by exact E. cbn [negb].
  eexists. split; [reflexivity|]. cbv zeta. cbn [disk writes curpid].
  pose proof (only_changes_at _ _ _ _ Hc) as Hat. rewrite Hf in Hat. rewrite Hat.
  cbn [b_blockno b_data]. pose proof Hc as (Hb & Hlen & Hlk & Hdk & Hwr & Hpid).
  rewrite Hdk, Hwr, Hpid. split; [|done]. split.
  - eapply (bcore_change s _ V V H H P P D (without b D) i b (buf_at s i) HC HH); try done.
    + intros j _. unfold buf_at at 1. cbn [bufs]. change (same_core (buf_at s1 j) (if decide (j = i) then buf_at s i else buf_at s j)).
      rewrite Hb. case_decide; apply same_core_refl.
    + cbn. by rewrite Hlk, (bc_lock _ _ _ _ _ HC).
    + by rewrite Hf.
    + by rewrite Hf.
    + by rewrite Hf.
    + left. by rewrite Hf.
    + by rewrite Hf, HH.
    + by rewrite Hf.
    + intros x HxP HxD. cbn [disk]. unfold dblk. destruct (decide (x = b)) as [->|Hxb].
      * by rewrite lookup_insert_eq.
      * rewrite lookup_insert_ne by done. apply (bc_clean _ _ _ _ _ HC); [done|].
        intros HD. apply HxD. by apply elem_of_without.
    + intros x [_ Hx]%elem_of_without. by apply (bc_dirty _ _ _ _ _ HC).
  - exists l. apply (ring_ext s1); [done..|]. eapply only_changes_ring; [exact Hc|done..|exact Hr].
Qed.

(** The reference-count updates of bpin() and bunpin(). *)
Lemma refcnt_step s V H P D i b r :
  brep s V H P D -> H !! i = Some b ->
  let s' := set_bcache_lock false (upd (set_bcache_lock true s) i (set_b_refcnt r)) in
  only_changes s s' i (set_b_refcnt r (buf_at s i)).
Proof.
  intros [HC _] HH. destruct (held_fields _ _ _ _ _ _ _ HC HH) as (Hi & Hz & Hf).
  apply only_changes_locked; [|by apply (bc_lock _ _ _ _ _ HC)].
  apply (only_changes_upd (set_bcache_lock true s) i). cbn. lia.
Qed.

Lemma refcnt_brep s s' V H P P' D D' i b :
  brep s V H P D -> H !! i = Some b ->
  only_changes s s' i (set_b_refcnt (1 + (if decide (b ∈ P') then 1 else 0)) (buf_at s i)) ->
  (forall x, x <> b -> x ∈ P' <-> x ∈ P) ->
  (forall x, x ∉ P' -> x ∉ D' -> V x = dblk (disk s) x) ->
  (forall x, x ∈ D' -> x ∈ D) ->
  brep s' V H P' D'.
Proof.
  intros [HC [l Hr]] HH Hc HP Hcl HD. pose proof Hc as (Hb & Hlen & Hlk & Hdk & Hwr & Hpid).
  destruct (held_fields _ _ _ _ _ _ _ HC HH) as (Hi & Hz & Hf).
  split; [|exists l; eapply only_changes_ring; [exact Hc|..|exact Hr]; done].
  rewrite Hf in Hc.
  eapply (bcore_change s s' V V H H P P' D D' i b _ HC HH (only_changes_core _ _ _ _ Hc)); try done.
  - by rewrite Hlk, (bc_lock _ _ _ _ _ HC).
  - by left.
  - by rewrite HH.
  - by rewrite Hdk.
  - intros x Hx%HD. by apply (bc_dirty _ _ _ _ _ HC).
Qed.

Lemma bpin_spec s V H P D i b :
  brep s V H P D -> H !! i = Some b -> b ∉ P ->
  exists s', bpin i s = Ret tt s' /\ brep s' V H (P ++ [b]) (without b D) /\
    disk s' = disk s /\ writes s' = writes s /\ curpid s' = curpid s.
Proof.
  intros HR HH HbP. pose proof HR as [HC _]. destruct (held_fields _ _ _ _ _ _ _ HC HH) as (Hi & Hz & Hf).
  unfold bpin. erewrite bind_Ret by (by eapply bacquire_free). erewrite bind_Ret by reflexivity.
  eexists. split; [reflexivity|].
  pose proof (refcnt_step s V H P D i b 2 HR HH) as Hc. cbv zeta in Hc.
  assert (Hin : b ∈ P ++ [b]) by (apply elem_of_app; right; left).
  change (nthZ buf0 (bufs (set_bcache_lock true s)) i) with (buf_at s i).
  change (buf_at (set_bcache_lock true s) i) with (buf_at s i).
  assert (Hr : u32 (b_refcnt (buf_at s i) + 1) = 2).
  { rewrite Hf. cbn [b_refcnt]. by rewrite decide_False. }
  rewrite Hr. split; [|done].
  eapply (refcnt_brep s _ V H P (P ++ [b]) D (without b D) i b HR HH).
  - rewrite decide_True by done. exact Hc.
  - intros x Hx. rewrite elem_of_app, list_elem_of_singleton. tauto.
  - intros x [HxP Hxb]%not_elem_of_app HxD. apply (bc_clean _ _ _ _ _ HC); [done|].
    intros Hd. apply HxD, elem_of_without. split; [|done]. intros ->. apply Hxb. left.
  - by intros x [_ Hx]%elem_of_without.
Qed.

Lemma bunpin_spec s V H P D i b P' :
  brep s V H P D -> H !! i = Some b -> P ≡ₚ b :: P' -> b ∉ P' -> V b = dblk (disk s) b ->
  exists s', bunpin i s = Ret tt s' /\ brep s' V H P' D /\
    disk s' = disk s /\ writes s' = writes s /\ curpid s' = curpid s.
Proof.
  intros HR HH HP HbP' Hcl. pose proof HR as [HC _]. destruct (held_fields _ _ _ _ _ _ _ HC HH) as (Hi & Hz & Hf).
  assert (HbP : b ∈ P) by (rewrite HP; left).
  unfold bunpin. erewrite bind_Ret by (by eapply bacquire_free). erewrite bind_Ret by reflexivity.
  eexists. split; [reflexivity|].
  pose proof (refcnt_step s V H P D i b 1 HR HH) as Hc. cbv zeta in Hc.
  change (buf_at (set_bcache_lock true s) i) with (buf_at s i).
  assert (Hr : u32 (b_refcnt (buf_at s i) - 1) = 1).
  { rewrite Hf. cbn [b_refcnt]. by rewrite decide_True. }
  rewrite Hr. split; [|done].
  eapply (refcnt_brep s _ V H P P' D D i b HR HH).
  - rewrite decide_False by done. exact Hc.
  - intros x Hx. rewrite HP, elem_of_cons. tauto.
  - intros x HxP HxD. destruct (decide (x = b)) as [->|Hxb]; [done|].
    apply (bc_clean _ _ _ _ _ HC); [|done]. rewrite HP, elem_of_cons. tauto.
  - done.
Qed.

(** ** brelse *)

Lemma nx_set_next s i v : 0 <= i < zlen (bufs s) ->
  forall j, nx (upd s i (set_b_next v)) j = fupd (nx s) i v j.
Proof. intros Hi j. unfold nx, fupd. rewrite buf_at_upd by done. by case_decide. Qed.
Lemma pv_set_next s i v : 0 <= i < zlen (bufs s) ->
  forall j, pv (upd s i (set_b_next v)) j = pv s j.
Proof. intros Hi j. unfold pv. rewrite buf_at_upd by done. case_decide; [by subst|done]. Qed.
Lemma pv_set_prev s i v : 0 <= i < zlen (bufs s) ->
  forall j, pv (upd s i (set_b_prev v)) j = fupd (pv s) i v j.
Proof. intros Hi j. unfold pv, fupd. rewrite buf_at_upd by done. by case_decide. Qed.
Lemma nx_set_prev s i v : 0 <= i < zlen (bufs s) ->
  forall j, nx (upd s i (set_b_prev v)) j = nx s j.
Proof. intros Hi j. unfold nx. rewrite buf_at_upd by done. case_decide; [by subst|done]. Qed.

(** States that differ only in the links. *)
Definition relinked (s s' : bio) : Prop :=
  (forall j, same_core (buf_at s' j) (buf_at s j)) /\
  zlen (bufs s') = zlen (bufs s) /\ bcache_lock s' = bcache_lock s /\
  disk s' = disk s /\ writes s' = writes s /\ curpid s' = curpid s.

Lemma same_core_trans x y z : same_core x y -> same_core y z -> same_core x z.
Proof. unfold same_core. intros. destruct_and!. split_and!; congruence. Qed.

Lemma same_core_set_prev p x : same_core (set_b_prev p x) x.
Proof. by split_and!. Qed.
Lemma same_core_set_next p x : same_core (set_b_next p x) x.
Proof. by split_and!. Qed.

Lemma relinked_upd s s1 i f :
  relinked s s1 -> 0 <= i < zlen (bufs s) -> (forall x, same_core (f x) x) -> relinked s (upd s1 i f).
Proof.
  intros (Hc & Hz & Hrest) Hi Hf. split; [|split; [by rewrite zlen_upd|done]].
  intros j. rewrite buf_at_upd by lia. case_decide; [|done]. subst.
  eapply same_core_trans; [apply Hf|apply Hc].
Qed.

Lemma move_to_front_spec s l b :
  ring s l -> b ∈ l -> zlen (bufs s) = NBUF + 1 ->
  exists s' l', move_to_front b s = Ret tt s' /\ ring s' (b :: l') /\ relinked s s'.
Proof.
  intros Hring Hb Hz. pose proof (ring_NoDup s l Hring) as Hnd.
  assert (Hhl : HEAD ∉ l) by (by apply NoDup_cons in Hnd as [? _]).
  pose proof Hring as [Hperm Hp]. apply list_elem_of_split in Hb as (l1 & l2 & ->).
  assert (Hrange : forall x, x ∈ HEAD :: l1 ++ b :: l2 -> 0 <= x < zlen (bufs s)).
  { intros x [->|Hx]%elem_of_cons; [unfold HEAD; rewrite Hz; unfold NBUF, MAXOPBLOCKS; lia|].
    apply (ring_range _ _ _ Hring) in Hx. lia. }
  pose proof (path_remove _ _ _ _ _ _ _ Hnd Hhl Hp) as Hrem.
  apply path_app in Hp as [Hp1 Hp2]. apply path_last in Hp1. apply path_first in Hp2.
  assert (HP : pv s b ∈ HEAD :: l1 ++ b :: l2 /\ pv s b <> b).
  { rewrite Hp1. apply NoDup_cons in Hnd as [Hn1 Hnd]. apply NoDup_app in Hnd as (_ & Hd & _).
    destruct (last l1) as [p|] eqn:El; simpl.
    - apply last_Some_elem_of in El. split; [right; apply elem_of_app; by left|].
      intros ->. apply (Hd b El). left.
    - split; [left|]. intros Hc. apply Hhl. rewrite Hc. apply elem_of_app. right. left. }
  assert (HN : nx s b ∈ HEAD :: l1 ++ b :: l2 /\ nx s b <> b).
  { rewrite Hp2. apply NoDup_cons in Hnd as [Hn1 Hnd]. apply NoDup_app in Hnd as (_ & _ & Hd).
    apply NoDup_cons in Hd as [Hd _]. destruct l2 as [|z l2]; simpl.
    - split; [left|]. intros Hc. apply Hhl. rewrite Hc. apply elem_of_app. right. left.
    - split; [right; apply elem_of_app; right; right; left|]. intros ->. apply Hd. left. }
  destruct HP as [HP HPb], HN as [HN HNb].
  assert (Hbr : 0 <= b < zlen (bufs s)) by (apply Hrange; right; apply elem_of_app; right; left).
  assert (Hhr : 0 <= HEAD < zlen (bufs s)) by (apply Hrange; left).
  assert (Hbh : b <> HEAD) by (intros Hc; apply Hhl; rewrite <- Hc; apply elem_of_app; right; left).
  assert (Hnd' : NoDup (HEAD :: l1 ++ l2) /\ b ∉ HEAD :: l1 ++ l2).
  { rewrite <- Permutation_middle in Hnd. apply NoDup_cons in Hnd as [? [? ?]%NoDup_cons].
    split; [apply NoDup_cons; split; [|done]; intros ?; apply H; by right|].
    intros [->|?]%elem_of_cons; [done|done]. }
  destruct Hnd' as [Hnd1 Hbn].
  unfold move_to_front. erewrite bind_Ret by reflexivity. erewrite bind_Ret by apply updb_eq.
  fold (nx s b) (pv s b). set (s1 := upd s (nx s b) (set_b_prev (pv s b))).
  assert (Hx1 : buf_at s1 b = buf_at s b).
  { unfold s1. rewrite buf_at_upd by (by apply Hrange). by rewrite decide_False. }
  erewrite bind_Ret by reflexivity. rewrite Hx1. erewrite bind_Ret by apply updb_eq.
  fold (nx s b) (pv s b). set (s2 := upd s1 (pv s b) (set_b_next (nx s b))).
  assert (Hz1 : zlen (bufs s1) = zlen (bufs s)) by apply zlen_upd.
  assert (Hz2 : zlen (bufs s2) = zlen (bufs s)) by (unfold s2; by rewrite zlen_upd).
  assert (Hring2 : path (nx s2) (pv s2) HEAD (l1 ++ l2) HEAD).
  { eapply path_ext; [..|exact Hrem]; intros w _; unfold s2.
    - rewrite nx_set_next by (rewrite Hz1; by apply Hrange). unfold fupd. case_decide; [done|].
      unfold s1. by rewrite nx_set_prev by (by apply Hrange).
    - rewrite pv_set_next by (rewrite Hz1; by apply Hrange). unfold s1.
      by rewrite pv_set_prev by (by apply Hrange). }
  assert (Hn2 : nx s2 HEAD ∈ HEAD :: l1 ++ l2).
  { rewrite (path_first _ _ _ _ _ Hring2). destruct (l1 ++ l2); simpl; [left|right; left]. }
  assert (Hn2r : 0 <= nx s2 HEAD < zlen (bufs s)).
  { apply Hrange. apply elem_of_cons in Hn2 as [->|Hn2]; [left|right].
    apply elem_of_app in Hn2 as [?|?]; apply elem_of_app; [by left|right; by right]. }
  erewrite bind_Ret by reflexivity. fold (nx s2 HEAD). do 2 erewrite bind_Ret by apply updb_eq.
  set (s3 := upd s2 b (set_b_next (nx s2 HEAD))). set (s4 := upd s3 b (set_b_prev HEAD)).
  assert (Hz3 : zlen (bufs s3) = zlen (bufs s)) by (unfold s3; by rewrite zlen_upd).
  assert (Hz4 : zlen (bufs s4) = zlen (bufs s)) by (unfold s4; by rewrite zlen_upd).
  assert (Hn4 : nx s4 HEAD = nx s2 HEAD).
  { unfold s4. rewrite nx_set_prev by lia. unfold s3. rewrite nx_set_next by lia.
    unfold fupd. by rewrite decide_False. }
  erewrite bind_Ret by reflexivity. fold (nx s4 HEAD). rewrite Hn4. erewrite bind_Ret by apply updb_eq.
  set (s5 := upd s4 (nx s2 HEAD) (set_b_prev b)).
  assert (Hz5 : zlen (bufs s5) = zlen (bufs s)) by (unfold s5; by rewrite zlen_upd).
  eexists _, (l1 ++ l2). split; [apply updb_eq|]. split.
  - split; [by rewrite <- Hperm, Permutation_middle|].
    eapply path_ext; [..|apply (path_insert (nx s2) (pv s2) HEAD (l1 ++ l2) b HEAD)]; try done.
    + intros w _. rewrite nx_set_next by lia. unfold fupd. case_decide; [done|].
      unfold s5. rewrite nx_set_prev by lia. unfold s4. rewrite nx_set_prev by lia.
      unfold s3. by rewrite nx_set_next by lia.
    + intros w _. rewrite pv_set_next by lia. unfold s5. rewrite pv_set_prev by lia.
      unfold fupd. case_decide; [done|]. unfold s4. rewrite pv_set_prev by lia. unfold fupd.
      case_decide; [done|]. unfold s3. by rewrite pv_set_next by lia.
    + intros Hc. apply Hhl. apply elem_of_app in Hc as [?|?]; apply elem_of_app; [by left|right; by right].
  - repeat (apply relinked_upd; [|auto|eauto using same_core_set_prev, same_core_set_next]); try lia. by split_and!.
Qed.

Lemma bcore_release s s' V H P D i b b' :
  bcore s V H P D -> H !! i = Some b -> b ∉ D ->
  (forall j, 0 <= j < NBUF -> same_core (buf_at s' j) (if decide (j = i) then b' else buf_at s j)) ->
  b' = set_b_refcnt (if decide (b ∈ P) then 1 else 0) (set_b_lock sl_free (buf_at s i)) ->
  zlen (bufs s') = zlen (bufs s) -> bcache_lock s' = false -> curpid s' = curpid s ->
  disk s' = disk s -> bcore s' V (delete i H) P D.
Proof.
  intros HC HH HbD Hb Hb' Hz Hlk Hpid Hdk.
  destruct (held_fields _ _ _ _ _ _ _ HC HH) as (Hi & _ & Hf). rewrite Hf in Hb'.
  eapply (bcore_change s s' V V H (delete i H) P P D D i b b' HC HH); try done; rewrite ?Hb'; try done.
  - intros j Hj. by rewrite lookup_delete_ne.
  - right. by rewrite lookup_delete_eq.
  - by rewrite lookup_delete_eq.
  - intros x HxP HxD. rewrite Hdk. by apply (bc_clean _ _ _ _ _ HC).
  - intros x Hx. destruct (bc_dirty _ _ _ _ _ HC x Hx) as [j Hj]. exists j.
    rewrite lookup_delete_ne; [done|]. intros ->. congruence.
Qed.

(** brelse() gives the buffer up; the contents of no block change. *)
Lemma brelse_spec s V H P D i b :
  brep s V H P D -> H !! i = Some b -> b ∉ D ->
  exists s', brelse i s = Ret tt s' /\ brep s' V (delete i H) P D /\
    disk s' = disk s /\ writes s' = writes s /\ curpid s' = curpid s.
Proof.
  intros [HC [l Hr]] HH HbD. destruct (held_fields _ _ _ _ _ _ _ HC HH) as (Hi & Hz & Hf).
  pose proof (bc_lock _ _ _ _ _ HC) as Hlk0. pose proof (bc_len _ _ _ _ _ HC) as Hlen.
  destruct (holdingsleep_ok _ _ _ _ _ _ _ HC HH) as (s1 & E & Hc).
  unfold brelse. erewrite bind_Ret by reflexivity. erewrite bind_Ret by exact E. cbn [negb].
  apply (only_changes_set _ _ _ _ (set_b_lock sl_free)) in Hc as Hc1; [|lia].
  erewrite bind_Ret.
  2: { apply on_lock_Ret. rewrite (only_changes_at _ _ _ _ Hc), Hf. apply releasesleep_held. }
  set (s2 := upd s1 i (set_b_lock sl_free)) in *.
  assert (Hacq : bacquire s2 = Ret tt (set_bcache_lock true s2)).
  { unfold bacquire, lk_acquire. destruct Hc1 as (_ & _ & -> & _). by rewrite Hlk0. }
  erewrite bind_Ret by exact Hacq. erewrite bind_Ret by apply updb_eq.
  set (r := if decide (b ∈ P) then 1 else 0).
  set (s3 := upd (set_bcache_lock true s2) i _).
  assert (Hc3 : only_changes s (set_bcache_lock false s3) i
                  (set_b_refcnt r (set_b_lock sl_free (buf_at s i)))).
  { replace (set_b_refcnt r (set_b_lock sl_free (buf_at s i))) with
      ((fun x => set_b_refcnt (u32 (b_refcnt x - 1)) x) (set_b_lock sl_free (buf_at s i))).
    - pose proof (only_changes_set _ _ _ _ (fun x => set_b_refcnt (u32 (b_refcnt x - 1)) x) Hc1 ltac:(lia)) as Hx.
      destruct Hx as (Ha & Hb & Hx). split; [exact Ha|]. split; [exact Hb|]. destruct_and!. by split_and!.
    - rewrite Hf. unfold r. cbn. by case_decide. }
  erewrite bind_Ret by reflexivity.
  assert (Hr3 : b_refcnt (buf_at s3 i) = r).
  { change (buf_at s3 i) with (buf_at (set_bcache_lock false s3) i). by rewrite (only_changes_at _ _ _ _ Hc3). }
  assert (Hring3 : ring s3 l).
  { apply (ring_ext (set_bcache_lock false s3)); [done..|]. by eapply only_changes_ring. }
  pose proof Hc3 as (Hb3 & Hz3 & _ & Hdk3 & Hwr3 & Hpid3). rewrite Hr3. unfold r.
  case_decide as HbP.
  - cbn [Z.eqb]. erewrite bind_Ret by reflexivity. exists (set_bcache_lock false s3).
    split; [done|]. split; [|done]. split; [|by exists l].
    apply (bcore_release s _ V H P D i b _ HC HH HbD (only_changes_core _ _ _ _ Hc3)); try done.
    by rewrite decide_True.
  - cbn [Z.eqb]. destruct (move_to_front_spec s3 l i Hring3) as (s4 & l' & E4 & Hring4 & Hb4 & Hz4 & Hlk4 & Hdk4 & Hwr4 & Hpid4).
    { by apply (ring_range _ _ _ Hr). }
    { change (zlen (bufs (set_bcache_lock false s3)) = NBUF + 1). congruence. }
    erewrite bind_Ret by exact E4. exists (set_bcache_lock false s4).
    split; [unfold brelease, lk_release; by rewrite Hlk4|].
    split; [|cbn in *; split_and!; congruence]. split.
    + apply (bcore_release s _ V H P D i b (set_b_refcnt r (set_b_lock sl_free (buf_at s i))) HC HH HbD);
        cbn in *; try congruence.
      * intros j Hj. eapply same_core_trans; [apply Hb4|]. apply (only_changes_core _ _ _ _ Hc3 j Hj).
      * by rewrite decide_False.
    + exists (i :: l'). apply (ring_ext s4); done.
Qed.

(** ** binit *)

(** The static bcache before binit(), with the disk as the machine finds it. *)
Definition boot (d : gmap Z (list Z)) (pid : Z) : bio :=
  Bio (repeat buf0 (Z.to_nat (NBUF + 1))) false d [] pid.

Lemma buf_at_boot d pid i : buf_at (boot d pid) i = buf0.
Proof.
  unfold buf_at, nthZ, boot. cbn [bufs]. destruct (i <? 0); [done|]. apply nth_repeat.
Qed.

Lemma relinked_trans s s1 s2 : relinked s s1 -> relinked s1 s2 -> relinked s s2.
Proof.
  intros (Hc & H1) (Hc' & H2). destruct_and!. split; [|split_and!; congruence].
  intros j. eapply same_core_trans; [apply Hc'|apply Hc].
Qed.

Lemma binit_loop_spec n k s :
  k + Z.of_nat n = NBUF -> 0 <= k -> zlen (bufs s) = NBUF + 1 ->
  (forall j, b_lock (buf_at s j) = sl_free) ->
  path (nx s) (pv s) HEAD (reverse (seqZ 0 k)) HEAD ->
  exists s', binit_loop n k s = Ret tt s' /\ relinked s s' /\
    path (nx s') (pv s') HEAD (reverse (seqZ 0 NBUF)) HEAD.
Proof.
  revert k s. induction n as [|n IH]; intros k s Hk Hk0 Hz Hlk Hp.
  { exists s. replace NBUF with k by lia. split; [done|]. split; [|done]. by split_and!. }
  cbn [binit_loop]. erewrite bind_Ret by reflexivity. fold (nx s HEAD).
  assert (Hseq : forall x, x ∈ HEAD :: reverse (seqZ 0 k) -> 0 <= x < zlen (bufs s) /\ x <> k).
  { intros x [->|Hx%elem_of_reverse%elem_of_seqZ]%elem_of_cons; [|lia]. unfold HEAD. unfold NBUF, MAXOPBLOCKS in *. lia. }
  assert (Hf : nx s HEAD ∈ HEAD :: reverse (seqZ 0 k)).
  { rewrite (path_first _ _ _ _ _ Hp). destruct (reverse (seqZ 0 k)); simpl; [left|right; left]. }
  apply Hseq in Hf as [Hfr Hfk]. destruct (Hseq HEAD ltac:(left)) as [Hhr Hhk].
  do 2 erewrite bind_Ret by apply updb_eq. set (s1 := upd (upd s k _) k _).
  assert (Hz1 : zlen (bufs s1) = zlen (bufs s)) by (unfold s1; by rewrite !zlen_upd).
  assert (Hs1 : buf_at s1 k = set_b_prev HEAD (set_b_next (nx s HEAD) (buf_at s k))).
  { unfold s1. rewrite !buf_at_upd, !decide_True by (rewrite ?zlen_upd; lia). done. }
  erewrite bind_Ret by (by apply on_lock_Ret).
  do 2 erewrite bind_Ret by apply updb_eq. fold sl_free.
  set (s2 := upd s1 k (set_b_lock sl_free)). set (s3 := upd s2 (nx s HEAD) (set_b_prev k)).
  set (s4 := upd s3 HEAD (set_b_next k)).
  assert (Hz2 : zlen (bufs s2) = zlen (bufs s)) by (unfold s2; by rewrite zlen_upd).
  assert (Hz3 : zlen (bufs s3) = zlen (bufs s)) by (unfold s3; by rewrite zlen_upd).
  assert (Hrel : relinked s s4).
  { apply relinked_upd; [|lia|eauto using same_core_set_prev, same_core_set_next]. apply relinked_upd; [|lia|eauto using same_core_set_prev, same_core_set_next].
    assert (Hr1 : relinked s s1) by (repeat (apply relinked_upd; [|lia|eauto using same_core_set_prev, same_core_set_next]); by split_and!).
    eapply relinked_trans; [exact Hr1|]. split; [|split; [unfold s2; by rewrite zlen_upd|done]].
    intros j. unfold s2. rewrite buf_at_upd by lia. case_decide; [|apply same_core_refl]. subst.
    rewrite Hs1. unfold same_core. cbn. rewrite (Hlk k). by split_and!. }
  destruct (IH (k + 1) s4) as (s' & E & Hr' & Hp'); try lia.
  - unfold s4. rewrite zlen_upd. lia.
  - intros j. destruct Hrel as (Hc & _). destruct (Hc j) as (_ & _ & _ & -> & _). apply Hlk.
  - rewrite seqZ_app, Z.add_0_l by lia. change (seqZ k 1) with [0 + k]. rewrite Z.add_0_l, reverse_snoc.
    eapply path_ext; [..|apply (path_insert (nx s) (pv s) HEAD (reverse (seqZ 0 k)) k HEAD)]; try done.
    + intros w _. unfold s4. rewrite nx_set_next by lia. unfold fupd. case_decide; [done|].
      unfold s3. rewrite nx_set_prev by lia. unfold s2, nx. rewrite buf_at_upd by lia.
      case_decide; [subst w; by rewrite Hs1|].
      unfold s1. by rewrite !buf_at_upd, !decide_False by (rewrite ?zlen_upd; lia).
    + intros w _. unfold s4. rewrite pv_set_next by lia. unfold s3. rewrite pv_set_prev by lia.
      unfold fupd. case_decide; [done|]. unfold s2, pv. rewrite buf_at_upd by lia.
      case_decide; [subst w; by rewrite Hs1|].
      unfold s1. by rewrite !buf_at_upd, !decide_False by (rewrite ?zlen_upd; lia).
    + apply NoDup_cons. split; [|eapply NoDup_perm; [symmetry; apply reverse_Permutation|apply NoDup_seqZ]].
      intros Hc%elem_of_reverse%elem_of_seqZ. unfold HEAD in Hc. lia.
    + intros Hc%elem_of_reverse%elem_of_seqZ. unfold HEAD in Hc. lia.
    + intros Hc%Hseq. lia.
  - exists s'. split; [exact E|]. split; [by eapply relinked_trans|done].
Qed.

(** binit() leaves a list of all the buffers and an empty cache: every block
    reads as the disk has it. *)
Lemma binit_spec d pid :
  exists s, binit (boot d pid) = Ret tt s /\ brep s (dblk d) ∅ [] [] /\
    disk s = d /\ writes s = [] /\ curpid s = pid.
Proof.
  unfold binit. erewrite bind_Ret by reflexivity. do 2 erewrite bind_Ret by apply updb_eq.
  change (set_bcache_lock false (boot d pid)) with (boot d pid).
  set (s1 := upd (upd (boot d pid) HEAD _) HEAD _).
  assert (Hb : forall j, same_core (buf_at s1 j) buf0).
  { intros j. rewrite <- (buf_at_boot d pid j). revert j.
    enough (relinked (boot d pid) s1) as [Hc _] by exact Hc.
    repeat (apply relinked_upd; [|done|eauto using same_core_set_prev, same_core_set_next]).
    split; [|done]. intros j. apply same_core_refl. }
  destruct (binit_loop_spec (Z.to_nat NBUF) 0 s1) as (s & E & (Hc & Hz & Hlk & Hdk & Hwr & Hpid) & Hp).
  { reflexivity. }
  { lia. }
  { unfold s1. by rewrite !zlen_upd. }
  { intros j. destruct (Hb j) as (_ & _ & _ & -> & _). reflexivity. }
  { change (seqZ 0 0) with (@nil Z). change (reverse (@nil Z)) with (@nil Z). cbn [path]. unfold s1.
    split; [rewrite nx_set_next by (by rewrite zlen_upd)|
            rewrite pv_set_next, pv_set_prev by (by rewrite ?zlen_upd)];
      unfold fupd; by rewrite decide_True. }
  assert (Hall : forall j, same_core (buf_at s j) buf0).
  { intros j. eapply same_core_trans; [apply Hc|apply Hb]. }
  assert (Hz1 : zlen (bufs s1) = NBUF + 1) by (unfold s1; by rewrite !zlen_upd).
  change (disk s1) with d in Hdk. change (writes s1) with (@nil (Z * list Z)) in Hwr.
  change (curpid s1) with pid in Hpid. change (bcache_lock s1) with false in Hlk.
  exists s. split; [exact E|]. clear E Hb. clearbody s1.
  split; [|split; [exact Hdk|split; [exact Hwr|exact Hpid]]]. split.
  - assert (Hdev : forall i, b_dev (buf_at s i) <> ROOTDEV).
    { intros i. by destruct (Hall i) as (_ & -> & _). }
    split.
    + congruence.
    + exact Hlk.
    + intros i _. rewrite lookup_empty. by destruct (Hall i) as (_ & _ & _ & -> & _).
    + intros i b. by rewrite lookup_empty.
    + intros i _. right. by destruct (Hall i) as (_ & -> & _ & _ & -> & _).
    + intros i j _ _ Hd. by apply Hdev in Hd.
    + intros i _ Hd. by apply Hdev in Hd.
    + by intros b ?%elem_of_nil.
    + intros i _ Hd. by apply Hdev in Hd.
    + intros b _ _. by rewrite Hdk.
    + by intros b ?%elem_of_nil.
  - exists (reverse (seqZ 0 NBUF)). split; [apply reverse_Permutation|exact Hp].
Qed.

(** ** Refinement

    The abstract cache: a block store [a_view] read and written through held
    handles, over a disk [a_disk].  A read may pick any free handle.  A block
    whose contents are newer than the disk's is in [a_dirty] until it is
    written or pinned; a pinned block may stay newer until it is unpinned. *)

Record acache := ACache {
  a_view : Z -> list Z;
  a_disk : Z -> list Z;
  a_held : gmap Z Z;
  a_pinned : list Z;
  a_dirty : list Z
}.

Inductive cop := CRead (bno : Z) | CStore (i : Z) (d : list Z) | CWrite (i : Z) | CRelease (i : Z) | CPin (i : Z) | CUnpin (i : Z).

Inductive astep : acache -> cop -> list Z -> acache -> Prop :=
| astep_read V K H P D bno i :
    H !! i = None -> astep (ACache V K H P D) (CRead bno) (V bno) (ACache V K (<[i := bno]> H) P D)
| astep_store V K H P D i b d :
    H !! i = Some b ->
    astep (ACache V K H P D) (CStore i d) d (ACache (vset V b d) K H P (if decide (b ∈ P) then D else b :: D))
| astep_write V K H P D i b :
    H !! i = Some b -> astep (ACache V K H P D) (CWrite i) (V b) (ACache V (vset K b (V b)) H P (without b D))
| astep_release V K H P D i b :
    H !! i = Some b -> astep (ACache V K H P D) (CRelease i) (V b) (ACache V K (delete i H) P D)
| astep_pin V K H P D i b :
    H !! i = Some b -> astep (ACache V K H P D) (CPin i) (V b) (ACache V K H (P ++ [b]) (without b D))
| astep_unpin V K H P P' D i b :
    H !! i = Some b -> P ≡ₚ b :: P' -> astep (ACache V K H P D) (CUnpin i) (V b) (ACache V K H P' D).

(** The calls the cache's rules allow: no block is read twice by its holder,
    held and pinned blocks leave a buffer for a new one, a modified block is
    written or pinned before it is released, none is pinned twice, and one is
    unpinned when the disk has its contents. *)
Definition allowed (a : acache) (o : cop) : Prop :=
  match o with
  | CRead bno => (forall i, a_held a !! i <> Some bno) /\
      (bno ∈ a_pinned a \/ (size (a_held a) + length (a_pinned a) < Z.to_nat NBUF)%nat)
  | CStore i _ | CWrite i => exists b, a_held a !! i = Some b
  | CRelease i => exists b, a_held a !! i = Some b /\ b ∉ a_dirty a
  | CPin i => exists b, a_held a !! i = Some b /\ b ∉ a_pinned a
  | CUnpin i => exists b, a_held a !! i = Some b /\ b ∈ a_pinned a /\ a_view a b = a_disk a b
  end.

(** The call, with the data its caller sees. *)
Definition cexec (o : cop) : M bio (list Z) :=
  match o with
  | CRead bno => let* i := bread ROOTDEV bno in bdata i
  | CStore i d => set_bdata i d ;; bdata i
  | CWrite i => bwrite i ;; bdata i
  | CRelease i => let* d := bdata i in brelse i ;; ret d
  | CPin i => bpin i ;; bdata i
  | CUnpin i => bunpin i ;; bdata i
  end.

Definition crel (s : bio) (a : acache) : Prop :=
  brep s (a_view a) (a_held a) (a_pinned a) (a_dirty a) /\ NoDup (a_pinned a) /\
  forall b, dblk (disk s) b = a_disk a b.

(** What related states promise of the buffers: one buffer at most per block,
    and one that holds the contents of each pinned block. *)
Definition sound_cache (s : bio) (a : acache) : Prop :=
  (forall i j, 0 <= i < NBUF -> 0 <= j < NBUF -> b_dev (buf_at s i) = ROOTDEV -> b_dev (buf_at s j) = ROOTDEV ->
     b_blockno (buf_at s i) = b_blockno (buf_at s j) -> i = j) /\
  (forall b, b ∈ a_pinned a -> exists i, 0 <= i < NBUF /\ b_dev (buf_at s i) = ROOTDEV /\ b_blockno (buf_at s i) = b /\
     b_valid (buf_at s i) = true /\ b_data (buf_at s i) = a_view a b /\ 0 < b_refcnt (buf_at s i)).

Lemma crel_sound s a : crel s a -> sound_cache s a.
Proof.
  intros ([HC _] & _). split; [apply (bc_uniq _ _ _ _ _ HC)|]. intros b Hb.
  destruct (bc_pin _ _ _ _ _ HC b Hb) as (i & Hi & Hd & Hn & Hv). exists i. split_and!; try done; try lia.
  - rewrite <- Hn. by apply (bc_valid _ _ _ _ _ HC).
  - rewrite (bc_ref _ _ _ _ _ HC i Hi Hd), Hn, decide_True by done. destruct (a_held a !! i); lia.
Qed.

Lemma bdata_held s V H P D i b :
  brep s V H P D -> H !! i = Some b -> bdata i s = Ret (V b) s.
Proof.
  intros [HC _] HH. destruct (held_fields _ _ _ _ _ _ _ HC HH) as (_ & _ & Hf).
  unfold bdata, getb, gets. by rewrite Hf.
Qed.

(** A pinned block need not be marked dirty. *)
Lemma brep_pinned s V H P D b : b ∈ P -> brep s V H P (b :: D) -> brep s V H P D.
Proof.
  intros Hb [HC Hr]. split; [|done]. destruct HC. split; try done.
  - intros x HxP HxD. apply bc_clean0; [done|]. intros [->|Hx]%elem_of_cons; done.
  - intros x Hx. apply bc_dirty0. by right.
Qed.

Lemma dblk_insert d b x c : dblk (<[b := x]> d) c = if decide (c = b) then x else dblk d c.
Proof.
  unfold dblk. case_decide.
  - subst. by rewrite lookup_insert_eq.
  - by rewrite lookup_insert_ne.
Qed.

(** C6: the buffer cache implements the abstract block store.  From related
    states every allowed call returns, with the data the block store gives
    and in a related state: whatever is evicted, reused or moved in the LRU
    list, a reader sees the last contents stored in the block, bwrite() is
    what changes the disk, and a pinned block stays in its buffer, with
    contents the disk may not have yet, until it is unpinned; no block is
    ever in two buffers. *)
Theorem bcache_refines (s : bio) (a : acache) (o : cop) :
  crel s a -> allowed a o ->
  exists d s' a', cexec o s = Ret d s' /\ astep a o d a' /\ crel s' a' /\ sound_cache s' a'.
Proof.
  intros Hr Ho. enough (exists d s' a', cexec o s = Ret d s' /\ astep a o d a' /\ crel s' a') as (d & s' & a' & ? & ? & ?).
  { exists d, s', a'. split_and!; try done. by apply crel_sound. }
  destruct a as [V K H P D], Hr as (HB & Hnd & HK). cbn [a_view a_disk a_held a_pinned a_dirty] in *.
  destruct o as [bno|i d|i|i|i|i]; cbn [allowed cexec a_held a_pinned a_dirty a_view a_disk] in *.
  - destruct Ho as [Hnh Hsz]. destruct (bread_spec s V H P D bno HB Hnh Hsz) as (i & s' & E & Hi & HN & HB' & Hd & _).
    exists (V bno), s', (ACache V K (<[i := bno]> H) P D). split; [|split; [by constructor|by rewrite <- Hd in HK]].
    erewrite bind_Ret by exact E. eapply bdata_held; [exact HB'|apply lookup_insert_eq].
  - destruct Ho as [b Hb]. destruct (set_bdata_spec s V H P D i b d HB Hb) as (s' & E & HB' & Hd & _).
    eexists d, s', _. split; [|split; [by constructor|]].
    + erewrite bind_Ret by exact E. rewrite (bdata_held _ _ _ _ _ _ _ HB' Hb). by rewrite vset_eq.
    + rewrite <- Hd in HK. split; [|done]. cbn. case_decide; [by eapply brep_pinned|done].
  - destruct Ho as [b Hb]. destruct (bwrite_spec s V H P D i b HB Hb) as (s' & E & HB' & Hd & _).
    exists (V b), s', (ACache V (vset K b (V b)) H P (without b D)). split; [|split; [by constructor|]].
    + erewrite bind_Ret by exact E. by eapply bdata_held.
    + split_and!; try done. intros x. cbn. rewrite Hd, dblk_insert. unfold vset. by case_decide; [|rewrite HK].
  - destruct Ho as (b & Hb & HbD). destruct (brelse_spec s V H P D i b HB Hb HbD) as (s' & E & HB' & Hd & _).
    exists (V b), s', (ACache V K (delete i H) P D). split; [|split; [by constructor|by rewrite <- Hd in HK]].
    erewrite bind_Ret by (by eapply bdata_held). by erewrite bind_Ret by exact E.
  - destruct Ho as (b & Hb & HbP). destruct (bpin_spec s V H P D i b HB Hb HbP) as (s' & E & HB' & Hd & _).
    exists (V b), s', (ACache V K H (P ++ [b]) (without b D)). split; [|split; [by constructor|]].
    + erewrite bind_Ret by exact E. by eapply bdata_held.
    + rewrite <- Hd in HK. split_and!; try done. apply NoDup_app. split; [done|]. split; [|apply NoDup_singleton].
      intros x Hx ->%list_elem_of_singleton. done.
  - destruct Ho as (b & Hb & HbP & Hclean). apply list_elem_of_split in HbP as (P1 & P2 & ->).
    assert (HP : P1 ++ b :: P2 ≡ₚ b :: (P1 ++ P2)) by (by rewrite Permutation_middle).
    assert (Hnd' : NoDup (b :: P1 ++ P2)) by (by rewrite <- HP). apply NoDup_cons in Hnd' as [Hn Hnd'].
    destruct (bunpin_spec s V H (P1 ++ b :: P2) D i b (P1 ++ P2) HB Hb HP Hn) as (s' & E & HB' & Hd & _); [by rewrite HK|].
    exists (V b), s', (ACache V K H (P1 ++ P2) D). split; [|split; [by econstructor|by rewrite <- Hd in HK]].
    erewrite bind_Ret by exact E. by eapply bdata_held.
Qed.

Lemma bcache_refines_witness :
  exists s, crel s (ACache (dblk ∅) (dblk ∅) ∅ [] []) /\
    exists d s' a', cexec (CRead 7) s = Ret d s' /\ astep (ACache (dblk ∅) (dblk ∅) ∅ [] []) (CRead 7) d a' /\
      crel s' a' /\ sound_cache s' a'.
Proof.
  destruct (binit_spec ∅ 1) as (s & _ & HB & Hd & _). exists s.
  assert (Hr : crel s (ACache (dblk ∅) (dblk ∅) ∅ [] [])).
  { split; [exact HB|]. split; [constructor|]. intros b. by rewrite Hd. }
  split; [exact Hr|]. apply (bcache_refines s (ACache (dblk ∅) (dblk ∅) ∅ [] []) (CRead 7) Hr).
  cbn [allowed a_held a_pinned]. split; [intros i; by rewrite lookup_empty|]. right. rewrite map_size_empty. cbn [length].
  unfold NBUF, MAXOPBLOCKS. lia.
Defined.

Lemma bpin_returns b s : bcache_lock s = false -> exists s', bpin b s = Ret tt s'.
Proof. intros H. unfold bpin, bacquire, lk_acquire, bind. rewrite H. by eexists. Qed.

#[global] Opaque bread bwrite brelse bpin bunpin set_bdata binit zero_block.
