(* ===== verification/Log.v ===== *)
(** * The write-ahead log (kernel/log.c)

    The log's in-memory state beside the buffer cache it writes through.
    Integers of struct log are C ints; block numbers cross between int and
    uint as in the source. *)

From Stdlib Require Import ZArith Lia.
From stdpp Require Import base numbers list list_numbers gmap strings sorting.
From S2P Require Import Prelude Cstring Bytes Sleeplock Bio.

Definition LOGSIZE : Z := MAXOPBLOCKS * 3.

Record superblock := Superblock {
  sb_magic : Z;
  sb_size : Z;
  sb_nblocks : Z;
  sb_ninodes : Z;
  sb_nlog : Z;
  sb_logstart : Z;
  sb_inodestart : Z;
  sb_bmapstart : Z
}.

(** struct log, with its struct logheader as [lh_n] and [lh_block]. *)
Record log := Log {
  l_lock : bool;
  l_start : Z;
  l_size : Z;
  l_outstanding : Z;
  l_committing : bool;
  l_dev : Z;
  lh_n : Z;
  lh_block : list Z
}.

(** sizeof(struct logheader): n and LOGSIZE ints. *)
Definition sizeof_logheader : Z := 4 + 4 * LOGSIZE.

(** The static log before initlog(). *)
Definition log0 : log := Log false 0 0 0 false 0 0 (repeat 0 (Z.to_nat LOGSIZE)).

Record lst := Lst { lbio : bio; lg : log }.

Definition set_lbio (b : bio) (s : lst) : lst := Lst b (lg s).
Definition upd_log (f : log -> log) (s : lst) : lst := Lst (lbio s) (f (lg s)).
Definition on_bio {A} (m : M bio A) : M lst A := zoom lbio set_lbio m.
Definition getl {A} (f : log -> A) : M lst A := gets (fun s => f (lg s)).
Definition updl (f : log -> log) : M lst unit := modify (upd_log f).

Definition set_l_lock v (l : log) : log :=
  Log v (l_start l) (l_size l) (l_outstanding l) (l_committing l) (l_dev l) (lh_n l) (lh_block l).
Definition set_l_geom start size dev (l : log) : log :=
  Log (l_lock l) start size (l_outstanding l) (l_committing l) dev (lh_n l) (lh_block l).
Definition set_l_outstanding v (l : log) : log :=
  Log (l_lock l) (l_start l) (l_size l) v (l_committing l) (l_dev l) (lh_n l) (lh_block l).
Definition set_l_committing v (l : log) : log :=
  Log (l_lock l) (l_start l) (l_size l) (l_outstanding l) v (l_dev l) (lh_n l) (lh_block l).
Definition set_lh_n v (l : log) : log :=
  Log (l_lock l) (l_start l) (l_size l) (l_outstanding l) (l_committing l) (l_dev l) v (lh_block l).
Definition set_lh_block i v (l : log) : log :=
  Log (l_lock l) (l_start l) (l_size l) (l_outstanding l) (l_committing l) (l_dev l) (lh_n l)
      (updZ i v (lh_block l)).

Definition lacquire : M lst unit := lk_acquire (fun s => l_lock (lg s)) (fun b => upd_log (set_l_lock b)).
Definition lrelease : M lst unit := lk_release (fun s => l_lock (lg s)) (fun b => upd_log (set_l_lock b)).

(** Wait channel of the log. *)
Definition LOGCHAN : Z := -1.

(** Copy committed blocks from log to their home location. *)
Fixpoint install_trans_loop (fuel : nat) (tail : Z) (recovering : bool) : M lst unit :=
  let* n := getl lh_n in
  if tail <? n then
    match fuel with
    | O => panic "install_trans: fuel"
    | S k =>
        let* l := getl (fun l => l) in
        let* lbuf := on_bio (bread (l_dev l) (u32 (l_start l + tail + 1))) in
        let* dbuf := on_bio (bread (l_dev l) (u32 (nthZ 0 (lh_block l) tail))) in
        let* d := on_bio (bdata lbuf) in
        on_bio (set_bdata dbuf d) ;;
        on_bio (bwrite dbuf) ;;
        (if negb recovering then on_bio (bunpin dbuf) else ret tt) ;;
        on_bio (brelse lbuf) ;;
        on_bio (brelse dbuf) ;;
        install_trans_loop k (tail + 1) recovering
    end
  else ret tt.

Definition install_trans (recovering : bool) : M lst unit :=
  let* n := getl lh_n in
  install_trans_loop (Z.to_nat n) 0 recovering.

(** The header's n and block[i], as struct logheader lays them out. *)
Definition hdr_n (d : list Z) : Z := s32 (get32 d 0).
Definition hdr_block (d : list Z) (i : Z) : Z := s32 (get32 d (4 + 4 * i)).

Fixpoint read_head_loop (fuel : nat) (i : Z) (d : list Z) : M lst unit :=
  let* n := getl lh_n in
  if i <? n then
    match fuel with
    | O => panic "read_head: fuel"
    | S k => updl (set_lh_block i (hdr_block d i)) ;; read_head_loop k (i + 1) d
    end
  else ret tt.

(** Read the log header from disk into the in-memory log header. *)
Definition read_head : M lst unit :=
  let* l := getl (fun l => l) in
  let* buf := on_bio (bread (l_dev l) (u32 (l_start l))) in
  let* d := on_bio (bdata buf) in
  updl (set_lh_n (hdr_n d)) ;;
  read_head_loop (Z.to_nat (hdr_n d)) 0 d ;;
  on_bio (brelse buf).

Fixpoint write_head_loop (fuel : nat) (i : Z) (buf : Z) : M lst unit :=
  let* l := getl (fun l => l) in
  if i <? lh_n l then
    match fuel with
    | O => panic "write_head: fuel"
    | S k =>
        let* d := on_bio (bdata buf) in
        on_bio (set_bdata buf (put32 d (4 + 4 * i) (nthZ 0 (lh_block l) i))) ;;
        write_head_loop k (i + 1) buf
    end
  else ret tt.

(** Write in-memory log header to disk: the commit point. *)
Definition write_head : M lst unit :=
  let* l := getl (fun l => l) in
  let* buf := on_bio (bread (l_dev l) (u32 (l_start l))) in
  let* d := on_bio (bdata buf) in
  on_bio (set_bdata buf (put32 d 0 (lh_n l))) ;;
  write_head_loop (Z.to_nat (lh_n l)) 0 buf ;;
  on_bio (bwrite buf) ;;
  on_bio (brelse buf).

Definition recover_from_log : M lst unit :=
  read_head ;;
  install_trans true ;;
  updl (set_lh_n 0) ;;
  write_head.

Definition initlog (dev : Z) (sb : superblock) : M lst unit :=
  if BSIZE <=? sizeof_logheader then panic "initlog: too big logheader"
  else
    updl (set_l_lock false) ;;
    updl (set_l_geom (s32 (sb_logstart sb)) (s32 (sb_nlog sb)) dev) ;;
    recover_from_log.

(** The waits are sleep(&log, &log.lock), which gives up log.lock. *)
Definition begin_op : M lst unit :=
  lacquire ;;
  let* l := getl (fun l => l) in
  if l_committing l then lrelease ;; sleep_on LOGCHAN
  else if LOGSIZE <? lh_n l + (l_outstanding l + 1) * MAXOPBLOCKS
  then lrelease ;; sleep_on LOGCHAN
  else
    updl (fun l => set_l_outstanding (l_outstanding l + 1) l) ;;
    lrelease.

(** Copy modified blocks from cache to log. *)
Fixpoint write_log_loop (fuel : nat) (tail : Z) : M lst unit :=
  let* n := getl lh_n in
  if tail <? n then
    match fuel with
    | O => panic "write_log: fuel"
    | S k =>
        let* l := getl (fun l => l) in
        let* to := on_bio (bread (l_dev l) (u32 (l_start l + tail + 1))) in
        let* from := on_bio (bread (l_dev l) (u32 (nthZ 0 (lh_block l) tail))) in
        let* d := on_bio (bdata from) in
        on_bio (set_bdata to d) ;;
        on_bio (bwrite to) ;;
        on_bio (brelse from) ;;
        on_bio (brelse to) ;;
        write_log_loop k (tail + 1)
    end
  else ret tt.

Definition write_log : M lst unit :=
  let* n := getl lh_n in
  write_log_loop (Z.to_nat n) 0.

Definition commit : M lst unit :=
  let* n := getl lh_n in
  if 0 <? n then
    write_log ;;
    write_head ;;
    install_trans false ;;
    updl (set_lh_n 0) ;;
    write_head
  else ret tt.

(** The wakeup(&log) calls change only the states of waiting processes. *)
Definition end_op : M lst unit :=
  lacquire ;;
  updl (fun l => set_l_outstanding (l_outstanding l - 1) l) ;;
  let* l := getl (fun l => l) in
  if l_committing l then panic "log.committing"
  else
    let do_commit := l_outstanding l =? 0 in
    (if do_commit then updl (set_l_committing true) else ret tt) ;;
    lrelease ;;
    if do_commit then
      commit ;;
      lacquire ;;
      updl (set_l_committing false) ;;
      lrelease
    else ret tt.

(** The index log absorption stops at: the first entry for the block, or n. *)
Fixpoint log_slot (fuel : nat) (i : Z) (l : log) (blockno : Z) : Z :=
  match fuel with
  | O => i
  | S k =>
      if i <? lh_n l then
        if u32 (nthZ 0 (lh_block l) i) =? blockno then i
        else log_slot k (i + 1) l blockno
      else i
  end.

Definition log_write (b : Z) : M lst unit :=
  lacquire ;;
  let* l := getl (fun l => l) in
  if (LOGSIZE <=? lh_n l) || (l_size l - 1 <=? lh_n l) then panic "too big a transaction"
  else if l_outstanding l <? 1 then panic "log_write outside of trans"
  else
    let* blockno := on_bio (getb b b_blockno) in
    let i := log_slot (Z.to_nat (lh_n l)) 0 l blockno in
    updl (set_lh_block i (s32 blockno)) ;;
    (if i =? lh_n l
     then
       on_bio (bpin b) ;;
       updl (fun l => set_lh_n (lh_n l + 1) l)
     else ret tt) ;;
    lrelease.
