(* ===== verification/Recovery.v ===== *)
(** * Crash safety of the log: the proofs

    A crash keeps a prefix of the block writes issued so far.  [eff d] is what
    the file system holds once the log found on disk [d] is replayed: commit
    moves it in one step from the old contents to the new ones, and recovery,
    interrupted or not, does not move it at all. *)

From Stdlib Require Import ZArith Lia.
From stdpp Require Import base numbers list list_numbers gmap strings sorting.
From S2P Require Import Prelude Cstring Bytes Sleeplock Bio Bcache Log.

(** ** Disks under sequences of writes *)

Definition apply_writes (w : list (Z * list Z)) (d : gmap Z (list Z)) : gmap Z (list Z) :=
  fold_left (fun d p => <[fst p := snd p]> d) w d.

Lemma apply_writes_app w1 w2 d : apply_writes (w1 ++ w2) d = apply_writes w2 (apply_writes w1 d).
Proof. apply fold_left_app. Qed.

Lemma dblk_apply_out w d b : b ∉ w.*1 -> dblk (apply_writes w d) b = dblk d b.
Proof.
  revert d. induction w as [|[c x] w IH]; intros d Hb; [done|]. cbn in *.
  apply not_elem_of_cons in Hb as [Hc Hb]. rewrite IH by done. rewrite dblk_insert.
  by rewrite decide_False.
Qed.

(** A block the writes cover ends up the same whatever was there. *)
Lemma dblk_apply_in w d d' b :
  b ∈ w.*1 \/ dblk d b = dblk d' b -> dblk (apply_writes w d) b = dblk (apply_writes w d') b.
Proof.
  revert d d'. induction w as [|[c x] w IH]; intros d d' Hb; cbn in *.
  - destruct Hb as [Hb%elem_of_nil|Hb]; done.
  - apply IH. destruct Hb as [[->|Hb]%elem_of_cons|Hb]; [right|by left|right]; rewrite !dblk_insert;
      by case_decide.
Qed.

Lemma elem_of_prefix_fst (w r : list (Z * list Z)) b : r `prefix_of` w -> b ∈ r.*1 -> b ∈ w.*1.
Proof. intros [k ->] Hb. rewrite fmap_app. apply elem_of_app. by left. Qed.

Lemma prefix_app_or {A} (p w1 w2 : list A) :
  p `prefix_of` w1 ++ w2 -> p `prefix_of` w1 \/ exists q, p = w1 ++ q /\ q `prefix_of` w2.
Proof.
  revert p. induction w1 as [|x w1 IH]; intros p H; simpl in *.
  - right. by exists p.
  - destruct p as [|y p]; [left; apply prefix_nil|].
    apply prefix_cons_inv_1 in H as Hx. apply prefix_cons_inv_2 in H. subst.
    destruct (IH p H) as [Hp|(q & -> & Hq)]; [left; by apply prefix_cons|right].
    by exists q.
Qed.

Lemma prefix_singleton {A} (p : list A) x : p `prefix_of` [x] -> p = [] \/ p = [x].
Proof.
  intros H. destruct p as [|y p]; [by left|]. right.
  apply prefix_cons_inv_1 in H as Hx. apply prefix_cons_inv_2, prefix_nil_inv in H. by subst.
Qed.

Lemma on_bio_Ret {A} (m : M bio A) s a b :
  m (lbio s) = Ret a b -> on_bio m s = Ret a (set_lbio b s).
Proof. apply zoom_Ret. Qed.

(** [V] matters only pointwise. *)
Lemma brep_ext s V V' H P D :
  (forall x, V x = V' x) -> brep s V H P D -> brep s V' H P D.
Proof.
  intros HV [HC Hr]. split; [|done]. destruct HC. split; try done.
  - intros i Hi Hd Hv. rewrite <- HV. auto.
  - intros b Hb HbD. rewrite <- HV. auto.
Qed.

Lemma brep_dirty_ext s V H P D D' :
  (forall x, x ∈ D <-> x ∈ D') -> brep s V H P D -> brep s V H P D'.
Proof.
  intros HD [HC Hr]. split; [|done]. destruct HC. split; try done.
  - intros b Hb HbD. apply bc_clean; [done|]. by rewrite HD.
  - intros b Hb. apply bc_dirty. by rewrite HD.
Qed.

(** ** Parts of the log's state an operation leaves alone *)

(** Operations that leave a part [f] of the log's state alone. *)
Definition kept {X A} (f : log -> X) (m : M lst A) : Prop := forall s a s', m s = Ret a s' ->
  f (lg s') = f (lg s).

Section Kept.
Context {X : Type} (f : log -> X).

Lemma kept_bind {A B} (m : M lst A) (k : A -> M lst B) :
  kept f m -> (forall a, kept f (k a)) -> kept f (bind m k).
Proof.
  intros Hm Hk s b s' (a & s1 & E1 & E2)%bind_inv.
  rewrite (Hk _ _ _ _ E2). exact (Hm _ _ _ E1).
Qed.

Lemma kept_on_bio {A} (m : M bio A) : kept f (on_bio m).
Proof. intros s a s'. unfold on_bio, zoom. destruct (m (lbio s)); naive_solver. Qed.

Lemma kept_ret {A} (a : A) : kept f (ret a).
Proof. intros s b s' [= <- <-]. done. Qed.

Lemma kept_getl {A} (g : log -> A) : kept f (getl g).
Proof. intros s b s' [= <- <-]. done. Qed.

Lemma kept_updl g : (forall l, f (g l) = f l) -> kept f (updl g).
Proof. intros Hg s b s' [= <- <-]. apply Hg. Qed.

Lemma kept_panic {A} msg : kept f (@panic lst A msg).
Proof. by intros s b s'. Qed.
End Kept.

Ltac keep :=
  repeat first
    [ match goal with H : forall _, _ |- _ => apply H | H : kept _ _ |- _ => exact H end
    | apply kept_on_bio | apply kept_ret | apply kept_getl | apply kept_panic
    | apply kept_updl; by intros []
    | apply kept_bind; [|intros ?]
    | match goal with |- kept _ (if ?b then _ else _) => destruct b end ].

Definition flags (l : log) : Z * bool := (l_outstanding l, l_committing l).

Lemma kept_write_head {X} (f : log -> X) : kept f write_head.
Proof.
  assert (Hw : forall n i b, kept f (write_head_loop n i b)).
  { intros n. induction n; intros; cbn [write_head_loop]; keep. }
  unfold write_head. keep.
Qed.

Lemma kept_install_trans {X} (f : log -> X) r : kept f (install_trans r).
Proof.
  assert (Hi : forall n t, kept f (install_trans_loop n t r)).
  { intros n. induction n; intros; cbn [install_trans_loop]; keep. }
  unfold install_trans. keep.
Qed.

Lemma kept_write_log {X} (f : log -> X) : kept f write_log.
Proof.
  assert (Hi : forall n t, kept f (write_log_loop n t)).
  { intros n. induction n; intros; cbn [write_log_loop]; keep. }
  unfold write_log. keep.
Qed.

Lemma kept_read_head : kept flags read_head.
Proof.
  assert (Hr : forall n i d, kept flags (read_head_loop n i d)).
  { intros n. induction n; intros; cbn [read_head_loop]; keep. }
  unfold read_head. keep.
Qed.

Lemma recover_flags : kept flags recover_from_log.
Proof.
  pose proof kept_read_head. pose proof (kept_install_trans flags). pose proof (kept_write_head flags).
  unfold recover_from_log. keep.
Qed.

Section Geometry.
(** The log occupies the blocks [start, start + size): the header block and
    [size - 1] data blocks; mkfs gives it LOGSIZE blocks in all. *)
Context (start size : Z).
Hypothesis Hstart : 0 <= start.
Hypothesis Hsize : 2 <= size <= LOGSIZE.
Hypothesis Hend : start + size < 2 ^ 31.

Definition in_log (b : Z) : Prop := start <= b < start + size.

(** The blocks a header lists, and where the log keeps their contents. *)
Definition hdr_blocks (h : list Z) : list Z := hdr_block h <$> seqZ 0 (hdr_n h).

Definition home_writes (d : gmap Z (list Z)) : list (Z * list Z) :=
  (fun t => (hdr_block (dblk d start) t, dblk d (start + 1 + t))) <$> seqZ 0 (hdr_n (dblk d start)).

Definition home_ok (b : Z) : Prop := 0 <= b < 2 ^ 31 /\ ~ in_log b.

Definition valid_disk (d : gmap Z (list Z)) : Prop :=
  (forall b, zlen (dblk d b) = BSIZE) /\
  0 <= hdr_n (dblk d start) <= size - 1 /\
  (forall t, 0 <= t < hdr_n (dblk d start) -> home_ok (hdr_block (dblk d start) t)) /\
  NoDup (hdr_blocks (dblk d start)).

(** The contents of the home block [b] once the log on [d] is replayed. *)
Definition eff (d : gmap Z (list Z)) (b : Z) : list Z := dblk (apply_writes (home_writes d) d) b.

(** The in-memory log agrees with the pinned blocks [P]. *)
Record logwf (l : log) (P : list Z) : Prop := {
  lw_lock : l_lock l = false;
  lw_start : l_start l = start;
  lw_size : l_size l = size;
  lw_dev : l_dev l = ROOTDEV;
  lw_n : lh_n l = zlen P;
  lw_len : zlen (lh_block l) = LOGSIZE;
  lw_blocks : forall i, 0 <= i < zlen P -> nthZ 0 (lh_block l) i = nthZ 0 P i;
  lw_max : zlen P <= size - 1;
  lw_home : forall b, b ∈ P -> home_ok b;
  lw_nodup : NoDup P
}.

Definition blocks_ok (V : Z -> list Z) : Prop := forall b, zlen (V b) = BSIZE.

(** ** write_head *)

Lemma hdr_put_n d n :
  zlen d = BSIZE -> 0 <= n < 2 ^ 31 -> hdr_n (put32 d 0 n) = n.
Proof.
  intros Hd Hn. unfold hdr_n. rewrite get32_put32_same by (rewrite ?Hd; done).
  rewrite u32_small by lia. apply s32_small. lia.
Qed.

Lemma hdr_put_block_same d i v :
  zlen d = BSIZE -> 0 <= i < LOGSIZE -> 0 <= v < 2 ^ 31 ->
  hdr_block (put32 d (4 + 4 * i) v) i = v.
Proof.
  unfold LOGSIZE, MAXOPBLOCKS, BSIZE. intros Hd Hi Hv. unfold hdr_block.
  rewrite get32_put32_same by lia. rewrite u32_small by lia. apply s32_small. lia.
Qed.

Lemma hdr_put_block_other d i j v :
  zlen d = BSIZE -> 0 <= i < LOGSIZE -> 0 <= j < LOGSIZE -> i <> j ->
  hdr_block (put32 d (4 + 4 * i) v) j = hdr_block d j.
Proof.
  unfold LOGSIZE, MAXOPBLOCKS, BSIZE. intros Hd Hi Hj Hij. unfold hdr_block.
  rewrite get32_put32_other by lia. done.
Qed.

Lemma hdr_put_block_n d i v :
  zlen d = BSIZE -> 0 <= i < LOGSIZE -> hdr_n (put32 d (4 + 4 * i) v) = hdr_n d.
Proof.
  unfold LOGSIZE, MAXOPBLOCKS, BSIZE. intros Hd Hi. unfold hdr_n.
  rewrite get32_put32_other by lia. done.
Qed.
(** [h] is a header that lists [Q]. *)
Definition header_of (h Q : list Z) : Prop :=
  zlen h = BSIZE /\ hdr_n h = zlen Q /\ forall j, 0 <= j < zlen Q -> hdr_block h j = nthZ 0 Q j.

(** Disk, writes and pid untouched; log untouched. *)
Definition quiet (s s' : lst) : Prop :=
  lg s' = lg s /\ disk (lbio s') = disk (lbio s) /\ writes (lbio s') = writes (lbio s) /\
  curpid (lbio s') = curpid (lbio s).

Lemma write_head_loop_spec n i buf s V H P D Q :
  logwf (lg s) Q -> brep (lbio s) V H P D -> H !! buf = Some start -> start ∈ D ->
  0 <= i -> zlen Q - i = Z.of_nat n ->
  zlen (V start) = BSIZE -> hdr_n (V start) = zlen Q ->
  (forall j, 0 <= j < i -> hdr_block (V start) j = nthZ 0 Q j) ->
  exists s' h, write_head_loop n i buf s = Ret tt s' /\ quiet s s' /\ header_of h Q /\
    brep (lbio s') (vset V start h) H P D.
Proof.
  revert i s V. induction n as [|n IH]; intros i s V Hl HB HH HD Hi Hn Hz Hhn Hhb;
    cbn [write_head_loop]; erewrite bind_Ret by reflexivity; rewrite (lw_n _ _ Hl).
  - destruct (Z.ltb_spec i (zlen Q)); [lia|]. exists s, (V start). split; [done|].
    split; [by split_and!|]. split; [split; [done|]; split; [done|]; intros; apply Hhb; lia|].
    eapply brep_ext; [|exact HB]. intros x. unfold vset. case_decide; congruence.
  - pose proof (lw_max _ _ Hl). unfold LOGSIZE, MAXOPBLOCKS in Hsize.
    destruct (Z.ltb_spec i (zlen Q)); [|lia].
    erewrite bind_Ret by (by eapply on_bio_Ret, bdata_held).
    destruct (set_bdata_spec (lbio s) V H P D buf start
      (put32 (V start) (4 + 4 * i) (nthZ 0 (lh_block (lg s)) i)) HB HH) as (b1 & E1 & HB1 & Hd1 & Hw1 & Hp1).
    erewrite bind_Ret by (by apply on_bio_Ret).
    rewrite (lw_blocks _ _ Hl i) in * by lia.
    assert (Hbi : 0 <= nthZ 0 Q i < 2 ^ 31).
    { apply (lw_home _ _ Hl). eapply list_elem_of_lookup_2, (lookup_nthZ 0). lia. }
    apply (brep_dirty_ext _ _ _ _ _ D) in HB1.
    2: { intros x. rewrite elem_of_cons. split; [|auto]. intros [->|?]; done. }
    assert (Hz1 : zlen (put32 (V start) (4 + 4 * i) (nthZ 0 Q i)) = BSIZE).
    { rewrite zlen_put32; [done|lia|]. rewrite Hz. unfold BSIZE. lia. }
    destruct (IH (i + 1) (set_lbio b1 (set_lbio (lbio s) s)) _ Hl HB1 HH HD) as (s' & h & E & Hq & Hh & HB'); try lia.
    + by rewrite vset_eq.
    + rewrite vset_eq, hdr_put_block_n; [done|done|unfold LOGSIZE, MAXOPBLOCKS; lia].
    + intros j Hj. rewrite vset_eq. destruct (decide (j = i)) as [->|Hji].
      * apply hdr_put_block_same; [done|unfold LOGSIZE, MAXOPBLOCKS; lia|done].
      * rewrite hdr_put_block_other; [apply Hhb; lia|done|unfold LOGSIZE, MAXOPBLOCKS; lia..|done].
    + exists s', h. split; [exact E|]. split; [|split; [done|]].
      * destruct Hq as (? & ? & ? & ?). cbn in *. split_and!; congruence.
      * eapply brep_ext; [|exact HB']. intros x. unfold vset. by repeat case_decide.
Qed.

Lemma start_not_home (P : list Z) b : (forall c, c ∈ P -> home_ok c) -> in_log b -> b ∉ P.
Proof. intros Hh Hb Hc. by apply Hh in Hc as [_ ?]. Qed.

(** A bread/brelse pair needs one buffer beside the pinned ones. *)
Lemma write_head_spec s V P Q :
  logwf (lg s) Q -> brep (lbio s) V ∅ P [] -> start ∉ P -> zlen P < NBUF -> zlen (V start) = BSIZE ->
  exists s' h, write_head s = Ret tt s' /\ lg s' = lg s /\ header_of h Q /\
    brep (lbio s') (vset V start h) ∅ P [] /\
    disk (lbio s') = <[start := h]> (disk (lbio s)) /\
    writes (lbio s') = writes (lbio s) ++ [(start, h)] /\ curpid (lbio s') = curpid (lbio s).
Proof.
  intros Hl HB HsP HP Hz. unfold write_head. erewrite bind_Ret by reflexivity.
  rewrite (lw_dev _ _ Hl), (lw_start _ _ Hl), u32_small by lia.
  destruct (bread_spec (lbio s) V ∅ P [] start HB) as (i & b1 & E1 & Hi & _ & HB1 & Hd1 & Hw1 & Hp1).
  { intros j. by rewrite lookup_empty. }
  { right. rewrite map_size_empty. unfold zlen in HP. lia. }
  erewrite bind_Ret by (by apply on_bio_Ret).
  assert (HH : (<[i := start]> ∅ : gmap Z Z) !! i = Some start) by apply lookup_insert_eq.
  erewrite bind_Ret by (by eapply on_bio_Ret, bdata_held).
  destruct (set_bdata_spec b1 V _ P [] i start (put32 (V start) 0 (lh_n (lg s))) HB1 HH)
    as (b2 & E2 & HB2 & Hd2 & Hw2 & Hp2).
  erewrite bind_Ret by (by apply on_bio_Ret).
  pose proof (lw_max _ _ Hl). unfold LOGSIZE, MAXOPBLOCKS in Hsize. pose proof (zlen_nonneg Q).
  rewrite (lw_n _ _ Hl) in *.
  set (s2 := set_lbio b2 _).
  destruct (write_head_loop_spec (Z.to_nat (zlen Q)) 0 i s2 _ _ P [start] Q Hl HB2 HH)
    as (s3 & h & E3 & (Hg3 & Hd3 & Hw3 & Hp3) & Hh & HB3); try lia.
  { left. }
  { rewrite vset_eq, zlen_put32; [done|lia|]. rewrite Hz. unfold BSIZE. lia. }
  { rewrite vset_eq. apply hdr_put_n; [done|lia]. }
  erewrite bind_Ret by exact E3.
  destruct (bwrite_spec (lbio s3) _ _ P [start] i start HB3 HH) as (b4 & E4 & HB4 & Hd4 & Hw4 & Hp4).
  erewrite bind_Ret by (by apply on_bio_Ret).
  destruct (brelse_spec b4 _ _ P _ i start HB4 HH) as (b5 & E5 & HB5 & Hd5 & Hw5 & Hp5).
  { rewrite elem_of_without. tauto. }
  exists (set_lbio b5 (set_lbio b4 s3)), h. split; [by apply on_bio_Ret|].
  rewrite vset_eq in Hd4, Hw4. unfold s2 in *. cbn [lbio lg set_lbio] in *. split; [done|]. split; [done|].
  split; [|split_and!; congruence].
  rewrite delete_insert_id in HB5 by apply lookup_empty.
  eapply brep_ext; [|eapply brep_dirty_ext; [|exact HB5]].
  - intros x. unfold vset. by repeat case_decide.
  - intros x. rewrite elem_of_without, list_elem_of_singleton. split; [tauto|by intros ?%elem_of_nil].
Qed.
(** ** write_log *)

(** [s'] is [s] after the block writes [w]. *)
Definition wrote (s s' : lst) (w : list (Z * list Z)) : Prop :=
  lg s' = lg s /\ disk (lbio s') = apply_writes w (disk (lbio s)) /\
  writes (lbio s') = writes (lbio s) ++ w /\ curpid (lbio s') = curpid (lbio s).

Lemma wrote_trans s1 s2 s3 w w' : wrote s1 s2 w -> wrote s2 s3 w' -> wrote s1 s3 (w ++ w').
Proof.
  intros (? & Hd & Hw & ?) (? & Hd' & Hw' & ?). split; [congruence|].
  rewrite Hd', Hd, Hw', Hw, apply_writes_app, app_assoc. split_and!; congruence.
Qed.

Lemma wrote_nil s : wrote s s [].
Proof. split_and!; try done. by rewrite app_nil_r. Qed.

Lemma seqZ_head m n : seqZ m (Z.of_nat (S n)) = m :: seqZ (m + 1) (Z.of_nat n).
Proof. rewrite seqZ_cons by lia. f_equal. f_equal; lia. Qed.

Lemma two_held (i j b c : Z) : i <> j ->
  let H := <[j := c]> (<[i := b]> ∅) : gmap Z Z in
  H !! i = Some b /\ H !! j = Some c /\ delete i (delete j H) = ∅ /\ delete j (delete i H) = ∅.
Proof.
  intros Hij H. unfold H. split; [by rewrite lookup_insert_ne, lookup_insert_eq|].
  split; [apply lookup_insert_eq|].
  split; [rewrite delete_insert_id; [apply delete_insert_id; by rewrite lookup_empty|]|].
  - rewrite lookup_insert_ne by done. apply lookup_empty.
  - rewrite delete_insert_ne by done. rewrite (delete_insert_id _ i) by apply lookup_empty.
    apply delete_insert_id, lookup_empty.
Qed.

(** Reading the log block [b] and the home block [c], as write_log() and
    install_trans() do. *)
Lemma bread_two s V P b c :
  brep (lbio s) V ∅ P [] -> b <> c -> b ∉ P ->
  (c ∈ P /\ zlen P < NBUF) \/ zlen P + 1 < NBUF ->
  exists i j s1 s2, i <> j /\ on_bio (bread ROOTDEV b) s = Ret i s1 /\
    on_bio (bread ROOTDEV c) s1 = Ret j s2 /\ quiet s s2 /\ lg s1 = lg s /\
    brep (lbio s2) V (<[j := c]> (<[i := b]> ∅)) P [].
Proof.
  intros HB Hbc HbP Hroom.
  destruct (bread_spec (lbio s) V ∅ P [] b HB) as (i & b1 & E1 & Hi & _ & HB1 & Hd1 & Hw1 & Hp1).
  { intros k. by rewrite lookup_empty. }
  { right. rewrite map_size_empty. unfold zlen in Hroom. lia. }
  destruct (bread_spec b1 V _ P [] c HB1) as (j & b2 & E2 & Hj & HN & HB2 & Hd2 & Hw2 & Hp2).
  { intros k. destruct (decide (k = i)) as [->|].
    - rewrite lookup_insert_eq. congruence.
    - rewrite lookup_insert_ne, lookup_empty by done. done. }
  { destruct Hroom as [[? _]|Hr]; [by left|right].
    rewrite map_size_insert_None, map_size_empty by apply lookup_empty. unfold zlen in Hr. lia. }
  exists i, j, (set_lbio b1 s), (set_lbio b2 (set_lbio b1 s)).
  split; [intros ->; by rewrite lookup_insert_eq in HN|].
  split; [by apply on_bio_Ret|]. split; [by apply on_bio_Ret|].
  split; [unfold quiet; cbn [lbio lg set_lbio]; split_and!; congruence|]. done.
Qed.

Definition log_copy (V : Z -> list Z) (P : list Z) (t : Z) : Z -> list Z := fun x =>
  if decide (start + 1 + t <= x < start + 1 + zlen P) then V (nthZ 0 P (x - start - 1)) else V x.

Lemma write_log_loop_spec n t s V P :
  logwf (lg s) P -> brep (lbio s) V ∅ P [] -> 0 <= t -> zlen P - t = Z.of_nat n ->
  exists s', write_log_loop n t s = Ret tt s' /\
    brep (lbio s') (log_copy V P t) ∅ P [] /\
    wrote s s' ((fun j => (start + 1 + j, V (nthZ 0 P j))) <$> seqZ t (Z.of_nat n)).
Proof.
  revert t s V. induction n as [|n IH]; intros t s V Hl HB Ht Hn; cbn [write_log_loop];
    erewrite bind_Ret by reflexivity; rewrite (lw_n _ _ Hl).
  { destruct (Z.ltb_spec t (zlen P)); [lia|]. exists s. split; [done|]. split; [|apply wrote_nil].
    eapply brep_ext; [|exact HB]. intros x. unfold log_copy. case_decide; [lia|done]. }
  pose proof (lw_max _ _ Hl) as Hmax. pose proof Hsize as Hsz. unfold LOGSIZE, MAXOPBLOCKS in Hsz.
  destruct (Z.ltb_spec t (zlen P)); [|lia]. erewrite bind_Ret by reflexivity.
  rewrite (lw_dev _ _ Hl), (lw_start _ _ Hl), (lw_blocks _ _ Hl t) by lia.
  set (c := nthZ 0 P t). assert (HcP : c ∈ P) by (eapply list_elem_of_lookup_2, (lookup_nthZ 0); lia).
  destruct (lw_home _ _ Hl c HcP) as [Hcr Hcl].
  rewrite !u32_small by lia.
  assert (Hblog : in_log (start + t + 1)) by (unfold in_log; lia).
  assert (HbP : start + t + 1 ∉ P) by (eapply start_not_home; [apply (lw_home _ _ Hl)|done]).
  destruct (bread_two s V P (start + t + 1) c HB) as (i & j & s1 & s2 & Hij & E1 & E2 & (Hg & Hd & Hw & Hp) & Hg1 & HB2).
  { intros Hbc. apply HbP. by rewrite Hbc. }
  { done. }
  { left. split; [done|]. unfold NBUF, MAXOPBLOCKS. lia. }
  erewrite bind_Ret by exact E1. erewrite bind_Ret by exact E2.
  destruct (two_held i j (start + t + 1) c Hij) as (HHi & HHj & Hdel & _).
  erewrite bind_Ret by (eapply on_bio_Ret, bdata_held; [exact HB2|exact HHj]).
  destruct (set_bdata_spec _ V _ P [] i _ (V c) HB2 HHi) as (b3 & E3 & HB3 & Hd3 & Hw3 & Hp3).
  erewrite bind_Ret by (by apply on_bio_Ret).
  destruct (bwrite_spec _ _ _ P _ i _ HB3 HHi) as (b4 & E4 & HB4 & Hd4 & Hw4 & Hp4).
  erewrite bind_Ret by (by apply on_bio_Ret). rewrite vset_eq in Hd4, Hw4.
  assert (HnD : forall x, x ∉ without (start + t + 1) [start + t + 1]).
  { intros x. rewrite elem_of_without, list_elem_of_singleton. tauto. }
  destruct (brelse_spec _ _ _ P _ j c HB4 HHj (HnD _)) as (b5 & E5 & HB5 & Hd5 & Hw5 & Hp5).
  erewrite bind_Ret by (by apply on_bio_Ret).
  destruct (brelse_spec _ _ _ P _ i (start + t + 1) HB5) as (b6 & E6 & HB6 & Hd6 & Hw6 & Hp6).
  { by rewrite lookup_delete_ne. }
  { apply HnD. }
  erewrite bind_Ret by (by apply on_bio_Ret). rewrite Hdel in HB6.
  set (s6 := set_lbio b6 _).
  destruct (IH (t + 1) s6 (vset V (start + t + 1) (V c))) as (s' & E' & HB' & Hw').
  { cbn. by rewrite Hg. }
  { eapply brep_dirty_ext; [|exact HB6]. intros x. split; [intros Hx; by apply HnD in Hx|by intros ?%elem_of_nil]. }
  { lia. }
  { lia. }
  exists s'. split; [exact E'|]. split.
  - eapply brep_ext; [|exact HB']. intros x. unfold log_copy, vset.
    repeat case_decide; subst; try lia; try done.
    + exfalso. apply HbP. replace (start + t + 1) with (nthZ 0 P (x - start - 1)) by done.
      eapply list_elem_of_lookup_2, (lookup_nthZ 0). lia.
    + f_equal. unfold c. f_equal. lia.
  - rewrite seqZ_head, fmap_cons. rewrite <- (app_nil_l (_ <$> _)), app_comm_cons.
    apply (wrote_trans s s6).
    + unfold wrote. split; [exact Hg|]. fold c. replace (start + 1 + t) with (start + t + 1) by lia.
      unfold s6. cbn [lbio set_lbio apply_writes fold_left fst snd] in *. split_and!; congruence.
    + replace ((fun k => (start + 1 + k, V (nthZ 0 P k))) <$> seqZ (t + 1) (Z.of_nat n)) with
        ((fun k => (start + 1 + k, vset V (start + t + 1) (V c) (nthZ 0 P k))) <$> seqZ (t + 1) (Z.of_nat n));
        [exact Hw'|].
      apply list_fmap_ext. intros k x Hx. apply list_elem_of_lookup_2, elem_of_seqZ in Hx. f_equal.
      apply vset_ne. intros Hc. apply HbP. rewrite <- Hc. eapply list_elem_of_lookup_2, (lookup_nthZ 0). lia.
Qed.
(** ** install_trans *)

Definition vapply (w : list (Z * list Z)) (V : Z -> list Z) : Z -> list Z :=
  fold_left (fun V p => vset V (fst p) (snd p)) w V.

(** The home writes of the log entries from [t] on. *)
Definition installs (V : Z -> list Z) (Q : list Z) (t : Z) (n : nat) : list (Z * list Z) :=
  (fun j => (nthZ 0 Q j, V (start + 1 + j))) <$> seqZ t (Z.of_nat n).

(** The blocks still pinned when the entries before [t] are installed. *)
Definition pinned (recovering : bool) (Q : list Z) (t : Z) : list Z :=
  if recovering then [] else drop (Z.to_nat t) Q.

Lemma pinned_step Q t : 0 <= t < zlen Q -> NoDup Q ->
  pinned false Q t = nthZ 0 Q t :: pinned false Q (t + 1) /\
  nthZ 0 Q t ∉ pinned false Q (t + 1).
Proof.
  intros Ht Hnd. unfold pinned. replace (Z.to_nat (t + 1)) with (S (Z.to_nat t)) by lia.
  assert (Hd : drop (Z.to_nat t) Q = nthZ 0 Q t :: drop (S (Z.to_nat t)) Q).
  { apply drop_S, (lookup_nthZ 0). lia. }
  split; [done|]. rewrite <- (take_drop (Z.to_nat t) Q), Hd in Hnd. apply NoDup_app in Hnd as (_ & _ & Hnd).
  by apply NoDup_cons in Hnd as [? _].
Qed.

(** One iteration of install_trans(). *)
Lemma install_step t s V Q rec :
  logwf (lg s) Q -> brep (lbio s) V ∅ (pinned rec Q t) [] -> 0 <= t < zlen Q ->
  exists s1, wrote s s1 [(nthZ 0 Q t, V (start + 1 + t))] /\
    brep (lbio s1) (vset V (nthZ 0 Q t) (V (start + 1 + t))) ∅ (pinned rec Q (t + 1)) [] /\
    forall k, install_trans_loop (S k) t rec s = install_trans_loop k (t + 1) rec s1.
Proof.
  intros Hl HB Ht. pose proof (lw_max _ _ Hl) as Hmax. pose proof Hsize as Hsz. unfold LOGSIZE, MAXOPBLOCKS in Hsz.
  set (c := nthZ 0 Q t). assert (HcP : c ∈ Q) by (eapply list_elem_of_lookup_2, (lookup_nthZ 0); lia).
  destruct (lw_home _ _ Hl c HcP) as [Hcr Hcl].
  assert (Hblog : in_log (start + t + 1)) by (unfold in_log; lia).
  assert (HbQ : start + t + 1 ∉ Q) by (eapply start_not_home; [apply (lw_home _ _ Hl)|done]).
  assert (HbP : start + t + 1 ∉ pinned rec Q t).
  { unfold pinned. destruct rec; [apply not_elem_of_nil|]. intros Hc. apply HbQ. rewrite <- (take_drop (Z.to_nat t) Q).
    apply elem_of_app. by right. }
  destruct (bread_two s V (pinned rec Q t) (start + t + 1) c HB)
    as (i & j & s1 & s2 & Hij & E1 & E2 & (Hg & Hd & Hw & Hp) & Hg1 & HB2).
  { intros Hbc. apply HbQ. by rewrite Hbc. }
  { done. }
  { destruct rec; [right; done|left]. split.
    - rewrite (proj1 (pinned_step Q t Ht (lw_nodup _ _ Hl))). left.
    - unfold pinned. rewrite zlen_drop. unfold NBUF, MAXOPBLOCKS. lia. }
  destruct (two_held i j (start + t + 1) c Hij) as (HHi & HHj & _ & Hdel).
  destruct (set_bdata_spec _ V _ _ [] j _ (V (start + t + 1)) HB2 HHj) as (b3 & E3 & HB3 & Hd3 & Hw3 & Hp3).
  destruct (bwrite_spec _ _ _ _ _ j _ HB3 HHj) as (b4 & E4 & HB4 & Hd4 & Hw4 & Hp4).
  rewrite vset_eq in Hd4, Hw4.
  assert (HnD : forall x, x ∉ without c [c]).
  { intros x. rewrite elem_of_without, list_elem_of_singleton. tauto. }
  assert (Hunpin : exists b5, (if negb rec then on_bio (bunpin j) else ret tt) (set_lbio b4 s2) = Ret tt (set_lbio b5 s2) /\
    brep b5 (vset V c (V (start + t + 1))) (<[j:=c]> (<[i:=start + t + 1]> ∅)) (pinned rec Q (t + 1)) (without c [c]) /\
    disk b5 = disk b4 /\ writes b5 = writes b4 /\ curpid b5 = curpid b4).
  { destruct rec; cbn [negb]; [exists b4; done|].
    destruct (pinned_step Q t Ht (lw_nodup _ _ Hl)) as [Hps Hpn].
    destruct (bunpin_spec _ _ _ _ _ j c (pinned false Q (t + 1)) HB4 HHj) as (b5 & E5 & HB5 & Hr5).
    - by rewrite Hps.
    - done.
    - rewrite vset_eq, Hd4, dblk_insert. by rewrite decide_True.
    - exists b5. split; [by rewrite (on_bio_Ret _ _ _ _ (E5 : bunpin j (lbio (set_lbio b4 s2)) = _))|done]. }
  destruct Hunpin as (b5 & E5 & HB5 & Hd5 & Hw5 & Hp5).
  destruct (brelse_spec _ _ _ _ _ i (start + t + 1) HB5 HHi (HnD _)) as (b6 & E6 & HB6 & Hd6 & Hw6 & Hp6).
  destruct (brelse_spec _ _ _ _ _ j c HB6) as (b7 & E7 & HB7 & Hd7 & Hw7 & Hp7).
  { by rewrite lookup_delete_ne. }
  { apply HnD. }
  rewrite Hdel in HB7. exists (set_lbio b7 s2).
  replace (start + 1 + t) with (start + t + 1) by lia. split; [|split].
  - unfold wrote. cbn [lbio lg set_lbio apply_writes fold_left fst snd] in *. split_and!; congruence.
  - eapply brep_dirty_ext; [|exact HB7]. intros x. split; [intros Hx; by apply HnD in Hx|by intros ?%elem_of_nil].
  - intros k. cbn [install_trans_loop]. erewrite bind_Ret by reflexivity. rewrite (lw_n _ _ Hl).
    destruct (Z.ltb_spec t (zlen Q)); [|lia]. erewrite bind_Ret by reflexivity.
    rewrite (lw_dev _ _ Hl), (lw_start _ _ Hl), (lw_blocks _ _ Hl t), !u32_small by lia.
    erewrite bind_Ret by exact E1. erewrite bind_Ret by exact E2.
    erewrite bind_Ret by (eapply on_bio_Ret, bdata_held; [exact HB2|exact HHi]).
    erewrite bind_Ret by (apply on_bio_Ret; exact E3). erewrite bind_Ret by (apply on_bio_Ret; exact E4).
    erewrite bind_Ret by exact E5. erewrite bind_Ret by (apply on_bio_Ret; exact E6).
    by erewrite bind_Ret by (apply on_bio_Ret; exact E7).
Qed.

Lemma install_trans_loop_spec n t s V Q rec :
  logwf (lg s) Q -> brep (lbio s) V ∅ (pinned rec Q t) [] -> 0 <= t -> zlen Q - t = Z.of_nat n ->
  exists s', install_trans_loop n t rec s = Ret tt s' /\
    wrote s s' (installs V Q t n) /\ brep (lbio s') (vapply (installs V Q t n) V) ∅ [] [].
Proof.
  revert t s V. induction n as [|n IH]; intros t s V Hl HB Ht Hn.
  - cbn [install_trans_loop]. erewrite bind_Ret by reflexivity. rewrite (lw_n _ _ Hl).
    destruct (Z.ltb_spec t (zlen Q)); [lia|]. exists s. split; [done|]. split; [apply wrote_nil|].
    replace (pinned rec Q t) with (@nil Z) in HB; [exact HB|]. unfold pinned. destruct rec; [done|].
    symmetry. apply zlen_zero. rewrite zlen_drop. lia.
  - destruct (install_step t s V Q rec Hl HB) as (s1 & Hw1 & HB1 & E1); [lia|].
    assert (Hl1 : logwf (lg s1) Q) by (destruct Hw1 as [-> _]; done).
    destruct (IH (t + 1) s1 _ Hl1 HB1) as (s' & E' & Hw' & HB'); [lia|lia|].
    assert (Heq : installs (vset V (nthZ 0 Q t) (V (start + 1 + t))) Q (t + 1) n = installs V Q (t + 1) n).
    { apply list_fmap_ext. intros k x Hx%list_elem_of_lookup_2%elem_of_seqZ. f_equal.
      apply vset_ne. intros Hc.
      assert (Hh : home_ok (start + 1 + x)).
      { rewrite Hc. apply (lw_home _ _ Hl). eapply list_elem_of_lookup_2, (lookup_nthZ 0). lia. }
      destruct Hh as [_ Hh]. apply Hh. pose proof (lw_max _ _ Hl). unfold in_log. lia. }
    rewrite Heq in *.
    assert (Hcons : installs V Q t (S n) = [(nthZ 0 Q t, V (start + 1 + t))] ++ installs V Q (t + 1) n).
    { unfold installs. by rewrite seqZ_head. }
    exists s'. rewrite E1, Hcons. split; [done|]. split; [by eapply wrote_trans|exact HB'].
Qed.
(** ** Recovery *)

Definition loggeom (l : log) : Prop :=
  l_lock l = false /\ l_start l = start /\ l_size l = size /\ l_dev l = ROOTDEV /\
  zlen (lh_block l) = LOGSIZE.

Lemma read_head_loop_spec n i d s :
  loggeom (lg s) -> 0 <= i -> lh_n (lg s) - i = Z.of_nat n -> lh_n (lg s) <= LOGSIZE ->
  (forall j, 0 <= j < i -> nthZ 0 (lh_block (lg s)) j = hdr_block d j) ->
  exists s', read_head_loop n i d s = Ret tt s' /\ lbio s' = lbio s /\ loggeom (lg s') /\
    lh_n (lg s') = lh_n (lg s) /\
    (forall j, 0 <= j < lh_n (lg s) -> nthZ 0 (lh_block (lg s')) j = hdr_block d j).
Proof.
  revert i s. induction n as [|n IH]; intros i s Hg Hi Hn Hmax Hb; cbn [read_head_loop];
    erewrite bind_Ret by reflexivity; destruct (Z.ltb_spec i (lh_n (lg s))); try lia.
  - exists s. do 4 (split; [done|]). intros j Hj. apply Hb. lia.
  - erewrite bind_Ret by reflexivity.
    destruct (IH (i + 1) (upd_log (set_lh_block i (hdr_block d i)) s)) as (s' & E & Hb' & Hg' & Hn' & Hj'); cbn; try lia.
    + destruct Hg as (? & ? & ? & ? & ?). unfold loggeom. cbn. by rewrite zlen_updZ.
    + intros j Hj. destruct (decide (j = i)) as [->|].
      * rewrite nthZ_updZ_eq; [done|]. destruct Hg as (_ & _ & _ & _ & ->). lia.
      * rewrite nthZ_updZ_ne by done. apply Hb. lia.
    + by exists s'.
Qed.

Lemma nthZ_hdr_blocks h j : 0 <= j < hdr_n h -> nthZ 0 (hdr_blocks h) j = hdr_block h j.
Proof.
  intros Hj. apply nthZ_lookup; [lia|]. unfold hdr_blocks.
  rewrite list_lookup_fmap, lookup_seqZ_lt by lia. cbn. do 2 f_equal. lia.
Qed.

Lemma zlen_hdr_blocks h : 0 <= hdr_n h -> zlen (hdr_blocks h) = hdr_n h.
Proof. intros. unfold hdr_blocks, zlen. rewrite length_fmap, length_seqZ. lia. Qed.

Lemma read_head_spec s V :
  loggeom (lg s) -> brep (lbio s) V ∅ [] [] ->
  0 <= hdr_n (V start) <= size - 1 ->
  (forall t, 0 <= t < hdr_n (V start) -> home_ok (hdr_block (V start) t)) ->
  NoDup (hdr_blocks (V start)) ->
  exists s', read_head s = Ret tt s' /\ logwf (lg s') (hdr_blocks (V start)) /\
    brep (lbio s') V ∅ [] [] /\ disk (lbio s') = disk (lbio s) /\
    writes (lbio s') = writes (lbio s) /\ curpid (lbio s') = curpid (lbio s).
Proof.
  intros Hg HB Hn Hh Hnd. pose proof Hg as (Hlk & Hst & Hsz & Hdv & Hlen).
  unfold read_head. erewrite bind_Ret by reflexivity.
  rewrite Hdv, Hst, u32_small by lia.
  destruct (bread_spec (lbio s) V ∅ [] [] start HB) as (i & b1 & E1 & Hi & _ & HB1 & Hd1 & Hw1 & Hp1).
  { intros j. by rewrite lookup_empty. }
  { right. rewrite map_size_empty. unfold NBUF, MAXOPBLOCKS. simpl. lia. }
  erewrite bind_Ret by (by apply on_bio_Ret).
  assert (HH : (<[i := start]> ∅ : gmap Z Z) !! i = Some start) by apply lookup_insert_eq.
  erewrite bind_Ret by (by eapply on_bio_Ret, bdata_held). erewrite bind_Ret by reflexivity.
  set (s1 := upd_log _ _).
  destruct (read_head_loop_spec (Z.to_nat (hdr_n (V start))) 0 (V start) s1) as (s2 & E2 & Hb2 & Hg2 & Hn2 & Hj2).
  { exact Hg. }
  { lia. }
  { cbn. lia. }
  { cbn. lia. }
  { lia. }
  erewrite bind_Ret by exact E2.
  destruct (brelse_spec b1 V _ [] [] i start HB1 HH) as (b3 & E3 & HB3 & Hd3 & Hw3 & Hp3).
  { apply not_elem_of_nil. }
  exists (set_lbio b3 s2). split; [apply on_bio_Ret; by rewrite Hb2|].
  rewrite delete_insert_id in HB3 by apply lookup_empty. cbn [lbio lg set_lbio].
  split; [|split; [exact HB3|split_and!; congruence]].
  destruct Hg2 as (? & ? & ? & ? & ?). cbn in Hn2, Hj2.
  assert (Hzl : zlen (hdr_blocks (V start)) = hdr_n (V start)) by (apply zlen_hdr_blocks; lia).
  split; try done; rewrite ?Hzl; try done; try lia.
  - intros j Hj. rewrite nthZ_hdr_blocks by done. by apply Hj2.
  - intros b (t & -> & Ht%elem_of_seqZ)%list_elem_of_fmap. apply Hh. lia.
Qed.

Lemma logwf_empty l P : logwf l P -> logwf (set_lh_n 0 l) [].
Proof.
  intros []. split; try done.
  - change (zlen []) with 0. lia.
  - change (zlen []) with 0. lia.
  - by intros b ?%elem_of_nil.
  - apply NoDup_nil_2.
Qed.

Lemma installs_home s V :
  brep s V ∅ [] [] -> 0 <= hdr_n (V start) ->
  installs V (hdr_blocks (V start)) 0 (Z.to_nat (hdr_n (V start))) = home_writes (disk s).
Proof.
  intros [HC _] Hn. assert (HV : forall x, V x = dblk (disk s) x).
  { intros x. apply (bc_clean _ _ _ _ _ HC); apply not_elem_of_nil. }
  unfold installs, home_writes. rewrite <- !HV, Z2Nat.id by lia.
  apply list_fmap_ext. intros k x Hx%list_elem_of_lookup_2%elem_of_seqZ.
  rewrite nthZ_hdr_blocks by lia. by rewrite (HV (start + 1 + x)).
Qed.

(** What recovery writes: every logged block to its home, then an empty header. *)
Lemma recover_spec s V :
  loggeom (lg s) -> brep (lbio s) V ∅ [] [] -> valid_disk (disk (lbio s)) ->
  exists s' h, recover_from_log s = Ret tt s' /\ logwf (lg s') [] /\ header_of h [] /\
    brep (lbio s') (dblk (disk (lbio s'))) ∅ [] [] /\
    disk (lbio s') = apply_writes (home_writes (disk (lbio s)) ++ [(start, h)]) (disk (lbio s)) /\
    writes (lbio s') = writes (lbio s) ++ home_writes (disk (lbio s)) ++ [(start, h)].
Proof.
  intros Hg HB (Hz & Hn & Hh & Hnd).
  assert (HV : forall x, V x = dblk (disk (lbio s)) x).
  { intros x. destruct HB as [HC _]. apply (bc_clean _ _ _ _ _ HC); apply not_elem_of_nil. }
  rewrite <- !HV in Hn, Hnd. setoid_rewrite <- HV in Hh. setoid_rewrite <- HV in Hz.
  destruct (read_head_spec s V Hg HB Hn Hh Hnd) as (s1 & E1 & Hl1 & HB1 & Hd1 & Hw1 & Hp1).
  unfold recover_from_log. erewrite bind_Ret by exact E1.
  assert (Hzl : zlen (hdr_blocks (V start)) = hdr_n (V start)) by (apply zlen_hdr_blocks; lia).
  destruct (install_trans_loop_spec (Z.to_nat (hdr_n (V start))) 0 s1 V _ true Hl1 HB1)
    as (s2 & E2 & (Hg2 & Hd2 & Hw2 & Hp2) & HB2); [lia|lia|].
  rewrite (installs_home (lbio s1) V HB1), Hd1 in * by lia.
  assert (E2' : install_trans true s1 = Ret tt s2).
  { unfold install_trans. erewrite bind_Ret by reflexivity. by rewrite (lw_n _ _ Hl1), Hzl. }
  erewrite bind_Ret by exact E2'. erewrite bind_Ret by reflexivity.
  set (s3 := upd_log (set_lh_n 0) s2).
  assert (Hl3 : logwf (lg s3) []) by (unfold s3; cbn; rewrite Hg2; by eapply logwf_empty).
  destruct (write_head_spec s3 _ [] [] Hl3 HB2) as (s4 & h & E4 & Hg4 & Hh4 & HB4 & Hd4 & Hw4 & Hp4).
  { apply not_elem_of_nil. }
  { done. }
  { replace (vapply (home_writes (disk (lbio s))) V start) with (V start); [done|].
    destruct HB2 as [HC2 _]. rewrite (bc_clean _ _ _ _ _ HC2 start) by apply not_elem_of_nil.
    rewrite Hd2, dblk_apply_out, HV; [done|]. unfold home_writes. rewrite <- list_fmap_compose.
    intros (t & Ht & Hts%elem_of_seqZ)%list_elem_of_fmap. cbn in Ht. rewrite <- HV in Hts.
    destruct (Hh t ltac:(lia)) as [_ Hc]. apply Hc. rewrite HV, <- Ht. unfold in_log. lia. }
  exists s4, h. split; [exact E4|]. split; [by rewrite Hg4|]. split; [done|]. split.
  { eapply brep_ext; [|exact HB4]. intros x. destruct HB4 as [HC4 _].
    apply (bc_clean _ _ _ _ _ HC4); apply not_elem_of_nil. }
  change (lbio s3) with (lbio s2) in *. rewrite Hd4, Hw4, Hd2, Hw2, Hw1, apply_writes_app, app_assoc.
  done.
Qed.
(** ** What a crash leaves *)

Lemma apply_writes_len w d :
  (forall b, zlen (dblk d b) = BSIZE) -> (forall p, p ∈ w -> zlen p.2 = BSIZE) ->
  forall b, zlen (dblk (apply_writes w d) b) = BSIZE.
Proof.
  revert d. induction w as [|[c x] w IH]; intros d Hd Hw b; [apply Hd|]. cbn.
  apply IH; [|intros; apply Hw; by right]. intros b'. rewrite dblk_insert. case_decide; [|apply Hd].
  apply (Hw (c, x)). left.
Qed.

Lemma home_writes_fst d b : valid_disk d -> b ∈ (home_writes d).*1 -> home_ok b.
Proof.
  intros (_ & _ & Hh & _). unfold home_writes. rewrite <- list_fmap_compose.
  intros (t & -> & Ht%elem_of_seqZ)%list_elem_of_fmap. apply Hh. lia.
Qed.

Lemma home_writes_len d p : valid_disk d -> p ∈ home_writes d -> zlen p.2 = BSIZE.
Proof. intros (Hz & _) (t & -> & _)%list_elem_of_fmap. apply Hz. Qed.

(** Agreeing on the log is agreeing on what it would install. *)
Lemma home_writes_same d d' :
  (forall b, in_log b -> dblk d' b = dblk d b) -> hdr_n (dblk d start) <= size - 1 ->
  home_writes d' = home_writes d.
Proof.
  intros H Hn. unfold home_writes. rewrite (H start) by (unfold in_log; lia).
  apply list_fmap_ext. intros k x Hx%list_elem_of_lookup_2%elem_of_seqZ.
  by rewrite (H (start + 1 + x)) by (unfold in_log; lia).
Qed.

Lemma valid_disk_same d d' :
  valid_disk d -> dblk d' start = dblk d start -> (forall b, zlen (dblk d' b) = BSIZE) -> valid_disk d'.
Proof. intros (_ & H) Hs Hz. split; [done|]. by rewrite Hs. Qed.

(** In the middle of the installation. *)
Lemma eff_installing d r :
  valid_disk d -> r `prefix_of` home_writes d ->
  valid_disk (apply_writes r d) /\ forall b, eff (apply_writes r d) b = eff d b.
Proof.
  intros Hv Hr.
  assert (Hlog : forall b, in_log b -> dblk (apply_writes r d) b = dblk d b).
  { intros b Hb. apply dblk_apply_out. intros Hc. apply (elem_of_prefix_fst _ _ _ Hr) in Hc.
    by apply (home_writes_fst d b Hv) in Hc as [_ ?]. }
  split.
  - apply (valid_disk_same d); [done|apply Hlog; unfold in_log; lia|].
    apply apply_writes_len; [apply Hv|]. intros p Hp. apply (home_writes_len d); [done|].
    destruct Hr as [k ->]. apply elem_of_app. by left.
  - intros b. unfold eff. rewrite (home_writes_same d _ Hlog) by apply Hv. apply dblk_apply_in.
    destruct (decide (b ∈ r.*1)); [left; by eapply elem_of_prefix_fst|right; by apply dblk_apply_out].
Qed.

(** After the header is cleared. *)
Lemma eff_cleared d h :
  valid_disk d -> header_of h [] ->
  let d' := apply_writes (home_writes d ++ [(start, h)]) d in
  valid_disk d' /\ hdr_n (dblk d' start) = 0 /\
  forall b, ~ in_log b -> eff d' b = eff d b /\ dblk d' b = eff d b.
Proof.
  intros Hv (Hhz & Hhn & _) d'. change (zlen []) with 0 in Hhn.
  assert (Hd' : forall b, dblk d' b = if decide (b = start) then h else eff d b).
  { intros b. unfold d'. rewrite apply_writes_app. cbn. apply dblk_insert. }
  assert (Hs : dblk d' start = h) by (rewrite Hd'; by rewrite decide_True).
  assert (Hempty : home_writes d' = []) by (unfold home_writes; by rewrite Hs, Hhn).
  split; [|split; [by rewrite Hs|]].
  - split; [|rewrite Hs, Hhn; split; [lia|]; split; [lia|]].
    + apply apply_writes_len; [apply Hv|]. intros p [Hp|Hp%list_elem_of_singleton]%elem_of_app.
      * by apply (home_writes_len d).
      * by rewrite Hp.
    + unfold hdr_blocks. rewrite Hhn. apply NoDup_nil_2.
  - intros b Hb. assert (Hbd : dblk d' b = eff d b).
    { rewrite Hd', decide_False; [done|]. intros ->. apply Hb. unfold in_log. lia. }
    split; [|done]. unfold eff at 1. by rewrite Hempty.
Qed.

(** Anywhere in recovery. *)
Lemma eff_recovering d h w :
  valid_disk d -> header_of h [] -> w `prefix_of` home_writes d ++ [(start, h)] ->
  valid_disk (apply_writes w d) /\ forall b, ~ in_log b -> eff (apply_writes w d) b = eff d b.
Proof.
  intros Hv Hh [Hw|(q & -> & [->| ->]%prefix_singleton)]%prefix_app_or.
  - destruct (eff_installing d w Hv Hw). auto.
  - rewrite app_nil_r. destruct (eff_installing d (home_writes d) Hv); [done|]. auto.
  - destruct (eff_cleared d h Hv Hh) as (? & _ & Hb). split; [done|]. intros b Hnb. by apply Hb.
Qed.

(** In the middle of write_log(). *)
Lemma eff_logging d w :
  valid_disk d -> hdr_n (dblk d start) = 0 ->
  (forall p, p ∈ w -> zlen p.2 = BSIZE /\ start < p.1 < start + size) ->
  valid_disk (apply_writes w d) /\ dblk (apply_writes w d) start = dblk d start /\
  forall b, ~ in_log b -> eff (apply_writes w d) b = dblk d b.
Proof.
  intros Hv Hn Hw.
  assert (Hout : forall b, b <= start \/ ~ in_log b -> dblk (apply_writes w d) b = dblk d b).
  { intros b Hb. apply dblk_apply_out. intros (p & -> & Hp)%list_elem_of_fmap.
    apply Hw in Hp. unfold in_log in Hb. lia. }
  split; [|split; [apply Hout; lia|]].
  - apply (valid_disk_same d); [done|apply Hout; lia|]. apply apply_writes_len; [apply Hv|].
    intros p Hp. by apply Hw in Hp as [? _].
  - intros b Hb. unfold eff, home_writes. rewrite Hout, Hn by lia. apply Hout. by right.
Qed.
(** ** commit *)

Lemma log_copy_installs V P :
  NoDup P -> (forall b, b ∈ P -> home_ok b) -> zlen P <= size - 1 -> forall h,
  installs (vset (log_copy V P 0) start h) P 0 (length P) = (fun b => (b, V b)) <$> P.
Proof.
  intros _ Hh Hmax h. apply list_eq. intros k. unfold installs. rewrite !list_lookup_fmap.
  destruct (decide (k < length P)%nat) as [Hk|Hk].
  - rewrite lookup_seqZ_lt by lia. cbn. replace (0 + Z.of_nat k) with (Z.of_nat k) by lia.
    pose proof (lookup_nthZ 0 P (Z.of_nat k) ltac:(unfold zlen; lia)) as Hl. rewrite Nat2Z.id in Hl.
    rewrite Hl. cbn. do 2 f_equal. rewrite vset_ne by lia. unfold log_copy, zlen. case_decide; [|lia].
    do 2 f_equal. lia.
  - rewrite lookup_seqZ_ge by lia. rewrite (lookup_ge_None_2 P) by lia. done.
Qed.

Lemma vapply_id (V : Z -> list Z) (w : list (Z * list Z)) :
  (forall p, p ∈ w -> p.2 = V p.1) -> forall x, vapply w V x = V x.
Proof.
  revert V. induction w as [|[c y] w IH]; intros V Hw x; [done|]. cbn.
  assert (Hc : forall z, vset V c y z = V z).
  { intros z. unfold vset. case_decide; [subst; apply (Hw (c, y)); left|done]. }
  rewrite <- (Hc x). apply IH. intros p Hp. rewrite Hc. apply Hw. by right.
Qed.

(** The writes of a commit, and the state it leaves. *)
Lemma commit_spec s V P :
  logwf (lg s) P -> brep (lbio s) V ∅ P [] -> blocks_ok V -> 0 < zlen P ->
  exists s' h1 h0, commit s = Ret tt s' /\
    header_of h1 P /\ header_of h0 [] /\ lg s' = set_lh_n 0 (lg s) /\
    let w := ((fun j => (start + 1 + j, V (nthZ 0 P j))) <$> seqZ 0 (zlen P)) ++
             [(start, h1)] ++ ((fun b => (b, V b)) <$> P) ++ [(start, h0)] in
    disk (lbio s') = apply_writes w (disk (lbio s)) /\
    writes (lbio s') = writes (lbio s) ++ w /\
    brep (lbio s') (dblk (disk (lbio s'))) ∅ [] [].
Proof.
  intros Hl HB HV Hpos. unfold commit. erewrite bind_Ret by reflexivity. rewrite (lw_n _ _ Hl).
  pose proof (lw_max _ _ Hl) as Hmax. pose proof Hsize as Hsz. unfold LOGSIZE, MAXOPBLOCKS in Hsz.
  destruct (Z.ltb_spec 0 (zlen P)); [|lia].
  assert (HsP : start ∉ P).
  { eapply start_not_home; [apply (lw_home _ _ Hl)|unfold in_log; lia]. }
  destruct (write_log_loop_spec (length P) 0 s V P Hl HB) as (s1 & E1 & HB1 & (Hg1 & Hd1 & Hw1 & Hp1));
    [lia|unfold zlen; lia|].
  assert (E1' : write_log s = Ret tt s1).
  { unfold write_log. erewrite bind_Ret by reflexivity. rewrite (lw_n _ _ Hl). unfold zlen. by rewrite Nat2Z.id. }
  erewrite bind_Ret by exact E1'.
  assert (Hl1 : logwf (lg s1) P) by (by rewrite Hg1).
  assert (Hs1 : log_copy V P 0 start = V start) by (unfold log_copy; case_decide; [lia|done]).
  destruct (write_head_spec s1 _ P P Hl1 HB1 HsP) as (s2 & h1 & E2 & Hg2 & Hh1 & HB2 & Hd2 & Hw2 & Hp2).
  { unfold NBUF, MAXOPBLOCKS. lia. }
  { rewrite Hs1. apply HV. }
  erewrite bind_Ret by exact E2. assert (Hl2 : logwf (lg s2) P) by (by rewrite Hg2).
  destruct (install_trans_loop_spec (length P) 0 s2 _ P false Hl2 HB2)
    as (s3 & E3 & (Hg3 & Hd3 & Hw3 & Hp3) & HB3); [lia|unfold zlen; lia|].
  rewrite (log_copy_installs V P (lw_nodup _ _ Hl) (lw_home _ _ Hl)) in * by lia.
  assert (E3' : install_trans false s2 = Ret tt s3).
  { unfold install_trans. erewrite bind_Ret by reflexivity. rewrite (lw_n _ _ Hl2). unfold zlen. by rewrite Nat2Z.id. }
  erewrite bind_Ret by exact E3'. erewrite bind_Ret by reflexivity.
  set (s4 := upd_log (set_lh_n 0) s3).
  assert (Hl4 : logwf (lg s4) []) by (unfold s4; cbn; rewrite Hg3; by eapply logwf_empty).
  destruct (write_head_spec s4 _ [] [] Hl4 HB3) as (s5 & h0 & E5 & Hg5 & Hh0 & HB5 & Hd5 & Hw5 & Hp5).
  { apply not_elem_of_nil. }
  { done. }
  { rewrite vapply_id; [rewrite vset_eq; apply Hh1|].
    intros p (b & -> & Hb)%list_elem_of_fmap. cbn. rewrite vset_ne by congruence.
    unfold log_copy. case_decide; [|done]. exfalso.
    apply (lw_home _ _ Hl) in Hb as [_ Hb]. apply Hb. unfold in_log. lia. }
  exists s5, h1, h0. split; [exact E5|]. split; [done|]. split; [done|].
  split; [rewrite Hg5; unfold s4; cbn; congruence|]. cbv zeta.
  change (lbio s4) with (lbio s3) in *. change (Z.of_nat (length P)) with (zlen P) in *. split; [|split].
  - rewrite Hd5, Hd3, Hd2, Hd1, !apply_writes_app. done.
  - rewrite Hw5, Hw3, Hw2, Hw1. by rewrite <- !app_assoc.
  - eapply brep_ext; [|exact HB5]. intros x. destruct HB5 as [HC5 _].
    apply (bc_clean _ _ _ _ _ HC5); apply not_elem_of_nil.
Qed.
Lemma dblk_apply_home (V : Z -> list Z) P d b :
  b ∈ P -> dblk (apply_writes ((fun b => (b, V b)) <$> P) d) b = V b.
Proof.
  revert d. induction P as [|c P IH]; intros d HbP; [by apply elem_of_nil in HbP|].
  cbn. destruct (decide (b ∈ P)) as [Hb|Hb]; [by apply IH|].
  apply elem_of_cons in HbP as [->|?]; [|done].
  rewrite dblk_apply_out; [rewrite dblk_insert; by rewrite decide_True|].
  rewrite <- list_fmap_compose. by intros (x & -> & Hx)%list_elem_of_fmap.
Qed.

(** The disk right after the commit point. *)
Lemma committed_disk d V P h :
  valid_disk d -> (forall b, b ∈ P -> home_ok b) -> NoDup P -> zlen P <= size - 1 ->
  blocks_ok V -> (forall b, b ∉ P -> V b = dblk d b) -> header_of h P ->
  let d1 := apply_writes (((fun j => (start + 1 + j, V (nthZ 0 P j))) <$> seqZ 0 (zlen P)) ++ [(start, h)]) d in
  valid_disk d1 /\ home_writes d1 = (fun b => (b, V b)) <$> P /\
  forall b, ~ in_log b -> eff d1 b = V b.
Proof.
  intros Hv Hh Hnd Hmax HV Hcl (Hhz & Hhn & Hhb) d1. set (lw := _ <$> seqZ 0 (zlen P)) in *.
  assert (Hd1 : forall b, dblk d1 b = if decide (b = start) then h else dblk (apply_writes lw d) b).
  { intros b. unfold d1. rewrite apply_writes_app. cbn. apply dblk_insert. }
  assert (Hs : dblk d1 start = h) by (rewrite Hd1; by rewrite decide_True).
  assert (Hlw : forall j, 0 <= j < zlen P -> dblk d1 (start + 1 + j) = V (nthZ 0 P j)).
  { intros j Hj. rewrite Hd1, decide_False by lia. unfold lw.
    assert (Hsplit : seqZ 0 (zlen P) = seqZ 0 (j + 1) ++ seqZ (j + 1) (zlen P - (j + 1))).
    { rewrite <- (Z.add_0_l (j + 1)) at 2. rewrite <- seqZ_app by lia. f_equal. lia. }
    rewrite Hsplit, fmap_app, apply_writes_app, dblk_apply_out.
    - rewrite seqZ_app, fmap_app, apply_writes_app by lia. change (seqZ (0 + j) 1) with [0 + (0 + j)].
      cbn. rewrite dblk_insert, !Z.add_0_l. by rewrite decide_True.
    - rewrite <- list_fmap_compose. intros (t & Ht & Hts%elem_of_seqZ)%list_elem_of_fmap. cbn in Ht. lia. }
  assert (Hhome : home_writes d1 = (fun b => (b, V b)) <$> P).
  { unfold home_writes. rewrite Hs, Hhn. apply list_eq. intros k. rewrite !list_lookup_fmap.
    destruct (decide (k < length P)%nat) as [Hk|Hk].
    - rewrite lookup_seqZ_lt by (unfold zlen; lia). cbn. replace (0 + Z.of_nat k) with (Z.of_nat k) by lia.
      rewrite Hlw, Hhb by (unfold zlen; lia).
      pose proof (lookup_nthZ 0 P (Z.of_nat k) ltac:(unfold zlen; lia)) as Hl. rewrite Nat2Z.id in Hl.
      by rewrite Hl.
    - rewrite lookup_seqZ_ge by (unfold zlen; lia). by rewrite (lookup_ge_None_2 P) by lia. }
  assert (Hbs : hdr_blocks h = P).
  { apply (nthZ_ext 0).
    - apply Nat2Z.inj. pose proof (zlen_nonneg P). pose proof (zlen_hdr_blocks h). unfold zlen in *. lia.
    - intros i Hi. pose proof (zlen_nonneg P). rewrite zlen_hdr_blocks in Hi by lia.
      rewrite nthZ_hdr_blocks by lia. apply Hhb. lia. }
  pose proof (zlen_nonneg P). split; [|split; [done|]].
  - split; [|rewrite Hs, Hhn, Hbs; split; [lia|]; split; [|done]].
    + apply apply_writes_len; [apply Hv|]. intros p [(j & -> & _)%list_elem_of_fmap|Hp%list_elem_of_singleton]%elem_of_app.
      * apply HV.
      * by rewrite Hp.
    + intros t Ht. rewrite Hhb by done. apply Hh. eapply list_elem_of_lookup_2, (lookup_nthZ 0). lia.
  - intros b Hb. unfold eff. rewrite Hhome. destruct (decide (b ∈ P)) as [HbP|HbP].
    + by apply dblk_apply_home.
    + rewrite dblk_apply_out.
      2: { rewrite <- list_fmap_compose. by intros (x & -> & Hx)%list_elem_of_fmap. }
      rewrite Hd1, decide_False by (intros ->; apply Hb; unfold in_log; lia).
      rewrite dblk_apply_out; [by rewrite Hcl|]. unfold lw. rewrite <- list_fmap_compose.
      intros (j & -> & Hj%elem_of_seqZ)%list_elem_of_fmap. apply Hb. unfold in_log. cbn. lia.
Qed.

(** A transaction ready to commit: the blocks [P] are logged and pinned, [V]
    is what the system calls of the transaction have made of the disk. *)
Record ready (s : lst) (V : Z -> list Z) (P : list Z) : Prop := {
  rd_log : logwf (lg s) P;
  rd_bio : brep (lbio s) V ∅ P [];
  rd_len : blocks_ok V;
  rd_disk : valid_disk (disk (lbio s));
  rd_hdr : hdr_n (dblk (disk (lbio s)) start) = 0;
  rd_out : l_outstanding (lg s) = 1;
  rd_com : l_committing (lg s) = false
}.

Lemma commit_prefix d V P h1 h0 w :
  valid_disk d -> hdr_n (dblk d start) = 0 -> (forall b, b ∈ P -> home_ok b) -> NoDup P ->
  zlen P <= size - 1 -> blocks_ok V -> (forall b, b ∉ P -> V b = dblk d b) ->
  header_of h1 P -> header_of h0 [] ->
  w `prefix_of` ((fun j => (start + 1 + j, V (nthZ 0 P j))) <$> seqZ 0 (zlen P)) ++
             [(start, h1)] ++ ((fun b => (b, V b)) <$> P) ++ [(start, h0)] ->
  valid_disk (apply_writes w d) /\
  forall b, ~ in_log b ->
    eff (apply_writes w d) b = if decide (zlen w <= zlen P) then dblk d b else V b.
Proof.
  intros Hv Hn Hh Hnd Hmax HV Hcl Hh1 Hh0 Hw. set (lw := _ <$> seqZ 0 (zlen P)) in *.
  assert (Hllw : zlen lw = zlen P).
  { unfold lw, zlen. rewrite length_fmap, length_seqZ. lia. }
  assert (Hlog : forall p, p ∈ lw -> zlen p.2 = BSIZE /\ start < p.1 < start + size).
  { intros p (j & -> & Hj%elem_of_seqZ)%list_elem_of_fmap. cbn. split; [apply HV|lia]. }
  apply prefix_app_or in Hw as [Hw|(q & -> & Hq)].
  - destruct (eff_logging d w Hv Hn) as (Hv' & _ & He).
    { intros p Hp. apply Hlog. destruct Hw as [k ->]. apply elem_of_app. by left. }
    split; [done|]. intros b Hb. rewrite decide_True; [by apply He|].
    apply prefix_length in Hw. unfold zlen in *. lia.
  - destruct (prefix_app_or _ _ _ Hq) as [[->| ->]%prefix_singleton|(q' & -> & Hq')].
    + rewrite app_nil_r. destruct (eff_logging d lw Hv Hn Hlog) as (Hv' & _ & He).
      split; [done|]. intros b Hb. rewrite decide_True by lia. by apply He.
    + destruct (committed_disk d V P h1 Hv Hh Hnd Hmax HV Hcl Hh1) as (Hv1 & _ & He).
      split; [done|]. intros b Hb. rewrite decide_False; [by apply He|].
      rewrite zlen_app. unfold zlen at 2. cbn. lia.
    + destruct (committed_disk d V P h1 Hv Hh Hnd Hmax HV Hcl Hh1) as (Hv1 & Hhw & He).
      rewrite app_assoc, apply_writes_app. fold lw in Hv1, Hhw, He. rewrite <- Hhw in Hq'.
      destruct (eff_recovering _ h0 q' Hv1 Hh0 Hq') as (Hv2 & He2). split; [done|].
      intros b Hb. rewrite decide_False; [rewrite He2 by done; by apply He|].
      rewrite !zlen_app. pose proof (zlen_nonneg q'). change (zlen [(start, h1)]) with 1. lia.
Qed.
(** ** log_write *)

Lemma log_slot_spec n i l P b :
  logwf l P -> home_ok b -> 0 <= i -> zlen P - i = Z.of_nat n ->
  (forall j, 0 <= j < i -> nthZ 0 P j <> b) ->
  let k := log_slot n i l b in
  (b ∈ P -> 0 <= k < zlen P /\ nthZ 0 P k = b) /\ (b ∉ P -> k = zlen P).
Proof.
  intros Hl Hb. revert i. induction n as [|n IH]; intros i Hi Hn Hpre; cbn [log_slot].
  - split; [|lia]. intros HbP. exfalso.
    apply list_elem_of_lookup in HbP as [j Hj]. pose proof (lookup_lt_Some _ _ _ Hj).
    apply (Hpre (Z.of_nat j)); [unfold zlen in *; lia|].
    apply nthZ_lookup; [lia|]. by rewrite Nat2Z.id.
  - rewrite (lw_n _ _ Hl). destruct (Z.ltb_spec i (zlen P)); [|lia].
    rewrite (lw_blocks _ _ Hl i) by lia.
    assert (HiP : nthZ 0 P i ∈ P) by (eapply list_elem_of_lookup_2, (lookup_nthZ 0); lia).
    destruct (lw_home _ _ Hl _ HiP) as [Hr _]. rewrite u32_small by lia.
    destruct (Z.eqb_spec (nthZ 0 P i) b) as [He|He].
    + split; [intros _; split; [lia|done]|]. intros Hn'. rewrite He in HiP. done.
    + apply IH; [lia|lia|]. intros j Hj. destruct (decide (j = i)) as [->|]; [done|apply Hpre; lia].
Qed.

Lemma brep_logged s V H P D b : brep s V H P D -> b ∈ P -> brep s V H P (without b D).
Proof.
  intros [HC Hr] Hb. split; [|done]. destruct HC. split; try done.
  - intros x Hx HxD. apply bc_clean; [done|]. intros Hc. apply HxD, elem_of_without.
    split; [|done]. intros ->. done.
  - intros x [_ Hx]%elem_of_without. by apply bc_dirty.
Qed.

(** log_write() records the block once and keeps its buffer in the cache. *)
Lemma log_write_spec s V H P D i b :
  logwf (lg s) P -> brep (lbio s) V H P D -> H !! i = Some b -> home_ok b ->
  zlen P < size - 1 -> 1 <= l_outstanding (lg s) ->
  exists s', log_write i s = Ret tt s' /\
    let P' := if decide (b ∈ P) then P else P ++ [b] in
    logwf (lg s') P' /\ brep (lbio s') V H P' (without b D) /\
    l_outstanding (lg s') = l_outstanding (lg s) /\ l_committing (lg s') = l_committing (lg s) /\
    disk (lbio s') = disk (lbio s) /\ writes (lbio s') = writes (lbio s) /\
    curpid (lbio s') = curpid (lbio s).
Proof.
  intros Hl HB HH Hb HP Hout. unfold log_write.
  assert (Hacq : lacquire s = Ret tt (upd_log (set_l_lock true) s)).
  { unfold lacquire, lk_acquire. by rewrite (lw_lock _ _ Hl). }
  erewrite bind_Ret by exact Hacq. erewrite bind_Ret by reflexivity. cbn [lg upd_log lh_n l_size l_outstanding set_l_lock].
  rewrite (lw_n _ _ Hl), (lw_size _ _ Hl). pose proof (zlen_nonneg P).
  destruct (Z.leb_spec LOGSIZE (zlen P)); [lia|]. destruct (Z.leb_spec (size - 1) (zlen P)); [lia|].
  cbn [orb]. destruct (Z.ltb_spec (l_outstanding (lg s)) 1); [lia|].
  pose proof HB as [HC Hr]. destruct (held_fields _ _ _ _ _ _ _ HC HH) as (_ & _ & Hf).
  assert (Hbn : on_bio (getb i b_blockno) (upd_log (set_l_lock true) s) = Ret b (upd_log (set_l_lock true) s)).
  { unfold on_bio, zoom, getb, gets. cbn. by rewrite Hf. }
  erewrite bind_Ret by exact Hbn. set (l1 := set_l_lock true (lg s)).
  pose proof (log_slot_spec (Z.to_nat (zlen P)) 0 (lg s) P b Hl Hb) as Hslot.
  assert (Hsl : log_slot (Z.to_nat (zlen P)) 0 l1 b = log_slot (Z.to_nat (zlen P)) 0 (lg s) b).
  { generalize (Z.to_nat (zlen P)), 0. intros n. induction n as [|n IH]; intros z; [done|].
    cbn [log_slot l1 set_l_lock lh_n lh_block]. destruct (z <? lh_n (lg s)); [|done]. by rewrite IH. }
  rewrite Hsl. set (k := log_slot _ 0 (lg s) b) in *. cbv zeta in Hslot.
  destruct Hslot as [Hin Hnin]; [lia|lia|lia|]. erewrite bind_Ret by reflexivity.
  destruct Hb as [Hbr Hbl]. rewrite s32_small by lia. case_decide as HbP.
  - destruct (Hin HbP) as [Hk Hkb]. destruct (Z.eqb_spec k (zlen P)); [lia|].
    erewrite bind_Ret by reflexivity. eexists. split; [reflexivity|].
    cbn [l_lock l_start l_size l_dev lh_n lh_block l_outstanding l_committing set_l_lock set_lh_block set_lh_n set_lbio lbio lg upd_log].
    split; [|split; [by apply brep_logged|done]]. destruct Hl. split;
      cbn [l_lock l_start l_size l_dev lh_n lh_block l_outstanding l_committing set_l_lock set_lh_block set_lh_n set_lbio lbio lg upd_log]; try done.
    + by rewrite zlen_updZ.
    + intros j Hj. destruct (decide (j = k)) as [->|].
      * rewrite nthZ_updZ_eq by lia. done.
      * rewrite nthZ_updZ_ne by done. by apply lw_blocks0.
  - rewrite (Hnin HbP), Z.eqb_refl.
    destruct (bpin_spec (lbio s) V H P D i b HB HH HbP) as (b1 & E1 & HB1 & Hd1 & Hw1 & Hp1).
    erewrite bind_Ret.
    2: { erewrite bind_Ret by (apply on_bio_Ret; exact E1). reflexivity. }
    eexists. split; [reflexivity|].
    cbn [l_lock l_start l_size l_dev lh_n lh_block l_outstanding l_committing set_l_lock set_lh_block set_lh_n set_lbio lbio lg upd_log].
    split; [|split; [done|split_and!; try done; congruence]].
    pose proof Hsize as Hsz. destruct Hl.
    assert (Hz1 : zlen (P ++ [b]) = zlen P + 1) by (by rewrite zlen_app).
    split; cbn [l_lock l_start l_size l_dev lh_n lh_block l_outstanding l_committing set_l_lock set_lh_block set_lh_n set_lbio lbio lg upd_log]; rewrite ?Hz1; try done; try lia.
    + by rewrite zlen_updZ.
    + intros j Hj. rewrite nthZ_app by lia. destruct (Z.ltb_spec j (zlen P)).
      * rewrite nthZ_updZ_ne by lia. apply lw_blocks0. lia.
      * replace j with (zlen P) by lia. rewrite nthZ_updZ_eq by lia. by rewrite Z.sub_diag.
    + intros x [Hx|Hx%list_elem_of_singleton]%elem_of_app; [by apply lw_home0|by subst].
    + apply NoDup_app. split; [done|]. split; [|apply NoDup_singleton].
      intros x Hx ->%list_elem_of_singleton. done.
Qed.
(** ** The last end_op of a transaction *)

Lemma eff_no_log d b : hdr_n (dblk d start) = 0 -> eff d b = dblk d b.
Proof. intros Hn. unfold eff, home_writes. by rewrite Hn. Qed.

Lemma end_op_last s V P :
  ready s V P ->
  exists s' w, end_op s = Ret tt s' /\
    writes (lbio s') = writes (lbio s) ++ w /\
    disk (lbio s') = apply_writes w (disk (lbio s)) /\
    (forall p, p `prefix_of` w ->
       valid_disk (apply_writes p (disk (lbio s))) /\
       forall b, ~ in_log b -> eff (apply_writes p (disk (lbio s))) b =
         if decide (zlen p <= zlen P) then dblk (disk (lbio s)) b else V b) /\
    logwf (lg s') [] /\ l_outstanding (lg s') = 0 /\ l_committing (lg s') = false /\
    brep (lbio s') (dblk (disk (lbio s'))) ∅ [] [] /\
    hdr_n (dblk (disk (lbio s')) start) = 0 /\
    (forall b, ~ in_log b -> dblk (disk (lbio s')) b = V b).
Proof.
  intros [Hl HB HV Hvd Hhdr Hout Hcom]. pose proof HB as [HC _].
  assert (Hcl : forall b, b ∉ P -> V b = dblk (disk (lbio s)) b).
  { intros b Hb. apply (bc_clean _ _ _ _ _ HC); [done|apply not_elem_of_nil]. }
  unfold end_op. erewrite bind_Ret by (unfold lacquire, lk_acquire; rewrite (lw_lock _ _ Hl); reflexivity).
  do 2 erewrite bind_Ret by reflexivity. cbn [lg upd_log l_committing set_l_outstanding set_l_lock l_outstanding].
  rewrite Hcom, Hout. change (1 - 1 =? 0) with true. cbv iota zeta.
  erewrite bind_Ret by reflexivity. erewrite bind_Ret by reflexivity.
  set (s1 := upd_log (set_l_lock false) _).
  assert (Hl1 : logwf (lg s1) P) by (destruct Hl; by split).
  destruct (decide (P = [])) as [->|Hne].
  - assert (E1 : commit s1 = Ret tt s1).
    { unfold commit. erewrite bind_Ret by reflexivity. by rewrite (lw_n _ _ Hl1). }
    erewrite bind_Ret by exact E1. do 2 erewrite bind_Ret by reflexivity.
    eexists _, []. split; [reflexivity|]. cbn [lbio upd_log s1]. rewrite app_nil_r.
    split; [done|]. split; [done|]. split.
    { intros p ->%prefix_nil_inv. split; [done|]. intros b _. cbn. by apply eff_no_log. }
    split; [destruct Hl; by split|]. split; [cbn; lia|]. split; [done|]. split; [|split; [done|]].
    + eapply brep_ext; [|exact HB]. intros x. apply Hcl. apply not_elem_of_nil.
    + intros b _. symmetry. apply Hcl. apply not_elem_of_nil.
  - assert (Hpos : 0 < zlen P) by (destruct P; [done|]; unfold zlen; cbn [length]; lia).
    destruct (commit_spec s1 V P Hl1 HB HV Hpos) as (s2 & h1 & h0 & E2 & Hh1 & Hh0 & Hg2 & Hd2 & Hw2 & HB2).
    erewrite bind_Ret by exact E2.
    assert (Hacq : lacquire s2 = Ret tt (upd_log (set_l_lock true) s2)).
    { unfold lacquire, lk_acquire. by rewrite Hg2. }
    erewrite bind_Ret by exact Hacq. erewrite bind_Ret by reflexivity.
    eexists _, _. split; [reflexivity|]. cbn [lbio upd_log]. split; [exact Hw2|]. split; [exact Hd2|].
    assert (Hpre : forall p, _ -> _ /\ _) by (intros p Hp; exact (commit_prefix (disk (lbio s)) V P h1 h0 p Hvd Hhdr
      (lw_home _ _ Hl) (lw_nodup _ _ Hl) (lw_max _ _ Hl) HV Hcl Hh1 Hh0 Hp)).
    split; [exact Hpre|].
    split.
    { pose proof (logwf_empty _ _ Hl1) as Hl2. destruct Hl2. cbn [lg upd_log]. rewrite Hg2. by split. }
    cbn [lg upd_log]. rewrite Hg2. split; [cbn; lia|]. split; [done|]. split; [done|].
    destruct (committed_disk (disk (lbio s)) V P h1 Hvd (lw_home _ _ Hl) (lw_nodup _ _ Hl) (lw_max _ _ Hl) HV Hcl Hh1)
      as (Hv1 & Hhw & He1).
    destruct (eff_cleared _ h0 Hv1 Hh0) as (_ & Hn0 & Hfin).
    rewrite Hhw in Hn0, Hfin. rewrite Hd2. change (lbio s1) with (lbio s).
    rewrite app_assoc, (apply_writes_app _ (((fun b => (b, V b)) <$> P) ++ [(start, h0)])).
    split; [exact Hn0|]. intros b Hb. rewrite (proj2 (Hfin b Hb)). by apply He1.
Qed.
(** ** Booting from a crashed disk *)

(** main() runs binit(), fsinit() runs initlog(). *)
Definition boot_log (sb : superblock) : M lst unit := on_bio binit ;; initlog ROOTDEV sb.

Definition machine (d : gmap Z (list Z)) (pid : Z) : lst := Lst (boot d pid) log0.

Lemma boot_log_spec d pid sb :
  valid_disk d -> sb_logstart sb = start -> sb_nlog sb = size ->
  exists s', boot_log sb (machine d pid) = Ret tt s' /\
    logwf (lg s') [] /\ l_outstanding (lg s') = 0 /\ l_committing (lg s') = false /\
    brep (lbio s') (dblk (disk (lbio s'))) ∅ [] [] /\
    valid_disk (disk (lbio s')) /\ hdr_n (dblk (disk (lbio s')) start) = 0 /\
    (forall b, ~ in_log b -> dblk (disk (lbio s')) b = eff d b) /\
    (forall r, r `prefix_of` writes (lbio s') ->
       valid_disk (apply_writes r d) /\
       forall b, ~ in_log b -> eff (apply_writes r d) b = eff d b).
Proof.
  intros Hv Hst Hsz. destruct (binit_spec d pid) as (b1 & E1 & HB1 & Hd1 & Hw1 & Hp1).
  unfold boot_log. erewrite bind_Ret by (apply on_bio_Ret; exact E1).
  unfold initlog. change (BSIZE <=? sizeof_logheader) with false. cbv iota.
  do 2 erewrite bind_Ret by reflexivity. set (s1 := upd_log (set_l_geom _ _ _) _).
  assert (Hg1 : loggeom (lg s1)).
  { unfold s1, loggeom. cbn. rewrite Hst, Hsz, !s32_small by lia. split_and!; reflexivity. }
  destruct (recover_spec s1 (dblk d) Hg1) as (s2 & h & E2 & Hl2 & Hh & HB2 & Hd2 & Hw2); cbn [lbio upd_log s1 set_lbio].
  { exact HB1. }
  { by rewrite Hd1. }
  cbn [lbio upd_log s1 set_lbio] in Hd2, Hw2. rewrite Hd1 in Hd2. rewrite Hd1, Hw1 in Hw2.
  destruct (eff_cleared d h Hv Hh) as (Hv2 & Hn2 & He2).
  exists s2. split; [exact E2|]. split; [done|].
  assert (Hflags : l_outstanding (lg s2) = 0 /\ l_committing (lg s2) = false).
  { apply recover_flags in E2 as E3. injection E3 as -> ->. split; reflexivity. }
  clearbody s1. destruct Hflags. do 2 (split; [assumption|]). split; [assumption|]. rewrite Hd2. split; [done|]. split; [done|].
  split; [intros b Hb; by apply He2|]. intros r Hr. rewrite Hw2 in Hr. by apply (eff_recovering d h).
Qed.
(** ** Crash safety *)

(** A crash while recovery runs on [d]. *)
Definition crash_step (sb : superblock) (d d' : gmap Z (list Z)) : Prop :=
  exists pid s r, boot_log sb (machine d pid) = Ret tt s /\ r `prefix_of` writes (lbio s) /\
    d' = apply_writes r d.

Lemma crash_steps_eff sb d d' :
  valid_disk d -> sb_logstart sb = start -> sb_nlog sb = size -> rtc (crash_step sb) d d' ->
  valid_disk d' /\ forall b, ~ in_log b -> eff d' b = eff d b.
Proof.
  intros Hv Hst Hsz Hr. induction Hr as [d|d d1 d2 (pid & s & r & E & Hp & ->) _ IH]; [done|].
  destruct (boot_log_spec d pid sb Hv Hst Hsz) as (s1 & E1 & _ & _ & _ & _ & _ & _ & _ & Hpre).
  rewrite E1 in E. injection E as <-. destruct (Hpre r Hp) as [Hv1 He1].
  destruct (IH Hv1) as [Hv2 He2]. split; [done|]. intros b Hb. rewrite He2 by done. by apply He1.
Qed.

End Geometry.

(** ** begin_op *)

Lemma begin_op_ok start size s P :
  logwf start size (lg s) P -> l_committing (lg s) = false ->
  zlen P + (l_outstanding (lg s) + 1) * MAXOPBLOCKS <= LOGSIZE ->
  exists s', begin_op s = Ret tt s' /\ lbio s' = lbio s /\ logwf start size (lg s') P /\
    l_outstanding (lg s') = l_outstanding (lg s) + 1 /\ l_committing (lg s') = false.
Proof.
  intros Hl Hc Hr. unfold begin_op.
  erewrite bind_Ret by (unfold lacquire, lk_acquire; rewrite (lw_lock _ _ _ _ Hl); reflexivity).
  erewrite bind_Ret by reflexivity. cbn [lg upd_log set_l_lock l_committing lh_n l_outstanding].
  rewrite Hc, (lw_n _ _ _ _ Hl). destruct (Z.ltb_spec LOGSIZE (zlen P + (l_outstanding (lg s) + 1) * MAXOPBLOCKS)); [lia|].
  erewrite bind_Ret by reflexivity. eexists. split; [reflexivity|].
  split; [done|]. split; [destruct Hl; by split|]. done.
Qed.

(** ** An empty disk *)

Module Sample.
Definition sb : superblock := Superblock 0x10203040 2000 1954 200 30 2 32 45.

Lemma empty_disk_valid : valid_disk 2 30 ∅.
Proof.
  assert (Hz : forall b, dblk ∅ b = zero_block) by (intros b; unfold dblk; by rewrite lookup_empty).
  assert (Hn : hdr_n zero_block = 0) by (vm_compute; reflexivity).
  split; [intros b; rewrite Hz; vm_compute; reflexivity|]. rewrite Hz, Hn.
  split; [lia|]. split; [lia|]. unfold hdr_blocks. rewrite Hn. apply NoDup_nil_2.
Qed.

End Sample.
