(* ===== verification/LogRun.v ===== *)
(** * Runs of file-system calls and crashes

    What the log promises to the calls above it: whatever they do between
    begin_op() and end_op(), a crash at any block write, also during recovery,
    leaves the disk of a whole number of commits.  [tx] is the specification,
    [run_acts] the code. *)

From Stdlib Require Import ZArith Lia.
From stdpp Require Import base numbers list list_numbers gmap strings sorting.
From S2P Require Import Prelude Cstring Bytes Sleeplock Bio Bcache Log Recovery.

(** What calls do to the log and the blocks: bread(), look at or replace the
    contents, log_write(), brelse(). *)
Inductive act := ABegin | ARead (b : Z) | AWrite (b : Z) (d : list Z) | AEnd.

(** One act, with what its caller reads. *)
Definition run_act (a : act) : M lst (list Z) :=
  match a with
  | ABegin => begin_op ;; ret []
  | ARead b =>
      let* i := on_bio (bread ROOTDEV b) in
      let* d := on_bio (bdata i) in
      on_bio (brelse i) ;;
      ret d
  | AWrite b d =>
      let* i := on_bio (bread ROOTDEV b) in
      on_bio (set_bdata i d) ;;
      log_write i ;;
      on_bio (brelse i) ;;
      ret []
  | AEnd => end_op ;; ret []
  end.

Fixpoint run_acts (l : list act) : M lst (list (list Z)) :=
  match l with
  | [] => ret []
  | a :: l' => let* r := run_act a in let* rs := run_acts l' in ret (r :: rs)
  end.

(** ** The specification *)

(** The contents a crash brings back, the contents the calls see, the blocks
    changed since the last commit, the calls under way. *)
Record tx := Tx { t_disk : Z -> list Z; t_now : Z -> list Z; t_logged : list Z; t_out : Z }.

(** The last call to end commits what all of them did. *)
Definition next (t : tx) (a : act) : tx :=
  match a with
  | ABegin => Tx (t_disk t) (t_now t) (t_logged t) (t_out t + 1)
  | ARead _ => t
  | AWrite b d => Tx (t_disk t) (vset (t_now t) b d)
                     (if decide (b ∈ t_logged t) then t_logged t else t_logged t ++ [b]) (t_out t)
  | AEnd => if decide (t_out t = 1) then Tx (t_now t) (t_now t) [] 0
            else Tx (t_disk t) (t_now t) (t_logged t) (t_out t - 1)
  end.
Definition answer (t : tx) (a : act) : list Z := match a with ARead b => t_now t b | _ => [] end.

Definition after : tx -> list act -> tx := foldl next.
Fixpoint answers (t : tx) (l : list act) : list (list Z) :=
  match l with [] => [] | a :: l' => answer t a :: answers (next t a) l' end.

Section Geometry.
Context (start size : Z).
Hypothesis Hstart : 0 <= start.
Hypothesis Hsize : 2 <= size <= LOGSIZE.
Hypothesis Hend : start + size < 2 ^ 31.
Notation in_log := (in_log start size).
Notation home_ok := (home_ok start size).
Notation valid_disk := (valid_disk start size).
Notation eff := (eff start).
Notation logwf := (logwf start size).

(** When begin_op() does not wait, log_write() finds room in the log, and
    blocks are those outside it. *)
Definition allowed_act (t : tx) (a : act) : Prop :=
  match a with
  | ABegin => zlen (t_logged t) + (t_out t + 1) * MAXOPBLOCKS <= LOGSIZE
  | ARead b => home_ok b
  | AWrite b d => home_ok b /\ zlen d = BSIZE /\ 1 <= t_out t /\ zlen (t_logged t) < size - 1
  | AEnd => 1 <= t_out t
  end.
Fixpoint legal (t : tx) (l : list act) : Prop :=
  match l with [] => True | a :: l' => allowed_act t a /\ legal (next t a) l' end.

(** The kernel's state behind a [tx]. *)
Record live (s : lst) (t : tx) : Prop := {
  lv_log : logwf (lg s) (t_logged t);
  lv_out : l_outstanding (lg s) = t_out t;
  lv_com : l_committing (lg s) = false;
  lv_bio : exists V, brep (lbio s) V ∅ (t_logged t) [] /\ blocks_ok V /\ forall b, ~ in_log b -> V b = t_now t b;
  lv_valid : valid_disk (disk (lbio s));
  lv_hdr : hdr_n (dblk (disk (lbio s)) start) = 0;
  lv_disk : forall b, ~ in_log b -> dblk (disk (lbio s)) b = t_disk t b
}.

(** A disk that a boot turns into the contents [K]. *)
Definition holds (d : gmap Z (list Z)) (K : Z -> list Z) : Prop :=
  valid_disk d /\ forall b, ~ in_log b -> eff d b = K b.

Lemma live_holds s t : live s t -> holds (disk (lbio s)) (t_disk t).
Proof.
  intros Hl. split; [apply Hl|]. intros b Hb. rewrite eff_no_log by apply Hl. by apply (lv_disk _ _ Hl).
Qed.

(** One act: what it returns, and what its block writes leave on the disk. *)
Definition act_ok (s : lst) (t : tx) (a : act) (s' : lst) (w : list (Z * list Z)) : Prop :=
  run_act a s = Ret (answer t a) s' /\ live s' (next t a) /\
  writes (lbio s') = writes (lbio s) ++ w /\ disk (lbio s') = apply_writes w (disk (lbio s)) /\
  forall p, p `prefix_of` w ->
    holds (apply_writes p (disk (lbio s))) (t_disk t) /\ p <> w \/
    holds (apply_writes p (disk (lbio s))) (t_disk (next t a)).

(** An act that writes nothing. *)
Lemma act_silent s t a s' :
  live s t -> run_act a s = Ret (answer t a) s' -> live s' (next t a) ->
  disk (lbio s') = disk (lbio s) -> writes (lbio s') = writes (lbio s) -> act_ok s t a s' [].
Proof.
  intros Hl E Hl' Hd Hw. split_and!; try done; [by rewrite app_nil_r|].
  intros p ->%prefix_nil_inv. right. cbn. rewrite <- Hd. by apply live_holds.
Qed.

Lemma act_begin s t : live s t -> allowed_act t ABegin -> exists s' w, act_ok s t ABegin s' w.
Proof.
  intros Hl Ha. pose proof Hl as [H1 H2 H3 H4 H5 H6 H7]. cbn in Ha. rewrite <- H2 in Ha.
  destruct (begin_op_ok start size s _ H1 H3 Ha) as (s' & E & Hb & Hl1 & Ho & Hc).
  exists s', []. apply act_silent; try done; try (by rewrite Hb).
  - cbn. by erewrite bind_Ret by exact E.
  - split; cbn; rewrite ?Hb; try done. by rewrite Ho, H2.
Qed.

Lemma act_end_more s t : live s t -> t_out t <> 1 -> exists s' w, act_ok s t AEnd s' w.
Proof.
  intros Hl Hn. pose proof Hl as [H1 H2 H3 H4 H5 H6 H7].
  assert (E : end_op s = Ret tt (upd_log (fun l => set_l_lock false (set_l_outstanding (t_out t - 1) (set_l_lock true l))) s)).
  { unfold end_op. erewrite bind_Ret by (unfold lacquire, lk_acquire; rewrite (lw_lock _ _ _ _ H1); reflexivity).
    do 2 erewrite bind_Ret by reflexivity. cbn [lg upd_log l_committing set_l_outstanding set_l_lock l_outstanding].
    rewrite H3, H2. destruct (Z.eqb_spec (t_out t - 1) 0); [lia|]. cbv iota zeta.
    erewrite bind_Ret by reflexivity. erewrite bind_Ret by reflexivity. unfold upd_log, set_l_outstanding. cbn. by rewrite H2. }
  eexists _, []. apply act_silent; [done|..].
  - cbn [run_act]. by erewrite bind_Ret by exact E.
  - cbn [next]. rewrite decide_False by done. split; cbn; try done. destruct H1. by split.
  - done.
  - done.
Qed.

Lemma act_end_last s t : live s t -> t_out t = 1 -> exists s' w, act_ok s t AEnd s' w.
Proof.
  intros Hl Hn. pose proof Hl as [H1 H2 H3 (V & HB & HV & HVt) H5 H6 H7].
  destruct (end_op_last start size Hstart Hsize Hend s V (t_logged t)) as
    (s' & w & E & Hw & Hd & Hpre & Hl' & Ho & Hc & HB' & Hh & Hf); [split; try done; by rewrite H2|].
  assert (Hnx : next t AEnd = Tx (t_now t) (t_now t) [] 0) by (cbn; by rewrite decide_True).
  assert (Hv' : valid_disk (disk (lbio s'))) by (rewrite Hd; apply Hpre; done).
  assert (Hnow : forall b, ~ in_log b -> dblk (disk (lbio s')) b = t_now t b) by (intros b Hb; rewrite Hf by done; by apply HVt).
  exists s', w. split; [cbn; by erewrite bind_Ret by exact E|]. rewrite Hnx. split.
  { split; cbn; try done. exists (dblk (disk (lbio s'))). split; [done|]. split; [exact (proj1 Hv')|done]. }
  split; [done|]. split; [done|]. intros p Hp. destruct (decide (p = w)) as [->|Hne].
  - right. rewrite <- Hd. split; [done|]. intros b Hb. rewrite eff_no_log by done. by apply Hnow.
  - destruct (Hpre p Hp) as [Hv He]. destruct (decide (zlen p <= zlen (t_logged t))).
    + left. split; [|done]. split; [done|]. intros b Hb. rewrite He by done. by apply H7.
    + right. split; [done|]. intros b Hb. rewrite He by done. by apply HVt.
Qed.

(** There is always a buffer beside the logged blocks'. *)
Lemma room (P : list Z) : zlen P <= size - 1 -> (length P < Z.to_nat NBUF)%nat.
Proof using Hsize. unfold zlen, LOGSIZE, NBUF, MAXOPBLOCKS in *. lia. Qed.

Lemma live_bread s t V b :
  live s t -> brep (lbio s) V ∅ (t_logged t) [] ->
  exists i b', bread ROOTDEV b (lbio s) = Ret i b' /\ brep b' V {[ i := b ]} (t_logged t) [] /\
    disk b' = disk (lbio s) /\ writes b' = writes (lbio s).
Proof using Hsize.
  intros Hl HB. destruct (bread_spec (lbio s) V ∅ (t_logged t) [] b HB) as (i & b' & E & _ & _ & HB' & Hd & Hw & _).
  - intros j. by rewrite lookup_empty.
  - right. rewrite map_size_empty. by apply room, (lw_max _ _ _ _ (lv_log _ _ Hl)).
  - exists i, b'. split_and!; done.
Qed.

Lemma act_read s t b : live s t -> allowed_act t (ARead b) -> exists s' w, act_ok s t (ARead b) s' w.
Proof using Hsize.
  intros Hl [Hbr Hbl]. pose proof Hl as [H1 H2 H3 (V & HB & HV & HVt) H5 H6 H7].
  destruct (live_bread s t V b Hl HB) as (i & b1 & E1 & HB1 & Hd1 & Hw1).
  assert (HH : ({[ i := b ]} : gmap Z Z) !! i = Some b) by apply lookup_singleton_eq.
  destruct (brelse_spec b1 V _ _ [] i b HB1 HH) as (b2 & E2 & HB2 & Hd2 & Hw2 & _); [apply not_elem_of_nil|].
  exists (set_lbio b2 s), []. apply act_silent; try done.
  - cbn [run_act answer]. erewrite bind_Ret by (apply on_bio_Ret; exact E1).
    erewrite bind_Ret by (by eapply on_bio_Ret, bdata_held).
    erewrite bind_Ret by (apply on_bio_Ret; exact E2). by rewrite HVt.
  - assert (Hd : disk b2 = disk (lbio s)) by congruence.
    split; cbn [lg lbio set_lbio next]; rewrite ?Hd; try done. exists V. split; [|done].
    by rewrite delete_singleton_eq in HB2.
  - cbn. congruence.
  - cbn. congruence.
Qed.

Lemma act_write s t b d : live s t -> allowed_act t (AWrite b d) -> exists s' w, act_ok s t (AWrite b d) s' w.
Proof using Hsize.
  intros Hl (Hb & Hz & Hn & Hroom). pose proof Hl as [H1 H2 H3 (V & HB & HV & HVt) H5 H6 H7].
  destruct (live_bread s t V b Hl HB) as (i & b1 & E1 & HB1 & Hd1 & Hw1).
  assert (HH : ({[ i := b ]} : gmap Z Z) !! i = Some b) by apply lookup_singleton_eq.
  destruct (set_bdata_spec b1 V _ _ [] i b d HB1 HH) as (b2 & E2 & HB2 & Hd2 & Hw2 & _).
  destruct (log_write_spec start size Hsize (set_lbio b2 s) _ _ _ _ i b H1 HB2 HH Hb Hroom ltac:(cbn; by rewrite H2))
    as (s3 & E3 & Hl3 & HB3 & Ho3 & Hc3 & Hd3 & Hw3 & _).
  destruct (brelse_spec (lbio s3) _ _ _ _ i b HB3 HH) as (b4 & E4 & HB4 & Hd4 & Hw4 & _); [rewrite elem_of_without; tauto|].
  cbn [lbio lg set_lbio] in *. assert (Hd : disk b4 = disk (lbio s)) by congruence.
  exists (set_lbio b4 s3), []. apply act_silent; try done.
  - cbn [run_act answer]. erewrite bind_Ret by (apply on_bio_Ret; exact E1).
    erewrite bind_Ret by (apply on_bio_Ret; exact E2). erewrite bind_Ret by exact E3.
    by erewrite bind_Ret by (apply on_bio_Ret; exact E4).
  - split; cbn [lg lbio set_lbio next t_logged t_out t_now t_disk]; rewrite ?Hd; try done; try congruence.
    exists (vset V b d). split_and!.
    + rewrite delete_singleton_eq in HB4. eapply brep_dirty_ext; [|exact HB4]. intros x.
      rewrite elem_of_without, list_elem_of_singleton. split; [tauto|by intros ?%elem_of_nil].
    + intros x. unfold vset. destruct (decide (x = b)); [done|apply HV].
    + intros x Hx. unfold vset. destruct (decide (x = b)); [done|by apply HVt].
  - cbn. congruence.
Qed.

Lemma act_step s t a : live s t -> allowed_act t a -> exists s' w, act_ok s t a s' w.
Proof using Hstart Hsize Hend.
  intros Hl Ha. destruct a as [|b|b d|].
  - by apply act_begin.
  - by apply act_read.
  - by apply act_write.
  - destruct (decide (t_out t = 1)); [by apply act_end_last|by apply act_end_more].
Qed.

Lemma run_steps l : forall s t, live s t -> legal t l -> exists s', run_acts l s = Ret (answers t l) s' /\ live s' (after t l).
Proof using Hstart Hsize Hend.
  induction l as [|a l IH]; intros s t Hl Hlg; [by exists s|]. destruct Hlg as [Ha Hlg].
  destruct (act_step s t a Hl Ha) as (s1 & w & E & Hl1 & _). destruct (IH s1 (next t a) Hl1 Hlg) as (s2 & E2 & Hl2).
  exists s2. split; [|exact Hl2]. cbn [run_acts]. erewrite bind_Ret by exact E. by erewrite bind_Ret by exact E2.
Qed.

Lemma legal_app t l1 l2 : legal t (l1 ++ l2) -> legal t l1 /\ legal (after t l1) l2.
Proof. revert t. induction l1 as [|a l1 IH]; intros t; [done|]. cbn. intros [? H]. apply IH in H as [? ?]. done. Qed.

(** What a machine finds after a crash on [d]: also if it crashes again while
    it recovers. *)
Lemma recovers sb d d' pid K :
  holds d K -> sb_logstart sb = start -> sb_nlog sb = size -> rtc (crash_step sb) d d' ->
  exists s, boot_log sb (machine d' pid) = Ret tt s /\ live s (Tx K K [] 0) /\ holds d' K.
Proof using Hstart Hsize Hend.
  intros [Hv He] Hst Hsz Hr. destruct (crash_steps_eff start size Hstart Hsize Hend sb d d' Hv Hst Hsz Hr) as [Hv' He'].
  destruct (boot_log_spec start size Hstart Hsize Hend d' pid sb Hv' Hst Hsz) as (s & E & Hl & Ho & Hc & HB & Hvd & Hh & Hd & _).
  assert (HK : forall b, ~ in_log b -> dblk (disk (lbio s)) b = K b) by (intros b Hb; by rewrite Hd, He', He).
  exists s. split; [exact E|]. split.
  - split; cbn [t_logged t_out t_now t_disk]; try assumption. exists (dblk (disk (lbio s))). split; [done|]. split; [exact (proj1 Hvd)|done].
  - split; [done|]. intros b Hb. by rewrite He', He.
Qed.

(** C1: crash safety of the log.  Boot on any disk with a sane log and let
    file-system calls begin, read and write blocks and end, interleaved in any
    way that respects the log's space.  Every act returns, and a read sees the
    last contents written.  If the machine crashes during an act, after any
    prefix of the block writes that act issues, and again any number of times
    in the middle of recovery, the boot that completes finds exactly the
    contents committed before that act or exactly those committed by it; once
    the act has returned, those committed by it.  The contents committed are
    those of the calls when the last one under way ended: never a part of
    them, and never less than what an end_op() that committed has reported.
    The disk of the crash is again one the theorem applies to. *)
Theorem log_crash_safe (sb : superblock) (d0 : gmap Z (list Z)) (pid0 : Z) (acts : list act) :
  sb_logstart sb = start -> sb_nlog sb = size -> valid_disk d0 ->
  let t0 := Tx (eff d0) (eff d0) [] 0 in
  legal t0 acts ->
  exists s0 s', boot_log sb (machine d0 pid0) = Ret tt s0 /\ run_acts acts s0 = Ret (answers t0 acts) s' /\
    forall n a, acts !! n = Some a ->
      exists s1 s2 w, run_acts (take n acts) s0 = Ret (answers t0 (take n acts)) s1 /\
        run_act a s1 = Ret (answer (after t0 (take n acts)) a) s2 /\ writes (lbio s2) = writes (lbio s1) ++ w /\
        forall p d pid, p `prefix_of` w -> rtc (crash_step sb) (apply_writes p (disk (lbio s1))) d ->
          exists s3 j, boot_log sb (machine d pid) = Ret tt s3 /\ (j = n \/ j = Datatypes.S n) /\ (p = w -> j = Datatypes.S n) /\
            valid_disk d /\
            forall b, ~ in_log b ->
              dblk (disk (lbio s3)) b = t_disk (after t0 (take j acts)) b /\ eff d b = t_disk (after t0 (take j acts)) b.
Proof using Hstart Hsize Hend.
  intros Hst Hsz Hv t0 Hlg.
  destruct (recovers sb d0 d0 pid0 (eff d0)) as (s0 & E0 & Hl0 & _); [done..|].
  destruct (run_steps acts s0 t0 Hl0 Hlg) as (s' & E' & _). exists s0, s'. split; [exact E0|]. split; [exact E'|].
  intros n a Hn. rewrite <- (take_drop_middle acts n a Hn) in Hlg. apply legal_app in Hlg as [Hl1 [Ha _]].
  destruct (run_steps (take n acts) s0 t0 Hl0 Hl1) as (s1 & E1 & Hv1).
  destruct (act_step s1 _ a Hv1 Ha) as (s2 & w & E2 & _ & Hw & _ & Hpre). exists s1, s2, w.
  split; [exact E1|]. split; [exact E2|]. split; [exact Hw|]. intros p d pid Hp Hr.
  assert (Hsn : after t0 (take (Datatypes.S n) acts) = next (after t0 (take n acts)) a).
  { rewrite (take_S_r _ _ _ Hn). unfold after. by rewrite foldl_app. }
  destruct (Hpre p Hp) as [[Hh Hne]|Hh]; destruct (recovers sb _ d pid _ Hh Hst Hsz Hr) as (s3 & E3 & Hl3 & Hv3 & He3).
  - exists s3, n. split; [exact E3|]. split; [left; reflexivity|]. split; [intros Heq; contradiction|]. split; [exact Hv3|].
    intros b Hb. split; [apply (lv_disk _ _ Hl3), Hb|apply He3, Hb].
  - exists s3, (Datatypes.S n). split; [exact E3|]. split; [right; reflexivity|]. split; [intros _; reflexivity|]. split; [exact Hv3|].
    rewrite Hsn. intros b Hb. split; [apply (lv_disk _ _ Hl3), Hb|apply He3, Hb].
Qed.
End Geometry.

(** ** Two calls that overlap *)

Module RunSample.
(** The first writes block 100, the second blocks 100 and 101; the commit comes
    when the second ends. *)
Definition fill (v : Z) : list Z := repeat v (Z.to_nat BSIZE).
Definition acts : list act :=
  [ABegin; AWrite 100 (fill 7); ABegin; AEnd; AWrite 100 (fill 8); AWrite 101 (fill 9); ARead 100; AEnd].

Lemma home b : 32 <= b < 2 ^ 31 -> home_ok 2 30 b.
Proof. intros H. split; [lia|]. unfold in_log. lia. Qed.

Lemma acts_legal K : legal 2 30 (Tx K K [] 0) acts.
Proof.
  assert (H1 : 100 ∉ ([] : list Z)) by apply not_elem_of_nil. assert (H2 : 100 ∈ [100]) by left.
  assert (H3 : 101 ∉ [100]) by (intros ?%list_elem_of_singleton; lia).
  unfold acts. repeat (cbn [legal next allowed_act t_logged t_out t_now t_disk app];
    first [rewrite (decide_False _ _ H1)|rewrite (decide_True _ _ H2)|rewrite (decide_False _ _ H3)|rewrite (decide_False (P := 0 + 1 + 1 = 1)) by lia]).
  split_and!; try exact I; try (apply home; lia); vm_compute; congruence.
Qed.
End RunSample.

Lemma log_crash_safe_witness :
  let t0 := Tx (eff 2 ∅) (eff 2 ∅) [] 0 in
  exists s0 s', boot_log Sample.sb (machine ∅ 1) = Ret tt s0 /\
    run_acts RunSample.acts s0 = Ret (answers t0 RunSample.acts) s'.
Proof.
  destruct (log_crash_safe 2 30 ltac:(done) ltac:(done) ltac:(done) Sample.sb ∅ 1 RunSample.acts eq_refl eq_refl
    Sample.empty_disk_valid (RunSample.acts_legal _)) as (s0 & s' & E0 & E1 & _).
  exists s0, s'. split; [exact E0|exact E1].
Defined.
