(* ===== verification/LogSpace.v ===== *)
(** * Log space: what begin_op reserves

    Every admitted call may log MAXOPBLOCKS blocks.  [quotas] is what each
    outstanding call has left of that. *)

From Stdlib Require Import ZArith Lia.
From stdpp Require Import base numbers list list_numbers gmap strings sorting.
From S2P Require Import Prelude Cstring Bytes Sleeplock Bio Bcache Log Recovery.

(** Calls interleaved in any order: one begins, one logs a block within its
    quota, one ends; in between anything may happen that leaves the log
    alone. *)
Inductive tx_step : lst * list Z -> lst * list Z -> Prop :=
| tx_begin s s' q :
    begin_op s = Ret tt s' -> tx_step (s, q) (s', MAXOPBLOCKS :: q)
| tx_write s s' b q1 q q2 :
    0 < q -> log_write b s = Ret tt s' -> tx_step (s, q1 ++ q :: q2) (s', q1 ++ (q - 1) :: q2)
| tx_end s s' q1 q q2 :
    end_op s = Ret tt s' -> tx_step (s, q1 ++ q :: q2) (s', q1 ++ q2)
| tx_other s s' q :
    lg s' = lg s -> tx_step (s, q) (s', q).

Definition sumZ (q : list Z) : Z := foldr Z.add 0 q.

Definition space_ok (c : lst * list Z) : Prop :=
  l_lock (lg c.1) = false /\ LOGSIZE < l_size (lg c.1) /\
  0 <= lh_n (lg c.1) /\ lh_n (lg c.1) + sumZ c.2 <= LOGSIZE /\
  l_outstanding (lg c.1) = zlen c.2 /\ Forall (fun q => 0 <= q <= MAXOPBLOCKS) c.2.

Lemma sumZ_app q1 q2 : sumZ (q1 ++ q2) = sumZ q1 + sumZ q2.
Proof. unfold sumZ. induction q1; simpl; lia. Qed.

Lemma sumZ_nonneg q : Forall (fun q => 0 <= q <= MAXOPBLOCKS) q -> 0 <= sumZ q <= MAXOPBLOCKS * zlen q.
Proof.
  unfold sumZ, zlen. induction 1 as [|x q Hx _ IH]; simpl; [lia|]. unfold MAXOPBLOCKS in *. lia.
Qed.

Lemma begin_op_inv s s' :
  begin_op s = Ret tt s' ->
  lh_n (lg s) + (l_outstanding (lg s) + 1) * MAXOPBLOCKS <= LOGSIZE /\
  lh_n (lg s') = lh_n (lg s) /\ l_outstanding (lg s') = l_outstanding (lg s) + 1 /\
  l_lock (lg s') = false /\ l_size (lg s') = l_size (lg s).
Proof.
  unfold begin_op, lacquire, lk_acquire, bind, getl, gets. destruct (l_lock (lg s)); [done|]. cbn.
  destruct (l_committing (lg s)); [done|].
  destruct (Z.ltb_spec LOGSIZE (lh_n (lg s) + (l_outstanding (lg s) + 1) * MAXOPBLOCKS)); [done|].
  cbn. intros [= <-]. done.
Qed.

Lemma kept_lrelease {X} (f : log -> X) : (forall b l, f (set_l_lock b l) = f l) -> kept f lrelease.
Proof. intros Hf s a s'. unfold lrelease, lk_release. destruct (l_lock (lg s)); [|done]. intros [= <- <-]. apply Hf. Qed.

Lemma kept_lacquire {X} (f : log -> X) : (forall b l, f (set_l_lock b l) = f l) -> kept f lacquire.
Proof. intros Hf s a s'. unfold lacquire, lk_acquire. destruct (l_lock (lg s)); [done|]. intros [= <- <-]. apply Hf. Qed.

Lemma lrelease_free s s' : lrelease s = Ret tt s' -> l_lock (lg s') = false.
Proof. unfold lrelease, lk_release. destruct (l_lock (lg s)); [|done]. by intros [= <-]. Qed.

Lemma log_write_inv b s s' :
  log_write b s = Ret tt s' ->
  (lh_n (lg s') = lh_n (lg s) \/ lh_n (lg s') = lh_n (lg s) + 1) /\
  l_outstanding (lg s') = l_outstanding (lg s) /\ l_lock (lg s') = false /\ l_size (lg s') = l_size (lg s).
Proof.
  unfold log_write. intros ([] & s1 & E1 & E)%bind_inv.
  apply (kept_lacquire (fun l => (lh_n l, l_outstanding l, l_size l))) in E1; [|done]. injection E1 as En Eo Ez.
  apply bind_inv in E as (l & s2 & [= <- <-] & E). rewrite <- En, <- Eo, <- Ez. revert E.
  destruct (_ || _); [done|]. destruct (_ <? 1); [done|]. intros (bn & s3 & E3 & E)%bind_inv.
  apply (kept_on_bio (fun l => (lh_n l, l_outstanding l, l_size l))) in E3. injection E3 as En3 Eo3 Ez3.
  apply bind_inv in E as ([] & s4 & [= <-] & E). apply bind_inv in E as ([] & s5 & E5 & E).
  pose proof (lrelease_free _ _ E) as Hfree.
  apply (kept_lrelease (fun l => (lh_n l, l_outstanding l, l_size l))) in E; [|done]. injection E as En6 Eo6 Ez6.
  rewrite En6, Eo6, Ez6. destruct (_ =? _).
  - apply bind_inv in E5 as ([] & s6 & E6 & [= <-]).
    apply (kept_on_bio (fun l => (lh_n l, l_outstanding l, l_size l))) in E6. injection E6 as En7 Eo7 Ez7. cbn in *.
    split_and!; [right|..]; (lia || done).
  - injection E5 as <-. cbn in *. split_and!; [left|..]; (lia || done).
Qed.

Lemma commit_inv s s' :
  commit s = Ret tt s' -> lh_n (lg s') = Z.min 0 (lh_n (lg s)) /\
  l_outstanding (lg s') = l_outstanding (lg s) /\ l_size (lg s') = l_size (lg s).
Proof.
  unfold commit. intros (n & s1 & [= <- <-] & E)%bind_inv. destruct (Z.ltb_spec 0 (lh_n (lg s))).
  2: { injection E as <-. lia. }
  apply bind_inv in E as ([] & s2 & E2 & E). apply (kept_write_log (fun l => (l_outstanding l, l_size l))) in E2; injection E2 as Eo2 Ez2.
  apply bind_inv in E as ([] & s3 & E3 & E). apply (kept_write_head (fun l => (l_outstanding l, l_size l))) in E3; injection E3 as Eo3 Ez3.
  apply bind_inv in E as ([] & s4 & E4 & E). apply (kept_install_trans (fun l => (l_outstanding l, l_size l))) in E4; injection E4 as Eo4 Ez4.
  apply bind_inv in E as ([] & s5 & [= <-] & E).
  apply (kept_write_head (fun l => (lh_n l, l_outstanding l, l_size l))) in E. injection E as ? ? ?. cbn in *. lia.
Qed.

Lemma end_op_inv s s' :
  0 <= lh_n (lg s) -> end_op s = Ret tt s' ->
  0 <= lh_n (lg s') <= lh_n (lg s) /\ l_outstanding (lg s') = l_outstanding (lg s) - 1 /\
  l_lock (lg s') = false /\ l_size (lg s') = l_size (lg s).
Proof.
  intros Hn. unfold end_op. intros ([] & s1 & E1 & E)%bind_inv.
  apply (kept_lacquire (fun l => (lh_n l, l_outstanding l, l_size l))) in E1; [|done]. injection E1 as En Eo Ez.
  apply bind_inv in E as ([] & s2 & [= <-] & E). apply bind_inv in E as (l & s3 & [= <- <-] & E). revert E.
  cbn [lg upd_log set_l_outstanding l_committing l_outstanding].
  destruct (l_committing (lg s1)); [done|]. cbv zeta. destruct (_ =? 0).
  - intros ([] & s4 & [= <-] & E)%bind_inv. apply bind_inv in E as ([] & s5 & E5 & E).
    apply (kept_lrelease (fun l => (lh_n l, l_outstanding l, l_size l))) in E5; [|done]. injection E5 as En5 Eo5 Ez5.
    apply bind_inv in E as ([] & s6 & E6 & E). apply commit_inv in E6 as (En6 & Eo6 & Ez6).
    apply bind_inv in E as ([] & s7 & E7 & E).
    apply (kept_lacquire (fun l => (lh_n l, l_outstanding l, l_size l))) in E7; [|done]. injection E7 as En7 Eo7 Ez7.
    apply bind_inv in E as ([] & s8 & [= <-] & E).
    pose proof (lrelease_free _ _ E).
    apply (kept_lrelease (fun l => (lh_n l, l_outstanding l, l_size l))) in E; [|done]. injection E as En8 Eo8 Ez8.
    cbn in *. split_and!; (lia || done).
  - intros ([] & s4 & [= <-] & E)%bind_inv. apply bind_inv in E as ([] & s5 & E5 & [= <-]).
    pose proof (lrelease_free _ _ E5).
    apply (kept_lrelease (fun l => (lh_n l, l_outstanding l, l_size l))) in E5; [|done]. injection E5 as En5 Eo5 Ez5.
    cbn in *. split_and!; (lia || done).
Qed.

Lemma tx_step_ok c c' : tx_step c c' -> space_ok c -> space_ok c'.
Proof.
  intros [s s' q E|s s' b q1 q q2 Hq E|s s' q1 q q2 E|s s' q E] (Hfree & Hsz & Hn & Hsum & Hout & Hall); cbn [fst snd] in *.
  - apply begin_op_inv in E as (Hr & En & Eo & El & Ez). apply sumZ_nonneg in Hall as Hs.
    split_and!; cbn [fst snd]; [done|lia|lia|..]; rewrite ?En, ?Eo, ?Hout.
    + change (sumZ (MAXOPBLOCKS :: q)) with (MAXOPBLOCKS + sumZ q). lia.
    + unfold zlen. cbn [length]. lia.
    + constructor; [unfold MAXOPBLOCKS; lia|done].
  - apply log_write_inv in E as (En & Eo & El & Ez). rewrite sumZ_app in *.
    change (sumZ (q :: q2)) with (q + sumZ q2) in Hsum.
    split_and!; cbn [fst snd]; [done|lia|lia|..].
    + rewrite sumZ_app. change (sumZ (q - 1 :: q2)) with (q - 1 + sumZ q2). lia.
    + rewrite Eo, Hout. by rewrite !zlen_app.
    + apply Forall_app in Hall as [H1 H2]. apply Forall_app. split; [done|].
      apply Forall_cons in H2 as [H2 H3]. constructor; [lia|done].
  - apply end_op_inv in E as (En & Eo & El & Ez); [|done]. rewrite sumZ_app in *.
    change (sumZ (q :: q2)) with (q + sumZ q2) in Hsum.
    apply Forall_app in Hall as [H1 H2]. apply Forall_cons in H2 as [H2 H3].
    split_and!; cbn [fst snd]; [done|lia|lia|..].
    + rewrite sumZ_app. lia.
    + rewrite Eo, Hout, !zlen_app. unfold zlen. cbn [length]. lia.
    + by apply Forall_app.
  - unfold space_ok. cbn [fst snd]. by rewrite E.
Qed.

Lemma log_write_room b s :
  l_lock (lg s) = false -> bcache_lock (lbio s) = false -> lh_n (lg s) < LOGSIZE -> lh_n (lg s) < l_size (lg s) - 1 ->
  1 <= l_outstanding (lg s) -> exists s', log_write b s = Ret tt s'.
Proof.
  intros Hl Hb Hn Hz Ho. unfold log_write.
  erewrite bind_Ret by (unfold lacquire, lk_acquire; rewrite Hl; reflexivity). erewrite bind_Ret by reflexivity.
  cbn [lg upd_log lh_n l_size l_outstanding set_l_lock].
  destruct (Z.leb_spec LOGSIZE (lh_n (lg s))); [lia|]. destruct (Z.leb_spec (l_size (lg s) - 1) (lh_n (lg s))); [lia|].
  destruct (Z.ltb_spec (l_outstanding (lg s)) 1); [lia|]. cbn [orb].
  erewrite bind_Ret by reflexivity. cbv zeta. erewrite bind_Ret by reflexivity. destruct (_ =? _).
  - destruct (bpin_returns b (lbio s) Hb) as [s1 E]. 
    erewrite bind_Ret by (erewrite bind_Ret by (apply zoom_Ret; exact E); reflexivity). by eexists.
  - erewrite bind_Ret by reflexivity. by eexists.
Qed.

(** C28: an admitted call finds room for all its blocks.  In a log of more
    than LOGSIZE blocks, however calls interleave, a call that has logged fewer
    than MAXOPBLOCKS blocks passes both guards of log_write(), which returns
    for every buffer; the in-memory header stays within its LOGSIZE entries,
    and log.outstanding counts the calls admitted and not ended.  (mkfs makes a
    log of LOGSIZE blocks, to which this does not apply.) *)
Theorem log_space_reserved (s0 s : lst) (quotas : list Z) (q : Z) :
  lh_n (lg s0) = 0 -> l_outstanding (lg s0) = 0 -> l_lock (lg s0) = false -> LOGSIZE < l_size (lg s0) ->
  rtc tx_step (s0, []) (s, quotas) -> q ∈ quotas -> 0 < q -> bcache_lock (lbio s) = false ->
  0 <= lh_n (lg s) < LOGSIZE /\ l_outstanding (lg s) = zlen quotas /\ forall b, exists s', log_write b s = Ret tt s'.
Proof.
  intros Hn Ho Hl Hz Hr Hq Hpos Hb.
  assert (Hok : space_ok (s, quotas)).
  { eapply (rtc_ind_r (fun c => space_ok c)); [|intros; by eapply tx_step_ok|exact Hr].
    unfold space_ok. cbn [fst snd]. rewrite Hn, Ho. split_and!; [done|done|lia|unfold LOGSIZE, MAXOPBLOCKS; cbn; lia|done|constructor]. }
  destruct Hok as (Hl' & Hz' & Hn0 & Hsum & Hout & Hall). cbn [fst snd] in *.
  apply list_elem_of_split in Hq as (q1 & q2 & ->). rewrite sumZ_app in Hsum.
  change (sumZ (q :: q2)) with (q + sumZ q2) in Hsum. apply Forall_app in Hall as [H1 H2].
  apply Forall_cons in H2 as [_ H2]. apply sumZ_nonneg in H1, H2.
  assert (Hlen : 1 <= l_outstanding (lg s)) by (rewrite Hout, zlen_app; unfold zlen; cbn [length]; lia).
  split_and!; [lia|lia|done|]. intros b. apply log_write_room; try done; lia.
Qed.

(** A log one block longer than mkfs's, with one admitted call. *)
Definition sample_log : log := Log false 2 31 0 false ROOTDEV 0 (repeat 0 (Z.to_nat LOGSIZE)).
Definition sample_state : lst := Lst (boot ∅ 1) sample_log.
Definition sample_begun : lst := upd_log (set_l_outstanding 1) sample_state.

Lemma log_space_reserved_witness :
  0 <= lh_n (lg sample_begun) < LOGSIZE /\ l_outstanding (lg sample_begun) = 1 /\
  forall b, exists s', log_write b sample_begun = Ret tt s'.
Proof.
  apply (log_space_reserved sample_state sample_begun [MAXOPBLOCKS] MAXOPBLOCKS); try reflexivity.
  - apply rtc_once. apply tx_begin. reflexivity.
  - left.
Defined.

(** C33: the space begin_op() promises is one block more than the log that
    mkfs lays out has.  mkfs makes the log LOGSIZE blocks long, header
    included, so log_write() refuses the LOGSIZE-th block of a transaction
    with the panic "too big a transaction", although begin_op() admits as
    many calls as LOGSIZE data blocks allow. *)
Theorem log_space_one_short (s : lst) (P : list Z) (start b : Z) :
  logwf start LOGSIZE (lg s) P -> zlen P = LOGSIZE - 1 ->
  (exists s', log_write b s = Panic "too big a transaction" s') /\
  (forall s0, logwf start LOGSIZE (lg s0) [] -> l_committing (lg s0) = false ->
     l_outstanding (lg s0) = 2 -> exists s1, begin_op s0 = Ret tt s1 /\ l_outstanding (lg s1) * MAXOPBLOCKS = LOGSIZE).
Proof.
  intros Hl HP. split.
  - eexists. unfold log_write.
    erewrite bind_Ret by (unfold lacquire, lk_acquire; rewrite (lw_lock _ _ _ _ Hl); reflexivity).
    erewrite bind_Ret by reflexivity. cbn [lg upd_log lh_n l_size set_l_lock].
    rewrite (lw_n _ _ _ _ Hl), (lw_size _ _ _ _ Hl), HP. reflexivity.
  - intros s0 Hl0 Hc0 Ho0. destruct (begin_op_ok start LOGSIZE s0 [] Hl0 Hc0) as (s1 & E1 & _ & _ & Ho1 & _).
    { rewrite Ho0. done. }
    exists s1. split; [done|]. rewrite Ho1, Ho0. done.
Qed.

Definition full_log : log := Log false 2 30 3 false ROOTDEV 29 (seqZ 100 29 ++ [0]).

Lemma full_log_wf : logwf 2 LOGSIZE full_log (seqZ 100 29).
Proof.
  split; try reflexivity; try done.
  - intros i Hi. change (zlen (seqZ 100 29)) with 29 in Hi. cbn [full_log lh_block].
    rewrite nthZ_app by lia. change (zlen (seqZ 100 29)) with 29.
    destruct (Z.ltb_spec i 29); [done|lia].
  - intros b Hb%elem_of_seqZ. split; [lia|]. unfold in_log. change LOGSIZE with 30. lia.
  - apply NoDup_seqZ.
Qed.

Lemma log_space_one_short_witness :
  (exists s', log_write 0 (Lst (boot ∅ 1) full_log) = Panic "too big a transaction" s') /\
  (forall s0, logwf 2 LOGSIZE (lg s0) [] -> l_committing (lg s0) = false ->
     l_outstanding (lg s0) = 2 -> exists s1, begin_op s0 = Ret tt s1 /\ l_outstanding (lg s1) * MAXOPBLOCKS = LOGSIZE).
Proof.
  exact (log_space_one_short (Lst (boot ∅ 1) full_log) (seqZ 100 29) 2 0 full_log_wf eq_refl).
Defined.
