(* ===== verification/Store.v ===== *)
(** * The block store the file system is built on

    The interface between fs.c and the layers below it (bio.c and log.c): the
    operations fs.c calls and what it relies on.  The file system is modelled
    and verified against this class; [log_store] shows that the buffer cache
    and the log implement it. *)

From Stdlib Require Import ZArith Lia.
From stdpp Require Import base numbers list list_numbers gmap strings sorting.
From S2P Require Import Prelude Cstring Bytes Sleeplock Bio Bcache Log Recovery.

(** The calls, and access to the data of a held buffer. *)
Class BlockOps (S : Type) := {
  bs_bread : Z -> Z -> M S Z;
  bs_bdata : Z -> M S (list Z);
  bs_set_bdata : Z -> list Z -> M S unit;
  bs_log_write : Z -> M S unit;
  bs_brelse : Z -> M S unit;
  bs_begin_op : M S unit;
  bs_end_op : M S unit;
  bs_initlog : Z -> superblock -> M S unit
}.

(** [bs_rep s T V H P D]: in state [s] the blocks read as [V], the buffers [H]
    are held, the open transaction (if [T]) has logged the blocks [P], and the
    blocks [D] are modified but not logged. *)
Class BlockStore (S : Type) {ops : BlockOps S} := {
  bs_rep : S -> bool -> (Z -> list Z) -> gmap Z Z -> list Z -> list Z -> Prop;
  bs_cap : Z;
  bs_home : Z -> Prop;
  bs_len s T V H P D b : bs_rep s T V H P D -> zlen (V b) = BSIZE;
  bs_ext s T V V' H P D : (forall x, V x = V' x) -> bs_rep s T V H P D -> bs_rep s T V' H P D;
  bs_dirty_ext s T V H P D D' : (forall x, x ∈ D <-> x ∈ D') -> bs_rep s T V H P D -> bs_rep s T V H P D';
  bs_bread_ok s T V H P D b :
    bs_rep s T V H P D -> (forall i, H !! i <> Some b) ->
    b ∈ P \/ (size H + length P < Z.to_nat NBUF)%nat ->
    exists i s', bs_bread ROOTDEV b s = Ret i s' /\ H !! i = None /\
      bs_rep s' T V (<[i := b]> H) P D;
  bs_bdata_ok s T V H P D i b :
    bs_rep s T V H P D -> H !! i = Some b -> bs_bdata i s = Ret (V b) s;
  bs_set_bdata_ok s T V H P D i b d :
    bs_rep s T V H P D -> H !! i = Some b -> zlen d = BSIZE ->
    exists s', bs_set_bdata i d s = Ret tt s' /\ bs_rep s' T (vset V b d) H P (b :: D);
  bs_log_write_ok s V H P D i b :
    bs_rep s true V H P D -> H !! i = Some b -> bs_home b -> zlen P < bs_cap ->
    exists s', bs_log_write i s = Ret tt s' /\
      bs_rep s' true V H (if decide (b ∈ P) then P else P ++ [b]) (without b D);
  bs_brelse_ok s T V H P D i b :
    bs_rep s T V H P D -> H !! i = Some b -> b ∉ D ->
    exists s', bs_brelse i s = Ret tt s' /\ bs_rep s' T V (delete i H) P D;
  bs_begin_op_ok s V :
    bs_rep s false V ∅ [] [] -> exists s', bs_begin_op s = Ret tt s' /\ bs_rep s' true V ∅ [] [];
  bs_end_op_ok s V P :
    bs_rep s true V ∅ P [] ->
    exists s' V', bs_end_op s = Ret tt s' /\ bs_rep s' false V' ∅ [] [] /\
      forall b, bs_home b -> V' b = V b
}.

(** ** The log over the buffer cache implements it *)

#[export] Instance log_ops : BlockOps lst := {|
  bs_bread := fun dev b => on_bio (bread dev b);
  bs_bdata := fun i => on_bio (bdata i);
  bs_set_bdata := fun i d => on_bio (set_bdata i d);
  bs_log_write := log_write;
  bs_brelse := fun i => on_bio (brelse i);
  bs_begin_op := begin_op;
  bs_end_op := end_op;
  bs_initlog := initlog
|}.

Section Implementation.
Context (start size : Z).
Hypothesis Hstart : 0 <= start.
Hypothesis Hsize : 2 <= size <= LOGSIZE.
Hypothesis Hend : start + size < 2 ^ 31.

Record log_rep (s : lst) (T : bool) (V : Z -> list Z) (H : gmap Z Z) (P D : list Z) : Prop := {
  lr_log : logwf start size (lg s) P;
  lr_bio : brep (lbio s) V H P D;
  lr_len : blocks_ok V;
  lr_disk : valid_disk start size (disk (lbio s));
  lr_hdr : hdr_n (dblk (disk (lbio s)) start) = 0;
  lr_out : l_outstanding (lg s) = if T then 1 else 0;
  lr_com : l_committing (lg s) = false
}.

(** Only the cache moved, and not the disk. *)
Lemma log_rep_bio s b T V V' H H' P D D' :
  log_rep s T V H P D -> brep b V' H' P D' -> blocks_ok V' -> disk b = disk (lbio s) ->
  log_rep (set_lbio b s) T V' H' P D'.
Proof. intros [] HB HV Hd. split; cbn; rewrite ?Hd; done. Qed.

Lemma on_bio_ok {A} (m : M bio A) s a b :
  m (lbio s) = Ret a b -> on_bio m s = Ret a (set_lbio b s).
Proof. apply on_bio_Ret. Qed.

Lemma log_bread_ok s T V H P D b :
  log_rep s T V H P D -> (forall i, H !! i <> Some b) ->
  b ∈ P \/ (base.size H + length P < Z.to_nat NBUF)%nat ->
  exists i s', on_bio (bread ROOTDEV b) s = Ret i s' /\ H !! i = None /\
    log_rep s' T V (<[i := b]> H) P D.
Proof.
  intros HR Hnh Hroom. destruct (bread_spec _ _ _ _ _ b (lr_bio _ _ _ _ _ _ HR) Hnh Hroom)
    as (i & s' & E & _ & HN & HB & Hd & _ & _).
  exists i, (set_lbio s' s). split; [by apply on_bio_Ret|]. split; [done|].
  eapply log_rep_bio; [exact HR|exact HB|exact (lr_len _ _ _ _ _ _ HR)|exact Hd].
Qed.

Lemma log_set_bdata_ok s T V H P D i b d :
  log_rep s T V H P D -> H !! i = Some b -> zlen d = BSIZE ->
  exists s', on_bio (set_bdata i d) s = Ret tt s' /\ log_rep s' T (vset V b d) H P (b :: D).
Proof.
  intros HR HH Hz. destruct (set_bdata_spec _ _ _ _ _ i b d (lr_bio _ _ _ _ _ _ HR) HH) as (s' & E & HB & Hd & _).
  exists (set_lbio s' s). split; [by apply on_bio_Ret|].
  eapply log_rep_bio; [exact HR|exact HB| |exact Hd].
  intros c. unfold vset. case_decide; [done|apply (lr_len _ _ _ _ _ _ HR)].
Qed.

Lemma log_brelse_ok s T V H P D i b :
  log_rep s T V H P D -> H !! i = Some b -> b ∉ D ->
  exists s', on_bio (brelse i) s = Ret tt s' /\ log_rep s' T V (delete i H) P D.
Proof.
  intros HR HH HD. destruct (brelse_spec _ _ _ _ _ i b (lr_bio _ _ _ _ _ _ HR) HH HD) as (s' & E & HB & Hd & _).
  exists (set_lbio s' s). split; [by apply on_bio_Ret|].
  eapply log_rep_bio; [exact HR|exact HB|exact (lr_len _ _ _ _ _ _ HR)|exact Hd].
Qed.

Lemma log_log_write_ok s V H P D i b :
  log_rep s true V H P D -> H !! i = Some b -> home_ok start size b -> zlen P < size - 1 ->
  exists s', log_write i s = Ret tt s' /\
    log_rep s' true V H (if decide (b ∈ P) then P else P ++ [b]) (without b D).
Proof.
  intros [Hl HB HV Hv Hh Ho Hc] HH Hb HP.
  destruct (log_write_spec start size Hsize s V H P D i b Hl HB HH Hb HP) as (s' & E & Hl' & HB' & Ho' & Hc' & Hd' & _).
  { lia. }
  exists s'. split; [done|]. split; rewrite ?Hd', ?Ho', ?Hc'; done.
Qed.

Lemma log_begin_op_ok s V :
  log_rep s false V ∅ [] [] -> exists s', begin_op s = Ret tt s' /\ log_rep s' true V ∅ [] [].
Proof.
  intros [Hl HB HV Hv Hh Ho Hc]. destruct (begin_op_ok start size s [] Hl Hc) as (s' & E & Hb & Hl' & Ho' & Hc').
  { rewrite Ho. done. }
  exists s'. split; [done|]. split; rewrite ?Hb; try done. by rewrite Ho', Ho.
Qed.

Lemma log_end_op_ok s V P :
  log_rep s true V ∅ P [] ->
  exists s' V', end_op s = Ret tt s' /\ log_rep s' false V' ∅ [] [] /\
    forall b, home_ok start size b -> V' b = V b.
Proof.
  intros [Hl HB HV Hv Hh Ho Hc].
  destruct (end_op_last start size Hstart Hsize Hend s V P) as
    (s' & w & E & _ & Hd & Hpre & Hl' & Ho' & Hc' & HB' & Hn' & Hfin); [by split|].
  exists s', (dblk (disk (lbio s'))). split; [done|]. split; [|intros b [_ Hb]; by apply Hfin].
  assert (Hv' : valid_disk start size (disk (lbio s'))) by (rewrite Hd; apply (Hpre w); done).
  split; try done. by destruct Hv' as [? _].
Qed.

Definition log_store : BlockStore lst.
Proof.
  refine {|
    bs_rep := log_rep;
    bs_cap := size - 1;
    bs_home := home_ok start size;
    bs_bread_ok := log_bread_ok;
    bs_set_bdata_ok := log_set_bdata_ok;
    bs_log_write_ok := log_log_write_ok;
    bs_brelse_ok := log_brelse_ok;
    bs_begin_op_ok := log_begin_op_ok;
    bs_end_op_ok := log_end_op_ok
  |}.
  - intros s T V H P D b HR. apply (lr_len _ _ _ _ _ _ HR).
  - intros s T V V' H P D HV [Hl HB HL]. split; try done; [by eapply brep_ext|].
    intros b. rewrite <- HV. apply HL.
  - intros s T V H P D D' HD [Hl HB HL]. split; try done. by eapply brep_dirty_ext.
  - intros s T V H P D i b HR HH. change (on_bio (bdata i) s = Ret (V b) s). rewrite (on_bio_Ret _ _ _ _ (bdata_held _ _ _ _ _ _ _ (lr_bio _ _ _ _ _ _ HR) HH)).
    by destruct s.
Defined.
End Implementation.
