(* ===== verification/Fs.v ===== *)
(** * The file system (kernel/fs.c)

    Blocks, inodes, directories and path names over a block store.  An inode
    pointer is its index in itable.inode[], [NULL] for 0; the console messages
    of balloc() and ialloc() are left out. *)

From Stdlib Require Import ZArith Lia.
From stdpp Require Import base numbers list list_numbers gmap strings sorting.
From S2P Require Import Prelude Cstring Riscv Kalloc Vm Uvm Bytes Sleeplock Bio Log Store.

(** ** Constants and layouts (fs.h, stat.h, param.h) *)

Definition ROOTINO : Z := 1.
Definition FSMAGIC : Z := 0x10203040.
Definition NDIRECT : Z := 12.
Definition NINDIRECT : Z := BSIZE / 4.
Definition MAXFILE : Z := NDIRECT + NINDIRECT.
Definition sizeof_dinode : Z := 64.
Definition IPB : Z := BSIZE / sizeof_dinode.
Definition BPB : Z := BSIZE * 8.
Definition DIRSIZ : Z := 14.
Definition sizeof_dirent : Z := 16.
Definition NINODE : Z := 50.
Definition T_DIR : Z := 1.
Definition T_FILE : Z := 2.
Definition T_DEVICE : Z := 3.
Definition NULL : Z := -1.

Definition IBLOCK (i : Z) (sb : superblock) : Z := u32 (i / IPB + sb_inodestart sb).
Definition BBLOCK (b : Z) (sb : superblock) : Z := u32 (b / BPB + sb_bmapstart sb).

(** struct superblock at the head of block 1. *)
Definition sb_decode (d : list Z) : superblock :=
  Superblock (get32 d 0) (get32 d 4) (get32 d 8) (get32 d 12)
             (get32 d 16) (get32 d 20) (get32 d 24) (get32 d 28).

Record inode := Inode {
  i_dev : Z;
  i_inum : Z;
  i_ref : Z;
  i_lock : sleeplock;
  i_valid : bool;
  i_type : Z;
  i_major : Z;
  i_minor : Z;
  i_nlink : Z;
  i_size : Z;
  i_addrs : list Z
}.

Definition inode0 : inode :=
  Inode 0 0 0 sl_free false 0 0 0 0 0 (repeat 0 (Z.to_nat (NDIRECT + 1))).

Definition set_i_id dev inum (ip : inode) : inode :=
  Inode dev inum (i_ref ip) (i_lock ip) (i_valid ip) (i_type ip) (i_major ip) (i_minor ip)
        (i_nlink ip) (i_size ip) (i_addrs ip).
Definition set_i_ref r (ip : inode) : inode :=
  Inode (i_dev ip) (i_inum ip) r (i_lock ip) (i_valid ip) (i_type ip) (i_major ip) (i_minor ip)
        (i_nlink ip) (i_size ip) (i_addrs ip).
Definition set_i_lock l (ip : inode) : inode :=
  Inode (i_dev ip) (i_inum ip) (i_ref ip) l (i_valid ip) (i_type ip) (i_major ip) (i_minor ip)
        (i_nlink ip) (i_size ip) (i_addrs ip).
Definition set_i_valid v (ip : inode) : inode :=
  Inode (i_dev ip) (i_inum ip) (i_ref ip) (i_lock ip) v (i_type ip) (i_major ip) (i_minor ip)
        (i_nlink ip) (i_size ip) (i_addrs ip).
Definition set_i_type t (ip : inode) : inode :=
  Inode (i_dev ip) (i_inum ip) (i_ref ip) (i_lock ip) (i_valid ip) t (i_major ip) (i_minor ip)
        (i_nlink ip) (i_size ip) (i_addrs ip).
Definition set_i_dev major minor (ip : inode) : inode :=
  Inode (i_dev ip) (i_inum ip) (i_ref ip) (i_lock ip) (i_valid ip) (i_type ip) major minor
        (i_nlink ip) (i_size ip) (i_addrs ip).
Definition set_i_nlink n (ip : inode) : inode :=
  Inode (i_dev ip) (i_inum ip) (i_ref ip) (i_lock ip) (i_valid ip) (i_type ip) (i_major ip) (i_minor ip)
        n (i_size ip) (i_addrs ip).
Definition set_i_size n (ip : inode) : inode :=
  Inode (i_dev ip) (i_inum ip) (i_ref ip) (i_lock ip) (i_valid ip) (i_type ip) (i_major ip) (i_minor ip)
        (i_nlink ip) n (i_addrs ip).
Definition set_i_addrs a (ip : inode) : inode :=
  Inode (i_dev ip) (i_inum ip) (i_ref ip) (i_lock ip) (i_valid ip) (i_type ip) (i_major ip) (i_minor ip)
        (i_nlink ip) (i_size ip) a.

(** The byte offset of inode [inum] in its block, and its dinode fields. *)
Definition dip_off (inum : Z) : Z := sizeof_dinode * (inum mod IPB).

Definition dip_type (d : list Z) (o : Z) : Z := s16 (get16 d o).
Definition dip_major (d : list Z) (o : Z) : Z := s16 (get16 d (o + 2)).
Definition dip_minor (d : list Z) (o : Z) : Z := s16 (get16 d (o + 4)).
Definition dip_nlink (d : list Z) (o : Z) : Z := s16 (get16 d (o + 6)).
Definition dip_size (d : list Z) (o : Z) : Z := get32 d (o + 8).
Definition dip_addrs (d : list Z) (o : Z) : list Z :=
  (fun k => get32 d (o + 12 + 4 * k)) <$> seqZ 0 (NDIRECT + 1).

(** dip->addrs, one word after the other. *)
Fixpoint put_words (d : list Z) (o : Z) (ws : list Z) : list Z :=
  match ws with
  | [] => d
  | w :: ws' => put_words (put32 d o w) (o + 4) ws'
  end.

(** The copy of an in-memory inode into its dinode. *)
Definition dip_store (d : list Z) (o : Z) (ip : inode) : list Z :=
  let d := put16 d o (i_type ip) in
  let d := put16 d (o + 2) (i_major ip) in
  let d := put16 d (o + 4) (i_minor ip) in
  let d := put16 d (o + 6) (i_nlink ip) in
  let d := put32 d (o + 8) (i_size ip) in
  put_words d (o + 12) (i_addrs ip).

(** The copy of a dinode into an in-memory inode. *)
Definition dip_load (d : list Z) (o : Z) (ip : inode) : inode :=
  Inode (i_dev ip) (i_inum ip) (i_ref ip) (i_lock ip) (i_valid ip)
        (dip_type d o) (dip_major d o) (dip_minor d o) (dip_nlink d o) (dip_size d o) (dip_addrs d o).

(** ** State *)

(** The kernel state fs.c works on: the block store, its own superblock and
    inode table, and of the running process its memory, pid and cwd. *)
Record fsst (S : Type) := Fsst {
  store : S;
  f_sb : superblock;
  it_lock : bool;
  itable : list inode;
  umem : kmem;
  upt : Z;
  upid : Z;
  ucwd : Z
}.
Arguments Fsst {S} _ _ _ _ _ _ _ _.
Arguments store {S} _.
Arguments f_sb {S} _.
Arguments it_lock {S} _.
Arguments itable {S} _.
Arguments umem {S} _.
Arguments upt {S} _.
Arguments upid {S} _.
Arguments ucwd {S} _.

(** Where readi() puts bytes: a user address, kernel memory of the allocator,
    or a kernel variable (then the bytes are part of the result). *)
Inductive dest := UserDst (va : Z) | KernDst (pa : Z) | KernVar.

(** Where writei() takes bytes from. *)
Inductive source := UserSrc (va : Z) | KernSrc (bs : list Z).

Definition dest_add (d : dest) (m : Z) : dest :=
  match d with
  | UserDst va => UserDst (u64 (va + m))
  | KernDst pa => KernDst (pa + m)
  | KernVar => KernVar
  end.

Definition source_add (s : source) (m : Z) : source :=
  match s with
  | UserSrc va => UserSrc (u64 (va + m))
  | KernSrc bs => KernSrc (drop (Z.to_nat m) bs)
  end.

Section Fs.
Context {S : Type} {ops : BlockOps S}.
Notation st := (fsst S).

Definition set_store (x : S) (s : st) : st :=
  Fsst x (f_sb s) (it_lock s) (itable s) (umem s) (upt s) (upid s) (ucwd s).
Definition set_it_lock b (s : st) : st :=
  Fsst (store s) (f_sb s) b (itable s) (umem s) (upt s) (upid s) (ucwd s).
Definition set_itable t (s : st) : st :=
  Fsst (store s) (f_sb s) (it_lock s) t (umem s) (upt s) (upid s) (ucwd s).
Definition set_umem m (s : st) : st :=
  Fsst (store s) (f_sb s) (it_lock s) (itable s) m (upt s) (upid s) (ucwd s).
Definition set_f_sb sb (s : st) : st :=
  Fsst (store s) sb (it_lock s) (itable s) (umem s) (upt s) (upid s) (ucwd s).

Definition on_store {A} (m : M S A) : M st A := zoom store set_store m.
Definition on_umem {A} (m : M kmem A) : M st A := zoom umem set_umem m.

Definition fbread (dev b : Z) : M st Z := on_store (bs_bread dev b).
Definition fbdata (i : Z) : M st (list Z) := on_store (bs_bdata i).
Definition fset_bdata (i : Z) (d : list Z) : M st unit := on_store (bs_set_bdata i d).
Definition flog_write (i : Z) : M st unit := on_store (bs_log_write i).
Definition fbrelse (i : Z) : M st unit := on_store (bs_brelse i).

Definition ip_at (s : st) (ip : Z) : inode := nthZ inode0 (itable s) ip.
Definition geti {A} (ip : Z) (f : inode -> A) : M st A := gets (fun s => f (ip_at s ip)).
Definition updi (ip : Z) (f : inode -> inode) : M st unit :=
  modify (fun s => set_itable (updZ ip (f (ip_at s ip)) (itable s)) s).
Definition on_ilock {A} (ip : Z) (m : M sleeplock A) : M st A :=
  zoom (fun s => i_lock (ip_at s ip))
       (fun l s => set_itable (updZ ip (set_i_lock l (ip_at s ip)) (itable s)) s) m.

Definition itacquire : M st unit := lk_acquire it_lock set_it_lock.
Definition itrelease : M st unit := lk_release it_lock set_it_lock.

(** ** Copies to and from either address space (kernel/proc.c) *)

Definition either_copyout (d : dest) (bs : list Z) : M st (Z * list Z) :=
  match d with
  | UserDst va =>
      let* root := gets upt in
      let* r := on_umem (copyout root va bs) in
      ret (r, [])
  | KernDst pa => on_umem (k_write pa bs) ;; ret (0, [])
  | KernVar => ret (0, bs)
  end.

(** The bytes that reached the destination, a prefix when -1 is returned. *)
Definition either_copyin (src : source) (len : Z) : M st (Z * list Z) :=
  match src with
  | UserSrc va =>
      let* root := gets upt in
      on_umem (copyin root va len)
  | KernSrc bs => ret (0, take (Z.to_nat len) bs)
  end.

(** ** Blocks *)

Definition readsb (dev : Z) : M st unit :=
  let* bp := fbread dev 1 in
  let* d := fbdata bp in
  modify (set_f_sb (sb_decode d)) ;;
  fbrelse bp.

Definition bzero (dev bno : Z) : M st unit :=
  let* bp := fbread dev bno in
  fset_bdata bp (repeat 0 (Z.to_nat BSIZE)) ;;
  flog_write bp ;;
  fbrelse bp.

(** The inner loop of balloc(): find, mark and log a free bit of this bitmap
    block. *)
Fixpoint balloc_bits (fuel : nat) (b bi bp : Z) : M st (option Z) :=
  match fuel with
  | O => panic "balloc: fuel"
  | Datatypes.S k =>
      let* sb := gets f_sb in
      if (bi <? BPB) && (u32 (b + bi) <? sb_size sb) then
        let* d := fbdata bp in
        let m := Z.shiftl 1 (bi mod 8) in
        let c := nthZ 0 d (bi / 8) in
        if Z.land c m =? 0 then
          fset_bdata bp (updZ (bi / 8) (u8 (Z.lor c m)) d) ;;
          flog_write bp ;;
          ret (Some (b + bi))
        else balloc_bits k b (bi + 1) bp
      else ret None
  end.

Definition bits_fuel : nat := Datatypes.S (Z.to_nat BPB).

Fixpoint balloc_loop (fuel : nat) (dev b : Z) : M st Z :=
  match fuel with
  | O => panic "balloc: fuel"
  | Datatypes.S k =>
      let* sb := gets f_sb in
      if u32 b <? sb_size sb then
        let* bp := fbread dev (BBLOCK b sb) in
        let* r := balloc_bits bits_fuel b 0 bp in
        match r with
        | Some n =>
            fbrelse bp ;;
            bzero dev n ;;
            ret (u32 n)
        | None =>
            fbrelse bp ;;
            balloc_loop k dev (b + BPB)
        end
      else ret 0
  end.

(** One bitmap block for every BPB blocks of the disk. *)
Definition balloc (dev : Z) : M st Z :=
  let* sb := gets f_sb in
  balloc_loop (Datatypes.S (Z.to_nat (sb_size sb / BPB + 1))) dev 0.

Definition bfree (dev b : Z) : M st unit :=
  let* sb := gets f_sb in
  let* bp := fbread dev (BBLOCK b sb) in
  let* d := fbdata bp in
  let bi := b mod BPB in
  let m := Z.shiftl 1 (bi mod 8) in
  let c := nthZ 0 d (bi / 8) in
  if Z.land c m =? 0 then panic "freeing free block"
  else
    fset_bdata bp (updZ (bi / 8) (u8 (Z.land c (Z.lnot m))) d) ;;
    flog_write bp ;;
    fbrelse bp.

Definition fsinit (dev : Z) : M st unit :=
  readsb dev ;;
  let* sb := gets f_sb in
  if negb (sb_magic sb =? FSMAGIC) then panic "invalid file system"
  else on_store (bs_initlog dev sb).

(** ** Inodes *)

Fixpoint iinit_loop (n : nat) (i : Z) : M st unit :=
  match n with
  | O => ret tt
  | Datatypes.S k => on_ilock i initsleeplock ;; iinit_loop k (i + 1)
  end.

Definition iinit : M st unit :=
  modify (set_it_lock false) ;;
  iinit_loop (Z.to_nat NINODE) 0.

(** The table scan of iget(): the entry of the inode, or the first empty slot. *)
Fixpoint iget_scan (n : nat) (ip empty dev inum : Z) : M st (Z + Z) :=
  match n with
  | O => ret (inr empty)
  | Datatypes.S k =>
      let* x := geti ip (fun x => x) in
      if (0 <? i_ref x) && (i_dev x =? dev) && (i_inum x =? inum) then ret (inl ip)
      else iget_scan k (ip + 1) (if (empty =? NULL) && (i_ref x =? 0) then ip else empty) dev inum
  end.

Definition iget (dev inum : Z) : M st Z :=
  itacquire ;;
  let* r := iget_scan (Z.to_nat NINODE) 0 NULL dev inum in
  match r with
  | inl ip =>
      updi ip (fun x => set_i_ref (i_ref x + 1) x) ;;
      itrelease ;;
      ret ip
  | inr empty =>
      if empty =? NULL then panic "iget: no inodes"
      else
        updi empty (set_i_id dev inum) ;;
        updi empty (set_i_ref 1) ;;
        updi empty (set_i_valid false) ;;
        itrelease ;;
        ret empty
  end.

Fixpoint ialloc_loop (fuel : nat) (dev type inum : Z) : M st Z :=
  match fuel with
  | O => panic "ialloc: fuel"
  | Datatypes.S k =>
      let* sb := gets f_sb in
      if inum <? sb_ninodes sb then
        let* bp := fbread dev (IBLOCK inum sb) in
        let* d := fbdata bp in
        let o := dip_off inum in
        if dip_type d o =? 0 then
          fset_bdata bp (put16 (patch d o (repeat 0 (Z.to_nat sizeof_dinode))) o type) ;;
          flog_write bp ;;
          fbrelse bp ;;
          iget dev inum
        else
          fbrelse bp ;;
          ialloc_loop k dev type (inum + 1)
      else ret NULL
  end.

Definition ialloc (dev type : Z) : M st Z :=
  let* sb := gets f_sb in
  ialloc_loop (Datatypes.S (Z.to_nat (sb_ninodes sb))) dev type 1.

Definition iupdate (ip : Z) : M st unit :=
  let* x := geti ip (fun x => x) in
  let* sb := gets f_sb in
  let* bp := fbread (i_dev x) (IBLOCK (i_inum x) sb) in
  let* d := fbdata bp in
  fset_bdata bp (dip_store d (dip_off (i_inum x)) x) ;;
  flog_write bp ;;
  fbrelse bp.

Definition idup (ip : Z) : M st Z :=
  itacquire ;;
  updi ip (fun x => set_i_ref (i_ref x + 1) x) ;;
  itrelease ;;
  ret ip.

(** The wait channel of the lock of inode [ip]. *)
Definition ICHAN (ip : Z) : Z := 1000 + ip.

Definition ilock (ip : Z) : M st unit :=
  let* x := geti ip (fun x => x) in
  if (ip =? NULL) || (i_ref x <? 1) then panic "ilock"
  else
    let* pid := gets upid in
    on_ilock ip (acquiresleep (ICHAN ip) pid) ;;
    let* x := geti ip (fun x => x) in
    if negb (i_valid x) then
      let* sb := gets f_sb in
      let* bp := fbread (i_dev x) (IBLOCK (i_inum x) sb) in
      let* d := fbdata bp in
      updi ip (dip_load d (dip_off (i_inum x))) ;;
      fbrelse bp ;;
      updi ip (set_i_valid true) ;;
      let* t := geti ip i_type in
      if t =? 0 then panic "ilock: no type" else ret tt
    else ret tt.

Definition iunlock (ip : Z) : M st unit :=
  let* pid := gets upid in
  let* h := (if ip =? NULL then ret false else on_ilock ip (holdingsleep pid)) in
  let* x := geti ip (fun x => x) in
  if negb h || (i_ref x <? 1) then panic "iunlock"
  else on_ilock ip releasesleep.

(** ** Inode content *)

Definition bmap (ip bn : Z) : M st Z :=
  let* x := geti ip (fun x => x) in
  if bn <? NDIRECT then
    let addr := nthZ 0 (i_addrs x) bn in
    if addr =? 0 then
      let* addr := balloc (i_dev x) in
      if addr =? 0 then ret 0
      else updi ip (fun x => set_i_addrs (updZ bn addr (i_addrs x)) x) ;; ret addr
    else ret addr
  else
    let bn := bn - NDIRECT in
    if bn <? NINDIRECT then
      let addr := nthZ 0 (i_addrs x) NDIRECT in
      let* addr :=
        (if addr =? 0 then
           let* addr := balloc (i_dev x) in
           if addr =? 0 then ret 0
           else updi ip (fun x => set_i_addrs (updZ NDIRECT addr (i_addrs x)) x) ;; ret addr
         else ret addr) in
      if addr =? 0 then ret 0
      else
        let* bp := fbread (i_dev x) addr in
        let* a := fbdata bp in
        let addr := get32 a (4 * bn) in
        let* addr :=
          (if addr =? 0 then
             let* addr := balloc (i_dev x) in
             (if negb (addr =? 0) then
                fset_bdata bp (put32 a (4 * bn) addr) ;;
                flog_write bp
              else ret tt) ;;
             ret addr
           else ret addr) in
        fbrelse bp ;;
        ret addr
    else panic "bmap: out of range".

Fixpoint itrunc_direct (n : nat) (i ip : Z) : M st unit :=
  match n with
  | O => ret tt
  | Datatypes.S k =>
      let* x := geti ip (fun x => x) in
      let a := nthZ 0 (i_addrs x) i in
      (if negb (a =? 0) then
         bfree (i_dev x) a ;;
         updi ip (fun x => set_i_addrs (updZ i 0 (i_addrs x)) x)
       else ret tt) ;;
      itrunc_direct k (i + 1) ip
  end.

Fixpoint itrunc_indirect (n : nat) (j dev bp : Z) : M st unit :=
  match n with
  | O => ret tt
  | Datatypes.S k =>
      let* a := fbdata bp in
      let aj := get32 a (4 * j) in
      (if negb (aj =? 0) then bfree dev aj else ret tt) ;;
      itrunc_indirect k (j + 1) dev bp
  end.

Definition itrunc (ip : Z) : M st unit :=
  itrunc_direct (Z.to_nat NDIRECT) 0 ip ;;
  let* x := geti ip (fun x => x) in
  let a := nthZ 0 (i_addrs x) NDIRECT in
  (if negb (a =? 0) then
     let* bp := fbread (i_dev x) a in
     itrunc_indirect (Z.to_nat NINDIRECT) 0 (i_dev x) bp ;;
     fbrelse bp ;;
     bfree (i_dev x) a ;;
     updi ip (fun x => set_i_addrs (updZ NDIRECT 0 (i_addrs x)) x)
   else ret tt) ;;
  updi ip (set_i_size 0) ;;
  iupdate ip.

Definition iput (ip : Z) : M st unit :=
  itacquire ;;
  let* x := geti ip (fun x => x) in
  (if (i_ref x =? 1) && i_valid x && (i_nlink x =? 0) then
     let* pid := gets upid in
     on_ilock ip (acquiresleep (ICHAN ip) pid) ;;
     itrelease ;;
     itrunc ip ;;
     updi ip (set_i_type 0) ;;
     iupdate ip ;;
     updi ip (set_i_valid false) ;;
     on_ilock ip releasesleep ;;
     itacquire
   else ret tt) ;;
  updi ip (fun x => set_i_ref (i_ref x - 1) x) ;;
  itrelease.

Definition iunlockput (ip : Z) : M st unit := iunlock ip ;; iput ip.

(** struct stat as stati() fills it. *)
Record fstat := Stat { st_dev : Z; st_ino : Z; st_type : Z; st_nlink : Z; st_size : Z }.

Definition stati (ip : Z) : M st fstat :=
  geti ip (fun x => Stat (s32 (i_dev x)) (i_inum x) (i_type x) (i_nlink x) (i_size x)).

(** The loop of readi(): [off] and [n] are uint, [acc] the bytes a kernel
    variable has received. *)
Fixpoint readi_loop (fuel : nat) (ip : Z) (dst : dest) (off n tot : Z) (acc : list Z)
    : M st (Z * list Z) :=
  if tot <? n then
    match fuel with
    | O => panic "readi: fuel"
    | Datatypes.S k =>
        let* addr := bmap ip (off / BSIZE) in
        if addr =? 0 then ret (tot, acc)
        else
          let* dev := geti ip i_dev in
          let* bp := fbread dev addr in
          let m := Z.min (n - tot) (BSIZE - off mod BSIZE) in
          let* d := fbdata bp in
          let* r := either_copyout dst (slice d (off mod BSIZE) m) in
          if fst r =? -1 then fbrelse bp ;; ret (u32 (-1), acc)
          else
            fbrelse bp ;;
            readi_loop k ip (dest_add dst m) (u32 (off + m)) n (u32 (tot + m)) (acc ++ snd r)
    end
  else ret (tot, acc).

(** Every iteration but the first and the last moves a whole block. *)
Definition rw_fuel (n : Z) : nat := Z.to_nat (n / BSIZE + 2).

Definition readi (ip : Z) (dst : dest) (off n : Z) : M st (Z * list Z) :=
  let* size := geti ip i_size in
  if (size <? off) || (u32 (off + n) <? off) then ret (0, [])
  else
    let n := if size <? u32 (off + n) then u32 (size - off) else n in
    let* r := readi_loop (rw_fuel n) ip dst off n 0 [] in
    ret (s32 (fst r), snd r).

(** The loop of writei(), with the final [off]. *)
Fixpoint writei_loop (fuel : nat) (ip : Z) (src : source) (off n tot : Z) : M st (Z * Z) :=
  if tot <? n then
    match fuel with
    | O => panic "writei: fuel"
    | Datatypes.S k =>
        let* addr := bmap ip (off / BSIZE) in
        if addr =? 0 then ret (tot, off)
        else
          let* dev := geti ip i_dev in
          let* bp := fbread dev addr in
          let m := Z.min (n - tot) (BSIZE - off mod BSIZE) in
          let* r := either_copyin src m in
          let* d := fbdata bp in
          fset_bdata bp (patch d (off mod BSIZE) (snd r)) ;;
          if fst r =? -1 then fbrelse bp ;; ret (tot, off)
          else
            flog_write bp ;;
            fbrelse bp ;;
            writei_loop k ip (source_add src m) (u32 (off + m)) n (u32 (tot + m))
    end
  else ret (tot, off).

Definition writei (ip : Z) (src : source) (off n : Z) : M st Z :=
  let* size := geti ip i_size in
  if (size <? off) || (u32 (off + n) <? off) then ret (-1)
  else if MAXFILE * BSIZE <? u32 (off + n) then ret (-1)
  else
    let* r := writei_loop (rw_fuel n) ip src off n 0 in
    let* size := geti ip i_size in
    (if size <? snd r then updi ip (set_i_size (snd r)) else ret tt) ;;
    iupdate ip ;;
    ret (s32 (fst r)).

(** ** Directories *)

Definition namecmp (s t : list Z) : Z := strncmp s t (Z.to_nat DIRSIZ).

Definition de_inum (de : list Z) : Z := get16 de 0.
Definition de_name (de : list Z) : list Z := slice de 2 DIRSIZ.
Definition mk_dirent (name : list Z) (inum : Z) : list Z :=
  le_bytes 2 inum ++ strncpy name (Z.to_nat DIRSIZ).

(** The directory scan of dirlookup(): the matching entry and its offset. *)
Fixpoint dirlookup_loop (fuel : nat) (dp : Z) (name : list Z) (off : Z) : M st (option (Z * Z)) :=
  match fuel with
  | O => panic "dirlookup: fuel"
  | Datatypes.S k =>
      let* size := geti dp i_size in
      if off <? size then
        let* r := readi dp KernVar off sizeof_dirent in
        if negb (fst r =? sizeof_dirent) then panic "dirlookup read"
        else
          let de := snd r in
          if de_inum de =? 0 then dirlookup_loop k dp name (off + sizeof_dirent)
          else if namecmp name (de_name de) =? 0 then ret (Some (off, de_inum de))
          else dirlookup_loop k dp name (off + sizeof_dirent)
      else ret None
  end.

Definition dir_fuel (size : Z) : nat := Datatypes.S (Z.to_nat (size / sizeof_dirent + 1)).

(** The inode and the byte offset of the entry; [NULL] when there is none. *)
Definition dirlookup (dp : Z) (name : list Z) : M st (Z * Z) :=
  let* x := geti dp (fun x => x) in
  if negb (i_type x =? T_DIR) then panic "dirlookup not DIR"
  else
    let* r := dirlookup_loop (dir_fuel (i_size x)) dp name 0 in
    match r with
    | Some (off, inum) => let* ip := iget (i_dev x) inum in ret (ip, off)
    | None => ret (NULL, 0)
    end.

Fixpoint dirlink_slot (fuel : nat) (dp off : Z) : M st Z :=
  match fuel with
  | O => panic "dirlink: fuel"
  | Datatypes.S k =>
      let* size := geti dp i_size in
      if off <? size then
        let* r := readi dp KernVar off sizeof_dirent in
        if negb (fst r =? sizeof_dirent) then panic "dirlink read"
        else if de_inum (snd r) =? 0 then ret off
        else dirlink_slot k dp (off + sizeof_dirent)
      else ret off
  end.

Definition dirlink (dp : Z) (name : list Z) (inum : Z) : M st Z :=
  let* r := dirlookup dp name in
  if negb (fst r =? NULL) then iput (fst r) ;; ret (-1)
  else
    let* size := geti dp i_size in
    let* off := dirlink_slot (dir_fuel size) dp 0 in
    let* r := writei dp (KernSrc (mk_dirent name inum)) off sizeof_dirent in
    if negb (r =? sizeof_dirent) then ret (-1) else ret 0.
End Fs.

(** ** Paths *)

Definition SLASH : Z := 47.

(** Skipping the slashes in front of an element. *)
Fixpoint skip_slashes (path : list Z) : list Z :=
  match path with
  | c :: path' => if c =? SLASH then skip_slashes path' else path
  | [] => []
  end.

(** The element up to the next slash or the end, and the rest. *)
Fixpoint path_elem (path : list Z) : list Z * list Z :=
  match path with
  | c :: path' =>
      if (c =? SLASH) || (c =? 0) then ([], path)
      else let '(e, rest) := path_elem path' in (c :: e, rest)
  | [] => ([], [])
  end.

(** The path behind the copied element and the bytes name[] holds now; [name]
    is its DIRSIZ bytes before. *)
Definition skipelem (path name : list Z) : option (list Z * list Z) :=
  let path := skip_slashes path in
  if chr path =? 0 then None
  else
    let '(s, rest) := path_elem path in
    let len := zlen s in
    let name := if DIRSIZ <=? len then patch name 0 (take (Z.to_nat DIRSIZ) s)
                else patch name 0 (s ++ [0]) in
    Some (skip_slashes rest, name).

Section Namex.
Context {S : Type} {ops : BlockOps S}.
Notation st := (fsst S).

Fixpoint namex_loop (fuel : nat) (ip : Z) (path name : list Z) (nameiparent : bool)
    : M st (Z * list Z) :=
  match skipelem path name with
  | Some (path, name) =>
      match fuel with
      | O => panic "namex: fuel"
      | Datatypes.S k =>
          ilock ip ;;
          let* x := geti ip (fun x => x) in
          if negb (i_type x =? T_DIR) then iunlockput ip ;; ret (NULL, name)
          else if nameiparent && (chr path =? 0) then iunlock ip ;; ret (ip, name)
          else
            let* next := dirlookup ip name in
            if fst next =? NULL then iunlockput ip ;; ret (NULL, name)
            else
              iunlockput ip ;;
              namex_loop k (fst next) path name nameiparent
      end
  | None =>
      if nameiparent then iput ip ;; ret (NULL, name)
      else ret (ip, name)
  end.

(** Every element consumes at least a byte of the path. *)
Definition namex (path : list Z) (nameiparent : bool) (name : list Z) : M st (Z * list Z) :=
  let* ip :=
    (if chr path =? SLASH then iget ROOTDEV ROOTINO
     else let* cwd := gets ucwd in idup cwd) in
  namex_loop (length path) ip path name nameiparent.

Definition namei (path : list Z) : M st Z :=
  let* r := namex path false (repeat 0 (Z.to_nat DIRSIZ)) in
  ret (fst r).

Definition nameiparent (path name : list Z) : M st (Z * list Z) := namex path true name.
End Namex.
