(* ===== verification/FsBlocks.v ===== *)
(** * Block allocation: the proofs

    Proved against the block-store interface: [used] reads the free bitmap
    that a block store holds. *)

From Stdlib Require Import ZArith Lia.
From stdpp Require Import base numbers list list_numbers gmap strings sorting.
From S2P Require Import Prelude Cstring Riscv Kalloc Vm Uvm Bytes Sleeplock Bio Bcache Log Recovery Store Fs.

Section FsBlocks.
Context {S : Type} {ops : BlockOps S} {BS : BlockStore S}.
Notation st := (fsst S).
Implicit Types (s : st) (x y : S) (V : Z -> list Z) (H : gmap Z Z) (P D : list Z).

(** ** The interface, at file-system states *)

Lemma on_store_Ret {A} (m : M S A) s x a y :
  m x = Ret a y -> on_store m (set_store x s) = Ret a (set_store y s).
Proof. intros E. unfold on_store. by erewrite zoom_Ret by exact E. Qed.

Definition unheld H (b : Z) : Prop := forall i, H !! i <> Some b.
Definition room H P (k : nat) : Prop := (base.size H + length P + k <= Z.to_nat NBUF)%nat.
Definition logged P (b : Z) : list Z := if decide (b ∈ P) then P else P ++ [b].

Lemma length_logged P b : (length (logged P b) <= length P + 1)%nat.
Proof. unfold logged. case_decide; rewrite ?length_app; simpl; lia. Qed.

Lemma zlen_logged P b : zlen (logged P b) <= zlen P + 1.
Proof. pose proof (length_logged P b). unfold zlen. lia. Qed.

Lemma fbread_ok s x T V H P D b :
  bs_rep x T V H P D -> unheld H b -> room H P 1 ->
  exists i y, fbread ROOTDEV b (set_store x s) = Ret i (set_store y s) /\ H !! i = None /\
    bs_rep y T V (<[i := b]> H) P D.
Proof.
  intros HR Hu Hr. destruct (bs_bread_ok x T V H P D b HR Hu) as (i & y & E & HN & HR').
  { right. unfold room in Hr. lia. }
  exists i, y. split; [by apply on_store_Ret|done].
Qed.

Lemma fbdata_ok s x T V H P D i b :
  bs_rep x T V H P D -> H !! i = Some b -> fbdata i (set_store x s) = Ret (V b) (set_store x s).
Proof. intros HR HH. apply on_store_Ret. by eapply bs_bdata_ok. Qed.

Lemma fset_bdata_ok s x T V H P D i b d :
  bs_rep x T V H P D -> H !! i = Some b -> zlen d = BSIZE ->
  exists y, fset_bdata i d (set_store x s) = Ret tt (set_store y s) /\ bs_rep y T (vset V b d) H P (b :: D).
Proof.
  intros HR HH Hd. destruct (bs_set_bdata_ok x T V H P D i b d HR HH Hd) as (y & E & HR').
  exists y. split; [by apply on_store_Ret|done].
Qed.

Lemma flog_write_ok s x V H P D i b :
  bs_rep x true V H P D -> H !! i = Some b -> bs_home b -> zlen P < bs_cap ->
  exists y, flog_write i (set_store x s) = Ret tt (set_store y s) /\
    bs_rep y true V H (logged P b) (without b D).
Proof.
  intros HR HH Hb HP. destruct (bs_log_write_ok x V H P D i b HR HH Hb HP) as (y & E & HR').
  exists y. split; [by apply on_store_Ret|done].
Qed.

Lemma fbrelse_ok s x T V H P D i b :
  bs_rep x T V H P D -> H !! i = Some b -> b ∉ D ->
  exists y, fbrelse i (set_store x s) = Ret tt (set_store y s) /\ bs_rep y T V (delete i H) P D.
Proof.
  intros HR HH HD. destruct (bs_brelse_ok x T V H P D i b HR HH HD) as (y & E & HR').
  exists y. split; [by apply on_store_Ret|done].
Qed.

Lemma not_dirty b : b ∉ without b [b].
Proof. rewrite elem_of_without. tauto. Qed.

Lemma rep_clean x T V H P b : bs_rep x T V H P (without b [b]) -> bs_rep x T V H P [].
Proof.
  apply bs_dirty_ext. intros c. rewrite elem_of_without, list_elem_of_singleton.
  split; [tauto|by intros ?%elem_of_nil].
Qed.

(** Storing into a held, unmodified block, logging and releasing it. *)
Lemma store_log_release s x V H P i b d :
  bs_rep x true V (<[i := b]> H) P [] -> H !! i = None -> bs_home b -> zlen P < bs_cap -> zlen d = BSIZE ->
  exists y, (fset_bdata i d ;; flog_write i ;; fbrelse i) (set_store x s) = Ret tt (set_store y s) /\
    bs_rep y true (vset V b d) H (logged P b) [].
Proof.
  intros HR HN Hb HP Hd. assert (HH : <[i := b]> H !! i = Some b) by apply lookup_insert_eq.
  destruct (fset_bdata_ok s x true V _ P [] i b d HR HH Hd) as (y1 & E1 & HR1).
  destruct (flog_write_ok s y1 _ _ P [b] i b HR1 HH Hb HP) as (y2 & E2 & HR2).
  destruct (fbrelse_ok s y2 true _ _ _ _ i b HR2 HH (not_dirty b)) as (y3 & E3 & HR3).
  exists y3. split.
  - erewrite bind_Ret by exact E1. by erewrite bind_Ret by exact E2.
  - rewrite delete_insert_id in HR3 by done. by eapply rep_clean.
Qed.

(** Reading a block and changing it by [f], the shape of most updates. *)
Lemma read_modify s x V H P b f :
  bs_rep x true V H P [] -> unheld H b -> room H P 1 -> bs_home b -> zlen P < bs_cap ->
  zlen (f (V b)) = BSIZE ->
  exists y, (let* bp := fbread ROOTDEV b in let* d := fbdata bp in
             fset_bdata bp (f d) ;; flog_write bp ;; fbrelse bp) (set_store x s) = Ret tt (set_store y s) /\
    bs_rep y true (vset V b (f (V b))) H (logged P b) [].
Proof.
  intros HR Hu Hr Hb HP Hf. destruct (fbread_ok s x true V H P [] b HR Hu Hr) as (i & y1 & E1 & HN & HR1).
  erewrite bind_Ret by exact E1.
  erewrite bind_Ret by (eapply fbdata_ok; [exact HR1|apply lookup_insert_eq]).
  by apply store_log_release.
Qed.

(** ** The free bitmap *)

(** The bit of block [n] in a bitmap block, and in the bitmap. *)
Definition bit_set (d : list Z) (bi : Z) : bool := Z.testbit (nthZ 0 d (bi / 8)) (bi mod 8).
Definition used (sb : superblock) V (n : Z) : bool := bit_set (V (BBLOCK n sb)) (n mod BPB).

Lemma land_bit c j : 0 <= j -> (Z.land c (Z.shiftl 1 j) =? 0) = negb (Z.testbit c j).
Proof.
  intros Hj. rewrite Z.shiftl_1_l. destruct (Z.testbit c j) eqn:Hb; simpl.
  - apply Z.eqb_neq. intros Hz. assert (Hc : Z.testbit (Z.land c (2 ^ j)) j = true).
    { rewrite Z.land_spec, Hb, Z.pow2_bits_true; done. }
    by rewrite Hz, Z.bits_0 in Hc.
  - apply Z.eqb_eq. apply Z.bits_inj'. intros k Hk. rewrite Z.land_spec, Z.bits_0, Z.pow2_bits_eqb by done.
    destruct (Z.eqb_spec j k); [subst; by rewrite Hb|by rewrite andb_false_r].
Qed.

Lemma testbit_u8 c j : 0 <= j < 8 -> Z.testbit (u8 c) j = Z.testbit c j.
Proof. intros. unfold u8. change 256 with (2 ^ 8). apply Z.mod_pow2_bits_low. lia. Qed.

Definition set_bit (d : list Z) (bi : Z) : list Z :=
  updZ (bi / 8) (u8 (Z.lor (nthZ 0 d (bi / 8)) (Z.shiftl 1 (bi mod 8)))) d.
Definition clear_bit (d : list Z) (bi : Z) : list Z :=
  updZ (bi / 8) (u8 (Z.land (nthZ 0 d (bi / 8)) (Z.lnot (Z.shiftl 1 (bi mod 8))))) d.

Lemma bit_set_bit d bi k :
  zlen d = BSIZE -> 0 <= bi < BPB -> 0 <= k < BPB ->
  bit_set (set_bit d bi) k = (k =? bi) || bit_set d k.
Proof.
  unfold BPB, BSIZE. intros Hd Hbi Hk. unfold bit_set, set_bit.
  pose proof (Z.mod_pos_bound bi 8). pose proof (Z.mod_pos_bound k 8).
  assert (Hr : 0 <= bi / 8 < 1024) by (Z.div_mod_to_equations; lia).
  destruct (decide (k / 8 = bi / 8)) as [He|He].
  - rewrite He, nthZ_updZ_eq by lia. rewrite testbit_u8 by lia.
    rewrite Z.lor_spec, Z.shiftl_1_l, Z.pow2_bits_eqb by lia. rewrite orb_comm. f_equal.
    destruct (Z.eqb_spec (bi mod 8) (k mod 8)), (Z.eqb_spec k bi); try done; Z.div_mod_to_equations; lia.
  - rewrite nthZ_updZ_ne by done. destruct (Z.eqb_spec k bi); [by subst|done].
Qed.

Lemma bit_clear_bit d bi k :
  zlen d = BSIZE -> 0 <= bi < BPB -> 0 <= k < BPB ->
  bit_set (clear_bit d bi) k = negb (k =? bi) && bit_set d k.
Proof.
  unfold BPB, BSIZE. intros Hd Hbi Hk. unfold bit_set, clear_bit.
  pose proof (Z.mod_pos_bound bi 8). pose proof (Z.mod_pos_bound k 8).
  assert (Hr : 0 <= bi / 8 < 1024) by (Z.div_mod_to_equations; lia).
  destruct (decide (k / 8 = bi / 8)) as [He|He].
  - rewrite He, nthZ_updZ_eq by lia. rewrite testbit_u8 by lia.
    rewrite Z.land_spec, Z.lnot_spec, Z.shiftl_1_l, Z.pow2_bits_eqb by lia. rewrite andb_comm. f_equal. f_equal.
    destruct (Z.eqb_spec (bi mod 8) (k mod 8)), (Z.eqb_spec k bi); try done; Z.div_mod_to_equations; lia.
  - rewrite nthZ_updZ_ne by done. destruct (Z.eqb_spec k bi); [by subst|done].
Qed.

Lemma zlen_set_bit d bi : zlen (set_bit d bi) = zlen d.
Proof. apply zlen_updZ. Qed.
Lemma zlen_clear_bit d bi : zlen (clear_bit d bi) = zlen d.
Proof. apply zlen_updZ. Qed.

(** ** balloc *)

Lemma balloc_bits_spec fuel s x V H P bp B b bi :
  bs_rep x true V H P [] -> H !! bp = Some B -> bs_home B -> zlen P < bs_cap ->
  0 <= b -> b + BPB < 2 ^ 32 -> 0 <= bi <= BPB -> BPB - bi < Z.of_nat fuel ->
  (exists k y, bi <= k < BPB /\ b + k < sb_size (f_sb s) /\ bit_set (V B) k = false /\
     (forall j, bi <= j < k -> bit_set (V B) j = true) /\
     balloc_bits fuel b bi bp (set_store x s) = Ret (Some (b + k)) (set_store y s) /\
     bs_rep y true (vset V B (set_bit (V B) k)) H (logged P B) []) \/
  ((forall j, bi <= j < BPB -> b + j < sb_size (f_sb s) -> bit_set (V B) j = true) /\
   balloc_bits fuel b bi bp (set_store x s) = Ret None (set_store x s)).
Proof.
  intros HR HH HB HP Hb Hb32. revert bi. induction fuel as [|fuel IH]; intros bi Hbi Hf; [lia|].
  cbn [balloc_bits]. erewrite bind_Ret by reflexivity. change (f_sb (set_store x s)) with (f_sb s).
  rewrite u32_small by (unfold BPB, BSIZE in *; lia).
  destruct (Z.ltb_spec bi BPB); cbn [andb].
  2: { right. split; [intros; lia|done]. }
  destruct (Z.ltb_spec (b + bi) (sb_size (f_sb s))).
  2: { right. split; [intros; lia|done]. }
  erewrite bind_Ret by (by eapply fbdata_ok).
  rewrite land_bit by (pose proof (Z.mod_pos_bound bi 8); lia).
  fold (bit_set (V B) bi). destruct (bit_set (V B) bi) eqn:Hbit; cbn [negb].
  - destruct (IH (bi + 1)) as [(k & y & Hk & Hsz & Hkb & Hpre & E & HR')|[Hall E]]; [lia|lia|left|right].
    + exists k, y. split; [lia|]. split; [done|]. split; [done|]. split; [|done].
      intros j Hj. destruct (decide (j = bi)) as [->|]; [done|apply Hpre; lia].
    + split; [|done]. intros j Hj Hjs. destruct (decide (j = bi)) as [->|]; [done|apply Hall; lia].
  - left. fold (set_bit (V B) bi).
    destruct (fset_bdata_ok s x true V H P [] bp B (set_bit (V B) bi) HR HH) as (y1 & E1 & HR1).
    { rewrite zlen_set_bit. by eapply bs_len. }
    erewrite bind_Ret by exact E1.
    destruct (flog_write_ok s y1 _ _ P [B] bp B HR1 HH HB HP) as (y2 & E2 & HR2).
    erewrite bind_Ret by exact E2. exists bi, y2. split; [lia|]. split; [done|]. split; [done|].
    split; [intros; lia|]. split; [done|]. by eapply rep_clean.
Qed.

(** The file system's layout, as far as the allocator relies on it: bitmap
    blocks are home blocks no one holds, and a block the bitmap calls free is
    a home block that is no bitmap block (mkfs marks all metadata in use). *)
Record bitmap_ok (sb : superblock) V H : Prop := {
  bm_size : 0 < sb_size sb /\ sb_size sb + BPB < 2 ^ 31;
  bm_start : 0 <= sb_bmapstart sb < 2 ^ 31;
  bm_home : forall n, 0 <= n < sb_size sb -> bs_home (BBLOCK n sb) /\ unheld H (BBLOCK n sb);
  bm_free : forall n, 0 <= n < sb_size sb -> used sb V n = false ->
    n <> 0 /\ bs_home n /\ unheld H n /\ forall k, 0 <= k < sb_size sb -> BBLOCK k sb <> n
}.

Lemma BBLOCK_eq sb V H n :
  bitmap_ok sb V H -> 0 <= n < sb_size sb -> BBLOCK n sb = n / BPB + sb_bmapstart sb.
Proof.
  intros [[Hs1 Hs2] Hst _ _] Hn. unfold BBLOCK. apply u32_small.
  assert (0 <= n / BPB <= n) by (change BPB with 8192; Z.div_mod_to_equations; lia).
  change (2 ^ 32) with 4294967296. change (2 ^ 31) with 2147483648 in *. change BPB with 8192 in *. lia.
Qed.

Lemma BBLOCK_chunk sb V H q k :
  bitmap_ok sb V H -> 0 <= q -> 0 <= k < BPB -> q * BPB + k < sb_size sb ->
  BBLOCK (q * BPB + k) sb = BBLOCK (q * BPB) sb /\ (q * BPB + k) mod BPB = k.
Proof.
  intros Hok Hq Hk Hn. rewrite !(BBLOCK_eq sb V H) by (try done; unfold BPB, BSIZE in *; lia).
  change BPB with 8192 in *. Z.div_mod_to_equations. lia.
Qed.

(** The bitmap after a bit of it has been set. *)
Lemma used_set_bit sb V H n k :
  bitmap_ok sb V H -> (forall b, zlen (V b) = BSIZE) -> 0 <= n < sb_size sb -> 0 <= k < sb_size sb ->
  used sb (vset V (BBLOCK n sb) (set_bit (V (BBLOCK n sb)) (n mod BPB))) k = (k =? n) || used sb V k.
Proof.
  intros Hok HV Hn Hk. unfold used.
  pose proof (BBLOCK_eq sb V H n Hok Hn) as En. pose proof (BBLOCK_eq sb V H k Hok Hk) as Ek.
  assert (Hm : forall z, 0 <= z mod BPB < BPB) by (intros; apply Z.mod_pos_bound; done).
  destruct (decide (BBLOCK k sb = BBLOCK n sb)) as [He|He].
  - rewrite He, vset_eq, bit_set_bit by auto. f_equal.
    destruct (Z.eqb_spec (k mod BPB) (n mod BPB)), (Z.eqb_spec k n); try done; subst; try done.
    change BPB with 8192 in *. exfalso. Z.div_mod_to_equations. lia.
  - rewrite vset_ne by done. destruct (Z.eqb_spec k n); [by subst|done].
Qed.

Lemma bzero_spec s x V H P b :
  bs_rep x true V H P [] -> unheld H b -> room H P 1 -> bs_home b -> zlen P < bs_cap ->
  exists y, bzero ROOTDEV b (set_store x s) = Ret tt (set_store y s) /\
    bs_rep y true (vset V b (repeat 0 (Z.to_nat BSIZE))) H (logged P b) [].
Proof.
  intros HR Hu Hr Hb HP. unfold bzero.
  destruct (fbread_ok s x true V H P [] b HR Hu Hr) as (i & y1 & E1 & HN & HR1).
  erewrite bind_Ret by exact E1. by apply store_log_release.
Qed.

(** What balloc() leaves when it allocates block [n]. *)
Definition alloc_view (sb : superblock) V (n : Z) : Z -> list Z :=
  vset (vset V (BBLOCK n sb) (set_bit (V (BBLOCK n sb)) (n mod BPB))) n (repeat 0 (Z.to_nat BSIZE)).

Lemma balloc_loop_spec fuel q s x V H P :
  let sb := f_sb s in
  bs_rep x true V H P [] -> bitmap_ok sb V H -> room H P 2 -> zlen P + 1 < bs_cap ->
  0 <= q -> sb_size sb / BPB + 1 - q < Z.of_nat fuel -> q * BPB <= sb_size sb + BPB ->
  (forall n, 0 <= n < sb_size sb -> n < q * BPB -> used sb V n = true) ->
  exists r y, balloc_loop fuel ROOTDEV (q * BPB) (set_store x s) = Ret r (set_store y s) /\
    ((r = 0 /\ bs_rep y true V H P [] /\ forall n, 0 <= n < sb_size sb -> used sb V n = true) \/
     (0 < r < sb_size sb /\ used sb V r = false /\ (forall n, 0 <= n < r -> used sb V n = true) /\
      bs_rep y true (alloc_view sb V r) H (logged (logged P (BBLOCK r sb)) r) [])).
Proof.
  intros sb HR Hok Hr HP. destruct (bm_size _ _ _ Hok) as [Hs1 Hs2].
  revert q x HR. induction fuel as [|fuel IH]; intros q x HR Hq Hf Hqs Hpre.
  { exfalso. change BPB with 8192 in *. Z.div_mod_to_equations. lia. }
  cbn [balloc_loop]. erewrite bind_Ret by reflexivity. change (f_sb (set_store x s)) with sb.
  rewrite u32_small by (unfold BPB, BSIZE in *; lia).
  destruct (Z.ltb_spec (q * BPB) (sb_size sb)) as [Hlt|Hge].
  2: { exists 0, x. split; [done|]. left. split; [done|]. split; [done|]. intros n Hn. apply Hpre; lia. }
  destruct (bm_home _ _ _ Hok (q * BPB)) as [Hbh Hbu]; [unfold BPB, BSIZE in *; lia|].
  destruct (fbread_ok s x true V H P [] (BBLOCK (q * BPB) sb) HR Hbu) as (bp & y1 & E1 & HN & HR1).
  { unfold room in *. lia. }
  erewrite bind_Ret by exact E1.
  assert (HH : <[bp := BBLOCK (q * BPB) sb]> H !! bp = Some (BBLOCK (q * BPB) sb)) by apply lookup_insert_eq.
  destruct (balloc_bits_spec bits_fuel s y1 V _ P bp _ (q * BPB) 0 HR1 HH Hbh)
    as [(k & y2 & Hk & Hks & Hkb & Hkpre & E2 & HR2)|[Hall E2]];
    [lia|unfold BPB, BSIZE in *; lia|unfold BPB, BSIZE in *; lia|unfold BPB, BSIZE; lia|unfold bits_fuel, BPB, BSIZE; lia|..];
    erewrite bind_Ret by exact E2.
  - destruct (fbrelse_ok s y2 true _ _ _ _ bp _ HR2 HH) as (y3 & E3 & HR3); [apply not_elem_of_nil|].
    erewrite bind_Ret by exact E3. rewrite delete_insert_id in HR3 by done.
    set (n := q * BPB + k) in *. fold sb in Hks.
    destruct (BBLOCK_chunk sb V H q k Hok Hq Hk Hks) as [Hbb Hmod].
    fold n in Hbb, Hmod. assert (Hn0 : 0 <= n) by (unfold n, BPB, BSIZE in *; lia).
    assert (Hun : used sb V n = false) by (unfold used; by rewrite Hbb, Hmod).
    destruct (bm_free _ _ _ Hok n) as (Hnz & Hnh & Hnu & _); [lia|done|].
    destruct (bzero_spec s y3 _ H _ n HR3 Hnu) as (y4 & E4 & HR4); [|done|..].
    { unfold room in *. pose proof (length_logged P (BBLOCK (q * BPB) sb)). lia. }
    { pose proof (zlen_logged P (BBLOCK (q * BPB) sb)). lia. }
    erewrite bind_Ret by exact E4. exists n, y4. split.
    { unfold ret. rewrite u32_small by lia. done. }
    right. split; [lia|]. split; [done|]. split.
    + intros j Hj. destruct (decide (j < q * BPB)); [apply Hpre; lia|].
      unfold used. destruct (BBLOCK_chunk sb V H q (j - q * BPB) Hok Hq) as [Hb Hm]; [lia|lia|].
      replace (q * BPB + (j - q * BPB)) with j in Hb, Hm by lia. rewrite Hb, Hm. apply Hkpre. lia.
    + unfold alloc_view. by rewrite Hbb, Hmod.
  - destruct (fbrelse_ok s y1 true _ _ _ _ bp _ HR1 HH) as (y3 & E3 & HR3); [apply not_elem_of_nil|].
    erewrite bind_Ret by exact E3. rewrite delete_insert_id in HR3 by done.
    replace (q * BPB + BPB) with ((q + 1) * BPB) by lia. apply IH; try done; try lia.
    intros j Hj Hjq. destruct (decide (j < q * BPB)); [by apply Hpre|].
    unfold used. destruct (BBLOCK_chunk sb V H q (j - q * BPB) Hok Hq) as [Hb Hm]; [lia|lia|].
    replace (q * BPB + (j - q * BPB)) with j in Hb, Hm by lia. rewrite Hb, Hm. apply Hall; [lia|].
    fold sb. lia.
Qed.

Lemma balloc_spec s x V H P :
  let sb := f_sb s in
  bs_rep x true V H P [] -> bitmap_ok sb V H -> room H P 2 -> zlen P + 1 < bs_cap ->
  exists r y, balloc ROOTDEV (set_store x s) = Ret r (set_store y s) /\
    ((r = 0 /\ bs_rep y true V H P [] /\ forall n, 0 <= n < sb_size sb -> used sb V n = true) \/
     (0 < r < sb_size sb /\ used sb V r = false /\ (forall n, 0 <= n < r -> used sb V n = true) /\
      bs_rep y true (alloc_view sb V r) H (logged (logged P (BBLOCK r sb)) r) [])).
Proof.
  intros sb HR Hok Hr HP. unfold balloc. erewrite bind_Ret by reflexivity.
  change (f_sb (set_store x s)) with sb. pose proof (bm_size _ _ _ Hok).
  assert (0 <= sb_size sb / BPB) by (change BPB with 8192; apply Z.div_pos; lia).
  apply (balloc_loop_spec _ 0 s x V H P); try done; fold sb; try lia.
  change BPB with 8192. lia.
Qed.

Lemma used_alloc sb V H n k :
  bitmap_ok sb V H -> (forall b, zlen (V b) = BSIZE) -> used sb V n = false ->
  0 <= n < sb_size sb -> 0 <= k < sb_size sb ->
  used sb (alloc_view sb V n) k = (k =? n) || used sb V k.
Proof.
  intros Hok HV Hn Hnr Hkr. destruct (bm_free _ _ _ Hok n Hnr Hn) as (_ & _ & _ & Hne).
  rewrite <- (used_set_bit sb V H n k) by done. unfold used, alloc_view.
  rewrite vset_ne; [done|]. by apply Hne.
Qed.

(** balloc() returns the lowest-numbered block that the bitmap calls
    free, marked in use (and no other block's mark changed) and zeroed, with
    every block but it and its bitmap block untouched and both logged; it
    returns 0, changing nothing, exactly when no block is free. *)
Theorem balloc_correct s x V H P :
  bs_rep x true V H P [] -> bitmap_ok (f_sb s) V H -> room H P 2 -> zlen P + 1 < bs_cap ->
  exists r y, balloc ROOTDEV (set_store x s) = Ret r (set_store y s) /\
    ((r = 0 /\ bs_rep y true V H P [] /\
      forall n, 0 <= n < sb_size (f_sb s) -> used (f_sb s) V n = true) \/
     (0 < r < sb_size (f_sb s) /\ used (f_sb s) V r = false /\
      (forall n, 0 <= n < r -> used (f_sb s) V n = true) /\
      exists V' P', bs_rep y true V' H P' [] /\ V' r = repeat 0 (Z.to_nat BSIZE) /\
        (forall b, b <> r -> b <> BBLOCK r (f_sb s) -> V' b = V b) /\
        (forall n, 0 <= n < sb_size (f_sb s) -> used (f_sb s) V' n = (n =? r) || used (f_sb s) V n) /\
        P' = logged (logged P (BBLOCK r (f_sb s))) r)).
Proof.
  intros HR Hok Hr HP. destruct (balloc_spec s x V H P HR Hok Hr HP) as (r & y & E & Hres).
  exists r, y. split; [done|]. destruct Hres as [?|(Hrr & Hu & Hpre & HR')]; [by left|right].
  split; [done|]. split; [done|]. split; [done|]. eexists _, _. split; [exact HR'|]. unfold alloc_view.
  split; [by rewrite vset_eq|]. split; [|split; [|done]].
  - intros b Hb1 Hb2. by rewrite !vset_ne.
  - intros n Hn. apply (used_alloc _ V H); try done; try lia. intros b. by eapply bs_len.
Qed.

(** ** bfree *)

Lemma used_clear_bit sb V H n k :
  bitmap_ok sb V H -> (forall b, zlen (V b) = BSIZE) -> 0 <= n < sb_size sb -> 0 <= k < sb_size sb ->
  used sb (vset V (BBLOCK n sb) (clear_bit (V (BBLOCK n sb)) (n mod BPB))) k = negb (k =? n) && used sb V k.
Proof.
  intros Hok HV Hn Hk. unfold used.
  pose proof (BBLOCK_eq sb V H n Hok Hn) as En. pose proof (BBLOCK_eq sb V H k Hok Hk) as Ek.
  assert (Hm : forall z, 0 <= z mod BPB < BPB) by (intros; apply Z.mod_pos_bound; done).
  destruct (decide (BBLOCK k sb = BBLOCK n sb)) as [He|He].
  - rewrite He, vset_eq, bit_clear_bit by auto. f_equal. f_equal.
    destruct (Z.eqb_spec (k mod BPB) (n mod BPB)), (Z.eqb_spec k n); try done; subst; try done.
    change BPB with 8192 in *. exfalso. Z.div_mod_to_equations. lia.
  - rewrite vset_ne by done. destruct (Z.eqb_spec k n); [by subst|done].
Qed.

Lemma bfree_spec s x V H P n :
  let sb := f_sb s in
  bs_rep x true V H P [] -> bitmap_ok sb V H -> room H P 1 -> zlen P < bs_cap -> 0 <= n < sb_size sb ->
  if used sb V n then
    exists y, bfree ROOTDEV n (set_store x s) = Ret tt (set_store y s) /\
      bs_rep y true (vset V (BBLOCK n sb) (clear_bit (V (BBLOCK n sb)) (n mod BPB))) H (logged P (BBLOCK n sb)) []
  else exists s', bfree ROOTDEV n (set_store x s) = Panic "freeing free block" s'.
Proof.
  intros sb HR Hok Hr HP Hn. destruct (bm_home _ _ _ Hok n Hn) as [Hbh Hbu].
  destruct (fbread_ok s x true V H P [] (BBLOCK n sb) HR Hbu Hr) as (bp & y1 & E1 & HN & HR1).
  assert (HH : <[bp := BBLOCK n sb]> H !! bp = Some (BBLOCK n sb)) by apply lookup_insert_eq.
  assert (E : bfree ROOTDEV n (set_store x s) =
    (if negb (used sb V n) then panic "freeing free block"
     else fset_bdata bp (clear_bit (V (BBLOCK n sb)) (n mod BPB)) ;; flog_write bp ;; fbrelse bp) (set_store y1 s)).
  { unfold bfree. erewrite bind_Ret by reflexivity. erewrite bind_Ret by exact E1.
    erewrite bind_Ret by (by eapply fbdata_ok). cbv zeta.
    rewrite land_bit by (pose proof (Z.mod_pos_bound (n mod BPB) 8); lia). done. }
  rewrite E. destruct (used sb V n); cbn [negb]; [|by eexists].
  apply store_log_release; try done. rewrite zlen_clear_bit. by eapply bs_len.
Qed.

(** bfree() undoes balloc() in the bitmap: exactly the freed block's
    mark is cleared and no other block changes, so that a later balloc() can
    return it; freeing a block that is already free panics. *)
Theorem bfree_correct s x V H P n :
  bs_rep x true V H P [] -> bitmap_ok (f_sb s) V H -> room H P 1 -> zlen P < bs_cap ->
  0 <= n < sb_size (f_sb s) ->
  if used (f_sb s) V n then
    exists y V', bfree ROOTDEV n (set_store x s) = Ret tt (set_store y s) /\
      bs_rep y true V' H (logged P (BBLOCK n (f_sb s))) [] /\
      (forall b, b <> BBLOCK n (f_sb s) -> V' b = V b) /\
      (forall k, 0 <= k < sb_size (f_sb s) -> used (f_sb s) V' k = negb (k =? n) && used (f_sb s) V k)
  else exists s', bfree ROOTDEV n (set_store x s) = Panic "freeing free block" s'.
Proof.
  intros HR Hok Hr HP Hn. pose proof (bfree_spec s x V H P n HR Hok Hr HP Hn) as Hf. cbv zeta in Hf.
  destruct (used (f_sb s) V n); [|done]. destruct Hf as (y & E & HR').
  eexists y, _. split; [done|]. split; [exact HR'|]. split.
  - intros b Hb. by rewrite vset_ne.
  - intros k Hk. apply (used_clear_bit _ V H); try done. intros b. by eapply bs_len.
Qed.
End FsBlocks.

(** ** A concrete file system: mkfs's layout with 46 metadata blocks *)

Module FsSample.
Definition sb : superblock := Sample.sb.

(** Bits 0 to 45 set. *)
Definition bitmap : list Z := repeat 255 5 ++ [63] ++ repeat 0 (Z.to_nat (BSIZE - 6)).
Definition img : gmap Z (list Z) := {[ 45 := bitmap ]}.

Lemma dblk_img b : dblk img b = if decide (b = 45) then bitmap else zero_block.
Proof.
  unfold dblk, img. case_decide; subst.
  - by rewrite lookup_singleton_eq.
  - by rewrite lookup_singleton_ne.
Qed.

Lemma img_valid : valid_disk 2 30 img.
Proof.
  assert (Hz : dblk img 2 = zero_block) by (rewrite dblk_img; by rewrite decide_False).
  assert (Hn : hdr_n zero_block = 0) by (vm_compute; reflexivity).
  split; [intros b; rewrite dblk_img; case_decide; vm_compute; reflexivity|].
  rewrite Hz, Hn. split; [lia|]. split; [lia|]. unfold hdr_blocks. rewrite Hn. apply NoDup_nil_2.
Qed.

#[export] Instance fs_store : BlockStore lst := log_store 2 30 ltac:(done) ltac:(done) ltac:(done).

(** A booted machine inside a transaction. *)
Lemma in_transaction : exists x V, bs_rep x true V ∅ [] [] /\
  forall b, ~ in_log 2 30 b -> V b = dblk img b.
Proof.
  destruct (boot_log_spec 2 30 ltac:(done) ltac:(done) ltac:(done) img 1 Sample.sb img_valid eq_refl eq_refl)
    as (s0 & _ & Hl0 & Ho0 & Hc0 & HB0 & Hv0 & Hn0 & He0 & _).
  destruct (bs_begin_op_ok s0 (dblk (disk (lbio s0)))) as (s1 & _ & HR).
  { split; try done. by destruct Hv0 as [? _]. }
  exists s1, (dblk (disk (lbio s0))). split; [exact HR|]. intros b Hb. rewrite He0 by done.
  apply eff_no_log. rewrite dblk_img, decide_False by done. vm_compute. reflexivity.
Qed.

Lemma bits n : 0 <= n < 2000 -> bit_set bitmap n = (n <? 46).
Proof.
  intros Hn. enough (forallb (fun n => Bool.eqb (bit_set bitmap n) (n <? 46)) (seqZ 0 2000) = true) as Hb.
  { rewrite forallb_forall in Hb. apply eqb_prop, Hb, list_elem_of_In, elem_of_seqZ. lia. }
  vm_compute. reflexivity.
Qed.

Lemma BBLOCK_sb n : 0 <= n < 2000 -> BBLOCK n sb = 45.
Proof.
  intros Hn. unfold BBLOCK. change (sb_bmapstart sb) with 45. change BPB with 8192.
  replace (n / 8192) with 0 by (Z.div_mod_to_equations; lia). done.
Qed.

Lemma used_sb V n :
  (forall b, ~ in_log 2 30 b -> V b = dblk img b) -> 0 <= n < 2000 -> used sb V n = (n <? 46).
Proof.
  intros HV Hn. unfold used. rewrite BBLOCK_sb by done. rewrite HV by (unfold in_log; lia).
  rewrite dblk_img, decide_True by done. change BPB with 8192. rewrite Z.mod_small by lia. by apply bits.
Qed.

Lemma layout V : (forall b, ~ in_log 2 30 b -> V b = dblk img b) -> bitmap_ok sb V ∅.
Proof.
  intros HV. split; try done; change (sb_size sb) with 2000.
  - intros n Hn. rewrite BBLOCK_sb by done. split; [|intros i; by rewrite lookup_empty].
    split; [lia|unfold in_log; lia].
  - intros n Hn Hu. rewrite (used_sb V n HV Hn) in Hu. apply Z.ltb_ge in Hu.
    split; [lia|]. split; [split; [lia|unfold in_log; lia]|]. split; [intros i; by rewrite lookup_empty|].
    intros k Hk. rewrite BBLOCK_sb by done. lia.
Qed.

Definition fs0 (x : lst) : fsst lst :=
  Fsst x sb false (repeat inode0 (Z.to_nat NINODE)) (Kmem ∅ 0 false) 0 1 0.
End FsSample.

#[local] Existing Instance FsSample.fs_store.

Lemma balloc_correct_witness :
  exists x V, bs_rep x true V ∅ [] [] /\
  exists r y, balloc ROOTDEV (set_store x (FsSample.fs0 x)) = Ret r (set_store y (FsSample.fs0 x)) /\
    ((r = 0 /\ bs_rep y true V ∅ [] [] /\
      forall n, 0 <= n < sb_size FsSample.sb -> used FsSample.sb V n = true) \/
     (0 < r < sb_size FsSample.sb /\ used FsSample.sb V r = false /\
      (forall n, 0 <= n < r -> used FsSample.sb V n = true) /\
      exists V' P', bs_rep y true V' ∅ P' [] /\ V' r = repeat 0 (Z.to_nat BSIZE) /\
        (forall b, b <> r -> b <> BBLOCK r FsSample.sb -> V' b = V b) /\
        (forall n, 0 <= n < sb_size FsSample.sb -> used FsSample.sb V' n = (n =? r) || used FsSample.sb V n) /\
        P' = logged (logged [] (BBLOCK r FsSample.sb)) r)).
Proof.
  destruct FsSample.in_transaction as (x & V & HR & HV). exists x, V. split; [exact HR|].
  apply (balloc_correct (FsSample.fs0 x) x V ∅ []); [exact HR|exact (FsSample.layout V HV)|..].
  - unfold room. rewrite map_size_empty. unfold NBUF, MAXOPBLOCKS. simpl. lia.
  - reflexivity.
Defined.

Lemma bfree_correct_witness :
  exists x V, bs_rep x true V ∅ [] [] /\ used FsSample.sb V 20 = true /\
  if used FsSample.sb V 20 then
    exists y V', bfree ROOTDEV 20 (set_store x (FsSample.fs0 x)) = Ret tt (set_store y (FsSample.fs0 x)) /\
      bs_rep y true V' ∅ (logged [] (BBLOCK 20 FsSample.sb)) [] /\
      (forall b, b <> BBLOCK 20 FsSample.sb -> V' b = V b) /\
      (forall k, 0 <= k < sb_size FsSample.sb -> used FsSample.sb V' k = negb (k =? 20) && used FsSample.sb V k)
  else exists y, bfree ROOTDEV 20 (set_store x (FsSample.fs0 x)) = Panic "freeing free block" y.
Proof.
  destruct FsSample.in_transaction as (x & V & HR & HV). exists x, V. split; [exact HR|].
  split; [by rewrite (FsSample.used_sb V 20 HV)|].
  apply (bfree_correct (FsSample.fs0 x) x V ∅ [] 20); [exact HR|exact (FsSample.layout V HV)|..].
  - unfold room. rewrite map_size_empty. unfold NBUF, MAXOPBLOCKS. simpl. lia.
  - reflexivity.
  - split; [lia|reflexivity].
Defined.
