(* ===== verification/FsInode.v ===== *)
(** * Inodes: the proofs

    The on-disk format of inodes, and the copies between table and disk. *)

From Stdlib Require Import ZArith Lia.
From stdpp Require Import base numbers list list_numbers gmap strings sorting.
From S2P Require Import Prelude Cstring Riscv Kalloc Vm Uvm Bytes Sleeplock Bio Bcache Log Recovery Store Fs FsBlocks.

(** ** The dinode format *)

Lemma zlen_put_words ws d o :
  0 <= o -> o + 4 * zlen ws <= zlen d -> zlen (put_words d o ws) = zlen d.
Proof.
  revert d o. induction ws as [|w ws IH]; intros d o Ho Hl; [done|]. cbn [put_words].
  unfold zlen in Hl. cbn [length] in Hl. fold (zlen d) in Hl.
  rewrite IH; [apply zlen_put32; lia|lia|]. rewrite zlen_put32 by lia. unfold zlen. fold (zlen d). lia.
Qed.

Lemma slice_put_words ws d o o' n :
  0 <= o -> o + 4 * zlen ws <= zlen d -> 0 <= o' -> 0 <= n -> o' + n <= zlen d ->
  o' + n <= o \/ o + 4 * zlen ws <= o' -> slice (put_words d o ws) o' n = slice d o' n.
Proof.
  revert d o. induction ws as [|w ws IH]; intros d o Ho Hl Ho' Hn Hl' Hd; [done|]. cbn [put_words].
  assert (Hw : zlen (w :: ws) = zlen ws + 1) by (unfold zlen; cbn [length]; lia).
  pose proof (zlen_nonneg ws). rewrite IH; rewrite ?zlen_put32; try lia.
  apply slice_put32_other; lia.
Qed.

Lemma get32_put_words ws d o k :
  0 <= o -> o + 4 * zlen ws <= zlen d -> 0 <= k < zlen ws ->
  get32 (put_words d o ws) (o + 4 * k) = u32 (nthZ 0 ws k).
Proof.
  revert d o k. induction ws as [|w ws IH]; intros d o k Ho Hl Hk; [unfold zlen in Hk; simpl in Hk; lia|].
  cbn [put_words]. assert (Hw : zlen (w :: ws) = zlen ws + 1) by (unfold zlen; cbn [length]; lia).
  pose proof (zlen_nonneg ws). destruct (decide (k = 0)) as [->|Hk0].
  - rewrite Z.mul_0_r, Z.add_0_r. rewrite (get32_slice _ (put32 d o w) o o).
    + by apply get32_put32_same; lia.
    + apply slice_put_words; rewrite ?zlen_put32; lia.
  - replace (o + 4 * k) with (o + 4 + 4 * (k - 1)) by lia. rewrite IH; rewrite ?zlen_put32; try lia.
    f_equal. unfold nthZ. destruct (Z.ltb_spec (k - 1) 0), (Z.ltb_spec k 0); try lia.
    replace (Z.to_nat k) with (S (Z.to_nat (k - 1))) by lia. done.
Qed.

Lemma get_put_words_16 ws d o o' :
  0 <= o -> o + 4 * zlen ws <= zlen d -> 0 <= o' -> o' + 2 <= o ->
  get16 (put_words d o ws) o' = get16 d o'.
Proof.
  intros. pose proof (zlen_nonneg ws). apply get16_slice, slice_put_words; lia.
Qed.

Lemma get_put_words_32 ws d o o' :
  0 <= o -> o + 4 * zlen ws <= zlen d -> 0 <= o' -> o' + 4 <= o ->
  get32 (put_words d o ws) o' = get32 d o'.
Proof.
  intros. pose proof (zlen_nonneg ws). apply get32_slice, slice_put_words; lia.
Qed.

(** The fields an inode keeps on disk. *)
Definition disk_fields (x : inode) : Z * Z * Z * Z * Z * list Z :=
  (i_type x, i_major x, i_minor x, i_nlink x, i_size x, i_addrs x).

(** They fit their C types. *)
Definition inode_range (x : inode) : Prop :=
  - 2 ^ 15 <= i_type x < 2 ^ 15 /\ - 2 ^ 15 <= i_major x < 2 ^ 15 /\
  - 2 ^ 15 <= i_minor x < 2 ^ 15 /\ - 2 ^ 15 <= i_nlink x < 2 ^ 15 /\
  0 <= i_size x < 2 ^ 32 /\ zlen (i_addrs x) = NDIRECT + 1 /\
  forall k, 0 <= k < NDIRECT + 1 -> 0 <= nthZ 0 (i_addrs x) k < 2 ^ 32.

(** Lengths of blocks under stores. *)
Ltac zl := first [lia | rewrite zlen_put32 by zl; zl | rewrite zlen_put16 by zl; zl].

Lemma zlen_dip_store d o x :
  0 <= o -> o + sizeof_dinode <= zlen d -> zlen (i_addrs x) = NDIRECT + 1 ->
  zlen (dip_store d o x) = zlen d.
Proof.
  unfold sizeof_dinode, NDIRECT, dip_store. intros Ho Hl Ha.
  rewrite zlen_put_words; zl.
Qed.

Lemma dip_load_store d o x y :
  0 <= o -> o + sizeof_dinode <= zlen d -> inode_range x ->
  disk_fields (dip_load (dip_store d o x) o y) = disk_fields x.
Proof.
  unfold sizeof_dinode. intros Ho Hl (Ht & Hmj & Hmn & Hnl & Hsz & Ha & Har).
  unfold NDIRECT in Ha. unfold disk_fields, dip_load, dip_type, dip_major, dip_minor, dip_nlink, dip_size.
  cbn [i_type i_major i_minor i_nlink i_size i_addrs].
  assert (Haddrs : dip_addrs (dip_store d o x) o = i_addrs x).
  { apply (nthZ_ext 0).
    - unfold dip_addrs. rewrite length_fmap, length_seqZ. unfold zlen, NDIRECT in *. lia.
    - intros k Hk. assert (Hk' : 0 <= k < 13).
      { unfold dip_addrs, zlen in Hk. rewrite length_fmap, length_seqZ in Hk. unfold NDIRECT in Hk. lia. }
      rewrite (nthZ_lookup 0 _ k (get32 (dip_store d o x) (o + 12 + 4 * k))); [|lia|].
      + unfold dip_store. rewrite get32_put_words; [|zl..].
        apply u32_small. apply Har. unfold NDIRECT. lia.
      + unfold dip_addrs. rewrite list_lookup_fmap, lookup_seqZ_lt by (unfold NDIRECT; lia).
        cbn. do 2 f_equal. lia. }
  rewrite Haddrs. unfold dip_store.
  rewrite !get_put_words_16, get_put_words_32 by zl.
  rewrite !get16_put32_other by zl.
  rewrite get32_put32_same by zl. rewrite u32_small by lia.
  rewrite (get16_put16_other _ (o + 6) o), (get16_put16_other _ (o + 4) o), (get16_put16_other _ (o + 2) o) by zl.
  rewrite (get16_put16_other _ (o + 6) (o + 2)), (get16_put16_other _ (o + 4) (o + 2)) by zl.
  rewrite (get16_put16_other _ (o + 6) (o + 4)) by zl.
  rewrite !get16_put16_same by zl. by rewrite !s16_u16.
Qed.

(** Other inodes of the same block keep their bytes. *)
Lemma dip_store_other d o x o' n :
  0 <= o -> o + sizeof_dinode <= zlen d -> zlen (i_addrs x) = NDIRECT + 1 ->
  0 <= o' -> 0 <= n -> o' + n <= zlen d -> o' + n <= o \/ o + sizeof_dinode <= o' ->
  slice (dip_store d o x) o' n = slice d o' n.
Proof.
  unfold sizeof_dinode, NDIRECT, dip_store. intros.
  rewrite slice_put_words by zl. rewrite slice_put32_other by zl.
  by rewrite !slice_put16_other by zl.
Qed.

Section FsInode.
Context {S : Type} {ops : BlockOps S} {BS : BlockStore S}.
Notation st := (fsst S).
Implicit Types (s : st) (x y : S) (V : Z -> list Z) (H : gmap Z Z) (P D : list Z).

Lemma dip_off_range inum : 0 <= dip_off inum /\ dip_off inum + sizeof_dinode <= BSIZE.
Proof.
  unfold dip_off, sizeof_dinode. change IPB with 16. unfold BSIZE.
  pose proof (Z.mod_pos_bound inum 16). lia.
Qed.

(** The table after entry [ip] has become [X]. *)
Definition upd_ip s (ip : Z) (X : inode) : st := set_itable (updZ ip X (itable s)) s.

Lemma ip_at_upd s ip X k :
  0 <= ip < zlen (itable s) -> ip_at (upd_ip s ip X) k = if decide (k = ip) then X else ip_at s k.
Proof.
  intros Hi. unfold ip_at, upd_ip. cbn [itable set_itable]. case_decide.
  - subst. by rewrite nthZ_updZ_eq.
  - by rewrite nthZ_updZ_ne.
Qed.

Lemma upd_ip_upd s ip X Y : upd_ip (upd_ip s ip X) ip Y = upd_ip s ip Y.
Proof.
  unfold upd_ip, set_itable. cbn. f_equal. unfold updZ. destruct (ip <? 0); [done|].
  apply list_insert_insert_eq.
Qed.

Lemma zlen_upd_ip s ip X : zlen (itable (upd_ip s ip X)) = zlen (itable s).
Proof. apply zlen_updZ. Qed.

Lemma updi_eq s ip f : updi ip f s = Ret tt (upd_ip s ip (f (ip_at s ip))).
Proof. done. Qed.

Lemma on_ilock_Ret {A} s ip (m : M sleeplock A) a l :
  m (i_lock (ip_at s ip)) = Ret a l -> on_ilock ip m s = Ret a (upd_ip s ip (set_i_lock l (ip_at s ip))).
Proof. intros E. unfold on_ilock. by erewrite zoom_Ret by exact E. Qed.

(** iupdate() rewrites the inode's slot of its block and nothing else. *)
Lemma iupdate_spec s x V H P ip :
  let X := ip_at s ip in
  let B := IBLOCK (i_inum X) (f_sb s) in
  bs_rep x true V H P [] -> i_dev X = ROOTDEV -> zlen (i_addrs X) = NDIRECT + 1 ->
  bs_home B -> unheld H B -> room H P 1 -> zlen P < bs_cap ->
  exists y, iupdate ip (set_store x s) = Ret tt (set_store y s) /\
    bs_rep y true (vset V B (dip_store (V B) (dip_off (i_inum X)) X)) H (logged P B) [].
Proof.
  intros X B HR Hdev Ha Hh Hu Hr HP. unfold iupdate. do 2 erewrite bind_Ret by reflexivity.
  change (ip_at (set_store x s) ip) with X. change (f_sb (set_store x s)) with (f_sb s). fold B.
  rewrite Hdev. apply (read_modify s x V H P B (fun d => dip_store d (dip_off (i_inum X)) X)); try done.
  destruct (dip_off_range (i_inum X)). rewrite zlen_dip_store; [by eapply bs_len|done| |done].
  by rewrite (bs_len _ _ _ _ _ _ _ HR).
Qed.

(** ilock() of an entry that is not yet read: the fields come from disk. *)
Lemma ilock_load s x T V H P D ip :
  let X := ip_at s ip in
  let B := IBLOCK (i_inum X) (f_sb s) in
  bs_rep x T V H P D -> 0 <= ip < zlen (itable s) -> 1 <= i_ref X -> i_lock X = sl_free ->
  i_valid X = false -> i_dev X = ROOTDEV -> unheld H B -> B ∉ D -> room H P 1 ->
  dip_type (V B) (dip_off (i_inum X)) <> 0 ->
  exists y, ilock ip (set_store x s) =
      Ret tt (set_store y (upd_ip s ip (set_i_valid true
        (dip_load (V B) (dip_off (i_inum X)) (set_i_lock (sl_held (upid s)) X))))) /\
    bs_rep y T V H P D.
Proof.
  intros X B HR Hip Href Hlk Hval Hdev Hu HD Hr Ht. unfold ilock. erewrite bind_Ret by reflexivity.
  change (ip_at (set_store x s) ip) with X.
  destruct (Z.eqb_spec ip NULL) as [->|_]; [unfold NULL in Hip; lia|].
  destruct (Z.ltb_spec (i_ref X) 1); [lia|]. cbn [orb].
  erewrite bind_Ret by reflexivity. change (upid (set_store x s)) with (upid s).
  erewrite bind_Ret.
  2: { apply on_ilock_Ret. change (ip_at (set_store x s) ip) with X. rewrite Hlk. apply acquiresleep_free. }
  erewrite bind_Ret by reflexivity. set (s1 := upd_ip s ip (set_i_lock (sl_held (upid s)) X)).
  assert (Hs1 : upd_ip (set_store x s) ip (set_i_lock (sl_held (upid s)) (ip_at (set_store x s) ip)) = set_store x s1) by done.
  rewrite Hs1. assert (Hx1 : ip_at (set_store x s1) ip = set_i_lock (sl_held (upid s)) X).
  { change (ip_at (set_store x s1) ip) with (ip_at s1 ip). unfold s1. rewrite ip_at_upd by done.
    by rewrite decide_True. }
  rewrite Hx1. cbn [i_valid set_i_lock]. rewrite Hval. cbn [negb]. erewrite bind_Ret by reflexivity.
  change (f_sb (set_store x s1)) with (f_sb s). cbn [i_dev i_inum set_i_lock]. rewrite Hdev. fold B.
  destruct (fbread_ok s1 x T V H P D B HR Hu Hr) as (bp & y1 & E1 & HN & HR1).
  assert (HH : <[bp := B]> H !! bp = Some B) by apply lookup_insert_eq.
  erewrite bind_Ret by exact E1. erewrite bind_Ret by (by eapply fbdata_ok).
  erewrite bind_Ret by apply updi_eq. change (ip_at (set_store y1 s1) ip) with (ip_at (set_store x s1) ip).
  rewrite Hx1. set (X2 := dip_load _ _ _). set (s2 := upd_ip s ip X2).
  assert (Hs2 : upd_ip (set_store y1 s1) ip X2 = set_store y1 s2).
  { change (upd_ip (set_store y1 s1) ip X2) with (set_store y1 (upd_ip s1 ip X2)). unfold s1. by rewrite upd_ip_upd. }
  rewrite Hs2. destruct (fbrelse_ok s2 y1 T _ _ _ _ bp B HR1 HH HD) as (y2 & E2 & HR2).
  erewrite bind_Ret by exact E2. erewrite bind_Ret by apply updi_eq.
  rewrite delete_insert_id in HR2 by done.
  assert (Hx2 : ip_at (set_store y2 s2) ip = X2).
  { change (ip_at (set_store y2 s2) ip) with (ip_at s2 ip). unfold s2. rewrite ip_at_upd by done. by rewrite decide_True. }
  rewrite Hx2.
  assert (Hs3 : upd_ip (set_store y2 s2) ip (set_i_valid true X2) = set_store y2 (upd_ip s ip (set_i_valid true X2))).
  { change (upd_ip (set_store y2 s2) ip (set_i_valid true X2)) with (set_store y2 (upd_ip s2 ip (set_i_valid true X2))).
    unfold s2. by rewrite upd_ip_upd. }
  rewrite Hs3. erewrite bind_Ret by reflexivity.
  exists y2. split; [|done].
  assert (Hx3 : i_type (ip_at (set_store y2 (upd_ip s ip (set_i_valid true X2))) ip) = dip_type (V B) (dip_off (i_inum X))).
  { change (ip_at (set_store y2 (upd_ip s ip (set_i_valid true X2))) ip) with (ip_at (upd_ip s ip (set_i_valid true X2)) ip).
    rewrite ip_at_upd by done. by rewrite decide_True. }
  rewrite Hx3. destruct (Z.eqb_spec (dip_type (V B) (dip_off (i_inum X))) 0); [done|reflexivity].
Qed.

(** What iupdate() writes is what ilock() reads back.  After iupdate()
    of an inode, locking any table entry for the same inode number that is
    not yet valid yields exactly the type, device numbers, link count, size
    and block addresses that were written, and the entry is valid; the other
    inodes of the same disk block are untouched. *)
Theorem iupdate_ilock_roundtrip s x V H P ip ip' :
  let X := ip_at s ip in
  let B := IBLOCK (i_inum X) (f_sb s) in
  bs_rep x true V H P [] -> i_dev X = ROOTDEV -> inode_range X -> i_type X <> 0 ->
  bs_home B -> unheld H B -> room H P 2 -> zlen P < bs_cap ->
  0 <= ip' < zlen (itable s) -> i_inum (ip_at s ip') = i_inum X -> i_dev (ip_at s ip') = ROOTDEV ->
  1 <= i_ref (ip_at s ip') -> i_lock (ip_at s ip') = sl_free -> i_valid (ip_at s ip') = false ->
  exists s1 s2 V', iupdate ip (set_store x s) = Ret tt s1 /\ ilock ip' s1 = Ret tt s2 /\
    disk_fields (ip_at s2 ip') = disk_fields X /\ i_valid (ip_at s2 ip') = true /\
    bs_rep (store s2) true V' H (logged P B) [] /\
    (forall b, b <> B -> V' b = V b) /\
    (forall o n, 0 <= o -> 0 <= n -> o + n <= BSIZE ->
       o + n <= dip_off (i_inum X) \/ dip_off (i_inum X) + sizeof_dinode <= o ->
       slice (V' B) o n = slice (V B) o n).
Proof.
  intros X B HR Hdev Hrg Ht Hh Hu Hr HP Hip' Hin' Hdev' Href' Hlk' Hval'.
  pose proof Hrg as (Htr & _ & _ & _ & _ & Ha & _).
  destruct (iupdate_spec s x V H P ip HR Hdev Ha Hh Hu) as (y1 & E1 & HR1); [unfold room in *; lia|done|].
  fold X B in E1, HR1. set (V1 := vset V B _) in *.
  destruct (dip_off_range (i_inum X)) as [Ho1 Ho2]. pose proof (bs_len _ _ _ _ _ _ B HR) as HB.
  assert (HV1 : V1 B = dip_store (V B) (dip_off (i_inum X)) X) by apply vset_eq.
  assert (Hload : disk_fields (dip_load (V1 B) (dip_off (i_inum X)) (ip_at s ip')) = disk_fields X).
  { rewrite HV1. apply dip_load_store; [done|by rewrite HB|done]. }
  destruct (ilock_load s y1 true V1 H (logged P B) [] ip' HR1 Hip' Href' Hlk' Hval' Hdev') as (y2 & E2 & HR2);
    rewrite ?Hin'; fold B.
  { done. }
  { apply not_elem_of_nil. }
  { pose proof (length_logged P B). unfold room in *. lia. }
  { injection Hload as Hty _ _ _ _ _. unfold B, X in *. rewrite Hty. done. }
  rewrite Hin' in E2. fold B in E2.
  eexists _, _, V1. split; [exact E1|]. split; [exact E2|].
  match goal with |- context [ip_at (set_store y2 ?z) ip'] =>
    change (ip_at (set_store y2 z) ip') with (ip_at z ip') end.
  rewrite ip_at_upd, decide_True by done. split; [exact Hload|]. split; [done|]. split; [exact HR2|].
  split; [intros b Hb; by apply vset_ne|]. intros o n Ho Hn Hl Hd. rewrite HV1.
  apply dip_store_other; try done; by rewrite HB.
Qed.
End FsInode.

#[local] Existing Instance FsSample.fs_store.

(** Entry 0 holds inode 7 in memory, entry 1 refers to it without its contents. *)
Definition sample_inode : inode :=
  Inode ROOTDEV 7 1 sl_free true T_FILE 0 0 1 100 (50 :: repeat 0 12).
Definition sample_entry : inode := Inode ROOTDEV 7 1 sl_free false 0 0 0 0 0 (repeat 0 13).
Definition sample_fs (x : lst) : fsst lst :=
  set_itable (sample_inode :: sample_entry :: repeat inode0 48) (FsSample.fs0 x).

Lemma iupdate_ilock_roundtrip_witness :
  exists x V s1 s2 V', bs_rep x true V ∅ [] [] /\
    iupdate 0 (set_store x (sample_fs x)) = Ret tt s1 /\ ilock 1 s1 = Ret tt s2 /\
    disk_fields (ip_at s2 1) = disk_fields sample_inode /\ i_valid (ip_at s2 1) = true /\
    bs_rep (store s2) true V' ∅ [32] [] /\ (forall b, b <> 32 -> V' b = V b).
Proof.
  destruct FsSample.in_transaction as (x & V & HR & HV). exists x, V.
  destruct (iupdate_ilock_roundtrip (sample_fs x) x V ∅ [] 0 1) as (s1 & s2 & V' & E1 & E2 & Hf & Hv & HR' & Hb & _).
  - exact HR.
  - reflexivity.
  - do 5 (split; [vm_compute; intuition congruence|]). split; [reflexivity|]. intros k Hk.
    assert (Hall : Forall (fun a => 0 <= a < 2 ^ 32) (50 :: repeat 0 12)) by (repeat constructor; lia).
    rewrite Forall_forall in Hall. apply Hall. eapply list_elem_of_lookup_2, (lookup_nthZ 0). done.
  - done.
  - split; [vm_compute; intuition congruence|]. unfold in_log. vm_compute. intuition congruence.
  - intros i. by rewrite lookup_empty.
  - unfold room. rewrite map_size_empty. unfold NBUF, MAXOPBLOCKS. simpl. lia.
  - reflexivity.
  - vm_compute. intuition congruence.
  - reflexivity.
  - reflexivity.
  - vm_compute. congruence.
  - reflexivity.
  - reflexivity.
  - exists s1, s2, V'. split_and!; try done.
Defined.
