(* ===== verification/FsFile.v ===== *)
(** * File contents: the proofs

    The block pointers of an inode, direct and through the indirect block, as
    one indexed family, and the bytes of the file they lead to. *)

From Stdlib Require Import ZArith Lia.
From stdpp Require Import base numbers list list_numbers gmap strings sorting.
From S2P Require Import Prelude Cstring Riscv Kalloc Vm PageTable Uvm Ucopy Bytes Sleeplock Bio Bcache Log Recovery Store Fs FsBlocks FsInode.

(** Pointer 0 to 11: the direct blocks; 12: the indirect block; 13 on: its
    entries. *)
Definition NPTR : Z := NDIRECT + 1 + NINDIRECT.

Definition bptr (V : Z -> list Z) (X : inode) (j : Z) : Z :=
  if j <=? NDIRECT then nthZ 0 (i_addrs X) j
  else
    let ind := nthZ 0 (i_addrs X) NDIRECT in
    if ind =? 0 then 0 else get32 (V ind) (4 * (j - NDIRECT - 1)).

(** The pointer of the [bn]-th data block. *)
Definition pidx (bn : Z) : Z := if bn <? NDIRECT then bn else bn + 1.

(** The byte at offset [o] of the file. *)
Definition fbyte (V : Z -> list Z) (X : inode) (o : Z) : Z :=
  nthZ 0 (V (bptr V X (pidx (o / BSIZE)))) (o mod BSIZE).

Definition fbytes (V : Z -> list Z) (X : inode) (off n : Z) : list Z := fbyte V X <$> seqZ off n.

Lemma zlen_fbytes V X off n : 0 <= n -> zlen (fbytes V X off n) = n.
Proof. intros. unfold fbytes, zlen. rewrite length_fmap, length_seqZ. lia. Qed.

Lemma nthZ_fbytes V X off n i : 0 <= i < n -> nthZ 0 (fbytes V X off n) i = fbyte V X (off + i).
Proof.
  intros Hi. apply nthZ_lookup; [lia|]. unfold fbytes.
  rewrite list_lookup_fmap, lookup_seqZ_lt by lia. cbn. do 2 f_equal. lia.
Qed.

Lemma fbytes_app V X off n m : 0 <= n -> 0 <= m ->
  fbytes V X off (n + m) = fbytes V X off n ++ fbytes V X (off + n) m.
Proof. intros. unfold fbytes. by rewrite seqZ_app, fmap_app. Qed.

(** A piece of one block is a piece of the file. *)
Lemma slice_fbytes V X off m :
  0 <= off -> 0 <= m -> off mod BSIZE + m <= BSIZE ->
  zlen (V (bptr V X (pidx (off / BSIZE)))) = BSIZE ->
  slice (V (bptr V X (pidx (off / BSIZE)))) (off mod BSIZE) m = fbytes V X off m.
Proof.
  intros Ho Hm Hb Hz. pose proof (Z.mod_pos_bound off BSIZE ltac:(done)).
  apply (nthZ_ext 0).
  - apply Nat2Z.inj. change (zlen (slice (V (bptr V X (pidx (off / BSIZE)))) (off mod BSIZE) m) = zlen (fbytes V X off m)).
    rewrite zlen_slice by lia. by rewrite zlen_fbytes.
  - intros i Hi. rewrite zlen_slice in Hi by lia. rewrite nthZ_slice, nthZ_fbytes by lia. unfold fbyte.
    assert ((off + i) / BSIZE = off / BSIZE /\ (off + i) mod BSIZE = off mod BSIZE + i) as [-> ->]; [|done].
    unfold BSIZE in *. Z.div_mod_to_equations. lia.
Qed.

Section FsFile.
Context {S : Type} {ops : BlockOps S} {BS : BlockStore S}.
Notation st := (fsst S).
Implicit Types (s : st) (x y : S) (V : Z -> list Z) (H : gmap Z Z) (P D : list Z).

(** A well-formed file: its pointers lead to distinct data blocks in use. *)
Record fwf (sb : superblock) V H (X : inode) : Prop := {
  fw_dev : i_dev X = ROOTDEV;
  fw_addrs : zlen (i_addrs X) = NDIRECT + 1;
  fw_ptr : forall j, 0 <= j < NPTR -> bptr V X j <> 0 ->
    0 < bptr V X j < sb_size sb /\ used sb V (bptr V X j) = true /\ bs_home (bptr V X j) /\
    unheld H (bptr V X j) /\ forall n, 0 <= n < sb_size sb -> BBLOCK n sb <> bptr V X j;
  fw_inj : forall j j', 0 <= j < NPTR -> 0 <= j' < NPTR -> bptr V X j <> 0 ->
    bptr V X j = bptr V X j' -> j = j'
}.

Lemma bptr_direct V X j : j <= NDIRECT -> bptr V X j = nthZ 0 (i_addrs X) j.
Proof. intros. unfold bptr. destruct (Z.leb_spec j NDIRECT); [done|lia]. Qed.

Lemma bptr_indirect V X j :
  NDIRECT < j -> nthZ 0 (i_addrs X) NDIRECT <> 0 ->
  bptr V X j = get32 (V (nthZ 0 (i_addrs X) NDIRECT)) (4 * (j - NDIRECT - 1)).
Proof.
  intros Hj Hi. unfold bptr. destruct (Z.leb_spec j NDIRECT); [lia|].
  destruct (Z.eqb_spec (nthZ 0 (i_addrs X) NDIRECT) 0); [done|done].
Qed.

Lemma bptr_no_indirect V X j : NDIRECT < j -> nthZ 0 (i_addrs X) NDIRECT = 0 -> bptr V X j = 0.
Proof.
  intros Hj Hi. unfold bptr. destruct (Z.leb_spec j NDIRECT); [lia|]. by rewrite Hi.
Qed.

(** bmap() of a block that exists changes nothing. *)
Lemma bmap_lookup s x T V H P ip bn :
  let X := ip_at s ip in
  bs_rep x T V H P [] -> fwf (f_sb s) V H X -> room H P 1 -> 0 <= bn < MAXFILE ->
  bptr V X (pidx bn) <> 0 ->
  exists y, bmap ip bn (set_store x s) = Ret (bptr V X (pidx bn)) (set_store y s) /\
    bs_rep y T V H P [].
Proof.
  intros X HR Hf Hr Hbn Hp. unfold bmap. erewrite bind_Ret by reflexivity.
  change (ip_at (set_store x s) ip) with X. unfold pidx in *.
  destruct (Z.ltb_spec bn NDIRECT).
  - rewrite bptr_direct in * by lia. cbv zeta. destruct (Z.eqb_spec (nthZ 0 (i_addrs X) bn) 0); [done|].
    by exists x.
  - cbv zeta. destruct (Z.ltb_spec (bn - NDIRECT) NINDIRECT); [|unfold MAXFILE in *; lia].
    set (ind := nthZ 0 (i_addrs X) NDIRECT).
    destruct (decide (ind = 0)) as [Hi|Hi]; [rewrite bptr_no_indirect in Hp by (try done; lia); done|].
    rewrite bptr_indirect in * by (try done; lia). fold ind in Hp |- *.
    destruct (Z.eqb_spec ind 0); [done|]. erewrite bind_Ret by reflexivity.
    destruct (Z.eqb_spec ind 0); [done|]. rewrite (fw_dev _ _ _ _ Hf).
    assert (Hui : unheld H ind).
    { pose proof (fw_ptr _ _ _ _ Hf NDIRECT ltac:(done)) as Hq. rewrite bptr_direct in Hq by lia.
      by apply Hq. }
    destruct (fbread_ok s x T V H P [] ind HR Hui Hr) as (bp & y1 & E1 & HN & HR1).
    assert (HH : <[bp := ind]> H !! bp = Some ind) by apply lookup_insert_eq.
    erewrite bind_Ret by exact E1. erewrite bind_Ret by (by eapply fbdata_ok).
    replace (bn + 1 - NDIRECT - 1) with (bn - NDIRECT) in * by lia.
    destruct (Z.eqb_spec (get32 (V ind) (4 * (bn - NDIRECT))) 0); [done|].
    erewrite bind_Ret by reflexivity.
    destruct (fbrelse_ok s y1 T _ _ _ _ bp ind HR1 HH) as (y2 & E2 & HR2); [apply not_elem_of_nil|].
    erewrite bind_Ret by exact E2. rewrite delete_insert_id in HR2 by done. by exists y2.
Qed.

(** The data blocks of the bytes [off, off + n) exist. *)
Definition allocated V (X : inode) (off n : Z) : Prop :=
  forall o, off <= o < off + n -> bptr V X (pidx (o / BSIZE)) <> 0.

Lemma pidx_range bn : 0 <= bn < MAXFILE -> 0 <= pidx bn < NPTR.
Proof.
  unfold pidx, MAXFILE, NPTR. intros. destruct (Z.ltb_spec bn NDIRECT); unfold NDIRECT, NINDIRECT, BSIZE in *; lia.
Qed.

Lemma block_step off rem : 0 <= off -> 0 < rem ->
  let m := Z.min rem (BSIZE - off mod BSIZE) in
  0 < m <= rem /\ off mod BSIZE + m <= BSIZE /\ 0 <= off mod BSIZE /\
  (m < rem -> (off + m) mod BSIZE = 0 /\ (off + m) / BSIZE = off / BSIZE + 1).
Proof.
  intros Ho Hr m. unfold m. pose proof (Z.mod_pos_bound off BSIZE ltac:(done)).
  assert (0 < BSIZE) by done. change BSIZE with 1024 in *. Z.div_mod_to_equations. lia.
Qed.

(** Blocks the bytes [off, off + rem) touch. *)
Definition touched (off rem : Z) : Z := if rem <=? 0 then 0 else (off + rem - 1) / BSIZE - off / BSIZE + 1.

Lemma touched_step off rem : 0 <= off -> 0 < rem ->
  let m := Z.min rem (BSIZE - off mod BSIZE) in
  touched off rem = 1 + touched (off + m) (rem - m).
Proof.
  intros Ho Hr m. destruct (block_step off rem Ho Hr) as (Hm & Hb & Hnn & Hst). fold m in Hm, Hb, Hst.
  unfold touched. destruct (Z.leb_spec rem 0); [lia|]. destruct (Z.leb_spec (rem - m) 0).
  - assert (m = rem) as -> by lia. change BSIZE with 1024 in *. Z.div_mod_to_equations. lia.
  - destruct Hst as [_ ->]; [lia|]. replace (off + m + (rem - m) - 1) with (off + rem - 1) by lia. lia.
Qed.

Lemma touched_fuel off n : 0 <= off -> 0 <= n -> touched off n <= Z.of_nat (rw_fuel n).
Proof.
  intros. unfold touched, rw_fuel. destruct (Z.leb_spec n 0); [lia|].
  change BSIZE with 1024. Z.div_mod_to_equations. lia.
Qed.

(** What a read into kernel memory or a kernel variable leaves. *)
Definition in_kernel (d : dest) : Prop := match d with UserDst _ => False | _ => True end.
Definition kwritten (d : dest) (bs : list Z) (k : kmem) : kmem :=
  match d with KernDst pa => set_phys (storen (phys k) pa bs) k | _ => k end.
Definition returned (d : dest) (bs : list Z) : list Z := match d with KernVar => bs | _ => [] end.
Definition fill (d : dest) (bs : list Z) (s : st) : st := set_umem (kwritten d bs (umem s)) s.

Lemma storen_app m a bs cs : storen m a (bs ++ cs) = storen (storen m a bs) (a + zlen bs) cs.
Proof.
  revert m a. induction bs as [|b bs IH]; intros m a; [unfold zlen; cbn; by rewrite Z.add_0_r|]. cbn [app storen]. rewrite IH.
  f_equal. unfold zlen. cbn [length]. lia.
Qed.

Lemma returned_app d bs cs m : returned d (bs ++ cs) = returned d bs ++ returned (dest_add d m) cs.
Proof. by destruct d. Qed.

(** A copy of [bs] to the user's [va]: the address space keeps its shape and
    nothing outside the destination changes; either all of it arrives or some
    of the destination is not accessible. *)
Record copied (kend root : Z) (l : list Z) (va : Z) (bs : list Z) (k k' : kmem) (ok : bool) : Prop := {
  cd_view : uview kend k' root l;
  cd_leaf : forall w, leaf (phys k') root w = leaf (phys k) root w;
  cd_frame : forall a, (forall i, 0 <= i < zlen bs -> uaddr (phys k) root (va + i) <> Some a) ->
    load8 (phys k') a = load8 (phys k) a;
  cd_res : if ok then forall w, ubyte (phys k') root w =
      if decide (va <= w < va + zlen bs) then Some (u8 (nthZ 0 bs (w - va))) else ubyte (phys k) root w
    else exists i, 0 <= i < zlen bs /\ uaddr (phys k) root (va + i) = None
}.

(** [bs] delivered to [d], memory going from [k] to [k']; only a user
    destination can refuse. *)
Definition delivered (kend root : Z) (l : list Z) (d : dest) (bs : list Z) (k k' : kmem) (ok : bool) : Prop :=
  match d with
  | UserDst va => copied kend root l va bs k k' ok
  | _ => ok = true /\ k' = kwritten d bs k
  end.
Definition reachable (kend root : Z) (l : list Z) (d : dest) (k : kmem) : Prop :=
  match d with UserDst va => uview kend k root l /\ 0 <= va < 2 ^ 64 | _ => True end.

Lemma copied_app kend root l va bs cs k k1 k2 ok :
  copied kend root l va bs k k1 true -> copied kend root l (va + zlen bs) cs k1 k2 ok -> copied kend root l va (bs ++ cs) k k2 ok.
Proof.
  intros [_ L1 F1 R1] [V2 L2 F2 R2]. pose proof (zlen_nonneg bs) as Hz. pose proof (zlen_nonneg cs) as Hzc.
  pose proof (uaddr_leaf_ext _ _ root L1) as Hu.
  assert (Hlen : zlen (bs ++ cs) = zlen bs + zlen cs) by apply zlen_app. split; [done|..].
  - intros w. by rewrite L2.
  - intros a Hx. rewrite F2, F1; [done| |].
    + intros i Hi. apply Hx. lia.
    + intros i Hi. rewrite Hu, <- Z.add_assoc. apply Hx. lia.
  - rewrite Hlen. destruct ok.
    + intros w. rewrite R2, R1. repeat case_decide; try lia; try done.
      * rewrite nthZ_app by lia. destruct (Z.ltb_spec (w - va) (zlen bs)); [lia|]. by replace (w - va - zlen bs) with (w - (va + zlen bs)) by lia.
      * rewrite nthZ_app by lia. destruct (Z.ltb_spec (w - va) (zlen bs)); [done|lia].
    + destruct R2 as (i & Hi & Hn). exists (zlen bs + i). split; [lia|]. by rewrite Z.add_assoc, <- Hu.
Qed.

Lemma copied_stop kend root l va bs cs k k1 : copied kend root l va bs k k1 false -> copied kend root l va (bs ++ cs) k k1 false.
Proof.
  intros [V1 L1 F1 (i & Hi & Hn)]. pose proof (zlen_nonneg cs). split; try done.
  - intros a Hx. apply F1. intros j Hj. apply Hx. rewrite zlen_app. lia.
  - exists i. split; [rewrite zlen_app; lia|done].
Qed.

Lemma copied_end kend root l va bs k k1 :
  copied kend root l va bs k k1 true -> 0 <= va -> 0 < zlen bs -> u64 (va + zlen bs) = va + zlen bs /\ va + zlen bs < 2 ^ 64.
Proof.
  intros [_ L1 _ R1] Hva Hz. specialize (R1 (va + zlen bs - 1)). rewrite decide_True in R1 by lia.
  unfold ubyte, uaddr in R1. destruct (bool_decide (0 <= va + zlen bs - 1 < MAXVA)) eqn:E; [|done].
  apply bool_decide_eq_true in E. change MAXVA with 274877906944 in E. change (2 ^ 64) with 18446744073709551616.
  split; [apply u64_small; change (2 ^ 64) with 18446744073709551616; lia|lia].
Qed.

Lemma delivered_nil kend root l d k : reachable kend root l d k -> delivered kend root l d [] k k true.
Proof.
  destruct d as [va|pa|]; [intros [Hv _]|intros _; split; [done|by destruct k]|done]. split; try done.
  intros w. change (zlen []) with 0. by rewrite decide_False by lia.
Qed.

Lemma delivered_app kend root l d bs cs k k1 k2 ok :
  reachable kend root l d k -> 0 < zlen bs -> delivered kend root l d bs k k1 true ->
  delivered kend root l (dest_add d (zlen bs)) cs k1 k2 ok -> delivered kend root l d (bs ++ cs) k k2 ok.
Proof.
  destruct d as [va|pa|]; cbn [dest_add delivered].
  - intros [_ Hva] Hz H1. destruct (copied_end _ _ _ _ _ _ _ H1 (proj1 Hva) Hz) as [-> _]. by apply copied_app.
  - intros _ _ [_ ->] [-> ->]. split; [done|]. cbn. by rewrite storen_app.
  - intros _ _ [_ ->] [-> ->]. done.
Qed.

Lemma reachable_step kend root l d bs k k1 :
  reachable kend root l d k -> 0 < zlen bs -> delivered kend root l d bs k k1 true -> reachable kend root l (dest_add d (zlen bs)) k1.
Proof.
  destruct d as [va|pa|]; cbn [dest_add delivered reachable]; [|done..]. intros [_ Hva] Hz H1.
  destruct (copied_end _ _ _ _ _ _ _ H1 (proj1 Hva) Hz) as [-> ?]. split; [apply H1|lia].
Qed.

Lemma either_copyout_ok kend l d bs s y :
  KERNBASE <= kend -> reachable kend (upt s) l d (umem s) ->
  exists (ok : bool) k', either_copyout d bs (set_store y s) = Ret (if ok then 0 else -1, returned d bs) (set_store y (set_umem k' s)) /\
    delivered kend (upt s) l d bs (umem s) k' ok.
Proof.
  intros Hk. destruct d as [va|pa|]; cbn [reachable].
  - intros [Hv Hva]. destruct (copyout_spec kend Hk (umem s) (upt s) va bs l Hv Hva) as (r & k' & E & Hv' & Hl & Hf & Hr).
    assert (E' : either_copyout (UserDst va) bs (set_store y s) = Ret (r, []) (set_store y (set_umem k' s))).
    { unfold either_copyout. erewrite bind_Ret by reflexivity. erewrite bind_Ret by (apply zoom_Ret; exact E). reflexivity. }
    destruct Hr as [[-> Hr]|[-> Hr]]; [exists true|exists false]; exists k'; (split; [exact E'|]); by split.
  - intros _. exists true. eexists. split; [reflexivity|]. done.
  - intros _. exists true, (umem s). split; [by destruct s|done].
Qed.

Lemma readi_loop_spec kend l fuel s x T V H P ip d off n tot acc :
  let X := ip_at s ip in
  KERNBASE <= kend -> bs_rep x T V H P [] -> fwf (f_sb s) V H X -> room H P 1 -> reachable kend (upt s) l d (umem s) ->
  0 <= off -> 0 <= tot <= n -> off + (n - tot) <= MAXFILE * BSIZE ->
  allocated V X off (n - tot) -> touched off (n - tot) <= Z.of_nat fuel ->
  n < 2 ^ 32 ->
  exists (ok : bool) k' y, readi_loop fuel ip d off n tot acc (set_store x s) =
      Ret (if ok then n else u32 (-1), acc ++ returned d (fbytes V X off (n - tot))) (set_store y (set_umem k' s)) /\ bs_rep y T V H P [] /\
    delivered kend (upt s) l d (fbytes V X off (n - tot)) (umem s) k' ok.
Proof.
  intros X Hk HR Hf Hr Hd. assert (Hend : forall s d x acc off tot, bs_rep x T V H P [] -> reachable kend (upt s) l d (umem s) -> tot = n ->
    exists ok k' y, Ret (tot, acc) (set_store x s) = Ret (if ok : bool then n else u32 (-1), acc ++ returned d (fbytes V X off (n - tot))) (set_store y (set_umem k' s)) /\
      bs_rep y T V H P [] /\ delivered kend (upt s) l d (fbytes V X off (n - tot)) (umem s) k' ok).
  { intros s1 d1 x1 acc1 off1 tot1 HR1 Hd1 ->. exists true, (umem s1), x1. rewrite Z.sub_diag. change (fbytes V X off1 0) with (@nil Z).
    split; [destruct d1; cbn [returned]; rewrite app_nil_r; by destruct s1|]. split; [done|by apply delivered_nil]. }
  remember X as X0 eqn:HX. unfold X in HX. clear X. rename X0 into X. revert s d x off tot acc HX HR Hf Hd.
  induction fuel as [|fuel IH]; intros s d x off tot acc HX HR Hf Hd Ho Ht Hmax Hal Hfu Hn;
    cbn [readi_loop]; destruct (Z.ltb_spec tot n).
  - destruct (block_step off (n - tot) Ho ltac:(lia)) as (Hm & _). rewrite touched_step in Hfu by lia.
    exfalso. unfold touched in Hfu. destruct (Z.leb_spec (n - tot - (n - tot) `min` (BSIZE - off mod BSIZE)) 0); [lia|].
    change BSIZE with 1024 in *. Z.div_mod_to_equations. lia.
  - apply Hend; [done|done|lia].
  - destruct (block_step off (n - tot) Ho ltac:(lia)) as (Hm & Hb & Hnn & Hst).
    set (m := Z.min (n - tot) (BSIZE - off mod BSIZE)) in *.
    assert (Hbn : 0 <= off / BSIZE < MAXFILE).
    { change (MAXFILE * BSIZE) with 274432 in Hmax. change MAXFILE with 268. change BSIZE with 1024 in *. Z.div_mod_to_equations. lia. }
    assert (Hp : bptr V X (pidx (off / BSIZE)) <> 0) by (apply Hal; lia).
    rewrite HX in Hf, Hp. destruct (bmap_lookup s x T V H P ip (off / BSIZE) HR Hf Hr Hbn Hp) as (y1 & E1 & HR1).
    erewrite bind_Ret by exact E1. rewrite <- HX in *. destruct (Z.eqb_spec (bptr V X (pidx (off / BSIZE))) 0); [done|].
    erewrite bind_Ret by reflexivity. change (ip_at (set_store y1 s) ip) with (ip_at s ip). rewrite <- HX, (fw_dev _ _ _ _ Hf).
    destruct (fw_ptr _ _ _ _ Hf (pidx (off / BSIZE)) (pidx_range _ Hbn) Hp) as (_ & _ & _ & Hu & _).
    destruct (fbread_ok s y1 T V H P [] _ HR1 Hu Hr) as (bp & y2 & E2 & HN & HR2).
    erewrite bind_Ret by exact E2. cbv zeta. fold m.
    erewrite bind_Ret by (eapply fbdata_ok; [exact HR2|apply lookup_insert_eq]).
    rewrite slice_fbytes; [|lia|lia|lia|by eapply bs_len].
    destruct (either_copyout_ok kend l d (fbytes V X off m) s y2 Hk Hd) as (ok & k1 & Ec & Hdl).
    erewrite bind_Ret by exact Ec. cbn [fst snd]. set (s1 := set_umem k1 s) in *.
    destruct (fbrelse_ok s1 y2 T _ _ _ _ bp _ HR2 (lookup_insert_eq _ _ _)) as (y3 & E3 & HR3); [apply not_elem_of_nil|].
    rewrite delete_insert_id in HR3 by done.
    assert (Hsum : fbytes V X off (n - tot) = fbytes V X off m ++ fbytes V X (off + m) (n - (tot + m))).
    { replace (n - tot) with (m + (n - (tot + m))) by lia. apply fbytes_app; lia. }
    assert (Hzm : zlen (fbytes V X off m) = m) by (apply zlen_fbytes; lia).
    destruct ok; cbv iota.
    + change (0 =? -1) with false. cbv iota. erewrite bind_Ret by exact E3.
      rewrite !u32_small by (change (MAXFILE * BSIZE) with 274432 in Hmax; lia).
      destruct (IH s1 (dest_add d m) y3 (off + m) (tot + m) (acc ++ returned d (fbytes V X off m))) as (ok & k2 & y4 & E4 & HR4 & Hd4); try done; try lia.
      { rewrite <- Hzm. apply (reachable_step _ _ _ _ _ _ _ Hd); [lia|done]. }
      { intros o Hoo. apply Hal. lia. }
      { rewrite touched_step in Hfu by lia. fold m in Hfu. replace (n - (tot + m)) with (n - tot - m) by lia. lia. }
      exists ok, k2, y4. split; [|split; [done|]]; rewrite Hsum.
      * rewrite E4, <- app_assoc, (returned_app d _ _ m). done.
      * rewrite <- Hzm in Hd4 at 1. by apply (delivered_app _ _ _ _ _ _ _ k1); [|lia|..].
    + change (-1 =? -1) with true. cbv iota. erewrite bind_Ret by exact E3. destruct d as [va|pa|]; [|by destruct Hdl..].
      exists false, k1, y3. cbn [returned]. rewrite app_nil_r. split; [reflexivity|]. split; [done|]. rewrite Hsum. by apply copied_stop.
  - apply Hend; [done|done|lia].
Qed.

(** How many bytes a read at [off] of [n] bytes returns. *)
Definition read_len (size off n : Z) : Z :=
  if (size <? off) || (2 ^ 32 <=? off + n) then 0 else Z.min n (size - off).

Lemma u32_over z : 2 ^ 32 <= z < 2 ^ 33 -> u32 z = z - 2 ^ 32.
Proof. change (2 ^ 32) with 4294967296. change (2 ^ 33) with 8589934592. intros. word. Qed.

Lemma readi_all kend l s x T V H P ip d off n :
  let X := ip_at s ip in
  KERNBASE <= kend -> bs_rep x T V H P [] -> fwf (f_sb s) V H X -> room H P 1 -> reachable kend (upt s) l d (umem s) ->
  0 <= off < 2 ^ 32 -> 0 <= n < 2 ^ 32 -> 0 <= i_size X <= MAXFILE * BSIZE ->
  allocated V X 0 (i_size X) ->
  let bs := fbytes V X off (read_len (i_size X) off n) in
  exists (ok : bool) k' y, readi ip d off n (set_store x s) = Ret (if ok then zlen bs else -1, returned d bs) (set_store y (set_umem k' s)) /\
    bs_rep y T V H P [] /\ delivered kend (upt s) l d bs (umem s) k' ok.
Proof.
  intros X Hk HR Hf Hr Hd Ho Hn Hs Hal bs.
  assert (Hz : read_len (i_size X) off n = 0 -> exists (ok : bool) k' y, Ret (0, []) (set_store x s) =
      Ret (if ok then zlen bs else -1, returned d bs) (set_store y (set_umem k' s)) /\ bs_rep y T V H P [] /\ delivered kend (upt s) l d bs (umem s) k' ok).
  { intros E0. exists true, (umem s), x. unfold bs. rewrite E0. change (fbytes V X off 0) with (@nil Z).
    split; [destruct d; by destruct s|]. split; [done|by apply delivered_nil]. }
  unfold readi. erewrite bind_Ret by reflexivity. change (ip_at (set_store x s) ip) with X. unfold read_len in Hz.
  change (2 ^ 32) with 4294967296 in *. change (MAXFILE * BSIZE) with 274432 in Hs.
  destruct (Z.ltb_spec (i_size X) off) as [|Hso]; cbn [orb] in *; [by apply Hz|].
  destruct (Z.leb_spec 4294967296 (off + n)) as [Hov|Hov].
  { pose proof (u32_over (off + n)) as Hu. change (2 ^ 32) with 4294967296 in Hu.
    change (2 ^ 33) with 8589934592 in Hu. rewrite Hu by lia.
    destruct (Z.ltb_spec (off + n - 4294967296) off); [by apply Hz|lia]. }
  rewrite (u32_small (off + n)) by (change (2 ^ 32) with 4294967296; lia).
  destruct (Z.ltb_spec (off + n) off); [lia|].
  rewrite (u32_small (i_size X - off)) by (change (2 ^ 32) with 4294967296; lia). cbv zeta.
  set (n' := if i_size X <? off + n then i_size X - off else n).
  assert (Hn' : n' = Z.min n (i_size X - off)) by (unfold n'; destruct (Z.ltb_spec (i_size X) (off + n)); lia).
  assert (Hbs : bs = fbytes V X off n').
  { unfold bs, read_len. change (2 ^ 32) with 4294967296. rewrite Hn'. destruct (Z.ltb_spec (i_size X) off); [lia|].
    destruct (Z.leb_spec 4294967296 (off + n)); [lia|done]. }
  destruct (readi_loop_spec kend l (rw_fuel n') s x T V H P ip d off n' 0 [] Hk HR Hf Hr Hd) as (ok & k' & y & E & HR' & Hdl);
    rewrite ?Z.sub_0_r in *; try lia; fold X.
  - change (MAXFILE * BSIZE) with 274432. lia.
  - intros o Hoo. apply Hal. lia.
  - apply touched_fuel; lia.
  - erewrite bind_Ret by exact E. cbn [fst snd app]. fold X in Hdl. exists ok, k', y. rewrite Hbs. split; [|done].
    rewrite zlen_fbytes by lia. destruct ok; [|reflexivity]. by rewrite s32_small by (change (2 ^ 31) with 2147483648; lia).
Qed.

Lemma read_len_nonneg size off n : 0 <= n -> 0 <= read_len size off n.
Proof. intros. unfold read_len. destruct (Z.ltb_spec size off); cbn [orb]; [lia|]. destruct (_ <=? _); lia. Qed.

Lemma readi_kernel s x T V H P ip d off n :
  let X := ip_at s ip in
  bs_rep x T V H P [] -> fwf (f_sb s) V H X -> room H P 1 -> in_kernel d ->
  0 <= off < 2 ^ 32 -> 0 <= n < 2 ^ 32 -> 0 <= i_size X <= MAXFILE * BSIZE ->
  allocated V X 0 (i_size X) ->
  let len := read_len (i_size X) off n in
  exists y, readi ip d off n (set_store x s) = Ret (len, returned d (fbytes V X off len)) (set_store y (fill d (fbytes V X off len) s)) /\
    bs_rep y T V H P [].
Proof.
  intros X HR Hf Hr Hd Ho Hn Hs Hal len.
  destruct (readi_all KERNBASE [] s x T V H P ip d off n ltac:(lia) HR Hf Hr) as (ok & k' & y & E & HR' & Hdl); try done; [by destruct d|].
  exists y. split; [|done]. assert (ok = true /\ k' = kwritten d (fbytes V X off len) (umem s)) as [-> ->] by (destruct d; done).
  rewrite E. by rewrite zlen_fbytes by (apply read_len_nonneg; lia).
Qed.

Lemma readi_spec s x T V H P ip off n :
  let X := ip_at s ip in
  bs_rep x T V H P [] -> fwf (f_sb s) V H X -> room H P 1 ->
  0 <= off < 2 ^ 32 -> 0 <= n < 2 ^ 32 -> 0 <= i_size X <= MAXFILE * BSIZE ->
  allocated V X 0 (i_size X) ->
  let len := read_len (i_size X) off n in
  exists y, readi ip KernVar off n (set_store x s) = Ret (len, fbytes V X off len) (set_store y s) /\
    bs_rep y T V H P [].
Proof.
  intros X HR Hf Hr Ho Hn Hs Hal len. destruct (readi_kernel s x T V H P ip KernVar off n HR Hf Hr I Ho Hn Hs Hal) as (y & E & HR').
  exists y. split; [|exact HR']. rewrite E. by destruct s.
Qed.

(** C29: readi() delivers exactly the bytes of the file.  For every offset and
    length, also past the end of the file or overflowing 32 bits, and every
    destination, it reads as many bytes as the file has there, each one the
    byte its direct or indirect block holds.  A kernel variable and kernel
    memory receive all of them; so does user memory if all of the destination
    is accessible, and nothing else of the memory changes; otherwise readi()
    returns -1, and what it copied before stays within the destination.  It
    changes no block. *)
Theorem readi_correct kend l s x T V H P ip d off n :
  KERNBASE <= kend -> bs_rep x T V H P [] -> fwf (f_sb s) V H (ip_at s ip) -> room H P 1 -> reachable kend (upt s) l d (umem s) ->
  0 <= off < 2 ^ 32 -> 0 <= n < 2 ^ 32 -> 0 <= i_size (ip_at s ip) <= MAXFILE * BSIZE ->
  allocated V (ip_at s ip) 0 (i_size (ip_at s ip)) ->
  exists y bs k', zlen bs = read_len (i_size (ip_at s ip)) off n /\
    (forall i, 0 <= i < zlen bs -> nthZ 0 bs i = fbyte V (ip_at s ip) (off + i)) /\
    bs_rep y T V H P [] /\
    exists r got, readi ip d off n (set_store x s) = Ret (r, got) (set_store y (set_umem k' s)) /\
      match d with
      | KernVar => r = zlen bs /\ got = bs /\ k' = umem s
      | KernDst pa => r = zlen bs /\ k' = set_phys (storen (phys (umem s)) pa bs) (umem s)
      | UserDst va => (r = zlen bs /\ copied kend (upt s) l va bs (umem s) k' true) \/
                      (r = -1 /\ copied kend (upt s) l va bs (umem s) k' false)
      end.
Proof.
  intros Hk HR Hf Hr Hd Ho Hn Hs Hal.
  destruct (readi_all kend l s x T V H P ip d off n Hk HR Hf Hr Hd Ho Hn Hs Hal) as (ok & k' & y & E & HR' & Hdl).
  pose proof (read_len_nonneg (i_size (ip_at s ip)) off n ltac:(lia)) as Hl.
  exists y, (fbytes V (ip_at s ip) off (read_len (i_size (ip_at s ip)) off n)), k'.
  split; [by apply zlen_fbytes|]. split; [intros i Hi; rewrite zlen_fbytes in Hi by done; by apply nthZ_fbytes|]. split; [done|].
  eexists _, _. split; [exact E|]. destruct d as [va|pa|]; cbn [delivered] in Hdl.
  - destruct ok; [by left|by right].
  - by destruct Hdl as [-> ->].
  - by destruct Hdl as [-> ->].
Qed.

(** ** Giving a file a new block *)

(** Pointer [j] set to [r], in the inode or in the indirect block. *)
Definition ptr_inode (X : inode) (j r : Z) : inode :=
  if j <=? NDIRECT then set_i_addrs (updZ j r (i_addrs X)) X else X.
Definition ptr_view V (X : inode) (j r : Z) : Z -> list Z :=
  if j <=? NDIRECT then V
  else let ind := nthZ 0 (i_addrs X) NDIRECT in vset V ind (put32 (V ind) (4 * (j - NDIRECT - 1)) r).

Lemma bptr_view_ext V V' X i :
  (nthZ 0 (i_addrs X) NDIRECT <> 0 -> V' (nthZ 0 (i_addrs X) NDIRECT) = V (nthZ 0 (i_addrs X) NDIRECT)) ->
  bptr V' X i = bptr V X i.
Proof.
  intros Hv. unfold bptr. destruct (i <=? NDIRECT); [done|].
  destruct (Z.eqb_spec (nthZ 0 (i_addrs X) NDIRECT) 0); [done|]. by rewrite Hv.
Qed.

(** Setting an unset pointer changes that pointer only.  When it is the
    indirect block's, the block is fresh and lists nothing. *)
Lemma bptr_set V X j r i :
  zlen (i_addrs X) = NDIRECT + 1 -> (forall b, zlen (V b) = BSIZE) ->
  0 <= j < NPTR -> 0 <= i < NPTR -> bptr V X j = 0 ->
  (NDIRECT < j -> nthZ 0 (i_addrs X) NDIRECT <> 0) ->
  (j = NDIRECT -> V r = repeat 0 (Z.to_nat BSIZE)) -> 0 < r < 2 ^ 32 ->
  bptr (ptr_view V X j r) (ptr_inode X j r) i = if decide (i = j) then r else bptr V X i.
Proof.
  change NPTR with 269. change NDIRECT with 12. intros Ha HV Hj Hi Hj0 Hind Hfresh Hr.
  unfold ptr_view, ptr_inode. destruct (Z.leb_spec j NDIRECT) as [Hjd|Hjd]; change NDIRECT with 12 in *.
  - unfold bptr. change NDIRECT with 12. cbn [i_addrs set_i_addrs]. destruct (Z.leb_spec i 12).
    + case_decide; [subst; by rewrite nthZ_updZ_eq by lia|by rewrite nthZ_updZ_ne].
    + rewrite decide_False by lia. destruct (decide (j = 12)) as [->|].
      * rewrite nthZ_updZ_eq by lia. destruct (Z.eqb_spec r 0); [lia|].
        rewrite bptr_direct in Hj0 by (change NDIRECT with 12; lia). rewrite Hj0. cbn [Z.eqb].
        rewrite Hfresh by done. apply get32_zero; [lia|]. change (Z.of_nat (Z.to_nat BSIZE)) with 1024. lia.
      * by rewrite nthZ_updZ_ne by lia.
  - specialize (Hind Hjd). destruct (Z.leb_spec i 12).
    + rewrite !bptr_direct by (change NDIRECT with 12; lia). case_decide; [lia|done].
    + rewrite !bptr_indirect by (change NDIRECT with 12; try done; lia). change NDIRECT with 12. rewrite vset_eq.
      specialize (HV (nthZ 0 (i_addrs X) 12)). unfold BSIZE in HV. case_decide.
      * subst. rewrite get32_put32_same by lia. apply u32_small. lia.
      * rewrite get32_put32_other by lia. done.
Qed.

Lemma used_ext sb V V' :
  (forall n, 0 <= n < sb_size sb -> V' (BBLOCK n sb) = V (BBLOCK n sb)) ->
  forall n, 0 <= n < sb_size sb -> used sb V' n = used sb V n.
Proof. intros Hv n Hn. unfold used. by rewrite Hv. Qed.

Lemma bitmap_ok_ext sb V V' H :
  bitmap_ok sb V H -> (forall n, 0 <= n < sb_size sb -> used sb V' n = false -> used sb V n = false) ->
  bitmap_ok sb V' H.
Proof. intros [? ? ? Hf] Hu. split; try done. intros n Hn Hun. by apply Hf, Hu. Qed.

(** What bmap() does when it allocates: pointer [j] leads to the fresh block
    [r]; everything the file had is as before. *)
Lemma alloc_ptr sb V H X j r :
  let V' := ptr_view (alloc_view sb V r) X j r in
  let X' := ptr_inode X j r in
  bitmap_ok sb V H -> fwf sb V H X -> (forall b, zlen (V b) = BSIZE) ->
  0 <= j < NPTR -> bptr V X j = 0 -> (NDIRECT < j -> nthZ 0 (i_addrs X) NDIRECT <> 0) ->
  0 < r < sb_size sb -> used sb V r = false ->
  fwf sb V' H X' /\ bitmap_ok sb V' H /\
  (forall i, 0 <= i < NPTR -> bptr V' X' i = if decide (i = j) then r else bptr V X i) /\
  (forall i, 0 <= i < NPTR -> i <> NDIRECT -> bptr V X i <> 0 -> V' (bptr V X i) = V (bptr V X i)) /\
  V' r = repeat 0 (Z.to_nat BSIZE) /\
  (forall n, 0 <= n < sb_size sb -> used sb V' n = (n =? r) || used sb V n).
Proof.
  intros V' X' Hbm Hf HV Hj Hj0 Hind Hr Hfree.
  destruct (bm_free _ _ _ Hbm r ltac:(lia) Hfree) as (_ & Hrh & Hru & Hrb).
  destruct (bm_size _ _ _ Hbm) as [Hs1 Hs2].
  set (V1 := alloc_view sb V r) in *. set (ind := nthZ 0 (i_addrs X) NDIRECT) in *.
  assert (HV1 : forall b, b <> r -> b <> BBLOCK r sb -> V1 b = V b).
  { intros b Hb1 Hb2. unfold V1, alloc_view. by rewrite !vset_ne. }
  assert (HV1r : V1 r = repeat 0 (Z.to_nat BSIZE)) by (unfold V1, alloc_view; by rewrite vset_eq).
  assert (Hnr : forall i, 0 <= i < NPTR -> bptr V X i <> 0 -> bptr V X i <> r /\ bptr V X i <> BBLOCK r sb).
  { intros i Hi Hne. destruct (fw_ptr _ _ _ _ Hf i Hi Hne) as (_ & Hu & _ & _ & Hb). split.
    - intros Hc. congruence.
    - intros Hc. apply (Hb r); [lia|done]. }
  assert (Hptr12 : bptr V X NDIRECT = ind) by (apply bptr_direct; lia).
  assert (Hindv : ind <> 0 -> V1 ind = V ind).
  { intros Hi. rewrite <- Hptr12 in Hi |- *. destruct (Hnr NDIRECT ltac:(done) Hi). by apply HV1. }
  assert (HV1l : forall b, zlen (V1 b) = BSIZE).
  { intros b. unfold V1, alloc_view, vset. repeat case_decide; [reflexivity|by rewrite zlen_set_bit|done]. }
  assert (Hb1 : forall i, bptr V1 X i = bptr V X i) by (intros i; by apply bptr_view_ext).
  assert (Hptr : forall i, 0 <= i < NPTR -> bptr V' X' i = if decide (i = j) then r else bptr V X i).
  { intros i Hi. unfold V', X'. rewrite bptr_set; try done; rewrite ?Hb1; try done.
    - apply (fw_addrs _ _ _ _ Hf).
    - change (2 ^ 32) with 4294967296. change (2 ^ 31) with 2147483648 in Hs2. change BPB with 8192 in Hs2. lia. }
  assert (HV'ind : forall b, (NDIRECT < j -> b <> ind) -> V' b = V1 b).
  { intros b Hb. unfold V', ptr_view. destruct (Z.leb_spec j NDIRECT); [done|]. apply vset_ne. auto. }
  assert (Hdata : forall i, 0 <= i < NPTR -> i <> NDIRECT -> bptr V X i <> 0 -> V' (bptr V X i) = V (bptr V X i)).
  { intros i Hi Hi12 Hne. destruct (Hnr i Hi Hne). rewrite HV'ind; [by apply HV1|].
    intros _ Hc. apply Hi12. apply (fw_inj _ _ _ _ Hf i NDIRECT); done. }
  assert (Hindu : NDIRECT < j -> forall n, 0 <= n < sb_size sb -> BBLOCK n sb <> ind).
  { intros Hjn. rewrite <- Hptr12. apply (fw_ptr _ _ _ _ Hf); [done|]. rewrite Hptr12. auto. }
  assert (Hrind : NDIRECT < j -> r <> ind).
  { intros Hjn Hc. rewrite <- Hptr12 in Hc. destruct (Hnr NDIRECT ltac:(done)); [|congruence]. rewrite Hptr12. auto. }
  assert (Hused : forall n, 0 <= n < sb_size sb -> used sb V' n = (n =? r) || used sb V n).
  { intros n Hn. rewrite <- (used_alloc sb V H r n) by (try done; lia). fold V1. apply used_ext; [|done].
    intros k Hk. apply HV'ind. intros Hjn. by apply Hindu. }
  split; [|split; [|split; [exact Hptr|split; [exact Hdata|split; [|exact Hused]]]]].
  - split.
    + unfold X', ptr_inode. destruct (j <=? NDIRECT); apply (fw_dev _ _ _ _ Hf).
    + unfold X', ptr_inode. destruct (j <=? NDIRECT); [cbn; rewrite zlen_updZ|]; apply (fw_addrs _ _ _ _ Hf).
    + intros i Hi. rewrite Hptr by done. case_decide as Hij; intros Hne.
      * split; [done|]. split; [rewrite Hused by lia; by rewrite Z.eqb_refl|]. split; [done|]. done.
      * destruct (fw_ptr _ _ _ _ Hf i Hi Hne) as (H1 & H2 & H3). split; [done|]. split; [|done].
        rewrite Hused, H2 by lia. apply orb_true_r.
    + intros i i' Hi Hi'. rewrite !Hptr by done. repeat case_decide; subst; intros Hne Heq; try done.
      * exfalso. destruct (Hnr i' Hi'); congruence.
      * exfalso. destruct (Hnr i Hi); congruence.
      * by apply (fw_inj _ _ _ _ Hf).
  - apply (bitmap_ok_ext sb V); [done|]. intros n Hn. rewrite Hused by done. by intros [_ ?]%orb_false_iff.
  - rewrite HV'ind; [done|]. intros Hjn. by apply Hrind.
Qed.
End FsFile.

#[local] Existing Instance FsSample.fs_store.

(** A file of two blocks, 40 and 41, and 1500 bytes. *)
Definition two_block_file : inode :=
  Inode ROOTDEV 7 1 (sl_held 1) true T_FILE 0 0 1 1500 (40 :: 41 :: repeat 0 11).
Definition file_fs (X : inode) (x : lst) : fsst lst := set_itable (X :: repeat inode0 49) (FsSample.fs0 x).

Lemma two_block_ptr V j : 0 <= j < NPTR -> bptr V two_block_file j = if j =? 0 then 40 else if j =? 1 then 41 else 0.
Proof.
  intros Hj. destruct (decide (j <= NDIRECT)).
  - rewrite bptr_direct by done. change NDIRECT with 12 in *.
    assert (Hc : Forall (fun j => nthZ 0 (i_addrs two_block_file) j = if j =? 0 then 40 else if j =? 1 then 41 else 0) (seqZ 0 13))
      by (repeat constructor).
    rewrite Forall_forall in Hc. apply Hc, elem_of_seqZ. lia.
  - rewrite bptr_no_indirect by (try done; lia). change NDIRECT with 12 in *.
    destruct (Z.eqb_spec j 0), (Z.eqb_spec j 1); lia.
Qed.

Lemma two_block_wf V : (forall b, ~ in_log 2 30 b -> V b = dblk FsSample.img b) -> fwf FsSample.sb V ∅ two_block_file.
Proof.
  intros HV. split; try done.
  - intros j Hj. rewrite two_block_ptr by done. intros Hne.
    assert (Hr : 40 <= (if j =? 0 then 40 else if j =? 1 then 41 else 0) <= 41).
    { destruct (j =? 0); [lia|]. destruct (j =? 1); [lia|done]. }
    set (b := if j =? 0 then 40 else _) in *. clearbody b. change (sb_size FsSample.sb) with 2000.
    split; [lia|]. split; [rewrite (FsSample.used_sb V b HV) by lia; apply Z.ltb_lt; lia|].
    split; [split; [lia|unfold in_log; lia]|]. split; [intros i; by rewrite lookup_empty|].
    intros n Hn. rewrite FsSample.BBLOCK_sb by done. lia.
  - intros j j' Hj Hj'. rewrite !two_block_ptr by done.
    destruct (Z.eqb_spec j 0), (Z.eqb_spec j' 0), (Z.eqb_spec j 1), (Z.eqb_spec j' 1); lia.
Qed.

Lemma two_block_allocated V : allocated V two_block_file 0 1500.
Proof.
  intros o Ho. change BSIZE with 1024. assert (o / 1024 = 0 \/ o / 1024 = 1) as [-> | ->] by (Z.div_mod_to_equations; lia).
  - by rewrite two_block_ptr by done.
  - by rewrite two_block_ptr by done.
Qed.

Lemma readi_correct_witness :
  exists x V, bs_rep x true V ∅ [] [] /\
  exists y bs k', zlen bs = 500 /\ (forall i, 0 <= i < zlen bs -> nthZ 0 bs i = fbyte V two_block_file (1000 + i)) /\
    bs_rep y true V ∅ [] [] /\
    exists r got, readi 0 (KernDst KERNBASE) 1000 600 (set_store x (file_fs two_block_file x)) =
        Ret (r, got) (set_store y (set_umem k' (file_fs two_block_file x))) /\
      r = zlen bs /\ k' = set_phys (storen (phys (umem (file_fs two_block_file x))) KERNBASE bs) (umem (file_fs two_block_file x)).
Proof.
  destruct FsSample.in_transaction as (x & V & HR & HV). exists x, V. split; [exact HR|].
  apply (readi_correct KERNBASE [] (file_fs two_block_file x) x true V ∅ [] 0 (KernDst KERNBASE) 1000 600 ltac:(lia) HR (two_block_wf V HV)).
  - unfold room. rewrite map_size_empty. unfold NBUF, MAXOPBLOCKS. simpl. lia.
  - exact I.
  - lia.
  - lia.
  - vm_compute. intuition congruence.
  - exact (two_block_allocated V).
Defined.
