(* ===== verification/FsWrite.v ===== *)
(** * Growing and writing files: the proofs

    writei() block by block: where bmap() finds or allocates each block, what
    the file holds after it, and what stays as it was. *)

From Stdlib Require Import ZArith Lia.
From stdpp Require Import base numbers list list_numbers gmap strings sorting.
From S2P Require Import Prelude Cstring Riscv Kalloc Vm PageTable Uvm Ucopy Bytes Sleeplock Bio Bcache Log Recovery Store Fs FsBlocks FsInode FsFile.

Section FsWrite.
Context {S : Type} {ops : BlockOps S} {BS : BlockStore S}.
Notation st := (fsst S).
Implicit Types (s : st) (x y : S) (V : Z -> list Z) (H : gmap Z Z) (P D : list Z).

(** A block in use for something other than this file or the bitmap. *)
Definition foreign (sb : superblock) V (X : inode) (b : Z) : Prop :=
  0 < b < sb_size sb /\ used sb V b = true /\
  (forall i, 0 <= i < NPTR -> bptr V X i <> b) /\ (forall n, 0 <= n < sb_size sb -> BBLOCK n sb <> b).

(** From the file [X] over [V] to [X'] over [V']: nothing the file had is
    lost, only block pointers may have been added. *)
Record file_step (sb : superblock) H V (X : inode) V' (X' : inode) : Prop := {
  fs_wf : fwf sb V' H X';
  fs_bm : bitmap_ok sb V' H;
  fs_meta : X' = set_i_addrs (i_addrs X') X;
  fs_ptr : forall i, 0 <= i < NPTR -> bptr V X i <> 0 -> bptr V' X' i = bptr V X i;
  fs_data : forall i, 0 <= i < NPTR -> i <> NDIRECT -> bptr V X i <> 0 -> V' (bptr V X i) = V (bptr V X i);
  fs_used : forall b, 0 <= b < sb_size sb -> used sb V b = true -> used sb V' b = true;
  fs_frame : forall b, foreign sb V X b -> V' b = V b /\ forall i, 0 <= i < NPTR -> bptr V' X' i <> b
}.

Lemma file_step_refl sb H V X : fwf sb V H X -> bitmap_ok sb V H -> file_step sb H V X V X.
Proof.
  intros. split; try done; [by destruct X|]. intros b (_ & _ & ? & _). done.
Qed.

Lemma foreign_step sb H V X V' X' b : file_step sb H V X V' X' -> foreign sb V X b -> foreign sb V' X' b.
Proof.
  intros Hst Hb. destruct (fs_frame _ _ _ _ _ _ Hst b Hb). destruct Hb as (Hr & Hu & _ & Hn).
  split; [done|]. split; [|done]. apply (fs_used _ _ _ _ _ _ Hst); [lia|done].
Qed.

Lemma file_step_trans sb H V X V1 X1 V2 X2 :
  file_step sb H V X V1 X1 -> file_step sb H V1 X1 V2 X2 -> file_step sb H V X V2 X2.
Proof.
  intros Hst1 [Hw2 Hb2 Hm2 Hp2 Hd2 Hu2 Hf2]. pose proof Hst1 as [Hw1 Hb1 Hm1 Hp1 Hd1 Hu1 Hf1]. split; try done.
  - rewrite Hm2 at 1. rewrite Hm1 at 1. by destruct X.
  - intros i Hi Hne. rewrite Hp2, Hp1 by (try done; rewrite Hp1; done). done.
  - intros i Hi Hi12 Hne. rewrite <- (Hd1 i) by done. rewrite <- (Hp1 i) at 1 2 by done.
    apply Hd2; try done. by rewrite Hp1.
  - auto.
  - intros b Hb. destruct (Hf1 b Hb) as [<- _]. apply Hf2. by eapply foreign_step.
Qed.

Lemma file_step_alloc sb H V X j r :
  bitmap_ok sb V H -> fwf sb V H X -> (forall b, zlen (V b) = BSIZE) ->
  0 <= j < NPTR -> bptr V X j = 0 -> (NDIRECT < j -> nthZ 0 (i_addrs X) NDIRECT <> 0) ->
  0 < r < sb_size sb -> used sb V r = false ->
  file_step sb H V X (ptr_view (alloc_view sb V r) X j r) (ptr_inode X j r) /\
  bptr (ptr_view (alloc_view sb V r) X j r) (ptr_inode X j r) j = r /\
  ptr_view (alloc_view sb V r) X j r r = repeat 0 (Z.to_nat BSIZE).
Proof.
  intros Hbm Hf HV Hj Hj0 Hind Hr Hfree.
  destruct (alloc_ptr sb V H X j r Hbm Hf HV Hj Hj0 Hind Hr Hfree) as (Hw & Hb & Hp & Hd & Hz & Hu).
  split; [|split; [rewrite Hp by done; by rewrite decide_True|done]]. split; try done.
  - unfold ptr_inode. destruct (j <=? NDIRECT); by destruct X.
  - intros i Hi Hne. rewrite Hp by done. case_decide; [congruence|done].
  - intros b Hbr Hbu. rewrite Hu, Hbu by done. apply orb_true_r.
  - intros b (Hbr & Hbu & Hbp & Hbb). assert (b <> r) by congruence. split.
    + assert (Ha : alloc_view sb V r b = V b).
      { unfold alloc_view. rewrite !vset_ne; [done| |done]. apply not_eq_sym, Hbb. lia. }
      unfold ptr_view. destruct (Z.leb_spec j NDIRECT); [done|]. rewrite vset_ne; [done|].
      rewrite <- (bptr_direct V) by lia. by apply not_eq_sym, Hbp.
    + intros i Hi. rewrite Hp by done. case_decide; [done|by apply Hbp].
Qed.

Lemma upd_ip_id s ip : upd_ip s ip (ip_at s ip) = s.
Proof.
  unfold upd_ip, ip_at, set_itable, updZ, nthZ. destruct s as [a b c t e f g h]. cbn. f_equal.
  destruct (ip <? 0); [done|]. destruct (decide (Z.to_nat ip < length t)%nat).
  - apply list_insert_id. destruct (nth_lookup_or_length t (Z.to_nat ip) inode0); [done|lia].
  - apply list_insert_ge. lia.
Qed.

(** The view after a balloc() that may have failed. *)
Lemma balloc_cases s x V H P :
  bs_rep x true V H P [] -> bitmap_ok (f_sb s) V H -> room H P 2 -> zlen P + 1 < bs_cap ->
  exists r y, balloc ROOTDEV (set_store x s) = Ret r (set_store y s) /\
    ((r = 0 /\ bs_rep y true V H P [] /\ forall n, 0 <= n < sb_size (f_sb s) -> used (f_sb s) V n = true) \/
     (0 < r < sb_size (f_sb s) /\ used (f_sb s) V r = false /\
      exists P', bs_rep y true (alloc_view (f_sb s) V r) H P' [] /\
        zlen P' <= zlen P + 2 /\ (length P' <= length P + 2)%nat)).
Proof.
  intros HR Hbm Hr HP. destruct (balloc_spec s x V H P HR Hbm Hr HP) as (r & y & E & Hres).
  exists r, y. split; [done|]. destruct Hres as [?|(Hrr & Hu & _ & HR')]; [by left|right].
  split; [done|]. split; [done|]. eexists. split; [exact HR'|].
  pose proof (length_logged P (BBLOCK r (f_sb s))). pose proof (length_logged (logged P (BBLOCK r (f_sb s))) r).
  unfold zlen. lia.
Qed.

Definition bmap_result (sb : superblock) H V X bn r V' X' : Prop :=
  file_step sb H V X V' X' /\
  ((r = 0 /\ forall n, 0 <= n < sb_size sb -> used sb V' n = true) \/
   (r <> 0 /\ r = bptr V' X' (pidx bn))).

(** bmap() of a missing direct block. *)
Lemma bmap_direct s x V H P ip bn :
  let X := ip_at s ip in
  bs_rep x true V H P [] -> bitmap_ok (f_sb s) V H -> fwf (f_sb s) V H X -> room H P 2 -> zlen P + 1 < bs_cap ->
  0 <= ip < zlen (itable s) -> 0 <= bn < NDIRECT -> bptr V X bn = 0 ->
  exists r y V' X' P', bmap ip bn (set_store x s) = Ret r (set_store y (upd_ip s ip X')) /\
    bs_rep y true V' H P' [] /\ zlen P' <= zlen P + 2 /\ bmap_result (f_sb s) H V X bn r V' X'.
Proof.
  intros X HR Hbm Hf Hr HP Hip Hbn H0. unfold bmap. erewrite bind_Ret by reflexivity.
  change (ip_at (set_store x s) ip) with X. destruct (Z.ltb_spec bn NDIRECT); [|lia]. cbv zeta.
  rewrite <- (bptr_direct V) by lia. rewrite H0. cbn [Z.eqb]. rewrite (fw_dev _ _ _ _ Hf).
  destruct (balloc_cases s x V H P HR Hbm Hr HP) as (r & y & E & [(-> & HR' & Hall)|(Hrr & Hu & P' & HR' & HP' & _)]);
    erewrite bind_Ret by exact E.
  - exists 0, y, V, X, P. cbn [Z.eqb]. split; [unfold X; by rewrite (upd_ip_id s ip)|]. split; [done|]. split; [lia|].
    split; [by apply file_step_refl|]. by left.
  - destruct (Z.eqb_spec r 0); [lia|]. erewrite bind_Ret by apply updi_eq.
    destruct (file_step_alloc (f_sb s) H V X bn r Hbm Hf) as (Hst & Hpj & _); try done; try lia.
    { intros b. by eapply bs_len. }
    { change NPTR with 269. change NDIRECT with 12 in *. lia. }
    unfold ptr_view, ptr_inode in *. destruct (Z.leb_spec bn NDIRECT); [|lia].
    exists r, y, (alloc_view (f_sb s) V r), (set_i_addrs (updZ bn r (i_addrs X)) X), P'.
    split; [done|]. split; [done|]. split; [lia|]. split; [exact Hst|]. right. split; [done|].
    unfold pidx. destruct (Z.ltb_spec bn NDIRECT); [done|lia].
Qed.

Lemma bitmap_ok_hold sb V H i b :
  bitmap_ok sb V H -> H !! i = None -> 0 <= b < sb_size sb -> used sb V b = true ->
  (forall n, 0 <= n < sb_size sb -> BBLOCK n sb <> b) -> bitmap_ok sb V (<[i := b]> H).
Proof.
  intros [Hs Hst Hh Hf] HN Hb Hu Hbb. assert (Huh : forall c, c <> b -> unheld H c -> unheld (<[i := b]> H) c).
  { intros c Hc Hun k. destruct (decide (k = i)) as [->|].
    - rewrite lookup_insert_eq. congruence.
    - rewrite lookup_insert_ne by done. apply Hun. }
  split; try done.
  - intros n Hn. destruct (Hh n Hn). split; [done|]. apply Huh; [by apply Hbb|done].
  - intros n Hn Hun. destruct (Hf n Hn Hun) as (? & ? & ? & ?). split; [done|]. split; [done|]. split; [|done].
    apply Huh; [|done]. intros ->. congruence.
Qed.

(** The second half of bmap(): the entry of an existing indirect block. *)
Definition bmap_entry (bn ind : Z) : M st Z :=
  let* bp := fbread ROOTDEV ind in
  let* a := fbdata bp in
  let addr := get32 a (4 * (bn - NDIRECT)) in
  let* addr :=
    (if addr =? 0 then
       let* addr := balloc ROOTDEV in
       (if negb (addr =? 0) then
          fset_bdata bp (put32 a (4 * (bn - NDIRECT)) addr) ;; flog_write bp
        else ret tt) ;;
       ret addr
     else ret addr) in
  fbrelse bp ;; ret addr.

Lemma bmap_entry_spec s x V H P X bn :
  let ind := nthZ 0 (i_addrs X) NDIRECT in
  bs_rep x true V H P [] -> bitmap_ok (f_sb s) V H -> fwf (f_sb s) V H X -> room H P 4 -> zlen P + 3 < bs_cap ->
  NDIRECT <= bn < MAXFILE -> ind <> 0 -> bptr V X (bn + 1) = 0 ->
  exists r y V' P', bmap_entry bn ind (set_store x s) = Ret r (set_store y s) /\
    bs_rep y true V' H P' [] /\ zlen P' <= zlen P + 3 /\ bmap_result (f_sb s) H V X bn r V' X.
Proof.
  intros ind HR Hbm Hf Hr HP Hbn Hi H0.
  assert (Hp12 : bptr V X NDIRECT = ind) by (apply bptr_direct; lia).
  destruct (fw_ptr _ _ _ _ Hf NDIRECT ltac:(done)) as (Hir & Hiu & Hih & Hiun & Hib); [by rewrite Hp12|].
  rewrite Hp12 in *. unfold bmap_entry.
  destruct (fbread_ok s x true V H P [] ind HR Hiun) as (bp & y1 & E1 & HN & HR1); [unfold room in *; lia|].
  assert (HH : <[bp := ind]> H !! bp = Some ind) by apply lookup_insert_eq.
  erewrite bind_Ret by exact E1. erewrite bind_Ret by (by eapply fbdata_ok). cbv zeta.
  assert (Hent : get32 (V ind) (4 * (bn - NDIRECT)) = 0).
  { rewrite bptr_indirect in H0 by (try done; lia). by replace (bn + 1 - NDIRECT - 1) with (bn - NDIRECT) in H0 by lia. }
  rewrite Hent. cbn [Z.eqb].
  assert (Hbm' : bitmap_ok (f_sb s) V (<[bp := ind]> H)) by (apply bitmap_ok_hold; try done; lia).
  destruct (balloc_cases s y1 V _ P HR1 Hbm') as (r & y2 & E2 & Hres).
  { unfold room in *. rewrite map_size_insert_None by done. lia. }
  { lia. }
  destruct Hres as [(-> & HR2 & Hall)|(Hrr & Hu & P2 & HR2 & HP2 & HlP2)].
  - erewrite bind_Ret by (erewrite bind_Ret by exact E2; reflexivity). 
    destruct (fbrelse_ok s y2 true _ _ _ _ bp ind HR2 HH) as (y3 & E3 & HR3); [apply not_elem_of_nil|].
    erewrite bind_Ret by exact E3. rewrite delete_insert_id in HR3 by done.
    exists 0, y3, V, P. split; [done|]. split; [done|]. split; [lia|]. split; [by apply file_step_refl|]. by left.
  - destruct (file_step_alloc (f_sb s) H V X (bn + 1) r Hbm Hf) as (Hst & Hpj & _); try done; try lia.
    { intros b. by eapply bs_len. }
    { change MAXFILE with 268 in *; change NPTR with 269; change NDIRECT with 12 in *. lia. }
    destruct (bm_free _ _ _ Hbm r ltac:(lia) Hu) as (_ & _ & _ & Hrb).
    assert (Hal : alloc_view (f_sb s) V r ind = V ind).
    { unfold alloc_view. rewrite !vset_ne; [done| |intros ->; congruence]. intros Hc. apply (Hib r); [lia|done]. }
    set (d := put32 (V ind) (4 * (bn - NDIRECT)) r).
    assert (Hd : zlen d = BSIZE).
    { unfold d. pose proof (bs_len _ _ _ _ _ _ ind HR) as Hz. rewrite zlen_put32; [done| |];
        change BSIZE with 1024 in *; change NDIRECT with 12 in *; change MAXFILE with 268 in *; lia. }
    destruct (fset_bdata_ok s y2 true _ _ P2 [] bp ind d HR2 HH Hd) as (y3 & E3 & HR3).
    destruct (flog_write_ok s y3 _ _ P2 [ind] bp ind HR3 HH Hih) as (y4 & E4 & HR4); [lia|].
    destruct (fbrelse_ok s y4 true _ _ _ _ bp ind HR4 HH (not_dirty ind)) as (y5 & E5 & HR5).
    rewrite delete_insert_id in HR5 by done. apply rep_clean in HR5.
    erewrite bind_Ret.
    2: { erewrite bind_Ret by exact E2. destruct (Z.eqb_spec r 0); [lia|]. cbn [negb].
         erewrite bind_Ret by (erewrite bind_Ret by exact E3; exact E4). reflexivity. }
    erewrite bind_Ret by exact E5. unfold ptr_view, ptr_inode in *.
    destruct (Z.leb_spec (bn + 1) NDIRECT); [lia|]. cbv zeta in *. fold ind in Hst, Hpj.
    rewrite Hal in Hst, Hpj. replace (bn + 1 - NDIRECT - 1) with (bn - NDIRECT) in * by lia. fold d in Hst, Hpj.
    eexists r, y5, _, _. split; [reflexivity|]. split; [exact HR5|].
    split; [pose proof (zlen_logged P2 ind); lia|]. split; [exact Hst|]. right. split; [lia|].
    unfold pidx. destruct (Z.ltb_spec bn NDIRECT); [lia|]. done.
Qed.

(** bmap() takes whatever path it needs: it finds the block, or allocates it
    and, if missing, the indirect block first. *)
Lemma bmap_spec s x V H P ip bn :
  let X := ip_at s ip in
  bs_rep x true V H P [] -> bitmap_ok (f_sb s) V H -> fwf (f_sb s) V H X ->
  room H P 6 -> zlen P + 5 < bs_cap -> 0 <= ip < zlen (itable s) -> 0 <= bn < MAXFILE ->
  exists r y V' X' P', bmap ip bn (set_store x s) = Ret r (set_store y (upd_ip s ip X')) /\
    bs_rep y true V' H P' [] /\ zlen P' <= zlen P + 5 /\ bmap_result (f_sb s) H V X bn r V' X'.
Proof.
  intros X HR Hbm Hf Hr HP Hip Hbn.
  destruct (decide (bptr V X (pidx bn) = 0)) as [H0|H0].
  2: { destruct (bmap_lookup s x true V H P ip bn HR Hf) as (y & E & HR'); try done; [unfold room in *; lia|].
       eexists _, y, V, X, P. split; [unfold X; rewrite (upd_ip_id s ip); exact E|]. split; [done|]. split; [lia|].
       split; [by apply file_step_refl|]. right. by split. }
  unfold pidx in H0. destruct (Z.ltb_spec bn NDIRECT) as [Hd|Hd].
  { destruct (bmap_direct s x V H P ip bn HR Hbm Hf) as (r & y & V' & X' & P' & E & HR' & HP' & Hres);
      try done; try lia; [unfold room in *; lia|].
    exists r, y, V', X', P'. split; [done|]. split; [done|]. split; [lia|done]. }
  set (ind := nthZ 0 (i_addrs X) NDIRECT).
  assert (Estep : forall z, bmap ip bn (set_store z s) =
    (let* addr := (if ind =? 0 then
        let* addr := balloc ROOTDEV in
        if addr =? 0 then ret 0 else updi ip (fun q => set_i_addrs (updZ NDIRECT addr (i_addrs q)) q) ;; ret addr
      else ret ind) in
     if addr =? 0 then ret 0 else bmap_entry bn addr) (set_store z s)).
  { intros z. unfold bmap, bmap_entry. erewrite bind_Ret by reflexivity. change (ip_at (set_store z s) ip) with X.
    destruct (Z.ltb_spec bn NDIRECT); [lia|]. cbv zeta. unfold MAXFILE in Hbn.
    destruct (Z.ltb_spec (bn - NDIRECT) NINDIRECT); [|lia]. by rewrite (fw_dev _ _ _ _ Hf). }
  rewrite Estep. destruct (Z.eqb_spec ind 0) as [Hi|Hi].
  - assert (H12 : bptr V X NDIRECT = 0) by (rewrite bptr_direct by lia; exact Hi).
    destruct (balloc_cases s x V H P HR Hbm) as (r & y & E & [(-> & HR' & Hall)|(Hrr & Hu & P1 & HR1 & HP1 & HlP1)]);
      [unfold room in *; lia|lia| |].
    + erewrite bind_Ret by (erewrite bind_Ret by exact E; reflexivity). cbn [Z.eqb].
      exists 0, y, V, X, P. split; [unfold X; by rewrite (upd_ip_id s ip)|]. split; [done|]. split; [lia|].
      split; [by apply file_step_refl|]. by left.
    + destruct (file_step_alloc (f_sb s) H V X NDIRECT r Hbm Hf) as (Hst & Hpj & Hz); try done; try lia.
      { intros b. by eapply bs_len. }
      unfold ptr_view, ptr_inode in Hst, Hpj, Hz. rewrite Z.leb_refl in Hst, Hpj, Hz.
      set (V1 := alloc_view (f_sb s) V r) in *. set (X1 := set_i_addrs (updZ NDIRECT r (i_addrs X)) X) in *.
      erewrite bind_Ret.
      2: { erewrite bind_Ret by exact E. destruct (Z.eqb_spec r 0); [lia|].
           erewrite bind_Ret by apply updi_eq. reflexivity. }
      destruct (Z.eqb_spec r 0); [lia|].
      assert (Hr12 : nthZ 0 (i_addrs X1) NDIRECT = r).
      { rewrite <- (bptr_direct V1) by lia. exact Hpj. }
      destruct (bmap_entry_spec (upd_ip s ip X1) y V1 H P1 X1 bn HR1) as (r2 & y2 & V2 & P2 & E2 & HR2 & HP2 & Hst2 & Hres);
        rewrite ?Hr12; try done; try lia.
      { apply Hst. } { apply Hst. } { unfold room in *. lia. }
      { rewrite bptr_indirect by (rewrite ?Hr12; lia). rewrite Hr12, Hz.
        apply get32_zero; change (Z.of_nat (Z.to_nat BSIZE)) with 1024;
        change NDIRECT with 12 in *; change MAXFILE with 268 in *; lia. }
      rewrite Hr12 in E2. exists r2, y2, V2, X1, P2. split; [exact E2|]. split; [done|]. split; [lia|].
      split; [|exact Hres]. eapply file_step_trans; [exact Hst|exact Hst2].
  - erewrite bind_Ret by reflexivity. destruct (Z.eqb_spec ind 0); [done|].
    destruct (bmap_entry_spec s x V H P X bn HR Hbm Hf) as (r2 & y2 & V2 & P2 & E2 & HR2 & HP2 & Hres);
      try done; try lia; [unfold room in *; lia|].
    exists r2, y2, V2, X, P2. split; [unfold X; rewrite (upd_ip_id s ip); exact E2|]. split; [done|]. split; [lia|done].
Qed.

(** ** Writing *)

(** Writing a block that is neither of the bitmap nor the indirect block moves
    no pointer. *)
Lemma block_write sb V H X b d :
  bitmap_ok sb V H -> fwf sb V H X -> b <> bptr V X NDIRECT -> (forall n, 0 <= n < sb_size sb -> BBLOCK n sb <> b) ->
  let V' := vset V b d in
  (forall i, bptr V' X i = bptr V X i) /\
  (forall n, 0 <= n < sb_size sb -> used sb V' n = used sb V n) /\ fwf sb V' H X /\ bitmap_ok sb V' H.
Proof.
  intros Hbm Hf Hb12 Hb V'.
  assert (Hp : forall i, bptr V' X i = bptr V X i).
  { intros i. apply bptr_view_ext. intros Hi. unfold V'. apply vset_ne.
    rewrite <- (bptr_direct V) by lia. congruence. }
  assert (Hu : forall n, 0 <= n < sb_size sb -> used sb V' n = used sb V n).
  { apply used_ext. intros n Hn. unfold V'. apply vset_ne. by apply Hb. }
  split; [done|]. split; [done|]. split.
  - destruct Hf as [Hd Ha Hq Hinj]. split; try done.
    + intros i Hi. rewrite Hp. intros Hi0. destruct (Hq i Hi Hi0) as (? & ? & ?). split; [done|].
      split; [|done]. rewrite Hu by lia. done.
    + intros i i' Hi Hi'. rewrite !Hp. by apply Hinj.
  - eapply bitmap_ok_ext; [done|]. intros n Hn. by rewrite Hu.
Qed.

Lemma data_write sb V H X j d :
  bitmap_ok sb V H -> fwf sb V H X -> 0 <= j < NPTR -> j <> NDIRECT -> bptr V X j <> 0 ->
  let V' := vset V (bptr V X j) d in
  (forall i, bptr V' X i = bptr V X i) /\
  (forall n, 0 <= n < sb_size sb -> used sb V' n = used sb V n) /\ fwf sb V' H X /\ bitmap_ok sb V' H.
Proof.
  intros Hbm Hf Hj Hj12 Hne. apply block_write; try done; [|by apply (fw_ptr _ _ _ _ Hf j Hj Hne)].
  intros Hc. apply Hj12. by apply (fw_inj _ _ _ _ Hf j NDIRECT).
Qed.

(** The state of a file after bytes [off, off + m) were written with [bs]. *)
Record wrote_bytes (sb : superblock) H V (X : inode) (off m : Z) (bs : list Z) V' (X' : inode) : Prop := {
  wb_wf : fwf sb V' H X';
  wb_bm : bitmap_ok sb V' H;
  wb_meta : X' = set_i_addrs (i_addrs X') X;
  wb_ptr : forall i, 0 <= i < NPTR -> bptr V X i <> 0 -> bptr V' X' i <> 0;
  wb_in : forall o, off <= o < off + m ->
    bptr V' X' (pidx (o / BSIZE)) <> 0 /\ fbyte V' X' o = nthZ 0 bs (o - off);
  wb_out : forall o, 0 <= o < MAXFILE * BSIZE -> ~ (off <= o < off + m) ->
    bptr V X (pidx (o / BSIZE)) <> 0 -> fbyte V' X' o = fbyte V X o;
  wb_used : forall b, 0 <= b < sb_size sb -> used sb V b = true -> used sb V' b = true;
  wb_frame : forall b, foreign sb V X b -> V' b = V b /\ forall i, 0 <= i < NPTR -> bptr V' X' i <> b
}.

Lemma block_of o : 0 <= o < MAXFILE * BSIZE -> 0 <= o / BSIZE < MAXFILE.
Proof.
  change (MAXFILE * BSIZE) with 274432. change MAXFILE with 268. change BSIZE with 1024.
  intros. Z.div_mod_to_equations. lia.
Qed.

Lemma pidx_inj b b' : pidx b = pidx b' -> b = b'.
Proof. unfold pidx. destruct (Z.ltb_spec b NDIRECT), (Z.ltb_spec b' NDIRECT); lia. Qed.

Lemma pidx_not_indirect b : pidx b <> NDIRECT.
Proof. unfold pidx. destruct (Z.ltb_spec b NDIRECT); lia. Qed.

Lemma wrote_nothing sb H V X off bs V' X' :
  file_step sb H V X V' X' -> wrote_bytes sb H V X off 0 bs V' X'.
Proof.
  intros [Hw Hb Hm Hp Hd Hu Hf]. split; try done.
  - intros i Hi Hne. by rewrite Hp.
  - intros o Ho. lia.
  - intros o Ho _ Hne. pose proof (pidx_range _ (block_of o Ho)). unfold fbyte. rewrite Hp by done.
    f_equal. apply Hd; [done|apply pidx_not_indirect|done].
Qed.

Lemma wrote_block sb H V X off m bs V1 X1 :
  let r := bptr V1 X1 (pidx (off / BSIZE)) in
  file_step sb H V X V1 X1 -> r <> 0 -> (forall b, zlen (V1 b) = BSIZE) ->
  0 <= off -> 0 <= m <= zlen bs -> off mod BSIZE + m <= BSIZE -> off + m <= MAXFILE * BSIZE -> 0 < m ->
  wrote_bytes sb H V X off m bs (vset V1 r (patch (V1 r) (off mod BSIZE) (take (Z.to_nat m) bs))) X1.
Proof.
  intros r Hst Hr HV1 Ho Hm Hb Hmax Hm0.
  destruct Hst as [Hw Hbm Hme Hp Hd Hu Hfr]. set (j := pidx (off / BSIZE)) in *.
  assert (Hj : 0 <= j < NPTR) by (apply pidx_range, block_of; lia).
  assert (Hj12 : j <> NDIRECT) by apply pidx_not_indirect.
  pose proof (Z.mod_pos_bound off BSIZE ltac:(done)) as Hmod.
  assert (Ht : zlen (take (Z.to_nat m) bs) = m) by (rewrite zlen_take; lia).
  destruct (data_write sb V1 H X1 j (patch (V1 r) (off mod BSIZE) (take (Z.to_nat m) bs)) Hbm Hw Hj Hj12 Hr) as (Hq & Hu' & Hw' & Hbm').
  fold r in Hq, Hu', Hw', Hbm'. split; try done.
  - intros i Hi Hne. rewrite Hq, Hp by done. done.
  - intros o Hoo.
    assert (Hdiv : o / BSIZE = off / BSIZE /\ o mod BSIZE = off mod BSIZE + (o - off)).
    { change BSIZE with 1024 in *. Z.div_mod_to_equations. lia. }
    destruct Hdiv as [Hdiv Hmo]. unfold fbyte. rewrite Hq, Hdiv. fold j r. split; [done|].
    rewrite vset_eq, nthZ_patch by (rewrite ?HV1, ?Ht; lia). rewrite Ht, decide_True by lia.
    rewrite nthZ_take by lia. f_equal. lia.
  - intros o Hoo Hout Hne. pose proof (pidx_range _ (block_of o Hoo)) as Hpr.
    unfold fbyte. rewrite Hq. pose proof (Hp _ Hpr Hne) as Hpe.
    destruct (decide (o / BSIZE = off / BSIZE)) as [Hdiv|Hdiv].
    + pose proof (Z.mod_pos_bound o BSIZE ltac:(done)).
      assert (Hmo : ~ (off mod BSIZE <= o mod BSIZE < off mod BSIZE + m)).
      { change BSIZE with 1024 in *. Z.div_mod_to_equations. lia. }
      rewrite Hpe, Hdiv. fold j. rewrite Hdiv in Hpe, Hne. fold j in Hpe, Hne.
      assert (Hre : r = bptr V X j) by (unfold r; done). rewrite <- Hre.
      rewrite vset_eq, nthZ_patch by (rewrite ?HV1, ?Ht; lia). rewrite Ht, decide_False by lia.
      rewrite Hre. f_equal. apply Hd; [done|done|done].
    + rewrite vset_ne.
      * rewrite Hpe. f_equal. apply Hd; [done|apply pidx_not_indirect|done].
      * rewrite Hpe. intros Hc. apply Hdiv, pidx_inj, (fw_inj _ _ _ _ Hw _ _ Hpr Hj); rewrite Hpe; done.
  - intros b Hbr Hbu. rewrite Hu' by done. auto.
  - intros b Hbf. destruct (Hfr b Hbf) as [Hbv Hbp]. split; [|intros i Hi; rewrite Hq; by apply Hbp].
    rewrite vset_ne; [done|]. by apply not_eq_sym, Hbp.
Qed.

Lemma wrote_bytes_trans sb H V X off m k bs V1 X1 V2 X2 :
  0 <= off -> 0 <= m -> 0 <= k -> off + m + k <= MAXFILE * BSIZE ->
  wrote_bytes sb H V X off m bs V1 X1 ->
  wrote_bytes sb H V1 X1 (off + m) k (drop (Z.to_nat m) bs) V2 X2 ->
  wrote_bytes sb H V X off (m + k) bs V2 X2.
Proof.
  intros Ho Hm Hk Hmax [_ _ Hm1 Hp1 Hi1 Ho1 Hu1 Hf1] [Hw Hbm Hm2 Hp2 Hi2 Ho2 Hu2 Hf2]. split; try done.
  - rewrite Hm2 at 1. rewrite Hm1 at 1. by destruct X.
  - auto.
  - intros o Hoo. destruct (decide (o < off + m)).
    + destruct (Hi1 o ltac:(lia)) as [Hne Hby]. split.
      * apply Hp2; [|done]. apply pidx_range, block_of. lia.
      * rewrite Ho2; [done|lia|lia|done].
    + destruct (Hi2 o ltac:(lia)) as [Hne Hby]. split; [done|]. rewrite Hby, nthZ_drop by lia. f_equal. lia.
  - intros o Hoo Hout Hne. rewrite Ho2; [apply Ho1; [lia|lia|done]|lia|lia|].
    apply Hp1; [|done]. apply pidx_range, block_of. lia.
  - auto.
  - intros b Hb. destruct (Hf1 b Hb) as [<- Hp]. apply Hf2. destruct Hb as (? & ? & _ & ?).
    split; [done|]. split; [apply Hu1; [lia|done]|done].
Qed.

(** Log blocks and buffers that writing [t] blocks of a file may take. *)
Definition wcost (off n : Z) : Z := 6 * touched off n.

Lemma touched_nonneg off n : 0 <= off -> 0 <= touched off n.
Proof.
  intros. unfold touched. destruct (Z.leb_spec n 0); [lia|].
  change BSIZE with 1024. Z.div_mod_to_equations. lia.
Qed.

(** The source [src] has the bytes [bs]: all of the user's are readable. *)
Definition has_bytes (kend : Z) (l : list Z) (s : st) (src : source) (bs : list Z) : Prop :=
  match src with
  | KernSrc b => b = bs
  | UserSrc va => ptwf kend (umem s) (upt s) l /\ user_ok kend (phys (umem s)) (upt s) l /\ 0 <= va < 2 ^ 64 /\
      ubytes (phys (umem s)) (upt s) va (length bs) = Some bs
  end.

Lemma ubytes_split m root va n bs : ubytes m root va (length bs) = Some bs -> (n <= length bs)%nat ->
  ubytes m root va n = Some (take n bs) /\ ubytes m root (va + Z.of_nat n) (length bs - n) = Some (drop n bs).
Proof.
  intros Hb Hn. replace (length bs) with (n + (length bs - n))%nat in Hb by lia. rewrite ubytes_app in Hb.
  destruct (ubytes m root va n) as [b1|] eqn:E1; [|done]. cbn in Hb.
  destruct (ubytes m root (va + Z.of_nat n) (length bs - n)) as [b2|] eqn:E2; [|done]. injection Hb as <-.
  assert (Hl : length b1 = n) by (by eapply ubytes_length). rewrite take_app_le, take_ge, drop_app_ge, Hl, Nat.sub_diag by lia. done.
Qed.

Lemma either_copyin_ok kend l s y src bs m :
  KERNBASE <= kend -> has_bytes kend l s src bs -> 0 <= m <= zlen bs ->
  either_copyin src m (set_store y s) = Ret (0, take (Z.to_nat m) bs) (set_store y s).
Proof.
  intros Hk Hs Hm. destruct src as [va|b]; [|by rewrite <- Hs]. destruct Hs as (Hp & Hu & Hva & Hb).
  destruct (ubytes_split _ _ _ (Z.to_nat m) bs Hb) as [E _]; [unfold zlen in Hm; lia|].
  pose proof (copyin_loop_spec kend Hk (Datatypes.S (Z.to_nat m)) (upt s) [] va m (umem s) l Hp Hu Hva ltac:(lia)) as Hc. rewrite E in Hc.
  unfold either_copyin. erewrite bind_Ret by reflexivity. unfold on_umem. erewrite zoom_Ret by exact Hc. by destruct s.
Qed.

Lemma has_bytes_step kend l s src bs m :
  has_bytes kend l s src bs -> 0 < m <= zlen bs -> has_bytes kend l s (source_add src m) (drop (Z.to_nat m) bs).
Proof.
  intros Hs Hm. destruct src as [va|b]; [|cbn in *; by subst]. destruct Hs as (Hp & Hu & Hva & Hb). unfold zlen in Hm.
  destruct (ubytes_split _ _ _ (Z.to_nat m - 1) bs Hb) as [_ E1]; [lia|].
  destruct (ubytes_split _ _ _ (Z.to_nat m) bs Hb) as [_ E2]; [lia|]. rewrite Z2Nat.id in E2 by lia.
  assert (Hlast : va + m - 1 < MAXVA).
  { replace (length bs - (Z.to_nat m - 1))%nat with (Datatypes.S (length bs - Z.to_nat m)) in E1 by lia. cbn [ubytes] in E1.
    destruct (ubyte _ _ (va + Z.of_nat (Z.to_nat m - 1))) as [c|] eqn:Eu; [|done]. unfold ubyte, uaddr in Eu.
    destruct (bool_decide (0 <= va + Z.of_nat (Z.to_nat m - 1) < MAXVA)) eqn:Ed; [|done]. apply bool_decide_eq_true in Ed. lia. }
  change MAXVA with 274877906944 in Hlast. cbn [source_add has_bytes].
  rewrite u64_small by (change (2 ^ 64) with 18446744073709551616; lia). rewrite length_drop. split_and!; try done; try lia.
Qed.

Lemma writei_loop_spec kend l src fuel s x V H P ip off n tot bs :
  let X := ip_at s ip in
  bs_rep x true V H P [] -> bitmap_ok (f_sb s) V H -> fwf (f_sb s) V H X ->
  Z.of_nat (base.size H) + zlen P + wcost off (n - tot) <= NBUF -> zlen P + wcost off (n - tot) <= bs_cap ->
  0 <= ip < zlen (itable s) -> 0 <= off -> 0 <= tot <= n -> n < 2 ^ 32 ->
  off + (n - tot) <= MAXFILE * BSIZE -> n - tot <= zlen bs -> touched off (n - tot) <= Z.of_nat fuel ->
  KERNBASE <= kend -> has_bytes kend l s src bs ->
  exists m y V' X' P', 0 <= m <= n - tot /\
    writei_loop fuel ip src off n tot (set_store x s) =
      Ret (tot + m, off + m) (set_store y (upd_ip s ip X')) /\
    bs_rep y true V' H P' [] /\ zlen P' <= zlen P + wcost off (n - tot) /\
    wrote_bytes (f_sb s) H V X off m bs V' X' /\
    (m = n - tot \/ forall b, 0 <= b < sb_size (f_sb s) -> used (f_sb s) V' b = true).
Proof.
  revert src s x V P off tot bs. induction fuel as [|fuel IH];
    intros src s x V P off tot bs X HR Hbm Hf Hroom Hcap Hip Ho Ht Hn Hmax Hbs Hfu Hke Hsrc; cbn [writei_loop];
    destruct (Z.ltb_spec tot n).
  all: try (exists 0, x, V, X, P; rewrite !Z.add_0_r; split; [lia|]; split; [unfold X; by rewrite (upd_ip_id s ip)|];
    pose proof (touched_nonneg off (n - tot) Ho); split; [done|]; split; [unfold wcost; lia|];
    split; [by apply wrote_nothing, file_step_refl|left; lia]).
  { rewrite touched_step in Hfu by lia. pose proof (touched_nonneg (off + (n - tot) `min` (BSIZE - off mod BSIZE)) (n - tot - (n - tot) `min` (BSIZE - off mod BSIZE))).
    destruct (block_step off (n - tot) Ho ltac:(lia)) as (Hm & _). lia. }
  destruct (block_step off (n - tot) Ho ltac:(lia)) as (Hm & Hb & Hnn & _).
  pose proof (touched_step off (n - tot) Ho ltac:(lia)) as Hts. cbv zeta in Hts.
  set (m := Z.min (n - tot) (BSIZE - off mod BSIZE)) in *.
  pose proof (touched_nonneg (off + m) (n - tot - m) ltac:(lia)) as Htn. unfold wcost in *. rewrite Hts in *.
  assert (Hbn : 0 <= off / BSIZE < MAXFILE) by (apply block_of; lia).
  destruct (bmap_spec s x V H P ip (off / BSIZE) HR Hbm Hf) as (r & y1 & V1 & X1 & P1 & E1 & HR1 & HP1 & Hst & Hres);
    try done; try lia. { unfold room, zlen in *. lia. }
  erewrite bind_Ret by exact E1. set (s1 := upd_ip s ip X1) in *.
  assert (HX1 : ip_at s1 ip = X1) by (unfold s1; rewrite ip_at_upd by done; by rewrite decide_True).
  destruct Hres as [(-> & Hall)|(Hr0 & Hr)].
  { exists 0, y1, V1, X1, P1. rewrite !Z.add_0_r. split; [lia|]. split; [done|]. split; [done|]. split; [lia|].
    split; [by apply wrote_nothing|by right]. }
  destruct (Z.eqb_spec r 0); [done|]. erewrite bind_Ret by reflexivity.
  change (ip_at (set_store y1 s1) ip) with (ip_at s1 ip). rewrite HX1, (fw_dev _ _ _ _ (fs_wf _ _ _ _ _ _ Hst)).
  destruct (fw_ptr _ _ _ _ (fs_wf _ _ _ _ _ _ Hst) (pidx (off / BSIZE)) (pidx_range _ Hbn)) as (_ & _ & Hhome & Hun & _);
    [congruence|]. rewrite <- Hr in Hhome, Hun.
  destruct (fbread_ok s1 y1 true V1 H P1 [] r HR1 Hun) as (bp & y2 & E2 & HN & HR2); [unfold room, zlen in *; lia|].
  erewrite bind_Ret by exact E2. cbv zeta. fold m.
  erewrite bind_Ret by (apply (either_copyin_ok kend l s1 y2 src bs m Hke Hsrc); lia).
  erewrite bind_Ret by (eapply fbdata_ok; [exact HR2|apply lookup_insert_eq]).
  cbn [fst snd]. change (0 =? -1) with false. cbv iota.
  assert (Hlen : forall b, zlen (V1 b) = BSIZE) by (intros b; by eapply bs_len).
  set (d := patch (V1 r) (off mod BSIZE) (take (Z.to_nat m) bs)).
  assert (Hd : zlen d = BSIZE).
  { unfold d. rewrite zlen_patch; [done|done|]. rewrite Hlen, zlen_take. lia. }
  destruct (store_log_release s1 y2 V1 H P1 bp r d HR2 HN Hhome ltac:(lia) Hd) as (y3 & E3 & HR3).
  pose proof (wrote_block (f_sb s) H V X off m bs V1 X1) as Hwb. rewrite <- Hr in Hwb. fold d in Hwb.
  specialize (Hwb Hst Hr0 Hlen Ho ltac:(lia) Hb ltac:(lia) ltac:(lia)).
  pose proof (zlen_logged P1 r) as HP2.
  destruct (IH (source_add src m) s1 y3 (vset V1 r d) (logged P1 r) (off + m) (tot + m) (drop (Z.to_nat m) bs)) as
    (k & y4 & V4 & X4 & P4 & Hk & E4 & HR4 & HP4 & Hw4 & Hend);
    rewrite ?HX1; replace (n - (tot + m)) with (n - tot - m) in * by lia; try done; try lia.
  { apply Hwb. } { apply Hwb. } { unfold s1, upd_ip. cbn [itable set_itable]. by rewrite zlen_updZ. }
  { rewrite zlen_drop. lia. } { apply (has_bytes_step kend l s1 src bs m Hsrc). lia. }
  rewrite HX1 in Hw4. exists (m + k), y4, V4, X4, P4. split; [lia|]. split.
  { apply bind_inv in E3 as (a1 & z1 & Ea & E3). apply bind_inv in E3 as (a2 & z2 & Eb & Ec).
    erewrite bind_Ret by exact Ea. erewrite bind_Ret by exact Eb. erewrite bind_Ret by exact Ec.
    rewrite !u32_small by (change (MAXFILE * BSIZE) with 274432 in Hmax; lia).
    rewrite E4. unfold s1. rewrite upd_ip_upd. f_equal. f_equal; lia. }
  split; [done|]. split; [lia|]. split; [|destruct Hend; [left; lia|by right]].
  eapply wrote_bytes_trans; try done; lia.
Qed.

(** The size after a write that ended at [o]. *)
Definition grown (o : Z) (X : inode) : inode := if i_size X <? o then set_i_size o X else X.

Lemma grown_addrs o X : i_addrs (grown o X) = i_addrs X.
Proof. unfold grown. by destruct (_ <? _). Qed.

Lemma grown_size o X : i_size (grown o X) = Z.max (i_size X) o.
Proof. unfold grown. destruct (Z.ltb_spec (i_size X) o); cbn; lia. Qed.

Lemma bptr_addrs V X X' i : i_addrs X' = i_addrs X -> bptr V X' i = bptr V X i.
Proof. unfold bptr. by intros ->. Qed.

Lemma fwf_grown sb V H o X : fwf sb V H X -> fwf sb V H (grown o X).
Proof.
  intros [Hd Ha Hp Hi]. pose proof (fun i => bptr_addrs V X (grown o X) i (grown_addrs o X)) as Hb.
  split.
  - unfold grown. by destruct (_ <? _).
  - by rewrite grown_addrs.
  - intros j Hj. rewrite Hb. by apply Hp.
  - intros j j' Hj Hj'. rewrite !Hb. by apply Hi.
Qed.

(** The end of writei(): the size field and the inode on disk. *)
Lemma writei_finish s x V H P ip o :
  let X := ip_at s ip in
  let X' := grown o X in
  let B := IBLOCK (i_inum X) (f_sb s) in
  bs_rep x true V H P [] -> i_dev X = ROOTDEV -> zlen (i_addrs X) = NDIRECT + 1 -> 0 <= ip < zlen (itable s) ->
  bs_home B -> unheld H B -> room H P 1 -> zlen P < bs_cap ->
  exists y, (let* size := geti ip i_size in
      (if size <? o then updi ip (set_i_size o) else ret tt) ;; iupdate ip) (set_store x s) =
      Ret tt (set_store y (upd_ip s ip X')) /\
    bs_rep y true (vset V B (dip_store (V B) (dip_off (i_inum X)) X')) H (logged P B) [].
Proof.
  intros X X' B HR Hdev Ha Hip Hh Hu Hr HP.
  assert (Hupd : forall z, (if i_size X <? o then updi ip (set_i_size o) else ret tt) (set_store z s) =
    Ret tt (set_store z (upd_ip s ip X'))).
  { intros z. unfold X', grown. destruct (_ <? _); [by rewrite updi_eq|]. unfold X. by rewrite (upd_ip_id s ip). }
  erewrite bind_Ret by reflexivity. change (ip_at (set_store x s) ip) with X. erewrite bind_Ret by apply Hupd.
  assert (HX : ip_at (upd_ip s ip X') ip = X') by (rewrite ip_at_upd by done; by rewrite decide_True).
  assert (Hin : i_inum X' = i_inum X) by (unfold X', grown; by destruct (_ <? _)).
  assert (Hdv : i_dev X' = i_dev X) by (unfold X', grown; by destruct (_ <? _)).
  destruct (iupdate_spec (upd_ip s ip X') x V H P ip) as (y & E & HR'); rewrite ?HX, ?Hin, ?Hdv; try done.
  { unfold X'. by rewrite grown_addrs. }
  rewrite HX, Hin in HR'. by exists y.
Qed.

(** What a completed write leaves: the new bytes, the old bytes elsewhere,
    the size, and the inode on disk. *)
Record written (sb : superblock) H V (X : inode) (off m : Z) (bs : list Z) V' (X' : inode) : Prop := {
  wr_wf : fwf sb V' H X';
  wr_bm : bitmap_ok sb V' H;
  wr_meta : X' = set_i_size (i_size X') (set_i_addrs (i_addrs X') X);
  wr_size : i_size X' = Z.max (i_size X) (off + m);
  wr_alloc : allocated V' X' 0 (i_size X');
  wr_bytes : forall o, 0 <= o < i_size X' ->
    fbyte V' X' o = if decide (off <= o < off + m) then nthZ 0 bs (o - off) else fbyte V X o;
  wr_disk : V' (IBLOCK (i_inum X) sb) = dip_store (V (IBLOCK (i_inum X) sb)) (dip_off (i_inum X)) X';
  wr_other : forall b, foreign sb V X b -> b <> IBLOCK (i_inum X) sb -> V' b = V b
}.

Lemma written_intro sb H V X off m bs V1 X1 :
  let B := IBLOCK (i_inum X) sb in
  let X' := grown (off + m) X1 in
  0 <= off <= i_size X -> 0 <= m -> off + m <= MAXFILE * BSIZE -> i_size X <= MAXFILE * BSIZE ->
  allocated V X 0 (i_size X) -> foreign sb V X B ->
  wrote_bytes sb H V X off m bs V1 X1 ->
  written sb H V X off m bs (vset V1 B (dip_store (V1 B) (dip_off (i_inum X)) X')) X'.
Proof.
  intros B X' Ho Hm Hmax Hsz Hal HB Hw. pose proof Hw as [Hwf Hbm Hme Hp Hin Hout Hus Hfr].
  destruct (Hfr B HB) as [HBv HBp]. set (d := dip_store _ _ _).
  assert (HX1s : i_size X1 = i_size X) by (rewrite Hme; by destruct X).
  destruct (block_write sb V1 H X1 B d Hbm Hwf) as (Hq & Hu & Hwf' & Hbm');
    [apply not_eq_sym, HBp; done|apply HB|].
  assert (Hb : forall i, bptr (vset V1 B d) X' i = bptr V1 X1 i).
  { intros i. rewrite <- Hq. apply bptr_addrs, grown_addrs. }
  assert (Hby : forall o, 0 <= o < MAXFILE * BSIZE -> fbyte (vset V1 B d) X' o = fbyte V1 X1 o).
  { intros o Hoo. unfold fbyte. rewrite Hb, vset_ne; [done|]. apply HBp, pidx_range, block_of. done. }
  assert (Hs' : i_size X' = Z.max (i_size X) (off + m)) by (unfold X'; by rewrite grown_size, HX1s).
  split.
  - by apply fwf_grown.
  - done.
  - unfold X', grown. rewrite Hme. destruct (_ <? _); by destruct X.
  - done.
  - intros o Hoo. rewrite Hb. destruct (decide (off <= o < off + m)) as [Hi|Hi]; [by apply Hin|].
    apply Hp; [apply pidx_range, block_of; lia|]. apply Hal. lia.
  - intros o Hoo. rewrite Hby by lia. case_decide as Hi; [by apply Hin|]. apply Hout; [lia|done|].
    apply Hal. lia.
  - rewrite vset_eq. unfold d. by rewrite HBv.
  - intros b Hbf Hne. rewrite vset_ne by done. by apply Hfr.
Qed.

(** The two outcomes of writei(). *)
Lemma writei_spec kend l src s x V H P ip off bs :
  let X := ip_at s ip in
  let B := IBLOCK (i_inum X) (f_sb s) in
  KERNBASE <= kend -> has_bytes kend l s src bs ->
  bs_rep x true V H P [] -> bitmap_ok (f_sb s) V H -> fwf (f_sb s) V H X ->
  0 <= ip < zlen (itable s) -> 0 <= off < 2 ^ 32 -> zlen bs < 2 ^ 31 -> 0 <= i_size X <= MAXFILE * BSIZE ->
  allocated V X 0 (i_size X) -> foreign (f_sb s) V X B -> bs_home B -> unheld H B ->
  (off + zlen bs <= MAXFILE * BSIZE ->
     Z.of_nat (base.size H) + zlen P + wcost off (zlen bs) < NBUF /\ zlen P + wcost off (zlen bs) < bs_cap) ->
  if (i_size X <? off) || (MAXFILE * BSIZE <? off + zlen bs) then
    writei ip src off (zlen bs) (set_store x s) = Ret (-1) (set_store x s)
  else
    exists m y V' X' P', writei ip src off (zlen bs) (set_store x s) = Ret m (set_store y (upd_ip s ip X')) /\
      bs_rep y true V' H P' [] /\ 0 <= m <= zlen bs /\
      (m = zlen bs \/ forall b, 0 <= b < sb_size (f_sb s) -> used (f_sb s) V' b = true) /\
      written (f_sb s) H V X off m bs V' X'.
Proof.
  intros X B Hke Hsrc HR Hbm Hf Hip Ho Hn Hs Hal HB HBh HBu Hroom. pose proof (zlen_nonneg bs) as Hn0.
  unfold writei. erewrite bind_Ret by reflexivity. change (ip_at (set_store x s) ip) with X.
  change (2 ^ 32) with 4294967296 in *. change (2 ^ 31) with 2147483648 in *.
  assert (Hmx : MAXFILE * BSIZE = 274432) by reflexivity.
  destruct (Z.ltb_spec (i_size X) off) as [|Hso]; cbn [orb]; [done|].
  rewrite (u32_small (off + zlen bs)) by (change (2 ^ 32) with 4294967296; lia).
  destruct (Z.ltb_spec (off + zlen bs) off); [lia|].
  destruct (Z.ltb_spec (MAXFILE * BSIZE) (off + zlen bs)) as [|Hfit]; [done|].
  destruct (Hroom Hfit) as [Hr1 Hr2]. pose proof (touched_nonneg off (zlen bs) ltac:(lia)).
  destruct (writei_loop_spec kend l src (rw_fuel (zlen bs)) s x V H P ip off (zlen bs) 0 bs HR Hbm Hf) as
    (m & y1 & V1 & X1 & P1 & Hm & E1 & HR1 & HP1 & Hw & Hend); rewrite ?Z.sub_0_r in *; try done; try lia.
  { apply touched_fuel; lia. }
  fold X in Hw. pose proof Hw as [Hwf _ Hme _ _ _ Hus _]. erewrite bind_Ret by exact E1. cbn [fst snd].
  assert (HX1 : ip_at (upd_ip s ip X1) ip = X1) by (rewrite ip_at_upd by done; by rewrite decide_True).
  assert (Hin : i_inum X1 = i_inum X) by (rewrite Hme; by destruct X).
  destruct (writei_finish (upd_ip s ip X1) y1 V1 H P1 ip (off + m)) as (y2 & E2 & HR2); rewrite ?HX1, ?Hin; try done.
  { apply (fw_dev _ _ _ _ Hwf). } { apply (fw_addrs _ _ _ _ Hwf). }
  { unfold upd_ip. cbn [itable set_itable]. by rewrite zlen_updZ. }
  { unfold room, zlen in *. lia. } { lia. }
  rewrite HX1, Hin in HR2. rewrite HX1, upd_ip_upd in E2.
  pose proof (written_intro (f_sb s) H V X off m bs V1 X1 ltac:(lia) ltac:(lia) ltac:(lia) ltac:(lia) Hal HB Hw) as HW.
  eexists m, y2, _, _, _. split; [|split; [exact HR2|split; [lia|split; [|exact HW]]]].
  - apply bind_inv in E2 as (a1 & z1 & Ea & E2). apply bind_inv in E2 as (a2 & z2 & Eb & Ec).
    erewrite bind_Ret by exact Ea. erewrite bind_Ret by exact Eb. erewrite bind_Ret by exact Ec.
    unfold ret. f_equal. apply s32_small. lia.
  - destruct Hend as [|Hfull]; [by left|right]. intros b Hb.
    destruct (wb_frame _ _ _ _ _ _ _ _ _ Hw B HB) as [_ HBp].
    destruct (block_write (f_sb s) V1 H X1 B (dip_store (V1 B) (dip_off (i_inum X)) (grown (off + m) X1))
      (wb_bm _ _ _ _ _ _ _ _ _ Hw) Hwf (not_eq_sym (HBp NDIRECT ltac:(done))) ltac:(apply HB)) as (_ & Hu & _).
    etransitivity; [exact (Hu b Hb)|by apply Hfull].
Qed.

(** C4: writei() writes exactly the bytes it is given, from kernel memory or
    from user memory all of which is readable (a fault of copyin() in the
    middle of a write is not covered: it leaves bytes in a buffer that is not
    logged).  A write that starts
    past the end of the file or would exceed the largest file returns -1 and
    changes nothing.  Any other write returns how many bytes it stored, all of
    them unless the disk has no free block left.  The file then has the new
    bytes in the range written and its old bytes elsewhere, its size is the
    larger of the old size and the end of the range, every block up to that
    size is allocated to it alone, its inode is on disk, and no block in use
    for anything else has changed. *)
Theorem writei_correct kend l src s x V H P ip off bs :
  let X := ip_at s ip in
  let B := IBLOCK (i_inum X) (f_sb s) in
  KERNBASE <= kend -> has_bytes kend l s src bs ->
  bs_rep x true V H P [] -> bitmap_ok (f_sb s) V H -> fwf (f_sb s) V H X ->
  0 <= ip < zlen (itable s) -> 0 <= off < 2 ^ 32 -> zlen bs < 2 ^ 31 -> 0 <= i_size X <= MAXFILE * BSIZE ->
  allocated V X 0 (i_size X) -> foreign (f_sb s) V X B -> bs_home B -> unheld H B ->
  (off + zlen bs <= MAXFILE * BSIZE ->
     Z.of_nat (base.size H) + zlen P + wcost off (zlen bs) < NBUF /\ zlen P + wcost off (zlen bs) < bs_cap) ->
  if (i_size X <? off) || (MAXFILE * BSIZE <? off + zlen bs) then
    writei ip src off (zlen bs) (set_store x s) = Ret (-1) (set_store x s)
  else
    exists m y V' X' P', writei ip src off (zlen bs) (set_store x s) = Ret m (set_store y (upd_ip s ip X')) /\
      bs_rep y true V' H P' [] /\ 0 <= m <= zlen bs /\
      (m = zlen bs \/ forall b, 0 <= b < sb_size (f_sb s) -> used (f_sb s) V' b = true) /\
      written (f_sb s) H V X off m bs V' X'.
Proof. exact (writei_spec kend l src s x V H P ip off bs). Qed.
End FsWrite.

#[local] Existing Instance FsSample.fs_store.

Lemma writei_correct_witness :
  exists x V, bs_rep x true V ∅ [] [] /\
  exists m y V' X' P', writei 0 (KernSrc [7; 8; 9]) 1500 3 (set_store x (file_fs two_block_file x)) =
      Ret m (set_store y (upd_ip (file_fs two_block_file x) 0 X')) /\
    bs_rep y true V' ∅ P' [] /\ 0 <= m <= 3 /\
    (m = 3 \/ forall b, 0 <= b < sb_size FsSample.sb -> used FsSample.sb V' b = true) /\
    written FsSample.sb ∅ V two_block_file 1500 m [7; 8; 9] V' X'.
Proof.
  destruct FsSample.in_transaction as (x & V & HR & HV). exists x, V. split; [exact HR|].
  apply (writei_correct KERNBASE [] (KernSrc [7; 8; 9]) (file_fs two_block_file x) x V ∅ [] 0 1500 [7; 8; 9] ltac:(lia) eq_refl HR (FsSample.layout V HV) (two_block_wf V HV)).
  - vm_compute. intuition congruence.
  - lia.
  - reflexivity.
  - vm_compute. intuition congruence.
  - exact (two_block_allocated V).
  - change (IBLOCK (i_inum (ip_at (file_fs two_block_file x) 0)) (f_sb (file_fs two_block_file x))) with 32.
    split; [change (sb_size (f_sb (file_fs two_block_file x))) with 2000; lia|].
    split; [exact (FsSample.used_sb V 32 HV ltac:(lia))|]. split.
    + intros i Hi. change (ip_at (file_fs two_block_file x) 0) with two_block_file.
      rewrite two_block_ptr by done. destruct (i =? 0), (i =? 1); lia.
    + intros n Hn. change (f_sb (file_fs two_block_file x)) with FsSample.sb. rewrite FsSample.BBLOCK_sb by exact Hn. lia.
  - split; [vm_compute; intuition congruence|]. unfold in_log. vm_compute. intuition congruence.
  - intros i. by rewrite lookup_empty.
  - intros _. rewrite map_size_empty. split; reflexivity.
Defined.
