(* ===== verification/FsDir.v ===== *)
(** * Directories: the proofs

    A directory is a file of 16-byte entries.  dirlookup() finds the first
    entry in use with the name; dirlink() adds one that is then found. *)

From Stdlib Require Import ZArith Lia.
From stdpp Require Import base numbers list list_numbers gmap strings sorting.
From S2P Require Import Prelude Cstring Riscv Kalloc Vm Uvm Bytes Sleeplock Bio Bcache Log Recovery Store Fs FsBlocks FsInode FsFile FsWrite.

(** A name as entries hold it: at most DIRSIZ characters. *)
Definition dname (n : list Z) : list Z := take (Z.to_nat DIRSIZ) (cstr n).

(** An entry in use with this name. *)
Definition entry_is (name e : list Z) : bool := negb (de_inum e =? 0) && bool_decide (dname name = dname (de_name e)).

(** The entries of a directory, and the first one with a name: its index and
    its inode number. *)
Definition dirents (V : Z -> list Z) (X : inode) : list (list Z) :=
  (fun k => fbytes V X (sizeof_dirent * k) sizeof_dirent) <$> seqZ 0 (i_size X / sizeof_dirent).

Fixpoint dir_find (name : list Z) (k : Z) (es : list (list Z)) : option (Z * Z) :=
  match es with
  | [] => None
  | e :: es' => if entry_is name e then Some (k, de_inum e) else dir_find name (k + 1) es'
  end.

Lemma namecmp_zero s t : namecmp s t = 0 <-> dname s = dname t.
Proof. apply strncmp_zero. Qed.

Lemma dname_idemp n : dname (strncpy n (Z.to_nat DIRSIZ)) = dname n.
Proof. unfold dname. rewrite cstr_strncpy, take_take. f_equal. Qed.

#[local] Transparent get16 slice.
Lemma de_mk_dirent name inum : 0 <= inum < 2 ^ 16 ->
  de_inum (mk_dirent name inum) = inum /\ de_name (mk_dirent name inum) = strncpy name (Z.to_nat DIRSIZ).
Proof.
  intros Hi. unfold de_inum, de_name, mk_dirent, get16, slice. change (Z.to_nat 2) with 2%nat. change (Z.to_nat 0) with 0%nat.
  rewrite drop_0, take_app_length', drop_app_length' by done. split.
  - rewrite le_val_bytes. by apply u16_small.
  - apply take_ge. by rewrite length_strncpy.
Qed.
#[local] Opaque get16 slice.

Lemma entry_is_new name inum n : 0 < inum < 2 ^ 16 -> entry_is n (mk_dirent name inum) = bool_decide (dname n = dname name).
Proof.
  intros Hi. unfold entry_is. destruct (de_mk_dirent name inum ltac:(lia)) as [-> ->]. rewrite dname_idemp.
  destruct (Z.eqb_spec inum 0); [lia|done].
Qed.

(** ** Finding entries *)

Lemma dir_find_app name es es' k :
  dir_find name k (es ++ es') = match dir_find name k es with Some r => Some r | None => dir_find name (k + zlen es) es' end.
Proof.
  revert k. induction es as [|e es IH]; intros k; cbn [app dir_find]; [by rewrite Z.add_0_r|].
  destruct (entry_is name e); [done|]. rewrite IH. replace (k + 1 + zlen es) with (k + zlen (e :: es)) by (unfold zlen; cbn; lia). done.
Qed.

(** An unused entry replaced by one for [name], which had none. *)
Lemma dir_find_insert name es1 e es2 inum n :
  0 < inum < 2 ^ 16 -> de_inum e = 0 -> dir_find name 0 (es1 ++ e :: es2) = None ->
  dir_find n 0 (es1 ++ mk_dirent name inum :: es2) =
    if decide (dname n = dname name) then Some (zlen es1, inum) else dir_find n 0 (es1 ++ e :: es2).
Proof.
  intros Hi He. rewrite !dir_find_app. cbn [dir_find]. rewrite entry_is_new by done. rewrite Z.add_0_l.
  assert (Hu : forall m, entry_is m e = false) by (intros m; unfold entry_is; by rewrite He). rewrite !Hu.
  destruct (de_mk_dirent name inum ltac:(lia)) as [-> _]. case_decide as Hn.
  - rewrite bool_decide_true by done.
    assert (Hsame : forall es k, dir_find n k es = dir_find name k es).
    { induction es as [|x es IH]; intros k; [done|]. cbn [dir_find]. unfold entry_is. rewrite Hn. by rewrite IH. }
    rewrite Hsame. by destruct (dir_find name 0 es1).
  - rewrite bool_decide_false by done. done.
Qed.

Lemma dir_find_snoc name es inum n :
  0 < inum < 2 ^ 16 -> dir_find name 0 es = None ->
  dir_find n 0 (es ++ [mk_dirent name inum]) = if decide (dname n = dname name) then Some (zlen es, inum) else dir_find n 0 es.
Proof.
  intros Hi Hnone. set (z := mk_dirent [] 0). assert (Hz : de_inum z = 0) by (by apply de_mk_dirent).
  assert (Hzf : forall m k, dir_find m k [z] = None) by (intros m k; cbn [dir_find]; unfold entry_is; by rewrite Hz).
  assert (Hzn : forall m, dir_find m 0 (es ++ [z]) = dir_find m 0 es) by (intros m; rewrite dir_find_app, Hzf; by destruct (dir_find m 0 es)).
  rewrite (dir_find_insert name es z [] inum n Hi Hz) by (by rewrite Hzn). case_decide; [done|]. apply Hzn.
Qed.

Section FsDir.
Context {S : Type} {ops : BlockOps S} {BS : BlockStore S}.
Notation st := (fsst S).
Implicit Types (s : st) (x y : S) (V : Z -> list Z) (H : gmap Z Z) (P D : list Z).

(** A directory: whole entries in blocks of its own. *)
Record dir_ok s V H (X : inode) : Prop := {
  do_type : i_type X = T_DIR;
  do_file : fwf (f_sb s) V H X;
  do_size : 0 <= i_size X <= MAXFILE * BSIZE;
  do_whole : i_size X mod sizeof_dirent = 0;
  do_alloc : allocated V X 0 (i_size X)
}.

Lemma dirents_length V X : 0 <= i_size X -> zlen (dirents V X) = i_size X / sizeof_dirent.
Proof.
  intros. unfold dirents, zlen. rewrite length_fmap, length_seqZ. unfold sizeof_dirent. Z.div_mod_to_equations. lia.
Qed.

Lemma dirents_drop V X k : 0 <= k < i_size X / sizeof_dirent ->
  drop (Z.to_nat k) (dirents V X) = fbytes V X (sizeof_dirent * k) sizeof_dirent :: drop (Z.to_nat (k + 1)) (dirents V X).
Proof.
  intros Hk. replace (Z.to_nat (k + 1)) with (Datatypes.S (Z.to_nat k)) by lia. rewrite <- drop_S with (x := fbytes V X (sizeof_dirent * k) sizeof_dirent); [done|].
  unfold dirents. rewrite list_lookup_fmap, lookup_seqZ_lt by lia. cbn [fmap option_fmap option_map]. by replace (0 + Z.of_nat (Z.to_nat k)) with k by lia.
Qed.

(** The entry at an offset, read. *)
Lemma read_entry s x T V H P dp k :
  let X := ip_at s dp in
  bs_rep x T V H P [] -> dir_ok s V H X -> room H P 1 -> 0 <= k < i_size X / sizeof_dirent ->
  exists y, readi dp KernVar (sizeof_dirent * k) sizeof_dirent (set_store x s) =
      Ret (sizeof_dirent, fbytes V X (sizeof_dirent * k) sizeof_dirent) (set_store y s) /\ bs_rep y T V H P [].
Proof.
  intros X HR Hd Hr Hk. pose proof (do_size _ _ _ _ Hd) as Hs. change (MAXFILE * BSIZE) with 274432 in Hs. unfold sizeof_dirent in *.
  assert (Hk' : 0 <= 16 * k /\ 16 * k + 16 <= i_size X) by (Z.div_mod_to_equations; lia).
  destruct (readi_spec s x T V H P dp (16 * k) 16 HR (do_file _ _ _ _ Hd) Hr) as (y & E & HR'); [fold X; lia..|apply (do_size _ _ _ _ Hd)|apply (do_alloc _ _ _ _ Hd)|].
  exists y. fold X in E. assert (Hl : read_len (i_size X) (16 * k) 16 = 16).
  { unfold read_len. change (2 ^ 32) with 4294967296. destruct (Z.ltb_spec (i_size X) (16 * k)); [lia|].
    destruct (Z.leb_spec 4294967296 (16 * k + 16)); cbn [orb]; lia. }
  by rewrite Hl in E.
Qed.

Lemma dirlookup_loop_spec fuel : forall s x T V H P dp name k,
  let X := ip_at s dp in
  bs_rep x T V H P [] -> dir_ok s V H X -> room H P 1 -> 0 <= k <= i_size X / sizeof_dirent ->
  i_size X / sizeof_dirent - k < Z.of_nat fuel ->
  exists y, dirlookup_loop fuel dp name (sizeof_dirent * k) (set_store x s) =
      Ret ((fun r => (sizeof_dirent * r.1, r.2)) <$> dir_find name k (drop (Z.to_nat k) (dirents V X))) (set_store y s) /\
    bs_rep y T V H P [].
Proof.
  induction fuel as [|fuel IH]; intros s x T V H P dp name k X HR Hd Hr Hk Hf; [lia|]. cbn [dirlookup_loop].
  erewrite bind_Ret by reflexivity. change (ip_at (set_store x s) dp) with X.
  pose proof (do_size _ _ _ _ Hd) as Hs. pose proof (do_whole _ _ _ _ Hd) as Hw.
  destruct (decide (k = i_size X / sizeof_dirent)) as [Hke|Hke].
  - destruct (Z.ltb_spec (sizeof_dirent * k) (i_size X)); [unfold sizeof_dirent in *; Z.div_mod_to_equations; lia|].
    exists x. split; [|done]. rewrite drop_ge; [done|]. pose proof (dirents_length V X ltac:(lia)). unfold zlen in *. lia.
  - destruct (Z.ltb_spec (sizeof_dirent * k) (i_size X)); [|unfold sizeof_dirent in *; Z.div_mod_to_equations; lia].
    destruct (read_entry s x T V H P dp k HR Hd Hr ltac:(fold X; lia)) as (y & E & HR'). erewrite bind_Ret by exact E. cbn [fst snd negb].
    fold X in E |- *. rewrite Z.eqb_refl. cbn [negb]. rewrite dirents_drop by lia. cbn [dir_find]. set (e := fbytes _ _ _ _).
    replace (sizeof_dirent * k + sizeof_dirent) with (sizeof_dirent * (k + 1)) by lia. unfold entry_is.
    destruct (Z.eqb_spec (de_inum e) 0); cbn [negb andb]; [by apply IH; try done; fold X; lia|].
    destruct (Z.eqb_spec (namecmp name (de_name e)) 0) as [Hn|Hn].
    + rewrite namecmp_zero in Hn. rewrite bool_decide_true by done. by exists y.
    + rewrite namecmp_zero in Hn. rewrite bool_decide_false by done. by apply IH; try done; fold X; lia.
Qed.

(** The same scan of dirlink() for an unused entry. *)
Fixpoint free_entry (k : Z) (es : list (list Z)) : Z :=
  match es with
  | [] => k
  | e :: es' => if de_inum e =? 0 then k else free_entry (k + 1) es'
  end.

Lemma dirlink_slot_spec fuel : forall s x T V H P dp k,
  let X := ip_at s dp in
  bs_rep x T V H P [] -> dir_ok s V H X -> room H P 1 -> 0 <= k <= i_size X / sizeof_dirent ->
  i_size X / sizeof_dirent - k < Z.of_nat fuel ->
  exists y, dirlink_slot fuel dp (sizeof_dirent * k) (set_store x s) =
      Ret (sizeof_dirent * free_entry k (drop (Z.to_nat k) (dirents V X))) (set_store y s) /\ bs_rep y T V H P [].
Proof.
  induction fuel as [|fuel IH]; intros s x T V H P dp k X HR Hd Hr Hk Hf; [lia|]. cbn [dirlink_slot].
  erewrite bind_Ret by reflexivity. change (ip_at (set_store x s) dp) with X.
  pose proof (do_size _ _ _ _ Hd) as Hs. pose proof (do_whole _ _ _ _ Hd) as Hw.
  destruct (decide (k = i_size X / sizeof_dirent)) as [Hke|Hke].
  - destruct (Z.ltb_spec (sizeof_dirent * k) (i_size X)); [unfold sizeof_dirent in *; Z.div_mod_to_equations; lia|].
    exists x. split; [|done]. rewrite drop_ge; [done|]. pose proof (dirents_length V X ltac:(lia)). unfold zlen in *. lia.
  - destruct (Z.ltb_spec (sizeof_dirent * k) (i_size X)); [|unfold sizeof_dirent in *; Z.div_mod_to_equations; lia].
    destruct (read_entry s x T V H P dp k HR Hd Hr ltac:(fold X; lia)) as (y & E & HR'). erewrite bind_Ret by exact E. cbn [fst snd negb].
    fold X in E |- *. rewrite Z.eqb_refl. cbn [negb]. rewrite dirents_drop by lia. cbn [free_entry].
    replace (sizeof_dirent * k + sizeof_dirent) with (sizeof_dirent * (k + 1)) by lia.
    destruct (_ =? 0); [by exists y|]. by apply IH; try done; fold X; lia.
Qed.

(** ** References to inodes *)

(** Entry [ip] of the inode table is for inode [inum]. *)
Definition cached s (dev inum ip : Z) : Prop :=
  0 < i_ref (ip_at s ip) /\ i_dev (ip_at s ip) = dev /\ i_inum (ip_at s ip) = inum.

(** iget() has room: an entry of the inode, or an unused one. *)
Definition gettable s (dev inum : Z) : Prop :=
  exists ip, 0 <= ip < NINODE /\ (cached s dev inum ip \/ i_ref (ip_at s ip) = 0).

(** One more reference to inode [inum], at entry [ip]. *)
Definition got s (dev inum ip : Z) s' : Prop :=
  0 <= ip < NINODE /\
  ((cached s dev inum ip /\ s' = upd_ip s ip (set_i_ref (i_ref (ip_at s ip) + 1) (ip_at s ip))) \/
   ((forall j, 0 <= j < NINODE -> ~ cached s dev inum j) /\ i_ref (ip_at s ip) = 0 /\
    s' = upd_ip s ip (set_i_valid false (set_i_ref 1 (set_i_id dev inum (ip_at s ip)))))).

Lemma iget_scan_spec n : forall s ip e dev inum, 0 <= ip -> ip + Z.of_nat n <= NINODE ->
  e = NULL \/ (0 <= e < ip /\ i_ref (ip_at s e) = 0) ->
  exists r, iget_scan n ip e dev inum s = Ret r s /\
    match r with
    | inl j => ip <= j < ip + Z.of_nat n /\ cached s dev inum j
    | inr e' => (forall j, ip <= j < ip + Z.of_nat n -> ~ cached s dev inum j) /\
        ((0 <= e' < ip + Z.of_nat n /\ i_ref (ip_at s e') = 0) \/
         (e' = NULL /\ e = NULL /\ forall j, ip <= j < ip + Z.of_nat n -> i_ref (ip_at s j) <> 0))
    end.
Proof.
  induction n as [|n IH]; intros s ip e dev inum Hip Hn He.
  - exists (inr e). split; [done|]. split; [intros; lia|]. destruct He as [->|?]; [right; split_and!; [done..|intros; lia]|left; lia].
  - cbn [iget_scan]. erewrite bind_Ret by reflexivity. set (x := ip_at s ip). destruct ((0 <? i_ref x) && (i_dev x =? dev) && (i_inum x =? inum)) eqn:Ec.
    + apply andb_true_iff in Ec as [[H1%Z.ltb_lt H2%Z.eqb_eq]%andb_true_iff H3%Z.eqb_eq]. exists (inl ip). split; [done|]. split; [lia|done].
    + assert (Hnc : ~ cached s dev inum ip).
      { intros (H1 & H2 & H3). fold x in H1, H2, H3. apply Z.ltb_lt in H1. rewrite H1, H2, H3, !Z.eqb_refl in Ec. done. }
      set (e1 := if (e =? NULL) && (i_ref x =? 0) then ip else e). assert (He1 : e1 = NULL \/ (0 <= e1 < ip + 1 /\ i_ref (ip_at s e1) = 0)).
      { unfold e1. destruct (Z.eqb_spec e NULL) as [->|]; cbn [andb].
        - destruct (Z.eqb_spec (i_ref x) 0); [right; split; [lia|done]|by left].
        - destruct He as [?|[? ?]]; [done|]. right. split; [lia|done]. }
      destruct (IH s (ip + 1) e1 dev inum ltac:(lia) ltac:(lia) He1) as (r & E & Hr). exists r. split; [exact E|]. destruct r as [j|e'].
      * split; [lia|tauto].
      * destruct Hr as [Hno Hr]. split; [intros j Hj; destruct (decide (j = ip)) as [->|]; [done|apply Hno; lia]|].
        destruct Hr as [[Hr1 Hr2]|(Hr1 & Hr2 & Hr3)]; [left; split; [lia|done]|right].
        assert (He0 : e = NULL /\ i_ref x <> 0).
        { unfold e1 in Hr2. unfold NULL in *. destruct (Z.eqb_spec e (-1)), (Z.eqb_spec (i_ref x) 0); cbn [andb] in Hr2; lia. }
        split; [done|]. split; [tauto|]. intros j Hj. destruct (decide (j = ip)) as [->|]; [tauto|apply Hr3; lia].
Qed.

Lemma iget_spec s dev inum : it_lock s = false -> zlen (itable s) = NINODE -> gettable s dev inum ->
  exists ip s', iget dev inum s = Ret ip s' /\ got s dev inum ip s'.
Proof.
  intros Hl Hz (i0 & Hi0 & Hget). unfold iget, itacquire, lk_acquire. unfold bind at 1. rewrite Hl.
  set (s1 := set_it_lock true s). destruct (iget_scan_spec (Z.to_nat NINODE) s1 0 NULL dev inum ltac:(done) ltac:(done) ltac:(by left)) as (r & E & Hr).
  erewrite bind_Ret by exact E. change (0 + Z.of_nat (Z.to_nat NINODE)) with NINODE in Hr. destruct r as [ip|e].
  - destruct Hr as [Hip Hc]. erewrite bind_Ret by reflexivity. exists ip. eexists. split; [reflexivity|]. split; [done|]. left. split; [done|].
    by destruct s; cbn in Hl; subst.
  - destruct Hr as [Hno [[He Hr]|(-> & _ & Hfull)]].
    + destruct (Z.eqb_spec e NULL); [unfold NULL in *; lia|]. do 3 (erewrite bind_Ret by apply updi_eq).
      exists e. eexists. split; [reflexivity|]. split; [done|]. right. split; [done|]. split; [done|].
      rewrite !ip_at_upd, !decide_True by (done || (unfold upd_ip; cbn; rewrite ?zlen_updZ; change (zlen (itable s)) with (zlen (itable s)); lia)).
      rewrite !upd_ip_upd. by destruct s; cbn in Hl; subst.
    + exfalso. destruct Hget as [Hc|Hc]; [by apply (Hno i0)|by apply (Hfull i0)].
Qed.

Lemma got_store s y dev inum ip s' : got (set_store y s) dev inum ip s' -> exists s0, s' = set_store y s0 /\ got s dev inum ip s0.
Proof. intros [Hip [[Hc ->]|(Hno & Hr & ->)]]; eexists; (split; [|split; [exact Hip|]]); [|by left| |by right]; done. Qed.

Lemma relock s ip X Y : it_lock s = false -> set_it_lock false (upd_ip (set_it_lock true (upd_ip s ip X)) ip Y) = upd_ip s ip Y.
Proof. intros Hl. rewrite <- (upd_ip_upd s ip X Y). by destruct s; cbn in Hl; subst. Qed.

(** Dropping it again. *)
Lemma iput_got s dev inum ip s' : it_lock s = false -> zlen (itable s) = NINODE -> got s dev inum ip s' ->
  exists s2, iput ip s' = Ret tt s2 /\
    (s2 = s \/ (i_ref (ip_at s ip) = 0 /\ s2 = upd_ip s ip (set_i_ref 0 (set_i_valid false (set_i_id dev inum (ip_at s ip)))))).
Proof.
  intros Hl Hz [Hip Hg]. assert (Hlen : 0 <= ip < zlen (itable s)) by lia. unfold iput, itacquire, lk_acquire. unfold bind at 1.
  destruct Hg as [[Hc ->]|(_ & Hr & ->)]; cbn [it_lock upd_ip set_itable]; rewrite Hl; erewrite bind_Ret by reflexivity.
  - change (ip_at (set_it_lock true (upd_ip s ip ?X)) ip) with (ip_at (upd_ip s ip X) ip). rewrite ip_at_upd, decide_True by done.
    cbn [i_ref i_valid set_i_ref]. destruct Hc as (Hc & _). destruct (Z.eqb_spec (i_ref (ip_at s ip) + 1) 1); [lia|]. cbn [andb].
    erewrite bind_Ret by reflexivity. erewrite bind_Ret by apply updi_eq. eexists. split; [reflexivity|]. left.
    change (ip_at (set_it_lock true (upd_ip s ip ?X)) ip) with (ip_at (upd_ip s ip X) ip). rewrite ip_at_upd, decide_True by done.
    transitivity (upd_ip s ip (ip_at s ip)); [|apply upd_ip_id]. transitivity (upd_ip s ip (set_i_ref (i_ref (ip_at s ip) + 1 - 1) (ip_at s ip))).
    + by apply relock.
    + do 2 f_equal. rewrite Z.add_simpl_r. by destruct (ip_at s ip).
  - change (ip_at (set_it_lock true (upd_ip s ip ?X)) ip) with (ip_at (upd_ip s ip X) ip). rewrite ip_at_upd, decide_True by done.
    cbn [i_ref i_valid set_i_ref set_i_valid andb Z.eqb]. rewrite andb_false_r. cbn [andb].
    erewrite bind_Ret by reflexivity. erewrite bind_Ret by apply updi_eq. eexists. split; [reflexivity|]. right. split; [done|].
    change (ip_at (set_it_lock true (upd_ip s ip ?X)) ip) with (ip_at (upd_ip s ip X) ip). rewrite ip_at_upd, decide_True by done.
    by apply relock.
Qed.

(** The two outcomes of dirlookup(). *)
Lemma dirlookup_spec s x T V H P dp name :
  let X := ip_at s dp in
  bs_rep x T V H P [] -> dir_ok s V H X -> room H P 1 -> it_lock s = false -> zlen (itable s) = NINODE ->
  match dir_find name 0 (dirents V X) with
  | None => exists y, dirlookup dp name (set_store x s) = Ret (NULL, 0) (set_store y s) /\ bs_rep y T V H P []
  | Some (k, inum) => gettable s ROOTDEV inum ->
      exists ip y s', dirlookup dp name (set_store x s) = Ret (ip, sizeof_dirent * k) (set_store y s') /\
        bs_rep y T V H P [] /\ got s ROOTDEV inum ip s'
  end.
Proof.
  intros X HR Hd Hr Hl Hz. unfold dirlookup.
  assert (Hn : 0 <= i_size X / sizeof_dirent) by (pose proof (do_size _ _ _ _ Hd); apply Z.div_pos; [lia|done]).
  destruct (dirlookup_loop_spec (dir_fuel (i_size X)) s x T V H P dp name 0 HR Hd Hr ltac:(fold X; lia)) as (y & E & HR').
  { fold X. unfold dir_fuel. lia. }
  fold X in E. rewrite Z.mul_0_r, drop_0 in E.
  assert (Hg : forall (K : inode -> M st (Z * Z)), (let* a := geti dp (fun b : inode => b) in K a) (set_store x s) = K X (set_store x s)) by done.
  rewrite Hg, (do_type _ _ _ _ Hd), Z.eqb_refl. cbn [negb]. erewrite bind_Ret by exact E. rewrite (fw_dev _ _ _ _ (do_file _ _ _ _ Hd)).
  destruct (dir_find name 0 (dirents V X)) as [[k inum]|]; cbn [fmap option_fmap option_map fst snd]; [|by exists y].
  intros Hget. destruct (iget_spec (set_store y s) ROOTDEV inum Hl Hz Hget) as (ip & s1 & E1 & Hgot).
  apply got_store in Hgot as (s0 & -> & Hgot). erewrite bind_Ret by exact E1. by exists ip, y, s0.
Qed.

(** ** Adding an entry *)

Lemma free_entry_spec es : forall k, k <= free_entry k es <= k + zlen es /\
  (forall e, es !! Z.to_nat (free_entry k es - k) = Some e -> de_inum e = 0).
Proof.
  induction es as [|e es IH]; intros k; cbn [free_entry]; [split; [by rewrite Z.add_0_r|done]|].
  assert (Hz : zlen (e :: es) = zlen es + 1) by (unfold zlen; cbn [length]; lia). pose proof (zlen_nonneg es).
  destruct (Z.eqb_spec (de_inum e) 0) as [He|].
  - split; [lia|]. rewrite Z.sub_diag. cbn. by intros e' [= <-].
  - destruct (IH (k + 1)) as [Hr Hf]. split; [lia|]. intros e'.
    replace (Z.to_nat (free_entry (k + 1) es - k)) with (Datatypes.S (Z.to_nat (free_entry (k + 1) es - (k + 1)))) by lia. apply Hf.
Qed.

Lemma fbytes_ext V X V' X' o n : (forall i, o <= i < o + n -> fbyte V' X' i = fbyte V X i) -> fbytes V' X' o n = fbytes V X o n.
Proof. intros E. unfold fbytes. apply list_fmap_ext. intros k i [-> Hk]%lookup_seqZ. apply E. lia. Qed.

Lemma zlen_dirent name inum : zlen (mk_dirent name inum) = sizeof_dirent.
Proof. unfold mk_dirent. rewrite zlen_app, zlen_le_bytes. unfold zlen. by rewrite length_strncpy. Qed.

(** The entries after entry [q] was written. *)
Lemma dirents_written sb H V X V' X' q e :
  0 <= i_size X -> i_size X mod sizeof_dirent = 0 -> 0 <= q <= i_size X / sizeof_dirent -> zlen e = sizeof_dirent ->
  written sb H V X (sizeof_dirent * q) sizeof_dirent e V' X' ->
  dirents V' X' = if q <? i_size X / sizeof_dirent then <[Z.to_nat q := e]> (dirents V X) else dirents V X ++ [e].
Proof.
  unfold sizeof_dirent. intros Hs Hw Hq He Hwr. set (n := i_size X / 16) in *. assert (Hn : i_size X = 16 * n) by (unfold n; Z.div_mod_to_equations; lia).
  assert (Hs' : i_size X' = 16 * Z.max n (q + 1)) by (rewrite (wr_size _ _ _ _ _ _ _ _ _ Hwr); lia).
  assert (Hoth : forall k, 0 <= k < Z.max n (q + 1) -> k <> q -> fbytes V' X' (16 * k) 16 = fbytes V X (16 * k) 16).
  { intros k Hk Hkq. apply fbytes_ext. intros i Hi. rewrite (wr_bytes _ _ _ _ _ _ _ _ _ Hwr) by lia. by rewrite decide_False by lia. }
  assert (Hnew : fbytes V' X' (16 * q) 16 = e).
  { apply (nthZ_ext 0).
    - apply Nat2Z.inj. change (zlen (fbytes V' X' (16 * q) 16) = zlen e). by rewrite zlen_fbytes.
    - intros i Hi. rewrite zlen_fbytes in Hi by lia. rewrite nthZ_fbytes by lia. rewrite (wr_bytes _ _ _ _ _ _ _ _ _ Hwr) by lia.
      rewrite decide_True by lia. f_equal. lia. }
  unfold dirents, sizeof_dirent. fold n. rewrite Hs'. replace (16 * Z.max n (q + 1) / 16) with (Z.max n (q + 1)) by (Z.div_mod_to_equations; lia).
  destruct (Z.ltb_spec q n) as [Hqn|Hqn].
  - replace (Z.max n (q + 1)) with n by lia. apply list_eq. intros k. rewrite list_lookup_fmap. destruct (decide (Z.of_nat k < n)) as [Hk|Hk].
    + rewrite lookup_seqZ_lt by lia. cbn [fmap option_fmap option_map]. rewrite Z.add_0_l. destruct (decide (k = Z.to_nat q)) as [->|Hkq].
      * rewrite list_lookup_insert_eq by (rewrite length_fmap, length_seqZ; lia). rewrite Z2Nat.id by lia. by rewrite Hnew.
      * rewrite list_lookup_insert_ne, list_lookup_fmap, lookup_seqZ_lt by lia. cbn [fmap option_fmap option_map]. rewrite Z.add_0_l, Hoth by lia. done.
    + rewrite lookup_seqZ_ge by lia. symmetry. apply lookup_ge_None. rewrite length_insert, length_fmap, length_seqZ. lia.
  - replace (Z.max n (q + 1)) with (n + 1) by lia. rewrite seqZ_app, fmap_app by lia. replace q with n in * by lia. f_equal.
    + apply list_fmap_ext. intros k i [-> Hk]%lookup_seqZ. apply Hoth; lia.
    + rewrite seqZ_cons, (seqZ_nil _ (Z.pred 1)) by lia. cbn [fmap list_fmap]. rewrite Z.add_0_l, Hnew. done.
Qed.

Lemma dir_find_written sb H V X V' X' name inum n :
  let q := free_entry 0 (dirents V X) in
  0 <= i_size X -> i_size X mod sizeof_dirent = 0 -> 0 < inum < 2 ^ 16 -> dir_find name 0 (dirents V X) = None ->
  written sb H V X (sizeof_dirent * q) sizeof_dirent (mk_dirent name inum) V' X' ->
  dir_find n 0 (dirents V' X') = if decide (dname n = dname name) then Some (q, inum) else dir_find n 0 (dirents V X).
Proof.
  intros q Hs Hw Hi Hnone Hwr. destruct (free_entry_spec (dirents V X) 0) as [Hq Hf]. fold q in Hq, Hf. rewrite Z.sub_0_r in Hf.
  assert (Hlen := dirents_length V X Hs). rewrite Z.add_0_l, Hlen in Hq.
  rewrite (dirents_written sb H V X V' X' q _ Hs Hw Hq (zlen_dirent _ _) Hwr). destruct (Z.ltb_spec q (i_size X / sizeof_dirent)) as [Hqn|Hqn].
  - destruct (lookup_lt_is_Some_2 (dirents V X) (Z.to_nat q)) as [e He]; [unfold zlen in Hlen; lia|].
    rewrite insert_take_drop by (unfold zlen in Hlen; lia).
    pose proof (dir_find_insert name (take (Z.to_nat q) (dirents V X)) e (drop (Datatypes.S (Z.to_nat q)) (dirents V X)) inum n Hi (Hf e He)) as Hx.
    rewrite take_drop_middle in Hx by done. rewrite Hx by done.
    case_decide; [|done]. do 2 f_equal. rewrite zlen_take. lia.
  - rewrite dir_find_snoc by done. case_decide; [|done]. do 2 f_equal. lia.
Qed.

(** The table is as before, but for an unused entry. *)
Definition same_table s (s' : st) : Prop :=
  s' = s \/ exists ip X, i_ref (ip_at s ip) = 0 /\ i_ref X = 0 /\ s' = upd_ip s ip X.

(** No block, or no entry, is left for a new name. *)
Definition dir_full (sb : superblock) V (X : inode) V' : Prop :=
  (forall b, 0 <= b < sb_size sb -> used sb V' b = true) \/
  (i_size X = MAXFILE * BSIZE /\ free_entry 0 (dirents V X) = i_size X / sizeof_dirent).

Record linked s H V (X : inode) (name : list Z) (inum : Z) V' (X' : inode) : Prop := {
  li_dir : dir_ok s V' H X';
  li_bm : bitmap_ok (f_sb s) V' H;
  li_find : forall n, dir_find n 0 (dirents V' X') =
    if decide (dname n = dname name) then Some (free_entry 0 (dirents V X), inum) else dir_find n 0 (dirents V X);
  li_other : forall b, foreign (f_sb s) V X b -> b <> IBLOCK (i_inum X) (f_sb s) -> V' b = V b
}.

Lemma linked_intro s H V X name inum V' X' :
  dir_ok s V H X -> 0 < inum < 2 ^ 16 -> dir_find name 0 (dirents V X) = None ->
  sizeof_dirent * free_entry 0 (dirents V X) + sizeof_dirent <= MAXFILE * BSIZE ->
  written (f_sb s) H V X (sizeof_dirent * free_entry 0 (dirents V X)) sizeof_dirent (mk_dirent name inum) V' X' ->
  linked s H V X name inum V' X'.
Proof.
  intros Hd Hi Hnone Hmax Hwr. pose proof (do_size _ _ _ _ Hd) as Hs. pose proof (do_whole _ _ _ _ Hd) as Hw.
  assert (Hs' := wr_size _ _ _ _ _ _ _ _ _ Hwr). split.
  - split.
    + rewrite (wr_meta _ _ _ _ _ _ _ _ _ Hwr). apply (do_type _ _ _ _ Hd).
    + apply (wr_wf _ _ _ _ _ _ _ _ _ Hwr).
    + lia.
    + rewrite Hs'. unfold sizeof_dirent in *. Z.div_mod_to_equations. lia.
    + apply (wr_alloc _ _ _ _ _ _ _ _ _ Hwr).
  - apply (wr_bm _ _ _ _ _ _ _ _ _ Hwr).
  - intros n. eapply dir_find_written; try done. lia.
  - intros b Hb Hne. by apply (wr_other _ _ _ _ _ _ _ _ _ Hwr).
Qed.

Lemma touched_entry q : 0 <= q -> touched (sizeof_dirent * q) sizeof_dirent = 1.
Proof. unfold touched, sizeof_dirent, BSIZE. change (16 <=? 0) with false. cbv iota. intros. Z.div_mod_to_equations. lia. Qed.

(** C17: dirlink().  A name the directory has already is refused: -1, and
    the directory is unchanged.  Otherwise it returns -1 only when the disk or
    the directory is full; when it returns 0, looking up any name gives the
    new inode number if it is this name (up to DIRSIZ characters) and what it
    gave before if it is another one, the directory is well formed, and no
    block in use for anything else has changed. *)
Theorem dirlink_correct s x V H P dp name inum :
  let X := ip_at s dp in
  let B := IBLOCK (i_inum X) (f_sb s) in
  bs_rep x true V H P [] -> bitmap_ok (f_sb s) V H -> dir_ok s V H X -> it_lock s = false ->
  zlen (itable s) = NINODE -> 0 <= dp < NINODE -> 0 < inum < 2 ^ 16 -> foreign (f_sb s) V X B -> bs_home B -> unheld H B ->
  Z.of_nat (base.size H) + zlen P + 6 < NBUF -> zlen P + 6 < bs_cap ->
  match dir_find name 0 (dirents V X) with
  | Some (_, old) => gettable s ROOTDEV old ->
      exists y s', dirlink dp name inum (set_store x s) = Ret (-1) (set_store y s') /\
        bs_rep y true V H P [] /\ same_table s s'
  | None =>
      exists r y V' X' P', dirlink dp name inum (set_store x s) = Ret r (set_store y (upd_ip s dp X')) /\
        bs_rep y true V' H P' [] /\
        (r = 0 /\ linked s H V X name inum V' X' \/ r = -1 /\ dir_full (f_sb s) V X V')
  end.
Proof.
  intros X B HR Hbm Hd Hl Hz Hdp Hi HB HBh HBu Hc1 Hc2. assert (Hr : room H P 1) by (unfold room, zlen in *; lia).
  pose proof (dirlookup_spec s x true V H P dp name HR Hd Hr Hl Hz) as Hlook. fold X in Hlook. unfold dirlink.
  destruct (dir_find name 0 (dirents V X)) as [[k old]|] eqn:Hfind.
  - intros Hget. destruct (Hlook Hget) as (ip & y & s1 & E1 & HR1 & Hgot). erewrite bind_Ret by exact E1. cbn [fst].
    destruct Hgot as [Hip Hg]. destruct (Z.eqb_spec ip NULL); [unfold NULL in *; lia|]. cbn [negb].
    destruct (iput_got (set_store y s) ROOTDEV old ip (set_store y s1) Hl Hz) as (s2 & E2 & Hs2).
    { split; [done|]. destruct Hg as [[? ->]|(? & ? & ->)]; [by left|by right]. }
    erewrite bind_Ret by exact E2. destruct Hs2 as [->|[Hr0 ->]].
    + exists y, s. split; [done|]. split; [done|by left].
    + exists y, (upd_ip s ip (set_i_ref 0 (set_i_valid false (set_i_id ROOTDEV old (ip_at s ip))))). split; [done|]. split; [done|]. right. exists ip, (set_i_ref 0 (set_i_valid false (set_i_id ROOTDEV old (ip_at s ip)))). done.
  - destruct Hlook as (y1 & E1 & HR1). erewrite bind_Ret by exact E1. cbn [fst]. change (NULL =? NULL) with true. cbn [negb].
    erewrite bind_Ret by reflexivity. change (ip_at (set_store y1 s) dp) with X.
    pose proof (do_size _ _ _ _ Hd) as Hs. assert (Hn : 0 <= i_size X / sizeof_dirent) by (apply Z.div_pos; [lia|done]).
    destruct (dirlink_slot_spec (dir_fuel (i_size X)) s y1 true V H P dp 0 HR1 Hd Hr ltac:(fold X; lia)) as (y2 & E2 & HR2); [fold X; unfold dir_fuel; lia|].
    fold X in E2. rewrite Z.mul_0_r, drop_0 in E2. erewrite bind_Ret by exact E2. set (q := free_entry 0 (dirents V X)) in *.
    destruct (free_entry_spec (dirents V X) 0) as [Hq _]. fold q in Hq. rewrite dirents_length in Hq by lia.
    assert (Hq16 : 0 <= sizeof_dirent * q <= i_size X) by (pose proof (do_whole _ _ _ _ Hd); unfold sizeof_dirent in *; Z.div_mod_to_equations; lia).
    pose proof (writei_spec KERNBASE [] (KernSrc (mk_dirent name inum)) s y2 V H P dp (sizeof_dirent * q) (mk_dirent name inum) ltac:(lia) eq_refl HR2 Hbm (do_file _ _ _ _ Hd)) as Hwr. cbv zeta in Hwr.
    rewrite zlen_dirent in Hwr. fold X B in Hwr. change (MAXFILE * BSIZE) with 274432 in *. unfold wcost in Hwr. rewrite touched_entry in Hwr by lia.
    specialize (Hwr ltac:(lia) ltac:(lia) ltac:(done) ltac:(lia) (do_alloc _ _ _ _ Hd) HB HBh HBu ltac:(lia)).
    destruct (Z.ltb_spec (i_size X) (sizeof_dirent * q)); [lia|]. cbn [orb] in Hwr. destruct (Z.ltb_spec 274432 (sizeof_dirent * q + sizeof_dirent)) as [Hfull|Hfit].
    + erewrite bind_Ret by exact Hwr. exists (-1), y2, V, X, P. split; [unfold X; by rewrite upd_ip_id|]. split; [done|]. right. split; [done|]. right.
      pose proof (do_whole _ _ _ _ Hd). fold q. change (MAXFILE * BSIZE) with 274432. unfold sizeof_dirent in *. Z.div_mod_to_equations. lia.
    + destruct Hwr as (m & y & V' & X' & P' & E & HR' & Hm & Hend & HW). erewrite bind_Ret by exact E.
      destruct (Z.eqb_spec m sizeof_dirent) as [->|Hne]; cbn [negb].
      * exists 0, y, V', X', P'. split; [done|]. split; [done|]. left. split; [done|]. by apply linked_intro.
      * exists (-1), y, V', X', P'. split; [done|]. split; [done|]. right. split; [done|]. left. by destruct Hend.
Qed.
End FsDir.

#[local] Existing Instance FsSample.fs_store.

(** An empty directory, inode 7. *)
Definition empty_dir : inode := Inode ROOTDEV 7 1 (sl_held 1) true T_DIR 0 0 1 0 (repeat 0 13).

Lemma empty_dir_ptr V j : bptr V empty_dir j = 0.
Proof.
  unfold bptr. cbn [empty_dir i_addrs]. rewrite !nthZ_repeat. repeat case_decide; by destruct (j <=? NDIRECT).
Qed.

Lemma empty_dir_ok V x : dir_ok (file_fs empty_dir x) V ∅ empty_dir.
Proof.
  split; try done.
  - split; try done; intros j; [intros _; by rewrite empty_dir_ptr|]. intros j' _ _. by rewrite empty_dir_ptr.
  - intros o Ho. cbn in Ho. lia.
Qed.

Lemma dirlink_correct_witness :
  exists x V, bs_rep x true V ∅ [] [] /\
  exists r y V' X' P', dirlink 0 [97] 9 (set_store x (file_fs empty_dir x)) = Ret r (set_store y (upd_ip (file_fs empty_dir x) 0 X')) /\
    bs_rep y true V' ∅ P' [] /\
    (r = 0 /\ linked (file_fs empty_dir x) ∅ V empty_dir [97] 9 V' X' \/ r = -1 /\ dir_full FsSample.sb V empty_dir V').
Proof.
  destruct FsSample.in_transaction as (x & V & HR & HV). exists x, V. split; [exact HR|].
  apply (dirlink_correct (file_fs empty_dir x) x V ∅ [] 0 [97] 9 HR (FsSample.layout V HV) (empty_dir_ok V x)).
  - reflexivity.
  - reflexivity.
  - vm_compute. intuition congruence.
  - lia.
  - change (IBLOCK (i_inum (ip_at (file_fs empty_dir x) 0)) (f_sb (file_fs empty_dir x))) with 32.
    split; [change (sb_size (f_sb (file_fs empty_dir x))) with 2000; lia|].
    split; [exact (FsSample.used_sb V 32 HV ltac:(lia))|]. split.
    + intros i Hi. change (ip_at (file_fs empty_dir x) 0) with empty_dir. rewrite empty_dir_ptr. lia.
    + intros n Hn. change (f_sb (file_fs empty_dir x)) with FsSample.sb. rewrite FsSample.BBLOCK_sb by exact Hn. lia.
  - split; [vm_compute; intuition congruence|]. unfold in_log. vm_compute. intuition congruence.
  - intros i. by rewrite lookup_empty.
  - rewrite map_size_empty. reflexivity.
  - reflexivity.
Defined.
