(* ===== verification/FsPath.v ===== *)
(** * Path names: the proofs

    A path is a sequence of names; namex() follows them from directory to
    directory.  The inode table is seen as a map from inode numbers to
    reference counts, of which namex() leaves exactly one more for the inode
    it returns. *)

From Stdlib Require Import ZArith Lia.
From stdpp Require Import base numbers list list_numbers gmap strings sorting.
From S2P Require Import Prelude Cstring Riscv Kalloc Vm Uvm Bytes Sleeplock Bio Bcache Log Recovery Store Fs FsBlocks FsInode FsFile FsWrite FsDir.

(** ** The names of a path *)

(** The pieces between slashes. *)
Fixpoint pieces (p : list Z) : list (list Z) :=
  match p with
  | [] => [[]]
  | c :: p' =>
      if c =? SLASH then [] :: pieces p'
      else match pieces p' with
           | w :: ws => (c :: w) :: ws
           | [] => [[c]]
           end
  end.

Definition elems (p : list Z) : list (list Z) :=
  take (Z.to_nat DIRSIZ) <$> List.filter (fun w => negb (bool_decide (w = []))) (pieces p).

Lemma elems_slash p : elems (SLASH :: p) = elems p.
Proof. done. Qed.

Lemma elems_skip p : elems (skip_slashes p) = elems p.
Proof. induction p as [|c p IH]; [done|]. cbn [skip_slashes]. destruct (Z.eqb_spec c SLASH) as [->|]; [by rewrite IH|done]. Qed.

Lemma pieces_elem p : 0 ∉ p -> forall e rest, path_elem p = (e, rest) ->
  p = e ++ rest /\ SLASH ∉ e /\ (rest = [] \/ exists r, rest = SLASH :: r).
Proof.
  induction p as [|c p IH]; intros H0 e rest; cbn [path_elem].
  { intros [= <- <-]. split; [done|]. split; [apply not_elem_of_nil|by left]. }
  apply not_elem_of_cons in H0 as [Hc H0]. destruct (Z.eqb_spec c SLASH) as [->|Hs]; cbn [orb].
  { intros [= <- <-]. split; [done|]. split; [apply not_elem_of_nil|]. right. by exists p. }
  destruct (Z.eqb_spec c 0); [congruence|]. destruct (path_elem p) as [e' r'] eqn:E. intros [= <- <-].
  destruct (IH H0 e' r' eq_refl) as (-> & He & Hr). split; [done|]. split; [|done]. apply not_elem_of_cons. done.
Qed.

Lemma pieces_app e rest : SLASH ∉ e -> rest = [] \/ (exists r, rest = SLASH :: r) ->
  pieces (e ++ rest) = e :: match rest with [] => [] | _ :: r => pieces r end.
Proof.
  intros He Hr. induction e as [|c e IH]; cbn [app].
  - destruct Hr as [->|[r ->]]; done.
  - apply not_elem_of_cons in He as [Hc He]. cbn [pieces]. destruct (Z.eqb_spec c SLASH); [congruence|]. by rewrite IH.
Qed.

Lemma skip_spec p : 0 ∉ p -> 0 ∉ skip_slashes p /\ (length (skip_slashes p) <= length p)%nat /\
  (skip_slashes p = [] \/ exists c r, skip_slashes p = c :: r /\ c <> SLASH /\ c <> 0).
Proof.
  induction p as [|c p IH]; intros H0; cbn [skip_slashes]; [split; [done|]; split; [done|by left]|].
  pose proof H0 as H0'. apply not_elem_of_cons in H0 as [Hc H0]. destruct (Z.eqb_spec c SLASH) as [->|Hs].
  - destruct (IH H0) as (H1 & H2 & H3). split; [done|]. split; [cbn; lia|done].
  - split; [done|]. split; [done|]. right. by exists c, p.
Qed.

Lemma elems_nil p : elems p = [] -> 0 ∉ p -> skip_slashes p = [].
Proof.
  intros He H0. rewrite <- elems_skip in He. destruct (skip_spec p H0) as (H1 & _ & [E|(c & r & E & Hs & Hz)]); [done|].
  rewrite E in He. exfalso. unfold elems in He. cbn [pieces] in He. destruct (Z.eqb_spec c SLASH); [done|].
  destruct (pieces r); cbn in He; done.
Qed.

#[local] Transparent patch.
Lemma patched_name name s : zlen name = DIRSIZ -> Forall (fun c => c <> 0) s ->
  let nm := if DIRSIZ <=? zlen s then patch name 0 (take (Z.to_nat DIRSIZ) s) else patch name 0 (s ++ [0]) in
  zlen nm = DIRSIZ /\ dname nm = take (Z.to_nat DIRSIZ) s.
Proof.
  intros Hn Hs nm. unfold nm, dname, DIRSIZ in *. destruct (Z.leb_spec 14 (zlen s)) as [Hl|Hl].
  - assert (Hz : zlen (take (Z.to_nat 14) s) = 14) by (rewrite zlen_take; lia). split; [rewrite zlen_patch; lia|].
    unfold patch. rewrite Hz. change (Z.to_nat 0) with 0%nat. rewrite take_0, app_nil_l, Z.add_0_l, drop_ge by (unfold zlen in Hn; lia). rewrite app_nil_r.
    assert (Hc : cstr (take (Z.to_nat 14) s) = take (Z.to_nat 14) s).
    { apply (Forall_take _ (Z.to_nat 14)) in Hs. revert Hs. generalize (take (Z.to_nat 14) s). clear. intros l Hl. induction Hl as [|c l Hc Hl IH]; [done|].
      cbn. destruct (Z.eqb_spec c 0); [done|]. by rewrite IH. }
    rewrite Hc, take_take. f_equal.
  - assert (Hz : zlen (s ++ [0]) = zlen s + 1) by (rewrite zlen_app; done). pose proof (zlen_nonneg s). split; [rewrite zlen_patch; lia|].
    unfold patch. change (Z.to_nat 0) with 0%nat. rewrite take_0, app_nil_l, <- app_assoc. change ([0] ++ ?l) with (0 :: l). by rewrite cstr_app_nul.
Qed.
#[local] Opaque patch.

(** skipelem() takes the first name off the path. *)
Lemma skipelem_spec p name : 0 ∉ p -> zlen name = DIRSIZ ->
  match skipelem p name with
  | None => elems p = []
  | Some (rest, nm) => elems p = dname nm :: elems rest /\ (length rest < length p)%nat /\ 0 ∉ rest /\ zlen nm = DIRSIZ /\
      (chr rest =? 0) = bool_decide (elems rest = [])
  end.
Proof.
  intros H0 Hn. unfold skipelem. rewrite <- (elems_skip p). destruct (skip_spec p H0) as (H1 & Hlen & [E|(c & r & E & Hs & Hz)]).
  { by rewrite E. }
  rewrite E in *. cbn [chr]. destruct (Z.eqb_spec c 0); [done|]. destruct (path_elem (c :: r)) as [e rest] eqn:Ep.
  destruct (pieces_elem _ H1 _ _ Ep) as (Hcr & He & Hr). assert (Hne : e <> []).
  { intros ->. cbn [app] in Hcr. destruct Hr as [->|[r' ->]]; [done|]. congruence. }
  assert (Hnz : Forall (fun x => x <> 0) e).
  { apply Forall_forall. intros x Hx ->. apply H1. rewrite Hcr. apply elem_of_app. by left. }
  destruct (patched_name name e Hn Hnz) as [Hzn Hdn]. assert (H0r : 0 ∉ rest) by (intros Hin; apply H1; rewrite Hcr; apply elem_of_app; by right).
  split; [|split; [|split; [by apply skip_spec|split; [exact Hzn|]]]].
  - rewrite Hdn, elems_skip, Hcr. unfold elems at 1. rewrite pieces_app by done. cbn [List.filter]. rewrite bool_decide_false by done. cbn [negb fmap list_fmap].
    f_equal. destruct Hr as [->|[r' ->]]; done.
  - destruct (skip_spec rest H0r) as (_ & Hl & _). assert (length (c :: r) = length e + length rest)%nat by (by rewrite Hcr, length_app).
    destruct e; [done|]. cbn [length] in *. lia.
  - destruct (skip_spec rest H0r) as (_ & _ & [Er|(c' & r' & Er & Hs' & Hz')]); rewrite Er; cbn [chr]; [done|].
    destruct (Z.eqb_spec c' 0); [done|]. rewrite bool_decide_false; [done|]. unfold elems. cbn [pieces]. destruct (Z.eqb_spec c' SLASH); [done|].
    by destruct (pieces r').
Qed.

(** ** References *)

(** One more, or one less, reference to inode [i]. *)
Definition ref_add (i : Z) (R : gmap Z Z) : gmap Z Z := <[i := default 0 (R !! i) + 1]> R.
Definition ref_drop (i : Z) (R : gmap Z Z) : gmap Z Z :=
  match R !! i with
  | Some r => if r =? 1 then delete i R else <[i := r - 1]> R
  | None => R
  end.
Definition positive (R : gmap Z Z) : Prop := forall i r, R !! i = Some r -> 0 < r.

Lemma lookup_ref_add i R j : ref_add i R !! j = if decide (j = i) then Some (default 0 (R !! i) + 1) else R !! j.
Proof. unfold ref_add. case_decide; subst; [by rewrite lookup_insert_eq|by rewrite lookup_insert_ne]. Qed.

Lemma lookup_ref_drop i R j : ref_drop i R !! j =
  if decide (j = i) then match R !! i with Some r => if r =? 1 then None else Some (r - 1) | None => None end else R !! j.
Proof.
  unfold ref_drop. destruct (R !! i) as [r|] eqn:E.
  - destruct (r =? 1); case_decide; subst; [by rewrite lookup_delete_eq|by rewrite lookup_delete_ne|by rewrite lookup_insert_eq|by rewrite lookup_insert_ne].
  - case_decide; by subst.
Qed.

Lemma ref_drop_add i R : positive R -> ref_drop i (ref_add i R) = R.
Proof.
  intros Hp. apply map_eq. intros j. rewrite lookup_ref_drop, !lookup_ref_add. repeat case_decide; subst; try done.
  destruct (R !! i) as [r|] eqn:E; cbn; [|done]. specialize (Hp i r E). destruct (Z.eqb_spec (r + 1) 1); [lia|]. f_equal. lia.
Qed.

Lemma ref_drop_comm i k R : i <> k -> ref_drop i (ref_add k R) = ref_add k (ref_drop i R).
Proof.
  intros Hne. apply map_eq. intros j. rewrite lookup_ref_drop, !lookup_ref_add, !lookup_ref_drop. repeat case_decide; subst; done.
Qed.

Lemma ref_swap i k R : positive R -> ref_drop i (ref_add k (ref_add i R)) = ref_add k R.
Proof.
  intros Hp. destruct (decide (i = k)) as [->|Hne].
  - apply ref_drop_add. intros j r. rewrite lookup_ref_add. case_decide; [|by apply Hp]. intros [= <-]. destruct (R !! k) as [r|] eqn:E; cbn; [|lia].
    specialize (Hp k r E). lia.
  - rewrite ref_drop_comm by done. by rewrite ref_drop_add.
Qed.

Lemma positive_add i R : positive R -> positive (ref_add i R).
Proof.
  intros Hp j r. rewrite lookup_ref_add. case_decide; [|by apply Hp]. intros [= <-]. destruct (R !! i) as [x|] eqn:E; cbn; [|lia].
  specialize (Hp i x E). lia.
Qed.

Lemma size_ref_add i R : (size (ref_add i R) <= S (size R))%nat.
Proof.
  unfold ref_add. destruct (R !! i) as [x|] eqn:E; [rewrite map_size_insert_Some by done; lia|rewrite map_size_insert_None by done; lia].
Qed.

Section FsPath.
Context {S : Type} {ops : BlockOps S} {BS : BlockStore S}.
Notation st := (fsst S).
Implicit Types (s : st) (x y : S) (V : Z -> list Z) (H : gmap Z Z) (P D : list Z) (R : gmap Z Z).

(** Inode [inum] as the disk has it. *)
Definition on_disk (sb : superblock) V (inum : Z) : inode := dip_load (V (IBLOCK inum sb)) (dip_off inum) (set_i_id ROOTDEV inum inode0).

(** The table holds the references [R]; entry [i] has the lock [lk i]; what is
    valid is what the disk has. *)
Record tab_ok (lk : Z -> sleeplock) s V R : Prop := {
  tb_len : zlen (itable s) = NINODE;
  tb_free : it_lock s = false;
  tb_ref : forall i, 0 <= i < NINODE -> 0 <= i_ref (ip_at s i);
  tb_lk : forall i, 0 <= i < NINODE -> i_lock (ip_at s i) = lk i;
  tb_used : forall i, 0 <= i < NINODE -> 0 < i_ref (ip_at s i) ->
    i_dev (ip_at s i) = ROOTDEV /\ R !! i_inum (ip_at s i) = Some (i_ref (ip_at s i)) /\
    (i_valid (ip_at s i) = true -> disk_fields (ip_at s i) = disk_fields (on_disk (f_sb s) V (i_inum (ip_at s i))));
  tb_uniq : forall i j, 0 <= i < NINODE -> 0 <= j < NINODE -> 0 < i_ref (ip_at s i) -> 0 < i_ref (ip_at s j) ->
    i_inum (ip_at s i) = i_inum (ip_at s j) -> i = j;
  tb_all : forall inum r, R !! inum = Some r -> exists i, 0 <= i < NINODE /\ 0 < i_ref (ip_at s i) /\ i_inum (ip_at s i) = inum
}.

(** Entry [ip] is in use for inode [inum]. *)
Definition refers s (ip inum : Z) : Prop := 0 <= ip < NINODE /\ 0 < i_ref (ip_at s ip) /\ i_inum (ip_at s ip) = inum.

Lemma tab_positive lk s V R : tab_ok lk s V R -> positive R.
Proof.
  intros Ht i r Hr. destruct (tb_all _ _ _ _ Ht i r Hr) as (j & Hj & Hu & <-). destruct (tb_used _ _ _ _ Ht j Hj Hu) as (_ & E & _).
  rewrite Hr in E. injection E as ->. done.
Qed.

(** Fewer references than entries leave an entry free. *)
Lemma tab_room lk s V R : tab_ok lk s V R -> Z.of_nat (base.size R) < NINODE -> exists i, 0 <= i < NINODE /\ i_ref (ip_at s i) = 0.
Proof.
  intros Ht Hs. destruct (decide (Exists (fun i => i_ref (ip_at s i) = 0) (seqZ 0 NINODE))) as [He|He].
  - apply Exists_exists in He as (i & Hi & He). apply elem_of_seqZ in Hi. exists i. split; [lia|done].
  - exfalso. assert (Hall : forall i, 0 <= i < NINODE -> 0 < i_ref (ip_at s i)).
    { intros i Hi. pose proof (tb_ref _ _ _ _ Ht i Hi). destruct (decide (i_ref (ip_at s i) = 0)) as [E|E]; [|lia].
      exfalso. apply He, Exists_exists. exists i. split; [apply elem_of_seqZ; lia|done]. }
    set (l := (fun i => i_inum (ip_at s i)) <$> seqZ 0 NINODE).
    assert (Hnd : NoDup l).
    { apply NoDup_fmap_2_strong; [|apply NoDup_seqZ]. intros i j Hi Hj E. apply elem_of_seqZ in Hi, Hj.
      eapply (tb_uniq _ _ _ _ Ht); try done; try lia; apply Hall; lia. }
    assert (Hsub : (list_to_set l : gset Z) ⊆ dom R).
    { intros k Hk. apply elem_of_list_to_set, list_elem_of_fmap in Hk as (i & -> & Hi). apply elem_of_seqZ in Hi. apply elem_of_dom.
      destruct (tb_used _ _ _ _ Ht i ltac:(lia) (Hall i ltac:(lia))) as (_ & -> & _). by eexists. }
    apply subseteq_size in Hsub. rewrite size_list_to_set, size_dom in Hsub by done. unfold l in Hsub. rewrite length_fmap, length_seqZ in Hsub. lia.
Qed.

Lemma tab_gettable lk s V R inum : tab_ok lk s V R -> Z.of_nat (base.size R) < NINODE -> gettable s ROOTDEV inum.
Proof. intros Ht Hs. destruct (tab_room _ _ _ _ Ht Hs) as (i & Hi & E). exists i. split; [done|by right]. Qed.

(** One entry changes. *)
Lemma tab_upd lk lk' s V R R' ip X : tab_ok lk s V R -> 0 <= ip < NINODE -> 0 <= i_ref X -> i_lock X = lk' ip ->
  (forall i, i <> ip -> lk' i = lk i) ->
  (0 < i_ref X -> i_dev X = ROOTDEV /\ R' !! i_inum X = Some (i_ref X) /\ (i_valid X = true -> disk_fields X = disk_fields (on_disk (f_sb s) V (i_inum X)))) ->
  (forall i, 0 <= i < NINODE -> i <> ip -> 0 < i_ref (ip_at s i) -> i_inum (ip_at s i) <> i_inum X \/ i_ref X <= 0) ->
  (forall i, 0 <= i < NINODE -> i <> ip -> 0 < i_ref (ip_at s i) -> R' !! i_inum (ip_at s i) = Some (i_ref (ip_at s i))) ->
  (forall inum r, R' !! inum = Some r -> (0 < i_ref X /\ i_inum X = inum) \/ exists i, 0 <= i < NINODE /\ i <> ip /\ 0 < i_ref (ip_at s i) /\ i_inum (ip_at s i) = inum) ->
  tab_ok lk' (upd_ip s ip X) V R'.
Proof.
  intros Ht Hip Hr Hlk Hlk' Hu Hd Ho Ha. assert (Hat : forall k, ip_at (upd_ip s ip X) k = if decide (k = ip) then X else ip_at s k).
  { intros k. apply ip_at_upd. by rewrite (tb_len _ _ _ _ Ht). }
  split; [rewrite zlen_upd_ip; apply Ht|apply Ht|..].
  - intros i Hi. rewrite Hat. case_decide; [done|]. by apply (tb_ref _ _ _ _ Ht).
  - intros i Hi. rewrite Hat. case_decide; [by subst|]. rewrite Hlk' by done. by apply (tb_lk _ _ _ _ Ht).
  - intros i Hi. rewrite Hat. case_decide; [done|]. intros H0. destruct (tb_used _ _ _ _ Ht i Hi H0) as (? & _ & ?). split; [done|]. split; [by apply Ho|done].
  - intros i j Hi Hj. rewrite !Hat. repeat case_decide; subst; try done.
    + intros H1 H2 E. destruct (Hd j Hj ltac:(done) H2) as [?|?]; [congruence|lia].
    + intros H1 H2 E. destruct (Hd i Hi ltac:(done) H1) as [?|?]; [congruence|lia].
    + by apply (tb_uniq _ _ _ _ Ht).
  - intros inum r Hir. destruct (Ha inum r Hir) as [[H1 H2]|(i & Hi & Hne & H1 & H2)].
    + exists ip. rewrite Hat, decide_True by done. done.
    + exists i. rewrite Hat, decide_False by done. done.
Qed.

Definition lk_set (ip : Z) (l : sleeplock) (lk : Z -> sleeplock) : Z -> sleeplock := fun i => if decide (i = ip) then l else lk i.

Lemma lk_set_same ip l lk : lk ip = l -> forall i, lk_set ip l lk i = lk i.
Proof. intros E i. unfold lk_set. case_decide; by subst. Qed.

(** Two steps of tables about entries other than the changed one. *)
Lemma refers_other s ip X k inum : zlen (itable s) = NINODE -> 0 <= ip < NINODE -> k <> ip \/ (0 < i_ref X /\ i_inum X = i_inum (ip_at s ip)) ->
  refers s k inum -> refers (upd_ip s ip X) k inum.
Proof.
  intros Hl Hip Hk (Hk1 & Hk2 & Hk3). split; [done|]. rewrite ip_at_upd by (by rewrite Hl). case_decide; [subst k|done].
  destruct Hk as [?|[? E]]; [done|]. by rewrite E.
Qed.

(** The count of the entry in use goes up or down. *)
Lemma tab_count lk s V R ip inum d : tab_ok lk s V R -> refers s ip inum -> d = 1 \/ d = -1 ->
  tab_ok lk (upd_ip s ip (set_i_ref (i_ref (ip_at s ip) + d) (ip_at s ip))) V (if decide (d = 1) then ref_add inum R else ref_drop inum R).
Proof.
  intros Ht (Hip & Hu & Hn) Hd. destruct (tb_used _ _ _ _ Ht ip Hip Hu) as (Hdev & HR & Hval). rewrite Hn in HR.
  assert (Hl : forall j, (if decide (d = 1) then ref_add inum R else ref_drop inum R) !! j =
    if decide (j = inum) then (if decide (i_ref (ip_at s ip) + d = 0) then None else Some (i_ref (ip_at s ip) + d)) else R !! j).
  { intros j. destruct Hd as [->| ->].
    - rewrite decide_True by done. rewrite lookup_ref_add, HR. cbn. case_decide; [|done]. by rewrite decide_False by lia.
    - rewrite decide_False by done. rewrite lookup_ref_drop, HR. case_decide; [|done]. destruct (Z.eqb_spec (i_ref (ip_at s ip)) 1); case_decide; try lia; done. }
  set (R' := if decide (d = 1) then _ else _) in *. apply (tab_upd lk lk s V R R' ip); cbn [i_ref i_lock i_dev i_inum i_valid set_i_ref]; try done.
  - destruct Hd as [->| ->]; lia.
  - by apply (tb_lk _ _ _ _ Ht).
  - intros Hp. split; [done|]. split; [|exact Hval]. rewrite Hl, Hn, decide_True, decide_False by (done || lia). done.
  - intros i Hi Hne Hui. left. intros E. apply Hne. by apply (tb_uniq _ _ _ _ Ht).
  - intros i Hi Hne Hui. rewrite Hl, decide_False; [by apply (tb_used _ _ _ _ Ht)|]. intros E. apply Hne. apply (tb_uniq _ _ _ _ Ht); try done. by rewrite Hn.
  - intros j r. rewrite Hl. destruct (decide (j = inum)) as [Ej|Ej].
    + case_decide as E0; [done|]. intros _. left. subst j. split; [destruct Hd as [->| ->]; lia|done].
    + intros Hj. destruct (tb_all _ _ _ _ Ht j r Hj) as (i & Hi & Hui & Ei). right. exists i. split; [done|]. split; [congruence|done].
Qed.

(** A reference from iget(). *)
Lemma got_tab lk s V R inum ip s' : tab_ok lk s V R -> got s ROOTDEV inum ip s' ->
  tab_ok lk s' V (ref_add inum R) /\ refers s' ip inum /\ (forall k n, refers s k n -> refers s' k n /\ (k <> ip -> ip_at s' k = ip_at s k)) /\ exists X, s' = upd_ip s ip X.
Proof.
  intros Ht [Hip [[(Hu & Hd & Hn) ->]|(Hno & Hr & ->)]].
  - assert (Href : refers s ip inum) by done. split; [|split; [|split; [|by eexists]]].
    + exact (tab_count lk s V R ip inum 1 Ht Href ltac:(by left)).
    + split; [done|]. rewrite ip_at_upd by (by rewrite (tb_len _ _ _ _ Ht)). rewrite decide_True by done. cbn. split; [lia|done].
    + intros k n Hk. split.
      * apply refers_other; [apply Ht|done| |done]. right. cbn. split; [lia|done].
      * intros Hne. rewrite ip_at_upd by (by rewrite (tb_len _ _ _ _ Ht)). by rewrite decide_False.
  - assert (Hnone : R !! inum = None).
    { destruct (R !! inum) as [r|] eqn:E; [|done]. destruct (tb_all _ _ _ _ Ht inum r E) as (i & Hi & Hui & Ei). exfalso. apply (Hno i Hi).
      split; [done|]. split; [by apply (tb_used _ _ _ _ Ht)|done]. }
    split; [|split; [|split; [|by eexists]]].
    + apply (tab_upd lk lk s V R); cbn; try done.
      * by apply (tb_lk _ _ _ _ Ht).
      * intros _. rewrite lookup_ref_add, decide_True, Hnone by done. done.
      * intros i Hi Hne Hui. left. intros E. apply (Hno i Hi). split; [done|]. split; [by apply (tb_used _ _ _ _ Ht)|done].
      * intros i Hi Hne Hui. rewrite lookup_ref_add, decide_False; [by apply (tb_used _ _ _ _ Ht)|]. intros E.
        apply (Hno i Hi). split; [done|]. split; [by apply (tb_used _ _ _ _ Ht)|done].
      * intros j r. rewrite lookup_ref_add. case_decide as E; [left; by split; [lia|]|]. intros Hj. right.
        destruct (tb_all _ _ _ _ Ht j r Hj) as (i & Hi & Hui & Ei). exists i. split; [done|]. split; [intros ->; lia|done].
    + split; [done|]. rewrite ip_at_upd by (by rewrite (tb_len _ _ _ _ Ht)). rewrite decide_True by done. done.
    + intros k n Hk. assert (Hne : k <> ip) by (intros ->; destruct Hk as (_ & ? & _); lia). split.
      * apply refers_other; [apply Ht|done|by left|done].
      * intros _. rewrite ip_at_upd by (by rewrite (tb_len _ _ _ _ Ht)). by rewrite decide_False.
Qed.

(** An inode that is in use on disk, in a block no one holds. *)
Record live (sb : superblock) V H (inum : Z) : Prop := {
  lv_range : 0 < inum < sb_ninodes sb;
  lv_type : i_type (on_disk sb V inum) <> 0;
  lv_nlink : 0 < i_nlink (on_disk sb V inum);
  lv_unheld : unheld H (IBLOCK inum sb)
}.

(** An entry keeps its identity and count. *)
Definition same_id (X Y : inode) : Prop := i_ref X = i_ref Y /\ i_inum X = i_inum Y /\ i_dev X = i_dev Y.

Lemma tab_locked lk s V R ip inum l X : tab_ok lk s V R -> refers s ip inum -> same_id X (ip_at s ip) -> i_lock X = l ->
  (i_valid X = true -> disk_fields X = disk_fields (on_disk (f_sb s) V inum)) -> tab_ok (lk_set ip l lk) (upd_ip s ip X) V R.
Proof.
  intros Ht (Hip & Hu & Hn) (E1 & E2 & E3) Hl Hv. destruct (tb_used _ _ _ _ Ht ip Hip Hu) as (Hdev & HR & _).
  apply (tab_upd lk _ s V R R ip X Ht Hip).
  - rewrite E1. lia.
  - unfold lk_set. by rewrite decide_True.
  - intros i Hi. unfold lk_set. by rewrite decide_False.
  - intros _. rewrite E1, E2, E3. rewrite Hn in *. done.
  - intros i Hi Hne Hui. left. rewrite E2. intros E. apply Hne. by apply (tb_uniq _ _ _ _ Ht).
  - intros i Hi Hne Hui. by apply (tb_used _ _ _ _ Ht).
  - intros j r Hj. destruct (tb_all _ _ _ _ Ht j r Hj) as (i & Hi & Hui & Ei). destruct (decide (i = ip)) as [->|Hne]; [left; by rewrite E1, E2|right].
    by exists i.
Qed.

Lemma ilock_tab lk s x T V H P R ip inum : bs_rep x T V H P [] -> tab_ok lk s V R -> refers s ip inum -> lk ip = sl_free ->
  live (f_sb s) V H inum -> room H P 1 ->
  exists y X, ilock ip (set_store x s) = Ret tt (set_store y (upd_ip s ip X)) /\ bs_rep y T V H P [] /\
    tab_ok (lk_set ip (sl_held (upid s)) lk) (upd_ip s ip X) V R /\ same_id X (ip_at s ip) /\
    i_valid X = true /\ i_lock X = sl_held (upid s) /\ disk_fields X = disk_fields (on_disk (f_sb s) V inum).
Proof.
  intros HR Ht Href Hlk [_ Ht1 Ht2 Ht3] Hr. pose proof Href as (Hip & Hu & Hn). destruct (tb_used _ _ _ _ Ht ip Hip Hu) as (Hdev & _ & Hval).
  pose proof (tb_lk _ _ _ _ Ht ip Hip) as Hl. rewrite Hlk in Hl. destruct (i_valid (ip_at s ip)) eqn:Ev.
  - exists x, (set_i_lock (sl_held (upid s)) (ip_at s ip)). assert (Hdf : disk_fields (ip_at s ip) = disk_fields (on_disk (f_sb s) V inum)) by (rewrite <- Hn; by apply Hval).
    split; [|split; [done|split; [|done]]].
    + unfold ilock. erewrite bind_Ret by reflexivity. change (ip_at (set_store x s) ip) with (ip_at s ip).
      destruct (Z.eqb_spec ip NULL) as [->|_]; [unfold NULL in Hip; lia|]. destruct (Z.ltb_spec (i_ref (ip_at s ip)) 1); [lia|]. cbn [orb].
      erewrite bind_Ret by reflexivity. erewrite bind_Ret by (apply on_ilock_Ret; change (ip_at (set_store x s) ip) with (ip_at s ip); rewrite Hl; apply acquiresleep_free).
      erewrite bind_Ret by reflexivity. change (ip_at (upd_ip (set_store x s) ip ?X) ip) with (ip_at (upd_ip s ip X) ip).
      rewrite ip_at_upd, decide_True by (done || by rewrite (tb_len _ _ _ _ Ht)). change (ip_at (set_store x s) ip) with (ip_at s ip). cbn [i_valid set_i_lock]. rewrite Ev. done.
    + by apply (tab_locked lk s V R ip inum).
  - destruct (ilock_load s x T V H P [] ip HR) as (y & E & HR'); rewrite ?Hn; try done; [by rewrite (tb_len _ _ _ _ Ht)|lia|apply not_elem_of_nil|].
    rewrite Hn in E. eexists y, _. split; [exact E|]. split; [done|]. split; [|done]. by apply (tab_locked lk s V R ip inum).
Qed.

Lemma iunlock_tab lk s x V R ip inum : tab_ok lk s V R -> refers s ip inum -> lk ip = sl_held (upid s) ->
  iunlock ip (set_store x s) = Ret tt (set_store x (upd_ip s ip (set_i_lock sl_free (ip_at s ip)))) /\
  tab_ok (lk_set ip sl_free lk) (upd_ip s ip (set_i_lock sl_free (ip_at s ip))) V R.
Proof.
  intros Ht Href Hlk. pose proof Href as (Hip & Hu & Hn). pose proof (tb_lk _ _ _ _ Ht ip Hip) as Hl. rewrite Hlk in Hl. split.
  - unfold iunlock. erewrite bind_Ret by reflexivity. destruct (Z.eqb_spec ip NULL) as [->|_]; [unfold NULL in Hip; lia|].
    erewrite bind_Ret by (apply on_ilock_Ret; change (ip_at (set_store x s) ip) with (ip_at s ip); rewrite Hl; apply holdingsleep_held).
    change (upid (set_store x s)) with (upid s). rewrite Z.eqb_refl. cbn [negb orb].
    assert (Hid : upd_ip (set_store x s) ip (set_i_lock (sl_held (upid s)) (ip_at (set_store x s) ip)) = set_store x s).
    { change (ip_at (set_store x s) ip) with (ip_at s ip). change (upd_ip (set_store x s) ip ?X) with (set_store x (upd_ip s ip X)). f_equal.
      rewrite <- Hl. replace (set_i_lock (i_lock (ip_at s ip)) (ip_at s ip)) with (ip_at s ip) by (by destruct (ip_at s ip)). apply upd_ip_id. }
    rewrite Hid. erewrite bind_Ret by reflexivity. change (ip_at (set_store x s) ip) with (ip_at s ip). destruct (Z.ltb_spec (i_ref (ip_at s ip)) 1); [lia|].
    erewrite on_ilock_Ret; [reflexivity|]. change (ip_at (set_store x s) ip) with (ip_at s ip). rewrite Hl. apply releasesleep_held.
  - apply (tab_locked lk s V R ip inum); try done. cbn. intros Hv. rewrite <- Hn. by apply (tb_used _ _ _ _ Ht).
Qed.

Lemma iput_tab lk s x V H R ip inum : tab_ok lk s V R -> refers s ip inum -> live (f_sb s) V H inum ->
  let X := set_i_ref (i_ref (ip_at s ip) - 1) (ip_at s ip) in
  iput ip (set_store x s) = Ret tt (set_store x (upd_ip s ip X)) /\ tab_ok lk (upd_ip s ip X) V (ref_drop inum R).
Proof.
  intros Ht Href [_ _ Hnl _]. pose proof Href as (Hip & Hu & Hn). destruct (tb_used _ _ _ _ Ht ip Hip Hu) as (_ & _ & Hval).
  intros X. split.
  - unfold iput, itacquire, lk_acquire. unfold bind at 1. change (it_lock (set_store x s)) with (it_lock s). rewrite (tb_free _ _ _ _ Ht).
    erewrite bind_Ret by reflexivity. change (ip_at (set_it_lock true (set_store x s)) ip) with (ip_at s ip).
    assert (Hc : (i_ref (ip_at s ip) =? 1) && i_valid (ip_at s ip) && (i_nlink (ip_at s ip) =? 0) = false).
    { destruct (i_valid (ip_at s ip)) eqn:Ev; [|by rewrite andb_false_r]. specialize (Hval eq_refl). rewrite Hn in Hval. assert (Hnk : i_nlink (ip_at s ip) = i_nlink (on_disk (f_sb s) V inum)) by (by injection Hval).
      destruct (Z.eqb_spec (i_nlink (ip_at s ip)) 0); [|by rewrite andb_false_r]. lia. }
    rewrite Hc. erewrite bind_Ret by reflexivity. erewrite bind_Ret by apply updi_eq. change (ip_at (set_it_lock true (set_store x s)) ip) with (ip_at s ip).
    cbv [itrelease lk_release]. cbn [it_lock upd_ip set_itable set_it_lock]. f_equal. pose proof (tb_free _ _ _ _ Ht) as Hl. by destruct s; cbn in Hl; subst.
  - pose proof (tab_count lk s V R ip inum (-1) Ht Href ltac:(by right)) as Hd. rewrite decide_False in Hd by done. exact Hd.
Qed.

(** Only the inode table has changed. *)
Definition keeps s s' : Prop := s' = set_itable (itable s') s.

Lemma keeps_upd s ip X : keeps s (upd_ip s ip X).
Proof. done. Qed.

Lemma path_keeps_trans s1 s2 s3 : keeps s1 s2 -> keeps s2 s3 -> keeps s1 s3.
Proof. unfold keeps. intros E1 E2. rewrite E2, E1. done. Qed.

Lemma keeps_sb s s' : keeps s s' -> f_sb s' = f_sb s /\ upid s' = upid s.
Proof. by intros ->. Qed.

Lemma tab_ext lk lk' s V R : (forall i, lk' i = lk i) -> tab_ok lk s V R -> tab_ok lk' s V R.
Proof. intros E [H1 H2 H3 H4 H5 H6 H7]. split; try done. intros i Hi. by rewrite E, H4. Qed.

Lemma unlockput_tab lk s x V H R ip inum : tab_ok lk s V R -> refers s ip inum -> lk ip = sl_held (upid s) -> live (f_sb s) V H inum ->
  exists s', iunlockput ip (set_store x s) = Ret tt (set_store x s') /\ tab_ok (lk_set ip sl_free lk) s' V (ref_drop inum R) /\ keeps s s' /\
    (forall k n, refers s k n -> k <> ip \/ 2 <= i_ref (ip_at s ip) -> refers s' k n).
Proof.
  intros Ht Href Hlk Hlv. destruct (iunlock_tab lk s x V R ip inum Ht Href Hlk) as [E1 Ht1]. set (s1 := upd_ip s ip (set_i_lock sl_free (ip_at s ip))) in *.
  pose proof Href as (Hip & Hu & Hn). pose proof (tb_len _ _ _ _ Ht) as Hlen.
  assert (Hat1 : ip_at s1 ip = set_i_lock sl_free (ip_at s ip)) by (unfold s1; rewrite ip_at_upd, decide_True by (done || by rewrite Hlen); done).
  assert (Href1 : forall k n, refers s k n -> refers s1 k n) by (intros k n Hk; apply refers_other; [done|done|right; done|done]).
  destruct (iput_tab (lk_set ip sl_free lk) s1 x V H R ip inum Ht1 (Href1 _ _ Href) Hlv) as [E2 Ht2].
  eexists. split; [unfold iunlockput; erewrite bind_Ret by exact E1; exact E2|]. split; [exact Ht2|]. split; [by eapply path_keeps_trans; apply keeps_upd|].
  intros k n Hk Hc. apply refers_other; [apply Ht1|done| |by apply Href1]. destruct Hc as [Hc|Hc]; [by left|right]. rewrite Hat1. cbn. split; [lia|done].
Qed.

(** ** Walking a path *)

(** The directories are well formed and their entries are inodes in use. *)
Record tree_ok s V H : Prop := {
  tr_dir : forall i, live (f_sb s) V H i -> i_type (on_disk (f_sb s) V i) = T_DIR -> dir_ok s V H (on_disk (f_sb s) V i);
  tr_entry : forall i nm k j, live (f_sb s) V H i -> i_type (on_disk (f_sb s) V i) = T_DIR ->
    dir_find nm 0 (dirents V (on_disk (f_sb s) V i)) = Some (k, j) -> live (f_sb s) V H j
}.

(** Where the names lead from inode [i]: to an inode, or to the directory of
    the last name. *)
Fixpoint walk (sb : superblock) V (parent : bool) (i : Z) (es : list (list Z)) : option Z :=
  match es with
  | [] => if parent then None else Some i
  | e :: es' =>
      if i_type (on_disk sb V i) =? T_DIR then
        if parent && bool_decide (es' = []) then Some i
        else match dir_find e 0 (dirents V (on_disk sb V i)) with
             | Some (_, j) => walk sb V parent j es'
             | None => None
             end
      else None
  end.

Lemma bptr_fields V X Y j : i_addrs X = i_addrs Y -> bptr V X j = bptr V Y j.
Proof. unfold bptr. by intros ->. Qed.

Lemma dirents_fields V X Y : disk_fields X = disk_fields Y -> dirents V X = dirents V Y.
Proof.
  intros E. assert (E1 : i_addrs X = i_addrs Y) by (by injection E). assert (E2 : i_size X = i_size Y) by (by injection E).
  unfold dirents, fbytes, fbyte. rewrite E2. apply list_fmap_ext. intros k z _. apply list_fmap_ext. intros k' o _. by rewrite (bptr_fields V X Y).
Qed.

Lemma dir_ok_fields s V H X Y : disk_fields X = disk_fields Y -> i_dev X = i_dev Y -> dir_ok s V H Y -> dir_ok s V H X.
Proof.
  intros E Ed [H1 [F1 F2 F3 F4] H3 H4 H5]. assert (E1 : i_addrs X = i_addrs Y) by (by injection E). assert (E2 : i_size X = i_size Y) by (by injection E).
  assert (Eb : forall j, bptr V X j = bptr V Y j) by (intros j; by apply bptr_fields).
  split; [by injection E as ->| |by rewrite E2|by rewrite E2|].
  - split; [by rewrite Ed|by rewrite E1|intros j; rewrite Eb; apply F3|intros j j'; rewrite !Eb; apply F4].
  - unfold allocated in *. rewrite E2. intros o Ho. rewrite Eb. by apply H5.
Qed.

Lemma dir_ok_sb s s' V H X : f_sb s' = f_sb s -> dir_ok s V H X -> dir_ok s' V H X.
Proof. intros E [? ? ? ? ?]. split; try done. by rewrite E. Qed.

Lemma dname_dname n : dname (dname n) = dname n.
Proof.
  unfold dname. pose proof (cstr_nonzero n) as Hn. apply (Forall_take _ (Z.to_nat DIRSIZ)) in Hn.
  assert (Hc : cstr (take (Z.to_nat DIRSIZ) (cstr n)) = take (Z.to_nat DIRSIZ) (cstr n)).
  { revert Hn. generalize (take (Z.to_nat DIRSIZ) (cstr n)). clear. intros l Hl. induction Hl as [|c l Hc Hl IH]; [done|]. cbn. destruct (Z.eqb_spec c 0); [done|]. by rewrite IH. }
  rewrite Hc, take_take. f_equal.
Qed.

Lemma dir_find_dname n es : forall k, dir_find (dname n) k es = dir_find n k es.
Proof. induction es as [|e es IH]; intros k; [done|]. cbn [dir_find]. unfold entry_is. rewrite dname_dname. by rewrite IH. Qed.

Definition unlocked : Z -> sleeplock := fun _ => sl_free.

Lemma lk_back ip l : forall i, unlocked i = lk_set ip sl_free (lk_set ip l unlocked) i.
Proof. intros i. unfold lk_set, unlocked. by repeat case_decide. Qed.

(** What namex() returns, for the references [B] held besides. *)
Definition resolved s V B (parent : bool) (o : option Z) (es : list (list Z)) (r : Z * list Z) s' : Prop :=
  keeps s s' /\
  match o with
  | Some k => tab_ok unlocked s' V (ref_add k B) /\ refers s' (fst r) k /\ (parent = true -> last es = Some (dname (snd r)))
  | None => fst r = NULL /\ tab_ok unlocked s' V B
  end.

Lemma resolved_cons s s1 V B parent o e es r s' : keeps s s1 -> es <> [] -> resolved s1 V B parent o es r s' -> resolved s V B parent o (e :: es) r s'.
Proof.
  intros Hk Hne [Hk1 Ho]. split; [by eapply path_keeps_trans|]. destruct o as [k|]; [|done]. destruct Ho as (Ht & Hr & Hp). split; [done|]. split; [done|].
  intros Hpar. rewrite last_cons. rewrite (Hp Hpar). done.
Qed.

(** Letting the directory go after a failed step. *)
Lemma namex_fail s x V H B ip i parent es nm : tab_ok (lk_set ip (sl_held (upid s)) unlocked) s V (ref_add i B) -> refers s ip i -> live (f_sb s) V H i -> positive B ->
  exists s', (iunlockput ip ;; ret (NULL, nm)) (set_store x s) = Ret (NULL, nm) (set_store x s') /\ resolved s V B parent None es (NULL, nm) s'.
Proof.
  intros Ht Href Hlv Hp. destruct (unlockput_tab _ s x V H (ref_add i B) ip i Ht Href) as (s' & E & Ht' & Hk & _);
    [unfold lk_set; by rewrite decide_True|done|]. exists s'. split; [by erewrite bind_Ret by exact E|]. split; [done|]. split; [done|].
  rewrite ref_drop_add in Ht' by done. eapply tab_ext; [|exact Ht']. apply lk_back.
Qed.

(** On to the entry found, letting the directory go. *)
Lemma namex_descend s x T V H P B ip i nm k j : bs_rep x T V H P [] -> dir_ok s V H (ip_at s ip) -> room H P 1 ->
  tab_ok (lk_set ip (sl_held (upid s)) unlocked) s V (ref_add i B) -> refers s ip i -> live (f_sb s) V H i -> positive B ->
  Z.of_nat (base.size B) + 2 <= NINODE -> dir_find nm 0 (dirents V (ip_at s ip)) = Some (k, j) ->
  exists jp off y s1 s2, dirlookup ip nm (set_store x s) = Ret (jp, off) (set_store y s1) /\ jp <> NULL /\
    iunlockput ip (set_store y s1) = Ret tt (set_store y s2) /\ bs_rep y T V H P [] /\
    tab_ok unlocked s2 V (ref_add j B) /\ refers s2 jp j /\ keeps s s2.
Proof.
  intros HR Hdir Hr Ht Href Hlv Hp Hsz Hfind. assert (Hsz1 : Z.of_nat (base.size (ref_add i B)) < NINODE) by (pose proof (size_ref_add i B); lia).
  pose proof (dirlookup_spec s x T V H P ip nm HR Hdir Hr (tb_free _ _ _ _ Ht) (tb_len _ _ _ _ Ht)) as Hlook. cbv zeta in Hlook. rewrite Hfind in Hlook.
  destruct (Hlook (tab_gettable _ _ _ _ j Ht Hsz1)) as (jp & y & s1 & E1 & HR1 & Hgot).
  destruct (got_tab _ s V (ref_add i B) j jp s1 Ht Hgot) as (Ht1 & Hrefj & Hkeep & X & Hs1). pose proof Hrefj as (Hjp & Hju & Hjn).
  destruct (Hkeep ip i Href) as [Href1 _]. assert (Hk1 : keeps s s1) by (rewrite Hs1; apply keeps_upd). destruct (keeps_sb _ _ Hk1) as [Hsb1 Hpid1].
  destruct (unlockput_tab _ s1 y V H _ ip i Ht1 Href1) as (s2 & E2 & Ht2 & Hk2 & Hr2);
    [unfold lk_set; rewrite decide_True by done; by rewrite Hpid1|by rewrite Hsb1|]. rewrite ref_swap in Ht2 by done.
  exists jp, (sizeof_dirent * k), y, s1, s2. split; [exact E1|]. split; [unfold NULL; lia|]. split; [exact E2|]. split; [done|].
  split; [eapply tab_ext; [|exact Ht2]; apply lk_back|]. split; [|by eapply path_keeps_trans].
  apply Hr2; [done|]. destruct (decide (jp = ip)) as [->|]; [right|by left]. destruct Href1 as (Hip & Hu1 & Hn1). assert (j = i) as -> by congruence.
  destruct (tb_used _ _ _ _ Ht1 ip Hip Hu1) as (_ & HRi & _). rewrite Hn1, lookup_ref_add, decide_True, lookup_ref_add, decide_True in HRi by done.
  injection HRi as HRi. destruct (B !! i) as [b|] eqn:Eb; cbn in HRi; [specialize (Hp i b Eb)|]; lia.
Qed.

Lemma namex_loop_spec parent T V H P B fuel : forall i ip path name s x,
  (length path <= fuel)%nat -> 0 ∉ path -> zlen name = DIRSIZ -> bs_rep x T V H P [] -> tree_ok s V H ->
  tab_ok unlocked s V (ref_add i B) -> refers s ip i -> live (f_sb s) V H i -> positive B -> Z.of_nat (base.size B) + 2 <= NINODE -> room H P 1 ->
  exists r y s', namex_loop fuel ip path name parent (set_store x s) = Ret r (set_store y s') /\ bs_rep y T V H P [] /\
    resolved s V B parent (walk (f_sb s) V parent i (elems path)) (elems path) r s'.
Proof.
  induction fuel as [|fuel IH]; intros i ip path name s x Hf H0 Hnm HR Htr Ht Href Hlv Hp Hsz Hr;
    pose proof (skipelem_spec path name H0 Hnm) as Hsk; cbn [namex_loop]; destruct (skipelem path name) as [[rest nm]|].
  1: { destruct Hsk as (_ & ? & _). lia. }
  1, 3: rewrite Hsk; cbn [walk]; destruct parent;
    [destruct (iput_tab unlocked s x V H (ref_add i B) ip i Ht Href Hlv) as [E Ht']; rewrite ref_drop_add in Ht' by done;
     eexists _, x, _; split; [erewrite bind_Ret by exact E; reflexivity|]; split; [done|]; split; [apply keeps_upd|done]
    |exists (ip, name), x, s; split; [done|]; split; [done|]; split; [by destruct s|]; split; [done|]; split; [exact Href|done]].
  destruct Hsk as (Hel & Hlen & H0' & Hnm' & Hchr). rewrite Hel. cbn [walk].
  destruct (ilock_tab unlocked s x T V H P (ref_add i B) ip i HR Ht Href eq_refl Hlv Hr) as (y1 & X & E1 & HR1 & Ht1 & Hid & Hval & Hlk & Hdf).
  erewrite bind_Ret by exact E1. erewrite bind_Ret by reflexivity. set (s1 := upd_ip s ip X) in *. pose proof Href as (Hip & Hu & Hn).
  assert (Hat : ip_at s1 ip = X) by (unfold s1; rewrite ip_at_upd, decide_True by (done || by rewrite (tb_len _ _ _ _ Ht)); done).
  change (ip_at (set_store y1 s1) ip) with (ip_at s1 ip). rewrite Hat.
  assert (Hty : i_type X = i_type (on_disk (f_sb s) V i)) by (by injection Hdf). rewrite Hty.
  assert (Href1 : refers s1 ip i) by (split; [done|]; rewrite Hat; destruct Hid as (-> & -> & _); done).
  destruct (Z.eqb_spec (i_type (on_disk (f_sb s) V i)) T_DIR) as [Hd|Hd]; cbn [negb].
  2:{ destruct (namex_fail s1 y1 V H B ip i parent (dname nm :: elems rest) nm Ht1 Href1 Hlv Hp) as (s' & E & Hres). eexists _, y1, s'. split; [exact E|]. split; [done|].
      destruct Hres as [Hk Hres]. split; [|done]. eapply path_keeps_trans; [apply keeps_upd|exact Hk]. }
  rewrite Hchr. destruct (parent && bool_decide (elems rest = [])) eqn:Hlast.
  { destruct (iunlock_tab _ s1 y1 V (ref_add i B) ip i Ht1 Href1) as [E2 Ht2]; [unfold lk_set; by rewrite decide_True|].
    eexists _, y1, _. split; [erewrite bind_Ret by exact E2; reflexivity|]. split; [done|]. split; [by eapply path_keeps_trans; apply keeps_upd|].
    split; [eapply tab_ext; [|exact Ht2]; apply lk_back|]. split; [apply refers_other; [apply Ht1|done| |done]; right; cbn; rewrite Hat; destruct Hid as (-> & ? & _); done|].
    intros _. apply andb_true_iff in Hlast as [_ Hl]. apply bool_decide_eq_true in Hl. by rewrite Hl. }
  assert (Hdir : dir_ok s1 V H (ip_at s1 ip)).
  { rewrite Hat. apply (dir_ok_fields s1 V H X (on_disk (f_sb s) V i) Hdf); [|by apply (dir_ok_sb s), (tr_dir _ _ _ Htr)].
    destruct Hid as (_ & _ & ->). destruct (tb_used _ _ _ _ Ht ip Hip Hu) as (-> & _). done. }
  pose proof (dirlookup_spec s1 y1 T V H P ip nm HR1 Hdir Hr (tb_free _ _ _ _ Ht1) (tb_len _ _ _ _ Ht1)) as Hlook. cbv zeta in Hlook.
  rewrite Hat, (dirents_fields V X _ Hdf) in Hlook. rewrite <- dir_find_dname in Hlook.
  destruct (dir_find (dname nm) 0 (dirents V (on_disk (f_sb s) V i))) as [[k j]|] eqn:Hfind.
  2:{ destruct Hlook as (y2 & E2 & HR2). erewrite bind_Ret by exact E2. cbn [fst]. rewrite Z.eqb_refl.
      destruct (namex_fail s1 y2 V H B ip i parent (dname nm :: elems rest) nm Ht1 Href1 Hlv Hp) as (s' & E & Hres). eexists _, y2, s'. split; [exact E|]. split; [done|].
      destruct Hres as [Hk Hres]. split; [|done]. eapply path_keeps_trans; [apply keeps_upd|exact Hk]. }
  destruct (namex_descend s1 y1 T V H P B ip i nm k j HR1 Hdir Hr Ht1 Href1 Hlv Hp Hsz) as (jp & off & y2 & s2 & s3 & E2 & Hjp & E3 & HR2 & Ht3 & Hrefj3 & Hk3).
  { by rewrite Hat, (dirents_fields V X _ Hdf), <- dir_find_dname. }
  erewrite bind_Ret by exact E2. cbn [fst]. rewrite (proj2 (Z.eqb_neq _ _) Hjp). erewrite bind_Ret by exact E3.
  assert (Hk03 : keeps s s3) by (eapply path_keeps_trans; [apply keeps_upd|exact Hk3]). destruct (keeps_sb _ _ Hk03) as [Hsb3 Hpid3].
  destruct (IH j jp rest nm s3 y2) as (r & y & s' & E & HR' & Hres); try done.
  - lia.
  - destruct Htr as [Ha Hb]. split; rewrite Hsb3.
    + intros q Hq1 Hq2. by apply (dir_ok_sb s), Ha.
    + exact Hb.
  - rewrite Hsb3. by eapply (tr_entry _ _ _ Htr i).
  - exists r, y, s'. split; [exact E|]. split; [done|]. rewrite Hsb3 in Hres. destruct (decide (elems rest = [])) as [Hnil|Hnn].
    + rewrite Hnil in *. cbn [walk] in *. destruct parent; [done|]. destruct Hres as [Hk' Hres]. split; [by eapply path_keeps_trans|]. destruct Hres as (? & ? & _). done.
    + by eapply resolved_cons.
Qed.

(** Where a path starts: at the root, or at the directory of the process. *)
Definition start_of (path : list Z) (cwd : Z) : Z := if chr path =? SLASH then ROOTINO else cwd.

Lemma namex_start path s x V H R cwd : tab_ok unlocked s V R -> refers s (ucwd s) cwd -> Z.of_nat (base.size R) + 2 <= NINODE ->
  exists ip s', (if chr path =? SLASH then iget ROOTDEV ROOTINO else let* cwd := gets ucwd in idup cwd) (set_store x s) = Ret ip (set_store x s') /\
    tab_ok unlocked s' V (ref_add (start_of path cwd) R) /\ refers s' ip (start_of path cwd) /\ keeps s s'.
Proof.
  intros Ht Hcwd Hsz. unfold start_of. destruct (chr path =? SLASH).
  - destruct (iget_spec (set_store x s) ROOTDEV ROOTINO (tb_free _ _ _ _ Ht) (tb_len _ _ _ _ Ht)) as (ip & s1 & E & Hgot);
      [apply (tab_gettable unlocked s V R ROOTINO Ht); lia|]. apply got_store in Hgot as (s0 & -> & Hgot).
    destruct (got_tab unlocked s V R ROOTINO ip s0 Ht Hgot) as (Ht' & Hr & _ & X & ->). exists ip, (upd_ip s ip X). done.
  - pose proof Hcwd as (Hip & Hu & Hn). exists (ucwd s), (upd_ip s (ucwd s) (set_i_ref (i_ref (ip_at s (ucwd s)) + 1) (ip_at s (ucwd s)))).
    split; [|split; [exact (tab_count unlocked s V R (ucwd s) cwd 1 Ht Hcwd ltac:(by left))|split; [|apply keeps_upd]]].
    + erewrite bind_Ret by reflexivity. change (ucwd (set_store x s)) with (ucwd s). unfold idup, itacquire, lk_acquire. unfold bind at 1.
      change (it_lock (set_store x s)) with (it_lock s). rewrite (tb_free _ _ _ _ Ht). erewrite bind_Ret by apply updi_eq.
      cbv [itrelease lk_release bind]. cbn [it_lock upd_ip set_itable set_it_lock]. pose proof (tb_free _ _ _ _ Ht) as Hl. by destruct s; cbn in Hl; subst.
    + apply refers_other; [apply Ht|done| |done]. right. cbn. split; [lia|done].
Qed.

Lemma namex_spec path parent name T V H P R cwd s x : 0 ∉ path -> zlen name = DIRSIZ -> bs_rep x T V H P [] -> tree_ok s V H ->
  tab_ok unlocked s V R -> refers s (ucwd s) cwd -> live (f_sb s) V H (start_of path cwd) -> Z.of_nat (base.size R) + 2 <= NINODE -> room H P 1 ->
  exists r y s', namex path parent name (set_store x s) = Ret r (set_store y s') /\ bs_rep y T V H P [] /\
    resolved s V R parent (walk (f_sb s) V parent (start_of path cwd) (elems path)) (elems path) r s'.
Proof.
  intros H0 Hnm HR Htr Ht Hcwd Hlv Hsz Hr. destruct (namex_start path s x V H R cwd Ht Hcwd Hsz) as (ip & s1 & E & Ht1 & Hr1 & Hk1).
  destruct (keeps_sb _ _ Hk1) as [Hsb _]. unfold namex. erewrite bind_Ret by exact E.
  destruct (namex_loop_spec parent T V H P R (length path) (start_of path cwd) ip path name s1 x) as (r & y & s' & E' & HR' & Hres); try done.
  - destruct Htr as [Ha Hb]. split; rewrite Hsb; [|exact Hb]. intros q Hq1 Hq2. by apply (dir_ok_sb s), Ha.
  - by rewrite Hsb.
  - by apply (tab_positive unlocked s V).
  - exists r, y, s'. split; [exact E'|]. split; [done|]. rewrite Hsb in Hres. destruct Hres as [Hk Hres]. split; [by eapply path_keeps_trans|done].
Qed.

(** C18: namex() follows a path as its names say: from the root or the
    current directory, each name looked up in the directory the ones before
    lead to, names longer than DIRSIZ cut.  It returns the inode with exactly
    one more reference to it, or, with [parent], the directory of the last name
    and that name; if a name is missing or what should be a directory is not,
    it returns 0.  Whatever happens no inode stays locked, no other reference
    count changes, and nothing is written. *)
Theorem namex_correct path parent name T V H P R cwd s x : 0 ∉ path -> zlen name = DIRSIZ -> bs_rep x T V H P [] -> tree_ok s V H ->
  tab_ok unlocked s V R -> refers s (ucwd s) cwd -> live (f_sb s) V H (start_of path cwd) -> Z.of_nat (base.size R) + 2 <= NINODE -> room H P 1 ->
  exists r y s', namex path parent name (set_store x s) = Ret r (set_store y s') /\ bs_rep y T V H P [] /\
    resolved s V R parent (walk (f_sb s) V parent (start_of path cwd) (elems path)) (elems path) r s'.
Proof. apply namex_spec. Qed.
End FsPath.

(** ** A root directory with one file

    The file "a" is an ELF file with one segment of four bytes. *)

#[local] Existing Instance FsSample.fs_store.

Module PathSample.
Definition root_dir : inode := Inode ROOTDEV 1 0 sl_free false T_DIR 0 0 1 16 (46 :: repeat 0 12).
Definition file_a : inode := Inode ROOTDEV 2 0 sl_free false T_FILE 0 0 1 124 (47 :: repeat 0 12).
Definition inodes : list Z := dip_store (dip_store zero_block (dip_off 1) root_dir) (dip_off 2) file_a.
Definition bitmap : list Z := repeat 255 6 ++ repeat 0 (Z.to_nat (BSIZE - 6)).
Definition entries : list Z := mk_dirent [97] 2 ++ repeat 0 (Z.to_nat (BSIZE - 16)).
Definition elf : list Z :=
  [127; 69; 76; 70] ++ repeat 0 28 ++ le_bytes 8 64 ++ repeat 0 16 ++ le_bytes 2 1 ++ repeat 0 6.
Definition segment : list Z := le_bytes 4 1 ++ le_bytes 4 5 ++ le_bytes 8 120 ++ le_bytes 8 0 ++ le_bytes 8 0 ++ le_bytes 8 4 ++ le_bytes 8 4096 ++ le_bytes 8 4096.
Definition code : list Z := [19; 0; 0; 0].
Definition program : list Z := elf ++ segment ++ code ++ repeat 0 (Z.to_nat (BSIZE - 124)).
Definition img : gmap Z (list Z) := {[ 32 := inodes; 45 := bitmap; 46 := entries; 47 := program ]}.
Definition sb : superblock := FsSample.sb.

Lemma img_block b : dblk img b = if decide (b = 32) then inodes else if decide (b = 45) then bitmap else if decide (b = 46) then entries else if decide (b = 47) then program else zero_block.
Proof.
  unfold dblk. repeat case_decide; subst; [vm_compute; reflexivity..|]. unfold img.
  by rewrite !lookup_insert_ne, lookup_singleton_ne.
Qed.

Lemma path_img_valid : valid_disk 2 30 img.
Proof.
  assert (Hz : dblk img 2 = zero_block) by (rewrite img_block; by rewrite !decide_False).
  assert (Hn : hdr_n zero_block = 0) by (vm_compute; reflexivity).
  split; [intros b; rewrite img_block; repeat case_decide; vm_compute; reflexivity|].
  rewrite Hz, Hn. split; [lia|]. split; [lia|]. unfold hdr_blocks. rewrite Hn. apply NoDup_nil_2.
Qed.

Lemma booted_idle : exists x V, bs_rep x false V ∅ [] [] /\ forall b, ~ in_log 2 30 b -> V b = dblk img b.
Proof.
  destruct (boot_log_spec 2 30 ltac:(done) ltac:(done) ltac:(done) img 1 Sample.sb path_img_valid eq_refl eq_refl)
    as (s0 & _ & Hl0 & Ho0 & Hc0 & HB0 & Hv0 & Hn0 & He0 & _).
  exists s0, (dblk (disk (lbio s0))). split; [split; try done; by destruct Hv0 as [? _]|]. intros b Hb. rewrite He0 by done.
  apply eff_no_log. rewrite img_block, !decide_False by done. vm_compute. reflexivity.
Qed.

Lemma booted : exists x V, bs_rep x true V ∅ [] [] /\ forall b, ~ in_log 2 30 b -> V b = dblk img b.
Proof. destruct booted_idle as (x & V & HR & HV). destruct (bs_begin_op_ok x V HR) as (y & _ & HR'). by exists y, V. Qed.

Section Image.
Context (V : Z -> list Z) (HV : forall b, ~ in_log 2 30 b -> V b = dblk img b).

Lemma disk_eq i : 0 <= i < 200 -> on_disk sb V i = on_disk sb (dblk img) i.
Proof using HV.
  intros Hi. unfold on_disk. rewrite HV; [done|]. unfold in_log, IBLOCK. change (sb_inodestart sb) with 32. change IPB with 16.
  rewrite u32_small; Z.div_mod_to_equations; lia.
Qed.

Lemma disk_root : on_disk sb V 1 = root_dir.
Proof using HV. rewrite disk_eq by lia. vm_compute. reflexivity. Qed.

Lemma disk_a : on_disk sb V 2 = file_a.
Proof using HV. rewrite disk_eq by lia. vm_compute. reflexivity. Qed.

Lemma only_dir i : 0 < i < 200 -> i_type (on_disk sb V i) = T_DIR -> i = 1.
Proof using HV.
  intros Hi. rewrite disk_eq by lia.
  assert (Hall : forallb (fun i => negb (i_type (on_disk sb (dblk img) i) =? T_DIR) || (i =? 1)) (seqZ 1 199) = true) by (vm_compute; reflexivity).
  rewrite forallb_forall in Hall. specialize (Hall i). rewrite <- list_elem_of_In, elem_of_seqZ in Hall. specialize (Hall ltac:(lia)).
  intros E. rewrite E in Hall. by apply Z.eqb_eq.
Qed.

Lemma root_ptr j : bptr V root_dir j = if decide (j = 0) then 46 else 0.
Proof.
  unfold bptr. change (nthZ 0 (i_addrs root_dir) NDIRECT =? 0) with true. cbv iota zeta. destruct (Z.leb_spec j NDIRECT) as [Hj|Hj]; case_decide; subst; try done.
  cbn [root_dir i_addrs]. destruct (decide (j < 0)); [unfold nthZ; by destruct (Z.ltb_spec j 0); [|lia]|]. unfold nthZ. destruct (Z.ltb_spec j 0); [lia|].
  destruct (Z.to_nat j) as [|m] eqn:En; [lia|]. cbn [nth]. destruct (nth_in_or_default m (repeat 0 12) 0) as [E| ->]; [by apply repeat_spec in E|done].
Qed.

Lemma root_entries : dirents V root_dir = [mk_dirent [97] 2].
Proof using HV.
  transitivity (dirents (dblk img) root_dir); [|vm_compute; reflexivity]. unfold dirents, fbytes. apply list_fmap_ext. intros k z Hz%lookup_seqZ. apply list_fmap_ext.
  intros k' o Ho%lookup_seqZ. change (i_size root_dir / sizeof_dirent) with 1 in Hz. unfold sizeof_dirent in *. unfold fbyte.
  assert (Ho0 : o / BSIZE = 0) by (unfold BSIZE; Z.div_mod_to_equations; lia). rewrite Ho0. change (pidx 0) with 0. rewrite root_ptr, decide_True by done.
  change (bptr (dblk img) root_dir 0) with 46. by rewrite HV by (unfold in_log; lia).
Qed.

Lemma live_root : live sb V ∅ 1.
Proof using HV. split; [done|by rewrite disk_root|by rewrite disk_root|intros i; by rewrite lookup_empty]. Qed.

Lemma live_a : live sb V ∅ 2.
Proof using HV. split; [done|by rewrite disk_a|by rewrite disk_a|intros i; by rewrite lookup_empty]. Qed.

(** The process's directory is the root, in entry 0. *)
Definition cwd_entry : inode := Inode ROOTDEV 1 1 sl_free false 0 0 0 0 0 (repeat 0 13).

Lemma root_dir_ok x : dir_ok (file_fs cwd_entry x) V ∅ root_dir.
Proof using HV.
  split; try done.
  - split; try done.
    + intros j Hj. rewrite root_ptr. case_decide as Ej; [|done]. intros _. split; [done|]. split; [|split; [|split; [intros i; by rewrite lookup_empty|]]].
      * unfold used. change (BBLOCK 46 (f_sb (file_fs cwd_entry x))) with 45. rewrite HV by (unfold in_log; lia). vm_compute. reflexivity.
      * split; [lia|unfold in_log; lia].
      * intros n Hn. change (f_sb (file_fs cwd_entry x)) with FsSample.sb. rewrite FsSample.BBLOCK_sb by exact Hn. lia.
    + intros j j' _ _. rewrite !root_ptr. by repeat case_decide; subst.
  - intros o Ho. cbn in Ho. assert (Ho0 : o / BSIZE = 0) by (unfold BSIZE; Z.div_mod_to_equations; lia). rewrite Ho0. change (pidx 0) with 0. by rewrite root_ptr.
Qed.

Lemma path_tree x : tree_ok (file_fs cwd_entry x) V ∅.
Proof using HV.
  split; change (f_sb (file_fs cwd_entry x)) with sb.
  - intros i [Hi _ _ _] Ht. apply only_dir in Ht as ->; [|exact Hi]. rewrite disk_root. apply root_dir_ok.
  - intros i nm k j [Hi _ _ _] Ht. apply only_dir in Ht as ->; [|exact Hi]. rewrite disk_root, root_entries. cbn [dir_find].
    destruct (entry_is nm (mk_dirent [97] 2)); [|done]. intros [= _ <-]. destruct (de_mk_dirent [97] 2 ltac:(lia)) as [-> _]. apply live_a.
Qed.

Lemma path_table x : tab_ok unlocked (file_fs cwd_entry x) V {[ 1 := 1 ]}.
Proof.
  assert (Hat : forall i, 0 <= i < NINODE -> ip_at (file_fs cwd_entry x) i = if decide (i = 0) then cwd_entry else inode0).
  { intros i Hi. unfold ip_at, nthZ. cbn [file_fs itable set_itable]. destruct (Z.ltb_spec i 0); [lia|]. case_decide as E; [by subst|].
    destruct (Z.to_nat i) as [|n] eqn:En; [lia|]. cbn [nth]. destruct (nth_in_or_default n (repeat inode0 49) inode0) as [Hin| ->]; [by apply repeat_spec in Hin|done]. }
  split; try done.
  - intros i Hi. rewrite Hat by done. by case_decide.
  - intros i Hi. rewrite Hat by done. by case_decide.
  - intros i Hi. rewrite Hat by done. case_decide; [|cbn; lia]. intros _. split; [done|]. split; [apply lookup_singleton_eq|done].
  - intros i j Hi Hj. rewrite !Hat by done. repeat case_decide; subst; cbn; try lia; done.
  - intros inum r Hr. apply lookup_singleton_Some in Hr as [<- <-]. exists 0. rewrite Hat by done. done.
Qed.
End Image.
End PathSample.

(** "/a" leads to inode 2. *)
Lemma namex_correct_witness :
  exists x V, bs_rep x true V ∅ [] [] /\
  exists r y s', namex [47; 97] false (repeat 0 14) (set_store x (file_fs PathSample.cwd_entry x)) = Ret r (set_store y s') /\
    bs_rep y true V ∅ [] [] /\ tab_ok unlocked s' V (ref_add 2 {[ 1 := 1 ]}) /\ refers s' (fst r) 2.
Proof.
  destruct PathSample.booted as (x & V & HR & HV). exists x, V. split; [exact HR|].
  destruct (namex_correct [47; 97] false (repeat 0 14) true V ∅ [] {[ 1 := 1 ]} 1 (file_fs PathSample.cwd_entry x) x) as (r & y & s' & E & HR' & Hres).
  - refine (bool_decide_unpack (_ ∉ _) _). vm_compute. exact I.
  - reflexivity.
  - exact HR.
  - by apply PathSample.path_tree.
  - apply PathSample.path_table.
  - split; [done|]. done.
  - by apply PathSample.live_root.
  - rewrite map_size_singleton. done.
  - unfold room. rewrite map_size_empty. unfold NBUF, MAXOPBLOCKS. simpl. lia.
  - exists r, y, s'. split; [exact E|]. split; [exact HR'|].
    assert (Hw : walk (f_sb (file_fs PathSample.cwd_entry x)) V false 1 (elems [47; 97]) = Some 2).
    { change (elems [47; 97]) with [[97]]. cbn [walk]. change (f_sb (file_fs PathSample.cwd_entry x)) with PathSample.sb.
      rewrite PathSample.disk_root, PathSample.root_entries by exact HV. vm_compute. reflexivity. }
    change (start_of [47; 97] 1) with 1 in Hres. rewrite Hw in Hres. destruct Hres as (_ & Ht & Hr & _). by split.
Defined.
