(* ===== verification/Spinlock.v ===== *)
(** * Spin locks on several harts (kernel/spinlock.c)

    The lock code step by step: each constructor of [pc] stands before one
    access to shared or per-hart state, harts interleave freely between any two
    steps, and a device interrupt may arrive on a hart whenever its interrupts
    are enabled.  The handler runs on top of the interrupted frame and may use
    the same lock. *)

From Stdlib Require Import ZArith Lia.
From stdpp Require Import base numbers list relations strings.
From S2P Require Import Prelude.

(** struct spinlock; the name is for debugging only. *)
Record spinlock := Spin { locked : Z; lcpu : option nat }.

(** struct cpu's interrupt fields and the hart's sstatus.SIE bit. *)
Record cpu := Cpu { noff : Z; intena : bool; sie : bool }.

Definition initlock : spinlock := Spin 0 None.
Definition holding (h : nat) (lk : spinlock) : bool :=
  negb (locked lk =? 0) && bool_decide (lcpu lk = Some h).

Definition intr_get (c : cpu) : bool := sie c.
Definition intr_set (b : bool) (c : cpu) : cpu := Cpu (noff c) (intena c) b.

(** push_off() after intr_off(): [old] is what intr_get() returned before. *)
Definition push_noff (old : bool) (c : cpu) : cpu :=
  Cpu (noff c + 1) (if noff c =? 0 then old else intena c) (sie c).

(** pop_off(): its checks and decrement, then intr_on() if due. *)
Definition pop_noff (c : cpu) : string + cpu :=
  if intr_get c then inl "pop_off - interruptible"
  else if noff c <? 1 then inl "pop_off"
  else inr (Cpu (noff c - 1) (intena c) (sie c)).
Definition pop_on (c : cpu) : cpu := if (noff c =? 0) && intena c then intr_set true c else c.

(** Who runs push_off() or pop_off(): acquire() and release(), or code that
    is outside or inside the critical section and calls them itself. *)
Inductive kont := KLock | KOut | KIn.

Inductive pc :=
| Out                                  (* outside lock code, lock not held *)
| In                                   (* the critical section *)
| PushGet (k : kont)                   (* push_off(): old = intr_get() *)
| PushOff (k : kont) (old : bool)      (*   intr_off() *)
| PushInc (k : kont) (old : bool)      (*   intena = old; noff += 1 *)
| AcqHolding                           (* acquire(): if(holding(lk)) panic *)
| AcqSwap                              (*   while(test_and_set) ; *)
| AcqCpu                               (*   lk->cpu = mycpu() *)
| RelHolding                           (* release(): if(!holding(lk)) panic *)
| RelCpu                               (*   lk->cpu = 0 *)
| RelUnlock                            (*   lock_release *)
| PopDec (k : kont)                    (* pop_off(): checks; noff -= 1 *)
| PopOn (k : kont)                     (*   if(noff == 0 && intena) intr_on() *)
| Panicked (msg : string).

Definition push_off (k : kont) : pc := PushGet k.
Definition pop_off (k : kont) : pc := PopDec k.
Definition acquire : pc := push_off KLock.
Definition release : pc := RelHolding.

Definition after_push (k : kont) : pc := match k with KLock => AcqHolding | KOut => Out | KIn => In end.
Definition after_pop (k : kont) : pc := match k with KIn => In | _ => Out end.

(** One step of the lock code on hart [h]; [None] where it is the caller's
    turn to choose what to do. *)
Definition lock_step (h : nat) (p : pc) (c : cpu) (lk : spinlock) : option (pc * cpu * spinlock) :=
  match p with
  | Out | In | Panicked _ => None
  | PushGet k => Some (PushOff k (intr_get c), c, lk)
  | PushOff k old => Some (PushInc k old, intr_set false c, lk)
  | PushInc k old => Some (after_push k, push_noff old c, lk)
  | AcqHolding => Some (if holding h lk then Panicked "acquire" else AcqSwap, c, lk)
  | AcqSwap => Some (if locked lk =? 0 then AcqCpu else AcqSwap, c, Spin 1 (lcpu lk))
  | AcqCpu => Some (In, c, Spin (locked lk) (Some h))
  | RelHolding => Some (if holding h lk then RelCpu else Panicked "release", c, lk)
  | RelCpu => Some (RelUnlock, c, Spin (locked lk) None)
  | RelUnlock => Some (pop_off KLock, c, Spin 0 (lcpu lk))
  | PopDec k =>
      Some match pop_noff c with
           | inl msg => (Panicked msg, c, lk)
           | inr c' => (PopOn k, c', lk)
           end
  | PopOn k => Some (after_pop k, pop_on c, lk)
  end.

(** A thread of control on a hart: where it is, how many push_off() calls of
    its own are outstanding, and the interrupt state it runs with when none
    are. *)
Record frame := Frame { fpc : pc; fdepth : nat; fsie : bool }.
Definition goto (p : pc) (f : frame) : frame := Frame p (fdepth f) (fsie f).

(** The frames of a hart, the running one first. *)
Record hart := Hart { hcpu : cpu; hframes : list frame }.

(** What completing a push_off() or pop_off() of the caller's own does to its count. *)
Definition redepth (p : pc) (d : nat) : nat :=
  match p with
  | PushInc (KOut | KIn) _ => S d
  | PopDec (KOut | KIn) => pred d
  | _ => d
  end.

Inductive hart_step (h : nat) : hart * spinlock -> hart * spinlock -> Prop :=
| h_code c f fs lk p c' lk' :
    lock_step h (fpc f) c lk = Some (p, c', lk') ->
    hart_step h (Hart c (f :: fs), lk) (Hart c' (Frame p (redepth (fpc f) (fdepth f)) (fsie f) :: fs), lk')
| h_acquire c f fs lk :
    fpc f = Out -> hart_step h (Hart c (f :: fs), lk) (Hart c (goto acquire f :: fs), lk)
| h_release c f fs lk :
    fpc f = In -> hart_step h (Hart c (f :: fs), lk) (Hart c (goto release f :: fs), lk)
| h_push_out c f fs lk :
    fpc f = Out -> hart_step h (Hart c (f :: fs), lk) (Hart c (goto (push_off KOut) f :: fs), lk)
| h_push_in c f fs lk :
    fpc f = In -> hart_step h (Hart c (f :: fs), lk) (Hart c (goto (push_off KIn) f :: fs), lk)
| h_pop_out c f fs lk :
    fpc f = Out -> (0 < fdepth f)%nat -> hart_step h (Hart c (f :: fs), lk) (Hart c (goto (pop_off KOut) f :: fs), lk)
| h_pop_in c f fs lk :
    fpc f = In -> (0 < fdepth f)%nat -> hart_step h (Hart c (f :: fs), lk) (Hart c (goto (pop_off KIn) f :: fs), lk)
| h_intr_set c f lk b :          (* intr_on() and intr_off() in thread code *)
    fpc f = Out -> fdepth f = 0%nat ->
    hart_step h (Hart c [f], lk) (Hart (intr_set b c) [Frame Out 0 b], lk)
| h_interrupt c f fs lk :        (* a trap clears SIE and runs a handler *)
    sie c = true ->
    hart_step h (Hart c (f :: fs), lk) (Hart (intr_set false c) (Frame Out 0 false :: f :: fs), lk)
| h_iret c f g fs lk :           (* sret restores it *)
    fpc f = Out -> fdepth f = 0%nat ->
    hart_step h (Hart c (f :: g :: fs), lk) (Hart (intr_set true c) (g :: fs), lk).

Record machine := Machine { harts : list hart; lk : spinlock }.

Inductive step : machine -> machine -> Prop :=
| step_hart m h x x' l' :
    harts m !! h = Some x -> hart_step h (x, lk m) (x', l') ->
    step m (Machine (<[h := x']> (harts m)) l').

(** Harts start in thread code with interrupts on or off. *)
Definition fresh (b : bool) : hart := Hart (Cpu 0 false b) [Frame Out 0 b].
Definition boot (bs : list bool) : machine := Machine (fresh <$> bs) initlock.

(** ** The invariant *)

(** The thread owns the lock. *)
Definition holder (p : pc) : bool :=
  match p with
  | In | AcqCpu | RelHolding | RelCpu | RelUnlock => true
  | PushGet KIn | PushOff KIn _ | PushInc KIn _ | PopDec KIn | PopOn KIn => true
  | _ => false
  end.

(** ... and [lk->cpu] says so. *)
Definition recorded (p : pc) : bool :=
  match p with AcqCpu | RelUnlock => false | _ => holder p end.

(** acquire()'s push_off() is outstanding. *)
Definition counted (p : pc) : bool :=
  match p with AcqHolding | AcqSwap | PopDec KLock => true | _ => holder p end.

Definition contrib (f : frame) : Z := Z.of_nat (fdepth f) + if counted (fpc f) then 1 else 0.

(** The running frame: [noff] counts its push_off() calls; while there are
    any, interrupts are off and [intena] remembers the state to restore. *)
Record top_ok (c : cpu) (f : frame) : Prop := {
  top_noff : noff c = contrib f;
  top_alive : match fpc f with Panicked _ => False | _ => True end;
  top_pop : match fpc f with PopDec (KOut | KIn) => (0 < fdepth f)%nat | _ => True end;
  top_off : 0 < contrib f -> sie c = false /\ intena c = fsie f;
  top_on : contrib f = 0 ->
    match fpc f with
    | PushOff _ old => sie c = fsie f /\ old = fsie f
    | PushInc _ old => sie c = false /\ old = fsie f
    | PopOn _ => sie c = false /\ intena c = fsie f
    | _ => sie c = fsie f
    end
}.

(** An interrupted frame had interrupts on and no push_off() outstanding. *)
Definition below_ok (f : frame) : Prop :=
  contrib f = 0 /\ fsie f = true /\
  match fpc f with Out | PushGet _ => True | PushOff _ old => old = true | _ => False end.

Definition hart_ok (x : hart) : Prop :=
  match hframes x with [] => False | f :: fs => top_ok (hcpu x) f /\ Forall below_ok fs end.

Definition top_pc (x : hart) : pc := match hframes x with [] => Out | f :: _ => fpc f end.

(** What hart [h] knows of the lock from where it is. *)
Definition lock_view (h : nat) (x : hart) (l : spinlock) : Prop :=
  if holder (top_pc x) then locked l = 1 /\ lcpu l = (if recorded (top_pc x) then Some h else None)
  else lcpu l <> Some h.

(** What a step of hart [h] does to the lock: it takes it when free, gives it
    up when it owns it, or leaves the ownership alone. *)
Inductive lock_effect (h : nat) (p p' : pc) (l l' : spinlock) : Prop :=
| le_keep : holder p' = holder p -> locked l' = locked l ->
    (if holder p then lcpu l' = (if recorded p' then Some h else None) else lcpu l' = lcpu l) ->
    lock_effect h p p' l l'
| le_take : holder p = false -> holder p' = true -> recorded p' = false -> locked l = 0 -> locked l' = 1 ->
    lcpu l' = lcpu l -> lock_effect h p p' l l'
| le_give : holder p = true -> holder p' = false -> locked l' = 0 -> lcpu l' = None -> lock_effect h p p' l l'.

(** Case analysis on the counters of one hart. *)
Ltac hart_case :=
  repeat match goal with
  | H : _ /\ _ |- _ => destruct H
  | H : ?P -> _ /\ _ |- _ => (let HP := fresh in assert (HP : P) by lia; specialize (H HP); clear HP)
  | H : ?n = ?m -> _ |- _ => (let HP := fresh in assert (HP : n = m) by lia; specialize (H HP); clear HP)
  end.
Ltac top_solve :=
  constructor; unfold contrib; cbn [fpc fdepth fsie noff intena sie counted holder recorded] in *;
  try done; try lia; intros; hart_case; subst; try done; try lia; try (split; done).

(** A step of the lock code keeps the running frame in order. *)
Lemma lock_step_top h f c l p' c' l' :
  lock_step h (fpc f) c l = Some (p', c', l') -> top_ok c f ->
  (if holder (fpc f) then locked l = 1 /\ lcpu l = (if recorded (fpc f) then Some h else None) else lcpu l <> Some h) ->
  top_ok c' (Frame p' (redepth (fpc f) (fdepth f)) (fsie f)).
Proof.
  destruct f as [p d b], c as [n i e]. intros Hst [Hn Ha Hpop Hoff Hon] Hv.
  unfold contrib in *. cbn [fpc fdepth fsie noff intena sie] in *.
  destruct p as [| |k|k o|k o| | | | | | |k|k|]; cbn [lock_step] in Hst; try done;
    apply (inj Some) in Hst; try (injection Hst as <- <- <-).
  - destruct k; cbn in *; top_solve.
  - destruct k; cbn in *; top_solve.
  - unfold push_noff. cbn [noff intena sie]. destruct (Z.eqb_spec n 0); destruct k; cbn in *; top_solve.
  - unfold holding. rewrite bool_decide_false by done. rewrite andb_false_r. cbn in *. top_solve.
  - destruct (locked l =? 0); cbn in *; top_solve.
  - cbn in *; top_solve.
  - cbn in *. destruct Hv as [Hl Hc]. unfold holding. rewrite Hl, Hc, bool_decide_true by done. cbn. top_solve.
  - cbn in *; top_solve.
  - cbn in *; top_solve.
  - assert (Hc : 0 < Z.of_nat d + (if counted (PopDec k) then 1 else 0)) by (destruct k; cbn in *; lia).
    unfold pop_noff, intr_get in Hst. cbn [noff intena sie] in Hst. destruct (Hoff Hc) as [-> _].
    destruct (Z.ltb_spec n 1); [lia|]. injection Hst as <- <- <-. destruct k; cbn in *; top_solve.
  - unfold pop_on. cbn [noff intena sie]. destruct (Z.eqb_spec n 0), i; destruct k; cbn in *; top_solve.
Qed.

Lemma lock_step_effect h p c l p' c' l' :
  lock_step h p c l = Some (p', c', l') -> (match p' with Panicked _ => False | _ => True end) ->
  (if holder p then locked l = 1 /\ lcpu l = (if recorded p then Some h else None) else True) ->
  (locked l = 0 \/ locked l = 1) ->
  lock_effect h p p' l l'.
Proof.
  destruct p as [| |k|k o|k o| | | | | | |k|k|]; cbn [lock_step]; intros Hst Ha Hv Hl; try done;
    apply (inj Some) in Hst; try (injection Hst as <- <- <-).
  all: try (destruct k; cbn in *; constructor; cbn; intuition congruence).
  all: try (cbn in *; constructor; cbn; intuition congruence).
  - destruct (holding h l); [done|]. by apply le_keep.
  - destruct (Z.eqb_spec (locked l) 0); [by apply le_take|]. apply le_keep; cbn; [done| |done]. destruct Hl; congruence.
  - destruct (holding h l); [|done]. apply le_keep; cbn in *; intuition congruence.
  - destruct (pop_noff c); injection Hst as <- <- <-; [done|].
    destruct k; cbn in *; apply le_keep; cbn; intuition congruence.
Qed.

Lemma hart_step_ok h x l x' l' :
  hart_step h (x, l) (x', l') -> hart_ok x -> lock_view h x l -> locked l = 0 \/ locked l = 1 ->
  hart_ok x' /\ lock_effect h (top_pc x) (top_pc x') l l'.
Proof.
  intros Hst Hok Hv Hl. unfold hart_ok, lock_view in *.
  inversion Hst as [c f fs ? p c' ? Hs|c f fs ? Hp|c f fs ? Hp|c f fs ? Hp|c f fs ? Hp|c f fs ? Hp Hd|c f fs ? Hp Hd
    |c f ? b Hp Hd|c f fs ? He|c f g fs ? Hp Hd]; subst; cbn [hframes hcpu top_pc fpc goto] in *;
    destruct Hok as [Ht Hb].
  1: { pose proof (lock_step_top h f c l p c' l' Hs Ht Hv) as Ht'. split; [by split|].
       eapply lock_step_effect; [exact Hs|exact (top_alive _ _ Ht')| |done]. destruct (holder (fpc f)); done. }
  all: destruct f as [q d b'], c as [n i e]; cbn [fpc fdepth fsie] in *; destruct Ht as [Hn Ha Hpop Hoff Hon];
    unfold contrib, goto, acquire, release, push_off, pop_off in *; cbn [fpc fdepth fsie noff intena sie] in *.
  7: { subst. cbn in *. split; [split; [top_solve|done]|]. apply le_keep; cbn; done. }
  7: { subst. assert (Hc : Z.of_nat d + (if counted q then 1 else 0) = 0).
       { destruct (decide (0 < Z.of_nat d + (if counted q then 1 else 0))) as [H0|H0]; [by apply Hoff in H0 as []|].
         destruct (counted q); lia. }
       specialize (Hon Hc). assert (Hq : counted q = false) by (destruct (counted q); [lia|done]).
       assert (Hh : holder q = false) by (destruct q as [| |k|k o|k o| | | | | | |k|k|]; try destruct k; done).
       split; [split; [|constructor; [|done]]|].
       - rewrite Hc in *. top_solve.
       - unfold below_ok, contrib. cbn [fpc fdepth fsie]. rewrite Hc. split; [done|].
         destruct q as [| |k|k o|k o| | | | | | |k|k|]; try destruct k; cbn in *; try lia; try done; intuition congruence.
       - apply le_keep; rewrite ?Hh; done. }
  7: { subst. cbn in *. inversion Hb as [|? ? Hg Hb']; subst. destruct g as [q d b].
       destruct Hg as (Hc & Hs & Hq). unfold contrib in Hc. cbn [fpc fdepth fsie] in *.
       split; [split; [|done]|].
       - destruct q as [| |k|k o|k o| | | | | | |k|k|]; try done; try destruct k; cbn in *; subst; top_solve.
       - destruct q as [| |k|k o|k o| | | | | | |k|k|]; try done; try destruct k; cbn in *; try lia; by apply le_keep. }
  all: subst; cbn in *; split; [split; [top_solve|done]|]; apply le_keep; cbn in *; intuition congruence.
Qed.

(** ** All harts *)

(** [o] is the hart that owns the lock, if any. *)
Record owned (m : machine) (o : option nat) : Prop := {
  ow_harts : forall h x, harts m !! h = Some x -> hart_ok x /\ holder (top_pc x) = bool_decide (o = Some h);
  ow_live : forall h, o = Some h -> is_Some (harts m !! h);
  ow_lock : match o with
            | None => locked (lk m) = 0 /\ lcpu (lk m) = None
            | Some h => locked (lk m) = 1 /\
                lcpu (lk m) = if recorded (top_pc (default (fresh false) (harts m !! h))) then Some h else None
            end
}.

Lemma owned_view m o h x : owned m o -> harts m !! h = Some x -> lock_view h x (lk m).
Proof.
  intros [Hh _ Hl] Hx. unfold lock_view. destruct (Hh h x Hx) as [_ ->].
  case_bool_decide as Ho.
  - subst. rewrite Hx in Hl. cbn [default] in Hl. done.
  - destruct o as [h'|]; destruct Hl as [_ ->]; [|done].
    destruct (recorded _); congruence.
Qed.

Lemma owned_locked m o : owned m o -> locked (lk m) = 0 \/ locked (lk m) = 1.
Proof. intros [_ _ Hl]. destruct o; destruct Hl; auto. Qed.

Lemma owned_step m m' o : owned m o -> step m m' -> exists o', owned m' o'.
Proof.
  intros Hm Hst. destruct Hst as [m h x x' l' Hx Hs].
  destruct (ow_harts _ _ Hm h x Hx) as [Hok Hho].
  destruct (hart_step_ok h x (lk m) x' l' Hs Hok (owned_view m o h x Hm Hx) (owned_locked m o Hm)) as [Hok' He].
  assert (Hlt : (h < length (harts m))%nat) by (by apply lookup_lt_Some in Hx).
  assert (Hsplit : forall o', (forall h2, h2 <> h -> bool_decide (o' = Some h2) = bool_decide (o = Some h2)) ->
    holder (top_pc x') = bool_decide (o' = Some h) ->
    forall h2 x2, <[h := x']> (harts m) !! h2 = Some x2 -> hart_ok x2 /\ holder (top_pc x2) = bool_decide (o' = Some h2)).
  { intros o' Hrest Hh h2 x2. destruct (decide (h2 = h)) as [->|Hne].
    - rewrite list_lookup_insert_eq by done. by intros [= <-].
    - rewrite list_lookup_insert_ne by done. intros Hx2. rewrite Hrest by done. by apply (ow_harts _ _ Hm). }
  destruct He as [Hk Hlk Hc|Hf Ht Hr H0 H1 Hc|Ht Hf H0 Hc].
  - exists o. split; cbn [harts lk].
    + apply Hsplit; [done|]. congruence.
    + intros h2 E. destruct (ow_live _ _ Hm h2 E). apply lookup_lt_is_Some. rewrite length_insert. by eapply lookup_lt_Some.
    + pose proof (ow_lock _ _ Hm) as Hl. rewrite Hho in Hc. destruct o as [h2|]; cbn in *.
      * destruct (decide (h2 = h)) as [->|Hne].
        -- rewrite list_lookup_insert_eq by done. cbn [default]. rewrite bool_decide_true in Hc by done. destruct Hl. rewrite Hlk, Hc. done.
        -- rewrite list_lookup_insert_ne by done. rewrite bool_decide_false in Hc by congruence. destruct Hl. rewrite Hlk, Hc. done.
      * rewrite bool_decide_false in Hc by done. by rewrite Hlk, Hc.
  - assert (o = None) as ->.
    { destruct o; [|done]. destruct (ow_lock _ _ Hm) as [E _]. congruence. }
    exists (Some h). split; cbn [harts lk].
    + apply Hsplit; [intros h2 Hne; rewrite !bool_decide_false by congruence; done|]. by rewrite Ht, bool_decide_true.
    + intros h2 [= <-]. apply lookup_lt_is_Some. by rewrite length_insert.
    + rewrite list_lookup_insert_eq by done. change (default (fresh false) (Some x')) with x'. rewrite Hr, H1, Hc.
      destruct (ow_lock _ _ Hm) as [_ ->]. done.
  - assert (o = Some h) as -> by (rewrite Ht in Hho; symmetry in Hho; by apply bool_decide_eq_true_1 in Hho).
    exists None. split; cbn [harts lk]; [|done|done].
    apply Hsplit; [intros h2 Hne; rewrite !bool_decide_false by congruence; done|].
    by rewrite Hf, bool_decide_false.
Qed.

Lemma owned_boot bs : owned (boot bs) None.
Proof.
  split; cbn [harts lk boot]; [|done|done].
  intros h x. rewrite list_lookup_fmap. destruct (bs !! h); [|done]. intros [= <-]. split; [|done].
  split; [top_solve|constructor].
Qed.

Lemma owned_reach bs m : rtc step (boot bs) m -> exists o, owned m o.
Proof.
  apply (rtc_ind_r (fun m => exists o, owned m o)); [eexists; apply owned_boot|].
  intros m1 m2 _ Hst [o Ho]. by eapply owned_step.
Qed.

(** A thread of hart [h] is in its critical section, at frame [i]. *)
Definition holds (m : machine) (h i : nat) (f : frame) : Prop :=
  exists x, harts m !! h = Some x /\ hframes x !! i = Some f /\ holder (fpc f) = true.

Lemma below_no_holder f : below_ok f -> holder (fpc f) = false /\ counted (fpc f) = false.
Proof.
  intros (Hc & _ & Hp). unfold contrib in Hc. assert (counted (fpc f) = false) as Hq by (destruct (counted _); [lia|done]).
  split; [|done]. destruct (fpc f) as [| |k|k o|k o| | | | | | |k|k|]; try done; destruct k; try done.
Qed.

(** A holder is the running frame of the owning hart. *)
Lemma holds_owner m o h i f :
  owned m o -> holds m h i f -> o = Some h /\ i = 0%nat /\
  exists c fs, harts m !! h = Some (Hart c (f :: fs)) /\ top_ok c f.
Proof.
  intros Hm (x & Hx & Hf & Hh). destruct (ow_harts _ _ Hm h x Hx) as [Hok Ho]. destruct x as [c [|g fs]]; [done|].
  cbn [hframes hcpu hart_ok top_pc] in *. destruct Hok as [Ht Hb]. destruct i as [|i].
  - injection Hf as ->. split; [|split; [done|by exists c, fs]]. rewrite Hh in Ho. symmetry in Ho. by apply bool_decide_eq_true_1 in Ho.
  - exfalso. pose proof (Forall_lookup_1 _ _ _ _ Hb Hf) as Hbf. destruct (below_no_holder f Hbf). congruence.
Qed.

(** C7: spin locks work.  On any number of harts, in every interleaving of
    the lock code with interrupt handlers that use the same lock: no hart ever
    reaches a panic in acquire(), release() or pop_off(); two threads are never
    in the critical section at once; the holder's hart has interrupts off and
    runs the holder, so no interrupt handler there can spin for it; and a
    thread with no lock and no push_off() outstanding runs with the interrupt
    state it had before. *)
Theorem spinlock_safe bs m :
  rtc step (boot bs) m ->
  (forall h x f, harts m !! h = Some x -> f ∈ hframes x -> forall msg, fpc f <> Panicked msg) /\
  (forall h1 i1 f1 h2 i2 f2, holds m h1 i1 f1 -> holds m h2 i2 f2 -> h1 = h2 /\ i1 = i2) /\
  (forall h i f, holds m h i f -> i = 0%nat /\
     exists c fs, harts m !! h = Some (Hart c (f :: fs)) /\ sie c = false) /\
  (forall h c f fs, harts m !! h = Some (Hart c (f :: fs)) -> fpc f = Out -> fdepth f = 0%nat ->
     noff c = 0 /\ sie c = fsie f).
Proof.
  intros Hr. destruct (owned_reach bs m Hr) as [o Hm]. split_and!.
  - intros h x f Hx Hf msg Hp. destruct (ow_harts _ _ Hm h x Hx) as [Hok _]. destruct x as [c [|g fs]]; [done|].
    destruct Hok as [Ht Hb]. cbn in *. apply elem_of_cons in Hf as [->|Hf].
    + pose proof (top_alive _ _ Ht) as Ha. by rewrite Hp in Ha.
    + rewrite Forall_forall in Hb. destruct (Hb f Hf) as (_ & _ & Hq). by rewrite Hp in Hq.
  - intros h1 i1 f1 h2 i2 f2 H1 H2. destruct (holds_owner _ _ _ _ _ Hm H1) as (-> & -> & _).
    destruct (holds_owner _ _ _ _ _ Hm H2) as ([= ->] & -> & _). done.
  - intros h i f Hh. destruct (holds_owner _ _ _ _ _ Hm Hh) as (_ & -> & c & fs & Hx & Ht).
    split; [done|]. exists c, fs. split; [done|]. destruct Hh as (_ & _ & _ & Hh).
    apply (top_off _ _ Ht). unfold contrib. replace (counted (fpc f)) with true; [lia|].
    destruct (fpc f) as [| |k|k b|k b| | | | | | |k|k|]; try destruct k; done.
  - intros h c f fs Hx Hp Hd. destruct (ow_harts _ _ Hm h _ Hx) as [[Ht _] _]. cbn in Ht.
    assert (Hc : contrib f = 0) by (unfold contrib; by rewrite Hd, Hp).
    split; [by rewrite (top_noff _ _ Ht)|]. pose proof (top_on _ _ Ht Hc) as Hon. by rewrite Hp in Hon.
Qed.

(** Two harts, one of which has taken the lock. *)
Definition taken : machine :=
  Machine [Hart (Cpu 1 true false) [Frame In 0 true]; fresh true] (Spin 1 (Some 0%nat)).

Lemma taken_reached : rtc step (boot [true; true]) taken.
Proof.
  eapply rtc_l; [eapply (step_hart _ 0); [reflexivity|by apply h_acquire]|].
  do 5 (eapply rtc_l; [eapply (step_hart _ 0); [reflexivity|eapply h_code; reflexivity]|]).
  eapply rtc_l; [eapply (step_hart _ 0); [reflexivity|eapply h_code; reflexivity]|]. apply rtc_refl.
Qed.

Lemma spinlock_safe_witness :
  rtc step (boot [true; true]) taken /\
  forall h i f, holds taken h i f -> i = 0%nat /\
     exists c fs, harts taken !! h = Some (Hart c (f :: fs)) /\ sie c = false.
Proof. split; [exact taken_reached|]. exact (proj1 (proj2 (proj2 (spinlock_safe [true; true] taken taken_reached)))). Defined.
