(* ===== verification/Kernel.v ===== *)
(** * The kernel state above the file system

    Processes (proc.h), open files (file.h), pipes, the console and the UART,
    the clock: the state that file.c, pipe.c, proc.c, console.c, uart.c,
    printf.c, trap.c and the system calls share, and the operations of proc.c
    that put a process to sleep and wake it.  [curp] is the process the code
    runs for.  A call that sleeps ends in [Block]: the process is marked
    SLEEPING and the locks are released as sleep() and sched() leave them. *)

From Stdlib Require Import ZArith Lia.
From stdpp Require Import base numbers list list_numbers gmap strings sorting.
From S2P Require Import Prelude Cstring Riscv Kalloc Vm Uvm Bytes Sleeplock Bio Log Store Fs.

Definition NOFILE : Z := 16.
Definition NFILE : Z := 100.
Definition NDEV : Z := 10.
Definition MAXARG : Z := 32.
Definition MAXPATH : Z := 128.

(** ** Processes *)

Inductive procstate := UNUSED | USED | SLEEPING | RUNNABLE | RUNNING | ZOMBIE.
#[export] Instance procstate_eq_dec : EqDecision procstate.
Proof. solve_decision. Defined.

(** struct proc.  [p_parent] is an index of the table, [p_ofile] holds
    indices of the file table, [p_cwd] one of the inode table, [NULL] for 0;
    of the saved context the two registers allocproc() sets are kept. *)
Record proc := Proc {
  p_lock : bool;
  p_state : procstate;
  p_chan : Z;
  p_killed : Z;
  p_xstate : Z;
  p_pid : Z;
  p_parent : Z;
  p_kstack : Z;
  p_sz : Z;
  p_pagetable : Z;
  p_trapframe : Z;
  p_ra : Z;
  p_sp : Z;
  p_ofile : list Z;
  p_cwd : Z;
  p_name : list Z
}.

Definition proc0 : proc :=
  Proc false UNUSED 0 0 0 0 NULL 0 0 0 0 0 0 (repeat NULL (Z.to_nat NOFILE)) NULL (repeat 0 16).

Definition set_p_lock v (p : proc) : proc :=
  Proc v (p_state p) (p_chan p) (p_killed p) (p_xstate p) (p_pid p) (p_parent p) (p_kstack p) (p_sz p)
       (p_pagetable p) (p_trapframe p) (p_ra p) (p_sp p) (p_ofile p) (p_cwd p) (p_name p).
Definition set_p_state v (p : proc) : proc :=
  Proc (p_lock p) v (p_chan p) (p_killed p) (p_xstate p) (p_pid p) (p_parent p) (p_kstack p) (p_sz p)
       (p_pagetable p) (p_trapframe p) (p_ra p) (p_sp p) (p_ofile p) (p_cwd p) (p_name p).
Definition set_p_chan v (p : proc) : proc :=
  Proc (p_lock p) (p_state p) v (p_killed p) (p_xstate p) (p_pid p) (p_parent p) (p_kstack p) (p_sz p)
       (p_pagetable p) (p_trapframe p) (p_ra p) (p_sp p) (p_ofile p) (p_cwd p) (p_name p).
Definition set_p_killed v (p : proc) : proc :=
  Proc (p_lock p) (p_state p) (p_chan p) v (p_xstate p) (p_pid p) (p_parent p) (p_kstack p) (p_sz p)
       (p_pagetable p) (p_trapframe p) (p_ra p) (p_sp p) (p_ofile p) (p_cwd p) (p_name p).
Definition set_p_xstate v (p : proc) : proc :=
  Proc (p_lock p) (p_state p) (p_chan p) (p_killed p) v (p_pid p) (p_parent p) (p_kstack p) (p_sz p)
       (p_pagetable p) (p_trapframe p) (p_ra p) (p_sp p) (p_ofile p) (p_cwd p) (p_name p).
Definition set_p_pid v (p : proc) : proc :=
  Proc (p_lock p) (p_state p) (p_chan p) (p_killed p) (p_xstate p) v (p_parent p) (p_kstack p) (p_sz p)
       (p_pagetable p) (p_trapframe p) (p_ra p) (p_sp p) (p_ofile p) (p_cwd p) (p_name p).
Definition set_p_parent v (p : proc) : proc :=
  Proc (p_lock p) (p_state p) (p_chan p) (p_killed p) (p_xstate p) (p_pid p) v (p_kstack p) (p_sz p)
       (p_pagetable p) (p_trapframe p) (p_ra p) (p_sp p) (p_ofile p) (p_cwd p) (p_name p).
Definition set_p_kstack v (p : proc) : proc :=
  Proc (p_lock p) (p_state p) (p_chan p) (p_killed p) (p_xstate p) (p_pid p) (p_parent p) v (p_sz p)
       (p_pagetable p) (p_trapframe p) (p_ra p) (p_sp p) (p_ofile p) (p_cwd p) (p_name p).
Definition set_p_sz v (p : proc) : proc :=
  Proc (p_lock p) (p_state p) (p_chan p) (p_killed p) (p_xstate p) (p_pid p) (p_parent p) (p_kstack p) v
       (p_pagetable p) (p_trapframe p) (p_ra p) (p_sp p) (p_ofile p) (p_cwd p) (p_name p).
Definition set_p_pagetable v (p : proc) : proc :=
  Proc (p_lock p) (p_state p) (p_chan p) (p_killed p) (p_xstate p) (p_pid p) (p_parent p) (p_kstack p) (p_sz p)
       v (p_trapframe p) (p_ra p) (p_sp p) (p_ofile p) (p_cwd p) (p_name p).
Definition set_p_trapframe v (p : proc) : proc :=
  Proc (p_lock p) (p_state p) (p_chan p) (p_killed p) (p_xstate p) (p_pid p) (p_parent p) (p_kstack p) (p_sz p)
       (p_pagetable p) v (p_ra p) (p_sp p) (p_ofile p) (p_cwd p) (p_name p).
Definition set_p_context ra sp (p : proc) : proc :=
  Proc (p_lock p) (p_state p) (p_chan p) (p_killed p) (p_xstate p) (p_pid p) (p_parent p) (p_kstack p) (p_sz p)
       (p_pagetable p) (p_trapframe p) ra sp (p_ofile p) (p_cwd p) (p_name p).
Definition set_p_ofile v (p : proc) : proc :=
  Proc (p_lock p) (p_state p) (p_chan p) (p_killed p) (p_xstate p) (p_pid p) (p_parent p) (p_kstack p) (p_sz p)
       (p_pagetable p) (p_trapframe p) (p_ra p) (p_sp p) v (p_cwd p) (p_name p).
Definition set_p_cwd v (p : proc) : proc :=
  Proc (p_lock p) (p_state p) (p_chan p) (p_killed p) (p_xstate p) (p_pid p) (p_parent p) (p_kstack p) (p_sz p)
       (p_pagetable p) (p_trapframe p) (p_ra p) (p_sp p) (p_ofile p) v (p_name p).
Definition set_p_name v (p : proc) : proc :=
  Proc (p_lock p) (p_state p) (p_chan p) (p_killed p) (p_xstate p) (p_pid p) (p_parent p) (p_kstack p) (p_sz p)
       (p_pagetable p) (p_trapframe p) (p_ra p) (p_sp p) (p_ofile p) (p_cwd p) v.

(** proc[], initproc, nextpid and their locks, and the running process. *)
Record procst := Procst {
  procs : list proc;
  initproc : Z;
  nextpid : Z;
  pid_lock : bool;
  wait_lock : bool;
  curp : Z
}.
Definition set_procs v (s : procst) : procst := Procst v (initproc s) (nextpid s) (pid_lock s) (wait_lock s) (curp s).
Definition set_initproc v (s : procst) : procst := Procst (procs s) v (nextpid s) (pid_lock s) (wait_lock s) (curp s).
Definition set_nextpid v (s : procst) : procst := Procst (procs s) (initproc s) v (pid_lock s) (wait_lock s) (curp s).
Definition set_pid_lock v (s : procst) : procst := Procst (procs s) (initproc s) (nextpid s) v (wait_lock s) (curp s).
Definition set_wait_lock v (s : procst) : procst := Procst (procs s) (initproc s) (nextpid s) (pid_lock s) v (curp s).
Definition set_curp v (s : procst) : procst := Procst (procs s) (initproc s) (nextpid s) (pid_lock s) (wait_lock s) v.

(** ** Files and pipes *)

Inductive ftype := FD_NONE | FD_PIPE | FD_INODE | FD_DEVICE.

(** struct file: [f_pipe] is the address of the pipe's page, [f_ip] an index
    of the inode table. *)
Record file := File {
  f_type : ftype;
  f_ref : Z;
  f_readable : bool;
  f_writable : bool;
  f_pipe : Z;
  f_ip : Z;
  f_off : Z;
  f_major : Z
}.
Definition file0 : file := File FD_NONE 0 false false 0 NULL 0 0.
Definition set_f_ref v (f : file) : file :=
  File (f_type f) v (f_readable f) (f_writable f) (f_pipe f) (f_ip f) (f_off f) (f_major f).
Definition set_f_type v (f : file) : file :=
  File v (f_ref f) (f_readable f) (f_writable f) (f_pipe f) (f_ip f) (f_off f) (f_major f).
Definition set_f_rw r w (f : file) : file :=
  File (f_type f) (f_ref f) r w (f_pipe f) (f_ip f) (f_off f) (f_major f).
Definition set_f_pipe v (f : file) : file :=
  File (f_type f) (f_ref f) (f_readable f) (f_writable f) v (f_ip f) (f_off f) (f_major f).
Definition set_f_ip v (f : file) : file :=
  File (f_type f) (f_ref f) (f_readable f) (f_writable f) (f_pipe f) v (f_off f) (f_major f).
Definition set_f_off v (f : file) : file :=
  File (f_type f) (f_ref f) (f_readable f) (f_writable f) (f_pipe f) (f_ip f) v (f_major f).
Definition set_f_major v (f : file) : file :=
  File (f_type f) (f_ref f) (f_readable f) (f_writable f) (f_pipe f) (f_ip f) (f_off f) v.

Definition PIPESIZE : Z := 512.

(** struct pipe, in a page of its own. *)
Record pipe := Pipe {
  pi_lock : bool;
  pi_data : list Z;
  nread : Z;
  nwrite : Z;
  readopen : bool;
  writeopen : bool
}.
Definition set_pi_lock v (p : pipe) : pipe := Pipe v (pi_data p) (nread p) (nwrite p) (readopen p) (writeopen p).
Definition set_pi_data v (p : pipe) : pipe := Pipe (pi_lock p) v (nread p) (nwrite p) (readopen p) (writeopen p).
Definition set_nread v (p : pipe) : pipe := Pipe (pi_lock p) (pi_data p) v (nwrite p) (readopen p) (writeopen p).
Definition set_nwrite v (p : pipe) : pipe := Pipe (pi_lock p) (pi_data p) (nread p) v (readopen p) (writeopen p).
Definition set_readopen v (p : pipe) : pipe := Pipe (pi_lock p) (pi_data p) (nread p) (nwrite p) v (writeopen p).
Definition set_writeopen v (p : pipe) : pipe := Pipe (pi_lock p) (pi_data p) (nread p) (nwrite p) (readopen p) v.

(** The functions a devsw[] entry may point to. *)
Inductive dev := ConsoleDev.

(** ftable, devsw[] and the pipes by address. *)
Record filest := Filest {
  ftable : list file;
  ft_lock : bool;
  devsw : list (option dev);
  pipes : gmap Z pipe
}.
Definition set_ftable v (s : filest) : filest := Filest v (ft_lock s) (devsw s) (pipes s).
Definition set_ft_lock v (s : filest) : filest := Filest (ftable s) v (devsw s) (pipes s).
Definition set_devsw v (s : filest) : filest := Filest (ftable s) (ft_lock s) v (pipes s).
Definition set_pipes v (s : filest) : filest := Filest (ftable s) (ft_lock s) (devsw s) v.

(** ** Devices *)

Definition INPUT_BUF_SIZE : Z := 128.
Definition UART_TX_BUF_SIZE : Z := 32.

(** cons: the input line being edited. *)
Record consst := Cons {
  c_lock : bool;
  c_buf : list Z;
  c_r : Z;
  c_w : Z;
  c_e : Z
}.
Definition set_c_lock v (c : consst) : consst := Cons v (c_buf c) (c_r c) (c_w c) (c_e c).
Definition set_c_buf v (c : consst) : consst := Cons (c_lock c) v (c_r c) (c_w c) (c_e c).
Definition set_c_r v (c : consst) : consst := Cons (c_lock c) (c_buf c) v (c_w c) (c_e c).
Definition set_c_w v (c : consst) : consst := Cons (c_lock c) (c_buf c) (c_r c) v (c_e c).
Definition set_c_e v (c : consst) : consst := Cons (c_lock c) (c_buf c) (c_r c) (c_w c) v.

(** The driver's transmit buffer, and the 16550 itself: the bytes waiting in
    its receive FIFO, those it has sent, and how many further reads of LSR
    report a full transmit register; [u_delay] is that count after each byte
    sent, the timing of the device. *)
Record uartst := Uart {
  u_lock : bool;
  u_buf : list Z;
  u_tx_w : Z;
  u_tx_r : Z;
  u_rx : list Z;
  u_out : list Z;
  u_busy : nat;
  u_delay : nat -> nat;
  u_regs : gmap Z Z
}.
Definition set_u_lock v (u : uartst) : uartst :=
  Uart v (u_buf u) (u_tx_w u) (u_tx_r u) (u_rx u) (u_out u) (u_busy u) (u_delay u) (u_regs u).
Definition set_u_buf v (u : uartst) : uartst :=
  Uart (u_lock u) v (u_tx_w u) (u_tx_r u) (u_rx u) (u_out u) (u_busy u) (u_delay u) (u_regs u).
Definition set_u_tx_w v (u : uartst) : uartst :=
  Uart (u_lock u) (u_buf u) v (u_tx_r u) (u_rx u) (u_out u) (u_busy u) (u_delay u) (u_regs u).
Definition set_u_tx_r v (u : uartst) : uartst :=
  Uart (u_lock u) (u_buf u) (u_tx_w u) v (u_rx u) (u_out u) (u_busy u) (u_delay u) (u_regs u).
Definition set_u_rx v (u : uartst) : uartst :=
  Uart (u_lock u) (u_buf u) (u_tx_w u) (u_tx_r u) v (u_out u) (u_busy u) (u_delay u) (u_regs u).
Definition set_u_out v (u : uartst) : uartst :=
  Uart (u_lock u) (u_buf u) (u_tx_w u) (u_tx_r u) (u_rx u) v (u_busy u) (u_delay u) (u_regs u).
Definition set_u_busy v (u : uartst) : uartst :=
  Uart (u_lock u) (u_buf u) (u_tx_w u) (u_tx_r u) (u_rx u) (u_out u) v (u_delay u) (u_regs u).
Definition set_u_regs v (u : uartst) : uartst :=
  Uart (u_lock u) (u_buf u) (u_tx_w u) (u_tx_r u) (u_rx u) (u_out u) (u_busy u) (u_delay u) v.

Record devst := Devst {
  cons_ : consst;
  uart_ : uartst;
  pr_lock : bool;
  pr_locking : bool;
  panicked : bool;
  ticks : Z;
  tickslock : bool
}.
Definition set_cons v (d : devst) : devst :=
  Devst v (uart_ d) (pr_lock d) (pr_locking d) (panicked d) (ticks d) (tickslock d).
Definition set_uart v (d : devst) : devst :=
  Devst (cons_ d) v (pr_lock d) (pr_locking d) (panicked d) (ticks d) (tickslock d).
Definition set_pr_lock v (d : devst) : devst :=
  Devst (cons_ d) (uart_ d) v (pr_locking d) (panicked d) (ticks d) (tickslock d).
Definition set_pr_locking v (d : devst) : devst :=
  Devst (cons_ d) (uart_ d) (pr_lock d) v (panicked d) (ticks d) (tickslock d).
Definition set_panicked v (d : devst) : devst :=
  Devst (cons_ d) (uart_ d) (pr_lock d) (pr_locking d) v (ticks d) (tickslock d).
Definition set_ticks v (d : devst) : devst :=
  Devst (cons_ d) (uart_ d) (pr_lock d) (pr_locking d) (panicked d) v (tickslock d).
Definition set_tickslock v (d : devst) : devst :=
  Devst (cons_ d) (uart_ d) (pr_lock d) (pr_locking d) (panicked d) (ticks d) v.

(** ** The whole *)

Record kst (S : Type) := Kst { kfs : fsst S; kfile : filest; kproc : procst; kdev : devst }.
Arguments Kst {S} _ _ _ _.
Arguments kfs {S} _.
Arguments kfile {S} _.
Arguments kproc {S} _.
Arguments kdev {S} _.

(** Wait channels.  sleep() takes the address of a kernel object; those in
    pages are addresses above KERNBASE, the static ones are numbered here. *)
Definition chan_proc (p : Z) : Z := 10000 + p.
Definition chan_ticks : Z := 20000.
Definition chan_cons : Z := 20001.
Definition chan_uart : Z := 20002.
Definition chan_nread (pi : Z) : Z := pi + 536.
Definition chan_nwrite (pi : Z) : Z := pi + 540.

Section Kernel.
Context {S : Type} {ops : BlockOps S}.
Notation st := (kst S).

Definition set_kfs v (s : st) : st := Kst v (kfile s) (kproc s) (kdev s).
Definition set_kfile v (s : st) : st := Kst (kfs s) v (kproc s) (kdev s).
Definition set_kproc v (s : st) : st := Kst (kfs s) (kfile s) v (kdev s).
Definition set_kdev v (s : st) : st := Kst (kfs s) (kfile s) (kproc s) v.

Definition on_file {A} (m : M filest A) : M st A := zoom kfile set_kfile m.
Definition on_proc {A} (m : M procst A) : M st A := zoom kproc set_kproc m.
Definition on_dev {A} (m : M devst A) : M st A := zoom kdev set_kdev m.

(** *** The process table *)

Definition proc_at (s : procst) (p : Z) : proc := nthZ proc0 (procs s) p.
Definition upd_proc (p : Z) (f : proc -> proc) (s : procst) : procst :=
  set_procs (updZ p (f (proc_at s p)) (procs s)) s.
Definition getp {A} (p : Z) (f : proc -> A) : M procst A := gets (fun s => f (proc_at s p)).
Definition setp (p : Z) (f : proc -> proc) : M procst unit := modify (upd_proc p f).
Definition pacquire (p : Z) : M procst unit :=
  lk_acquire (fun s => p_lock (proc_at s p)) (fun b => upd_proc p (set_p_lock b)).
Definition prelease (p : Z) : M procst unit :=
  lk_release (fun s => p_lock (proc_at s p)) (fun b => upd_proc p (set_p_lock b)).

Definition NPROCn : nat := Z.to_nat NPROC.

(** wakeup(), over proc[i..]. *)
Fixpoint wakeup_loop (n : nat) (p chan : Z) : M procst unit :=
  match n with
  | O => ret tt
  | Datatypes.S k =>
      let* me := gets curp in
      (if negb (p =? me) then
         pacquire p ;;
         let* x := getp p (fun x => x) in
         (if bool_decide (p_state x = SLEEPING) && (p_chan x =? chan)
          then setp p (set_p_state RUNNABLE) else ret tt) ;;
         prelease p
       else ret tt) ;;
      wakeup_loop k (p + 1) chan
  end.
Definition wakeup_ (chan : Z) : M procst unit := wakeup_loop NPROCn 0 chan.

Definition setkilled_ (p : Z) : M procst unit :=
  pacquire p ;; setp p (set_p_killed 1) ;; prelease p.

Definition killed_ (p : Z) : M procst Z :=
  pacquire p ;;
  let* k := getp p p_killed in
  prelease p ;;
  ret k.

Definition wakeup (chan : Z) : M st unit := on_proc (wakeup_ chan).
Definition setkilled (p : Z) : M st unit := on_proc (setkilled_ p).
Definition killed (p : Z) : M st Z := on_proc (killed_ p).
Definition myproc : M st Z := gets (fun s => curp (kproc s)).
Definition mine {A} (f : proc -> A) : M st A := gets (fun s => f (proc_at (kproc s) (curp (kproc s)))).
Definition setmine (f : proc -> proc) : M st unit :=
  modify (fun s => set_kproc (upd_proc (curp (kproc s)) f (kproc s)) s).

(** sched() as its caller sees it: its checks of the process, then the processor
    is gone.  The checks of mycpu()->noff and intr_get() are about the state of
    Spinlock.v, which this state does not carry. *)
Definition sched : M st unit :=
  let* p := myproc in
  let* x := mine (fun x => x) in
  if negb (p_lock x) then panic "sched p->lock"
  else if bool_decide (p_state x = RUNNING) then panic "sched running"
  else ret tt.

(** sleep(chan, lk) up to the switch; [rel] releases lk, and the scheduler
    releases p->lock on the other side. *)
Definition sleep (chan : Z) (rel : M st unit) : M st unit :=
  let* p := myproc in
  on_proc (pacquire p) ;;
  rel ;;
  on_proc (setp p (set_p_chan chan)) ;;
  on_proc (setp p (set_p_state SLEEPING)) ;;
  sched ;;
  on_proc (prelease p).

(** *** File system operations on behalf of the running process

    Its page table, pid and working directory are the ones fs.c uses; a wait
    inside (for a buffer, an inode or the log) puts the process to sleep. *)
Definition fs_view (s : st) : fsst S :=
  let p := proc_at (kproc s) (curp (kproc s)) in
  let f := kfs s in
  Fsst (store f) (f_sb f) (it_lock f) (itable f) (umem f) (p_pagetable p) (p_pid p) (p_cwd p).

Definition asleep (chan : Z) (x : proc) : proc := set_p_state SLEEPING (set_p_chan chan x).

Definition on_fs {A} (m : M (fsst S) A) : M st A := fun s =>
  match m (fs_view s) with
  | Ret a f => Ret a (set_kfs f s)
  | Panic e f => Panic e (set_kfs f s)
  | Block c f => Block c (set_kproc (upd_proc (curp (kproc s)) (asleep c) (kproc s)) (set_kfs f s))
  end.

Definition begin_op_ : M st unit := on_fs (on_store bs_begin_op).
Definition end_op_ : M st unit := on_fs (on_store bs_end_op).
Definition on_mem {A} (m : M kmem A) : M st A := on_fs (on_umem m).

(** Copies between the kernel and the running process. *)
Definition ucopyout (va : Z) (bs : list Z) : M st Z :=
  let* root := mine p_pagetable in on_mem (copyout root va bs).
Definition ucopyin (va len : Z) : M st (Z * list Z) :=
  let* root := mine p_pagetable in on_mem (copyin root va len).
End Kernel.
