(* ===== verification/KernelProof.v ===== *)
(** * The process table: sleep, wakeup, killed

    What the primitives of kernel/proc.c that every blocking operation uses do
    to a process table no lock of which is held. *)

From Stdlib Require Import ZArith Lia.
From stdpp Require Import base numbers list list_numbers gmap strings sorting.
From S2P Require Import Prelude Cstring Riscv Kalloc Vm Uvm Bytes Sleeplock Bio Log Store Fs Kernel.

(** ** A table at rest *)

Record idle_table (s : procst) : Prop := {
  it_len : zlen (procs s) = NPROC;
  it_cur : 0 <= curp s < NPROC;
  it_unlocked : forall p, 0 <= p < NPROC -> p_lock (proc_at s p) = false
}.

Lemma updZ_same {A} (d : A) i l : updZ i (nthZ d l i) l = l.
Proof.
  unfold updZ, nthZ. destruct (Z.ltb_spec i 0); [done|].
  destruct (nth_lookup_or_length l (Z.to_nat i) d) as [E|E].
  - by apply list_insert_id.
  - by apply list_insert_ge.
Qed.

Lemma updZ_updZ {A} i (x y : A) l : updZ i y (updZ i x l) = updZ i y l.
Proof. unfold updZ. destruct (Z.ltb_spec i 0); [done|]. apply list_insert_insert_eq. Qed.

Section Table.
Implicit Types (s : procst) (p i : Z).

Lemma proc_at_upd_eq p f s : 0 <= p < zlen (procs s) -> proc_at (upd_proc p f s) p = f (proc_at s p).
Proof. intros H. unfold proc_at, upd_proc. cbn. by apply nthZ_updZ_eq. Qed.

Lemma proc_at_upd_ne p i f s : p <> i -> proc_at (upd_proc p f s) i = proc_at s i.
Proof. intros H. unfold proc_at, upd_proc. cbn. by apply nthZ_updZ_ne. Qed.

Lemma upd_proc_upd p f g s : 0 <= p < zlen (procs s) -> upd_proc p g (upd_proc p f s) = upd_proc p (fun x => g (f x)) s.
Proof.
  intros H. unfold upd_proc at 1. rewrite proc_at_upd_eq by done. unfold upd_proc, set_procs. cbn.
  by rewrite updZ_updZ.
Qed.

Lemma upd_proc_id p f s : f (proc_at s p) = proc_at s p -> upd_proc p f s = s.
Proof. intros H. unfold upd_proc. rewrite H. unfold proc_at, set_procs. rewrite updZ_same. by destruct s. Qed.

Lemma upd_proc_ext p f g s : f (proc_at s p) = g (proc_at s p) -> upd_proc p f s = upd_proc p g s.
Proof. intros H. unfold upd_proc. by rewrite H. Qed.

Lemma zlen_upd_proc p f s : zlen (procs (upd_proc p f s)) = zlen (procs s).
Proof. apply zlen_updZ. Qed.

Lemma pacquire_ok p s : p_lock (proc_at s p) = false -> pacquire p s = Ret tt (upd_proc p (set_p_lock true) s).
Proof. intros H. unfold pacquire, lk_acquire. by rewrite H. Qed.

Lemma prelease_ok p s : p_lock (proc_at s p) = true -> prelease p s = Ret tt (upd_proc p (set_p_lock false) s).
Proof. intros H. unfold prelease, lk_release. by rewrite H. Qed.

Lemma set_lock_false x : p_lock x = false -> set_p_lock false (set_p_lock true x) = x.
Proof. destruct x. cbn. by intros ->. Qed.

(** A section under p->lock that changes only proc[p]. *)
Lemma locked_section {A} p s (m : M procst A) (f : proc -> proc) a :
  idle_table s -> 0 <= p < NPROC -> (forall x, p_lock (f x) = p_lock x) ->
  m (upd_proc p (set_p_lock true) s) = Ret a (upd_proc p (fun x => f (set_p_lock true x)) s) ->
  (pacquire p ;; let* r := m in prelease p ;; ret r) s = Ret a (upd_proc p (fun x => set_p_lock false (f (set_p_lock true x))) s).
Proof.
  intros [Hl Hc Hu] Hp Hf E. erewrite bind_Ret by (apply pacquire_ok, Hu, Hp). erewrite bind_Ret by exact E.
  assert (Hr : 0 <= p < zlen (procs s)) by (by rewrite Hl).
  erewrite bind_Ret; [reflexivity|]. rewrite prelease_ok; [|rewrite proc_at_upd_eq by done; by rewrite Hf].
  by rewrite upd_proc_upd.
Qed.

Lemma killed_ok p s : idle_table s -> 0 <= p < NPROC -> killed_ p s = Ret (p_killed (proc_at s p)) s.
Proof.
  intros Hi Hp. unfold killed_.
  rewrite (locked_section p s (getp p p_killed) (fun x => x) (p_killed (proc_at s p)) Hi Hp); [|done|].
  - f_equal. apply upd_proc_id, set_lock_false, Hi, Hp.
  - unfold getp, gets. f_equal. rewrite proc_at_upd_eq; [done|]. by rewrite (it_len _ Hi).
Qed.

Lemma idle_upd p f s : idle_table s -> 0 <= p < NPROC -> p_lock (f (proc_at s p)) = false -> idle_table (upd_proc p f s).
Proof.
  intros [Hl Hc Hu] Hp Hf. split; [by rewrite zlen_upd_proc|done|].
  intros i Hi. destruct (decide (p = i)) as [<-|Hne].
  - by rewrite proc_at_upd_eq by (by rewrite Hl).
  - rewrite proc_at_upd_ne by done. by apply Hu.
Qed.

Lemma setkilled_ok p s : idle_table s -> 0 <= p < NPROC -> setkilled_ p s = Ret tt (upd_proc p (set_p_killed 1) s).
Proof.
  intros Hi Hp. assert (Hr : 0 <= p < zlen (procs s)) by (by rewrite (it_len _ Hi)).
  unfold setkilled_. erewrite bind_Ret by (apply pacquire_ok, Hi, Hp). erewrite bind_Ret by reflexivity.
  rewrite upd_proc_upd by done. rewrite prelease_ok by (by rewrite proc_at_upd_eq). rewrite upd_proc_upd by done.
  f_equal. apply upd_proc_ext. pose proof (it_unlocked _ Hi p Hp) as H. destruct (proc_at s p). cbn in *. by subst.
Qed.

(** *** wakeup *)

Definition woke (me chan i : Z) (x : proc) : proc :=
  if negb (i =? me) && bool_decide (p_state x = SLEEPING) && (p_chan x =? chan) then set_p_state RUNNABLE x else x.

Lemma woke_asleep me c i x : i <> me -> p_state (woke me c i x) = SLEEPING ->
  p_state x = SLEEPING /\ p_chan (woke me c i x) = p_chan x /\ p_chan x <> c.
Proof.
  intros Hi. unfold woke. rewrite (proj2 (Z.eqb_neq _ _) Hi). cbn [negb andb].
  case_bool_decide; cbn [andb]; [|done]. destruct (Z.eqb_spec (p_chan x) c); [done|]. done.
Qed.

Lemma woke_me me c x : woke me c me x = x.
Proof. unfold woke. by rewrite Z.eqb_refl. Qed.

(** [s'] is [s] with each entry mapped by [g]. *)
Record mapped (g : Z -> proc -> proc) s s' : Prop := {
  mp_rest : s' = set_procs (procs s') s;
  mp_at : forall i, 0 <= i < NPROC -> proc_at s' i = g i (proc_at s i)
}.

Lemma mapped_curp g s s' : mapped g s s' -> curp s' = curp s.
Proof. intros [-> _]. done. Qed.

Lemma mapped_one p f s s' g : idle_table s -> 0 <= p < NPROC -> mapped g (upd_proc p f s) s' ->
  mapped (fun i x => if i =? p then g i (f x) else g i x) s s'.
Proof.
  intros Hi Hp [Hr Ha]. split; [by rewrite Hr|]. intros i Hir. rewrite Ha by done.
  destruct (Z.eqb_spec i p) as [->|Hne]; [|by rewrite proc_at_upd_ne by congruence].
  by rewrite proc_at_upd_eq by (by rewrite (it_len _ Hi)).
Qed.

Lemma wakeup_one p chan s : idle_table s -> 0 <= p < NPROC -> p <> curp s ->
  (pacquire p ;;
   let* x := getp p (fun x => x) in
   (if bool_decide (p_state x = SLEEPING) && (p_chan x =? chan) then setp p (set_p_state RUNNABLE) else ret tt) ;;
   prelease p) s = Ret tt (upd_proc p (woke (curp s) chan p) s).
Proof.
  intros Hi Hp Hne. assert (Hr : 0 <= p < zlen (procs s)) by (by rewrite (it_len _ Hi)).
  pose proof (it_unlocked _ Hi p Hp) as Hl.
  erewrite bind_Ret by (by apply pacquire_ok). erewrite bind_Ret by reflexivity.
  rewrite proc_at_upd_eq by done. cbn [set_p_lock p_state p_chan].
  assert (Hw : forall x, woke (curp s) chan p x =
     if bool_decide (p_state x = SLEEPING) && (p_chan x =? chan) then set_p_state RUNNABLE x else x).
  { intros x. unfold woke. by rewrite (proj2 (Z.eqb_neq _ _) Hne). }
  destruct (bool_decide _ && _) eqn:E.
  - erewrite bind_Ret by reflexivity. rewrite upd_proc_upd by done.
    rewrite prelease_ok by (by rewrite proc_at_upd_eq). rewrite upd_proc_upd by done.
    f_equal. apply upd_proc_ext. rewrite Hw, E. destruct (proc_at s p). cbn in *. by subst.
  - erewrite bind_Ret by reflexivity. rewrite prelease_ok by (by rewrite proc_at_upd_eq). rewrite upd_proc_upd by done.
    f_equal. apply upd_proc_ext. rewrite Hw, E. by apply set_lock_false.
Qed.

Lemma lock_woke me chan i x : p_lock (woke me chan i x) = p_lock x.
Proof. unfold woke. by destruct (_ && _). Qed.

Lemma wakeup_loop_ok n p chan s : idle_table s -> 0 <= p -> p + Z.of_nat n = NPROC ->
  exists s', wakeup_loop n p chan s = Ret tt s' /\ idle_table s' /\
    mapped (fun i x => if p <=? i then woke (curp s) chan i x else x) s s'.
Proof.
  revert p s. induction n as [|n IH]; intros p s Hi Hp Hn; cbn [wakeup_loop].
  - exists s. split; [done|]. split; [done|]. split; [by destruct s|]. intros i Hir.
    destruct (Z.leb_spec p i); [lia|done].
  - erewrite bind_Ret by reflexivity. destruct (Z.eqb_spec p (curp s)) as [E|E]; cbn [negb].
    + erewrite bind_Ret by reflexivity. destruct (IH (p + 1) s Hi ltac:(lia) ltac:(lia)) as (s' & Hs & Hi' & [Hr Ha]).
      exists s'. split; [done|]. split; [done|]. split; [done|]. intros i Hir. rewrite Ha by done.
      destruct (Z.leb_spec (p + 1) i), (Z.leb_spec p i); try done; try lia.
      unfold woke. replace i with (curp s) by lia. by rewrite Z.eqb_refl.
    + erewrite bind_Ret by (apply wakeup_one; [done|lia|done]).
      assert (Hi1 : idle_table (upd_proc p (woke (curp s) chan p) s)).
      { apply idle_upd; [done|lia|]. rewrite lock_woke. apply Hi. lia. }
      destruct (IH (p + 1) _ Hi1 ltac:(lia) ltac:(lia)) as (s' & Hs & Hi' & Hm).
      exists s'. split; [done|]. split; [done|]. apply mapped_one in Hm; [|done|lia]. destruct Hm as [Hr Ha].
      split; [done|]. intros i Hir. rewrite Ha by done. cbn.
      destruct (Z.eqb_spec i p), (Z.leb_spec (p + 1) i), (Z.leb_spec p i); subst; try done; lia.
Qed.

Lemma wakeup_ok chan s : idle_table s ->
  exists s', wakeup_ chan s = Ret tt s' /\ idle_table s' /\ mapped (woke (curp s) chan) s s'.
Proof.
  intros Hi. destruct (wakeup_loop_ok NPROCn 0 chan s Hi ltac:(lia) ltac:(done)) as (s' & E & Hi' & [Hr Ha]).
  exists s'. split; [done|]. split; [done|]. split; [done|]. intros i Hir. rewrite Ha by done.
  destruct (Z.leb_spec 0 i); [done|lia].
Qed.
End Table.

(** ** The same in the whole kernel's state *)

Section Kst.
Context {S : Type} {ops : BlockOps S}.
Implicit Types (s : kst S).

Definition cur (s : kst S) : proc := proc_at (kproc s) (curp (kproc s)).

Lemma on_proc_Ret {A} (m : M procst A) s a ps : m (kproc s) = Ret a ps -> on_proc m s = Ret a (set_kproc ps s).
Proof. intros E. unfold on_proc. by erewrite zoom_Ret. Qed.

Lemma set_kproc_same s : set_kproc (kproc s) s = s.
Proof. by destruct s. Qed.

Lemma killed_cur s : idle_table (kproc s) -> killed (curp (kproc s)) s = Ret (p_killed (cur s)) s.
Proof.
  intros Hi. unfold killed. erewrite on_proc_Ret by (apply killed_ok; [done|apply Hi]). by rewrite set_kproc_same.
Qed.

Lemma wakeup_kst chan s : idle_table (kproc s) ->
  exists ps, wakeup chan s = Ret tt (set_kproc ps s) /\ idle_table ps /\ mapped (woke (curp (kproc s)) chan) (kproc s) ps.
Proof. intros Hi. destruct (wakeup_ok chan _ Hi) as (ps & E & Hi' & Hm). exists ps. split; [by apply on_proc_Ret|done]. Qed.

(** sleep() leaves the process SLEEPING on [chan], and what [rel] does. *)
Lemma sleep_kst chan (rel : M (kst S) unit) s (f : kst S -> kst S) :
  idle_table (kproc s) ->
  (forall ps, rel (set_kproc ps s) = Ret tt (f (set_kproc ps s))) ->
  (forall ps, f (set_kproc ps s) = set_kproc ps (f s)) -> 
  sleep chan rel s = Ret tt (set_kproc (upd_proc (curp (kproc s)) (asleep chan) (kproc s)) (f s)).
Proof.
  intros Hi Hrel Hf. set (p := curp (kproc s)). assert (Hp : 0 <= p < NPROC) by apply Hi.
  assert (Hr : 0 <= p < zlen (procs (kproc s))) by (by rewrite (it_len _ Hi)).
  pose proof (it_unlocked _ Hi p Hp) as Hl. unfold sleep. erewrite bind_Ret by reflexivity. fold p.
  erewrite bind_Ret by (apply on_proc_Ret; by apply pacquire_ok). erewrite bind_Ret by apply Hrel. rewrite Hf.
  erewrite bind_Ret by (apply on_proc_Ret; reflexivity). cbn [kproc set_kproc]. rewrite upd_proc_upd by done.
  erewrite bind_Ret by (apply on_proc_Ret; reflexivity). cbn [kproc set_kproc]. rewrite upd_proc_upd by done.
  unfold sched. erewrite bind_Ret.
  2:{ erewrite bind_Ret by reflexivity. erewrite bind_Ret by reflexivity. cbn [kproc set_kproc]. 
      change (curp (upd_proc p _ (kproc s))) with p. rewrite proc_at_upd_eq by done. reflexivity. }
  erewrite on_proc_Ret.
  2:{ cbn [kproc set_kproc]. rewrite prelease_ok; [|by rewrite proc_at_upd_eq]. by rewrite upd_proc_upd. }
  f_equal. unfold set_kproc. cbn. f_equal. apply upd_proc_ext. unfold asleep. destruct (proc_at (kproc s) p). cbn in *. by subst.
Qed.
(** *** Memory of the running process *)

Definition mem_of (s : kst S) : mem := phys (umem (kfs s)).
Definition root_of (s : kst S) : Z := p_pagetable (cur s).
(** The state with the file system's copy of the process's identity fresh. *)
Definition with_mem (k : kmem) (s : kst S) : kst S := set_kfs (set_umem k (fs_view s)) s.

Lemma on_mem_Ret {A} (m : M kmem A) s a k : m (umem (kfs s)) = Ret a k -> on_mem m s = Ret a (with_mem k s).
Proof. intros E. unfold on_mem, on_fs, on_umem, zoom. cbn. by rewrite E. Qed.

Lemma with_mem_twice k k' s : with_mem k (with_mem k' s) = with_mem k s.
Proof. by destruct s as [[] ? ? ?]. Qed.
End Kst.
