(* ===== verification/Sample.v ===== *)
(** * A small kernel state

    One process, running, with the address space [TinySpace] (one page, its
    first byte 104), on which theorems about the whole kernel's state are
    instantiated. *)

From Stdlib Require Import ZArith Lia.
From stdpp Require Import base numbers list list_numbers gmap strings sorting.
From S2P Require Import Prelude Cstring Riscv Kalloc Vm PageTable Uvm Ucopy Bytes Sleeplock Bio Log Recovery Store Fs Kernel KernelProof.

Module Tiny.
Definition me : proc :=
  set_p_state RUNNING (set_p_pid 1 (set_p_sz 4096 (set_p_pagetable TinySpace.root proc0))).
Definition table : procst := Procst (me :: repeat proc0 63) 0 2 false false 0.
Definition devices : devst :=
  Devst (Cons false (repeat 0 128) 0 0 0) (Uart false (repeat 0 32) 0 0 [] [] 0 (fun _ => 0%nat) ∅) false false false 0 false.
Definition fs : fsst lst := Fsst (machine ∅ 1) (Superblock 0 0 0 0 0 0 0 0) false [] TinySpace.st 0 0 0.
Definition files : filest := Filest (repeat file0 100) false (repeat None 10) ∅.
Definition kernel (f : filest) : kst lst := Kst fs f table devices.

Lemma at_table (P : proc -> Prop) : P me -> P proc0 -> forall p, 0 <= p < NPROC -> P (proc_at table p).
Proof.
  intros H0 H1 p Hp. unfold proc_at, table, nthZ. cbn [procs]. destruct (Z.ltb_spec p 0); [lia|].
  destruct (Z.to_nat p) as [|n]; [done|]. cbn [nth]. destruct (nth_in_or_default n (repeat proc0 63) proc0) as [E| ->]; [|done].
  by rewrite (repeat_spec _ _ _ E).
Qed.

Lemma idle : idle_table table.
Proof. split; [done|done|]. exact (at_table (fun x => p_lock x = false) eq_refl eq_refl). Qed.
End Tiny.
