(* ===== verification/Sched.v ===== *)
(** * Scheduling, sleep and wakeup on several harts (kernel/proc.c)

    NCPU harts run scheduler() and the kernel threads of NPROC processes it
    switches to; a step is one statement of proc.c or one lock operation, in
    any interleaving.  Spin locks are atomic here (Spinlock.v shows they
    exclude).  The threads run programs of the form all of the kernel's waits
    have: a consumer waits for a condition under its lock with sleep(), a
    producer establishes it under the lock and calls wakeup(); they also
    yield() and exit(). *)

From Stdlib Require Import ZArith Lia.
From stdpp Require Import base numbers list relations.
From S2P Require Import Prelude Kernel.

(** Where a process's kernel thread is. *)
Inductive tpc :=
| Forkret                   (** forkret: release(&p->lock) *)
| User                      (** anywhere that holds no lock *)
| Yield1 | Yield2           (** yield: acquire(&p->lock); p->state = RUNNABLE *)
| Swtch (back : tpc)        (** sched(): the checks and the switch *)
| YieldRel                  (** yield: release(&p->lock) *)
| Exit1 | Exit2             (** exit: acquire(&p->lock); p->state = ZOMBIE *)
| Dead
| Acq                       (** the consumer: acquire(lk) *)
| Test                      (** while(!cond) *)
| Sleep1 | Sleep2 | Sleep3  (** sleep: acquire(&p->lock); release(lk); p->chan = chan, p->state = SLEEPING *)
| Tidy                      (** sleep, after sched(): p->chan = 0 *)
| SleepRel | Reacq          (** sleep: release(&p->lock); acquire(lk) *)
| Take | Rel                (** cond = 0; release(lk) *)
| Pacq | Pset               (** the producer: acquire(lk); cond = 1 *)
| Wake (i : nat)            (** wakeup: p != myproc(), acquire(&p->lock) *)
| WakeTest (i : nat)        (** wakeup: the test and p->state = RUNNABLE *)
| WakeRel (i : nat)         (** wakeup: release(&p->lock) *)
| Prel.                     (** release(lk) *)

(** Where a hart is: in scheduler(), or running a process. *)
Inductive hpc :=
| Scan (i : nat)            (** acquire(&p->lock) *)
| Held (i : nat)            (** if(p->state == RUNNABLE) *)
| Running (i : nat)         (** c->proc = p *)
| Done (i : nat).           (** release(&p->lock) *)

Inductive lock := LK | PL (p : nat).
#[export] Instance lock_eq_dec : EqDecision lock.
Proof. solve_decision. Defined.

(** [asl p]: p->chan is the condition's channel (otherwise 0). *)
Record sys := Sys {
  harts : nat -> hpc;
  pcs : nat -> tpc;
  states : nat -> procstate;
  asl : nat -> bool;
  owner : lock -> option nat;
  cond : bool
}.

Definition upd {K V} `{EqDecision K} (k : K) (v : V) (f : K -> V) : K -> V := fun x => if decide (x = k) then v else f x.

Lemma upd_eq {K V} `{EqDecision K} (k : K) (v : V) f : upd k v f k = v.
Proof. unfold upd. by rewrite decide_True. Qed.
Lemma upd_ne {K V} `{EqDecision K} (k x : K) (v : V) f : x <> k -> upd k v f x = f x.
Proof. intros H. unfold upd. by rewrite decide_False. Qed.

Definition set_hart h x s := Sys (upd h x (harts s)) (pcs s) (states s) (asl s) (owner s) (cond s).
Definition set_pc p x s := Sys (harts s) (upd p x (pcs s)) (states s) (asl s) (owner s) (cond s).
Definition set_st p x s := Sys (harts s) (pcs s) (upd p x (states s)) (asl s) (owner s) (cond s).
Definition set_asl p x s := Sys (harts s) (pcs s) (states s) (upd p x (asl s)) (owner s) (cond s).
Definition set_own l x s := Sys (harts s) (pcs s) (states s) (asl s) (upd l x (owner s)) (cond s).
Definition set_cond x s := Sys (harts s) (pcs s) (states s) (asl s) (owner s) x.

Section Sched.
(** NPROC. *)
Context (n : nat).

(** The next index of scheduler()'s loop, which starts again at the end. *)
Definition next (i : nat) : nat := if decide (S i < n)%nat then S i else 0%nat.

(** *** scheduler() on hart [h] *)
Inductive sched_step (h : nat) (s : sys) : sys -> Prop :=
| S_acquire i : harts s h = Scan i -> owner s (PL i) = None ->
    sched_step h s (set_hart h (Held i) (set_own (PL i) (Some h) s))
| S_skip i : harts s h = Held i -> states s i <> RUNNABLE -> sched_step h s (set_hart h (Done i) s)
| S_switch i : harts s h = Held i -> states s i = RUNNABLE ->
    sched_step h s (set_hart h (Running i) (set_st i RUNNING s))
| S_release i : harts s h = Done i -> sched_step h s (set_hart h (Scan (next i)) (set_own (PL i) None s)).

(** *** The thread of process [p] on hart [h] *)
Inductive thread_step (h p : nat) (s : sys) : sys -> Prop :=
| T_acquire pc l pc' : (pc, l, pc') ∈ [(Yield1, PL p, Yield2); (Exit1, PL p, Exit2); (Acq, LK, Test); (Sleep1, PL p, Sleep2);
      (Reacq, LK, Test); (Pacq, LK, Pset)] ->
    pcs s p = pc -> owner s l = None -> thread_step h p s (set_pc p pc' (set_own l (Some h) s))
| T_release pc l pc' : (pc, l, pc') ∈ [(Forkret, PL p, User); (YieldRel, PL p, User); (Sleep2, LK, Sleep3); (SleepRel, PL p, Reacq);
      (Rel, LK, User); (Prel, LK, User)] ->
    pcs s p = pc -> thread_step h p s (set_pc p pc' (set_own l None s))
| T_choose pc' : pc' ∈ [Yield1; Exit1; Acq; Pacq] -> pcs s p = User -> thread_step h p s (set_pc p pc' s)
| T_yield : pcs s p = Yield2 -> thread_step h p s (set_pc p (Swtch YieldRel) (set_st p RUNNABLE s))
| T_exit : pcs s p = Exit2 -> thread_step h p s (set_pc p (Swtch Dead) (set_st p ZOMBIE s))
| T_test : pcs s p = Test -> thread_step h p s (set_pc p (if cond s then Take else Sleep1) s)
| T_sleep : pcs s p = Sleep3 -> thread_step h p s (set_pc p (Swtch Tidy) (set_st p SLEEPING (set_asl p true s)))
| T_swtch k : pcs s p = Swtch k -> thread_step h p s (set_hart h (Done p) (set_pc p k s))
| T_tidy : pcs s p = Tidy -> thread_step h p s (set_pc p SleepRel (set_asl p false s))
| T_take : pcs s p = Take -> thread_step h p s (set_pc p Rel (set_cond false s))
| T_set : pcs s p = Pset -> thread_step h p s (set_pc p (Wake 0) (set_cond true s))
| T_wake_end : pcs s p = Wake n -> thread_step h p s (set_pc p Prel s)
| T_wake_me : pcs s p = Wake p -> (p < n)%nat -> thread_step h p s (set_pc p (Wake (S p)) s)
| T_wake_lock i : pcs s p = Wake i -> (i < n)%nat -> i <> p -> owner s (PL i) = None ->
    thread_step h p s (set_pc p (WakeTest i) (set_own (PL i) (Some h) s))
| T_wake_test i : pcs s p = WakeTest i ->
    thread_step h p s (set_pc p (WakeRel i)
      (if bool_decide (states s i = SLEEPING) && asl s i then set_st i RUNNABLE s else s))
| T_wake_rel i : pcs s p = WakeRel i -> thread_step h p s (set_pc p (Wake (S i)) (set_own (PL i) None s)).

Inductive step (s s' : sys) : Prop :=
| step_sched h : sched_step h s s' -> step s s'
| step_thread h p : harts s h = Running p -> thread_step h p s s' -> step s s'.

(** Processes made by fork(): RUNNABLE, about to run forkret(). *)
Record boot (s : sys) : Prop := {
  b_harts : forall h, exists i, harts s h = Scan i /\ (i < n)%nat;
  b_procs : forall p, pcs s p = Forkret /\ states s p ∈ [UNUSED; USED; RUNNABLE] /\ asl s p = false;
  b_owner : forall l, owner s l = None
}.
End Sched.

(** ** The invariant *)

(** The locks a thread at [pc] holds, and a hart. *)
Definition tholds (p : nat) (pc : tpc) (l : lock) : bool :=
  match pc with
  | Forkret | Yield2 | Swtch _ | YieldRel | Exit2 | Dead | Sleep3 | Tidy | SleepRel => bool_decide (l = PL p)
  | Sleep2 => bool_decide (l = PL p) || bool_decide (l = LK)
  | Test | Sleep1 | Take | Rel | Pset | Wake _ | Prel => bool_decide (l = LK)
  | WakeTest i | WakeRel i => bool_decide (l = PL i) || bool_decide (l = LK)
  | _ => false
  end.

Definition hholds (s : sys) (h : nat) (l : lock) : bool :=
  match harts s h with
  | Scan _ => false
  | Held i | Done i => bool_decide (l = PL i)
  | Running p => tholds p (pcs s p) l
  end.

Definition saved (pc : tpc) : bool := match pc with Forkret | YieldRel | Tidy | Dead => true | _ => false end.
Definition is_swtch (pc : tpc) : bool := match pc with Swtch _ => true | _ => false end.

(** How far a wakeup() has come: it has yet to look at the processes from here on. *)
Definition waker (pc : tpc) : option nat :=
  match pc with Wake i | WakeTest i => Some i | WakeRel i => Some (S i) | _ => None end.

(** Asleep, or past the point where it gave up the condition's lock. *)
Definition sleeping (s : sys) (p : nat) : Prop := states s p = SLEEPING \/ pcs s p = Sleep3.

(** Facts about one process's thread, its state and the harts running it. *)
Record proc_ok (s : sys) (p : nat) : Prop := {
  po_one : forall h h', harts s h = Running p -> harts s h' = Running p -> h = h';
  po_run : forall h, harts s h = Running p -> if is_swtch (pcs s p) then states s p <> RUNNING else states s p = RUNNING;
  po_off : (forall h, harts s h <> Running p) -> saved (pcs s p) = true /\ states s p <> RUNNING;
  po_back : forall k, pcs s p = Swtch k -> saved k = true /\ (states s p = SLEEPING -> k = Tidy) /\ (k = Dead -> states s p = ZOMBIE);
  po_dead : pcs s p = Dead -> states s p = ZOMBIE;
  po_sleep : states s p = SLEEPING -> pcs s p = Tidy \/ pcs s p = Swtch Tidy;
  po_asl : asl s p = true <-> pcs s p = Tidy \/ pcs s p = Swtch Tidy;
  po_test : pcs s p = Sleep1 \/ pcs s p = Sleep2 -> cond s = false
}.

Record inv (n : nat) (s : sys) : Prop := {
  i_lock : forall h l, owner s l = Some h <-> hholds s h l = true;
  i_proc : forall p, proc_ok s p;
  i_wake : cond s = true -> forall p, (p < n)%nat -> sleeping s p ->
    exists h q i, harts s h = Running q /\ waker (pcs s q) = Some i /\ (i <= p)%nat
}.

(** A thread that is not parked at a switch is on some hart. *)
Lemma running_somewhere s p : proc_ok s p -> saved (pcs s p) = false -> (forall h, harts s h <> Running p) -> False.
Proof. intros H Hs Hn. destruct (po_off _ _ H Hn) as [E _]. congruence. Qed.

(** *** Locks *)

Section Locks.
Context (s s' : sys) (h p : nat) (pc' : tpc).
Hypothesis Hrun : harts s h = Running p.
Hypothesis Hone : forall h', harts s h' = Running p -> h' = h.
Hypothesis Hlock : forall h l, owner s l = Some h <-> hholds s h l = true.
Hypothesis Hh : harts s' = harts s.
Hypothesis Hpc : pcs s' = upd p pc' (pcs s).

Lemma hholds_other h' l : h' <> h -> hholds s' h' l = hholds s h' l.
Proof.
  intros Hne. unfold hholds. rewrite Hh, Hpc. destruct (harts s h') eqn:E; try done.
  rewrite upd_ne; [done|]. intros ->. by apply Hone in E.
Qed.

Lemma hholds_me l : hholds s' h l = tholds p pc' l.
Proof. unfold hholds. by rewrite Hh, Hrun, Hpc, upd_eq. Qed.

Lemma hholds_before l : hholds s h l = tholds p (pcs s p) l.
Proof. unfold hholds. by rewrite Hrun. Qed.

Lemma lock_keep : owner s' = owner s -> (forall l, tholds p pc' l = tholds p (pcs s p) l) ->
  forall h l, owner s' l = Some h <-> hholds s' h l = true.
Proof.
  intros Ho Ht h' l. rewrite Ho, Hlock. destruct (decide (h' = h)) as [->|Hne]; [|by rewrite hholds_other].
  by rewrite hholds_me, Ht, hholds_before.
Qed.

Lemma lock_acquire l0 : owner s l0 = None -> owner s' = upd l0 (Some h) (owner s) ->
  (forall l, tholds p pc' l = bool_decide (l = l0) || tholds p (pcs s p) l) ->
  forall h l, owner s' l = Some h <-> hholds s' h l = true.
Proof.
  intros Hf Ho Ht h' l. rewrite Ho. destruct (decide (h' = h)) as [->|Hne].
  - rewrite hholds_me, Ht, <- hholds_before. unfold upd. case_decide as E; [subst; by rewrite bool_decide_true|].
    rewrite bool_decide_false by done. apply Hlock.
  - rewrite hholds_other by done. unfold upd. case_decide as E; [|apply Hlock].
    subst. rewrite <- Hlock, Hf. split; [congruence|done].
Qed.

Lemma lock_release l0 : owner s' = upd l0 None (owner s) -> tholds p (pcs s p) l0 = true ->
  (forall l, tholds p pc' l = negb (bool_decide (l = l0)) && tholds p (pcs s p) l) ->
  forall h l, owner s' l = Some h <-> hholds s' h l = true.
Proof.
  intros Ho Hhad Ht h' l. rewrite Ho. rewrite <- hholds_before in Hhad. apply Hlock in Hhad. destruct (decide (h' = h)) as [->|Hne].
  - rewrite hholds_me, Ht, <- hholds_before. unfold upd. case_decide as E; [subst; by rewrite bool_decide_true|].
    rewrite bool_decide_false by done. apply Hlock.
  - rewrite hholds_other by done. unfold upd. case_decide as E; [|apply Hlock].
    subst. rewrite <- Hlock, Hhad. split; [done|congruence].
Qed.
End Locks.

(** *** Processes other than the one that moves *)

Lemma proc_other s s' q :
  proc_ok s q -> (forall h, harts s' h = Running q <-> harts s h = Running q) ->
  pcs s' q = pcs s q -> states s' q = states s q -> asl s' q = asl s q ->
  (pcs s q = Sleep1 \/ pcs s q = Sleep2 -> cond s' = false) -> proc_ok s' q.
Proof.
  intros [H1 H2 H3 H4 H5 H6 H7 H8] Hh Hp Hs Ha Hc. split; rewrite ?Hp, ?Hs, ?Ha; try done.
  - intros h h' E E'. apply Hh in E, E'. by apply H1.
  - intros h E. apply Hh in E. by apply (H2 h).
  - intros E. apply H3. intros h. rewrite <- Hh. apply E.
Qed.

(** *** Wakeups *)

Section Wakes.
Context (n : nat) (s s' : sys) (h p : nat).
Hypothesis Hrun : harts s h = Running p.
Hypothesis Hh : harts s' = harts s.
Hypothesis Hpc : forall q, q <> p -> pcs s' q = pcs s q.
Hypothesis Hw : cond s = true -> forall p, (p < n)%nat -> sleeping s p ->
    exists h q i, harts s h = Running q /\ waker (pcs s q) = Some i /\ (i <= p)%nat.

Lemma wake_keep :
  (cond s' = true -> cond s = true) ->
  (forall q, (q < n)%nat -> cond s' = true -> sleeping s' q -> sleeping s q /\ forall i, waker (pcs s p) = Some i -> (i <= q)%nat ->
     exists j, waker (pcs s' p) = Some j /\ (j <= q)%nat) ->
  cond s' = true -> forall p, (p < n)%nat -> sleeping s' p ->
    exists h q i, harts s' h = Running q /\ waker (pcs s' q) = Some i /\ (i <= p)%nat.
Proof.
  intros Hc Hs Ht q Hq Hsl. destruct (Hs q Hq Ht Hsl) as [Hsq Hi]. destruct (Hw (Hc Ht) q Hq Hsq) as (h0 & q0 & i & E & Ei & Hle).
  rewrite Hh. destruct (decide (q0 = p)) as [->|Hne].
  - destruct (Hi i Ei Hle) as (j & Ej & Hj). by exists h0, p, j.
  - exists h0, q0, i. by rewrite Hpc.
Qed.
End Wakes.

(** *** The scheduler *)

Lemma hart_lock s h l : (forall h l, owner s l = Some h <-> hholds s h l = true) -> hholds s h l = true -> owner s l = Some h.
Proof. intros H. apply H. Qed.

Lemma not_running_here s h i : harts s h = Held i \/ harts s h = Done i ->
  (forall h l, owner s l = Some h <-> hholds s h l = true) -> proc_ok s i -> states s i <> RUNNING -> forall h', harts s h' <> Running i.
Proof.
  intros Hh Hl Hp Hs h' E. pose proof (po_run _ _ Hp h' E) as Hr. destruct (is_swtch (pcs s i)) eqn:Ew; [|done].
  assert (O1 : owner s (PL i) = Some h') by (apply Hl; unfold hholds; rewrite E; destruct (pcs s i); try done; by apply bool_decide_eq_true).
  assert (O2 : owner s (PL i) = Some h) by (apply Hl; unfold hholds; destruct Hh as [-> | ->]; by apply bool_decide_eq_true).
  assert (h' = h) as -> by congruence. destruct Hh; congruence.
Qed.

(** Moving one hart inside scheduler(). *)
Section HartMove.
Context (n : nat) (s s' : sys) (h : nat) (x' : hpc).
Hypothesis Hno : forall p, harts s h <> Running p.
Hypothesis Hno' : forall p, x' <> Running p.
Hypothesis Hh : harts s' = upd h x' (harts s).
Hypothesis Hpc : pcs s' = pcs s.
Hypothesis Hst : states s' = states s.
Hypothesis Ha : asl s' = asl s.
Hypothesis Hc : cond s' = cond s.

Lemma running_same h' p : harts s' h' = Running p <-> harts s h' = Running p.
Proof. rewrite Hh. unfold upd. case_decide as E; [|done]. subst. split; intros E'; [by apply Hno' in E'|by apply Hno in E']. Qed.

Lemma hart_move_inv : inv n s -> (forall h l, owner s' l = Some h <-> hholds s' h l = true) -> inv n s'.
Proof.
  intros [Hl Hp Hw] Hl'. split; [done| |].
  - intros q. apply (proc_other s s' q); rewrite ?Hpc, ?Hst, ?Ha, ?Hc; try done; [|apply Hp]. intros h'. apply running_same.
  - rewrite Hc, Hpc. unfold sleeping. rewrite Hpc, Hst. intros Ht q Hq Hs. destruct (Hw Ht q Hq Hs) as (h0 & q0 & i & E & Ei).
    exists h0, q0, i. by rewrite running_same.
Qed.
End HartMove.

Lemma switch_ok s h i :
  proc_ok s i -> states s i = RUNNABLE -> (forall h', harts s h' <> Running i) ->
  proc_ok (set_hart h (Running i) (set_st i RUNNING s)) i.
Proof.
  intros [H1 H2 H3 H4 H5 H6 H7 H8] Hs Hn. destruct (H3 Hn) as [Hsv _].
  assert (Hat : forall h', upd h (Running i) (harts s) h' = Running i -> h' = h).
  { intros h'. unfold upd. case_decide; [done|]. intros E. by apply Hn in E. }
  split; cbn [harts states pcs asl cond set_hart set_st]; rewrite ?upd_eq; try done.
  - intros h1 h2 E1 E2. by rewrite (Hat _ E1), (Hat _ E2).
  - by destruct (pcs s i).
  - intros E. by specialize (E h); rewrite upd_eq in E.
  - intros k E. by rewrite E in Hsv.
  - intros E. by rewrite H5 in Hs.
Qed.

Lemma sched_step_inv n h s s' : inv n s -> sched_step n h s s' -> inv n s'.
Proof.
  intros Hi Hst. pose proof Hi as [Hl Hp Hw]. destruct Hst as [i E Ho|i E Hs|i E Hs|i E].
  - apply (hart_move_inv n s _ h (Held i)); try done; [by rewrite E|].
    intros h' l. cbn. unfold hholds, upd. cbn. unfold upd.
    destruct (decide (h' = h)) as [->|Hne], (decide (l = PL i)) as [->|Hne']; rewrite ?bool_decide_eq_true; try done.
    + specialize (Hl h l). unfold hholds in Hl. rewrite E in Hl. rewrite Hl. naive_solver.
    + split; [congruence|]. intros H. apply (Hl h' (PL i)) in H. congruence.
  - apply (hart_move_inv n s _ h (Done i)); try done; [by rewrite E|].
    intros h' l. cbn [owner set_hart]. rewrite Hl. unfold hholds. cbn. unfold upd. case_decide; [subst; by rewrite E|done].
  - assert (Hnr : forall h', harts s h' <> Running i).
    { apply (not_running_here s h); [by left|done|apply Hp|congruence]. }
    destruct (po_off _ _ (Hp i) Hnr) as [Hsv _]. split.
    + intros h' l. cbn. rewrite Hl. unfold hholds. cbn. unfold upd. case_decide; [|done]. subst. rewrite E.
      by destruct (pcs s i).
    + intros q. destruct (decide (q = i)) as [->|Hne].
      * by apply switch_ok.
      * apply (proc_other s _ q); [apply Hp| |done| |done|apply (po_test _ _ (Hp q))].
        -- intros h'. cbn. unfold upd. case_decide; [|done]. subst. rewrite E. split; congruence.
        -- cbn. by rewrite upd_ne.
    + cbn. intros Ht q Hq Hsl. destruct (decide (q = i)) as [->|Hne].
      * destruct Hsl as [Hsl|Hsl]; cbn in Hsl; [by rewrite upd_eq in Hsl|by rewrite Hsl in Hsv].
      * unfold sleeping in Hsl. cbn in Hsl. rewrite upd_ne in Hsl by done.
        destruct (Hw Ht q Hq Hsl) as (h0 & q0 & j & E0 & Ej & Hj). exists h0, q0, j. split; [|done].
        rewrite upd_ne; [done|]. congruence.
  - apply (hart_move_inv n s _ h (Scan (next n i))); try done; [by rewrite E|].
    intros h' l. cbn. unfold hholds. cbn. unfold upd.
    assert (O2 : owner s (PL i) = Some h) by (apply Hl; unfold hholds; rewrite E; by apply bool_decide_eq_true).
    destruct (decide (h' = h)) as [->|Hne], (decide (l = PL i)) as [->|Hne']; try done.
    + rewrite Hl. unfold hholds. rewrite E, bool_decide_false by done. done.
    + split; [done|]. intros H. apply (Hl h' (PL i)) in H. congruence.
Qed.

(** *** Threads *)

(** Not at a switch, nor just back from one, nor dead. *)
Definition plain (pc : tpc) : bool := match pc with Swtch _ | Tidy | Dead => false | _ => true end.

Lemma plain_not_swtch pc : plain pc = true -> is_swtch pc = false.
Proof. by destruct pc. Qed.

Lemma me_ok s s' h p :
  harts s h = Running p -> proc_ok s p -> harts s' = harts s ->
  plain (pcs s' p) = true -> states s' p = RUNNING -> asl s' p = false ->
  (pcs s' p = Sleep1 \/ pcs s' p = Sleep2 -> cond s' = false) -> proc_ok s' p.
Proof.
  intros Hr [H1 _ _ _ _ _ _ _] Hh Hpl Hs Ha Hc. split; rewrite ?Hh, ?Hs, ?Ha; try done.
  - by rewrite plain_not_swtch.
  - intros E. by specialize (E h).
  - intros k E. by rewrite E in Hpl.
  - intros E. by rewrite E in Hpl.
  - split; [done|]. intros [E|E]; by rewrite E in Hpl.
Qed.

(** Two threads cannot both hold the condition's lock. *)
Lemma lk_exclusive n s h p q : inv n s -> harts s h = Running p -> tholds p (pcs s p) LK = true -> q <> p ->
  tholds q (pcs s q) LK = true -> saved (pcs s q) = false -> False.
Proof.
  intros [Hl Hp _] Hr Hh Hne Hq Hs. apply (running_somewhere s q (Hp q) Hs). intros h' E.
  assert (O1 : owner s LK = Some h) by (apply Hl; unfold hholds; by rewrite Hr).
  assert (O2 : owner s LK = Some h') by (apply Hl; unfold hholds; by rewrite E).
  assert (h' = h) as -> by congruence. congruence.
Qed.

Lemma others_ok n s s' h p :
  inv n s -> harts s h = Running p -> harts s' = harts s ->
  (forall q, q <> p -> pcs s' q = pcs s q /\ states s' q = states s q /\ asl s' q = asl s q) ->
  cond s' = cond s \/ tholds p (pcs s p) LK = true ->
  forall q, q <> p -> proc_ok s' q.
Proof.
  intros Hi Hr Hh Hsame Hc q Hne. destruct (Hsame q Hne) as (E1 & E2 & E3). pose proof (i_proc _ _ Hi q) as Hq.
  apply (proc_other s s' q); try done; [by rewrite Hh|].
  intros Hpc. destruct (cond s') eqn:Ec; [exfalso|done]. destruct Hc as [Hc|Hc].
  - rewrite (po_test _ _ Hq Hpc) in Hc. congruence.
  - destruct Hpc as [Hpc|Hpc]; eapply (lk_exclusive n s h p q); try done; by rewrite Hpc.
Qed.

Lemma plain_asl s p : proc_ok s p -> plain (pcs s p) = true -> asl s p = false.
Proof.
  intros H Hp. destruct (asl s p) eqn:E; [|done]. apply (po_asl _ _ H) in E as [E|E]; by rewrite E in Hp.
Qed.

Lemma plain_running s h p : proc_ok s p -> harts s h = Running p -> is_swtch (pcs s p) = false -> states s p = RUNNING.
Proof. intros H Hr Hp. pose proof (po_run _ _ H h Hr) as E. by rewrite Hp in E. Qed.

(** A step of a plain thread to a plain place. *)
Lemma plain_step n h p s s' pc' :
  inv n s -> harts s h = Running p -> plain (pcs s p) = true -> plain pc' = true ->
  harts s' = harts s -> pcs s' = upd p pc' (pcs s) -> states s' = states s -> asl s' = asl s ->
  (forall h l, owner s' l = Some h <-> hholds s' h l = true) ->
  cond s' = cond s \/ tholds p (pcs s p) LK = true ->
  (pc' = Sleep1 \/ pc' = Sleep2 -> cond s' = false) ->
  (cond s' = true -> forall p, (p < n)%nat -> sleeping s' p ->
    exists h q i, harts s' h = Running q /\ waker (pcs s' q) = Some i /\ (i <= p)%nat) -> inv n s'.
Proof.
  intros Hi Hr Hpl Hpl' Hh Hpc Hst Ha Hlk Hc Ht Hw. pose proof (i_proc _ _ Hi p) as Hp. split; [done| |done].
  intros q. destruct (decide (q = p)) as [->|Hne].
  - apply (me_ok s s' h p); try done; rewrite ?Hpc, ?upd_eq, ?Hst, ?Ha; try done.
    + by apply (plain_running s h), plain_not_swtch.
    + by apply plain_asl.
  - apply (others_ok n s s' h p); try done. intros x Hx. rewrite Hpc, Hst, Ha, upd_ne by done. done.
Qed.

(** The scan of wakeup() goes no further than its index says. *)
Lemma wake_plain n h p s s' pc' :
  inv n s -> harts s h = Running p -> harts s' = harts s -> pcs s' = upd p pc' (pcs s) -> states s' = states s ->
  (cond s' = true -> cond s = true) -> pc' <> Sleep3 ->
  (forall q i, (q < n)%nat -> sleeping s q -> waker (pcs s p) = Some i -> (i <= q)%nat -> exists j, waker pc' = Some j /\ (j <= q)%nat) ->
  cond s' = true -> forall p, (p < n)%nat -> sleeping s' p ->
    exists h q i, harts s' h = Running q /\ waker (pcs s' q) = Some i /\ (i <= p)%nat.
Proof.
  intros Hi Hr Hh Hpc Hst Hc Hn3 Hw. apply (wake_keep n s s' p); try done.
  - intros q Hne. by rewrite Hpc, upd_ne.
  - apply Hi.
  - intros q Hq Ht Hsl. assert (Hs : sleeping s q).
    { unfold sleeping in *. rewrite Hst, Hpc in Hsl. destruct (decide (q = p)) as [->|Hne].
      - rewrite upd_eq in Hsl. destruct Hsl; [by left|done].
      - by rewrite upd_ne in Hsl. }
    split; [done|]. rewrite Hpc, upd_eq. intros i Ei Hle. by apply (Hw q i).
Qed.

Lemma acquire_inv n h p s l pc' :
  inv n s -> harts s h = Running p -> owner s l = None -> plain (pcs s p) = true -> plain pc' = true -> pc' <> Sleep3 ->
  (forall l', tholds p pc' l' = bool_decide (l' = l) || tholds p (pcs s p) l') ->
  (pc' = Sleep1 \/ pc' = Sleep2 -> cond s = false) -> waker (pcs s p) = None \/ waker pc' = waker (pcs s p) ->
  inv n (set_pc p pc' (set_own l (Some h) s)).
Proof.
  intros Hi Hr Ho Hpl Hpl' Hn3 Ht Hc Hw. apply (plain_step n h p s _ pc'); try done; [|by left|].
  - apply (lock_acquire s _ h p pc') with (l0 := l); try done; [|apply Hi].
    intros h' E. exact (po_one _ _ (i_proc _ _ Hi p) h' h E Hr).
  - apply (wake_plain n h p s _ pc'); try done. intros q i _ _ Ei Hle. destruct Hw as [Hw|Hw]; [congruence|].
    exists i. by rewrite Hw.
Qed.

Lemma release_inv n h p s l pc' :
  inv n s -> harts s h = Running p -> plain (pcs s p) = true -> plain pc' = true -> tholds p (pcs s p) l = true ->
  (forall l', tholds p pc' l' = negb (bool_decide (l' = l)) && tholds p (pcs s p) l') ->
  pc' <> Sleep1 -> pc' <> Sleep2 -> (pc' = Sleep3 -> cond s = false) ->
  (waker (pcs s p) = None \/ waker pc' = waker (pcs s p)) ->
  inv n (set_pc p pc' (set_own l None s)).
Proof.
  intros Hi Hr Hpl Hpl' Hhad Ht Hn1 Hn2 Hc Hw. apply (plain_step n h p s _ pc'); try done; [|by left|naive_solver|].
  - apply (lock_release s _ h p pc') with (l0 := l); try done; [|apply Hi].
    intros h' E. exact (po_one _ _ (i_proc _ _ Hi p) h' h E Hr).
  - cbn [cond set_pc set_own]. intros Hcond. assert (Hn3 : pc' <> Sleep3) by (intros E; by rewrite Hc in Hcond).
    revert Hcond. apply (wake_plain n h p s (set_pc p pc' (set_own l None s)) pc'); try done.
    intros q i _ _ Ei Hle. destruct Hw as [Hw|Hw]; [congruence|]. exists i. by rewrite Hw.
Qed.

Lemma local_inv n h p s pc' :
  inv n s -> harts s h = Running p -> plain (pcs s p) = true -> plain pc' = true -> pc' <> Sleep3 ->
  (forall l', tholds p pc' l' = tholds p (pcs s p) l') ->
  (pc' = Sleep1 \/ pc' = Sleep2 -> cond s = false) ->
  (forall q i, (q < n)%nat -> sleeping s q -> waker (pcs s p) = Some i -> (i <= q)%nat -> exists j, waker pc' = Some j /\ (j <= q)%nat) ->
  inv n (set_pc p pc' s).
Proof.
  intros Hi Hr Hpl Hpl' Hn3 Ht Hc Hw. apply (plain_step n h p s _ pc'); try done; [|by left|].
  - apply (lock_keep s _ h p pc'); try done; [|apply Hi].
    intros h' E. exact (po_one _ _ (i_proc _ _ Hi p) h' h E Hr).
  - by apply (wake_plain n h p s _ pc').
Qed.

(** Towards sched(): the state is changed under p->lock. *)
Lemma to_switch_inv n h p s s' k x :
  inv n s -> harts s h = Running p -> tholds p (pcs s p) = tholds p (Swtch k) -> waker (pcs s p) = None ->
  harts s' = harts s -> pcs s' = upd p (Swtch k) (pcs s) -> states s' = upd p x (states s) -> owner s' = owner s -> cond s' = cond s ->
  (forall q, q <> p -> asl s' q = asl s q) -> (asl s' p = true <-> k = Tidy) -> saved k = true -> x <> RUNNING ->
  (x = SLEEPING -> k = Tidy /\ pcs s p = Sleep3) -> (k = Dead -> x = ZOMBIE) -> inv n s'.
Proof.
  intros Hi Hr Ht Hwk Hh Hpc Hst Ho Hc Ha Hap Hk Hx Hxs Hxd. pose proof (i_proc _ _ Hi p) as Hp. split.
  - apply (lock_keep s s' h p (Swtch k)); try done; [|apply Hi|intros l; by rewrite Ht].
    intros h' E. exact (po_one _ _ Hp h' h E Hr).
  - intros q. destruct (decide (q = p)) as [->|Hne].
    + split; rewrite ?Hh, ?Hpc, ?Hst, ?upd_eq; try done.
      * apply Hp.
      * intros E. by specialize (E h).
      * intros k' [= <-]. naive_solver.
      * intros E. right. f_equal. naive_solver.
      * rewrite Hap. split; [intros ->; by right|intros [E|E]; [done|by injection E]].
      * intros [E|E]; done.
    + apply (others_ok n s s' h p); try done; [|by left]. intros y Hy. rewrite Hpc, Hst, !upd_ne by done. by rewrite Ha.
  - apply (wake_keep n s s' p); try done; [intros q Hq; by rewrite Hpc, upd_ne|apply Hi|by rewrite Hc|].
    intros q Hq _ Hsl. split; [|intros i; congruence]. unfold sleeping in *. rewrite Hpc, Hst in Hsl.
    destruct (decide (q = p)) as [->|Hne]; [|by rewrite !upd_ne in Hsl]. rewrite !upd_eq in Hsl.
    destruct Hsl as [Hsl|Hsl]; [|done]. right. by apply Hxs.
Qed.

(** The switch itself. *)
Lemma swtch_inv n h p s k : inv n s -> harts s h = Running p -> pcs s p = Swtch k -> inv n (set_hart h (Done p) (set_pc p k s)).
Proof.
  intros Hi Hr Hpc. pose proof Hi as [Hl Hps Hw]. pose proof (Hps p) as Hp. destruct (po_back _ _ Hp k Hpc) as (Hk & Hks & Hkd).
  pose proof (po_run _ _ Hp h Hr) as Hst. rewrite Hpc in Hst. cbn in Hst.
  assert (Hat : forall h', upd h (Done p) (harts s) h' <> Running p).
  { intros h'. unfold upd. case_decide; [done|]. intros E. by rewrite (po_one _ _ Hp h' h E Hr) in *. }
  split.
  - intros h' l. cbn [owner set_hart set_pc]. rewrite Hl. unfold hholds. cbn [harts pcs set_hart set_pc].
    unfold upd at 1. case_decide as E; [subst; by rewrite Hr, Hpc|].
    destruct (harts s h') eqn:E'; try done. rewrite upd_ne; [done|]. intros ->. by rewrite (po_one _ _ Hp h' h E' Hr) in *.
  - intros q. destruct (decide (q = p)) as [->|Hne].
    + split; cbn [harts pcs states asl cond set_hart set_pc]; rewrite ?upd_eq; try done.
      * intros h' h'' E. by apply Hat in E.
      * intros h' E. by apply Hat in E.
      * intros k' ->. done.
      * intros E. destruct (po_sleep _ _ Hp E) as [E'|E']; [congruence|]. left. rewrite E' in Hpc. congruence.
      * rewrite (po_asl _ _ Hp), Hpc. split; [intros [E|E]; [done|left; congruence]|].
        intros [-> | ->]; [by right|done].
      * intros [-> | ->]; done.
    + apply (proc_other s _ q); [apply Hps| |cbn; by rewrite upd_ne|done|done|apply (po_test _ _ (Hps q))].
      intros h'. cbn. unfold upd. case_decide; [|done]. subst. rewrite Hr. split; congruence.
  - cbn [cond set_hart set_pc]. intros Ht q Hq Hsl. assert (Hs : sleeping s q).
    { unfold sleeping in *. cbn in Hsl. destruct (decide (q = p)) as [->|Hne]; [|by rewrite upd_ne in Hsl].
      rewrite upd_eq in Hsl. destruct Hsl as [?|Hsl]; [by left|by rewrite Hsl in Hk]. }
    destruct (Hw Ht q Hq Hs) as (h0 & q0 & i & E & Ei & Hle). exists h0, q0, i. cbn.
    assert (q0 <> p) by (intros ->; by rewrite Hpc in Ei). rewrite !upd_ne; [done|done|congruence].
Qed.

Lemma tidy_inv n h p s : inv n s -> harts s h = Running p -> pcs s p = Tidy -> inv n (set_pc p SleepRel (set_asl p false s)).
Proof.
  intros Hi Hr Hpc. pose proof (i_proc _ _ Hi p) as Hp. split.
  - apply (lock_keep s _ h p SleepRel); try done; [|apply Hi|by rewrite Hpc].
    intros h' E. exact (po_one _ _ Hp h' h E Hr).
  - intros q. destruct (decide (q = p)) as [->|Hne].
    + apply (me_ok s _ h p); cbn; rewrite ?upd_eq; try done; [|intros [E|E]; done].
      apply (plain_running s h); try done. by rewrite Hpc.
    + apply (others_ok n s _ h p); try done; [|by left]. intros x Hx. cbn. by rewrite !upd_ne.
  - apply (wake_plain n h p s _ SleepRel); try done. intros q i _ _ E. by rewrite Hpc in E.
Qed.

(** wakeup()'s test of process [i], with its lock held. *)
Lemma wake_test_inv n h p s i : inv n s -> harts s h = Running p -> pcs s p = WakeTest i ->
  inv n (set_pc p (WakeRel i) (if bool_decide (states s i = SLEEPING) && asl s i then set_st i RUNNABLE s else s)).
Proof.
  intros Hi Hr Hpc. pose proof Hi as [Hl Hps Hw]. pose proof (Hps p) as Hp.
  assert (Hrun : states s p = RUNNING) by (apply (plain_running s h); try done; by rewrite Hpc).
  assert (Hoff : states s i = SLEEPING \/ pcs s i = Sleep3 -> i <> p /\ forall h', harts s h' <> Running i).
  { intros Hs. assert (i <> p) by (intros ->; destruct Hs; congruence). split; [done|]. intros h' E.
    assert (O1 : owner s (PL i) = Some h) by (apply Hl; unfold hholds; rewrite Hr, Hpc; cbn; by rewrite bool_decide_true).
    assert (O2 : owner s (PL i) = Some h').
    { apply Hl. unfold hholds. rewrite E. destruct Hs as [Hs|Hs].
      - destruct (po_sleep _ _ (Hps i) Hs) as [-> | ->]; by apply bool_decide_eq_true.
      - rewrite Hs. by apply bool_decide_eq_true. }
    congruence. }
  set (s0 := if bool_decide (states s i = SLEEPING) && asl s i then set_st i RUNNABLE s else s). set (s' := set_pc p (WakeRel i) s0).
  assert (E1 : harts s' = harts s) by (unfold s', s0; by destruct (_ && _)).
  assert (E2 : pcs s' = upd p (WakeRel i) (pcs s)) by (unfold s', s0; by destruct (_ && _)).
  assert (E3 : asl s' = asl s) by (unfold s', s0; by destruct (_ && _)).
  assert (E4 : owner s' = owner s) by (unfold s', s0; by destruct (_ && _)).
  assert (E5 : cond s' = cond s) by (unfold s', s0; by destruct (_ && _)).
  assert (E6 : states s' = states s \/ states s i = SLEEPING /\ states s' = upd i RUNNABLE (states s)).
  { unfold s', s0. case_bool_decide; cbn [andb]; [|by left]. destruct (asl s i); [by right|by left]. }
  assert (E7 : states s' i <> SLEEPING).
  { unfold s', s0. case_bool_decide as E; cbn [andb]; [|done]. destruct (asl s i) eqn:Ea; [cbn; by rewrite upd_eq|].
    destruct (po_sleep _ _ (Hps i) E) as [Hx|Hx]; assert (asl s i = true) by (apply (po_asl _ _ (Hps i)); auto); congruence. }
  clearbody s'. clear s0. split.
  - apply (lock_keep s s' h p (WakeRel i)); try done; [|by rewrite Hpc]. intros h' E. exact (po_one _ _ Hp h' h E Hr).
  - intros q. destruct (decide (q = p)) as [->|Hne].
    + apply (me_ok s s' h p); rewrite ?E2, ?E3, ?upd_eq; try done.
      * destruct E6 as [-> |[Hs ->]]; [done|]. rewrite upd_ne; [done|]. intros ->. congruence.
      * apply plain_asl; [done|by rewrite Hpc].
      * intros [E|E]; done.
    + destruct (decide (q = i /\ states s i = SLEEPING)) as [[-> Hs]|Hn].
      * destruct (Hoff (or_introl Hs)) as [_ Hnr]. destruct (Hps i) as [H1 H2 H3 H4 H5 H6 H7 H8]. destruct (H3 Hnr) as [Hsv _].
        destruct E6 as [E6|[_ E6]]; [by rewrite E6 in E7|].
        split; rewrite ?E1, ?E2, ?E3, ?E5, ?E6, ?upd_eq, ?(upd_ne p i) by done; try done.
        -- intros h' E. by apply Hnr in E.
        -- intros k E. by rewrite E in Hsv.
        -- intros E. by rewrite H5 in Hs.
      * apply (proc_other s s' q); rewrite ?E1, ?E2, ?E3, ?E5, ?upd_ne by done; try done; [|apply (po_test _ _ (Hps q))].
        destruct E6 as [-> |[Hs ->]]; [done|]. rewrite upd_ne; [done|]. intros ->. by apply Hn.
  - apply (wake_keep n s s' p); try done; [intros q Hq; by rewrite E2, upd_ne|by rewrite E5|].
    intros q Hq _ Hsl. unfold sleeping in Hsl. rewrite E2 in Hsl.
    assert (Hqp : q <> p).
    { intros ->. rewrite upd_eq in Hsl. destruct Hsl as [Hsl|Hsl]; [|done]. destruct E6 as [E6|[Hs E6]]; rewrite E6 in Hsl; [congruence|].
      rewrite upd_ne in Hsl; [congruence|]. intros ->. congruence. }
    rewrite upd_ne in Hsl by done.
    assert (Hqi : q <> i).
    { intros ->. destruct Hsl as [Hsl|Hsl]; [done|]. destruct (Hoff (or_intror Hsl)) as [_ Hnr].
      apply (running_somewhere s i (Hps i)); [by rewrite Hsl|done]. }
    split.
    + destruct Hsl as [Hsl|Hsl]; [left|by right]. destruct E6 as [E6|[_ E6]]; rewrite E6 in Hsl; [done|]. by rewrite upd_ne in Hsl.
    + rewrite Hpc, E2, upd_eq. cbn. intros j [= <-] Hle. exists (S i). split; [done|]. lia.
Qed.

Ltac thread_side Hp Hpc :=
  rewrite ?Hpc; try done; try (by left); try (cbn; by rewrite bool_decide_true);
  try (intros [?|?]; done);
  try (intros l'; cbn; repeat case_bool_decide; subst; done);
  try (intros _; apply (po_test _ _ Hp); rewrite Hpc; auto; fail).

Lemma thread_step_inv n h p s s' : inv n s -> harts s h = Running p -> thread_step n h p s s' -> inv n s'.
Proof.
  intros Hi Hr Hst. pose proof (i_proc _ _ Hi p) as Hp.
  destruct Hst as [pc l pc' Hin Hpc Ho|pc l pc' Hin Hpc|pc' Hin Hpc|Hpc|Hpc|Hpc|Hpc|k Hpc|Hpc|Hpc|Hpc|Hpc|Hpc Hlt|i Hpc Hlt Hne Ho|i Hpc|i Hpc].
  - repeat (apply elem_of_cons in Hin as [[= -> -> ->]|Hin]); try (by apply elem_of_nil in Hin);
      apply (acquire_inv n h p s); thread_side Hp Hpc.
  - repeat (apply elem_of_cons in Hin as [[= -> -> ->]|Hin]); try (by apply elem_of_nil in Hin);
      apply (release_inv n h p s); thread_side Hp Hpc.
  - repeat (apply elem_of_cons in Hin as [-> |Hin]); try (by apply elem_of_nil in Hin);
      apply (local_inv n h p s); thread_side Hp Hpc.
  - apply (to_switch_inv n h p s _ YieldRel RUNNABLE); thread_side Hp Hpc.
    cbn. rewrite plain_asl; thread_side Hp Hpc.
  - apply (to_switch_inv n h p s _ Dead ZOMBIE); thread_side Hp Hpc.
    cbn. rewrite plain_asl; thread_side Hp Hpc.
  - destruct (cond s) eqn:Ec; apply (local_inv n h p s); thread_side Hp Hpc.
  - apply (to_switch_inv n h p s _ Tidy SLEEPING); thread_side Hp Hpc.
    + intros q Hq. cbn. by rewrite upd_ne.
    + cbn. by rewrite upd_eq.
  - by apply (swtch_inv n).
  - by apply (tidy_inv n h).
  - apply (plain_step n h p s _ Rel); thread_side Hp Hpc.
    + apply (lock_keep s _ h p Rel); thread_side Hp Hpc; [|apply Hi]. intros h' E. exact (po_one _ _ Hp h' h E Hr).
    + right. done.
  - apply (plain_step n h p s _ (Wake 0)); thread_side Hp Hpc.
    + apply (lock_keep s _ h p (Wake 0)); thread_side Hp Hpc; [|apply Hi]. intros h' E. exact (po_one _ _ Hp h' h E Hr).
    + by right.
    + cbn. intros _ q Hq _. exists h, p, 0%nat. rewrite upd_eq. split; [done|]. split; [done|lia].
  - apply (local_inv n h p s); thread_side Hp Hpc. cbn. intros q i Hq _ [= <-] Hle. lia.
  - apply (local_inv n h p s); thread_side Hp Hpc. cbn. intros q i Hq Hsl [= <-] Hle. exists (S p). split; [done|].
    assert (q <> p); [|lia]. intros ->. assert (Hs : states s p = RUNNING) by (apply (plain_running s h); thread_side Hp Hpc).
    destruct Hsl; congruence.
  - apply (acquire_inv n h p s); thread_side Hp Hpc. by right.
  - by apply (wake_test_inv n h).
  - apply (release_inv n h p s); thread_side Hp Hpc. by right.
Qed.

(** ** What it gives *)

Lemma boot_inv n s : boot n s -> inv n s.
Proof.
  intros [Hh Hp Ho]. split.
  - intros h l. rewrite Ho. unfold hholds. destruct (Hh h) as (i & -> & _). done.
  - intros p. destruct (Hp p) as (Epc & Est & Ea). split.
    + intros h h' E. destruct (Hh h) as (i & Ei & _). congruence.
    + intros h E. destruct (Hh h) as (i & Ei & _). congruence.
    + intros _. rewrite Epc. split; [done|]. intros E. rewrite E in Est. set_solver.
    + rewrite Epc. done.
    + rewrite Epc. done.
    + intros E. rewrite E in Est. set_solver.
    + rewrite Epc, Ea. split; [done|]. intros [E|E]; done.
    + rewrite Epc. intros [E|E]; done.
  - intros _ p _ [E|E]; destruct (Hp p) as (Epc & Est & _); [|congruence].
    rewrite E in Est. set_solver.
Qed.

Lemma reachable_inv n s0 s : boot n s0 -> rtc (step n) s0 s -> inv n s.
Proof.
  intros Hb Hs. assert (Hi : inv n s0) by (by apply boot_inv). clear Hb.
  induction Hs as [s|s s1 s2 Hst _ IH]; [done|]. apply IH. destruct Hst as [h Hst|h p Hr Hst].
  - by eapply sched_step_inv.
  - by eapply thread_step_inv.
Qed.

(** C2: no wakeup is lost, on any number of harts.  In every reachable state
    in which the condition holds, each process asleep on its channel (or about
    to be, having already given up the condition's lock in sleep()) has a
    wakeup() in progress that has yet to examine it; so once the lock is free,
    nobody sleeps while the condition holds. *)
Theorem no_lost_wakeup n s0 s :
  boot n s0 -> rtc (step n) s0 s -> cond s = true ->
  (forall p, (p < n)%nat -> sleeping s p ->
    exists h q i, harts s h = Running q /\ owner s LK = Some h /\ waker (pcs s q) = Some i /\ (i <= p)%nat) /\
  (owner s LK = None -> forall p, (p < n)%nat -> states s p <> SLEEPING).
Proof.
  intros Hb Hs Hc. pose proof (reachable_inv n s0 s Hb Hs) as Hi.
  assert (Hw : forall p, (p < n)%nat -> sleeping s p ->
    exists h q i, harts s h = Running q /\ owner s LK = Some h /\ waker (pcs s q) = Some i /\ (i <= p)%nat).
  { intros p Hp Hsl. destruct (i_wake _ _ Hi Hc p Hp Hsl) as (h & q & i & E & Ei & Hle). exists h, q, i. split; [done|]. split; [|done].
    apply (i_lock _ _ Hi). unfold hholds. rewrite E. destruct (pcs s q); try done; cbn; by rewrite ?orb_true_r. }
  split; [done|]. intros Ho p Hp E. destruct (Hw p Hp (or_introl E)) as (h & q & i & _ & Ho' & _). congruence.
Qed.

(** C8: scheduling is exclusive and sched() never panics.  In every reachable
    state at most one hart runs a process; a running process is RUNNING until
    the moment it calls sched(); a process no hart runs is not RUNNING and is
    parked at a switch; and when it calls sched() its hart holds p->lock and
    no other lock, and its state has been changed. *)
Theorem scheduling_safe n s0 s :
  boot n s0 -> rtc (step n) s0 s ->
  (forall h h' p, harts s h = Running p -> harts s h' = Running p -> h = h') /\
  (forall h p, harts s h = Running p -> is_swtch (pcs s p) = false -> states s p = RUNNING) /\
  (forall p, (forall h, harts s h <> Running p) -> states s p <> RUNNING /\ saved (pcs s p) = true) /\
  (forall h p k, harts s h = Running p -> pcs s p = Swtch k ->
     (forall l, owner s l = Some h <-> l = PL p) /\ states s p <> RUNNING).
Proof.
  intros Hb Hs. pose proof (reachable_inv n s0 s Hb Hs) as Hi. split_and!.
  - intros h h' p. apply (i_proc _ _ Hi p).
  - intros h p Hr. apply (plain_running s h p); [apply Hi|done].
  - intros p Hn. destruct (po_off _ _ (i_proc _ _ Hi p) Hn). done.
  - intros h p k Hr Hpc. split.
    + intros l. rewrite (i_lock _ _ Hi). unfold hholds. rewrite Hr, Hpc. cbn. apply bool_decide_eq_true.
    + pose proof (po_run _ _ (i_proc _ _ Hi p) h Hr) as H. by rewrite Hpc in H.
Qed.

(** Two harts scanning, the condition true; one picks up process 0. *)
Module SchedSample.
Definition s0 : sys :=
  Sys (fun _ => Scan 0) (fun _ => Forkret) (fun p => if decide (p < 2)%nat then RUNNABLE else UNUSED) (fun _ => false) (fun _ => None) true.
Definition s1 : sys := set_hart 1 (Held 0) (set_own (PL 0) (Some 1%nat) s0).
Definition s2 : sys := set_hart 1 (Running 0) (set_st 0 RUNNING s1).
Definition s3 : sys := set_pc 0 User (set_own (PL 0) None s2).

Lemma boots : boot 2 s0.
Proof.
  split; [intros h; exists 0%nat; split; [done|lia]| |done].
  intros p. split; [done|]. split; [|done]. cbn. case_decide; set_solver.
Qed.

Lemma runs : rtc (step 2) s0 s3.
Proof.
  apply (rtc_l _ _ s1); [by apply (step_sched 2 _ _ 1), S_acquire|].
  apply (rtc_l _ _ s2); [by apply (step_sched 2 _ _ 1), S_switch|].
  apply (rtc_l _ _ s3); [|done]. apply (step_thread 2 _ _ 1 0); [done|].
  by apply (T_release 2 1 0 s2 Forkret (PL 0) User); [left|].
Qed.
End SchedSample.

Lemma no_lost_wakeup_witness : states SchedSample.s3 1 <> SLEEPING.
Proof.
  exact (proj2 (no_lost_wakeup 2 SchedSample.s0 SchedSample.s3 SchedSample.boots SchedSample.runs eq_refl) eq_refl 1%nat ltac:(lia)).
Defined.

Lemma scheduling_safe_witness : states SchedSample.s3 0 = RUNNING.
Proof.
  exact (proj1 (proj2 (scheduling_safe 2 SchedSample.s0 SchedSample.s3 SchedSample.boots SchedSample.runs)) 1%nat 0%nat eq_refl eq_refl).
Defined.
