(* ===== verification/Console.v ===== *)
(** * The console (kernel/uart.c, kernel/console.c, kernel/printf.c)

    The UART driver's transmit ring, the line discipline of the console input,
    and the kernel's printf().  The device is the [uartst] of Kernel.v. *)

From Stdlib Require Import ZArith Lia.
From stdpp Require Import base numbers list list_numbers gmap strings sorting.
From S2P Require Import Prelude Cstring Riscv Kalloc Vm Uvm Bytes Sleeplock Bio Log Store Fs Kernel.

(** ** uart.c *)

Definition RHR : Z := 0.
Definition THR : Z := 0.
Definition IER : Z := 1.
Definition IER_RX_ENABLE : Z := Z.shiftl 1 0.
Definition IER_TX_ENABLE : Z := Z.shiftl 1 1.
Definition FCR : Z := 2.
Definition FCR_FIFO_ENABLE : Z := Z.shiftl 1 0.
Definition FCR_FIFO_CLEAR : Z := Z.shiftl 3 1.
Definition LCR : Z := 3.
Definition LCR_EIGHT_BITS : Z := Z.shiftl 3 0.
Definition LCR_BAUD_LATCH : Z := Z.shiftl 1 7.
Definition LSR : Z := 5.
Definition LSR_RX_READY : Z := Z.shiftl 1 0.
Definition LSR_TX_IDLE : Z := Z.shiftl 1 5.

(** The device's side of the registers the driver uses after initialisation. *)
Definition read_LSR (u : uartst) : Z * uartst :=
  (Z.lor (if bool_decide (u_rx u = []) then 0 else LSR_RX_READY)
         (if (u_busy u =? 0)%nat then LSR_TX_IDLE else 0),
   set_u_busy (pred (u_busy u)) u).
Definition read_RHR (u : uartst) : Z * uartst :=
  match u_rx u with [] => (0, u) | c :: rx => (c, set_u_rx rx u) end.
Definition write_THR (c : Z) (u : uartst) : uartst :=
  set_u_busy (u_delay u (length (u_out u))) (set_u_out (u_out u ++ [u8 c]) u).

(** Configuration registers just hold what is written. *)
Definition write_reg (r v : Z) (u : uartst) : uartst := set_u_regs (<[r := v]> (u_regs u)) u.

Section Console.
Context {S : Type} {ops : BlockOps S}.
Notation st := (kst S).

Definition on_uart {A} (m : M uartst A) : M st A := on_dev (zoom uart_ set_uart m).
Definition ReadReg (f : uartst -> Z * uartst) : M st Z :=
  on_uart (fun u => let '(v, u') := f u in Ret v u').
Definition WriteReg (r v : Z) : M st unit :=
  on_uart (modify (if r =? THR then write_THR v else write_reg r v)).

Definition uacquire : M st unit := on_uart (lk_acquire u_lock set_u_lock).
Definition urelease : M st unit := on_uart (lk_release u_lock set_u_lock).

(** Writes to registers 0 and 1 in set-baud mode are configuration. *)
Definition uartinit : M st unit :=
  WriteReg IER 0 ;;
  WriteReg LCR LCR_BAUD_LATCH ;;
  on_uart (modify (write_reg 0 3)) ;;
  on_uart (modify (write_reg 1 0)) ;;
  WriteReg LCR LCR_EIGHT_BITS ;;
  WriteReg FCR (Z.lor FCR_FIFO_ENABLE FCR_FIFO_CLEAR) ;;
  WriteReg IER (Z.lor IER_TX_ENABLE IER_RX_ENABLE) ;;
  on_uart (modify (set_u_lock false)).

(** for(;;) ; once the kernel has panicked. *)
Definition freeze {A} : M st A := fun s => Block 0 s.

(** uartstart(): send while the device takes bytes. *)
Fixpoint uartstart_loop (fuel : nat) : M st unit :=
  match fuel with
  | O => panic "uartstart: fuel"
  | Datatypes.S k =>
      let* u := gets (fun s => uart_ (kdev s)) in
      if u_tx_w u =? u_tx_r u then ret tt
      else
        let* lsr := ReadReg read_LSR in
        if Z.land lsr LSR_TX_IDLE =? 0 then ret tt
        else
          let c := nthZ 0 (u_buf u) (u_tx_r u mod UART_TX_BUF_SIZE) in
          on_uart (modify (set_u_tx_r (u64 (u_tx_r u + 1)))) ;;
          wakeup chan_uart ;;
          WriteReg THR c ;;
          uartstart_loop k
  end.

(** The buffer holds at most UART_TX_BUF_SIZE bytes. *)
Definition uartstart : M st unit := uartstart_loop (Datatypes.S (Z.to_nat UART_TX_BUF_SIZE)).

Definition uartputc (c : Z) : M st unit :=
  uacquire ;;
  let* fz := gets (fun s => panicked (kdev s)) in
  if fz then freeze
  else
    let* u := gets (fun s => uart_ (kdev s)) in
    if u_tx_w u =? u64 (u_tx_r u + UART_TX_BUF_SIZE) then
      sleep chan_uart urelease ;; sleep_on chan_uart
    else
      on_uart (modify (fun u => set_u_buf (updZ (u_tx_w u mod UART_TX_BUF_SIZE) (u8 c) (u_buf u)) u)) ;;
      on_uart (modify (fun u => set_u_tx_w (u64 (u_tx_w u + 1)) u)) ;;
      uartstart ;;
      urelease.

(** Spinning on LSR until the transmit register is empty. *)
Fixpoint wait_tx_idle (fuel : nat) : M st unit :=
  match fuel with
  | O => panic "uartputc_sync: fuel"
  | Datatypes.S k =>
      let* lsr := ReadReg read_LSR in
      if Z.land lsr LSR_TX_IDLE =? 0 then wait_tx_idle k else ret tt
  end.

Definition uartputc_sync (c : Z) : M st unit :=
  let* fz := gets (fun s => panicked (kdev s)) in
  if fz then freeze
  else
    let* busy := gets (fun s => u_busy (uart_ (kdev s))) in
    wait_tx_idle (Datatypes.S busy) ;;
    WriteReg THR c.

Definition uartgetc : M st Z :=
  let* lsr := ReadReg read_LSR in
  if negb (Z.land lsr 1 =? 0) then ReadReg read_RHR else ret (-1).

(** ** printf.c *)

Definition BACKSPACE : Z := 0x100.
Definition ctrl (x : Z) : Z := x - 64.

Definition consputc (c : Z) : M st unit :=
  if c =? BACKSPACE then uartputc_sync 8 ;; uartputc_sync 32 ;; uartputc_sync 8
  else uartputc_sync c.

Fixpoint consputs (cs : list Z) : M st unit :=
  match cs with [] => ret tt | c :: cs' => consputc c ;; consputs cs' end.
End Console.

(** "0123456789abcdef" *)
Definition digits : list Z := [48; 49; 50; 51; 52; 53; 54; 55; 56; 57; 97; 98; 99; 100; 101; 102].

(** The do-while loop of printint(): least significant digit first. *)
Fixpoint int_digits (fuel : nat) (x base : Z) : list Z :=
  match fuel with
  | O => []
  | Datatypes.S k =>
      nthZ 0 digits (x mod base) :: (if x / base =? 0 then [] else int_digits k (x / base) base)
  end.

(** The characters printint() prints, in order.  A 32-bit number has at most
    32 digits. *)
Definition printint_chars (xx base : Z) (sign : bool) : list Z :=
  let neg := sign && (xx <? 0) in
  let x := if neg then u32 (- xx) else u32 xx in
  rev (int_digits 32 x base ++ (if neg then [45] else [])).

(** printptr(): sixteen hexadecimal digits from the top. *)
Fixpoint ptr_digits (n : nat) (x : Z) : list Z :=
  match n with
  | O => []
  | Datatypes.S k => nthZ 0 digits (Z.shiftr x (64 - 4)) :: ptr_digits k (u64 (Z.shiftl x 4))
  end.
Definition printptr_chars (x : Z) : list Z := [48; 120] ++ ptr_digits 16 x.

(** A variable argument: int, uint64 or char* (None for the null pointer). *)
Inductive arg := AInt (z : Z) | APtr (z : Z) | AStr (s : option (list Z)).

(** va_arg at each type; the caller passes what the format asks for. *)
Definition va_int (args : list arg) : Z := match args with AInt z :: _ => z | _ => 0 end.
Definition va_ptr (args : list arg) : Z := match args with APtr z :: _ => z | _ => 0 end.
Definition va_str (args : list arg) : option (list Z) := match args with AStr s :: _ => s | _ => None end.

(** "(null)" *)
Definition null_str : list Z := [40; 110; 117; 108; 108; 41].

(** The characters printf() prints for a format. *)
Fixpoint format (fmt : list Z) (args : list arg) : list Z :=
  match fmt with
  | [] => []
  | c :: fmt' =>
      if c =? 0 then []
      else if negb (c =? 37) then c :: format fmt' args
      else
        match fmt' with
        | [] => []
        | d :: fmt'' =>
            if d =? 0 then []
            else if d =? 100 then printint_chars (va_int args) 10 true ++ format fmt'' (tail args)
            else if d =? 120 then printint_chars (va_int args) 16 true ++ format fmt'' (tail args)
            else if d =? 112 then printptr_chars (va_ptr args) ++ format fmt'' (tail args)
            else if d =? 115 then
              match va_str args with
              | Some s => take (Z.to_nat (strlen s)) s
              | None => null_str
              end ++ format fmt'' (tail args)
            else if d =? 37 then 37 :: format fmt'' args
            else 37 :: d :: format fmt'' args
        end
  end.

(** A string literal as bytes. *)
Definition lit (s : string) : list Z := (fun a => Z.of_nat (Ascii.nat_of_ascii a)) <$> String.list_ascii_of_string s.

Section Printf.
Context {S : Type} {ops : BlockOps S}.
Notation st := (kst S).

Definition printf (fmt : list Z) (args : list arg) : M st unit :=
  let* locking := gets (fun s => pr_locking (kdev s)) in
  (if locking then on_dev (lk_acquire pr_lock set_pr_lock) else ret tt) ;;
  consputs (format fmt args) ;;
  (if locking then on_dev (lk_release pr_lock set_pr_lock) else ret tt).

(** panic() up to its endless loop. *)
Definition kpanic (s : list Z) : M st unit :=
  on_dev (modify (set_pr_locking false)) ;;
  printf (lit "panic: ") [] ;;
  printf s [] ;;
  printf [10] [] ;;
  on_dev (modify (set_panicked true)).

Definition printfinit : M st unit :=
  on_dev (modify (set_pr_lock false)) ;;
  on_dev (modify (set_pr_locking true)).

(** ** The process listings of proc.c *)

Definition state_name (x : procstate) : list Z :=
  lit match x with
      | UNUSED => "unused" | USED => "used" | SLEEPING => "sleep"
      | RUNNABLE => "runble" | RUNNING => "run" | ZOMBIE => "zombie"
      end.

Fixpoint procdump_loop (ps : list proc) : M st unit :=
  match ps with
  | [] => ret tt
  | p :: ps' =>
      (if bool_decide (p_state p = UNUSED) then ret tt
       else
         printf (lit "%d" ++ [9] ++ lit "%s" ++ [9] ++ lit "%s")
                [AInt (p_pid p); AStr (Some (state_name (p_state p))); AStr (Some (p_name p))] ;;
         printf [10] []) ;;
      procdump_loop ps'
  end.

Definition procdump : M st unit :=
  printf [10] [] ;;
  printf (lit "PID" ++ [9] ++ lit "STATUS" ++ [9] ++ lit "COMMAND") [] ;;
  printf [10] [] ;;
  let* ps := gets (fun s => procs (kproc s)) in
  procdump_loop ps.

(** The line drawing of proctree(), in UTF-8. *)
Definition branch : list Z := [226; 148; 148; 226; 148; 128; 226; 148; 128].

Fixpoint proctree_loop (table ps : list proc) : M st unit :=
  match ps with
  | [] => ret tt
  | p :: ps' =>
      (if bool_decide (p_state p = UNUSED) then ret tt
       else
         (if p_parent p =? NULL then
            printf (lit "PROCESS %s" ++ [9] ++ lit "PID: %d") [AStr (Some (p_name p)); AInt (p_pid p)]
          else
            let q := nthZ proc0 table (p_parent p) in
            printf (lit "PARENT %s" ++ [9] ++ lit "PID: %d" ++ [10] ++ branch ++ lit " PROCESS %s" ++ [9] ++ lit "PID: %d")
                   [AStr (Some (p_name q)); AInt (p_pid q); AStr (Some (p_name p)); AInt (p_pid p)]) ;;
         printf [10] []) ;;
      proctree_loop table ps'
  end.

Definition proctree : M st unit :=
  printf [10] [] ;;
  let* ps := gets (fun s => procs (kproc s)) in
  proctree_loop ps ps.

(** ** console.c *)

Definition on_cons {A} (m : M consst A) : M st A := on_dev (zoom cons_ set_cons m).
Definition cacquire : M st unit := on_cons (lk_acquire c_lock set_c_lock).
Definition crelease : M st unit := on_cons (lk_release c_lock set_c_lock).
Definition getc : M st consst := gets (fun s => cons_ (kdev s)).

(** One byte from the caller's buffer; a kernel source is a byte list. *)
Fixpoint consolewrite_loop (n : nat) (src : source) (i : Z) : M st Z :=
  match n with
  | O => ret i
  | Datatypes.S k =>
      let* r := on_fs (either_copyin src 1) in
      if fst r =? -1 then ret i
      else
        uartputc (nthZ 0 (snd r) 0) ;;
        consolewrite_loop k (source_add src 1) (i + 1)
  end.
Definition consolewrite (src : source) (n : Z) : M st Z := consolewrite_loop (Z.to_nat n) src 0.

(** The loop of consoleread() from [n] bytes to go; the bytes a kernel
    destination receives are accumulated in [acc].  [inl] when it goes to
    sleep, with the count still to go. *)
Fixpoint consoleread_loop (fuel : nat) (dst : dest) (target n : Z) (acc : list Z) : M st (Z + Z * list Z) :=
  if 0 <? n then
    match fuel with
    | O => panic "consoleread: fuel"
    | Datatypes.S k =>
        let* c := getc in
        if c_r c =? c_w c then
          let* p := myproc in
          let* kl := killed p in
          if negb (kl =? 0) then crelease ;; ret (inr (-1, acc))
          else sleep chan_cons crelease ;; ret (inl n)
        else
          let ch := nthZ 0 (c_buf c) (c_r c mod INPUT_BUF_SIZE) in
          on_cons (modify (fun c => set_c_r (u32 (c_r c + 1)) c)) ;;
          if ch =? ctrl 68 then
            (if n <? target then on_cons (modify (fun c => set_c_r (u32 (c_r c - 1)) c)) else ret tt) ;;
            crelease ;;
            ret (inr (s32 (u32 (target - n)), acc))
          else
            let* r := on_fs (either_copyout dst [ch]) in
            if fst r =? -1 then crelease ;; ret (inr (s32 (u32 (target - n)), acc))
            else if ch =? 10 then crelease ;; ret (inr (s32 (u32 (target - (n - 1))), acc ++ snd r))
            else consoleread_loop k (dest_add dst 1) target (n - 1) (acc ++ snd r)
    end
  else crelease ;; ret (inr (s32 (u32 (target - n)), acc)).

(** Each turn consumes a byte of the request.  [target] is n as a uint, which
    the comparison [n < target] uses for both sides. *)
Definition consoleread (dst : dest) (n : Z) : M st (Z * list Z) :=
  cacquire ;;
  let* r := consoleread_loop (Z.to_nat n) dst (u32 n) n [] in
  match r with
  | inl _ => sleep_on chan_cons
  | inr x => ret x
  end.

(** ^U: erase back to the start of the line being edited. *)
Fixpoint kill_line (fuel : nat) : M st unit :=
  match fuel with
  | O => panic "consoleintr: fuel"
  | Datatypes.S k =>
      let* c := getc in
      if negb (c_e c =? c_w c) && negb (nthZ 0 (c_buf c) (u32 (c_e c - 1) mod INPUT_BUF_SIZE) =? 10) then
        on_cons (modify (fun c => set_c_e (u32 (c_e c - 1)) c)) ;;
        consputc BACKSPACE ;;
        kill_line k
      else ret tt
  end.

(** The edited line is in the buffer, so at most INPUT_BUF_SIZE characters
    long. *)
Definition consoleintr (c : Z) : M st unit :=
  cacquire ;;
  (if c =? ctrl 80 then procdump
   else if c =? ctrl 85 then kill_line (Datatypes.S (Z.to_nat INPUT_BUF_SIZE))
   else if (c =? ctrl 72) || (c =? 127) then
     let* x := getc in
     if negb (c_e x =? c_w x) then
       on_cons (modify (fun x => set_c_e (u32 (c_e x - 1)) x)) ;;
       consputc BACKSPACE
     else ret tt
   else
     let* x := getc in
     if negb (c =? 0) && (u32 (c_e x - c_r x) <? INPUT_BUF_SIZE) then
       let c := if c =? 13 then 10 else c in
       consputc c ;;
       on_cons (modify (fun x => set_c_buf (updZ (c_e x mod INPUT_BUF_SIZE) (u8 c) (c_buf x)) x)) ;;
       on_cons (modify (fun x => set_c_e (u32 (c_e x + 1)) x)) ;;
       let* x := getc in
       if (c =? 10) || (c =? ctrl 68) || (u32 (c_e x - c_r x) =? INPUT_BUF_SIZE) then
         on_cons (modify (fun x => set_c_w (c_e x) x)) ;;
         wakeup chan_cons
       else ret tt
     else ret tt) ;;
  crelease.

Fixpoint uartintr_loop (fuel : nat) : M st unit :=
  match fuel with
  | O => panic "uartintr: fuel"
  | Datatypes.S k =>
      let* c := uartgetc in
      if c =? -1 then ret tt else consoleintr c ;; uartintr_loop k
  end.

(** All the bytes in the receive FIFO, then the transmit buffer. *)
Definition uartintr : M st unit :=
  let* rx := gets (fun s => u_rx (uart_ (kdev s))) in
  uartintr_loop (Datatypes.S (length rx)) ;;
  uacquire ;; uartstart ;; urelease.

Definition CONSOLE : Z := 1.

Definition consoleinit : M st unit :=
  on_cons (modify (set_c_lock false)) ;;
  uartinit ;;
  on_file (modify (fun f => set_devsw (updZ CONSOLE (Some ConsoleDev) (devsw f)) f)).
End Printf.
