(* ===== verification/File.v ===== *)
(** * Open files and pipes (kernel/file.c, kernel/pipe.c)

    A file pointer is its index in ftable.file[], [NULL] for 0.  A pipe is
    known by the address of its page. *)

From Stdlib Require Import ZArith Lia.
From stdpp Require Import base numbers list list_numbers gmap strings sorting.
From S2P Require Import Prelude Cstring Riscv Kalloc Vm Uvm Bytes Sleeplock Bio Log Store Fs Kernel Console.

Section File.
Context {S : Type} {ops : BlockOps S}.
Context (kend : Z).
Notation st := (kst S).

Definition file_at (s : filest) (f : Z) : file := nthZ file0 (ftable s) f.
Definition upd_file (f : Z) (g : file -> file) (s : filest) : filest :=
  set_ftable (updZ f (g (file_at s f)) (ftable s)) s.
Definition getf {A} (f : Z) (g : file -> A) : M st A := gets (fun s => g (file_at (kfile s) f)).
Definition setf (f : Z) (g : file -> file) : M st unit := on_file (modify (upd_file f g)).
Definition ftacquire : M st unit := on_file (lk_acquire ft_lock set_ft_lock).
Definition ftrelease : M st unit := on_file (lk_release ft_lock set_ft_lock).

Definition fileinit : M st unit := on_file (modify (set_ft_lock false)).

(** The scan of filealloc(), from entry [f]. *)
Fixpoint filealloc_loop (n : nat) (f : Z) : M st Z :=
  match n with
  | O => ftrelease ;; ret NULL
  | Datatypes.S k =>
      let* r := getf f f_ref in
      if r =? 0 then
        setf f (set_f_ref 1) ;;
        ftrelease ;;
        ret f
      else filealloc_loop k (f + 1)
  end.
Definition filealloc : M st Z := ftacquire ;; filealloc_loop (Z.to_nat NFILE) 0.

Definition filedup (f : Z) : M st Z :=
  ftacquire ;;
  let* r := getf f f_ref in
  if r <? 1 then panic "filedup"
  else
    setf f (fun x => set_f_ref (f_ref x + 1) x) ;;
    ftrelease ;;
    ret f.

(** ** Pipes *)

(** A page fresh from kalloc(), which fills it with 5. *)
Definition pipe0 : pipe := Pipe false (repeat 5 (Z.to_nat PIPESIZE)) 0 0 false false.
Definition pipe_at (s : filest) (pi : Z) : pipe := default pipe0 (pipes s !! pi).
Definition upd_pipe (pi : Z) (g : pipe -> pipe) (s : filest) : filest :=
  set_pipes (<[pi := g (pipe_at s pi)]> (pipes s)) s.
Definition getpi {A} (pi : Z) (g : pipe -> A) : M st A := gets (fun s => g (pipe_at (kfile s) pi)).
Definition setpi (pi : Z) (g : pipe -> pipe) : M st unit := on_file (modify (upd_pipe pi g)).
Definition piacquire (pi : Z) : M st unit :=
  on_file (lk_acquire (fun s => pi_lock (pipe_at s pi)) (fun b => upd_pipe pi (set_pi_lock b))).
Definition pirelease (pi : Z) : M st unit :=
  on_file (lk_release (fun s => pi_lock (pipe_at s pi)) (fun b => upd_pipe pi (set_pi_lock b))).

Definition pipeclose (pi : Z) (writable : bool) : M st unit :=
  piacquire pi ;;
  (if writable then
     setpi pi (set_writeopen false) ;;
     wakeup (chan_nread pi)
   else
     setpi pi (set_readopen false) ;;
     wakeup (chan_nwrite pi)) ;;
  let* p := getpi pi (fun x => x) in
  if negb (readopen p) && negb (writeopen p) then
    pirelease pi ;;
    on_mem (kfree kend pi) ;;
    on_file (modify (fun s => set_pipes (delete pi (pipes s)) s))
  else pirelease pi.

(** Another hart can kill() the process while it is in pipewrite(), which takes
    no lock that kill() needs: [kills i] says whether such a call gets in before
    killed(pr) is evaluated for byte [i].  The process is running, so all
    kill() does to it is to set p->killed. *)
Context (kills : Z -> bool).

(** pipewrite()'s loop from byte [i]: [inl i] when it goes to sleep with [i]
    bytes written, [inr r] when it returns [r].  Each turn writes a byte. *)
Fixpoint pipewrite_loop (fuel : nat) (pi addr n i : Z) : M st (Z + Z) :=
  if i <? n then
    match fuel with
    | O => panic "pipewrite: fuel"
    | Datatypes.S k =>
        let* p := getpi pi (fun x => x) in
        let* me := myproc in
        let* kl := (if readopen p then (if kills i then setmine (set_p_killed 1) else ret tt) ;; killed me
                    else ret 0) in
        if negb (readopen p) || negb (kl =? 0) then pirelease pi ;; ret (inr (-1))
        else if nwrite p =? u32 (nread p + PIPESIZE) then
          wakeup (chan_nread pi) ;;
          sleep (chan_nwrite pi) (pirelease pi) ;;
          ret (inl i)
        else
          let* r := ucopyin (u64 (addr + i)) 1 in
          if fst r =? -1 then
            wakeup (chan_nread pi) ;; pirelease pi ;; ret (inr i)
          else
            setpi pi (fun p => set_pi_data (updZ (nwrite p mod PIPESIZE) (nthZ 0 (snd r) 0) (pi_data p)) p) ;;
            setpi pi (fun p => set_nwrite (u32 (nwrite p + 1)) p) ;;
            pipewrite_loop k pi addr n (i + 1)
    end
  else wakeup (chan_nread pi) ;; pirelease pi ;; ret (inr i).

(** The part of pipewrite() that runs from [i] bytes on: at the start, and
    again each time sleep() returns with the lock. *)
Definition pipewrite_from (pi addr n i : Z) : M st (Z + Z) :=
  piacquire pi ;; pipewrite_loop (Z.to_nat (n - i)) pi addr n i.

Definition pipewrite (pi addr n : Z) : M st Z :=
  let* r := pipewrite_from pi addr n 0 in
  match r with
  | inl _ => sleep_on (chan_nwrite pi)
  | inr r => ret r
  end.

(** piperead()'s copy loop. *)
Fixpoint piperead_copy (n : nat) (pi addr i : Z) : M st Z :=
  match n with
  | O => ret i
  | Datatypes.S k =>
      let* p := getpi pi (fun x => x) in
      if nread p =? nwrite p then ret i
      else
        let ch := nthZ 0 (pi_data p) (nread p mod PIPESIZE) in
        setpi pi (fun p => set_nread (u32 (nread p + 1)) p) ;;
        let* r := ucopyout (u64 (addr + i)) [ch] in
        if r =? -1 then ret i else piperead_copy k pi addr (i + 1)
  end.

(** piperead() with the lock held, from its waiting loop on: [inl tt] when it
    goes to sleep. *)
Definition piperead_locked (pi addr n : Z) : M st (unit + Z) :=
  let* p := getpi pi (fun x => x) in
  if (nread p =? nwrite p) && writeopen p then
    let* me := myproc in
    let* kl := killed me in
    if negb (kl =? 0) then pirelease pi ;; ret (inr (-1))
    else sleep (chan_nread pi) (pirelease pi) ;; ret (inl tt)
  else
    let* i := piperead_copy (Z.to_nat n) pi addr 0 in
    wakeup (chan_nwrite pi) ;;
    pirelease pi ;;
    ret (inr i).

Definition piperead_from (pi addr n : Z) : M st (unit + Z) := piacquire pi ;; piperead_locked pi addr n.

Definition piperead (pi addr n : Z) : M st Z :=
  let* r := piperead_from pi addr n in
  match r with
  | inl _ => sleep_on (chan_nread pi)
  | inr r => ret r
  end.

(** ** file.c, continued *)

Definition fileclose (f : Z) : M st unit :=
  ftacquire ;;
  let* x := getf f (fun x => x) in
  if f_ref x <? 1 then panic "fileclose"
  else
    setf f (fun x => set_f_ref (f_ref x - 1) x) ;;
    if 0 <? f_ref x - 1 then ftrelease
    else
      setf f (set_f_ref 0) ;;
      setf f (set_f_type FD_NONE) ;;
      ftrelease ;;
      match f_type x with
      | FD_PIPE => pipeclose (f_pipe x) (f_writable x)
      | FD_INODE | FD_DEVICE => begin_op_ ;; on_fs (iput (f_ip x)) ;; end_op_
      | FD_NONE => ret tt
      end.

Definition pipealloc_bad (pi f0 f1 : Z) : M st (option (Z * Z)) :=
  (if negb (pi =? 0) then on_mem (kfree kend pi) else ret tt) ;;
  (if negb (f0 =? NULL) then fileclose f0 else ret tt) ;;
  (if negb (f1 =? NULL) then fileclose f1 else ret tt) ;;
  ret None.

(** The two files, [None] for -1. *)
Definition pipealloc : M st (option (Z * Z)) :=
  let* f0 := filealloc in
  if f0 =? NULL then pipealloc_bad 0 NULL NULL
  else
    let* f1 := filealloc in
    if f1 =? NULL then pipealloc_bad 0 f0 NULL
    else
      let* pi := on_mem kalloc in
      if pi =? 0 then pipealloc_bad 0 f0 f1
      else
        on_file (modify (fun s => set_pipes (<[pi := pipe0]> (pipes s)) s)) ;;
        setpi pi (set_readopen true) ;;
        setpi pi (set_writeopen true) ;;
        setpi pi (set_nwrite 0) ;;
        setpi pi (set_nread 0) ;;
        setpi pi (set_pi_lock false) ;;
        setf f0 (fun x => set_f_pipe pi (set_f_rw true false (set_f_type FD_PIPE x))) ;;
        setf f1 (fun x => set_f_pipe pi (set_f_rw false true (set_f_type FD_PIPE x))) ;;
        ret (Some (f0, f1)).

(** struct stat as copied to the user: dev, ino, type, nlink, padding to 16,
    size. *)
Definition stat_bytes (x : fstat) : list Z :=
  le_bytes 4 (st_dev x) ++ le_bytes 4 (st_ino x) ++ le_bytes 2 (st_type x) ++ le_bytes 2 (st_nlink x) ++
  repeat 0 4 ++ le_bytes 8 (st_size x).

Definition filestat (f addr : Z) : M st Z :=
  let* x := getf f (fun x => x) in
  match f_type x with
  | FD_INODE | FD_DEVICE =>
      on_fs (ilock (f_ip x)) ;;
      let* s := on_fs (stati (f_ip x)) in
      on_fs (iunlock (f_ip x)) ;;
      let* r := ucopyout addr (stat_bytes s) in
      if r <? 0 then ret (-1) else ret 0
  | _ => ret (-1)
  end.

Definition fileread (f addr n : Z) : M st Z :=
  let* x := getf f (fun x => x) in
  if negb (f_readable x) then ret (-1)
  else
    match f_type x with
    | FD_PIPE => piperead (f_pipe x) addr n
    | FD_DEVICE =>
        if (f_major x <? 0) || (NDEV <=? f_major x) then ret (-1)
        else
          let* d := gets (fun s => nthZ None (devsw (kfile s)) (f_major x)) in
          match d with
          | None => ret (-1)
          | Some ConsoleDev => let* r := consoleread (UserDst addr) n in ret (fst r)
          end
    | FD_INODE =>
        on_fs (ilock (f_ip x)) ;;
        let* r := on_fs (readi (f_ip x) (UserDst addr) (f_off x) (u32 n)) in
        (if 0 <? fst r then setf f (fun x => set_f_off (u32 (f_off x + fst r)) x) else ret tt) ;;
        on_fs (iunlock (f_ip x)) ;;
        ret (fst r)
    | FD_NONE => panic "fileread"
    end.

(** At most three blocks per transaction. *)
Definition FILEMAX : Z := (MAXOPBLOCKS - 1 - 1 - 2) / 2 * BSIZE.

(** The loop of filewrite() on an inode, each turn one transaction of at
    least a byte. *)
Fixpoint filewrite_loop (fuel : nat) (f addr n i : Z) : M st Z :=
  if i <? n then
    match fuel with
    | O => panic "filewrite: fuel"
    | Datatypes.S k =>
        let n1 := Z.min (n - i) FILEMAX in
        begin_op_ ;;
        let* x := getf f (fun x => x) in
        on_fs (ilock (f_ip x)) ;;
        let* x := getf f (fun x => x) in
        let* r := on_fs (writei (f_ip x) (UserSrc (u64 (addr + i))) (f_off x) n1) in
        (if 0 <? r then setf f (fun x => set_f_off (u32 (f_off x + r)) x) else ret tt) ;;
        on_fs (iunlock (f_ip x)) ;;
        end_op_ ;;
        if negb (r =? n1) then ret i else filewrite_loop k f addr n (i + r)
    end
  else ret i.

Definition filewrite (f addr n : Z) : M st Z :=
  let* x := getf f (fun x => x) in
  if negb (f_writable x) then ret (-1)
  else
    match f_type x with
    | FD_PIPE => pipewrite (f_pipe x) addr n
    | FD_DEVICE =>
        if (f_major x <? 0) || (NDEV <=? f_major x) then ret (-1)
        else
          let* d := gets (fun s => nthZ None (devsw (kfile s)) (f_major x)) in
          match d with
          | None => ret (-1)
          | Some ConsoleDev => consolewrite (UserSrc addr) n
          end
    | FD_INODE =>
        let* i := filewrite_loop (Z.to_nat n) f addr n 0 in
        ret (if i =? n then n else -1)
    | FD_NONE => panic "filewrite"
    end.
End File.
