(* ===== verification/PipeProof.v ===== *)
(** * Pipes: a bounded FIFO between processes

    pipewrite() and piperead() append to and take from a byte queue, segment by
    segment between the points where they sleep, with kill() calls of other
    harts allowed in between the turns of pipewrite(); the wakeups they issue
    leave no reader asleep on a pipe with bytes in it and no writer on one with
    room, except where such a kill() cuts a write short. *)

From Stdlib Require Import ZArith Lia.
From stdpp Require Import base numbers list list_numbers gmap strings sorting.
From S2P Require Import Prelude Cstring Riscv Kalloc Vm PageTable Uvm Ucopy Bytes Ring Sleeplock Bio Log Store Fs Kernel KernelProof Sample Console File.

Notation pring := (Ring.ring_ok 0 PIPESIZE (2 ^ 32)).
Definition pring_push := Ring.ring_push (0 : Z) PIPESIZE (2 ^ 32) eq_refl eq_refl ltac:(by exists 8388608).
Definition pring_pop := Ring.ring_pop (0 : Z) PIPESIZE (2 ^ 32) eq_refl eq_refl ltac:(by exists 8388608).
Definition pring_empty := Ring.ring_empty (0 : Z) PIPESIZE (2 ^ 32) eq_refl eq_refl ltac:(by exists 8388608).
Definition pring_full := Ring.ring_full (0 : Z) PIPESIZE (2 ^ 32) eq_refl eq_refl ltac:(by exists 8388608).

Section Pipe.
Context {S : Type} {ops : BlockOps S}.
Context (kend : Z) (Hkend : KERNBASE <= kend).
Notation st := (kst S).
Implicit Types (s : st) (p : pipe).

(** ** Copies of the running process *)

Definition space_ok (s : st) (l : list Z) : Prop := uview kend (umem (kfs s)) (root_of s) l.

Lemma ucopyin_byte s l va : space_ok s l -> 0 <= va < 2 ^ 64 ->
  match ubyte (mem_of s) (root_of s) va with
  | Some b => ucopyin va 1 s = Ret (0, [b]) (with_mem (umem (kfs s)) s)
  | None => exists bs, ucopyin va 1 s = Ret (-1, bs) (with_mem (umem (kfs s)) s)
  end.
Proof using Hkend.
  intros (Hwf & Huo & _) Hva. pose proof (copyin_loop_spec kend Hkend 2 (root_of s) [] va 1 _ l Hwf Huo Hva ltac:(lia)) as H.
  change (Z.to_nat 1) with 1%nat in H. cbn [ubytes app] in H. fold (mem_of s) in H. unfold ucopyin.
  destruct (ubyte (mem_of s) (root_of s) va) as [b|]; cbn [mbind option_bind] in H.
  - erewrite bind_Ret by reflexivity. by apply on_mem_Ret.
  - destruct H as [bs H]. exists bs. erewrite bind_Ret by reflexivity. by apply on_mem_Ret.
Qed.

(** Storing one byte at [va]. *)
Definition stored (m m' : mem) (root va b : Z) : Prop :=
  forall w, ubyte m' root w = if decide (w = va) then Some (u8 b) else ubyte m root w.

Lemma ucopyout_byte s l va b : space_ok s l -> 0 <= va < 2 ^ 64 ->
  exists r k, ucopyout va [b] s = Ret r (with_mem k s) /\ uview kend k (root_of s) l /\
    ((r = 0 /\ ubyte (mem_of s) (root_of s) va <> None /\ stored (mem_of s) (phys k) (root_of s) va b) \/
     (r = -1 /\ ubyte (mem_of s) (root_of s) va = None /\ (forall w, ubyte (phys k) (root_of s) w = ubyte (mem_of s) (root_of s) w))).
Proof using Hkend.
  intros Hs Hva. destruct (copyout_spec kend Hkend _ _ va [b] l Hs Hva) as (r & k & E & Hv & Hl & Hx & Hr).
  exists r, k. split; [unfold ucopyout; erewrite bind_Ret by reflexivity; by apply on_mem_Ret|]. split; [done|].
  assert (Hz : zlen [b] = 1) by done. rewrite Hz in *.
  assert (Hua : forall w, uaddr (phys k) (root_of s) w = uaddr (mem_of s) (root_of s) w) by (by apply uaddr_leaf_ext).
  destruct Hr as [[-> Hr]|[-> (i & Hi & Hn)]]; [left|right]; (split; [done|]).
  - assert (Hst : stored (mem_of s) (phys k) (root_of s) va b).
    { intros w. rewrite Hr. do 2 case_decide; try lia; try done. by replace (w - va) with 0 by lia. }
    split; [|done]. specialize (Hst va). rewrite decide_True in Hst by done. unfold ubyte in *. rewrite Hua in Hst.
    by destruct (uaddr (mem_of s) (root_of s) va).
  - replace (va + i) with va in Hn by lia. split; [unfold ubyte, mem_of; by rewrite Hn|].
    intros w. unfold ubyte. rewrite Hua. destruct (uaddr (mem_of s) (root_of s) w) as [x|] eqn:Ew; [|done]. cbn. f_equal.
    apply Hx. intros j Hj. replace (va + j) with va by lia. by rewrite Hn.
Qed.

(** ** The pipe's record *)

Definition pip (pi : Z) (s : st) : pipe := pipe_at (kfile s) pi.
Definition setP (pi : Z) (g : pipe -> pipe) (s : st) : st := set_kfile (upd_pipe pi g (kfile s)) s.

(** What no operation on pipe [pi] touches. *)
Definition rest (pi : Z) (s : st) :=
  (kdev s, store (kfs s), f_sb (kfs s), it_lock (kfs s), itable (kfs s),
   (ftable (kfile s), ft_lock (kfile s), devsw (kfile s), delete pi (pipes (kfile s)))).

Lemma pip_setP pi g s : pip pi (setP pi g s) = g (pip pi s).
Proof. unfold pip, setP, upd_pipe, pipe_at. cbn. by rewrite lookup_insert_eq. Qed.

Lemma rest_setP pi g s : rest pi (setP pi g s) = rest pi s.
Proof. unfold rest, setP, upd_pipe. cbn. by rewrite delete_insert_eq. Qed.

Lemma piacquire_ok pi s : pi_lock (pip pi s) = false -> piacquire pi s = Ret tt (setP pi (set_pi_lock true) s).
Proof. intros H. unfold piacquire, on_file, zoom, lk_acquire. unfold pip in H. by rewrite H. Qed.

Lemma pirelease_ok pi s : pi_lock (pip pi s) = true -> pirelease pi s = Ret tt (setP pi (set_pi_lock false) s).
Proof. intros H. unfold pirelease, on_file, zoom, lk_release. unfold pip in H. by rewrite H. Qed.

(** Contents of the pipe, its ends, and nothing else. *)
Definition holds (p : pipe) (q : list Z) : Prop := pring (pi_data p) (nread p) (nwrite p) q.
Definition ends (p : pipe) : bool * bool := (readopen p, writeopen p).

(** ** pipewrite *)

(** What a segment of pipewrite() from byte [i] on has done when it stops:
    [bs] appended, taken from user memory; then asleep with the pipe full, or
    returning the count. *)
Record write_post (pi addr n i : Z) (q : list Z) (s : st) (bs : list Z) (r : Z + Z) (s' : st) : Prop := {
  wp_rest : rest pi s' = rest pi s;
  wp_mem : umem (kfs s') = umem (kfs s);
  wp_lock : pi_lock (pip pi s') = false;
  wp_ends : ends (pip pi s') = ends (pip pi s);
  wp_holds : holds (pip pi s') (q ++ bs);
  wp_bytes : forall j, 0 <= j < zlen bs -> ubyte (mem_of s) (root_of s) (u64 (addr + (i + j))) = Some (nthZ 0 bs j);
  wp_idle : idle_table (kproc s');
  wp_res : match r with
    | inl k => k = i + zlen bs /\ k < n /\ zlen (q ++ bs) = PIPESIZE /\
        mapped (fun x y => if x =? curp (kproc s) then asleep (chan_nwrite pi) y
                           else woke (curp (kproc s)) (chan_nread pi) x y) (kproc s) (kproc s')
    | inr k => k = i + zlen bs /\
        (k = Z.max i n \/ k < n /\ ubyte (mem_of s) (root_of s) (u64 (addr + k)) = None) /\
        mapped (woke (curp (kproc s)) (chan_nread pi)) (kproc s) (kproc s')
    end
}.

Lemma write_stop pi addr n i q s k :
  idle_table (kproc s) -> pi_lock (pip pi s) = true -> holds (pip pi s) q ->
  k = i -> (i = Z.max i n \/ i < n /\ ubyte (mem_of s) (root_of s) (u64 (addr + i)) = None) ->
  exists s', (wakeup (chan_nread pi) ;; pirelease pi ;; ret (inr k : Z + Z)) s = Ret (inr k) s' /\
    write_post pi addr n i q s [] (inr k) s'.
Proof.
  intros Hi Hl Hq -> Hk. destruct (wakeup_kst (chan_nread pi) s Hi) as (ps & E & Hi' & Hm).
  erewrite bind_Ret by exact E. erewrite bind_Ret by (by apply pirelease_ok).
  eexists. split; [reflexivity|]. split; try done.
  - by rewrite rest_setP.
  - by rewrite pip_setP.
  - by rewrite pip_setP.
  - rewrite pip_setP, app_nil_r. exact Hq.
  - intros j Hj. change (zlen (@nil Z)) with 0 in Hj. lia.
  - cbn. change (zlen []) with 0. rewrite Z.add_0_r. done.
Qed.

Lemma write_sleep pi addr n i q s :
  idle_table (kproc s) -> pi_lock (pip pi s) = true -> holds (pip pi s) q -> zlen q = PIPESIZE -> i < n ->
  exists s', (wakeup (chan_nread pi) ;; sleep (chan_nwrite pi) (pirelease pi) ;; ret (inl i : Z + Z)) s = Ret (inl i) s' /\
    write_post pi addr n i q s [] (inl i) s'.
Proof.
  intros Hi Hl Hq Hz Hin. destruct (wakeup_kst (chan_nread pi) s Hi) as (ps & E & Hi' & [Hr Ha]).
  erewrite bind_Ret by exact E.
  erewrite bind_Ret by (apply (sleep_kst _ _ _ (setP pi (set_pi_lock false))); [done|intros ps'; by apply pirelease_ok|done]).
  eexists. split; [reflexivity|].
  assert (Hc : curp ps = curp (kproc s)) by (by rewrite Hr).
  assert (Hcr : 0 <= curp (kproc s) < NPROC) by apply Hi.
  assert (Hia : idle_table (upd_proc (curp ps) (asleep (chan_nwrite pi)) ps)).
  { apply idle_upd; [done|by rewrite Hc|]. cbn. apply Hi'. by rewrite Hc. }
  split; try done.
  - by rewrite <- (rest_setP pi (set_pi_lock false) s).
  - change (pi_lock (pip pi (setP pi (set_pi_lock false) s)) = false). by rewrite pip_setP.
  - change (ends (pip pi (setP pi (set_pi_lock false) s)) = ends (pip pi s)). by rewrite pip_setP.
  - change (holds (pip pi (setP pi (set_pi_lock false) s)) (q ++ [])). rewrite pip_setP, app_nil_r. exact Hq.
  - intros j Hj. change (zlen (@nil Z)) with 0 in Hj. lia.
  - cbn. change (zlen []) with 0. rewrite Z.add_0_r, app_nil_r. split_and!; try done.
    split; [by rewrite Hr|]. intros j Hj. cbn. destruct (Z.eqb_spec j (curp (kproc s))) as [->|Hne].
    + rewrite Hc, proc_at_upd_eq by (rewrite (it_len _ Hi'); done). rewrite Ha by done.
      unfold woke. by rewrite Z.eqb_refl.
    + rewrite proc_at_upd_ne by congruence. by apply Ha.
Qed.

(** The state after one byte. *)
Definition put (pi b : Z) (s : st) : st :=
  setP pi (fun p => set_nwrite (u32 (nwrite p + 1)) p)
    (setP pi (fun p => set_pi_data (updZ (nwrite p mod PIPESIZE) b (pi_data p)) p) (with_mem (umem (kfs s)) s)).

Lemma pip_put pi b s : pip pi (put pi b s) =
  set_nwrite (u32 (nwrite (pip pi s) + 1)) (set_pi_data (updZ (nwrite (pip pi s) mod PIPESIZE) b (pi_data (pip pi s))) (pip pi s)).
Proof. unfold put. by rewrite !pip_setP. Qed.

Lemma rest_put pi b s : rest pi (put pi b s) = rest pi s.
Proof. unfold put. by rewrite !rest_setP. Qed.

Lemma zlen_cons {A} (x : A) l : zlen (x :: l) = zlen l + 1.
Proof. unfold zlen. cbn [length]. lia. Qed.

Lemma nthZ_cons_S {A} (d x : A) l j : 0 < j -> nthZ d (x :: l) j = nthZ d l (j - 1).
Proof.
  intros H. unfold nthZ. destruct (Z.ltb_spec j 0), (Z.ltb_spec (j - 1) 0); try lia.
  replace (Z.to_nat j) with (Datatypes.S (Z.to_nat (j - 1))) by lia. done.
Qed.

Lemma write_post_put pi addr n i q s b bs r s' :
  i < n -> ubyte (mem_of s) (root_of s) (u64 (addr + i)) = Some b ->
  write_post pi addr n (i + 1) (q ++ [b]) (put pi b s) bs r s' -> write_post pi addr n i q s (b :: bs) r s'.
Proof.
  intros Hin Hb [H1 H2 H3 H4 H5 H6 H7 H8]. split; try done.
  - by rewrite H1, rest_put.
  - by rewrite H4, pip_put.
  - by rewrite <- app_assoc in H5.
  - intros j Hj. rewrite zlen_cons in Hj. destruct (decide (j = 0)) as [->|Hne]; [by rewrite Z.add_0_r|].
    rewrite nthZ_cons_S by lia. specialize (H6 (j - 1) ltac:(lia)). replace (i + 1 + (j - 1)) with (i + j) in H6 by lia. exact H6.
  - rewrite zlen_cons. destruct r as [k|k].
    + destruct H8 as (-> & ? & Hz & Hm). rewrite <- app_assoc in Hz. split_and!; try done; lia.
    + destruct H8 as (-> & Hk & Hm). split_and!; try done; [lia|]. destruct Hk as [Hk|Hk]; [left; lia|right; exact Hk].
Qed.

(** The process killed by another hart. *)
Definition struck (s : st) : st := set_kproc (upd_proc (curp (kproc s)) (set_p_killed 1) (kproc s)) s.

(** A segment of pipewrite() from byte [i] on that a kill() cut short: the
    bytes [bs] are in the pipe, nobody has been woken. *)
Record write_cut (pi addr i : Z) (q : list Z) (s : st) (bs : list Z) (s' : st) : Prop := {
  wc_rest : rest pi s' = rest pi s;
  wc_mem : umem (kfs s') = umem (kfs s);
  wc_lock : pi_lock (pip pi s') = false;
  wc_ends : ends (pip pi s') = ends (pip pi s);
  wc_holds : holds (pip pi s') (q ++ bs);
  wc_bytes : forall j, 0 <= j < zlen bs -> ubyte (mem_of s) (root_of s) (u64 (addr + (i + j))) = Some (nthZ 0 bs j);
  wc_proc : kproc s' = kproc (struck s)
}.

Section Kills.
Context (kills : Z -> bool).

(** The byte at which the segment from [i] on stops, and whether by a kill. *)
Definition write_end (pi addr n i : Z) (q : list Z) (s : st) (bs : list Z) (r : Z + Z) (s' : st) : Prop :=
  (forall j, 0 <= j < zlen bs -> kills (i + j) = false) /\
  if bool_decide (i + zlen bs < n) && kills (i + zlen bs) then r = inr (-1) /\ write_cut pi addr i q s bs s'
  else write_post pi addr n i q s bs r s'.

Lemma write_end_nil pi addr n i q s r s' :
  n <= i \/ kills i = false -> write_post pi addr n i q s [] r s' -> write_end pi addr n i q s [] r s'.
Proof.
  intros Hk H. split; [intros j Hj; change (zlen (@nil Z)) with 0 in Hj; lia|]. change (zlen []) with 0. rewrite Z.add_0_r.
  case_bool_decide; [|done]. destruct Hk as [? | ->]; [lia|done].
Qed.

Lemma write_cut_put pi addr i q s b bs s' :
  ubyte (mem_of s) (root_of s) (u64 (addr + i)) = Some b ->
  write_cut pi addr (i + 1) (q ++ [b]) (put pi b s) bs s' -> write_cut pi addr i q s (b :: bs) s'.
Proof.
  intros Hb [H1 H2 H3 H4 H5 H6 H7]. split; try done.
  - by rewrite H1, rest_put.
  - by rewrite H4, pip_put.
  - by rewrite <- app_assoc in H5.
  - intros j Hj. rewrite zlen_cons in Hj. destruct (decide (j = 0)) as [->|Hne]; [by rewrite Z.add_0_r|].
    rewrite nthZ_cons_S by lia. specialize (H6 (j - 1) ltac:(lia)). replace (i + 1 + (j - 1)) with (i + j) in H6 by lia. exact H6.
Qed.

Lemma write_end_put pi addr n i q s b bs r s' :
  i < n -> kills i = false -> ubyte (mem_of s) (root_of s) (u64 (addr + i)) = Some b ->
  write_end pi addr n (i + 1) (q ++ [b]) (put pi b s) bs r s' -> write_end pi addr n i q s (b :: bs) r s'.
Proof.
  intros Hin Hk Hb [Hj He]. split.
  - intros j Hr. rewrite zlen_cons in Hr. destruct (decide (j = 0)) as [->|Hne]; [by rewrite Z.add_0_r|].
    specialize (Hj (j - 1) ltac:(lia)). by replace (i + 1 + (j - 1)) with (i + j) in Hj by lia.
  - rewrite zlen_cons. replace (i + (zlen bs + 1)) with (i + 1 + zlen bs) by lia. destruct (bool_decide _ && _).
    + destruct He as [-> He]. split; [done|]. by apply write_cut_put.
    + by apply write_post_put.
Qed.

Lemma killed_struck s : idle_table (kproc s) -> 0 <= curp (kproc s) < NPROC ->
  killed (curp (kproc s)) (struck s) = Ret 1 (struck s).
Proof.
  intros Hi Hc. change (curp (kproc s)) with (curp (kproc (struck s))). rewrite killed_cur.
  - unfold cur, struck. cbn [kproc set_kproc curp upd_proc set_procs]. by rewrite proc_at_upd_eq by (by rewrite (it_len _ Hi)).
  - unfold struck. cbn [kproc set_kproc]. apply idle_upd; [done..|]. by apply Hi.
Qed.

Lemma write_cut_now pi addr i q s :
  pi_lock (pip pi s) = true -> holds (pip pi s) q ->
  exists s', (pirelease pi ;; ret (inr (-1) : Z + Z)) (struck s) = Ret (inr (-1)) s' /\ write_cut pi addr i q s [] s'.
Proof.
  intros Hl Hq. erewrite bind_Ret by (by apply pirelease_ok). eexists. split; [reflexivity|]. split; try done.
  - by rewrite rest_setP.
  - by rewrite pip_setP.
  - by rewrite pip_setP.
  - rewrite pip_setP, app_nil_r. exact Hq.
  - intros j Hj. change (zlen (@nil Z)) with 0 in Hj. lia.
Qed.

Lemma pipewrite_loop_spec pi addr n l fuel : forall i q s,
  n - i <= Z.of_nat fuel -> idle_table (kproc s) -> space_ok s l ->
  pi_lock (pip pi s) = true -> readopen (pip pi s) = true -> p_killed (cur s) = 0 -> holds (pip pi s) q ->
  exists r s' bs, pipewrite_loop kills fuel pi addr n i s = Ret r s' /\ write_end pi addr n i q s bs r s'.
Proof using Hkend.
  induction fuel as [|fuel IH]; intros i q s Hf Hi Hs Hl Hro Hk Hq; cbn [pipewrite_loop].
  - destruct (Z.ltb_spec i n); [lia|]. destruct (write_stop pi addr n i q s i Hi Hl Hq eq_refl) as (s' & E & H'); [left; lia|].
    exists (inr i), s', []. split; [done|]. apply write_end_nil; [by left|done].
  - destruct (Z.ltb_spec i n).
    2:{ destruct (write_stop pi addr n i q s i Hi Hl Hq eq_refl) as (s' & E & H'); [left; lia|].
        exists (inr i), s', []. split; [done|]. apply write_end_nil; [by left|done]. }
    erewrite bind_Ret by reflexivity. erewrite bind_Ret by reflexivity. fold (pip pi s). rewrite Hro.
    destruct (kills i) eqn:Hki.
    { erewrite bind_Ret by (erewrite bind_Ret by reflexivity; apply killed_struck; [done|apply Hi]). cbn [negb orb Z.eqb].
      destruct (write_cut_now pi addr i q s Hl Hq) as (s' & E & H'). exists (inr (-1)), s', []. split; [exact E|].
      split; [intros j Hj; change (zlen (@nil Z)) with 0 in Hj; lia|]. change (zlen []) with 0.
      rewrite Z.add_0_r, bool_decide_true, Hki by done. done. }
    erewrite bind_Ret by (by apply killed_cur). rewrite Hk. cbn [negb Z.eqb orb].
    unfold holds in Hq. unfold u32. rewrite (pring_full _ _ _ _ Hq). case_bool_decide as Hfull.
    { destruct (write_sleep pi addr n i q s Hi Hl Hq Hfull) as (s' & E & H'); [done|]. exists (inl i), s', [].
      split; [done|]. apply write_end_nil; [by right|done]. }
    pose proof (ucopyin_byte s l (u64 (addr + i)) Hs (u64_range _)) as Hc.
    destruct (ubyte (mem_of s) (root_of s) (u64 (addr + i))) as [b|] eqn:Hb.
    2:{ destruct Hc as [bs Hc]. erewrite bind_Ret by exact Hc. cbn [fst Z.eqb].
        destruct (write_stop pi addr n i q (with_mem (umem (kfs s)) s) i Hi Hl Hq eq_refl) as (s' & E & [H1 H2 H3 H4 H5 H6 H7 H8]); [by right|].
        exists (inr i), s', []. split; [exact E|]. apply write_end_nil; [by right|]. by split. }
    erewrite bind_Ret by exact Hc. change (fst (0, [b]) =? -1) with false. cbv iota.
    erewrite bind_Ret by reflexivity. erewrite bind_Ret by reflexivity. change (nthZ 0 (snd (0, [b])) 0) with b.
    destruct (IH (i + 1) (q ++ [b]) (put pi b s)) as (r & s' & bs & E & Hp).
    + lia.
    + exact Hi.
    + exact Hs.
    + by rewrite pip_put.
    + by rewrite pip_put.
    + exact Hk.
    + rewrite pip_put. unfold holds. cbn. pose proof (Ring.ring_len _ _ _ _ _ _ _ Hq). apply pring_push; [exact Hq|lia].
    + exists r, s', (b :: bs). split; [exact E|]. by apply write_end_put.
Qed.

(** A call that found the read end closed, or its process killed. *)
Record refused (pi : Z) (s s' : st) : Prop := {
  rf_rest : rest pi s' = rest pi s;
  rf_fs : kfs s' = kfs s;
  rf_pipe : pip pi s' = pip pi s;
  rf_proc : kproc s' = kproc s
}.

Lemma unlock_lock p : pi_lock p = false -> set_pi_lock false (set_pi_lock true p) = p.
Proof. destruct p. cbn. by intros ->. Qed.

Lemma refused_ok pi s s1 : pi_lock (pip pi s) = false -> s1 = setP pi (set_pi_lock true) s ->
  exists s', pirelease pi s1 = Ret tt s' /\ refused pi s s'.
Proof.
  intros Hl ->. rewrite pirelease_ok by (by rewrite pip_setP). eexists. split; [reflexivity|]. split; try done.
  - by rewrite !rest_setP.
  - rewrite !pip_setP. by apply unlock_lock.
Qed.

Lemma write_post_acquire pi addr n i q s bs r s' :
  write_post pi addr n i q (setP pi (set_pi_lock true) s) bs r s' -> write_post pi addr n i q s bs r s'.
Proof.
  intros [H1 H2 H3 H4 H5 H6 H7 H8]. split; try done.
  - by rewrite H1, rest_setP.
  - by rewrite H4, pip_setP.
Qed.

Lemma write_end_acquire pi addr n i q s bs r s' :
  write_end pi addr n i q (setP pi (set_pi_lock true) s) bs r s' -> write_end pi addr n i q s bs r s'.
Proof.
  intros [Hj He]. split; [done|]. destruct (bool_decide _ && _); [|by apply write_post_acquire].
  destruct He as [-> [H1 H2 H3 H4 H5 H6 H7]]. split; [done|]. split; try done.
  - by rewrite H1, rest_setP.
  - by rewrite H4, pip_setP.
Qed.

(** What the caller finds at its first turn: a kill() may get in even when it
    had been killed before. *)
Definition entry (pi i : Z) (s : st) : st := if readopen (pip pi s) && kills i then struck s else s.

Lemma write_refused pi addr n i fuel s s1 :
  i < n -> idle_table (kproc s) -> pi_lock (pip pi s) = false -> s1 = setP pi (set_pi_lock true) s ->
  negb (readopen (pip pi s)) || negb (p_killed (cur s) =? 0) = true ->
  exists s', pipewrite_loop kills (Datatypes.S fuel) pi addr n i s1 = Ret (inr (-1)) s' /\ refused pi (entry pi i s) s'.
Proof.
  intros Hin Hi Hl -> Hrf. cbn [pipewrite_loop]. destruct (Z.ltb_spec i n); [|lia].
  erewrite bind_Ret by reflexivity. erewrite bind_Ret by reflexivity. fold (pip pi (setP pi (set_pi_lock true) s)).
  set (s1 := setP pi (set_pi_lock true) s).
  replace (readopen (pip pi s1)) with (readopen (pip pi s)) by (unfold s1; by rewrite pip_setP). unfold entry.
  destruct (readopen (pip pi s)); cbn [andb negb orb] in *.
  2:{ erewrite bind_Ret by reflexivity. destruct (refused_ok pi s s1 Hl eq_refl) as (s' & E & Hr).
      exists s'. split; [by erewrite bind_Ret by exact E|done]. }
  destruct (kills i).
  - erewrite bind_Ret by (erewrite bind_Ret by reflexivity; apply (killed_struck s1); [done|apply Hi]). cbn [Z.eqb negb].
    destruct (refused_ok pi (struck s) (struck s1) Hl eq_refl) as (s' & E & Hr).
    exists s'. split; [by erewrite bind_Ret by exact E|done].
  - erewrite bind_Ret by (by apply (killed_cur s1)). change (cur s1) with (cur s). rewrite Hrf.
    destruct (refused_ok pi s s1 Hl eq_refl) as (s' & E & Hr). exists s'. split; [by erewrite bind_Ret by exact E|done].
Qed.

Lemma pipewrite_spec pi addr n i q s l :
  idle_table (kproc s) -> space_ok s l -> pi_lock (pip pi s) = false -> holds (pip pi s) q ->
  exists r s', pipewrite_from kills pi addr n i s = Ret r s' /\
    if bool_decide (i < n) && (negb (readopen (pip pi s)) || negb (p_killed (cur s) =? 0))
    then r = inr (-1) /\ refused pi (entry pi i s) s'
    else exists bs, write_end pi addr n i q s bs r s'.
Proof using Hkend.
  intros Hi Hs Hl Hq. unfold pipewrite_from. erewrite bind_Ret by (by apply piacquire_ok).
  set (s1 := setP pi (set_pi_lock true) s).
  assert (Hq1 : holds (pip pi s1) q) by (unfold s1; by rewrite pip_setP).
  assert (Hl1 : pi_lock (pip pi s1) = true) by (unfold s1; by rewrite pip_setP).
  assert (Hro : readopen (pip pi s1) = readopen (pip pi s)) by (unfold s1; by rewrite pip_setP).
  case_bool_decide as Hin; cbn [andb].
  2:{ replace (Z.to_nat (n - i)) with 0%nat by lia. cbn [pipewrite_loop]. destruct (Z.ltb_spec i n); [lia|].
      destruct (write_stop pi addr n i q s1 i Hi Hl1 Hq1 eq_refl) as (s' & E & H'); [left; lia|].
      exists (inr i), s'. split; [exact E|]. exists []. apply write_end_acquire, write_end_nil; [left; lia|done]. }
  destruct (negb (readopen (pip pi s)) || negb (p_killed (cur s) =? 0)) eqn:Hrf.
  - replace (Z.to_nat (n - i)) with (Datatypes.S (Z.to_nat (n - i - 1))) by lia.
    destruct (write_refused pi addr n i (Z.to_nat (n - i - 1)) s s1 Hin Hi Hl eq_refl Hrf) as (s' & E & Hr). eauto.
  - apply orb_false_iff in Hrf as [Ha Hb]. apply negb_false_iff in Ha, Hb. apply Z.eqb_eq in Hb.
    destruct (pipewrite_loop_spec pi addr n l (Z.to_nat (n - i)) i q s1) as (r & s' & bs & E & Hp); try done; [lia|by rewrite Hro|].
    exists r, s'. split; [exact E|]. exists bs. by apply write_end_acquire.
Qed.

End Kills.

(** ** piperead *)

(** The copy loop from byte [i]: [took] leaves the pipe; all of it reaches
    user memory, except the last byte when that address is not mapped. *)
Record copy_post (pi addr n i : Z) (l q : list Z) (s : st) (took q' : list Z) (k : Z) (s' : st) : Prop := {
  cp_split : q = took ++ q';
  cp_rest : rest pi s' = rest pi s;
  cp_proc : kproc s' = kproc s;
  cp_ends : ends (pip pi s') = ends (pip pi s);
  cp_lock : pi_lock (pip pi s') = pi_lock (pip pi s);
  cp_holds : holds (pip pi s') q';
  cp_space : space_ok s' l;
  cp_frame : forall w, (forall j, i <= j < k -> w <> u64 (addr + j)) ->
    ubyte (mem_of s') (root_of s) w = ubyte (mem_of s) (root_of s) w;
  cp_bytes : forall j, 0 <= j < k - i ->
    ubyte (mem_of s') (root_of s) (u64 (addr + (i + j))) = Some (u8 (nthZ 0 took j));
  cp_res : k = i + zlen took /\ zlen took = Z.min n (zlen q) \/
    k + 1 = i + zlen took /\ zlen took <= Z.min n (zlen q) /\ ubyte (mem_of s) (root_of s) (u64 (addr + k)) = None
}.

Lemma copy_stop pi addr n i l q s :
  space_ok s l -> holds (pip pi s) q -> Z.min n (zlen q) = 0 -> copy_post pi addr n i l q s [] q i s.
Proof.
  intros Hs Hq Hz. split; try done.
  - intros j Hj. lia.
  - left. change (zlen []) with 0. lia.
Qed.

(** The pipe with its first byte taken, memory [k]. *)
Definition took1 (pi : Z) (k : kmem) (s : st) : st :=
  with_mem k (setP pi (fun p => set_nread (u32 (nread p + 1)) p) s).

Lemma pip_took1 pi k s : pip pi (took1 pi k s) = set_nread (u32 (nread (pip pi s) + 1)) (pip pi s).
Proof. unfold took1, with_mem. change (pip pi (set_kfs ?f ?x)) with (pip pi x). by rewrite pip_setP. Qed.

Lemma rest_took1 pi k s : rest pi (took1 pi k s) = rest pi s.
Proof. by rewrite <- (rest_setP pi (fun p => set_nread (u32 (nread p + 1)) p) s). Qed.

Lemma copy_post_cons pi addr n i l b q s k m took q' s' :
  0 < n -> zlen (b :: q) <= PIPESIZE -> stored (mem_of s) (phys m) (root_of s) (u64 (addr + i)) b ->
  copy_post pi addr (n - 1) (i + 1) l q (took1 pi m s) took q' k s' -> i + 1 <= k + 1 ->
  copy_post pi addr n i l (b :: q) s (b :: took) q' k s'.
Proof.
  intros Hn Hlen Hst [H1 H2 H3 H4 H5 H6 H7 H8 H9 H10] Hk. rewrite zlen_cons in Hlen.
  assert (Htk : zlen took <= zlen q) by (rewrite H1, zlen_app; pose proof (zlen_nonneg q'); lia).
  assert (Hk' : k <= i + PIPESIZE) by (destruct H10 as [[? ?]|[? ?]]; lia).
  split; try done.
  - by rewrite H1.
  - by rewrite H2, rest_took1.
  - by rewrite H4, pip_took1.
  - by rewrite H5, pip_took1.
  - intros w Hw. rewrite H8 by (intros j Hj; apply Hw; lia). change (mem_of (took1 pi m s)) with (phys m).
    rewrite Hst. destruct (decide (i < k)).
    + rewrite decide_False; [done|]. apply Hw. lia.
    + case_decide as E; [|done]. subst w. exfalso. destruct H10 as [[? ?]|(? & ? & Hnn)]; pose proof (zlen_nonneg took); [lia|].
      change (mem_of (took1 pi m s)) with (phys m) in Hnn. change (root_of (took1 pi m s)) with (root_of s) in Hnn.
      assert (k = i) as -> by lia. by rewrite Hst, decide_True in Hnn.
  - intros j Hj. destruct (decide (j = 0)) as [->|Hne].
    + rewrite Z.add_0_r, H8.
      * change (mem_of (took1 pi m s)) with (phys m). by rewrite Hst, decide_True.
      * intros j' Hj'. unfold PIPESIZE in *. word.
    + rewrite nthZ_cons_S by lia. specialize (H9 (j - 1) ltac:(lia)). replace (i + 1 + (j - 1)) with (i + j) in H9 by lia. exact H9.
  - rewrite !zlen_cons. destruct H10 as [[? ?]|(? & ? & Hnn)]; [left; lia|right]. split; [lia|]. split; [lia|].
    change (mem_of (took1 pi m s)) with (phys m) in Hnn. change (root_of (took1 pi m s)) with (root_of s) in Hnn.
    rewrite Hst in Hnn. by case_decide.
Qed.

Lemma piperead_copy_spec pi addr l n : forall i q s,
  space_ok s l -> holds (pip pi s) q ->
  exists k s' took q', piperead_copy n pi addr i s = Ret k s' /\ copy_post pi addr (Z.of_nat n) i l q s took q' k s' /\ i <= k.
Proof using Hkend.
  induction n as [|n IH]; intros i q s Hs Hq; cbn [piperead_copy].
  { exists i, s, [], q. split; [done|]. split; [|lia]. apply copy_stop; try done. pose proof (zlen_nonneg q). lia. }
  erewrite bind_Ret by reflexivity. fold (pip pi s). pose proof Hq as Hq'. unfold holds in Hq'.
  rewrite (pring_empty _ _ _ _ Hq'). destruct q as [|b q].
  { rewrite bool_decide_true by done. exists i, s, [], []. split; [done|]. split; [|lia]. by apply copy_stop; [| |rewrite Z.min_r by done]. }
  rewrite bool_decide_false by done. destruct (pring_pop _ _ _ _ _ Hq') as [-> Hq1]. erewrite bind_Ret by reflexivity.
  set (s0 := set_kfile _ s).
  destruct (ucopyout_byte s0 l (u64 (addr + i)) b Hs (u64_range _)) as (r & m & E & Hv & Hr).
  erewrite bind_Ret by exact E. change (with_mem m s0) with (took1 pi m s).
  assert (Hh1 : holds (pip pi (took1 pi m s)) q) by (rewrite pip_took1; exact Hq1).
  destruct Hr as [(-> & Hok & Hst)|(-> & Hnone & Hsame)].
  - change (0 =? -1) with false. cbv iota.
    destruct (IH (i + 1) q (took1 pi m s) Hv Hh1) as (k & s' & took & q' & E' & Hp & Hk).
    exists k, s', (b :: took), q'. split; [exact E'|]. split; [|lia].
    apply (copy_post_cons _ _ _ _ _ _ _ _ _ m); [lia|by apply (Ring.ring_len _ _ _ _ _ _ _ Hq')|done| |lia].
    by replace (Z.of_nat (Datatypes.S n) - 1) with (Z.of_nat n) by lia.
  - change (-1 =? -1) with true. cbv iota. exists i, (took1 pi m s), [b], q. split; [done|]. split; [|lia].
    split; try done.
    + apply rest_took1.
    + by rewrite pip_took1.
    + by rewrite pip_took1.
    + intros j Hj. lia.
    + right. change (zlen [b]) with 1. rewrite zlen_cons. pose proof (zlen_nonneg q). split_and!; try done; lia.
Qed.

(** A read that returned [k]. *)
Record read_post (pi addr n : Z) (l q : list Z) (s : st) (took q' : list Z) (k : Z) (s' : st) : Prop := {
  rd_split : q = took ++ q';
  rd_rest : rest pi s' = rest pi s;
  rd_ends : ends (pip pi s') = ends (pip pi s);
  rd_lock : pi_lock (pip pi s') = false;
  rd_holds : holds (pip pi s') q';
  rd_idle : idle_table (kproc s');
  rd_space : space_ok s' l;
  rd_proc : mapped (woke (curp (kproc s)) (chan_nwrite pi)) (kproc s) (kproc s');
  rd_frame : forall w, (forall j, 0 <= j < k -> w <> u64 (addr + j)) ->
    ubyte (mem_of s') (root_of s) w = ubyte (mem_of s) (root_of s) w;
  rd_bytes : forall j, 0 <= j < k -> ubyte (mem_of s') (root_of s) (u64 (addr + j)) = Some (u8 (nthZ 0 took j));
  rd_res : k = zlen took /\ zlen took = Z.min (Z.max 0 n) (zlen q) \/
    k + 1 = zlen took /\ zlen took <= Z.min n (zlen q) /\ ubyte (mem_of s) (root_of s) (u64 (addr + k)) = None
}.

(** A reader gone to sleep. *)
Record reader_asleep (pi : Z) (s s' : st) : Prop := {
  ra_rest : rest pi s' = rest pi s;
  ra_fs : kfs s' = kfs s;
  ra_pipe : pip pi s' = pip pi s;
  ra_proc : kproc s' = upd_proc (curp (kproc s)) (asleep (chan_nread pi)) (kproc s)
}.

Lemma piperead_spec pi addr n q s l :
  idle_table (kproc s) -> space_ok s l -> pi_lock (pip pi s) = false -> holds (pip pi s) q ->
  exists r s', piperead_from pi addr n s = Ret r s' /\
    if bool_decide (q = []) && writeopen (pip pi s) then
      if p_killed (cur s) =? 0 then r = inl tt /\ reader_asleep pi s s' else r = inr (-1) /\ refused pi s s'
    else exists took q' k, r = inr k /\ 0 <= k /\ read_post pi addr n l q s took q' k s'.
Proof using Hkend.
  intros Hi Hs Hl Hq. unfold piperead_from. erewrite bind_Ret by (by apply piacquire_ok).
  set (s1 := setP pi (set_pi_lock true) s). unfold piperead_locked.
  assert (Hq1 : holds (pip pi s1) q) by (unfold s1; by rewrite pip_setP).
  assert (Hl1 : pi_lock (pip pi s1) = true) by (unfold s1; by rewrite pip_setP).
  erewrite bind_Ret by reflexivity. fold (pip pi s1). pose proof Hq1 as Hq2. unfold holds in Hq2.
  rewrite (pring_empty _ _ _ _ Hq2). replace (writeopen (pip pi s1)) with (writeopen (pip pi s)) by (unfold s1; by rewrite pip_setP).
  destruct (bool_decide (q = []) && writeopen (pip pi s)).
  - erewrite bind_Ret by reflexivity. erewrite bind_Ret by (by apply (killed_cur s1)). change (cur s1) with (cur s).
    destruct (p_killed (cur s) =? 0); cbn [negb].
    + erewrite bind_Ret by (apply (sleep_kst _ _ _ (setP pi (set_pi_lock false))); [done|intros ps'; by apply pirelease_ok|done]).
      eexists _, _. split; [reflexivity|]. split; [done|]. split; try done.
      * change (rest pi (setP pi (set_pi_lock false) s1) = rest pi s). unfold s1. by rewrite !rest_setP.
      * change (pip pi (setP pi (set_pi_lock false) s1) = pip pi s). unfold s1. rewrite !pip_setP. by apply unlock_lock.
    + destruct (refused_ok pi s s1 Hl eq_refl) as (s' & E & Hr). eexists _, _. erewrite bind_Ret by exact E. done.
  - destruct (piperead_copy_spec pi addr l (Z.to_nat n) 0 q s1 Hs Hq1) as (k & s2 & took & q' & E & [H1 H2 H3 H4 H5 H6 H7 H8 H9 H10] & Hk).
    erewrite bind_Ret by exact E. change (kproc s1) with (kproc s) in H3. rewrite <- H3 in Hi.
    destruct (wakeup_kst (chan_nwrite pi) s2 Hi) as (ps & Ew & Hi' & Hm).
    erewrite bind_Ret by exact Ew. erewrite bind_Ret by (apply pirelease_ok; change (pi_lock (pip pi s2) = true); by rewrite H5).
    eexists _, _. split; [reflexivity|]. exists took, q', k. split; [done|]. split; [done|].
    rewrite H3 in Hm. split; try done.
    + rewrite rest_setP. change (rest pi s2 = rest pi s). rewrite H2. apply rest_setP.
    + rewrite pip_setP. change (ends (pip pi s2) = ends (pip pi s)). rewrite H4. unfold s1. by rewrite pip_setP.
    + by rewrite pip_setP.
    + by rewrite pip_setP.
    + assert (Hc : cur (set_kproc ps s2) = cur s2).
      { unfold cur. cbn [kproc set_kproc]. rewrite (mapped_curp _ _ _ Hm), H3. rewrite (mp_at _ _ _ Hm) by (rewrite <- H3; apply Hi).
        by rewrite woke_me. }
      unfold space_ok, root_of in *. change (cur (setP pi _ ?x)) with (cur x). by rewrite Hc.
    + intros j Hj. apply (H9 j). lia.
    + destruct H10 as [[? ?]|(? & ? & ?)]; [left|right]; split_and!; try done; pose proof (zlen_nonneg q); lia.
Qed.

(** ** Wakeups *)

(** Whoever sleeps on the pipe has a reason to: a reader an empty pipe that can
    still be written, a writer a full one that can still be read. *)
Definition pipe_quiet (pi : Z) (q : list Z) (s : st) : Prop :=
  forall x, 0 <= x < NPROC -> p_state (proc_at (kproc s) x) = SLEEPING ->
    (p_chan (proc_at (kproc s) x) = chan_nread pi -> q = [] /\ writeopen (pip pi s) = true) /\
    (p_chan (proc_at (kproc s) x) = chan_nwrite pi -> zlen q = PIPESIZE /\ readopen (pip pi s) = true).

Lemma quiet_refused pi q s s' : refused pi s s' -> pipe_quiet pi q s -> pipe_quiet pi q s'.
Proof. intros [_ _ Hp Hr] Hq x Hx. rewrite Hp, Hr. by apply Hq. Qed.

(** A pipe where a reader may be asleep although there are bytes to read. *)
Definition pipe_late (pi : Z) (q : list Z) (s : st) : Prop :=
  forall x, 0 <= x < NPROC -> p_state (proc_at (kproc s) x) = SLEEPING ->
    (p_chan (proc_at (kproc s) x) = chan_nread pi -> writeopen (pip pi s) = true) /\
    (p_chan (proc_at (kproc s) x) = chan_nwrite pi -> zlen q = PIPESIZE /\ readopen (pip pi s) = true).

Lemma quiet_late pi q s : pipe_quiet pi q s -> pipe_late pi q s.
Proof. intros H x Hx Hs. destruct (H x Hx Hs) as [H1 H2]. split; [|done]. intros Hc. by apply H1. Qed.

Lemma quiet_write pi addr n i q s bs r s' :
  p_state (cur s) = RUNNING -> readopen (pip pi s) = true \/ n <= i -> pipe_late pi q s ->
  write_post pi addr n i q s bs r s' -> pipe_quiet pi (q ++ bs) s'.
Proof.
  intros Hrun Hro Hq [_ _ _ He Hh _ _ Hres] x Hx. injection He as Her Hew.
  assert (Hlen : zlen (q ++ bs) <= PIPESIZE) by exact (Ring.ring_len _ _ _ _ _ _ _ Hh).
  assert (Hold : x <> curp (kproc s) -> p_state (woke (curp (kproc s)) (chan_nread pi) x (proc_at (kproc s) x)) = SLEEPING ->
    (p_chan (woke (curp (kproc s)) (chan_nread pi) x (proc_at (kproc s) x)) = chan_nread pi -> q ++ bs = [] /\ writeopen (pip pi s') = true) /\
    (p_chan (woke (curp (kproc s)) (chan_nread pi) x (proc_at (kproc s) x)) = chan_nwrite pi -> zlen (q ++ bs) = PIPESIZE /\ readopen (pip pi s') = true)).
  { intros Hne Hs. destruct (woke_asleep _ _ _ _ Hne Hs) as (Hs' & Hc & Hn). rewrite Hc. split; [done|].
    intros Hw. destruct (Hq x Hx Hs') as [_ Hq2]. destruct (Hq2 Hw) as [Hz Hr]. rewrite Her, Hr.
    rewrite zlen_app in *. pose proof (zlen_nonneg bs). split; [lia|done]. }
  destruct r as [k|k].
  - destruct Hres as (-> & Hlt & Hz & [_ Ha]). rewrite Ha by done. destruct (Z.eqb_spec x (curp (kproc s))) as [->|Hne]; [|by apply Hold].
    intros _. cbn. split; [unfold chan_nwrite, chan_nread; lia|]. intros _. rewrite Her. split; [done|].
    destruct Hro; [done|pose proof (zlen_nonneg bs); lia].
  - destruct Hres as (-> & _ & [_ Ha]). rewrite Ha by done. destruct (decide (x = curp (kproc s))) as [->|Hne]; [|by apply Hold].
    rewrite woke_me. unfold cur in Hrun. by rewrite Hrun.
Qed.

(** What a kill() in mid-write leaves: its victim marked, everyone else as
    before, so the writers are still right to sleep. *)
Definition stranded (pi : Z) (q bs : list Z) (s s' : st) : Prop :=
  bs <> [] /\ kproc s' = kproc (struck s) /\ p_killed (cur s') = 1 /\ pipe_late pi (q ++ bs) s'.

Lemma struck_at s x : idle_table (kproc s) ->
  p_state (proc_at (kproc (struck s)) x) = p_state (proc_at (kproc s) x) /\
  p_chan (proc_at (kproc (struck s)) x) = p_chan (proc_at (kproc s) x).
Proof.
  intros Hi. unfold struck. cbn [kproc set_kproc]. destruct (decide (curp (kproc s) = x)) as [<-|Hne].
  - by rewrite proc_at_upd_eq by (rewrite (it_len _ Hi); apply Hi).
  - by rewrite proc_at_upd_ne.
Qed.

Lemma quiet_entry kills pi i q s : idle_table (kproc s) -> pipe_quiet pi q s -> pipe_quiet pi q (entry kills pi i s).
Proof.
  intros Hi Hq. unfold entry. destruct (readopen _ && _); [|done]. intros x Hx.
  destruct (struck_at s x Hi) as [-> ->]. by apply Hq.
Qed.

Lemma quiet_cut pi addr i q s bs s' :
  idle_table (kproc s) -> pipe_quiet pi q s -> write_cut pi addr i q s bs s' ->
  pipe_quiet pi (q ++ bs) s' \/ stranded pi q bs s s'.
Proof.
  intros Hi Hq [_ _ _ He Hh _ Hp]. injection He as Her Hew.
  assert (Hlen : zlen (q ++ bs) <= PIPESIZE) by exact (Ring.ring_len _ _ _ _ _ _ _ Hh).
  destruct (decide (bs = [])) as [->|Hne]; [left|right].
  - rewrite app_nil_r. intros x Hx. rewrite Hp, Her, Hew. destruct (struck_at s x Hi) as [-> ->]. by apply Hq.
  - split; [done|]. split; [done|]. split.
    + unfold cur. rewrite Hp. unfold struck. cbn [kproc set_kproc curp upd_proc set_procs].
      by rewrite proc_at_upd_eq by (rewrite (it_len _ Hi); apply Hi).
    + intros x Hx. rewrite Hp, Her, Hew. destruct (struck_at s x Hi) as [-> ->]. intros Hs. destruct (Hq x Hx Hs) as [Ha Hb].
      split; [intros Hc; by apply Ha|]. intros Hc. destruct (Hb Hc) as [Hz ?]. rewrite zlen_app in *.
      pose proof (zlen_nonneg bs). split; [lia|done].
Qed.

Lemma quiet_read pi addr n l q s took q' k s' :
  p_state (cur s) = RUNNING -> bool_decide (q = []) && writeopen (pip pi s) = false -> pipe_quiet pi q s ->
  read_post pi addr n l q s took q' k s' -> pipe_quiet pi q' s'.
Proof.
  intros Hrun Hb Hq [_ _ He _ _ _ _ [_ Ha] _ _ _] x Hx. rewrite Ha by done.
  destruct (decide (x = curp (kproc s))) as [->|Hne]; [rewrite woke_me; unfold cur in Hrun; by rewrite Hrun|].
  intros Hs. destruct (woke_asleep _ _ _ _ Hne Hs) as (Hs' & Hc & Hn). rewrite Hc. split; [|done].
  intros Hw. destruct (Hq x Hx Hs') as [Hq1 _]. destruct (Hq1 Hw) as [-> Hwo]. by rewrite Hwo in Hb.
Qed.

Lemma quiet_reader_asleep pi q s s' :
  idle_table (kproc s) -> bool_decide (q = []) && writeopen (pip pi s) = true -> pipe_quiet pi q s ->
  reader_asleep pi s s' -> pipe_quiet pi q s'.
Proof.
  intros Hi Hb Hq [_ _ Hp Hr] x Hx. rewrite Hp, Hr. apply andb_true_iff in Hb as [Hb Hwo]. apply bool_decide_eq_true in Hb.
  destruct (decide (curp (kproc s) = x)) as [<-|Hne].
  - rewrite proc_at_upd_eq by (rewrite (it_len _ Hi); apply Hi). intros _. cbn. split; [done|]. unfold chan_nwrite, chan_nread. lia.
  - rewrite proc_at_upd_ne by done. by apply Hq.
Qed.

(** Closing an end, the last one freeing the page. *)
Definition shut (w : bool) (p : pipe) : pipe := if w then set_writeopen false p else set_readopen false p.
Definition shut_chan (w : bool) (pi : Z) : Z := if w then chan_nread pi else chan_nwrite pi.

Lemma pipeclose_spec pi w s l :
  idle_table (kproc s) -> kwf kend (umem (kfs s)) l -> page_ok kend pi -> pi ∉ l -> pi_lock (pip pi s) = false ->
  exists s', pipeclose kend pi w s = Ret tt s' /\
    mapped (woke (curp (kproc s)) (shut_chan w pi)) (kproc s) (kproc s') /\ rest pi s' = rest pi s /\
    if negb (readopen (shut w (pip pi s))) && negb (writeopen (shut w (pip pi s)))
    then pipes (kfile s') !! pi = None /\ kwf kend (umem (kfs s')) (pi :: l)
    else pip pi s' = shut w (pip pi s).
Proof using Hkend.
  intros Hi Hk Hp Hn Hl. unfold pipeclose. erewrite bind_Ret by (by apply piacquire_ok).
  set (s1 := setP pi (set_pi_lock true) s). set (s2 := setP pi (shut w) s1).
  destruct (wakeup_kst (shut_chan w pi) s2 Hi) as (ps & Ew & Hi' & Hm).
  assert (Hhd : (if w then setpi pi (set_writeopen false) ;; wakeup (chan_nread pi)
            else setpi pi (set_readopen false) ;; wakeup (chan_nwrite pi)) s1 = Ret tt (set_kproc ps s2)).
  { rewrite <- Ew. unfold s2, shut, shut_chan. destruct w; by erewrite bind_Ret by reflexivity. }
  erewrite bind_Ret by exact Hhd. clear Hhd. erewrite bind_Ret by reflexivity.
  change (pipe_at (kfile (set_kproc ps s2)) pi) with (pip pi s2).
  assert (Hp2 : pip pi s2 = set_pi_lock true (shut w (pip pi s))).
  { unfold s2, s1. rewrite !pip_setP. by destruct w. }
  assert (Hro : readopen (pip pi s2) = readopen (shut w (pip pi s))) by (by rewrite Hp2).
  assert (Hwo : writeopen (pip pi s2) = writeopen (shut w (pip pi s))) by (by rewrite Hp2).
  rewrite Hro, Hwo. assert (Hrel : pirelease pi (set_kproc ps s2) = Ret tt (setP pi (set_pi_lock false) (set_kproc ps s2))).
  { apply pirelease_ok. change (pip pi (set_kproc ps s2)) with (pip pi s2). by rewrite Hp2. }
  destruct (negb _ && negb _).
  - erewrite bind_Ret by exact Hrel. destruct (kfree_cons kend Hkend _ pi l Hk Hp Hn) as (k & Ek & Hk' & _).
    erewrite bind_Ret by (apply on_mem_Ret; exact Ek). eexists. split; [reflexivity|]. split; [done|]. split.
    + unfold rest, setP, upd_pipe. cbn. by rewrite !delete_delete_eq, !delete_insert_eq.
    + cbn. by rewrite lookup_delete_eq.
  - rewrite Hrel. eexists. split; [reflexivity|]. split; [done|]. split.
    + rewrite rest_setP. change (rest pi s2 = rest pi s). unfold s2, s1. by rewrite !rest_setP.
    + rewrite pip_setP. change (pip pi (set_kproc ps s2)) with (pip pi s2). rewrite Hp2.
      unfold pip. destruct w, (pipe_at (kfile s) pi) eqn:E; unfold pip in Hl; rewrite E in Hl; cbn in *; by subst.
Qed.

Lemma quiet_close pi (w : bool) q s s' :
  p_state (cur s) = RUNNING -> (if w then pipe_late pi q s else pipe_quiet pi q s) ->
  mapped (woke (curp (kproc s)) (shut_chan w pi)) (kproc s) (kproc s') ->
  (if negb (readopen (shut w (pip pi s))) && negb (writeopen (shut w (pip pi s)))
   then pipes (kfile s') !! pi = None else pip pi s' = shut w (pip pi s)) ->
  pipe_quiet pi q s'.
Proof.
  intros Hrun Hq [_ Ha] Hp x Hx. rewrite Ha by done.
  destruct (decide (x = curp (kproc s))) as [->|Hne]; [rewrite woke_me; unfold cur in Hrun; by rewrite Hrun|].
  intros Hs. destruct (woke_asleep _ _ _ _ Hne Hs) as (Hs' & Hc & Hn). rewrite Hc.
  unfold shut, shut_chan in *.
  destruct (negb _ && negb _) eqn:Hb; destruct w; cbn in *; destruct (Hq x Hx Hs') as [Hq1 Hq2].
  - split; [done|]. intros Hw. destruct (Hq2 Hw) as [_ Hro]. by rewrite Hro in Hb.
  - split; [|done]. intros Hw. destruct (Hq1 Hw) as [_ Hwo]. by rewrite Hwo in Hb.
  - split; [done|]. rewrite Hp. exact Hq2.
  - split; [|done]. rewrite Hp. exact Hq1.
Qed.

Lemma wakeups_write kills pi addr n i q s l :
  idle_table (kproc s) -> p_state (cur s) = RUNNING -> space_ok s l -> pi_lock (pip pi s) = false -> holds (pip pi s) q ->
  exists r s' bs, pipewrite_from kills pi addr n i s = Ret r s' /\ holds (pip pi s') (q ++ bs) /\
     (pipe_late pi q s -> r <> inr (-1) -> pipe_quiet pi (q ++ bs) s') /\
     (pipe_quiet pi q s -> pipe_quiet pi (q ++ bs) s' \/
        r = inr (-1) /\ i + zlen bs < n /\ kills (i + zlen bs) = true /\ stranded pi q bs s s').
Proof using Hkend.
  intros Hi Hrun Hs Hl Hh. destruct (pipewrite_spec kills pi addr n i q s l Hi Hs Hl Hh) as (r & s' & E & H). exists r, s'.
  destruct (bool_decide (i < n) && _) eqn:Hb.
  - destruct H as [-> Hr]. exists []. rewrite app_nil_r. split; [done|]. split.
    { rewrite (rf_pipe _ _ _ Hr). unfold entry. by destruct (readopen _ && _). }
    split; [done|]. intros Hq. left. eapply quiet_refused; [exact Hr|]. by apply quiet_entry.
  - destruct H as (bs & _ & Hw). exists bs. split; [done|]. destruct (bool_decide (i + zlen bs < n) && _) eqn:Hc.
    + destruct Hw as [-> Hw]. split; [apply Hw|]. split; [done|]. intros Hq.
      apply andb_true_iff in Hc as [Hc1 Hc2]. apply bool_decide_eq_true in Hc1.
      destruct (quiet_cut _ _ _ _ _ _ _ Hi Hq Hw); [by left|by right].
    + assert (Hro : readopen (pip pi s) = true \/ n <= i).
      { destruct (Z.lt_ge_cases i n); [left|right; lia]. rewrite bool_decide_true in Hb by done. by destruct (readopen (pip pi s)). }
      split; [apply Hw|]. split; [intros; by eapply quiet_write|]. intros Hq. left. eapply quiet_write; [done..| |done].
      by apply quiet_late.
Qed.

(** C10: pipewrite() is total and appends to the pipe exactly the bytes it
    reads from the caller's memory, from where it left off, whatever kill()
    calls of other harts get in between its turns.  It stops asleep, with the
    pipe full and its readers woken, or returns: -1 at once if the read end is
    closed or the caller killed; -1 at the first turn before which a kill()
    gets in, the bytes written until then left in the pipe and nobody woken;
    otherwise the number of bytes written, which falls short of [n] only at an
    address that is not mapped.  It changes no memory and no other pipe or
    file. *)
Theorem pipewrite_correct kills pi addr n i q s l :
  idle_table (kproc s) -> space_ok s l -> pi_lock (pip pi s) = false -> holds (pip pi s) q ->
  exists r s', pipewrite_from kills pi addr n i s = Ret r s' /\
    if bool_decide (i < n) && (negb (readopen (pip pi s)) || negb (p_killed (cur s) =? 0))
    then r = inr (-1) /\ refused pi (entry kills pi i s) s'
    else exists bs, write_end kills pi addr n i q s bs r s'.
Proof using Hkend. apply pipewrite_spec. Qed.

(** C19: piperead() is total.  On an empty pipe that can still be written it
    sleeps, or returns -1 if the caller was killed; otherwise it takes the
    oldest min(n, available) bytes in order, stores them at [addr], leaves the
    rest, wakes the writers and returns how many it stored.  If a destination
    address is not mapped it returns the count so far, but has already removed
    the byte it could not store. *)
Theorem piperead_correct pi addr n q s l :
  idle_table (kproc s) -> space_ok s l -> pi_lock (pip pi s) = false -> holds (pip pi s) q ->
  exists r s', piperead_from pi addr n s = Ret r s' /\
    if bool_decide (q = []) && writeopen (pip pi s) then
      if p_killed (cur s) =? 0 then r = inl tt /\ reader_asleep pi s s' else r = inr (-1) /\ refused pi s s'
    else exists took q' k, r = inr k /\ 0 <= k /\ read_post pi addr n l q s took q' k s'.
Proof using Hkend. apply piperead_spec. Qed.

(** C20: what sleeps on a pipe.  Call a pipe quiet if every process asleep on
    it is a reader of an empty pipe that can still be written, or a writer of a
    full one that can still be read.  pipewrite(), piperead() and pipeclose()
    leave a quiet pipe quiet at every exit but one: pipewrite() returning -1
    because a kill() got in after it had put bytes into the pipe, which wakes
    nobody, so that readers can be left asleep beside those bytes; the writers
    are still right to sleep.  The next pipewrite() that does not return -1,
    and the next close of the write end, make the pipe quiet again. *)
Theorem pipe_wakeups pi q s l :
  idle_table (kproc s) -> p_state (cur s) = RUNNING -> space_ok s l -> page_ok kend pi -> pi ∉ l ->
  pi_lock (pip pi s) = false -> holds (pip pi s) q ->
  (forall (kills : Z -> bool) addr n i, exists r s' bs, pipewrite_from kills pi addr n i s = Ret r s' /\ holds (pip pi s') (q ++ bs) /\
     (pipe_late pi q s -> r <> inr (-1) -> pipe_quiet pi (q ++ bs) s') /\
     (pipe_quiet pi q s -> pipe_quiet pi (q ++ bs) s' \/
        r = inr (-1) /\ i + zlen bs < n /\ kills (i + zlen bs) = true /\ stranded pi q bs s s')) /\
  (forall addr n, exists r s' q', piperead_from pi addr n s = Ret r s' /\ holds (pip pi s') q' /\
     (pipe_quiet pi q s -> pipe_quiet pi q' s')) /\
  (forall w : bool, exists s', pipeclose kend pi w s = Ret tt s' /\
     ((if w then pipe_late pi q s else pipe_quiet pi q s) -> pipe_quiet pi q s')).
Proof using Hkend.
  intros Hi Hrun Hs Hpg Hn Hl Hh. split_and!.
  - intros kills addr n i. by apply (wakeups_write kills pi addr n i q s l).
  - intros addr n. destruct (piperead_spec pi addr n q s l Hi Hs Hl Hh) as (r & s' & E & H). exists r, s'.
    destruct (bool_decide (q = []) && _) eqn:Hb; [destruct (p_killed (cur s) =? 0)|].
    + destruct H as [_ Hr]. exists q. split; [done|]. split; [rewrite (ra_pipe _ _ _ Hr); done|intros; by eapply quiet_reader_asleep].
    + destruct H as [_ Hr]. exists q. split; [done|]. split; [rewrite (rf_pipe _ _ _ Hr); done|intros; by eapply quiet_refused].
    + destruct H as (took & q' & k & _ & _ & Hr). exists q'. split; [done|]. split; [apply Hr|intros; by eapply quiet_read].
  - intros w. destruct Hs as ((Hk & _) & _). destruct (pipeclose_spec pi w s l Hi Hk Hpg Hn Hl) as (s' & E & Hm & _ & Hp).
    exists s'. split; [done|]. intros Hq. eapply quiet_close; [done..|]. by destruct (negb _ && negb _); [destruct Hp|].
Qed.
End Pipe.

(** ** A pipe holding two bytes *)

Module PipeSample.
Definition pi : Z := PHYSTOP - 20480.
Definition two : pipe := Pipe false (104 :: 105 :: repeat 5 510) 0 2 true true.
Definition kernel : kst lst := Tiny.kernel (set_pipes {[ pi := two ]} Tiny.files).

Lemma page_lower p : page_ok TinySpace.tend p -> page_ok pi p.
Proof. unfold page_ok, TinySpace.tend, pi. lia. Qed.

Lemma space : space_ok pi kernel [].
Proof.
  split; [|split; [|exact TinySpace_user_inj]].
  - destruct TinySpace.TinySpace_wf as (Hk & Hn & Hf). split; [exact Hk|]. split; [exact Hn|].
    eapply Forall_impl; [exact Hf|]. apply page_lower.
  - intros va Hva Hl. destruct (TinySpace_user_ok va Hva Hl). split; [by apply page_lower|done].
Qed.

Lemma pip_kernel : pip pi kernel = two.
Proof. unfold pip, pipe_at. cbn [kernel Tiny.kernel kfile pipes set_pipes]. by rewrite lookup_singleton_eq. Qed.

Lemma contents : holds (pip pi kernel) [104; 105].
Proof.
  rewrite pip_kernel. split_and!; try done. change (zlen [104; 105]) with 2. intros k Hk.
  assert (k = 0 \/ k = 1) as [-> | ->] by lia; reflexivity.
Qed.

Lemma quiet : pipe_quiet pi [104; 105] kernel.
Proof.
  intros x Hx H. exfalso. revert H. 
  apply (Tiny.at_table (fun y => p_state y = SLEEPING -> False)); done.
Qed.

(** A write of three bytes, the process killed before the third. *)
Definition kill_at_2 (i : Z) : bool := i =? 2.

End PipeSample.

Lemma pipewrite_correct_witness :
  exists r s', pipewrite_from PipeSample.kill_at_2 PipeSample.pi 0 3 0 PipeSample.kernel = Ret r s' /\
    exists bs, write_end PipeSample.kill_at_2 PipeSample.pi 0 3 0 [104; 105] PipeSample.kernel bs r s'.
Proof.
  destruct (pipewrite_correct PipeSample.pi ltac:(done) PipeSample.kill_at_2 PipeSample.pi 0 3 0 [104; 105] PipeSample.kernel []
              Tiny.idle PipeSample.space ltac:(by rewrite PipeSample.pip_kernel) PipeSample.contents) as (r & s' & E & H).
  exists r, s'. split; [exact E|]. by rewrite PipeSample.pip_kernel in H.
Defined.

Lemma piperead_correct_witness :
  exists r s', piperead_from PipeSample.pi 0 5 PipeSample.kernel = Ret r s' /\
    exists took q' k, r = inr k /\ 0 <= k /\ read_post PipeSample.pi PipeSample.pi 0 5 [] [104; 105] PipeSample.kernel took q' k s'.
Proof.
  exact (piperead_correct PipeSample.pi ltac:(done) PipeSample.pi 0 5 [104; 105] PipeSample.kernel []
              Tiny.idle PipeSample.space ltac:(by rewrite PipeSample.pip_kernel) PipeSample.contents).
Defined.

Lemma pipe_wakeups_witness :
  exists s', pipeclose PipeSample.pi PipeSample.pi true PipeSample.kernel = Ret tt s' /\ pipe_quiet PipeSample.pi [104; 105] s'.
Proof.
  destruct (pipe_wakeups PipeSample.pi ltac:(done) PipeSample.pi [104; 105] PipeSample.kernel []
           Tiny.idle ltac:(done) PipeSample.space ltac:(done) ltac:(apply not_elem_of_nil)
           ltac:(by rewrite PipeSample.pip_kernel) PipeSample.contents) as (_ & _ & H).
  destruct (H true) as (s' & E & Hq). exists s'. split; [exact E|]. exact (Hq (quiet_late _ _ _ PipeSample.quiet)).
Defined.
