(* ===== verification/ConsoleProof.v ===== *)
(** * The console: the proofs

    Input: the bytes between cons.r and cons.w are those a reader may have, the
    ones up to cons.e the line being edited; consoleintr() edits, consoleread()
    takes whole lines.  Output: what uartputc() is given leaves the device in
    order. *)

From Stdlib Require Import ZArith Lia.
From stdpp Require Import base numbers list list_numbers gmap strings sorting.
From S2P Require Import Prelude Cstring Riscv Kalloc Vm PageTable Uvm Ucopy Bytes Ring Sleeplock Bio Log Store Fs Kernel KernelProof Sample Console File PipeProof.

Section ConsoleProof.
Context {S : Type} {ops : BlockOps S}.
Notation st := (kst S).
Implicit Types (s : st).

Notation uart s := (uart_ (kdev s)).
Notation cons s := (cons_ (kdev s)).
Definition withU (u : uartst) s : st := set_kdev (set_uart u (kdev s)) s.
Definition withC (c : consst) s : st := set_kdev (set_cons c (kdev s)) s.

Lemma on_uart_Ret {A} (m : M uartst A) s a u : m (uart s) = Ret a u -> on_uart m s = Ret a (withU u s).
Proof. intros E. unfold on_uart, on_dev. erewrite zoom_Ret; [reflexivity|]. by erewrite zoom_Ret. Qed.

Lemma on_cons_Ret {A} (m : M consst A) s a c : m (cons s) = Ret a c -> on_cons m s = Ret a (withC c s).
Proof. intros E. unfold on_cons, on_dev. erewrite zoom_Ret; [reflexivity|]. by erewrite zoom_Ret. Qed.

(** ** Output while nothing else runs *)

(** [cs] has been sent and nothing else changed but the device's readiness. *)
Definition printed (cs : list Z) s s' : Prop :=
  exists b, s' = withU (set_u_busy b (set_u_out (u_out (uart s) ++ cs) (uart s))) s.

Lemma printed_nil s : printed [] s s.
Proof. exists (u_busy (uart s)). rewrite app_nil_r. by destruct s as [? ? ? [? [] ? ? ? ? ?]]. Qed.

Lemma printed_app cs ds s1 s2 s3 : printed cs s1 s2 -> printed ds s2 s3 -> printed (cs ++ ds) s1 s3.
Proof. intros [b ->] [b' ->]. exists b'. cbn. by rewrite app_assoc. Qed.

Lemma printed_out cs s s' : printed cs s s' -> u_out (uart s') = u_out (uart s) ++ cs.
Proof. by intros [b ->]. Qed.

Lemma lsr_idle u : (Z.land (fst (read_LSR u)) LSR_TX_IDLE =? 0) = negb (u_busy u =? 0)%nat.
Proof. unfold read_LSR. cbn [fst]. by destruct (bool_decide _), (u_busy u =? 0)%nat. Qed.

Lemma wait_S k s : wait_tx_idle (Datatypes.S k) s =
  (let* lsr := ReadReg read_LSR in if Z.land lsr LSR_TX_IDLE =? 0 then wait_tx_idle k else ret tt) s.
Proof. reflexivity. Qed.

Lemma wait_ok b : forall s, u_busy (uart s) = b -> wait_tx_idle (Datatypes.S b) s = Ret tt (withU (set_u_busy 0 (uart s)) s).
Proof.
  induction b as [|b IH]; intros s Hb; rewrite wait_S; unfold ReadReg.
  - erewrite bind_Ret by (apply on_uart_Ret; unfold read_LSR; reflexivity).
    pose proof (lsr_idle (uart s)) as E. unfold read_LSR in E. cbn [fst] in E. rewrite E, Hb. done.
  - erewrite bind_Ret by (apply on_uart_Ret; unfold read_LSR; reflexivity).
    pose proof (lsr_idle (uart s)) as E. unfold read_LSR in E. cbn [fst] in E. rewrite E, Hb. cbn [Nat.eqb negb].
    rewrite IH by (cbn; rewrite ?Hb; done). done.
Qed.

Lemma putc_sync_ok c s : panicked (kdev s) = false -> exists s', uartputc_sync c s = Ret tt s' /\ printed [u8 c] s s'.
Proof.
  intros Hp. unfold uartputc_sync. erewrite bind_Ret by reflexivity. rewrite Hp. erewrite bind_Ret by reflexivity.
  erewrite bind_Ret by (by apply wait_ok). eexists. split; [reflexivity|]. eexists. reflexivity.
Qed.

Lemma printed_panicked cs s s' : printed cs s s' -> panicked (kdev s') = panicked (kdev s).
Proof. by intros [b ->]. Qed.

(** One step of output after another. *)
Lemma then_prints {A} (m : M st unit) (k : M st A) s s1 cs a ds :
  m s = Ret tt s1 -> printed cs s s1 -> (exists s', k s1 = Ret a s' /\ printed ds s1 s') ->
  exists s', (m ;; k) s = Ret a s' /\ printed (cs ++ ds) s s'.
Proof. intros E Hp (s' & E' & Hp'). exists s'. split; [by erewrite bind_Ret by exact E|]. by eapply printed_app. Qed.

(** What consputc() sends. *)
Definition keys (c : Z) : list Z := if c =? BACKSPACE then [8; 32; 8] else [u8 c].

Lemma consputc_ok c s : panicked (kdev s) = false -> exists s', consputc c s = Ret tt s' /\ printed (keys c) s s'.
Proof.
  intros Hp. unfold consputc, keys. destruct (c =? BACKSPACE); [|by apply putc_sync_ok].
  destruct (putc_sync_ok 8 s Hp) as (s1 & E1 & H1). eapply (then_prints _ _ s s1 [8]); [exact E1|exact H1|].
  assert (Hp1 : panicked (kdev s1) = false) by (by rewrite (printed_panicked _ _ _ H1)).
  destruct (putc_sync_ok 32 s1 Hp1) as (s2 & E2 & H2). eapply (then_prints _ _ s1 s2 [32]); [exact E2|exact H2|].
  apply putc_sync_ok. by rewrite (printed_panicked _ _ _ H2).
Qed.

Lemma consputs_ok cs : forall s, panicked (kdev s) = false -> exists s', consputs cs s = Ret tt s' /\ printed (mjoin (map keys cs)) s s'.
Proof.
  induction cs as [|c cs IH]; intros s Hp; cbn [consputs].
  - exists s. split; [done|apply printed_nil].
  - destruct (consputc_ok c s Hp) as (s1 & E & H1). eapply then_prints; [exact E|exact H1|]. apply IH. by rewrite (printed_panicked _ _ _ H1).
Qed.

Lemma printf_ok fmt args s : panicked (kdev s) = false -> pr_lock (kdev s) = false ->
  exists s' t, printf fmt args s = Ret tt s' /\ printed t s s'.
Proof.
  intros Hp Hl. unfold printf. erewrite bind_Ret by reflexivity. destruct (pr_locking (kdev s)).
  - set (s0 := set_kdev (set_pr_lock true (kdev s)) s).
    assert (Ha : on_dev (lk_acquire pr_lock set_pr_lock) s = Ret tt s0).
    { unfold on_dev. erewrite zoom_Ret; [reflexivity|]. unfold lk_acquire. by rewrite Hl. }
    erewrite bind_Ret by exact Ha. destruct (consputs_ok (format fmt args) s0 Hp) as (s1 & E & [b ->]).
    erewrite bind_Ret by exact E. eexists _, (mjoin (map keys (format fmt args))). split; [reflexivity|]. exists b.
    unfold withU, s0, set_kdev, set_uart, set_pr_lock. cbn. by rewrite Hl.
  - erewrite bind_Ret by reflexivity. destruct (consputs_ok (format fmt args) s Hp) as (s1 & E & H1).
    erewrite bind_Ret by exact E. eexists _, _. split; [reflexivity|]. exact H1.
Qed.

(** Any sequence of kprints is a print. *)
Definition kprints (m : M st unit) : Prop := forall s, panicked (kdev s) = false -> pr_lock (kdev s) = false ->
  exists s' t, m s = Ret tt s' /\ printed t s s'.

Lemma kprints_seq m k : kprints m -> kprints k -> kprints (m ;; k).
Proof.
  intros Hm Hk s Hp Hl. destruct (Hm s Hp Hl) as (s1 & t & E & H1). pose proof H1 as [b E1].
  destruct (Hk s1) as (s2 & u & E2 & H2); [by rewrite E1|by rewrite E1|]. exists s2, (t ++ u).
  split; [by erewrite bind_Ret by exact E|]. by eapply printed_app.
Qed.

Lemma kprints_printf fmt args : kprints (printf fmt args).
Proof. intros s Hp Hl. by apply printf_ok. Qed.

Lemma kprints_ret : kprints (ret tt).
Proof. intros s Hp Hl. exists s, []. split; [done|apply printed_nil]. Qed.

Lemma procdump_ok : kprints procdump.
Proof.
  assert (Hloop : forall ps, kprints (procdump_loop ps)).
  { induction ps as [|p ps IH]; cbn [procdump_loop]; [apply kprints_ret|]. apply kprints_seq; [|exact IH].
    case_bool_decide; [apply kprints_ret|]. apply kprints_seq; apply kprints_printf. }
  unfold procdump. do 3 (apply kprints_seq; [apply kprints_printf|]). intros s Hp Hl. exact (Hloop _ s Hp Hl).
Qed.

(** ** The line discipline *)

Notation cring := (Ring.ring_ok 0 INPUT_BUF_SIZE (2 ^ 32)).
Definition cring_push := Ring.ring_push (0 : Z) INPUT_BUF_SIZE (2 ^ 32) eq_refl eq_refl ltac:(by exists 33554432).
Definition cring_pop := Ring.ring_pop (0 : Z) INPUT_BUF_SIZE (2 ^ 32) eq_refl eq_refl ltac:(by exists 33554432).
Definition cring_unpush := Ring.ring_unpush (0 : Z) INPUT_BUF_SIZE (2 ^ 32) eq_refl eq_refl ltac:(by exists 33554432).
Definition cring_empty := Ring.ring_empty (0 : Z) INPUT_BUF_SIZE (2 ^ 32) eq_refl eq_refl ltac:(by exists 33554432).
Definition cring_count := Ring.ring_count (0 : Z) INPUT_BUF_SIZE (2 ^ 32) eq_refl eq_refl ltac:(by exists 33554432).

(** [d] is ready for readers, [l] is being edited. *)
Record cooked (c : consst) (d l : list Z) : Prop := {
  ck_ring : cring (c_buf c) (c_r c) (c_e c) (d ++ l);
  ck_w : c_w c = (c_r c + zlen d) mod 2 ^ 32;
  ck_line : 10 ∉ l
}.

Lemma cring_drop buf d : forall lo hi l, cring buf lo hi (d ++ l) -> cring buf ((lo + zlen d) mod 2 ^ 32) hi l.
Proof.
  induction d as [|x d IH]; intros lo hi l H.
  - change (zlen []) with 0. rewrite Z.add_0_r, Z.mod_small; [done|]. by destruct H as (_ & ? & _).
  - apply cring_pop in H as [_ H]. apply IH in H. rewrite Zplus_mod_idemp_l in H. rewrite zlen_cons. by replace (lo + (zlen d + 1)) with (lo + 1 + zlen d) by lia.
Qed.

Lemma cooked_line c d l : cooked c d l -> cring (c_buf c) (c_w c) (c_e c) l.
Proof. intros [H1 H2 _]. rewrite H2. by apply cring_drop. Qed.

Lemma cooked_empty c d l : cooked c d l -> (c_e c =? c_w c) = bool_decide (l = []).
Proof. intros H. apply cooked_line in H. rewrite Z.eqb_sym. by apply (cring_empty _ _ _ _ H). Qed.

(** Erasing the last character. *)
Lemma cooked_erase c d l x : cooked c d (l ++ [x]) ->
  cooked (set_c_e (u32 (c_e c - 1)) c) d l /\ nthZ 0 (c_buf c) (u32 (c_e c - 1) mod INPUT_BUF_SIZE) = x /\ x <> 10.
Proof.
  intros [H1 H2 H3]. rewrite app_assoc in H1. apply cring_unpush in H1 as [H1 Hx]. apply not_elem_of_app in H3 as [H3 Hn].
  split; [by split|]. split; [exact Hx|]. set_solver.
Qed.

(** Adding one. *)
Lemma cooked_add c d l x : cooked c d l -> zlen d + zlen l < INPUT_BUF_SIZE -> x <> 10 ->
  cooked (set_c_e (u32 (c_e c + 1)) (set_c_buf (updZ (c_e c mod INPUT_BUF_SIZE) x (c_buf c)) c)) d (l ++ [x]).
Proof.
  intros [H1 H2 H3] Hl Hx. split; [|done|set_solver]. rewrite app_assoc. cbn. apply cring_push; [done|]. rewrite zlen_app. lia.
Qed.

(** Handing the line over. *)
Lemma cooked_commit c d l x : cooked c d l -> zlen d + zlen l < INPUT_BUF_SIZE ->
  let c' := set_c_e (u32 (c_e c + 1)) (set_c_buf (updZ (c_e c mod INPUT_BUF_SIZE) x (c_buf c)) c) in
  cooked (set_c_w (c_e c') c') (d ++ l ++ [x]) [].
Proof.
  intros [H1 H2 H3] Hl c'. assert (H : cring (c_buf c') (c_r c') (c_e c') (d ++ l ++ [x])).
  { rewrite app_assoc. cbn. apply cring_push; [done|]. rewrite zlen_app. lia. }
  split; [by rewrite app_nil_r| |set_solver]. by destruct H as (_ & _ & ? & _).
Qed.

Lemma cooked_full c d l : cooked c d l -> u32 (c_e c - c_r c) = zlen d + zlen l.
Proof. intros [H _ _]. rewrite <- zlen_app. by apply (cring_count _ _ _ _ H). Qed.

(** What a character does to the two parts, and its echo. *)
Definition erased (l : list Z) : list Z := mjoin (map (fun _ => [8; 32; 8]) l).
Definition edit (c : Z) (d l : list Z) : list Z * list Z * list Z :=
  if c =? ctrl 80 then (d, l, [])
  else if c =? ctrl 85 then (d, [], erased l)
  else if (c =? ctrl 72) || (c =? 127) then
    (if bool_decide (l = []) then (d, l, []) else (d, removelast l, [8; 32; 8]))
  else if (c =? 0) || (zlen d + zlen l =? INPUT_BUF_SIZE) then (d, l, [])
  else
    let x := if c =? 13 then 10 else c in
    if (x =? 10) || (x =? ctrl 68) || (zlen d + zlen l + 1 =? INPUT_BUF_SIZE) then (d ++ l ++ [x], [], [x])
    else (d, l ++ [x], [x]).

(** The state with new console and output. *)
Definition after (c : consst) (b : nat) (t : list Z) s : st :=
  withC c (withU (set_u_busy b (set_u_out (u_out (uart s) ++ t) (uart s))) s).

Lemma after_printed c b t s u s' : printed u (after c b t s) s' -> exists b', s' = after c b' (t ++ u) s.
Proof. intros [b' ->]. exists b'. unfold after, withC, withU. cbn. by rewrite app_assoc. Qed.

Lemma consputc_after x c b t s : panicked (kdev s) = false ->
  exists b', consputc x (after c b t s) = Ret tt (after c b' (t ++ keys x) s).
Proof.
  intros Hp. destruct (consputc_ok x (after c b t s) Hp) as (s1 & E & H1). apply after_printed in H1 as [b' ->]. by exists b'.
Qed.

Lemma kill_line_ok d l : forall fuel c b t s, (length l < fuel)%nat -> cooked c d l -> panicked (kdev s) = false ->
  exists c' b', kill_line fuel (after c b t s) = Ret tt (after c' b' (t ++ erased l) s) /\ cooked c' d [] /\ c_lock c' = c_lock c.
Proof.
  induction l as [|x l IH] using rev_ind; intros fuel c b t s Hf Hc Hp; (destruct fuel as [|fuel]; [lia|]); cbn [kill_line];
    erewrite bind_Ret by reflexivity; change (cons (after c b t s)) with c; rewrite (cooked_empty _ _ _ Hc).
  - rewrite bool_decide_true by done. cbn [negb andb]. exists c, b. unfold erased. cbn. rewrite app_nil_r. done.
  - rewrite bool_decide_false by (by destruct l). destruct (cooked_erase _ _ _ _ Hc) as (Hc' & -> & Hx).
    rewrite (proj2 (Z.eqb_neq _ _) Hx). cbn [negb andb]. erewrite bind_Ret by (by apply on_cons_Ret).
    change (withC (set_c_e _ _) (after c b t s)) with (after (set_c_e (u32 (c_e c - 1)) c) b t s).
    destruct (consputc_after BACKSPACE (set_c_e (u32 (c_e c - 1)) c) b t s Hp) as (b1 & E). erewrite bind_Ret by exact E.
    rewrite length_app in Hf. cbn [length] in Hf. destruct (IH fuel (set_c_e (u32 (c_e c - 1)) c) b1 (t ++ keys BACKSPACE) s ltac:(lia) Hc' Hp) as (c' & b' & E' & Hk & Hl).
    exists c', b'. split; [|done]. rewrite E'. do 2 f_equal. rewrite <- app_assoc. f_equal. unfold erased. rewrite map_app, join_app. cbn [map].
    clear. induction l as [|y l IHl]; [done|]. cbn [map mjoin list_join app]. cbn in IHl. cbn. do 3 f_equal. exact IHl.
Qed.

Lemma cacquire_ok s : c_lock (cons s) = false -> cacquire s = Ret tt (withC (set_c_lock true (cons s)) s).
Proof. intros H. unfold cacquire. apply on_cons_Ret. unfold lk_acquire. by rewrite H. Qed.

Lemma crelease_ok s : c_lock (cons s) = true -> crelease s = Ret tt (withC (set_c_lock false (cons s)) s).
Proof. intros H. unfold crelease. apply on_cons_Ret. unfold lk_release. by rewrite H. Qed.

Lemma cooked_lock b c d l : cooked c d l -> cooked (set_c_lock b c) d l.
Proof. by intros [? ? ?]. Qed.

(** What consoleintr() has done under the lock. *)
Record keyed (c : Z) (d l : list Z) s (s' : st) : Prop := {
  kd_state : exists ps x b t, s' = set_kproc ps (after x b t s) /\ cooked x (edit c d l).1.1 (edit c d l).1.2 /\
    c_lock x = c_lock (cons s) /\ (c <> ctrl 80 -> t = (edit c d l).2) /\ idle_table ps /\
    if bool_decide ((edit c d l).1.1 = d) then ps = kproc s else mapped (woke (curp (kproc s)) chan_cons) (kproc s) ps
}.

Lemma after_same s : s = after (cons s) (u_busy (uart s)) [] s.
Proof. unfold after. rewrite app_nil_r. by destruct s as [? ? ? [[] [] ? ? ? ? ?]]. Qed.

(** Nothing is woken: console and output only. *)
Lemma keyed_quiet c d l s x b t : idle_table (kproc s) -> (edit c d l).1.1 = d ->
  cooked x d (edit c d l).1.2 -> c_lock x = c_lock (cons s) -> (c <> ctrl 80 -> t = (edit c d l).2) -> keyed c d l s (after x b t s).
Proof.
  intros Hi Hd Hx Hl Ht. split. exists (kproc s), x, b, t. rewrite Hd, bool_decide_true by done. split_and!; done.
Qed.

Lemma keyed_same c d l s : idle_table (kproc s) -> cooked (cons s) d l -> edit c d l = (d, l, []) -> keyed c d l s s.
Proof.
  intros Hi Hc He. pose proof (keyed_quiet c d l s (cons s) (u_busy (uart s)) []) as H. rewrite <- after_same in H.
  apply H; rewrite ?He; done.
Qed.

Lemma intr_store c d l s : idle_table (kproc s) -> panicked (kdev s) = false -> cooked (cons s) d l ->
  c <> ctrl 80 -> c <> ctrl 85 -> c <> ctrl 72 -> c <> 127 -> 0 <= c < 256 ->
  exists s', (let* x := getc in
     if negb (c =? 0) && (u32 (c_e x - c_r x) <? INPUT_BUF_SIZE) then
       let c := if c =? 13 then 10 else c in
       consputc c ;;
       on_cons (modify (fun x => set_c_buf (updZ (c_e x mod INPUT_BUF_SIZE) (u8 c) (c_buf x)) x)) ;;
       on_cons (modify (fun x => set_c_e (u32 (c_e x + 1)) x)) ;;
       let* x := getc in
       if (c =? 10) || (c =? ctrl 68) || (u32 (c_e x - c_r x) =? INPUT_BUF_SIZE) then
         on_cons (modify (fun x => set_c_w (c_e x) x)) ;;
         wakeup chan_cons
       else ret tt
     else ret tt) s = Ret tt s' /\ keyed c d l s s'.
Proof.
  intros Hi Hp Hc H1 H2 H3 H4 Hr. erewrite bind_Ret by reflexivity. rewrite (cooked_full _ _ _ Hc).
  assert (He : edit c d l = if (c =? 0) || (zlen d + zlen l =? INPUT_BUF_SIZE) then (d, l, []) else
    let x := if c =? 13 then 10 else c in
    if (x =? 10) || (x =? ctrl 68) || (zlen d + zlen l + 1 =? INPUT_BUF_SIZE) then (d ++ l ++ [x], [], [x]) else (d, l ++ [x], [x])).
  { unfold edit. by rewrite (proj2 (Z.eqb_neq _ _) H1), (proj2 (Z.eqb_neq _ _) H2), (proj2 (Z.eqb_neq _ _) H3), (proj2 (Z.eqb_neq _ _) H4). }
  pose proof (Ring.ring_len _ _ _ _ _ _ _ (ck_ring _ _ _ Hc)) as Hlen. rewrite zlen_app in Hlen.
  destruct (Z.eqb_spec c 0) as [Hz|Hz]; cbn [negb andb orb] in *.
  { eexists. split; [reflexivity|]. by apply keyed_same. }
  destruct (Z.ltb_spec (zlen d + zlen l) INPUT_BUF_SIZE) as [Hroom|Hroom].
  2:{ rewrite (proj2 (Z.eqb_eq _ _)) in He by lia. eexists. split; [reflexivity|]. by apply keyed_same. }
  rewrite (proj2 (Z.eqb_neq (zlen d + zlen l) _)) in He by lia. cbv zeta in *. set (x := if c =? 13 then 10 else c) in *.
  assert (Hx : 0 < x < 256) by (unfold x; destruct (c =? 13); lia). assert (Hux : u8 x = x) by (unfold u8; rewrite Z.mod_small by lia; done).
  assert (Hkx : keys x = [x]) by (unfold keys, BACKSPACE; destruct (Z.eqb_spec x 256); [lia|by rewrite Hux]).
  rewrite Hux. destruct (consputc_after x (cons s) (u_busy (uart s)) [] s Hp) as (b1 & E). rewrite <- after_same, app_nil_l, Hkx in E.
  erewrite bind_Ret by exact E. erewrite bind_Ret by (by apply on_cons_Ret). erewrite bind_Ret by (by apply on_cons_Ret).
  set (c' := set_c_e (u32 (c_e (cons s) + 1)) (set_c_buf (updZ (c_e (cons s) mod INPUT_BUF_SIZE) x (c_buf (cons s))) (cons s))).
  erewrite bind_Ret by reflexivity. change (withC _ (withC _ (after (cons s) b1 [x] s))) with (after c' b1 [x] s).
  change (cons (after c' b1 [x] s)) with c'.
  assert (Hcount : u32 (c_e c' - c_r c') = zlen d + zlen l + 1).
  { pose proof (cooked_commit _ _ _ x Hc Hroom) as Hk. cbv zeta in Hk. apply cooked_full in Hk. fold c' in Hk. cbn [c_e c_r set_c_w] in Hk.
    change (zlen []) with 0 in Hk. rewrite !zlen_app in Hk. change (zlen [x]) with 1 in Hk. lia. }
  rewrite Hcount. destruct ((x =? 10) || (x =? ctrl 68) || (zlen d + zlen l + 1 =? INPUT_BUF_SIZE)) eqn:Hw.
  - erewrite bind_Ret by (by apply on_cons_Ret).
    destruct (wakeup_kst chan_cons (after (set_c_w (c_e c') c') b1 [x] s) Hi) as (ps & Ew & Hi' & Hm).
    eexists. split; [exact Ew|]. split. exists ps, (set_c_w (c_e c') c'), b1, [x]. rewrite He. cbn [fst snd]. split_and!; try done.
    + by apply cooked_commit.
    + rewrite bool_decide_false; [done|]. intros Hd. apply (f_equal length) in Hd. rewrite !length_app in Hd. cbn in Hd. lia.
  - eexists. split; [reflexivity|]. apply orb_false_iff in Hw as [Hw _]. apply orb_false_iff in Hw as [Hw _]. apply Z.eqb_neq in Hw.
    apply keyed_quiet; rewrite ?He; try done. by apply cooked_add.
Qed.

(** The switch of consoleintr(), under the lock. *)
Lemma intr_switch c d l s : idle_table (kproc s) -> panicked (kdev s) = false -> pr_lock (kdev s) = false -> cooked (cons s) d l -> 0 <= c < 256 ->
  exists s', (if c =? ctrl 80 then procdump
   else if c =? ctrl 85 then kill_line (Datatypes.S (Z.to_nat INPUT_BUF_SIZE))
   else if (c =? ctrl 72) || (c =? 127) then
     let* x := getc in
     if negb (c_e x =? c_w x) then
       on_cons (modify (fun x => set_c_e (u32 (c_e x - 1)) x)) ;;
       consputc BACKSPACE
     else ret tt
   else
     let* x := getc in
     if negb (c =? 0) && (u32 (c_e x - c_r x) <? INPUT_BUF_SIZE) then
       let c := if c =? 13 then 10 else c in
       consputc c ;;
       on_cons (modify (fun x => set_c_buf (updZ (c_e x mod INPUT_BUF_SIZE) (u8 c) (c_buf x)) x)) ;;
       on_cons (modify (fun x => set_c_e (u32 (c_e x + 1)) x)) ;;
       let* x := getc in
       if (c =? 10) || (c =? ctrl 68) || (u32 (c_e x - c_r x) =? INPUT_BUF_SIZE) then
         on_cons (modify (fun x => set_c_w (c_e x) x)) ;;
         wakeup chan_cons
       else ret tt
     else ret tt) s = Ret tt s' /\ keyed c d l s s'.
Proof.
  intros Hi Hp Hpl Hc Hr. destruct (Z.eqb_spec c (ctrl 80)) as [H1|H1].
  { assert (He : edit c d l = (d, l, [])) by (unfold edit; by rewrite H1).
    destruct (procdump_ok s Hp Hpl) as (s' & t & E & [b ->]). eexists. split; [exact E|].
    replace (withU _ s) with (after (cons s) b t s) by (by destruct s as [? ? ? []]). apply keyed_quiet; rewrite ?He; done. }
  destruct (Z.eqb_spec c (ctrl 85)) as [H2|H2].
  { assert (He : edit c d l = (d, [], erased l)) by (unfold edit; by rewrite H2).
    pose proof (Ring.ring_len _ _ _ _ _ _ _ (ck_ring _ _ _ Hc)) as Hlen. rewrite zlen_app in Hlen. pose proof (zlen_nonneg d).
    destruct (kill_line_ok d l (Datatypes.S (Z.to_nat INPUT_BUF_SIZE)) (cons s) (u_busy (uart s)) [] s) as (c' & b' & E & Hk & Hl);
      [unfold zlen in Hlen; lia|done|done|]. rewrite <- after_same, app_nil_l in E. eexists. split; [exact E|]. apply keyed_quiet; rewrite ?He; done. }
  destruct (decide (c = ctrl 72 \/ c = 127)) as [H3|H3].
  { assert (Hb : (c =? ctrl 72) || (c =? 127) = true) by (destruct H3 as [-> | ->]; done). rewrite Hb.
    assert (He : edit c d l = if bool_decide (l = []) then (d, l, []) else (d, removelast l, [8; 32; 8])).
    { unfold edit. rewrite Hb. by destruct H3 as [-> | ->]. }
    erewrite bind_Ret by reflexivity. rewrite (cooked_empty _ _ _ Hc). case_bool_decide as Hl; cbn [negb].
    - eexists. split; [reflexivity|]. by apply keyed_same.
    - destruct l as [|x l _] using rev_ind; [done|]. destruct (cooked_erase _ _ _ _ Hc) as (Hc' & _ & _).
      erewrite bind_Ret by (by apply on_cons_Ret). rewrite removelast_last in He.
      destruct (consputc_after BACKSPACE (set_c_e (u32 (c_e (cons s) - 1)) (cons s)) (u_busy (uart s)) [] s Hp) as (b1 & E).
      replace (after (set_c_e (u32 (c_e (cons s) - 1)) (cons s)) (u_busy (uart s)) [] s) with (withC (set_c_e (u32 (c_e (cons s) - 1)) (cons s)) s) in E
        by (unfold after; rewrite app_nil_r; by destruct s as [? ? ? [[] [] ? ? ? ? ?]]).
      eexists. split; [exact E|]. apply keyed_quiet; rewrite ?He; done. }
  assert (Hb : (c =? ctrl 72) || (c =? 127) = false) by (apply orb_false_iff; rewrite !Z.eqb_neq; tauto). rewrite Hb.
  apply intr_store; try done; tauto.
Qed.

Lemma consoleintr_spec c d l s : idle_table (kproc s) -> panicked (kdev s) = false -> pr_lock (kdev s) = false ->
  c_lock (cons s) = false -> cooked (cons s) d l -> 0 <= c < 256 -> exists s', consoleintr c s = Ret tt s' /\ keyed c d l s s'.
Proof.
  intros Hi Hp Hpl Hl Hc Hr. unfold consoleintr. erewrite bind_Ret by (by apply cacquire_ok).
  set (s1 := withC (set_c_lock true (cons s)) s).
  destruct (intr_switch c d l s1 Hi Hp Hpl (cooked_lock _ _ _ _ Hc) Hr) as (s2 & E & [(ps & x & b & t & -> & Hx & Hlx & Ht & Hips & Hps)]).
  erewrite bind_Ret by exact E. rewrite crelease_ok by exact Hlx. eexists. split; [reflexivity|]. split.
  exists ps, (set_c_lock false x), b, t. split_and!; try done. by apply cooked_lock.
Qed.

(** Nobody waits for input that is there. *)
Definition cons_quiet (d : list Z) s : Prop := forall x, 0 <= x < NPROC ->
  p_state (proc_at (kproc s) x) = SLEEPING -> p_chan (proc_at (kproc s) x) = chan_cons -> d = [].

Lemma keyed_quiet_kept c d l s s' : p_state (cur s) = RUNNING -> cons_quiet d s -> keyed c d l s s' -> cons_quiet (edit c d l).1.1 s'.
Proof.
  intros Hrun Hq [(ps & x & b & t & -> & _ & _ & _ & _ & Hps)] i Hi. change (kproc (set_kproc ps _)) with ps.
  case_bool_decide as Hd; [rewrite Hd, Hps; by apply Hq|]. rewrite (mp_at _ _ _ Hps) by done.
  destruct (decide (i = curp (kproc s))) as [->|Hne]; [rewrite woke_me; unfold cur in Hrun; by rewrite Hrun|].
  intros Hs Hch. destruct (woke_asleep _ _ _ _ Hne Hs) as (_ & Hc & Hn). congruence.
Qed.

(** ** Reading *)

Context (kend : Z) (Hkend : KERNBASE <= kend).

(** The next line: up to its newline, or to an end of file. *)
Fixpoint upto (d : list Z) : list Z :=
  match d with
  | [] => []
  | x :: d' => if x =? ctrl 68 then [] else if x =? 10 then [10] else x :: upto d'
  end.

(** What a read of [n] bytes gets; whether it then waits for more; and what
    stays in the buffer: a read that gets nothing takes the end of file. *)
Definition line (n : Z) (d : list Z) : list Z := take (Z.to_nat n) (upto d).
Definition waits (n : Z) (d : list Z) : bool := bool_decide (zlen d < n /\ upto d = d /\ 10 ∉ d).
Definition left_over (first : bool) (n : Z) (d : list Z) : list Z :=
  if first && (0 <? n) && bool_decide (head d = Some (ctrl 68)) then tail d else drop (length (line n d)) d.

Lemma line_cons n x d : 0 < n -> x <> ctrl 68 -> x <> 10 -> line n (x :: d) = x :: line (n - 1) d.
Proof.
  intros Hn H1 H2. unfold line. cbn [upto]. rewrite (proj2 (Z.eqb_neq _ _) H1), (proj2 (Z.eqb_neq _ _) H2).
  by replace (Z.to_nat n) with (Datatypes.S (Z.to_nat (n - 1))) by lia.
Qed.

Lemma waits_cons n x d : x <> ctrl 68 -> x <> 10 -> waits n (x :: d) = waits (n - 1) d.
Proof.
  intros H1 H2. unfold waits. apply bool_decide_ext. rewrite zlen_cons, not_elem_of_cons. cbn [upto].
  rewrite (proj2 (Z.eqb_neq _ _) H1), (proj2 (Z.eqb_neq _ _) H2). split; intros (? & E & ?); split_and!; try lia; try tauto; congruence.
Qed.

(** [bs] stored from [va] on and nothing else. *)
Record wrote (va : Z) (bs : list Z) s (s' : st) : Prop := {
  wr_frame : forall w, (forall j, 0 <= j < zlen bs -> w <> u64 (va + j)) ->
    ubyte (mem_of s') (root_of s) w = ubyte (mem_of s) (root_of s) w;
  wr_bytes : forall j, 0 <= j < zlen bs -> ubyte (mem_of s') (root_of s) (u64 (va + j)) = Some (u8 (nthZ 0 bs j))
}.

Lemma cons_wrote_nil va s s' : kfs s' = kfs s -> wrote va [] s s'.
Proof. intros E. split; [intros w _; unfold mem_of; by rewrite E|]. intros j Hj. change (zlen (@nil Z)) with 0 in Hj. lia. Qed.

Lemma u64_step va j : u64 (u64 (va + 1) + j) = u64 (va + (j + 1)).
Proof. unfold u64. rewrite Zplus_mod_idemp_l. f_equal. lia. Qed.

Lemma wrote_cons va b bs s s1 s' : zlen bs < 128 -> root_of s1 = root_of s ->
  stored (mem_of s) (mem_of s1) (root_of s) (u64 va) b -> wrote (u64 (va + 1)) bs s1 s' -> wrote va (b :: bs) s s'.
Proof.
  intros Hl Hr Hst [Hf Hb]. rewrite Hr in *. split.
  - intros w Hw. rewrite zlen_cons in Hw. rewrite Hf, Hst.
    + rewrite decide_False; [done|]. specialize (Hw 0 ltac:(pose proof (zlen_nonneg bs); lia)). by rewrite Z.add_0_r in Hw.
    + intros j Hj. rewrite u64_step. apply Hw. lia.
  - intros j Hj. rewrite zlen_cons in Hj. destruct (decide (j = 0)) as [->|Hne].
    + rewrite Z.add_0_r, Hf, Hst; [by rewrite decide_True|]. intros j' Hj'. rewrite u64_step. word.
    + rewrite nthZ_cons_S by lia. specialize (Hb (j - 1) ltac:(lia)). rewrite u64_step in Hb. by replace (j - 1 + 1) with j in Hb by lia.
Qed.

(** What reading the console leaves alone. *)
Definition crest s :=
  (kfile s, (uart s, (pr_lock (kdev s), pr_locking (kdev s), panicked (kdev s), ticks (kdev s), tickslock (kdev s))),
   (store (kfs s), f_sb (kfs s), it_lock (kfs s), itable (kfs s))).

Record line_post (va : Z) (d' l lp b : list Z) s (s' : st) : Prop := {
  lp_rest : crest s' = crest s;
  lp_cooked : cooked (cons s') d' l;
  lp_lock : c_lock (cons s') = false;
  lp_space : space_ok kend s' lp;
  lp_wrote : wrote va b s s'
}.

(** The loop's three ways out. *)
Definition read_done (va n : Z) (first : bool) (d l lp : list Z) (target : Z) s (r : Z + Z * list Z) (s' : st) : Prop :=
  if waits n d then
    line_post va [] l lp d s s' /\
    if p_killed (cur s) =? 0
    then r = inl (n - zlen d) /\ kproc s' = upd_proc (curp (kproc s)) (asleep chan_cons) (kproc s)
    else r = inr (-1, []) /\ kproc s' = kproc s
  else line_post va (left_over first n d) l lp (line n d) s s' /\
    r = inr (s32 (u32 (target - (n - zlen (line n d)))), []) /\ kproc s' = kproc s.

Lemma either_out va bs s r s' : ucopyout va bs s = Ret r s' -> on_fs (either_copyout (UserDst va) bs) s = Ret (r, []) s'.
Proof.
  unfold ucopyout, on_mem, on_fs, either_copyout, on_umem, zoom, bind, mine, gets. cbn [umem upt fs_view].
  match goal with |- context [copyout ?a va bs ?b] => destruct (copyout a va bs b) as [x k|e k|c k] end; [|done|done]. by intros [= <- <-].
Qed.

Lemma cooked_ready c d l : cooked c d l -> (c_r c =? c_w c) = bool_decide (d = []).
Proof.
  intros H. pose proof (zlen_nonneg d) as Hd. pose proof (zlen_nonneg l). destruct H as [Hr -> _].
  pose proof (Ring.ring_len _ _ _ _ _ _ _ Hr) as Hlen. rewrite zlen_app in Hlen. unfold INPUT_BUF_SIZE in *.
  destruct Hr as (_ & Hlo & _). change (2 ^ 32) with 4294967296 in *.
  case_bool_decide as E; [subst d; change (zlen []) with 0; rewrite Z.add_0_r, Z.mod_small by done; apply Z.eqb_refl|].
  apply Z.eqb_neq. assert (0 < zlen d) by (destruct d; [done|]; rewrite zlen_cons; pose proof (zlen_nonneg d); lia).
  intros Hm. Z.div_mod_to_equations. lia.
Qed.

(** Taking the first character, and putting it back. *)
Lemma cooked_take c x d l : cooked c (x :: d) l ->
  nthZ 0 (c_buf c) (c_r c mod INPUT_BUF_SIZE) = x /\ cooked (set_c_r (u32 (c_r c + 1)) c) d l /\ u32 (u32 (c_r c + 1) - 1) = c_r c.
Proof.
  intros [Hr Hw Hl]. cbn [app] in Hr. pose proof Hr as (_ & Hlo & _). apply cring_pop in Hr as [Hx Hr]. split; [done|]. split.
  - split; [done| |done]. cbn. rewrite Hw, zlen_cons. unfold u32. rewrite Zplus_mod_idemp_l. f_equal. lia.
  - unfold u32. rewrite Zminus_mod_idemp_l. replace (c_r c + 1 - 1) with (c_r c) by lia. by apply Z.mod_small.
Qed.

(** Whatever stops the loop releases the lock last. *)
Lemma line_stop va d' l lp s c : space_ok kend s lp -> cooked c d' l -> c_lock c = true ->
  line_post va d' l lp [] s (withC (set_c_lock false c) s).
Proof. intros Hs Hc Hl. split; try done. - by apply cooked_lock. - by apply cons_wrote_nil. Qed.

Lemma line_step va b bs d' l lp s s1 s' : zlen bs < 128 -> crest s1 = crest s -> root_of s1 = root_of s ->
  stored (mem_of s) (mem_of s1) (root_of s) (u64 va) b -> line_post (u64 (va + 1)) d' l lp bs s1 s' -> line_post va d' l lp (b :: bs) s s'.
Proof. intros Hl Hc Hr Hst [H1 H2 H3 H4 H5]. split; try done; [congruence|]. by eapply wrote_cons. Qed.

Definition usable (va n : Z) s : Prop := forall j, 0 <= j < n -> ubyte (mem_of s) (root_of s) (u64 (va + j)) <> None.

Lemma usable_step va n b s s1 : usable va n s -> root_of s1 = root_of s -> stored (mem_of s) (mem_of s1) (root_of s) (u64 va) b ->
  usable (u64 (va + 1)) (n - 1) s1.
Proof. intros Hu Hr Hst j Hj. rewrite Hr, u64_step, Hst. case_decide; [done|]. apply Hu. lia. Qed.

(** An empty buffer. *)
Lemma read_empty va n first l lp target s : 0 < n -> idle_table (kproc s) -> space_ok kend s lp -> c_lock (cons s) = true -> cooked (cons s) [] l ->
  exists r s', (let* p := myproc in
          let* kl := killed p in
          if negb (kl =? 0) then crelease ;; ret (inr (-1, []))
          else sleep chan_cons crelease ;; ret (inl n)) s = Ret (r : Z + Z * list Z) s' /\ read_done va n first [] l lp target s r s'.
Proof.
  intros Hn Hi Hs Hl Hc. unfold read_done. assert (waits n [] = true) as -> by (apply bool_decide_eq_true; split; [done|split; [done|set_solver]]).
  erewrite bind_Ret by reflexivity. erewrite bind_Ret by (by apply killed_cur). destruct (p_killed (cur s) =? 0); cbn [negb].
  - erewrite bind_Ret by (apply (sleep_kst _ _ _ (fun x => withC (set_c_lock false (cons s)) x)); [done|intros ps; exact (crelease_ok (set_kproc ps s) Hl)|done]).
    eexists _, _. split; [reflexivity|]. change (zlen []) with 0. rewrite Z.sub_0_r. split; [|done].
    destruct (line_stop va [] l lp s (cons s) Hs Hc Hl) as [H1 H2 H3 H4 H5]. split; [done|done|done| |by apply cons_wrote_nil]. unfold space_ok, root_of, cur in *. cbn [kproc kfs set_kproc withC set_kdev].
    change (curp (upd_proc ?p ?f ?t)) with (curp t). rewrite proc_at_upd_eq by (rewrite (it_len _ Hi); apply Hi). exact Hs.
  - erewrite bind_Ret by (by apply crelease_ok). eexists _, _. split; [reflexivity|]. split; [|done]. by apply line_stop.
Qed.

Lemma consoleread_loop_spec l lp target fuel : forall va n first d s,
  n = Z.of_nat fuel -> n <= target -> first = negb (n <? target) -> 0 <= va < 2 ^ 64 ->
  idle_table (kproc s) -> space_ok kend s lp -> c_lock (cons s) = true -> cooked (cons s) d l -> usable va n s ->
  exists r s', consoleread_loop fuel (UserDst va) target n [] s = Ret r s' /\ read_done va n first d l lp target s r s'.
Proof using Hkend.
  induction fuel as [|fuel IH]; intros va n first d s Hf Ht Hfi Hva Hi Hs Hl Hc Hu; cbn [consoleread_loop].
  { destruct (Z.ltb_spec 0 n); [lia|]. erewrite bind_Ret by (by apply crelease_ok). eexists _, _. split; [reflexivity|]. unfold read_done.
    assert (waits n d = false) as -> by (apply bool_decide_eq_false; pose proof (zlen_nonneg d); lia).
    assert (Hln : line n d = []) by (unfold line; by replace (Z.to_nat n) with 0%nat by lia).
    assert (Hlo : left_over first n d = d) by (unfold left_over; rewrite Hln, (proj2 (Z.ltb_ge 0 n)) by lia; by rewrite andb_false_r).
    rewrite Hlo, Hln. change (zlen []) with 0. rewrite Z.sub_0_r. split; [|done]. by apply line_stop. }
  destruct (Z.ltb_spec 0 n); [|lia]. erewrite bind_Ret by reflexivity. rewrite (cooked_ready _ _ _ Hc). destruct d as [|x d].
  { rewrite bool_decide_true by done. by apply read_empty. }
  rewrite bool_decide_false by done. destruct (cooked_take _ _ _ _ Hc) as (-> & Hc1 & Hback). erewrite bind_Ret by (by apply on_cons_Ret).
  set (c1 := set_c_r (u32 (c_r (cons s) + 1)) (cons s)) in *. destruct (Z.eqb_spec x (ctrl 68)) as [Hx|Hx].
  { unfold read_done. assert (waits n (x :: d) = false) as -> by (apply bool_decide_eq_false; cbn [upto]; rewrite Hx; cbn; by intros (_ & ? & _)).
    assert (Hln : line n (x :: d) = []) by (unfold line; cbn [upto]; rewrite Hx, Z.eqb_refl; by rewrite take_nil).
    unfold left_over. rewrite Hln, Hx, (proj2 (Z.ltb_lt 0 n)), bool_decide_true by (done || lia). rewrite !andb_true_r. change (zlen []) with 0. rewrite Z.sub_0_r, Hfi.
    destruct (n <? target) eqn:Hnt; cbn [negb].
    - erewrite bind_Ret by (by apply on_cons_Ret). erewrite bind_Ret by (by apply crelease_ok). eexists _, _. split; [reflexivity|].
      split; [|done]. cbn [length]. rewrite drop_0, <- Hx. apply (line_stop va (x :: d) l lp s (set_c_r (u32 (c_r c1 - 1)) c1) Hs); [|done].
      cbn. rewrite Hback. by destruct (cons s).
    - erewrite bind_Ret by reflexivity. erewrite bind_Ret by (by apply crelease_ok). eexists _, _. split; [reflexivity|].
      split; [|done]. cbn [tail]. by apply (line_stop va d l lp s c1). }
  set (s1 := withC c1 s). destruct (ucopyout_byte kend Hkend s1 lp va x Hs Hva) as (r & k & E & Hv & Hr).
  erewrite bind_Ret by (apply either_out; exact E). assert (Huva : u64 va = va) by (unfold u64; by apply Z.mod_small).
  assert (Hok : ubyte (mem_of s) (root_of s) va <> None) by (specialize (Hu 0 ltac:(lia)); by rewrite Z.add_0_r, Huva in Hu).
  destruct Hr as [(-> & _ & Hst)|(_ & Hnone & _)]; [|done]. change (fst (0, []) =? -1) with false. cbv iota. cbn [snd app].
  set (s2 := with_mem k s1). assert (Hst2 : stored (mem_of s) (mem_of s2) (root_of s) (u64 va) x) by (rewrite Huva; exact Hst).
  destruct (Z.eqb_spec x 10) as [Hx10|Hx10].
  { erewrite bind_Ret by (by apply crelease_ok). eexists _, _. split; [reflexivity|]. unfold read_done.
    assert (waits n (x :: d) = false) as -> by (apply bool_decide_eq_false; intros (_ & _ & ?); set_solver).
    assert (Hln : line n (x :: d) = [x]) by (unfold line; cbn [upto]; rewrite Hx10; change (10 =? ctrl 68) with false; change (10 =? 10) with true; cbv iota; replace (Z.to_nat n) with (Datatypes.S (Z.to_nat (n - 1))) by lia; by rewrite firstn_cons, firstn_nil).
    unfold left_over. rewrite bool_decide_false by (cbn [head]; congruence). rewrite andb_false_r, Hln. split; [|done].
    eapply (line_step va x [] _ _ _ s s2); [done|done|done|exact Hst2|]. by apply (line_stop (u64 (va + 1)) d l lp s2 c1). }
  destruct (IH (u64 (va + 1)) (n - 1) false d s2) as (r & s' & E' & Hd); try done.
  - lia.
  - lia.
  - symmetry. apply negb_false_iff, Z.ltb_lt. lia.
  - apply u64_range.
  - by eapply usable_step.
  - exists r, s'. split; [exact E'|]. unfold read_done in *. rewrite waits_cons, line_cons by done.
    pose proof (Ring.ring_len _ _ _ _ _ _ _ (ck_ring _ _ _ Hc)) as Hlen. cbn [app] in Hlen. rewrite zlen_cons, zlen_app in Hlen. pose proof (zlen_nonneg l).
    unfold INPUT_BUF_SIZE in Hlen. change (cur s2) with (cur s) in Hd. change (kproc s2) with (kproc s) in Hd. rewrite !zlen_cons.
    destruct (waits (n - 1) d) eqn:Hw.
    + destruct Hd as [Hp Hd]. split; [eapply (line_step va x d _ _ _ s s2); [lia|done|done|exact Hst2|exact Hp]|].
      by replace (n - (zlen d + 1)) with (n - 1 - zlen d) by lia.
    + destruct Hd as (Hp & Hr & Hk). assert (Hll : zlen (line (n - 1) d) <= zlen d).
      { clear. unfold line, zlen. rewrite length_take. assert (length (upto d) <= length d)%nat; [|lia].
        induction d as [|y d IHd]; [done|]. cbn [upto]. destruct (y =? _), (y =? 10); cbn; lia. }
      replace (left_over first n (x :: d)) with (left_over false (n - 1) d).
      * split; [eapply (line_step va x _ _ _ _ s s2); [lia|done|done|exact Hst2|exact Hp]|].
        by replace (n - (zlen (line (n - 1) d) + 1)) with (n - 1 - zlen (line (n - 1) d)) by lia.
      * unfold left_over. cbn [andb]. rewrite (bool_decide_false (head (x :: d) = _)) by (cbn [head]; congruence). rewrite andb_false_r, line_cons by done. done.
Qed.

Lemma upto_nil d : upto d = d -> line (zlen d) d = d.
Proof. intros E. unfold line, zlen. rewrite E, Nat2Z.id. apply firstn_all. Qed.

Lemma quiet_read_kept n d l lp va target s r s' : idle_table (kproc s) -> cons_quiet d s ->
  read_done va n true d l lp target s r s' -> cons_quiet (if waits n d then [] else left_over true n d) s'.
Proof.
  intros Hi Hq Hd x Hx Hst Hch. unfold read_done in Hd. destruct (waits n d); [done|]. destruct Hd as (_ & _ & Hk). rewrite Hk in *.
  rewrite (Hq x Hx Hst Hch). unfold left_over. cbn [head]. rewrite bool_decide_false, andb_false_r by done. apply drop_nil.
Qed.

(** A read returned [k], or the process sleeps. *)
Definition read_outcome (va n : Z) (d l lp : list Z) s (o : outcome st (Z * list Z)) : Prop :=
  exists s', cons_quiet (if waits n d then [] else left_over true n d) s' /\
  if waits n d then
    line_post va [] l lp d s s' /\
    if p_killed (cur s) =? 0
    then o = Block chan_cons s' /\ kproc s' = upd_proc (curp (kproc s)) (asleep chan_cons) (kproc s)
    else o = Ret (-1, []) s' /\ kproc s' = kproc s
  else line_post va (left_over true n d) l lp (line n d) s s' /\ o = Ret (zlen (line n d), []) s' /\ kproc s' = kproc s.

Lemma consoleread_spec va n d l lp s : idle_table (kproc s) -> space_ok kend s lp -> c_lock (cons s) = false -> cooked (cons s) d l -> cons_quiet d s ->
  0 <= va < 2 ^ 64 -> 0 <= n < 2 ^ 31 -> usable va n s -> read_outcome va n d l lp s (consoleread (UserDst va) n s).
Proof using Hkend.
  intros Hi Hs Hl Hc Hq Hva Hn Hu. unfold read_outcome, consoleread. erewrite bind_Ret by (by apply cacquire_ok).
  assert (Hun : u32 n = n) by (unfold u32; rewrite Z.mod_small by (change (2 ^ 31) with 2147483648 in Hn; change (2 ^ 32) with 4294967296; lia); done). rewrite Hun.
  destruct (consoleread_loop_spec l lp n (Z.to_nat n) va n true d (withC (set_c_lock true (cons s)) s)) as (r & s' & E & Hd); try done;
    [lia|by rewrite Z.ltb_irrefl|by apply cooked_lock|]. erewrite bind_Ret by exact E.
  exists s'. split; [by eapply (quiet_read_kept n d l lp va n (withC (set_c_lock true (cons s)) s) r)|]. unfold read_done in Hd.
  assert (Hpost : forall d' b, line_post va d' l lp b (withC (set_c_lock true (cons s)) s) s' -> line_post va d' l lp b s s').
  { intros d' b [H1 H2 H3 H4 [H5 H6]]. by split. }
  destruct (waits n d).
  - destruct Hd as [Hp Hd]. split; [by apply Hpost|]. change (cur (withC _ s)) with (cur s) in Hd. destruct (p_killed (cur s) =? 0); destruct Hd as [-> Hk]; done.
  - destruct Hd as (Hp & -> & Hk). split; [by apply Hpost|]. split; [|done]. do 2 f_equal.
    assert (0 <= zlen (line n d) <= n) by (split; [apply zlen_nonneg|]; unfold line, zlen; rewrite length_take; lia).
    replace (n - (n - zlen (line n d))) with (zlen (line n d)) by lia. change (2 ^ 31) with 2147483648 in Hn. word.
Qed.

(** ** All the characters of an interrupt *)

Fixpoint edits (cs d l : list Z) : list Z * list Z :=
  match cs with [] => (d, l) | c :: cs' => edits cs' (edit c d l).1.1 (edit c d l).1.2 end.

Fixpoint echoes (cs d l : list Z) : list Z :=
  match cs with [] => [] | c :: cs' => (edit c d l).2 ++ echoes cs' (edit c d l).1.1 (edit c d l).1.2 end.

Record ready (d l : list Z) s : Prop := {
  rd_idle' : idle_table (kproc s);
  rd_live : panicked (kdev s) = false;
  rd_pr : pr_lock (kdev s) = false;
  rd_free : c_lock (cons s) = false;
  rd_line : cooked (cons s) d l;
  rd_cur : p_state (cur s) = RUNNING;
  rd_quiet : cons_quiet d s
}.

(** Nobody has gone to sleep. *)
Definition fewer_asleep s s' : Prop := forall x, 0 <= x < NPROC -> p_state (proc_at (kproc s') x) = SLEEPING ->
  p_state (proc_at (kproc s) x) = SLEEPING /\ p_chan (proc_at (kproc s) x) = p_chan (proc_at (kproc s') x).

Lemma woke_fewer c s s' : mapped (woke (curp (kproc s)) c) (kproc s) (kproc s') -> fewer_asleep s s'.
Proof.
  intros [_ Ha] x Hx. rewrite Ha by done. unfold woke. destruct (_ && _); [done|]. done.
Qed.

Lemma ready_key c d l s s' : ready d l s -> keyed c d l s s' ->
  ready (edit c d l).1.1 (edit c d l).1.2 s' /\ fewer_asleep s s' /\
  (exists b t, uart s' = set_u_busy b (set_u_out (u_out (uart s) ++ t) (uart s)) /\ (c <> ctrl 80 -> t = (edit c d l).2)).
Proof.
  intros [H1 H2 H3 H4 H5 H6 H7] Hk. pose proof (keyed_quiet_kept _ _ _ _ _ H6 H7 Hk) as Hq.
  destruct Hk as [(ps & x & b & t & -> & Hx & Hlx & Ht & Hips & Hps)]. split; [|split; [|by exists b, t]].
  2:{ case_bool_decide; [intros y Hy; cbn [kproc set_kproc]; by rewrite Hps|by apply (woke_fewer chan_cons)]. }
  split; try done; [by rewrite <- H4|].
  unfold cur in *. change (kproc (set_kproc ps _)) with ps. case_bool_decide; [by rewrite Hps|]. rewrite (mapped_curp _ _ _ Hps), (mp_at _ _ _ Hps) by apply H1.
  by rewrite woke_me.
Qed.

Lemma getc_empty s : u_rx (uart s) = [] -> exists b, uartgetc s = Ret (-1) (withU (set_u_busy b (uart s)) s).
Proof.
  intros Hr. unfold uartgetc, ReadReg. erewrite bind_Ret by (apply on_uart_Ret; unfold read_LSR; reflexivity). rewrite Hr.
  rewrite bool_decide_true by done. destruct (u_busy (uart s) =? 0)%nat; by eexists.
Qed.

Lemma getc_char s c cs : u_rx (uart s) = c :: cs -> exists b, uartgetc s = Ret c (withU (set_u_busy b (set_u_rx cs (uart s))) s).
Proof.
  intros Hr. unfold uartgetc, ReadReg. erewrite bind_Ret by (apply on_uart_Ret; unfold read_LSR; reflexivity). rewrite Hr.
  rewrite bool_decide_false by done. assert (Hn : forall m (k : M st Z), (if negb (Z.land (Z.lor 1 (if (m =? 0)%nat then LSR_TX_IDLE else 0)) 1 =? 0) then k else ret (-1)) = k) by (intros m k; by destruct (m =? 0)%nat).
  change LSR_RX_READY with 1. rewrite Hn. erewrite on_uart_Ret; [by eexists|]. unfold read_RHR. cbn [u_rx uart_ kdev withU set_kdev set_uart set_u_busy]. by rewrite Hr.
Qed.

Lemma ready_uart d l u s : ready d l s -> ready d l (withU u s).
Proof. by intros [? ? ? ? ? ? ?]. Qed.

Lemma uartintr_loop_spec cs : forall fuel d l s, (length cs < fuel)%nat -> ready d l s -> u_rx (uart s) = cs -> Forall (fun c => 0 <= c < 256) cs ->
  exists s', uartintr_loop fuel s = Ret tt s' /\ ready (edits cs d l).1 (edits cs d l).2 s' /\ u_rx (uart s') = [] /\
    u_lock (uart s') = u_lock (uart s) /\ (u_buf (uart s'), u_tx_r (uart s'), u_tx_w (uart s')) = (u_buf (uart s), u_tx_r (uart s), u_tx_w (uart s)) /\
    fewer_asleep s s' /\ (ctrl 80 ∉ cs -> u_out (uart s') = u_out (uart s) ++ echoes cs d l).
Proof.
  induction cs as [|c cs IH]; intros fuel d l s Hf Hr Hx Hb; (destruct fuel as [|fuel]; [lia|]); cbn [uartintr_loop edits].
  - destruct (getc_empty s Hx) as (b & E). erewrite bind_Ret by exact E. change (-1 =? -1) with true. cbv iota. eexists. split; [reflexivity|].
    split; [by apply ready_uart|]. cbn [echoes]. rewrite app_nil_r. done.
  - apply Forall_cons in Hb as [Hc Hb]. destruct (getc_char s c cs Hx) as (b & E). erewrite bind_Ret by exact E.
    destruct (Z.eqb_spec c (-1)); [lia|]. set (s1 := withU _ s). assert (Hr1 : ready d l s1) by (by apply ready_uart).
    destruct (consoleintr_spec c d l s1) as (s2 & E2 & Hk); try apply Hr1; [done|]. erewrite bind_Ret by exact E2.
    destruct (ready_key _ _ _ _ _ Hr1 Hk) as (Hr2 & Hfa & b2 & t & Hu & Ht). cbn [length] in Hf.
    destruct (IH fuel _ _ s2 ltac:(lia) Hr2) as (s' & E' & Hr' & Hx' & Hl' & Ht' & Hfa' & Ho'); [by rewrite Hu|done|].
    exists s'. split; [exact E'|]. split; [done|]. split; [done|]. rewrite Hl', Ht', Hu. split; [done|]. split; [done|]. split.
    + intros y Hy Hs. destruct (Hfa' y Hy Hs) as [Hs2 Hc2]. destruct (Hfa y Hy Hs2) as [Hs1 Hc1]. split; [exact Hs1|]. by rewrite <- Hc2.
    + intros Hnp. apply not_elem_of_cons in Hnp as [Hn1 Hn2]. rewrite Ho' by done. rewrite Hu, Ht by done. cbn [echoes u_out set_u_busy set_u_out]. by rewrite <- app_assoc.
Qed.

(** ** Transmitting *)

Notation tring := (Ring.ring_ok 0 UART_TX_BUF_SIZE (2 ^ 64)).
Definition tring_push := Ring.ring_push (0 : Z) UART_TX_BUF_SIZE (2 ^ 64) eq_refl eq_refl ltac:(by exists 576460752303423488).
Definition tring_pop := Ring.ring_pop (0 : Z) UART_TX_BUF_SIZE (2 ^ 64) eq_refl eq_refl ltac:(by exists 576460752303423488).
Definition tring_empty := Ring.ring_empty (0 : Z) UART_TX_BUF_SIZE (2 ^ 64) eq_refl eq_refl ltac:(by exists 576460752303423488).
Definition tring_full := Ring.ring_full (0 : Z) UART_TX_BUF_SIZE (2 ^ 64) eq_refl eq_refl ltac:(by exists 576460752303423488).

(** The bytes uartputc() has taken and not sent. *)
Definition queued (u : uartst) (q : list Z) : Prop := tring (u_buf u) (u_tx_r u) (u_tx_w u) q.

(** Who sleeps in uartputc() has a full buffer before them. *)
Definition uart_quiet (q : list Z) s : Prop := forall x, 0 <= x < NPROC ->
  p_state (proc_at (kproc s) x) = SLEEPING -> p_chan (proc_at (kproc s) x) = chan_uart -> zlen q = UART_TX_BUF_SIZE.

(** What the device takes of [q], [n] bytes into its output and busy for
    [busy] more looks at LSR: a byte when it is idle, the next when the last one
    left it idle. *)
Fixpoint takes (delay : nat -> nat) (busy n : nat) (q : list Z) : list Z :=
  match q with
  | [] => []
  | x :: q' => if (busy =? 0)%nat then x :: takes delay (delay n) (Datatypes.S n) q' else []
  end.
Definition taken (u : uartst) (q : list Z) : list Z := takes (u_delay u) (u_busy u) (length (u_out u)) q.

(** uartstart() sent [sent]: it went to the device, the writers are awake. *)
Record started (sent q' : list Z) s (s' : st) : Prop := {
  sd_state : exists ps b r, s' = set_kproc ps (withU (set_u_busy b (set_u_out (u_out (uart s) ++ map u8 sent) (set_u_tx_r r (uart s)))) s) /\
    idle_table ps /\ if bool_decide (sent = []) then ps = kproc s else mapped (woke (curp (kproc s)) chan_uart) (kproc s) ps;
  sd_queue : queued (uart s') q'
}.

Lemma woke_twice me c i x : woke me c i (woke me c i x) = woke me c i x.
Proof.
  unfold woke. destruct (negb (i =? me)); cbn [andb]; [|done]. destruct (bool_decide (p_state x = SLEEPING)) eqn:E, (p_chan x =? c) eqn:E2; cbn [andb]; rewrite ?E, ?E2; done.
Qed.

Lemma started_cons x sent q' s s1 s' ps b r : s1 = set_kproc ps (withU (set_u_busy b (set_u_out (u_out (uart s) ++ [u8 x]) (set_u_tx_r r (uart s)))) s) ->
  mapped (woke (curp (kproc s)) chan_uart) (kproc s) ps -> started sent q' s1 s' -> started (x :: sent) q' s s'.
Proof.
  intros -> Hm [(ps' & b' & r' & -> & Hi & Hps) Hq]. split; [|done]. exists ps', b', r'. split; [|split; [done|]].
  - cbn. by rewrite <- app_assoc.
  - rewrite bool_decide_false by done. cbn [kproc set_kproc] in Hps. case_bool_decide; [by subst ps'|]. rewrite (mapped_curp _ _ _ Hm) in Hps.
    destruct Hm as [Hm1 Hm2], Hps as [Hp1 Hp2]. split; [by rewrite Hp1, Hm1|]. intros i Hi'. by rewrite Hp2, Hm2, woke_twice by done.
Qed.

Lemma uartstart_S k s : uartstart_loop (Datatypes.S k) s =
  (let* u := gets (fun s => uart_ (kdev s)) in
   if u_tx_w u =? u_tx_r u then ret tt
   else
     let* lsr := ReadReg read_LSR in
     if Z.land lsr LSR_TX_IDLE =? 0 then ret tt
     else
       let c := nthZ 0 (u_buf u) (u_tx_r u mod UART_TX_BUF_SIZE) in
       on_uart (modify (set_u_tx_r (u64 (u_tx_r u + 1)))) ;;
       wakeup chan_uart ;;
       WriteReg THR c ;;
       uartstart_loop k) s.
Proof. reflexivity. Qed.

Lemma uartstart_loop_spec fuel : forall q s, (length q < fuel)%nat -> idle_table (kproc s) -> queued (uart s) q ->
  exists q' s', q = taken (uart s) q ++ q' /\ uartstart_loop fuel s = Ret tt s' /\ started (taken (uart s) q) q' s s'.
Proof.
  induction fuel as [|fuel IH]; intros q s Hf Hi Hq; [lia|]. rewrite uartstart_S. erewrite bind_Ret by reflexivity.
  assert (Hsame : forall b, started [] q s (withU (set_u_busy b (uart s)) s)).
  { intros b. split; [|done]. exists (kproc s), b, (u_tx_r (uart s)). split; [|done]. rewrite app_nil_r. by destruct s as [? ? ? [? [] ? ? ? ? ?]]. }
  rewrite Z.eqb_sym, (tring_empty _ _ _ _ Hq). case_bool_decide as He.
  { rewrite He in *. exists [], s. split; [done|]. split; [done|]. specialize (Hsame (u_busy (uart s))). by replace (withU _ s) with s in Hsame by (by destruct s as [? ? ? [? [] ? ? ? ? ?]]). }
  destruct q as [|x q]; [done|]. unfold ReadReg. erewrite bind_Ret by (apply on_uart_Ret; unfold read_LSR; reflexivity).
  pose proof (lsr_idle (uart s)) as El. unfold read_LSR in El. cbn [fst] in El. rewrite El.
  unfold taken. cbn [takes]. destruct (u_busy (uart s) =? 0)%nat eqn:Hb; cbn [negb].
  2:{ exists (x :: q). eexists. split; [done|]. split; [reflexivity|]. apply Hsame. }
  destruct (tring_pop _ _ _ _ _ Hq) as [-> Hq1]. erewrite bind_Ret by (by apply on_uart_Ret). set (s1 := withU _ (withU _ s)).
  destruct (wakeup_kst chan_uart s1 Hi) as (ps & Ew & Hi' & Hm). erewrite bind_Ret by exact Ew. unfold WriteReg. change (THR =? THR) with true. cbv iota.
  erewrite bind_Ret by (by apply on_uart_Ret). set (s2 := withU _ (set_kproc ps s1)).
  destruct (IH q s2) as (q' & s' & Hsq & E & Hd); [cbn in Hf; lia|done|exact Hq1|].
  assert (Ht : taken (uart s2) q = takes (u_delay (uart s)) (u_delay (uart s) (length (u_out (uart s)))) (Datatypes.S (length (u_out (uart s)))) q).
  { unfold taken, s2. cbn. rewrite length_app. cbn [length]. by rewrite Nat.add_1_r. }
  rewrite Ht in Hsq, Hd. exists q', s'. split; [cbn; by rewrite <- Hsq|]. split; [exact E|].
  eapply (started_cons x _ q' s s2); [reflexivity|exact Hm|exact Hd].
Qed.

Lemma uacquire_ok s : u_lock (uart s) = false -> uacquire s = Ret tt (withU (set_u_lock true (uart s)) s).
Proof. intros H. unfold uacquire. apply on_uart_Ret. unfold lk_acquire. by rewrite H. Qed.

Lemma urelease_ok s : u_lock (uart s) = true -> urelease s = Ret tt (withU (set_u_lock false (uart s)) s).
Proof. intros H. unfold urelease. apply on_uart_Ret. unfold lk_release. by rewrite H. Qed.

Lemma quiet_started sent q q' s s' : p_state (cur s) = RUNNING -> zlen q < UART_TX_BUF_SIZE \/ sent <> [] \/ q' = q -> uart_quiet q s ->
  started sent q' s s' -> uart_quiet q' s'.
Proof.
  intros Hrun Hc Hq [(ps & b & r & -> & _ & Hps) _] x Hx. change (kproc (set_kproc ps _)) with ps. case_bool_decide as Hs.
  - rewrite Hps. intros H1 H2. pose proof (Hq x Hx H1 H2). destruct Hc as [?|[?| ->]]; [lia|done|done].
  - rewrite (mp_at _ _ _ Hps) by done. destruct (decide (x = curp (kproc s))) as [->|Hne]; [rewrite woke_me; unfold cur in Hrun; by rewrite Hrun|].
    intros H1 H2. destruct (woke_asleep _ _ _ _ Hne H1) as (_ & ? & ?). congruence.
Qed.

(** After uartputc() of [c] with [q] queued. *)
Definition putc_outcome (c : Z) (q : list Z) s (o : outcome st unit) : Prop :=
  exists s', u_lock (uart s') = false /\
  if bool_decide (zlen q = UART_TX_BUF_SIZE) then
    o = Block chan_uart s' /\ uart s' = uart s /\ uart_quiet q s' /\
    kproc s' = upd_proc (curp (kproc s)) (asleep chan_uart) (kproc s)
  else let sent := taken (uart s) (q ++ [u8 c]) in
    exists q', o = Ret tt s' /\ q ++ [u8 c] = sent ++ q' /\ queued (uart s') q' /\
      u_out (uart s') = u_out (uart s) ++ map u8 sent /\ uart_quiet q' s'.

Lemma uartputc_spec c q s : idle_table (kproc s) -> panicked (kdev s) = false -> u_lock (uart s) = false ->
  queued (uart s) q -> p_state (cur s) = RUNNING -> uart_quiet q s -> putc_outcome c q s (uartputc c s).
Proof.
  intros Hi Hp Hl Hq Hrun Hqu. unfold putc_outcome, uartputc. erewrite bind_Ret by (by apply uacquire_ok). erewrite bind_Ret by reflexivity.
  change (panicked (kdev (withU _ s))) with (panicked (kdev s)). rewrite Hp. erewrite bind_Ret by reflexivity. set (s1 := withU (set_u_lock true (uart s)) s).
  change (u_tx_w (uart s1)) with (u_tx_w (uart s)). change (u_tx_r (uart s1)) with (u_tx_r (uart s)). 
  assert (Hfull : (u_tx_w (uart s) =? u64 (u_tx_r (uart s) + UART_TX_BUF_SIZE)) = bool_decide (zlen q = UART_TX_BUF_SIZE)) by exact (tring_full _ _ _ _ Hq).
  rewrite Hfull. case_bool_decide as Hf.
  - erewrite bind_Ret by (apply (sleep_kst _ _ _ (fun x => withU (set_u_lock false (uart s1)) x)); [done|intros ps; exact (urelease_ok (set_kproc ps s1) eq_refl)|done]).
    eexists. split; [|split; [reflexivity|]]; [done|]. split; [cbn; by destruct (uart s); cbn in Hl; subst|]. split; [|done]. intros x _ _ _. done.
  - pose proof (Ring.ring_len _ _ _ _ _ _ _ Hq). erewrite bind_Ret by (by apply on_uart_Ret). erewrite bind_Ret by (by apply on_uart_Ret).
    set (s2 := withU _ (withU _ s1)). assert (Hq2 : queued (uart s2) (q ++ [u8 c])) by (apply tring_push; [exact Hq|lia]).
    destruct (uartstart_loop_spec (Datatypes.S (Z.to_nat UART_TX_BUF_SIZE)) (q ++ [u8 c]) s2) as (q' & s3 & Hsq & E & Hd); [|done|done|].
    { rewrite length_app. cbn [length]. unfold zlen in *. lia. }
    change (taken (uart s2) (q ++ [u8 c])) with (taken (uart s) (q ++ [u8 c])) in Hsq, Hd.
    erewrite bind_Ret by exact E. assert (Hq3 : uart_quiet q' s3) by (eapply (quiet_started _ q q' s2); [done|left; lia|done|exact Hd]).
    destruct Hd as [(ps & b & r & -> & Hips & Hps) Hqd]. rewrite urelease_ok by done. eexists. split; [|exists q'; split; [reflexivity|]]; [done|].
    split; [done|]. split; [exact Hqd|]. split; [done|]. exact Hq3.
Qed.

Lemma uartintr_spec cs d l q s : ready d l s -> u_rx (uart s) = cs -> Forall (fun c => 0 <= c < 256) cs ->
  u_lock (uart s) = false -> queued (uart s) q -> uart_quiet q s ->
  exists s1 q' s', uartintr_loop (Datatypes.S (length cs)) s = Ret tt s1 /\ uartintr s = Ret tt s' /\
    let sent := taken (uart s1) q in
    q = sent ++ q' /\ ready (edits cs d l).1 (edits cs d l).2 s' /\ u_rx (uart s') = [] /\
    u_lock (uart s') = false /\ queued (uart s') q' /\ uart_quiet q' s' /\
    u_out (uart s') = u_out (uart s1) ++ map u8 sent /\
    (ctrl 80 ∉ cs -> u_out (uart s1) = u_out (uart s) ++ echoes cs d l).
Proof.
  intros Hr Hx Hb Hl Hq Hqu. unfold uartintr. erewrite bind_Ret by reflexivity. rewrite Hx.
  destruct (uartintr_loop_spec cs (Datatypes.S (length cs)) d l s ltac:(lia) Hr Hx Hb) as (s1 & E & Hr1 & Hx1 & Hl1 & Ht1 & Hfa & Ho1).
  injection Ht1 as Ht1 Ht2 Ht3. erewrite bind_Ret by exact E. erewrite bind_Ret by (apply uacquire_ok; by rewrite Hl1). set (s2 := withU _ s1).
  assert (Hq2 : queued (uart s2) q) by (unfold queued; cbn; by rewrite Ht1, Ht2, Ht3).
  assert (Hqu2 : uart_quiet q s2) by (intros x Hxx H1 H2; destruct (Hfa x Hxx H1) as [H3 H4]; apply (Hqu x Hxx H3); by rewrite H4).
  pose proof (Ring.ring_len _ _ _ _ _ _ _ Hq) as Hlen. unfold zlen in Hlen. destruct Hr1 as [R1 R2 R3 R4 R5 R6 R7].
  destruct (uartstart_loop_spec (Datatypes.S (Z.to_nat UART_TX_BUF_SIZE)) q s2 ltac:(lia) R1 Hq2) as (q' & s3 & Hsq & E3 & Hd).
  change (taken (uart s2) q) with (taken (uart s1) q) in Hsq, Hd.
  erewrite bind_Ret by exact E3. assert (Hq3 : uart_quiet q' s3).
  { eapply (quiet_started _ q q' s2); [done| |done|exact Hd]. destruct (taken (uart s1) q); [right; right; by rewrite Hsq|right; by left]. }
  destruct Hd as [(ps & b & r & -> & Hips & Hps) Hqd]. rewrite urelease_ok by done. exists s1, q'. eexists. split; [exact E|]. split; [reflexivity|]. cbv zeta. split; [exact Hsq|].
  assert (Hps2 : (ps = kproc s1) \/ mapped (woke (curp (kproc s1)) chan_uart) (kproc s1) ps) by (case_bool_decide; [by left|by right]).
  split; [|split; [exact Hx1|split; [done|split; [exact Hqd|split; [exact Hq3|split; [done|exact Ho1]]]]]].
  split; try done.
  - unfold cur in *. change (kproc (withU _ (set_kproc ps _))) with ps. destruct Hps2 as [-> |Hm]; [done|]. rewrite (mapped_curp _ _ _ Hm), (mp_at _ _ _ Hm) by apply R1. by rewrite woke_me.
  - intros x Hxx. change (kproc (withU _ (set_kproc ps _))) with ps. destruct Hps2 as [-> |Hm]; [by apply R7|]. rewrite (mp_at _ _ _ Hm) by done.
    unfold woke. destruct (_ && _); [done|]. by apply R7.
Qed.

(** C21: an interrupt of the UART takes every character waiting in the
    device, in order, through the line discipline: characters collect in the
    line being edited, backspace and delete erase one, ^U erases all of them,
    and newline, ^D or a full buffer hand the line over and wake the readers;
    each is echoed.  Then it sends queued output, in order: exactly the bytes
    the device takes in the state [s1] in which it has no more input, that is
    all of them unless LSR says that the transmit register is full.  It never
    panics, and afterwards nobody sleeps for input that is
    there or for room in a buffer that is not full. *)
Theorem uartintr_correct cs d l q s : ready d l s -> u_rx (uart s) = cs -> Forall (fun c => 0 <= c < 256) cs ->
  u_lock (uart s) = false -> queued (uart s) q -> uart_quiet q s ->
  exists s1 q' s', uartintr_loop (Datatypes.S (length cs)) s = Ret tt s1 /\ uartintr s = Ret tt s' /\
    let sent := taken (uart s1) q in
    q = sent ++ q' /\ ready (edits cs d l).1 (edits cs d l).2 s' /\ u_rx (uart s') = [] /\
    u_lock (uart s') = false /\ queued (uart s') q' /\ uart_quiet q' s' /\
    u_out (uart s') = u_out (uart s1) ++ map u8 sent /\
    (ctrl 80 ∉ cs -> u_out (uart s1) = u_out (uart s) ++ echoes cs d l).
Proof. apply uartintr_spec. Qed.

(** C22: consoleread() into accessible user memory stores exactly the next
    line: up to its newline, to an end of file, or [n] bytes, and leaves the
    rest; an end of file with nothing before it is taken and gives 0.  With no
    complete line it stores what there is and sleeps, or returns -1 when
    killed.  Nothing else changes. *)
Theorem consoleread_correct va n d l lp s : idle_table (kproc s) -> space_ok kend s lp -> c_lock (cons s) = false ->
  cooked (cons s) d l -> cons_quiet d s -> 0 <= va < 2 ^ 64 -> 0 <= n < 2 ^ 31 -> usable va n s ->
  read_outcome va n d l lp s (consoleread (UserDst va) n s).
Proof using Hkend. apply consoleread_spec. Qed.

(** uartputc() queues the byte behind the others, sends from the front while
    the device takes bytes and loses none; it sleeps exactly when the buffer is
    full. *)
Theorem uartputc_correct c q s : idle_table (kproc s) -> panicked (kdev s) = false -> u_lock (uart s) = false ->
  queued (uart s) q -> p_state (cur s) = RUNNING -> uart_quiet q s -> putc_outcome c q s (uartputc c s).
Proof. apply uartputc_spec. Qed.
End ConsoleProof.

(** ** A console with input *)

Module ConsoleSample.
(** "hx" typed, then delete, "i" and return; "ok" waits to be sent. *)
Definition typing : kst lst :=
  Kst Tiny.fs Tiny.files Tiny.table
    (set_uart (Uart false (111 :: 107 :: repeat 0 30) 2 0 [104; 120; 127; 105; 13] [] 0 (fun _ => 0%nat) ∅) Tiny.devices).
(** The line "hi" is there, "x" is being typed. *)
Definition line_in : kst lst :=
  Kst Tiny.fs Tiny.files Tiny.table (set_cons (Cons false (104 :: 105 :: 10 :: 120 :: repeat 0 124) 0 3 4) Tiny.devices).

Lemma asleep_none (P : Prop) x : 0 <= x < NPROC -> p_state (proc_at Tiny.table x) = SLEEPING -> P.
Proof. intros Hx H. exfalso. revert H. by apply (Tiny.at_table (fun y => p_state y = SLEEPING -> False)). Qed.

Lemma typing_ready : ready [] [] typing.
Proof.
  split; [exact Tiny.idle|done|done|done| |done|intros x Hx H; by apply (asleep_none _ x)].
  split; [by apply Ring.ring_nil|done|set_solver].
Qed.

Lemma typing_queued : queued (uart_ (kdev typing)) [111; 107].
Proof. split_and!; try done. change (zlen [111; 107]) with 2. intros k Hk. assert (k = 0 \/ k = 1) as [-> | ->] by lia; reflexivity. Qed.

Lemma line_cooked : cooked (cons_ (kdev line_in)) [104; 105; 10] [120].
Proof.
  split; [|done|set_solver]. split_and!; try done. change (zlen ([104; 105; 10] ++ [120])) with 4. intros k Hk.
  assert (k = 0 \/ k = 1 \/ k = 2 \/ k = 3) as [-> |[-> |[-> | ->]]] by lia; reflexivity.
Qed.

Lemma line_usable : usable 0 8 line_in.
Proof.
  intros j Hj. assert (j = 0 \/ j = 1 \/ j = 2 \/ j = 3 \/ j = 4 \/ j = 5 \/ j = 6 \/ j = 7) as H by lia.
  repeat destruct H as [-> |H]; [..|subst j]; vm_compute; discriminate.
Qed.
End ConsoleSample.

Lemma uartintr_correct_witness :
  exists s1 s', uartintr_loop 6 ConsoleSample.typing = Ret tt s1 /\ uartintr ConsoleSample.typing = Ret tt s' /\ ready [104; 105; 10] [] s' /\
    u_out (uart_ (kdev s')) = ([104; 120; 8; 32; 8; 105; 10] ++ map u8 (taken (uart_ (kdev s1)) [111; 107]))%list.
Proof.
  destruct (uartintr_correct [104; 120; 127; 105; 13] [] [] [111; 107] ConsoleSample.typing ConsoleSample.typing_ready eq_refl) as (s1 & q' & s' & E1 & E & _ & Hr & _ & _ & _ & _ & Ho' & Ho);
    [by repeat constructor|done|exact ConsoleSample.typing_queued|intros x Hx H; by apply (ConsoleSample.asleep_none _ x)|].
  exists s1, s'. split; [exact E1|]. split; [exact E|]. split; [exact Hr|]. rewrite Ho', Ho; [reflexivity|]. refine (bool_decide_unpack (_ ∉ _) _). vm_compute. exact I.
Defined.

Lemma consoleread_correct_witness :
  exists s', consoleread (UserDst 0) 8 ConsoleSample.line_in = Ret (3, []) s' /\
    line_post PipeSample.pi 0 [] [120] [] [104; 105; 10] ConsoleSample.line_in s'.
Proof.
  destruct (consoleread_correct PipeSample.pi ltac:(done) 0 8 [104; 105; 10] [120] [] ConsoleSample.line_in Tiny.idle PipeSample.space eq_refl
    ConsoleSample.line_cooked ltac:(intros x Hx H; by apply (ConsoleSample.asleep_none _ x)) ltac:(done) ltac:(done) ConsoleSample.line_usable) as (s' & _ & Hp & E & _).
  exists s'. split; [exact E|exact Hp].
Defined.
