(* ===== verification/Proc.v ===== *)
(** * Processes (kernel/proc.c)

    Creation, exit, wait and kill over the process table of Kernel.v.  The
    scheduler and the switch between harts are in Sched.v; the process
    listings are in Console.v. *)

From Stdlib Require Import ZArith Lia.
From stdpp Require Import base numbers list list_numbers gmap strings sorting.
From S2P Require Import Prelude Cstring Riscv Kalloc Vm Uvm Bytes Sleeplock Bio Log Store Fs Kernel Console File.

(** ** struct trapframe, in the page p->trapframe points to *)

Definition TF_SIZE : Z := 288.
Definition tf_kernel_satp : Z := 0.
Definition tf_kernel_sp : Z := 8.
Definition tf_kernel_trap : Z := 16.
Definition tf_epc : Z := 24.
Definition tf_kernel_hartid : Z := 32.
Definition tf_sp : Z := 48.
Definition tf_a0 : Z := 112.
Definition tf_a1 : Z := 120.
Definition tf_a2 : Z := 128.
Definition tf_a3 : Z := 136.
Definition tf_a4 : Z := 144.
Definition tf_a5 : Z := 152.
Definition tf_a7 : Z := 168.

(** user/initcode.S, assembled. *)
Definition initcode : list Z :=
  [0x17; 0x05; 0x00; 0x00; 0x13; 0x05; 0x45; 0x02;
   0x97; 0x05; 0x00; 0x00; 0x93; 0x85; 0x35; 0x02;
   0x93; 0x08; 0x70; 0x00; 0x73; 0x00; 0x00; 0x00;
   0x93; 0x08; 0x20; 0x00; 0x73; 0x00; 0x00; 0x00;
   0xef; 0xf0; 0x9f; 0xff; 0x2f; 0x69; 0x6e; 0x69;
   0x74; 0x00; 0x00; 0x24; 0x00; 0x00; 0x00; 0x00;
   0x00; 0x00; 0x00; 0x00].

Section Proc.
Context {S : Type} {ops : BlockOps S}.
(** The linker's end and trampoline, and the address of forkret(). *)
Context (kend trampoline forkret : Z).
Notation st := (kst S).

Definition getpr {A} (p : Z) (f : proc -> A) : M st A := on_proc (getp p f).
Definition setpr (p : Z) (f : proc -> proc) : M st unit := on_proc (setp p f).
Definition acquire_p (p : Z) : M st unit := on_proc (pacquire p).
Definition release_p (p : Z) : M st unit := on_proc (prelease p).
Definition acquire_wait : M st unit := on_proc (lk_acquire wait_lock set_wait_lock).
Definition release_wait : M st unit := on_proc (lk_release wait_lock set_wait_lock).

(** A trapframe field of process [p]. *)
Definition tf_get (p off : Z) : M st Z :=
  let* tf := getpr p p_trapframe in on_mem (k_load64 (tf + off)).
Definition tf_set (p off v : Z) : M st unit :=
  let* tf := getpr p p_trapframe in on_mem (k_store64 (tf + off) (u64 v)).

Fixpoint procinit_loop (n : nat) (p : Z) : M st unit :=
  match n with
  | O => ret tt
  | Datatypes.S k =>
      setpr p (set_p_lock false) ;;
      setpr p (set_p_state UNUSED) ;;
      setpr p (set_p_kstack (KSTACK p)) ;;
      procinit_loop k (p + 1)
  end.
Definition procinit : M st unit :=
  on_proc (modify (set_pid_lock false)) ;;
  on_proc (modify (set_wait_lock false)) ;;
  procinit_loop NPROCn 0.

Definition allocpid : M st Z :=
  on_proc (lk_acquire pid_lock set_pid_lock) ;;
  let* pid := gets (fun s => nextpid (kproc s)) in
  on_proc (modify (set_nextpid (s32 (pid + 1)))) ;;
  on_proc (lk_release pid_lock set_pid_lock) ;;
  ret pid.

Definition proc_pagetable (p : Z) : M st Z :=
  let* pagetable := on_mem uvmcreate in
  if pagetable =? 0 then ret 0
  else
    let* r := on_mem (mappages pagetable TRAMPOLINE PGSIZE trampoline (Z.lor PTE_R PTE_X)) in
    if r <? 0 then on_mem (uvmfree kend pagetable 0) ;; ret 0
    else
      let* tf := getpr p p_trapframe in
      let* r := on_mem (mappages pagetable TRAPFRAME PGSIZE tf (Z.lor PTE_R PTE_W)) in
      if r <? 0 then
        on_mem (uvmunmap kend pagetable TRAMPOLINE 1 false) ;;
        on_mem (uvmfree kend pagetable 0) ;;
        ret 0
      else ret pagetable.

Definition proc_freepagetable (pagetable sz : Z) : M st unit :=
  on_mem (uvmunmap kend pagetable TRAMPOLINE 1 false) ;;
  on_mem (uvmunmap kend pagetable TRAPFRAME 1 false) ;;
  on_mem (uvmfree kend pagetable sz).

Definition freeproc (p : Z) : M st unit :=
  let* x := getpr p (fun x => x) in
  (if negb (p_trapframe x =? 0) then on_mem (kfree kend (p_trapframe x)) else ret tt) ;;
  setpr p (set_p_trapframe 0) ;;
  (if negb (p_pagetable x =? 0) then proc_freepagetable (p_pagetable x) (p_sz x) else ret tt) ;;
  setpr p (set_p_pagetable 0) ;;
  setpr p (set_p_sz 0) ;;
  setpr p (set_p_pid 0) ;;
  setpr p (set_p_parent NULL) ;;
  setpr p (fun x => set_p_name (updZ 0 0 (p_name x)) x) ;;
  setpr p (set_p_chan 0) ;;
  setpr p (set_p_killed 0) ;;
  setpr p (set_p_xstate 0) ;;
  setpr p (set_p_state UNUSED).

(** The scan of allocproc(): an UNUSED entry, with its lock held. *)
Fixpoint find_unused (n : nat) (p : Z) : M st Z :=
  match n with
  | O => ret NULL
  | Datatypes.S k =>
      acquire_p p ;;
      let* x := getpr p p_state in
      if bool_decide (x = UNUSED) then ret p
      else release_p p ;; find_unused k (p + 1)
  end.

Definition allocproc : M st Z :=
  let* p := find_unused NPROCn 0 in
  if p =? NULL then ret NULL
  else
    let* pid := allocpid in
    setpr p (set_p_pid pid) ;;
    setpr p (set_p_state USED) ;;
    let* tf := on_mem kalloc in
    setpr p (set_p_trapframe tf) ;;
    if tf =? 0 then freeproc p ;; release_p p ;; ret NULL
    else
      let* pt := proc_pagetable p in
      setpr p (set_p_pagetable pt) ;;
      if pt =? 0 then freeproc p ;; release_p p ;; ret NULL
      else
        setpr p (fun x => set_p_context forkret (u64 (p_kstack x + PGSIZE)) x) ;;
        ret p.

Definition set_name (t : list Z) (x : proc) : proc :=
  set_p_name (patch (p_name x) 0 (safestrcpy t 16)) x.

Definition userinit : M st unit :=
  let* p := allocproc in
  on_proc (modify (set_initproc p)) ;;
  let* pt := getpr p p_pagetable in
  on_mem (uvmfirst pt initcode (zlen initcode)) ;;
  setpr p (set_p_sz PGSIZE) ;;
  tf_set p tf_epc 0 ;;
  tf_set p tf_sp PGSIZE ;;
  setpr p (set_name (lit "initcode")) ;;
  let* cwd := on_fs (namei [SLASH]) in
  setpr p (set_p_cwd cwd) ;;
  setpr p (set_p_state RUNNABLE) ;;
  release_p p.

Definition growproc (n : Z) : M st Z :=
  let* x := mine (fun x => x) in
  let sz := p_sz x in
  if 0 <? n then
    let* sz' := on_mem (uvmalloc kend (p_pagetable x) sz (u64 (sz + n)) PTE_W) in
    if sz' =? 0 then ret (-1) else setmine (set_p_sz sz') ;; ret 0
  else if n <? 0 then
    let* sz' := on_mem (uvmdealloc kend (p_pagetable x) sz (u64 (sz + n))) in
    setmine (set_p_sz sz') ;; ret 0
  else setmine (set_p_sz sz) ;; ret 0.

(** The descriptors fork() duplicates, from [i]. *)
Fixpoint fork_files (n : nat) (i np : Z) : M st unit :=
  match n with
  | O => ret tt
  | Datatypes.S k =>
      let* f := mine (fun x => nthZ NULL (p_ofile x) i) in
      (if negb (f =? NULL) then
         let* f' := filedup f in
         setpr np (fun x => set_p_ofile (updZ i f' (p_ofile x)) x)
       else ret tt) ;;
      fork_files k (i + 1) np
  end.

Definition fork : M st Z :=
  let* p := myproc in
  let* np := allocproc in
  if np =? NULL then ret (-1)
  else
    let* x := getpr p (fun x => x) in
    let* npt := getpr np p_pagetable in
    let* r := on_mem (uvmcopy kend (p_pagetable x) npt (p_sz x)) in
    if r <? 0 then freeproc np ;; release_p np ;; ret (-1)
    else
      setpr np (set_p_sz (p_sz x)) ;;
      let* ntf := getpr np p_trapframe in
      on_mem (k_memmove ntf (p_trapframe x) TF_SIZE) ;;
      tf_set np tf_a0 0 ;;
      fork_files (Z.to_nat NOFILE) 0 np ;;
      let* cwd := on_fs (idup (p_cwd x)) in
      setpr np (set_p_cwd cwd) ;;
      setpr np (set_name (p_name x)) ;;
      let* pid := getpr np p_pid in
      release_p np ;;
      acquire_wait ;;
      setpr np (set_p_parent p) ;;
      release_wait ;;
      acquire_p np ;;
      setpr np (set_p_state RUNNABLE) ;;
      release_p np ;;
      ret pid.

Fixpoint reparent_loop (n : nat) (pp p : Z) : M st unit :=
  match n with
  | O => ret tt
  | Datatypes.S k =>
      let* par := getpr pp p_parent in
      (if par =? p then
         let* init := gets (fun s => initproc (kproc s)) in
         setpr pp (set_p_parent init) ;;
         wakeup (chan_proc init)
       else ret tt) ;;
      reparent_loop k (pp + 1) p
  end.
Definition reparent (p : Z) : M st unit := reparent_loop NPROCn 0 p.

Fixpoint exit_files (n : nat) (fd : Z) : M st unit :=
  match n with
  | O => ret tt
  | Datatypes.S k =>
      let* f := mine (fun x => nthZ NULL (p_ofile x) fd) in
      (if negb (f =? NULL) then
         fileclose kend f ;;
         setmine (fun x => set_p_ofile (updZ fd NULL (p_ofile x)) x)
       else ret tt) ;;
      exit_files k (fd + 1)
  end.

(** exit() after the files and the directory are given up, to the switch:
    the process is a zombie and its lock is released by the scheduler. *)
Definition exit_zombie (status : Z) : M st unit :=
  let* p := myproc in
  acquire_wait ;;
  reparent p ;;
  let* par := getpr p p_parent in
  wakeup (chan_proc par) ;;
  acquire_p p ;;
  setpr p (set_p_xstate status) ;;
  setpr p (set_p_state ZOMBIE) ;;
  release_wait ;;
  sched ;;
  release_p p.

Definition exit (status : Z) : M st unit :=
  let* p := myproc in
  let* init := gets (fun s => initproc (kproc s)) in
  if p =? init then panic "init exiting"
  else
    exit_files (Z.to_nat NOFILE) 0 ;;
    begin_op_ ;;
    let* cwd := mine p_cwd in
    on_fs (iput cwd) ;;
    end_op_ ;;
    setmine (set_p_cwd NULL) ;;
    exit_zombie status.

(** wait()'s scan from entry [pp]: the value it returns, or whether there are
    children. *)
Fixpoint wait_scan (n : nat) (pp addr : Z) (havekids : bool) : M st (Z + bool) :=
  match n with
  | O => ret (inr havekids)
  | Datatypes.S k =>
      let* p := myproc in
      let* par := getpr pp p_parent in
      if par =? p then
        acquire_p pp ;;
        let* x := getpr pp (fun x => x) in
        if bool_decide (p_state x = ZOMBIE) then
          let pid := p_pid x in
          let* r := (if negb (addr =? 0) then ucopyout addr (le_bytes 4 (p_xstate x)) else ret 0) in
          if r <? 0 then release_p pp ;; release_wait ;; ret (inl (-1))
          else
            freeproc pp ;;
            release_p pp ;;
            release_wait ;;
            ret (inl pid)
        else release_p pp ;; wait_scan k (pp + 1) addr true
      else wait_scan k (pp + 1) addr havekids
  end.

(** One turn of wait()'s loop, wait_lock held: [inl] the result, [inr] when
    it goes to sleep. *)
Definition wait_turn (addr : Z) : M st (Z + unit) :=
  let* r := wait_scan NPROCn 0 addr false in
  match r with
  | inl v => ret (inl v)
  | inr havekids =>
      let* p := myproc in
      let* k := (if havekids then killed p else ret 0) in
      if negb havekids || negb (k =? 0) then release_wait ;; ret (inl (-1))
      else sleep (chan_proc p) release_wait ;; ret (inr tt)
  end.

Definition wait (addr : Z) : M st Z :=
  acquire_wait ;;
  let* r := wait_turn addr in
  let* p := myproc in
  match r with
  | inl v => ret v
  | inr _ => sleep_on (chan_proc p)
  end.

Fixpoint kill_loop (n : nat) (p pid : Z) : M st Z :=
  match n with
  | O => ret (-1)
  | Datatypes.S k =>
      acquire_p p ;;
      let* x := getpr p (fun x => x) in
      if p_pid x =? pid then
        setpr p (set_p_killed 1) ;;
        (if bool_decide (p_state x = SLEEPING) then setpr p (set_p_state RUNNABLE) else ret tt) ;;
        release_p p ;;
        ret 0
      else release_p p ;; kill_loop k (p + 1) pid
  end.
Definition kill (pid : Z) : M st Z := kill_loop NPROCn 0 pid.
End Proc.
