(* ===== verification/ProcMem.v ===== *)
(** * kernel/proc.c: the memory of a process

    allocproc() gives a process a trap frame and a page table, freeproc()
    takes back these and the user memory; proved here: every page taken comes
    off the free list and every page given up returns to it, on the error
    paths too. *)

From Stdlib Require Import ZArith Lia.
From stdpp Require Import base numbers list list_numbers gmap strings sorting.
From S2P Require Import Prelude Cstring Riscv Kalloc Vm PageTable Uvm UvmFree AddrSpace UvmCopy Bytes Sleeplock Bio Log Store Fs Kernel KernelProof Console File Proc.

Section Run.
Context {S : Type} {ops : BlockOps S}.
Notation st := (kst S).

(** ** Running on the memory and the process table

    [s] has process table [ps] and memory [k], and otherwise is [s0]. *)
Record at_ (s0 : st) (ps : procst) (k : kmem) (s : st) : Prop := At {
  at_proc : kproc s = ps;
  at_mem : umem (kfs s) = k;
  at_store : store (kfs s) = store (kfs s0);
  at_sb : f_sb (kfs s) = f_sb (kfs s0);
  at_itlock : it_lock (kfs s) = it_lock (kfs s0);
  at_itable : itable (kfs s) = itable (kfs s0);
  at_file : kfile s = kfile s0;
  at_dev : kdev s = kdev s0
}.

Lemma at_refl s : at_ s (kproc s) (umem (kfs s)) s.
Proof. by split. Qed.

Lemma run_mem {A} (m : M kmem A) s0 ps k s a k' :
  at_ s0 ps k s -> m k = Ret a k' -> exists s', on_mem m s = Ret a s' /\ at_ s0 ps k' s'.
Proof.
  intros [Hp Hm ? ? ? ? ? ?] E. exists (with_mem k' s). split; [apply on_mem_Ret; by rewrite Hm|]. by split.
Qed.

Lemma run_proc {A} (m : M procst A) s0 ps k s a ps' :
  at_ s0 ps k s -> m ps = Ret a ps' -> exists s', on_proc m s = Ret a s' /\ at_ s0 ps' k s'.
Proof.
  intros [Hp Hm ? ? ? ? ? ?] E. exists (set_kproc ps' s). split; [apply on_proc_Ret; by rewrite Hp|]. by split.
Qed.

Lemma run_getpr {A} p (f : proc -> A) s0 ps k s : at_ s0 ps k s -> getpr p f s = Ret (f (proc_at ps p)) s.
Proof.
  intros [Hp _ _ _ _ _ _ _]. unfold getpr. erewrite on_proc_Ret by reflexivity. rewrite Hp. f_equal. rewrite <- Hp. apply set_kproc_same.
Qed.

Lemma run_setpr p f s0 ps k s : at_ s0 ps k s -> exists s', setpr p f s = Ret tt s' /\ at_ s0 (upd_proc p f ps) k s'.
Proof. intros H. by eapply run_proc. Qed.

End Run.

(** Runs the next assignment to an entry of the table. *)
Ltac setpr_step :=
  match goal with
  | H : at_ ?s0 ?ps ?k ?s |- context [bind (setpr ?p ?f) _ ?s] =>
      let X := fresh "X" in pose proof (run_setpr p f s0 ps k s H) as X; clear H;
      let s' := fresh "s" in let E := fresh "R" in let H' := fresh "Hat" in
      destruct X as (s' & E & H'); erewrite bind_Ret by exact E; clear E;
      try (rewrite upd_proc_upd in H' by done)
  end.

Section ProcMem.
Context {S : Type} {ops : BlockOps S}.
Context (kend trampoline forkret : Z).
Hypothesis Hkend : KERNBASE <= kend.
Notation st := (kst S).
Notation page_ok := (page_ok kend).
Notation uspace := (uspace kend).

(** ** What a process owns *)

Definition extra : list Z := [TRAPFRAME; TRAMPOLINE].

Definition tf_pages (x : proc) : list Z := if p_trapframe x =? 0 then [] else [p_trapframe x].
Definition space_pages (m : mem) (x : proc) : list Z :=
  if p_pagetable x =? 0 then [] else upages m (p_pagetable x) (pgs (p_sz x)) ++ tp 2 m (p_pagetable x).
Definition proc_pages (m : mem) (x : proc) : list Z := tf_pages x ++ space_pages m x.

(** Process [x] owns its pages, beside the free pages [l]. *)
Record owner (k : kmem) (x : proc) (l : list Z) : Prop := Owner {
  ow_free : kwf kend k l;
  ow_pages : NoDup (proc_pages (phys k) x ++ l);
  ow_tf : Forall page_ok (tf_pages x);
  ow_sz : 0 <= p_sz x;
  ow_space : p_pagetable x <> 0 -> uspace k (p_pagetable x) (pgs (p_sz x)) extra l
}.

Lemma uspace_perm s root n e e' l : e ≡ₚ e' -> uspace s root n e l -> uspace s root n e' l.
Proof.
  intros He [? ? ? ? ? ? Hex Hd Hr]. split; try done.
  - intros va. rewrite <- He. apply Hex.
  - by rewrite <- He.
  - intros va. rewrite <- He. apply Hr.
Qed.

(** proc_freepagetable() returns all pages of an address space. *)
Lemma proc_freepagetable_spec (s0 : st) ps k s root sz l :
  at_ s0 ps k s -> 0 <= sz -> uspace k root (pgs sz) extra l ->
  exists s' k' l', proc_freepagetable kend root sz s = Ret tt s' /\ at_ s0 ps k' s' /\
    kwf kend k' l' /\ l' ≡ₚ owns k root (pgs sz) l /\
    (forall x, (forall p, p ∈ owns k root (pgs sz) l -> ~ in_page p x) -> load8 (phys k') x = load8 (phys k) x).
Proof.
  intros Hat Hsz Hu. apply (uspace_perm _ _ _ _ [TRAMPOLINE; TRAPFRAME]) in Hu; [|apply perm_swap].
  destruct (uspace_drop kend Hkend _ _ _ _ _ _ Hu) as (k1 & E1 & Hu1 & Hmv1).
  destruct (uspace_drop kend Hkend _ _ _ _ _ _ Hu1) as (k2 & E2 & Hu2 & Hmv2).
  destruct (uvmfree_spec kend Hkend k2 root sz l Hsz Hu2) as (k3 & l' & E3 & Hk3 & Hl' & Hm3).
  destruct (moved_trans _ _ _ _ _ _ _ _ _ _ Hmv1 Hmv2) as [Hown Hm].
  destruct (run_mem _ _ _ _ _ _ _ Hat E1) as (s1 & R1 & Hat1).
  destruct (run_mem _ _ _ _ _ _ _ Hat1 E2) as (s2 & R2 & Hat2).
  destruct (run_mem _ _ _ _ _ _ _ Hat2 E3) as (s3 & R3 & Hat3).
  exists s3, k3, l'. split.
  { unfold proc_freepagetable. erewrite bind_Ret by exact R1. by erewrite bind_Ret by exact R2. }
  split; [done|]. split; [done|]. split; [by rewrite Hl'|].
  intros x Hx. rewrite Hm3; [by apply Hm|]. intros p. rewrite Hown. apply Hx.
Qed.

(** What freeproc() leaves of a process entry. *)
Definition cleared (x : proc) : proc :=
  set_p_state UNUSED (set_p_xstate 0 (set_p_killed 0 (set_p_chan 0 (set_p_name (updZ 0 0 (p_name x))
    (set_p_parent NULL (set_p_pid 0 (set_p_sz 0 (set_p_pagetable 0 (set_p_trapframe 0 x))))))))).

Lemma release_space (s0 : st) ps k s x l :
  at_ s0 ps k s -> kwf kend k l -> 0 <= p_sz x -> (p_pagetable x <> 0 -> uspace k (p_pagetable x) (pgs (p_sz x)) extra l) ->
  exists s' k' l', (if negb (p_pagetable x =? 0) then proc_freepagetable kend (p_pagetable x) (p_sz x) else ret tt) s = Ret tt s' /\
    at_ s0 ps k' s' /\ kwf kend k' l' /\ l' ≡ₚ space_pages (phys k) x ++ l /\
    (forall a, (forall q, q ∈ space_pages (phys k) x ++ l -> ~ in_page q a) -> load8 (phys k') a = load8 (phys k) a).
Proof.
  intros Hat Hk Hsz Hsp. unfold space_pages. destruct (Z.eqb_spec (p_pagetable x) 0) as [|Hne]; cbn [negb].
  { by exists s, k, l. }
  destruct (proc_freepagetable_spec s0 ps k s (p_pagetable x) (p_sz x) l Hat Hsz (Hsp Hne)) as (s' & k' & l' & E & Hat' & Hk' & Hl' & Hm).
  exists s', k', l'. split; [done|]. split; [done|]. split; [done|]. unfold owns in *. rewrite app_assoc in Hl'. split; [done|].
  intros a Ha. apply Hm. intros q Hq. apply Ha. by rewrite <- app_assoc.
Qed.

(** The address space does not notice that the trap frame was freed. *)
Lemma owner_tf k x l k1 :
  owner k x l -> kwf kend k1 (tf_pages x ++ l) ->
  (forall a, (forall q, q ∈ tf_pages x -> ~ in_page q a) -> load8 (phys k1) a = load8 (phys k) a) ->
  (p_pagetable x <> 0 -> uspace k1 (p_pagetable x) (pgs (p_sz x)) extra (tf_pages x ++ l)) /\
  space_pages (phys k1) x = space_pages (phys k) x.
Proof.
  intros [Hfree Hnd Htf Hsz Hsp] Hk1 Hm. unfold proc_pages, space_pages in *.
  destruct (Z.eqb_spec (p_pagetable x) 0) as [|Hne]; [done|]. specialize (Hsp Hne).
  destruct (uspace_frame kend k k1 (p_pagetable x) (pgs (p_sz x)) extra l (tf_pages x ++ l) Hsp Hk1) as (Hu & Hup & Htp & _).
  - intros q a Hq Ha. apply Hm. intros r Hr. rewrite Forall_forall in Htf.
    apply (page_not_self kend q r a); [|by apply Htf| |done].
    + eapply owns_ok; [exact Hsp|]. unfold owns. rewrite !elem_of_app. auto.
    + intros ->. rewrite <- app_assoc in Hnd. apply NoDup_app in Hnd as (_ & Hd & _). apply (Hd r Hr). rewrite !elem_of_app. auto.
  - unfold owns. eapply NoDup_perm; [|exact Hnd]. solve_Permutation.
  - split; [done|]. by rewrite Hup, Htp.
Qed.

(** freeproc() returns every page of the process and clears its entry. *)
Lemma freeproc_spec (s0 : st) ps k s p l :
  at_ s0 ps k s -> 0 <= p < zlen (procs ps) -> owner k (proc_at ps p) l ->
  exists s' k' l', freeproc kend p s = Ret tt s' /\ at_ s0 (upd_proc p cleared ps) k' s' /\
    kwf kend k' l' /\ l' ≡ₚ proc_pages (phys k) (proc_at ps p) ++ l /\
    (forall x, (forall q, q ∈ proc_pages (phys k) (proc_at ps p) ++ l -> ~ in_page q x) ->
       load8 (phys k') x = load8 (phys k) x).
Proof.
  intros Hat0 Hp Ho. pose proof Ho as [Hfree Hnd Htf Hsz _]. set (x := proc_at ps p) in *. unfold freeproc.
  erewrite bind_Ret by (by eapply run_getpr). fold x.
  assert (H1 : exists s1 k1, (if negb (p_trapframe x =? 0) then on_mem (kfree kend (p_trapframe x)) else ret tt) s = Ret tt s1 /\
    at_ s0 ps k1 s1 /\ kwf kend k1 (tf_pages x ++ l) /\
    (forall a, (forall q, q ∈ tf_pages x -> ~ in_page q a) -> load8 (phys k1) a = load8 (phys k) a)).
  { unfold proc_pages, tf_pages in *. destruct (Z.eqb_spec (p_trapframe x) 0); cbn [negb]; [by exists s, k|].
    apply Forall_cons in Htf as [Htf _]. cbn [app] in Hnd. apply NoDup_cons in Hnd as [Hni _].
    destruct (kfree_cons kend Hkend k (p_trapframe x) l Hfree Htf) as (k1 & E & Hk1 & Hm1).
    { intros Hin. apply Hni, elem_of_app. by right. }
    destruct (run_mem _ _ _ _ _ _ _ Hat0 E) as (s1 & R & Hat1). exists s1, k1. split; [done|]. split; [done|].
    split; [done|]. intros a Ha. apply Hm1, Ha. left. }
  destruct H1 as (s1 & k1 & E1 & Hat1 & Hk1 & Hm1). erewrite bind_Ret by exact E1.
  destruct (owner_tf k x l k1 Ho Hk1 Hm1) as [Hsp1 Hpg1]. setpr_step.
  destruct (release_space _ _ _ _ x (tf_pages x ++ l) Hat Hk1 Hsz Hsp1) as (s3 & k2 & l2 & E2 & Hat2 & Hk2 & Hl2 & Hm2).
  rewrite Hpg1 in *. erewrite bind_Ret by exact E2. clear Hat.
  do 8 setpr_step.
  destruct (run_setpr p (set_p_state UNUSED) _ _ _ _ Hat) as (s' & E' & Hat'). rewrite upd_proc_upd in Hat' by done.
  exists s', k2, l2. split; [done|]. split; [exact Hat'|]. split; [done|]. split.
  - rewrite Hl2. unfold proc_pages. solve_Permutation.
  - intros a Ha. unfold proc_pages in Ha. rewrite Hm2; [apply Hm1|]; intros q Hq; apply Ha; rewrite !elem_of_app in *; tauto.
Qed.

(** ** proc_pagetable() *)

(** The trampoline page, at an address the linker script aligns. *)
Hypothesis Htramp : trampoline mod 4096 = 0 /\ 0 <= trampoline < 2 ^ 55.

Lemma top_vas : TRAMPOLINE mod 4096 = 0 /\ TRAPFRAME <= TRAMPOLINE < MAXVA /\ TRAPFRAME mod 4096 = 0 /\
  TRAPFRAME <= TRAPFRAME < MAXVA /\ TRAPFRAME ∉ [TRAMPOLINE].
Proof. split_and!; try done. by intros H%list_elem_of_singleton. Qed.

(** The pages taken off [l] and the free list [l'] make up [l] again. *)
Definition table_post (k : kmem) (l : list Z) (r : Z) (k' : kmem) (l' : list Z) : Prop :=
  ((r <> 0 /\ uspace k' r 0 extra l' /\ owns k' r 0 l' ≡ₚ l /\ (length l <= length l' + 5)%nat) \/ (r = 0 /\ kwf kend k' l' /\ l' ≡ₚ l /\ (length l <= 5)%nat)) /\
  (forall x, (forall p, p ∈ l -> ~ in_page p x) -> load8 (phys k') x = load8 (phys k) x).

(** The error exits of proc_pagetable() hand the table back. *)
Lemma discard_table (s0 : st) ps k0 l0 k s root l :
  at_ s0 ps k s -> uspace k root 0 [] l -> owns k root 0 l ≡ₚ l0 -> (length l0 <= 5)%nat ->
  (forall x, (forall p, p ∈ l0 -> ~ in_page p x) -> load8 (phys k) x = load8 (phys k0) x) ->
  exists s' k' l', bind (on_mem (uvmfree kend root 0)) (fun _ => ret 0) s = Ret 0 s' /\ at_ s0 ps k' s' /\ table_post k0 l0 0 k' l'.
Proof.
  intros Hat Hu Hl Hlen Hm. destruct (uvmfree_spec kend Hkend k root 0 l ltac:(done) Hu) as (k' & l' & E & Hk & Hl' & Hm').
  destruct (run_mem _ _ _ _ _ _ _ Hat E) as (s' & R & Hat'). exists s', k', l'. split; [by erewrite bind_Ret by exact R|].
  split; [done|]. change (pgs 0) with 0%nat in *. split; [right|].
  - split; [done|]. split; [done|]. by rewrite Hl'.
  - intros x Hx. rewrite Hm'; [by apply Hm|]. intros p. rewrite Hl. apply Hx.
Qed.

Lemma proc_pagetable_spec (s0 : st) ps k s p l :
  at_ s0 ps k s -> kwf kend k l ->
  p_trapframe (proc_at ps p) mod 4096 = 0 -> 0 <= p_trapframe (proc_at ps p) < 2 ^ 55 ->
  exists r s' k' l', proc_pagetable kend trampoline p s = Ret r s' /\ at_ s0 ps k' s' /\ table_post k l r k' l'.
Proof.
  intros Hat Hk Htf Htfr. set (tf := p_trapframe (proc_at ps p)) in *. unfold proc_pagetable.
  destruct top_vas as (Hv1 & Hv2 & Hv3 & Hv4 & Hv5).
  destruct (uvmcreate_spec kend Hkend k l Hk) as (root & k1 & E1 & Hr1).
  destruct (run_mem _ _ _ _ _ _ _ Hat E1) as (s1 & R1 & Hat1). erewrite bind_Ret by exact R1.
  destruct Hr1 as [(-> & -> & ->)|(Hne & l1 & Hl1 & Hu1 & Hown1 & Hm1)].
  { exists 0, s1, k, []. split; [done|]. split; [done|]. split; [|done]. right. split; [done|]. split; [done|]. split; [done|cbn; lia]. }
  destruct (Z.eqb_spec root 0); [done|].
  assert (Hm1' : forall x, (forall p, p ∈ l -> ~ in_page p x) -> load8 (phys k1) x = load8 (phys k) x).
  { intros x Hx. apply Hm1, Hx. rewrite Hl1. left. }
  destruct (uspace_add kend Hkend k1 root 0 TRAMPOLINE [] l1 trampoline (Z.lor PTE_R PTE_X)) as (r2 & k2 & l2 & E2 & [Ho2 Hm2] & Hn2 & Hr2); try done; try apply Htramp.
  { apply not_elem_of_nil. }
  rewrite Hown1 in Ho2.
  assert (Hm2' : forall x, (forall p, p ∈ l -> ~ in_page p x) -> load8 (phys k2) x = load8 (phys k) x).
  { intros x Hx. rewrite Hm2; [by apply Hm1'|]. intros q. rewrite Hown1. apply Hx. }
  destruct (run_mem _ _ _ _ _ _ _ Hat1 E2) as (s2 & R2 & Hat2). erewrite bind_Ret by exact R2.
  assert (Hnl : length l = (1 + length l1)%nat) by (by rewrite Hl1).
  destruct Hr2 as [(-> & Hu2 & _)|(-> & -> & Hu2)]; cbn [Z.ltb Z.compare].
  2: { cbn [length] in Hn2. destruct (discard_table s0 ps k l k2 s2 root []) as (s' & k' & l' & E' & Hat' & Hpost); try done; [lia|]. by exists 0, s', k', l'. }
  erewrite bind_Ret by (by eapply run_getpr). fold tf.
  destruct (uspace_add kend Hkend k2 root 0 TRAPFRAME [TRAMPOLINE] l2 tf (Z.lor PTE_R PTE_W)) as (r3 & k3 & l3 & E3 & [Ho3 Hm3] & Hn3 & Hr3); try done.
  rewrite Ho2 in Ho3.
  assert (Hm3' : forall x, (forall p, p ∈ l -> ~ in_page p x) -> load8 (phys k3) x = load8 (phys k) x).
  { intros x Hx. rewrite Hm3; [by apply Hm2'|]. intros q. rewrite Ho2. apply Hx. }
  destruct (run_mem _ _ _ _ _ _ _ Hat2 E3) as (s3 & R3 & Hat3). erewrite bind_Ret by exact R3.
  destruct Hr3 as [(-> & Hu3 & _)|(-> & -> & Hu3)]; cbn [Z.ltb Z.compare].
  { exists root, s3, k3, l3. split; [done|]. split; [done|]. split; [|done]. left. split; [done|]. split; [done|]. split; [done|lia]. }
  destruct (uspace_drop kend Hkend k3 root 0 TRAMPOLINE [] [] Hu3) as (k4 & E4 & Hu4 & [Ho4 Hm4]). rewrite Ho3 in Ho4.
  destruct (run_mem _ _ _ _ _ _ _ Hat3 E4) as (s4 & R4 & Hat4). erewrite bind_Ret by exact R4.
  cbn [length] in Hn3. destruct (discard_table s0 ps k l k4 s4 root []) as (s' & k' & l' & E' & Hat' & Hpost); try done; [lia|..].
  { intros x Hx. rewrite Hm4; [by apply Hm3'|]. intros q. rewrite Ho3. apply Hx. }
  by exists 0, s', k', l'.
Qed.

(** ** allocproc() *)

Lemma acquire_p_run p (s0 : st) ps k s : at_ s0 ps k s -> p_lock (proc_at ps p) = false ->
  exists s', acquire_p p s = Ret tt s' /\ at_ s0 (upd_proc p (set_p_lock true) ps) k s'.
Proof. intros Hat Hl. eapply run_proc; [exact Hat|]. by apply pacquire_ok. Qed.

Lemma release_p_run p (s0 : st) ps k s : at_ s0 ps k s -> p_lock (proc_at ps p) = true ->
  exists s', release_p p s = Ret tt s' /\ at_ s0 (upd_proc p (set_p_lock false) ps) k s'.
Proof. intros Hat Hl. eapply run_proc; [exact Hat|]. by apply prelease_ok. Qed.

(** The scan: the first UNUSED entry, locked, or none and nothing changed. *)
Lemma find_unused_spec n i (s0 : st) ps k s :
  at_ s0 ps k s -> idle_table ps -> 0 <= i -> i + Z.of_nat n = NPROC ->
  exists r s', find_unused n i s = Ret r s' /\
    ((r = NULL /\ at_ s0 ps k s' /\ forall j, i <= j < NPROC -> p_state (proc_at ps j) <> UNUSED) \/
     (i <= r < NPROC /\ p_state (proc_at ps r) = UNUSED /\ at_ s0 (upd_proc r (set_p_lock true) ps) k s')).
Proof.
  revert i s. induction n as [|n IH]; intros i s Hat Hi Hi0 Hn; cbn [find_unused].
  { exists NULL, s. split; [done|]. left. split; [done|]. split; [done|]. intros j Hj. lia. }
  pose proof (it_unlocked _ Hi i ltac:(lia)) as Hl. assert (Hr : 0 <= i < zlen (procs ps)) by (rewrite (it_len _ Hi); lia).
  destruct (acquire_p_run i _ _ _ _ Hat Hl) as (s1 & E1 & Hat1). erewrite bind_Ret by exact E1.
  erewrite bind_Ret by (by eapply run_getpr). rewrite proc_at_upd_eq by done. cbn [p_state set_p_lock].
  case_bool_decide as Hst.
  { exists i, s1. split; [done|]. right. split; [lia|done]. }
  destruct (release_p_run i _ _ _ _ Hat1) as (s2 & E2 & Hat2); [by rewrite proc_at_upd_eq|].
  erewrite bind_Ret by exact E2. rewrite upd_proc_upd in Hat2 by done. rewrite upd_proc_id in Hat2 by (by apply set_lock_false).
  destruct (IH (i + 1) s2 Hat2 Hi ltac:(lia) ltac:(lia)) as (r & s' & E & Hr'). exists r, s'. split; [done|].
  destruct Hr' as [(-> & ? & Hall)|(? & ? & ?)]; [left|right].
  - split; [done|]. split; [done|]. intros j Hj. destruct (decide (j = i)) as [->|]; [done|]. apply Hall. lia.
  - split; [lia|done].
Qed.

Lemma allocpid_spec (s0 : st) ps k s : at_ s0 ps k s -> pid_lock ps = false ->
  exists s', allocpid s = Ret (nextpid ps) s' /\ at_ s0 (set_nextpid (s32 (nextpid ps + 1)) ps) k s'.
Proof.
  intros Hat Hl. unfold allocpid.
  destruct (run_proc (lk_acquire pid_lock set_pid_lock) _ _ _ _ tt (set_pid_lock true ps) Hat) as (s1 & E1 & Hat1).
  { unfold lk_acquire. by rewrite Hl. }
  erewrite bind_Ret by exact E1. erewrite bind_Ret by reflexivity. rewrite (at_proc _ _ _ _ Hat1). cbn [nextpid set_pid_lock].
  destruct (run_proc (modify (set_nextpid (s32 (nextpid ps + 1)))) _ _ _ _ tt _ Hat1 eq_refl) as (s2 & E2 & Hat2).
  erewrite bind_Ret by exact E2.
  destruct (run_proc (lk_release pid_lock set_pid_lock) _ _ _ _ tt (set_nextpid (s32 (nextpid ps + 1)) ps) Hat2) as (s3 & E3 & Hat3).
  { unfold lk_release. cbn. f_equal. unfold set_pid_lock, set_nextpid. cbn. by rewrite <- Hl. }
  erewrite bind_Ret by exact E3. by exists s3.
Qed.

(** A process fresh from allocproc(), its lock held. *)
Definition newborn (pid tf pt : Z) (x : proc) : proc :=
  set_p_context forkret (u64 (p_kstack x + PGSIZE))
    (set_p_pagetable pt (set_p_trapframe tf (set_p_state USED (set_p_pid pid (set_p_lock true x))))).

(** An entry that holds no memory. *)
Definition vacant (x : proc) : Prop := p_state x = UNUSED /\ p_trapframe x = 0 /\ p_pagetable x = 0 /\ p_sz x = 0.

Definition table_ok (ps : procst) : Prop :=
  idle_table ps /\ pid_lock ps = false /\
  forall i, 0 <= i < NPROC -> p_state (proc_at ps i) = UNUSED -> vacant (proc_at ps i).

(** The outcome of allocproc() on table [ps] and free pages [l]. *)
Inductive alloc_result (ps : procst) (l : list Z) : Z -> procst -> kmem -> list Z -> Prop :=
| alloc_none ps' k' l' :
    kwf kend k' l' -> l' ≡ₚ l -> table_ok ps' -> curp ps' = curp ps -> wait_lock ps' = wait_lock ps ->
    (forall i, 0 <= i < NPROC -> proc_at ps' i = proc_at ps i \/ (vacant (proc_at ps i) /\ vacant (proc_at ps' i))) ->
    alloc_result ps l NULL ps' k' l'
| alloc_some p tf pt k' l' :
    0 <= p < NPROC -> vacant (proc_at ps p) ->
    let ps' := upd_proc p (newborn (nextpid ps) tf pt) (set_nextpid (s32 (nextpid ps + 1)) ps) in
    owner k' (proc_at ps' p) l' -> proc_pages (phys k') (proc_at ps' p) ++ l' ≡ₚ l ->
    tf <> 0 -> pt <> 0 -> (length l <= length l' + 6)%nat ->
    alloc_result ps l p ps' k' l'.

Lemma set_nextpid_upd n p f ps : set_nextpid n (upd_proc p f ps) = upd_proc p f (set_nextpid n ps).
Proof. done. Qed.

(** One entry replaced: the rest of the table is as before. *)
Lemma table_ok_upd n p f ps : table_ok ps -> 0 <= p < NPROC -> p_lock (f (proc_at ps p)) = false ->
  (p_state (f (proc_at ps p)) = UNUSED -> vacant (f (proc_at ps p))) -> table_ok (upd_proc p f (set_nextpid n ps)).
Proof.
  intros (Hi & Hpid & Hv) Hp Hl Hf.
  assert (Hi' : idle_table (set_nextpid n ps)) by (destruct Hi; by split).
  split; [by apply idle_upd|]. split; [done|]. intros i Hir. destruct (decide (p = i)) as [<-|Hne].
  - rewrite proc_at_upd_eq by (by rewrite (it_len _ Hi')). exact Hf.
  - rewrite proc_at_upd_ne by done. by apply Hv.
Qed.

(** The error exits of allocproc(). *)
Lemma abandon (s0 : st) ps k0 l0 p f n k s l :
  table_ok ps -> 0 <= p < NPROC -> vacant (proc_at ps p) ->
  at_ s0 (upd_proc p f (set_nextpid n ps)) k s ->
  p_lock (f (proc_at ps p)) = true -> owner k (f (proc_at ps p)) l ->
  proc_pages (phys k) (f (proc_at ps p)) ++ l ≡ₚ l0 ->
  (forall a, (forall q, q ∈ l0 -> ~ in_page q a) -> load8 (phys k) a = load8 (phys k0) a) ->
  exists s' ps' k' l', (freeproc kend p ;; release_p p ;; ret NULL) s = Ret NULL s' /\ at_ s0 ps' k' s' /\
    alloc_result ps l0 NULL ps' k' l' /\
    (forall a, (forall q, q ∈ l0 -> ~ in_page q a) -> load8 (phys k') a = load8 (phys k0) a).
Proof.
  intros Hok Hp Hv Hat Hlk Ho Hl0 Hm. pose proof Hok as (Hi & _). set (psn := set_nextpid n ps) in *.
  assert (Hr : 0 <= p < zlen (procs psn)) by (by change (procs psn) with (procs ps); rewrite (it_len _ Hi)).
  assert (Hpa : proc_at (upd_proc p f psn) p = f (proc_at ps p)) by (by rewrite proc_at_upd_eq).
  destruct (freeproc_spec _ _ _ _ p l Hat) as (s1 & k1 & l1 & E1 & Hat1 & Hk1 & Hl1 & Hm1); [by rewrite zlen_upd_proc|by rewrite Hpa|].
  rewrite Hpa in Hl1, Hm1. rewrite upd_proc_upd in Hat1 by done. erewrite bind_Ret by exact E1.
  destruct (release_p_run p _ _ _ _ Hat1) as (s2 & E2 & Hat2); [by rewrite proc_at_upd_eq|].
  erewrite bind_Ret by exact E2. rewrite upd_proc_upd in Hat2 by done.
  eexists s2, _, k1, l1. split; [done|]. split; [exact Hat2|]. split.
  - apply alloc_none; try done.
    + by rewrite Hl1.
    + by apply table_ok_upd.
    + intros i Hir. destruct (decide (p = i)) as [<-|Hne]; [right|left; by rewrite proc_at_upd_ne].
      split; [done|]. by rewrite proc_at_upd_eq.
  - intros a Ha. rewrite Hm1; [by apply Hm|]. intros q. rewrite Hl0. apply Ha.
Qed.

Lemma kalloc_cases k l : kwf kend k l ->
  exists r k' l', kalloc k = Ret r k' /\ kwf kend k' l' /\
    (forall a, (forall q, q ∈ l -> ~ in_page q a) -> load8 (phys k') a = load8 (phys k) a) /\
    ((r = 0 /\ l = [] /\ l' = []) \/ (r <> 0 /\ page_ok r /\ l = r :: l')).
Proof.
  intros Hk. destruct l as [|p l].
  { exists 0, k, []. split; [by apply (kalloc_nil kend)|]. split; [done|]. split; [done|]. by left. }
  destruct (kalloc_cons kend Hkend k p l Hk) as (k' & E & Hk' & Hp & _ & Hm). exists p, k', l. split; [done|]. split; [done|].
  pose proof (page_ok_pos kend Hkend p Hp). split; [|right; split; [lia|done]].
  intros a Ha. rewrite Hm. rewrite decide_False; [done|]. apply Ha. left.
Qed.

(** A process that owns nothing but its trap frame. *)
Lemma owner_tf_only k x l : kwf kend k l -> p_pagetable x = 0 -> p_sz x = 0 ->
  (p_trapframe x <> 0 -> page_ok (p_trapframe x) /\ p_trapframe x ∉ l) ->
  owner k x l /\ proc_pages (phys k) x = tf_pages x.
Proof.
  intros Hk Hpt Hsz Htf. assert (Hpg : proc_pages (phys k) x = tf_pages x).
  { unfold proc_pages, space_pages. rewrite Hpt. cbn [Z.eqb]. apply app_nil_r. }
  split; [|done]. split; [done| | |by rewrite Hsz|done]; rewrite ?Hpg; unfold tf_pages; destruct (Z.eqb_spec (p_trapframe x) 0) as [|Hne].
  - apply Hk.
  - cbn [app]. apply NoDup_cons. split; [by apply Htf|apply Hk].
  - constructor.
  - apply Forall_singleton. by apply Htf.
Qed.

(** The process with its trap frame and a new page table. *)
Lemma owner_new k x l l0 : p_pagetable x <> 0 -> p_sz x = 0 -> page_ok (p_trapframe x) -> p_trapframe x <> 0 -> p_trapframe x ∉ l0 ->
  uspace k (p_pagetable x) 0 extra l -> owns k (p_pagetable x) 0 l ≡ₚ l0 ->
  owner k x l /\ proc_pages (phys k) x ++ l ≡ₚ p_trapframe x :: l0.
Proof.
  intros Hpt Hsz Htf Htf0 Hni Hu Hl0. assert (Hpg : proc_pages (phys k) x ++ l = p_trapframe x :: owns k (p_pagetable x) 0 l).
  { unfold proc_pages, space_pages, tf_pages. rewrite Hsz. change (pgs 0) with 0%nat.
    destruct (Z.eqb_spec (p_trapframe x) 0); [done|]. destruct (Z.eqb_spec (p_pagetable x) 0); [done|].
    unfold owns. cbn [app upages at_pages]. done. }
  split; [|by rewrite Hpg, Hl0]. split.
  - apply Hu.
  - rewrite Hpg. apply NoDup_cons. split; [by rewrite Hl0|apply Hu].
  - unfold tf_pages. destruct (Z.eqb_spec (p_trapframe x) 0); [done|]. by apply Forall_singleton.
  - by rewrite Hsz.
  - intros _. by rewrite Hsz.
Qed.

Lemma page_ok_addr p : page_ok p -> p mod 4096 = 0 /\ 0 <= p < 2 ^ 55.
Proof. intros [Ha Hr]. split; [done|]. unfold PHYSTOP, KERNBASE in *. change (2 ^ 55) with 36028797018963968. lia. Qed.

(** Every entry of the table is in use. *)
Definition no_slot (ps : procst) : Prop := forall i, 0 <= i < NPROC -> p_state (proc_at ps i) <> UNUSED.

Lemma allocproc_spec (s0 : st) ps k s l :
  at_ s0 ps k s -> table_ok ps -> kwf kend k l ->
  exists r s' ps' k' l', allocproc kend trampoline forkret s = Ret r s' /\ at_ s0 ps' k' s' /\
    alloc_result ps l r ps' k' l' /\
    (r = NULL -> no_slot ps \/ (length l <= 6)%nat) /\
    (forall a, (forall q, q ∈ l -> ~ in_page q a) -> load8 (phys k') a = load8 (phys k) a).
Proof.
  intros Hat Hok Hk. pose proof Hok as (Hi & Hpid & Hv). unfold allocproc.
  destruct (find_unused_spec NPROCn 0 s0 ps k s Hat Hi ltac:(done) ltac:(done)) as (p & s1 & E1 & Hp).
  erewrite bind_Ret by exact E1. destruct Hp as [(-> & Hat1 & Hnone)|(Hp & Hst & Hat1)].
  { exists NULL, s1, ps, k, l. split; [done|]. split; [done|]. split; [|split; [by left|done]]. apply alloc_none; try done. auto. }
  destruct (Z.eqb_spec p NULL) as [->|_]; [unfold NULL in Hp; lia|].
  assert (Hr : 0 <= p < zlen (procs ps)) by (by rewrite (it_len _ Hi)).
  destruct (allocpid_spec _ _ _ _ Hat1) as (s2 & E2 & Hat2); [done|]. erewrite bind_Ret by exact E2. clear Hat1.
  rewrite set_nextpid_upd in Hat2. change (nextpid (upd_proc p (set_p_lock true) ps)) with (nextpid ps) in *.
  set (psn := set_nextpid (s32 (nextpid ps + 1)) ps) in *.
  assert (Hrn : 0 <= p < zlen (procs psn)) by done.
  clear Hat. do 2 setpr_step. pose proof (Hv p Hp Hst) as Hvac. destruct Hvac as (_ & Htf0 & Hpt0 & Hsz0).
  pose proof (conj Hst (conj Htf0 (conj Hpt0 Hsz0)) : vacant (proc_at ps p)) as Hvac.
  destruct (kalloc_cases k l Hk) as (tf & k5 & l5 & E5 & Hk5 & Hm5 & Hr5).
  destruct (run_mem _ _ _ _ _ _ _ Hat E5) as (s5 & R5 & Hat5). erewrite bind_Ret by exact R5. clear Hat.
  setpr_step. destruct Hr5 as [(-> & -> & ->)|(Hne & Htf & ->)].
  { cbn [Z.eqb]. destruct (owner_tf_only k5 (set_p_trapframe 0 (set_p_state USED (set_p_pid (nextpid ps) (set_p_lock true (proc_at ps p))))) []) as [Ho Hpg]; try done.
    destruct (abandon s0 ps k [] p _ _ k5 _ [] Hok Hp Hvac Hat eq_refl Ho) as (s' & ps' & k' & l' & E' & Hat' & Hres & Hm'); [by rewrite Hpg|done|].
    exists NULL, s', ps', k', l'. split; [done|]. split; [done|]. split; [done|]. split; [right; cbn; lia|done]. }
  destruct (Z.eqb_spec tf 0); [done|]. pose proof (NoDup_cons_1_1 _ _ (proj1 (proj2 Hk))) as Hni.
  assert (Hpa : forall f, proc_at (upd_proc p f psn) p = f (proc_at ps p)) by (intros; by rewrite proc_at_upd_eq).
  destruct (proc_pagetable_spec _ _ _ _ p l5 Hat Hk5) as (pt & s7 & k7 & l7 & E7 & Hat7 & Hr7 & Hm7); [rewrite Hpa; by apply page_ok_addr..|].
  erewrite bind_Ret by exact E7. clear Hat. setpr_step.
  assert (Hm7' : forall a, (forall q, q ∈ tf :: l5 -> ~ in_page q a) -> load8 (phys k7) a = load8 (phys k) a).
  { intros a Ha. rewrite Hm7; [by apply Hm5|]. intros q Hq. apply Ha. by right. }
  destruct Hr7 as [(Hpt & Hu7 & Ho7 & Hlen)|(-> & Hk7 & Hl7 & Hlen)].
  - destruct (Z.eqb_spec pt 0); [done|]. setpr_step.
    eexists p, _, _, k7, l7. split; [done|]. split; [exact Hat|]. split; [|split; [unfold NULL; lia|done]].
    destruct (owner_new k7 (newborn (nextpid ps) tf pt (proc_at ps p)) l7 l5) as [Ho Hpg]; try done.
    apply (alloc_some ps (tf :: l5) p tf pt k7 l7); try done; [by rewrite Hpa..|cbn [length]; lia].
  - cbn [Z.eqb]. destruct (owner_tf_only k7 (set_p_pagetable 0 (set_p_trapframe tf (set_p_state USED (set_p_pid (nextpid ps) (set_p_lock true (proc_at ps p)))))) l7) as [Ho Hpg]; try done.
    { intros _. split; [done|]. by rewrite Hl7. }
    destruct (abandon s0 ps k (tf :: l5) p _ _ k7 _ l7 Hok Hp Hvac Hat eq_refl Ho) as (s' & ps' & k' & l' & E' & Hat' & Hres & Hm'); [|done|].
    { rewrite Hpg. unfold tf_pages. cbn [p_trapframe set_p_pagetable set_p_trapframe]. destruct (Z.eqb_spec tf 0); [done|]. cbn [app]. by rewrite Hl7. }
    exists NULL, s', ps', k', l'. split; [done|]. split; [done|]. split; [done|]. split; [right; cbn [length]; lia|done].
Qed.
End ProcMem.
