(* ===== verification/ProcSample.v ===== *)
(** * A kernel with one process

    The running process has one user page, its first byte 104, a trap frame
    with 22 in a0, and descriptor 0 open; seven pages are free.  Theorems
    about processes are instantiated on this state. *)

From Stdlib Require Import ZArith Lia.
From stdpp Require Import base numbers list list_numbers gmap strings sorting.
From S2P Require Import Prelude Cstring Riscv Kalloc Vm PageTable Uvm UvmFree AddrSpace UvmCopy Bytes Sleeplock Bio Log Recovery Store Fs Kernel KernelProof Sample Console File Proc ProcMem.

Module OneProc.
Definition pg (i : Z) : Z := PHYSTOP - 4096 * i.
Definition kend : Z := pg 18.
Definition root : Z := pg 1.
Definition tf : Z := pg 7.
Definition upte : Z := map_pte (pg 6) (Z.lor PTE_R (Z.lor PTE_W PTE_U)).
Definition trampte : Z := map_pte KERNBASE (Z.lor PTE_R PTE_X).
Definition tfpte : Z := map_pte tf (Z.lor PTE_R PTE_W).
Definition kidtfpte : Z := map_pte (pg 11) (Z.lor PTE_R PTE_W).
(** The words of the tables, of a second process's in pages 8 to 10, the free
    list pages 12 to 18, and what else is not zero. *)
Definition words : list (Z * Z) :=
  [(pg 1, mk_pte (pg 2) PTE_V); (pg 1 + 8 * 255, mk_pte (pg 4) PTE_V);
   (pg 2, mk_pte (pg 3) PTE_V); (pg 3, upte);
   (pg 4 + 8 * 511, mk_pte (pg 5) PTE_V); (pg 5 + 8 * 511, trampte); (pg 5 + 8 * 510, tfpte);
   (pg 8 + 8 * 255, mk_pte (pg 9) PTE_V); (pg 9 + 8 * 511, mk_pte (pg 10) PTE_V);
   (pg 10 + 8 * 511, trampte); (pg 10 + 8 * 510, kidtfpte);
   (pg 12, pg 13); (pg 13, pg 14); (pg 14, pg 15); (pg 15, pg 16); (pg 16, pg 17); (pg 17, pg 18);
   (pg 6, 104); (tf + 112, 22)].
Definition mem0 : mem := foldr (fun w m => store64 m (fst w) (snd w)) ∅ words.
Definition k : kmem := Kmem mem0 (pg 12) false.
Definition free : list Z := pg <$> seqZ 12 7.

Lemma my_tables : tp 2 mem0 root = [pg 1; pg 2; pg 4; pg 3; pg 5].
Proof. vm_compute. reflexivity. Qed.

(** An entry of table [pt]: the value listed for it, or 0. *)
Definition entry_of (es : list (Z * Z)) (i : Z) : Z :=
  match list_find (fun e => fst e = i) es with Some (_, e) => snd e | None => 0 end.

Lemma my_entries pt es : (pt, es) ∈ [(pg 1, [(0, mk_pte (pg 2) PTE_V); (255, mk_pte (pg 4) PTE_V)]);
    (pg 2, [(0, mk_pte (pg 3) PTE_V)]); (pg 3, [(0, upte)]); (pg 4, [(511, mk_pte (pg 5) PTE_V)]);
    (pg 5, [(511, trampte); (510, tfpte)]); (pg 8, [(255, mk_pte (pg 9) PTE_V)]);
    (pg 9, [(511, mk_pte (pg 10) PTE_V)]); (pg 10, [(511, trampte); (510, kidtfpte)])] ->
  forall i, 0 <= i < 512 -> entry mem0 pt i = entry_of es i.
Proof.
  intros Hin i Hi. enough (forallb (fun i => entry mem0 pt i =? entry_of es i) (seqZ 0 512) = true) as H.
  { rewrite forallb_forall in H. apply Z.eqb_eq, H. apply list_elem_of_In, elem_of_seqZ. lia. }
  repeat (apply elem_of_cons in Hin as [Hin|Hin]); [..|by apply elem_of_nil in Hin];
    injection Hin as -> ->; vm_compute; reflexivity.
Qed.

Lemma entry_of_1 a e i : entry_of [(a, e)] i = if decide (i = a) then e else 0.
Proof. unfold entry_of. cbn. repeat case_decide; cbn; congruence. Qed.

Lemma entry_of_2 a e b f i : a <> b -> entry_of [(a, e); (b, f)] i = if decide (i = a) then e else if decide (i = b) then f else 0.
Proof. intros. unfold entry_of. cbn. repeat case_decide; cbn; congruence. Qed.

Lemma page_number va : 0 <= va < MAXVA -> va / 4096 = PX 2 va * 262144 + PX 1 va * 512 + PX 0 va.
Proof.
  intros Hva. pose proof (va_split va Hva) as Hs. pose proof (PX_MAXVA va Hva) as H2.
  change (2 ^ 30) with 1073741824 in Hs. change (2 ^ 21) with 2097152 in Hs. change (2 ^ 12) with 4096 in Hs. Z.div_mod_to_equations. lia.
Qed.

Definition leaf_of (va : Z) : Z :=
  let n := va / 4096 in
  if decide (n = 0) then upte else if decide (n = 67108863) then trampte else if decide (n = 67108862) then tfpte else 0.

Lemma my_leaves va : 0 <= va < MAXVA -> leaf mem0 root va = leaf_of va.
Proof.
  intros Hva. pose proof (PX_MAXVA va Hva) as H2.
  pose proof (PX_range 1 va) as H1. pose proof (PX_range 0 va) as H0.
  unfold leaf, leaf_at. cbn [wk]. change (Z.of_nat 2) with 2. change (Z.of_nat 1) with 1. change root with (pg 1).
  pose proof (page_number va Hva) as Hn.
  unfold leaf_of. rewrite Hn. rewrite (my_entries (pg 1) _ ltac:(left)) by lia. rewrite entry_of_2 by done.
  repeat case_decide; try lia; change (has 0 PTE_V) with false; change (has (mk_pte (pg 2) PTE_V) PTE_V) with true;
    change (has (mk_pte (pg 4) PTE_V) PTE_V) with true; cbv iota; try done;
    change (PTE2PA (mk_pte (pg 2) PTE_V)) with (pg 2); change (PTE2PA (mk_pte (pg 4) PTE_V)) with (pg 4);
    rewrite ?(my_entries (pg 2) _ ltac:(right; left)), ?(my_entries (pg 4) _ ltac:(do 3 right; left)), entry_of_1 by lia;
    repeat case_decide; try lia; change (has 0 PTE_V) with false; change (has (mk_pte (pg 3) PTE_V) PTE_V) with true;
    change (has (mk_pte (pg 5) PTE_V) PTE_V) with true; cbv iota; try done;
    change (PTE2PA (mk_pte (pg 3) PTE_V)) with (pg 3); change (PTE2PA (mk_pte (pg 5) PTE_V)) with (pg 5);
    fold (entry mem0 (pg 3) (PX 0 va)); fold (entry mem0 (pg 5) (PX 0 va));
    rewrite ?(my_entries (pg 3) _ ltac:(do 2 right; left)), ?(my_entries (pg 5) _ ltac:(do 4 right; left)), ?entry_of_1, ?entry_of_2 by (lia || done);
    repeat case_decide; try lia; done.
Qed.

(** The second process maps nothing but the two pages at the top. *)
Definition kid_leaf_of (va : Z) : Z :=
  let n := va / 4096 in
  if decide (n = 67108863) then trampte else if decide (n = 67108862) then kidtfpte else 0.

Lemma kid_leaves va : 0 <= va < MAXVA -> leaf mem0 (pg 8) va = kid_leaf_of va.
Proof.
  intros Hva. pose proof (page_number va Hva) as Hn. pose proof (PX_MAXVA va Hva) as H2.
  pose proof (PX_range 1 va) as H1. pose proof (PX_range 0 va) as H0.
  unfold leaf, leaf_at. cbn [wk]. change (Z.of_nat 2) with 2. change (Z.of_nat 1) with 1.
  unfold kid_leaf_of. rewrite Hn. rewrite (my_entries (pg 8) _ ltac:(do 5 right; left)) by lia. rewrite entry_of_1.
  case_decide; [|repeat case_decide; try lia; done].
  change (has (mk_pte (pg 9) PTE_V) PTE_V) with true. cbv iota. change (PTE2PA (mk_pte (pg 9) PTE_V)) with (pg 9).
  rewrite (my_entries (pg 9) _ ltac:(do 6 right; left)) by lia. rewrite entry_of_1. case_decide; [|repeat case_decide; try lia; done].
  change (has (mk_pte (pg 10) PTE_V) PTE_V) with true. cbv iota. change (PTE2PA (mk_pte (pg 10) PTE_V)) with (pg 10).
  fold (entry mem0 (pg 10) (PX 0 va)). rewrite (my_entries (pg 10) _ ltac:(do 7 right; left)) by lia. rewrite entry_of_2 by done.
  repeat case_decide; try lia; done.
Qed.

Lemma pages : upages mem0 root 1 = [pg 6].
Proof. vm_compute. reflexivity. Qed.

Lemma pages_apart : NoDup (tf :: owns k root 1 free).
Proof. unfold owns. cbn [phys k]. rewrite pages, my_tables. refine (bool_decide_unpack (NoDup _) _). vm_compute. exact I. Qed.

Lemma page_ok_list ps : forallb (fun p => (p mod 4096 =? 0) && (kend <=? p) && (p <? PHYSTOP)) ps = true -> Forall (page_ok kend) ps.
Proof.
  intros H. apply Forall_forall. intros p Hp. rewrite forallb_forall in H. apply list_elem_of_In, H in Hp.
  rewrite !andb_true_iff, Z.eqb_eq, Z.leb_le, Z.ltb_lt in Hp. unfold page_ok. lia.
Qed.

Lemma pointers_ok : pointers 2 mem0 root.
Proof.
  intros i Hi. rewrite (my_entries (pg 1) _ ltac:(left)), entry_of_2 by (lia || done). repeat case_decide; intros Hv.
  - split; [done|]. change (PTE2PA (mk_pte (pg 2) PTE_V)) with (pg 2). intros j Hj.
    rewrite (my_entries (pg 2) _ ltac:(right; left)), entry_of_1 by lia. case_decide; [by split|done].
  - split; [done|]. change (PTE2PA (mk_pte (pg 4) PTE_V)) with (pg 4). intros j Hj.
    rewrite (my_entries (pg 4) _ ltac:(do 3 right; left)), entry_of_1 by lia. case_decide; [by split|done].
  - done.
Qed.

Lemma free_wf : kwf kend k free.
Proof.
  split; [|split; [|done]].
  - vm_compute. intuition congruence.
  - refine (bool_decide_unpack (NoDup _) _). vm_compute. exact I.
Qed.

Lemma my_space : uspace kend k root 1 extra free.
Proof.
  pose proof pages_apart as Hnd. apply NoDup_cons in Hnd as [_ Hnd]. apply Uspace.
  - split; [exact free_wf|]. split; [by apply NoDup_app in Hnd as (_ & _ & ?)|]. cbn [phys k]. rewrite my_tables. by apply page_ok_list.
  - split; [exact pointers_ok|]. intros i Hi. cbn [phys k]. change root with (pg 1).
    rewrite (my_entries (pg 1) _ ltac:(left)), entry_of_2 by (lia || done). repeat case_decide; try lia. done.
  - done.
  - intros i Hi. replace i with 0 by lia. cbn [phys k]. rewrite my_leaves by done. by vm_compute.
  - done.
  - cbn [phys k]. rewrite pages. by apply page_ok_list.
  - intros va [->|[->|[]%elem_of_nil]%elem_of_cons]%elem_of_cons; (split; [done|]; split; [done|]);
      cbn [phys k]; rewrite my_leaves by done; by vm_compute.
  - refine (bool_decide_unpack (NoDup _) _). vm_compute. exact I.
  - intros va Hva Hni. cbn [phys k]. rewrite my_leaves by lia. unfold leaf_of.
    assert (Hne : va / 4096 <> 67108863 /\ va / 4096 <> 67108862).
    { split; intros E; apply Hni; rewrite E; [right; left|left]. }
    change MAXVA with 274877906944 in Hva. repeat case_decide; try lia; [|apply has_0].
    exfalso. revert Hva H. clear. intros. Z.div_mod_to_equations. lia.
Qed.

(** The process, with descriptor 0 open, and the kernel around it. *)
Definition me : proc :=
  set_p_cwd 0 (set_p_ofile (0 :: repeat NULL 15) (set_p_trapframe tf (set_p_pagetable root (set_p_sz 4096
    (set_p_pid 1 (set_p_state RUNNING proc0)))))).
Definition table : procst := Procst (me :: repeat proc0 63) 0 2 false false 0.
Definition fs : fsst lst :=
  Fsst (machine ∅ 1) (Superblock 0 0 0 0 0 0 0 0) false (set_i_ref 1 inode0 :: repeat inode0 49) k 0 0 0.
Definition files : filest := Filest (File FD_DEVICE 1 true true 0 NULL 0 1 :: repeat file0 99) false (repeat None 10) ∅.
Definition kernel : kst lst := Kst fs files table Tiny.devices.

Lemma me_owner : owner kend k me free.
Proof.
  pose proof pages_apart as Hnd. pose proof my_space as Hsp. split.
  - exact free_wf.
  - exact Hnd.
  - by apply page_ok_list.
  - done.
  - intros _. exact Hsp.
Qed.

Lemma my_at_table (P : proc -> Prop) : P me -> P proc0 -> forall p, 0 <= p < NPROC -> P (proc_at table p).
Proof.
  intros H0 H1 p Hp. unfold proc_at, table, nthZ. cbn [procs]. destruct (Z.ltb_spec p 0); [lia|].
  destruct (Z.to_nat p) as [|n]; [done|]. cbn [nth]. destruct (nth_in_or_default n (repeat proc0 63) proc0) as [E| ->]; [|done].
  by rewrite (repeat_spec _ _ _ E).
Qed.

Lemma table_rest : table_ok table.
Proof.
  split; [split; [done|done|]|].
  - exact (my_at_table (fun x => p_lock x = false) eq_refl eq_refl).
  - split; [done|]. by apply (my_at_table (fun x => p_state x = UNUSED -> vacant x)).
Qed.

(** An exited child with status 7. *)
Definition kid : proc :=
  set_p_xstate 7 (set_p_parent 0 (set_p_trapframe (pg 11) (set_p_pagetable (pg 8) (set_p_pid 2 (set_p_state ZOMBIE proc0))))).
Definition family : procst := Procst (me :: kid :: repeat proc0 62) 0 3 false false 0.

Lemma kid_tables : tp 2 mem0 (pg 8) = [pg 8; pg 9; pg 10].
Proof. vm_compute. reflexivity. Qed.

Lemma kid_pages_apart : NoDup (pg 11 :: owns k (pg 8) 0 free).
Proof. unfold owns. cbn [phys k]. rewrite kid_tables. refine (bool_decide_unpack (NoDup _) _). vm_compute. exact I. Qed.

Lemma kid_pointers : pointers 2 mem0 (pg 8).
Proof.
  intros i Hi. rewrite (my_entries (pg 8) _ ltac:(do 5 right; left)), entry_of_1 by lia. case_decide; intros Hv; [|done].
  split; [done|]. change (PTE2PA (mk_pte (pg 9) PTE_V)) with (pg 9). intros j Hj.
  rewrite (my_entries (pg 9) _ ltac:(do 6 right; left)), entry_of_1 by lia. case_decide; [by split|done].
Qed.

Lemma kid_space : uspace kend k (pg 8) 0 extra free.
Proof.
  pose proof kid_pages_apart as Hnd. apply NoDup_cons in Hnd as [_ Hnd]. apply Uspace.
  - split; [exact free_wf|]. split; [by apply NoDup_app in Hnd as (_ & _ & ?)|]. cbn [phys k]. rewrite kid_tables. by apply page_ok_list.
  - split; [exact kid_pointers|]. intros i Hi. cbn [phys k].
    rewrite (my_entries (pg 8) _ ltac:(do 5 right; left)), entry_of_1 by lia. case_decide; try lia. done.
  - done.
  - intros i Hi. lia.
  - done.
  - constructor.
  - intros va [->|[->|[]%elem_of_nil]%elem_of_cons]%elem_of_cons; (split; [done|]; split; [done|]);
      cbn [phys k]; rewrite kid_leaves by done; by vm_compute.
  - refine (bool_decide_unpack (NoDup _) _). vm_compute. exact I.
  - intros va Hva Hni. cbn [phys k]. rewrite kid_leaves by lia. unfold kid_leaf_of.
    assert (Hne : va / 4096 <> 67108863 /\ va / 4096 <> 67108862).
    { split; intros E; apply Hni; rewrite E; [right; left|left]. }
    repeat case_decide; try lia. apply has_0.
Qed.

Lemma kid_owner : owner kend k kid free.
Proof.
  pose proof kid_pages_apart as Hnd. pose proof kid_space as Hsp. split.
  - exact free_wf.
  - exact Hnd.
  - by apply page_ok_list.
  - done.
  - intros _. exact Hsp.
Qed.

Lemma at_family (P : Z -> proc -> Prop) : P 0 me -> P 1 kid -> (forall i, 2 <= i < NPROC -> P i proc0) ->
  forall i, 0 <= i < NPROC -> P i (proc_at family i).
Proof.
  intros H0 H1 H2 i Hi. destruct (decide (i = 0)) as [->|]; [done|]. destruct (decide (i = 1)) as [->|]; [done|].
  replace (proc_at family i) with proc0; [apply H2; lia|]. unfold proc_at, family, nthZ. cbn [procs].
  destruct (Z.ltb_spec i 0); [lia|]. destruct (Z.to_nat i) as [|[|m]] eqn:E; [lia|lia|]. cbn [nth].
  destruct (nth_in_or_default m (repeat proc0 62) proc0) as [Hin| ->]; [|done]. symmetry. by apply repeat_spec in Hin.
Qed.

Lemma family_idle : idle_table family.
Proof. split; [done|done|]. by apply (at_family (fun _ x => p_lock x = false)). Qed.
Definition home : kst lst := Kst fs files family Tiny.devices.
End OneProc.
