(* ===== verification/ForkProof.v ===== *)
(** * kernel/proc.c: fork()

    The child of fork() has a copy of the parent's memory and registers, with
    0 for the result of the call, and shares its open files and directory;
    when memory or the table is exhausted nothing is left behind. *)

From Stdlib Require Import ZArith Lia.
From stdpp Require Import base numbers list list_numbers gmap strings sorting.
From S2P Require Import Prelude Cstring Riscv Kalloc Vm PageTable Uvm UvmFree AddrSpace UvmCopy Bytes Sleeplock Bio Log Store Fs Kernel KernelProof Console File Proc ProcMem ProcSample.

Section ForkProof.
Context {S : Type} {ops : BlockOps S}.
Context (kend trampoline forkret : Z).
Hypothesis Hkend : KERNBASE <= kend.
Notation st := (kst S).
Notation page_ok := (page_ok kend).
Notation owner := (owner kend).

(** ** Open files *)

(** How often file [f] occurs among descriptors. *)
Definition uses (f : Z) (fds : list Z) : Z := zlen (filter (fun g => g = f) fds).

(** Every descriptor is free or names an open file of the table. *)
Definition fds_ok (ft : filest) (fds : list Z) : Prop :=
  Forall (fun f => f = NULL \/ (0 <= f < zlen (ftable ft) /\ 1 <= f_ref (file_at ft f))) fds.

(** [ft'] is [ft] with the references of [fds] added. *)
Record dupped (ft : filest) (fds : list Z) (ft' : filest) : Prop := {
  dp_rest : ft' = set_ftable (ftable ft') ft;
  dp_len : zlen (ftable ft') = zlen (ftable ft);
  dp_at : forall f, 0 <= f < zlen (ftable ft) ->
    file_at ft' f = set_f_ref (f_ref (file_at ft f) + uses f fds) (file_at ft f)
}.

Lemma set_f_ref_id x : set_f_ref (f_ref x + 0) x = x.
Proof. unfold set_f_ref. rewrite Z.add_0_r. by destruct x. Qed.

Lemma dupped_nil ft : dupped ft [] ft.
Proof. split; [by destruct ft|done|]. intros f _. symmetry. apply set_f_ref_id. Qed.

Lemma uses_cons f g fds : uses f (g :: fds) = (if decide (g = f) then 1 else 0) + uses f fds.
Proof. unfold uses. rewrite filter_cons. unfold zlen. destruct (decide (g = f)); cbn [length]; lia. Qed.

Lemma uses_nonneg f fds : 0 <= uses f fds.
Proof. unfold uses, zlen. lia. Qed.

Lemma dupped_cons ft g fds ft' :
  0 <= g < zlen (ftable ft) ->
  dupped (upd_file g (fun x => set_f_ref (f_ref x + 1) x) ft) fds ft' -> dupped ft (g :: fds) ft'.
Proof.
  intros Hg [Hr Hl Ha]. unfold upd_file, set_ftable in *. cbn [ftable] in *. rewrite zlen_updZ in Hl, Ha.
  split; [by rewrite Hr|done|]. intros f Hf. rewrite Ha by done. rewrite uses_cons.
  unfold file_at. cbn [ftable]. destruct (decide (g = f)) as [<-|Hne].
  - rewrite nthZ_updZ_eq by done. unfold set_f_ref. cbn. f_equal. lia.
  - rewrite nthZ_updZ_ne by done. done.
Qed.

Lemma filedup_run (s0 : st) ps k s f :
  at_ s0 ps k s -> ft_lock (kfile s0) = false -> 0 <= f < zlen (ftable (kfile s0)) -> 1 <= f_ref (file_at (kfile s0) f) ->
  exists s', filedup f s = Ret f s' /\
    at_ (set_kfile (upd_file f (fun x => set_f_ref (f_ref x + 1) x) (kfile s0)) s0) ps k s'.
Proof.
  intros [Hps Hk Hst Hsb Hil Hit Hfi Hdv] Hl Hf Href. unfold filedup, ftacquire, on_file.
  erewrite bind_Ret by (erewrite zoom_Ret; [reflexivity|]; rewrite Hfi; unfold lk_acquire; by rewrite Hl).
  erewrite bind_Ret by reflexivity. cbn [kfile set_kfile]. rewrite (proj2 (Z.ltb_ge _ _)) by exact Href.
  erewrite bind_Ret by reflexivity. unfold ftrelease, on_file.
  erewrite bind_Ret by (erewrite zoom_Ret by reflexivity; reflexivity).
  eexists. split; [reflexivity|]. split; try done. cbn [kfile set_kfile].
  unfold upd_file, file_at, set_ft_lock, set_ftable. cbn. by rewrite <- Hl.
Qed.

Lemma dupped_null ft fds ft' : dupped ft fds ft' -> dupped ft (NULL :: fds) ft'.
Proof.
  intros [Hr Hl Ha]. split; [done|done|]. intros f Hf. rewrite Ha by done. rewrite uses_cons.
  rewrite decide_False; [done|]. unfold NULL. lia.
Qed.

Lemma fds_ok_upd ft g fds : fds_ok ft fds -> fds_ok (upd_file g (fun x => set_f_ref (f_ref x + 1) x) ft) fds.
Proof.
  intros H. unfold fds_ok in *. rewrite Forall_forall in *. intros f Hin. destruct (H f Hin) as [->|[Hf Hr]]; [by left|right]. unfold upd_file, file_at, set_ftable in *. cbn [ftable] in *. rewrite zlen_updZ.
  split; [done|]. destruct (decide (g = f)) as [->|Hne]; [rewrite nthZ_updZ_eq by done; cbn; lia|by rewrite nthZ_updZ_ne].
Qed.

(** The descriptors [o'] are [o] with those of [fds] from [i] on put in. *)
Record inherits (fds : list Z) (i : Z) (o o' : list Z) : Prop := {
  in_len : zlen o' = zlen o;
  in_at : forall j, nthZ NULL o' j = if decide (i <= j < NOFILE /\ nthZ NULL fds j <> NULL) then nthZ NULL fds j else nthZ NULL o j
}.

Lemma inherits_step fds i o o' : 0 <= i < NOFILE -> zlen o = NOFILE ->
  inherits fds (i + 1) (if nthZ NULL fds i =? NULL then o else updZ i (nthZ NULL fds i) o) o' -> inherits fds i o o'.
Proof.
  intros Hi Ho [Hl Ha]. split.
  { rewrite Hl. destruct (nthZ NULL fds i =? NULL); [done|apply zlen_updZ]. }
  intros j. rewrite Ha. destruct (Z.eqb_spec (nthZ NULL fds i) NULL) as [E|E].
  - destruct (decide (j = i)) as [->|]; [rewrite !decide_False by (intuition lia); done|].
    destruct (decide (i + 1 <= j < NOFILE /\ nthZ NULL fds j <> NULL)); [by rewrite decide_True by (intuition lia)|].
    by rewrite decide_False by (intuition lia).
  - destruct (decide (j = i)) as [->|].
    + rewrite decide_False by lia. rewrite decide_True by (split; [lia|done]). rewrite nthZ_updZ_eq by lia. done.
    + rewrite nthZ_updZ_ne by done. destruct (decide (i + 1 <= j < NOFILE /\ nthZ NULL fds j <> NULL)); [by rewrite decide_True by (intuition lia)|].
      by rewrite decide_False by (intuition lia).
Qed.

Lemma drop_nthZ (l : list Z) i : 0 <= i < zlen l -> drop (Z.to_nat i) l = nthZ NULL l i :: drop (Z.to_nat (i + 1)) l.
Proof.
  intros Hi. unfold zlen in Hi. unfold nthZ. destruct (Z.ltb_spec i 0); [lia|].
  replace (Z.to_nat (i + 1)) with (Datatypes.S (Z.to_nat i)) by lia.
  destruct (lookup_lt_is_Some_2 l (Z.to_nat i)) as [x Hx]; [lia|].
  rewrite (drop_S l x) by done. f_equal. symmetry. by apply nth_lookup_Some.
Qed.

Lemma fork_files_run n i np (s0 : st) ps k s :
  at_ s0 ps k s -> ft_lock (kfile s0) = false -> 0 <= i -> i + Z.of_nat n = NOFILE ->
  np <> curp ps -> 0 <= np < zlen (procs ps) ->
  let fds := p_ofile (proc_at ps (curp ps)) in
  zlen fds = NOFILE -> zlen (p_ofile (proc_at ps np)) = NOFILE -> fds_ok (kfile s0) (drop (Z.to_nat i) fds) ->
  exists s' o' ft', fork_files n i np s = Ret tt s' /\
    at_ (set_kfile ft' s0) (upd_proc np (set_p_ofile o') ps) k s' /\
    dupped (kfile s0) (drop (Z.to_nat i) fds) ft' /\ inherits fds i (p_ofile (proc_at ps np)) o'.
Proof.
  revert i s0 ps s. induction n as [|n IH]; intros i s0 ps s Hat Hl Hi Hn Hne Hnp fds Hfl Hol Hok; cbn [fork_files].
  { exists s, (p_ofile (proc_at ps np)), (kfile s0). split; [done|]. replace (drop (Z.to_nat i) fds) with (@nil Z).
    2: { symmetry. apply drop_ge. unfold zlen in Hfl. lia. }
    split; [|split; [apply dupped_nil|split; [done|]]].
    - rewrite upd_proc_id by (by destruct (proc_at ps np)). by destruct Hat.
    - intros j. rewrite decide_False; [done|]. lia. }
  rewrite (drop_nthZ fds i) in Hok |- * by lia. apply Forall_cons in Hok as [Hf Hok].
  unfold mine. erewrite bind_Ret by reflexivity. rewrite (at_proc _ _ _ _ Hat). fold fds. set (f := nthZ NULL fds i) in *.
  destruct (Z.eqb_spec f NULL) as [Ef|Ef]; cbn [negb].
  - erewrite bind_Ret by reflexivity.
    destruct (IH (i + 1) s0 ps s Hat Hl ltac:(lia) ltac:(lia) Hne Hnp Hfl Hol Hok) as (s' & o' & ft' & E & Hat' & Hd & Hin).
    exists s', o', ft'. split; [done|]. split; [done|]. fold fds in Hd, Hin. split; [rewrite Ef; by apply dupped_null|].
    apply inherits_step; [lia|done|]. fold f. rewrite Ef. exact Hin.
  - destruct Hf as [?|[Hfr Href]]; [done|].
    destruct (filedup_run s0 ps k s f Hat Hl Hfr Href) as (s1 & E1 & Hat1).
    destruct (run_setpr np (fun x => set_p_ofile (updZ i f (p_ofile x)) x) _ _ _ _ Hat1) as (s2 & E2 & Hat2).
    erewrite bind_Ret by (erewrite bind_Ret by exact E1; exact E2).
    set (ps2 := upd_proc np (fun x => set_p_ofile (updZ i f (p_ofile x)) x) ps) in *.
    assert (Hnp2 : proc_at ps2 np = set_p_ofile (updZ i f (p_ofile (proc_at ps np))) (proc_at ps np)) by (unfold ps2; by rewrite proc_at_upd_eq).
    assert (Hfds2 : p_ofile (proc_at ps2 (curp ps2)) = fds) by (unfold ps2; cbn [curp upd_proc set_procs]; by rewrite proc_at_upd_ne).
    destruct (IH (i + 1) _ ps2 s2 Hat2) as (s' & o' & ft' & E & Hat' & Hd & Hin); try done; try lia.
    { by unfold ps2; rewrite zlen_upd_proc. }
    { by rewrite Hfds2. }
    { rewrite Hnp2. cbn [p_ofile set_p_ofile]. by rewrite zlen_updZ. }
    { rewrite Hfds2. by apply fds_ok_upd. }
    rewrite Hfds2, Hnp2 in *. cbn [p_ofile set_p_ofile] in *.
    exists s', o', ft'. split; [done|]. split; [|split].
    + unfold ps2 in Hat'. rewrite upd_proc_upd in Hat' by done. exact Hat'.
    + by apply dupped_cons.
    + apply inherits_step; [lia|done|]. fold f. by destruct (Z.eqb_spec f NULL).
Qed.

Lemma idup_run (s0 : st) ps k s ip :
  at_ s0 ps k s -> it_lock (kfs s0) = false ->
  let x := ip_at (kfs s0) ip in
  exists s', on_fs (idup ip) s = Ret ip s' /\
    at_ (set_kfs (set_itable (updZ ip (set_i_ref (i_ref x + 1) x) (itable (kfs s0))) (kfs s0)) s0) ps k s'.
Proof.
  intros [Hps Hk Hst Hsb Hil Hit Hfi Hdv] Hl x.
  assert (E : idup ip (fs_view s) = Ret ip (set_itable (updZ ip (set_i_ref (i_ref x + 1) x) (itable (kfs s0))) (fs_view s))).
  { unfold idup, itacquire, itrelease. erewrite bind_Ret by (unfold lk_acquire; cbn; by rewrite Hil, Hl).
    erewrite bind_Ret by reflexivity. erewrite bind_Ret by reflexivity. unfold ret. f_equal.
    unfold set_itable, set_it_lock, ip_at, fs_view, x, ip_at. cbn. rewrite Hit. f_equal. by rewrite Hil, Hl. }
  eexists. split; [unfold on_fs; rewrite E; reflexivity|]. split; try done; cbn; by rewrite ?Hil.
Qed.

(** ** Memory of parent and child *)

Section Full.
Context (k : kmem) (x : proc) (l : list Z).
Hypothesis Hpt : p_pagetable x <> 0.
Hypothesis Htf : p_trapframe x <> 0.

Lemma pages_full : proc_pages (phys k) x ++ l = p_trapframe x :: owns k (p_pagetable x) (pgs (p_sz x)) l.
Proof.
  unfold proc_pages, tf_pages, space_pages. destruct (Z.eqb_spec (p_trapframe x) 0); [done|].
  destruct (Z.eqb_spec (p_pagetable x) 0); [done|]. unfold owns. cbn [app]. by rewrite <- app_assoc.
Qed.

Lemma owner_full : owner k x l <->
  0 <= p_sz x /\ page_ok (p_trapframe x) /\ uspace kend k (p_pagetable x) (pgs (p_sz x)) extra l /\
  p_trapframe x ∉ owns k (p_pagetable x) (pgs (p_sz x)) l.
Proof.
  assert (Ht : tf_pages x = [p_trapframe x]) by (unfold tf_pages; by destruct (Z.eqb_spec (p_trapframe x) 0)). split.
  - intros [Hf Hnd Hok Hsz Hsp]. rewrite pages_full in Hnd. apply NoDup_cons in Hnd as [Hni _]. rewrite Ht in Hok.
    apply Forall_cons in Hok as [Hok _]. split; [done|]. split; [done|]. split; [by apply Hsp|done].
  - intros (Hsz & Hok & Hu & Hni). split; [apply Hu| | |done|done].
    + rewrite pages_full. apply NoDup_cons. split; [done|apply Hu].
    + rewrite Ht. by apply Forall_singleton.
Qed.
End Full.

(** An owner keeps its pages when others change theirs. *)
Lemma owner_change k x l k' l' :
  owner k x l -> p_pagetable x <> 0 -> p_trapframe x <> 0 -> kwf kend k' l' ->
  same_on (space_pages (phys k) x) (phys k) (phys k') -> NoDup (proc_pages (phys k) x ++ l') ->
  owner k' x l' /\ proc_pages (phys k') x = proc_pages (phys k) x /\
  keeps (p_pagetable x) (pgs (p_sz x)) (phys k) (phys k').
Proof.
  intros Ho Hpt Htf Hk' Hs Hnd. apply owner_full in Ho as (Hsz & Hok & Hu & Hni); [|done..].
  rewrite (pages_full k x l' Hpt Htf) in Hnd. apply NoDup_cons in Hnd as [Hni' Hnd'].
  assert (Hsp : space_pages (phys k) x = upages (phys k) (p_pagetable x) (pgs (p_sz x)) ++ tp 2 (phys k) (p_pagetable x)).
  { unfold space_pages. by destruct (Z.eqb_spec (p_pagetable x) 0). }
  rewrite Hsp in Hs.
  destruct (uspace_frame kend k k' _ _ extra l l' Hu Hk') as (Hu' & Hup & Htp & Hl); [|done|].
  { eapply same_on_sub; [|exact Hs]. intros q Hq. apply elem_of_app. by right. }
  split; [|split].
  - apply owner_full; [done|done|]. split; [done|]. split; [done|]. split; [done|]. unfold owns. by rewrite Hup, Htp.
  - unfold proc_pages, space_pages. by rewrite Hup, Htp.
  - split; [intros; apply Hl|]. eapply same_on_sub; [|exact Hs]. intros q Hq. apply elem_of_app. by left.
Qed.

(** Two processes share no page. *)
Definition disjoint_procs (k : kmem) (x y : proc) : Prop :=
  forall q, q ∈ proc_pages (phys k) x -> q ∉ proc_pages (phys k) y.

Definition tf_same (m m' : mem) (tf : Z) : Prop := forall a, in_page tf a -> load8 m' a = load8 m a.

(** uvmcopy() seen by two processes. *)
Lemma copy_owners k x y l :
  owner k x l -> owner k y l -> disjoint_procs k x y ->
  p_pagetable x <> 0 -> p_trapframe x <> 0 -> p_pagetable y <> 0 -> p_trapframe y <> 0 -> p_sz y = 0 ->
  exists r k' l', uvmcopy kend (p_pagetable x) (p_pagetable y) (p_sz x) k = Ret r k' /\
    owner k' x l' /\ proc_pages (phys k') x = proc_pages (phys k) x /\ keeps (p_pagetable x) (pgs (p_sz x)) (phys k) (phys k') /\
    tf_same (phys k) (phys k') (p_trapframe x) /\
    (forall a, (forall q, q ∈ proc_pages (phys k) y ++ l -> ~ in_page q a) -> load8 (phys k') a = load8 (phys k) a) /\
    ((r = 0 /\ owner k' (set_p_sz (p_sz x) y) l' /\ proc_pages (phys k') (set_p_sz (p_sz x) y) ++ l' ≡ₚ proc_pages (phys k) y ++ l /\
        copied (phys k) (p_pagetable x) (p_pagetable y) (pgs (p_sz x)) (phys k')) \/
     (r = -1 /\ owner k' y l' /\ proc_pages (phys k') y ++ l' ≡ₚ proc_pages (phys k) y ++ l /\ (length l <= 3 * pgs (p_sz x))%nat)).
Proof.
  intros Hox Hoy Hd Hpx Htx Hpy Hty Hsy. pose proof (ow_pages _ _ _ _ Hox) as Hndx.
  pose proof (pages_full k x l Hpx Htx) as Pgx. pose proof (pages_full k y l Hpy Hty) as Pgy.
  pose proof Hox as Hox'. apply owner_full in Hox' as (Hszx & Hokx & Hux & Hnix); [|done..].
  pose proof Hoy as Hoy'. apply owner_full in Hoy' as (Hszy & Hoky & Huy & Hniy); [|done..].
  rewrite Hsy in Huy, Hniy, Pgy. change (pgs 0) with 0%nat in *.
  assert (Hxl : forall q, q ∈ proc_pages (phys k) x -> q ∉ proc_pages (phys k) y ++ l).
  { intros q Hq. rewrite elem_of_app. intros [Hq'|Hq']; [by apply (Hd q)|]. apply NoDup_app in Hndx as (_ & Hdl & _). by apply (Hdl q). }
  assert (Hin : forall q, q ∈ upages (phys k) (p_pagetable x) (pgs (p_sz x)) ++ tp 2 (phys k) (p_pagetable x) -> q ∈ proc_pages (phys k) x).
  { intros q Hq. unfold proc_pages, space_pages. destruct (Z.eqb_spec (p_pagetable x) 0); [done|]. apply elem_of_app. by right. }
  destruct (uvmcopy_spec kend Hkend k (p_pagetable x) (p_pagetable y) (p_sz x) extra extra l Hszx Hux Huy) as (r & k' & l' & E & Hux' & Hkeep & Hr).
  { intros q Hq Hq'. apply (Hxl q); [by apply Hin|]. rewrite Pgy. right. unfold owns. rewrite !elem_of_app. auto. }
  assert (Hmv : exists n', moved k (p_pagetable y) 0 l k' n' l' /\ uspace kend k' (p_pagetable y) n' extra l') by (destruct Hr as [(_ & ? & ? & _)|(_ & ? & ? & _)]; eauto).
  destruct Hmv as (n' & [Hown Hm] & Huy').
  assert (Hm' : forall a, (forall q, q ∈ proc_pages (phys k) y ++ l -> ~ in_page q a) -> load8 (phys k') a = load8 (phys k) a).
  { intros a Ha. apply Hm. intros q Hq. apply Ha. rewrite Pgy. by right. }
  assert (Hsx : forall q a, q ∈ proc_pages (phys k) x -> page_ok q -> in_page q a -> load8 (phys k') a = load8 (phys k) a).
  { intros q a Hq Hokq Ha. apply Hm. intros z Hz. apply (page_not_self kend q z a); [done|exact (owns_ok kend _ _ _ _ _ _ Huy Hz)| |done].
    intros ->. apply (Hxl z Hq). rewrite Pgy. by right. }
  assert (Htfx : p_trapframe x ∈ proc_pages (phys k) x).
  { unfold proc_pages, tf_pages. destruct (Z.eqb_spec (p_trapframe x) 0); [done|]. left. }
  assert (Hl' : forall q, q ∈ l' -> q ∈ proc_pages (phys k) y ++ l).
  { intros q Hq. rewrite Pgy. right. rewrite <- Hown. unfold owns. rewrite !elem_of_app. auto. }
  exists r, k', l'. split; [done|].
  destruct (owner_change k x l k' l' Hox Hpx Htx (proj1 (us_wf _ _ _ _ _ _ Hux'))) as (Hox' & Hpgx & _).
  { intros q a Hq Ha. apply (Hsx q a); [|eapply (owns_ok kend); [exact Hux|]|done].
    - unfold proc_pages. apply elem_of_app. by right.
    - unfold space_pages in Hq. destruct (Z.eqb_spec (p_pagetable x) 0); [done|]. unfold owns. rewrite !elem_of_app in *. tauto. }
  { apply NoDup_app in Hndx as (Hnd1 & _ & _). apply NoDup_app. split; [done|]. split; [|apply Hux'].
    intros q Hq Hq'. apply (Hxl q Hq). by apply Hl'. }
  split; [done|]. split; [done|]. split; [done|]. split; [intros a Ha; by apply (Hsx (p_trapframe x))|]. split; [done|].
  assert (Hniy' : p_trapframe y ∉ owns k' (p_pagetable y) n' l') by (by rewrite Hown).
  destruct Hr as [(-> & Hu' & [Hown' _] & Hcp)|(-> & Hu' & [Hown' _] & Hlen)]; [left|right]; (split; [done|]).
  - assert (Hpg : proc_pages (phys k') (set_p_sz (p_sz x) y) ++ l' = p_trapframe y :: owns k' (p_pagetable y) (pgs (p_sz x)) l')
      by (by apply (pages_full k' (set_p_sz (p_sz x) y))).
    split; [|split; [by rewrite Hpg, Pgy, Hown'|done]]. apply owner_full; [done..|]. cbn [p_sz p_trapframe p_pagetable set_p_sz].
    split; [done|]. split; [done|]. split; [done|]. by rewrite Hown'.
  - pose proof (pages_full k' y l' Hpy Hty) as Pgy'. rewrite Hsy in Pgy'. change (pgs 0) with 0%nat in Pgy'.
    split; [|split; [by rewrite Pgy', Pgy, Hown'|done]]. apply owner_full; [done..|]. rewrite Hsy. change (pgs 0) with 0%nat.
    split; [done|]. split; [done|]. split; [done|]. by rewrite Hown'.
Qed.

(** ** The rest of fork() *)

(** The child's entry when fork() is done with it. *)
Definition hatched (p cwd : Z) (nm o : list Z) (y : proc) : proc :=
  set_p_state RUNNABLE (set_p_parent p (set_p_lock false (set_name nm (set_p_cwd cwd (set_p_ofile o y))))).

(** fork() from the copy of the descriptors on. *)
Definition fork_tail (p np : Z) (x : proc) : M st Z :=
  fork_files (Z.to_nat NOFILE) 0 np ;;
  let* cwd := on_fs (idup (p_cwd x)) in
  setpr np (set_p_cwd cwd) ;;
  setpr np (set_name (p_name x)) ;;
  let* pid := getpr np p_pid in
  release_p np ;;
  acquire_wait ;;
  setpr np (set_p_parent p) ;;
  release_wait ;;
  acquire_p np ;;
  setpr np (set_p_state RUNNABLE) ;;
  release_p np ;;
  ret pid.

(** The kernel with the files [ft] and the inode table [it]. *)
Definition with_files (ft : filest) (it : list inode) (s : st) : st := set_kfs (set_itable it (kfs s)) (set_kfile ft s).

Lemma set_wait_lock_upd b p f ps : set_wait_lock b (upd_proc p f ps) = upd_proc p f (set_wait_lock b ps).
Proof. done. Qed.

Lemma fork_tail_run (s0 : st) ps k s np :
  at_ s0 ps k s -> ft_lock (kfile s0) = false -> it_lock (kfs s0) = false -> wait_lock ps = false ->
  np <> curp ps -> 0 <= np < zlen (procs ps) -> p_lock (proc_at ps np) = true ->
  let x := proc_at ps (curp ps) in
  zlen (p_ofile x) = NOFILE -> zlen (p_ofile (proc_at ps np)) = NOFILE -> fds_ok (kfile s0) (p_ofile x) ->
  exists s' o ft, fork_tail (curp ps) np x s = Ret (p_pid (proc_at ps np)) s' /\
    let d := ip_at (kfs s0) (p_cwd x) in
    at_ (with_files ft (updZ (p_cwd x) (set_i_ref (i_ref d + 1) d) (itable (kfs s0))) s0)
        (upd_proc np (hatched (curp ps) (p_cwd x) (p_name x) o) ps) k s' /\
    dupped (kfile s0) (p_ofile x) ft /\ inherits (p_ofile x) 0 (p_ofile (proc_at ps np)) o.
Proof.
  intros Hat0 Hl Hil Hw Hne Hnp Hlk x Hlx Hly Hok. unfold fork_tail.
  destruct (fork_files_run (Z.to_nat NOFILE) 0 np s0 ps k s Hat0 Hl ltac:(done) ltac:(done) Hne Hnp Hlx Hly Hok)
    as (s1 & o & ft & E1 & Hat1 & Hd & Hin). erewrite bind_Ret by exact E1. clear E1 Hat0.
  destruct (idup_run _ _ _ _ (p_cwd x) Hat1 Hil) as (s2 & E2 & Hat2). erewrite bind_Ret by exact E2. clear E2 Hat1.
  do 2 setpr_step. erewrite bind_Ret by (by eapply run_getpr). rewrite proc_at_upd_eq by done.
  match goal with H : at_ ?b (upd_proc np ?f ps) k ?s |- _ => set (F := f) in H; set (b0 := b) in H end.
  destruct (release_p_run np _ _ _ _ Hat) as (s5 & E5 & Hat5); [by rewrite proc_at_upd_eq|].
  rewrite upd_proc_upd in Hat5 by done. erewrite bind_Ret by exact E5. clear E5 Hat.
  destruct (run_proc (lk_acquire wait_lock set_wait_lock) _ _ _ _ tt (upd_proc np (fun z => set_p_lock false (F z)) (set_wait_lock true ps)) Hat5) as (s6 & E6 & Hat6).
  { unfold lk_acquire. cbn [wait_lock upd_proc set_procs]. by rewrite Hw. }
  erewrite bind_Ret by exact E6. clear E6 Hat5. setpr_step.
  destruct (run_proc (lk_release wait_lock set_wait_lock) _ _ _ _ tt (upd_proc np (fun z => set_p_parent (curp ps) (set_p_lock false (F z))) ps) Hat) as (s8 & E8 & Hat8).
  { unfold lk_release. cbn [wait_lock upd_proc set_procs set_wait_lock]. f_equal. unfold upd_proc, set_procs, set_wait_lock. cbn. by rewrite <- Hw. }
  erewrite bind_Ret by exact E8. clear E8 Hat.
  destruct (acquire_p_run np _ _ _ _ Hat8) as (s9 & E9 & Hat9); [by rewrite proc_at_upd_eq|].
  rewrite upd_proc_upd in Hat9 by done. erewrite bind_Ret by exact E9. clear E9 Hat8. setpr_step.
  destruct (release_p_run np _ _ _ _ Hat) as (s11 & E11 & Hat11); [by rewrite proc_at_upd_eq|].
  rewrite upd_proc_upd in Hat11 by done. erewrite bind_Ret by exact E11. clear E11 Hat.
  exists s11, o, ft. split; [|split; [|done]].
  - unfold ret. f_equal.
  - erewrite upd_proc_ext; [exact Hat11|]. reflexivity.
Qed.

(** The trap frame: all registers copied, then a0 set to 0. *)
Definition tf_copied (m m' : mem) (tf tf' : Z) : Prop :=
  (forall off, 0 <= off < TF_SIZE -> ~ (tf_a0 <= off < tf_a0 + 8) -> load8 m' (tf' + off) = load8 m (tf + off)) /\
  load64 m' (tf' + tf_a0) = 0.

Definition fork_regs (m : mem) (tf tf' : Z) : mem := store64 (memmove m tf' tf TF_SIZE) (tf' + tf_a0) (u64 0).

Lemma fork_regs_copied m tf tf' : tf_copied m (fork_regs m tf tf') tf tf'.
Proof.
  unfold tf_copied, fork_regs, tf_a0, TF_SIZE. split; [|by rewrite load64_store64_eq]. intros off Hoff Hn.
  rewrite load8_store64_out by lia. rewrite load8_memmove by done. rewrite decide_True by lia. f_equal. lia.
Qed.

Lemma fork_regs_out m tf tf' a : ~ in_page tf' a -> load8 (fork_regs m tf tf') a = load8 m a.
Proof.
  unfold fork_regs, tf_a0, TF_SIZE, in_page. intros Ha. rewrite load8_store64_out by lia.
  rewrite load8_memmove by done. by rewrite decide_False by lia.
Qed.

(** Writing to a page neither in the user memory nor in the table of [x]. *)
Lemma owner_write k x l m q :
  owner k x l -> p_pagetable x <> 0 -> p_trapframe x <> 0 -> page_ok q -> q ∉ space_pages (phys k) x ++ l ->
  (forall a, ~ in_page q a -> load8 m a = load8 (phys k) a) ->
  owner (set_phys m k) x l /\ proc_pages m x = proc_pages (phys k) x /\ keeps (p_pagetable x) (pgs (p_sz x)) (phys k) m.
Proof.
  intros Ho Hpt Htf Hq Hni Hm.
  assert (Hs : forall z a, z ∈ space_pages (phys k) x ++ l -> in_page z a -> load8 m a = load8 (phys k) a).
  { intros z a Hz Ha. apply Hm. apply (page_not_self kend z q a); [|done| |done].
    - pose proof Ho as Ho'. apply owner_full in Ho' as (_ & _ & Hu & _); [|done..]. eapply (owns_ok kend); [exact Hu|].
      unfold space_pages in Hz. destruct (Z.eqb_spec (p_pagetable x) 0); [done|]. unfold owns. by rewrite <- app_assoc in Hz.
    - by intros ->. }
  apply (owner_change k x l (set_phys m k) l); try done.
  - apply kwf_phys_frame; [apply Ho|]. intros z a Hz. apply (Hs z). apply elem_of_app. by right.
  - intros z a Hz. apply (Hs z). apply elem_of_app. by left.
  - apply Ho.
Qed.

(** ** fork() *)

Definition running (ps : procst) : proc := proc_at ps (curp ps).

(** What fork() asks of the kernel: tables at rest, and the running process
    with memory, descriptors and a directory of its own. *)
Record fork_pre (s : st) (l : list Z) : Prop := {
  fp_table : table_ok (kproc s);
  fp_wait : wait_lock (kproc s) = false;
  fp_owner : owner (umem (kfs s)) (running (kproc s)) l;
  fp_used : p_state (running (kproc s)) <> UNUSED;
  fp_pt : p_pagetable (running (kproc s)) <> 0;
  fp_tf : p_trapframe (running (kproc s)) <> 0;
  fp_fds : fds_ok (kfile s) (p_ofile (running (kproc s)));
  fp_len : forall i, 0 <= i < NPROC -> zlen (p_ofile (proc_at (kproc s) i)) = NOFILE;
  fp_ft : ft_lock (kfile s) = false;
  fp_it : it_lock (kfs s) = false
}.

(** The parent has what it had. *)
Definition parent_kept (s s' : st) (l' : list Z) : Prop :=
  let x := running (kproc s) in
  running (kproc s') = x /\ owner (umem (kfs s')) x l' /\
  proc_pages (phys (umem (kfs s'))) x = proc_pages (phys (umem (kfs s))) x /\
  keeps (p_pagetable x) (pgs (p_sz x)) (phys (umem (kfs s))) (phys (umem (kfs s'))) /\
  tf_same (phys (umem (kfs s))) (phys (umem (kfs s'))) (p_trapframe x).

Definition fork_fails (s : st) (l : list Z) (s' : st) (l' : list Z) : Prop :=
  l' ≡ₚ l /\ table_ok (kproc s') /\ at_ s (kproc s') (umem (kfs s')) s' /\
  (forall i, 0 <= i < NPROC -> proc_at (kproc s') i = proc_at (kproc s) i \/
     (vacant (proc_at (kproc s) i) /\ vacant (proc_at (kproc s') i))).

Record fork_child (s : st) (l : list Z) (np : Z) (s' : st) (l' : list Z) : Prop := {
  fc_slot : 0 <= np < NPROC /\ vacant (proc_at (kproc s) np);
  fc_others : forall i, i <> np -> proc_at (kproc s') i = proc_at (kproc s) i;
  fc_entry : let x := running (kproc s) in let y := proc_at (kproc s') np in
    p_state y = RUNNABLE /\ p_lock y = false /\ p_pid y = nextpid (kproc s) /\ p_parent y = curp (kproc s) /\
    p_sz y = p_sz x /\ p_cwd y = p_cwd x /\ p_ra y = forkret /\
    p_name y = patch (p_name (proc_at (kproc s) np)) 0 (safestrcpy (p_name x) 16) /\
    inherits (p_ofile x) 0 (p_ofile (proc_at (kproc s) np)) (p_ofile y);
  fc_memory : let x := running (kproc s) in let y := proc_at (kproc s') np in
    owner (umem (kfs s')) y l' /\ proc_pages (phys (umem (kfs s'))) y ++ l' ≡ₚ l /\
    copied (phys (umem (kfs s))) (p_pagetable x) (p_pagetable y) (pgs (p_sz x)) (phys (umem (kfs s'))) /\
    tf_copied (phys (umem (kfs s))) (phys (umem (kfs s'))) (p_trapframe x) (p_trapframe y);
  fc_files : dupped (kfile s) (p_ofile (running (kproc s))) (kfile s');
  fc_cwd : let cwd := p_cwd (running (kproc s)) in let d := ip_at (kfs s) cwd in
    itable (kfs s') = updZ cwd (set_i_ref (i_ref d + 1) d) (itable (kfs s))
}.

Lemma proc_pages_ext m x y : p_trapframe y = p_trapframe x -> p_pagetable y = p_pagetable x -> p_sz y = p_sz x ->
  proc_pages m y = proc_pages m x.
Proof. intros H1 H2 H3. unfold proc_pages, tf_pages, space_pages. by rewrite H1, H2, H3. Qed.

Lemma owner_ext k x y l : p_trapframe y = p_trapframe x -> p_pagetable y = p_pagetable x -> p_sz y = p_sz x ->
  owner k x l -> owner k y l.
Proof.
  intros H1 H2 H3 [Hf Hnd Hok Hsz Hsp]. split; [done| | |by rewrite H3|by rewrite H2, H3].
  - by rewrite (proc_pages_ext _ x).
  - unfold tf_pages. by rewrite H1.
Qed.

(** Changes to other pages do not reach an owner. *)
Lemma owner_beside k x l k' l' (L : list Z) :
  owner k x l -> p_pagetable x <> 0 -> p_trapframe x <> 0 -> kwf kend k' l' -> l' ⊆ L -> Forall page_ok L -> (forall q, q ∈ proc_pages (phys k) x -> q ∉ L) ->
  (forall a, (forall q, q ∈ L -> ~ in_page q a) -> load8 (phys k') a = load8 (phys k) a) ->
  owner k' x l' /\ proc_pages (phys k') x = proc_pages (phys k) x /\
  keeps (p_pagetable x) (pgs (p_sz x)) (phys k) (phys k') /\ tf_same (phys k) (phys k') (p_trapframe x).
Proof.
  intros Ho Hpt Htf Hk' Hl HL Hd Hm. pose proof (ow_pages _ _ _ _ Ho) as Hnd. apply NoDup_app in Hnd as (Hnd & _ & _).
  pose proof Ho as Ho'. apply owner_full in Ho' as (_ & Hok & Hu & _); [|done..]. rewrite Forall_forall in HL.
  assert (Hp : forall q a, q ∈ proc_pages (phys k) x -> page_ok q -> in_page q a -> load8 (phys k') a = load8 (phys k) a).
  { intros q a Hq Hokq Ha. apply Hm. intros z Hz. apply (page_not_self kend q z a); [done|by apply HL|by intros ->; apply (Hd z)|done]. }
  destruct (owner_change k x l k' l' Ho Hpt Htf Hk') as (Ho' & Hpg & Hkp).
  - intros q a Hq Ha. apply (Hp q); [unfold proc_pages; apply elem_of_app; by right| |done].
    eapply (owns_ok kend); [exact Hu|]. unfold space_pages in Hq. destruct (Z.eqb_spec (p_pagetable x) 0); [done|].
    unfold owns. rewrite !elem_of_app in *. tauto.
  - apply NoDup_app. split; [done|]. split; [|apply Hk']. intros q Hq Hq'. apply (Hd q Hq). by apply Hl.
  - split; [done|]. split; [done|]. split; [done|]. intros a Ha. apply (Hp (p_trapframe x)); [|done|done].
    unfold proc_pages, tf_pages. destruct (Z.eqb_spec (p_trapframe x) 0); [done|]. left.
Qed.

(** In particular changes to the pages of the free list. *)
Lemma owner_apart k x l k' l' :
  owner k x l -> p_pagetable x <> 0 -> p_trapframe x <> 0 -> kwf kend k' l' -> l' ⊆ l ->
  (forall a, (forall q, q ∈ l -> ~ in_page q a) -> load8 (phys k') a = load8 (phys k) a) ->
  owner k' x l' /\ proc_pages (phys k') x = proc_pages (phys k) x /\
  keeps (p_pagetable x) (pgs (p_sz x)) (phys k) (phys k') /\ tf_same (phys k) (phys k') (p_trapframe x).
Proof.
  intros Ho Hpt Htf Hk' Hl Hm. pose proof (ow_pages _ _ _ _ Ho) as Hnd. apply NoDup_app in Hnd as (_ & Hd & _).
  apply (owner_beside k x l k' l' l); try done. apply Forall_forall. intros q Hq. eapply flist_page_ok; [apply Ho|done].
Qed.

Lemma copied_from m0 m1 old new n m : keeps old n m0 m1 -> copied m1 old new n m -> copied m0 old new n m.
Proof.
  intros [Hl Hs] Hc i Hi. destruct (Hc i Hi) as (p & Hp & Hpa & Hb). rewrite Hl in * by lia. exists p. split; [done|]. split; [done|].
  intros off Hoff. rewrite Hb by done. apply (Hs (PTE2PA (leaf m0 old (4096 * i)))); [|unfold in_page; lia].
  apply elem_of_upages. by exists i.
Qed.

(** The parent's side of every outcome. *)
Lemma parent_side (s : st) l b ps' k' s' l' : fork_pre s l -> at_ b ps' k' s' ->
  running ps' = running (kproc s) -> kwf kend k' l' -> l' ⊆ l ->
  (forall a, (forall q, q ∈ l -> ~ in_page q a) -> load8 (phys k') a = load8 (phys (umem (kfs s))) a) ->
  parent_kept s s' l'.
Proof.
  intros Hpre Hat Hrun Hk Hl Hm. unfold parent_kept. rewrite (at_proc _ _ _ _ Hat), (at_mem _ _ _ _ Hat).
  split; [done|]. apply (owner_apart _ _ l); try done; apply Hpre.
Qed.

(** fork() when allocproc() found nothing. *)
Lemma fork_none (s : st) l ps' k' s' l' : fork_pre s l -> at_ s ps' k' s' -> alloc_result kend forkret (kproc s) l NULL ps' k' l' ->
  (forall a, (forall q, q ∈ l -> ~ in_page q a) -> load8 (phys k') a = load8 (phys (umem (kfs s))) a) ->
  parent_kept s s' l' /\ fork_fails s l s' l'.
Proof.
  intros Hpre Hat Hres Hm. inversion Hres as [? ? ? Hk Hl Hok Hcur Hwl Hall|? ? ? ? ? Hp]; subst; [|unfold NULL in Hp; lia].
  pose proof (fp_table _ _ Hpre) as (Hi & _). split.
  - eapply parent_side; try done; [|intros q; by rewrite Hl]. unfold running. rewrite Hcur.
    destruct (Hall (curp (kproc s))) as [->|[[Hst _] _]]; [apply Hi|done|]. by apply (fp_used _ _ Hpre) in Hst.
  - pose proof (at_proc _ _ _ _ Hat) as Ep. pose proof (at_mem _ _ _ _ Hat) as Em. subst ps' k'. by split.
Qed.

(** fork() once the memory is copied: the child's entry [y] is in the table
    [ps], its lock held. *)
Lemma fork_hatch (s : st) l np y ps k s1 l' :
  fork_pre s l -> at_ s ps k s1 -> 0 <= np < NPROC -> vacant (proc_at (kproc s) np) ->
  ps = upd_proc np (fun _ => y) (set_nextpid (s32 (nextpid (kproc s) + 1)) (kproc s)) ->
  p_lock y = true -> p_pid y = nextpid (kproc s) -> p_ra y = forkret -> p_name y = p_name (proc_at (kproc s) np) ->
  p_ofile y = p_ofile (proc_at (kproc s) np) -> p_sz y = p_sz (running (kproc s)) ->
  p_pagetable y <> 0 -> p_trapframe y <> 0 ->
  owner k y l' -> proc_pages (phys k) y ++ l' ≡ₚ l ->
  let x := running (kproc s) in
  copied (phys (umem (kfs s))) (p_pagetable x) (p_pagetable y) (pgs (p_sz x)) (phys k) ->
  (forall a, (forall q, q ∈ l -> ~ in_page q a) -> load8 (phys k) a = load8 (phys (umem (kfs s))) a) ->
  tf_same (phys (umem (kfs s))) (phys k) (p_trapframe x) ->
  exists s', (on_mem (k_memmove (p_trapframe y) (p_trapframe x) TF_SIZE) ;; tf_set np tf_a0 0 ;; fork_tail (curp (kproc s)) np x) s1
      = Ret (nextpid (kproc s)) s' /\
    parent_kept s s' l' /\ fork_child s l np s' l'.
Proof.
  intros Hpre Hat Hnp Hvac Hps Hlk Hpid Hra Hnm Hof Hsz Hpt Htf Ho Hl x Hcp Hm Htfx.
  pose proof (fp_table _ _ Hpre) as (Hi & _). set (psn := set_nextpid (s32 (nextpid (kproc s) + 1)) (kproc s)) in *.
  assert (Hr : 0 <= np < zlen (procs psn)) by (change (procs psn) with (procs (kproc s)); by rewrite (it_len _ Hi)).
  assert (Hne : np <> curp psn) by (intros ->; by apply (fp_used _ _ Hpre), Hvac).
  assert (Hpy : proc_at ps np = y) by (rewrite Hps; by rewrite proc_at_upd_eq).
  assert (Hpx : proc_at ps (curp ps) = x) by (rewrite Hps; by rewrite proc_at_upd_ne).
  destruct (run_mem (k_memmove (p_trapframe y) (p_trapframe x) TF_SIZE) _ _ _ _ tt _ Hat eq_refl) as (s2 & E2 & Hat2).
  erewrite bind_Ret by exact E2. unfold tf_set.
  match type of Hat2 with at_ _ _ ?k2 _ => set (km := k2) in * end.
  destruct (run_mem (k_store64 (p_trapframe y + tf_a0) (u64 0)) _ _ _ _ tt _ Hat2 eq_refl) as (s3 & E3 & Hat3).
  erewrite bind_Ret by (erewrite bind_Ret by (by eapply run_getpr); rewrite Hpy; exact E3).
  match type of Hat3 with at_ _ _ ?k3 _ => set (k3' := k3) in *; assert (Hk3 : k3' = set_phys (fork_regs (phys k) (p_trapframe x) (p_trapframe y)) k) by done end.
  clearbody k3'. subst k3'. set (m3 := fork_regs (phys k) (p_trapframe x) (p_trapframe y)) in *.
  assert (Hok : page_ok (p_trapframe y) /\ p_trapframe y ∉ space_pages (phys k) y ++ l').
  { pose proof Ho as Ho'. apply owner_full in Ho' as (_ & ? & _ & Hni); [|done..]. split; [done|].
    unfold space_pages. destruct (Z.eqb_spec (p_pagetable y) 0); [done|]. unfold owns in Hni. by rewrite <- app_assoc. }
  destruct Hok as [Hok Hni].
  destruct (owner_write k y l' m3 (p_trapframe y) Ho Hpt Htf Hok Hni) as (Ho3 & Hpg3 & Hkp3); [intros a; apply fork_regs_out|].
  destruct (fork_tail_run s ps _ s3 np Hat3) as (s' & o & ft & E & Hat' & Hd & Hin); rewrite ?Hpx, ?Hpy; try done; try apply Hpre.
  { rewrite Hps. apply Hpre. }
  { rewrite Hps. exact Hne. }
  { rewrite Hps. by rewrite zlen_upd_proc. }
  { apply Hi. }
  { rewrite Hof. by apply (fp_len _ _ Hpre). }
  rewrite Hpx, Hpy in *. exists s'. replace (curp ps) with (curp (kproc s)) in * by (by rewrite Hps). rewrite <- Hpid. split; [exact E|].
  assert (Htfl : p_trapframe y ∈ l).
  { rewrite <- Hl. unfold proc_pages, tf_pages. destruct (Z.eqb_spec (p_trapframe y) 0); [done|]. left. }
  assert (Hm3 : forall a, (forall q, q ∈ l -> ~ in_page q a) -> load8 m3 a = load8 (phys (umem (kfs s))) a).
  { intros a Ha. unfold m3. rewrite fork_regs_out; [by apply Hm|]. by apply Ha. }
  rewrite Hps, upd_proc_upd in Hat' by done. split.
  - eapply parent_side; [done|exact Hat'| |apply Ho3| |exact Hm3].
    + unfold running. cbn [curp upd_proc set_procs psn set_nextpid]. by rewrite proc_at_upd_ne.
    + intros q Hq. rewrite <- Hl. apply elem_of_app. by right.
  - pose proof (at_proc _ _ _ _ Hat') as Ep. pose proof (at_mem _ _ _ _ Hat') as Em.
    assert (Hy' : proc_at (kproc s') np = hatched (curp (kproc s)) (p_cwd x) (p_name x) o y) by (rewrite Ep; by rewrite proc_at_upd_eq).
    split.
    + done.
    + intros j Hj. rewrite Ep. by rewrite proc_at_upd_ne.
    + cbn zeta. rewrite Hy'. fold x. cbn. rewrite <- Hnm, <- Hof. split_and!; try done.
    + cbn zeta. rewrite Hy', Em. fold x. cbn [phys set_phys]. split; [by eapply owner_ext; [..|exact Ho3]|].
      split; [rewrite (proc_pages_ext _ y) by done; by rewrite Hpg3|]. split; [eapply copied_keeps; [exact Hcp|]; unfold x; rewrite <- Hsz; exact Hkp3|].
      destruct (fork_regs_copied (phys k) (p_trapframe x) (p_trapframe y)) as [Hc1 Hc2]. split; [|exact Hc2].
      intros off Hoff Hno. cbn [p_trapframe hatched]. unfold TF_SIZE in Hoff. rewrite Hc1 by done. apply Htfx. unfold in_page. lia.
    + rewrite (at_file _ _ _ _ Hat'). exact Hd.
    + cbn zeta. fold x. rewrite (at_itable _ _ _ _ Hat'). done.
Qed.

(** The linker script aligns the trampoline page. *)
Hypothesis Htramp : trampoline mod 4096 = 0 /\ 0 <= trampoline < 2 ^ 55.

(** C12: fork(), with any amount of free memory.  It returns -1, only if the
    process table is full or memory short (6 pages for the new table and trap
    frame, and 3 for each user page, are always enough), and then every page is back on the free list, the process table, the files and the
    inodes are as before; or it returns the pid of a process that was not in
    use before, now RUNNABLE with the caller as parent, whose user pages hold
    the same bytes with the same permissions as the caller's, whose registers
    are the caller's with 0 in a0, which has the caller's descriptors and
    directory with the references counted, and whose pages all come off the
    free list.  Either way the caller keeps its memory, byte for byte. *)
Theorem fork_correct (s : st) (l : list Z) :
  fork_pre s l ->
  exists r s' l', fork kend trampoline forkret s = Ret r s' /\ parent_kept s s' l' /\
    ((r = -1 /\ fork_fails s l s' l' /\
        (no_slot (kproc s) \/ Z.of_nat (length l) <= 6 + 3 * Z.of_nat (pgs (p_sz (running (kproc s)))))) \/
     (r = nextpid (kproc s) /\ exists np, fork_child s l np s' l')).
Proof.
  intros Hpre. set (ps := kproc s). set (x := running ps). unfold fork. erewrite bind_Ret by reflexivity. fold ps.
  pose proof (fp_table _ _ Hpre) as Htab. pose proof Htab as (Hi & _).
  destruct (allocproc_spec kend trampoline forkret Hkend Htramp s _ _ _ l (at_refl s) Htab (ow_free _ _ _ _ (fp_owner _ _ Hpre)))
    as (r & s1 & ps1 & k1 & l1 & E1 & Hat1 & Hres & Hwhy & Hm1).
  erewrite bind_Ret by exact E1. destruct (Z.eqb_spec r NULL) as [->|Hnn].
  { destruct (fork_none s l ps1 k1 s1 l1 Hpre Hat1 Hres Hm1) as [Hpk Hff]. exists (-1), s1, l1. split; [done|]. split; [done|]. left. split; [done|]. split; [done|]. destruct (Hwhy eq_refl); [by left|right; lia]. }
  inversion Hres as [|np tf pt ? ? Hnp Hvac ps1' Ho1 Hpg1 Htf Hpt Hl6]; subst; [done|]. rename r into np.
  set (f := newborn forkret (nextpid (kproc s)) tf pt) in *. set (psn := set_nextpid (s32 (nextpid (kproc s) + 1)) (kproc s)) in *.
  assert (Hr : 0 <= np < zlen (procs psn)) by (change (procs psn) with (procs (kproc s)); by rewrite (it_len _ Hi)).
  assert (Hne : np <> curp (kproc s)) by (intros ->; by apply (fp_used _ _ Hpre), Hvac).
  assert (Hpy : proc_at (upd_proc np f psn) np = f (proc_at (kproc s) np)) by (by rewrite proc_at_upd_eq).
  set (y := f (proc_at (kproc s) np)) in *. fold ps1' in Hpy. rewrite Hpy in Ho1, Hpg1.
  assert (Hpx : proc_at ps1' (curp (kproc s)) = x) by (unfold ps1'; by rewrite proc_at_upd_ne).
  destruct (owner_apart _ _ _ k1 l1 (fp_owner _ _ Hpre) (fp_pt _ _ Hpre) (fp_tf _ _ Hpre)) as (Hox & Hpgx & Hkx & Htx); [apply Ho1| |done|].
  { intros q Hq. rewrite <- Hpg1. apply elem_of_app. by right. }
  fold ps x in Hox, Hpgx, Hkx, Htx.
  assert (Hdis : disjoint_procs k1 x y).
  { intros q Hq Hq'. rewrite Hpgx in Hq. pose proof (ow_pages _ _ _ _ (fp_owner _ _ Hpre)) as Hnd.
    apply NoDup_app in Hnd as (_ & Hd & _). apply (Hd q Hq). rewrite <- Hpg1. apply elem_of_app. by left. }
  erewrite bind_Ret by (by eapply run_getpr). erewrite bind_Ret by (by eapply run_getpr). fold ps. fold ps in Hpx. rewrite Hpx, Hpy.
  assert (Hsy : p_sz y = 0) by apply Hvac.
  destruct (copy_owners k1 x y l1 Hox Ho1 Hdis) as (r & k2 & l2 & E2 & Hox2 & Hpgx2 & Hkx2 & Htx2 & Hm2 & Hr2); try done; [apply Hpre..|].
  destruct (run_mem _ _ _ _ _ _ _ Hat1 E2) as (s2 & R2 & Hat2). erewrite bind_Ret by exact R2.
  assert (Hm2' : forall a, (forall q, q ∈ l -> ~ in_page q a) -> load8 (phys k2) a = load8 (phys (umem (kfs s))) a).
  { intros a Ha. rewrite Hm2; [by apply Hm1|]. intros q. rewrite Hpg1. apply Ha. }
  destruct Hr2 as [(-> & Hoy & Hpgy & Hcp)|(-> & Hoy & Hpgy & Hlen)]; cbn [Z.ltb Z.compare].
  2: { destruct (abandon kend forkret Hkend s (kproc s) (umem (kfs s)) l np f _ k2 s2 l2 Htab Hnp Hvac Hat2 eq_refl Hoy)
         as (s' & ps' & k' & l' & E' & Hat' & Hres' & Hm'); [fold y; by rewrite Hpgy|done|].
       destruct (fork_none s l ps' k' s' l' Hpre Hat' Hres' Hm') as [Hpk Hff]. exists (-1), s', l'. split; [exact E'|]. split; [done|]. left. split; [done|]. split; [done|]. right. lia. }
  destruct (run_setpr np (set_p_sz (p_sz x)) _ _ _ _ Hat2) as (s3 & E3 & Hat3). erewrite bind_Ret by exact E3.
  unfold ps1' in Hat3. rewrite upd_proc_upd in Hat3 by done.
  erewrite bind_Ret by (by eapply run_getpr). rewrite proc_at_upd_eq by done. fold y.
  assert (Eps : upd_proc np (fun z => set_p_sz (p_sz x) (f z)) psn = upd_proc np (fun _ => set_p_sz (p_sz x) y) psn)
    by (apply upd_proc_ext; unfold y; reflexivity).
  destruct (fork_hatch s l np (set_p_sz (p_sz x) y) _ k2 s3 l2 Hpre Hat3 Hnp Hvac Eps) as (s' & E' & Hpk & Hfc); try done.
  - by rewrite Hpgy.
  - by eapply copied_from; [exact Hkx|].
  - intros a Ha. rewrite Htx2 by done. by apply Htx.
  - exists (nextpid ps), s', l2. split; [exact E'|]. split; [done|]. right. split; [done|]. by exists np.
Qed.
End ForkProof.

Lemma fork_sample_pre : fork_pre OneProc.kend OneProc.kernel OneProc.free.
Proof.
  split.
  - exact OneProc.table_rest.
  - reflexivity.
  - exact OneProc.me_owner.
  - discriminate.
  - discriminate.
  - discriminate.
  - unfold fds_ok. apply Forall_cons. split; [by right|]. apply Forall_forall. intros f Hf. left.
    change (f ∈ repeat NULL 15) in Hf. apply list_elem_of_In in Hf. by apply repeat_spec in Hf.
  - by apply (OneProc.my_at_table (fun x => zlen (p_ofile x) = NOFILE)).
  - reflexivity.
  - reflexivity.
Qed.

Lemma fork_correct_witness :
  exists r s' l', fork OneProc.kend KERNBASE 2147483648 OneProc.kernel = Ret r s' /\
    parent_kept OneProc.kend OneProc.kernel s' l' /\
    ((r = -1 /\ fork_fails OneProc.kernel OneProc.free s' l' /\
        (no_slot (kproc OneProc.kernel) \/ Z.of_nat (length OneProc.free) <= 6 + 3 * Z.of_nat (pgs (p_sz (running (kproc OneProc.kernel)))))) \/
     (r = nextpid (kproc OneProc.kernel) /\ exists np, fork_child OneProc.kend 2147483648 OneProc.kernel OneProc.free np s' l')).
Proof.
  apply (fork_correct OneProc.kend KERNBASE 2147483648 ltac:(done) ltac:(done) OneProc.kernel OneProc.free fork_sample_pre).
Defined.
