(* ===== verification/GrowProof.v ===== *)
(** * kernel/proc.c: growproc()

    What sbrk() does to a process's memory, for every amount. *)

From Stdlib Require Import ZArith Lia.
From stdpp Require Import base numbers list list_numbers gmap strings sorting.
From S2P Require Import Prelude Cstring Riscv Kalloc Vm PageTable Uvm UvmFree AddrSpace UvmCopy Bytes Sleeplock Bio Log Store Fs Kernel KernelProof Console File Proc ProcMem ProcSample ForkProof.

Section GrowProof.
Context {S : Type} {ops : BlockOps S}.
Context (kend : Z).
Hypothesis Hkend : KERNBASE <= kend.
Notation st := (kst S).
Notation owner := (owner kend).

(** The process [x] with its size set to [sz] and its memory accounted for. *)
Record resized (k : kmem) (x : proc) (l : list Z) (sz : Z) (k' : kmem) (l' : list Z) : Prop := {
  rs_owner : owner k' (set_p_sz sz x) l';
  rs_pages : proc_pages (phys k') (set_p_sz sz x) ++ l' ≡ₚ proc_pages (phys k) x ++ l;
  rs_kept : keeps (p_pagetable x) (Nat.min (pgs (p_sz x)) (pgs sz)) (phys k) (phys k');
  rs_tf : tf_same (phys k) (phys k') (p_trapframe x);
  rs_out : forall a, (forall q, q ∈ proc_pages (phys k) x ++ l -> ~ in_page q a) -> load8 (phys k') a = load8 (phys k) a
}.

Lemma resized_moved k x l sz k' l' :
  p_pagetable x <> 0 -> p_trapframe x <> 0 -> owner k x l -> 0 <= sz ->
  uspace kend k' (p_pagetable x) (pgs sz) extra l' -> moved k (p_pagetable x) (pgs (p_sz x)) l k' (pgs sz) l' ->
  keeps (p_pagetable x) (Nat.min (pgs (p_sz x)) (pgs sz)) (phys k) (phys k') -> resized k x l sz k' l'.
Proof.
  intros Hpt Htf Ho Hsz Hu [Hown Hm] Hk. pose proof Ho as Ho'. apply owner_full in Ho' as (_ & Hok & Hu0 & Hni); [|done..].
  pose proof (pages_full k x l Hpt Htf) as Pg. pose proof (pages_full k' (set_p_sz sz x) l' Hpt Htf) as Pg'.
  cbn [p_sz p_pagetable p_trapframe set_p_sz] in Pg'. split.
  - apply owner_full; [done..|]. cbn [p_sz p_pagetable p_trapframe set_p_sz]. split; [done|]. split; [done|]. split; [done|]. by rewrite Hown.
  - by rewrite Pg, Pg', Hown.
  - done.
  - intros a Ha. apply Hm. intros q Hq. apply (page_not_self kend (p_trapframe x) q a); [done|by eapply owns_ok| |done].
    intros <-. by apply Hni.
  - intros a Ha. apply Hm. intros q Hq. apply Ha. rewrite Pg. by right.
Qed.

(** The size growproc(n) aims at: an amount that would take the size below
    zero leaves it as it is. *)
Definition target (sz n : Z) : Z := if sz + n <? 0 then sz else sz + n.

Lemma setmine_run (s0 : st) ps k s f : at_ s0 ps k s -> exists s', setmine f s = Ret tt s' /\ at_ s0 (upd_proc (curp ps) f ps) k s'.
Proof. intros [Hps Hk ? ? ? ? ? ?]. eexists. split; [reflexivity|]. rewrite Hps. by split. Qed.

(** C15: growproc(n).  It returns 0, and then the size is the old one plus
    [n], or the old one when that would be negative: asked to shrink by more
    than there is, growproc() changes nothing and returns 0, where its comment
    promises -1 on failure.  The user pages up to that size are mapped,
    new ones readable, writable and zero, old ones with the bytes they had,
    and those above it are on the free list; or it returns -1, for a positive
    [n] for which three free pages per new page are not available, and then
    size and memory are as before.  No page is lost either way, and the trap
    frame is untouched. *)
Theorem growproc_correct (s : st) (n : Z) (l : list Z) :
  let ps := kproc s in let x := running ps in let k := umem (kfs s) in
  owner k x l -> p_pagetable x <> 0 -> p_trapframe x <> 0 -> - 2 ^ 31 <= n < 2 ^ 31 ->
  exists r s' k' l', growproc kend n s = Ret r s' /\
    ((r = 0 /\ at_ s (upd_proc (curp ps) (set_p_sz (target (p_sz x) n)) ps) k' s' /\
        resized k x l (target (p_sz x) n) k' l' /\
        fresh (p_pagetable x) (pgs (p_sz x)) (pgs (target (p_sz x) n)) (Z.lor (Z.lor PTE_R PTE_U) PTE_W) (phys k')) \/
     (r = -1 /\ at_ s ps k' s' /\ resized k x l (p_sz x) k' l' /\ 0 < n /\
        Z.of_nat (length l) <= 3 * Z.of_nat (pgs (p_sz x + n) - pgs (p_sz x)))).
Proof.
  intros ps x k Ho Hpt Htf Hn. unfold growproc, mine. erewrite bind_Ret by reflexivity. fold ps. change (proc_at ps (curp ps)) with x.
  pose proof Ho as Ho'. apply owner_full in Ho' as (Hsz & Hok & Hu & Hni); [|done..].
  pose proof (uspace_bound kend Hkend _ _ _ _ _ Hu) as Hb. pose proof (pgs_small (p_sz x) (pgs (p_sz x)) Hsz ltac:(lia) Hb) as Hs.
  change (2 ^ 31) with 2147483648 in Hn. unfold target.
  destruct (Z.ltb_spec 0 n).
  - destruct (Z.ltb_spec (p_sz x + n) 0); [lia|]. rewrite u64_small by (change (2 ^ 64) with 18446744073709551616; lia).
    pose proof (pgs_mono (p_sz x) (p_sz x + n) ltac:(lia)) as Hmono.
    destruct (uvmalloc_spec kend Hkend k (p_pagetable x) (p_sz x) (p_sz x + n) PTE_W extra l Hu) as (r & k' & E & n' & l' & Hu' & Hmv & Hk0 & Hr); try done; try lia.
    destruct (run_mem _ _ _ _ _ _ _ (at_refl s) E) as (s1 & R & Hat). erewrite bind_Ret by exact R.
    destruct Hr as [(-> & -> & Hkn & Hfr & _)|(-> & -> & Hlen)].
    + rewrite Nat.max_r in * by lia. destruct (Z.eqb_spec (p_sz x + n) 0); [lia|].
      destruct (setmine_run _ _ _ _ (set_p_sz (p_sz x + n)) Hat) as (s2 & E2 & Hat2). erewrite bind_Ret by exact E2.
      exists 0, s2, k', l'. split; [done|]. left. split; [done|]. split; [exact Hat2|]. split; [|done].
      apply resized_moved; try done. by rewrite Nat.min_l by lia.
    + cbn [Z.eqb]. exists (-1), s1, k', l'. split; [done|]. right. split; [done|]. split; [exact Hat|].
      split; [|split; [lia|lia]]. apply resized_moved; try done. by rewrite Nat.min_id.
  - destruct (Z.ltb_spec n 0) as [Hneg|].
    + set (newsz := u64 (p_sz x + n)). assert (Hnew : 0 <= newsz) by (unfold newsz; pose proof (u64_range (p_sz x + n)); lia).
      assert (Hmin : Z.min (p_sz x) newsz = if p_sz x + n <? 0 then p_sz x else p_sz x + n).
      { unfold newsz, u64. destruct (Z.ltb_spec (p_sz x + n) 0).
        - rewrite <- (Z.mod_add _ 1) by done. rewrite Z.mod_small; change (2 ^ 64) with 18446744073709551616 in *; lia.
        - rewrite Z.mod_small; change (2 ^ 64) with 18446744073709551616 in *; lia. }
      destruct (uvmdealloc_spec kend Hkend k (p_pagetable x) (p_sz x) newsz extra l Hu Hsz Hnew) as (k' & l' & E & Hu' & Hmv & Hk).
      rewrite Hmin in *. set (t := if p_sz x + n <? 0 then p_sz x else p_sz x + n) in *.
      assert (Ht : 0 <= t <= p_sz x) by (unfold t; destruct (Z.ltb_spec (p_sz x + n) 0); lia).
      pose proof (pgs_mono t (p_sz x) ltac:(lia)) as Hmono.
      destruct (run_mem _ _ _ _ _ _ _ (at_refl s) E) as (s1 & R & Hat). erewrite bind_Ret by exact R.
      destruct (setmine_run _ _ _ _ (set_p_sz t) Hat) as (s2 & E2 & Hat2). erewrite bind_Ret by exact E2.
      exists 0, s2, k', l'. split; [done|]. left. split; [done|]. split; [exact Hat2|]. split.
      * apply resized_moved; try done; [lia|]. by rewrite Nat.min_r by lia.
      * intros i Hi. lia.
    + replace n with 0 by lia. rewrite Z.add_0_r. assert (Et : (if p_sz x <? 0 then p_sz x else p_sz x) = p_sz x) by (by destruct (p_sz x <? 0)). rewrite Et.
      destruct (setmine_run _ _ _ _ (set_p_sz (p_sz x)) (at_refl s)) as (s2 & E2 & Hat2). erewrite bind_Ret by exact E2.
      exists 0, s2, k, l. split; [done|]. left. split; [done|]. split; [exact Hat2|]. split; [|intros i Hi; lia].
      apply resized_moved; try done.
Qed.
End GrowProof.

Lemma growproc_correct_witness :
  exists r s' k' l', growproc OneProc.kend 4096 OneProc.kernel = Ret r s' /\
    ((r = 0 /\ at_ OneProc.kernel (upd_proc 0 (set_p_sz (target 4096 4096)) OneProc.table) k' s' /\
        resized OneProc.kend OneProc.k OneProc.me OneProc.free (target 4096 4096) k' l' /\
        fresh OneProc.root (pgs 4096) (pgs (target 4096 4096)) (Z.lor (Z.lor PTE_R PTE_U) PTE_W) (phys k')) \/
     (r = -1 /\ at_ OneProc.kernel OneProc.table k' s' /\ resized OneProc.kend OneProc.k OneProc.me OneProc.free 4096 k' l' /\ 0 < 4096 /\
        Z.of_nat (length OneProc.free) <= 3 * Z.of_nat (pgs (4096 + 4096) - pgs 4096))).
Proof.
  apply (growproc_correct OneProc.kend ltac:(done) OneProc.kernel 4096 OneProc.free OneProc.me_owner); done.
Defined.
