(* ===== verification/WaitProof.v ===== *)
(** * kernel/proc.c: exit() and wait()

    A parent in wait() gets the status of a child that has exited, whose
    memory and table entry are then free; no parent sleeps in wait() while a
    child of it is a zombie. *)

From Stdlib Require Import ZArith Lia.
From stdpp Require Import base numbers list list_numbers gmap strings sorting.
From S2P Require Import Prelude Cstring Riscv Kalloc Vm PageTable Uvm UvmFree AddrSpace UvmCopy Ucopy Bytes Sleeplock Bio Log Store Fs Kernel KernelProof Console File Proc ProcMem ProcSample ForkProof.

(** ** User memory of an address space *)

Section View.
Context (kend : Z).
Hypothesis Hkend : KERNBASE <= kend.

Lemma lookup_at_pages f a n i : (i < n)%nat -> at_pages f a n !! i = Some (f (a + 4096 * Z.of_nat i)).
Proof.
  revert a i. induction n as [|n IH]; intros a i Hi; [lia|]. destruct i as [|i]; cbn [at_pages lookup list_lookup].
  - f_equal. f_equal. lia.
  - rewrite IH by lia. do 2 f_equal. lia.
Qed.

(** User code reaches the pages below [n] and no others. *)
Lemma user_low s root n extra l va : uspace kend s root n extra l -> 0 <= va < MAXVA ->
  user_leaf (leaf (phys s) root va) = true -> 0 <= va < 4096 * Z.of_nat n.
Proof.
  intros [_ _ Hfit _ _ _ Hex _ Hrest] Hva Hu. unfold user_leaf in Hu. apply andb_true_iff in Hu as [Hv HU].
  destruct (decide (va < 4096 * Z.of_nat n)); [lia|]. exfalso.
  destruct (decide (va / 4096 * 4096 ∈ extra)) as [Hin|Hni].
  - destruct (Hex _ Hin) as (_ & _ & _ & _ & HnU). rewrite leaf_base in HnU. congruence.
  - rewrite Hrest in Hv; [done|lia|done].
Qed.

(** No two pages of the user's share a page of memory. *)
Lemma upages_inj s root n extra l va va' : uspace kend s root n extra l -> 0 <= va < 4096 * Z.of_nat n -> 0 <= va' < 4096 * Z.of_nat n ->
  PTE2PA (leaf (phys s) root va) = PTE2PA (leaf (phys s) root va') -> va / 4096 = va' / 4096.
Proof.
  intros [_ _ _ _ Hown _ _ _ _] Hva Hva' E. apply NoDup_app in Hown as (Hnd & _ & _). unfold upages in Hnd.
  assert (Hi : forall w, 0 <= w < 4096 * Z.of_nat n ->
    at_pages (fun va => PTE2PA (leaf (phys s) root va)) 0 n !! Z.to_nat (w / 4096) = Some (PTE2PA (leaf (phys s) root w))).
  { intros w Hw. rewrite lookup_at_pages by (apply Nat2Z.inj_lt; rewrite Z2Nat.id; Z.div_mod_to_equations; lia).
    rewrite Z2Nat.id by (Z.div_mod_to_equations; lia). rewrite Z.add_0_l, Z.mul_comm, leaf_base. done. }
  pose proof (NoDup_lookup _ _ _ _ Hnd (Hi va Hva) (eq_trans (Hi va' Hva') (f_equal Some (eq_sym E)))) as Heq.
  apply Z2Nat.inj in Heq; [done|Z.div_mod_to_equations; lia..].
Qed.

Lemma upages_at m root n va : 0 <= va < 4096 * Z.of_nat n -> PTE2PA (leaf m root va) ∈ upages m root n.
Proof.
  intros Hva. apply elem_of_upages. exists (va / 4096). split; [Z.div_mod_to_equations; lia|]. rewrite Z.mul_comm, leaf_base. done.
Qed.

Lemma uspace_uview s root n extra l : uspace kend s root n extra l -> uview kend s root l.
Proof.
  intros Hu. pose proof Hu as [Hwf _ Hfit _ Hown Hok _ _ _]. split; [done|]. split.
  - intros va Hva Hul. pose proof (user_low _ _ _ _ _ _ Hu Hva Hul) as Hlow. pose proof (upages_at (phys s) root n va Hlow) as Hin.
    rewrite Forall_forall in Hok. split; [by apply Hok|]. apply NoDup_app in Hown as (_ & Hd & _). by apply Hd.
  - intros va va' Hva Hva' Hul Hul' E. apply (user_low _ _ _ _ _ _ Hu) in Hul, Hul'; [|done..]. by eapply upages_inj.
Qed.

(** Where a user address leads. *)
Lemma uaddr_page s root n extra l va a : uspace kend s root n extra l -> uaddr (phys s) root va = Some a ->
  exists q, q ∈ upages (phys s) root n /\ in_page q a.
Proof.
  intros Hu Ha. unfold uaddr in Ha. destruct (bool_decide_reflect (0 <= va < MAXVA)) as [Hva|]; [|done].
  destruct (user_leaf (leaf (phys s) root va)) eqn:Hul; [|done]. cbn in Ha. apply (inj Some) in Ha.
  pose proof (user_low _ _ _ _ _ _ Hu Hva Hul) as Hlow. exists (PTE2PA (leaf (phys s) root va)). split; [by apply upages_at|].
  unfold in_page. pose proof (Z.mod_pos_bound va 4096). lia.
Qed.
End View.

Section WaitProof.
Context {S : Type} {ops : BlockOps S}.
Context (kend : Z).
Hypothesis Hkend : KERNBASE <= kend.
Notation st := (kst S).
Notation owner := (owner kend).

(** ** wait() *)

Definition child (ps : procst) (i : Z) : Prop := p_parent (proc_at ps i) = curp ps.
Definition zombie_child (ps : procst) (i : Z) : Prop := child ps i /\ p_state (proc_at ps i) = ZOMBIE.

(** The status of a child, as wait() copies it. *)
Definition status_bytes (x : proc) : list Z := le_bytes 4 (p_xstate x).

(** What the caller's memory holds after wait() stored a status. *)
Definition stored (m m' : mem) (root addr : Z) (bs : list Z) : Prop :=
  forall va, ubyte m' root va = if decide (addr <> 0 /\ addr <= va < addr + zlen bs) then Some (u8 (nthZ 0 bs (va - addr))) else ubyte m root va.

(** The copy of the status leaves the zombie's pages alone. *)
Lemma status_copied k x z l addr :
  owner k x l -> owner k z l -> disjoint_procs k x z ->
  p_pagetable x <> 0 -> p_trapframe x <> 0 -> p_pagetable z <> 0 -> p_trapframe z <> 0 -> 0 <= addr < 2 ^ 64 ->
  exists r k', copyout (p_pagetable x) addr (status_bytes z) k = Ret r k' /\
    owner k' x l /\ owner k' z l /\ proc_pages (phys k') x = proc_pages (phys k) x /\ proc_pages (phys k') z = proc_pages (phys k) z /\
    (forall a, (forall q, q ∈ proc_pages (phys k) x -> ~ in_page q a) -> load8 (phys k') a = load8 (phys k) a) /\
    ((r = 0 /\ forall va, ubyte (phys k') (p_pagetable x) va =
        if decide (addr <= va < addr + 4) then Some (u8 (nthZ 0 (status_bytes z) (va - addr))) else ubyte (phys k) (p_pagetable x) va) \/
     (r = -1 /\ exists i, 0 <= i < 4 /\ uaddr (phys k) (p_pagetable x) (addr + i) = None)).
Proof.
  intros Hox Hoz Hd Hpx Htx Hpz Htz Ha. pose proof Hox as Hox'. apply owner_full in Hox' as (Hszx & Hokx & Hux & Hnix); [|done..].
  destruct (copyout_spec kend Hkend k (p_pagetable x) addr (status_bytes z) l (uspace_uview kend _ _ _ _ _ Hux) Ha)
    as (r & k' & E & (Hwf' & _ & _) & Hl & Hm & Hr).
  assert (Hsp : space_pages (phys k) x = upages (phys k) (p_pagetable x) (pgs (p_sz x)) ++ tp 2 (phys k) (p_pagetable x))
    by (unfold space_pages; by destruct (Z.eqb_spec (p_pagetable x) 0)).
  assert (Hout : forall a, (forall q, q ∈ upages (phys k) (p_pagetable x) (pgs (p_sz x)) -> ~ in_page q a) -> load8 (phys k') a = load8 (phys k) a).
  { intros a Hq. apply Hm. intros i Hi Hu. destruct (uaddr_page kend _ _ _ _ _ _ _ Hux Hu) as (q & Hq' & Hin). by apply (Hq q). }
  assert (Hup : forall q, q ∈ upages (phys k) (p_pagetable x) (pgs (p_sz x)) -> page_ok kend q /\ q ∈ proc_pages (phys k) x /\ q ∉ tp 2 (phys k) (p_pagetable x) ++ l).
  { intros q Hq. split; [|split].
    - pose proof (us_ok _ _ _ _ _ _ Hux) as Hok. rewrite Forall_forall in Hok. by apply Hok.
    - unfold proc_pages. rewrite Hsp, !elem_of_app. auto.
    - intros Hin. by eapply owns_split. }
  assert (Hsame : forall q a, page_ok kend q -> q ∉ upages (phys k) (p_pagetable x) (pgs (p_sz x)) -> in_page q a -> load8 (phys k') a = load8 (phys k) a).
  { intros q a Hq Hni Hin. apply Hout. intros q' Hq'. apply (page_not_self kend q q' a); [done|by apply Hup|by intros ->|done]. }
  exists r, k'. split; [done|].
  destruct (owner_change kend k z l k' l Hoz Hpz Htz (proj1 Hwf')) as (Hoz' & Hpgz & _).
  { intros q a Hq Hin. apply (Hsame q a); [| |done].
    - pose proof Hoz as Hoz'. apply owner_full in Hoz' as (_ & _ & Huz & _); [|done..]. eapply (owns_ok kend); [exact Huz|].
      unfold space_pages in Hq. destruct (Z.eqb_spec (p_pagetable z) 0); [done|]. unfold owns. rewrite !elem_of_app in *. tauto.
    - intros Hq'. apply (Hd q); [by apply Hup|]. unfold proc_pages. apply elem_of_app. by right. }
  { apply Hoz. }
  destruct (uspace_frame kend k k' _ _ extra l l Hux (proj1 Hwf')) as (Hux' & Hupx & Htpx & _); [| |].
  { intros q a Hq Hin. apply (Hsame q a); [| |done].
    - pose proof (us_wf _ _ _ _ _ _ Hux) as (_ & _ & Hok). rewrite Forall_forall in Hok. by apply Hok.
    - intros Hq'. destruct (Hup q Hq') as (_ & _ & Hni). apply Hni, elem_of_app. by left. }
  { apply Hux. }
  split; [|split; [done|split; [|split; [done|split]]]].
  - apply owner_full; [done..|]. split; [done|]. split; [done|]. split; [done|]. unfold owns. by rewrite Hupx, Htpx.
  - unfold proc_pages. rewrite Hsp. unfold space_pages. destruct (Z.eqb_spec (p_pagetable x) 0); [done|]. by rewrite Hupx, Htpx.
  - intros a Hq. apply Hout. intros q Hq'. apply Hq. by apply Hup.
  - change (zlen (status_bytes z)) with 4 in Hr. exact Hr.
Qed.

(** The process that waits, and its exited children, in a table at rest. *)
Record wait_pre (ps : procst) (k : kmem) (l : list Z) : Prop := {
  wp_idle : idle_table ps;
  wp_me : owner k (running ps) l /\ p_pagetable (running ps) <> 0 /\ p_trapframe (running ps) <> 0;
  wp_alive : p_state (running ps) = RUNNING;
  wp_kids : forall i, 0 <= i < NPROC -> zombie_child ps i ->
    owner k (proc_at ps i) l /\ p_pagetable (proc_at ps i) <> 0 /\ p_trapframe (proc_at ps i) <> 0 /\
    disjoint_procs k (running ps) (proc_at ps i)
}.

(** Child [z] is gone: its entry is free, its pages are on the free list, its
    status is where the caller asked for it. *)
Record reaped (ps : procst) (k : kmem) (l : list Z) (addr z : Z) (k' : kmem) (l' : list Z) : Prop := {
  rp_free : kwf kend k' l';
  rp_pages : l' ≡ₚ proc_pages (phys k) (proc_at ps z) ++ l;
  rp_me : owner k' (running ps) l';
  rp_status : stored (phys k) (phys k') (p_pagetable (running ps)) addr (status_bytes (proc_at ps z))
}.

(** The status could not be stored: the child is still there. *)
Record refused (ps : procst) (k : kmem) (l : list Z) (addr : Z) (k' : kmem) : Prop := {
  rf_me : owner k' (running ps) l;
  rf_addr : addr <> 0 /\ exists i, 0 <= i < 4 /\ uaddr (phys k) (p_pagetable (running ps)) (addr + i) = None
}.

Lemma ubyte_frame k k' x l l' : owner k x l -> owner k' x l' -> p_pagetable x <> 0 -> p_trapframe x <> 0 ->
  keeps (p_pagetable x) (pgs (p_sz x)) (phys k) (phys k') -> forall va, ubyte (phys k') (p_pagetable x) va = ubyte (phys k) (p_pagetable x) va.
Proof.
  intros Ho Ho' Hpt Htf [Hl Hs] va. apply owner_full in Ho as (_ & _ & Hu & _); [|done..]. apply owner_full in Ho' as (_ & _ & Hu' & _); [|done..].
  unfold ubyte. assert (E : uaddr (phys k') (p_pagetable x) va = uaddr (phys k) (p_pagetable x) va).
  { unfold uaddr. destruct (bool_decide_reflect (0 <= va < MAXVA)) as [Hva|]; [|done]. cbn [andb].
    destruct (user_leaf (leaf (phys k) (p_pagetable x) va)) eqn:E1.
    - rewrite Hl by (exact (user_low kend _ _ _ _ _ _ Hu Hva E1)). by rewrite E1.
    - destruct (user_leaf (leaf (phys k') (p_pagetable x) va)) eqn:E2; [|done].
      pose proof (user_low kend _ _ _ _ _ _ Hu' Hva E2) as Hlow. rewrite Hl in E2 by done. congruence. }
  rewrite E. destruct (uaddr (phys k) (p_pagetable x) va) as [a|] eqn:Ea; [|done]. cbn. f_equal.
  destruct (uaddr_page kend _ _ _ _ _ _ _ Hu Ea) as (q & Hq & Hin). by apply (Hs q).
Qed.

(** freeproc() of a zombie, seen by its parent. *)
Lemma free_child (s0 : st) ps k s l z x :
  at_ s0 ps k s -> 0 <= z < zlen (procs ps) -> owner k (proc_at ps z) l -> owner k x l ->
  p_pagetable x <> 0 -> p_trapframe x <> 0 -> disjoint_procs k x (proc_at ps z) ->
  exists s' k' l', freeproc kend z s = Ret tt s' /\ at_ s0 (upd_proc z cleared ps) k' s' /\
    kwf kend k' l' /\ l' ≡ₚ proc_pages (phys k) (proc_at ps z) ++ l /\ owner k' x l' /\
    (forall va, ubyte (phys k') (p_pagetable x) va = ubyte (phys k) (p_pagetable x) va).
Proof.
  intros Hat Hz Hoz Hox Hpx Htx Hd. destruct (freeproc_spec kend Hkend s0 ps k s z l Hat Hz Hoz) as (s' & k' & l' & E & Hat' & Hk' & Hl' & Hm).
  exists s', k', l'. do 4 (split; [done|]). pose proof (ow_pages _ _ _ _ Hox) as Hnd. apply NoDup_app in Hnd as (Hndx & Hdx & _).
  assert (Hap : forall q, q ∈ proc_pages (phys k) x -> q ∉ proc_pages (phys k) (proc_at ps z) ++ l).
  { intros q Hq. rewrite elem_of_app. intros [Hq'|Hq']; [by apply (Hd q)|by apply (Hdx q)]. }
  assert (Hokz : forall q, q ∈ proc_pages (phys k) (proc_at ps z) ++ l -> page_ok kend q).
  { intros q Hq. rewrite <- Hl' in Hq. eapply flist_page_ok; [apply Hk'|done]. }
  destruct (owner_change kend k x l k' l' Hox Hpx Htx Hk') as (Hox' & _ & Hkp).
  - intros q a Hq Ha. apply Hm. intros r Hr. apply (page_not_self kend q r a); [|by apply Hokz| |done].
    + pose proof Hox as Hox'. apply owner_full in Hox' as (_ & _ & Hux & _); [|done..]. eapply (owns_ok kend); [exact Hux|].
      unfold space_pages in Hq. destruct (Z.eqb_spec (p_pagetable x) 0); [done|]. unfold owns. rewrite !elem_of_app in *. tauto.
    + intros ->. apply (Hap r); [unfold proc_pages; apply elem_of_app; by right|done].
  - apply NoDup_app. split; [done|]. split; [|apply Hk']. intros q Hq Hq'. rewrite Hl' in Hq'. by apply (Hap q).
  - split; [done|]. by eapply ubyte_frame.
Qed.

Lemma release_wait_run (s0 : st) ps k s : at_ s0 ps k s -> wait_lock ps = true ->
  exists s', release_wait s = Ret tt s' /\ at_ s0 (set_wait_lock false ps) k s'.
Proof. intros Hat Hw. eapply run_proc; [exact Hat|]. unfold lk_release. by rewrite Hw. Qed.

Lemma acquire_wait_run (s0 : st) ps k s : at_ s0 ps k s -> wait_lock ps = false ->
  exists s', acquire_wait s = Ret tt s' /\ at_ s0 (set_wait_lock true ps) k s'.
Proof. intros Hat Hw. eapply run_proc; [exact Hat|]. unfold lk_acquire. by rewrite Hw. Qed.

(** What one pass over the table does: it ends at the first zombie child
    [z], or finds none. *)
Inductive scanned (s0 : st) (ps : procst) (k : kmem) (l : list Z) (addr : Z) : Z + bool -> st -> Prop :=
| scan_reap z k' l' s' :
    0 <= z < NPROC -> zombie_child ps z -> reaped ps k l addr z k' l' ->
    at_ s0 (set_wait_lock false (upd_proc z cleared ps)) k' s' ->
    scanned s0 ps k l addr (inl (p_pid (proc_at ps z))) s'
| scan_refuse z k' s' :
    0 <= z < NPROC -> zombie_child ps z -> refused ps k l addr k' ->
    at_ s0 (set_wait_lock false ps) k' s' ->
    scanned s0 ps k l addr (inl (-1)) s'
| scan_none (hk' : bool) s' :
    at_ s0 ps k s' -> (hk' = true <-> exists i, 0 <= i < NPROC /\ child ps i) ->
    (forall i, 0 <= i < NPROC -> ~ zombie_child ps i) ->
    scanned s0 ps k l addr (inr hk') s'.

Section Scan.
Context (s0 : st) (ps : procst) (k : kmem) (l : list Z) (addr : Z).
Hypothesis Hpre : wait_pre ps k l.
Hypothesis Hw : wait_lock ps = true.
Hypothesis Haddr : 0 <= addr < 2 ^ 64.

Lemma zombie_not_me z : zombie_child ps z -> z <> curp ps.
Proof. intros [_ Hz] ->. rewrite (wp_alive _ _ _ Hpre : p_state (proc_at ps (curp ps)) = RUNNING) in Hz. done. Qed.

(** The zombie [z] found, its lock held. *)
Lemma take_zombie z s : 0 <= z < NPROC -> zombie_child ps z -> at_ s0 (upd_proc z (set_p_lock true) ps) k s ->
  exists r s', (let* r := (if negb (addr =? 0) then ucopyout addr (le_bytes 4 (p_xstate (proc_at ps z))) else ret 0) in
      if r <? 0 then release_p z ;; release_wait ;; ret (inl (-1))
      else freeproc kend z ;; release_p z ;; release_wait ;; ret (inl (p_pid (proc_at ps z)))) s = Ret r s' /\
    scanned s0 ps k l addr r s'.
Proof.
  intros Hz Hzc Hat. pose proof Hpre as [Hi (Hox & Hpx & Htx) Hal Hkids]. destruct (Hkids z Hz Hzc) as (Hoz & Hpz & Htz & Hd).
  assert (Hr : 0 <= z < zlen (procs ps)) by (by rewrite (it_len _ Hi)). pose proof (it_unlocked _ Hi z Hz) as Hlz.
  assert (Hme : proc_at (upd_proc z (set_p_lock true) ps) (curp ps) = running ps)
    by (by rewrite proc_at_upd_ne by (by apply zombie_not_me)).
  assert (Hc : exists r s1 k1, (if negb (addr =? 0) then ucopyout addr (status_bytes (proc_at ps z)) else ret 0) s = Ret r s1 /\
    at_ s0 (upd_proc z (set_p_lock true) ps) k1 s1 /\ owner k1 (running ps) l /\ owner k1 (proc_at ps z) l /\
    proc_pages (phys k1) (running ps) = proc_pages (phys k) (running ps) /\ proc_pages (phys k1) (proc_at ps z) = proc_pages (phys k) (proc_at ps z) /\
    ((r = 0 /\ stored (phys k) (phys k1) (p_pagetable (running ps)) addr (status_bytes (proc_at ps z))) \/ (r = -1 /\ refused ps k l addr k1))).
  { destruct (Z.eqb_spec addr 0) as [E0|Hne]; cbn [negb].
    { exists 0, s, k. do 6 (split; [done|]). left. split; [done|]. intros va. by rewrite decide_False by (by intros [? _]). }
    destruct (status_copied k (running ps) (proc_at ps z) l addr) as (r & k1 & E & Hox1 & Hoz1 & Hp1 & Hp2 & _ & Hres); try done.
    destruct (run_mem _ _ _ _ _ _ _ Hat E) as (s1 & R & Hat1). exists r, s1, k1. split.
    { unfold ucopyout, mine. erewrite bind_Ret by reflexivity. rewrite (at_proc _ _ _ _ Hat).
      change (curp (upd_proc z (set_p_lock true) ps)) with (curp ps). by rewrite Hme. }
    do 5 (split; [done|]). destruct Hres as [[-> Hst]|[-> Hst]]; [left|right]; (split; [done|]).
    - intros va. rewrite Hst. change (zlen (status_bytes (proc_at ps z))) with 4. repeat case_decide; intuition.
    - by split. }
  destruct Hc as (r & s1 & k1 & E1 & Hat1 & Hox1 & Hoz1 & Hp1 & Hp2 & Hr1). unfold status_bytes in E1. erewrite bind_Ret by exact E1.
  assert (Hpz1 : proc_at (upd_proc z (set_p_lock true) ps) z = set_p_lock true (proc_at ps z)) by (by rewrite proc_at_upd_eq).
  destruct Hr1 as [[-> Hst]|[-> Hrf]]; cbn [Z.ltb Z.compare].
  - destruct (free_child _ _ _ _ l z (running ps) Hat1) as (s2 & k2 & l2 & E2 & Hat2 & Hk2 & Hl2 & Hox2 & Hub); try done.
    { by rewrite zlen_upd_proc. }
    { rewrite Hpz1. by eapply owner_ext; [..|exact Hoz1]. }
    { intros q Hq. rewrite Hpz1, (proc_pages_ext _ (proc_at ps z)), Hp2 by done. rewrite Hp1 in Hq. by apply Hd. }
    rewrite upd_proc_upd in Hat2 by done. erewrite bind_Ret by exact E2.
    destruct (release_p_run z _ _ _ _ Hat2) as (s3 & E3 & Hat3); [by rewrite proc_at_upd_eq|]. rewrite upd_proc_upd in Hat3 by done.
    erewrite bind_Ret by exact E3. destruct (release_wait_run _ _ _ _ Hat3) as (s4 & E4 & Hat4); [done|]. erewrite bind_Ret by exact E4.
    eexists _, s4. split; [done|]. apply (scan_reap s0 ps k l addr z k2 l2); try done.
    + split; try done.
      * rewrite Hl2, Hpz1. rewrite (proc_pages_ext _ (proc_at ps z)) by done. by rewrite Hp2.
      * intros va. rewrite Hub. apply Hst.
    + erewrite upd_proc_ext; [exact Hat4|]. clear -Hlz. destruct (proc_at ps z). cbn in *. by subst.
  - destruct (release_p_run z _ _ _ _ Hat1) as (s3 & E3 & Hat3); [by rewrite Hpz1|]. rewrite upd_proc_upd in Hat3 by done.
    rewrite upd_proc_id in Hat3 by (by apply set_lock_false).
    erewrite bind_Ret by exact E3. destruct (release_wait_run _ _ _ _ Hat3) as (s4 & E4 & Hat4); [done|]. erewrite bind_Ret by exact E4.
    eexists _, s4. split; [done|]. by apply (scan_refuse s0 ps k l addr z k1).
Qed.

Lemma wait_scan_run n pp hk s :
  at_ s0 ps k s -> 0 <= pp -> pp + Z.of_nat n = NPROC ->
  (hk = true <-> exists i, 0 <= i < pp /\ child ps i) -> (forall i, 0 <= i < pp -> ~ zombie_child ps i) ->
  exists r s', wait_scan kend n pp addr hk s = Ret r s' /\ scanned s0 ps k l addr r s'.
Proof.
  pose proof (wp_idle _ _ _ Hpre) as Hi. revert pp hk s. induction n as [|n IH]; intros pp hk s Hat Hpp Hn Hhk Hno; cbn [wait_scan].
  { exists (inr hk), s. split; [done|]. replace pp with NPROC in * by lia. by apply scan_none. }
  unfold myproc. erewrite bind_Ret by reflexivity. erewrite bind_Ret by (by eapply run_getpr). rewrite (at_proc _ _ _ _ Hat).
  assert (Hr : 0 <= pp < zlen (procs ps)) by (rewrite (it_len _ Hi); lia). pose proof (it_unlocked _ Hi pp ltac:(lia)) as Hl.
  assert (Hnext : forall hk' s', at_ s0 ps k s' -> ~ zombie_child ps pp -> (hk' = true <-> hk = true \/ child ps pp) ->
    exists r s'', wait_scan kend n (pp + 1) addr hk' s' = Ret r s'' /\ scanned s0 ps k l addr r s'').
  { intros hk' s' Hat' Hnz Hhk'. apply IH; [done|lia|lia| |].
    - rewrite Hhk', Hhk. split.
      + intros [(i & Hi' & Hc)|Hc]; [exists i|exists pp]; (split; [lia|done]).
      + intros (i & Hi' & Hc). destruct (decide (i = pp)) as [->|]; [by right|left; exists i; split; [lia|done]].
    - intros i Hi'. destruct (decide (i = pp)) as [->|]; [done|apply Hno; lia]. }
  destruct (Z.eqb_spec (p_parent (proc_at ps pp)) (curp ps)) as [Hc|Hc].
  2: { apply Hnext; [done|by intros [? _]|]. unfold child. intuition. }
  destruct (acquire_p_run pp _ _ _ _ Hat Hl) as (s1 & E1 & Hat1). erewrite bind_Ret by exact E1.
  erewrite bind_Ret by (by eapply run_getpr). rewrite proc_at_upd_eq by done. cbn [p_state p_pid p_xstate set_p_lock].
  case_bool_decide as Hst.
  { apply take_zombie; [lia|done|done]. }
  destruct (release_p_run pp _ _ _ _ Hat1) as (s2 & E2 & Hat2); [by rewrite proc_at_upd_eq|].
  erewrite bind_Ret by exact E2. rewrite upd_proc_upd in Hat2 by done. rewrite upd_proc_id in Hat2 by (by apply set_lock_false).
  apply Hnext; [done|by intros [_ ?]|]. split; [by right|done].
Qed.
End Scan.

(** ** The whole call *)

(** sleep() with wait_lock held: the caller is SLEEPING on its own entry. *)
Lemma wait_sleep (s0 : st) ps k s : at_ s0 ps k s -> idle_table ps -> wait_lock ps = true ->
  exists s', sleep (chan_proc (curp ps)) release_wait s = Ret tt s' /\
    at_ s0 (upd_proc (curp ps) (asleep (chan_proc (curp ps))) (set_wait_lock false ps)) k s'.
Proof.
  intros Hat Hi Hw. set (p := curp ps). assert (Hp : 0 <= p < NPROC) by apply Hi.
  assert (Hr : 0 <= p < zlen (procs ps)) by (by rewrite (it_len _ Hi)). pose proof (it_unlocked _ Hi p Hp) as Hl.
  unfold sleep, myproc. erewrite bind_Ret by reflexivity. rewrite (at_proc _ _ _ _ Hat). fold p.
  destruct (acquire_p_run p _ _ _ _ Hat Hl) as (s1 & E1 & Hat1). erewrite bind_Ret by exact E1.
  destruct (release_wait_run _ _ _ _ Hat1) as (s2 & E2 & Hat2); [done|]. erewrite bind_Ret by exact E2.
  rewrite set_wait_lock_upd in Hat2. set (psw := set_wait_lock false ps) in *.
  assert (Hrw : 0 <= p < zlen (procs psw)) by done. clear Hat Hat1.
  fold (@setpr S p (set_p_chan (chan_proc p))). setpr_step. fold (@setpr S p (set_p_state SLEEPING)). setpr_step.
  unfold sched, myproc, mine. erewrite bind_Ret; [|erewrite bind_Ret by reflexivity; erewrite bind_Ret by reflexivity; rewrite (at_proc _ _ _ _ Hat); cbn [curp upd_proc set_procs]; change (curp psw) with p; rewrite proc_at_upd_eq by done; reflexivity].
  destruct (release_p_run p _ _ _ _ Hat) as (s5 & E5 & Hat5); [by rewrite proc_at_upd_eq|]. rewrite upd_proc_upd in Hat5 by done.
  exists s5. split; [exact E5|]. erewrite upd_proc_ext; [exact Hat5|]. change (proc_at psw p) with (proc_at ps p). clear -Hl.
  unfold asleep. destruct (proc_at ps p). cbn in *. by subst.
Qed.

Lemma wait_lock_back ps : wait_lock ps = false -> set_wait_lock false (set_wait_lock true ps) = ps.
Proof. intros H. unfold set_wait_lock. cbn. rewrite <- H. by destruct ps. Qed.

Lemma wait_pre_lock b ps k l : wait_pre ps k l -> wait_pre (set_wait_lock b ps) k l.
Proof. intros [[? ? ?] ? ? ?]. by split. Qed.

(** The four ways wait() ends. *)
Inductive wait_outcome (s : st) (l : list Z) (addr : Z) : outcome st Z -> Prop :=
| wait_reaps z k' l' s' :
    0 <= z < NPROC -> zombie_child (kproc s) z -> reaped (kproc s) (umem (kfs s)) l addr z k' l' ->
    at_ s (upd_proc z cleared (kproc s)) k' s' ->
    wait_outcome s l addr (Ret (p_pid (proc_at (kproc s) z)) s')
| wait_refuses z k' s' :
    0 <= z < NPROC -> zombie_child (kproc s) z -> refused (kproc s) (umem (kfs s)) l addr k' ->
    at_ s (kproc s) k' s' ->
    wait_outcome s l addr (Ret (-1) s')
| wait_pointless s' :
    (forall i, 0 <= i < NPROC -> ~ zombie_child (kproc s) i) ->
    (forall i, 0 <= i < NPROC -> ~ child (kproc s) i) \/ p_killed (running (kproc s)) <> 0 ->
    at_ s (kproc s) (umem (kfs s)) s' ->
    wait_outcome s l addr (Ret (-1) s')
| wait_sleeps s' :
    (forall i, 0 <= i < NPROC -> ~ zombie_child (kproc s) i) ->
    (exists i, 0 <= i < NPROC /\ child (kproc s) i) -> p_killed (running (kproc s)) = 0 ->
    at_ s (upd_proc (curp (kproc s)) (asleep (chan_proc (curp (kproc s)))) (kproc s)) (umem (kfs s)) s' ->
    wait_outcome s l addr (Block (chan_proc (curp (kproc s))) s').

(** C13: wait(addr).  With an exited child it returns the pid of one; that
    child's entry is cleared, every page of its memory is back on the free
    list, and its exit status is in the caller's memory at [addr] (nowhere for
    address 0), where every other byte is unchanged.  It returns -1 if the
    status cannot be stored, and then the child stays; -1 with no children, or
    killed with none exited.  Otherwise it sleeps, and only then: never while
    a child is a zombie. *)
Theorem wait_correct (s : st) (l : list Z) (addr : Z) :
  wait_lock (kproc s) = false -> wait_pre (kproc s) (umem (kfs s)) l -> 0 <= addr < 2 ^ 64 ->
  wait_outcome s l addr (wait kend addr s).
Proof.
  intros Hw Hpre Ha. set (ps := kproc s) in *. set (ps1 := set_wait_lock true ps).
  pose proof (wait_pre_lock true _ _ _ Hpre) as Hpre1. fold ps1 in Hpre1.
  unfold wait, wait_turn. destruct (acquire_wait_run s _ _ _ (at_refl s) Hw) as (s1 & E1 & Hat1). erewrite bind_Ret by exact E1. fold ps ps1 in Hat1.
  destruct (wait_scan_run s ps1 (umem (kfs s)) l addr Hpre1 eq_refl Ha NPROCn 0 false s1 Hat1 ltac:(lia) ltac:(done)) as (r & s2 & E2 & Hsc).
  { split; [done|]. intros (i & Hi & _). lia. }
  { intros i Hi. lia. }
  assert (Hback : forall f z, set_wait_lock false (upd_proc z f ps1) = upd_proc z f ps).
  { intros f z. rewrite set_wait_lock_upd. unfold ps1. by rewrite wait_lock_back. }
  inversion Hsc as [z k' l' ? Hz Hzc Hrp Hat2|z k' ? Hz Hzc Hrf Hat2|hk ? Hat2 Hhk Hno]; subst.
  - erewrite bind_Ret by (erewrite bind_Ret by exact E2; reflexivity). erewrite bind_Ret by reflexivity. unfold ret.
    rewrite Hback in Hat2. apply (wait_reaps s l addr z k' l'); try done. by destruct Hrp.
  - erewrite bind_Ret by (erewrite bind_Ret by exact E2; reflexivity). erewrite bind_Ret by reflexivity. unfold ret.
    unfold ps1 in Hat2. rewrite wait_lock_back in Hat2 by done. apply (wait_refuses s l addr z k'); try done. by destruct Hrf.
  - assert (Hk : (if hk then killed (curp ps) else ret 0) s2 = Ret (if hk then p_killed (running ps) else 0) s2).
    { destruct hk; [|done]. unfold killed. rewrite (on_proc_Ret (killed_ (curp ps)) s2 (p_killed (running ps)) ps1).
      - f_equal. rewrite <- (at_proc _ _ _ _ Hat2). apply set_kproc_same.
      - rewrite (at_proc _ _ _ _ Hat2). apply (killed_ok (curp ps) ps1); apply (wp_idle _ _ _ Hpre1). }
    assert (Hm : (let* r := wait_scan kend NPROCn 0 addr false in
        match r with
        | inl v => ret (inl v)
        | inr havekids =>
            let* p := myproc in
            let* k0 := (if havekids then killed p else ret 0) in
            if negb havekids || negb (k0 =? 0) then release_wait ;; ret (inl (-1))
            else sleep (chan_proc p) release_wait ;; ret (inr tt)
        end) s1 = (if negb hk || negb ((if hk then p_killed (running ps) else 0) =? 0) then release_wait ;; ret (inl (-1))
            else sleep (chan_proc (curp ps)) release_wait ;; ret (inr tt)) s2).
    { erewrite bind_Ret by exact E2. unfold myproc at 1. erewrite bind_Ret by reflexivity. rewrite (at_proc _ _ _ _ Hat2).
      change (curp ps1) with (curp ps). by erewrite bind_Ret by exact Hk. }
    destruct (negb hk || negb ((if hk then p_killed (running ps) else 0) =? 0)) eqn:Ed.
    + destruct (release_wait_run _ _ _ _ Hat2 eq_refl) as (s3 & E3 & Hat3). unfold ps1 in Hat3. rewrite wait_lock_back in Hat3 by done.
      erewrite bind_Ret by (rewrite Hm; by erewrite bind_Ret by exact E3). erewrite bind_Ret by reflexivity. unfold ret.
      apply wait_pointless; [done| |done]. destruct hk; cbn in Ed.
      * right. by apply negb_true_iff, Z.eqb_neq in Ed.
      * left. intros i Hi Hc. assert (Hf : false = true) by (apply Hhk; eauto). done.
    + destruct hk; [|done]. cbn in Ed. apply negb_false_iff, Z.eqb_eq in Ed.
      destruct (wait_sleep _ _ _ _ Hat2 (wp_idle _ _ _ Hpre1) eq_refl) as (s3 & E3 & Hat3). change (curp ps1) with (curp ps) in *.
      unfold ps1 in Hat3. rewrite wait_lock_back in Hat3 by done.
      erewrite bind_Ret by (rewrite Hm; by erewrite bind_Ret by exact E3). unfold myproc. erewrite bind_Ret by reflexivity.
      rewrite (at_proc _ _ _ _ Hat3). apply wait_sleeps; try done. by apply Hhk.
Qed.
End WaitProof.

Lemma kid_apart : disjoint_procs OneProc.k OneProc.me OneProc.kid.
Proof.
  intros q Hq Hq'. assert (Hb : bool_decide (NoDup (proc_pages OneProc.mem0 OneProc.me ++ proc_pages OneProc.mem0 OneProc.kid)) = true) by (vm_compute; reflexivity).
  apply bool_decide_eq_true, NoDup_app in Hb as (_ & Hd & _). by apply (Hd q).
Qed.

Lemma wait_sample_pre : wait_pre OneProc.kend OneProc.family OneProc.k OneProc.free.
Proof.
  split.
  - exact OneProc.family_idle.
  - split; [exact OneProc.me_owner|]. by split.
  - reflexivity.
  - apply (OneProc.at_family (fun i x => zombie_child OneProc.family i ->
      owner OneProc.kend OneProc.k x OneProc.free /\ p_pagetable x <> 0 /\ p_trapframe x <> 0 /\ disjoint_procs OneProc.k OneProc.me x)).
    + by intros [_ ?].
    + intros _. split; [exact OneProc.kid_owner|]. split; [discriminate|]. split; [discriminate|]. exact kid_apart.
    + intros i Hi [Hc _]. exfalso. revert Hc. unfold child.
      replace (proc_at OneProc.family i) with proc0; [done|]. symmetry.
      apply (OneProc.at_family (fun j x => 2 <= j -> x = proc0)); lia || done.
Qed.

Lemma wait_correct_witness :
  wait_outcome OneProc.kend OneProc.home OneProc.free 0 (wait OneProc.kend 0 OneProc.home).
Proof.
  apply (wait_correct OneProc.kend ltac:(done) OneProc.home OneProc.free 0 eq_refl wait_sample_pre). done.
Defined.
