(* ===== verification/ExitProof.v ===== *)
(** * kernel/proc.c: exit(), and that wait() does not sleep past it

    exit() hands the children to init, wakes init and the parent, and leaves a
    zombie; no process is asleep in wait() while a child of it is one. *)

From Stdlib Require Import ZArith Lia.
From stdpp Require Import base numbers list list_numbers gmap strings sorting.
From S2P Require Import Prelude Cstring Riscv Kalloc Vm PageTable Uvm UvmFree AddrSpace UvmCopy Ucopy Bytes Sleeplock Bio Log Store Fs Kernel KernelProof Console File Proc ProcMem ProcSample ForkProof WaitProof.

Section ExitProof.
Context {S : Type} {ops : BlockOps S}.
Notation st := (kst S).
Implicit Types (ps : procst) (x : proc).

Lemma wakeup_at chan (s0 : st) ps k s : at_ s0 ps k s -> idle_table ps ->
  exists s' ps', wakeup chan s = Ret tt s' /\ at_ s0 ps' k s' /\ idle_table ps' /\ KernelProof.mapped (woke (curp ps) chan) ps ps'.
Proof.
  intros Hat Hi. destruct (wakeup_ok chan ps Hi) as (ps' & E & Hi' & Hm).
  destruct (run_proc _ _ _ _ _ _ _ Hat E) as (s' & R & Hat'). by exists s', ps'.
Qed.

(** ** reparent() *)

Definition adopt (p init : Z) x : proc := if p_parent x =? p then set_p_parent init x else x.

(** Is there a child of [p] among the entries from [pp] on? *)
Definition has_child (p pp : Z) ps : bool := existsb (fun i => p_parent (proc_at ps i) =? p) (seqZ pp (NPROC - pp)).

Lemma has_child_step p pp ps : 0 <= pp < NPROC ->
  has_child p pp ps = (p_parent (proc_at ps pp) =? p) || has_child p (pp + 1) ps.
Proof.
  intros Hpp. unfold has_child. rewrite seqZ_cons by lia. cbn [existsb]. do 3 f_equal; lia.
Qed.

Lemma has_child_spec p ps : has_child p 0 ps = true <-> exists i, 0 <= i < NPROC /\ p_parent (proc_at ps i) = p.
Proof.
  unfold has_child. rewrite existsb_exists. split.
  - intros (i & Hi & E). apply list_elem_of_In, elem_of_seqZ in Hi. apply Z.eqb_eq in E. exists i. split; [lia|done].
  - intros (i & Hi & E). exists i. split; [apply list_elem_of_In, elem_of_seqZ; lia|by apply Z.eqb_eq].
Qed.

Lemma has_child_ext p pp ps ps' : 0 <= pp ->
  (forall i, pp <= i < NPROC -> p_parent (proc_at ps' i) = p_parent (proc_at ps i)) -> has_child p pp ps' = has_child p pp ps.
Proof.
  intros Hpp H. unfold has_child. assert (Hl : forall ls, (forall i, i ∈ ls -> pp <= i < NPROC) ->
    existsb (fun i => p_parent (proc_at ps' i) =? p) ls = existsb (fun i => p_parent (proc_at ps i) =? p) ls).
  { induction ls as [|i ls IH]; intros Hls; [done|]. cbn [existsb]. rewrite H by (apply Hls; left). f_equal. apply IH. intros. apply Hls. by right. }
  apply Hl. intros i Hi%elem_of_seqZ. lia.
Qed.

Lemma parent_woke me c i x : p_parent (woke me c i x) = p_parent x.
Proof. unfold woke. by destruct (_ && _). Qed.

Lemma woke_woke me c i x : woke me c i (woke me c i x) = woke me c i x.
Proof.
  unfold woke. destruct (i =? me); cbn [negb andb]; [done|].
  destruct (bool_decide (p_state x = SLEEPING)) eqn:E; cbn [andb]; [|by rewrite E].
  destruct (p_chan x =? c) eqn:E2; cbn; [done|by rewrite E, E2].
Qed.

Lemma woke_adopt me c i init x : woke me c i (set_p_parent init x) = set_p_parent init (woke me c i x).
Proof. unfold woke. cbn. by destruct (_ && _). Qed.

(** The entries from [pp] on adopted, and init woken if there were any. *)
Definition reparented (me p init pp : Z) (kids : bool) (i : Z) x : proc :=
  let y := if pp <=? i then adopt p init x else x in
  if kids then woke me (chan_proc init) i y else y.

Lemma reparent_loop_run n pp p (s0 : st) ps k s :
  at_ s0 ps k s -> idle_table ps -> 0 <= pp -> pp + Z.of_nat n = NPROC -> initproc ps <> p ->
  exists s' ps', reparent_loop n pp p s = Ret tt s' /\ at_ s0 ps' k s' /\ idle_table ps' /\
    KernelProof.mapped (reparented (curp ps) p (initproc ps) pp (has_child p pp ps)) ps ps'.
Proof.
  revert pp ps s. induction n as [|n IH]; intros pp ps s Hat Hi Hpp Hn Hne; cbn [reparent_loop].
  { exists s, ps. split; [done|]. split; [done|]. split; [done|]. split; [by destruct ps|]. intros i Hir.
    unfold reparented, has_child. replace (NPROC - pp) with 0 by lia. cbn. destruct (Z.leb_spec pp i); [lia|done]. }
  assert (Hr : 0 <= pp < zlen (procs ps)) by (rewrite (it_len _ Hi); lia).
  erewrite bind_Ret by (by eapply run_getpr). rewrite has_child_step by lia.
  destruct (Z.eqb_spec (p_parent (proc_at ps pp)) p) as [Hp|Hp]; cbn [orb].
  - set (init := initproc ps). set (ps1 := upd_proc pp (set_p_parent init) ps).
    assert (Hi1 : idle_table ps1) by (apply idle_upd; [done|lia|by apply Hi; lia]).
    destruct (run_setpr pp (set_p_parent init) _ _ _ _ Hat) as (s1 & E1 & Hat1). fold ps1 in Hat1.
    destruct (wakeup_at (chan_proc init) _ _ _ _ Hat1 Hi1) as (s2 & ps2 & E2 & Hat2 & Hi2 & Hm2).
    erewrite bind_Ret.
    2: { unfold gets. erewrite bind_Ret by reflexivity. rewrite (at_proc _ _ _ _ Hat). fold init.
         erewrite bind_Ret by exact E1. exact E2. }
    change (curp ps1) with (curp ps) in Hm2. apply mapped_one in Hm2; [|done|lia]. destruct Hm2 as [Hr2 Ha2].
    assert (Hc2 : curp ps2 = curp ps) by (by rewrite Hr2). assert (Hn2 : initproc ps2 = init) by (by rewrite Hr2).
    destruct (IH (pp + 1) ps2 s2 Hat2 Hi2 ltac:(lia) ltac:(lia)) as (s' & ps' & E' & Hat' & Hi' & [Hr' Ha']); [by rewrite Hn2|].
    rewrite Hc2, Hn2 in Ha'. exists s', ps'. split; [done|]. split; [done|]. split; [done|]. split; [by rewrite Hr', Hr2|].
    intros i Hir. rewrite Ha', Ha2 by done. unfold reparented, adopt.
    destruct (Z.eqb_spec i pp) as [->|Hipp].
    + rewrite (proj2 (Z.leb_gt _ _)) by lia. rewrite (proj2 (Z.leb_le pp pp)) by lia. rewrite Hp, Z.eqb_refl.
      destruct (has_child p (pp + 1) ps2); [by rewrite woke_woke|done].
    + destruct (Z.leb_spec (pp + 1) i), (Z.leb_spec pp i); try lia.
      * rewrite parent_woke. destruct (p_parent (proc_at ps i) =? p); destruct (has_child p (pp + 1) ps2);
          rewrite ?woke_adopt, ?woke_woke; done.
      * destruct (has_child p (pp + 1) ps2); by rewrite ?woke_woke.
  - erewrite bind_Ret by reflexivity.
    destruct (IH (pp + 1) ps s Hat Hi ltac:(lia) ltac:(lia) Hne) as (s' & ps' & E' & Hat' & Hi' & [Hr' Ha']).
    exists s', ps'. split; [done|]. split; [done|]. split; [done|]. split; [done|]. intros i Hir. rewrite Ha' by done.
    unfold reparented, adopt. destruct (Z.leb_spec (pp + 1) i), (Z.leb_spec pp i); try lia; try done.
    replace i with pp by lia. by rewrite (proj2 (Z.eqb_neq _ _) Hp).
Qed.

(** ** exit() *)

(** What exit() does to entry [i] of the table [ps]: the children of the
    caller go to init, which is woken if there are any, the caller's parent is
    woken, and the caller is a zombie. *)
Definition exit_effect (status : Z) ps (i : Z) : proc :=
  let p := curp ps in
  let x := proc_at ps i in
  if i =? p then set_p_state ZOMBIE (set_p_xstate status x)
  else woke p (chan_proc (p_parent (running ps))) i (reparented p p (initproc ps) 0 (has_child p 0 ps) i x).

Lemma exit_zombie_run (s : st) status :
  let ps := kproc s in
  idle_table ps -> wait_lock ps = false -> initproc ps <> curp ps -> p_parent (running ps) <> curp ps ->
  exists s' ps', exit_zombie status s = Ret tt s' /\ at_ s ps' (umem (kfs s)) s' /\ idle_table ps' /\ wait_lock ps' = false /\
    curp ps' = curp ps /\ initproc ps' = initproc ps /\
    (forall i, 0 <= i < NPROC -> proc_at ps' i = exit_effect status ps i).
Proof.
  intros ps Hi Hw Hinit Hself. set (p := curp ps) in *. set (k := umem (kfs s)). assert (Hp : 0 <= p < NPROC) by apply Hi.
  unfold exit_zombie, myproc. erewrite bind_Ret by reflexivity. fold ps p.
  destruct (acquire_wait_run s _ _ _ (at_refl s) Hw) as (s1 & E1 & Hat1). erewrite bind_Ret by exact E1. fold ps k in Hat1.
  set (ps1 := set_wait_lock true ps) in *. assert (Hi1 : idle_table ps1) by (destruct Hi; by split).
  destruct (reparent_loop_run NPROCn 0 p s ps1 k s1 Hat1 Hi1 ltac:(lia) ltac:(done) Hinit) as (s2 & ps2 & E2 & Hat2 & Hi2 & [Hr2 Ha2]).
  unfold reparent. erewrite bind_Ret by exact E2. erewrite bind_Ret by (by eapply run_getpr).
  change (curp ps1) with p in Ha2. change (initproc ps1) with (initproc ps) in Ha2. change (has_child p 0 ps1) with (has_child p 0 ps) in Ha2.
  assert (Hme2 : proc_at ps2 p = running ps).
  { rewrite Ha2 by done. unfold reparented, adopt. change (proc_at ps1 p) with (running ps).
    rewrite (proj2 (Z.eqb_neq _ _) Hself). rewrite (proj2 (Z.leb_le 0 p)) by lia. destruct (has_child p 0 ps); by rewrite ?woke_me. }
  rewrite Hme2. assert (Hc2 : curp ps2 = p) by (by rewrite Hr2).
  destruct (wakeup_at (chan_proc (p_parent (running ps))) _ _ _ _ Hat2 Hi2) as (s3 & ps3 & E3 & Hat3 & Hi3 & [Hr3 Ha3]).
  erewrite bind_Ret by exact E3. rewrite Hc2 in Ha3.
  assert (Hr : 0 <= p < zlen (procs ps3)) by (by rewrite (it_len _ Hi3)).
  assert (Hw3 : wait_lock ps3 = true) by (by rewrite Hr3, Hr2). assert (Hc3 : curp ps3 = p) by (by rewrite Hr3).
  destruct (acquire_p_run p _ _ _ _ Hat3 (it_unlocked _ Hi3 p Hp)) as (s4 & E4 & Hat4). erewrite bind_Ret by exact E4.
  clear Hat1 Hat2 Hat3. do 2 setpr_step.
  destruct (release_wait_run _ _ _ _ Hat) as (s7 & E7 & Hat7); [done|]. erewrite bind_Ret by exact E7. clear Hat. rewrite set_wait_lock_upd in Hat7.
  unfold sched, myproc, mine. erewrite bind_Ret.
  2: { erewrite bind_Ret by reflexivity. erewrite bind_Ret by reflexivity. rewrite (at_proc _ _ _ _ Hat7). cbn [curp upd_proc set_procs set_wait_lock].
       rewrite Hc3, proc_at_upd_eq by done. reflexivity. }
  destruct (release_p_run p _ _ _ _ Hat7) as (s8 & E8 & Hat8); [by rewrite proc_at_upd_eq|]. rewrite upd_proc_upd in Hat8 by done.
  eexists s8, _. split; [exact E8|]. split; [exact Hat8|]. split; [|split; [done|split; [done|split]]].
  - apply idle_upd; [destruct Hi3; by split|done|done].
  - cbn. by rewrite Hr3, Hr2.
  - intros i Hir. unfold exit_effect. fold p. destruct (Z.eqb_spec i p) as [->|Hne].
    + rewrite proc_at_upd_eq by done. change (proc_at (set_wait_lock false ps3) p) with (proc_at ps3 p).
      rewrite Ha3, Hme2, woke_me by done. pose proof (it_unlocked _ Hi p Hp) as Hl. change (proc_at ps p) with (running ps) in *. clear -Hl.
      destruct (running ps). cbn in *. by subst.
    + rewrite proc_at_upd_ne by done. change (proc_at (set_wait_lock false ps3) i) with (proc_at ps3 i). by rewrite Ha3, Ha2.
Qed.

(** Nobody sleeps in wait() while a child of it is a zombie. *)
Definition no_missed_exit ps : Prop := forall p q, 0 <= p < NPROC -> 0 <= q < NPROC ->
  p_parent (proc_at ps q) = p -> p_state (proc_at ps q) = ZOMBIE ->
  ~ (p_state (proc_at ps p) = SLEEPING /\ p_chan (proc_at ps p) = chan_proc p).

Lemma woke_state me c i x : p_state (woke me c i x) = ZOMBIE -> p_state x = ZOMBIE.
Proof. unfold woke. by destruct (_ && _). Qed.

Lemma adopt_fields p init x : p_state (adopt p init x) = p_state x /\ p_chan (adopt p init x) = p_chan x.
Proof. unfold adopt. by destruct (_ =? _). Qed.

(** A process asleep after exit() was asleep before, on something else than
    what exit() wakes. *)
Lemma exit_asleep status ps i : i <> curp ps -> 0 <= i -> p_state (exit_effect status ps i) = SLEEPING ->
  p_state (proc_at ps i) = SLEEPING /\ p_chan (exit_effect status ps i) = p_chan (proc_at ps i) /\
  p_chan (proc_at ps i) <> chan_proc (p_parent (running ps)) /\
  (has_child (curp ps) 0 ps = true -> p_chan (proc_at ps i) <> chan_proc (initproc ps)).
Proof.
  intros Hne Hi0. unfold exit_effect. rewrite (proj2 (Z.eqb_neq _ _) Hne). intros H.
  apply woke_asleep in H as (H1 & H2 & H3); [|done]. rewrite H2. unfold reparented in *. rewrite (proj2 (Z.leb_le 0 i)) in * by done.
  destruct (adopt_fields (curp ps) (initproc ps) (proc_at ps i)) as [Hs Hc].
  destruct (has_child (curp ps) 0 ps).
  - apply woke_asleep in H1 as (H4 & H5 & H6); [|done]. rewrite H5 in *. rewrite Hs, Hc in *. by split_and!.
  - rewrite Hs, Hc in *. by split_and!.
Qed.

Lemma exit_parent status ps i : 0 <= i -> p_parent (exit_effect status ps i) =
  if decide (i <> curp ps /\ p_parent (proc_at ps i) = curp ps) then initproc ps else p_parent (proc_at ps i).
Proof.
  intros Hi. unfold exit_effect. destruct (Z.eqb_spec i (curp ps)) as [->|Hne]; [by rewrite decide_False by (by intros [? _])|].
  rewrite parent_woke. unfold reparented, adopt. rewrite (proj2 (Z.leb_le 0 i)) by done.
  destruct (Z.eqb_spec (p_parent (proc_at ps i)) (curp ps)) as [E|E].
  - rewrite decide_True by done. destruct (has_child _ _ _); by rewrite ?parent_woke.
  - rewrite decide_False by (by intros [_ ?]). destruct (has_child _ _ _); by rewrite ?parent_woke.
Qed.

Lemma exit_zombies status ps i : i <> curp ps -> p_state (exit_effect status ps i) = ZOMBIE -> p_state (proc_at ps i) = ZOMBIE.
Proof.
  intros Hne. unfold exit_effect. rewrite (proj2 (Z.eqb_neq _ _) Hne). intros H%woke_state. unfold reparented in H.
  destruct (adopt_fields (curp ps) (initproc ps) (proc_at ps i)) as [Hs _].
  destruct (has_child _ _ _); [apply woke_state in H|]; destruct (0 <=? i); by rewrite ?Hs in H.
Qed.

Lemma exit_no_missed status ps ps' : p_parent (running ps) <> curp ps -> no_missed_exit ps ->
  (forall i, 0 <= i < NPROC -> proc_at ps' i = exit_effect status ps i) -> no_missed_exit ps'.
Proof.
  intros Hself Hinv Heff p q Hp Hq Hpar Hz [Hs Hc]. rewrite Heff in * by done.
  destruct (decide (p = curp ps)) as [->|Hne].
  { unfold exit_effect in Hs. rewrite Z.eqb_refl in Hs. done. }
  destruct (exit_asleep status ps p Hne ltac:(lia) Hs) as (Hs0 & Hc0 & Hn1 & Hn2). rewrite Hc0 in Hc. rewrite exit_parent in Hpar by lia.
  destruct (decide (q = curp ps)) as [->|Hnq].
  { rewrite decide_False in Hpar by (by intros [? _]). apply Hn1. change (proc_at ps (curp ps)) with (running ps) in Hpar. by rewrite Hpar. }
  destruct (decide (q <> curp ps /\ p_parent (proc_at ps q) = curp ps)) as [[_ Hk]|Hk].
  - apply Hn2; [|by rewrite Hpar]. apply has_child_spec. eauto.
  - apply (Hinv p q Hp Hq Hpar); [by eapply exit_zombies|done].
Qed.

(** C14: exit() from the point where it takes wait_lock.  The caller becomes
    a zombie with its status, its children become children of init, its
    parent and, if there were children, init are woken if they wait; nothing
    else in the table changes.  If no process was asleep in wait() with a
    zombie child before, none is afterwards. *)
Theorem exit_correct (s : st) (status : Z) :
  let ps := kproc s in
  idle_table ps -> wait_lock ps = false -> initproc ps <> curp ps -> p_parent (running ps) <> curp ps ->
  exists s' ps', exit_zombie status s = Ret tt s' /\ at_ s ps' (umem (kfs s)) s' /\ idle_table ps' /\ wait_lock ps' = false /\
    (forall i, 0 <= i < NPROC -> proc_at ps' i = exit_effect status ps i) /\
    (no_missed_exit ps -> no_missed_exit ps').
Proof.
  intros ps Hi Hw Hinit Hself. destruct (exit_zombie_run s status Hi Hw Hinit Hself) as (s' & ps' & E & Hat & Hi' & Hw' & _ & _ & Heff).
  exists s', ps'. do 5 (split; [done|]). intros Hinv. by eapply exit_no_missed.
Qed.
End ExitProof.

(** The sample process with another one as init. *)
Definition exit_sample : kst Log.lst := set_kproc (set_initproc 1 OneProc.family) OneProc.home.

Lemma exit_correct_witness :
  exists s' ps', exit_zombie 3 exit_sample = Ret tt s' /\ at_ exit_sample ps' (umem (kfs exit_sample)) s' /\ idle_table ps' /\ wait_lock ps' = false /\
    (forall i, 0 <= i < NPROC -> proc_at ps' i = exit_effect 3 (kproc exit_sample) i) /\
    (no_missed_exit (kproc exit_sample) -> no_missed_exit ps').
Proof.
  apply (exit_correct exit_sample 3); [|reflexivity|discriminate|discriminate].
  pose proof OneProc.family_idle as [H1 H2 H3]. split; [exact H1|exact H2|exact H3].
Defined.
