(* ===== verification/Exec.v ===== *)
(** * System call arguments and exec (kernel/syscall.c, kernel/exec.c, kernel/elf.h) *)

From Stdlib Require Import ZArith Lia.
From stdpp Require Import base numbers list list_numbers gmap strings sorting.
From S2P Require Import Prelude Cstring Riscv Kalloc Vm Uvm Bytes Sleeplock Bio Log Store Fs Kernel Console File Proc.

(** ** elf.h *)

Definition ELF_MAGIC : Z := 0x464C457F.
Definition ELF_PROG_LOAD : Z := 1.
Definition sizeof_elfhdr : Z := 64.
Definition sizeof_proghdr : Z := 56.

Definition get64 (d : list Z) (o : Z) : Z := get32 d o + 2 ^ 32 * get32 d (o + 4).

(** struct elfhdr, the fields exec() uses. *)
Definition elf_magic (d : list Z) : Z := get32 d 0.
Definition elf_entry (d : list Z) : Z := get64 d 24.
Definition elf_phoff (d : list Z) : Z := get64 d 32.
Definition elf_phnum (d : list Z) : Z := get16 d 56.

(** struct proghdr. *)
Record proghdr := Proghdr {
  ph_type : Z; ph_flags : Z; ph_off : Z; ph_vaddr : Z; ph_filesz : Z; ph_memsz : Z
}.
Definition proghdr_of (d : list Z) : proghdr :=
  Proghdr (get32 d 0) (get32 d 4) (get64 d 8) (get64 d 16) (get64 d 32) (get64 d 40).

Definition flags2perm (flags : Z) : Z :=
  let perm := if negb (Z.land flags 1 =? 0) then PTE_X else 0 in
  if negb (Z.land flags 2 =? 0) then Z.lor perm PTE_W else perm.

Section Exec.
Context {S : Type} {ops : BlockOps S}.
Context (kend trampoline forkret : Z).
Notation st := (kst S).

(** ** syscall.c: fetching arguments *)

Definition fetchaddr (addr : Z) : M st (option Z) :=
  let* sz := mine p_sz in
  if (sz <=? addr) || (sz <? u64 (addr + 8)) then ret None
  else
    let* r := ucopyin addr 8 in
    if negb (fst r =? 0) then ret None else ret (Some (get64 (snd r) 0)).

(** The length and the bytes of buf[], -1 on error. *)
Definition fetchstr (addr max : Z) : M st (Z * list Z) :=
  let* root := mine p_pagetable in
  let* r := on_mem (copyinstr root addr max) in
  if fst r <? 0 then ret (-1, snd r) else ret (strlen (snd r), snd r).

Definition argraw (n : Z) : M st Z :=
  let* p := myproc in
  if n =? 0 then tf_get p tf_a0
  else if n =? 1 then tf_get p tf_a1
  else if n =? 2 then tf_get p tf_a2
  else if n =? 3 then tf_get p tf_a3
  else if n =? 4 then tf_get p tf_a4
  else if n =? 5 then tf_get p tf_a5
  else panic "argraw".

Definition argint (n : Z) : M st Z := let* v := argraw n in ret (s32 v).
Definition argaddr (n : Z) : M st Z := argraw n.
Definition argstr (n max : Z) : M st (Z * list Z) := let* addr := argaddr n in fetchstr addr max.

(** ** exec.c *)

(** loadseg()'s loop; [offset] and [sz] are uint. *)
Fixpoint loadseg_loop (fuel : nat) (pagetable va ip offset sz i : Z) : M st Z :=
  if i <? sz then
    match fuel with
    | O => panic "loadseg: fuel"
    | Datatypes.S k =>
        let* pa := on_mem (walkaddr pagetable (u64 (va + i))) in
        if pa =? 0 then panic "loadseg: address should exist"
        else
          let n := if u32 (sz - i) <? PGSIZE then u32 (sz - i) else PGSIZE in
          let* r := on_fs (readi ip (KernDst pa) (u32 (offset + i)) n) in
          if negb (u32 (fst r) =? n) then ret (-1)
          else loadseg_loop k pagetable va ip offset sz (u32 (i + PGSIZE))
    end
  else ret 0.
Definition loadseg (pagetable va ip offset sz : Z) : M st Z :=
  loadseg_loop (Z.to_nat (sz / PGSIZE + 1)) pagetable va ip offset sz 0.

(** The segments of the program from header [i], at [off]: the size so far,
    and whether all went well. *)
Fixpoint exec_segments (n : nat) (pagetable ip off sz : Z) : M st (bool * Z) :=
  match n with
  | O => ret (true, sz)
  | Datatypes.S k =>
      let* r := on_fs (readi ip KernVar (u32 off) sizeof_proghdr) in
      if negb (fst r =? sizeof_proghdr) then ret (false, sz)
      else
        let ph := proghdr_of (snd r) in
        let off' := s32 (off + sizeof_proghdr) in
        if negb (ph_type ph =? ELF_PROG_LOAD) then exec_segments k pagetable ip off' sz
        else if ph_memsz ph <? ph_filesz ph then ret (false, sz)
        else if u64 (ph_vaddr ph + ph_memsz ph) <? ph_vaddr ph then ret (false, sz)
        else if negb (ph_vaddr ph mod PGSIZE =? 0) then ret (false, sz)
        else
          let* sz1 := on_mem (uvmalloc kend pagetable sz (u64 (ph_vaddr ph + ph_memsz ph)) (flags2perm (ph_flags ph))) in
          if sz1 =? 0 then ret (false, sz)
          else
            let* r := loadseg pagetable (ph_vaddr ph) ip (u32 (ph_off ph)) (u32 (ph_filesz ph)) in
            if r <? 0 then ret (false, sz1) else exec_segments k pagetable ip off' sz1
  end.

(** The argument strings from argv[argc] on, each argv[] entry the address of
    a page that holds a string: the stack pointer and the user addresses, or
    [None] for goto bad. *)
Fixpoint exec_args (argv : list Z) (pagetable sp stackbase argc : Z) (ustack : list Z) : M st (option (Z * list Z)) :=
  match argv with
  | [] => ret (Some (sp, ustack))
  | a :: argv' =>
      if a =? 0 then ret (Some (sp, ustack))
      else if MAXARG <=? argc then ret None
      else
        let* page := on_mem (k_read a PGSIZE) in
        let len := strlen page + 1 in
        let sp := u64 (sp - len) in
        let sp := sp - sp mod 16 in
        if sp <? stackbase then ret None
        else
          let* r := on_mem (copyout pagetable sp (take (Z.to_nat len) page)) in
          if r <? 0 then ret None
          else exec_args argv' pagetable sp stackbase (argc + 1) (ustack ++ [sp])
  end.

(** The name behind the last slash of a path. *)
Fixpoint last_elem (last s : list Z) : list Z :=
  match s with
  | [] => last
  | c :: s' => if c =? 0 then last else last_elem (if c =? SLASH then s' else last) s'
  end.

(** bad: with the inode still locked, or already released ([ip] = NULL). *)
Definition exec_bad (pagetable sz ip : Z) : M st Z :=
  (if negb (pagetable =? 0) then proc_freepagetable kend pagetable sz else ret tt) ;;
  (if negb (ip =? NULL) then on_fs (iunlockput ip) ;; end_op_ else ret tt) ;;
  ret (-1).

(** The commit to the new image. *)
Definition exec_commit (path : list Z) (entry pagetable sz oldsz sp argc : Z) : M st Z :=
  let* p := myproc in
  tf_set p tf_a1 sp ;;
  setpr p (set_name (last_elem path path)) ;;
  let* oldpagetable := mine p_pagetable in
  setpr p (set_p_pagetable pagetable) ;;
  setpr p (set_p_sz sz) ;;
  tf_set p tf_epc entry ;;
  tf_set p tf_sp sp ;;
  proc_freepagetable kend oldpagetable oldsz ;;
  ret argc.

(** The rest of exec() once the program is loaded. *)
Definition exec_stack (path argv : list Z) (entry pagetable sz : Z) : M st Z :=
  let* oldsz := mine p_sz in
  let sz := PGROUNDUP sz in
  let* sz1 := on_mem (uvmalloc kend pagetable sz (u64 (sz + 2 * PGSIZE)) PTE_W) in
  if sz1 =? 0 then exec_bad pagetable sz NULL
  else
    let sz := sz1 in
    on_mem (uvmclear pagetable (sz - 2 * PGSIZE)) ;;
    let stackbase := sz - PGSIZE in
    let* a := exec_args argv pagetable sz stackbase 0 [] in
    match a with
    | None => exec_bad pagetable sz NULL
    | Some (sp, ustack) =>
        let argc := zlen ustack in
        let sp := u64 (sp - (argc + 1) * 8) in
        let sp := sp - sp mod 16 in
        if sp <? stackbase then exec_bad pagetable sz NULL
        else
          let* r := on_mem (copyout pagetable sp (concat (map (le_bytes 8) (ustack ++ [0])))) in
          if r <? 0 then exec_bad pagetable sz NULL
          else
            exec_commit path entry pagetable sz oldsz sp argc
    end.

Definition exec (path argv : list Z) : M st Z :=
  let* p := myproc in
  begin_op_ ;;
  let* ip := on_fs (namei path) in
  if ip =? NULL then end_op_ ;; ret (-1)
  else
    on_fs (ilock ip) ;;
    let* r := on_fs (readi ip KernVar 0 sizeof_elfhdr) in
    let elf := snd r in
    if negb (fst r =? sizeof_elfhdr) then exec_bad 0 0 ip
    else if negb (elf_magic elf =? ELF_MAGIC) then exec_bad 0 0 ip
    else
      let* pagetable := proc_pagetable kend trampoline p in
      if pagetable =? 0 then exec_bad 0 0 ip
      else
        let* r := exec_segments (Z.to_nat (elf_phnum elf)) pagetable ip (s32 (elf_phoff elf)) 0 in
        if negb (fst r) then exec_bad pagetable (snd r) ip
        else
          on_fs (iunlockput ip) ;;
          end_op_ ;;
          exec_stack path argv (elf_entry elf) pagetable (snd r).
End Exec.
