(* ===== verification/ExecProof.v ===== *)
(** * kernel/exec.c: the stack of a new program

    What exec() does once the segments are loaded: the guard page, the
    argument strings and the array of pointers to them, the commit to the new
    image, and the way back when something does not fit. *)

From Stdlib Require Import ZArith Lia.
From stdpp Require Import base numbers list list_numbers gmap strings sorting.
From S2P Require Import Prelude Cstring Riscv Kalloc Vm PageTable Uvm UvmFree AddrSpace UvmCopy Ucopy Bytes Sleeplock Bio Log Store Fs Kernel KernelProof Console File Proc ProcMem ProcSample ForkProof GrowProof WaitProof PipeProof Exec.

(** ** Changing the user's rights and bytes in an address space *)

Section Space.
Context (kend : Z).
Hypothesis Hkend : KERNBASE <= kend.
Notation page_ok := (page_ok kend).
Notation uspace := (uspace kend).

(** An entry without PTE_U. *)
Definition no_user (e : Z) : Z := Z.land e (u64 (Z.lnot PTE_U)).

Lemma no_user_bit e i : 0 <= i < 64 -> Z.testbit (no_user e) i = Z.testbit e i && negb (i =? 4).
Proof.
  intros Hi. unfold no_user, u64. rewrite Z.land_spec, Z.mod_pow2_bits_low by lia. rewrite Z.lnot_spec by lia. f_equal. f_equal.
  unfold PTE_U. rewrite Z.shiftl_1_l, Z.pow2_bits_eqb by lia. by rewrite Z.eqb_sym.
Qed.

Lemma no_user_has e i : 0 <= i < 64 -> has (no_user e) (Z.shiftl 1 i) = has e (Z.shiftl 1 i) && negb (i =? 4).
Proof. intros Hi. rewrite !has_pow2 by lia. by apply no_user_bit. Qed.

Lemma no_user_pa e : PTE2PA (no_user e) = PTE2PA e.
Proof.
  unfold PTE2PA, u64. apply Z.bits_inj'. intros i Hi. destruct (decide (i < 64)).
  - rewrite !Z.mod_pow2_bits_low, !Z.shiftl_spec by lia. destruct (decide (i < 12)); [by rewrite !Z.testbit_neg_r by lia|].
    rewrite !Z.shiftr_spec, no_user_bit by lia. destruct (Z.eqb_spec (i - 12 + 10) 4); [lia|]. apply andb_true_r.
  - by rewrite !Z.mod_pow2_bits_high by lia.
Qed.

Lemma no_user_u64 e : u64 (no_user e) = no_user e.
Proof.
  apply Z.bits_inj'. intros i Hi. destruct (decide (i < 64)); [unfold u64; by rewrite Z.mod_pow2_bits_low by lia|].
  unfold no_user, u64. rewrite Z.mod_pow2_bits_high, Z.land_spec, (Z.mod_pow2_bits_high (Z.lnot PTE_U)) by lia. by rewrite andb_false_r.
Qed.

(** An entry that stays a leaf without PTE_U. *)
Lemma no_user_leaf e : has e PTE_V = true -> has e PTE_R = true ->
  has (no_user e) PTE_V = true /\ PTE_FLAGS (no_user e) <> PTE_V /\ user_leaf (no_user e) = false.
Proof.
  intros Hv Hr. unfold PTE_V in Hv. unfold PTE_R in Hr. split; [unfold PTE_V; by rewrite no_user_has, Hv by lia|]. split.
  - intros E. apply (f_equal (fun z => Z.testbit z 1)) in E. unfold PTE_FLAGS in E. rewrite Z.land_spec, no_user_bit in E by lia.
    rewrite has_pow2 in Hr by lia. rewrite Hr in E. by vm_compute in E.
  - unfold user_leaf, PTE_U. rewrite (no_user_has e 4) by lia. by rewrite !andb_false_r.
Qed.

(** uvmclear() takes a page away from the user and changes nothing else. *)
Lemma uvmclear_spec s root n va extra l :
  uspace s root n extra l -> va mod 4096 = 0 -> 0 <= va < 4096 * Z.of_nat n -> has (leaf (phys s) root va) PTE_R = true ->
  exists s', uvmclear root va s = Ret tt s' /\ uspace s' root n extra l /\ moved s root n l s' n l /\
    (forall w, 0 <= w < MAXVA -> leaf (phys s') root w = if decide (w / 4096 = va / 4096) then no_user (leaf (phys s) root va) else leaf (phys s) root w) /\
    (forall a, (forall p, p ∈ tp 2 (phys s) root -> ~ in_page p a) -> load8 (phys s') a = load8 (phys s) a).
Proof.
  intros Hu Ha Hva Hr. pose proof Hu as [Hwf Ht Hfit Hmap Hown Hok Hex Hdis Hrest]. change TRAPFRAME with 274877898752 in *.
  assert (HMX : MAXVA = 274877906944) by done. assert (Hva' : 0 <= va < MAXVA) by lia.
  destruct (Hmap (va / 4096)) as [Hv Hfl]; [Z.div_mod_to_equations; lia|]. replace (0 + 4096 * (va / 4096)) with va in * by (Z.div_mod_to_equations; lia).
  destruct (wk 2 (phys s) root va) as [pte|] eqn:Hpte; [|unfold leaf, leaf_at in Hv; by rewrite Hpte, has_0 in Hv].
  assert (Hpe : load64 (phys s) pte = leaf (phys s) root va) by (unfold leaf, leaf_at; by rewrite Hpte).
  destruct (leaf_page kend s root va pte l Hwf Hpte) as (p & Hp & Hpok & Hpa). pose proof (page_ok_pos kend Hkend p Hpok). pose proof (PX_range 0 va).
  set (e := no_user (leaf (phys s) root va)). destruct (no_user_leaf _ Hv Hr) as (Hv1 & Hf1 & _). fold e in Hv1, Hf1.
  assert (He : u64 e = e) by apply no_user_u64.
  set (s' := set_phys (store64 (phys s) pte e) s). exists s'.
  assert (Hl : forall w, 0 <= w < MAXVA -> leaf (phys s') root w = if decide (w / 4096 = va / 4096) then e else leaf (phys s) root w).
  { intros w Hw. unfold s'. rewrite (set_leaf_leaf kend s root va pte e l Hwf Hva' Hpte w Hw), He. done. }
  assert (Hpg : forall w, 0 <= w < MAXVA -> PTE2PA (leaf (phys s') root w) = PTE2PA (leaf (phys s) root w)).
  { intros w Hw. rewrite Hl by done. case_decide as Ew; [|done]. unfold e. rewrite no_user_pa. f_equal. unfold leaf, leaf_at. by rewrite (wk_same_page _ _ _ _ _ Ew). }
  assert (Htp : tp 2 (phys s') root = tp 2 (phys s) root) by (by eapply set_leaf_tp).
  assert (Hup : upages (phys s') root n = upages (phys s) root n).
  { unfold upages. apply at_pages_ext. intros i Hi. apply Hpg. lia. }
  assert (Hm : forall a, (forall p, p ∈ tp 2 (phys s) root -> ~ in_page p a) -> load8 (phys s') a = load8 (phys s) a).
  { intros a Hq. apply load8_store64_out. intros Hin. apply (Hq p); [by apply lp_tp|]. unfold in_page. lia. }
  split; [|split; [|split; [|done]]].
  - unfold uvmclear. erewrite bind_Ret by (by apply walk_lookup). rewrite Hpte. destruct (Z.eqb_spec pte 0); [lia|].
    erewrite bind_Ret by reflexivity. by rewrite Hpe.
  - split; try done; unfold owns; rewrite ?Hup, ?Htp; try done.
    + by eapply set_leaf_ptwf.
    + eapply tidy_frame; [|exact Ht]. by eapply set_leaf_interior.
    + intros i Hi. rewrite Hl by lia. case_decide; [done|]. by apply Hmap.
    + intros w Hw. destruct (Hex w Hw) as (Hwa & Hwr & Hwv). split; [done|]. split; [done|]. rewrite Hl by lia.
      rewrite decide_False; [done|]. revert Hwr Hva Hfit. clear. intros. Z.div_mod_to_equations. lia.
    + intros w Hw Hni. rewrite Hl by lia. rewrite decide_False; [by apply Hrest|]. revert Hw Hva. clear. intros. Z.div_mod_to_equations. lia.
  - split; [unfold owns; by rewrite Hup, Htp|]. intros a Hq. apply Hm. intros q Hin. apply Hq. unfold owns. rewrite !elem_of_app. auto.
Qed.

(** The user reads [bs] at [va]. *)
Definition reads (m : mem) (root va : Z) (bs : list Z) : Prop := forall i, 0 <= i < zlen bs -> ubyte m root (va + i) = Some (nthZ 0 bs i).

(** copyout() to mapped addresses of page [n0] and above. *)
Lemma copyout_space s root n n0 extra l va src :
  uspace s root n extra l -> 4096 * Z.of_nat n0 <= va < 2 ^ 64 -> Forall (fun b => 0 <= b < 256) src ->
  (forall i, 0 <= i < zlen src -> uaddr (phys s) root (va + i) <> None) ->
  exists s', copyout root va src s = Ret 0 s' /\ uspace s' root n extra l /\ moved s root n l s' n l /\
    (forall w, leaf (phys s') root w = leaf (phys s) root w) /\ ((n0 <= n)%nat -> keeps root n0 (phys s) (phys s')) /\
    (forall w, ubyte (phys s') root w = if decide (va <= w < va + zlen src) then Some (nthZ 0 src (w - va)) else ubyte (phys s) root w).
Proof.
  intros Hu Hva Hb Hmap. destruct (copyout_spec kend Hkend s root va src l (uspace_uview kend _ _ _ _ _ Hu)) as (r & s' & E & (Hwf' & _) & Hl & Hm & Hr); [lia|].
  destruct Hr as [[-> Hr]|(_ & i & Hi & Hn)]; [|by apply Hmap in Hn].
  assert (Hout : forall a, (forall q, q ∈ upages (phys s) root n -> ~ in_page q a) -> load8 (phys s') a = load8 (phys s) a).
  { intros a Hq. apply Hm. intros i Hi Ha. destruct (uaddr_page kend _ _ _ _ _ _ _ Hu Ha) as (q & Hq' & Hin). by apply (Hq q). }
  destruct (uspace_frame kend s s' root n extra l l Hu (proj1 Hwf')) as (Hu' & Hup & Htp & _); [|apply Hu|].
  { intros q a Hq Ha. apply Hout. intros q' Hq'. apply (page_not_self kend q q' a); [eapply owns_ok; [exact Hu|]|eapply owns_ok; [exact Hu|]| |done];
      unfold owns; rewrite ?elem_of_app; [by right; left|by left|]. intros ->. eapply (owns_split kend); [exact Hu| |exact Hq']. apply elem_of_app. by left. }
  exists s'. split; [done|]. split; [done|]. split; [split; [unfold owns; by rewrite Hup, Htp|]|].
  { intros a Ha. apply Hout. intros q Hq. apply Ha. unfold owns. rewrite elem_of_app. by left. }
  split; [done|]. split.
  - intros Hle. split; [intros; apply Hl|]. intros q a Hq Ha. apply Hm. intros i Hi Hai.
    apply elem_of_upages in Hq as (j & Hj & ->). unfold uaddr in Hai. destruct (bool_decide_reflect (0 <= va + i < MAXVA)) as [Hr0|]; [|done].
    destruct (user_leaf (leaf (phys s) root (va + i))) eqn:Hul; [|done]. cbn in Hai. apply (inj Some) in Hai.
    pose proof (user_low kend _ _ _ _ _ _ Hu Hr0 Hul) as Hlow. pose proof (Z.mod_pos_bound (va + i) 4096 ltac:(lia)).
    assert (Hpg : forall w, 0 <= w < 4096 * Z.of_nat n -> page_ok (PTE2PA (leaf (phys s) root w))).
    { intros w Hw. eapply owns_ok; [exact Hu|]. unfold owns. rewrite elem_of_app. left. by apply upages_at. }
    assert (Ep : PTE2PA (leaf (phys s) root (4096 * j)) = PTE2PA (leaf (phys s) root (va + i))).
    { apply (page_disjoint kend _ _ a); [apply Hpg; lia|apply Hpg; lia|done|unfold in_page; lia]. }
    apply (upages_inj kend s root n extra l) in Ep; [|done|lia|lia]. Z.div_mod_to_equations. lia.
  - intros w. rewrite Hr. case_decide; [|done]. f_equal. apply u8_small. rewrite Forall_forall in Hb. apply Hb.
    unfold nthZ. destruct (Z.ltb_spec (w - va) 0); [lia|]. apply list_elem_of_In, nth_In. unfold zlen in *. lia.
Qed.

(** The guard page and the stack page above the program's [n] pages. *)
Definition guarded (m : mem) (pt : Z) (n : nat) : Prop :=
  (forall w, 4096 * Z.of_nat n <= w < 4096 * Z.of_nat n + 4096 -> uaddr m pt w = None) /\
  (forall w, 4096 * Z.of_nat n + 4096 <= w < 4096 * Z.of_nat n + 8192 -> uaddr m pt w <> None).

Lemma fresh_leaf root n n' xperm m w : fresh root n n' (Z.lor (Z.lor PTE_R PTE_U) xperm) m -> 4096 * Z.of_nat n <= w < 4096 * Z.of_nat n' ->
  user_leaf (leaf m root w) = true /\ has (leaf m root w) PTE_R = true.
Proof.
  intros Hf Hw. destruct (Hf (w / 4096)) as (p & Hp & _); [Z.div_mod_to_equations; lia|]. rewrite Z.mul_comm, leaf_base in Hp. rewrite Hp.
  assert (Hb : forall i, Z.testbit (Z.lor (Z.lor (Z.lor PTE_R PTE_U) xperm) PTE_V) i = true -> 0 <= i -> has (map_pte p (Z.lor (Z.lor PTE_R PTE_U) xperm)) (Z.shiftl 1 i) = true).
  { intros i Hi Hi0. rewrite has_pow2 by done. unfold map_pte. rewrite <- Z.lor_assoc, Z.lor_spec, Hi. apply orb_true_r. }
  assert (Hbit : forall i, i = 0 \/ i = 1 \/ i = 4 -> Z.testbit (Z.lor (Z.lor (Z.lor PTE_R PTE_U) xperm) PTE_V) i = true).
  { intros i Hi. rewrite !Z.lor_spec. destruct Hi as [->|[->| ->]]; destruct (Z.testbit xperm _); reflexivity. }
  split; [|exact (Hb 1 (Hbit 1 ltac:(tauto)) ltac:(lia))]. apply andb_true_iff.
  split; [exact (Hb 0 (Hbit 0 ltac:(tauto)) ltac:(lia))|exact (Hb 4 (Hbit 4 ltac:(tauto)) ltac:(lia))].
Qed.

(** uvmclear() on the first of two new pages. *)
Lemma guard_page k pt n l : uspace k pt (n + 2) extra l -> fresh pt n (n + 2) (Z.lor (Z.lor PTE_R PTE_U) PTE_W) (phys k) ->
  exists k', uvmclear pt (4096 * Z.of_nat n) k = Ret tt k' /\ uspace k' pt (n + 2) extra l /\ moved k pt (n + 2) l k' (n + 2) l /\
    keeps pt n (phys k) (phys k') /\ guarded (phys k') pt n.
Proof.
  intros Hu Hf. pose proof (us_fit _ _ _ _ _ _ Hu) as Hfit. change TRAPFRAME with 274877898752 in Hfit. assert (HMX : MAXVA = 274877906944) by done.
  destruct (uvmclear_spec k pt (n + 2) (4096 * Z.of_nat n) extra l Hu) as (k' & E & Hu' & Hmv & Hl & Hm); [Z.div_mod_to_equations; lia|lia|by eapply fresh_leaf; [exact Hf|lia]|].
  exists k'. split; [done|]. split; [done|]. split; [done|]. split; [split|split].
  - intros w Hw. rewrite Hl by lia. rewrite decide_False; [done|]. Z.div_mod_to_equations. lia.
  - intros q a Hq Ha. apply Hm. intros p Hp. apply elem_of_upages in Hq as (i & Hi & ->).
    assert (Hin : PTE2PA (leaf (phys k) pt (4096 * i)) ∈ upages (phys k) pt (n + 2)) by (apply upages_at; lia).
    apply (page_not_self kend (PTE2PA (leaf (phys k) pt (4096 * i))) p a); [| | |done].
    + eapply owns_ok; [exact Hu|]. unfold owns. rewrite elem_of_app. by left.
    + eapply owns_ok; [exact Hu|]. unfold owns. rewrite !elem_of_app. by right; left.
    + intros E'. eapply (owns_split kend); [exact Hu| |exact Hin]. rewrite E'. apply elem_of_app. by left.
  - intros w Hw. unfold uaddr. rewrite Hl by lia. rewrite decide_True by (Z.div_mod_to_equations; lia).
    destruct (fresh_leaf pt n (n + 2) PTE_W (phys k) (4096 * Z.of_nat n) Hf ltac:(lia)) as [Hul Hr]. unfold user_leaf in Hul. apply andb_true_iff in Hul as [Hv _].
    destruct (no_user_leaf _ Hv Hr) as (_ & _ & ->). by rewrite andb_false_r.
  - intros w Hw. unfold uaddr. rewrite Hl by lia. rewrite decide_False by (Z.div_mod_to_equations; lia).
    destruct (fresh_leaf pt n (n + 2) PTE_W (phys k) w Hf ltac:(lia)) as [-> _]. by rewrite bool_decide_eq_true_2 by lia.
Qed.

(** uvmalloc() and uvmclear() for the stack. *)
Lemma stack_pages k pt n l : uspace k pt n extra l ->
  exists r k1, uvmalloc kend pt (4096 * Z.of_nat n) (4096 * Z.of_nat n + 8192) PTE_W k = Ret r k1 /\
    ((r = 0 /\ (length l <= 6)%nat /\ exists l', uspace k1 pt n extra l' /\ moved k pt n l k1 n l') \/
     (r = 4096 * Z.of_nat n + 8192 /\ exists k2 l', uvmclear pt (4096 * Z.of_nat n) k1 = Ret tt k2 /\ uspace k2 pt (n + 2) extra l' /\
        moved k pt n l k2 (n + 2) l' /\ keeps pt n (phys k) (phys k2) /\ guarded (phys k2) pt n)).
Proof.
  intros Hu. pose proof (uspace_bound kend Hkend _ _ _ _ _ Hu) as Hb.
  assert (Hp : pgs (4096 * Z.of_nat n + 8192) = (n + 2)%nat) by (rewrite <- (pgs_mul (n + 2)); f_equal; lia).
  destruct (uvmalloc_spec kend Hkend k pt (4096 * Z.of_nat n) (4096 * Z.of_nat n + 8192) PTE_W extra l) as (r & k1 & E & n' & l' & Hu' & Hmv & _ & Hr).
  { by rewrite pgs_mul. } { lia. } { change (2 ^ 64) with 18446744073709551616. lia. } { done. }
  rewrite pgs_mul, Hp in *. exists r, k1. split; [done|]. destruct Hr as [(-> & -> & Hk & Hf & _)|(-> & -> & Hlen)]; [right|left].
  - rewrite Nat.max_r in * by lia. split; [done|]. destruct (guard_page k1 pt n l' Hu' Hf) as (k2 & E2 & Hu2 & Hmv2 & Hk2 & Hg).
    exists k2, l'. split; [done|]. split; [done|]. split; [by eapply moved_trans|]. split; [by eapply keeps_trans|done].
  - split; [done|]. split; [lia|]. by exists l'.
Qed.
End Space.

(** ** The layout of the stack *)

(** Room for [n] bytes below [sp], aligned. *)
Definition push (sp n : Z) : Z := sp - n - (sp - n) mod 16.

(** Where the strings go, and the lowest of them. *)
Fixpoint tops (sp : Z) (args : list (list Z)) : list Z :=
  match args with [] => [] | bs :: args' => push sp (zlen bs + 1) :: tops (push sp (zlen bs + 1)) args' end.
Fixpoint bottom (sp : Z) (args : list (list Z)) : Z :=
  match args with [] => sp | bs :: args' => bottom (push sp (zlen bs + 1)) args' end.

(** The array of pointers, below the strings. *)
Definition argv_at (top : Z) (args : list (list Z)) : Z := push (bottom top args) (8 * (zlen args + 1)).
Definition argv_bytes (top : Z) (args : list (list Z)) : list Z := concat (map (le_bytes 8) (tops top args ++ [0])).

(** Everything lies above [base]. *)
Definition fits (base top : Z) (args : list (list Z)) : Prop :=
  Forall (fun t => base <= t) (tops top args) /\ base <= argv_at top args.

(** A page with a string, as sys_exec() fills it. *)
Definition str_page (m : mem) (a : Z) (bs : list Z) : Prop := 0 ∉ bs /\ exists rest, loadn m a 4096 = bs ++ 0 :: rest.

Lemma push_le sp n : 0 <= n -> sp - n - 15 <= push sp n <= sp - n.
Proof. intros. unfold push. pose proof (Z.mod_pos_bound (sp - n) 16). lia. Qed.

Lemma bottom_le args sp : bottom sp args <= sp.
Proof.
  revert sp. induction args as [|bs args IH]; intros sp; cbn; [lia|]. pose proof (push_le sp (zlen bs + 1)). pose proof (zlen_nonneg bs).
  pose proof (IH (push sp (zlen bs + 1))). lia.
Qed.

Lemma zlen_tops args sp : zlen (tops sp args) = zlen args.
Proof. revert sp. induction args as [|bs args IH]; intros sp; cbn [tops]; [done|]. by rewrite !zlen_cons, IH. Qed.

Lemma bottom_ge base args sp : base <= sp -> Forall (fun t => base <= t) (tops sp args) -> base <= bottom sp args.
Proof. revert sp. induction args as [|bs args IH]; intros sp Hb Hf; cbn in *; [done|]. apply Forall_cons in Hf as [? ?]. by apply IH. Qed.

Lemma strlen_app bs rest : 0 ∉ bs -> strlen (bs ++ 0 :: rest) = zlen bs.
Proof.
  induction bs as [|b bs IH]; intros Hn; [done|]. apply not_elem_of_cons in Hn as [Hb Hn]. cbn [app strlen]. destruct (Z.eqb_spec b 0); [congruence|].
  rewrite IH by done. rewrite zlen_cons. lia.
Qed.

Lemma str_page_bytes m a bs : str_page m a bs -> strlen (loadn m a 4096) = zlen bs /\ take (Z.to_nat (zlen bs + 1)) (loadn m a 4096) = bs ++ [0] /\
  Forall (fun b => 0 <= b < 256) (bs ++ [0]) /\ zlen bs < 4096.
Proof.
  intros [Hn (rest & E)]. assert (Hlen : length (loadn m a 4096) = 4096%nat) by apply length_loadn.
  assert (Hall : Forall (fun b => 0 <= b < 256) (loadn m a 4096)).
  { apply Forall_lookup. intros i b Hi. pose proof (lookup_lt_Some _ _ _ Hi) as Hlt. rewrite Hlen in Hlt. rewrite lookup_loadn in Hi by done. injection Hi as <-. apply load8_range. }
  rewrite E in *. rewrite strlen_app by done. split; [done|].
  replace (bs ++ 0 :: rest) with ((bs ++ [0]) ++ rest) in * by (by rewrite <- app_assoc). split; [|split].
  - apply take_app_length'. rewrite length_app. unfold zlen. cbn [length]. lia.
  - by apply Forall_app in Hall as [? _].
  - rewrite !length_app in Hlen. cbn [length] in Hlen. unfold zlen. lia.
Qed.

Section ExecProof.
Context {S : Type} {ops : BlockOps S}.
Context (kend : Z).
Hypothesis Hkend : KERNBASE <= kend.
Notation st := (kst S).
Notation page_ok := (page_ok kend).
Notation uspace := (uspace kend).
Notation owner := (owner kend).

(** ** The argument strings *)

(** The memory behind the table at [pt] from [k] to [k']: the same pages and
    mappings, and the same bytes below page [n0]. *)
Definition stacked (pt : Z) (n n0 : nat) (l : list Z) (k k' : kmem) : Prop :=
  uspace k' pt n extra l /\ moved k pt n l k' n l /\ (forall w, leaf (phys k') pt w = leaf (phys k) pt w) /\ keeps pt n0 (phys k) (phys k').

Lemma stacked_trans pt n n0 l k1 k2 k3 : stacked pt n n0 l k1 k2 -> stacked pt n n0 l k2 k3 -> stacked pt n n0 l k1 k3.
Proof.
  intros (_ & M1 & L1 & K1) (H & M2 & L2 & K2). split; [done|]. split; [by eapply moved_trans|]. split; [intros w; by rewrite L2|by eapply keeps_trans].
Qed.

Lemma stacked_refl pt n n0 l k : uspace k pt n extra l -> stacked pt n n0 l k k.
Proof. intros Hu. split; [exact Hu|]. split; [apply moved_refl|]. split; [reflexivity|apply keeps_refl]. Qed.

(** A page the kernel holds, outside the new space and the free list. *)
Definition arg_ok (k : kmem) (pt : Z) (n : nat) (l : list Z) (a : Z) (bs : list Z) : Prop :=
  str_page (phys k) a bs /\ page_ok a /\ a ∉ owns k pt n l.

Lemma arg_ok_moved k k' pt n n' l l' a bs : uspace k pt n extra l -> moved k pt n l k' n' l' -> arg_ok k pt n l a bs -> arg_ok k' pt n' l' a bs.
Proof.
  intros Hu [Hown Hm] ([Hz (rest & E)] & Hp & Hni). split; [|split; [done|by rewrite Hown]]. split; [done|]. exists rest. rewrite <- E.
  apply loadn_ext. intros x Hx. apply Hm. intros p Hin. apply (page_not_self kend a p x); [done|by eapply owns_ok|by intros ->|unfold in_page; lia].
Qed.

Lemma copyout_stacked k pt n n0 l va src : uspace k pt n extra l -> (n0 <= n)%nat -> 4096 * Z.of_nat n0 <= va < 2 ^ 64 ->
  Forall (fun b => 0 <= b < 256) src -> (forall i, 0 <= i < zlen src -> uaddr (phys k) pt (va + i) <> None) ->
  exists k', copyout pt va src k = Ret 0 k' /\ stacked pt n n0 l k k' /\ reads (phys k') pt va src /\
    (forall w, ~ va <= w < va + zlen src -> ubyte (phys k') pt w = ubyte (phys k) pt w).
Proof.
  intros Hu Hle Hva Hb Hmap. destruct (copyout_space kend Hkend k pt n n0 extra l va src Hu Hva Hb Hmap) as (k' & E & Hu' & Hmv & Hl & Hk & Hby).
  exists k'. split; [done|]. split; [split; [done|]; split; [done|]; split; [done|by apply Hk]|]. split.
  - intros i Hi. rewrite Hby, decide_True by lia. do 2 f_equal. lia.
  - intros w Hw. by rewrite Hby, decide_False.
Qed.

Lemma exec_args_spec argv args (s0 : st) ps pt n n0 l base sp0 k s sp argc us :
  at_ s0 ps k s -> uspace k pt n extra l -> (n0 <= n)%nat -> 4096 * Z.of_nat n0 <= base -> 4096 <= base -> base <= sp <= sp0 -> sp0 < 2 ^ 63 ->
  (forall w, base <= w < sp0 -> uaddr (phys k) pt w <> None) -> Forall2 (arg_ok k pt n l) argv args -> argc + zlen args <= MAXARG ->
  exists r s' k', exec_args argv pt sp base argc us s = Ret r s' /\ at_ s0 ps k' s' /\ stacked pt n n0 l k k' /\
    ((Forall (fun t => base <= t) (tops sp args) /\ r = Some (bottom sp args, us ++ tops sp args) /\
        Forall2 (reads (phys k') pt) (tops sp args) ((fun bs => bs ++ [0]) <$> args) /\
        (forall w, ~ bottom sp args <= w < sp -> ubyte (phys k') pt w = ubyte (phys k) pt w)) \/
     (~ Forall (fun t => base <= t) (tops sp args) /\ r = None)).
Proof.
  intros Hat Hu Hle Hn0 Hbase Hsp Hsp0 Hmap Hargs. revert k s sp argc us Hat Hu Hsp Hmap Hargs.
  induction args as [|bs args IH] in argv |- *; intros k s sp argc us Hat Hu Hsp Hmap Hargs Hmax.
  { apply Forall2_nil_inv_r in Hargs as ->. exists (Some (sp, us)), s, k. split; [done|]. split; [done|]. split; [by apply stacked_refl|]. left. cbn [tops bottom].
    rewrite app_nil_r. split; [constructor|]. split; [done|]. split; [constructor|done]. }
  apply Forall2_cons_inv_r in Hargs as (a & argv' & Ha & Hargs & ->). cbn [exec_args tops bottom]. pose proof Ha as (Hstr & Hpok & Hni).
  destruct (str_page_bytes _ _ _ Hstr) as (Hlen & Htake & Hby & Hlt). pose proof (zlen_nonneg bs). pose proof (zlen_nonneg args). rewrite zlen_cons in Hmax.
  pose proof (page_ok_pos kend Hkend a Hpok). destruct (Z.eqb_spec a 0); [lia|]. destruct (Z.leb_spec MAXARG argc); [lia|].
  destruct (run_mem (k_read a PGSIZE) _ _ _ _ (loadn (phys k) a 4096) k Hat eq_refl) as (s1 & R1 & Hat1). erewrite bind_Ret by exact R1. cbv zeta.
  rewrite Hlen. rewrite (u64_small (sp - (zlen bs + 1))) by (change (2 ^ 63) with 9223372036854775808 in *; change (2 ^ 64) with 18446744073709551616; lia).
  change (sp - (zlen bs + 1) - (sp - (zlen bs + 1)) mod 16) with (push sp (zlen bs + 1)). pose proof (push_le sp (zlen bs + 1) ltac:(lia)) as Hpush.
  set (sp1 := push sp (zlen bs + 1)) in *. destruct (Z.ltb_spec sp1 base) as [Hlow|Hge].
  { exists None, s1, k. split; [reflexivity|]. split; [exact Hat1|]. split; [by apply stacked_refl|]. right. split; [|done]. intros [? _]%Forall_cons. lia. }
  rewrite Htake. assert (Hz : zlen (bs ++ [0]) = zlen bs + 1) by (unfold zlen; rewrite length_app; cbn [length]; lia).
  destruct (copyout_stacked k pt n n0 l sp1 (bs ++ [0]) Hu Hle) as (k1 & E & Hst & Hrd & Hsame); [change (2 ^ 63) with 9223372036854775808 in *; change (2 ^ 64) with 18446744073709551616; lia|done|..].
  { intros i Hi. apply Hmap. lia. }
  destruct (run_mem _ _ _ _ _ _ _ Hat1 E) as (s2 & R2 & Hat2). erewrite bind_Ret by exact R2. cbn [Z.ltb Z.compare].
  destruct (IH argv' k1 s2 sp1 (argc + 1) (us ++ [sp1]) Hat2 (proj1 Hst)) as (r & s' & k' & E' & Hat' & Hst' & Hr); [lia|..|lia|].
  { intros w Hw. destruct Hst as (_ & _ & Hl & _). rewrite (uaddr_leaf_ext _ _ _ Hl). by apply Hmap. }
  { eapply Forall2_impl; [exact Hargs|]. intros b cs. eapply arg_ok_moved; [exact Hu|apply Hst]. }
  exists r, s', k'. split; [exact E'|]. split; [done|]. split; [by eapply stacked_trans|]. pose proof (bottom_le args sp1) as Hbl.
  destruct Hr as [(Hf & -> & Hall & Hout)|(Hnf & ->)]; [left|right; split; [intros [_ Hf]%Forall_cons; exact (Hnf Hf)|reflexivity]].
  split; [by constructor|]. split; [by rewrite <- app_assoc|]. split.
  - constructor; [|exact Hall]. intros i Hi. rewrite Hout by lia. by apply Hrd.
  - intros w Hw. rewrite Hout by lia. apply Hsame. lia.
Qed.

(** ** The array of pointers *)

Lemma tops_ge args sp : Forall (fun t => bottom sp args <= t) (tops sp args).
Proof. revert sp. induction args as [|bs args IH]; intros sp; cbn; constructor; [apply bottom_le|apply IH]. Qed.

Lemma le_bytes_byte n v : Forall (fun b => 0 <= b < 256) (le_bytes n v).
Proof. revert v. induction n as [|n IH]; intros v; cbn; constructor; [apply u8_range|apply IH]. Qed.

Lemma argv_bytes_ok top args : Forall (fun b => 0 <= b < 256) (argv_bytes top args) /\ zlen (argv_bytes top args) = 8 * (zlen args + 1).
Proof.
  unfold argv_bytes. rewrite <- (zlen_tops args top). induction (tops top args) as [|t ts [IH1 IH2]]; cbn [app map concat].
  - split; [rewrite app_nil_r; apply le_bytes_byte|done].
  - split; [apply Forall_app; split; [apply le_bytes_byte|exact IH1]|]. unfold zlen in *. rewrite length_app, length_le_bytes. cbn [length]. lia.
Qed.

(** The whole stack of a program with these arguments. *)
Definition arguments (m : mem) (pt top : Z) (args : list (list Z)) : Prop :=
  Forall2 (reads m pt) (tops top args) ((fun bs => bs ++ [0]) <$> args) /\ reads m pt (argv_at top args) (argv_bytes top args).

Lemma push_argv k pt n l top args : uspace k pt (n + 2) extra l -> guarded (phys k) pt n -> top = 4096 * Z.of_nat n + 8192 ->
  fits (top - 4096) top args -> zlen args < MAXARG ->
  Forall2 (reads (phys k) pt) (tops top args) ((fun bs => bs ++ [0]) <$> args) ->
  exists k', copyout pt (argv_at top args) (argv_bytes top args) k = Ret 0 k' /\ stacked pt (n + 2) n l k k' /\ arguments (phys k') pt top args.
Proof.
  intros Hu [_ Hg] Htop [Hf Ha] Hmax Hrd. pose proof (uspace_bound kend Hkend _ _ _ _ _ Hu). destruct (argv_bytes_ok top args) as [Hb Hlen].
  pose proof (bottom_le args top). pose proof (zlen_nonneg args). pose proof (push_le (bottom top args) (8 * (zlen args + 1)) ltac:(lia)) as Hp. fold (argv_at top args) in Hp.
  destruct (copyout_stacked k pt (n + 2) n l (argv_at top args) (argv_bytes top args) Hu) as (k' & E & Hst & Hr & Hsame); [lia| |done| |].
  { change (2 ^ 64) with 18446744073709551616. lia. }
  { intros i Hi. apply Hg. lia. }
  exists k'. split; [done|]. split; [done|]. split; [|done].
  pose proof (tops_ge args top) as Hge. clear Hf. induction Hrd as [|t bs ts bss Hh _ IH]; [constructor|]. apply Forall_cons in Hge as [Ht Hge].
  constructor; [|by apply IH]. intros i Hi. rewrite Hsame by lia. by apply Hh.
Qed.

(** ** Giving up, and the commit *)

(** The new space and the free list share no page with the process. *)
Definition beside (k : kmem) (x : proc) (pt : Z) (n : nat) (l : list Z) : Prop :=
  uspace k pt n extra l /\ forall q, q ∈ proc_pages (phys k) x -> q ∉ owns k pt n l.

(** What a failed exec() leaves: the process as it was, and every page of
    the new space free. *)
Record unchanged (k : kmem) (x : proc) (pt : Z) (n : nat) (l : list Z) (k' : kmem) (l' : list Z) : Prop := {
  un_owner : owner k' x l';
  un_kept : keeps (p_pagetable x) (pgs (p_sz x)) (phys k) (phys k');
  un_tf : tf_same (phys k) (phys k') (p_trapframe x);
  un_free : l' ≡ₚ upages (phys k) pt n ++ tp 2 (phys k) pt ++ l
}.

Lemma exec_bad_spec (s0 : st) ps x k0 n0 l0 k s pt sz l :
  at_ s0 ps k s -> owner k0 x l0 -> p_pagetable x <> 0 -> p_trapframe x <> 0 -> beside k0 x pt n0 l0 -> pt <> 0 -> 0 <= sz ->
  uspace k pt (pgs sz) extra l -> moved k0 pt n0 l0 k (pgs sz) l ->
  exists s' k' l', exec_bad kend pt sz NULL s = Ret (-1) s' /\ at_ s0 ps k' s' /\ unchanged k0 x pt n0 l0 k' l'.
Proof.
  intros Hat Ho Hp Ht [Hu0 Hd] Hpt Hsz Hu [Hown Hm]. destruct (proc_freepagetable_spec kend Hkend s0 ps k s pt sz l Hat Hsz Hu) as (s' & k' & l' & E & Hat' & Hk' & Hl' & Hm').
  exists s', k', l'. split.
  { unfold exec_bad. destruct (Z.eqb_spec pt 0); [done|]. cbn [negb]. erewrite bind_Ret by exact E. done. }
  split; [done|]. rewrite Hown in Hl'.
  destruct (owner_beside kend k0 x l0 k' l' (owns k0 pt n0 l0) Ho Hp Ht Hk') as (Ho' & _ & Hk & Htf); try done.
  - intros q. by rewrite Hl'.
  - apply Forall_forall. intros q. by eapply owns_ok.
  - intros a Ha. rewrite Hm'; [by apply Hm|]. intros q. rewrite Hown. apply Ha.
Qed.

(** The process entry of the new program. *)
Definition image (path : list Z) (pt sz : Z) (x : proc) : proc := set_p_sz sz (set_p_pagetable pt (set_name (last_elem path path) x)).

(** The trap frame with the registers exec() sets. *)
Definition exec_regs (m : mem) (tf sp entry : Z) : mem :=
  store64 (store64 (store64 m (tf + tf_a1) (u64 sp)) (tf + tf_epc) (u64 entry)) (tf + tf_sp) (u64 sp).

Lemma exec_regs_out m tf sp entry a : ~ in_page tf a -> load8 (exec_regs m tf sp entry) a = load8 m a.
Proof. unfold exec_regs, tf_a1, tf_epc, tf_sp, in_page. intros Ha. by rewrite !load8_store64_out by lia. Qed.

Lemma tf_write (s0 : st) ps k s p off v : at_ s0 ps k s ->
  exists s', tf_set p off v s = Ret tt s' /\ at_ s0 ps (set_phys (store64 (phys k) (p_trapframe (proc_at ps p) + off) (u64 v)) k) s'.
Proof.
  intros Hat. unfold tf_set. erewrite bind_Ret by (by eapply run_getpr). eapply run_mem; [exact Hat|reflexivity].
Qed.

(** Up to the point where the old space is freed. *)
Lemma commit_assigns (s0 : st) ps k s path entry pt top oldsz sp argc : at_ s0 ps k s -> 0 <= curp ps < zlen (procs ps) ->
  exists s', exec_commit kend path entry pt top oldsz sp argc s =
      bind (proc_freepagetable kend (p_pagetable (running ps)) oldsz) (fun _ => ret argc) s' /\
    at_ s0 (upd_proc (curp ps) (image path pt top) ps) (set_phys (exec_regs (phys k) (p_trapframe (running ps)) sp entry) k) s'.
Proof.
  intros Hat Hp. unfold exec_commit, myproc. set (p := curp ps) in *.
  erewrite bind_Ret by reflexivity. rewrite (at_proc _ _ _ _ Hat). fold p.
  destruct (tf_write _ _ _ _ p tf_a1 sp Hat) as (s1 & E1 & Hat1). erewrite bind_Ret by exact E1. clear Hat.
  change (proc_at ps p) with (running ps) in Hat1.
  destruct (run_setpr p (set_name (last_elem path path)) _ _ _ _ Hat1) as (s2 & E2 & Hat2). erewrite bind_Ret by exact E2. clear Hat1.
  unfold mine. erewrite bind_Ret by reflexivity. rewrite (at_proc _ _ _ _ Hat2). change (curp (upd_proc p _ ps)) with p. rewrite proc_at_upd_eq by done.
  destruct (run_setpr p (set_p_pagetable pt) _ _ _ _ Hat2) as (s3 & E3 & Hat3). erewrite bind_Ret by exact E3. rewrite upd_proc_upd in Hat3 by done. clear Hat2.
  destruct (run_setpr p (set_p_sz top) _ _ _ _ Hat3) as (s4 & E4 & Hat4). erewrite bind_Ret by exact E4. rewrite upd_proc_upd in Hat4 by done. clear Hat3.
  destruct (tf_write _ _ _ _ p tf_epc entry Hat4) as (s5 & E5 & Hat5). erewrite bind_Ret by exact E5. rewrite proc_at_upd_eq in Hat5 by done. clear Hat4.
  destruct (tf_write _ _ _ _ p tf_sp sp Hat5) as (s6 & E6 & Hat6). erewrite bind_Ret by exact E6. rewrite proc_at_upd_eq in Hat6 by done. clear Hat5.
  exists s6. split; [reflexivity|]. exact Hat6.
Qed.

(** A space keeps its shape and its bytes when the pages of another one are
    freed. *)
Lemma uspace_beside k k' pt n l l' (L : list Z) :
  uspace k pt n extra l -> kwf kend k' l' -> l' ⊆ L -> Forall page_ok L -> (forall q, q ∈ upages (phys k) pt n ++ tp 2 (phys k) pt -> q ∉ L) ->
  (forall a, (forall q, q ∈ L -> ~ in_page q a) -> load8 (phys k') a = load8 (phys k) a) ->
  uspace k' pt n extra l' /\ upages (phys k') pt n = upages (phys k) pt n /\ tp 2 (phys k') pt = tp 2 (phys k) pt /\
  (forall va, leaf (phys k') pt va = leaf (phys k) pt va) /\ keeps pt n (phys k) (phys k').
Proof.
  intros Hu Hk Hl HL Hd Hm. rewrite Forall_forall in HL.
  assert (Hs : same_on (upages (phys k) pt n ++ tp 2 (phys k) pt) (phys k) (phys k')).
  { intros q a Hq Ha. apply Hm. intros z Hz. apply (page_not_self kend q z a); [eapply owns_ok; [exact Hu|]|by apply HL|by intros ->; apply (Hd z)|done].
    unfold owns. rewrite app_assoc, elem_of_app. by left. }
  destruct (uspace_frame kend k k' pt n extra l l' Hu Hk) as (Hu' & Hup & Htp & Hl').
  - eapply same_on_sub; [|exact Hs]. intros q Hq. apply elem_of_app. by right.
  - pose proof (us_own _ _ _ _ _ _ Hu) as Hnd. unfold owns in *. rewrite app_assoc in *. apply NoDup_app in Hnd as (Hnd & _ & _).
    apply NoDup_app. split; [done|]. split; [|apply Hk]. intros q Hq Hq'. apply (Hd q Hq). by apply Hl.
  - split; [done|]. split; [done|]. split; [done|]. split; [done|]. split; [intros; apply Hl'|].
    eapply same_on_sub; [|exact Hs]. intros q Hq. apply elem_of_app. by left.
Qed.

Lemma space_not_free k pt n l q : uspace k pt n extra l -> q ∈ upages (phys k) pt n ++ tp 2 (phys k) pt -> q ∉ l.
Proof.
  intros Hu Hq Hq'. pose proof (us_own _ _ _ _ _ _ Hu) as Hnd. unfold owns in Hnd. rewrite app_assoc in Hnd. apply NoDup_app in Hnd as (_ & Hd & _). by apply (Hd q).
Qed.

Lemma beside_space k x pt n l q : beside k x pt n l -> q ∈ proc_pages (phys k) x -> q ∉ upages (phys k) pt n ++ tp 2 (phys k) pt.
Proof. intros [_ Hd] Hq Hin. apply (Hd q Hq). unfold owns. rewrite app_assoc, elem_of_app. by left. Qed.

(** The commit: the new space is the process's, the old one is freed. *)
Lemma exec_commit_spec (s0 : st) ps k s path entry pt n l sp argc :
  let x := running ps in let x' := image path pt (4096 * Z.of_nat n) x in
  at_ s0 ps k s -> 0 <= curp ps < zlen (procs ps) -> owner k x l -> p_pagetable x <> 0 -> p_trapframe x <> 0 -> pt <> 0 -> beside k x pt n l ->
  exists s' k' l', exec_commit kend path entry pt (4096 * Z.of_nat n) (p_sz x) sp argc s = Ret argc s' /\
    at_ s0 (upd_proc (curp ps) (image path pt (4096 * Z.of_nat n)) ps) k' s' /\ owner k' x' l' /\
    proc_pages (phys k') x' ++ l' ≡ₚ proc_pages (phys k) x ++ owns k pt n l /\
    keeps pt n (phys k) (phys k') /\ (forall va, leaf (phys k') pt va = leaf (phys k) pt va) /\
    (forall a, in_page (p_trapframe x) a -> load8 (phys k') a = load8 (exec_regs (phys k) (p_trapframe x) sp entry) a).
Proof.
  intros x x' Hat Hcur Ho Hp Ht Hpt Hbe. pose proof (proj1 Hbe) as Hu. pose proof (fun q => beside_space k x pt n l q Hbe) as Hd. set (tf := p_trapframe x) in *.
  pose proof Ho as Ho'. apply owner_full in Ho' as (Hsz & Htok & Hux & Htni); [|done..]. fold tf in Htok, Htni.
  assert (Htfin : tf ∈ proc_pages (phys k) x) by (unfold proc_pages, tf_pages; fold tf; destruct (Z.eqb_spec tf 0); [done|left]).
  destruct (commit_assigns s0 ps k s path entry pt (4096 * Z.of_nat n) (p_sz x) sp argc Hat Hcur) as (s1 & E1 & Hat1). fold x tf in E1, Hat1.
  set (k3 := set_phys (exec_regs (phys k) tf sp entry) k) in *.
  assert (Hm3 : forall a, ~ in_page tf a -> load8 (phys k3) a = load8 (phys k) a) by (intros; by apply exec_regs_out).
  destruct (owner_write kend k x l (phys k3) tf Ho Hp Ht Htok) as (Ho3 & Hpg3 & _); [|done|].
  { intros Hin. apply Htni. unfold space_pages in Hin. destruct (Z.eqb_spec (p_pagetable x) 0); [done|]. unfold owns. by rewrite app_assoc. }
  apply owner_full in Ho3 as (_ & _ & Hux3 & Htni3); [|done..]. change (set_phys (phys k3) k) with k3 in *. fold tf in Htni3.
  destruct (uspace_beside k k3 pt n l l (tf :: l)) as (Hu3 & Hup3 & Htp3 & Hl3 & Hk3); [done|apply Hux3|by right| | |..].
  { constructor; [done|]. apply Forall_forall. intros q Hq. eapply flist_page_ok; [apply Ho|done]. }
  { intros q Hq [->|Hq']%elem_of_cons; [by apply (Hd tf)|exact (space_not_free k pt n l q Hu Hq Hq')]. }
  { intros a Ha. apply Hm3, Ha. left. }
  destruct (proc_freepagetable_spec kend Hkend _ _ _ _ (p_pagetable x) (p_sz x) l Hat1 Hsz Hux3) as (s' & k' & l' & E2 & Hat' & Hk' & Hl' & Hm').
  assert (Hold : tf :: owns k3 (p_pagetable x) (pgs (p_sz x)) l = proc_pages (phys k) x ++ l) by (rewrite <- Hpg3; symmetry; by apply pages_full).
  destruct (uspace_beside k3 k' pt n l l' (owns k3 (p_pagetable x) (pgs (p_sz x)) l) Hu3 Hk') as (Hu' & Hup' & Htp' & Hll' & Hkk').
  { intros q. by rewrite Hl'. } { apply Forall_forall. intros q. by eapply owns_ok. }
  { rewrite Hup3, Htp3. intros q Hq Hq'. assert (Hin : q ∈ proc_pages (phys k) x ++ l) by (rewrite <- Hold; by right).
    apply elem_of_app in Hin as [Hin|Hin]; [by apply (Hd q)|exact (space_not_free k pt n l q Hu Hq Hin)]. }
  { done. }
  assert (Eo : owns k' pt n l' = upages (phys k) pt n ++ tp 2 (phys k) pt ++ l') by (unfold owns; by rewrite Hup', Htp', Hup3, Htp3).
  assert (Hx' : p_sz x' = 4096 * Z.of_nat n /\ p_pagetable x' = pt /\ p_trapframe x' = tf) by done. destruct Hx' as (Ex1 & Ex2 & Ex3).
  exists s', k', l'. split; [rewrite E1; by erewrite bind_Ret by exact E2|]. split; [exact Hat'|]. split; [|split; [|split; [|split]]].
  - apply owner_full; rewrite ?Ex1, ?Ex2, ?Ex3; [done|done|]. rewrite pgs_mul. split; [lia|]. split; [done|]. split; [done|]. rewrite Eo, app_assoc, elem_of_app.
    intros [Hin|Hin]; [by apply (Hd tf)|]. rewrite Hl' in Hin. done.
  - rewrite (pages_full k' x' l'), Ex1, Ex2, Ex3, pgs_mul, Eo, Hl' by (by rewrite ?Ex2, ?Ex3).
    transitivity (upages (phys k) pt n ++ tp 2 (phys k) pt ++ (tf :: owns k3 (p_pagetable x) (pgs (p_sz x)) l)); [solve_Permutation|].
    rewrite Hold. unfold owns. solve_Permutation.
  - by eapply keeps_trans.
  - intros va. by rewrite Hll', Hl3.
  - intros a Ha. rewrite Hm'; [done|]. intros q Hq. apply (page_not_self kend tf q a); [done|eapply owns_ok; [exact Hux3|exact Hq]|by intros ->|done].
Qed.

Lemma ubyte_same k k' pt n l w : uspace k pt n extra l -> (forall va, leaf (phys k') pt va = leaf (phys k) pt va) -> keeps pt n (phys k) (phys k') ->
  ubyte (phys k') pt w = ubyte (phys k) pt w.
Proof.
  intros Hu Hl [_ Hs]. unfold ubyte. rewrite (uaddr_leaf_ext _ _ _ Hl). destruct (uaddr (phys k) pt w) as [a|] eqn:Ha; [|done]. cbn. f_equal.
  destruct (uaddr_page kend _ _ _ _ _ _ _ Hu Ha) as (q & Hq & Hin). by apply (Hs q).
Qed.

Lemma exec_regs_read m tf sp entry : load64 (exec_regs m tf sp entry) (tf + tf_sp) = u64 sp /\ load64 (exec_regs m tf sp entry) (tf + tf_a1) = u64 sp /\
  load64 (exec_regs m tf sp entry) (tf + tf_epc) = u64 entry.
Proof.
  unfold exec_regs, tf_a1, tf_epc, tf_sp. split; [|split]; rewrite ?load64_store64_ne, ?load64_store64_eq by lia;
    rewrite ?load64_store64_ne, ?load64_store64_eq by lia; rewrite ?load64_store64_ne, ?load64_store64_eq by lia; apply u64_small, u64_range.
Qed.

(** What a successful exec() leaves: the program below the guard page as it
    was loaded, the arguments on the stack, the registers, and every page
    accounted for. *)
Definition stack_top (n : nat) : Z := 4096 * Z.of_nat (n + 2).

Record launched (k : kmem) (x : proc) (pt : Z) (n : nat) (l path : list Z) (args : list (list Z)) (entry : Z) (k' : kmem) (l' : list Z) : Prop := {
  la_owner : owner k' (image path pt (stack_top n) x) l';
  la_pages : proc_pages (phys k') (image path pt (stack_top n) x) ++ l' ≡ₚ proc_pages (phys k) x ++ owns k pt n l;
  la_program : keeps pt n (phys k) (phys k');
  la_guard : guarded (phys k') pt n;
  la_args : arguments (phys k') pt (stack_top n) args;
  la_sp : load64 (phys k') (p_trapframe x + tf_sp) = argv_at (stack_top n) args;
  la_a1 : load64 (phys k') (p_trapframe x + tf_a1) = argv_at (stack_top n) args;
  la_pc : load64 (phys k') (p_trapframe x + tf_epc) = u64 entry;
  la_regs : forall o, 0 <= o < 4096 -> ~ tf_sp <= o < tf_sp + 8 -> ~ tf_a1 <= o < tf_a1 + 8 -> ~ tf_epc <= o < tf_epc + 8 ->
    load8 (phys k') (p_trapframe x + o) = load8 (phys k) (p_trapframe x + o)
}.

Lemma launched_commit (s0 : st) ps k k2 s path entry pt n l l2 args :
  let x := running ps in
  at_ s0 ps k2 s -> 0 <= curp ps < zlen (procs ps) -> owner k x l -> p_pagetable x <> 0 -> p_trapframe x <> 0 -> pt <> 0 -> beside k x pt n l ->
  uspace k2 pt (n + 2) extra l2 -> moved k pt n l k2 (n + 2) l2 -> keeps pt n (phys k) (phys k2) -> guarded (phys k2) pt n ->
  arguments (phys k2) pt (stack_top n) args -> 0 <= argv_at (stack_top n) args < 2 ^ 64 ->
  exists s' k' l', exec_commit kend path entry pt (stack_top n) (p_sz x) (argv_at (stack_top n) args) (zlen args) s = Ret (zlen args) s' /\
    at_ s0 (upd_proc (curp ps) (image path pt (stack_top n)) ps) k' s' /\ launched k x pt n l path args entry k' l'.
Proof.
  intros x Hat Hcur Ho Hp Ht Hpt [Hu Hd] Hu2 [Hown Hm] Hk2 [Hg1 Hg2] [Ha1 Ha2] Hr. set (tf := p_trapframe x) in *. set (sp := argv_at (stack_top n) args) in *.
  destruct (owner_beside kend k x l k2 l2 (owns k pt n l) Ho Hp Ht (proj1 (us_wf _ _ _ _ _ _ Hu2))) as (Ho2 & Hpg2 & _ & Htf2); [|by apply Forall_forall; intros q; eapply owns_ok|done|done|].
  { intros q Hq. rewrite <- Hown. unfold owns. rewrite !elem_of_app. auto. }
  destruct (exec_commit_spec s0 ps k2 s path entry pt (n + 2) l2 sp (zlen args)) as (s' & k' & l' & E & Hat' & Ho' & Hpg & Hk & Hl & Hreg); try done.
  { split; [done|]. fold x. rewrite Hpg2. intros q Hq. rewrite Hown. by apply Hd. }
  fold x in E, Ho', Hpg, Hreg. fold tf in Hreg. fold (stack_top n) in E, Hat', Ho', Hpg. exists s', k', l'. split; [exact E|]. split; [exact Hat'|].
  pose proof (fun w => ubyte_same k2 k' pt (n + 2) l2 w Hu2 Hl Hk) as Hby. destruct (exec_regs_read (phys k2) tf sp entry) as (R1 & R2 & R3).
  assert (Hrd : forall va bs, reads (phys k2) pt va bs -> reads (phys k') pt va bs) by (intros va bs H i Hi; rewrite Hby; by apply H).
  assert (H64 : forall o, 0 <= o < 4000 -> load64 (phys k') (tf + o) = load64 (exec_regs (phys k2) tf sp entry) (tf + o)).
  { intros o Hoff. apply load64_ext. intros a Ha. apply Hreg. unfold in_page. lia. }
  split; fold tf.
  - exact Ho'.
  - by rewrite Hpg, Hpg2, Hown.
  - eapply keeps_trans; [exact Hk2|]. eapply keeps_le; [|exact Hk]. lia.
  - split; intros w Hw; rewrite (uaddr_leaf_ext _ _ _ Hl); auto.
  - split; [eapply Forall2_impl; [exact Ha1|exact Hrd]|by apply Hrd].
  - rewrite H64, R1 by done. by apply u64_small.
  - rewrite H64, R2 by done. by apply u64_small.
  - by rewrite H64, R3.
  - intros o Hoff H1 H2 H3. rewrite Hreg by (unfold in_page; lia). unfold exec_regs. rewrite !load8_store64_out by lia. apply Htf2. unfold in_page. lia.
Qed.

(** ** The second half of exec() *)

(** The outcome of exec() for the process [running ps] once the program is
    loaded at [pt]: it fails only for arguments that do not fit the stack page
    or for lack of six free pages. *)
Definition exec_outcome (s : st) (pt : Z) (n : nat) (l path : list Z) (args : list (list Z)) (entry r : Z) (s' : st) : Prop :=
  let ps := kproc s in let x := running ps in let k := umem (kfs s) in
  exists k' l',
    (r = zlen args /\ fits (stack_top n - 4096) (stack_top n) args /\
       at_ s (upd_proc (curp ps) (image path pt (stack_top n)) ps) k' s' /\ launched k x pt n l path args entry k' l') \/
    (r = -1 /\ (~ fits (stack_top n - 4096) (stack_top n) args \/ (length l <= 6)%nat) /\ at_ s ps k' s' /\ unchanged k x pt n l k' l').

Lemma exec_stack_args (s : st) k2 s2 path argv entry pt n l l2 args :
  let ps := kproc s in let x := running ps in let k := umem (kfs s) in
  at_ s ps k2 s2 -> 0 <= curp ps < zlen (procs ps) -> owner k x l -> p_pagetable x <> 0 -> p_trapframe x <> 0 -> pt <> 0 -> beside k x pt n l ->
  uspace k2 pt (n + 2) extra l2 -> moved k pt n l k2 (n + 2) l2 -> keeps pt n (phys k) (phys k2) -> guarded (phys k2) pt n ->
  Forall2 (arg_ok k pt n l) argv args -> zlen args < MAXARG ->
  exists r s', bind (exec_args argv pt (stack_top n) (stack_top n - PGSIZE) 0 []) (fun a =>
    match a with
    | None => exec_bad kend pt (stack_top n) NULL
    | Some (sp, ustack) =>
        let argc := zlen ustack in
        let sp := u64 (sp - (argc + 1) * 8) in
        let sp := sp - sp mod 16 in
        if sp <? stack_top n - PGSIZE then exec_bad kend pt (stack_top n) NULL
        else
          let* r := on_mem (copyout pt sp (concat (map (le_bytes 8) (ustack ++ [0])))) in
          if r <? 0 then exec_bad kend pt (stack_top n) NULL
          else exec_commit kend path entry pt (stack_top n) (p_sz x) sp argc
    end) s2 = Ret r s' /\ exec_outcome s pt n l path args entry r s'.
Proof.
  intros ps x k Hat Hcur Ho Hp Ht Hpt Hbe Hu2 Hmv Hk2 Hg Hargs Hmax. pose proof (uspace_bound kend Hkend _ _ _ _ _ Hu2) as Hb.
  set (top := stack_top n). assert (Htop : top = 4096 * Z.of_nat n + 8192) by (unfold top, stack_top; lia). change PGSIZE with 4096.
  assert (Hpgs : pgs top = (n + 2)%nat) by apply pgs_mul. pose proof (zlen_nonneg args).
  destruct (exec_args_spec argv args s ps pt (n + 2) n l2 (top - 4096) top k2 s2 top 0 [] Hat Hu2) as (r & s3 & k3 & E3 & Hat3 & Hst3 & Hr); try lia.
  { intros w Hw. apply Hg. lia. }
  { eapply Forall2_impl; [exact Hargs|]. intros a bs. eapply arg_ok_moved; [exact (proj1 Hbe)|exact Hmv]. }
  erewrite bind_Ret by exact E3. pose proof Hst3 as (Hu3 & Hmv3 & Hl3 & Hk3).
  assert (Hbad : forall k4 s4, at_ s ps k4 s4 -> stacked pt (n + 2) n l2 k3 k4 -> ~ fits (top - 4096) top args ->
    exists r s', exec_bad kend pt top NULL s4 = Ret r s' /\ exec_outcome s pt n l path args entry r s').
  { intros k4 s4 Hat4 (Hu4 & Hmv4 & _) Hnf. destruct (exec_bad_spec s ps x k n l k4 s4 pt top l2) as (s' & k' & l' & E & Hat' & Hun); try done.
    - lia. - by rewrite Hpgs. - rewrite Hpgs. eapply moved_trans; [exact Hmv|]. by eapply moved_trans.
    - exists (-1), s'. split; [exact E|]. exists k', l'. right. split; [done|]. split; [by left|]. by split. }
  destruct Hr as [(Hf & -> & Hrd & Hby)|(Hnf & ->)].
  2: { apply (Hbad k3); [done|by apply stacked_refl|]. intros [Hf _]. exact (Hnf Hf). }
  cbn [app]. rewrite zlen_tops. cbv zeta. pose proof (bottom_ge (top - 4096) args top ltac:(lia) Hf) as Hbot. pose proof (bottom_le args top) as Hbot'.
  assert (Hmax' : zlen args < 32) by exact Hmax.
  rewrite u64_small by (change (2 ^ 64) with 18446744073709551616; lia).
  replace (bottom top args - (zlen args + 1) * 8) with (bottom top args - 8 * (zlen args + 1)) by lia.
  change (bottom top args - 8 * (zlen args + 1) - (bottom top args - 8 * (zlen args + 1)) mod 16) with (argv_at top args).
  pose proof (push_le (bottom top args) (8 * (zlen args + 1)) ltac:(lia)) as Hpush. fold (argv_at top args) in Hpush.
  destruct (Z.ltb_spec (argv_at top args) (top - 4096)) as [Hlow|Hge].
  { apply (Hbad k3); [done|by apply stacked_refl|]. intros [_ Hf2]. lia. }
  assert (Hg3 : guarded (phys k3) pt n) by (destruct Hg as [Hg1 Hg2]; split; intros w Hw; rewrite (uaddr_leaf_ext _ _ _ Hl3); auto).
  destruct (push_argv k3 pt n l2 top args Hu3 Hg3 Htop) as (k4 & E4 & (Hu4 & Hmv4 & Hl4 & Hk4) & Har); [by split|done|done|].
  destruct (run_mem _ _ _ _ _ _ _ Hat3 E4) as (s4 & R4 & Hat4). unfold argv_bytes in R4. erewrite bind_Ret by exact R4. cbn [Z.ltb Z.compare].
  destruct (launched_commit s ps k k4 s4 path entry pt n l l2 args) as (s' & k' & l' & E5 & Hat5 & Hla); try done.
  - eapply moved_trans; [exact Hmv|]. by eapply moved_trans.
  - eapply keeps_trans; [exact Hk2|]. by eapply keeps_trans.
  - destruct Hg3 as [Hg1 Hg2]. split; intros w Hw; rewrite (uaddr_leaf_ext _ _ _ Hl4); auto.
  - fold top. change (2 ^ 64) with 18446744073709551616. lia.
  - exists (zlen args), s'. split; [exact E5|]. exists k', l'. left. split; [done|]. split; [by split|]. by split.
Qed.

(** exec() once the segments are loaded, at [pt] with [n] pages, for
    fewer than MAXARG arguments.  If there is memory for two more pages and
    the arguments fit into one, it returns their number: the process runs in
    the new space, with the program's pages as loaded, a guard page user code
    cannot reach, each argument as a string on the stack, the array of their
    addresses with a final 0 below them, sp and a1 pointing to it, the program
    counter at the entry point, and all pages of the old space free.
    Otherwise it returns -1, the process is as before in every byte it can
    see, and all pages of the new space are free. *)
Theorem exec_stack_correct (s : st) path argv entry pt sz l args :
  let ps := kproc s in let x := running ps in let k := umem (kfs s) in
  0 <= curp ps < zlen (procs ps) -> owner k x l -> p_pagetable x <> 0 -> p_trapframe x <> 0 ->
  pt <> 0 -> 0 <= sz -> beside k x pt (pgs sz) l -> Forall2 (arg_ok k pt (pgs sz) l) argv args -> zlen args < MAXARG ->
  exists r s', exec_stack kend path argv entry pt sz s = Ret r s' /\ exec_outcome s pt (pgs sz) l path args entry r s'.
Proof.
  intros ps x k Hcur Ho Hp Ht Hpt Hsz Hbe Hargs Hmax. pose proof (proj1 Hbe) as Hu. pose proof (uspace_bound kend Hkend _ _ _ _ _ Hu) as Hb.
  pose proof (pgs_small sz (pgs sz) Hsz ltac:(lia) Hb) as Hsm. set (n := pgs sz) in *. unfold exec_stack.
  unfold mine. erewrite bind_Ret by reflexivity. cbv zeta. rewrite PGROUNDUP_pgs by (change (2 ^ 64) with 18446744073709551616; lia). fold n.
  change (2 * PGSIZE) with 8192. rewrite u64_small by (change (2 ^ 64) with 18446744073709551616; lia).
  destruct (stack_pages kend Hkend k pt n l Hu) as (r & k1 & E & Hr).
  destruct (run_mem _ _ _ _ _ _ _ (at_refl s) E) as (s1 & R1 & Hat1). erewrite bind_Ret by exact R1. clear E R1.
  destruct Hr as [(-> & Hlen & l1 & Hu1 & Hmv1)|(-> & k2 & l2 & E2 & Hu2 & Hmv2 & Hk2 & Hg)].
  - cbn [Z.eqb]. destruct (exec_bad_spec s ps x k n l k1 s1 pt (4096 * Z.of_nat n) l1) as (s' & k' & l' & E & Hat' & Hun); try done; rewrite ?pgs_mul; try done; [lia|].
    exists (-1), s'. split; [exact E|]. exists k', l'. right. split; [done|]. split; [by right|]. by split.
  - destruct (Z.eqb_spec (4096 * Z.of_nat n + 8192) 0); [lia|]. replace (4096 * Z.of_nat n + 8192 - 8192) with (4096 * Z.of_nat n) by lia.
    destruct (run_mem _ _ _ _ _ _ _ Hat1 E2) as (s2 & R2 & Hat2). erewrite bind_Ret by exact R2.
    replace (4096 * Z.of_nat n + 8192) with (stack_top n) by (unfold stack_top; lia).
    by apply (exec_stack_args s k2 s2 path argv entry pt n l l2 args).
Qed.
End ExecProof.

(** A process with one page takes over a space with none; its argument is an
    empty string. *)
Lemma sample_arg : arg_ok OneProc.kend OneProc.k (OneProc.pg 8) (pgs 0) OneProc.free (OneProc.pg 11) [].
Proof.
  split; [|split].
  - split; [apply not_elem_of_nil|]. exists (tail (loadn OneProc.mem0 (OneProc.pg 11) 4096)). vm_compute. reflexivity.
  - assert (H : Forall (page_ok OneProc.kend) [OneProc.pg 11]) by (apply OneProc.page_ok_list; reflexivity). by apply Forall_cons in H as [? _].
  - pose proof OneProc.kid_pages_apart as H. by apply NoDup_cons in H as [? _].
Qed.

Lemma sample_beside : beside OneProc.kend OneProc.k OneProc.me (OneProc.pg 8) (pgs 0) OneProc.free.
Proof.
  split; [exact OneProc.kid_space|]. change (pgs 0) with 0%nat. intros q Hq Hin. unfold owns in Hin. cbn [phys OneProc.k] in Hin, Hq. rewrite OneProc.kid_tables in Hin.
  unfold proc_pages, tf_pages, space_pages in Hq. change (p_trapframe OneProc.me =? 0) with false in Hq. change (p_pagetable OneProc.me =? 0) with false in Hq.
  change (pgs (p_sz OneProc.me)) with 1%nat in Hq. change (p_pagetable OneProc.me) with OneProc.root in Hq. rewrite OneProc.pages, OneProc.my_tables in Hq.
  assert (Hd : forallb (fun q => negb (bool_decide (q ∈ [OneProc.pg 8; OneProc.pg 9; OneProc.pg 10] ++ OneProc.free)))
    ([p_trapframe OneProc.me] ++ [OneProc.pg 6] ++ [OneProc.pg 1; OneProc.pg 2; OneProc.pg 4; OneProc.pg 3; OneProc.pg 5]) = true) by (vm_compute; reflexivity).
  rewrite forallb_forall in Hd. specialize (Hd q). rewrite <- list_elem_of_In in Hd. specialize (Hd Hq). apply negb_true_iff, bool_decide_eq_false in Hd. by apply Hd.
Qed.

Lemma exec_stack_correct_witness :
  exists s' k' l', exec_stack OneProc.kend [47; 105] [OneProc.pg 11] 0 (OneProc.pg 8) 0 OneProc.kernel = Ret 1 s' /\
    at_ OneProc.kernel (upd_proc 0 (image [47; 105] (OneProc.pg 8) 8192) OneProc.table) k' s' /\
    launched OneProc.kend OneProc.k OneProc.me (OneProc.pg 8) 0 OneProc.free [47; 105] [[]] 0 k' l'.
Proof.
  destruct (exec_stack_correct OneProc.kend ltac:(done) OneProc.kernel [47; 105] [OneProc.pg 11] 0 (OneProc.pg 8) 0 OneProc.free [[]])
    as (r & s' & E & k' & l' & [(-> & _ & Hat & Hla)|(_ & Hno & _)]).
  - done.
  - exact OneProc.me_owner.
  - done.
  - done.
  - done.
  - lia.
  - exact sample_beside.
  - constructor; [exact sample_arg|constructor].
  - done.
  - exists s', k', l'. split; [exact E|]. split; [exact Hat|exact Hla].
  - exfalso. destruct Hno as [Hno|Hno].
    + apply Hno. split; [constructor; [by vm_compute|constructor]|by vm_compute].
    + vm_compute in Hno. lia.
Defined.
