(* ===== verification/ExecLoad.v ===== *)
(** * kernel/exec.c: loading a program

    The memory image an ELF file describes, and exec() from the path to the
    point where the new program runs: it builds exactly that image, or leaves
    the process, the pages and the inodes as they were. *)

From Stdlib Require Import ZArith Lia.
From stdpp Require Import base numbers list list_numbers gmap strings sorting.
From S2P Require Import Prelude Cstring Riscv Bytes Sleeplock Bio Bcache Log Recovery Store Fs FsBlocks FsInode FsFile FsWrite FsDir FsPath Sample Kalloc Vm PageTable Uvm UvmFree AddrSpace UvmCopy Ucopy Kernel KernelProof Console File Proc ProcMem ProcSample ForkProof GrowProof WaitProof PipeProof Exec ExecProof.

(** ** The image of an ELF file *)

Section Elf.
Context (V : Z -> list Z) (X : inode).

(** The checks on a program header. *)
Definition seg_ok (ph : proghdr) : bool :=
  negb (ph_memsz ph <? ph_filesz ph) && negb (u64 (ph_vaddr ph + ph_memsz ph) <? ph_vaddr ph) && (ph_vaddr ph mod PGSIZE =? 0).

(** The segment's bytes are in the file. *)
Definition seg_there (ph : proghdr) : bool :=
  (u32 (ph_filesz ph) =? 0) || (u32 (ph_off ph) + u32 (ph_filesz ph) <=? i_size X).

(** The size with the segment, and the memory: its bytes, and zeros on the
    pages that are new. *)
Definition seg_size (sz : Z) (ph : proghdr) : Z := Z.max sz (ph_vaddr ph + ph_memsz ph).
Definition seg_bytes (ph : proghdr) (m : Z -> option Z) (w : Z) : option Z :=
  if decide (ph_vaddr ph <= w < ph_vaddr ph + u32 (ph_filesz ph)) then Some (u8 (fbyte V X (u32 (ph_off ph) + (w - ph_vaddr ph)))) else m w.
Definition grown (n n' : nat) (m : Z -> option Z) (w : Z) : option Z :=
  if decide (4096 * Z.of_nat n <= w < 4096 * Z.of_nat n') then Some 0 else m w.

(** The segments of [n] headers from [off] on, over size [sz] and memory [m]. *)
Fixpoint elf_segments (n : nat) (off sz : Z) (m : Z -> option Z) : option (Z * (Z -> option Z)) :=
  match n with
  | O => Some (sz, m)
  | S k =>
      if negb (read_len (i_size X) (u32 off) sizeof_proghdr =? sizeof_proghdr) then None
      else
        let ph := proghdr_of (fbytes V X (u32 off) sizeof_proghdr) in
        let off' := s32 (off + sizeof_proghdr) in
        if negb (ph_type ph =? ELF_PROG_LOAD) then elf_segments k off' sz m
        else if negb (seg_ok ph) || (seg_size sz ph =? 0) || negb (seg_there ph) then None
        else elf_segments k off' (seg_size sz ph) (seg_bytes ph (grown (pgs sz) (pgs (seg_size sz ph)) m))
  end.

(** The entry point, the size and the memory of the program in the file. *)
Definition elf_image : option (Z * Z * (Z -> option Z)) :=
  if negb (read_len (i_size X) 0 sizeof_elfhdr =? sizeof_elfhdr) then None
  else
    let elf := fbytes V X 0 sizeof_elfhdr in
    if negb (elf_magic elf =? ELF_MAGIC) then None
    else match elf_segments (Z.to_nat (elf_phnum elf)) (s32 (elf_phoff elf)) 0 (fun _ => None) with
         | Some (sz, m) => Some (elf_entry elf, sz, m)
         | None => None
         end.

Lemma elf_segments_size n : forall off sz m sz' m', elf_segments n off sz m = Some (sz', m') -> sz <= sz'.
Proof.
  induction n as [|n IH]; intros off sz m sz' m'; cbn [elf_segments]; [by intros [= -> _]|].
  destruct (negb _); [done|]. cbv zeta. destruct (negb _); [apply IH|]. destruct (_ || _ || _); [done|].
  intros E%IH. unfold seg_size in E. lia.
Qed.
End Elf.

(** ** Memory of the new space *)

Section Load.
Context (kend : Z).
Hypothesis Hkend : KERNBASE <= kend.
Notation page_ok := (page_ok kend).
Notation uspace := (uspace kend).

Definition all_user (m : mem) (pt : Z) (n : nat) : Prop := forall w, 0 <= w < 4096 * Z.of_nat n -> user_leaf (leaf m pt w) = true.

(** Storing into the page behind a user address. *)
Lemma write_page k pt n l w bs : uspace k pt n extra l -> all_user (phys k) pt n -> 0 <= w < 4096 * Z.of_nat n -> w mod 4096 = 0 -> zlen bs <= 4096 ->
  let k' := set_phys (storen (phys k) (PTE2PA (leaf (phys k) pt w)) bs) k in
  uspace k' pt n extra l /\ moved k pt n l k' n l /\ (forall v, leaf (phys k') pt v = leaf (phys k) pt v) /\
  (forall v, ubyte (phys k') pt v = if decide (w <= v < w + zlen bs) then Some (u8 (nthZ 0 bs (v - w))) else ubyte (phys k) pt v).
Proof.
  intros Hu Hall Hw Ha Hlen k'. set (pa := PTE2PA (leaf (phys k) pt w)) in *. pose proof (us_fit _ _ _ _ _ _ Hu) as Hfit. change TRAPFRAME with 274877898752 in Hfit.
  assert (Hin : forall v, 0 <= v < 4096 * Z.of_nat n -> page_ok (PTE2PA (leaf (phys k) pt v)) /\ PTE2PA (leaf (phys k) pt v) ∈ upages (phys k) pt n).
  { intros v Hv. split; [|by apply upages_at]. eapply owns_ok; [exact Hu|]. unfold owns. rewrite elem_of_app. left. by apply upages_at. }
  destruct (Hin w Hw) as [Hpok Hpin]. fold pa in Hpok, Hpin.
  assert (Hm : forall a, ~ in_page pa a -> load8 (phys k') a = load8 (phys k) a).
  { intros a Hna. apply load8_storen_out. unfold in_page in Hna. lia. }
  assert (Hs : same_on (tp 2 (phys k) pt ++ l) (phys k) (phys k')).
  { intros q a Hq Hqa. apply Hm. apply (page_not_self kend q pa a); [|done| |done].
    - eapply owns_ok; [exact Hu|]. unfold owns. rewrite elem_of_app. by right.
    - intros ->. by eapply (owns_split kend). }
  destruct (uspace_frame kend k k' pt n extra l l Hu) as (Hu' & Hup & Htp & Hl); [| |apply Hu|].
  { apply kwf_phys_frame; [apply Hu|]. intros q a Hq. apply (Hs q). apply elem_of_app. by right. }
  { eapply same_on_sub; [|exact Hs]. intros q Hq. apply elem_of_app. by left. }
  split; [exact Hu'|]. split; [split; [unfold owns; by rewrite Hup, Htp|]|split; [exact Hl|]].
  { intros a Ha'. apply Hm, Ha'. unfold owns. rewrite elem_of_app. by left. }
  intros v. unfold ubyte. rewrite (uaddr_leaf_ext _ _ _ Hl). unfold uaddr.
  destruct (decide (0 <= v < 4096 * Z.of_nat n)) as [Hv|Hv].
  - rewrite (Hall v Hv). rewrite bool_decide_eq_true_2 by (change MAXVA with 274877906944; lia). cbn. pose proof (Z.mod_pos_bound v 4096 ltac:(lia)) as Hmod.
    destruct (decide (v / 4096 = w / 4096)) as [Ep|Ep].
    + rewrite (leaf_same_page _ _ _ _ Ep). fold pa. assert (Ev : v mod 4096 = v - w) by (Z.div_mod_to_equations; lia). cbn [phys set_phys k']. rewrite load8_storen, Ev.
      destruct (decide (w <= v < w + zlen bs)); [rewrite decide_True by lia; do 3 f_equal; lia|rewrite decide_False by lia; done].
    + rewrite decide_False by (Z.div_mod_to_equations; lia). f_equal. apply Hm. intros Hpa. apply Ep. apply (upages_inj kend k pt n extra l); try done.
      apply (page_disjoint kend _ _ (PTE2PA (leaf (phys k) pt v) + v mod 4096)); [by apply Hin|done|unfold in_page; lia|done].
  - destruct (user_leaf (leaf (phys k) pt v)) eqn:Hul.
    + destruct (decide (0 <= v < MAXVA)) as [Hv'|Hv']; [exfalso; apply Hv; exact (user_low kend k pt n extra l v Hu Hv' Hul)|]. rewrite bool_decide_eq_false_2 by done. cbn.
      rewrite decide_False; [done|]. Z.div_mod_to_equations. lia.
    + rewrite andb_false_r. cbn. rewrite decide_False; [done|]. Z.div_mod_to_equations. lia.
Qed.

(** The user memory after new pages. *)
Lemma alloc_image k pt n l k' n' l' xperm : uspace k pt n extra l -> all_user (phys k) pt n -> uspace k' pt n' extra l' -> (n <= n')%nat ->
  keeps pt n (phys k) (phys k') -> fresh pt n n' (Z.lor (Z.lor PTE_R PTE_U) xperm) (phys k') ->
  all_user (phys k') pt n' /\ forall w, ubyte (phys k') pt w = grown n n' (ubyte (phys k) pt) w.
Proof.
  intros Hu Hall Hu' Hle [Hl Hs] Hf. pose proof (us_fit _ _ _ _ _ _ Hu') as Hfit. change TRAPFRAME with 274877898752 in Hfit.
  assert (Hall' : all_user (phys k') pt n').
  { intros w Hw. destruct (decide (w < 4096 * Z.of_nat n)); [rewrite Hl by lia; apply Hall; lia|]. by apply (fresh_leaf pt n n' xperm (phys k') w Hf ltac:(lia)). }
  split; [done|]. intros w. unfold grown. destruct (decide (4096 * Z.of_nat n <= w < 4096 * Z.of_nat n')) as [Hw|Hw].
  - unfold ubyte, uaddr. rewrite (Hall' w) by lia. rewrite bool_decide_eq_true_2 by (change MAXVA with 274877906944; lia). cbn. f_equal.
    destruct (Hf (w / 4096)) as (p & Hp & Hpa & Hz); [Z.div_mod_to_equations; lia|]. rewrite Z.mul_comm, leaf_base in Hp. rewrite Hp, Hpa.
    apply Hz. unfold in_page. pose proof (Z.mod_pos_bound w 4096). lia.
  - unfold ubyte. destruct (decide (0 <= w < 4096 * Z.of_nat n)) as [Hlow|Hlow].
    + unfold uaddr. rewrite Hl by done. rewrite (Hall w Hlow). rewrite bool_decide_eq_true_2 by (change MAXVA with 274877906944; lia). cbn. f_equal.
      apply (Hs (PTE2PA (leaf (phys k) pt w))); [by apply upages_at|]. unfold in_page. pose proof (Z.mod_pos_bound w 4096). lia.
    + assert (Hno : forall k1 n1 l1, uspace k1 pt n1 extra l1 -> ~ 0 <= w < 4096 * Z.of_nat n1 -> uaddr (phys k1) pt w = None).
      { intros k1 n1 l1 Hu1 Hn1. unfold uaddr. destruct (bool_decide_reflect (0 <= w < MAXVA)) as [Hv|]; [|done].
        destruct (user_leaf (leaf (phys k1) pt w)) eqn:Hul; [|done]. exfalso. apply Hn1. exact (user_low kend k1 pt n1 extra l1 w Hu1 Hv Hul). }
      by rewrite (Hno k' n' l'), (Hno k n l) by (done || lia).
Qed.

(** uvmalloc() for a segment that ends at [top]. *)
Lemma seg_alloc k pt sz top xperm l : uspace k pt (pgs sz) extra l -> all_user (phys k) pt (pgs sz) -> 0 <= sz -> 0 <= top < 2 ^ 64 -> 0 <= xperm < 1024 ->
  exists r k1 l1, uvmalloc kend pt sz top xperm k = Ret r k1 /\
    ((r = Z.max sz top /\ uspace k1 pt (pgs r) extra l1 /\ moved k pt (pgs sz) l k1 (pgs r) l1 /\ all_user (phys k1) pt (pgs r) /\
        (forall w, ubyte (phys k1) pt w = grown (pgs sz) (pgs r) (ubyte (phys k) pt) w) /\ (length l <= length l1 + 3 * (pgs r - pgs sz))%nat) \/
     (r = 0 /\ uspace k1 pt (pgs sz) extra l1 /\ moved k pt (pgs sz) l k1 (pgs sz) l1 /\ (length l <= 3 * (pgs (Z.max sz top) - pgs sz))%nat)).
Proof using Hkend.
  intros Hu Hall Hsz Htop Hx. destruct (Z.ltb_spec top sz) as [Hlt|Hge].
  - exists sz, k, l. unfold uvmalloc. destruct (Z.ltb_spec top sz); [|lia]. split; [done|]. left. rewrite Z.max_l by lia. split; [done|]. split; [done|]. split; [done|]. split; [done|].
    split; [|lia]. intros w. unfold grown. by rewrite decide_False by lia.
  - destruct (uvmalloc_spec kend Hkend k pt sz top xperm extra l Hu) as (r & k1 & E & n1 & l1 & Hu1 & Hmv & _ & Hr); try done; try lia.
    exists r, k1, l1. split; [done|]. rewrite Z.max_r by lia. pose proof (pgs_mono sz top ltac:(lia)) as Hmono.
    destruct Hr as [(-> & -> & Hk & Hf & Hlen)|(-> & -> & Hlen)]; [left|right; done]. rewrite Nat.max_r in * by done.
    destruct (alloc_image k pt (pgs sz) l k1 (pgs top) l1 xperm Hu Hall Hu1 Hmono Hk Hf) as [Hall1 Hby1]. split; [done|]. split; [done|]. split; [done|]. split; [done|]. split; [done|lia].
Qed.
End Load.

(** ** Running file system code in the kernel *)

Section OnFs.
Context {S : Type} {ops : BlockOps S}.
Notation st := (kst S).
Context (b : st) (ps : procst).

(** The file system's state for the process of [ps], over [b], with inode
    table [it] and memory [k]. *)
Definition fsat (it : list inode) (k : kmem) : fsst S :=
  Fsst (store (kfs b)) (f_sb (kfs b)) (it_lock (kfs b)) it k (p_pagetable (running ps)) (p_pid (running ps)) (p_cwd (running ps)).

(** [s] has process table [ps], block store [y], inode table [it] and memory
    [k], and otherwise is [b]. *)
Definition on (y : S) (it : list inode) (k : kmem) (s : st) : Prop := at_ (set_kfs (set_itable it (set_store y (kfs b))) b) ps k s.

Lemma on_view y it k s : on y it k s -> fs_view s = set_store y (fsat it k).
Proof. intros [H1 H2 H3 H4 H5 H6 H7 H8]. unfold fs_view. rewrite H1, H2, H3, H4, H5, H6. done. Qed.

Lemma run_fs {A} (m : M (fsst S) A) y it k s a y' it' k' : on y it k s -> m (set_store y (fsat it k)) = Ret a (set_store y' (fsat it' k')) ->
  exists s', on_fs m s = Ret a s' /\ on y' it' k' s'.
Proof.
  intros Hon E. pose proof (on_view _ _ _ _ Hon) as Hv. unfold on_fs. rewrite Hv, E. eexists. split; [reflexivity|]. by destruct Hon.
Qed.

Lemma on_mem_run {A} (m : M kmem A) y it k s a k' : on y it k s -> m k = Ret a k' -> exists s', on_mem m s = Ret a s' /\ on y it k' s'.
Proof. apply run_mem. Qed.
End OnFs.

(** ** loadseg() *)

Section LoadSeg.
Context {S : Type} {ops : BlockOps S} {BS : BlockStore S}.
Context (kend : Z).
Hypothesis Hkend : KERNBASE <= kend.
Notation st := (kst S).
Notation uspace := (uspace kend).
Context (b : st) (ps : procst) (V : Z -> list Z) (it : list inode) (ip : Z) (pt : Z).
Notation X := (nthZ inode0 it ip).
Notation on := (on b ps).

(** The file of an inode, whose blocks are all there. *)
Record file_ok (sb : superblock) (V : Z -> list Z) (X : inode) : Prop := {
  fo_wf : fwf sb V ∅ X;
  fo_size : 0 <= i_size X <= MAXFILE * BSIZE;
  fo_alloc : allocated V X 0 (i_size X)
}.
Hypothesis Hfile : file_ok (f_sb (kfs b)) V X.

Lemma run_readi d off n y k s : on y it k s -> bs_rep y true V ∅ [] [] -> in_kernel d -> 0 <= off < 2 ^ 32 -> 0 <= n < 2 ^ 32 ->
  let bs := fbytes V X off (read_len (i_size X) off n) in
  exists y' s', on_fs (readi ip d off n) s = Ret (read_len (i_size X) off n, returned d bs) s' /\ on y' it (kwritten d bs k) s' /\ bs_rep y' true V ∅ [] [].
Proof using Hfile.
  intros Hon HR Hd Ho Hn bs. destruct (readi_kernel (fsat b ps it k) y true V ∅ [] ip d off n HR) as (y' & E & HR'); try apply Hfile; try done.
  { unfold room. rewrite map_size_empty. cbn. unfold NBUF, MAXOPBLOCKS. lia. }
  destruct (run_fs b ps _ y it k s _ y' it (kwritten d bs k) Hon E) as (s' & R & Hon'). by exists y', s'.
Qed.

Lemma read_len_all size off n : 0 <= off < 2 ^ 32 -> 0 < n < 2 ^ 32 -> 0 <= size <= MAXFILE * BSIZE ->
  0 <= read_len size off n <= n /\ (read_len size off n = n <-> off + n <= size).
Proof.
  intros Ho Hn Hs. unfold read_len. change (MAXFILE * BSIZE) with 274432 in Hs. change (2 ^ 32) with 4294967296 in *.
  destruct (Z.ltb_spec size off); cbn [orb]; [lia|]. destruct (Z.leb_spec 4294967296 (off + n)); lia.
Qed.

Lemma loadseg_loop_spec n l va off sz : 0 <= va -> va mod 4096 = 0 -> va + sz <= 4096 * Z.of_nat n -> 0 <= off < 2 ^ 32 -> 0 <= sz ->
  forall fuel y k s i, on y it k s -> bs_rep y true V ∅ [] [] -> uspace k pt n extra l -> all_user (phys k) pt n ->
  i mod 4096 = 0 -> 0 <= i -> (sz - i) / 4096 < Z.of_nat fuel -> (0 < i -> off + Z.min i sz <= i_size X) ->
  exists r y' k' s', loadseg_loop fuel pt va ip off sz i s = Ret r s' /\ on y' it k' s' /\ bs_rep y' true V ∅ [] [] /\
    uspace k' pt n extra l /\ moved k pt n l k' n l /\ all_user (phys k') pt n /\
    ((r = 0 /\ (i < sz -> off + sz <= i_size X) /\ forall w, ubyte (phys k') pt w =
        if decide (va + i <= w < va + sz) then Some (u8 (fbyte V X (off + (w - va)))) else ubyte (phys k) pt w) \/
     (r = -1 /\ i < sz /\ i_size X < off + sz)).
Proof using Hfile Hkend.
  intros Hva Hal Hend Hoff Hsz. induction fuel as [|fuel IH]; intros y k s i Hon HR Hu Hall Hi Hi0 Hfu Hpre; cbn [loadseg_loop]; destruct (Z.ltb_spec i sz) as [Hlt|Hge].
  1: { Z.div_mod_to_equations. lia. }
  1, 3: exists 0, y, k, s; split; [done|]; split; [done|]; split; [done|]; split; [done|]; split; [done|]; split; [done|]; left; split; [done|]; split; [lia|];
    intros w; rewrite decide_False by lia; done.
  pose proof (uspace_bound kend Hkend _ _ _ _ _ Hu) as Hb. pose proof (us_fit _ _ _ _ _ _ Hu) as Hfit. change TRAPFRAME with 274877898752 in Hfit.
  assert (Hw : 0 <= va + i < 4096 * Z.of_nat n) by lia. rewrite (u64_small (va + i)) by (change (2 ^ 64) with 18446744073709551616; lia).
  assert (Hpa : page_ok kend (PTE2PA (leaf (phys k) pt (va + i)))) by (eapply owns_ok; [exact Hu|]; unfold owns; rewrite elem_of_app; left; by apply upages_at).
  destruct (on_mem_run b ps (walkaddr pt (va + i)) y it k s (PTE2PA (leaf (phys k) pt (va + i))) k Hon) as (s1 & R1 & Hon1).
  { rewrite (walkaddr_spec kend Hkend k pt (va + i) l); [|apply Hu|lia]. rewrite (Hall (va + i)) by done. by rewrite bool_decide_eq_true_2 by (change MAXVA with 274877906944; lia). }
  erewrite bind_Ret by exact R1. set (pa := PTE2PA (leaf (phys k) pt (va + i))) in *. pose proof (page_ok_pos kend Hkend pa Hpa). destruct (Z.eqb_spec pa 0); [lia|]. cbv zeta.
  rewrite (u32_small (sz - i)) by (change (2 ^ 32) with 4294967296; lia). change PGSIZE with 4096.
  assert (Hm : (if sz - i <? 4096 then sz - i else 4096) = Z.min (sz - i) 4096) by (destruct (Z.ltb_spec (sz - i) 4096); lia). rewrite Hm.
  set (m := Z.min (sz - i) 4096) in *. pose proof (fo_size _ _ _ Hfile) as Hfs. assert (Hfs' : i_size X <= 274432) by apply Hfs.
  assert (Ho : 0 <= off + i < 2 ^ 32) by (change (2 ^ 32) with 4294967296 in *; destruct (decide (0 < i)); [specialize (Hpre ltac:(lia))|]; lia).
  rewrite (u32_small (off + i)) by done.
  assert (Hm32 : 0 < m < 2 ^ 32) by (change (2 ^ 32) with 4294967296; lia). destruct (read_len_all (i_size X) (off + i) m Ho Hm32 Hfs) as [Hrl Hrlm].
  destruct (run_readi (KernDst pa) (off + i) m y k s1 Hon1 HR I Ho ltac:(lia)) as (y2 & s2 & R2 & Hon2 & HR2). erewrite bind_Ret by exact R2. cbn [fst].
  set (rl := read_len (i_size X) (off + i) m) in *. set (bs := fbytes V X (off + i) rl) in *. assert (Hbs : zlen bs = rl) by (apply zlen_fbytes; lia).
  destruct (write_page kend k pt n l (va + i) bs Hu Hall Hw) as (Hu2 & Hmv2 & Hl2 & Hby2); [Z.div_mod_to_equations; lia|lia|]. fold pa in Hu2, Hmv2, Hl2, Hby2.
  cbn [kwritten] in Hon2. set (k2 := set_phys (storen (phys k) pa bs) k) in *. assert (Hall2 : all_user (phys k2) pt n) by (intros w Hw'; rewrite Hl2; by apply Hall).
  rewrite (u32_small rl) by (change (2 ^ 32) with 4294967296 in *; lia). destruct (Z.eqb_spec rl m) as [Erl|Erl]; cbn [negb].
  2: { exists (-1), y2, k2, s2. split; [done|]. split; [done|]. split; [done|]. split; [done|]. split; [done|]. split; [done|]. right. split; [done|]. split; [done|]. lia. }
  apply Hrlm in Erl as Hin. rewrite (u32_small (i + 4096)) by (change (2 ^ 32) with 4294967296; lia).
  destruct (IH y2 k2 s2 (i + 4096) Hon2 HR2 Hu2 Hall2) as (r & y' & k' & s' & E & Hon' & HR' & Hu' & Hmv' & Hall' & Hr); [Z.div_mod_to_equations; lia|lia|Z.div_mod_to_equations; lia|lia|].
  exists r, y', k', s'. split; [exact E|]. split; [done|]. split; [done|]. split; [done|]. split; [by eapply moved_trans|]. split; [done|].
  destruct Hr as [(-> & Hsz' & Hby)|(-> & Hlt' & Hshort)]; [left|right; split; [done|]; split; [done|lia]].
  split; [done|]. split; [intros _; destruct (decide (i + 4096 < sz)); [by apply Hsz'|lia]|].
  intros w. rewrite Hby. destruct (decide (va + (i + 4096) <= w < va + sz)); [by rewrite decide_True by lia|]. rewrite Hby2, Hbs.
  destruct (decide (va + i <= w < va + i + rl)); [|by rewrite decide_False by lia]. rewrite decide_True by lia. do 2 f_equal. unfold bs. rewrite nthZ_fbytes by lia. f_equal. lia.
Qed.

Lemma loadseg_spec n l va off sz y k s : 0 <= va -> va mod 4096 = 0 -> va + sz <= 4096 * Z.of_nat n -> 0 <= off < 2 ^ 32 -> 0 <= sz ->
  on y it k s -> bs_rep y true V ∅ [] [] -> uspace k pt n extra l -> all_user (phys k) pt n ->
  exists r y' k' s', loadseg pt va ip off sz s = Ret r s' /\ on y' it k' s' /\ bs_rep y' true V ∅ [] [] /\
    uspace k' pt n extra l /\ moved k pt n l k' n l /\ all_user (phys k') pt n /\
    ((r = 0 /\ (sz = 0 \/ off + sz <= i_size X) /\ forall w, ubyte (phys k') pt w =
        if decide (va <= w < va + sz) then Some (u8 (fbyte V X (off + (w - va)))) else ubyte (phys k) pt w) \/
     (r = -1 /\ 0 < sz /\ i_size X < off + sz)).
Proof using Hfile Hkend.
  intros Hva Hal Hend Hoff Hsz Hon HR Hu Hall.
  destruct (loadseg_loop_spec n l va off sz Hva Hal Hend Hoff Hsz (Z.to_nat (sz / PGSIZE + 1)) y k s 0 Hon HR Hu Hall) as (r & y' & k' & s' & E & Hon' & HR' & Hu' & Hmv' & Hall' & Hr);
    [done|lia|change PGSIZE with 4096; Z.div_mod_to_equations; lia|lia|].
  exists r, y', k', s'. split; [exact E|]. do 5 (split; [done|]). destruct Hr as [(-> & H1 & H2)|Hr]; [left|by right]. split; [done|].
  split; [destruct (decide (sz = 0)); [by left|right; apply H1; lia]|]. intros w. rewrite H2. by rewrite Z.add_0_r.
Qed.

(** ** The segments *)

Lemma get64_range d o : 0 <= o -> o + 8 <= zlen d -> 0 <= get64 d o < 2 ^ 64.
Proof. intros Ho Hd. unfold get64. pose proof (get32_range d o ltac:(lia) ltac:(lia)). pose proof (get32_range d (o + 4) ltac:(lia) ltac:(lia)). change (2 ^ 32) with 4294967296 in *. change (2 ^ 64) with 18446744073709551616. lia. Qed.

Lemma seg_ok_sums d : zlen d = 56 -> seg_ok (proghdr_of d) = true -> let ph := proghdr_of d in
  ph_filesz ph <= ph_memsz ph /\ u64 (ph_vaddr ph + ph_memsz ph) = ph_vaddr ph + ph_memsz ph /\ ph_vaddr ph mod 4096 = 0 /\
  0 <= ph_vaddr ph /\ 0 <= ph_filesz ph /\ ph_vaddr ph + ph_memsz ph < 2 ^ 64.
Proof.
  intros Hd H ph. unfold seg_ok in H. fold ph in H. rewrite !andb_true_iff, !negb_true_iff, !Z.ltb_ge, Z.eqb_eq in H. destruct H as ((H1 & H2) & H3).
  assert (Hr : 0 <= ph_vaddr ph < 2 ^ 64 /\ 0 <= ph_memsz ph < 2 ^ 64 /\ 0 <= ph_filesz ph) by (unfold ph, proghdr_of; cbn; split; [|split]; try (apply get64_range; lia)).
  change (2 ^ 64) with 18446744073709551616 in *. assert (Hsum : ph_vaddr ph + ph_memsz ph < 18446744073709551616).
  { destruct (Z.lt_ge_cases (ph_vaddr ph + ph_memsz ph) 18446744073709551616); [done|]. exfalso. unfold u64 in H2. change (2 ^ 64) with 18446744073709551616 in H2.
    revert H2. rewrite <- (Z.mod_add _ (-1)) by done. rewrite Z.mod_small by lia. lia. }
  split; [done|]. split; [apply u64_small; change (2 ^ 64) with 18446744073709551616; lia|]. split; [done|]. lia.
Qed.

Lemma flags2perm_range f : 0 <= flags2perm f < 1024.
Proof. unfold flags2perm. destruct (negb _), (negb _); by vm_compute. Qed.

Definition seg_post (l0 : list Z) (nh : nat) (off sz : Z) (m : Z -> option Z) (r : bool * Z) (k' : kmem) (l' : list Z) : Prop :=
  if fst r then (length l0 <= length l' + 3 * pgs (snd r))%nat /\ exists m', elf_segments V X nh off sz m = Some (snd r, m') /\ forall w, ubyte (phys k') pt w = m' w
  else match elf_segments V X nh off sz m with Some (sz2, _) => (length l0 <= 3 * pgs sz2)%nat | None => True end.

Lemma exec_segments_spec l0 nh : forall y k s off sz m l,
  on y it k s -> bs_rep y true V ∅ [] [] -> 0 <= sz -> uspace k pt (pgs sz) extra l -> all_user (phys k) pt (pgs sz) ->
  (forall w, ubyte (phys k) pt w = m w) -> (length l0 <= length l + 3 * pgs sz)%nat ->
  exists r y' k' s' l', exec_segments kend nh pt ip off sz s = Ret r s' /\ on y' it k' s' /\ bs_rep y' true V ∅ [] [] /\ 0 <= snd r /\
    uspace k' pt (pgs (snd r)) extra l' /\ moved k pt (pgs sz) l k' (pgs (snd r)) l' /\ seg_post l0 nh off sz m r k' l'.
Proof using Hfile Hkend.
  induction nh as [|nh IH]; intros y k s off sz m l Hon HR Hsz Hu Hall Hm Hl0; cbn [exec_segments].
  { exists (true, sz), y, k, s, l. do 6 (split; [done|]). split; [done|]. by exists m. }
  assert (Hstop : forall (sz' : Z) y' k' s' l', elf_segments V X (Datatypes.S nh) off sz m = None -> on y' it k' s' -> bs_rep y' true V ∅ [] [] -> 0 <= sz' ->
    uspace k' pt (pgs sz') extra l' -> moved k pt (pgs sz) l k' (pgs sz') l' ->
    exists r y'' k'' s'' l'', Ret (false, sz') s' = Ret r s'' /\ on y'' it k'' s'' /\ bs_rep y'' true V ∅ [] [] /\ 0 <= snd r /\
      uspace k'' pt (pgs (snd r)) extra l'' /\ moved k pt (pgs sz) l k'' (pgs (snd r)) l'' /\ seg_post l0 (Datatypes.S nh) off sz m r k'' l'').
  { intros sz' y' k' s' l' HN H1 H2 H3 H4 H5. exists (false, sz'), y', k', s', l'. do 6 (split; [done|]). unfold seg_post. cbn [fst]. by rewrite HN. }
  unfold seg_post in *. cbn [elf_segments] in *.
  destruct (run_readi KernVar (u32 off) sizeof_proghdr y k s Hon HR I (u32_range off) ltac:(done)) as (y1 & s1 & R1 & Hon1 & HR1). erewrite bind_Ret by exact R1. cbn [fst snd returned kwritten] in *.
  destruct (Z.eqb_spec (read_len (i_size X) (u32 off) sizeof_proghdr) sizeof_proghdr) as [Erl|Erl]; cbn [negb] in *; [|by eapply Hstop].
  rewrite Erl. cbv zeta in *. set (d := fbytes V X (u32 off) sizeof_proghdr) in *. set (ph := proghdr_of d) in *.
  destruct (ph_type ph =? ELF_PROG_LOAD); cbn [negb] in *; [|by apply (IH y1 k s1 (s32 (off + sizeof_proghdr)) sz m l)].
  destruct (seg_ok ph) eqn:Hok; cbn [negb orb] in *.
  2: { unfold seg_ok in Hok. destruct (ph_memsz ph <? ph_filesz ph); [by eapply Hstop|]. destruct (u64 (ph_vaddr ph + ph_memsz ph) <? ph_vaddr ph); [by eapply Hstop|].
       cbn [negb andb] in Hok. rewrite Hok. cbn [negb]. by eapply Hstop. }
  destruct (seg_ok_sums d ltac:(by apply zlen_fbytes) Hok) as (Hfm & Hsum & Hal & Hva & Hfs & Htop). fold ph in Hfm, Hsum, Hal, Hva, Hfs, Htop.
  destruct (Z.ltb_spec (ph_memsz ph) (ph_filesz ph)); [lia|]. rewrite Hsum. destruct (Z.ltb_spec (ph_vaddr ph + ph_memsz ph) (ph_vaddr ph)); [lia|].
  change (ph_vaddr ph mod PGSIZE) with (ph_vaddr ph mod 4096). rewrite Hal. cbn [negb Z.eqb].
  destruct (seg_alloc kend Hkend k pt sz (ph_vaddr ph + ph_memsz ph) (flags2perm (ph_flags ph)) l Hu Hall Hsz ltac:(lia) (flags2perm_range _)) as (r & k1 & l1 & E2 & Hr).
  destruct (on_mem_run b ps _ _ _ _ _ _ _ Hon1 E2) as (s2 & R2 & Hon2). erewrite bind_Ret by exact R2. fold (seg_size sz ph) in Hr.
  destruct Hr as [(-> & Hu1 & Hmv1 & Hall1 & Hby1 & Hlen1)|(-> & Hu1 & Hmv1 & Hlen1)].
  2: { cbn [Z.eqb]. exists (false, sz), y1, k1, s2, l1. do 6 (split; [done|]). cbn [fst]. destruct (_ || _); [done|]. destruct (elf_segments V X nh _ _ _) as [[sz2 m2]|] eqn:Ee; [|done].
       apply elf_segments_size in Ee. pose proof (pgs_mono (seg_size sz ph) sz2 ltac:(unfold seg_size in *; lia)).
       pose proof (pgs_mono sz (seg_size sz ph) ltac:(unfold seg_size; lia)). lia. }
  destruct (Z.eqb_spec (seg_size sz ph) 0) as [Ez|Ez]; cbn [orb] in *.
  { assert (sz = 0) as -> by (unfold seg_size in Ez; lia). rewrite Ez in *. by eapply Hstop. }
  set (sz1 := seg_size sz ph) in *. assert (Hsz1 : sz <= sz1 /\ ph_vaddr ph + ph_memsz ph <= sz1) by (unfold sz1, seg_size; lia).
  pose proof (pgs_mono sz sz1 ltac:(lia)) as Hmono. pose proof (u32_range (ph_filesz ph)) as Hf32. assert (Hfle : u32 (ph_filesz ph) <= ph_filesz ph) by (apply Z.mod_le; lia).
  destruct (loadseg_spec (pgs sz1) l1 (ph_vaddr ph) (u32 (ph_off ph)) (u32 (ph_filesz ph)) y1 k1 s2) as (r & y3 & k3 & s3 & E3 & Hon3 & HR3 & Hu3 & Hmv3 & Hall3 & Hr); try done.
  { rewrite pgs_of by lia. Z.div_mod_to_equations. lia. }
  { apply u32_range. } { lia. }
  erewrite bind_Ret by exact E3. pose proof (moved_trans _ _ _ _ _ _ _ _ _ _ Hmv1 Hmv3) as Hmv.
  assert (Hthere : seg_there X ph = bool_decide (r = 0)).
  { unfold seg_there. destruct Hr as [(-> & [Hz|Hle] & _)|(-> & Hp & Hgt)]; [by rewrite Hz|rewrite (proj2 (Z.leb_le _ _) Hle); by rewrite orb_true_r|].
    destruct (Z.eqb_spec (u32 (ph_filesz ph)) 0); [lia|]. destruct (Z.leb_spec (u32 (ph_off ph) + u32 (ph_filesz ph)) (i_size X)); [lia|done]. }
  rewrite Hthere in *. destruct Hr as [(-> & _ & Hby3)|(-> & _ & _)]; cbn [Z.ltb Z.compare negb orb bool_decide] in *; [|eapply Hstop; try done; lia].
  destruct (IH y3 k3 s3 (s32 (off + sizeof_proghdr)) sz1 (seg_bytes V X ph (grown (pgs sz) (pgs sz1) m)) l1 Hon3 HR3) as (r & y' & k' & s' & l' & E & Hon' & HR' & Hsz' & Hu' & Hmv' & Hpost); try done; try lia.
  { intros w. rewrite Hby3. unfold seg_bytes. destruct (decide (ph_vaddr ph <= w < ph_vaddr ph + u32 (ph_filesz ph))); [done|].
    rewrite Hby1. unfold grown. destruct (decide _); [done|apply Hm]. }
  exists r, y', k', s', l'. split; [exact E|]. split; [done|]. split; [done|]. split; [done|]. split; [done|]. split; [by eapply moved_trans|exact Hpost].
Qed.
End LoadSeg.

(** ** exec() *)

Section FromDisk.
Context (V : Z -> list Z) (X Y : inode).
Hypothesis HXY : disk_fields X = disk_fields Y.

Lemma fbyte_fields : fbyte V X = fbyte V Y.
Proof using HXY. assert (E : i_addrs X = i_addrs Y) by (by injection HXY). unfold fbyte, bptr. by rewrite E. Qed.

Lemma elf_image_fields : elf_image V X = elf_image V Y.
Proof using HXY.
  assert (Es : i_size X = i_size Y) by (by injection HXY).
  assert (Hseg : forall n off sz m, elf_segments V X n off sz m = elf_segments V Y n off sz m).
  { induction n as [|n IH]; intros off sz m; [done|]. cbn [elf_segments]. unfold fbytes, seg_there, seg_bytes. rewrite Es, fbyte_fields.
    destruct (negb _); [done|]. cbv zeta. destruct (negb _); [apply IH|]. destruct (_ || _ || _); [done|]. apply IH. }
  unfold elf_image. unfold fbytes at 1 2 3 4 5. rewrite Es. unfold fbytes. rewrite fbyte_fields. by rewrite Hseg.
Qed.

Lemma file_ok_fields {S} {ops : BlockOps S} {BS : BlockStore S} sb : i_dev X = i_dev Y -> file_ok sb V Y -> file_ok sb V X.
Proof using HXY.
  intros Ed [[F1 F2 F3 F4] H2 H3]. assert (E1 : i_addrs X = i_addrs Y) by (by injection HXY). assert (E2 : i_size X = i_size Y) by (by injection HXY).
  assert (Eb : forall j, bptr V X j = bptr V Y j) by (intros j; by apply bptr_fields). split.
  - split; [by rewrite Ed|by rewrite E1|intros j; rewrite Eb; apply F3|intros j j'; rewrite !Eb; apply F4].
  - by rewrite E2.
  - unfold allocated in *. rewrite E2. intros o Ho. rewrite Eb. by apply H3.
Qed.
End FromDisk.

Section ExecTop.
Context {S : Type} {ops : BlockOps S} {BS : BlockStore S}.
Context (kend trampoline : Z).
Hypothesis Hkend : KERNBASE <= kend.
Hypothesis Htramp : trampoline mod 4096 = 0 /\ 0 <= trampoline < 2 ^ 55.
Notation st := (kst S).
Notation uspace := (uspace kend).
Notation owner := (owner kend).

Section Steps.
Context (b : st) (ps : procst) (V : Z -> list Z) (R : gmap Z Z).
Notation on := (on b ps).
Notation fsat := (fsat b ps).

Lemma run_store {A} (m : M S A) y it k s a y' : on y it k s -> m y = Ret a y' -> exists s', on_fs (on_store m) s = Ret a s' /\ on y' it k s'.
Proof. intros Hon E. eapply run_fs; [exact Hon|]. by apply on_store_Ret. Qed.

Lemma run_namei path cwd y it k s : on y it k s -> 0 ∉ path -> bs_rep y true V ∅ [] [] -> tree_ok (fsat it k) V ∅ ->
  tab_ok unlocked (fsat it k) V R -> refers (fsat it k) (p_cwd (running ps)) cwd -> live (f_sb (kfs b)) V ∅ (start_of path cwd) -> Z.of_nat (base.size R) + 2 <= NINODE ->
  exists ip y' it' s', on_fs (namei path) s = Ret ip s' /\ on y' it' k s' /\ bs_rep y' true V ∅ [] [] /\
    match FsPath.walk (f_sb (kfs b)) V false (start_of path cwd) (elems path) with
    | Some i => tab_ok unlocked (fsat it' k) V (ref_add i R) /\ refers (fsat it' k) ip i
    | None => ip = NULL /\ tab_ok unlocked (fsat it' k) V R
    end.
Proof.
  intros Hon H0 HR Htr Ht Hc Hlv Hsz.
  destruct (namex_spec path false (repeat 0 (Z.to_nat DIRSIZ)) true V ∅ [] R cwd (fsat it k) y H0 eq_refl HR Htr Ht Hc Hlv Hsz) as (r & y' & f' & E & HR' & Hk & Hres).
  { unfold room. rewrite map_size_empty. cbn. unfold NBUF, MAXOPBLOCKS. lia. }
  assert (Ef : f' = fsat (itable f') k) by exact Hk.
  destruct (run_fs b ps (namei path) y it k s (fst r) y' (itable f') k Hon) as (s' & Rn & Hon').
  { unfold namei. erewrite bind_Ret by exact E. by rewrite Ef at 1. }
  exists (fst r), y', (itable f'), s'. split; [done|]. split; [done|]. split; [done|]. change (f_sb (fsat it k)) with (f_sb (kfs b)) in Hres.
  destruct (FsPath.walk _ _ _ _ _); rewrite <- Ef; [|done]. by destruct Hres as (? & ? & _).
Qed.

Lemma walk_live (f : fsst S) es : forall i j, tree_ok f V ∅ -> live (f_sb f) V ∅ i -> FsPath.walk (f_sb f) V false i es = Some j -> live (f_sb f) V ∅ j.
Proof.
  induction es as [|e es IH]; intros i j Htr Hi; cbn [FsPath.walk]; [by intros [= ->]|]. destruct (Z.eqb_spec (i_type (on_disk (f_sb f) V i)) T_DIR); [|done].
  cbn [andb]. destruct (dir_find _ _ _) as [[q j']|] eqn:E; [|done]. apply IH; [done|]. by eapply (tr_entry _ _ _ Htr i).
Qed.

(** The inode locked, in a table with its reference. *)
Definition opened (it : list inode) (k : kmem) (ip i : Z) : Prop :=
  tab_ok (lk_set ip (sl_held (p_pid (running ps))) unlocked) (fsat it k) V (ref_add i R) /\ refers (fsat it k) ip i /\
  disk_fields (nthZ inode0 it ip) = disk_fields (on_disk (f_sb (kfs b)) V i) /\ i_dev (nthZ inode0 it ip) = ROOTDEV.

Lemma opened_mem it k k' ip i : opened it k ip i -> opened it k' ip i.
Proof. intros ([? ? ? ? ? ? ?] & H). split; [by split|exact H]. Qed.

Lemma run_ilock y it k s ip i : on y it k s -> bs_rep y true V ∅ [] [] -> tab_ok unlocked (fsat it k) V (ref_add i R) -> refers (fsat it k) ip i ->
  live (f_sb (kfs b)) V ∅ i -> exists y' it' s', on_fs (ilock ip) s = Ret tt s' /\ on y' it' k s' /\ bs_rep y' true V ∅ [] [] /\ opened it' k ip i.
Proof.
  intros Hon HR Ht Href Hlv. destruct (ilock_tab unlocked (fsat it k) y true V ∅ [] (ref_add i R) ip i HR Ht Href eq_refl Hlv) as (y' & X & E & HR' & Ht' & Hid & _ & _ & Hdf).
  { unfold room. rewrite map_size_empty. cbn. unfold NBUF, MAXOPBLOCKS. lia. }
  destruct (run_fs b ps (ilock ip) y it k s tt y' (updZ ip X it) k Hon E) as (s' & Ri & Hon'). exists y', (updZ ip X it), s'. split; [done|]. split; [done|]. split; [done|].
  pose proof Href as (Hip & Hu & Hn). assert (Hlen : zlen it = NINODE) by apply (tb_len _ _ _ _ Ht).
  assert (Hat : nthZ inode0 (updZ ip X it) ip = X) by (apply nthZ_updZ_eq; lia). split; [exact Ht'|]. split; [|rewrite Hat].
  - apply (refers_other (fsat it k) ip X ip i); [done|done|right; destruct Hid as (-> & -> & _); done|done].
  - split; [done|]. destruct Hid as (_ & _ & ->). by apply (tb_used _ _ _ _ Ht).
Qed.

(** iunlockput() and end_op(). *)
Lemma run_close y it k k' s ip i : on y it k s -> bs_rep y true V ∅ [] [] -> opened it k' ip i -> live (f_sb (kfs b)) V ∅ i -> positive R ->
  exists y' V' it' s1 s', on_fs (iunlockput ip) s = Ret tt s1 /\ end_op_ s1 = Ret tt s' /\ on y' it' k s' /\ bs_rep y' false V' ∅ [] [] /\ (forall c, bs_home c -> V' c = V c) /\
    tab_ok unlocked (fsat it' k) V R.
Proof.
  intros Hon HR (Ht & Href & _) Hlv Hp.
  assert (Ht2 : tab_ok (lk_set ip (sl_held (p_pid (running ps))) unlocked) (fsat it k) V (ref_add i R)) by (destruct Ht; by split).
  destruct (unlockput_tab _ (fsat it k) y V ∅ (ref_add i R) ip i Ht2 Href) as (f' & E & Ht' & Hk & _); [unfold lk_set; by rewrite decide_True|exact Hlv|].
  rewrite ref_drop_add in Ht' by done. assert (Ef : f' = fsat (itable f') k) by exact Hk.
  destruct (run_fs b ps (iunlockput ip) y it k s tt y (itable f') k Hon) as (s1 & R1 & Hon1); [by rewrite <- Ef|].
  destruct (bs_end_op_ok y V [] HR) as (y' & V' & E2 & HR' & HV'). destruct (run_store bs_end_op y (itable f') k s1 tt y' Hon1 E2) as (s' & R2 & Hon2).
  exists y', V', (itable f'), s1, s'. split; [done|]. split; [done|]. split; [done|]. split; [done|]. split; [done|].
  rewrite <- Ef. eapply tab_ext; [|exact Ht']. apply lk_back.
Qed.
End Steps.

(** *** What exec() leaves *)

(** The transaction is over, no block and no reference count has changed, and
    no inode is locked. *)
Definition closed (s : st) (V : Z -> list Z) (R : gmap Z Z) (ps' : procst) (k' : kmem) (s' : st) : Prop :=
  exists y it V', at_ (set_kfs (set_itable it (set_store y (kfs s))) s) ps' k' s' /\ bs_rep y false V' ∅ [] [] /\
    (forall c, bs_home c -> V' c = V c) /\ tab_ok unlocked (kfs s') V R.

(** The process with the memory it had, every page it does not own free. *)
Record same_process (k : kmem) (x : proc) (l : list Z) (k' : kmem) (l' : list Z) : Prop := {
  sp_owner : owner k' x l';
  sp_kept : keeps (p_pagetable x) (pgs (p_sz x)) (phys k) (phys k');
  sp_tf : tf_same (phys k) (phys k') (p_trapframe x);
  sp_free : l' ≡ₚ l
}.

(** The process with the program: its image [m] below the guard page, the
    arguments on the stack, and the registers. *)
Record runs (k : kmem) (x : proc) (l path : list Z) (args : list (list Z)) (entry sz : Z) (m : Z -> option Z) (pt : Z) (k' : kmem) (l' : list Z) : Prop := {
  ru_owner : owner k' (image path pt (stack_top (pgs sz)) x) l';
  ru_pages : proc_pages (phys k') (image path pt (stack_top (pgs sz)) x) ++ l' ≡ₚ proc_pages (phys k) x ++ l;
  ru_program : forall w, 0 <= w < 4096 * Z.of_nat (pgs sz) -> ubyte (phys k') pt w = m w;
  ru_guard : guarded (phys k') pt (pgs sz);
  ru_args : arguments (phys k') pt (stack_top (pgs sz)) args;
  ru_sp : load64 (phys k') (p_trapframe x + tf_sp) = argv_at (stack_top (pgs sz)) args;
  ru_a1 : load64 (phys k') (p_trapframe x + tf_a1) = argv_at (stack_top (pgs sz)) args;
  ru_pc : load64 (phys k') (p_trapframe x + tf_epc) = u64 entry;
  ru_regs : forall o, 0 <= o < 4096 -> ~ tf_sp <= o < tf_sp + 8 -> ~ tf_a1 <= o < tf_a1 + 8 -> ~ tf_epc <= o < tf_epc + 8 ->
    load8 (phys k') (p_trapframe x + o) = load8 (phys k) (p_trapframe x + o)
}.

Definition too_big (sz : Z) (args : list (list Z)) (l : list Z) : Prop :=
  ~ fits (stack_top (pgs sz) - 4096) (stack_top (pgs sz)) args \/ (length l <= 3 * pgs sz + 11)%nat.

(** *** The space under construction *)

(** The table at [pt] is built from the pages of [l]. *)
Definition built (k : kmem) (l : list Z) (pt : Z) (n : nat) (k1 : kmem) (l1 : list Z) : Prop :=
  uspace k1 pt n extra l1 /\ owns k1 pt n l1 ≡ₚ l /\ (forall a, (forall q, q ∈ l -> ~ in_page q a) -> load8 (phys k1) a = load8 (phys k) a).

Lemma built_moved k l pt n k1 l1 n2 k2 l2 : built k l pt n k1 l1 -> uspace k2 pt n2 extra l2 -> moved k1 pt n l1 k2 n2 l2 -> built k l pt n2 k2 l2.
Proof.
  intros (_ & Hown & Hm) Hu [Hown' Hm']. split; [done|]. split; [by rewrite Hown'|]. intros a Ha. rewrite Hm'; [by apply Hm|]. intros q. rewrite Hown. apply Ha.
Qed.

Lemma built_owner k x l pt n k1 l1 : owner k x l -> p_pagetable x <> 0 -> p_trapframe x <> 0 -> built k l pt n k1 l1 ->
  owner k1 x l1 /\ proc_pages (phys k1) x = proc_pages (phys k) x /\ keeps (p_pagetable x) (pgs (p_sz x)) (phys k) (phys k1) /\
  tf_same (phys k) (phys k1) (p_trapframe x) /\ beside kend k1 x pt n l1.
Proof using Hkend.
  intros Ho Hp Ht (Hu & Hown & Hm). destruct (owner_apart kend k x l k1 l1 Ho Hp Ht (proj1 (us_wf _ _ _ _ _ _ Hu))) as (Ho1 & Hpg & Hk & Htf); [|done|].
  { intros q Hq. rewrite <- Hown. unfold owns. rewrite !elem_of_app. auto. }
  do 4 (split; [done|]). split; [done|]. rewrite Hpg. intros q Hq. rewrite Hown. intros Hin.
  pose proof (ow_pages _ _ _ _ Ho) as Hnd. apply NoDup_app in Hnd as (_ & Hd & _). by apply (Hd q).
Qed.

Lemma at_trans (b s1 s2 : st) ps1 ps2 k1 k2 : at_ b ps1 k1 s1 -> at_ s1 ps2 k2 s2 -> at_ b ps2 k2 s2.
Proof. intros [? ? H3 H4 H5 H6 H7 H8] [? ? G3 G4 G5 G6 G7 G8]. split; [done|done|by rewrite G3|by rewrite G4|by rewrite G5|by rewrite G6|by rewrite G7|by rewrite G8]. Qed.

Lemma tab_same lk (f f' : fsst S) V R : itable f' = itable f -> it_lock f' = it_lock f -> f_sb f' = f_sb f -> tab_ok lk f V R -> tab_ok lk f' V R.
Proof. destruct f, f'. cbn. intros -> -> -> [? ? ? ? ? ? ?]. by split. Qed.

Lemma on_tab (s : st) ps y it k s' V R k1 : on s ps y it k s' -> tab_ok unlocked (fsat s ps it k1) V R -> tab_ok unlocked (kfs s') V R.
Proof. intros [_ _ _ H2 H3 H4 _ _]. by apply tab_same. Qed.

Lemma ubyte_keeps m m' pt n w : keeps pt n m m' -> 0 <= w < 4096 * Z.of_nat n -> ubyte m' pt w = ubyte m pt w.
Proof.
  intros [Hl Hs] Hw. unfold ubyte, uaddr. rewrite Hl by done. destruct (_ && _); [|done]. cbn. f_equal.
  apply (Hs (PTE2PA (leaf m pt w))); [by apply upages_at|]. unfold in_page. pose proof (Z.mod_pos_bound w 4096). lia.
Qed.

(** *** The whole of exec() *)

(** A process at rest, a file system at rest, and argument pages of the
    kernel's. *)
Record exec_pre (s : st) (path argv : list Z) (args : list (list Z)) (V : Z -> list Z) (R : gmap Z Z) (cwd : Z) (l : list Z) : Prop := {
  ep_cur : 0 <= curp (kproc s) < zlen (procs (kproc s));
  ep_owner : owner (umem (kfs s)) (running (kproc s)) l;
  ep_pt : p_pagetable (running (kproc s)) <> 0;
  ep_tf : p_trapframe (running (kproc s)) <> 0;
  ep_store : bs_rep (store (kfs s)) false V ∅ [] [];
  ep_tree : tree_ok (kfs s) V ∅;
  ep_table : tab_ok unlocked (kfs s) V R;
  ep_room : Z.of_nat (base.size R) + 2 <= NINODE;
  ep_cwd : refers (kfs s) (p_cwd (running (kproc s))) cwd;
  ep_start : live (f_sb (kfs s)) V ∅ (start_of path cwd);
  ep_path : 0 ∉ path;
  ep_file : forall i, FsPath.walk (f_sb (kfs s)) V false (start_of path cwd) (elems path) = Some i -> file_ok (f_sb (kfs s)) V (on_disk (f_sb (kfs s)) V i);
  ep_args : Forall2 (fun a bs => str_page (phys (umem (kfs s))) a bs /\ page_ok kend a /\ a ∉ l) argv args;
  ep_argc : zlen args < MAXARG
}.

(** The program a path names, if it names one. *)
Definition program (s : st) (V : Z -> list Z) (path : list Z) (cwd : Z) : option (Z * Z * (Z -> option Z)) :=
  match FsPath.walk (f_sb (kfs s)) V false (start_of path cwd) (elems path) with
  | Some i => elf_image V (on_disk (f_sb (kfs s)) V i)
  | None => None
  end.

Definition exec_result (s : st) (path : list Z) (args : list (list Z)) (V : Z -> list Z) (R : gmap Z Z) (cwd : Z) (l : list Z) (r : Z) (s' : st) : Prop :=
  let ps := kproc s in let x := running ps in let k := umem (kfs s) in
  exists k' l',
    (r = zlen args /\ exists entry sz m pt, program s V path cwd = Some (entry, sz, m) /\
       closed s V R (upd_proc (curp ps) (image path pt (stack_top (pgs sz))) ps) k' s' /\ runs k x l path args entry sz m pt k' l') \/
    (r = -1 /\ closed s V R ps k' s' /\ same_process k x l k' l' /\
       match program s V path cwd with Some (_, sz, _) => too_big sz args l | None => True end).

Section Result.
Context (s : st) (path argv : list Z) (args : list (list Z)) (V : Z -> list Z) (R : gmap Z Z) (cwd : Z) (l : list Z).
Hypothesis Hpre : exec_pre s path argv args V R cwd l.
Notation ps := (kproc s).
Notation x := (running (kproc s)).
Notation k := (umem (kfs s)).

(** Back to the process as it was, with all pages in [l1]. *)
Lemma same_from k1 l1 : kwf kend k1 l1 -> l1 ≡ₚ l -> (forall a, (forall q, q ∈ l -> ~ in_page q a) -> load8 (phys k1) a = load8 (phys k) a) -> same_process k x l k1 l1.
Proof using Hpre.
  intros Hk Hl Hm. destruct Hpre. destruct (owner_apart kend k x l k1 l1 ep_owner0 ep_pt0 ep_tf0 Hk) as (Ho & _ & Hkp & Htf); [intros q; by rewrite Hl|done|]. by split.
Qed.

(** bad: with the inode open; the table is there or not. *)
Lemma exec_fail y it k1 s1 ip i pt sz l1 : on s ps y it k1 s1 -> bs_rep y true V ∅ [] [] -> opened s ps V R it k1 ip i -> live (f_sb (kfs s)) V ∅ i ->
  (pt = 0 /\ kwf kend k1 l1 /\ l1 ≡ₚ l /\ (forall a, (forall q, q ∈ l -> ~ in_page q a) -> load8 (phys k1) a = load8 (phys k) a)) \/
  (pt <> 0 /\ 0 <= sz /\ built k l pt (pgs sz) k1 l1) ->
  exists s' k' l', exec_bad kend pt sz ip s1 = Ret (-1) s' /\ closed s V R ps k' s' /\ same_process k x l k' l'.
Proof using Hpre Hkend.
  intros Hon HR Hop Hlv Hmem. pose proof (tab_positive _ _ _ _ (ep_table _ _ _ _ _ _ _ _ Hpre)) as Hpos.
  assert (Hip : (ip =? NULL) = false) by (destruct Hop as (_ & (Hr & _) & _); apply Z.eqb_neq; unfold NULL; lia).
  assert (H1 : exists s2 k2 l2, (if negb (pt =? 0) then proc_freepagetable kend pt sz else ret tt) s1 = Ret tt s2 /\ on s ps y it k2 s2 /\ kwf kend k2 l2 /\ l2 ≡ₚ l /\
    (forall a, (forall q, q ∈ l -> ~ in_page q a) -> load8 (phys k2) a = load8 (phys k) a)).
  { destruct Hmem as [(-> & Hk & Hl & Hm)|(Hpt & Hsz & Hu & Hown & Hm)]; [by exists s1, k1, l1|]. rewrite (proj2 (Z.eqb_neq pt 0) Hpt). cbn [negb].
    destruct (proc_freepagetable_spec kend Hkend _ _ _ _ pt sz l1 Hon Hsz Hu) as (s2 & k2 & l2 & E & Hon2 & Hk2 & Hl2 & Hm2). exists s2, k2, l2. split; [exact E|]. split; [exact Hon2|].
    split; [done|]. split; [by rewrite Hl2|]. intros a Ha. rewrite Hm2; [by apply Hm|]. intros q. rewrite Hown. apply Ha. }
  destruct H1 as (s2 & k2 & l2 & E2 & Hon2 & Hk2 & Hl2 & Hm2).
  destruct (run_close s ps V R y it k2 k1 s2 ip i Hon2 HR Hop Hlv Hpos) as (y' & V' & it' & s3 & s' & E3 & E4 & Hon' & HR' & HV' & Ht').
  exists s', k2, l2. split; [|split; [|by apply same_from]].
  - unfold exec_bad. erewrite bind_Ret by exact E2. rewrite Hip. cbn [negb]. erewrite bind_Ret; [reflexivity|]. by erewrite bind_Ret by exact E3.
  - exists y', it', V'. split; [exact Hon'|]. split; [done|]. split; [done|]. by eapply on_tab.
Qed.

(** The program is loaded: close the inode, build the stack. *)
Lemma exec_finish y it k1 s1 ip i pt sz l1 entry m : on s ps y it k1 s1 -> bs_rep y true V ∅ [] [] -> opened s ps V R it k1 ip i -> live (f_sb (kfs s)) V ∅ i ->
  pt <> 0 -> 0 <= sz -> built k l pt (pgs sz) k1 l1 -> (forall w, ubyte (phys k1) pt w = m w) -> (length l <= length l1 + (3 * pgs sz + 5))%nat ->
  program s V path cwd = Some (entry, sz, m) ->
  exists r s', (on_fs (iunlockput ip) ;; end_op_ ;; exec_stack kend path argv entry pt sz) s1 = Ret r s' /\ exec_result s path args V R cwd l r s'.
Proof using Hpre Hkend.
  intros Hon HR Hop Hlv Hpt Hsz Hbu Hm Hlen Hprog. pose proof (tab_positive _ _ _ _ (ep_table _ _ _ _ _ _ _ _ Hpre)) as Hpos.
  destruct (run_close s ps V R y it k1 k1 s1 ip i Hon HR Hop Hlv Hpos) as (y' & V' & it' & s2 & s3 & E2 & E3 & Hon3 & HR' & HV' & Ht').
  erewrite bind_Ret by exact E2. erewrite bind_Ret by exact E3.
  destruct (built_owner k x l pt (pgs sz) k1 l1 (ep_owner _ _ _ _ _ _ _ _ Hpre) (ep_pt _ _ _ _ _ _ _ _ Hpre) (ep_tf _ _ _ _ _ _ _ _ Hpre) Hbu) as (Ho1 & Hpg1 & Hk1 & Htf1 & Hbe).
  pose proof Hon3 as [Hps3 Hk3 _ _ _ _ _ _]. destruct Hbu as (Hu1 & Hown1 & Hm1).
  pose proof (exec_stack_correct kend Hkend s3 path argv entry pt sz l1 args) as Hst. unfold exec_outcome in Hst. cbv zeta in Hst. rewrite Hps3, Hk3 in Hst.
  destruct Hst as (r & s' & E & k' & l' & Hr); [apply Hpre|done|apply Hpre|apply Hpre|done|done|done| |apply Hpre|].
  { eapply Forall2_impl; [apply Hpre|]. intros a bs ([Hz (rest & Ea)] & Hp & Hni). split; [|split; [done|by rewrite Hown1]]. split; [done|]. exists rest. rewrite <- Ea.
    apply loadn_ext. intros c Hc. apply Hm1. intros q Hq. apply (page_not_self kend a q c); [done| |by intros ->|unfold in_page; lia].
    eapply flist_page_ok; [apply (ow_free _ _ _ _ (ep_owner _ _ _ _ _ _ _ _ Hpre))|done]. }
  exists r, s'. split; [exact E|]. exists k', l'.
  assert (Hcl : forall ps' k', at_ s3 ps' k' s' -> closed s V R ps' k' s').
  { intros ps' k'' Hat. exists y', it', V'. split; [by eapply at_trans|]. split; [done|]. split; [done|]. eapply (tab_same unlocked (kfs s3)); [apply Hat..|]. by eapply on_tab. }
  destruct Hr as [(-> & _ & Hat & Hla)|(-> & Hwhy & Hat & [Hun1 Hun2 Hun3 Hun4])]; [left|right].
  - split; [done|]. exists entry, sz, m, pt. split; [done|]. split; [by apply Hcl|]. destruct Hla as [L1 L2 L3 L4 L5 L6 L7 L8 L9]. split; try done.
    + by rewrite L2, Hpg1, Hown1.
    + intros w Hw. rewrite <- Hm. by eapply ubyte_keeps.
    + intros o Ho H1 H2 H3. rewrite L9 by done. apply Htf1. unfold in_page. lia.
  - split; [done|]. split; [by apply Hcl|]. split.
    + split; [done|by eapply keeps_trans|intros a Ha; rewrite Hun3 by done; by apply Htf1|]. rewrite Hun4. exact Hown1.
    + rewrite Hprog. destruct Hwhy as [Hnf|Hle]; [by left|right]. lia.
Qed.

Lemma no_bytes k1 pt l1 w : uspace k1 pt 0 extra l1 -> ubyte (phys k1) pt w = None.
Proof using Hkend.
  intros Hu. unfold ubyte, uaddr. destruct (bool_decide_reflect (0 <= w < MAXVA)) as [Hw|]; [|done]. destruct (user_leaf (leaf (phys k1) pt w)) eqn:Hul; [|done].
  pose proof (user_low kend k1 pt 0 extra l1 w Hu Hw Hul). lia.
Qed.

(** -1 with the process as it was, for a reason. *)
Lemma exec_gives_up s1 k' l' pt sz ip : (exists s', exec_bad kend pt sz ip s1 = Ret (-1) s' /\ closed s V R ps k' s' /\ same_process k x l k' l') ->
  match program s V path cwd with Some (_, sz, _) => too_big sz args l | None => True end ->
  exists r s', exec_bad kend pt sz ip s1 = Ret r s' /\ exec_result s path args V R cwd l r s'.
Proof. intros (s' & E & Hc & Hsp) Hwhy. exists (-1), s'. split; [exact E|]. exists k', l'. right. by split. Qed.

(** With the inode open: the header, the table and the segments. *)
Lemma exec_open y it s1 ip i : on s ps y it k s1 -> bs_rep y true V ∅ [] [] -> opened s ps V R it k ip i -> live (f_sb (kfs s)) V ∅ i ->
  FsPath.walk (f_sb (kfs s)) V false (start_of path cwd) (elems path) = Some i ->
  exists r s', (let* r := on_fs (readi ip KernVar 0 sizeof_elfhdr) in
    let elf := snd r in
    if negb (fst r =? sizeof_elfhdr) then exec_bad kend 0 0 ip
    else if negb (elf_magic elf =? ELF_MAGIC) then exec_bad kend 0 0 ip
    else
      let* pagetable := proc_pagetable kend trampoline (curp ps) in
      if pagetable =? 0 then exec_bad kend 0 0 ip
      else
        let* r := exec_segments kend (Z.to_nat (elf_phnum elf)) pagetable ip (s32 (elf_phoff elf)) 0 in
        if negb (fst r) then exec_bad kend pagetable (snd r) ip
        else on_fs (iunlockput ip) ;; end_op_ ;; exec_stack kend path argv (elf_entry elf) pagetable (snd r)) s1 = Ret r s' /\
    exec_result s path args V R cwd l r s'.
Proof using Hpre Hkend Htramp.
  intros Hon HR Hop Hlv Hw. pose proof Hop as (_ & _ & Hdf & Hdev). set (X := nthZ inode0 it ip) in *.
  assert (Hprog : program s V path cwd = elf_image V X) by (unfold program; rewrite Hw; symmetry; by apply elf_image_fields).
  assert (Hfile : file_ok (f_sb (kfs s)) V X) by (apply (file_ok_fields V X (on_disk (f_sb (kfs s)) V i) Hdf); [exact Hdev|by apply Hpre]).
  destruct (run_readi s ps V it ip Hfile KernVar 0 sizeof_elfhdr y k s1 Hon HR I ltac:(done) ltac:(done)) as (y2 & s2 & R2 & Hon2 & HR2). fold X in R2, Hon2. cbn [returned kwritten] in R2, Hon2.
  erewrite bind_Ret by exact R2. cbv zeta. cbn [fst snd]. unfold elf_image in Hprog.
  assert (Hgive : program s V path cwd = None -> exists r s', exec_bad kend 0 0 ip s2 = Ret r s' /\ exec_result s path args V R cwd l r s').
  { intros Hn. destruct (exec_fail y2 it k s2 ip i 0 0 l Hon2 HR2 Hop Hlv) as (s' & k' & l' & E & Hc & Hsp); [left; split; [done|]; split; [apply Hpre|done]|].
    apply (exec_gives_up s2 k' l' 0 0 ip); [by exists s'|by rewrite Hn]. }
  destruct (Z.eqb_spec (read_len (i_size X) 0 sizeof_elfhdr) sizeof_elfhdr) as [Erl|Erl]; cbn [negb] in *; [|by apply Hgive].
  rewrite Erl in *. set (elf := fbytes V X 0 sizeof_elfhdr) in *. destruct (elf_magic elf =? ELF_MAGIC); cbn [negb] in *; [|by apply Hgive].
  pose proof (ep_owner _ _ _ _ _ _ _ _ Hpre) as Ho. pose proof Ho as Ho'. apply owner_full in Ho' as (_ & Htok & _ & _); [|apply Hpre..]. destruct (page_ok_addr kend Hkend _ Htok) as [Htfa Htfr].
  destruct (proc_pagetable_spec kend trampoline Hkend Htramp _ ps k s2 (curp ps) l Hon2 (ow_free _ _ _ _ Ho) Htfa Htfr) as (pt & s3 & k3 & l3 & E3 & Hon3 & Htp & Hm3).
  erewrite bind_Ret by exact E3. destruct Htp as [(Hpt & Hu3 & Hown3 & Hlen3)|(-> & Hk3 & Hl3 & Hlen3)].
  2: { cbn [Z.eqb]. destruct (exec_fail y2 it k3 s3 ip i 0 0 l3 Hon3 HR2) as (s' & k' & l' & E & Hc & Hsp); [by eapply opened_mem|done|by left|].
       apply (exec_gives_up s3 k' l' 0 0 ip); [by exists s'|]. rewrite Hprog. destruct (elf_segments _ _ _ _ _ _) as [[sz m]|]; [|done]. right. lia. }
  rewrite (proj2 (Z.eqb_neq _ _) Hpt). change 0%nat with (pgs 0) in Hu3, Hown3.
  destruct (exec_segments_spec kend Hkend s ps V it ip pt Hfile l3 (Z.to_nat (elf_phnum elf)) y2 k3 s3 (s32 (elf_phoff elf)) 0 (fun _ => None) l3 Hon3 HR2 ltac:(lia) Hu3)
    as ([ok sz] & y4 & k4 & s4 & l4 & E4 & Hon4 & HR4 & Hsz4 & Hu4 & Hmv4 & Hpost); [intros w Hw'; change (pgs 0) with 0%nat in Hw'; lia|intros w; by eapply no_bytes|lia|].
  erewrite bind_Ret by exact E4. cbn [fst snd] in *. assert (Hbu : built k l pt (pgs sz) k4 l4) by (eapply built_moved; [|exact Hu4|exact Hmv4]; by split).
  unfold seg_post in Hpost. cbn [fst snd] in Hpost. fold X in Hpost. destruct ok; cbn [negb].
  - destruct Hpost as (Hlen4 & m & Hseg & Hm). rewrite Hseg in Hprog. apply (exec_finish y4 it k4 s4 ip i pt sz l4 (elf_entry elf) m); try done; [by eapply opened_mem|lia].
  - destruct (exec_fail y4 it k4 s4 ip i pt sz l4 Hon4 HR4) as (s' & k' & l' & E & Hc & Hsp); [by eapply opened_mem|done|by right|].
    apply (exec_gives_up s4 k' l' pt sz ip); [by exists s'|]. rewrite Hprog. destruct (elf_segments _ _ _ _ _ _) as [[sz2 m2]|]; [|done]. right. lia.
Qed.

Lemma exec_spec : exists r s', exec kend trampoline path argv s = Ret r s' /\ exec_result s path args V R cwd l r s'.
Proof using Hpre Hkend Htramp.
  unfold exec, myproc. erewrite bind_Ret by reflexivity.
  assert (Hon0 : on s ps (store (kfs s)) (itable (kfs s)) k s) by (by split).
  destruct (bs_begin_op_ok _ _ (ep_store _ _ _ _ _ _ _ _ Hpre)) as (y1 & E1 & HR1).
  destruct (run_store s ps bs_begin_op _ _ _ s tt y1 Hon0 E1) as (s1 & R1 & Hon1). erewrite bind_Ret by exact R1.
  assert (Htr : tree_ok (fsat s ps (itable (kfs s)) k) V ∅).
  { destruct (ep_tree _ _ _ _ _ _ _ _ Hpre) as [Ha Hb]. split; [|exact Hb]. intros q Hq1 Hq2. by apply (dir_ok_sb (kfs s)), Ha. }
  assert (Ht : tab_ok unlocked (fsat s ps (itable (kfs s)) k) V R) by (by apply (tab_same unlocked (kfs s)); [..|apply Hpre]).
  destruct (run_namei s ps V R path cwd y1 (itable (kfs s)) k s1 Hon1) as (ip & y2 & it2 & s2 & R2 & Hon2 & HR2 & Hres); try done; try apply Hpre.
  erewrite bind_Ret by exact R2. destruct (FsPath.walk _ _ _ _ _) as [i|] eqn:Hw.
  - destruct Hres as [Ht2 Href2]. assert (Hip : (ip =? NULL) = false) by (destruct Href2 as (Hr & _); apply Z.eqb_neq; unfold NULL; lia). rewrite Hip.
    assert (Hlv : live (f_sb (kfs s)) V ∅ i) by (apply (walk_live V (kfs s) (elems path) (start_of path cwd)); [apply Hpre|apply Hpre|done]).
    destruct (run_ilock s ps V R y2 it2 k s2 ip i Hon2 HR2 Ht2 Href2 Hlv) as (y3 & it3 & s3 & R3 & Hon3 & HR3 & Hop). erewrite bind_Ret by exact R3.
    by apply (exec_open y3 it3 s3 ip i).
  - destruct Hres as [-> Ht2]. rewrite Z.eqb_refl. destruct (bs_end_op_ok y2 V [] HR2) as (y3 & V' & E3 & HR3 & HV').
    destruct (run_store s ps bs_end_op y2 it2 k s2 tt y3 Hon2 E3) as (s3 & R3 & Hon3). exists (-1), s3. split; [by erewrite bind_Ret by exact R3|].
    exists k, l. right. split; [done|]. split; [|split; [apply same_from; [apply Hpre|done|done]|unfold program; by rewrite Hw]].
    exists y3, it2, V'. split; [exact Hon3|]. split; [done|]. split; [done|]. by eapply on_tab.
Qed.
End Result.

(** C11: exec().  Given a path and fewer than MAXARG argument strings it
    returns the number of arguments, and then the process runs the program the
    path names: its memory is, byte for byte, the image the ELF file in the
    file system describes, below a guard page user code cannot reach and a
    stack that holds the strings and the array of their addresses; sp and a1
    point to the array, the program counter is the entry point, and the old
    space is on the free list.  Or it returns -1, and then the process is as
    before; that happens only if the path names no well-formed program, the
    arguments do not fit into a page, or memory for the image may be short.
    Either way it terminates, no page, inode reference or lock is lost, and no
    block of the file system changes. *)
Theorem exec_correct (s : st) path argv args V R cwd l : exec_pre s path argv args V R cwd l ->
  exists r s', exec kend trampoline path argv s = Ret r s' /\ exec_result s path args V R cwd l r s'.
Proof using Hkend Htramp. apply exec_spec. Qed.
End ExecTop.

(** ** exec("/a") *)

#[local] Existing Instance FsSample.fs_store.

Module ExecSample.
Definition fs (x : lst) : fsst lst := set_umem OneProc.k (file_fs PathSample.cwd_entry x).
Definition kernel (x : lst) : kst lst := Kst (fs x) OneProc.files OneProc.table Tiny.devices.
Definition path : list Z := [47; 97].

Section Image.
Context (V : Z -> list Z) (HV : forall b, ~ in_log 2 30 b -> V b = dblk PathSample.img b).

Lemma a_ptr j : bptr V PathSample.file_a j = if decide (j = 0) then 47 else 0.
Proof.
  unfold bptr. change (nthZ 0 (i_addrs PathSample.file_a) NDIRECT =? 0) with true. cbv iota zeta. destruct (Z.leb_spec j NDIRECT) as [Hj|Hj]; case_decide; subst; try done.
  cbn [PathSample.file_a i_addrs]. unfold nthZ. destruct (Z.ltb_spec j 0); [done|]. destruct (Z.to_nat j) as [|q] eqn:Eq; [lia|]. cbn [nth].
  destruct (nth_in_or_default q (repeat 0 12) 0) as [E| ->]; [by apply repeat_spec in E|done].
Qed.

Lemma a_bytes o : 0 <= o < 1024 -> fbyte V PathSample.file_a o = nthZ 0 PathSample.program o.
Proof using HV.
  intros Ho. unfold fbyte. assert (Eo : o / BSIZE = 0) by (unfold BSIZE; Z.div_mod_to_equations; lia). rewrite Eo. change (pidx 0) with 0. rewrite a_ptr, decide_True by done.
  rewrite HV by (unfold in_log; lia). rewrite PathSample.img_block. f_equal. unfold BSIZE. by rewrite Z.mod_small by lia.
Qed.

Lemma a_range off n : 0 <= off -> off + n <= 1024 -> fbytes V PathSample.file_a off n = (fun o => nthZ 0 PathSample.program o) <$> seqZ off n.
Proof using HV. intros H1 H2. unfold fbytes. apply list_fmap_ext. intros i o Ho%lookup_seqZ. apply a_bytes. lia. Qed.

Lemma a_ok : file_ok FsSample.sb V PathSample.file_a.
Proof using HV.
  split; [|done|].
  - split; try done.
    + intros j Hj. rewrite a_ptr. case_decide as Ej; [|done]. intros _. split; [done|]. split; [|split; [|split; [intros i; by rewrite lookup_empty|]]].
      * unfold used. change (BBLOCK 47 FsSample.sb) with 45. rewrite HV by (unfold in_log; lia). vm_compute. reflexivity.
      * split; [lia|unfold in_log; lia].
      * intros n Hn. rewrite FsSample.BBLOCK_sb by exact Hn. lia.
    + intros j j' _ _. rewrite !a_ptr. by repeat case_decide; subst.
  - intros o Ho. cbn in Ho. assert (Ho0 : o / BSIZE = 0) by (unfold BSIZE; Z.div_mod_to_equations; lia). rewrite Ho0. change (pidx 0) with 0. by rewrite a_ptr.
Qed.

Lemma a_walk : FsPath.walk FsSample.sb V false 1 (elems path) = Some 2.
Proof using HV.
  change (elems path) with [[97]]. cbn [FsPath.walk]. change FsSample.sb with PathSample.sb. rewrite PathSample.disk_root, PathSample.root_entries by exact HV. vm_compute. reflexivity.
Qed.

(** The image: a page with the four bytes of the segment. *)
Lemma a_image : exists m, elf_image V PathSample.file_a = Some (0, 4096, m) /\ m 0 = Some 19 /\ m 4 = Some 0 /\ m 4096 = None.
Proof using HV.
  unfold elf_image. change (negb (read_len (i_size PathSample.file_a) 0 sizeof_elfhdr =? sizeof_elfhdr)) with false. cbv iota zeta.
  rewrite (a_range 0) by done. set (h := (fun o => nthZ 0 PathSample.program o) <$> seqZ 0 sizeof_elfhdr).
  assert (H1 : elf_magic h = ELF_MAGIC) by (vm_compute; reflexivity). assert (H2 : elf_phnum h = 1) by (vm_compute; reflexivity).
  assert (H3 : elf_phoff h = 64) by (vm_compute; reflexivity). assert (H4 : elf_entry h = 0) by (vm_compute; reflexivity).
  rewrite H1, H2, H3, H4, Z.eqb_refl. cbn [negb]. change (Z.to_nat 1) with 1%nat. change (s32 64) with 64. cbn [elf_segments]. change (u32 64) with 64.
  change (negb (read_len (i_size PathSample.file_a) 64 sizeof_proghdr =? sizeof_proghdr)) with false. cbv iota zeta. rewrite (a_range 64) by done.
  set (p := proghdr_of _). assert (Hp : p = Proghdr 1 5 120 0 4 4096) by (vm_compute; reflexivity). rewrite Hp. clear p Hp h H1 H2 H3 H4.
  change (negb (ph_type (Proghdr 1 5 120 0 4 4096) =? ELF_PROG_LOAD)) with false. cbv iota.
  set (q := Proghdr 1 5 120 0 4 4096). change (seg_size 0 q) with 4096. assert (Hq : negb (seg_ok q) || (4096 =? 0) || negb (seg_there PathSample.file_a q) = false) by (vm_compute; reflexivity).
  rewrite Hq. eexists. split; [reflexivity|]. unfold seg_bytes, grown. change (ph_vaddr q) with 0. change (0 + u32 (ph_filesz q)) with 4. change (u32 (ph_off q)) with 120.
  change (4096 * Z.of_nat (pgs 0)) with 0. change (4096 * Z.of_nat (pgs 4096)) with 4096.
  split; [rewrite decide_True, a_bytes by lia; done|]. split; [rewrite decide_False, decide_True by lia; done|rewrite !decide_False by lia; done].
Qed.
End Image.

Lemma sample_pre x V : bs_rep x false V ∅ [] [] -> (forall b, ~ in_log 2 30 b -> V b = dblk PathSample.img b) ->
  exec_pre OneProc.kend (kernel x) path [OneProc.pg 11] [[]] V {[ 1 := 1 ]} 1 OneProc.free.
Proof.
  intros HR HV. split.
  - done.
  - exact OneProc.me_owner.
  - done.
  - done.
  - exact HR.
  - destruct (PathSample.path_tree V HV x) as [Ha Hb]. split; [|exact Hb]. intros q Hq1 Hq2. by apply (dir_ok_sb (file_fs PathSample.cwd_entry x)), Ha.
  - apply (tab_same unlocked (file_fs PathSample.cwd_entry x)); [done..|]. apply PathSample.path_table.
  - rewrite map_size_singleton. done.
  - split; [done|]. done.
  - by apply PathSample.live_root.
  - refine (bool_decide_unpack (_ ∉ _) _). vm_compute. exact I.
  - change (start_of path 1) with 1. change (f_sb (kfs (kernel x))) with FsSample.sb. rewrite a_walk by done. intros i [= <-].
    change FsSample.sb with PathSample.sb. rewrite PathSample.disk_a by done. by apply a_ok.
  - constructor; [|constructor]. destruct sample_arg as (H1 & H2 & H3). split; [exact H1|]. split; [exact H2|]. intros Hin. apply H3. unfold owns. rewrite !elem_of_app. by right; right.
  - done.
Qed.
End ExecSample.

Lemma exec_correct_witness :
  exists x V m, bs_rep x false V ∅ [] [] /\ program (ExecSample.kernel x) V ExecSample.path 1 = Some (0, 4096, m) /\ m 0 = Some 19 /\
  exists r s', exec OneProc.kend KERNBASE ExecSample.path [OneProc.pg 11] (ExecSample.kernel x) = Ret r s' /\
    exec_result OneProc.kend (ExecSample.kernel x) ExecSample.path [[]] V {[ 1 := 1 ]} 1 OneProc.free r s'.
Proof.
  destruct PathSample.booted_idle as (x & V & HR & HV). destruct (ExecSample.a_image V HV) as (m & Hm & Hm0 & _). exists x, V, m. split; [exact HR|]. split; [|split; [exact Hm0|]].
  - unfold program. change (start_of ExecSample.path 1) with 1. change (f_sb (kfs (ExecSample.kernel x))) with FsSample.sb. rewrite ExecSample.a_walk by exact HV.
    change FsSample.sb with PathSample.sb. rewrite PathSample.disk_a by exact HV. exact Hm.
  - apply (exec_correct OneProc.kend KERNBASE ltac:(done) ltac:(done)). by apply ExecSample.sample_pre.
Defined.
