(* ===== verification/Sysfile.v ===== *)
(** * File system calls (kernel/sysfile.c) *)

From Stdlib Require Import ZArith Lia.
From stdpp Require Import base numbers list list_numbers gmap strings sorting.
From S2P Require Import Prelude Cstring Riscv Kalloc Vm Uvm Bytes Sleeplock Bio Log Store Fs Kernel Console File Proc Exec.

(** fcntl.h *)
Definition O_RDONLY : Z := 0x000.
Definition O_WRONLY : Z := 0x001.
Definition O_RDWR : Z := 0x002.
Definition O_CREATE : Z := 0x200.
Definition O_TRUNC : Z := 0x400.

Definition flag (omode b : Z) : bool := negb (Z.land omode b =? 0).

Section Sysfile.
Context {S : Type} {ops : BlockOps S}.
Context (kend trampoline forkret : Z).
Notation st := (kst S).

Definition getip {A} (ip : Z) (f : inode -> A) : M st A := on_fs (geti ip f).
Definition setip (ip : Z) (f : inode -> inode) : M st unit := on_fs (updi ip f).

(** The descriptor and the file, [None] for -1. *)
Definition argfd (n : Z) : M st (option (Z * Z)) :=
  let* fd := argint n in
  if (fd <? 0) || (NOFILE <=? fd) then ret None
  else
    let* f := mine (fun x => nthZ NULL (p_ofile x) fd) in
    if f =? NULL then ret None else ret (Some (fd, f)).

Fixpoint fdalloc_loop (n : nat) (fd f : Z) : M st Z :=
  match n with
  | O => ret (-1)
  | Datatypes.S k =>
      let* g := mine (fun x => nthZ NULL (p_ofile x) fd) in
      if g =? NULL then
        setmine (fun x => set_p_ofile (updZ fd f (p_ofile x)) x) ;;
        ret fd
      else fdalloc_loop k (fd + 1) f
  end.
Definition fdalloc (f : Z) : M st Z := fdalloc_loop (Z.to_nat NOFILE) 0 f.

Definition sys_dup : M st Z :=
  let* a := argfd 0 in
  match a with
  | None => ret (-1)
  | Some (_, f) =>
      let* fd := fdalloc f in
      if fd <? 0 then ret (-1)
      else filedup f ;; ret fd
  end.

Definition sys_read : M st Z :=
  let* p := argaddr 1 in
  let* n := argint 2 in
  let* a := argfd 0 in
  match a with
  | None => ret (-1)
  | Some (_, f) => fileread f p n
  end.

(** [kills]: see pipewrite_loop. *)
Definition sys_write (kills : Z -> bool) : M st Z :=
  let* p := argaddr 1 in
  let* n := argint 2 in
  let* a := argfd 0 in
  match a with
  | None => ret (-1)
  | Some (_, f) => filewrite kills f p n
  end.

Definition sys_close : M st Z :=
  let* a := argfd 0 in
  match a with
  | None => ret (-1)
  | Some (fd, f) =>
      setmine (fun x => set_p_ofile (updZ fd NULL (p_ofile x)) x) ;;
      fileclose kend f ;;
      ret 0
  end.

Definition sys_fstat : M st Z :=
  let* addr := argaddr 1 in
  let* a := argfd 0 in
  match a with
  | None => ret (-1)
  | Some (_, f) => filestat f addr
  end.

(** An uninitialised name[DIRSIZ]. *)
Definition name0 : list Z := repeat 0 (Z.to_nat DIRSIZ).

(** bad: of sys_link(). *)
Definition link_bad (ip : Z) : M st Z :=
  on_fs (ilock ip) ;;
  setip ip (fun x => set_i_nlink (s16 (i_nlink x - 1)) x) ;;
  on_fs (iupdate ip) ;;
  on_fs (iunlockput ip) ;;
  end_op_ ;;
  ret (-1).

Definition sys_link : M st Z :=
  let* old := argstr 0 MAXPATH in
  if fst old <? 0 then ret (-1)
  else
    let* new := argstr 1 MAXPATH in
    if fst new <? 0 then ret (-1)
    else
      begin_op_ ;;
      let* ip := on_fs (namei (snd old)) in
      if ip =? NULL then end_op_ ;; ret (-1)
      else
        on_fs (ilock ip) ;;
        let* t := getip ip i_type in
        if t =? T_DIR then on_fs (iunlockput ip) ;; end_op_ ;; ret (-1)
        else
          setip ip (fun x => set_i_nlink (s16 (i_nlink x + 1)) x) ;;
          on_fs (iupdate ip) ;;
          on_fs (iunlock ip) ;;
          let* d := on_fs (nameiparent (snd new) name0) in
          let dp := fst d in
          if dp =? NULL then link_bad ip
          else
            on_fs (ilock dp) ;;
            let* ddev := getip dp i_dev in
            let* x := getip ip (fun x => x) in
            let* r := (if negb (ddev =? i_dev x) then ret (-1)
                       else on_fs (dirlink dp (snd d) (i_inum x))) in
            if r <? 0 then on_fs (iunlockput dp) ;; link_bad ip
            else
              on_fs (iunlockput dp) ;;
              on_fs (iput ip) ;;
              end_op_ ;;
              ret 0.

(** isdirempty()'s loop from [off]. *)
Fixpoint isdirempty_loop (fuel : nat) (dp off : Z) : M st bool :=
  let* size := getip dp i_size in
  if off <? size then
    match fuel with
    | O => panic "isdirempty: fuel"
    | Datatypes.S k =>
        let* r := on_fs (readi dp KernVar off sizeof_dirent) in
        if negb (fst r =? sizeof_dirent) then panic "isdirempty: readi"
        else if negb (de_inum (snd r) =? 0) then ret false
        else isdirempty_loop k dp (off + sizeof_dirent)
    end
  else ret true.
Definition isdirempty (dp : Z) : M st bool :=
  let* size := getip dp i_size in
  isdirempty_loop (Z.to_nat (size / sizeof_dirent + 1)) dp (2 * sizeof_dirent).

Definition unlink_bad (dp : Z) : M st Z := on_fs (iunlockput dp) ;; end_op_ ;; ret (-1).

(** sys_unlink() with the parent [dp] and the inode [ip] locked, the entry at
    [off]. *)
Definition unlink_entry (dp ip off : Z) : M st Z :=
  let* x := getip ip (fun x => x) in
  if i_nlink x <? 1 then panic "unlink: nlink < 1"
  else
    let* e := (if i_type x =? T_DIR then isdirempty ip else ret true) in
    if negb e then on_fs (iunlockput ip) ;; unlink_bad dp
    else
      let* r := on_fs (writei dp (KernSrc (repeat 0 (Z.to_nat sizeof_dirent))) off sizeof_dirent) in
      if negb (r =? sizeof_dirent) then panic "unlink: writei"
      else
        (if i_type x =? T_DIR then
           setip dp (fun x => set_i_nlink (s16 (i_nlink x - 1)) x) ;;
           on_fs (iupdate dp)
         else ret tt) ;;
        on_fs (iunlockput dp) ;;
        setip ip (fun x => set_i_nlink (s16 (i_nlink x - 1)) x) ;;
        on_fs (iupdate ip) ;;
        on_fs (iunlockput ip) ;;
        end_op_ ;;
        ret 0.

Definition sys_unlink : M st Z :=
  let* path := argstr 0 MAXPATH in
  if fst path <? 0 then ret (-1)
  else
    begin_op_ ;;
    let* d := on_fs (nameiparent (snd path) name0) in
    let dp := fst d in
    let name := snd d in
    if dp =? NULL then end_op_ ;; ret (-1)
    else
      on_fs (ilock dp) ;;
      if (namecmp name (lit ".") =? 0) || (namecmp name (lit "..") =? 0) then unlink_bad dp
      else
        let* e := on_fs (dirlookup dp name) in
        if fst e =? NULL then unlink_bad dp
        else on_fs (ilock (fst e)) ;; unlink_entry dp (fst e) (snd e).

(** fail: of create(). *)
Definition create_fail (dp ip : Z) : M st Z :=
  setip ip (set_i_nlink 0) ;;
  on_fs (iupdate ip) ;;
  on_fs (iunlockput ip) ;;
  on_fs (iunlockput dp) ;;
  ret NULL.

(** create() of a name that is new in [dp], [ip] its fresh inode. *)
Definition create_new (dp ip : Z) (name : list Z) (type major minor : Z) : M st Z :=
  on_fs (ilock ip) ;;
  setip ip (set_i_dev major minor) ;;
  setip ip (set_i_nlink 1) ;;
  on_fs (iupdate ip) ;;
  let* inum := getip ip i_inum in
  let* dots :=
    (if type =? T_DIR then
       let* r := on_fs (dirlink ip (lit ".") inum) in
       if r <? 0 then ret false
       else
         let* dinum := getip dp i_inum in
         let* r := on_fs (dirlink ip (lit "..") dinum) in
         ret (negb (r <? 0))
     else ret true) in
  if negb dots then create_fail dp ip
  else
    let* r := on_fs (dirlink dp name inum) in
    if r <? 0 then create_fail dp ip
    else
      (if type =? T_DIR then
         setip dp (fun x => set_i_nlink (s16 (i_nlink x + 1)) x) ;;
         on_fs (iupdate dp)
       else ret tt) ;;
      on_fs (iunlockput dp) ;;
      ret ip.

Definition create (path : list Z) (type major minor : Z) : M st Z :=
  let* d := on_fs (nameiparent path name0) in
  let dp := fst d in
  if dp =? NULL then ret NULL
  else
    on_fs (ilock dp) ;;
    let* e := on_fs (dirlookup dp (snd d)) in
    if negb (fst e =? NULL) then
      let ip := fst e in
      on_fs (iunlockput dp) ;;
      on_fs (ilock ip) ;;
      let* t := getip ip i_type in
      if (type =? T_FILE) && ((t =? T_FILE) || (t =? T_DEVICE)) then ret ip
      else on_fs (iunlockput ip) ;; ret NULL
    else
      let* ddev := getip dp i_dev in
      let* ip := on_fs (ialloc ddev type) in
      if ip =? NULL then on_fs (iunlockput dp) ;; ret NULL
      else create_new dp ip (snd d) type major minor.

(** sys_open() with the inode locked. *)
Definition open_inode (ip omode : Z) : M st Z :=
  let* x := getip ip (fun x => x) in
  if (i_type x =? T_DEVICE) && ((i_major x <? 0) || (NDEV <=? i_major x)) then
    on_fs (iunlockput ip) ;; end_op_ ;; ret (-1)
  else
    let* f := filealloc in
    let* fd := (if f =? NULL then ret (-1) else fdalloc f) in
    if fd <? 0 then
      (if negb (f =? NULL) then fileclose kend f else ret tt) ;;
      on_fs (iunlockput ip) ;;
      end_op_ ;;
      ret (-1)
    else
      (if i_type x =? T_DEVICE then
         setf f (fun y => set_f_major (i_major x) (set_f_type FD_DEVICE y))
       else
         setf f (fun y => set_f_off 0 (set_f_type FD_INODE y))) ;;
      setf f (set_f_ip ip) ;;
      setf f (set_f_rw (negb (flag omode O_WRONLY)) (flag omode O_WRONLY || flag omode O_RDWR)) ;;
      (if flag omode O_TRUNC && (i_type x =? T_FILE) then on_fs (itrunc ip) else ret tt) ;;
      on_fs (iunlock ip) ;;
      end_op_ ;;
      ret fd.

Definition sys_open : M st Z :=
  let* omode := argint 1 in
  let* path := argstr 0 MAXPATH in
  if fst path <? 0 then ret (-1)
  else
    begin_op_ ;;
    if flag omode O_CREATE then
      let* ip := create (snd path) T_FILE 0 0 in
      if ip =? NULL then end_op_ ;; ret (-1) else open_inode ip omode
    else
      let* ip := on_fs (namei (snd path)) in
      if ip =? NULL then end_op_ ;; ret (-1)
      else
        on_fs (ilock ip) ;;
        let* t := getip ip i_type in
        if (t =? T_DIR) && negb (omode =? O_RDONLY) then
          on_fs (iunlockput ip) ;; end_op_ ;; ret (-1)
        else open_inode ip omode.

Definition sys_mkdir : M st Z :=
  begin_op_ ;;
  let* path := argstr 0 MAXPATH in
  if fst path <? 0 then end_op_ ;; ret (-1)
  else
    let* ip := create (snd path) T_DIR 0 0 in
    if ip =? NULL then end_op_ ;; ret (-1)
    else on_fs (iunlockput ip) ;; end_op_ ;; ret 0.

Definition sys_mknod : M st Z :=
  begin_op_ ;;
  let* major := argint 1 in
  let* minor := argint 2 in
  let* path := argstr 0 MAXPATH in
  if fst path <? 0 then end_op_ ;; ret (-1)
  else
    let* ip := create (snd path) T_DEVICE (s16 major) (s16 minor) in
    if ip =? NULL then end_op_ ;; ret (-1)
    else on_fs (iunlockput ip) ;; end_op_ ;; ret 0.

Definition sys_chdir : M st Z :=
  begin_op_ ;;
  let* path := argstr 0 MAXPATH in
  if fst path <? 0 then end_op_ ;; ret (-1)
  else
    let* ip := on_fs (namei (snd path)) in
    if ip =? NULL then end_op_ ;; ret (-1)
    else
      on_fs (ilock ip) ;;
      let* t := getip ip i_type in
      if negb (t =? T_DIR) then on_fs (iunlockput ip) ;; end_op_ ;; ret (-1)
      else
        on_fs (iunlock ip) ;;
        let* cwd := mine p_cwd in
        on_fs (iput cwd) ;;
        end_op_ ;;
        setmine (set_p_cwd ip) ;;
        ret 0.

(** kfree() of the argument pages up to the first null one. *)
Fixpoint free_argv (argv : list Z) : M st unit :=
  match argv with
  | [] => ret tt
  | a :: argv' => if a =? 0 then ret tt else on_mem (kfree kend a) ;; free_argv argv'
  end.

(** The loop that fetches the arguments, from entry [i]: argv[] so far, and
    whether it reached the null argument. *)
Fixpoint exec_fetch (fuel : nat) (uargv i : Z) (argv : list Z) : M st (bool * list Z) :=
  match fuel with
  | O => ret (false, argv)
  | Datatypes.S k =>
      let* u := fetchaddr (u64 (uargv + 8 * i)) in
      match u with
      | None => ret (false, argv)
      | Some uarg =>
          if uarg =? 0 then ret (true, argv)
          else
            let* page := on_mem kalloc in
            if page =? 0 then ret (false, argv)
            else
              let* r := fetchstr uarg PGSIZE in
              on_mem (k_write page (snd r)) ;;
              if fst r <? 0 then ret (false, argv ++ [page])
              else exec_fetch k uargv (i + 1) (argv ++ [page])
      end
  end.

Definition sys_exec : M st Z :=
  let* uargv := argaddr 1 in
  let* path := argstr 0 MAXPATH in
  if fst path <? 0 then ret (-1)
  else
    let* r := exec_fetch (Z.to_nat MAXARG) uargv 0 [] in
    if negb (fst r) then free_argv (snd r) ;; ret (-1)
    else
      let* v := exec kend trampoline (snd path) (snd r) in
      free_argv (snd r) ;;
      ret v.

(** Undoing sys_pipe(): the descriptors that were taken, then both files. *)
Definition pipe_undo (fds : list Z) (rf wf : Z) : M st Z :=
  foldr (fun fd k => setmine (fun x => set_p_ofile (updZ fd NULL (p_ofile x)) x) ;; k)
    (fileclose kend rf ;; fileclose kend wf ;; ret (-1)) fds.

Definition sys_pipe : M st Z :=
  let* fdarray := argaddr 0 in
  let* a := pipealloc kend in
  match a with
  | None => ret (-1)
  | Some (rf, wf) =>
      let* fd0 := fdalloc rf in
      if fd0 <? 0 then pipe_undo [] rf wf
      else
        let* fd1 := fdalloc wf in
        if fd1 <? 0 then pipe_undo [fd0] rf wf
        else
          let* r := ucopyout fdarray (le_bytes 4 fd0) in
          if r <? 0 then pipe_undo [fd0; fd1] rf wf
          else
            let* r := ucopyout (u64 (fdarray + 4)) (le_bytes 4 fd1) in
            if r <? 0 then pipe_undo [fd0; fd1] rf wf
            else ret 0
  end.
End Sysfile.
