(* ===== verification/Sysproc.v ===== *)
(** * Process system calls and the dispatcher (kernel/sysproc.c, kernel/syscall.c) *)

From Stdlib Require Import ZArith Lia.
From stdpp Require Import base numbers list list_numbers gmap strings sorting.
From S2P Require Import Prelude Cstring Riscv Kalloc Vm Uvm Bytes Sleeplock Bio Log Store Fs Kernel Console File Proc Exec Sysfile.

Section Sysproc.
Context {S : Type} {ops : BlockOps S}.
Context (kend trampoline forkret : Z).
Notation st := (kst S).

(** exit() does not return: its process is off the processor for good. *)
Definition gone {A} : M st A := fun s => Block 0 s.

Definition sys_exit : M st Z :=
  let* n := argint 0 in
  exit kend n ;;
  gone.

Definition sys_getpid : M st Z := mine p_pid.

Definition sys_fork : M st Z := fork kend trampoline forkret.

Definition sys_wait : M st Z :=
  let* p := argaddr 0 in
  wait kend p.

Definition sys_sbrk : M st Z :=
  let* n := argint 0 in
  let* addr := mine p_sz in
  let* r := growproc kend n in
  if r <? 0 then ret (-1) else ret addr.

Definition acquire_ticks : M st unit := on_dev (lk_acquire tickslock set_tickslock).
Definition release_ticks : M st unit := on_dev (lk_release tickslock set_tickslock).

(** sys_sleep()'s loop with tickslock held, to its end ([inr]) or to its sleep
    ([inl]); ticks, ticks0 and so the comparison are unsigned. *)
Definition sys_sleep_turn (ticks0 n : Z) : M st (unit + Z) :=
  let* t := gets (fun s => ticks (kdev s)) in
  if u32 (t - ticks0) <? u32 n then
    let* p := myproc in
    let* k := killed p in
    if negb (k =? 0) then release_ticks ;; ret (inr (-1))
    else sleep chan_ticks release_ticks ;; ret (inl tt)
  else release_ticks ;; ret (inr 0).

Definition sys_sleep : M st Z :=
  let* n := argint 0 in
  acquire_ticks ;;
  let* ticks0 := gets (fun s => ticks (kdev s)) in
  let* r := sys_sleep_turn ticks0 n in
  match r with
  | inl _ => sleep_on chan_ticks
  | inr v => ret v
  end.

Definition sys_kill : M st Z :=
  let* pid := argint 0 in
  kill pid.

Definition sys_uptime : M st Z :=
  acquire_ticks ;;
  let* xticks := gets (fun s => ticks (kdev s)) in
  release_ticks ;;
  ret xticks.

Definition sys_ps : M st Z := procdump ;; ret 0.
Definition sys_pstree : M st Z := proctree ;; ret 0.

Definition sys_getppid : M st Z :=
  let* par := mine p_parent in
  if negb (par =? NULL) then getpr par p_pid else ret 0.

(** ** syscall.c *)

Definition SYS_fork : Z := 1.
Definition SYS_exit : Z := 2.
Definition SYS_wait : Z := 3.
Definition SYS_pipe : Z := 4.
Definition SYS_read : Z := 5.
Definition SYS_kill : Z := 6.
Definition SYS_exec : Z := 7.
Definition SYS_fstat : Z := 8.
Definition SYS_chdir : Z := 9.
Definition SYS_dup : Z := 10.
Definition SYS_getpid : Z := 11.
Definition SYS_sbrk : Z := 12.
Definition SYS_sleep : Z := 13.
Definition SYS_uptime : Z := 14.
Definition SYS_open : Z := 15.
Definition SYS_write : Z := 16.
Definition SYS_mknod : Z := 17.
Definition SYS_unlink : Z := 18.
Definition SYS_link : Z := 19.
Definition SYS_mkdir : Z := 20.
Definition SYS_close : Z := 21.
Definition SYS_ps : Z := 22.
Definition SYS_pstree : Z := 23.
Definition SYS_getppid : Z := 24.

(** syscalls[], as (number, handler) pairs. *)
Definition syscalls (kills : Z -> bool) : list (Z * M st Z) :=
  [ (SYS_fork, sys_fork); (SYS_exit, sys_exit); (SYS_wait, sys_wait); (SYS_pipe, sys_pipe kend);
    (SYS_read, sys_read); (SYS_kill, sys_kill); (SYS_exec, sys_exec kend trampoline); (SYS_fstat, sys_fstat);
    (SYS_chdir, sys_chdir); (SYS_dup, sys_dup); (SYS_getpid, sys_getpid); (SYS_sbrk, sys_sbrk);
    (SYS_sleep, sys_sleep); (SYS_uptime, sys_uptime); (SYS_open, sys_open kend); (SYS_write, sys_write kills);
    (SYS_mknod, sys_mknod); (SYS_unlink, sys_unlink); (SYS_link, sys_link); (SYS_mkdir, sys_mkdir);
    (SYS_close, sys_close kend); (SYS_ps, sys_ps); (SYS_pstree, sys_pstree); (SYS_getppid, sys_getppid) ].

Fixpoint handler (num : Z) (l : list (Z * M st Z)) : option (M st Z) :=
  match l with
  | [] => None
  | (k, h) :: l' => if k =? num then Some h else handler num l'
  end.

(** The handler's process keeps running; a handler that slept is resumed by
    the scheduler and returns later. *)
Definition syscall (kills : Z -> bool) : M st unit :=
  let* p := myproc in
  let* a7 := tf_get p tf_a7 in
  let num := s32 a7 in
  match (if 0 <? num then handler num (syscalls kills) else None) with
  | Some h => let* r := h in tf_set p tf_a0 r
  | None =>
      let* x := mine (fun x => x) in
      printf (lit "%d %s: unknown sys call %d" ++ [10]) [AInt (p_pid x); AStr (Some (p_name x)); AInt num] ;;
      tf_set p tf_a0 (-1)
  end.
End Sysproc.
