(* ===== verification/Virtio.v ===== *)
(** * The disk driver (kernel/virtio_disk.c, kernel/virtio.h)

    The driver's descriptors and rings with a device that follows the virtio
    specification: it fetches chains from the available ring, carries them out
    in any order, reports them on the used ring with a status of its own
    choice, and raises its interrupt until it is acknowledged.  A descriptor's
    address is the object it points to.  wakeup() calls are recorded in
    [v_wakeups]. *)

From Stdlib Require Import ZArith Lia.
From stdpp Require Import base numbers list list_numbers gmap relations strings sorting.
From S2P Require Import Prelude Cstring Riscv Kalloc Bytes Bio.

Definition VIRTIO_MMIO_MAGIC_VALUE : Z := 0x000.
Definition VIRTIO_MMIO_VERSION : Z := 0x004.
Definition VIRTIO_MMIO_DEVICE_ID : Z := 0x008.
Definition VIRTIO_MMIO_VENDOR_ID : Z := 0x00c.
Definition VIRTIO_MMIO_DEVICE_FEATURES : Z := 0x010.
Definition VIRTIO_MMIO_DRIVER_FEATURES : Z := 0x020.
Definition VIRTIO_MMIO_QUEUE_SEL : Z := 0x030.
Definition VIRTIO_MMIO_QUEUE_NUM_MAX : Z := 0x034.
Definition VIRTIO_MMIO_QUEUE_NUM : Z := 0x038.
Definition VIRTIO_MMIO_QUEUE_READY : Z := 0x044.
Definition VIRTIO_MMIO_QUEUE_NOTIFY : Z := 0x050.
Definition VIRTIO_MMIO_INTERRUPT_STATUS : Z := 0x060.
Definition VIRTIO_MMIO_INTERRUPT_ACK : Z := 0x064.
Definition VIRTIO_MMIO_STATUS : Z := 0x070.
Definition VIRTIO_MMIO_QUEUE_DESC_LOW : Z := 0x080.
Definition VIRTIO_MMIO_QUEUE_DESC_HIGH : Z := 0x084.
Definition VIRTIO_MMIO_DRIVER_DESC_LOW : Z := 0x090.
Definition VIRTIO_MMIO_DRIVER_DESC_HIGH : Z := 0x094.
Definition VIRTIO_MMIO_DEVICE_DESC_LOW : Z := 0x0a0.
Definition VIRTIO_MMIO_DEVICE_DESC_HIGH : Z := 0x0a4.

Definition VIRTIO_CONFIG_S_ACKNOWLEDGE : Z := 1.
Definition VIRTIO_CONFIG_S_DRIVER : Z := 2.
Definition VIRTIO_CONFIG_S_DRIVER_OK : Z := 4.
Definition VIRTIO_CONFIG_S_FEATURES_OK : Z := 8.
Definition VIRTIO_BLK_F_RO : Z := 5.
Definition VIRTIO_BLK_F_SCSI : Z := 7.
Definition VIRTIO_BLK_F_CONFIG_WCE : Z := 11.
Definition VIRTIO_BLK_F_MQ : Z := 12.
Definition VIRTIO_F_ANY_LAYOUT : Z := 27.
Definition VIRTIO_RING_F_INDIRECT_DESC : Z := 28.
Definition VIRTIO_RING_F_EVENT_IDX : Z := 29.

Definition NUM : Z := 8.
Definition VRING_DESC_F_NEXT : Z := 1.
Definition VRING_DESC_F_WRITE : Z := 2.
Definition VIRTIO_BLK_T_IN : Z := 0.
Definition VIRTIO_BLK_T_OUT : Z := 1.

(** What a descriptor points to: nothing, disk.ops[i], the data of buffer b,
    or disk.info[i].status. *)
Inductive dptr := DNull | DOps (i : Z) | DData (b : Z) | DStatus (i : Z).

Record virtq_desc := Vdesc { d_addr : dptr; d_len : Z; d_flags : Z; d_next : Z }.
Record virtio_blk_req := Vreq { r_type : Z; r_reserved : Z; r_sector : Z }.

(** disk.info[i]: the buffer (-1 for 0) and the status byte. *)
Record vinfo := Vinfo { in_b : Z; in_status : Z }.

(** struct disk; the buffers it is given (b->disk, b->blockno, b->data); the
    device: its registers, the platter, how far it has read the available
    ring and the chains it is working on; and the memory kalloc() uses. *)
Record vst := Vst {
  v_desc : list virtq_desc;
  v_avail : list Z;
  v_avail_idx : Z;
  v_used : list Z;
  v_used_ring_idx : Z;
  v_free : list bool;
  v_used_idx : Z;
  v_info : list vinfo;
  v_ops : list virtio_blk_req;
  v_lock : bool;
  v_bdisk : gmap Z bool;
  v_bdata : gmap Z (list Z);
  v_regs : gmap Z Z;
  v_platter : gmap Z (list Z);
  v_dev_idx : Z;
  v_fetched : list Z;
  v_mem : kmem;
  v_wakeups : list Z
}.

Definition vdesc0 : virtq_desc := Vdesc DNull 0 0 0.
Definition vreq0 : virtio_blk_req := Vreq 0 0 0.
Definition vinfo0 : vinfo := Vinfo (-1) 0.

Definition set_v_desc x v := Vst x (v_avail v) (v_avail_idx v) (v_used v) (v_used_ring_idx v) (v_free v) (v_used_idx v) (v_info v) (v_ops v) (v_lock v) (v_bdisk v) (v_bdata v) (v_regs v) (v_platter v) (v_dev_idx v) (v_fetched v) (v_mem v) (v_wakeups v).
Definition set_v_avail x i v := Vst (v_desc v) x i (v_used v) (v_used_ring_idx v) (v_free v) (v_used_idx v) (v_info v) (v_ops v) (v_lock v) (v_bdisk v) (v_bdata v) (v_regs v) (v_platter v) (v_dev_idx v) (v_fetched v) (v_mem v) (v_wakeups v).
Definition set_v_used x i v := Vst (v_desc v) (v_avail v) (v_avail_idx v) x i (v_free v) (v_used_idx v) (v_info v) (v_ops v) (v_lock v) (v_bdisk v) (v_bdata v) (v_regs v) (v_platter v) (v_dev_idx v) (v_fetched v) (v_mem v) (v_wakeups v).
Definition set_v_free x v := Vst (v_desc v) (v_avail v) (v_avail_idx v) (v_used v) (v_used_ring_idx v) x (v_used_idx v) (v_info v) (v_ops v) (v_lock v) (v_bdisk v) (v_bdata v) (v_regs v) (v_platter v) (v_dev_idx v) (v_fetched v) (v_mem v) (v_wakeups v).
Definition set_v_used_idx x v := Vst (v_desc v) (v_avail v) (v_avail_idx v) (v_used v) (v_used_ring_idx v) (v_free v) x (v_info v) (v_ops v) (v_lock v) (v_bdisk v) (v_bdata v) (v_regs v) (v_platter v) (v_dev_idx v) (v_fetched v) (v_mem v) (v_wakeups v).
Definition set_v_info x v := Vst (v_desc v) (v_avail v) (v_avail_idx v) (v_used v) (v_used_ring_idx v) (v_free v) (v_used_idx v) x (v_ops v) (v_lock v) (v_bdisk v) (v_bdata v) (v_regs v) (v_platter v) (v_dev_idx v) (v_fetched v) (v_mem v) (v_wakeups v).
Definition set_v_ops x v := Vst (v_desc v) (v_avail v) (v_avail_idx v) (v_used v) (v_used_ring_idx v) (v_free v) (v_used_idx v) (v_info v) x (v_lock v) (v_bdisk v) (v_bdata v) (v_regs v) (v_platter v) (v_dev_idx v) (v_fetched v) (v_mem v) (v_wakeups v).
Definition set_v_lock x v := Vst (v_desc v) (v_avail v) (v_avail_idx v) (v_used v) (v_used_ring_idx v) (v_free v) (v_used_idx v) (v_info v) (v_ops v) x (v_bdisk v) (v_bdata v) (v_regs v) (v_platter v) (v_dev_idx v) (v_fetched v) (v_mem v) (v_wakeups v).
Definition set_v_bdisk x v := Vst (v_desc v) (v_avail v) (v_avail_idx v) (v_used v) (v_used_ring_idx v) (v_free v) (v_used_idx v) (v_info v) (v_ops v) (v_lock v) x (v_bdata v) (v_regs v) (v_platter v) (v_dev_idx v) (v_fetched v) (v_mem v) (v_wakeups v).
Definition set_v_bdata x v := Vst (v_desc v) (v_avail v) (v_avail_idx v) (v_used v) (v_used_ring_idx v) (v_free v) (v_used_idx v) (v_info v) (v_ops v) (v_lock v) (v_bdisk v) x (v_regs v) (v_platter v) (v_dev_idx v) (v_fetched v) (v_mem v) (v_wakeups v).
Definition set_v_regs x v := Vst (v_desc v) (v_avail v) (v_avail_idx v) (v_used v) (v_used_ring_idx v) (v_free v) (v_used_idx v) (v_info v) (v_ops v) (v_lock v) (v_bdisk v) (v_bdata v) x (v_platter v) (v_dev_idx v) (v_fetched v) (v_mem v) (v_wakeups v).
Definition set_v_platter x v := Vst (v_desc v) (v_avail v) (v_avail_idx v) (v_used v) (v_used_ring_idx v) (v_free v) (v_used_idx v) (v_info v) (v_ops v) (v_lock v) (v_bdisk v) (v_bdata v) (v_regs v) x (v_dev_idx v) (v_fetched v) (v_mem v) (v_wakeups v).
Definition set_v_dev x f v := Vst (v_desc v) (v_avail v) (v_avail_idx v) (v_used v) (v_used_ring_idx v) (v_free v) (v_used_idx v) (v_info v) (v_ops v) (v_lock v) (v_bdisk v) (v_bdata v) (v_regs v) (v_platter v) x f (v_mem v) (v_wakeups v).
Definition set_v_mem x v := Vst (v_desc v) (v_avail v) (v_avail_idx v) (v_used v) (v_used_ring_idx v) (v_free v) (v_used_idx v) (v_info v) (v_ops v) (v_lock v) (v_bdisk v) (v_bdata v) (v_regs v) (v_platter v) (v_dev_idx v) (v_fetched v) x (v_wakeups v).
Definition set_v_wakeups x v := Vst (v_desc v) (v_avail v) (v_avail_idx v) (v_used v) (v_used_ring_idx v) (v_free v) (v_used_idx v) (v_info v) (v_ops v) (v_lock v) (v_bdisk v) (v_bdata v) (v_regs v) (v_platter v) (v_dev_idx v) (v_fetched v) (v_mem v) x.

Definition vacquire : M vst unit := lk_acquire v_lock set_v_lock.
Definition vrelease : M vst unit := lk_release v_lock set_v_lock.

(** Wait channels: &disk.free[0] and a buffer. *)
Definition chan_free : Z := 30000.
Definition vwakeup (chan : Z) : M vst unit := modify (fun v => set_v_wakeups (v_wakeups v ++ [chan]) v).

Definition upd_desc (i : Z) (f : virtq_desc -> virtq_desc) : M vst unit :=
  modify (fun v => set_v_desc (updZ i (f (nthZ vdesc0 (v_desc v) i)) (v_desc v)) v).

(** ** Descriptors *)

Fixpoint alloc_desc_loop (n : nat) (i : Z) : M vst Z :=
  match n with
  | O => ret (-1)
  | S k =>
      let* fr := gets (fun v => nthZ false (v_free v) i) in
      if fr then modify (fun v => set_v_free (updZ i false (v_free v)) v) ;; ret i
      else alloc_desc_loop k (i + 1)
  end.
Definition alloc_desc : M vst Z := alloc_desc_loop (Z.to_nat NUM) 0.

Definition free_desc (i : Z) : M vst unit :=
  if NUM <=? i then panic "free_desc 1"
  else
    let* fr := gets (fun v => nthZ false (v_free v) i) in
    if (fr : bool) then panic "free_desc 2"
    else
      upd_desc i (fun _ => vdesc0) ;;
      modify (fun v => set_v_free (updZ i true (v_free v)) v) ;;
      vwakeup chan_free.

(** The chains xv6 makes have three descriptors. *)
Fixpoint free_chain_loop (fuel : nat) (i : Z) : M vst unit :=
  match fuel with
  | O => panic "free_chain: fuel"
  | S k =>
      let* d := gets (fun v => nthZ vdesc0 (v_desc v) i) in
      free_desc i ;;
      if negb (Z.land (d_flags d) VRING_DESC_F_NEXT =? 0) then free_chain_loop k (d_next d) else ret tt
  end.
Definition free_chain (i : Z) : M vst unit := free_chain_loop (Z.to_nat NUM) i.

(** The three indices, [None] for -1. *)
Definition alloc3_desc : M vst (option (Z * Z * Z)) :=
  let* i0 := alloc_desc in
  if i0 <? 0 then ret None
  else
    let* i1 := alloc_desc in
    if i1 <? 0 then free_desc i0 ;; ret None
    else
      let* i2 := alloc_desc in
      if i2 <? 0 then free_desc i0 ;; free_desc i1 ;; ret None
      else ret (Some (i0, i1, i2)).

(** ** Requests *)

(** virtio_disk_rw() after the descriptors are allocated, to the point where
    it waits for the device. *)
Definition rw_format (b blockno : Z) (write : bool) (i0 i1 i2 : Z) : M vst unit :=
  let sector := u32 (blockno * (BSIZE / 512)) in
  modify (fun v => set_v_ops (updZ i0 (Vreq (if write then VIRTIO_BLK_T_OUT else VIRTIO_BLK_T_IN) 0 sector) (v_ops v)) v) ;;
  upd_desc i0 (fun _ => Vdesc (DOps i0) 16 VRING_DESC_F_NEXT i1) ;;
  upd_desc i1 (fun _ => Vdesc (DData b) BSIZE
                 (Z.lor (if write then 0 else VRING_DESC_F_WRITE) VRING_DESC_F_NEXT) i2) ;;
  modify (fun v => set_v_info (updZ i0 (Vinfo (in_b (nthZ vinfo0 (v_info v) i0)) 255) (v_info v)) v) ;;
  upd_desc i2 (fun _ => Vdesc (DStatus i0) 1 VRING_DESC_F_WRITE 0) ;;
  modify (fun v => set_v_bdisk (<[b := true]> (v_bdisk v)) v) ;;
  modify (fun v => set_v_info (updZ i0 (Vinfo b (in_status (nthZ vinfo0 (v_info v) i0))) (v_info v)) v) ;;
  modify (fun v => set_v_avail (updZ (v_avail_idx v mod NUM) i0 (v_avail v)) (v_avail_idx v) v) ;;
  modify (fun v => set_v_avail (v_avail v) (u16 (v_avail_idx v + 1)) v) ;;
  modify (fun v => set_v_regs (<[VIRTIO_MMIO_QUEUE_NOTIFY := 0]> (v_regs v)) v).

(** One turn of the allocation loop: idx[] of the request that is now queued,
    [None] when it goes to sleep for free descriptors. *)
Definition rw_start (b blockno : Z) (write : bool) : M vst (option (Z * Z * Z)) :=
  vacquire ;;
  let* a := alloc3_desc in
  match a with
  | None => vrelease ;; ret None
  | Some (i0, i1, i2) =>
      rw_format b blockno write i0 i1 i2 ;;
      vrelease ;;
      ret (Some (i0, i1, i2))
  end.

(** The waiting loop: [false] while b->disk is still set, and the end of
    virtio_disk_rw() once it is not. *)
Definition rw_finish (b i0 : Z) : M vst bool :=
  vacquire ;;
  let* busy := gets (fun v => default false (v_bdisk v !! b)) in
  if (busy : bool) then vrelease ;; ret false
  else
    modify (fun v => set_v_info (updZ i0 (Vinfo (-1) (in_status (nthZ vinfo0 (v_info v) i0))) (v_info v)) v) ;;
    free_chain i0 ;;
    vrelease ;;
    ret true.

(** The interrupt handler's loop: at most NUM completions are on the ring. *)
Fixpoint intr_loop (fuel : nat) : M vst unit :=
  let* v := get in
  if v_used_idx v =? v_used_ring_idx v then ret tt
  else
    match fuel with
    | O => panic "virtio_disk_intr: fuel"
    | S k =>
        let id := nthZ 0 (v_used v) (v_used_idx v mod NUM) in
        let x := nthZ vinfo0 (v_info v) id in
        if negb (in_status x =? 0) then panic "virtio_disk_intr status"
        else
          modify (fun v => set_v_bdisk (<[in_b x := false]> (v_bdisk v)) v) ;;
          vwakeup (in_b x) ;;
          modify (fun v => set_v_used_idx (u16 (v_used_idx v + 1)) v) ;;
          intr_loop k
    end.

(** INTERRUPT_ACK = INTERRUPT_STATUS & 0x3: the device takes back the bits
    written. *)
Definition irq_status (v : vst) : Z := default 0 (v_regs v !! VIRTIO_MMIO_INTERRUPT_STATUS).
Definition ack_irq : M vst unit :=
  let* st := gets irq_status in
  modify (fun v => set_v_regs (<[VIRTIO_MMIO_INTERRUPT_ACK := Z.land st 3]>
                     (<[VIRTIO_MMIO_INTERRUPT_STATUS := Z.ldiff st (Z.land st 3)]> (v_regs v))) v).

Definition virtio_disk_intr : M vst unit :=
  vacquire ;; ack_irq ;; intr_loop (Z.to_nat NUM) ;; vrelease.

(** ** Initialisation *)

Section Init.
(** The device: what its registers read, and which status bits it accepts. *)
Context (hw : Z -> Z).

Definition R (r : Z) : M vst Z := ret (u32 (hw r)).
Definition Rset (r x : Z) : M vst unit := modify (fun v => set_v_regs (<[r := u32 x]> (v_regs v)) v).
Definition R_status : M vst Z :=
  gets (fun v => Z.land (default 0 (v_regs v !! VIRTIO_MMIO_STATUS)) (hw VIRTIO_MMIO_STATUS)).

Definition clear_bit_ (x b : Z) : Z := Z.land x (u64 (Z.lnot (Z.shiftl 1 b))).

Definition on_vmem {A} (m : M kmem A) : M vst A := zoom v_mem set_v_mem m.

Definition virtio_disk_init : M vst unit :=
  modify (set_v_lock false) ;;
  let* magic := R VIRTIO_MMIO_MAGIC_VALUE in
  let* version := R VIRTIO_MMIO_VERSION in
  let* id := R VIRTIO_MMIO_DEVICE_ID in
  let* vendor := R VIRTIO_MMIO_VENDOR_ID in
  if negb (magic =? 0x74726976) || negb (version =? 2) || negb (id =? 2) || negb (vendor =? 0x554d4551)
  then panic "could not find virtio disk"
  else
    Rset VIRTIO_MMIO_STATUS 0 ;;
    let status := VIRTIO_CONFIG_S_ACKNOWLEDGE in
    Rset VIRTIO_MMIO_STATUS status ;;
    let status := Z.lor status VIRTIO_CONFIG_S_DRIVER in
    Rset VIRTIO_MMIO_STATUS status ;;
    let* features := R VIRTIO_MMIO_DEVICE_FEATURES in
    let features := clear_bit_ features VIRTIO_BLK_F_RO in
    let features := clear_bit_ features VIRTIO_BLK_F_SCSI in
    let features := clear_bit_ features VIRTIO_BLK_F_CONFIG_WCE in
    let features := clear_bit_ features VIRTIO_BLK_F_MQ in
    let features := clear_bit_ features VIRTIO_F_ANY_LAYOUT in
    let features := clear_bit_ features VIRTIO_RING_F_EVENT_IDX in
    let features := clear_bit_ features VIRTIO_RING_F_INDIRECT_DESC in
    Rset VIRTIO_MMIO_DRIVER_FEATURES features ;;
    let status := Z.lor status VIRTIO_CONFIG_S_FEATURES_OK in
    Rset VIRTIO_MMIO_STATUS status ;;
    let* status := R_status in
    if Z.land status VIRTIO_CONFIG_S_FEATURES_OK =? 0 then panic "virtio disk FEATURES_OK unset"
    else
      Rset VIRTIO_MMIO_QUEUE_SEL 0 ;;
      let* ready := R VIRTIO_MMIO_QUEUE_READY in
      if negb (ready =? 0) then panic "virtio disk should not be ready"
      else
        let* max := R VIRTIO_MMIO_QUEUE_NUM_MAX in
        if max =? 0 then panic "virtio disk has no queue 0"
        else if max <? NUM then panic "virtio disk max queue too short"
        else
          let* desc := on_vmem kalloc in
          let* avail := on_vmem kalloc in
          let* used := on_vmem kalloc in
          if (desc =? 0) || (avail =? 0) || (used =? 0) then panic "virtio disk kalloc"
          else
            on_vmem (k_memset desc 0 PGSIZE) ;;
            on_vmem (k_memset avail 0 PGSIZE) ;;
            on_vmem (k_memset used 0 PGSIZE) ;;
            modify (set_v_desc (repeat vdesc0 (Z.to_nat NUM))) ;;
            modify (set_v_avail (repeat 0 (Z.to_nat NUM)) 0) ;;
            modify (set_v_used (repeat 0 (Z.to_nat NUM)) 0) ;;
            Rset VIRTIO_MMIO_QUEUE_NUM NUM ;;
            Rset VIRTIO_MMIO_QUEUE_DESC_LOW desc ;;
            Rset VIRTIO_MMIO_QUEUE_DESC_HIGH (Z.shiftr desc 32) ;;
            Rset VIRTIO_MMIO_DRIVER_DESC_LOW avail ;;
            Rset VIRTIO_MMIO_DRIVER_DESC_HIGH (Z.shiftr avail 32) ;;
            Rset VIRTIO_MMIO_DEVICE_DESC_LOW used ;;
            Rset VIRTIO_MMIO_DEVICE_DESC_HIGH (Z.shiftr used 32) ;;
            Rset VIRTIO_MMIO_QUEUE_READY 1 ;;
            modify (set_v_free (repeat true (Z.to_nat NUM))) ;;
            Rset VIRTIO_MMIO_STATUS (Z.lor status VIRTIO_CONFIG_S_DRIVER_OK).
End Init.

(** ** The device *)

(** Reading the next entry of the available ring. *)
Definition dev_fetch (v : vst) : option vst :=
  if v_dev_idx v =? v_avail_idx v then None
  else Some (set_v_dev (u16 (v_dev_idx v + 1)) (v_fetched v ++ [nthZ 0 (v_avail v) (v_dev_idx v mod NUM)]) v).

Definition vblk (p : gmap Z (list Z)) (b : Z) : list Z := default zero_block (p !! b).

(** The chain the specification asks of a block request: a 16-byte header the
    device reads, one block of data it reads or writes as the request type
    says, and a status byte it writes. *)
Definition flag (d : virtq_desc) (f : Z) : bool := negb (Z.land (d_flags d) f =? 0).
Definition chain_ok (r : virtio_blk_req) (d0 d1 d2 : virtq_desc) : bool :=
  flag d0 VRING_DESC_F_NEXT && negb (flag d0 VRING_DESC_F_WRITE) && (d_len d0 =? 16) &&
  flag d1 VRING_DESC_F_NEXT && Bool.eqb (flag d1 VRING_DESC_F_WRITE) (r_type r =? VIRTIO_BLK_T_IN) && (d_len d1 =? BSIZE) &&
  negb (flag d2 VRING_DESC_F_NEXT) && flag d2 VRING_DESC_F_WRITE && (d_len d2 =? 1) &&
  ((r_type r =? VIRTIO_BLK_T_IN) || (r_type r =? VIRTIO_BLK_T_OUT)).

(** Carrying out the chain headed by descriptor [h], which must be one of the
    above: the transfer its request asks for if the device can do it, the
    status byte (0 for success, other values are errors), the used-ring entry
    and the interrupt. *)
Definition dev_complete (status : Z) (h : Z) (v : vst) : option vst :=
  let d0 := nthZ vdesc0 (v_desc v) h in
  let d1 := nthZ vdesc0 (v_desc v) (d_next d0) in
  let d2 := nthZ vdesc0 (v_desc v) (d_next d1) in
  match d_addr d0, d_addr d1, d_addr d2 with
  | DOps i, DData b, DStatus j =>
      let r := nthZ vreq0 (v_ops v) i in
      let blk := r_sector r / (BSIZE / 512) in
      if negb (chain_ok r d0 d1 d2) then None
      else
        let v :=
          if negb (status =? 0) then v
          else if r_type r =? VIRTIO_BLK_T_OUT
          then set_v_platter (<[blk := vblk (v_bdata v) b]> (v_platter v)) v
          else set_v_bdata (<[b := vblk (v_platter v) blk]> (v_bdata v)) v in
        let v := set_v_info (updZ j (Vinfo (in_b (nthZ vinfo0 (v_info v) j)) status) (v_info v)) v in
        let v := set_v_used (updZ (v_used_ring_idx v mod NUM) h (v_used v)) (u16 (v_used_ring_idx v + 1)) v in
        Some (set_v_regs (<[VIRTIO_MMIO_INTERRUPT_STATUS := Z.lor (irq_status v) 1]> (v_regs v)) v)
  | _, _, _ => None
  end.
