(* ===== verification/Trap.v ===== *)
(** * Traps and interrupts (kernel/trap.c, kernel/plic.c, the registers of kernel/riscv.h)

    The kernel's state with a hart's control registers, the interrupt
    controller and the disk driver.  usertrap() and kerneltrap() are cut where
    yield() switches away: [inl] says the process gave up the processor there
    and what it resumes with. *)

From Stdlib Require Import ZArith Lia.
From stdpp Require Import base numbers list list_numbers gmap strings sorting.
From S2P Require Import Prelude Cstring Riscv Kalloc Vm Uvm Bytes Sleeplock Bio Log Store Fs Kernel Console File Proc Exec Sysfile Sysproc Virtio.

(** ** Registers *)

Inductive csr :=
| mhartid | mstatus | mepc | sstatus | sip | sie | mie | sepc | medeleg | mideleg | stvec | mtvec
| pmpcfg0 | pmpaddr0 | satp | mscratch | scause | stval | tp.
#[export] Instance csr_eq_dec : EqDecision csr.
Proof. solve_decision. Defined.

Definition MSTATUS_MPP_MASK : Z := Z.shiftl 3 11.
Definition MSTATUS_MPP_S : Z := Z.shiftl 1 11.
Definition MSTATUS_MIE : Z := Z.shiftl 1 3.
Definition SSTATUS_SPP : Z := Z.shiftl 1 8.
Definition SSTATUS_SPIE : Z := Z.shiftl 1 5.
Definition SSTATUS_SIE : Z := Z.shiftl 1 1.
Definition SIE_SEIE : Z := Z.shiftl 1 9.
Definition SIE_STIE : Z := Z.shiftl 1 5.
Definition SIE_SSIE : Z := Z.shiftl 1 1.
Definition MIE_MTIE : Z := Z.shiftl 1 7.

Definition PLIC_SENABLE (hart : Z) : Z := PLIC + 0x2080 + hart * 0x100.
Definition PLIC_SPRIORITY (hart : Z) : Z := PLIC + 0x201000 + hart * 0x2000.
Definition PLIC_SCLAIM (hart : Z) : Z := PLIC + 0x201004 + hart * 0x2000.

(** [t_pending] are the interrupts the controller will hand out, [t_service]
    those claimed and not completed; [t_mmio] the controller's other
    registers. *)
Record tst (S : Type) := Tst {
  tk : kst S;
  t_regs : csr -> Z;
  t_mmio : gmap Z Z;
  t_pending : list Z;
  t_service : list Z;
  t_disk : vst
}.
Arguments Tst {S} _ _ _ _ _ _.
Arguments tk {S} _.
Arguments t_regs {S} _ _.
Arguments t_mmio {S} _.
Arguments t_pending {S} _.
Arguments t_service {S} _.
Arguments t_disk {S} _.

Section Trap.
Context {S : Type} {ops : BlockOps S}.
(** The linker's symbols and the addresses of code. *)
Context (kend trampoline forkret uservec userret kernelvec usertrap_addr : Z).
Notation st := (tst S).

Definition set_tk k (s : st) : st := Tst k (t_regs s) (t_mmio s) (t_pending s) (t_service s) (t_disk s).
Definition set_t_regs r (s : st) : st := Tst (tk s) r (t_mmio s) (t_pending s) (t_service s) (t_disk s).
Definition set_t_mmio m (s : st) : st := Tst (tk s) (t_regs s) m (t_pending s) (t_service s) (t_disk s).
Definition set_t_plic p v (s : st) : st := Tst (tk s) (t_regs s) (t_mmio s) p v (t_disk s).
Definition set_t_disk d (s : st) : st := Tst (tk s) (t_regs s) (t_mmio s) (t_pending s) (t_service s) d.

Definition on_k {A} (m : M (kst S) A) : M st A := zoom tk set_tk m.

Definition rd (r : csr) : M st Z := gets (fun s => t_regs s r).
Definition wr (r : csr) (v : Z) : M st unit :=
  modify (fun s => set_t_regs (fun r' => if decide (r' = r) then u64 v else t_regs s r') s).

Definition r_sstatus : M st Z := rd sstatus.
Definition w_sstatus (x : Z) : M st unit := wr sstatus x.
Definition r_sip : M st Z := rd sip.
Definition w_sip (x : Z) : M st unit := wr sip x.
Definition w_sepc (x : Z) : M st unit := wr sepc x.
Definition r_sepc : M st Z := rd sepc.
Definition w_stvec (x : Z) : M st unit := wr stvec x.
Definition w_satp (x : Z) : M st unit := wr satp x.
Definition r_satp : M st Z := rd satp.
Definition r_scause : M st Z := rd scause.
Definition r_stval : M st Z := rd stval.
Definition r_tp : M st Z := rd tp.

Definition intr_on : M st unit := let* x := r_sstatus in w_sstatus (Z.lor x SSTATUS_SIE).
Definition intr_off : M st unit := let* x := r_sstatus in w_sstatus (Z.land x (u64 (Z.lnot SSTATUS_SIE))).
Definition intr_get : M st bool := let* x := r_sstatus in ret (negb (Z.land x SSTATUS_SIE =? 0)).

Definition cpuid : M st Z := let* id := r_tp in ret (s32 id).

(** ** plic.c *)

Definition mmio_write (a v : Z) : M st unit := modify (fun s => set_t_mmio (<[a := u32 v]> (t_mmio s)) s).

Definition plicinit : M st unit :=
  mmio_write (PLIC + UART0_IRQ * 4) 1 ;;
  mmio_write (PLIC + VIRTIO0_IRQ * 4) 1.

Definition plicinithart : M st unit :=
  let* hart := cpuid in
  mmio_write (PLIC_SENABLE hart) (Z.lor (Z.shiftl 1 UART0_IRQ) (Z.shiftl 1 VIRTIO0_IRQ)) ;;
  mmio_write (PLIC_SPRIORITY hart) 0.

(** Reading the claim register takes the next pending interrupt, 0 if none;
    writing it ends the service of one. *)
Definition plic_claim : M st Z := fun s =>
  match t_pending s with
  | [] => Ret 0 s
  | irq :: p => Ret irq (set_t_plic p (irq :: t_service s) s)
  end.
Definition plic_complete (irq : Z) : M st unit :=
  modify (fun s => set_t_plic (t_pending s) (filter (fun i => i <> irq) (t_service s)) s).

(** ** trap.c *)

Definition trapinit : M st unit := on_k (on_dev (modify (set_tickslock false))).
Definition trapinithart : M st unit := w_stvec kernelvec.

(** yield() to the switch, which hands p->lock to the scheduler and back. *)
Definition yield : M st unit :=
  let* p := on_k myproc in
  on_k (acquire_p p) ;;
  on_k (setpr p (set_p_state RUNNABLE)) ;;
  on_k sched ;;
  on_k (release_p p).

(** The jump into userret(satp) that ends usertrapret(). *)
Definition usertrapret : M st (Z * Z) :=
  let* p := on_k myproc in
  intr_off ;;
  w_stvec (TRAMPOLINE + (uservec - trampoline)) ;;
  let* ksatp := r_satp in
  on_k (tf_set p tf_kernel_satp ksatp) ;;
  let* kstack := on_k (getpr p p_kstack) in
  on_k (tf_set p tf_kernel_sp (kstack + PGSIZE)) ;;
  on_k (tf_set p tf_kernel_trap usertrap_addr) ;;
  let* hartid := r_tp in
  on_k (tf_set p tf_kernel_hartid hartid) ;;
  let* x := r_sstatus in
  let x := Z.land x (u64 (Z.lnot SSTATUS_SPP)) in
  let x := Z.lor x SSTATUS_SPIE in
  w_sstatus x ;;
  let* epc := on_k (tf_get p tf_epc) in
  w_sepc epc ;;
  let* pagetable := on_k (getpr p p_pagetable) in
  ret (TRAMPOLINE + (userret - trampoline), MAKE_SATP pagetable).

(** forkret(), where a new process first runs; [first] is its static flag. *)
Definition forkret_ (first : bool) : M st (bool * (Z * Z)) :=
  let* p := on_k myproc in
  on_k (release_p p) ;;
  (if first then on_k (on_fs (fsinit ROOTDEV)) else ret tt) ;;
  let* r := usertrapret in
  ret (false, r).

Definition clockintr : M st unit :=
  on_k acquire_ticks ;;
  on_k (on_dev (modify (fun d => set_ticks (u32 (ticks d + 1)) d))) ;;
  on_k (wakeup chan_ticks) ;;
  on_k release_ticks.

Fixpoint wakeup_all (cs : list Z) : M (kst S) unit :=
  match cs with
  | [] => ret tt
  | c :: cs' => wakeup c ;; wakeup_all cs'
  end.

(** The disk's interrupt handler; its wakeups reach the process table. *)
Definition disk_intr : M st unit :=
  modify (fun s => set_t_disk (set_v_wakeups [] (t_disk s)) s) ;;
  zoom t_disk set_t_disk virtio_disk_intr ;;
  let* cs := gets (fun s => v_wakeups (t_disk s)) in
  on_k (wakeup_all cs).

Definition devintr : M st Z :=
  let* cause := r_scause in
  if negb (Z.land cause 0x8000000000000000 =? 0) && (Z.land cause 0xff =? 9) then
    let* irq := plic_claim in
    (if irq =? UART0_IRQ then on_k uartintr
     else if irq =? VIRTIO0_IRQ then disk_intr
     else if negb (irq =? 0) then on_k (printf (lit "unexpected interrupt irq=%d" ++ [10]) [AInt irq])
     else ret tt) ;;
    (if negb (irq =? 0) then plic_complete irq else ret tt) ;;
    ret 1
  else if cause =? 0x8000000000000001 then
    let* id := cpuid in
    (if id =? 0 then clockintr else ret tt) ;;
    let* x := r_sip in
    w_sip (Z.land x (u64 (Z.lnot 2))) ;;
    ret 2
  else ret 0.

(** usertrap() after the cause has been dealt with. *)
Definition usertrap_finish (which_dev : Z) : M st (unit + Z * Z) :=
  let* p := on_k myproc in
  let* k := on_k (killed p) in
  (if negb (k =? 0) then on_k (exit kend (-1)) ;; on_k gone else ret tt) ;;
  if which_dev =? 2 then yield ;; ret (inl tt)
  else let* r := usertrapret in ret (inr r).

Definition usertrap (kills : Z -> bool) : M st (unit + Z * Z) :=
  let* x := r_sstatus in
  if negb (Z.land x SSTATUS_SPP =? 0) then panic "usertrap: not from user mode"
  else
    w_stvec kernelvec ;;
    let* p := on_k myproc in
    let* epc := r_sepc in
    on_k (tf_set p tf_epc epc) ;;
    let* cause := r_scause in
    if cause =? 8 then
      let* k := on_k (killed p) in
      (if negb (k =? 0) then on_k (exit kend (-1)) ;; on_k gone else ret tt) ;;
      let* e := on_k (tf_get p tf_epc) in
      on_k (tf_set p tf_epc (e + 4)) ;;
      intr_on ;;
      on_k (syscall kend trampoline forkret kills) ;;
      usertrap_finish 0
    else
      let* which_dev := devintr in
      (if negb (which_dev =? 0) then ret tt
       else
         let* c := r_scause in
         let* pid := on_k (getpr p p_pid) in
         on_k (printf (lit "usertrap(): unexpected scause %p pid=%d" ++ [10]) [APtr c; AInt pid]) ;;
         let* e := r_sepc in
         let* v := r_stval in
         on_k (printf (lit "            sepc=%p stval=%p" ++ [10]) [APtr e; APtr v]) ;;
         on_k (setkilled p)) ;;
      usertrap_finish which_dev.

(** usertrap() resumed in yield(). *)
Definition usertrap_resume : M st (Z * Z) := usertrapret.

(** kerneltrap(), to the end or to yield()'s switch; it resumes with the
    registers it saved. *)
Definition kerneltrap_resume (epc status : Z) : M st unit :=
  w_sepc epc ;; w_sstatus status.

Definition kerneltrap : M st (Z * Z + unit) :=
  let* epc := r_sepc in
  let* status := r_sstatus in
  let* cause := r_scause in
  if Z.land status SSTATUS_SPP =? 0 then panic "kerneltrap: not from supervisor mode"
  else
    let* on := intr_get in
    if on then panic "kerneltrap: interrupts enabled"
    else
      let* which_dev := devintr in
      if which_dev =? 0 then
        on_k (printf (lit "scause %p" ++ [10]) [APtr cause]) ;;
        let* e := r_sepc in
        let* v := r_stval in
        on_k (printf (lit "sepc=%p stval=%p" ++ [10]) [APtr e; APtr v]) ;;
        panic "kerneltrap"
      else
        let* p := on_k myproc in
        let* state := on_k (getpr p p_state) in
        if (which_dev =? 2) && negb (p =? NULL) && bool_decide (state = RUNNING)
        then yield ;; ret (inl (epc, status))
        else kerneltrap_resume epc status ;; ret (inr tt).
End Trap.
