(* ===== verification/Boot.v ===== *)
(** * Booting (kernel/start.c, kernel/main.c)

    start() on one hart in machine mode, down to the mret that enters main()
    in supervisor mode, and main() down to the scheduler. *)

From Stdlib Require Import ZArith Lia.
From stdpp Require Import base numbers list list_numbers gmap strings sorting.
From S2P Require Import Prelude Cstring Riscv Kalloc Vm PageTable Uvm Bytes Sleeplock Bio Log Store Fs Kernel Console File Proc Exec Sysfile Sysproc Virtio Trap.

Definition CLINT : Z := 0x2000000.
Definition CLINT_MTIMECMP (hartid : Z) : Z := CLINT + 0x4000 + 8 * hartid.
Definition CLINT_MTIME : Z := CLINT + 0xBFF8.

(** ** start.c *)

(** A hart: its registers, mode (3 machine, 1 supervisor, 0 user) and pc, and
    the words of memory start() reads and writes. *)
Record mst := Mst { m_regs : csr -> Z; m_mode : Z; m_pc : Z; m_word : gmap Z Z }.

Section Start.
(** The addresses of main(), timervec and timer_scratch. *)
Context (main_addr timervec timer_scratch : Z).

Definition mrd (r : csr) : M mst Z := gets (fun s => m_regs s r).
Definition mwr (r : csr) (v : Z) : M mst unit :=
  modify (fun s => Mst (fun r' => if decide (r' = r) then u64 v else m_regs s r') (m_mode s) (m_pc s) (m_word s)).
Definition load (a : Z) : M mst Z := gets (fun s => default 0 (m_word s !! a)).
Definition store_ (a v : Z) : M mst unit :=
  modify (fun s => Mst (m_regs s) (m_mode s) (m_pc s) (<[a := u64 v]> (m_word s))).

Definition r_mhartid : M mst Z := mrd mhartid.
Definition r_mstatus : M mst Z := mrd mstatus.
Definition w_mstatus (x : Z) : M mst unit := mwr mstatus x.
Definition w_mepc (x : Z) : M mst unit := mwr mepc x.
Definition r_sie : M mst Z := mrd sie.
Definition w_sie (x : Z) : M mst unit := mwr sie x.
Definition r_mie : M mst Z := mrd mie.
Definition w_mie (x : Z) : M mst unit := mwr mie x.
Definition w_medeleg (x : Z) : M mst unit := mwr medeleg x.
Definition w_mideleg (x : Z) : M mst unit := mwr mideleg x.
Definition w_mtvec (x : Z) : M mst unit := mwr mtvec x.
Definition w_pmpcfg0 (x : Z) : M mst unit := mwr pmpcfg0 x.
Definition w_pmpaddr0 (x : Z) : M mst unit := mwr pmpaddr0 x.
Definition w_mscratch (x : Z) : M mst unit := mwr mscratch x.
Definition w_tp (x : Z) : M mst unit := mwr tp x.

(** The instruction: to the mode of MPP, at mepc; MPIE becomes MIE, MPIE is
    set and MPP cleared. *)
Definition mret : M mst unit := modify (fun s =>
  let x := m_regs s mstatus in
  let mpie := Z.testbit x 7 in
  let x' := Z.land x (Z.lnot (Z.lor MSTATUS_MPP_MASK MSTATUS_MIE)) in
  let x' := Z.lor x' (Z.lor (Z.shiftl 1 7) (if mpie then MSTATUS_MIE else 0)) in
  Mst (fun r => if decide (r = mstatus) then x' else m_regs s r)
      (Z.shiftr (Z.land x MSTATUS_MPP_MASK) 11) (m_regs s mepc) (m_word s)).

Definition timerinit : M mst unit :=
  let* id := r_mhartid in
  let id := s32 id in
  let interval := 1000000 in
  let* now := load CLINT_MTIME in
  store_ (CLINT_MTIMECMP id) (now + interval) ;;
  let scratch := timer_scratch + id * 40 in
  store_ (scratch + 3 * 8) (CLINT_MTIMECMP id) ;;
  store_ (scratch + 4 * 8) interval ;;
  w_mscratch scratch ;;
  w_mtvec timervec ;;
  let* x := r_mstatus in
  w_mstatus (Z.lor x MSTATUS_MIE) ;;
  let* y := r_mie in
  w_mie (Z.lor y MIE_MTIE).

Definition start : M mst unit :=
  let* x := r_mstatus in
  let x := Z.land x (u64 (Z.lnot MSTATUS_MPP_MASK)) in
  let x := Z.lor x MSTATUS_MPP_S in
  w_mstatus x ;;
  w_mepc main_addr ;;
  mwr satp 0 ;;
  w_medeleg 0xffff ;;
  w_mideleg 0xffff ;;
  let* e := r_sie in
  w_sie (Z.lor (Z.lor (Z.lor e SIE_SEIE) SIE_STIE) SIE_SSIE) ;;
  w_pmpaddr0 0x3fffffffffffff ;;
  w_pmpcfg0 0xf ;;
  timerinit ;;
  let* id := r_mhartid in
  w_tp (s32 id) ;;
  mret.
End Start.

(** ** main.c *)

(** The whole machine on the hart that boots it: [b_kpt] is kernel_pagetable,
    [b_started] the flag the other harts wait for. *)
Record bst := Bst { bt : tst lst; b_kpt : Z; b_started : Z }.

Section Main.
Context (kend etext trampoline forkret kernelvec : Z) (hw : Z -> Z).

Definition on_t {A} (m : M (tst lst) A) : M bst A := zoom bt (fun t s => Bst t (b_kpt s) (b_started s)) m.
Definition on_kb {A} (m : M (kst lst) A) : M bst A := on_t (on_k m).
Definition on_memb {A} (m : M kmem A) : M bst A := on_kb (on_mem m).

Definition kvminit : M bst unit :=
  let* pt := on_memb (kvmmake etext trampoline) in
  modify (fun s => Bst (bt s) pt (b_started s)).

(** sfence_vma() orders memory accesses only. *)
Definition kvminithart : M bst unit :=
  let* pt := gets b_kpt in
  on_t (w_satp (MAKE_SATP pt)).

(** virtio_disk_init() allocates from the kernel's memory. *)
Definition disk_init : M bst unit :=
  modify (fun s => let t := bt s in Bst (set_t_disk (set_v_mem (umem (kfs (tk t))) (t_disk t)) t) (b_kpt s) (b_started s)) ;;
  on_t (zoom t_disk set_t_disk (virtio_disk_init hw)) ;;
  modify (fun s => let t := bt s in
    Bst (set_tk (set_kfs (set_umem (v_mem (t_disk t)) (kfs (tk t))) (tk t)) t) (b_kpt s) (b_started s)).

(** main() on hart 0. *)
Definition main_boot : M bst unit :=
  on_kb consoleinit ;;
  on_kb printfinit ;;
  on_kb (printf [10] []) ;;
  on_kb (printf (lit "xv6 kernel is booting" ++ [10]) []) ;;
  on_kb (printf [10] []) ;;
  on_memb (kinit kend) ;;
  kvminit ;;
  kvminithart ;;
  on_kb procinit ;;
  on_t trapinit ;;
  on_t (trapinithart kernelvec) ;;
  on_t plicinit ;;
  on_t plicinithart ;;
  on_kb (on_fs (on_store (on_bio binit))) ;;
  on_kb (on_fs iinit) ;;
  on_kb fileinit ;;
  disk_init ;;
  on_kb (userinit kend trampoline forkret) ;;
  modify (fun s => Bst (bt s) (b_kpt s) 1).

(** main() on another hart: [inl] while [started] is 0. *)
Definition main_other : M bst (unit + unit) :=
  let* started := gets b_started in
  if started =? 0 then ret (inl tt)
  else
    let* id := on_t cpuid in
    on_kb (printf (lit "hart %d starting" ++ [10]) [AInt id]) ;;
    kvminithart ;;
    on_t (trapinithart kernelvec) ;;
    on_t plicinithart ;;
    ret (inr tt).

Definition main : M bst (unit + unit) :=
  let* id := on_t cpuid in
  if id =? 0 then main_boot ;; ret (inr tt) else main_other.
End Main.

(** ** start() enters main() in supervisor mode *)

Lemma testbit_word z i : 0 <= i < 64 -> Z.testbit (u64 z) i = Z.testbit z i.
Proof. intros H. unfold u64. apply Z.mod_pow2_bits_low. lia. Qed.

Lemma testbit_3 i : 0 <= i -> Z.testbit 3 i = bool_decide (i = 0 \/ i = 1).
Proof.
  intros Hi. change 3 with (Z.ones 2). rewrite Z.testbit_ones by lia.
  destruct (Z.leb_spec 0 i); [|lia]. destruct (Z.ltb_spec i 2); case_bool_decide; try done; lia.
Qed.

Lemma testbit_1 i : Z.testbit 1 i = bool_decide (i = 0).
Proof. destruct i as [|[]|]; done. Qed.

(** MPP read back after start() set it to supervisor. *)
Lemma mpp_supervisor x :
  Z.shiftr (Z.land (u64 (Z.lor (u64 (Z.lor (Z.land x (u64 (Z.lnot MSTATUS_MPP_MASK))) MSTATUS_MPP_S)) MSTATUS_MIE)) MSTATUS_MPP_MASK) 11 = 1.
Proof.
  apply Z.bits_inj'. intros i Hi. rewrite Z.shiftr_spec, Z.land_spec, testbit_1 by done.
  unfold MSTATUS_MPP_MASK at 2. rewrite Z.shiftl_spec, testbit_3 by lia. replace (i + 11 - 11) with i by lia.
  case_bool_decide as H2; [|rewrite andb_false_r; by rewrite bool_decide_false by lia].
  rewrite andb_true_r, testbit_word, Z.lor_spec, testbit_word, Z.lor_spec, Z.land_spec, testbit_word, Z.lnot_spec by lia.
  unfold MSTATUS_MPP_MASK, MSTATUS_MPP_S, MSTATUS_MIE. rewrite !Z.shiftl_spec, testbit_3, !testbit_1 by lia.
  repeat case_bool_decide; try lia; destruct (Z.testbit x (i + 11)); done.
Qed.

Lemma lor_testbit x m i : 0 <= i < 64 -> Z.testbit m i = true -> Z.testbit (u64 (Z.lor x m)) i = true.
Proof. intros Hi Hm. rewrite testbit_word, Z.lor_spec, Hm by done. apply orb_true_r. Qed.

Section Run.
Context (rg : csr -> Z) (mode pc : Z) (w : gmap Z Z).
Definition mset (rg : csr -> Z) (r : csr) (v : Z) : csr -> Z := fun r' => if decide (r' = r) then u64 v else rg r'.

Lemma mrd_run r : mrd r (Mst rg mode pc w) = Ret (rg r) (Mst rg mode pc w).
Proof. done. Qed.
Lemma mwr_run r v : mwr r v (Mst rg mode pc w) = Ret tt (Mst (mset rg r v) mode pc w).
Proof. done. Qed.
Lemma store_run a v : store_ a v (Mst rg mode pc w) = Ret tt (Mst rg mode pc (<[a := u64 v]> w)).
Proof. done. Qed.
End Run.

(** What start() leaves in the registers before mret, and in memory. *)
Definition started_regs (main_addr timervec timer_scratch : Z) (rg : csr -> Z) : csr -> Z :=
  let id := s32 (rg mhartid) in
  let x := Z.lor (Z.land (rg mstatus) (u64 (Z.lnot MSTATUS_MPP_MASK))) MSTATUS_MPP_S in
  let rg := mset (mset (mset (mset (mset rg mstatus x) mepc main_addr) satp 0) medeleg 0xffff) mideleg 0xffff in
  let rg := mset (mset (mset rg sie (Z.lor (Z.lor (Z.lor (rg sie) SIE_SEIE) SIE_STIE) SIE_SSIE))
                    pmpaddr0 0x3fffffffffffff) pmpcfg0 0xf in
  let rg := mset (mset rg mscratch (timer_scratch + id * 40)) mtvec timervec in
  mset (mset (mset rg mstatus (Z.lor (u64 x) MSTATUS_MIE)) mie (Z.lor (rg mie) MIE_MTIE)) tp id.

Definition started_words (timer_scratch id : Z) (w : gmap Z Z) : gmap Z Z :=
  <[timer_scratch + id * 40 + 4 * 8 := u64 1000000]>
    (<[timer_scratch + id * 40 + 3 * 8 := u64 (CLINT_MTIMECMP id)]>
      (<[CLINT_MTIMECMP id := u64 (default 0 (w !! CLINT_MTIME) + 1000000)]> w)).

Lemma start_run main_addr timervec timer_scratch rg mode pc w :
  start main_addr timervec timer_scratch (Mst rg mode pc w) =
    mret (Mst (started_regs main_addr timervec timer_scratch rg) mode pc (started_words timer_scratch (s32 (rg mhartid)) w)).
Proof.
  unfold start, r_mstatus, w_mstatus, w_mepc, w_medeleg, w_mideleg, r_sie, w_sie, w_pmpaddr0, w_pmpcfg0, w_tp, r_mhartid. cbv zeta.
  erewrite bind_Ret by apply mrd_run. do 5 (erewrite bind_Ret by apply mwr_run). erewrite bind_Ret by apply mrd_run.
  do 3 (erewrite bind_Ret by apply mwr_run). erewrite bind_Ret.
  2:{ unfold timerinit, r_mhartid, w_mscratch, w_mtvec, r_mstatus, w_mstatus, r_mie, w_mie. cbv zeta.
      erewrite bind_Ret by apply mrd_run. erewrite bind_Ret by reflexivity. do 3 (erewrite bind_Ret by apply store_run).
      do 2 (erewrite bind_Ret by apply mwr_run). erewrite bind_Ret by apply mrd_run. erewrite bind_Ret by apply mwr_run.
      erewrite bind_Ret by apply mrd_run. apply mwr_run. }
  erewrite bind_Ret by apply mrd_run. erewrite bind_Ret by apply mwr_run. reflexivity.
Qed.

Lemma sie_bits x i : i = 9 \/ i = 5 \/ i = 1 -> Z.testbit (u64 (Z.lor (Z.lor (Z.lor x SIE_SEIE) SIE_STIE) SIE_SSIE)) i = true.
Proof.
  intros Hi. rewrite testbit_word, !Z.lor_spec by lia. unfold SIE_SEIE, SIE_STIE, SIE_SSIE.
  destruct Hi as [-> | [-> | ->]]; destruct (Z.testbit x _); reflexivity.
Qed.

(** C30: start() leaves its hart in supervisor mode at main(), with paging
    off, every exception and interrupt delegated, external, timer and software
    interrupts enabled for supervisor mode and timer interrupts for machine
    mode, all of physical memory accessible, its number in tp, and its own row
    of timer_scratch set up for timervec with the first timer interrupt
    1000000 cycles away. *)
Theorem start_correct (main_addr timervec timer_scratch : Z) (s : mst) :
  0 <= m_regs s mhartid < 8 -> 0 <= main_addr < 2 ^ 64 -> 0 <= timervec < 2 ^ 64 ->
  0 <= timer_scratch < 2 ^ 56 -> timer_scratch > CLINT_MTIME ->
  let id := m_regs s mhartid in
  exists s', start main_addr timervec timer_scratch s = Ret tt s' /\
    m_mode s' = 1 /\ m_pc s' = main_addr /\ m_regs s' satp = 0 /\
    m_regs s' medeleg = 0xffff /\ m_regs s' mideleg = 0xffff /\
    m_regs s' pmpaddr0 = 0x3fffffffffffff /\ m_regs s' pmpcfg0 = 0xf /\
    Z.testbit (m_regs s' sie) 9 = true /\ Z.testbit (m_regs s' sie) 5 = true /\ Z.testbit (m_regs s' sie) 1 = true /\
    Z.testbit (m_regs s' mie) 7 = true /\ m_regs s' mtvec = timervec /\ m_regs s' tp = id /\
    m_regs s' mscratch = timer_scratch + id * 40 /\
    m_word s' !! (timer_scratch + id * 40 + 24) = Some (CLINT_MTIMECMP id) /\
    m_word s' !! (timer_scratch + id * 40 + 32) = Some 1000000 /\
    m_word s' !! CLINT_MTIMECMP id = Some (u64 (default 0 (m_word s !! CLINT_MTIME) + 1000000)).
Proof.
  intros Hid Hm Ht Hs Hsc id. assert (Es : s32 id = id) by (apply s32_small; unfold id; lia).
  destruct s as [rg mode pc w]. cbn [m_regs m_word] in *. fold id. rewrite start_run. fold id. rewrite Es.
  eexists. split; [reflexivity|]. cbn [m_mode m_pc m_regs m_word].
  change (2 ^ 56) with 72057594037927936 in Hs. split_and!; try done.
  - apply (mpp_supervisor (rg mstatus)).
  - by apply u64_small.
  - apply (sie_bits (rg sie) 9). lia.
  - apply (sie_bits (rg sie) 5). lia.
  - apply (sie_bits (rg sie) 1). lia.
  - by apply (lor_testbit (rg mie) MIE_MTIE 7).
  - by apply u64_small.
  - change (u64 (s32 id) = id). rewrite Es. apply u64_small. word.
  - change (u64 (timer_scratch + s32 id * 40) = timer_scratch + id * 40). rewrite Es. apply u64_small. word.
  - unfold started_words. rewrite lookup_insert_ne by lia. rewrite lookup_insert_eq. f_equal. apply u64_small.
    unfold CLINT_MTIMECMP, CLINT. word.
  - unfold started_words. by rewrite lookup_insert_eq.
  - unfold started_words, CLINT_MTIMECMP, CLINT_MTIME, CLINT in *.
    rewrite lookup_insert_ne by lia. rewrite lookup_insert_ne by lia. by rewrite lookup_insert_eq.
Qed.

Lemma start_correct_witness :
  exists s', start 0x80000000 0x80001000 0x80002000 (Mst (fun r => if decide (r = mhartid) then 2 else 0) 3 0x80000000 ∅) = Ret tt s' /\
    m_mode s' = 1 /\ m_pc s' = 0x80000000 /\ m_regs s' tp = 2.
Proof.
  destruct (start_correct 0x80000000 0x80001000 0x80002000 (Mst (fun r => if decide (r = mhartid) then 2 else 0) 3 0x80000000 ∅))
    as (s' & E & Hm & Hp & _ & _ & _ & _ & _ & _ & _ & _ & _ & _ & Ht & _); [done|done|done|done|done|].
  exists s'. exact (conj E (conj Hm (conj Hp Ht))).
Defined.
