(* ===== verification/TrapProof.v ===== *)
(** * The way into the kernel and back *)

From Stdlib Require Import ZArith Lia.
From stdpp Require Import base numbers list list_numbers gmap strings sorting.
From S2P Require Import Prelude Cstring Riscv Kalloc Vm PageTable Uvm Bytes Sleeplock Bio Log Recovery Store Fs Kernel KernelProof Sample Console File Proc Exec Sysfile Sysproc Virtio Trap.

Section TrapProof.
Context {S : Type} {ops : BlockOps S}.
Context (kend trampoline forkret uservec userret kernelvec usertrap_addr : Z) (kills : Z -> bool).
Notation st := (tst S).
Implicit Types (s : st) (k : kst S).

(** *** Running a step in a state given by its parts *)

Section Run.
Context (k : kst S) (rg : csr -> Z) (mm : gmap Z Z) (pe sv : list Z) (dk : vst).

Definition setr (rg : csr -> Z) (r : csr) (v : Z) : csr -> Z := fun r' => if decide (r' = r) then u64 v else rg r'.

Lemma on_k_Ret {A} (m : M (kst S) A) a k' : m k = Ret a k' -> on_k m (Tst k rg mm pe sv dk) = Ret a (Tst k' rg mm pe sv dk).
Proof. intros E. unfold on_k. by erewrite zoom_Ret. Qed.

Lemma rd_run r : rd r (Tst k rg mm pe sv dk) = Ret (rg r) (Tst k rg mm pe sv dk).
Proof. done. Qed.

Lemma wr_run r v : wr r v (Tst k rg mm pe sv dk) = Ret tt (Tst k (setr rg r v) mm pe sv dk).
Proof. done. Qed.
End Run.

(** ** Trapframes *)

Definition tf_of k : Z := p_trapframe (cur k).
Definition me k : Z := curp (kproc k).

(** Writing one word of memory. *)
Definition poke (a v : Z) k : kst S := with_mem (set_phys (store64 (mem_of k) a (u64 v)) (umem (kfs k))) k.

Lemma getpr_run {A} p (f : proc -> A) k : getpr p f k = Ret (f (proc_at (kproc k) p)) k.
Proof. unfold getpr. erewrite on_proc_Ret by reflexivity. by rewrite set_kproc_same. Qed.

Lemma tf_get_run p tf off k : me k = p -> tf_of k = tf ->
  tf_get p off k = Ret (load64 (mem_of k) (tf + off)) (with_mem (umem (kfs k)) k).
Proof. intros <- <-. unfold tf_get. erewrite bind_Ret by apply getpr_run. by apply on_mem_Ret. Qed.

Lemma tf_set_run p tf off v k : me k = p -> tf_of k = tf -> tf_set p off v k = Ret tt (poke (tf + off) v k).
Proof. intros <- <-. unfold tf_set. erewrite bind_Ret by apply getpr_run. by apply on_mem_Ret. Qed.

Lemma cur_poke a v k : cur (poke a v k) = cur k.
Proof. done. Qed.
Lemma me_poke a v k : me (poke a v k) = me k.
Proof. done. Qed.
Lemma tf_poke a v k : tf_of (poke a v k) = tf_of k.
Proof. done. Qed.

Lemma poke_word a v b k : a + 8 <= b \/ b + 8 <= a \/ a = b ->
  load64 (mem_of (poke a v k)) b = if decide (a = b) then u64 v else load64 (mem_of k) b.
Proof.
  intros H. unfold mem_of at 1, poke. cbn. case_decide as E.
  - subst. rewrite load64_store64_eq. word.
  - apply load64_store64_ne. lia.
Qed.

(** ** usertrapret *)

(** The words of the trapframe usertrapret() fills in. *)
Definition kernel_words k (satp_ hartid : Z) : kst S :=
  poke (tf_of k + tf_kernel_hartid) hartid
    (poke (tf_of k + tf_kernel_trap) usertrap_addr
      (poke (tf_of k + tf_kernel_sp) (p_kstack (cur k) + PGSIZE) (poke (tf_of k + tf_kernel_satp) satp_ k))).

(** sstatus for the return to user mode. *)
Definition user_status (x : Z) : Z :=
  Z.lor (Z.land (u64 (Z.land x (u64 (Z.lnot SSTATUS_SIE)))) (u64 (Z.lnot SSTATUS_SPP))) SSTATUS_SPIE.

Definition user_regs (rg : csr -> Z) (k : kst S) : csr -> Z :=
  setr (setr (setr (setr rg sstatus (Z.land (rg sstatus) (u64 (Z.lnot SSTATUS_SIE))))
          stvec (TRAMPOLINE + (uservec - trampoline))) sstatus (user_status (rg sstatus)))
    sepc (load64 (mem_of k) (tf_of k + tf_epc)).

Hint Rewrite cur_poke me_poke tf_poke : poke.

Lemma usertrapret_run k rg mm pe sv dk :
  let k' := kernel_words k (rg satp) (rg tp) in
  usertrapret trampoline uservec userret usertrap_addr (Tst k rg mm pe sv dk) =
    Ret (TRAMPOLINE + (userret - trampoline), MAKE_SATP (p_pagetable (cur k)))
        (Tst (with_mem (umem (kfs k')) k') (user_regs rg k') mm pe sv dk).
Proof.
  cbv zeta. unfold kernel_words, usertrapret. erewrite bind_Ret by (by apply on_k_Ret). fold (me k).
  unfold intr_off, r_sstatus, w_sstatus, w_stvec, r_satp, r_tp, w_sepc.
  erewrite bind_Ret by (erewrite bind_Ret by apply rd_run; apply wr_run).
  erewrite bind_Ret by apply wr_run. erewrite bind_Ret by apply rd_run.
  erewrite bind_Ret by (apply on_k_Ret, (tf_set_run _ (tf_of k)); by autorewrite with poke).
  erewrite bind_Ret by (apply on_k_Ret, getpr_run).
  erewrite bind_Ret by (apply on_k_Ret, (tf_set_run _ (tf_of k)); by autorewrite with poke).
  erewrite bind_Ret by (apply on_k_Ret, (tf_set_run _ (tf_of k)); by autorewrite with poke).
  erewrite bind_Ret by apply rd_run.
  erewrite bind_Ret by (apply on_k_Ret, (tf_set_run _ (tf_of k)); by autorewrite with poke).
  erewrite bind_Ret by apply rd_run. erewrite bind_Ret by apply wr_run.
  erewrite bind_Ret by (apply on_k_Ret, (tf_get_run _ (tf_of k)); by autorewrite with poke).
  erewrite bind_Ret by apply wr_run. erewrite bind_Ret by (apply on_k_Ret, getpr_run). reflexivity.
Qed.

Lemma testbit_u64 z i : 0 <= i < 64 -> Z.testbit (u64 z) i = Z.testbit z i.
Proof. intros H. unfold u64. apply Z.mod_pow2_bits_low. lia. Qed.

(** Interrupts off until user mode, where they are on; user mode next. *)
Lemma user_status_bits x i : 0 <= i < 64 ->
  Z.testbit (u64 (user_status x)) i =
    if bool_decide (i = 1 \/ i = 8) then false else if bool_decide (i = 5) then true else Z.testbit x i.
Proof.
  intros Hi. unfold user_status. rewrite testbit_u64, Z.lor_spec, Z.land_spec, testbit_u64, Z.land_spec, !testbit_u64, !Z.lnot_spec by lia.
  unfold SSTATUS_SIE, SSTATUS_SPP, SSTATUS_SPIE. rewrite !Z.shiftl_spec by lia.
  assert (H1 : forall j, Z.testbit 1 j = bool_decide (j = 0)).
  { intros j. destruct j as [|[]|]; try done. }
  rewrite !H1. repeat case_bool_decide; try lia; cbn; rewrite ?andb_true_r, ?andb_false_r, ?orb_false_r, ?orb_true_r; done.
Qed.

(** ** A system call from trap to return *)

(** The kernel's state when the handler starts: the trapframe's pc is past the
    ecall instruction. *)
Definition at_ecall k (epc : Z) : kst S :=
  let k1 := poke (tf_of k + tf_epc) epc k in
  poke (tf_of k + tf_epc) (load64 (mem_of k1) (tf_of k + tf_epc) + 4) (with_mem (umem (kfs k1)) k1).

Lemma mem_with_mem (k : kst S) m : mem_of (with_mem m k) = phys m.
Proof. done. Qed.

Lemma at_ecall_word k epc off : 0 <= off -> off mod 8 = 0 ->
  load64 (mem_of (at_ecall k epc)) (tf_of k + off) =
    if decide (off = tf_epc) then u64 (epc + 4) else load64 (mem_of k) (tf_of k + off).
Proof.
  intros Ho Hm. unfold at_ecall. assert (Hal : off = tf_epc \/ tf_epc + 8 <= off \/ off + 8 <= tf_epc).
  { unfold tf_epc. Z.div_mod_to_equations. lia. }
  rewrite poke_word, mem_with_mem by (rewrite ?tf_poke; lia). fold (mem_of (poke (tf_of k + tf_epc) epc k)).
  rewrite (poke_word _ _ (tf_of k + tf_epc)) by lia. rewrite poke_word by lia.
  repeat case_decide; try lia. word.
Qed.

Lemma syscall_run k h r k' :
  (0 < s32 (load64 (mem_of k) (tf_of k + tf_a7))) ->
  handler (s32 (load64 (mem_of k) (tf_of k + tf_a7))) (syscalls kend trampoline forkret kills) = Some h ->
  h (with_mem (umem (kfs k)) k) = Ret r k' -> me k' = me k ->
  syscall kend trampoline forkret kills k = Ret tt (poke (tf_of k' + tf_a0) r k').
Proof.
  intros Hpos Hh E Hme. unfold syscall. erewrite bind_Ret by reflexivity. fold (me k).
  erewrite bind_Ret by (by apply (tf_get_run _ (tf_of k))). cbv zeta. rewrite (proj2 (Z.ltb_lt _ _) Hpos), Hh.
  erewrite bind_Ret by exact E. by apply (tf_set_run _ (tf_of k')).
Qed.

Lemma handler_None num (l : list (Z * M (kst S) Z)) : Forall (fun p => fst p <> num) l -> handler num l = None.
Proof. induction 1 as [|[c h] l Hc _ IH]; [done|]. cbn in *. by rewrite (proj2 (Z.eqb_neq _ _) Hc). Qed.

Lemma syscalls_range : Forall (fun p => 1 <= fst p <= 24) (syscalls kend trampoline forkret kills).
Proof. repeat (constructor; [cbn [fst]; unfold SYS_fork, SYS_exit, SYS_wait, SYS_pipe, SYS_read, SYS_kill, SYS_exec, SYS_fstat,
  SYS_chdir, SYS_dup, SYS_getpid, SYS_sbrk, SYS_sleep, SYS_uptime, SYS_open, SYS_write, SYS_mknod, SYS_unlink, SYS_link, SYS_mkdir,
  SYS_close, SYS_ps, SYS_pstree, SYS_getppid; lia|]). constructor. Qed.

Lemma unknown_syscall_run k k' :
  let num := s32 (load64 (mem_of k) (tf_of k + tf_a7)) in
  num <= 0 \/ 24 < num ->
  printf (lit "%d %s: unknown sys call %d" ++ [10]) [AInt (p_pid (cur k)); AStr (Some (p_name (cur k))); AInt num]
    (with_mem (umem (kfs k)) k) = Ret tt k' -> me k' = me k ->
  syscall kend trampoline forkret kills k = Ret tt (poke (tf_of k' + tf_a0) (-1) k').
Proof.
  intros num Hn E Hme. unfold syscall. erewrite bind_Ret by reflexivity. fold (me k).
  erewrite bind_Ret by (by apply (tf_get_run _ (tf_of k))). cbv zeta. fold num.
  assert (Hh : (if 0 <? num then handler num (syscalls kend trampoline forkret kills) else None) = None).
  { destruct (Z.ltb_spec 0 num); [|done]. apply handler_None. eapply Forall_impl; [apply syscalls_range|].
    intros [c h] Hc. cbn [fst] in *. lia. }
  rewrite Hh. erewrite bind_Ret by reflexivity. erewrite bind_Ret by exact E. by apply (tf_set_run _ (tf_of k')).
Qed.

(** The trapframe word user mode is entered with: the kernel's four words, the
    result in a0, everything else as the handler left it. *)
Definition returned_word k (rg : csr -> Z) (r off : Z) : Z :=
  if decide (off = tf_kernel_satp) then u64 (rg satp)
  else if decide (off = tf_kernel_sp) then u64 (p_kstack (cur k) + PGSIZE)
  else if decide (off = tf_kernel_trap) then u64 usertrap_addr
  else if decide (off = tf_kernel_hartid) then u64 (rg tp)
  else if decide (off = tf_a0) then u64 r
  else load64 (mem_of k) (tf_of k + off).

Lemma apart a b c : a mod 8 = 0 -> b mod 8 = 0 -> c + a + 8 <= c + b \/ c + b + 8 <= c + a \/ c + a = c + b.
Proof. intros Ha Hb. Z.div_mod_to_equations. lia. Qed.

Lemma returned_words k rg r off : off mod 8 = 0 ->
  load64 (mem_of (kernel_words (poke (tf_of k + tf_a0) r k) (rg satp) (rg tp))) (tf_of k + off) = returned_word k rg r off.
Proof.
  intros Ho. unfold kernel_words. rewrite tf_poke, cur_poke.
  rewrite !poke_word by (by apply apart). unfold returned_word.
  repeat case_decide; try done; unfold tf_kernel_satp, tf_kernel_sp, tf_kernel_trap, tf_kernel_hartid, tf_a0 in *; lia.
Qed.

Lemma killed_run k : idle_table (kproc k) -> killed (me k) k = Ret (p_killed (cur k)) k.
Proof. apply killed_cur. Qed.

Lemma usertrap_syscall_run k rg mm pe sv dk h r k3 :
  Z.land (rg sstatus) SSTATUS_SPP = 0 -> rg scause = 8 -> idle_table (kproc k) -> p_killed (cur k) = 0 ->
  let k1 := at_ecall k (rg sepc) in
  0 < s32 (load64 (mem_of k) (tf_of k + tf_a7)) ->
  handler (s32 (load64 (mem_of k) (tf_of k + tf_a7))) (syscalls kend trampoline forkret kills) = Some h ->
  h (with_mem (umem (kfs k1)) k1) = Ret r k3 -> me k3 = me k -> idle_table (kproc k3) -> p_killed (cur k3) = 0 ->
  let rg' := setr (setr rg stvec kernelvec) sstatus (Z.lor (rg sstatus) SSTATUS_SIE) in
  let k' := kernel_words (poke (tf_of k3 + tf_a0) r k3) (rg satp) (rg tp) in
  usertrap kend trampoline forkret uservec userret kernelvec usertrap_addr kills (Tst k rg mm pe sv dk) =
    Ret (inr (TRAMPOLINE + (userret - trampoline), MAKE_SATP (p_pagetable (cur k3))))
        (Tst (with_mem (umem (kfs k')) k') (user_regs rg' k') mm pe sv dk).
Proof.
  intros Hspp Hc Hi Hk k1 Hn Hh E Hme Hi3 Hk3. cbv zeta. unfold usertrap, r_sstatus, w_stvec, r_sepc, r_scause.
  erewrite bind_Ret by apply rd_run. rewrite Hspp. cbn [Z.eqb negb]. erewrite bind_Ret by apply wr_run.
  erewrite bind_Ret by (by apply on_k_Ret). fold (me k). erewrite bind_Ret by apply rd_run.
  erewrite bind_Ret by (apply on_k_Ret, (tf_set_run _ (tf_of k)); by autorewrite with poke).
  erewrite bind_Ret by apply rd_run. change (setr rg stvec kernelvec scause) with (rg scause). rewrite Hc. change (8 =? 8) with true. cbv iota.
  erewrite bind_Ret by (apply on_k_Ret, (killed_run (poke _ _ k)), Hi). rewrite cur_poke, Hk. cbn [Z.eqb negb].
  erewrite bind_Ret by reflexivity.
  erewrite bind_Ret by (apply on_k_Ret, (tf_get_run _ (tf_of k)); by autorewrite with poke).
  erewrite bind_Ret by (apply on_k_Ret, (tf_set_run _ (tf_of k)); done).
  erewrite bind_Ret by (unfold intr_on, r_sstatus, w_sstatus; erewrite bind_Ret by apply rd_run; apply wr_run).
  change (poke (tf_of k + tf_epc) (load64 _ _ + 4) _) with k1.
  erewrite bind_Ret.
  2:{ apply on_k_Ret, (syscall_run k1 h r k3); try done; change (tf_of k1) with (tf_of k); unfold k1; by rewrite at_ecall_word. }
  unfold usertrap_finish. erewrite bind_Ret by (by apply on_k_Ret).
  change (curp (kproc (poke (tf_of k3 + tf_a0) r k3))) with (me (poke (tf_of k3 + tf_a0) r k3)).
  erewrite bind_Ret by (apply on_k_Ret, killed_run, Hi3). rewrite cur_poke, Hk3. cbn [Z.eqb negb].
  erewrite bind_Ret by reflexivity. cbn [Z.eqb]. erewrite bind_Ret by apply usertrapret_run. reflexivity.
Qed.

(** C9: a system call goes all the way round.  When a process that has not
    been killed traps with an ecall, its handler runs with the saved pc just
    past the ecall; if the handler returns [r] to a live process, usertrap()
    jumps to userret with that process's page table, the trapframe holds [r] in
    a0, the kernel's re-entry words and otherwise what the handler left, the
    next trap goes to uservec, sepc is the saved pc, and sstatus asks for user
    mode with interrupts enabled there and disabled until then, its other bits
    as they were. *)
Theorem usertrap_syscall k rg mm pe sv dk h r k3 :
  Z.land (rg sstatus) SSTATUS_SPP = 0 -> rg scause = 8 -> idle_table (kproc k) -> p_killed (cur k) = 0 ->
  let k1 := at_ecall k (rg sepc) in
  0 < s32 (load64 (mem_of k) (tf_of k + tf_a7)) ->
  handler (s32 (load64 (mem_of k) (tf_of k + tf_a7))) (syscalls kend trampoline forkret kills) = Some h ->
  h (with_mem (umem (kfs k1)) k1) = Ret r k3 -> me k3 = me k -> idle_table (kproc k3) -> p_killed (cur k3) = 0 ->
  load64 (mem_of k1) (tf_of k + tf_epc) = u64 (rg sepc + 4) /\
  exists s', usertrap kend trampoline forkret uservec userret kernelvec usertrap_addr kills (Tst k rg mm pe sv dk) =
      Ret (inr (TRAMPOLINE + (userret - trampoline), MAKE_SATP (p_pagetable (cur k3)))) s' /\
    t_regs s' sepc = u64 (load64 (mem_of k3) (tf_of k3 + tf_epc)) /\
    t_regs s' stvec = u64 (TRAMPOLINE + (uservec - trampoline)) /\
    (forall i, 0 <= i < 64 -> Z.testbit (t_regs s' sstatus) i =
       if bool_decide (i = 1 \/ i = 8) then false else if bool_decide (i = 5) then true else Z.testbit (rg sstatus) i) /\
    (forall off, off mod 8 = 0 -> load64 (mem_of (tk s')) (tf_of k3 + off) = returned_word k3 rg r off).
Proof.
  intros Hspp Hc Hi Hk k1 Hn Hh E Hme Hi3 Hk3. split; [unfold k1; by rewrite at_ecall_word|].
  eexists. split; [by apply (usertrap_syscall_run k rg mm pe sv dk h r k3)|]. cbn [t_regs tk]. split_and!.
  - unfold user_regs, setr at 1. rewrite decide_True by done. change (tf_of (kernel_words _ _ _)) with (tf_of k3).
    rewrite returned_words by done. unfold returned_word. by repeat (rewrite decide_False by done).
  - reflexivity.
  - intros i Hb. unfold user_regs. change (setr _ sepc _ sstatus) with
      (u64 (user_status (setr (setr rg stvec kernelvec) sstatus (Z.lor (rg sstatus) SSTATUS_SIE) sstatus))).
    rewrite user_status_bits by done. change (setr _ sstatus ?v sstatus) with (u64 v).
    repeat case_bool_decide; try done. rewrite testbit_u64, Z.lor_spec by done.
    unfold SSTATUS_SIE. rewrite Z.shiftl_spec by lia. replace (Z.testbit 1 (i - 1)) with false; [apply orb_false_r|].
    destruct (i - 1) as [|[]|] eqn:Ei; try done. lia.
  - intros off Ho. rewrite mem_with_mem. by apply (returned_words k3 rg r off).
Qed.
End TrapProof.

(** ** getpid() *)

Module TrapSample.
Definition proc1 : proc := set_p_trapframe 0x80001000 Tiny.me.
Definition kernel : kst lst :=
  Kst (set_umem (Kmem (store64 ∅ (0x80001000 + tf_a7) 11) 0 false) Tiny.fs) Tiny.files
      (Procst (proc1 :: repeat proc0 63) 0 2 false false 0) Tiny.devices.
Definition regs (r : csr) : Z := match r with scause => 8 | sepc => 0x1000 | sstatus => 0x20 | _ => 0 end.

Lemma kernel_idle : idle_table (kproc kernel).
Proof.
  split; [done|done|]. intros p Hp. destruct (decide (p = 0)) as [->|Hne]; [done|].
  pose proof (it_unlocked _ Tiny.idle p Hp) as H. unfold proc_at, kernel, Tiny.table, nthZ in *. cbn [kproc procs] in *.
  destruct (Z.ltb_spec p 0); [lia|]. destruct (Z.to_nat p) as [|n] eqn:En; [lia|]. exact H.
Qed.

Lemma number : s32 (load64 (mem_of kernel) (tf_of kernel + tf_a7)) = 11.
Proof. vm_compute. reflexivity. Qed.
End TrapSample.

Lemma usertrap_syscall_witness :
  exists s', usertrap 0 0 0 0 0 0 0 (fun _ => false) (Tst TrapSample.kernel TrapSample.regs ∅ [] [] (Vst [] [] 0 [] 0 [] 0 [] [] false ∅ ∅ ∅ ∅ 0 [] (Kmem ∅ 0 false) [])) =
      Ret (inr (TRAMPOLINE, MAKE_SATP TinySpace.root)) s' /\
    load64 (mem_of (tk s')) (0x80001000 + tf_a0) = 1.
Proof.
  pose proof TrapSample.number as Hn.
  assert (Hh : handler (s32 (load64 (mem_of TrapSample.kernel) (tf_of TrapSample.kernel + tf_a7))) (syscalls 0 0 0 (fun _ => false)) = Some sys_getpid)
    by (by rewrite Hn).
  assert (Hp : 0 < s32 (load64 (mem_of TrapSample.kernel) (tf_of TrapSample.kernel + tf_a7))) by (rewrite Hn; lia).
  destruct (usertrap_syscall 0 0 0 0 0 0 0 (fun _ => false) TrapSample.kernel TrapSample.regs ∅ [] []
    (Vst [] [] 0 [] 0 [] 0 [] [] false ∅ ∅ ∅ ∅ 0 [] (Kmem ∅ 0 false) []) sys_getpid 1
    (let k1 := at_ecall TrapSample.kernel 0x1000 in with_mem (umem (kfs k1)) k1) eq_refl eq_refl TrapSample.kernel_idle eq_refl Hp Hh
    eq_refl eq_refl TrapSample.kernel_idle eq_refl) as (_ & s' & E & _ & _ & _ & Hw).
  exists s'. split; [exact E|]. exact (Hw tf_a0 eq_refl).
Defined.
