(* ===== verification/VirtioProof.v ===== *)
(** * The disk driver: refinement of atomic transfers

    [vinv] follows each request through the two rings; with it the driver and
    the device together are an atomic disk. *)

From Stdlib Require Import ZArith Lia.
From stdpp Require Import base numbers list list_numbers gmap relations strings sorting.
From S2P Require Import Prelude Cstring Riscv Kalloc Bytes Ring Bio Virtio.

(** ** Rings *)

Notation ring_ok := (Ring.ring_ok 0 NUM (2 ^ 16)).
Definition ring_push := Ring.ring_push (0 : Z) NUM (2 ^ 16) eq_refl eq_refl ltac:(by exists 8192).
Definition ring_pop := Ring.ring_pop (0 : Z) NUM (2 ^ 16) eq_refl eq_refl ltac:(by exists 8192).
Definition ring_empty := Ring.ring_empty (0 : Z) NUM (2 ^ 16) eq_refl eq_refl ltac:(by exists 8192).

(** ** Requests in flight *)

Record req := Req { q_b : Z; q_blk : Z; q_w : bool; q0 : Z; q1 : Z; q2 : Z }.
#[export] Instance req_eq_dec : EqDecision req.
Proof. solve_decision. Defined.
Definition descs (r : req) : list Z := [q0 r; q1 r; q2 r].
Definition taken (rs : list req) : list Z := concat (map descs rs).
Arguments taken : simpl never.

(** The descriptors, the request header and the bookkeeping of one request. *)
Record req_ok (v : vst) (r : req) : Prop := {
  ro_d0 : nthZ vdesc0 (v_desc v) (q0 r) = Vdesc (DOps (q0 r)) 16 VRING_DESC_F_NEXT (q1 r);
  ro_d1 : nthZ vdesc0 (v_desc v) (q1 r) =
    Vdesc (DData (q_b r)) BSIZE (Z.lor (if q_w r then 0 else VRING_DESC_F_WRITE) VRING_DESC_F_NEXT) (q2 r);
  ro_d2 : nthZ vdesc0 (v_desc v) (q2 r) = Vdesc (DStatus (q0 r)) 1 VRING_DESC_F_WRITE 0;
  ro_op : nthZ vreq0 (v_ops v) (q0 r) =
    Vreq (if q_w r then VIRTIO_BLK_T_OUT else VIRTIO_BLK_T_IN) 0 (u32 (q_blk r * (BSIZE / 512)));
  ro_b : in_b (nthZ vinfo0 (v_info v) (q0 r)) = q_b r;
  ro_blk : 0 <= q_blk r < 2 ^ 31
}.

(** [qa]: heads the device has not read, [v_fetched]: heads it works on,
    [qu]: heads on the used ring, [qd]: heads whose buffers are done. *)
Record vinv (v : vst) (rs : list req) (qa qu qd : list Z) : Prop := {
  vi_len : zlen (v_desc v) = NUM /\ zlen (v_free v) = NUM /\ zlen (v_info v) = NUM /\ zlen (v_ops v) = NUM;
  vi_nodup : NoDup (taken rs);
  vi_range : forall i, i ∈ taken rs -> 0 <= i < NUM;
  vi_free : forall i, 0 <= i < NUM -> nthZ false (v_free v) i = bool_decide (i ∉ taken rs);
  vi_req : forall r, r ∈ rs -> req_ok v r;
  vi_b : NoDup (q_b <$> rs);
  vi_avail : ring_ok (v_avail v) (v_dev_idx v) (v_avail_idx v) qa;
  vi_used : ring_ok (v_used v) (v_used_idx v) (v_used_ring_idx v) qu;
  vi_heads : qa ++ v_fetched v ++ qu ++ qd ≡ₚ q0 <$> rs;
  vi_status : forall r, r ∈ rs -> q0 r ∈ qu -> in_status (nthZ vinfo0 (v_info v) (q0 r)) = 0;
  vi_disk : forall r, r ∈ rs -> default false (v_bdisk v !! q_b r) = bool_decide (q0 r ∉ qd)
}.

Lemma taken_cons r rs : taken (r :: rs) = q0 r :: q1 r :: q2 r :: taken rs.
Proof. done. Qed.

Lemma elem_of_taken i rs : i ∈ taken rs <-> exists r, r ∈ rs /\ i ∈ descs r.
Proof.
  unfold taken. rewrite <- flat_map_concat_map, list_elem_of_In, in_flat_map.
  split; intros (r & H1 & H2); exists r; by rewrite ?list_elem_of_In, <- ?list_elem_of_In in *.
Qed.

Lemma length_taken rs : length (taken rs) = (3 * length rs)%nat.
Proof. induction rs as [|r rs IH]; [done|]. rewrite taken_cons. cbn [length]. lia. Qed.

(** At most NUM / 3 requests fit. *)
Lemma few_requests v rs qa qu qd : vinv v rs qa qu qd -> (3 * length rs <= 8)%nat.
Proof.
  intros Hi. rewrite <- length_taken. change 8%nat with (length (seqZ 0 8)).
  apply submseteq_length, NoDup_submseteq; [apply Hi|].
  intros i Hin. apply elem_of_seqZ. pose proof (vi_range _ _ _ _ _ Hi i Hin) as Hr. unfold NUM in Hr. lia.
Qed.

Lemma queue_short v rs qa qu qd :
  vinv v rs qa qu qd -> (length qa + length (v_fetched v) + length qu + length qd = length rs)%nat.
Proof.
  intros Hi. pose proof (Permutation_length (vi_heads _ _ _ _ _ Hi)) as Hl.
  rewrite !length_app, length_fmap in Hl. lia.
Qed.

(** The heads are distinct and belong to one request each. *)
Lemma heads_nodup rs : NoDup (taken rs) -> NoDup (q0 <$> rs).
Proof.
  induction rs as [|r rs IH]; [constructor|]. rewrite taken_cons. intros Hn.
  apply NoDup_cons in Hn as [H0 Hn]. apply NoDup_cons in Hn as [_ Hn]. apply NoDup_cons in Hn as [_ Hn].
  cbn. constructor; [|by apply IH]. intros Hin. apply H0. rewrite !elem_of_cons. right; right.
  apply list_elem_of_fmap in Hin as (r' & -> & Hr'). apply elem_of_taken. exists r'. split; [done|]. left.
Qed.

(** Two requests that share a descriptor are the same. *)
Lemma shared_desc rs r r' i :
  NoDup (taken rs) -> r ∈ rs -> r' ∈ rs -> i ∈ descs r -> i ∈ descs r' -> r = r'.
Proof.
  induction rs as [|x rs IH]; [by rewrite elem_of_nil|]. intros Hn Hr Hr' Hi Hi'.
  assert (Hsep : forall i, i ∈ descs x -> i ∈ taken rs -> False).
  { change (taken (x :: rs)) with (descs x ++ taken rs) in Hn. apply NoDup_app in Hn as (_ & Hd & _).
    intros j Hj Hj'. by apply (Hd j). }
  assert (Hn' : NoDup (taken rs)).
  { change (taken (x :: rs)) with (descs x ++ taken rs) in Hn. by apply NoDup_app in Hn as (_ & _ & ?). }
  apply elem_of_cons in Hr as [->|Hr]; apply elem_of_cons in Hr' as [->|Hr']; [done| | |by apply IH].
  - exfalso. apply (Hsep i Hi). apply elem_of_taken. by exists r'.
  - exfalso. apply (Hsep i Hi'). apply elem_of_taken. by exists r.
Qed.

(** [v'] differs from [v] at most in descriptors that [T] does not contain,
    and in its record of wakeups. *)
Record vsame (T : list Z) (v v' : vst) : Prop := {
  vs_len : zlen (v_desc v') = zlen (v_desc v) /\ zlen (v_free v') = zlen (v_free v);
  vs_desc : forall i, i ∈ T -> nthZ vdesc0 (v_desc v') i = nthZ vdesc0 (v_desc v) i;
  vs_rest : v_avail v' = v_avail v /\ v_avail_idx v' = v_avail_idx v /\ v_used v' = v_used v /\
    v_used_ring_idx v' = v_used_ring_idx v /\ v_used_idx v' = v_used_idx v /\ v_info v' = v_info v /\
    v_ops v' = v_ops v /\ v_bdisk v' = v_bdisk v /\ v_bdata v' = v_bdata v /\ v_platter v' = v_platter v /\
    v_dev_idx v' = v_dev_idx v /\ v_fetched v' = v_fetched v
}.

Lemma vsame_refl T v : vsame T v v.
Proof. split; [done|done|]. split_and!; done. Qed.

Lemma vsame_trans T v1 v2 v3 : vsame T v1 v2 -> vsame T v2 v3 -> vsame T v1 v3.
Proof.
  intros [[Hl1 Hl2] Hd Hr] [[Hl1' Hl2'] Hd' Hr']. split.
  - split; congruence.
  - intros i Hi. by rewrite Hd', Hd.
  - destruct_and!. split_and!; congruence.
Qed.

Lemma vinv_same v v' rs qa qu qd :
  vinv v rs qa qu qd -> vsame (taken rs) v v' ->
  (forall i, 0 <= i < NUM -> nthZ false (v_free v') i = nthZ false (v_free v) i) ->
  vinv v' rs qa qu qd.
Proof.
  intros [Hlen Hn Hrg Hfr Hrq Hb Ha Hu Hh Hs Hd] [[Hl1 Hl2] Hds Hrest] Hf.
  destruct Hrest as (E1 & E2 & E3 & E4 & E5 & E6 & E7 & E8 & E9 & E10 & E11 & E12).
  split; rewrite ?E1, ?E2, ?E3, ?E4, ?E5, ?E6, ?E7, ?E8, ?E11, ?E12, ?Hl1, ?Hl2; try done.
  - intros i Hi. rewrite Hf by done. by apply Hfr.
  - intros r Hr. destruct (Hrq r Hr) as [? ? ? ? ? ?].
    assert (Hin : forall i, i ∈ descs r -> i ∈ taken rs) by (intros i Hi; apply elem_of_taken; by exists r).
    split; rewrite ?E6, ?E7; try done; rewrite Hds; try done; apply Hin; unfold descs; set_solver.
Qed.

(** ** Descriptor allocation *)

Lemma alloc_desc_loop_spec n i v :
  0 <= i -> i + Z.of_nat n = NUM ->
  (exists j, i <= j < NUM /\ nthZ false (v_free v) j = true /\
     alloc_desc_loop n i v = Ret j (set_v_free (updZ j false (v_free v)) v)) \/
  (alloc_desc_loop n i v = Ret (-1) v /\ forall j, i <= j < NUM -> nthZ false (v_free v) j = false).
Proof.
  revert i. induction n as [|n IH]; intros i Hi Hn; cbn [alloc_desc_loop].
  - right. split; [done|]. intros j Hj. lia.
  - erewrite bind_Ret by reflexivity. destruct (nthZ false (v_free v) i) eqn:Hf.
    + left. exists i. split; [lia|]. done.
    + destruct (IH (i + 1) ltac:(lia) ltac:(lia)) as [(j & Hj & Hfj & E)|[E Hall]].
      * left. exists j. split; [lia|]. done.
      * right. split; [done|]. intros j Hj. destruct (decide (j = i)) as [->|]; [done|]. apply Hall. lia.
Qed.

Lemma alloc_desc_spec v :
  (exists j, 0 <= j < NUM /\ nthZ false (v_free v) j = true /\
     alloc_desc v = Ret j (set_v_free (updZ j false (v_free v)) v)) \/
  (alloc_desc v = Ret (-1) v /\ forall j, 0 <= j < NUM -> nthZ false (v_free v) j = false).
Proof. apply alloc_desc_loop_spec; [lia|done]. Qed.

Lemma free_desc_spec v i T :
  0 <= i < NUM -> nthZ false (v_free v) i = false -> i ∉ T -> zlen (v_free v) = NUM ->
  exists v', free_desc i v = Ret tt v' /\ vsame T v v' /\ v_lock v' = v_lock v /\
    forall k, 0 <= k < NUM -> nthZ false (v_free v') k = if decide (k = i) then true else nthZ false (v_free v) k.
Proof.
  intros Hi Hf HT Hlf. unfold free_desc. destruct (Z.leb_spec NUM i); [lia|].
  erewrite bind_Ret by reflexivity. rewrite Hf. eexists. split; [reflexivity|]. split; [|split; [reflexivity|]].
  - split; cbn; [by rewrite !zlen_updZ| |by split_and!].
    intros k Hk. apply nthZ_updZ_ne. congruence.
  - intros k Hk. cbn. case_decide.
    + subst. rewrite nthZ_updZ_eq; [done|]. lia.
    + by rewrite nthZ_updZ_ne.
Qed.

(** Three distinct free descriptors, or none taken. *)
Lemma alloc3_desc_spec v T :
  zlen (v_free v) = NUM -> zlen (v_desc v) = NUM ->
  (forall i, i ∈ T -> 0 <= i < NUM -> nthZ false (v_free v) i = false) ->
  (exists i0 i1 i2, NoDup [i0; i1; i2] /\ (forall i, i ∈ [i0; i1; i2] -> 0 <= i < NUM /\ nthZ false (v_free v) i = true) /\
     alloc3_desc v = Ret (Some (i0, i1, i2)) (set_v_free (updZ i2 false (updZ i1 false (updZ i0 false (v_free v)))) v)) \/
  (exists v', alloc3_desc v = Ret None v' /\ vsame T v v' /\ v_lock v' = v_lock v /\
     forall k, 0 <= k < NUM -> nthZ false (v_free v') k = nthZ false (v_free v) k).
Proof.
  intros Hlf Hld HT. unfold alloc3_desc.
  destruct (alloc_desc_spec v) as [(i0 & Hb0 & F0 & E0)|[E0 _]]; erewrite bind_Ret by exact E0.
  2: { right. exists v. split; [done|]. split; [apply vsame_refl|]. done. }
  destruct (Z.ltb_spec i0 0); [lia|]. set (v1 := set_v_free (updZ i0 false (v_free v)) v).
  assert (HT0 : i0 ∉ T). { intros Hc. specialize (HT i0 Hc Hb0). congruence. }
  destruct (alloc_desc_spec v1) as [(i1 & Hb1 & F1 & E1)|[E1 _]]; erewrite bind_Ret by exact E1.
  2: { right. cbn [Z.ltb]. change (-1 <? 0) with true. cbv iota.
       destruct (free_desc_spec v1 i0 T Hb0) as (v' & E & Hs & Hl & Hf); [cbn; rewrite nthZ_updZ_eq; [done|lia]|done|cbn; by rewrite zlen_updZ|].
       erewrite bind_Ret by exact E. exists v'. split; [done|]. split.
       - eapply vsame_trans; [|exact Hs]. split; cbn; [by rewrite zlen_updZ|done|by split_and!].
       - split; [done|]. intros k Hk. rewrite Hf by done. case_decide; [by subst|]. cbn. by rewrite nthZ_updZ_ne. }
  destruct (Z.ltb_spec i1 0); [lia|]. cbn in F1.
  assert (H01 : i1 <> i0). { intros ->. rewrite nthZ_updZ_eq in F1 by lia. done. }
  rewrite nthZ_updZ_ne in F1 by done. set (v2 := set_v_free (updZ i1 false (v_free v1)) v1).
  assert (HT1 : i1 ∉ T). { intros Hc. specialize (HT i1 Hc Hb1). congruence. }
  destruct (alloc_desc_spec v2) as [(i2 & Hb2 & F2 & E2)|[E2 _]]; erewrite bind_Ret by exact E2.
  2: { right. change (-1 <? 0) with true. cbv iota.
       destruct (free_desc_spec v2 i0 T Hb0) as (v3 & E & Hs & Hl & Hf);
         [cbn; rewrite nthZ_updZ_ne, nthZ_updZ_eq by (rewrite ?zlen_updZ; try lia; done); done|done|cbn; by rewrite !zlen_updZ|].
       erewrite bind_Ret by exact E.
       destruct (free_desc_spec v3 i1 T Hb1) as (v4 & E' & Hs' & Hl' & Hf').
       { rewrite Hf by done. rewrite decide_False by done. cbn. rewrite nthZ_updZ_eq; [done|rewrite zlen_updZ; lia]. }
       { done. }
       { destruct Hs as [[_ ->] _ _]. cbn. by rewrite !zlen_updZ. }
       erewrite bind_Ret by exact E'. exists v4. split; [done|]. split; [|split; [by rewrite Hl', Hl|]].
       - eapply vsame_trans; [|eapply vsame_trans; [exact Hs|exact Hs']].
         split; cbn; [by rewrite !zlen_updZ|done|by split_and!].
       - intros k Hk. rewrite Hf' by done. case_decide; [by subst|]. rewrite Hf by done. case_decide; [by subst|].
         cbn. by rewrite !nthZ_updZ_ne. }
  destruct (Z.ltb_spec i2 0); [lia|]. left. exists i0, i1, i2. cbn in F2.
  assert (H12 : i2 <> i1). { intros ->. rewrite nthZ_updZ_eq in F2 by (rewrite zlen_updZ; lia). done. }
  rewrite nthZ_updZ_ne in F2 by done.
  assert (H02 : i2 <> i0). { intros ->. rewrite nthZ_updZ_eq in F2 by lia. done. }
  rewrite nthZ_updZ_ne in F2 by done. split; [|split; [|done]].
  - repeat (constructor; [set_solver|]). constructor.
  - intros i. rewrite !elem_of_cons, elem_of_nil. intros [->|[->|[->|[]]]]; done.
Qed.

(** Steps of the driver leave the data and the device's work alone. *)
Definition vkeep (v v' : vst) : Prop :=
  v_platter v' = v_platter v /\ v_bdata v' = v_bdata v /\ v_fetched v' = v_fetched v.

(** ** Starting a request *)

(** The state rw_format() leaves. *)
Definition formatted (r : req) (v : vst) : vst :=
  let info := updZ (q0 r) (Vinfo (in_b (nthZ vinfo0 (v_info v) (q0 r))) 255) (v_info v) in
  Vst (updZ (q2 r) (Vdesc (DStatus (q0 r)) 1 VRING_DESC_F_WRITE 0)
        (updZ (q1 r) (Vdesc (DData (q_b r)) BSIZE (Z.lor (if q_w r then 0 else VRING_DESC_F_WRITE) VRING_DESC_F_NEXT) (q2 r))
          (updZ (q0 r) (Vdesc (DOps (q0 r)) 16 VRING_DESC_F_NEXT (q1 r)) (v_desc v))))
      (updZ (v_avail_idx v mod NUM) (q0 r) (v_avail v)) (u16 (v_avail_idx v + 1)) (v_used v) (v_used_ring_idx v)
      (v_free v) (v_used_idx v)
      (updZ (q0 r) (Vinfo (q_b r) (in_status (nthZ vinfo0 info (q0 r)))) info)
      (updZ (q0 r) (Vreq (if q_w r then VIRTIO_BLK_T_OUT else VIRTIO_BLK_T_IN) 0 (u32 (q_blk r * (BSIZE / 512)))) (v_ops v))
      (v_lock v) (<[q_b r := true]> (v_bdisk v)) (v_bdata v) (<[VIRTIO_MMIO_QUEUE_NOTIFY := 0]> (v_regs v))
      (v_platter v) (v_dev_idx v) (v_fetched v) (v_mem v) (v_wakeups v).

Lemma rw_format_run r v :
  rw_format (q_b r) (q_blk r) (q_w r) (q0 r) (q1 r) (q2 r) v = Ret tt (formatted r v).
Proof. destruct v. reflexivity. Qed.

Lemma start_inv v rs qa qu qd r :
  let v1 := set_v_free (updZ (q2 r) false (updZ (q1 r) false (updZ (q0 r) false (v_free v)))) (set_v_lock true v) in
  vinv v rs qa qu qd -> q_b r ∉ q_b <$> rs -> 0 <= q_blk r < 2 ^ 31 ->
  NoDup (descs r) -> (forall i, i ∈ descs r -> 0 <= i < NUM /\ nthZ false (v_free v) i = true) ->
  exists v', (rw_format (q_b r) (q_blk r) (q_w r) (q0 r) (q1 r) (q2 r) ;; vrelease) v1 = Ret tt v' /\
    vinv v' (r :: rs) (qa ++ [q0 r]) qu qd /\ v_lock v' = false /\ vkeep v v'.
Proof.
  intros v1 Hi Hb Hblk Hnd Hfr. pose proof Hi as [(Hl1 & Hl2 & Hl3 & Hl4) Hn Hrg Hf Hrq Hnb Ha Hu Hh Hs Hd].
  pose proof (few_requests _ _ _ _ _ Hi) as Hfew. pose proof (queue_short _ _ _ _ _ Hi) as Hq.
  assert (Hnew : forall i, i ∈ descs r -> i ∉ taken rs).
  { intros i Hin Hc. destruct (Hfr i Hin) as [Hir Hit]. rewrite (Hf i Hir) in Hit. by apply bool_decide_eq_true_1 in Hit. }
  destruct (Hfr (q0 r) ltac:(unfold descs; set_solver)) as [Hb0 _].
  destruct (Hfr (q1 r) ltac:(unfold descs; set_solver)) as [Hb1 _].
  destruct (Hfr (q2 r) ltac:(unfold descs; set_solver)) as [Hb2 _].
  unfold descs in Hnd. apply NoDup_cons in Hnd as [N0 Hnd]. apply NoDup_cons in Hnd as [N1 _].
  assert (q0 r <> q1 r /\ q0 r <> q2 r /\ q1 r <> q2 r) as (D1 & D2 & D3) by set_solver.
  assert (Hhead : forall x, x ∈ rs -> q0 x <> q0 r).
  { intros x Hx Hc. apply (Hnew (q0 r)); [unfold descs; set_solver|]. apply elem_of_taken. exists x.
    split; [done|]. rewrite <- Hc. unfold descs. set_solver. }
  erewrite bind_Ret by apply rw_format_run. exists (set_v_lock false (formatted r v1)). split; [reflexivity|]. subst v1. unfold formatted.
  split; [|done]. set (i0 := q0 r) in *. set (i1 := q1 r) in *. set (i2 := q2 r) in *. split; cbn.
  - by rewrite !zlen_updZ.
  - rewrite taken_cons. fold i0 i1 i2. change (NoDup ([i0; i1; i2] ++ taken rs)). apply NoDup_app. split_and!; try done.
    repeat (constructor; [set_solver|]). constructor.
  - intros i. rewrite taken_cons, !elem_of_cons. fold i0 i1 i2. intros [->|[->|[->|Hin]]]; try done. by apply Hrg.
  - intros i Hir. rewrite taken_cons. fold i0 i1 i2. destruct (decide (i = i2)) as [->|E2].
    { rewrite nthZ_updZ_eq by (rewrite !zlen_updZ; lia). symmetry. apply bool_decide_eq_false_2. set_solver. }
    rewrite nthZ_updZ_ne by done. destruct (decide (i = i1)) as [->|E1].
    { rewrite nthZ_updZ_eq by (rewrite !zlen_updZ; lia). symmetry. apply bool_decide_eq_false_2. set_solver. }
    rewrite nthZ_updZ_ne by done. destruct (decide (i = i0)) as [->|E0].
    { rewrite nthZ_updZ_eq by lia. symmetry. apply bool_decide_eq_false_2. set_solver. }
    rewrite nthZ_updZ_ne by done. rewrite Hf by done. apply bool_decide_ext. set_solver.
  - intros x. rewrite elem_of_cons. intros [->|Hx].
    + split; cbn; fold i0 i1 i2.
      * rewrite !(nthZ_updZ_ne _ _ i0) by done. rewrite nthZ_updZ_eq; [done|lia].
      * rewrite (nthZ_updZ_ne _ _ i1) by done. rewrite nthZ_updZ_eq; [done|rewrite zlen_updZ; lia].
      * rewrite nthZ_updZ_eq; [done|rewrite !zlen_updZ; lia].
      * rewrite nthZ_updZ_eq; [done|lia].
      * rewrite nthZ_updZ_eq; [done|rewrite !zlen_updZ; lia].
      * done.
    + assert (Hin : forall i, i ∈ descs x -> i <> i0 /\ i <> i1 /\ i <> i2).
      { intros i Hix. assert (i ∈ taken rs) by (apply elem_of_taken; by exists x).
        split_and!; intros ->; eapply Hnew; try done; unfold descs; set_solver. }
      destruct (Hin (q0 x) ltac:(unfold descs; set_solver)) as (? & ? & ?).
      destruct (Hin (q1 x) ltac:(unfold descs; set_solver)) as (? & ? & ?).
      destruct (Hin (q2 x) ltac:(unfold descs; set_solver)) as (? & ? & ?).
      destruct (Hrq x Hx). split; cbn; rewrite ?nthZ_updZ_ne by done; done.
  - constructor; done.
  - apply ring_push; [done|]. unfold zlen, NUM. lia.
  - done.
  - rewrite <- Hh. solve_Permutation.
  - intros x. rewrite elem_of_cons. intros [->|Hx] Hin.
    + exfalso. fold i0 in Hin. assert (Hc : i0 ∈ q0 <$> rs) by (rewrite <- Hh; set_solver).
      apply list_elem_of_fmap in Hc as (x & Hc & Hx). by apply (Hhead x Hx).
    + rewrite !nthZ_updZ_ne by (apply not_eq_sym; by apply Hhead). by apply Hs.
  - intros x. rewrite elem_of_cons. intros [->|Hx].
    + rewrite lookup_insert_eq. cbn. symmetry. apply bool_decide_eq_true_2. intros Hin.
      assert (Hc : i0 ∈ q0 <$> rs) by (rewrite <- Hh; set_solver).
      apply list_elem_of_fmap in Hc as (x & Hc & Hx). by apply (Hhead x Hx).
    + rewrite lookup_insert_ne; [by apply Hd|]. intros Hc. apply Hb. rewrite Hc. apply list_elem_of_fmap. by exists x.
Qed.

Lemma rw_start_spec v rs qa qu qd b blk w :
  vinv v rs qa qu qd -> v_lock v = false -> b ∉ q_b <$> rs -> 0 <= blk < 2 ^ 31 ->
  (exists v', rw_start b blk w v = Ret None v' /\ vinv v' rs qa qu qd /\ v_lock v' = false /\
     vkeep v v') \/
  (exists r v', q_b r = b /\ q_blk r = blk /\ q_w r = w /\ rw_start b blk w v = Ret (Some (q0 r, q1 r, q2 r)) v' /\
     vinv v' (r :: rs) (qa ++ [q0 r]) qu qd /\ v_lock v' = false /\
     vkeep v v').
Proof.
  intros Hi Hl Hb Hblk. unfold rw_start. pose proof Hi as [(Hl1 & Hl2 & _) _ Hrg Hf _ _ _ _ _ _ _].
  erewrite bind_Ret by (unfold vacquire, lk_acquire; by rewrite Hl).
  destruct (alloc3_desc_spec (set_v_lock true v) (taken rs)) as [(i0 & i1 & i2 & Hn & Hfr & E)|(v' & E & Hs & Hlk & Hfe)].
  { done. } { done. }
  { intros i Hin Hir. cbn. rewrite Hf by done. apply bool_decide_eq_false_2. by intros ?. }
  - right. destruct (start_inv v rs qa qu qd (Req b blk w i0 i1 i2) Hi Hb Hblk Hn Hfr) as (v' & E' & Hi' & Hlk & Hp).
    exists (Req b blk w i0 i1 i2), v'. do 3 (split; [done|]). split; [|done].
    erewrite bind_Ret by exact E. cbn [q_b q_blk q_w q0 q1 q2] in E'.
    apply bind_inv in E' as (? & z & Ea & Eb). erewrite bind_Ret by exact Ea. by erewrite bind_Ret by exact Eb.
  - left. exists (set_v_lock false v'). cbn in Hlk. split.
    { erewrite bind_Ret by exact E. unfold vrelease, lk_release, bind. by rewrite Hlk. }
    destruct Hs as [Hsl Hsd Hsr]. destruct Hsr as (E1 & E2 & E3 & E4 & E5 & E6 & E7 & E8 & E9 & E10 & E11 & E12).
    split; [|split; [done|by split_and!]]. eapply vinv_same; [exact Hi| |exact Hfe].
    split; [done|done|]. by split_and!.
Qed.

(** ** The device's steps *)

Lemma dev_fetch_spec v rs qa qu qd :
  vinv v rs qa qu qd ->
  match qa with
  | [] => dev_fetch v = None
  | h :: qa' => exists v', dev_fetch v = Some v' /\ vinv v' rs qa' qu qd /\ v_lock v' = v_lock v /\
      v_fetched v' = v_fetched v ++ [h] /\
      v_platter v' = v_platter v /\ v_bdata v' = v_bdata v
  end.
Proof.
  intros Hi. pose proof Hi as [Hlen Hn Hrg Hf Hrq Hb Ha Hu Hh Hs Hd]. unfold dev_fetch.
  rewrite (ring_empty _ _ _ _ Ha). destruct qa as [|h qa']; [by rewrite bool_decide_true|].
  rewrite bool_decide_false by done. destruct (ring_pop _ _ _ _ _ Ha) as [-> Ha'].
  eexists. split; [reflexivity|]. split; [|done]. split; cbn; try done.
  - intros r Hr. destruct (Hrq r Hr). by split.
  - rewrite <- Hh. solve_Permutation.
Qed.

(** What a transfer does to the platter and the buffers. *)
Definition transfer (r : req) (p d : gmap Z (list Z)) : gmap Z (list Z) * gmap Z (list Z) :=
  if q_w r then (<[q_blk r := vblk d (q_b r)]> p, d) else (p, <[q_b r := vblk p (q_blk r)]> d).

Lemma sector_block blk : 0 <= blk < 2 ^ 31 -> u32 (blk * (BSIZE / 512)) / (BSIZE / 512) = blk.
Proof.
  intros Hb. change (BSIZE / 512) with 2. rewrite u32_small by (change (2 ^ 31) with 2147483648 in Hb;
    change (2 ^ 32) with 4294967296; lia). apply Z.div_mul. lia.
Qed.

Lemma req_chain_ok r s : chain_ok (Vreq (if q_w r then VIRTIO_BLK_T_OUT else VIRTIO_BLK_T_IN) 0 s)
  (Vdesc (DOps (q0 r)) 16 VRING_DESC_F_NEXT (q1 r))
  (Vdesc (DData (q_b r)) BSIZE (Z.lor (if q_w r then 0 else VRING_DESC_F_WRITE) VRING_DESC_F_NEXT) (q2 r))
  (Vdesc (DStatus (q0 r)) 1 VRING_DESC_F_WRITE 0) = true.
Proof. by destruct (q_w r). Qed.

Lemma irq_set v st : irq_status (set_v_regs (<[VIRTIO_MMIO_INTERRUPT_STATUS := st]> (v_regs v)) v) = st.
Proof. unfold irq_status. cbn [v_regs set_v_regs]. by rewrite lookup_insert_eq. Qed.

Lemma dev_complete_spec v rs qa qu qd h l1 l2 :
  vinv v rs qa qu qd -> v_fetched v = l1 ++ h :: l2 ->
  exists r v', r ∈ rs /\ q0 r = h /\ dev_complete 0 h (set_v_dev (v_dev_idx v) (l1 ++ l2) v) = Some v' /\
    vinv v' rs qa (qu ++ [h]) qd /\ v_lock v' = v_lock v /\
    v_fetched v' = l1 ++ l2 /\ (v_platter v', v_bdata v') = transfer r (v_platter v) (v_bdata v) /\
    v_wakeups v' = v_wakeups v /\ irq_status v' = Z.lor (irq_status v) 1.
Proof.
  intros Hi Hft. pose proof Hi as [(Hl1 & Hl2 & Hl3 & Hl4) Hn Hrg Hf Hrq Hb Ha Hu Hh Hs Hd].
  pose proof (few_requests _ _ _ _ _ Hi) as Hfew. pose proof (queue_short _ _ _ _ _ Hi) as Hq.
  assert (Hin : h ∈ q0 <$> rs) by (rewrite <- Hh, Hft; set_solver).
  apply list_elem_of_fmap in Hin as (r & -> & Hr). destruct (Hrq r Hr) as [Hd0 Hd1 Hd2 Hop Hob Hblk].
  assert (Hrr : 0 <= q0 r < NUM). { apply Hrg, elem_of_taken. exists r. split; [done|]. left. }
  exists r. unfold dev_complete. cbn [v_desc v_ops v_info set_v_dev v_platter v_bdata v_used v_used_ring_idx].
  rewrite Hd0. cbn [d_next d_addr]. rewrite Hd1. cbn [d_next d_addr]. rewrite Hd2. cbn [d_addr].
  rewrite Hop, req_chain_ok. cbn [r_type r_sector negb]. change (negb (0 =? 0)) with false. cbv iota. rewrite sector_block by done.
  assert (Hring : ring_ok (updZ (v_used_ring_idx v mod NUM) (q0 r) (v_used v)) (v_used_idx v)
                    (u16 (v_used_ring_idx v + 1)) (qu ++ [q0 r])).
  { apply ring_push; [done|]. rewrite Hft, length_app in Hq. cbn [length] in Hq. unfold zlen, NUM. lia. }
  assert (Hheads : qa ++ (l1 ++ l2) ++ (qu ++ [q0 r]) ++ qd ≡ₚ q0 <$> rs).
  { rewrite <- Hh, Hft. solve_Permutation. }
  assert (Hreq : forall (v' : vst) x, v_desc v' = v_desc v -> v_ops v' = v_ops v ->
    v_info v' = updZ (q0 r) (Vinfo (in_b (nthZ vinfo0 (v_info v) (q0 r))) 0) (v_info v) -> x ∈ rs -> req_ok v' x).
  { intros v' x E1 E2 E3 Hx. destruct (Hrq x Hx). split; rewrite ?E1, ?E2, ?E3; try done.
    destruct (decide (q0 x = q0 r)) as [E|E].
    - rewrite E, nthZ_updZ_eq by lia. cbn. by rewrite <- E.
    - by rewrite nthZ_updZ_ne. }
  assert (Hstat : forall x, x ∈ rs -> q0 x ∈ qu ++ [q0 r] ->
    in_status (nthZ vinfo0 (updZ (q0 r) (Vinfo (in_b (nthZ vinfo0 (v_info v) (q0 r))) 0) (v_info v)) (q0 x)) = 0).
  { intros x Hx Hin. destruct (decide (q0 x = q0 r)) as [E|E].
    - by rewrite E, nthZ_updZ_eq by lia.
    - rewrite nthZ_updZ_ne by done. apply Hs; [done|]. set_solver. }
  unfold transfer. destruct (q_w r); (eexists; split; [done|]; split; [done|]; split; [reflexivity|]; split;
    [|split; [done|]; split; [done|]; split; [done|]; split; [done|apply irq_set]]);
    (split; cbn; try done; [by rewrite zlen_updZ|intros x Hx; by apply Hreq]).
Qed.

(** ** The interrupt handler *)

Lemma intr_step_inv v rs qa qu qd h r :
  vinv v rs qa (h :: qu) qd -> r ∈ rs -> q0 r = h ->
  vinv (set_v_used_idx (u16 (v_used_idx v + 1)) (set_v_wakeups (v_wakeups v ++ [q_b r])
    (set_v_bdisk (<[q_b r := false]> (v_bdisk v)) v))) rs qa qu (qd ++ [h]).
Proof.
  intros Hi Hr <-. pose proof Hi as [Hlen Hn Hrg Hf Hrq Hb Ha Hu Hh Hs Hd].
  destruct (ring_pop _ _ _ _ _ Hu) as [_ Hu']. split; cbn; try done.
  - intros x Hx. destruct (Hrq x Hx). by split.
  - rewrite <- Hh. solve_Permutation.
  - intros x Hx Hin. apply Hs; [done|]. by right.
  - intros x Hx. destruct (decide (x = r)) as [->|Hne].
    + rewrite lookup_insert_eq. cbn. symmetry. apply bool_decide_eq_false_2. set_solver.
    + rewrite lookup_insert_ne.
      * rewrite Hd by done. apply bool_decide_ext. rewrite elem_of_app, list_elem_of_singleton.
        assert (q0 x <> q0 r); [|naive_solver]. intros Hc. apply Hne.
        apply (shared_desc rs x r (q0 x)); try done; [left|rewrite Hc; left].
      * intros Hc. apply Hne. apply list_elem_of_lookup in Hx as [j Hj]. apply list_elem_of_lookup in Hr as [k Hk].
        assert (j = k) as ->; [|congruence]. apply (NoDup_lookup (q_b <$> rs) j k (q_b r) Hb); rewrite list_lookup_fmap, ?Hj, ?Hk; cbn; congruence.
Qed.

(** The buffer of the request with head [h]. *)
Definition owner (rs : list req) (h b : Z) : Prop := exists r, r ∈ rs /\ q0 r = h /\ q_b r = b.

Lemma intr_loop_spec fuel v rs qa qu qd :
  (length qu <= fuel)%nat -> vinv v rs qa qu qd ->
  exists v' bs, intr_loop fuel v = Ret tt v' /\ vinv v' rs qa [] (qd ++ qu) /\ v_lock v' = v_lock v /\
    vkeep v v' /\ v_wakeups v' = v_wakeups v ++ bs /\ Forall2 (owner rs) qu bs /\ v_regs v' = v_regs v.
Proof.
  revert v qu qd. induction fuel as [|fuel IH]; intros v qu qd Hf Hi; cbn [intr_loop];
    erewrite bind_Ret by reflexivity; pose proof Hi as [_ _ _ _ Hrq _ _ Hu Hh Hs _];
    rewrite (ring_empty _ _ _ _ Hu); destruct qu as [|h qu].
  1,3: rewrite bool_decide_true by done; exists v, []; rewrite !app_nil_r; split_and!; try done; constructor.
  - cbn in Hf. lia.
  - rewrite bool_decide_false by done. destruct (ring_pop _ _ _ _ _ Hu) as [-> _].
    assert (Hin : h ∈ q0 <$> rs) by (rewrite <- Hh; set_solver).
    apply list_elem_of_fmap in Hin as (r & -> & Hr).
    rewrite (Hs r Hr) by left. cbn [negb Z.eqb]. rewrite (ro_b _ _ (Hrq r Hr)).
    do 3 erewrite bind_Ret by reflexivity.
    destruct (IH _ qu (qd ++ [q0 r]) ltac:(cbn in Hf; lia) (intr_step_inv v rs qa qu qd (q0 r) r Hi Hr eq_refl))
      as (v' & bs & E & Hi' & Hl & Hp & Hw & Hb & Hrg).
    exists v', (q_b r :: bs). split; [exact E|]. rewrite <- app_assoc in Hi'. split; [done|]. split; [done|]. split; [done|].
    split; [rewrite Hw; cbn; by rewrite <- app_assoc|]. split; [|done]. constructor; [by exists r|done].
Qed.

Lemma vinv_lock v rs qa qu qd b : vinv v rs qa qu qd -> vinv (set_v_lock b v) rs qa qu qd.
Proof. intros Hi. eapply vinv_same; [exact Hi| |done]. split; cbn; [done|done|by split_and!]. Qed.

Lemma vacquire_ok v : v_lock v = false -> vacquire v = Ret tt (set_v_lock true v).
Proof. intros Hl. unfold vacquire, lk_acquire. by rewrite Hl. Qed.

Lemma vrelease_ok v : v_lock v = true -> vrelease v = Ret tt (set_v_lock false v).
Proof. intros Hl. unfold vrelease, lk_release. by rewrite Hl. Qed.

Lemma vinv_regs v rs qa qu qd g : vinv v rs qa qu qd -> vinv (set_v_regs g v) rs qa qu qd.
Proof. intros Hi. eapply vinv_same; [exact Hi| |done]. split; cbn; [done|done|by split_and!]. Qed.

Lemma acked x : Z.land (Z.ldiff x (Z.land x 3)) 3 = 0.
Proof.
  apply Z.bits_inj'. intros n Hn. rewrite Z.land_spec, Z.ldiff_spec, Z.land_spec, Z.bits_0.
  by destruct (Z.testbit x n), (Z.testbit 3 n).
Qed.

Lemma virtio_disk_intr_spec v rs qa qu qd :
  vinv v rs qa qu qd -> v_lock v = false ->
  exists v' bs, virtio_disk_intr v = Ret tt v' /\ vinv v' rs qa [] (qd ++ qu) /\ v_lock v' = false /\
    vkeep v v' /\ v_wakeups v' = v_wakeups v ++ bs /\ Forall2 (owner rs) qu bs /\ Z.land (irq_status v') 3 = 0.
Proof.
  intros Hi Hl. unfold virtio_disk_intr. erewrite bind_Ret by by apply vacquire_ok.
  pose proof (few_requests _ _ _ _ _ Hi). pose proof (queue_short _ _ _ _ _ Hi).
  erewrite bind_Ret by (unfold ack_irq; erewrite bind_Ret by reflexivity; reflexivity). set (v1 := set_v_regs _ _).
  destruct (intr_loop_spec (Z.to_nat NUM) v1 rs qa qu qd) as (v' & bs & E & Hi' & Hl' & Hp & Hw & Hb & Hrg).
  { change (Z.to_nat NUM) with 8%nat. lia. }
  { by apply vinv_regs, vinv_lock. }
  exists (set_v_lock false v'), bs. split; [erewrite bind_Ret by exact E; by apply vrelease_ok|].
  split; [by apply vinv_lock|]. split; [done|]. split; [done|]. split; [done|]. split; [done|].
  unfold irq_status. cbn [v_regs set_v_lock]. rewrite Hrg. cbn [v1 v_regs set_v_regs].
  rewrite lookup_insert_ne, lookup_insert_eq by done. apply acked.
Qed.

(** ** Finishing a request *)

Lemma taken_perm rs rs' : rs ≡ₚ rs' -> taken rs ≡ₚ taken rs'.
Proof.
  induction 1 as [|x l l' _ IH|x y l|l1 l2 l3 _ IH1 _ IH2]; [done| | |by etrans].
  - rewrite !taken_cons. by rewrite IH.
  - rewrite !taken_cons. solve_Permutation.
Qed.

Lemma vinv_perm v rs rs' qa qu qd qd' :
  vinv v rs qa qu qd -> rs ≡ₚ rs' -> qd ≡ₚ qd' -> vinv v rs' qa qu qd'.
Proof.
  intros [Hlen Hn Hrg Hf Hrq Hb Ha Hu Hh Hs Hd] Hp Hq. pose proof (taken_perm _ _ Hp) as Ht.
  split; try done.
  - by rewrite <- Ht.
  - intros i. rewrite <- Ht. apply Hrg.
  - intros i Hi. rewrite Hf by done. apply bool_decide_ext. by rewrite Ht.
  - intros r. rewrite <- Hp. apply Hrq.
  - by rewrite <- Hp.
  - by rewrite <- Hq, <- Hp.
  - intros r. rewrite <- Hp. apply Hs.
  - intros r Hr. rewrite Hd by (by rewrite Hp). apply bool_decide_ext. by rewrite Hq.
Qed.

(** free_chain() on the chain of one request. *)
Lemma free_chain_spec v v1 r T :
  req_ok v r -> v_desc v1 = v_desc v -> v_free v1 = v_free v ->
  NoDup (descs r) -> (forall i, i ∈ descs r -> 0 <= i < NUM /\ nthZ false (v_free v) i = false) ->
  (forall i, i ∈ descs r -> i ∉ T) -> zlen (v_free v) = NUM ->
  exists v', free_chain (q0 r) v1 = Ret tt v' /\ vsame T v1 v' /\ v_lock v' = v_lock v1 /\
    forall k, 0 <= k < NUM -> nthZ false (v_free v') k = if decide (k ∈ descs r) then true else nthZ false (v_free v) k.
Proof.
  intros Hr Ed Ef Hnd Hfr HT Hlf. destruct Hr as [Hd0 Hd1 Hd2 _ _ _]. unfold descs in *.
  rewrite <- Ed in Hd0, Hd1, Hd2. rewrite <- Ef in *. clear Ed Ef v. rename v1 into v.
  destruct (Hfr (q0 r) ltac:(set_solver)) as [Hb0 Hf0]. destruct (Hfr (q1 r) ltac:(set_solver)) as [Hb1 Hf1].
  destruct (Hfr (q2 r) ltac:(set_solver)) as [Hb2 Hf2].
  apply NoDup_cons in Hnd as [N0 Hnd]. apply NoDup_cons in Hnd as [N1 _].
  assert (q0 r <> q1 r /\ q0 r <> q2 r /\ q1 r <> q2 r) as (D1 & D2 & D3) by set_solver.
  unfold free_chain. change (Z.to_nat NUM) with 8%nat. cbn [free_chain_loop].
  erewrite bind_Ret by reflexivity. rewrite Hd0. cbn [d_flags d_next].
  destruct (free_desc_spec v (q0 r) (q1 r :: q2 r :: T)) as (v1 & E1 & Hs1 & Hl1 & Hv1); [done|done|set_solver|done|].
  erewrite bind_Ret by exact E1. change (negb (Z.land VRING_DESC_F_NEXT VRING_DESC_F_NEXT =? 0)) with true. cbv iota.
  erewrite bind_Ret by reflexivity. rewrite (vs_desc _ _ _ Hs1) by set_solver. rewrite Hd1. cbn [d_flags d_next].
  destruct (free_desc_spec v1 (q1 r) (q2 r :: T)) as (v2 & E2 & Hs2 & Hl2 & Hv2); [done| |set_solver| |].
  { rewrite Hv1 by done. by rewrite decide_False by done. }
  { by destruct (vs_len _ _ _ Hs1) as [_ ->]. }
  erewrite bind_Ret by exact E2.
  assert (negb (Z.land (Z.lor (if q_w r then 0 else VRING_DESC_F_WRITE) VRING_DESC_F_NEXT) VRING_DESC_F_NEXT =? 0) = true) as ->
    by (by destruct (q_w r)).
  erewrite bind_Ret by reflexivity. rewrite (vs_desc _ _ _ Hs2), (vs_desc _ _ _ Hs1) by set_solver. rewrite Hd2. cbn [d_flags d_next].
  destruct (free_desc_spec v2 (q2 r) T) as (v3 & E3 & Hs3 & Hl3 & Hv3); [done| |set_solver| |].
  { rewrite Hv2, decide_False, Hv1, decide_False by done. done. }
  { destruct (vs_len _ _ _ Hs2) as [_ ->]. by destruct (vs_len _ _ _ Hs1) as [_ ->]. }
  erewrite bind_Ret by exact E3. exists v3. split; [done|]. split; [|split; [congruence|]].
  - assert (Hmono : forall T1 T2 a b, T2 ⊆ T1 -> vsame T1 a b -> vsame T2 a b).
    { intros T1 T2 a b Hsub [? Hd ?]. split; [done| |done]. intros i Hi. by apply Hd, Hsub. }
    eapply vsame_trans; [eapply Hmono; [|exact Hs1]; set_solver|].
    eapply vsame_trans; [eapply Hmono; [|exact Hs2]; set_solver|exact Hs3].
  - intros k Hk. rewrite Hv3, Hv2, Hv1 by done. repeat case_decide; try done; set_solver.
Qed.

(** Taking a finished request out. *)
Lemma finish_frame v v' r rs qa qu qd x :
  vinv v (r :: rs) qa qu (q0 r :: qd) ->
  vsame (taken rs) (set_v_info (updZ (q0 r) x (v_info v)) v) v' ->
  (forall k, 0 <= k < NUM -> nthZ false (v_free v') k = if decide (k ∈ descs r) then true else nthZ false (v_free v) k) ->
  vinv v' rs qa qu qd.
Proof.
  intros [(Hl1 & Hl2 & Hl3 & Hl4) Hn Hrg Hf Hrq Hb Ha Hu Hh Hs Hd] [[Hs1 Hs2] Hsd Hsr] Hfv.
  destruct Hsr as (E1 & E2 & E3 & E4 & E5 & E6 & E7 & E8 & E9 & E10 & E11 & E12). cbn in *.
  change (taken (r :: rs)) with (descs r ++ taken rs) in *. apply NoDup_app in Hn as (Hn1 & Hn2 & Hn3).
  apply NoDup_cons in Hb as [_ Hb].
  assert (Hne : forall y, y ∈ rs -> q0 y <> q0 r).
  { intros y Hy Hc. apply (Hn2 (q0 r)); [left|]. apply elem_of_taken. exists y. split; [done|]. rewrite <- Hc. left. }
  split; rewrite ?E1, ?E2, ?E3, ?E4, ?E5, ?E6, ?E7, ?E8, ?E11, ?E12; try done.
  - rewrite zlen_updZ. split_and!; congruence.
  - intros i Hi. apply Hrg. set_solver.
  - intros i Hi. rewrite Hfv by done. case_decide as Hin.
    + symmetry. apply bool_decide_eq_true_2. by apply Hn2.
    + rewrite Hf by done. apply bool_decide_ext. set_solver.
  - intros y Hy. destruct (Hrq y) as [? ? ? ? ? ?]; [by right|].
    assert (Hin : forall i, i ∈ descs y -> i ∈ taken rs) by (intros i Hi; apply elem_of_taken; by exists y).
    split; rewrite ?E6, ?E7; try done; try (rewrite Hsd; [done|]; apply Hin; unfold descs; set_solver).
    rewrite nthZ_updZ_ne; [done|]. by apply not_eq_sym, Hne.
  - apply (Permutation_cons_inv (a := q0 r)). rewrite <- Hh. solve_Permutation.
  - intros y Hy Hin. rewrite nthZ_updZ_ne by (by apply not_eq_sym, Hne). apply Hs; [by right|done].
  - intros y Hy. rewrite (Hd y) by (by right). apply bool_decide_ext. specialize (Hne y Hy). set_solver.
Qed.

(** The end of a request whose buffer is done: its descriptors are free. *)
Lemma finish_done v r rs qa qu qd :
  vinv v (r :: rs) qa qu (q0 r :: qd) -> v_lock v = false ->
  exists v', rw_finish (q_b r) (q0 r) v = Ret true v' /\ vinv v' rs qa qu qd /\ v_lock v' = false /\
    vkeep v v'.
Proof.
  intros Hi Hl. pose proof Hi as [(Hl1 & Hl2 & Hl3 & Hl4) Hn Hrg Hf Hrq Hb Ha Hu Hh Hs Hd].
  unfold rw_finish. erewrite bind_Ret by by apply vacquire_ok. erewrite bind_Ret by reflexivity.
  change (v_bdisk (set_v_lock true v)) with (v_bdisk v).
  rewrite (Hd r) by left. rewrite bool_decide_false by set_solver. erewrite bind_Ret by reflexivity.
  set (v1 := set_v_info _ _).
  assert (Hr : r ∈ r :: rs) by left. change (taken (r :: rs)) with (descs r ++ taken rs) in *.
  apply NoDup_app in Hn as (Hn1 & Hn2 & Hn3).
  destruct (free_chain_spec v v1 r (taken rs) (Hrq r Hr) eq_refl eq_refl Hn1) as (v2 & E & Hsm & Hl' & Hfv); try done.
  { intros i Hin. assert (Hir : 0 <= i < NUM) by (apply Hrg; set_solver). split; [done|].
    rewrite Hf by done. apply bool_decide_eq_false_2. set_solver. }
  erewrite bind_Ret by exact E. erewrite bind_Ret by (by apply vrelease_ok; rewrite Hl').
  exists (set_v_lock false v2). split; [done|].
  destruct (vs_rest _ _ _ Hsm) as (E1 & E2 & E3 & E4 & E5 & E6 & E7 & E8 & E9 & E10 & E11 & E12).
  split; [|split; [done|by split_and!]]. apply vinv_lock.
  apply (finish_frame v v2 r rs qa qu qd (Vinfo (-1) (in_status (nthZ vinfo0 (v_info v) (q0 r)))) Hi); [|done].
  destruct Hsm as [Hsm1 Hsm2 Hsm3]. split; [exact Hsm1|exact Hsm2|exact Hsm3].
Qed.

Lemma rw_finish_spec v rs qa qu qd r :
  vinv v rs qa qu qd -> v_lock v = false -> r ∈ rs ->
  (q0 r ∉ qd /\ rw_finish (q_b r) (q0 r) v = Ret false v) \/
  (exists rs' qd' v', rs ≡ₚ r :: rs' /\ qd ≡ₚ q0 r :: qd' /\ rw_finish (q_b r) (q0 r) v = Ret true v' /\
     vinv v' rs' qa qu qd' /\ v_lock v' = false /\ vkeep v v').
Proof.
  intros Hi Hl Hr. destruct (decide (q0 r ∈ qd)) as [Hin|Hin].
  - right. apply elem_of_Permutation in Hr as [rs' Hrs]. apply elem_of_Permutation in Hin as [qd' Hqd].
    destruct (finish_done v r rs' qa qu qd') as (v' & E & Hi' & Hl' & Hp); [|done|].
    { by eapply vinv_perm. }
    by exists rs', qd', v'.
  - left. split; [done|]. unfold rw_finish. erewrite bind_Ret by by apply vacquire_ok. erewrite bind_Ret by reflexivity.
    change (v_bdisk (set_v_lock true v)) with (v_bdisk v).
    rewrite (vi_disk _ _ _ _ _ Hi r Hr), bool_decide_true by done.
    erewrite bind_Ret by by apply vrelease_ok. f_equal. destruct v. cbn in *. by subst.
Qed.

(** ** The system and what it implements *)

(** The driver, the device, and the processes inside virtio_disk_rw(), each
    with its request. *)
Record vsys := Vsys { sys : vst; waiting : list req }.

Inductive label :=
| LCall (r : req)     (* a request is queued *)
| LTransfer (r : req) (* the device carries it out *)
| LReturn (r : req)   (* virtio_disk_rw() returns *)
| LTau.

(** The device completes a request with status 0, success. *)
Inductive vstep : vsys -> label -> vsys -> Prop :=
| vs_call v ws r v' :
    q_b r ∉ q_b <$> ws -> 0 <= q_blk r < 2 ^ 31 ->
    rw_start (q_b r) (q_blk r) (q_w r) v = Ret (Some (q0 r, q1 r, q2 r)) v' ->
    vstep (Vsys v ws) (LCall r) (Vsys v' (r :: ws))
| vs_full v ws b blk w v' :
    b ∉ q_b <$> ws -> 0 <= blk < 2 ^ 31 -> rw_start b blk w v = Ret None v' ->
    vstep (Vsys v ws) LTau (Vsys v' ws)
| vs_fetch v ws v' : dev_fetch v = Some v' -> vstep (Vsys v ws) LTau (Vsys v' ws)
| vs_transfer v ws r l1 l2 v' :
    v_fetched v = l1 ++ q0 r :: l2 -> r ∈ ws ->
    dev_complete 0 (q0 r) (set_v_dev (v_dev_idx v) (l1 ++ l2) v) = Some v' ->
    vstep (Vsys v ws) (LTransfer r) (Vsys v' ws)
| vs_intr v ws v' : virtio_disk_intr v = Ret tt v' -> vstep (Vsys v ws) LTau (Vsys v' ws)
| vs_poll v ws r v' : r ∈ ws -> rw_finish (q_b r) (q0 r) v = Ret false v' -> vstep (Vsys v ws) LTau (Vsys v' ws)
| vs_return v ws r ws' v' :
    ws ≡ₚ r :: ws' -> rw_finish (q_b r) (q0 r) v = Ret true v' ->
    vstep (Vsys v ws) (LReturn r) (Vsys v' ws').

(** The specification: transfers are atomic, each request has exactly one,
    between its call and its return. *)
Record adisk := Adisk { a_platter : gmap Z (list Z); a_data : gmap Z (list Z); a_called : list req; a_done : list req }.

Inductive astep : adisk -> label -> adisk -> Prop :=
| as_call p d c e r : astep (Adisk p d c e) (LCall r) (Adisk p d (r :: c) e)
| as_transfer p d c c' e r p' d' :
    c ≡ₚ r :: c' -> (p', d') = transfer r p d -> astep (Adisk p d c e) (LTransfer r) (Adisk p' d' c' (r :: e))
| as_return p d c e e' r : e ≡ₚ r :: e' -> astep (Adisk p d c e) (LReturn r) (Adisk p d c e')
| as_tau a : astep a LTau a.

Inductive steps {A} (R : A -> label -> A -> Prop) : A -> list label -> A -> Prop :=
| steps_nil a : steps R a [] a
| steps_snoc a ls b l c : steps R a ls b -> R b l c -> steps R a (ls ++ [l]) c.

(** The concrete state [s] stands for the abstract disk [a]. *)
Definition vsim (s : vsys) (a : adisk) : Prop :=
  exists qa qu qd, vinv (sys s) (waiting s) qa qu qd /\ v_lock (sys s) = false /\
    a_platter a = v_platter (sys s) /\ a_data a = v_bdata (sys s) /\
    q0 <$> a_called a ≡ₚ qa ++ v_fetched (sys s) /\ q0 <$> a_done a ≡ₚ qu ++ qd /\
    a_called a ++ a_done a ≡ₚ waiting s.

(** A head determines its request. *)
Lemma head_inj v rs qa qu qd r r' : vinv v rs qa qu qd -> r ∈ rs -> r' ∈ rs -> q0 r = q0 r' -> r = r'.
Proof. intros Hi Hr Hr' E. apply (shared_desc rs r r' (q0 r)); try done; [apply Hi|left|rewrite E; left]. Qed.

(** Removing a request by its head. *)
Lemma heads_remove v ws qa qu qd c r l :
  vinv v ws qa qu qd -> c ⊆ ws -> r ∈ ws -> q0 <$> c ≡ₚ q0 r :: l ->
  exists c', c ≡ₚ r :: c' /\ q0 <$> c' ≡ₚ l.
Proof.
  intros Hi Hc Hr Hp. assert (Hin : q0 r ∈ q0 <$> c) by (rewrite Hp; left).
  apply list_elem_of_fmap in Hin as (r' & E & Hr'). assert (r = r') as <- by (eapply head_inj; eauto).
  apply elem_of_Permutation in Hr' as [c' Hc']. exists c'. split; [done|].
  apply (Permutation_cons_inv (a := q0 r)). rewrite <- Hp, Hc'. done.
Qed.

Lemma vsim_step s l s' a : vsim s a -> vstep s l s' -> exists a', astep a l a' /\ vsim s' a'.
Proof.
  intros (qa & qu & qd & Hi & Hl & Hp & Hd & Hca & Hdo & Hws) Hst. destruct a as [p d c e]. cbn in *. subst p d.
  destruct Hst as [v ws r v' Hb Hblk E|v ws b blk w v' Hb Hblk E|v ws v' E|v ws r l1 l2 v' Hf Hr E|v ws v' E|v ws r v' Hr E|v ws r ws' v' Hr E];
    cbn [sys waiting] in *.
  - destruct (rw_start_spec v ws qa qu qd (q_b r) (q_blk r) (q_w r) Hi Hl Hb Hblk) as
      [(v1 & E1 & _)|(r' & v1 & Eb & Ek & Ew & E1 & Hi1 & Hl1 & Hp1 & Hd1 & Hf1)]; rewrite E1 in E; [done|].
    injection E as E0 E1' E2 <-. assert (r' = r) as -> by (destruct r, r'; cbn in *; congruence).
    eexists. split; [apply as_call|]. exists (qa ++ [q0 r]), qu, qd. cbn. rewrite Hp1, Hd1, Hf1.
    split_and!; try done; [|by rewrite Hws]. rewrite Hca. solve_Permutation.
  - destruct (rw_start_spec v ws qa qu qd b blk w Hi Hl Hb Hblk) as
      [(v1 & E1 & Hi1 & Hl1 & Hp1 & Hd1 & Hf1)|(r' & v1 & _ & _ & _ & E1 & _)]; rewrite E1 in E; [|done].
    injection E as <-. eexists. split; [apply as_tau|]. exists qa, qu, qd. cbn. rewrite Hp1, Hd1, Hf1. by split_and!.
  - pose proof (dev_fetch_spec v ws qa qu qd Hi) as Hfe. destruct qa as [|h qa]; [congruence|].
    destruct Hfe as (v1 & E1 & Hi1 & Hl1 & Hf1 & Hp1 & Hd1). rewrite E1 in E. injection E as <-.
    eexists. split; [apply as_tau|]. exists qa, qu, qd. cbn. rewrite Hp1, Hd1, Hf1, Hl1.
    split_and!; try done. rewrite Hca. solve_Permutation.
  - destruct (dev_complete_spec v ws qa qu qd (q0 r) l1 l2 Hi Hf) as (r' & v1 & Hr' & E0 & E1 & Hi1 & Hl1 & Hf1 & Ht & _).
    rewrite E1 in E. injection E as <-. assert (r' = r) as -> by (by eapply head_inj).
    destruct (heads_remove v ws qa qu qd c r (qa ++ l1 ++ l2) Hi) as (c' & Hc' & Hca'); [|done| |].
    { intros x Hx. rewrite <- Hws. set_solver. }
    { rewrite Hca, Hf. solve_Permutation. }
    eexists. split; [by eapply (as_transfer _ _ c c')|]. exists qa, (qu ++ [q0 r]), qd. cbn. rewrite Hl1, Hf1.
    split_and!; try done; [rewrite Hdo; solve_Permutation|]. rewrite <- Hws, Hc'. solve_Permutation.
  - destruct (virtio_disk_intr_spec v ws qa qu qd Hi Hl) as (v1 & bs & E1 & Hi1 & Hl1 & (Hp1 & Hd1 & Hf1) & _).
    rewrite E1 in E. injection E as <-. eexists. split; [apply as_tau|]. exists qa, [], (qd ++ qu). cbn.
    rewrite Hp1, Hd1, Hf1. split_and!; try done. rewrite Hdo. solve_Permutation.
  - destruct (rw_finish_spec v ws qa qu qd r Hi Hl Hr) as [[_ E1]|(rs' & qd' & v1 & _ & _ & E1 & _)]; rewrite E1 in E; [|done].
    injection E as <-. eexists. split; [apply as_tau|]. exists qa, qu, qd. by split_and!.
  - assert (Hr' : r ∈ ws) by (rewrite Hr; left).
    destruct (rw_finish_spec v ws qa qu qd r Hi Hl Hr') as [[_ E1]|(rs' & qd' & v1 & Hrs & Hqd & E1 & Hi1 & Hl1 & Hp1 & Hd1 & Hf1)];
      rewrite E1 in E; [done|]. injection E as <-.
    destruct (heads_remove v ws qa qu qd e r (qu ++ qd') Hi) as (e' & He' & Hdo'); [|done| |].
    { intros x Hx. rewrite <- Hws. set_solver. }
    { rewrite Hdo, Hqd. solve_Permutation. }
    assert (Hrw : rs' ≡ₚ ws') by (apply (Permutation_cons_inv (a := r)); by rewrite <- Hrs, Hr).
    eexists. split; [by eapply (as_return _ _ c e e')|]. exists qa, qu, qd'. cbn. rewrite Hp1, Hd1, Hf1.
    split_and!; try done; [by eapply vinv_perm|].
    apply (Permutation_cons_inv (a := r)). rewrite <- Hr, <- Hws, He'. solve_Permutation.
Qed.

(** ** Initialisation *)

(** The driver's static data, all zero, and a disk. *)
Definition vboot (mem : kmem) (platter bdata : gmap Z (list Z)) : vst :=
  Vst [] [] 0 [] 0 (repeat false (Z.to_nat NUM)) 0 (repeat vinfo0 (Z.to_nat NUM)) (repeat vreq0 (Z.to_nat NUM))
      false ∅ bdata ∅ platter 0 [] mem [].

Lemma on_vmem_inv {A} (m : M kmem A) v a v' :
  on_vmem m v = Ret a v' -> exists k, v' = set_v_mem k v.
Proof. unfold on_vmem, zoom. destruct (m (v_mem v)); intros [= <- <-]. by eexists. Qed.

Ltac init_step H :=
  let a := fresh "a" in let w := fresh "w" in let E := fresh "E" in
  apply bind_inv in H as (a & w & E & H);
  first [ apply on_vmem_inv in E as [? ->] | (unfold Rset, R, R_status, modify, ret, gets in E; injection E as ? ?; subst) ].
Ltac init_if H := match type of H with (if ?b then _ else _) _ = _ => destruct b; [discriminate H|] end.

Lemma virtio_disk_init_spec hw mem platter bdata v :
  virtio_disk_init hw (vboot mem platter bdata) = Ret tt v ->
  vinv v [] [] [] [] /\ v_lock v = false /\ v_platter v = platter /\ v_bdata v = bdata.
Proof.
  unfold virtio_disk_init. intros H. repeat first [init_if H | init_step H].
  unfold Rset, modify in H. injection H as <-.
  split; [|done]. split; cbn; try done; try (by apply NoDup_nil_2); try (intros r; by rewrite elem_of_nil).
  2,3: split_and!; try done; intros k Hk; change (zlen (@nil Z)) with 0 in Hk; lia.
  intros i Hi. rewrite bool_decide_true by apply not_elem_of_nil.
  assert (Hc : Forall (fun i => nthZ false (repeat true 8) i = true) (seqZ 0 8)) by (repeat constructor).
  rewrite Forall_forall in Hc. apply Hc, elem_of_seqZ. unfold NUM in Hi. lia.
Qed.

Lemma init_sim hw mem p d v :
  virtio_disk_init hw (vboot mem p d) = Ret tt v -> vsim (Vsys v []) (Adisk p d [] []).
Proof.
  intros H. destruct (virtio_disk_init_spec _ _ _ _ _ H) as (Hi & Hl & <- & <-).
  exists [], [], []. cbn. destruct Hi as [? ? ? ? ? ? ? ? Hh]. split_and!; try done.
  cbn in Hh. rewrite app_nil_r in Hh. by rewrite Hh.
Qed.

Lemma vsim_steps s a ls s' : vsim s a -> steps vstep s ls s' -> exists a', steps astep a ls a' /\ vsim s' a'.
Proof.
  intros Hs H. induction H as [|s ls s1 l s2 H IH Hl]; [exists a; by split; [constructor|]|].
  destruct (IH Hs) as (a1 & Ha & Hs1). destruct (vsim_step _ _ _ _ Hs1 Hl) as (a2 & Hst & Hs2).
  exists a2. split; [by econstructor|done].
Qed.

Lemma steps_one {A} (R : A -> label -> A -> Prop) a l b : R a l b -> steps R a [l] b.
Proof. intros H. apply (steps_snoc R a [] a l b); [constructor|done]. Qed.

(** C3: the disk driver implements an atomic disk.  From initialisation on,
    whatever the interleaving of callers of virtio_disk_rw, of the device
    (which may carry out queued requests in any order) and of the interrupt
    handler, the run is one of the specification: every request is
    transferred exactly once, after its call and before its return; the
    platter and the buffers hold what the transfers made of them; the requests
    in flight are those called and those transferred but not yet returned; and
    with none in flight every descriptor is free again. *)
Theorem virtio_refines hw mem p d v ls s :
  virtio_disk_init hw (vboot mem p d) = Ret tt v ->
  steps vstep (Vsys v []) ls s ->
  exists a, steps astep (Adisk p d [] []) ls a /\
    a_platter a = v_platter (sys s) /\ a_data a = v_bdata (sys s) /\
    a_called a ++ a_done a ≡ₚ waiting s /\
    (waiting s = [] -> forall i, 0 <= i < NUM -> nthZ false (v_free (sys s)) i = true).
Proof.
  intros Hv Hs. destruct (vsim_steps _ _ _ _ (init_sim _ _ _ _ _ Hv) Hs) as (a & Ha & qa & qu & qd & Hi & Hl & Hp & Hd & _ & _ & Hws).
  exists a. split_and!; try done. intros Hw i Hr. rewrite (vi_free _ _ _ _ _ Hi i Hr), Hw.
  apply bool_decide_eq_true_2, not_elem_of_nil.
Qed.

(** A machine with three free pages and the disk QEMU presents. *)
Definition demo_hw (off : Z) : Z :=
  if off =? VIRTIO_MMIO_MAGIC_VALUE then 0x74726976 else if off =? VIRTIO_MMIO_VENDOR_ID then 0x554d4551
  else if off =? VIRTIO_MMIO_STATUS then 15 else if off =? VIRTIO_MMIO_QUEUE_NUM_MAX then 1024 else if off =? VIRTIO_MMIO_QUEUE_READY then 0 else 2.
Definition demo_mem : kmem := Kmem (store64 (store64 (store64 ∅ 4096 8192) 8192 12288) 12288 0) 4096 false.
Definition demo_start (o : outcome vst unit) : bool :=
  match o with
  | Ret _ v =>
      match rw_start 3 7 true v with
      | Ret (Some (i0, i1, i2)) _ => (i0 =? 0) && (i1 =? 1) && (i2 =? 2)
      | _ => false
      end
  | _ => false
  end.

Lemma demo_start_call o : demo_start o = true -> exists v v', o = Ret tt v /\
  steps vstep (Vsys v []) [LCall (Req 3 7 true 0 1 2)] (Vsys v' [Req 3 7 true 0 1 2]).
Proof.
  unfold demo_start. destruct o as [[] v| |]; [|done..].
  destruct (rw_start 3 7 true v) as [[[[i0 i1] i2]|] v'| |] eqn:E; try done.
  intros H. apply andb_prop in H as [H H2]. apply andb_prop in H as [H0 H1].
  apply Z.eqb_eq in H0, H1, H2. subst. exists v, v'. split; [done|].
  apply steps_one, vs_call; cbn; [set_solver|lia|done].
Qed.

Lemma demo_call : exists v v', virtio_disk_init demo_hw (vboot demo_mem ∅ ∅) = Ret tt v /\
  steps vstep (Vsys v []) [LCall (Req 3 7 true 0 1 2)] (Vsys v' [Req 3 7 true 0 1 2]).
Proof. apply demo_start_call. vm_compute. reflexivity. Qed.

Lemma virtio_refines_witness :
  exists s a, steps astep (Adisk ∅ ∅ [] []) [LCall (Req 3 7 true 0 1 2)] a /\ a_platter a = v_platter (sys s).
Proof.
  destruct demo_call as (v & v' & Hv & Hs). exists (Vsys v' [Req 3 7 true 0 1 2]).
  destruct (virtio_refines demo_hw demo_mem ∅ ∅ v _ _ Hv Hs) as (a & Ha & Hp & _). exists a. exact (conj Ha Hp).
Defined.
