(* ===== verification/VirtioLive.v ===== *)
(** * The disk driver: sleeping and waking

    The processes inside virtio_disk_rw() with the places they sleep at: for
    free descriptors and for their buffer.  A sleeper runs again only when a
    wakeup() on its channel says so, and the interrupt handler only when the
    device asks for it. *)

From Stdlib Require Import ZArith Lia.
From stdpp Require Import base numbers list list_numbers gmap relations strings sorting.
From S2P Require Import Prelude Cstring Riscv Kalloc Bytes Ring Bio Virtio VirtioProof.

(** A call of virtio_disk_rw(): the buffer, its block, and the direction. *)
Record job := Job { j_b : Z; j_blk : Z; j_w : bool }.

(** [starting]: calls about to allocate descriptors; [parked]: those asleep on
    &disk.free[0]; [asleep]: those asleep on their buffer; [woken]: those woken
    from there. *)
Record psys := Psys { pv : vst; starting : list job; parked : list job; asleep : list req; woken : list req }.

Definition inflight (s : psys) : list req := asleep s ++ woken s.
Definition buffers (s : psys) : list Z := (j_b <$> starting s ++ parked s) ++ (q_b <$> inflight s).
Definition idle (s : psys) : Prop := starting s = [] /\ parked s = [] /\ inflight s = [].

(** The wakeup() calls between two states of the driver, and what they do. *)
Definition news (v v' : vst) : list Z := drop (length (v_wakeups v)) (v_wakeups v').
Definition wake (w : list Z) (s : psys) : psys :=
  Psys (pv s)
    (starting s ++ if decide (chan_free ∈ w) then parked s else [])
    (if decide (chan_free ∈ w) then [] else parked s)
    (filter (fun r => q_b r ∉ w) (asleep s))
    (woken s ++ filter (fun r => q_b r ∈ w) (asleep s)).

Inductive plabel := Called | Worked | Retried.

(** [Retried]: a call that finds too few descriptors, or its buffer busy, and
    sleeps again.  The device reports success. *)
Inductive pstep : psys -> plabel -> psys -> Prop :=
| p_call s j :
    j_b j ∉ buffers s -> 0 <= j_b j < NBUF -> 0 <= j_blk j < 2 ^ 31 ->
    pstep s Called (Psys (pv s) (j :: starting s) (parked s) (asleep s) (woken s))
| p_queue v st j st' pk sl wk i0 i1 i2 v' :
    st ≡ₚ j :: st' -> rw_start (j_b j) (j_blk j) (j_w j) v = Ret (Some (i0, i1, i2)) v' ->
    let s := wake (news v v') (Psys v' st' pk sl wk) in
    pstep (Psys v st pk sl wk) Worked
      (Psys v' (starting s) (parked s) (Req (j_b j) (j_blk j) (j_w j) i0 i1 i2 :: asleep s) (woken s))
| p_full v st j st' pk sl wk v' :
    st ≡ₚ j :: st' -> rw_start (j_b j) (j_blk j) (j_w j) v = Ret None v' ->
    let s := wake (news v v') (Psys v' st' pk sl wk) in
    pstep (Psys v st pk sl wk) Retried (Psys v' (starting s) (j :: parked s) (asleep s) (woken s))
| p_fetch v st pk sl wk v' :
    dev_fetch v = Some v' -> pstep (Psys v st pk sl wk) Worked (Psys v' st pk sl wk)
| p_transfer v st pk sl wk r l1 l2 v' :
    v_fetched v = l1 ++ q0 r :: l2 -> r ∈ sl ++ wk ->
    dev_complete 0 (q0 r) (set_v_dev (v_dev_idx v) (l1 ++ l2) v) = Some v' ->
    pstep (Psys v st pk sl wk) Worked (Psys v' st pk sl wk)
| p_intr v st pk sl wk v' :
    Z.land (irq_status v) 3 <> 0 -> virtio_disk_intr v = Ret tt v' ->
    pstep (Psys v st pk sl wk) Worked (wake (news v v') (Psys v' st pk sl wk))
| p_return v st pk sl wk r wk' v' :
    wk ≡ₚ r :: wk' -> rw_finish (q_b r) (q0 r) v = Ret true v' ->
    pstep (Psys v st pk sl wk) Worked (wake (news v v') (Psys v' st pk sl wk'))
| p_again v st pk sl wk r wk' v' :
    wk ≡ₚ r :: wk' -> rw_finish (q_b r) (q0 r) v = Ret false v' ->
    pstep (Psys v st pk sl wk) Retried (Psys v' st pk (r :: sl) wk').

Inductive psteps : psys -> list plabel -> psys -> Prop :=
| psteps_nil s : psteps s [] s
| psteps_snoc s ls s1 l s2 : psteps s ls s1 -> pstep s1 l s2 -> psteps s (ls ++ [l]) s2.

#[export] Instance plabel_eq_dec : EqDecision plabel.
Proof. solve_decision. Defined.
Definition count (l : plabel) (ls : list plabel) : nat := length (filter (fun x => x = l) ls).

Lemma count_snoc l ls x : count l (ls ++ [x]) = (count l ls + if decide (x = l) then 1 else 0)%nat.
Proof. unfold count. rewrite filter_app, length_app. f_equal. rewrite filter_cons. by case_decide. Qed.

(** ** Who is woken *)

Lemma wakes_free_desc i v v' : free_desc i v = Ret tt v' -> v_wakeups v' = v_wakeups v ++ [chan_free].
Proof.
  unfold free_desc. destruct (NUM <=? i); [done|]. unfold bind, gets, upd_desc, modify, vwakeup.
  destruct (nthZ false (v_free v) i); [done|]. by intros [= <-].
Qed.

Lemma wakes_alloc_desc n : forall i v j v', alloc_desc_loop n i v = Ret j v' -> v_wakeups v' = v_wakeups v.
Proof.
  induction n as [|n IH]; intros i v j v'; cbn [alloc_desc_loop]; [by intros [= _ <-]|].
  unfold bind at 1, gets. destruct (nthZ false (v_free v) i); [by intros [= _ <-]|apply IH].
Qed.

(** Only the process that gives descriptors back wakes the others. *)
Lemma wakes_alloc3 v o v' : alloc3_desc v = Ret o v' ->
  exists k, v_wakeups v' = v_wakeups v ++ repeat chan_free k /\ (o <> None -> k = 0%nat).
Proof.
  unfold alloc3_desc. intros (i0 & v0 & E0%wakes_alloc_desc & H)%bind_inv. destruct (i0 <? 0).
  { injection H as <- <-. exists 0%nat. by rewrite app_nil_r. }
  apply bind_inv in H as (i1 & v1 & E1%wakes_alloc_desc & H). destruct (i1 <? 0).
  { apply bind_inv in H as ([] & v2 & E2%wakes_free_desc & [= <- <-]). exists 1%nat. split; [|done]. by rewrite E2, E1, E0. }
  apply bind_inv in H as (i2 & v2 & E2%wakes_alloc_desc & H). destruct (i2 <? 0).
  { apply bind_inv in H as ([] & v3 & E3%wakes_free_desc & H). apply bind_inv in H as ([] & v4 & E4%wakes_free_desc & [= <- <-]).
    exists 2%nat. split; [|done]. rewrite E4, E3, E2, E1, E0. by rewrite <- app_assoc. }
  injection H as <- <-. exists 0%nat. split; [|done]. rewrite app_nil_r. congruence.
Qed.

Lemma wakes_lock_acquire v v' : vacquire v = Ret tt v' -> v_wakeups v' = v_wakeups v.
Proof. unfold vacquire, lk_acquire. destruct (v_lock v); [done|]. by intros [= <-]. Qed.

Lemma wakes_lock_release v v' : vrelease v = Ret tt v' -> v_wakeups v' = v_wakeups v.
Proof. unfold vrelease, lk_release. destruct (v_lock v); [|done]. by intros [= <-]. Qed.

Lemma wakes_start b blk w v o v' : rw_start b blk w v = Ret o v' ->
  exists k, news v v' = repeat chan_free k /\ (o <> None -> k = 0%nat).
Proof.
  unfold rw_start. intros ([] & v1 & E1%wakes_lock_acquire & H)%bind_inv. apply bind_inv in H as (a & v2 & E2 & H).
  destruct (wakes_alloc3 _ _ _ E2) as (k & Hk & Hn). exists k. unfold news.
  destruct a as [[[i0 i1] i2]|].
  - apply bind_inv in H as ([] & v3 & E3 & H). apply bind_inv in H as ([] & v4 & E4%wakes_lock_release & [= <- <-]).
    rewrite (rw_format_run (Req b blk w i0 i1 i2)) in E3. injection E3 as <-. cbn in E4. rewrite E4, Hk, E1.
    split; [by rewrite drop_app_length|]. intros _. by apply Hn.
  - apply bind_inv in H as ([] & v3 & E3%wakes_lock_release & [= <- <-]). rewrite E3, Hk, E1. by rewrite drop_app_length.
Qed.

Lemma wakes_chain n : forall i v v', free_chain_loop n i v = Ret tt v' ->
  exists k, v_wakeups v' = v_wakeups v ++ repeat chan_free (Datatypes.S k).
Proof.
  induction n as [|n IH]; intros i v v'; cbn [free_chain_loop]; [done|]. intros (d & v1 & [= <- <-] & H)%bind_inv.
  apply bind_inv in H as ([] & v2 & E2%wakes_free_desc & H). destruct (negb _).
  - destruct (IH _ _ _ H) as (k & Hk). exists (Datatypes.S k). rewrite Hk, E2, <- app_assoc. done.
  - injection H as <-. by exists 0%nat.
Qed.

Lemma wakes_finish b i0 v v' : rw_finish b i0 v = Ret true v' -> exists k, news v v' = repeat chan_free (Datatypes.S k).
Proof.
  unfold rw_finish. intros ([] & v1 & E1%wakes_lock_acquire & H)%bind_inv. apply bind_inv in H as (busy & v2 & [= <- <-] & H).
  destruct (default false (v_bdisk v1 !! b)).
  { by apply bind_inv in H as ([] & ? & _ & [=]). }
  apply bind_inv in H as ([] & v3 & [= <-] & H). apply bind_inv in H as ([] & v4 & E4 & H).
  apply bind_inv in H as ([] & v5 & E5%wakes_lock_release & [= <-]). destruct (wakes_chain _ _ _ _ E4) as (k & Hk).
  exists k. unfold news. rewrite E5, Hk. cbn. rewrite E1. by rewrite drop_app_length.
Qed.

(** ** The interrupt line *)

Lemma regs_alloc_desc n : forall i v j v', alloc_desc_loop n i v = Ret j v' -> v_regs v' = v_regs v.
Proof.
  induction n as [|n IH]; intros i v j v'; cbn [alloc_desc_loop]; [by intros [= _ <-]|].
  unfold bind at 1, gets. destruct (nthZ false (v_free v) i); [by intros [= _ <-]|apply IH].
Qed.

Lemma regs_free_desc i v v' : free_desc i v = Ret tt v' -> v_regs v' = v_regs v.
Proof.
  unfold free_desc. destruct (NUM <=? i); [done|]. unfold bind, gets, upd_desc, modify, vwakeup.
  destruct (nthZ false (v_free v) i); [done|]. by intros [= <-].
Qed.

Lemma regs_acquire v v' : vacquire v = Ret tt v' -> v_regs v' = v_regs v.
Proof. unfold vacquire, lk_acquire. destruct (v_lock v); [done|]. by intros [= <-]. Qed.

Lemma regs_release v v' : vrelease v = Ret tt v' -> v_regs v' = v_regs v.
Proof. unfold vrelease, lk_release. destruct (v_lock v); [|done]. by intros [= <-]. Qed.

Lemma regs_alloc3 v a v' : alloc3_desc v = Ret a v' -> v_regs v' = v_regs v.
Proof.
  unfold alloc3_desc. intros (i0 & v0 & E0%regs_alloc_desc & H)%bind_inv. destruct (i0 <? 0); [by injection H as _ <-|].
  apply bind_inv in H as (i1 & v1 & E1%regs_alloc_desc & H). destruct (i1 <? 0).
  { apply bind_inv in H as ([] & v2 & E2%regs_free_desc & [= _ <-]). congruence. }
  apply bind_inv in H as (i2 & v2 & E2%regs_alloc_desc & H). destruct (i2 <? 0); [|injection H as _ <-; congruence].
  apply bind_inv in H as ([] & v3 & E3%regs_free_desc & H). apply bind_inv in H as ([] & v4 & E4%regs_free_desc & [= _ <-]). congruence.
Qed.

Lemma regs_chain n : forall i v v', free_chain_loop n i v = Ret tt v' -> v_regs v' = v_regs v.
Proof.
  induction n as [|n IH]; intros i v v'; cbn [free_chain_loop]; [done|]. intros (d & v1 & [= <- <-] & H)%bind_inv.
  apply bind_inv in H as ([] & v2 & E2%regs_free_desc & H). destruct (negb _); [rewrite (IH _ _ _ H); congruence|injection H as <-; congruence].
Qed.

Lemma irq_start b blk w v o v' : rw_start b blk w v = Ret o v' -> irq_status v' = irq_status v.
Proof.
  unfold rw_start. intros ([] & v1 & E1%regs_acquire & H)%bind_inv.
  apply bind_inv in H as (a & v2 & E2%regs_alloc3 & H). unfold irq_status. destruct a as [[[i0 i1] i2]|].
  - apply bind_inv in H as ([] & v3 & E3 & H). apply bind_inv in H as ([] & v4 & E4%regs_release & [= _ <-]).
    rewrite (rw_format_run (Req b blk w i0 i1 i2)) in E3. injection E3 as <-. rewrite E4. cbn.
    by rewrite lookup_insert_ne, E2, E1 by done.
  - apply bind_inv in H as ([] & v3 & E3%regs_release & [= _ <-]). by rewrite E3, E2, E1.
Qed.

Lemma irq_finish b i0 v v' r : rw_finish b i0 v = Ret r v' -> irq_status v' = irq_status v.
Proof.
  unfold rw_finish. intros ([] & v1 & E1%regs_acquire & H)%bind_inv.
  apply bind_inv in H as (busy & v2 & [= <- <-] & H). unfold irq_status. destruct (default false (v_bdisk v1 !! b)).
  { apply bind_inv in H as ([] & v3 & E3%regs_release & [= _ <-]). by rewrite E3, E1. }
  apply bind_inv in H as ([] & v3 & [= <-] & H). apply bind_inv in H as ([] & v4 & E4%regs_chain & H).
  apply bind_inv in H as ([] & v5 & E5%regs_release & [= _ <-]). rewrite E5, E4. cbn. by rewrite E1.
Qed.

(** With no request in flight every descriptor is free, and a call gets its
    three. *)
Lemma start_idle b blk w v : vinv v [] [] [] [] -> v_lock v = false ->
  exists v', rw_start b blk w v = Ret (Some (0, 1, 2)) v'.
Proof.
  intros Hi Hl. assert (Hf : v_free v = repeat true 8).
  { destruct (vi_len _ _ _ _ _ Hi) as (_ & Hz & _). unfold zlen, NUM in Hz. apply (nthZ_ext false); [rewrite repeat_length; lia|].
    intros i Hr. unfold zlen in Hr. rewrite (vi_free _ _ _ _ _ Hi i) by (unfold NUM; lia).
    rewrite bool_decide_true by apply not_elem_of_nil.
    assert (Hc : Forall (fun i => true = nthZ false (repeat true 8) i) (seqZ 0 8)) by (repeat constructor).
    rewrite Forall_forall in Hc. apply Hc, elem_of_seqZ. lia. }
  unfold rw_start. erewrite bind_Ret by (by apply vacquire_ok).
  assert (Ha : exists x, alloc3_desc (set_v_lock true v) = Ret (Some (0, 1, 2)) x /\ v_lock x = true).
  { destruct v. cbn in Hf. subst. by eexists. }
  destruct Ha as (x & E & Hx). erewrite bind_Ret by exact E. cbv beta iota.
  erewrite bind_Ret by exact (rw_format_run (Req b blk w 0 1 2) x).
  erewrite bind_Ret by (apply vrelease_ok; exact Hx). by eexists.
Qed.

(** ** The invariant *)

Record plive (s : psys) (qa qu qd : list Z) : Prop := {
  pl_inv : vinv (pv s) (inflight s) qa qu qd;
  pl_lock : v_lock (pv s) = false;
  pl_nodup : NoDup (buffers s);
  pl_range : forall b, b ∈ buffers s -> 0 <= b < NBUF;
  pl_blk : forall j, j ∈ starting s ++ parked s -> 0 <= j_blk j < 2 ^ 31;
  pl_asleep : forall r, r ∈ asleep s -> q0 r ∉ qd;
  pl_woken : forall r, r ∈ woken s -> q0 r ∈ qd;
  pl_irq : qu <> [] -> Z.land (irq_status (pv s)) 3 <> 0;
  pl_parked : parked s <> [] -> inflight s <> []
}.

(** What is left to do: every step that is not a retry takes some of it. *)
Definition pending (v : vst) : nat := if Z.land (irq_status v) 3 =? 0 then 0 else 1.
Definition work (s : psys) (qa qu qd : list Z) : nat :=
  10 * length (starting s ++ parked s) + 8 * length qa + 6 * length (v_fetched (pv s)) + 4 * length qu + 2 * length qd + pending (pv s).

Lemma chan_free_buffer s qa qu qd b : plive s qa qu qd -> b ∈ buffers s -> b <> chan_free.
Proof. intros Hp Hb ->. apply (pl_range _ _ _ _ Hp) in Hb. unfold chan_free, NBUF, MAXOPBLOCKS in Hb. lia. Qed.

Lemma flight_buffer s r : r ∈ inflight s -> q_b r ∈ buffers s.
Proof. intros Hr. apply elem_of_app. right. by apply list_elem_of_fmap_2. Qed.

Lemma wake_free k v st pk sl wk : (forall r, r ∈ sl -> q_b r <> chan_free) ->
  wake (repeat chan_free k) (Psys v st pk sl wk) =
    match k with O => Psys v st pk sl wk | _ => Psys v (st ++ pk) [] sl wk end.
Proof.
  intros Hs. unfold wake. cbn [pv starting parked asleep woken].
  assert (Hin : forall r, r ∈ sl -> q_b r ∉ repeat chan_free k).
  { intros r Hr Hc. apply (Hs r Hr). apply list_elem_of_In in Hc. by apply repeat_spec in Hc. }
  assert (H1 : filter (fun r => q_b r ∉ repeat chan_free k) sl = sl /\ filter (fun r => q_b r ∈ repeat chan_free k) sl = []).
  { clear Hs. induction sl as [|r sl IH]; [done|]. destruct IH as [IH1 IH2]; [intros x Hx; apply Hin; by right|].
    rewrite filter_cons_True, filter_cons_False by (apply Hin; left). by rewrite IH1, IH2. }
  destruct H1 as [H1 H2].
  rewrite H1, H2, app_nil_r. destruct k as [|k].
  - rewrite !decide_False by apply not_elem_of_nil. by rewrite app_nil_r.
  - by rewrite !decide_True by (cbn; left).
Qed.

(** ** Every step keeps it *)

(** A step and the work it takes. *)
Definition step_ok (s : psys) (qa qu qd : list Z) (l : plabel) (s' : psys) : Prop :=
  exists qa' qu' qd', plive s' qa' qu' qd' /\
    match l with
    | Called => work s' qa' qu' qd' = (work s qa qu qd + 10)%nat
    | Worked => (work s' qa' qu' qd' < work s qa qu qd)%nat
    | Retried => work s' qa' qu' qd' = work s qa qu qd
    end.

(** The job lists only matter as one. *)
Lemma plive_jobs v v' st pk st' pk' sl wk qa qu qd :
  plive (Psys v st pk sl wk) qa qu qd -> st' ++ pk' ≡ₚ st ++ pk -> (pk' <> [] -> sl ++ wk <> []) ->
  vinv v' (sl ++ wk) qa qu qd -> v_lock v' = false -> irq_status v' = irq_status v ->
  plive (Psys v' st' pk' sl wk) qa qu qd.
Proof.
  intros [P1 P2 P3 P4 P5 P6 P7 P8 P9] Hp Hpk Hi Hl Hq. unfold buffers, inflight in *. cbn [pv starting parked asleep woken] in *.
  split; unfold buffers, inflight; cbn [pv starting parked asleep woken]; try done.
  - by rewrite Hp.
  - intros b. rewrite Hp. apply P4.
  - intros j. rewrite Hp. apply P5.
  - by rewrite Hq.
Qed.

Lemma job_fresh v st j st' pk sl wk qa qu qd :
  plive (Psys v st pk sl wk) qa qu qd -> st ≡ₚ j :: st' -> j_b j ∉ q_b <$> sl ++ wk /\ 0 <= j_blk j < 2 ^ 31.
Proof.
  intros [_ _ P3 _ P5 _ _ _ _] Hst. cbn [starting parked] in *. split.
  - unfold buffers, inflight in P3. cbn [starting parked asleep woken] in P3. apply NoDup_app in P3 as (_ & Hd & _).
    apply Hd. apply list_elem_of_fmap_2, elem_of_app. left. rewrite Hst. left.
  - apply P5, elem_of_app. left. rewrite Hst. left.
Qed.

Lemma step_queue v st j st' pk sl wk i0 i1 i2 v' qa qu qd :
  plive (Psys v st pk sl wk) qa qu qd -> st ≡ₚ j :: st' -> rw_start (j_b j) (j_blk j) (j_w j) v = Ret (Some (i0, i1, i2)) v' ->
  step_ok (Psys v st pk sl wk) qa qu qd Worked (Psys v' st' pk (Req (j_b j) (j_blk j) (j_w j) i0 i1 i2 :: sl) wk).
Proof.
  intros Hp Hst E. destruct (job_fresh _ _ _ _ _ _ _ _ _ _ Hp Hst) as [Hb Hk]. pose proof Hp as [P1 P2 P3 P4 P5 P6 P7 P8 P9].
  unfold buffers, inflight in *. cbn [pv starting parked asleep woken] in *.
  destruct (rw_start_spec _ _ _ _ _ (j_b j) (j_blk j) (j_w j) P1 P2 Hb Hk) as [(v1 & E1 & _)|(r & v1 & R1 & R2 & R3 & E1 & Hi1 & Hl1 & _ & _ & Hf1)];
    rewrite E1 in E; [done|]. injection E as R4 R5 R6 <-.
  assert (r = Req (j_b j) (j_blk j) (j_w j) i0 i1 i2) as <- by (destruct r; cbn in *; congruence).
  assert (Hhd : q0 r ∉ qd).
  { pose proof (heads_nodup _ (vi_nodup _ _ _ _ _ Hi1)) as Hn. rewrite <- (vi_heads _ _ _ _ _ Hi1) in Hn.
    rewrite <- !app_assoc in Hn. apply NoDup_app in Hn as (_ & _ & Hn). cbn in Hn. apply NoDup_cons in Hn as [Hn _]. set_solver. }
  exists (qa ++ [q0 r]), qu, qd. split.
  - split; unfold buffers, inflight; cbn [pv starting parked asleep woken]; try done.
    + rewrite Hst in P3. cbn [app fmap list_fmap] in *. rewrite R1. by rewrite <- Permutation_middle.
    + intros b Hin. apply P4. rewrite Hst. cbn [app fmap list_fmap] in *. rewrite R1 in Hin. set_solver.
    + intros x Hx. apply P5. rewrite Hst. cbn [app]. by right.
    + intros x [->|Hx]%elem_of_cons; [done|by apply P6].
    + intros Hq. rewrite (irq_start _ _ _ _ _ _ E1). by apply P8.
  - unfold work, pending. cbn [pv starting parked]. rewrite (irq_start _ _ _ _ _ _ E1), Hf1. apply Permutation_length in Hst.
    cbn [length] in Hst. rewrite !length_app. cbn [length]. lia.
Qed.

Lemma step_full v st j st' pk sl wk v' qa qu qd :
  plive (Psys v st pk sl wk) qa qu qd -> st ≡ₚ j :: st' -> rw_start (j_b j) (j_blk j) (j_w j) v = Ret None v' ->
  forall st1 pk1, st1 ++ pk1 ≡ₚ st' ++ pk -> step_ok (Psys v st pk sl wk) qa qu qd Retried (Psys v' st1 (j :: pk1) sl wk).
Proof.
  intros Hp Hst E st1 pk1 H1. destruct (job_fresh _ _ _ _ _ _ _ _ _ _ Hp Hst) as [Hb Hk]. pose proof Hp as [P1 P2 _ _ _ _ _ _ _].
  unfold inflight in P1. cbn [pv starting parked asleep woken] in *.
  destruct (rw_start_spec _ _ _ _ _ (j_b j) (j_blk j) (j_w j) P1 P2 Hb Hk) as [(v1 & E1 & Hi1 & Hl1 & _ & _ & Hf1)|(r & v1 & _ & _ & _ & E1 & _)];
    rewrite E1 in E; [|done]. injection E as <-.
  assert (Hjobs : st1 ++ j :: pk1 ≡ₚ st ++ pk) by (rewrite <- Permutation_middle, H1, Hst; done).
  exists qa, qu, qd. split.
  - apply (plive_jobs v v1 st pk); try done; [|by apply (irq_start _ _ _ _ _ _ E1)].
    intros _ Hnil. rewrite Hnil in P1. pose proof (queue_short _ _ _ _ _ P1) as Hq. cbn [length] in Hq.
    destruct qa, qu, qd; cbn [length] in Hq; try lia.
    destruct (start_idle (j_b j) (j_blk j) (j_w j) v P1 P2) as (v2 & E2). congruence.
  - unfold work, pending. cbn [pv starting parked]. by rewrite (irq_start _ _ _ _ _ _ E1), Hf1, Hjobs.
Qed.

Lemma plive_device v v' st pk sl wk qa qu qd qa' qu' :
  plive (Psys v st pk sl wk) qa qu qd -> vinv v' (sl ++ wk) qa' qu' qd -> v_lock v' = false ->
  (qu' <> [] -> Z.land (irq_status v') 3 <> 0) -> plive (Psys v' st pk sl wk) qa' qu' qd.
Proof. intros [P1 P2 P3 P4 P5 P6 P7 P8 P9] Hi Hl Hq. by split. Qed.

Lemma step_fetch v st pk sl wk v' qa qu qd :
  plive (Psys v st pk sl wk) qa qu qd -> dev_fetch v = Some v' ->
  step_ok (Psys v st pk sl wk) qa qu qd Worked (Psys v' st pk sl wk).
Proof.
  intros Hp E. pose proof Hp as [P1 P2 _ _ _ _ _ P8 _]. unfold inflight in P1. cbn [pv asleep woken] in *.
  pose proof (dev_fetch_spec v _ qa qu qd P1) as Hf. destruct qa as [|h qa]; [congruence|].
  destruct Hf as (v1 & E1 & Hi1 & Hl1 & Hf1 & _). rewrite E1 in E. injection E as <-.
  assert (Hirq : irq_status v1 = irq_status v).
  { unfold dev_fetch in E1. destruct (_ =? _); [done|]. by injection E1 as <-. }
  exists qa, qu, qd. split.
  - eapply plive_device; [exact Hp|done|congruence|]. intros Hq. rewrite Hirq. by apply P8.
  - unfold work, pending. cbn [pv starting parked]. rewrite Hirq, Hf1, !length_app. cbn [length]. lia.
Qed.

Lemma lor_1_3 x : Z.land (Z.lor x 1) 3 <> 0.
Proof.
  intros Hc. assert (Hb : Z.testbit (Z.land (Z.lor x 1) 3) 0 = true) by (rewrite Z.land_spec, Z.lor_spec; by rewrite orb_true_r).
  by rewrite Hc in Hb.
Qed.

Lemma step_transfer v st pk sl wk r l1 l2 v' qa qu qd :
  plive (Psys v st pk sl wk) qa qu qd -> v_fetched v = l1 ++ q0 r :: l2 -> r ∈ sl ++ wk ->
  dev_complete 0 (q0 r) (set_v_dev (v_dev_idx v) (l1 ++ l2) v) = Some v' ->
  step_ok (Psys v st pk sl wk) qa qu qd Worked (Psys v' st pk sl wk).
Proof.
  intros Hp Hf Hr E. pose proof Hp as [P1 P2 _ _ _ _ _ _ _]. unfold inflight in P1. cbn [pv asleep woken] in *.
  destruct (dev_complete_spec v _ qa qu qd (q0 r) l1 l2 P1 Hf) as (r' & v1 & _ & _ & E1 & Hi1 & Hl1 & Hf1 & _ & _ & Hirq).
  rewrite E1 in E. injection E as <-. pose proof (lor_1_3 (irq_status v)) as Hpos. rewrite <- Hirq in Hpos.
  exists qa, (qu ++ [q0 r]), qd. split; [by eapply plive_device; [exact Hp|done|congruence|]|].
  unfold work, pending. cbn [pv starting parked]. rewrite Hf1, Hf, !length_app. cbn [length].
  destruct (Z.eqb_spec (Z.land (irq_status v1) 3) 0); [done|]. destruct (_ =? _); lia.
Qed.

(** Who an interrupt wakes: those whose requests were on the used ring. *)
Lemma owner_of v rs qa qu qd bs r :
  vinv v rs qa qu qd -> Forall2 (owner rs) qu bs -> r ∈ rs -> q_b r ∈ bs <-> q0 r ∈ qu.
Proof.
  intros Hi Ho Hr. split.
  - intros (i & Hib)%list_elem_of_lookup. destruct (Forall2_lookup_r _ _ _ _ _ Ho Hib) as (h & Hh & r' & Hr' & <- & Hb).
    assert (r' = r) as ->; [|by eapply list_elem_of_lookup_2].
    apply list_elem_of_lookup in Hr as [x Hx]. apply list_elem_of_lookup in Hr' as [y Hy].
    assert (x = y) as ->; [|congruence].
    apply (NoDup_lookup (q_b <$> rs) x y (q_b r) (vi_b _ _ _ _ _ Hi)); rewrite list_lookup_fmap, ?Hx, ?Hy; cbn; congruence.
  - intros (i & Hih)%list_elem_of_lookup. destruct (Forall2_lookup_l _ _ _ _ _ Ho Hih) as (b & Hb & r' & Hr' & Hq & <-).
    assert (r' = r) as -> by (eapply head_inj; eauto). by eapply list_elem_of_lookup_2.
Qed.

Lemma filter_split {A} (P : A -> Prop) `{forall x, Decision (P x)} (l : list A) :
  filter (fun x => ~ P x) l ++ filter P l ≡ₚ l.
Proof.
  induction l as [|x l IH]; [done|]. rewrite !filter_cons. destruct (decide (P x)).
  - rewrite decide_False by tauto. by rewrite <- Permutation_middle, IH.
  - rewrite decide_True by done. cbn. by rewrite IH.
Qed.

Lemma step_intr v st pk sl wk v' qa qu qd :
  plive (Psys v st pk sl wk) qa qu qd -> Z.land (irq_status v) 3 <> 0 -> virtio_disk_intr v = Ret tt v' ->
  step_ok (Psys v st pk sl wk) qa qu qd Worked (wake (news v v') (Psys v' st pk sl wk)).
Proof.
  intros Hp Hirq E. pose proof Hp as [P1 P2 P3 P4 P5 P6 P7 P8 P9]. unfold buffers, inflight in *. cbn [pv starting parked asleep woken] in *.
  destruct (virtio_disk_intr_spec v _ qa qu qd P1 P2) as (v1 & bs & E1 & Hi1 & Hl1 & (_ & _ & Hf1) & Hw & Ho & Hq). rewrite E1 in E. injection E as <-.
  assert (Hn : news v v1 = bs) by (unfold news; by rewrite Hw, drop_app_length). rewrite Hn.
  assert (Hcf : chan_free ∉ bs).
  { intros (i & Hib)%list_elem_of_lookup. destruct (Forall2_lookup_r _ _ _ _ _ Ho Hib) as (h & _ & r & Hr & _ & Hb).
    apply (chan_free_buffer _ _ _ _ (q_b r) Hp); [by apply flight_buffer|done]. }
  unfold wake. cbn [pv starting parked asleep woken]. rewrite !decide_False by done. rewrite app_nil_r.
  assert (Hfl : filter (fun r => q_b r ∉ bs) sl ++ (wk ++ filter (fun r => q_b r ∈ bs) sl) ≡ₚ sl ++ wk).
  { rewrite (Permutation_app_comm wk), app_assoc. by rewrite (filter_split (fun r => q_b r ∈ bs) sl). }
  exists qa, [], (qd ++ qu). split.
  - split; unfold buffers, inflight; cbn [pv starting parked asleep woken]; try done.
    + by eapply vinv_perm.
    + by rewrite Hfl.
    + intros b. rewrite Hfl. apply P4.
    + intros r [Hb Hr]%list_elem_of_filter. rewrite not_elem_of_app. split; [by apply P6|]. intros Hin. apply Hb.
      apply (owner_of v _ qa qu qd bs r P1 Ho); [set_solver|done].
    + intros r [Hr|[Hb Hr]%list_elem_of_filter]%elem_of_app; apply elem_of_app; [left; by apply P7|right].
      apply (owner_of v _ qa qu qd bs r P1 Ho); [set_solver|done].
    + intros Hpk Hnil. apply (P9 Hpk). apply Permutation_nil. by rewrite <- Hfl, Hnil.
  - unfold work, pending. cbn [pv starting parked]. rewrite Hf1, !length_app, Hq. cbn [length Z.eqb].
    destruct (Z.eqb_spec (Z.land (irq_status v) 3) 0); [done|]. lia.
Qed.

Lemma step_return v st pk sl wk r wk' v' qa qu qd :
  plive (Psys v st pk sl wk) qa qu qd -> wk ≡ₚ r :: wk' -> rw_finish (q_b r) (q0 r) v = Ret true v' ->
  step_ok (Psys v st pk sl wk) qa qu qd Worked (wake (news v v') (Psys v' st pk sl wk')).
Proof.
  intros Hp Hwk E. pose proof Hp as [P1 P2 P3 P4 P5 P6 P7 P8 P9].
  assert (Hr : r ∈ sl ++ wk) by (rewrite Hwk; set_solver).
  destruct (wakes_finish _ _ _ _ E) as (k & Hk). rewrite Hk, wake_free.
  2:{ intros x Hx. apply (chan_free_buffer _ _ _ _ (q_b x) Hp). apply flight_buffer. unfold inflight. cbn. set_solver. }
  unfold buffers, inflight in *. cbn [pv starting parked asleep woken] in *. pose proof (irq_finish _ _ _ _ _ E) as Hirq.
  destruct (rw_finish_spec v _ qa qu qd r P1 P2 Hr) as [[Hn _]|(rs' & qd' & v1 & Hrs & Hqd & E1 & Hi1 & Hl1 & _ & _ & Hf1)].
  { destruct Hn. apply P7. rewrite Hwk. left. }
  rewrite E1 in E. injection E as <-.
  assert (Hrs' : rs' ≡ₚ sl ++ wk').
  { apply (Permutation_cons_inv (a := r)). rewrite <- Hrs, Hwk. by rewrite <- Permutation_middle. }
  assert (Hne : forall x, x ∈ sl ++ wk' -> q0 x <> q0 r).
  { pose proof (heads_nodup _ (vi_nodup _ _ _ _ _ P1)) as Hn. rewrite Hwk, <- Permutation_middle in Hn. cbn in Hn.
    apply NoDup_cons in Hn as [Hn _]. intros x Hx Hc. apply Hn. rewrite <- Hc. by apply list_elem_of_fmap_2. }
  exists qa, qu, qd'. split.
  - split; unfold buffers, inflight; cbn [pv starting parked asleep woken]; rewrite ?app_nil_r; try done.
    + by eapply vinv_perm; [exact Hi1| |].
    + rewrite Hwk, <- (Permutation_middle sl) in P3. cbn [fmap list_fmap] in P3. rewrite <- Permutation_middle in P3. by apply NoDup_cons in P3 as [_ P3].
    + intros b Hb. apply P4. rewrite Hwk, <- (Permutation_middle sl). cbn [fmap list_fmap]. rewrite <- Permutation_middle. by right.
    + intros x Hx Hin. apply (P6 x Hx). rewrite Hqd. by right.
    + intros x Hx. assert (Hin : q0 x ∈ qd) by (apply P7; rewrite Hwk; by right). rewrite Hqd in Hin.
      apply elem_of_cons in Hin as [Hc|Hin]; [|done]. destruct (Hne x); [set_solver|done].
    + by rewrite Hirq.
  - unfold work, pending. cbn [pv starting parked]. rewrite Hirq, Hf1, app_nil_r. apply Permutation_length in Hqd. cbn [length] in Hqd. lia.
Qed.

Lemma step_keeps s qa qu qd l s' : plive s qa qu qd -> pstep s l s' -> step_ok s qa qu qd l s'.
Proof.
  intros Hp Hst. destruct Hst as [s j Hb Hr Hk|v st j st' pk sl wk i0 i1 i2 v' Hst E s1|v st j st' pk sl wk v' Hst E s1|v st pk sl wk v' E
    |v st pk sl wk r l1 l2 v' Hf Hr E|v st pk sl wk v' Hq E|v st pk sl wk r wk' v' Hwk E|v st pk sl wk r wk' v' Hwk E].
  - destruct Hp as [P1 P2 P3 P4 P5 P6 P7 P8 P9]. exists qa, qu, qd. split; [|unfold work; cbn [pv starting parked]; cbn [app length]; lia].
    split; cbn [pv starting parked asleep woken]; try done.
    + by constructor.
    + intros b [->|Hin]%elem_of_cons; [done|by apply P4].
    + intros x [->|Hin]%elem_of_cons; [done|by apply P5].
  - destruct (wakes_start _ _ _ _ _ _ E) as (k & Hk & Hz). assert (k = 0%nat) as -> by (by apply Hz). unfold s1. rewrite Hk, wake_free.
    + by apply step_queue.
    + intros x Hx. apply (chan_free_buffer _ _ _ _ (q_b x) Hp), flight_buffer. unfold inflight. cbn. set_solver.
  - destruct (wakes_start _ _ _ _ _ _ E) as (k & Hk & _). unfold s1. rewrite Hk, wake_free.
    + destruct k; cbn [starting parked asleep woken]; (eapply step_full; [exact Hp|exact Hst|exact E|]); [done|by rewrite app_nil_r].
    + intros x Hx. apply (chan_free_buffer _ _ _ _ (q_b x) Hp), flight_buffer. unfold inflight. cbn. set_solver.
  - by apply step_fetch.
  - by eapply step_transfer.
  - by apply step_intr.
  - by eapply step_return.
  - exfalso. pose proof Hp as [P1 P2 _ _ _ _ P7 _ _]. cbn in *.
    assert (Hr : r ∈ sl ++ wk) by (rewrite Hwk; set_solver).
    destruct (rw_finish_spec v _ qa qu qd r P1 P2 Hr) as [[Hn _]|(rs' & qd' & v1 & _ & _ & E1 & _)]; [|congruence].
    destruct Hn. apply P7. rewrite Hwk. left.
Qed.

(** ** Some step is always possible *)

Lemma progress s qa qu qd : plive s qa qu qd -> idle s \/ exists s', pstep s Worked s'.
Proof.
  intros Hp. pose proof Hp as [P1 P2 _ _ _ P6 _ P8 P9]. destruct s as [v st pk sl wk].
  unfold idle, inflight in *. cbn [pv starting parked asleep woken] in *. pose proof (vi_heads _ _ _ _ _ P1) as Hh.
  destruct qa as [|h qa].
  2:{ destruct (dev_fetch_spec v _ _ qu qd P1) as (v1 & E & _). right. eexists. by apply p_fetch. }
  destruct (v_fetched v) as [|h l] eqn:Hf.
  2:{ destruct (dev_complete_spec v _ [] qu qd h [] l P1 Hf) as (r & v1 & Hr & <- & E & _). right. eexists. by eapply (p_transfer _ _ _ _ _ r []). }
  destruct qu as [|h qu].
  2:{ destruct (virtio_disk_intr_spec v _ [] _ qd P1 P2) as (v1 & bs & E & _). right. eexists. apply p_intr; [by apply P8|exact E]. }
  destruct qd as [|h qd].
  - apply Permutation_nil in Hh. apply fmap_nil_inv in Hh. rewrite Hh in P1, P9.
    assert (pk = []) as -> by (destruct pk; [done|by destruct P9]).
    destruct st as [|j st]; [by left|right]. destruct (start_idle (j_b j) (j_blk j) (j_w j) v P1 P2) as (v1 & E).
    eexists. by eapply (p_queue v _ j st).
  - assert (Hin : h ∈ q0 <$> sl ++ wk) by (rewrite <- Hh; left). apply list_elem_of_fmap in Hin as (r & -> & Hr).
    destruct (rw_finish_spec v _ [] [] _ r P1 P2 Hr) as [[Hn _]|(rs' & qd' & v1 & _ & _ & E & _)]; [destruct Hn; left|].
    apply elem_of_app in Hr as [Hr|Hr]; [destruct (P6 r Hr); left|]. apply elem_of_Permutation in Hr as (wk' & Hw).
    right. eexists. by eapply p_return.
Qed.

(** ** A device that reports an error *)

Lemma intr_loop_bad fuel : forall v qu h,
  (length qu < fuel)%nat -> ring_ok (v_used v) (v_used_idx v) (v_used_ring_idx v) (qu ++ [h]) ->
  in_status (nthZ vinfo0 (v_info v) h) <> 0 -> exists v', intr_loop fuel v = Panic "virtio_disk_intr status" v'.
Proof.
  induction fuel as [|fuel IH]; intros v qu h Hf Hu Hs; [lia|]. cbn [intr_loop]. erewrite bind_Ret by reflexivity.
  rewrite (ring_empty _ _ _ _ Hu), bool_decide_false by (by destruct qu).
  destruct qu as [|x qu]; cbn [app] in Hu; destruct (ring_pop _ _ _ _ _ Hu) as [-> Hu'].
  - destruct (Z.eqb_spec (in_status (nthZ vinfo0 (v_info v) h)) 0); [done|]. by eexists.
  - destruct (negb _); [by eexists|]. do 3 erewrite bind_Ret by reflexivity.
    apply (IH _ qu h); [cbn in Hf; lia|exact Hu'|exact Hs].
Qed.

Lemma intr_bad v rs qa qu qd r l1 l2 status v' :
  vinv v rs qa qu qd -> v_lock v = false -> r ∈ rs -> v_fetched v = l1 ++ q0 r :: l2 -> status <> 0 ->
  dev_complete status (q0 r) (set_v_dev (v_dev_idx v) (l1 ++ l2) v) = Some v' ->
  v_platter v' = v_platter v /\ v_bdata v' = v_bdata v /\
  exists v'', virtio_disk_intr v' = Panic "virtio_disk_intr status" v''.
Proof.
  intros Hi Hl Hr Hft Hst. destruct (vi_req _ _ _ _ _ Hi r Hr) as [Hd0 Hd1 Hd2 Hop _ _].
  pose proof (few_requests _ _ _ _ _ Hi) as Hfew. pose proof (queue_short _ _ _ _ _ Hi) as Hq.
  assert (Hrr : 0 <= q0 r < NUM). { apply (vi_range _ _ _ _ _ Hi), elem_of_taken. exists r. split; [done|]. left. }
  destruct (vi_len _ _ _ _ _ Hi) as (_ & _ & Hz & _). rewrite Hft, length_app in Hq. cbn [length] in Hq.
  unfold dev_complete. cbn [v_desc v_ops v_info set_v_dev v_platter v_bdata v_used v_used_ring_idx].
  rewrite Hd0. cbn [d_next d_addr]. rewrite Hd1. cbn [d_next d_addr]. rewrite Hd2. cbn [d_addr].
  rewrite Hop, req_chain_ok. cbn [r_type r_sector negb]. destruct (Z.eqb_spec status 0) as [|_]; [done|]. cbn [negb].
  intros [= <-]. split; [done|]. split; [done|]. unfold virtio_disk_intr.
  erewrite bind_Ret by (by apply vacquire_ok). erewrite bind_Ret by reflexivity.
  match goal with |- context [(intr_loop ?n ;; _) ?x] => destruct (intr_loop_bad n x qu (q0 r)) as (v2 & E) end.
  - unfold NUM. lia.
  - cbn. apply ring_push; [exact (vi_used _ _ _ _ _ Hi)|]. unfold zlen, NUM. lia.
  - cbn. rewrite nthZ_updZ_eq by lia. done.
  - exists v2. unfold bind. by rewrite E.
Qed.

(** ** From initialisation on *)

Lemma init_irq hw mem p d v : virtio_disk_init hw (vboot mem p d) = Ret tt v -> irq_status v = 0.
Proof.
  unfold virtio_disk_init. intros H. repeat first [init_if H | init_step H].
  unfold Rset, modify in H. injection H as <-. reflexivity.
Qed.

Lemma init_plive hw mem p d v : virtio_disk_init hw (vboot mem p d) = Ret tt v ->
  plive (Psys v [] [] [] []) [] [] [] /\ work (Psys v [] [] [] []) [] [] [] = 0%nat.
Proof.
  intros H. destruct (virtio_disk_init_spec _ _ _ _ _ H) as (Hi & Hl & _). split.
  - split; cbn; try done; try (by apply NoDup_nil_2); intros x Hx; by apply not_elem_of_nil in Hx.
  - unfold work, pending. cbn [pv starting parked app length]. rewrite (init_irq _ _ _ _ _ H). cbn [Z.land Z.eqb].
    pose proof (queue_short _ _ _ _ _ Hi) as Hq. cbn [length] in Hq. assert (Hz : length (v_fetched v) = 0%nat) by lia. by rewrite Hz.
Qed.

Lemma run_live s0 ls s : psteps s0 ls s -> forall qa qu qd, plive s0 qa qu qd ->
  exists qa' qu' qd', plive s qa' qu' qd' /\
    (work s qa' qu' qd' + count Worked ls <= work s0 qa qu qd + 10 * count Called ls)%nat.
Proof.
  induction 1 as [s|s ls s1 l s2 H IH Hl]; intros qa qu qd Hp; [exists qa, qu, qd; split; [done|]; unfold count; cbn [length filter list_filter]; lia|].
  destruct (IH qa qu qd Hp) as (qa1 & qu1 & qd1 & Hp1 & Hw1). destruct (step_keeps _ _ _ _ _ _ Hp1 Hl) as (qa2 & qu2 & qd2 & Hp2 & Hw2).
  exists qa2, qu2, qd2. split; [done|]. rewrite !count_snoc. destruct l; repeat case_decide; first [congruence|lia].
Qed.

(** C23: virtio_disk_rw() always finishes.  Processes sleep in it for free
    descriptors and for their buffer, run again only after a wakeup() on the
    channel they sleep on, and the interrupt handler runs only when the device
    has raised the interrupt.  In every run from initialisation on, with any
    number of callers and a device that reports success, (1) the steps that
    are not failed attempts are at most ten per call; (2) as long as some call
    has not returned one of them is possible, so no wakeup is ever lost and no
    interrupt forgotten; (3) the driver's code never panics: a process that is
    to allocate descriptors, one that is woken with its request carried out,
    and the handler all run to their ends.  (4) If the device reports an error
    for a request, nothing is transferred and the handler panics with the
    driver's message. *)
Theorem virtio_live hw mem p d v ls s :
  virtio_disk_init hw (vboot mem p d) = Ret tt v -> psteps (Psys v [] [] [] []) ls s ->
  (count Worked ls <= 10 * count Called ls)%nat /\
  (idle s \/ exists s', pstep s Worked s') /\
  (forall j, j ∈ starting s -> exists o v', rw_start (j_b j) (j_blk j) (j_w j) (pv s) = Ret o v') /\
  (forall r, r ∈ woken s -> exists v', rw_finish (q_b r) (q0 r) (pv s) = Ret true v') /\
  (exists v', virtio_disk_intr (pv s) = Ret tt v') /\
  (forall status r l1 l2 v', status <> 0 -> r ∈ inflight s -> v_fetched (pv s) = l1 ++ q0 r :: l2 ->
     dev_complete status (q0 r) (set_v_dev (v_dev_idx (pv s)) (l1 ++ l2) (pv s)) = Some v' ->
     v_platter v' = v_platter (pv s) /\ v_bdata v' = v_bdata (pv s) /\
     exists v'', virtio_disk_intr v' = Panic "virtio_disk_intr status" v'').
Proof.
  intros Hv Hs. destruct (init_plive _ _ _ _ _ Hv) as [Hp0 Hw0].
  destruct (run_live _ _ _ Hs _ _ _ Hp0) as (qa & qu & qd & Hp & Hw). pose proof Hp as [P1 P2 _ _ _ _ P7 _ _].
  split; [lia|]. split; [by eapply progress|]. split_and!.
  - intros j Hj. destruct s as [v1 st pk sl wk]. cbn [starting pv] in *. apply elem_of_Permutation in Hj as (st' & Hst).
    destruct (job_fresh _ _ _ _ _ _ _ _ _ _ Hp Hst) as [Hb Hk].
    destruct (rw_start_spec v1 _ _ _ _ (j_b j) (j_blk j) (j_w j) P1 P2 Hb Hk) as [(v2 & E & _)|(r & v2 & _ & _ & _ & E & _)]; eauto.
  - intros r Hr. assert (Hin : r ∈ inflight s) by (apply elem_of_app; by right).
    destruct (rw_finish_spec _ _ _ _ _ r P1 P2 Hin) as [[Hn _]|(rs' & qd' & v1 & _ & _ & E & _)]; [|by eauto].
    destruct Hn. by apply P7.
  - destruct (virtio_disk_intr_spec _ _ _ _ _ P1 P2) as (v1 & bs & E & _). eauto.
  - intros status r l1 l2 v' Hst Hr Hf E. by eapply intr_bad.
Qed.

(** One call that has queued its request. *)
Lemma demo_run : exists v s, virtio_disk_init demo_hw (vboot demo_mem ∅ ∅) = Ret tt v /\
  psteps (Psys v [] [] [] []) [Called; Worked] s /\ length (asleep s) = 1%nat.
Proof.
  destruct demo_call as (v & _ & Hv & _).
  destruct (virtio_disk_init_spec _ _ _ _ _ Hv) as (Hi & Hl & _). destruct (start_idle 3 7 true v Hi Hl) as (v1 & E).
  do 2 eexists. split; [exact Hv|]. split.
  - eapply (psteps_snoc _ [Called]); [eapply (psteps_snoc _ []); [constructor|]|].
    + apply (p_call (Psys v [] [] [] []) (Job 3 7 true)); cbn; [apply not_elem_of_nil|unfold NBUF, MAXOPBLOCKS; lia|lia].
    + by eapply (p_queue v [Job 3 7 true] (Job 3 7 true) []).
  - reflexivity.
Qed.

Lemma virtio_live_witness : exists s, ~ idle s /\ exists s', pstep s Worked s'.
Proof.
  destruct demo_run as (v & s & Hv & Hs & Hl). exists s.
  assert (Hn : ~ idle s). { intros (_ & _ & Hi). unfold inflight in Hi. apply app_nil in Hi as [Hi _]. by rewrite Hi in Hl. }
  split; [exact Hn|]. destruct (virtio_live demo_hw demo_mem ∅ ∅ v _ s Hv Hs) as (_ & [Hi|Hw] & _); [contradiction|exact Hw].
Defined.
