(* ===== verification/User.v ===== *)
(** * User programs and their world

    A user program is a state transformer over what it sees of the system:
    open files to read from and write to, files by name, and how many bytes
    each read() is willing to return.  The system calls behave as the kernel's
    do for these descriptors: read() returns between 1 and n bytes, 0 at the
    end, -1 on a bad descriptor; write() takes everything or fails; open()
    takes the lowest free descriptor; exit() ends the program. *)

From Stdlib Require Import ZArith Lia.
From stdpp Require Import base numbers list list_numbers gmap strings.
From S2P Require Import Prelude Cstring.

Record world := World {
  w_in : gmap Z (list Z);          (** bytes still to be read from a descriptor *)
  w_out : gmap Z (list Z);         (** bytes written to a descriptor *)
  w_files : gmap (list Z) (list Z);
  w_chunk : nat -> Z;              (** how much the k-th read() returns at most *)
  w_reads : nat
}.

Definition set_w_in x (w : world) := World x (w_out w) (w_files w) (w_chunk w) (w_reads w).
Definition set_w_out x (w : world) := World (w_in w) x (w_files w) (w_chunk w) (w_reads w).
Definition set_w_reads x (w : world) := World (w_in w) (w_out w) (w_files w) (w_chunk w) x.

(** Running: still going with a value, or exited with a status. *)
Inductive res (A : Type) := Going (a : A) | Exited (status : Z).
Arguments Going {A} a.
Arguments Exited {A} status.

Definition U (A : Type) : Type := world -> res A * world.
Definition uret {A} (a : A) : U A := fun w => (Going a, w).
Definition ubind {A B} (m : U A) (k : A -> U B) : U B := fun w =>
  match m w with
  | (Going a, w') => k a w'
  | (Exited st, w') => (Exited st, w')
  end.
Definition exit {A} (status : Z) : U A := fun w => (Exited status, w).

Declare Scope user_scope.
Delimit Scope user_scope with user.
Notation "'let!' x := m 'in' k" := (ubind m (fun x => k))
  (at level 200, x name, m at level 100, k at level 200, right associativity) : user_scope.
Notation "m >> k" := (ubind m (fun _ => k)) (at level 100, k at level 200, right associativity) : user_scope.
#[global] Open Scope user_scope.

(** ** System calls *)

(** At least one byte, at most [n]. *)
Definition grant (w : world) (n : Z) : Z := Z.min n (Z.max 1 (w_chunk w (w_reads w))).

Definition read (fd n : Z) : U (Z * list Z) := fun w =>
  match w_in w !! fd with
  | None => (Going (-1, []), w)
  | Some c =>
      let k := Z.to_nat (grant w n) in
      (Going (zlen (take k c), take k c), set_w_reads (S (w_reads w)) (set_w_in (<[fd := drop k c]> (w_in w)) w))
  end.

Definition write (fd : Z) (bs : list Z) : U Z := fun w =>
  match w_out w !! fd with
  | None => (Going (-1), w)
  | Some o => (Going (zlen bs), set_w_out (<[fd := o ++ bs]> (w_out w)) w)
  end.

(** The lowest free descriptor below NOFILE. *)
Fixpoint free_fd (n : nat) (fd : Z) (w : world) : option Z :=
  match n with
  | O => None
  | S k => if bool_decide (w_in w !! fd = None /\ w_out w !! fd = None) then Some fd else free_fd k (fd + 1) w
  end.

(** open(name, O_RDONLY). *)
Definition open (name : list Z) : U Z := fun w =>
  match w_files w !! name, free_fd 16 0 w with
  | Some c, Some fd => (Going fd, set_w_in (<[fd := c]> (w_in w)) w)
  | _, _ => (Going (-1), w)
  end.

Definition close (fd : Z) : U Z := fun w =>
  (Going 0, set_w_in (delete fd (w_in w)) (set_w_out (delete fd (w_out w)) w)).

Lemma ubind_Going {A B} (m : U A) (k : A -> U B) w a w' : m w = (Going a, w') -> ubind m k w = k a w'.
Proof. unfold ubind. by intros ->. Qed.

Lemma grant_pos w n : 0 < n -> 1 <= grant w n <= n.
Proof. unfold grant. lia. Qed.

(** A read gets a non-empty piece of what is left, or nothing at the end. *)
Lemma read_run fd n w c : w_in w !! fd = Some c -> 0 < n ->
  exists d c', read fd n w = (Going (zlen d, d), set_w_reads (S (w_reads w)) (set_w_in (<[fd := c']> (w_in w)) w)) /\
    c = d ++ c' /\ zlen d <= n /\ (c <> [] -> d <> []).
Proof.
  intros Hc Hn. unfold read. rewrite Hc. exists (take (Z.to_nat (grant w n)) c), (drop (Z.to_nat (grant w n)) c).
  pose proof (grant_pos w n Hn). split_and!; try done.
  - by rewrite take_drop.
  - unfold zlen. rewrite length_take. lia.
  - destruct c; [done|]. intros _. destruct (Z.to_nat (grant w n)) eqn:E; [lia|]. done.
Qed.

Lemma write_run fd bs w o : w_out w !! fd = Some o -> write fd bs w = (Going (zlen bs), set_w_out (<[fd := o ++ bs]> (w_out w)) w).
Proof. intros H. unfold write. by rewrite H. Qed.
