(* ===== verification/Ulib.v ===== *)
(** * The user library (user/ulib.c)

    C strings are byte lists without their NUL; memory functions work on byte
    memory. *)

From Stdlib Require Import ZArith Lia.
From stdpp Require Import base numbers list list_numbers gmap strings.
From S2P Require Import Prelude Cstring User.

Module Ulib.
(** The copy, with the NUL, at [s]. *)
Fixpoint strcpy (m : mem) (s : Z) (t : list Z) : mem :=
  match t with
  | [] => store8 m s 0
  | c :: t' => strcpy (store8 m s c) (s + 1) t'
  end.

Fixpoint strcmp (p q : list Z) : Z :=
  match p, q with
  | [], [] => 0
  | [], y :: _ => 0 - u8 y
  | x :: _, [] => u8 x - 0
  | x :: p', y :: q' => if x =? y then strcmp p' q' else u8 x - u8 y
  end.

Fixpoint strlen (s : list Z) : Z :=
  match s with
  | [] => 0
  | _ :: s' => u32 (strlen s' + 1)
  end.

Fixpoint memset_loop (m : mem) (dst c : Z) (i : Z) (k : nat) : mem :=
  match k with
  | O => m
  | S k' => memset_loop (store8 m (dst + i) c) dst c (i + 1) k'
  end.
Definition memset (m : mem) (dst c n : Z) : mem := memset_loop m dst c 0 (Z.to_nat n).

(** The rest of the string from the first [c], None for 0. *)
Fixpoint strchr (s : list Z) (c : Z) : option (list Z) :=
  match s with
  | [] => None
  | x :: s' => if x =? c then Some s else strchr s' c
  end.

(** gets(buf, max): the bytes stored, without the NUL. *)
Fixpoint gets_loop (fuel : nat) (i max : Z) : U (list Z) :=
  match fuel with
  | O => uret []
  | S k =>
      if i + 1 <? max then
        let! r := read 0 1 in
        if fst r <? 1 then uret []
        else
          let c := nthZ 0 (snd r) 0 in
          if (c =? 10) || (c =? 13) then uret [c]
          else let! cs := gets_loop k (i + 1) max in uret (c :: cs)
      else uret []
  end.
Definition gets (max : Z) : U (list Z) := gets_loop (Z.to_nat max) 0 max.

Fixpoint atoi_loop (s : list Z) (n : Z) : Z :=
  match s with
  | [] => n
  | c :: s' => if (48 <=? c) && (c <=? 57) then atoi_loop s' (s32 (n * 10 + c - 48)) else n
  end.
Definition atoi (s : list Z) : Z := atoi_loop s 0.

Definition memmove (m : mem) (dst src n : Z) : mem :=
  if dst <? src then move_up m dst src (Z.to_nat n) else move_down m (dst + n) (src + n) (Z.to_nat n).

Fixpoint memcmp_loop (m : mem) (p1 p2 : Z) (n : nat) : Z :=
  match n with
  | O => 0
  | S k =>
      if load8 m p1 =? load8 m p2 then memcmp_loop m (p1 + 1) (p2 + 1) k
      else load8 m p1 - load8 m p2
  end.
Definition memcmp (m : mem) (s1 s2 n : Z) : Z := memcmp_loop m s1 s2 (Z.to_nat n).

Definition memcpy (m : mem) (dst src n : Z) : mem := memmove m dst src (s32 n).

(** *** Random numbers *)

Definition RAND_MAX : Z := 0x7ffffffd.

(** The new context and the result. *)
Definition do_rand (ctx : Z) : Z * Z :=
  let hi := s64 (ctx / 127773) in
  let lo := s64 (ctx mod 127773) in
  let x := s64 (16807 * lo - 2836 * hi) in
  let x := if x <? 0 then s64 (x + 0x7fffffff) else x in
  (u64 x, s32 (x - 1)).

Definition rand (next_rand : Z) : Z * Z := do_rand next_rand.
Definition srand (seed : Z) : Z := seed mod 0x7ffffffe + 1.
Definition rand_r (state : Z) : Z * Z :=
  let val := state mod 0x7ffffffe + 1 in
  let '(val, r) := do_rand val in
  (u32 (val - 1), r).

Definition abs (x : Z) : Z := if x <? 0 then s32 (- x) else x.
End Ulib.

(** ** The generator is the minimal standard one *)

Lemma s64_small z : - 2 ^ 63 <= z < 2 ^ 63 -> s64 z = z.
Proof. change (2 ^ 63) with 9223372036854775808. intros. word. Qed.

(** Schrage's identity: the product modulo 2^31 - 1 without overflow. *)
Lemma schrage x : 0 < x < 2147483647 ->
  let y := 16807 * (x mod 127773) - 2836 * (x / 127773) in
  - 2147483647 < y < 2147483647 /\ (16807 * x) mod 2147483647 = if y <? 0 then y + 2147483647 else y.
Proof.
  intros Hx y. assert (Hy : y = 16807 * x - 2147483647 * (x / 127773)) by (unfold y; Z.div_mod_to_equations; lia).
  assert (Hr : - 2147483647 < y < 2147483647) by (unfold y; Z.div_mod_to_equations; lia). split; [done|].
  destruct (Z.ltb_spec y 0).
  - symmetry. apply Z.mod_unique with (x / 127773 - 1); lia.
  - symmetry. apply Z.mod_unique with (x / 127773); lia.
Qed.

(** 16807 is invertible modulo the prime 2^31 - 1. *)
Lemma minstd_nonzero x : 0 < x < 2147483647 -> 0 < (16807 * x) mod 2147483647.
Proof.
  intros Hx. assert (H0 : (16807 * x) mod 2147483647 <> 0).
  { intros E. assert (Hi : (1407677000 * (16807 * x)) mod 2147483647 = 0) by (rewrite Zmult_mod, E, Z.mul_0_r; done).
    replace (1407677000 * (16807 * x)) with (x + (x * 11017) * 2147483647) in Hi by lia.
    rewrite Z_mod_plus_full, Z.mod_small in Hi; lia. }
  pose proof (Z.mod_pos_bound (16807 * x) 2147483647). lia.
Qed.

Lemma do_rand_minstd ctx : 1 <= ctx <= 2147483646 ->
  let x := (16807 * ctx) mod 2147483647 in Ulib.do_rand ctx = (x, x - 1) /\ 1 <= x <= 2147483646.
Proof.
  intros Hc x. destruct (schrage ctx ltac:(lia)) as [Hy E]. fold x in E. pose proof (minstd_nonzero ctx ltac:(lia)) as Hp. fold x in Hp.
  pose proof (Z.mod_pos_bound (16807 * ctx) 2147483647 ltac:(lia)) as Hb. fold x in Hb. split; [|lia].
  unfold Ulib.do_rand. rewrite (s64_small (ctx / 127773)), (s64_small (ctx mod 127773)) by (Z.div_mod_to_equations; lia).
  rewrite (s64_small (16807 * _ - _)) by lia. cbv zeta. change 0x7fffffff with 2147483647.
  set (y := 16807 * (ctx mod 127773) - 2836 * (ctx / 127773)) in *. clearbody y x.
  destruct (Z.ltb_spec y 0).
  - rewrite s64_small by lia. rewrite <- E, u64_small, s32_small by lia. done.
  - rewrite <- E, u64_small, s32_small by lia. done.
Qed.

(** do_rand() is the Park-Miller generator: from a context in [1, 2^31-2]
    the new context is 16807 times it modulo 2^31 - 1, again in that range, and
    the result is one less, so in [0, RAND_MAX]; no intermediate value leaves
    64 bits.  srand() and rand_r() always start from such a context. *)
Theorem rand_minstd (ctx seed : Z) :
  1 <= ctx <= 2147483646 -> 0 <= seed < 2 ^ 32 ->
  let x := (16807 * ctx) mod 2147483647 in
  Ulib.do_rand ctx = (x, x - 1) /\ 1 <= x <= 2147483646 /\ 0 <= x - 1 <= Ulib.RAND_MAX /\
  1 <= Ulib.srand seed <= 2147483646 /\
  exists y, Ulib.rand_r seed = (y, y) /\ y = (16807 * Ulib.srand seed) mod 2147483647 - 1 /\ 0 <= y <= Ulib.RAND_MAX.
Proof.
  intros Hc Hs x. destruct (do_rand_minstd ctx Hc) as [E Hx]. fold x in E, Hx. unfold Ulib.RAND_MAX.
  assert (Hsr : 1 <= Ulib.srand seed <= 2147483646) by (unfold Ulib.srand; Z.div_mod_to_equations; lia).
  split_and!; try done; try lia.
  destruct (do_rand_minstd _ Hsr) as [Er Hy]. unfold Ulib.rand_r. fold (Ulib.srand seed). rewrite Er.
  set (y := (16807 * Ulib.srand seed) mod 2147483647) in *. exists (y - 1). split_and!; try done; try lia.
  f_equal. apply u32_small. lia.
Qed.

Lemma rand_minstd_witness : Ulib.do_rand 2 = (33614, 33613).
Proof. exact (proj1 (rand_minstd 2 7 ltac:(lia) ltac:(lia))). Defined.
