(* ===== verification/Uprintf.v ===== *)
(** * Formatted output (user/printf.c), with the number printing it shares
    with the kernel's printf *)

From Stdlib Require Import ZArith Lia.
From stdpp Require Import base numbers list list_numbers gmap strings.
From S2P Require Import Prelude Cstring Kernel Console User Ulib.

Module Uprintf.
(** "0123456789ABCDEF" *)
Definition digits : list Z := [48; 49; 50; 51; 52; 53; 54; 55; 56; 57; 65; 66; 67; 68; 69; 70].

Definition putc (fd c : Z) : U unit := write fd [u8 c] >> uret tt.

Fixpoint puts (fd : Z) (cs : list Z) : U unit :=
  match cs with
  | [] => uret tt
  | c :: cs' => putc fd c >> puts fd cs'
  end.

(** buf[], filled by the do-while loop. *)
Fixpoint int_digits (fuel : nat) (x base : Z) : list Z :=
  match fuel with
  | O => []
  | S k => nthZ 0 digits (x mod base) :: (if x / base =? 0 then [] else int_digits k (x / base) base)
  end.

Definition printint_buf (xx base : Z) (sgn : bool) : list Z :=
  let neg := sgn && (xx <? 0) in
  let x := if neg then u32 (- xx) else u32 xx in
  int_digits 32 x base ++ (if neg then [45] else []).

Definition printint (fd xx base : Z) (sgn : bool) : U unit := puts fd (rev (printint_buf (s32 xx) base sgn)).

Fixpoint ptr_digits (n : nat) (x : Z) : list Z :=
  match n with
  | O => []
  | S k => nthZ 0 digits (Z.shiftr x (64 - 4)) :: ptr_digits k (u64 (Z.shiftl x 4))
  end.
Definition printptr (fd x : Z) : U unit := putc fd 48 >> putc fd 120 >> puts fd (ptr_digits 16 x).

(** [state] is true after a '%'. *)
Fixpoint vprintf (fd : Z) (fmt : list Z) (ap : list arg) (state : bool) : U unit :=
  match fmt with
  | [] => uret tt
  | c :: fmt' =>
      if negb state then
        if c =? 37 then vprintf fd fmt' ap true
        else putc fd c >> vprintf fd fmt' ap false
      else if c =? 100 then printint fd (va_int ap) 10 true >> vprintf fd fmt' (tail ap) false
      else if c =? 108 then printint fd (va_ptr ap) 10 false >> vprintf fd fmt' (tail ap) false
      else if c =? 120 then printint fd (va_int ap) 16 false >> vprintf fd fmt' (tail ap) false
      else if c =? 112 then printptr fd (va_ptr ap) >> vprintf fd fmt' (tail ap) false
      else if c =? 115 then
        puts fd (match va_str ap with Some s => s | None => null_str end) >> vprintf fd fmt' (tail ap) false
      else if c =? 99 then putc fd (va_int ap) >> vprintf fd fmt' (tail ap) false
      else if c =? 37 then putc fd c >> vprintf fd fmt' ap false
      else putc fd 37 >> putc fd c >> vprintf fd fmt' ap false
  end.

Definition fprintf (fd : Z) (fmt : list Z) (ap : list arg) : U unit := vprintf fd fmt ap false.
Definition printf (fmt : list Z) (ap : list arg) : U unit := vprintf 1 fmt ap false.
End Uprintf.

(** The text printf() writes. *)
Definition text (fmt : list Z) (ap : list arg) : list Z :=
  default [] (w_out (snd (Uprintf.printf fmt ap (World ∅ {[ 1 := [] ]} ∅ (fun _ => 0) 0))) !! 1).

Lemma set_w_out_id fd w o : w_out w !! fd = Some o -> set_w_out (<[fd := o]> (w_out w)) w = w.
Proof. intros H. rewrite insert_id by done. by destruct w. Qed.

(** A piece of output: [m] writes the same bytes whatever the descriptor and
    the world are. *)
Definition prints (m : Z -> U unit) (t : list Z) : Prop := forall fd w o, w_out w !! fd = Some o ->
  m fd w = (Going tt, set_w_out (<[fd := o ++ t]> (w_out w)) w).

Lemma prints_ret : prints (fun _ => uret tt) [].
Proof. intros fd w o Ho. unfold uret. by rewrite app_nil_r, set_w_out_id. Qed.

Lemma prints_app m k t u : prints m t -> prints k u -> prints (fun fd => m fd >> k fd) (t ++ u).
Proof.
  intros Hm Hk fd w o Ho. erewrite ubind_Going by (by apply Hm). rewrite (Hk _ _ (o ++ t)) by (cbn; by rewrite lookup_insert_eq).
  cbn. by rewrite insert_insert_eq, <- app_assoc.
Qed.

Lemma prints_putc c : prints (fun fd => Uprintf.putc fd c) [u8 c].
Proof. intros fd w o Ho. unfold Uprintf.putc. by erewrite ubind_Going by (by apply write_run). Qed.

Lemma prints_puts cs : exists t, prints (fun fd => Uprintf.puts fd cs) t.
Proof.
  induction cs as [|c cs [t IH]]; cbn [Uprintf.puts]; [exists []; apply prints_ret|].
  exists ([u8 c] ++ t). apply (prints_app (fun fd => Uprintf.putc fd c) _); [apply prints_putc|done].
Qed.

Lemma prints_bind m k : (exists t, prints m t) -> (exists u, prints k u) -> exists v, prints (fun fd => m fd >> k fd) v.
Proof. intros [t Hm] [u Hk]. exists (t ++ u). by apply prints_app. Qed.

Lemma prints_vprintf fmt : forall ap st, exists t, prints (fun fd => Uprintf.vprintf fd fmt ap st) t.
Proof.
  assert (Hp : forall c, exists t, prints (fun fd => Uprintf.putc fd c) t) by (intros c; eexists; apply prints_putc).
  induction fmt as [|c fmt IH]; intros ap st; cbn [Uprintf.vprintf]; [exists []; apply prints_ret|].
  repeat match goal with |- context [if ?b then _ else _] => destruct b end; repeat first [apply IH|apply Hp|apply prints_puts|apply prints_bind].
Qed.

(** fprintf() appends its text to the descriptor. *)
Lemma fprintf_run fd fmt ap w o : w_out w !! fd = Some o ->
  Uprintf.fprintf fd fmt ap w = (Going tt, set_w_out (<[fd := o ++ text fmt ap]> (w_out w)) w).
Proof.
  intros Ho. destruct (prints_vprintf fmt ap false) as [t Ht]. unfold Uprintf.fprintf, text, Uprintf.printf.
  rewrite (Ht 1 _ []) by (cbn; by rewrite lookup_singleton_eq). rewrite (Ht fd w o Ho). cbn. by rewrite lookup_insert_eq.
Qed.

Lemma printf_run fmt ap w o : w_out w !! 1 = Some o ->
  Uprintf.printf fmt ap w = (Going tt, set_w_out (<[1 := o ++ text fmt ap]> (w_out w)) w).
Proof. exact (fprintf_run 1 fmt ap w o). Qed.

(** ** Numbers *)

(** Both programs' digits, least significant first, from a table. *)
Fixpoint digits_of (tbl : list Z) (fuel : nat) (x base : Z) : list Z :=
  match fuel with
  | O => []
  | S k => nthZ 0 tbl (x mod base) :: (if x / base =? 0 then [] else digits_of tbl k (x / base) base)
  end.

Lemma kernel_digits fuel x base : int_digits fuel x base = digits_of digits fuel x base.
Proof. revert x. induction fuel as [|fuel IH]; intros x; cbn; [done|]. by rewrite IH. Qed.
Lemma user_digits fuel x base : Uprintf.int_digits fuel x base = digits_of Uprintf.digits fuel x base.
Proof. revert x. induction fuel as [|fuel IH]; intros x; cbn; [done|]. by rewrite IH. Qed.

(** A table whose first ten entries are '0' to '9'. *)
Definition decimal (tbl : list Z) : Prop := forall i, 0 <= i < 10 -> nthZ 0 tbl i = 48 + i.

Lemma decimal_check tbl : forallb (fun i => nthZ 0 tbl i =? 48 + i) (seqZ 0 10) = true -> decimal tbl.
Proof.
  intros H i Hi. rewrite forallb_forall in H. apply Z.eqb_eq, H. apply list_elem_of_In, elem_of_seqZ. lia.
Qed.

Lemma atoi_snoc ds c n : Forall (fun d => 48 <= d <= 57) ds -> 48 <= c <= 57 ->
  Ulib.atoi_loop (ds ++ [c]) n = s32 (Ulib.atoi_loop ds n * 10 + c - 48).
Proof.
  intros Hd Hc. revert n. induction Hd as [|d ds Hd1 _ IH]; intros n; cbn.
  - destruct (Z.leb_spec 48 c), (Z.leb_spec c 57); try lia. done.
  - destruct (Z.leb_spec 48 d), (Z.leb_spec d 57); try lia. cbn. apply IH.
Qed.

Lemma digits_decimal tbl fuel x : decimal tbl -> 0 <= x -> Forall (fun d => 48 <= d <= 57) (digits_of tbl fuel x 10).
Proof.
  intros Ht. revert x. induction fuel as [|fuel IH]; intros x Hx; cbn; [constructor|]. constructor.
  - rewrite Ht by (apply Z.mod_pos_bound; lia). pose proof (Z.mod_pos_bound x 10). lia.
  - destruct (x / 10 =? 0); [constructor|]. apply IH. apply Z.div_pos; lia.
Qed.

Lemma digits_atoi tbl fuel x : decimal tbl -> 0 <= x < 2 ^ 31 -> x < 10 ^ Z.of_nat fuel ->
  Ulib.atoi (rev (digits_of tbl fuel x 10)) = x.
Proof.
  intros Ht. change (2 ^ 31) with 2147483648. unfold Ulib.atoi. revert x. induction fuel as [|fuel IH]; intros x Hx Hf; cbn [digits_of rev].
  - cbn in Hf. assert (x = 0) as -> by lia. done.
  - assert (Hm : 0 <= x mod 10 < 10) by (apply Z.mod_pos_bound; lia).
    rewrite atoi_snoc; [|apply Forall_rev; destruct (x / 10 =? 0); [constructor|apply digits_decimal; [done|apply Z.div_pos; lia]]|rewrite Ht; lia].
    rewrite Ht by done. destruct (Z.eqb_spec (x / 10) 0) as [E|E].
    + cbn. rewrite s32_small; [Z.div_mod_to_equations; lia|]. change (2 ^ 31) with 2147483648. lia.
    + rewrite IH; [|Z.div_mod_to_equations; lia|].
      * rewrite s32_small; [Z.div_mod_to_equations; lia|]. change (2 ^ 31) with 2147483648. Z.div_mod_to_equations; lia.
      * rewrite Nat2Z.inj_succ, Z.pow_succ_r in Hf by lia. Z.div_mod_to_equations; lia.
Qed.

Lemma digits_length tbl fuel x base k : 2 <= base -> 0 <= x < base ^ Z.of_nat k -> (0 < k)%nat -> (length (digits_of tbl fuel x base) <= k)%nat.
Proof.
  intros Hb. revert x k. induction fuel as [|fuel IH]; intros x k Hx Hk; cbn; [lia|].
  destruct (Z.eqb_spec (x / base) 0) as [E|E]; cbn; [lia|]. destruct k as [|k]; [lia|].
  rewrite Nat2Z.inj_succ, Z.pow_succ_r in Hx by lia. destruct k as [|k].
  - cbn in Hx. exfalso. apply E. apply Z.div_small. lia.
  - apply le_n_S, IH; [|lia]. split; [apply Z.div_pos; lia|]. apply Z.div_lt_upper_bound; lia.
Qed.

Lemma decimal_user : decimal Uprintf.digits.
Proof. apply decimal_check. reflexivity. Qed.
Lemma decimal_kernel : decimal digits.
Proof. apply decimal_check. reflexivity. Qed.

(** The characters of a number, whichever table. *)
Lemma signed_digits tbl n : decimal tbl -> - 2 ^ 31 <= n < 2 ^ 31 ->
  let neg := n <? 0 in
  let ds := rev (digits_of tbl 32 (if neg then u32 (- n) else u32 n) 10) in
  rev (digits_of tbl 32 (if neg then u32 (- n) else u32 n) 10 ++ (if neg then [45] else [])) = (if neg then [45] else []) ++ ds /\
  (- 2 ^ 31 < n -> Ulib.atoi ds = Z.abs n).
Proof.
  change (2 ^ 31) with 2147483648. intros Ht Hn neg ds. split; [unfold neg; destruct (n <? 0); [by rewrite rev_app_distr|by rewrite app_nil_r]|].
  intros Hm. unfold ds, neg. assert (Hx : (if n <? 0 then u32 (- n) else u32 n) = Z.abs n).
  { destruct (Z.ltb_spec n 0); rewrite u32_small by (change (2 ^ 32) with 4294967296; lia); lia. }
  rewrite Hx. apply digits_atoi; [done|change (2 ^ 31) with 2147483648; lia|].
  change (10 ^ Z.of_nat 32) with 100000000000000000000000000000000. lia.
Qed.

Lemma buffer_fits tbl x base (neg : bool) : 10 <= base <= 16 -> 0 <= x < 2 ^ 32 ->
  (length (digits_of tbl 32 x base ++ (if neg then [45%Z] else [])) <= 16)%nat.
Proof.
  intros Hb Hx. rewrite length_app. assert (length (digits_of tbl 32 x base) <= 10)%nat.
  { apply digits_length; [lia| |lia]. split; [lia|]. eapply Z.lt_le_trans; [apply Hx|].
    transitivity (10 ^ Z.of_nat 10); [by vm_compute|]. apply Z.pow_le_mono_l. lia. }
  destruct neg; cbn [length]; lia.
Qed.

(** printint() prints numbers that atoi() reads back, in the kernel and in
    user programs.  Every int from -2^31+1 up prints as an optional '-' and
    decimal digits whose value is its absolute value, so a non-negative number
    survives printing and parsing; and buf[16] never overflows, for any int in
    base 10 or 16. *)
Theorem printint_atoi (n base : Z) (sgn : bool) :
  - 2 ^ 31 <= n < 2 ^ 31 -> 10 <= base <= 16 ->
  (forall chars, chars = rev (Uprintf.printint_buf n 10 true) \/ chars = printint_chars n 10 true -> - 2 ^ 31 < n ->
     (0 <= n -> Ulib.atoi chars = n) /\
     (n < 0 -> exists ds, chars = 45 :: ds /\ Ulib.atoi ds = - n)) /\
  (length (Uprintf.printint_buf n base sgn) <= 16)%nat /\ (length (printint_chars n base sgn) <= 16)%nat.
Proof.
  intros Hn Hb. split_and!.
  - assert (Hgen : forall tbl, decimal tbl -> - 2 ^ 31 < n ->
      let chars := rev (digits_of tbl 32 (if n <? 0 then u32 (- n) else u32 n) 10 ++ (if n <? 0 then [45] else [])) in
      (0 <= n -> Ulib.atoi chars = n) /\ (n < 0 -> exists ds, chars = 45 :: ds /\ Ulib.atoi ds = - n)).
    { intros tbl Ht Hm. destruct (signed_digits tbl n Ht Hn) as [E Ha]. cbv zeta in *. rewrite E. specialize (Ha Hm).
      destruct (Z.ltb_spec n 0); (split; [intros ?|intros ?]; try lia); cbn [app].
      - eexists. split; [reflexivity|]. rewrite Ha. lia.
      - rewrite Ha. lia. }
    intros chars [-> | ->] Hm.
    + unfold Uprintf.printint_buf. rewrite user_digits. apply (Hgen _ decimal_user Hm).
    + unfold printint_chars. rewrite kernel_digits. apply (Hgen _ decimal_kernel Hm).
  - unfold Uprintf.printint_buf. rewrite user_digits. apply buffer_fits; [done|].
    destruct (sgn && (n <? 0)); apply u32_range.
  - unfold printint_chars. rewrite length_rev, kernel_digits. apply buffer_fits; [done|].
    destruct (sgn && (n <? 0)); apply u32_range.
Qed.

Lemma printint_atoi_witness : Ulib.atoi (printint_chars 1234 10 true) = 1234.
Proof.
  exact (proj1 (proj1 (printint_atoi 1234 10 true ltac:(lia) ltac:(lia)) _ (or_intror eq_refl) ltac:(lia)) ltac:(lia)).
Defined.
