(* ===== verification/Grep.v ===== *)
(** * grep (user/grep.c): the matcher and the line loop *)

From Stdlib Require Import ZArith Lia.
From stdpp Require Import base numbers list list_numbers gmap strings.
From S2P Require Import Prelude Cstring Kernel Console User Ulib Uprintf.

Module Grep.
(** matchstar(c, re, text), given matchhere() of [re]. *)
Fixpoint matchstar (here : list Z -> bool) (c : Z) (text : list Z) : bool :=
  if here text then true
  else match text with
       | [] => false
       | x :: text' => if (x =? c) || (c =? 46) then matchstar here c text' else false
       end.

Fixpoint matchhere (re text : list Z) {struct re} : bool :=
  match re with
  | [] => true
  | c :: re1 =>
      match re1 with
      | d :: re2 =>
          if d =? 42 then matchstar (matchhere re2) c text
          else match text with
               | [] => false
               | x :: text' => if (c =? 46) || (c =? x) then matchhere re1 text' else false
               end
      | [] =>
          if c =? 36 then match text with [] => true | _ => false end
          else match text with
               | [] => false
               | x :: text' => if (c =? 46) || (c =? x) then matchhere re1 text' else false
               end
      end
  end.

(** The do-while loop of match(). *)
Fixpoint match_any (re text : list Z) : bool :=
  if matchhere re text then true
  else match text with
       | [] => false
       | _ :: text' => match_any re text'
       end.

Definition match_ (re text : list Z) : bool :=
  match re with
  | c :: re' => if c =? 94 then matchhere re' text else match_any re text
  | [] => match_any re text
  end.

(** strchr(p, '\n') on the bytes of buf from p, which end at a NUL: the line
    and what follows the newline. *)
Fixpoint line_at (p : list Z) : option (list Z * list Z) :=
  match p with
  | [] => None
  | x :: p' =>
      if x =? 10 then Some ([], p')
      else if x =? 0 then None
      else match line_at p' with
           | Some (l, r) => Some (x :: l, r)
           | None => None
           end
  end.

(** The inner loop: prints the matching lines, leaves the rest. *)
Fixpoint scan (fuel : nat) (pattern p : list Z) : U (list Z) :=
  match fuel with
  | O => uret p
  | S k =>
      match line_at p with
      | Some (line, rest) =>
          (if match_ pattern line then write 1 (line ++ [10]) >> uret tt else uret tt) >>
          scan k pattern rest
      | None => uret p
      end
  end.

(** grep(pattern, fd) with [b] in buf[0..m). *)
Fixpoint grep_loop (fuel : nat) (pattern : list Z) (fd : Z) (b : list Z) : U unit :=
  match fuel with
  | O => uret tt
  | S k =>
      let! r := read fd (1024 - zlen b - 1) in
      if 0 <? fst r then
        let! rest := scan (S (length (b ++ snd r))) pattern (b ++ snd r) in
        grep_loop k pattern fd rest
      else uret tt
  end.

(** Every turn reads a byte or is the last; [n] bounds the input. *)
Definition grep (n : nat) (pattern : list Z) (fd : Z) : U unit := grep_loop (S n) pattern fd [].

Fixpoint main_files (n : nat) (pattern : list Z) (args : list (list Z)) : U unit :=
  match args with
  | [] => exit 0
  | a :: args' =>
      let! fd := open a in
      if fd <? 0 then Uprintf.printf (lit "grep: cannot open %s" ++ [10]) [AStr (Some a)] >> exit 1
      else grep n pattern fd >> close fd >> main_files n pattern args'
  end.

Definition main (n : nat) (argv : list (list Z)) : U unit :=
  match argv with
  | _ :: pattern :: [] => grep n pattern 0 >> exit 0
  | _ :: pattern :: args => main_files n pattern args
  | _ => Uprintf.fprintf 2 (lit "usage: grep pattern [file ...]" ++ [10]) [] >> exit 1
  end.
End Grep.

(** ** The matcher against the language of patterns *)

(** [here re t]: some prefix of [t] is in the language of [re]. *)
Inductive here : list Z -> list Z -> Prop :=
| here_nil t : here [] t
| here_star c re t1 t2 : Forall (fun x => x = c \/ c = 46) t1 -> here re t2 -> here (c :: 42 :: re) (t1 ++ t2)
| here_end : here [36] []
| here_char c re x t : (c = 46 \/ c = x) -> head re <> Some 42 -> ~ (c = 36 /\ re = []) -> here re t -> here (c :: re) (x :: t).

(** The lines a pattern selects. *)
Definition selects (re text : list Z) : Prop :=
  if bool_decide (head re = Some 94) then here (tail re) text
  else exists pre suf, text = pre ++ suf /\ here re suf.

Lemma matchstar_spec f c text :
  Grep.matchstar f c text = true <-> exists t1 t2, text = t1 ++ t2 /\ Forall (fun x => x = c \/ c = 46) t1 /\ f t2 = true.
Proof.
  induction text as [|x text IH]; cbn.
  - destruct (f []) eqn:E; split; try done.
    + intros _. by exists [], [].
    + intros (t1 & t2 & H & _ & Hf). destruct t1, t2; try done. congruence.
  - destruct (f (x :: text)) eqn:E.
    + split; [|done]. intros _. by exists [], (x :: text).
    + destruct ((x =? c) || (c =? 46)) eqn:Ex.
      * rewrite IH. split.
        -- intros (t1 & t2 & -> & Hf & Ht). exists (x :: t1), t2. split; [done|]. split; [|done]. constructor; [|done].
           apply orb_true_iff in Ex as [Ex|Ex]; apply Z.eqb_eq in Ex; auto.
        -- intros ([|y t1] & t2 & Ht & Hf & Hh); cbn in Ht; [subst; congruence|]. injection Ht as -> ->.
           inversion Hf; subst. by exists t1, t2.
      * split; [done|]. intros ([|y t1] & t2 & Ht & Hf & Hh); cbn in Ht; [subst; congruence|]. injection Ht as -> ->.
        inversion Hf as [|? ? Hy]; subst. apply orb_false_iff in Ex as [E1 E2]. apply Z.eqb_neq in E1, E2. naive_solver.
Qed.

Lemma char_eq c x : (c =? 46) || (c =? x) = true <-> c = 46 \/ c = x.
Proof. rewrite orb_true_iff, !Z.eqb_eq. done. Qed.

Lemma matchhere_spec re : forall text, Grep.matchhere re text = true <-> here re text.
Proof.
  induction re as [re IH] using (well_founded_induction (Wf_nat.well_founded_ltof _ (@length Z))).
  unfold Wf_nat.ltof in IH. intros text. destruct re as [|c re1]; cbn [Grep.matchhere].
  { split; [intros _; constructor|done]. }
  assert (Hchar : head re1 <> Some 42 -> ~ (c = 36 /\ re1 = []) ->
    match text with [] => false | x :: text' => if (c =? 46) || (c =? x) then Grep.matchhere re1 text' else false end = true
    <-> here (c :: re1) text).
  { intros Hh He. destruct text as [|x text].
    - split; [done|]. intros H. inversion H as [|? ? t1 t2| |]; subst; try done. exfalso. by apply He.
    - destruct ((c =? 46) || (c =? x)) eqn:E.
      + rewrite IH by (cbn; lia). apply char_eq in E. split; [by intros; constructor|].
        intros H. inversion H; subst; done.
      + split; [done|]. intros H. inversion H as [|? ? t1 t2| |? ? ? ? Hc]; subst; [done|]. apply char_eq in Hc. congruence. }
  destruct re1 as [|d re2].
  - destruct (Z.eqb_spec c 36) as [->|Hne].
    + split; [destruct text; [intros _; constructor|done]|]. intros H. inversion H as [| | |? ? ? ? ? ? Hn]; subst; [done|].
      exfalso. by apply Hn.
    + apply Hchar; [done|]. by intros [-> _].
  - destruct (Z.eqb_spec d 42) as [->|Hne].
    + rewrite matchstar_spec. split.
      * intros (t1 & t2 & -> & Hf & Hm). apply IH in Hm; [|cbn; lia]. by constructor.
      * intros H. inversion H as [|? ? t1 t2 Hf Hh| |]; subst; [|done]. exists t1, t2. split; [done|]. split; [done|].
        apply IH; [cbn; lia|done].
    + apply Hchar; [cbn; congruence|]. by intros [_ ?].
Qed.

Lemma match_any_spec re text : Grep.match_any re text = true <-> exists pre suf, text = pre ++ suf /\ here re suf.
Proof.
  induction text as [|x text IH]; cbn [Grep.match_any].
  - destruct (Grep.matchhere re []) eqn:E.
    + split; [|done]. intros _. exists [], []. split; [done|]. by apply matchhere_spec.
    + split; [done|]. intros (pre & suf & H & Hh). destruct pre, suf; try done. apply matchhere_spec in Hh. congruence.
  - destruct (Grep.matchhere re (x :: text)) eqn:E.
    + split; [|done]. intros _. exists [], (x :: text). split; [done|]. by apply matchhere_spec.
    + rewrite IH. split.
      * intros (pre & suf & -> & Hh). by exists (x :: pre), suf.
      * intros ([|y pre] & suf & H & Hh); cbn in H; [subst; apply matchhere_spec in Hh; congruence|].
        injection H as -> ->. by exists pre, suf.
Qed.

(** ** The line loop *)

(** The complete lines of a text, and what follows the last newline. *)
Fixpoint split_lines (c : list Z) : list (list Z) * list Z :=
  match c with
  | [] => ([], [])
  | x :: c' =>
      let '(ls, r) := split_lines c' in
      if x =? 10 then ([] :: ls, r)
      else match ls with
           | [] => ([], x :: r)
           | l :: ls' => ((x :: l) :: ls', r)
           end
  end.

Definition printed (pattern : list Z) (ls : list (list Z)) : list Z :=
  concat (map (fun l => if Grep.match_ pattern l then l ++ [10] else []) ls).

Lemma split_lines_app p c :
  split_lines (p ++ c) = (fst (split_lines p) ++ fst (split_lines (snd (split_lines p) ++ c)), snd (split_lines (snd (split_lines p) ++ c))).
Proof.
  induction p as [|x p IH]; cbn [app split_lines]; [cbn; by destruct (split_lines c)|].
  rewrite IH. destruct (split_lines p) as [ls r]. cbn [fst snd]. destruct (Z.eqb_spec x 10) as [->|Hx]; [done|].
  destruct ls as [|l ls]; cbn [fst snd app]; [|done].
  cbn [split_lines]. destruct (split_lines (r ++ c)) as [ls' r']. cbn [fst snd]. destruct (Z.eqb_spec x 10); [done|]. by destruct ls'.
Qed.

(** A text without a newline is all remainder. *)
Lemma split_rest p : split_lines (snd (split_lines p)) = ([], snd (split_lines p)).
Proof.
  induction p as [|x p IH]; cbn; [done|]. destruct (split_lines p) as [ls r]. cbn in *.
  destruct (Z.eqb_spec x 10); [done|]. destruct ls as [|l ls]; cbn; [|done]. rewrite IH. by destruct (Z.eqb_spec x 10).
Qed.

Lemma rest_subset p x : x ∈ snd (split_lines p) -> x ∈ p.
Proof.
  induction p as [|y p IH]; cbn; [done|]. destruct (split_lines p) as [ls r]. cbn in *.
  destruct (y =? 10); cbn; [intros H; right; auto|]. destruct ls; cbn; rewrite ?elem_of_cons; naive_solver.
Qed.

Lemma line_at_spec p : 0 ∉ p ->
  match Grep.line_at p with
  | Some (line, rest) => split_lines p = (line :: fst (split_lines rest), snd (split_lines rest)) /\ (length rest < length p)%nat /\ 0 ∉ rest
  | None => split_lines p = ([], p)
  end.
Proof.
  induction p as [|x p IH]; intros H0; cbn [Grep.line_at]; [done|].
  apply not_elem_of_cons in H0 as [Hx H0]. destruct (Z.eqb_spec x 10) as [->|Hn].
  - cbn. destruct (split_lines p). split; [done|]. split; [lia|done].
  - destruct (Z.eqb_spec x 0); [congruence|]. specialize (IH H0). cbn [split_lines].
    destruct (Grep.line_at p) as [[l r]|].
    + destruct IH as (E & Hl & Hr). rewrite E. destruct (Z.eqb_spec x 10); [done|]. split; [done|]. cbn. split; [lia|done].
    + rewrite IH. by destruct (Z.eqb_spec x 10).
Qed.

Lemma scan_run pattern fuel : forall p w o, (length p < fuel)%nat -> 0 ∉ p -> w_out w !! 1 = Some o ->
  Grep.scan fuel pattern p w =
    (Going (snd (split_lines p)), set_w_out (<[1 := o ++ printed pattern (fst (split_lines p))]> (w_out w)) w).
Proof.
  induction fuel as [|fuel IH]; intros p w o Hf H0 Ho; [lia|]. cbn [Grep.scan].
  pose proof (line_at_spec p H0) as Hl. destruct (Grep.line_at p) as [[line rest]|].
  - destruct Hl as (E & Hlen & H0'). rewrite E. cbn [fst snd]. unfold printed. cbn [map concat].
    destruct (Grep.match_ pattern line).
    + erewrite ubind_Going; [|by erewrite ubind_Going by (by apply write_run)].
      rewrite (IH rest _ (o ++ line ++ [10])); [|lia|done|cbn; by rewrite lookup_insert_eq].
      cbn. rewrite insert_insert_eq. unfold printed. by rewrite <- !app_assoc.
    + erewrite ubind_Going by reflexivity. rewrite (IH rest w o) by (done || lia). done.
  - rewrite Hl. cbn. unfold uret. rewrite app_nil_r. by rewrite set_w_out_id.
Qed.

(** Every line, the unfinished last one included, fits in buf with a newline. *)
Definition short_lines (c : list Z) : Prop :=
  Forall (fun l => zlen l <= 1022) (fst (split_lines c)) /\ zlen (snd (split_lines c)) <= 1022.

(** A part of a line at the front is no longer than the line. *)
Lemma front_short r c : split_lines r = ([], r) -> short_lines (r ++ c) -> zlen r <= 1022.
Proof.
  revert c. intros c Hr [Hf Hs]. assert (Hp : exists t, fst (split_lines (r ++ c)) = [] /\ snd (split_lines (r ++ c)) = r ++ t \/
      exists l ls, fst (split_lines (r ++ c)) = l :: ls /\ l = r ++ t).
  { clear Hf Hs. induction r as [|x r IH].
    - destruct (split_lines ([] ++ c)) as [[|l ls] rr]; cbn.
      + exists rr. by left.
      + exists l. right. by exists l, ls.
    - cbn [split_lines] in Hr. destruct (split_lines r) as [ls0 r0]. destruct (Z.eqb_spec x 10); [done|]. destruct ls0; [|done].
      injection Hr as ->. destruct (IH eq_refl) as (t & [[E1 E2]|(l & ls & E1 & E2)]); exists t; cbn [app split_lines];
        destruct (split_lines (r ++ c)) as [ls' r']; cbn in E1, E2; subst; destruct (Z.eqb_spec x 10); try done; cbn.
      + by left.
      + right. by exists (x :: r ++ t), ls. }
  destruct Hp as (t & [[_ E]|(l & ls & E & ->)]).
  - rewrite E, zlen_app in Hs. pose proof (zlen_nonneg t). lia.
  - rewrite E in Hf. inversion Hf as [|? ? H1]; subst. rewrite zlen_app in H1. pose proof (zlen_nonneg t). lia.
Qed.

Lemma short_rest b c : short_lines (b ++ c) -> short_lines (snd (split_lines b) ++ c).
Proof.
  unfold short_lines. rewrite split_lines_app. cbn. intros [Hf Hs]. apply Forall_app in Hf as [_ Hf]. done.
Qed.

Lemma grep_loop_run pattern fd fuel : forall b c w o, (length c < fuel)%nat -> 0 ∉ b ++ c ->
  split_lines b = ([], b) -> short_lines (b ++ c) -> w_in w !! fd = Some c -> w_out w !! 1 = Some o ->
  exists k, Grep.grep_loop fuel pattern fd b w =
    (Going tt, set_w_reads k (set_w_in (<[fd := []]> (w_in w))
                 (set_w_out (<[1 := o ++ printed pattern (fst (split_lines (b ++ c)))]> (w_out w)) w))).
Proof.
  induction fuel as [|fuel IH]; intros b c w o Hf H0 Hb Hs Hi Ho; [lia|]. cbn [Grep.grep_loop].
  pose proof (front_short b c Hb Hs) as Hm.
  destruct (read_run fd (1024 - zlen b - 1) w c Hi ltac:(lia)) as (d & c' & Hr & -> & _ & Hne).
  erewrite ubind_Going by exact Hr. cbn [fst snd]. destruct d as [|x d].
  - destruct c' as [|y c']; [|by destruct Hne]. change (0 <? zlen []) with false. cbv iota. cbn [app].
    rewrite app_nil_r, Hb. cbn [fst]. unfold printed. cbn. rewrite app_nil_r, (insert_id (w_out w)) by done.
    eexists. by destruct w.
  - assert (0 <? zlen (x :: d) = true) as -> by (apply Z.ltb_lt; unfold zlen; cbn [length]; lia).
    rewrite app_assoc in H0, Hs |- *. pose proof H0 as H0'. apply not_elem_of_app in H0' as [Hbd _].
    erewrite ubind_Going by (apply scan_run; [lia|done|exact Ho]).
    pose proof (short_rest _ _ Hs) as Hs'.
    edestruct (IH (snd (split_lines (b ++ x :: d))) c') as (k & ->);
      [cbn [app length] in Hf; rewrite length_app in Hf; lia| |apply split_rest|exact Hs'|cbn; by rewrite lookup_insert_eq|cbn; by rewrite lookup_insert_eq|].
    + intros Hin. apply H0. apply elem_of_app in Hin as [Hin|Hin]; apply elem_of_app; [left|by right].
      by eapply rest_subset.
    + exists k. cbn. rewrite !insert_insert_eq, (split_lines_app (b ++ x :: d) c'). cbn [fst]. unfold printed.
      by rewrite map_app, concat_app, <- app_assoc.
Qed.

(** C32: the matcher of grep decides its pattern language: a text is accepted
    exactly when some position of it (the first one, for a pattern that starts
    with ^) is followed by a match of the pattern's items, where c matches
    itself, . any character, c* any run of it and a final $ the end. *)
Theorem match_correct re text : Grep.match_ re text = true <-> selects re text.
Proof.
  unfold Grep.match_, selects. destruct re as [|c re]; [apply match_any_spec|]. cbn [head tail].
  destruct (Z.eqb_spec c 94) as [->|Hc]; [apply matchhere_spec|].
  rewrite bool_decide_false by congruence. apply match_any_spec.
Qed.

(** C31: whatever number of bytes each read() delivers, grep() on a text
    without NULs whose lines fit its buffer terminates, consumes the text and
    writes to the standard output exactly the complete lines that match, in
    order, each with its newline. *)
Theorem grep_correct n pattern fd c w o : (length c <= n)%nat -> 0 ∉ c -> short_lines c ->
  w_in w !! fd = Some c -> w_out w !! 1 = Some o ->
  exists k, Grep.grep n pattern fd w =
    (Going tt, set_w_reads k (set_w_in (<[fd := []]> (w_in w))
                 (set_w_out (<[1 := o ++ printed pattern (fst (split_lines c))]> (w_out w)) w))).
Proof. intros. unfold Grep.grep. apply (grep_loop_run pattern fd (S n) [] c); (done || lia). Qed.

Definition grep_text : list Z := lit "abc" ++ [10] ++ lit "xbd" ++ [10] ++ lit "b".
Definition grep_world : world := World {[0 := grep_text]} {[1 := []]} ∅ (fun k => Z.of_nat k + 2) 0.

Lemma grep_correct_witness : exists k,
  Grep.grep 9 (lit "b.$") 0 grep_world =
    (Going tt, World {[0 := []]} {[1 := lit "abc" ++ [10] ++ lit "xbd" ++ [10]]} ∅ (fun k => Z.of_nat k + 2) k).
Proof.
  destruct (grep_correct 9 (lit "b.$") 0 grep_text grep_world []) as (k & E);
    [cbn; lia|by apply (bool_decide_unpack (0 ∉ grep_text)); vm_compute|split; [repeat constructor; vm_compute; discriminate|vm_compute; discriminate]|done|done|].
  exists k. exact E.
Defined.
