(* ===== verification/Utils.v ===== *)
(** * Small programs that read and write (user/cat.c, user/wc.c, user/echo.c)

    With any sizes of the reads cat copies its input and wc counts it. *)

From Stdlib Require Import ZArith Lia.
From stdpp Require Import base numbers list list_numbers gmap strings.
From S2P Require Import Prelude Cstring Kernel Console User Ulib Uprintf.

Module Cat.
(** Every turn reads a byte or is the last. *)
Fixpoint cat_loop (fuel : nat) (fd : Z) : U unit :=
  match fuel with
  | O => uret tt
  | S k =>
      let! r := read fd 512 in
      if 0 <? fst r then
        let! n := write 1 (snd r) in
        if negb (n =? fst r) then Uprintf.fprintf 2 (lit "cat: write error" ++ [10]) [] >> exit 1
        else cat_loop k fd
      else if fst r <? 0 then Uprintf.fprintf 2 (lit "cat: read error" ++ [10]) [] >> exit 1
      else uret tt
  end.

(** [n] bounds the input. *)
Definition cat (n : nat) (fd : Z) : U unit := cat_loop (S n) fd.

Fixpoint cat_files (n : nat) (args : list (list Z)) : U unit :=
  match args with
  | [] => exit 0
  | a :: args' =>
      let! fd := open a in
      if fd <? 0 then Uprintf.fprintf 2 (lit "cat: cannot open %s" ++ [10]) [AStr (Some a)] >> exit 1
      else cat n fd >> close fd >> cat_files n args'
  end.

Definition cat_main (n : nat) (argv : list (list Z)) : U unit :=
  match argv with
  | _ :: (_ :: _) as args => cat_files n args
  | _ => cat n 0 >> exit 0
  end.
End Cat.

Module Wc.
(** l, w, c and inword. *)
Record counts := Counts { lines : Z; words : Z; chars : Z; inword : bool }.

(** " \r\t\n\v" *)
Definition blanks : list Z := [32; 13; 9; 10; 11].

(** The body of the for loop. *)
Definition count (s : counts) (x : Z) : counts :=
  let c := s32 (chars s + 1) in
  let l := if x =? 10 then s32 (lines s + 1) else lines s in
  if Ulib.strchr blanks x then Counts l (words s) c false
  else if negb (inword s) then Counts l (s32 (words s + 1)) c true
  else Counts l (words s) c (inword s).

Fixpoint wc_loop (fuel : nat) (fd : Z) (s : counts) : U (Z * counts) :=
  match fuel with
  | O => uret (0, s)
  | S k =>
      let! r := read fd 512 in
      if 0 <? fst r then wc_loop k fd (foldl count s (snd r))
      else uret (fst r, s)
  end.

Definition wc (n : nat) (fd : Z) (name : list Z) : U unit :=
  let! r := wc_loop (S n) fd (Counts 0 0 0 false) in
  if fst r <? 0 then Uprintf.printf (lit "wc: read error" ++ [10]) [] >> exit 1
  else Uprintf.printf (lit "%d %d %d %s" ++ [10])
         [AInt (lines (snd r)); AInt (words (snd r)); AInt (chars (snd r)); AStr (Some name)].

Fixpoint wc_files (n : nat) (args : list (list Z)) : U unit :=
  match args with
  | [] => exit 0
  | a :: args' =>
      let! fd := open a in
      if fd <? 0 then Uprintf.printf (lit "wc: cannot open %s" ++ [10]) [AStr (Some a)] >> exit 1
      else wc n fd a >> close fd >> wc_files n args'
  end.

Definition wc_main (n : nat) (argv : list (list Z)) : U unit :=
  match argv with
  | _ :: (_ :: _) as args => wc_files n args
  | _ => wc n 0 [] >> exit 0
  end.
End Wc.

Module Echo.
Fixpoint echo_args (args : list (list Z)) : U unit :=
  match args with
  | [] => exit 0
  | a :: args' => write 1 a >> write 1 (match args' with [] => [10] | _ => [32] end) >> echo_args args'
  end.

Definition echo_main (argv : list (list Z)) : U unit := echo_args (tail argv).
End Echo.

(** ** cat *)

#[local] Opaque text Uprintf.fprintf Uprintf.printf.

Lemma cat_run n fd c w o : (length c <= n)%nat -> w_in w !! fd = Some c -> w_out w !! 1 = Some o ->
  exists k, Cat.cat n fd w = (Going tt, set_w_reads k (set_w_in (<[fd := []]> (w_in w)) (set_w_out (<[1 := o ++ c]> (w_out w)) w))).
Proof.
  unfold Cat.cat. intros Hn. apply PeanoNat.le_lt_n_Sm in Hn. revert c w o Hn. generalize (S n). intros fuel.
  induction fuel as [|fuel IH]; intros c w o Hf Hi Ho; [lia|]. cbn [Cat.cat_loop].
  destruct (read_run fd 512 w c Hi ltac:(lia)) as (d & c' & Hr & -> & _ & Hne).
  erewrite ubind_Going by exact Hr. cbn [fst snd]. destruct d as [|x d].
  - destruct c' as [|y c']; [|by destruct Hne]. cbn. rewrite (insert_id (w_out w)) by (by rewrite app_nil_r). eexists. by destruct w.
  - assert (0 <? zlen (x :: d) = true) as -> by (apply Z.ltb_lt; unfold zlen; cbn [length]; lia).
    erewrite ubind_Going by (apply write_run; exact Ho). rewrite Z.eqb_refl. cbn [negb].
    edestruct (IH c') as (k & ->); [cbn [app length] in Hf; rewrite length_app in Hf; lia|cbn; by rewrite lookup_insert_eq|cbn; by rewrite lookup_insert_eq|].
    exists k. cbn. by rewrite !insert_insert_eq, <- app_assoc.
Qed.

(** What cat writes for the named files, and the first that does not exist. *)
Fixpoint catted (files : gmap (list Z) (list Z)) (args : list (list Z)) : list Z * option (list Z) :=
  match args with
  | [] => ([], None)
  | a :: args' =>
      match files !! a with
      | Some c => (c ++ fst (catted files args'), snd (catted files args'))
      | None => ([], Some a)
      end
  end.

(** A descriptor that open() takes is put back by close(). *)
Lemma free_fd_free n fd w x : free_fd n fd w = Some x -> fd <= x /\ w_in w !! x = None /\ w_out w !! x = None.
Proof.
  revert fd. induction n as [|n IH]; intros fd; cbn [free_fd]; [done|].
  case_bool_decide as H; [intros [= <-]; split; [lia|done]|]. intros Hx. apply IH in Hx. split; [lia|tauto].
Qed.

Lemma free_fd_ext n fd w w' : w_in w' = w_in w -> dom (w_out w') = dom (w_out w) -> free_fd n fd w' = free_fd n fd w.
Proof.
  intros E1 E2. revert fd. induction n as [|n IH]; intros fd; cbn [free_fd]; [done|]. rewrite IH, E1.
  erewrite bool_decide_ext; [done|]. by rewrite <- !not_elem_of_dom, E2.
Qed.

(** cat of named files copies them in order to the standard output; it stops
    with a message and status 1 at the first that cannot be opened. *)
Theorem cat_correct n a args w o e fd : Forall (fun x => forall c, w_files w !! x = Some c -> (length c <= n)%nat) (a :: args) ->
  w_out w !! 1 = Some o -> w_out w !! 2 = Some e -> free_fd 16 0 w = Some fd ->
  exists st w', Cat.cat_main n (lit "cat" :: a :: args) w = (Exited st, w') /\
    w_out w' !! 1 = Some (o ++ fst (catted (w_files w) (a :: args))) /\
    match snd (catted (w_files w) (a :: args)) with
    | None => st = 0 /\ w_out w' !! 2 = Some e
    | Some x => st = 1 /\ w_out w' !! 2 = Some (e ++ text (lit "cat: cannot open %s" ++ [10]) [AStr (Some x)])
    end.
Proof.
  unfold Cat.cat_main. generalize (a :: args) as l. clear a args. intros l. revert w o.
  induction l as [|a l IH]; intros w o Hl Ho He Hfd; cbn [Cat.cat_files catted].
  { exists 0, w. cbn. by rewrite app_nil_r. }
  apply Forall_cons in Hl as [Ha Hl]. destruct (w_files w !! a) as [c|] eqn:Ef; cbn [fst snd].
  - destruct (free_fd_free _ _ _ _ Hfd) as (Hpos & Hin & Hout).
    assert (Hop : open a w = (Going fd, set_w_in (<[fd := c]> (w_in w)) w)) by (unfold open; by rewrite Ef, Hfd).
    erewrite ubind_Going by exact Hop. destruct (Z.ltb_spec fd 0); [lia|].
    destruct (cat_run n fd c (set_w_in (<[fd := c]> (w_in w)) w) o) as (k & Hc); [by apply Ha|cbn; by rewrite lookup_insert_eq|cbn; exact Ho|].
    erewrite ubind_Going by exact Hc. unfold close. erewrite ubind_Going by reflexivity. cbn.
    assert (fd <> 1 /\ fd <> 2) as [Hn1 Hn2] by (split; intros ->; congruence).
    rewrite insert_insert_eq, delete_insert_id by done. rewrite delete_id by (rewrite lookup_insert_ne by done; done).
    edestruct (IH (World (w_in w) (<[1 := o ++ c]> (w_out w)) (w_files w) (w_chunk w) k)) as (st & w' & E & E1 & E2);
      [exact Hl|cbn; by rewrite lookup_insert_eq|cbn; by rewrite lookup_insert_ne| |exists st, w'; split; [exact E|by rewrite app_assoc]].
    rewrite <- Hfd. apply free_fd_ext; cbn; [done|]. rewrite dom_insert_L. apply elem_of_dom_2 in Ho. set_solver.
  - assert (Hop : open a w = (Going (-1), w)) by (unfold open; by rewrite Ef).
    erewrite ubind_Going by exact Hop. change (-1 <? 0) with true. cbv iota. erewrite ubind_Going by (apply fprintf_run; exact He).
    eexists 1, _. split; [reflexivity|]. cbn. rewrite app_nil_r. split; [by rewrite lookup_insert_ne|]. split; [done|]. by rewrite lookup_insert_eq.
Qed.

(** ** wc *)

Definition blank (x : Z) : bool := bool_decide (x ∈ Wc.blanks).
Definition in_word (c : list Z) : bool := match last c with Some x => negb (blank x) | None => false end.

(** A word starts at [i]: it is no blank and follows none or the beginning. *)
Definition starts (c : list Z) (i : nat) : bool :=
  match c !! i with Some x => negb (blank x) && negb (in_word (take i c)) | None => false end.
Definition word_count (c : list Z) : Z := zlen (List.filter (starts c) (seq 0 (length c))).
Definition line_count (c : list Z) : Z := zlen (List.filter (fun x => x =? 10) c).

Lemma strchr_blank x : (if Ulib.strchr Wc.blanks x then true else false) = blank x.
Proof.
  unfold blank, Wc.blanks. cbn [Ulib.strchr].
  repeat match goal with |- context [?k =? x] => destruct (Z.eqb_spec k x) as [<-|]; [done|] end.
  symmetry. apply bool_decide_eq_false. rewrite !elem_of_cons, elem_of_nil. lia.
Qed.

Lemma word_count_snoc c x : word_count (c ++ [x]) = word_count c + (if negb (blank x) && negb (in_word c) then 1 else 0).
Proof.
  unfold word_count. rewrite length_app, Nat.add_comm. change (length [x] + length c)%nat with (S (length c)).
  rewrite seq_S, List.filter_app, zlen_app. f_equal.
  - f_equal. apply List.filter_ext_in. intros i Hi. apply in_seq in Hi. unfold starts.
    rewrite lookup_app_l, take_app_le by lia. done.
  - cbn [List.filter Nat.add]. unfold starts. rewrite lookup_app_r, Nat.sub_diag, take_app_length by lia. cbn.
    by destruct (negb (blank x) && negb (in_word c)).
Qed.

Lemma line_count_snoc c x : line_count (c ++ [x]) = line_count c + (if x =? 10 then 1 else 0).
Proof. unfold line_count. rewrite List.filter_app, zlen_app. cbn. by destruct (x =? 10). Qed.

Lemma filter_zlen {A} (f : A -> bool) l : zlen (List.filter f l) <= zlen l.
Proof. unfold zlen. pose proof (List.filter_length_le f l). lia. Qed.

Lemma wc_counts c : zlen c < 2 ^ 31 ->
  foldl Wc.count (Wc.Counts 0 0 0 false) c = Wc.Counts (line_count c) (word_count c) (zlen c) (in_word c).
Proof.
  induction c as [|x c IH] using rev_ind; intros Hl; [done|]. rewrite zlen_app in Hl. change (zlen [x]) with 1 in Hl.
  pose proof (zlen_nonneg c). rewrite foldl_app, IH by lia. cbn [foldl]. unfold Wc.count. cbn [Wc.chars Wc.lines Wc.words Wc.inword].
  assert (Hw : 0 <= word_count c <= zlen c).
  { unfold word_count. split; [apply zlen_nonneg|]. etrans; [apply filter_zlen|]. unfold zlen. rewrite length_seq. lia. }
  assert (Hn : 0 <= line_count c <= zlen c) by (unfold line_count; split; [apply zlen_nonneg|apply filter_zlen]).
  assert (Hs : forall z, 0 <= z <= zlen c -> s32 (z + 1) = z + 1) by (intros z Hz; change (2 ^ 31) with 2147483648 in Hl; word).
  rewrite !Hs, word_count_snoc, line_count_snoc, zlen_app by lia. change (zlen [x]) with 1.
  assert (in_word (c ++ [x]) = negb (blank x)) as -> by (unfold in_word; by rewrite last_snoc).
  pose proof (strchr_blank x) as Hb. destruct (Ulib.strchr Wc.blanks x), (blank x), (x =? 10), (in_word c); try done; cbn; f_equal; lia.
Qed.

Lemma wc_loop_run n fd c s w : (length c <= n)%nat -> w_in w !! fd = Some c ->
  exists k, Wc.wc_loop (S n) fd s w = (Going (0, foldl Wc.count s c), set_w_reads k (set_w_in (<[fd := []]> (w_in w)) w)).
Proof.
  intros Hn. apply PeanoNat.le_lt_n_Sm in Hn. revert c w s Hn. generalize (S n). intros fuel.
  induction fuel as [|fuel IH]; intros c w s Hf Hi; [lia|]. cbn [Wc.wc_loop].
  destruct (read_run fd 512 w c Hi ltac:(lia)) as (d & c' & Hr & -> & _ & Hne).
  erewrite ubind_Going by exact Hr. cbn [fst snd]. destruct d as [|x d].
  - destruct c' as [|y c']; [|by destruct Hne]. by eexists.
  - assert (0 <? zlen (x :: d) = true) as -> by (apply Z.ltb_lt; unfold zlen; cbn [length]; lia).
    edestruct (IH c') as (k & ->); [cbn [app length] in Hf; rewrite length_app in Hf; lia|cbn; by rewrite lookup_insert_eq|].
    exists k. cbn. by rewrite insert_insert_eq, foldl_app.
Qed.

(** wc prints the number of newlines, of words and of bytes of its input,
    whatever the sizes of the reads: a word that two reads cut counts once. *)
Theorem wc_correct n fd name c w o : (length c <= n)%nat -> zlen c < 2 ^ 31 -> w_in w !! fd = Some c -> w_out w !! 1 = Some o ->
  exists k, Wc.wc n fd name w =
    (Going tt, set_w_out (<[1 := o ++ text (lit "%d %d %d %s" ++ [10])
                                [AInt (line_count c); AInt (word_count c); AInt (zlen c); AStr (Some name)]]> (w_out w))
                 (set_w_reads k (set_w_in (<[fd := []]> (w_in w)) w))).
Proof.
  intros Hn Hl Hi Ho. unfold Wc.wc. destruct (wc_loop_run n fd c (Wc.Counts 0 0 0 false) w Hn Hi) as (k & E).
  erewrite ubind_Going by exact E. cbn [fst snd]. change (0 <? 0) with false. cbv iota. rewrite wc_counts by done.
  exists k. exact (printf_run _ _ (set_w_reads k (set_w_in (<[fd := []]> (w_in w)) w)) o Ho).
Qed.

(** ** echo *)

(** The arguments with spaces between them and a newline. *)
Definition echoed (args : list (list Z)) : list Z :=
  match args with [] => [] | a :: l => a ++ mjoin (map (cons 32) l) ++ [10] end.

Lemma echo_run args w o : w_out w !! 1 = Some o ->
  Echo.echo_main (lit "echo" :: args) w =
    (Exited 0, set_w_out (<[1 := o ++ echoed args]> (w_out w)) w).
Proof.
  unfold Echo.echo_main. cbn [tail]. revert w o. induction args as [|a args IH]; intros w o Ho; cbn [Echo.echo_args].
  { unfold exit. by rewrite app_nil_r, set_w_out_id. }
  erewrite ubind_Going by (apply write_run; exact Ho). erewrite ubind_Going by (apply write_run; cbn; by rewrite lookup_insert_eq).
  rewrite (IH _ ((o ++ a) ++ match args with [] => [10] | _ => [32] end)) by (cbn; by rewrite lookup_insert_eq).
  cbn. rewrite !insert_insert_eq. destruct args as [|b args]; cbn; [by rewrite !app_nil_r, <- app_assoc|]. by rewrite <- !app_assoc.
Qed.
