(* ===== verification/Find.v ===== *)
(** * Walking directories (user/find.c, user/ls.c)

    The file system is what open(), fstat() and read() show of it: a function
    from path names to objects with the bytes they contain.  Every level of
    find() keeps one descriptor open, so the number of free descriptors bounds
    the recursion.  The output is collected per descriptor. *)

From Stdlib Require Import ZArith Lia.
From stdpp Require Import base numbers list list_numbers gmap strings.
From S2P Require Import Prelude Cstring Bytes Kernel Console User Ulib Uprintf Fs.

(** struct stat, the fields the programs print. *)
Record stat := Stat { st_type : Z; st_ino : Z; st_size : Z }.

(** What a path opens: fstat() of it, [None] when it fails, and the contents. *)
Record object := Object { ob_stat : option stat; ob_bytes : list Z }.

(** What has been printed, and find()'s flag. *)
Record out := Out { o_out : list Z; o_err : list Z; o_found : bool }.
Definition out_nil : out := Out [] [] false.
Definition out_app (a b : out) : out := Out (o_out a ++ o_out b) (o_err a ++ o_err b) (o_found a || o_found b).
Definition say (fmt : string) (ap : list arg) : out := Out (text (lit fmt ++ [10]) ap) [] false.
Definition complain (fmt : string) (ap : list arg) : out := Out [] (text (lit fmt ++ [10]) ap) false.

(** fmtname(): the loop runs back from the end to a slash. *)
Fixpoint base_loop (before acc : list Z) : list Z :=
  match before with
  | [] => acc
  | c :: before' => if c =? 47 then acc else base_loop before' (c :: acc)
  end.
Definition base (path : list Z) : list Z := base_loop (rev path) [].

Definition fmtname (path : list Z) : list Z :=
  let p := base path in
  if DIRSIZ <=? Ulib.strlen p then p
  else p ++ replicate (Z.to_nat (DIRSIZ - Ulib.strlen p)) 32.

(** strlen(path) + 1 + DIRSIZ + 1 > sizeof buf *)
Definition too_long (path : list Z) : bool := 512 <? u32 (Ulib.strlen path + 1 + DIRSIZ + 1).

(** The loop over the directory: complete entries, from the front. *)
Fixpoint dir_loop (fuel : nat) (visit : list Z -> out) (bytes : list Z) : out :=
  match fuel with
  | O => out_nil
  | S k =>
      let de := take 16 bytes in
      if zlen de =? sizeof_dirent then out_app (visit de) (dir_loop k visit (drop 16 bytes))
      else out_nil
  end.

(** Every turn takes sixteen bytes. *)
Definition for_entries (bytes : list Z) (visit : list Z -> out) : out := dir_loop (S (length bytes)) visit bytes.

(** buf: the path, a slash and de.name. *)
Definition entry_path (path de : list Z) : list Z := path ++ [47] ++ cstr (de_name de).

Module Find.
(** The copy of the formatted name, cut at its first space. *)
Fixpoint unpad (b : list Z) : list Z :=
  match b with
  | [] => []
  | c :: b' => if c =? 32 then [] else c :: unpad b'
  end.

Definition shown_name (path : list Z) : list Z := unpad (take (Z.to_nat DIRSIZ) (fmtname path)).
Definition namecmp (path name : list Z) : Z := Ulib.strcmp (shown_name path) name.

(** The two lines printed for a file that matches. *)
Definition row (path : list Z) (s : stat) : list Z :=
  text ((lit "NAME" ++ [9] ++ lit "TYPE" ++ [9] ++ lit "INO" ++ [9] ++ lit "SIZE") ++ [10]) [] ++
  text ((lit "%s" ++ [9] ++ lit "%d" ++ [9] ++ lit "%d" ++ [9] ++ lit "%d") ++ [10])
    [AStr (Some (shown_name path)); AInt (st_type s); AInt (st_ino s); AInt (st_size s)].

(** Not "." or ".." and in use. *)
Definition followed (de : list Z) : bool :=
  negb (de_inum de =? 0) &&
  negb ((Ulib.strcmp (cstr (de_name de)) (lit ".") =? 0) || (Ulib.strcmp (cstr (de_name de)) (lit "..") =? 0)).

Section Find.
Context (fs : list Z -> option object) (name : list Z).

(** find(path, name, found) with [fds] free descriptors. *)
Fixpoint find (fds : nat) (path : list Z) : out :=
  match fds, fs path with
  | S fds', Some ob =>
      match ob_stat ob with
      | None => complain "find: cannot stat %s" [AStr (Some path)]
      | Some s =>
          if st_type s =? T_FILE then
            if namecmp path name =? 0 then Out (row path s) [] true else out_nil
          else if st_type s =? T_DIR then
            if too_long path then say "find: path too long" []
            else for_entries (ob_bytes ob) (fun de => if followed de then find fds' (entry_path path de) else out_nil)
          else out_nil
      end
  | _, _ => complain "find: cannot open %s" [AStr (Some path)]
  end.
End Find.

(** Always exit(0). *)
Definition find_main (fs : list Z -> option object) (fds : nat) (argv : list (list Z)) : out :=
  match argv with
  | [_; path; name] =>
      if negb (nthZ 0 path 0 =? 47) && negb (nthZ 0 path 0 =? 46) then
        say "find : first argument must be a path, you gave %s" [AStr (Some path)]
      else
        let o := find fs name fds path in
        if negb (o_found o) then out_app o (say "find : %s not found!" [AStr (Some name)]) else o
  | _ => say "Usage : find <path> <nam>" []
  end.
End Find.

Module Ls.
Section Ls.
Context (fs : list Z -> option object).

(** stat() of user/ulib.c. *)
Definition stat_of (fds : nat) (path : list Z) : option stat :=
  match fds, fs path with
  | S _, Some ob => ob_stat ob
  | _, _ => None
  end.

Definition ls (fds : nat) (path : list Z) : out :=
  match fds, fs path with
  | S fds', Some ob =>
      match ob_stat ob with
      | None => complain "ls: cannot stat %s" [AStr (Some path)]
      | Some s =>
          if (st_type s =? T_DEVICE) || (st_type s =? T_FILE) then
            say "%s %d %d %l" [AStr (Some (fmtname path)); AInt (st_type s); AInt (st_ino s); APtr (st_size s)]
          else if st_type s =? T_DIR then
            if too_long path then say "ls: path too long" []
            else for_entries (ob_bytes ob) (fun de =>
              if de_inum de =? 0 then out_nil
              else let buf := entry_path path de in
                match stat_of fds' buf with
                | None => say "ls: cannot stat %s" [AStr (Some buf)]
                | Some e => say "%s %d %d %d" [AStr (Some (fmtname buf)); AInt (st_type e); AInt (st_ino e); AInt (st_size e)]
                end)
          else out_nil
      end
  | _, _ => complain "ls: cannot open %s" [AStr (Some path)]
  end.

Fixpoint ls_args (fds : nat) (args : list (list Z)) : out :=
  match args with [] => out_nil | a :: args' => out_app (ls fds a) (ls_args fds args') end.

Definition ls_main (fds : nat) (argv : list (list Z)) : out :=
  match argv with
  | _ :: (_ :: _) as args => ls_args fds args
  | _ => ls fds (lit ".")
  end.
End Ls.
End Ls.

(** ** What find() reports *)

#[local] Opaque text.
#[local] Transparent slice.

(** A complete entry of a directory. *)
Definition entry (bytes e : list Z) : Prop := exists i, e = take 16 (drop (16 * i) bytes) /\ length e = 16%nat.

Lemma entry_inv bytes e : entry bytes e -> length (take 16 bytes) = 16%nat /\ (e = take 16 bytes \/ entry (drop 16 bytes) e).
Proof.
  intros ([|i] & -> & Hl).
  - rewrite Nat.mul_0_r, drop_0 in *. split; [done|by left].
  - split; [rewrite length_take, length_drop in Hl; rewrite length_take; lia|]. right. exists i. rewrite drop_drop. split; [do 2 f_equal; lia|done].
Qed.

Lemma dir_loop_entry visit fuel : forall bytes e, (length bytes < fuel)%nat -> entry bytes e ->
  exists a b, dir_loop fuel visit bytes = out_app a (out_app (visit e) b).
Proof.
  induction fuel as [|fuel IH]; intros bytes e Hf He; [lia|]. cbn [dir_loop]. apply entry_inv in He as [Hl He].
  unfold zlen. rewrite Hl. change (Z.of_nat 16 =? sizeof_dirent) with true. cbv iota. destruct He as [->|He].
  - by exists out_nil, (dir_loop fuel visit (drop 16 bytes)).
  - apply IH in He as (a & b & ->); [|rewrite length_take in Hl; rewrite length_drop; lia]. exists (out_app (visit (take 16 bytes)) a), b. unfold out_app. cbn. by rewrite <- !app_assoc, !orb_assoc.
Qed.

Lemma dir_loop_found visit fuel : forall bytes, o_found (dir_loop fuel visit bytes) = true ->
  exists e, entry bytes e /\ o_found (visit e) = true.
Proof.
  induction fuel as [|fuel IH]; intros bytes; cbn [dir_loop]; [done|].
  destruct (Z.eqb_spec (zlen (take 16 bytes)) sizeof_dirent) as [Hl|]; [|done]. unfold sizeof_dirent, zlen in Hl. cbn [out_app o_found].
  intros [H|H]%orb_true_iff.
  - exists (take 16 bytes). split; [|done]. exists 0%nat. rewrite Nat.mul_0_r, drop_0. split; [done|lia].
  - apply IH in H as (e & (i & -> & Hi) & H). eexists. split; [|exact H]. exists (S i). rewrite drop_drop. split; [do 2 f_equal; lia|].
    rewrite drop_drop in Hi. exact Hi.
Qed.

(** ** Names *)

Lemma base_loop_app l r acc : 47 ∉ l -> base_loop (l ++ r) acc = base_loop r (rev l ++ acc).
Proof.
  revert acc. induction l as [|x l IH]; intros acc Hl; [done|]. apply not_elem_of_cons in Hl as [Hx Hl]. cbn [app base_loop rev].
  destruct (Z.eqb_spec x 47); [congruence|]. rewrite IH by done. by rewrite <- app_assoc.
Qed.

Lemma base_entry path nm : 47 ∉ nm -> base (path ++ [47] ++ nm) = nm.
Proof.
  intros Hn. unfold base. rewrite !rev_app_distr, <- app_assoc. rewrite base_loop_app by (intros Hin; apply Hn; rewrite !list_elem_of_In in *; by apply in_rev).
  cbn [rev app base_loop]. by rewrite rev_involutive, app_nil_r.
Qed.

(** Characters of names: no NUL, no space, no slash. *)
Definition plain (nm : list Z) : Prop := Forall (fun x => 0 < x < 256 /\ x <> 32 /\ x <> 47) nm.

Lemma plain_no_slash nm : plain nm -> 47 ∉ nm.
Proof. unfold plain. rewrite Forall_forall. intros H Hin. by destruct (H 47 Hin) as (_ & _ & ?). Qed.

Lemma strlen_zlen s : zlen s < 2 ^ 32 -> Ulib.strlen s = zlen s.
Proof.
  induction s as [|x s IH]; [done|]. unfold zlen in *. cbn [length Ulib.strlen]. intros H. rewrite IH by lia.
  change (2 ^ 32) with 4294967296 in H. unfold u32. rewrite Z.mod_small by (change (2 ^ 32) with 4294967296; lia). lia.
Qed.

Lemma unpad_app nm l : plain nm -> Find.unpad (nm ++ l) = nm ++ Find.unpad l.
Proof. induction 1 as [|x nm [_ [Hx _]] _ IH]; [done|]. cbn [app Find.unpad]. destruct (Z.eqb_spec x 32); [done|]. by rewrite IH. Qed.

Lemma strcmp_zero p q : Forall (fun x => 0 < x < 256) p -> Forall (fun x => 0 < x < 256) q -> Ulib.strcmp p q = 0 <-> p = q.
Proof.
  intros Hp. revert q. induction Hp as [|x p Hx Hp IH]; intros q Hq; destruct Hq as [|y q Hy Hq]; cbn [Ulib.strcmp]; [done| | |];
    assert (Hu : forall z, 0 < z < 256 -> u8 z = z) by (intros z Hz; unfold u8; by rewrite Z.mod_small by lia).
  - rewrite Hu by done. split; [lia|done].
  - rewrite Hu by done. split; [lia|done].
  - rewrite !Hu by done. destruct (Z.eqb_spec x y) as [->|Hne]; [rewrite IH by done; split; congruence|]. split; [lia|congruence].
Qed.

(** The padding goes on and comes off. *)
Lemma shown_base p : plain (base p) -> zlen (base p) <= DIRSIZ -> Find.shown_name p = base p.
Proof.
  intros Hp Hl. unfold Find.shown_name, fmtname. rewrite strlen_zlen by (unfold DIRSIZ in Hl; lia). unfold DIRSIZ, zlen in *.
  destruct (Z.leb_spec 14 (Z.of_nat (length (base p)))).
  - rewrite take_ge by lia. rewrite <- (app_nil_r (base p)) at 1. rewrite unpad_app by done. apply app_nil_r.
  - rewrite take_ge by (rewrite length_app, length_replicate; lia). rewrite unpad_app by done.
    destruct (Z.to_nat (14 - _)) eqn:E; [lia|]. cbn. apply app_nil_r.
Qed.

Lemma namecmp_base p name : plain (base p) -> zlen (base p) <= DIRSIZ -> Forall (fun x => 0 < x < 256) name ->
  Find.namecmp p name = 0 <-> base p = name.
Proof.
  intros Hp Hl Hn. unfold Find.namecmp. rewrite shown_base by done. apply strcmp_zero; [|done]. eapply Forall_impl; [exact Hp|]. naive_solver.
Qed.

Lemma cstr_length l : (length (cstr l) <= length l)%nat.
Proof. induction l as [|x l IH]; [done|]. cbn. destruct (x =? 0); cbn; lia. Qed.

Section FindProof.
Context (fs : list Z -> option object) (name : list Z).

Definition is_dir (path : list Z) (bytes : list Z) : Prop :=
  exists s, fs path = Some (Object (Some s) bytes) /\ st_type s = T_DIR.
Definition is_file (path : list Z) (s : stat) : Prop :=
  exists bytes, fs path = Some (Object (Some s) bytes) /\ st_type s = T_FILE.

(** [q] lies below [p], with at most [n] paths from [p] to [q] counting both. *)
Inductive reach : nat -> list Z -> list Z -> Prop :=
| reach_here n p : reach (S n) p p
| reach_below n p bytes e q : is_dir p bytes -> too_long p = false -> entry bytes e -> Find.followed e = true ->
    reach n (entry_path p e) q -> reach (S n) p q.

Lemma find_shows fds p q s : reach fds p q -> is_file q s -> Find.namecmp q name = 0 ->
  o_found (Find.find fs name fds p) = true /\ exists a b, o_out (Find.find fs name fds p) = a ++ Find.row q s ++ b.
Proof.
  intros Hr (c & Hq & Ht) Hn. induction Hr as [n q|n p bytes e q (t & Hp & Hd) Hl He Hf Hr IH].
  - cbn [Find.find]. rewrite Hq. cbn [ob_stat]. rewrite Ht, Z.eqb_refl, Hn, Z.eqb_refl. split; [done|]. exists [], []. by rewrite app_nil_r.
  - destruct (IH Hq Hn) as (Hfd & a & b & Ho). cbn [Find.find]. rewrite Hp. cbn [ob_stat ob_bytes]. rewrite Hd, Hl. change (T_DIR =? T_FILE) with false. rewrite Z.eqb_refl.
    cbv iota. edestruct dir_loop_entry as (x & y & E); [|exact He|unfold for_entries; rewrite E]; [lia|]. cbv beta. rewrite Hf. cbn [out_app o_found o_out]. rewrite Hfd, Ho.
    split; [by destruct (o_found x)|]. exists (o_out x ++ a), (b ++ o_out y). by rewrite <- !app_assoc.
Qed.

Lemma find_only fds : forall p, o_found (Find.find fs name fds p) = true ->
  exists q s, reach fds p q /\ is_file q s /\ Find.namecmp q name = 0.
Proof.
  induction fds as [|n IH]; intros p; cbn [Find.find]; [done|].
  destruct (fs p) as [[[s|] bytes]|] eqn:Hp; cbn [ob_stat ob_bytes]; [|done|done].
  destruct (Z.eqb_spec (st_type s) T_FILE) as [Ht|Ht].
  - destruct (Z.eqb_spec (Find.namecmp p name) 0) as [Hn|]; [|done]. intros _. exists p, s. split; [constructor|]. by split; [exists bytes|].
  - destruct (Z.eqb_spec (st_type s) T_DIR) as [Hd|]; [|done]. destruct (too_long p) eqn:Hl; [done|]. intros H.
    apply dir_loop_found in H as (e & He & H). destruct (Find.followed e) eqn:Hf; [|done]. apply IH in H as (q & t & Hr & Hq).
    exists q, t. split; [|done]. eapply reach_below; try done. by exists s.
Qed.

(** The names in directories. *)
Definition plain_dirs : Prop := forall p bytes e, is_dir p bytes -> entry bytes e -> Find.followed e = true -> plain (cstr (de_name e)).

Lemma reach_base fds p q : plain_dirs -> plain (base p) /\ zlen (base p) <= DIRSIZ -> reach fds p q -> plain (base q) /\ zlen (base q) <= DIRSIZ.
Proof.
  intros Hd Hp Hr. induction Hr as [|n p bytes e q Hi Hl He Hf Hr IH]; [done|]. apply IH. pose proof (Hd _ _ _ Hi He Hf) as Hn.
  unfold entry_path. rewrite base_entry by (by apply plain_no_slash). split; [done|]. unfold zlen. pose proof (cstr_length (de_name e)).
  unfold de_name, DIRSIZ, slice in *. rewrite length_take in H. lia.
Qed.

(** find reports a file exactly when one of the given name lies below the path
    within the depth the free descriptors allow, following no entry . or ..
    and no path too long for its buffer; it prints the line of each one. *)
Theorem find_correct fds path : plain_dirs -> plain (base path) -> zlen (base path) <= DIRSIZ -> Forall (fun x => 0 < x < 256) name ->
  (o_found (Find.find fs name fds path) = true <-> exists q s, reach fds path q /\ is_file q s /\ base q = name) /\
  (forall q s, reach fds path q -> is_file q s -> base q = name ->
     exists a b, o_out (Find.find fs name fds path) = a ++ Find.row q s ++ b).
Proof.
  intros Hd Hp Hl Hn. assert (Hb : forall q, reach fds path q -> Find.namecmp q name = 0 <-> base q = name).
  { intros q Hr. destruct (reach_base _ _ _ Hd (conj Hp Hl) Hr). by apply namecmp_base. }
  split; [split|].
  - intros H. apply find_only in H as (q & s & Hr & Hq & Hc). exists q, s. by rewrite <- Hb.
  - intros (q & s & Hr & Hq & Hc). eapply (find_shows fds path q s); [done|done|by apply Hb].
  - intros q s Hr Hq Hc. eapply find_shows; [done|done|by apply Hb].
Qed.
End FindProof.

(** A name is compared only up to its first space. *)
Lemma find_space : Find.namecmp (lit "/a b") (lit "a") = 0.
Proof. reflexivity. Qed.
