(* ===== verification/Tools.v ===== *)
(** * Programs that are sequences of system calls
    (user/init.c, kill.c, ln.c, mkdir.c, rm.c, sleep.c, uptime.c, ps.c,
    pstree.c, zombie.c)

    A run is the list of the calls made with the values they returned; the
    kernel is any function that answers a call from what happened before. *)

From Stdlib Require Import ZArith Lia.
From stdpp Require Import base numbers list list_numbers gmap strings.
From S2P Require Import Prelude Cstring Kernel Console User Ulib Uprintf.

Inductive call :=
| COpen (path : list Z) (mode : Z) | CMknod (path : list Z) (major minor : Z) | CDup (fd : Z)
| CWrite (fd : Z) (bytes : list Z)
| CFork | CExec (path : list Z) (argv : list (list Z)) | CWait
| CKill (pid : Z) | CSleep (n : Z) | CUptime | CPs | CPstree
| CLink (old new : list Z) | CMkdir (path : list Z) | CUnlink (path : list Z).

Notation trace := (list (call * Z)).

Section Programs.
(** What the kernel returns for a call after the ones made before. *)
Context (kernel : trace -> call -> Z).

Definition P (A : Type) : Type := trace -> res A * trace.
Definition pret {A} (a : A) : P A := fun t => (Going a, t).
Definition pbind {A B} (m : P A) (k : A -> P B) : P B := fun t =>
  match m t with
  | (Going a, t') => k a t'
  | (Exited st, t') => (Exited st, t')
  end.
Definition pexit {A} (status : Z) : P A := fun t => (Exited status, t).
Definition sys (c : call) : P Z := fun t => (Going (kernel t c), t ++ [(c, kernel t c)]).

Notation "'do' x := m 'in' k" := (pbind m (fun x => k)) (at level 200, x name, m at level 100, k at level 200, right associativity).
Notation "m ;; k" := (pbind m (fun _ => k)) (at level 100, k at level 200, right associativity).

(** fprintf(): its text, in one call here. *)
Definition print (fd : Z) (fmt : string) (ap : list arg) : P Z := sys (CWrite fd (text (lit fmt ++ [10]) ap)).

(** ** user/kill.c, ln.c, mkdir.c, rm.c, sleep.c, uptime.c, ps.c, pstree.c, zombie.c *)

Fixpoint kill_args (args : list (list Z)) : P unit :=
  match args with
  | [] => pexit 0
  | a :: args' => sys (CKill (Ulib.atoi a)) ;; kill_args args'
  end.
Definition kill_main (args : list (list Z)) : P unit :=
  match args with
  | [] => print 2 "usage: kill pid..." [] ;; pexit 1
  | _ => kill_args args
  end.

Definition ln_main (args : list (list Z)) : P unit :=
  match args with
  | [old; new] =>
      do r := sys (CLink old new) in
      (if r <? 0 then print 2 "link %s %s: failed" [AStr (Some old); AStr (Some new)] else pret 0) ;;
      pexit 0
  | _ => print 2 "Usage: ln old new" [] ;; pexit 1
  end.

Fixpoint mkdir_args (args : list (list Z)) : P unit :=
  match args with
  | [] => pexit 0
  | a :: args' =>
      do r := sys (CMkdir a) in
      if r <? 0 then print 2 "mkdir: %s failed to create" [AStr (Some a)] ;; pexit 0 else mkdir_args args'
  end.
Definition mkdir_main (args : list (list Z)) : P unit :=
  match args with
  | [] => print 2 "Usage: mkdir files..." [] ;; pexit 1
  | _ => mkdir_args args
  end.

Fixpoint rm_args (args : list (list Z)) : P unit :=
  match args with
  | [] => pexit 0
  | a :: args' =>
      do r := sys (CUnlink a) in
      if r <? 0 then print 2 "rm: %s failed to delete" [AStr (Some a)] ;; pexit 0 else rm_args args'
  end.
Definition rm_main (args : list (list Z)) : P unit :=
  match args with
  | [] => print 2 "Usage: rm files..." [] ;; pexit 1
  | _ => rm_args args
  end.

Definition sleep_main (args : list (list Z)) : P unit :=
  match args with
  | [a] => sys (CSleep (Ulib.atoi a)) ;; pexit 0
  | _ => print 2 "Usage: sleep <number>" [] ;; pexit 1
  end.

Definition uptime_main (args : list (list Z)) : P unit :=
  match args with
  | [] => do t := sys CUptime in print 1 "uptime: %d" [AInt t] ;; pexit 0
  | _ => print 2 "Usage: uptime" [] ;; pexit 1
  end.

Definition ps_main (args : list (list Z)) : P unit :=
  match args with
  | [] => sys CPs ;; pexit 0
  | _ => print 2 "Usage: ps" [] ;; pexit 1
  end.
Definition pstree_main (args : list (list Z)) : P unit :=
  match args with
  | [] => sys CPstree ;; pexit 0
  | _ => print 2 "Usage: pstree" [] ;; pexit 1
  end.

Definition zombie_main : P unit :=
  do pid := sys CFork in
  (if 0 <? pid then sys (CSleep 5) else pret 0) ;; pexit 0.

(** ** user/init.c *)

Definition O_RDWR : Z := 2.
Definition CONSOLE : Z := 1.

(** At the top of the outer loop, or of the inner one. *)
Inductive init_pc := Starting | Waiting (pid : Z).

Definition init_setup : P unit :=
  do fd := sys (COpen (lit "console") O_RDWR) in
  (if fd <? 0 then sys (CMknod (lit "console") CONSOLE 0) ;; sys (COpen (lit "console") O_RDWR) else pret 0) ;;
  sys (CDup 0) ;; sys (CDup 0) ;; pret tt.

Definition init_turn (pc : init_pc) : P init_pc :=
  match pc with
  | Starting =>
      print 1 "init: starting sh" [] ;;
      do pid := sys CFork in
      if pid <? 0 then print 1 "init: fork failed" [] ;; pexit 1
      else if pid =? 0 then
        sys (CExec (lit "sh") [lit "sh"]) ;; print 1 "init: exec sh failed" [] ;; pexit 1
      else pret (Waiting pid)
  | Waiting pid =>
      do wpid := sys CWait in
      if wpid =? pid then pret Starting
      else if wpid <? 0 then print 1 "init: wait returned an error" [] ;; pexit 1
      else pret (Waiting pid)
  end.

(** The first [n] turns of the loops, which never end by themselves. *)
Fixpoint init_loop (n : nat) (pc : init_pc) : P init_pc :=
  match n with
  | O => pret pc
  | S k => do pc' := init_turn pc in init_loop k pc'
  end.

Definition init_main (n : nat) : P init_pc := init_setup ;; init_loop n Starting.

(** ** What they do *)

#[local] Opaque text.

(** rm and mkdir make the calls in order up to the first that fails. *)
Definition upto_failure (c : list Z -> call) : trace -> list (list Z) -> trace :=
  fix go t args := match args with
  | [] => []
  | a :: args' =>
      let r := kernel t (c a) in
      (c a, r) :: (if r <? 0 then [] else go (t ++ [(c a, r)]) args')
  end.

Definition is_print (e : call * Z) : bool := match fst e with CWrite _ _ => true | _ => false end.

Lemma rm_calls args t : exists t', rm_args args t = (Exited 0, t ++ t') /\
  List.filter (fun e => negb (is_print e)) t' = upto_failure CUnlink t args.
Proof.
  revert t. induction args as [|a args IH]; intros t; cbn [rm_args upto_failure].
  { exists []. by rewrite app_nil_r. }
  unfold pbind, sys. destruct (kernel t (CUnlink a) <? 0) eqn:E.
  - unfold print, sys, pexit. eexists. rewrite <- app_assoc. split; [reflexivity|]. done.
  - edestruct IH as (t' & -> & Ht). eexists. rewrite <- app_assoc. split; [reflexivity|]. cbn. by rewrite Ht.
Qed.

Lemma mkdir_calls args t : exists t', mkdir_args args t = (Exited 0, t ++ t') /\
  List.filter (fun e => negb (is_print e)) t' = upto_failure CMkdir t args.
Proof.
  revert t. induction args as [|a args IH]; intros t; cbn [mkdir_args upto_failure].
  { exists []. by rewrite app_nil_r. }
  unfold pbind, sys. destruct (kernel t (CMkdir a) <? 0) eqn:E.
  - unfold print, sys, pexit. eexists. rewrite <- app_assoc. split; [reflexivity|]. done.
  - edestruct IH as (t' & -> & Ht). eexists. rewrite <- app_assoc. split; [reflexivity|]. cbn. by rewrite Ht.
Qed.

(** The shell of a run: forked, and not returned by a wait() since. *)
Definition shell_after (s : option Z) (e : call * Z) : option Z :=
  match fst e with
  | CFork => if 0 <? snd e then Some (snd e) else s
  | CWait => if bool_decide (s = Some (snd e)) then None else s
  | _ => s
  end.
Definition shell_of (t : trace) : option Z := foldl shell_after None t.

(** A call that failed: in init fork() or wait(), or exec(), in the child. *)
Definition failed (t : trace) : Prop :=
  exists c r, (c, r) ∈ t /\ (c = CFork /\ r < 0 \/ c = CWait /\ r < 0 \/ c = CFork /\ r = 0).

Lemma init_turn_ok pc t : shell_of t = match pc with Starting => None | Waiting pid => Some pid end ->
  (exists pc' t', init_turn pc t = (Going pc', t') /\ shell_of t' = match pc' with Starting => None | Waiting pid => Some pid end) \/
  (exists t', init_turn pc t = (Exited 1, t') /\ failed t').
Proof.
  intros Hs. destruct pc as [|pid]; cbn [init_turn]; unfold print, pbind, sys, pret, pexit.
  - set (t1 := t ++ [_]). assert (H1 : shell_of t1 = None) by (unfold t1, shell_of; rewrite foldl_app; exact Hs).
    destruct (Z.ltb_spec (kernel t1 CFork) 0) as [Hn|Hn].
    + right. eexists. split; [reflexivity|]. exists CFork, (kernel t1 CFork). split; [set_solver|by left].
    + destruct (Z.eqb_spec (kernel t1 CFork) 0) as [Hz|Hz].
      * right. eexists. split; [reflexivity|]. exists CFork, (kernel t1 CFork). split; [set_solver|by right; right].
      * left. eexists _, _. split; [reflexivity|]. unfold shell_of. rewrite foldl_app. cbn. destruct (Z.ltb_spec 0 (kernel t1 CFork)); [done|lia].
  - destruct (Z.eqb_spec (kernel t CWait) pid) as [He|He].
    + left. eexists _, _. split; [reflexivity|]. unfold shell_of in *. rewrite foldl_app, Hs. cbn. by rewrite He, bool_decide_true.
    + destruct (Z.ltb_spec (kernel t CWait) 0) as [Hn|Hn].
      * right. eexists. split; [reflexivity|]. exists CWait, (kernel t CWait). split; [set_solver|by right; left].
      * left. eexists _, _. split; [reflexivity|]. unfold shell_of in *. rewrite foldl_app, Hs. cbn. rewrite bool_decide_false by congruence. done.
Qed.

(** init starts a shell again whenever its shell has exited, waits for every
    other orphan, and goes on for ever unless a fork() or wait() fails or it is
    the child whose exec() has returned. *)
Theorem init_correct n :
  (exists pc t, init_main n [] = (Going pc, t) /\ shell_of t = match pc with Starting => None | Waiting pid => Some pid end) \/
  (exists t, init_main n [] = (Exited 1, t) /\ failed t).
Proof.
  assert (H0 : exists t, init_setup [] = (Going tt, t) /\ shell_of t = None).
  { unfold init_setup, pbind, sys, pret. destruct (_ <? 0); eexists; (split; [reflexivity|done]). }
  destruct H0 as (t & Hi & Hs). unfold init_main, pbind. rewrite Hi. clear Hi.
  assert (H : shell_of t = match Starting with Starting => None | Waiting pid => Some pid end) by done. clear Hs.
  revert H. generalize Starting as pc. revert t. induction n as [|n IH]; intros t pc H; cbn [init_loop]; [left; by exists pc, t|].
  unfold pbind. destruct (init_turn_ok pc t H) as [(pc' & t' & E & H')|(t' & E & H')]; rewrite E; [by apply IH|]. right. by exists t'.
Qed.
End Programs.
