(* ===== verification/Umalloc.v ===== *)
(** * The user memory allocator (user/umalloc.c)

    Headers live in byte memory, 16 bytes each: the next pointer at 0, the size
    in units of 16 bytes at 8.  Free blocks form a circular list in address
    order through the header [base].  Below the model, the theorems describe
    the heap by the list [fs] of free blocks and the list [al] of allocated
    ones, each an address and a size. *)

From Stdlib Require Import ZArith Lia.
From stdpp Require Import base numbers list list_numbers gmap.
From S2P Require Import Prelude Cstring.

Record heap := Heap {
  hmem : mem;
  freep : Z;
  brk : Z         (** the end of the process's memory, moved by sbrk() *)
}.

Definition set_hmem x (h : heap) := Heap x (freep h) (brk h).
Definition set_freep x (h : heap) := Heap (hmem h) x (brk h).
Definition set_brk x (h : heap) := Heap (hmem h) (freep h) x.

Definition HEADER : Z := 16.
Definition hptr (m : mem) (p : Z) : Z := load64 m p.
Definition hsize (m : mem) (p : Z) : Z := load32 m (p + 8).
Definition set_ptr (m : mem) (p v : Z) : mem := store64 m p v.
Definition set_size (m : mem) (p v : Z) : mem := store32 m (p + 8) v.

(** ** The program *)

Section Umalloc.
(** &base, and how far the kernel lets the process grow. *)
Variables (base limit : Z).

(** The sbrk() system call: growproc() grows or shrinks the process; the old
    break, or -1. *)
Definition sbrk (n : Z) (h : heap) : Z * heap :=
  let n := s32 n in
  if 0 <? n then
    if limit <? brk h + n then (-1, h) else (brk h, set_brk (brk h + n) h)
  else (brk h, if u64 (brk h + n) <? brk h then set_brk (u64 (brk h + n)) h else h).

(** The search loop of free(): both ways out of it. *)
Definition free_stop (m : mem) (bp p : Z) : bool :=
  (p <? bp) && (bp <? hptr m p) || (hptr m p <=? p) && ((p <? bp) || (bp <? hptr m p)).

Fixpoint free_find (fuel : nat) (m : mem) (bp p : Z) : option Z :=
  match fuel with
  | O => None
  | S k => if free_stop m bp p then Some p else free_find k m bp (hptr m p)
  end.

(** Linking bp after p, merged with its neighbours where they touch. *)
Definition free_link (m : mem) (bp p : Z) : mem :=
  let m :=
    if bp + HEADER * hsize m bp =? hptr m p then
      let m' := set_size m bp (hsize m bp + hsize m (hptr m p)) in
      set_ptr m' bp (hptr m' (hptr m' p))
    else set_ptr m bp (hptr m p) in
  if p + HEADER * hsize m p =? bp then
    let m' := set_size m p (hsize m p + hsize m bp) in
    set_ptr m' p (hptr m' bp)
  else set_ptr m p bp.

(** [None] when [fuel] turns of the loop are not enough. *)
Definition free (fuel : nat) (ap : Z) (h : heap) : option heap :=
  let bp := ap - HEADER in
  match free_find fuel (hmem h) bp (freep h) with
  | Some p => Some (Heap (free_link (hmem h) bp p) p (brk h))
  | None => None
  end.

Definition morecore (fuel : nat) (nu : Z) (h : heap) : option (Z * heap) :=
  let nu := if nu <? 4096 then 4096 else nu in
  let '(p, h) := sbrk (nu * HEADER) h in
  if p =? -1 then Some (0, h)
  else match free fuel (p + HEADER) (set_hmem (set_size (hmem h) p nu) h) with
       | Some h => Some (freep h, h)
       | None => None
       end.

(** Taking [nunits] from the block p, which prevp points to. *)
Definition take_block (nunits prevp p : Z) (h : heap) : Z * heap :=
  let m := hmem h in
  if hsize m p =? nunits then (p + HEADER, Heap (set_ptr m prevp (hptr m p)) prevp (brk h))
  else
    let m := set_size m p (hsize m p - nunits) in
    let p := p + HEADER * hsize m p in
    (p + HEADER, Heap (set_size m p nunits) prevp (brk h)).

Fixpoint malloc_loop (fuel : nat) (nunits prevp p : Z) (h : heap) : option (Z * heap) :=
  match fuel with
  | O => None
  | S k =>
      if nunits <=? hsize (hmem h) p then Some (take_block nunits prevp p h)
      else if p =? freep h then
        match morecore k nunits h with
        | None => None
        | Some (p, h) => if p =? 0 then Some (0, h) else malloc_loop k nunits p (hptr (hmem h) p) h
        end
      else malloc_loop k nunits p (hptr (hmem h) p) h
  end.

Definition nunits_of (nbytes : Z) : Z := u32 ((nbytes + HEADER - 1) / HEADER + 1).

Definition malloc (fuel : nat) (nbytes : Z) (h : heap) : option (Z * heap) :=
  let nunits := nunits_of nbytes in
  let h :=
    if freep h =? 0 then Heap (set_size (set_ptr (hmem h) base base) base 0) base (brk h) else h in
  malloc_loop fuel nunits (freep h) (hptr (hmem h) (freep h)) h.
End Umalloc.

(** ** Headers in memory *)

Lemma hptr_range m p : 0 <= hptr m p < 2 ^ 64.
Proof. apply load64_range. Qed.

Lemma hptr_set_ptr m p v : hptr (set_ptr m p v) p = u64 v.
Proof. apply load64_store64_eq. Qed.

Lemma hsize_set_size m p v : hsize (set_size m p v) p = u32 v.
Proof. apply load32_store32_eq. Qed.

(** Two headers are the same or do not overlap. *)
Definition apart_at (p q : Z) : Prop := p + 16 <= q \/ q + 16 <= p.

Lemma hptr_set_ptr_ne m p q v : apart_at p q -> hptr (set_ptr m p v) q = hptr m q.
Proof. unfold apart_at. intros. apply load64_store64_ne. lia. Qed.

Lemma hsize_set_ptr m p q v : p = q \/ apart_at p q -> hsize (set_ptr m p v) q = hsize m q.
Proof. unfold apart_at. intros. apply load32_ext. intros. apply load8_store64_out. lia. Qed.

Lemma hptr_set_size m p q v : p = q \/ apart_at p q -> hptr (set_size m p v) q = hptr m q.
Proof. unfold apart_at. intros. apply load64_ext. intros. apply load8_store32_out. lia. Qed.

Lemma hsize_set_size_ne m p q v : apart_at p q -> hsize (set_size m p v) q = hsize m q.
Proof. unfold apart_at. intros. apply load32_ext. intros. apply load8_store32_out. lia. Qed.

(** A change of memory confined to the 16 bytes of some headers. *)
Definition confined (ps : list Z) (m m' : mem) : Prop :=
  forall x, (forall p, p ∈ ps -> ~ (p <= x < p + 16)) -> load8 m' x = load8 m x.

Lemma confined_refl ps m : confined ps m m.
Proof. done. Qed.

Lemma confined_trans ps m1 m2 m3 : confined ps m1 m2 -> confined ps m2 m3 -> confined ps m1 m3.
Proof. intros H1 H2 x Hx. rewrite H2, H1 by done. done. Qed.

Lemma confined_set_ptr ps m p v : p ∈ ps -> confined ps m (set_ptr m p v).
Proof. intros Hp x Hx. apply load8_store64_out. specialize (Hx p Hp). lia. Qed.

Lemma confined_set_size ps m p v : p ∈ ps -> confined ps m (set_size m p v).
Proof. intros Hp x Hx. apply load8_store32_out. specialize (Hx p Hp). lia. Qed.

#[export] Hint Resolve confined_refl confined_set_ptr confined_set_size : core.

Lemma confined_header ps m m' q : confined ps m m' -> (forall p, p ∈ ps -> apart_at p q) -> hptr m' q = hptr m q /\ hsize m' q = hsize m q.
Proof.
  unfold apart_at. intros Hc Hq. split; [apply load64_ext|apply load32_ext]; intros x Hx; apply Hc; intros p Hp;
    specialize (Hq p Hp); lia.
Qed.

(** ** Circular lists *)

(** The nodes of [L] point each to the next and the last one to [f]. *)
Fixpoint links (m : mem) (L : list Z) (f : Z) : Prop :=
  match L with
  | [] => True
  | a :: t => hptr m a = hd f t /\ links m t f
  end.

Lemma links_app m A B f : links m (A ++ B) f <-> links m A (hd f B) /\ links m B f.
Proof.
  induction A as [|a A IH]; cbn; [tauto|]. rewrite IH. destruct A; cbn; tauto.
Qed.

Lemma links_rotate m A B f : hd f (A ++ B) = f -> links m (A ++ B) f -> links m (B ++ A) (hd f (B ++ A)).
Proof.
  rewrite !links_app. intros Hf [HA HB]. destruct A as [|a A]; cbn in *.
  - rewrite app_nil_r. destruct B; cbn in *; subst; tauto.
  - subst a. destruct B as [|b B]; cbn in *; tauto.
Qed.

Lemma links_ext m m' L f : (forall x, x ∈ L -> hptr m' x = hptr m x) -> links m L f -> links m' L f.
Proof.
  induction L as [|a L IH]; cbn; [done|]. intros H [H1 H2]. split; [rewrite H by (by left); done|].
  apply IH; [|done]. intros x Hx. apply H. by right.
Qed.

(** The node that precedes another one is unique. *)
Lemma links_next m L f x : links m L f -> x ∈ L -> hptr m x ∈ tail L ++ [f].
Proof.
  induction L as [|a L IH]; cbn; [by intros _ ?%elem_of_nil|]. intros [H1 H2] Hx. apply elem_of_cons in Hx as [->|Hx].
  - rewrite H1. destruct L; cbn; by left.
  - specialize (IH H2 Hx). destruct L; cbn in *; [done|]. by right.
Qed.

Lemma links_inj m L f x y : links m L f -> NoDup L -> f ∉ tail L -> x ∈ L -> y ∈ L -> hptr m x = hptr m y -> x = y.
Proof.
  induction L as [|a L IH]; cbn; [by intros _ _ _ ?%elem_of_nil|]. intros [H1 H2] [Ha Hn]%NoDup_cons Hf.
  assert (Hd : forall z, z ∈ L -> hptr m z <> hd f L).
  { intros z Hz E. pose proof (links_next _ _ _ _ H2 Hz) as Hin. rewrite E in Hin. destruct L as [|b L]; [by apply elem_of_nil in Hz|].
    cbn in Hin. apply NoDup_cons in Hn as [Hb _]. apply elem_of_app in Hin as [?|Hin]; [done|]. apply list_elem_of_singleton in Hin. subst.
    apply Hf. by left. }
  rewrite !elem_of_cons. intros [->|Hx] [->|Hy] E; [done| | |].
  - exfalso. apply (Hd y Hy). congruence.
  - exfalso. apply (Hd x Hx). congruence.
  - apply IH; try done. intros Hin. apply Hf. destruct L; [done|]. by right.
Qed.

(** ** Blocks *)

Notation blk := (Z * Z)%type.
Definition bend (b : blk) : Z := b.1 + 16 * b.2.
Definition apart (b c : blk) : Prop := bend b <= c.1 \/ bend c <= b.1.
Definition covers (b : blk) (x : Z) : Prop := b.1 <= x < bend b.
Definition covered (bs : list blk) (x : Z) : Prop := exists b, b ∈ bs /\ covers b x.

Lemma covered_nil x : covered [] x <-> False.
Proof. split; [|done]. by intros (b & Hb%elem_of_nil & _). Qed.

Lemma covered_cons b bs x : covered (b :: bs) x <-> covers b x \/ covered bs x.
Proof.
  unfold covered. split.
  - intros (c & [->|Hc]%elem_of_cons & Hx); eauto.
  - intros [Hx|(c & Hc & Hx)]; [exists b|exists c]; split; try done; by constructor.
Qed.

Lemma covered_app A B x : covered (A ++ B) x <-> covered A x \/ covered B x.
Proof. unfold covered. setoid_rewrite elem_of_app. naive_solver. Qed.

Lemma apart_points b c : 1 <= b.2 -> 1 <= c.2 -> (forall x, covers b x -> covers c x -> False) -> apart b c.
Proof.
  unfold apart, covers, bend. intros Hb Hc H. destruct (Z.le_gt_cases (b.1 + 16 * b.2) c.1) as [?|H1]; [by left|].
  destruct (Z.le_gt_cases (c.1 + 16 * c.2) b.1) as [?|H2]; [by right|]. exfalso. apply (H (Z.max b.1 c.1)); lia.
Qed.

Lemma points_apart b c x : apart b c -> covers b x -> covers c x -> False.
Proof. unfold apart, covers, bend. lia. Qed.

(** In address order, with room between one block and the next. *)
Fixpoint asc (lo : Z) (fs : list blk) : Prop :=
  match fs with
  | [] => True
  | b :: t => lo < b.1 /\ 1 <= b.2 /\ asc (bend b) t
  end.

Lemma asc_weaken lo lo' fs : lo' <= lo -> asc lo fs -> asc lo' fs.
Proof. destruct fs; cbn; [done|]. intros ? (? & ? & ?). split_and!; try done. lia. Qed.

Lemma asc_in lo fs b : asc lo fs -> b ∈ fs -> lo < b.1 /\ 1 <= b.2.
Proof.
  revert lo. induction fs as [|f fs IH]; intros lo; cbn; [by intros _ ?%elem_of_nil|].
  intros (H1 & H2 & H3) [->|Hb]%elem_of_cons; [done|]. destruct (IH _ H3 Hb). unfold bend in *. lia.
Qed.

Lemma asc_sep lo fs b c : asc lo fs -> b ∈ fs -> c ∈ fs -> b = c \/ apart b c.
Proof.
  revert lo. induction fs as [|f fs IH]; intros lo; cbn; [by intros _ ?%elem_of_nil|]. intros (H1 & H2 & H3).
  rewrite !elem_of_cons. intros [->|Hb] [->|Hc].
  - by left.
  - right. left. destruct (asc_in _ _ _ H3 Hc). lia.
  - right. right. destruct (asc_in _ _ _ H3 Hb). lia.
  - by eapply IH.
Qed.

Lemma asc_before lo g l t c : asc lo (g ++ l :: t) -> c ∈ g -> bend c < l.1.
Proof.
  revert lo. induction g as [|x g IH]; cbn; intros lo Hasc Hc; [by apply elem_of_nil in Hc|]. destruct Hasc as (_ & _ & Hr).
  apply elem_of_cons in Hc as [->|Hc]; [|by eapply IH]. eapply asc_in; [exact Hr|]. apply elem_of_app. right. by left.
Qed.

(** Putting a block in its place, merged with the neighbours it touches. *)
Definition join (b : blk) (fs : list blk) : list blk :=
  match fs with
  | u :: t => if bend b =? u.1 then (b.1, b.2 + u.2) :: t else b :: fs
  | [] => [b]
  end.

Fixpoint insert_block (fs : list blk) (b : blk) : list blk :=
  match fs with
  | [] => [b]
  | f :: t => if f.1 <? b.1 then join f (insert_block t b) else join b fs
  end.

Lemma join_asc lo b fs : lo < b.1 -> 1 <= b.2 -> asc (bend b - 1) fs -> asc lo (join b fs).
Proof.
  destruct fs as [|u t]; cbn; [done|]. intros H1 H2 (H3 & H4 & H5). destruct (Z.eqb_spec (bend b) u.1) as [E|E]; cbn.
  - split_and!; [done|lia|]. eapply asc_weaken; [|exact H5]. unfold bend in *. cbn. lia.
  - split_and!; try done. lia.
Qed.

Lemma join_covered b fs x : 1 <= b.2 -> (forall u, u ∈ fs -> 1 <= u.2) -> covered (join b fs) x <-> covers b x \/ covered fs x.
Proof.
  destruct fs as [|u t]; cbn; intros Hb Hu; [by rewrite covered_cons|].
  destruct (Z.eqb_spec (bend b) u.1) as [E|E]; [|by rewrite covered_cons].
  rewrite !covered_cons. specialize (Hu u ltac:(by left)). unfold covers, bend in *. cbn. intuition lia.
Qed.

Lemma insert_asc lo fs b : lo < b.1 -> 1 <= b.2 -> asc lo fs -> (forall f, f ∈ fs -> apart f b) -> asc lo (insert_block fs b).
Proof.
  revert lo. induction fs as [|f fs IH]; intros lo Hlo Hb Hasc Hap; [done|]. cbn [insert_block].
  pose proof Hasc as (H1 & H2 & H3). pose proof (Hap f ltac:(by left)) as Hf. unfold apart in Hf.
  destruct (Z.ltb_spec f.1 b.1).
  - apply join_asc; [done|done|]. apply IH; [unfold bend in *; lia|done|eapply asc_weaken; [|exact H3]; lia|].
    intros g Hg. apply Hap. by right.
  - apply join_asc; [done|done|]. cbn. split_and!; [unfold bend in *; lia|done|done].
Qed.

Lemma insert_covered lo fs b x : lo < b.1 -> 1 <= b.2 -> asc lo fs -> (forall f, f ∈ fs -> apart f b) ->
  covered (insert_block fs b) x <-> covers b x \/ covered fs x.
Proof.
  revert lo. induction fs as [|f fs IH]; intros lo Hlo Hb Hasc Hap; cbn [insert_block]; [by rewrite covered_cons|].
  pose proof Hasc as (H1 & H2 & H3). destruct (Z.ltb_spec f.1 b.1).
  - pose proof (Hap f ltac:(by left)) as Hf. unfold apart, bend in Hf.
    assert (Ha : forall g, g ∈ fs -> apart g b) by (intros g Hg; apply Hap; by right).
    rewrite join_covered; [|done|].
    + rewrite (IH (bend f - 1)), covered_cons; [tauto|unfold bend; lia|done|eapply asc_weaken; [|exact H3]; lia|done].
    + intros u Hu. eapply (asc_in (bend f - 1)); [apply insert_asc|exact Hu]; [unfold bend; lia|done|eapply asc_weaken; [|exact H3]; lia|done].
  - apply join_covered; [done|]. intros u Hu. exact (proj2 (asc_in _ _ u Hasc Hu)).
Qed.

(** Where a block that overlaps no free one goes. *)
Lemma asc_split lo fs b : asc lo fs -> 1 <= b.2 -> (forall f, f ∈ fs -> apart f b) ->
  exists f1 f2, fs = f1 ++ f2 /\ (forall f, f ∈ f1 -> bend f <= b.1) /\ (forall f, f ∈ f2 -> bend b <= f.1).
Proof.
  revert lo. induction fs as [|f fs IH]; intros lo Hasc Hb Hap.
  - exists [], []. split_and!; [done|by intros ? ?%elem_of_nil|by intros ? ?%elem_of_nil].
  - pose proof Hasc as (H1 & H2 & H3). destruct (Hap f ltac:(by left)) as [Hf|Hf].
    + destruct (IH _ H3 Hb) as (f1 & f2 & -> & Hf1 & Hf2); [intros g Hg; apply Hap; by right|].
      exists (f :: f1), f2. split_and!; [done| |done]. intros g [->|Hg]%elem_of_cons; [done|by apply Hf1].
    + exists [], (f :: fs). split_and!; [done|by intros ? ?%elem_of_nil|].
      intros g [->|Hg]%elem_of_cons; [done|]. destruct (asc_in _ _ _ H3 Hg). unfold bend in *. lia.
Qed.

Lemma insert_after fs b : (forall f, f ∈ fs -> bend b <= f.1) -> 1 <= b.2 -> insert_block fs b = join b fs.
Proof.
  destruct fs as [|f fs]; [done|]. cbn. intros H Hb. specialize (H f ltac:(by left)). unfold bend in H.
  destruct (Z.ltb_spec f.1 b.1); [lia|done].
Qed.

Lemma insert_between lo g l f2 b : asc lo (g ++ l :: f2) -> 1 <= b.2 -> bend l <= b.1 -> (forall f, f ∈ f2 -> bend b <= f.1) ->
  insert_block (g ++ l :: f2) b = g ++ join l (join b f2).
Proof.
  intros Hasc Hb Hl H2. revert lo Hasc. induction g as [|f g IH]; intros lo Hasc; cbn [app insert_block].
  - destruct Hasc as (? & ? & ?). destruct (Z.ltb_spec l.1 b.1); [|unfold bend in *; lia]. by rewrite insert_after.
  - pose proof Hasc as (H3 & H4 & H5). assert (Hfl : bend f < l.1) by (eapply asc_in; [exact H5|apply elem_of_app; right; by left]).
    assert (1 <= l.2) by (eapply asc_in; [exact H5|apply elem_of_app; right; by left]).
    destruct (Z.ltb_spec f.1 b.1); [|unfold bend in *; lia]. rewrite (IH _ H5). destruct g as [|f' g]; cbn [app join].
    + destruct (join b f2) as [|u t]; cbn; destruct (Z.eqb_spec (bend f) l.1); try lia; [done|].
      destruct (bend l =? u.1); cbn; (destruct (Z.eqb_spec (bend f) l.1); [lia|done]).
    + destruct (Z.eqb_spec (bend f) f'.1); [|done]. destruct H5 as (? & _). lia.
Qed.

Lemma apart_headers b c : apart b c -> 1 <= b.2 -> 1 <= c.2 -> apart_at b.1 c.1.
Proof. unfold apart, apart_at, bend. lia. Qed.

Lemma join_cons b fs : exists s t, join b fs = (b.1, s) :: t.
Proof. destruct fs as [|u t]; cbn; [|case_match]; destruct b; eauto. Qed.

Section Heap.
Variables (base limit : Z).
Hypotheses (Hbase : 0 < base) (Hlimit : limit < 2 ^ 36).

(** The heap with free blocks [fs] and allocated blocks [al]. *)
Record heap_ok (h : heap) (fs al : list blk) : Prop := {
  ho_links : links (hmem h) (base :: fs.*1) base;
  ho_base : hsize (hmem h) base = 0;
  ho_size : forall b, b ∈ fs ++ al -> hsize (hmem h) b.1 = b.2;
  ho_asc : asc (base + 15) fs;
  ho_al : forall b, b ∈ al -> 1 <= b.2 /\ base + 16 <= b.1;
  ho_apart : forall b c, b ∈ al -> c ∈ fs -> apart c b;
  ho_sep : forall b c, b ∈ al -> c ∈ al -> b = c \/ apart b c;
  ho_nodup : NoDup al;
  ho_brk : forall b, b ∈ fs ++ al -> bend b <= brk h;
  ho_top : base + 16 <= brk h <= limit;
  ho_freep : freep h ∈ base :: fs.*1
}.

Lemma heap_ok_perm h fs al al' : al ≡ₚ al' -> heap_ok h fs al -> heap_ok h fs al'.
Proof.
  intros Hp []. assert (Hin : forall b, b ∈ al' -> b ∈ al) by (intros b; by rewrite Hp).
  assert (Hin' : forall b, b ∈ fs ++ al' -> b ∈ fs ++ al) by (intros b; rewrite !elem_of_app; intros [?|?]; auto).
  constructor; eauto. by rewrite <- Hp.
Qed.

(** The loop of free(). *)
Lemma find_walk m bp R1 q R2 f fuel :
  links m (R1 ++ q :: R2) f -> (forall x, x ∈ R1 -> free_stop m bp x = false) -> free_stop m bp q = true ->
  (length R1 < fuel)%nat -> free_find fuel m bp (hd f (R1 ++ q :: R2)) = Some q.
Proof.
  revert fuel. induction R1 as [|a R1 IH]; intros fuel Hl Hn Hq Hf; (destruct fuel as [|fuel]; [cbn in Hf; lia|]); cbn [app hd free_find].
  - by rewrite Hq.
  - rewrite Hn by (by left). destruct Hl as [E Hl]. rewrite E. apply IH; try done; [|cbn in Hf; lia]. intros x Hx. apply Hn. by right.
Qed.

Lemma find_any m bp L1 q L2 p fuel :
  links m (L1 ++ q :: L2) base -> hd base (L1 ++ q :: L2) = base -> p ∈ L1 ++ q :: L2 ->
  (forall x, x ∈ L1 \/ x ∈ L2 -> free_stop m bp x = false) -> free_stop m bp q = true ->
  (length L1 + length L2 < fuel)%nat -> free_find fuel m bp p = Some q.
Proof.
  intros Hl Hh Hp Hn Hq Hf. apply elem_of_app in Hp as [Hp|[->|Hp]%elem_of_cons].
  - apply list_elem_of_split in Hp as (A & B & ->). rewrite <- app_assoc, links_app in Hl. destruct Hl as [_ Hl].
    apply (find_walk m bp (p :: B) q L2 base); try done.
    + intros x Hx. apply Hn. left. apply elem_of_app. by right.
    + rewrite length_app in Hf. lia.
  - apply links_app in Hl as [_ Hl]. apply (find_walk m bp [] q L2 base); [done|by intros ? ?%elem_of_nil|done|cbn; lia].
  - apply list_elem_of_split in Hp as (A & B & ->). rewrite app_comm_cons, app_assoc in Hl, Hh.
    apply links_rotate in Hl; [|done]. cbn [app hd] in Hl. rewrite app_comm_cons, app_assoc in Hl.
    apply (find_walk m bp ((p :: B) ++ L1) q A p); try done.
    + intros x [Hx|Hx]%elem_of_app; apply Hn; [right; apply elem_of_app; by right|by left].
    + rewrite !length_app in *. cbn [length] in *. lia.
Qed.

Lemma next_up m a lo fs f x : links m (a :: fs.*1) f -> asc lo fs -> a <= lo -> x ∈ a :: fs.*1 -> x < hptr m x \/ hptr m x = f.
Proof.
  revert a lo. induction fs as [|b fs IH]; intros a lo Hl Hasc Ha Hx.
  - apply list_elem_of_singleton in Hx as ->. right. by destruct Hl.
  - destruct Hasc as (H1 & H2 & H3). destruct Hl as [E Hl]. apply elem_of_cons in Hx as [->|Hx].
    + left. rewrite E. cbn. lia.
    + apply (IH b.1 (bend b)); try done. unfold bend. lia.
Qed.

(** The nodes before and after the place of a block. *)
Definition before (f1 : list blk) (L1 : list Z) (q : Z) : Prop := base :: f1.*1 = L1 ++ [q].

Lemma before_ex f1 : exists L1 q, before f1 L1 q.
Proof.
  unfold before. destruct f1 as [|l g _] using rev_ind; [by exists [], base|].
  exists (base :: g.*1), l.1. by rewrite fmap_app.
Qed.

Lemma find_spec h fs f1 f2 b al L1 q fuel :
  heap_ok h fs (b :: al) -> fs = f1 ++ f2 -> (forall f, f ∈ f1 -> bend f <= b.1) -> (forall f, f ∈ f2 -> bend b <= f.1) ->
  before f1 L1 q -> (length fs < fuel)%nat -> free_find fuel (hmem h) b.1 (freep h) = Some q.
Proof.
  intros Hok -> H1 H2 Hq Hf. destruct (ho_al _ _ _ Hok b ltac:(by left)) as [Hb1 Hb2].
  assert (HL : base :: (f1 ++ f2).*1 = L1 ++ q :: f2.*1) by (rewrite fmap_app, app_comm_cons, Hq, <- app_assoc; done).
  pose proof (ho_links _ _ _ Hok) as Hl. pose proof (ho_asc _ _ _ Hok) as Hasc. pose proof (ho_freep _ _ _ Hok) as Hp.
  pose proof (fun x => next_up (hmem h) base _ _ base x Hl Hasc ltac:(lia)) as Hup. rewrite HL in Hl, Hp, Hup.
  assert (Hlow : forall x, x ∈ f1.*1 -> base < x /\ x < b.1).
  { intros x (f & -> & Hin)%list_elem_of_fmap. destruct (asc_in _ _ f Hasc) as [? ?]; [apply elem_of_app; by left|].
    specialize (H1 f Hin). unfold bend in H1. lia. }
  assert (Hnodes : forall x, x ∈ L1 ++ [q] -> x < b.1).
  { intros x. rewrite <- Hq. intros [->|Hx]%elem_of_cons; [lia|]. by apply Hlow. }
  apply (find_any _ _ L1 q f2.*1).
  - exact Hl.
  - destruct L1; injection Hq; cbn; congruence.
  - done.
  - intros x [Hx|Hx]; unfold free_stop.
    + apply links_app in Hl as [Hl _]. pose proof (links_next _ _ _ _ Hl Hx) as Hnx. cbn [hd] in Hnx.
      assert (Hin : hptr (hmem h) x ∈ f1.*1) by (destruct L1; [by apply elem_of_nil in Hx|]; injection Hq as _ ->; done).
      destruct (Hlow _ Hin). specialize (Hnodes x ltac:(apply elem_of_app; by left)).
      destruct (Hup x ltac:(apply elem_of_app; by left)); lia.
    + assert (b.1 < x) by (apply list_elem_of_fmap in Hx as (f & -> & Hin); specialize (H2 f Hin); unfold bend in H2; lia).
      destruct (Hup x ltac:(apply elem_of_app; right; by right)) as [?| ->]; lia.
  - unfold free_stop. specialize (Hnodes q ltac:(apply elem_of_app; right; by left)).
    apply links_app in Hl as [_ [E _]]. rewrite E. destruct f2 as [|u f2]; cbn.
    + assert (base <= q) by (destruct f1 as [|l g _] using rev_ind; [destruct L1 as [|? [|]]; by injection Hq as ->|];
        assert (Hin : q ∈ base :: (g ++ [l]).*1) by (rewrite Hq; apply elem_of_app; right; by left);
        apply elem_of_cons in Hin as [->|Hin]; [lia|]; destruct (Hlow _ Hin); lia). lia.
    + specialize (H2 u ltac:(by left)). unfold bend in H2. lia.
  - apply (f_equal length) in HL. cbn in HL. rewrite length_fmap, !length_app in *. cbn [length] in HL. rewrite length_fmap in *. lia.
Qed.

(** The first half of the linking: bp and the block after it. *)
Lemma link_upper m b f2 q :
  hptr m q = hd base f2.*1 -> hsize m b.1 = b.2 -> (forall u, u ∈ f2 -> hsize m u.1 = u.2) -> links m f2.*1 base ->
  base < b.1 -> 1 <= b.2 -> (forall u, u ∈ f2 -> apart_at b.1 u.1 /\ 0 <= b.2 + u.2 < 2 ^ 32) -> apart_at b.1 q -> base < 2 ^ 64 ->
  let m1 := if b.1 + HEADER * hsize m b.1 =? hptr m q then
      let m' := set_size m b.1 (hsize m b.1 + hsize m (hptr m q)) in
      set_ptr m' b.1 (hptr m' (hptr m' q))
    else set_ptr m b.1 (hptr m q) in
  exists s t, join b f2 = (b.1, s) :: t /\ hptr m1 b.1 = hd base t.*1 /\ hsize m1 b.1 = s /\ confined [b.1] m m1 /\
    (t = f2 /\ s = b.2 \/ exists u, f2 = u :: t /\ bend b = u.1 /\ s = b.2 + u.2).
Proof.
  intros Hq Hb Hu Hl Hbb Hs Hap Hbq Hb64 m1. unfold HEADER in m1. destruct f2 as [|u t]; cbn [hd fmap list_fmap] in *.
  - assert (Hm1 : m1 = set_ptr m b.1 base) by (subst m1; rewrite Hb, Hq; destruct (Z.eqb_spec (b.1 + 16 * b.2) base); [lia|done]).
    exists b.2, []. split_and!; [by destruct b| | | |by left]; rewrite Hm1.
    + rewrite hptr_set_ptr. cbn. apply u64_small. lia.
    + rewrite hsize_set_ptr by (by left). done.
    + apply confined_set_ptr. by left.
  - destruct (Hap u ltac:(by left)) as [Hau Hsum]. pose proof (Hu u ltac:(by left)) as Hsu. destruct Hl as [Hu1 Hl].
    cbn [join]. unfold bend. subst m1. rewrite Hq, Hb. destruct (Z.eqb_spec (b.1 + 16 * b.2) u.1) as [E|E].
    + rewrite Hsu. set (m' := set_size m b.1 (b.2 + u.2)). cbv zeta.
      assert (hptr m' q = u.1) as -> by (unfold m'; rewrite hptr_set_size by (by right); done).
      assert (hptr m' u.1 = hd base t.*1) as -> by (unfold m'; rewrite hptr_set_size by (by right); done).
      exists (b.2 + u.2), t. split_and!; [done| | | |right; exists u; split_and!; [done|exact E|done]].
      * rewrite hptr_set_ptr, <- Hu1. apply u64_small, hptr_range.
      * rewrite hsize_set_ptr by (by left). unfold m'. rewrite hsize_set_size. apply u32_small. lia.
      * eapply confined_trans; [apply confined_set_size|apply confined_set_ptr]; by left.
    + exists b.2, (u :: t). split_and!; [by destruct b| | | |by left].
      * rewrite hptr_set_ptr, <- Hq. cbn. rewrite Hq. apply u64_small. rewrite <- Hq. apply hptr_range.
      * by rewrite hsize_set_ptr by (by left).
      * apply confined_set_ptr. by left.
Qed.

(** The second half: the block before it and bp. *)
Lemma link_lower m q bp :
  apart_at bp q -> 0 <= bp < 2 ^ 64 -> 0 <= hsize m q + hsize m bp < 2 ^ 32 ->
  let m' := if q + HEADER * hsize m q =? bp then
      let m' := set_size m q (hsize m q + hsize m bp) in set_ptr m' q (hptr m' bp)
    else set_ptr m q bp in
  confined [q] m m' /\
  if q + 16 * hsize m q =? bp then hptr m' q = hptr m bp /\ hsize m' q = hsize m q + hsize m bp
  else hptr m' q = bp /\ hsize m' q = hsize m q.
Proof.
  intros Hap Hbp Hsum. unfold HEADER. cbv zeta. destruct (Z.eqb_spec (q + 16 * hsize m q) bp) as [E|E].
  - split; [eapply confined_trans; [apply confined_set_size|apply confined_set_ptr]; by left|].
    rewrite hptr_set_ptr, hsize_set_ptr, hsize_set_size, hptr_set_size by (try (by left); right; unfold apart_at in *; lia).
    split; [apply u64_small, hptr_range|apply u32_small; lia].
  - split; [apply confined_set_ptr; by left|]. rewrite hptr_set_ptr, hsize_set_ptr by (by left). split; [apply u64_small; lia|done].
Qed.

Lemma confined_weaken ps qs m m' : (forall p, p ∈ ps -> p ∈ qs) -> confined ps m m' -> confined qs m m'.
Proof. intros H Hc x Hx. apply Hc. auto. Qed.

(** What is known of the free blocks around the place of [b]. *)
Lemma around h f1 f2 b al : heap_ok h (f1 ++ f2) (b :: al) -> (forall f, f ∈ f1 -> bend f <= b.1) -> (forall f, f ∈ f2 -> bend b <= f.1) ->
  forall f, f ∈ f1 \/ f ∈ f2 ->
  hsize (hmem h) f.1 = f.2 /\ bend f <= brk h /\ base + 16 <= f.1 /\ 1 <= f.2 /\ apart_at b.1 f.1.
Proof.
  intros Hok H1 H2 f Hf. assert (f ∈ f1 ++ f2) by (by apply elem_of_app). destruct (ho_al _ _ _ Hok b ltac:(by left)) as [Hb1 Hb2].
  destruct (asc_in _ _ f (ho_asc _ _ _ Hok) ltac:(done)).
  split_and!; [apply (ho_size _ _ _ Hok)|apply (ho_brk _ _ _ Hok)|lia|done|]; try (apply elem_of_app; by left).
  apply apart_headers; try done. destruct Hf as [Hf|Hf]; [specialize (H1 _ Hf)|specialize (H2 _ Hf)]; unfold apart, bend in *; lia.
Qed.

(** The memory after free_link(), header by header. *)
Lemma free_link_run h f1 f2 b al L1 q :
  heap_ok h (f1 ++ f2) (b :: al) -> (forall f, f ∈ f1 -> bend f <= b.1) -> (forall f, f ∈ f2 -> bend b <= f.1) ->
  before f1 L1 q ->
  let m' := free_link (hmem h) b.1 q in
  confined [b.1; q] (hmem h) m' /\ exists s t, join b f2 = (b.1, s) :: t /\ (forall c, c ∈ t -> c ∈ f2) /\ links (hmem h) t.*1 base /\
    if q + 16 * hsize (hmem h) q =? b.1 then hptr m' q = hd base t.*1 /\ hsize m' q = hsize (hmem h) q + s
    else hptr m' q = b.1 /\ hsize m' q = hsize (hmem h) q /\ hptr m' b.1 = hd base t.*1 /\ hsize m' b.1 = s.
Proof using Hbase Hlimit.
  intros Hok H1 H2 Hq m'. destruct (ho_al _ _ _ Hok b ltac:(by left)) as [Hb1 Hb2].
  pose proof (ho_links _ _ _ Hok) as Hl. pose proof (ho_top _ _ _ Hok) as Htop. pose proof (around _ _ _ _ _ Hok H1 H2) as Hin.
  assert (Hbb : bend b <= brk h) by (apply (ho_brk _ _ _ Hok), elem_of_app; right; by left).
  assert (Hsb : hsize (hmem h) b.1 = b.2) by (apply (ho_size _ _ _ Hok), elem_of_app; right; by left).
  assert (HL : base :: (f1 ++ f2).*1 = L1 ++ q :: f2.*1) by (rewrite fmap_app, app_comm_cons, Hq, <- app_assoc; done).
  rewrite HL, links_app in Hl. destruct Hl as [_ [Eq Hl2]].
  assert (Hqq : apart_at b.1 q /\ 0 <= hsize (hmem h) q /\ q + 16 * hsize (hmem h) q <= b.1 /\ 0 < q).
  { assert (Hqi : q ∈ base :: f1.*1) by (rewrite Hq; apply elem_of_app; right; by left).
    apply elem_of_cons in Hqi as [->|(f & -> & Hf)%list_elem_of_fmap].
    - rewrite (ho_base _ _ _ Hok). unfold apart_at. lia.
    - destruct (Hin f ltac:(by left)) as (-> & ? & ? & ? & ?). specialize (H1 f Hf). unfold bend in *. split_and!; [done|lia..]. }
  destruct Hqq as (Hbq & Hq0 & Hq1 & Hq2).
  destruct (link_upper (hmem h) b f2 q) as (s & t & Ej & Ep & Es & Hc & Ht); try done; try lia.
  { intros u Hu. by apply Hin; right. }
  { intros u Hu. destruct (Hin u ltac:(by right)) as (_ & ? & ? & ? & ?). split; [done|]. specialize (H2 u Hu). unfold bend in *. lia. }
  unfold free_link in m'. set (m1 := if b.1 + HEADER * hsize (hmem h) b.1 =? hptr (hmem h) q then _ else _) in *. clearbody m1.
  assert (Hs : 1 <= s /\ b.1 + 16 * s <= brk h).
  { destruct Ht as [[_ ->]|(u & -> & Eu & ->)]; [unfold bend in *; lia|].
    destruct (Hin u) as (_ & ? & _ & ? & _); [right; by left|]. unfold bend in *. lia. }
  destruct (confined_header [b.1] (hmem h) m1 q Hc) as [_ Hszq]; [by intros p ->%list_elem_of_singleton|].
  assert (Hlow : confined [q] m1 m' /\ if q + 16 * hsize m1 q =? b.1 then hptr m' q = hptr m1 b.1 /\ hsize m' q = hsize m1 q + hsize m1 b.1
    else hptr m' q = b.1 /\ hsize m' q = hsize m1 q) by (apply link_lower; [done|lia|lia]).
  clearbody m'. destruct Hlow as [Hc2 Hcase]. rewrite Hszq, Ep, Es in Hcase. split.
  - eapply confined_trans; (eapply confined_weaken; [|eassumption]); intros p ->%list_elem_of_singleton; [by left|right; by left].
  - exists s, t. split_and!; [done| | |].
    + destruct Ht as [[-> _]|(u & -> & _)]; [done|intros; by right].
    + destruct Ht as [[-> _]|(u & -> & _)]; [done|by destruct Hl2].
    + revert Hcase. case_match; intros Hcase; [done|]. destruct (confined_header [q] m1 m' b.1 Hc2) as [-> ->].
      * intros p ->%list_elem_of_singleton. unfold apart_at in *. lia.
      * tauto.
Qed.

Lemma free_link_kept h f1 f2 b al L1 q p :
  heap_ok h (f1 ++ f2) (b :: al) -> (forall f, f ∈ f1 -> bend f <= b.1) -> (forall f, f ∈ f2 -> bend b <= f.1) ->
  before f1 L1 q -> apart_at b.1 p -> apart_at q p ->
  let m' := free_link (hmem h) b.1 q in hptr m' p = hptr (hmem h) p /\ hsize m' p = hsize (hmem h) p.
Proof using Hbase Hlimit.
  intros Hok H1 H2 Hq Hp1 Hp2. destruct (free_link_run _ _ _ _ _ _ _ Hok H1 H2 Hq) as [Hc _].
  apply (confined_header _ _ _ _ Hc). by intros x [->|Hx%list_elem_of_singleton]%elem_of_cons; subst.
Qed.

(** The free list and the sizes after linking [b] between [f1] and [f2]. *)
Definition linked (m' : mem) (fs' : list blk) (q : Z) : Prop :=
  links m' (base :: fs'.*1) base /\ hsize m' base = 0 /\ (forall c, c ∈ fs' -> hsize m' c.1 = c.2) /\ q ∈ base :: fs'.*1.

Lemma free_link_first h f2 b al :
  heap_ok h f2 (b :: al) -> (forall f, f ∈ f2 -> bend b <= f.1) ->
  linked (free_link (hmem h) b.1 base) (insert_block f2 b) base.
Proof using Hbase Hlimit.
  intros Hok H2. destruct (ho_al _ _ _ Hok b ltac:(by left)) as [Hb1 Hb2].
  assert (H1 : forall f : blk, f ∈ [] -> bend f <= b.1) by (by intros f ?%elem_of_nil).
  pose proof (fun p => free_link_kept _ [] f2 b al [] base p Hok H1 H2 eq_refl) as Hkeep.
  destruct (free_link_run _ [] f2 b al [] base Hok H1 H2 eq_refl) as [_ (s & t & Ej & Htf & Hlt & Hcase)].
  cbv zeta in Hkeep, Hcase. set (m' := free_link (hmem h) b.1 base) in *. clearbody m'.
  pose proof (around _ [] f2 b al Hok H1 H2) as Hin. rewrite insert_after, Ej by done.
  rewrite (ho_base _ _ _ Hok) in Hcase. destruct (Z.eqb_spec (base + 16 * 0) b.1); [lia|]. destruct Hcase as (E1 & E2 & E3 & E4).
  assert (Hk : forall c, c ∈ t -> hptr m' c.1 = hptr (hmem h) c.1 /\ hsize m' c.1 = hsize (hmem h) c.1).
  { intros c Hct. destruct (Hin c) as (_ & _ & ? & _ & ?); [auto|]. apply Hkeep; [done|unfold apart_at; lia]. }
  unfold linked. cbn [fmap list_fmap links hd fst]. split_and!; try done.
  - eapply links_ext; [|exact Hlt]. intros x (c & -> & Hct)%list_elem_of_fmap. by apply Hk.
  - intros c [->|Hct]%elem_of_cons; [done|]. rewrite (proj2 (Hk c Hct)). by apply Hin; auto.
  - by left.
Qed.

Lemma free_link_after h g l f2 b al :
  heap_ok h ((g ++ [l]) ++ f2) (b :: al) -> (forall f, f ∈ g ++ [l] -> bend f <= b.1) -> (forall f, f ∈ f2 -> bend b <= f.1) ->
  linked (free_link (hmem h) b.1 l.1) (insert_block (g ++ l :: f2) b) l.1.
Proof using Hbase Hlimit.
  intros Hok H1 H2. destruct (ho_al _ _ _ Hok b ltac:(by left)) as [Hb1 Hb2].
  assert (Hq : before (g ++ [l]) (base :: g.*1) l.1) by (unfold before; by rewrite fmap_app).
  pose proof (fun p => free_link_kept _ _ f2 b al _ _ p Hok H1 H2 Hq) as Hkeep.
  destruct (free_link_run _ _ f2 b al _ _ Hok H1 H2 Hq) as [_ (s & t & Ej & Htf & Hlt & Hcase)].
  cbv zeta in Hkeep, Hcase. set (m' := free_link (hmem h) b.1 l.1) in *. clearbody m'.
  pose proof (around _ _ _ _ _ Hok H1 H2) as Hin. pose proof (ho_asc _ _ _ Hok) as Hasc. pose proof (ho_links _ _ _ Hok) as Hl.
  rewrite <- app_assoc in Hasc, Hl. cbn [app] in Hasc, Hl.
  destruct (Hin l) as (El & _ & Hl16 & Hl1 & _); [left; apply elem_of_app; right; by left|].
  assert (Hgl : forall c, c ∈ g \/ c ∈ t -> hptr m' c.1 = hptr (hmem h) c.1 /\ hsize m' c.1 = c.2).
  { intros c Hct. assert (Hct' : c ∈ g ++ [l] \/ c ∈ f2) by (rewrite elem_of_app; naive_solver).
    destruct (Hin c Hct') as (Ec & _ & _ & ? & ?). destruct (Hkeep c.1) as [-> ->]; [done| |done]. apply apart_headers; [|done|done].
    destruct Hct as [Hct|Hct].
    - right. apply Z.lt_le_incl. by eapply asc_before.
    - left. specialize (H1 l ltac:(apply elem_of_app; right; by left)). specialize (H2 c ltac:(auto)). unfold bend in *. lia. }
  assert (Hb0 : hptr m' base = hptr (hmem h) base /\ hsize m' base = 0).
  { rewrite <- (ho_base _ _ _ Hok). apply Hkeep; unfold apart_at; lia. }
  rewrite (insert_between (base + 15)), Ej by (try done; apply H1, elem_of_app; right; by left).
  rewrite fmap_app in Hl. cbn [fmap list_fmap] in Hl. rewrite app_comm_cons, links_app in Hl. destruct Hl as [Hlg _]. cbn [hd] in Hlg.
  assert (Hlg' : links m' (base :: g.*1) l.1).
  { eapply links_ext; [|exact Hlg]. intros x [->|(c & -> & Hct)%list_elem_of_fmap]%elem_of_cons; [apply Hb0|by apply Hgl; left]. }
  assert (Hlt' : links m' t.*1 base).
  { eapply links_ext; [|exact Hlt]. intros x (c & -> & Hct)%list_elem_of_fmap. by apply Hgl; right. }
  destruct Hlg' as [Hlg1 Hlg2]. unfold linked. cbn [join]. unfold bend. cbn [fst snd]. rewrite El in Hcase. revert Hcase.
  destruct (l.1 + 16 * l.2 =? b.1); intros Hcase;
    rewrite fmap_app; cbn [fmap list_fmap fst]; rewrite app_comm_cons, links_app; cbn [links hd]; (split_and!; try tauto).
  - intros c [Hct|[->|Hct]%elem_of_cons]%elem_of_app; cbn; [|tauto|]; by apply Hgl; auto.
  - apply elem_of_app. right. by left.
  - intros c [Hct|[->|[->|Hct]%elem_of_cons]%elem_of_cons]%elem_of_app; cbn; try tauto; by apply Hgl; auto.
  - apply elem_of_app. right. by left.
Qed.

(** Bytes outside the free blocks, the block [bs] and the header [base]. *)
Definition untouched (fs bs : list blk) (h h' : heap) : Prop :=
  forall x, ~ covered fs x -> ~ covered bs x -> ~ (base <= x < base + 16) -> load8 (hmem h') x = load8 (hmem h) x.

Lemma link_spec h f1 f2 b al L1 q :
  heap_ok h (f1 ++ f2) (b :: al) -> (forall f, f ∈ f1 -> bend f <= b.1) -> (forall f, f ∈ f2 -> bend b <= f.1) ->
  before f1 L1 q -> linked (free_link (hmem h) b.1 q) (insert_block (f1 ++ f2) b) q.
Proof using Hbase Hlimit.
  intros Hok H1 H2 Hq. destruct f1 as [|l g _] using rev_ind.
  - assert (q = base) as -> by (destruct L1 as [|? [|]]; by injection Hq). by eapply free_link_first.
  - assert (q = l.1) as ->.
    { unfold before in Hq. rewrite fmap_app, app_comm_cons in Hq. by apply app_inj_tail in Hq as [_ ?]. }
    rewrite <- app_assoc. cbn [app]. by eapply free_link_after.
Qed.

(** Blocks read off the points they cover. *)
Lemma blocks_below fs top : (forall b, b ∈ fs -> 1 <= b.2) -> (forall x, covered fs x -> x < top) -> forall b, b ∈ fs -> bend b <= top.
Proof.
  intros Hs Hx b Hb. specialize (Hs b Hb). assert (Hlast : covered fs (bend b - 1)) by (exists b; split; [done|unfold covers, bend; lia]).
  specialize (Hx _ Hlast). lia.
Qed.

Lemma free_spec h fs b al fuel : heap_ok h fs (b :: al) -> (length fs < fuel)%nat ->
  exists h', free fuel (b.1 + 16) h = Some h' /\ heap_ok h' (insert_block fs b) al /\ brk h' = brk h /\ untouched fs [b] h h'.
Proof using Hbase Hlimit.
  intros Hok Hf. destruct (ho_al _ _ _ Hok b ltac:(by left)) as [Hb1 Hb2]. pose proof (ho_asc _ _ _ Hok) as Hasc.
  assert (Hap : forall f, f ∈ fs -> apart f b) by (intros f ?; apply (ho_apart _ _ _ Hok); [by left|done]).
  destruct (asc_split _ _ b Hasc Hb1 Hap) as (f1 & f2 & -> & H1 & H2). destruct (before_ex f1) as (L1 & q & Hq).
  unfold free, HEADER. replace (b.1 + 16 - 16) with b.1 by lia. rewrite (find_spec _ _ f1 f2 b al L1 q) by done.
  eexists. split; [done|]. destruct (link_spec _ _ _ _ _ _ _ Hok H1 H2 Hq) as (Hl & Hz & Hsz & Hqi).
  destruct (free_link_run _ _ _ _ _ _ _ Hok H1 H2 Hq) as [Hc _].
  set (m' := free_link (hmem h) b.1 q) in *. clearbody m'.
  assert (Hcov : forall x, covered (insert_block (f1 ++ f2) b) x <-> covers b x \/ covered (f1 ++ f2) x) by (intros x; apply (insert_covered (base + 15)); (done || lia)).
  assert (Hasc' : asc (base + 15) (insert_block (f1 ++ f2) b)) by (apply insert_asc; (done || lia)).
  assert (Hd : forall c, c ∈ al -> c <> b) by (intros c Hca ->; by apply (NoDup_cons_1_1 _ _ (ho_nodup _ _ _ Hok)) in Hca).
  assert (Hapc : forall c, c ∈ al -> apart b c /\ 1 <= c.2 /\ base + 16 <= c.1).
  { intros c Hca. destruct (ho_sep _ _ _ Hok b c) as [->|?]; [by left|by right|by destruct (Hd c Hca)|].
    split; [done|]. apply (ho_al _ _ _ Hok). by right. }
  assert (Hqh : q = base \/ exists c, c ∈ f1 ++ f2 /\ q = c.1).
  { assert (Hq' : q ∈ base :: f1.*1) by (rewrite Hq; apply elem_of_app; right; by left).
    apply elem_of_cons in Hq' as [->|(c & -> & Hcf)%list_elem_of_fmap]; [by left|]. right. exists c. split; [apply elem_of_app; by left|done]. }
  split_and!; [constructor; cbn [hmem freep brk]|done|]; try done.
  - intros c [Hci|Hca]%elem_of_app; [by apply Hsz|]. destruct (Hapc c Hca) as (Ha & Hc1 & Hc2).
    rewrite <- (ho_size _ _ _ Hok c) by (apply elem_of_app; right; by right). apply (confined_header _ _ _ _ Hc).
    intros p [->|Hp%list_elem_of_singleton]%elem_of_cons; [by apply apart_headers|]. subst p.
    destruct Hqh as [->|(d & Hdf & ->)]; [unfold apart_at; lia|]. destruct (asc_in _ _ d Hasc Hdf).
    apply apart_headers; try done. apply (ho_apart _ _ _ Hok); [by right|done].
  - intros c Hca. apply Hapc in Hca. tauto.
  - intros c d Hca Hdi. destruct (Hapc c Hca) as (Ha & Hc1 & _). destruct (asc_in _ _ d Hasc' Hdi). apply apart_points; [done|done|].
    intros x Hx1 Hx2. assert (Hx : covered (insert_block (f1 ++ f2) b) x) by (by exists d). apply Hcov in Hx as [Hx|(e & He & Hx)].
    + by eapply (points_apart b c).
    + eapply (points_apart e c); [|done|done]. apply (ho_apart _ _ _ Hok); [by right|done].
  - intros c d Hca Hda. apply (ho_sep _ _ _ Hok); by right.
  - exact (NoDup_cons_1_2 _ _ (ho_nodup _ _ _ Hok)).
  - intros c [Hci|Hca]%elem_of_app; [|apply (ho_brk _ _ _ Hok), elem_of_app; right; by right].
    eapply blocks_below; [|intros x Hx|exact Hci]; [intros e He; by apply (asc_in _ _ e Hasc')|].
    apply Hcov in Hx as [Hx|(e & He & Hx)]; [|assert (bend e <= brk h) by (apply (ho_brk _ _ _ Hok), elem_of_app; by left); unfold covers in Hx; lia].
    assert (bend b <= brk h) by (apply (ho_brk _ _ _ Hok), elem_of_app; right; by left). unfold covers in Hx. lia.
  - apply (ho_top _ _ _ Hok).
  - intros x Hx1 Hx2 Hx3. apply Hc. intros p [->|Hp%list_elem_of_singleton]%elem_of_cons Hr.
    + apply Hx2. exists b. split; [by left|]. unfold covers, bend. lia.
    + subst p. destruct Hqh as [->|(d & Hdf & ->)]; [done|]. apply Hx1. exists d. split; [done|]. destruct (asc_in _ _ d Hasc Hdf). unfold covers, bend. lia.
Qed.
(** ** malloc() *)

Lemma header_apart h fs al x c : heap_ok h fs al -> x ∈ fs -> c ∈ fs ++ al -> c <> x -> apart_at x.1 c.1 /\ apart x c /\ 1 <= c.2.
Proof.
  intros Hok Hx Hc Hne. destruct (asc_in _ _ x (ho_asc _ _ _ Hok) Hx). apply elem_of_app in Hc as [Hc|Hc].
  - destruct (asc_in _ _ c (ho_asc _ _ _ Hok) Hc). destruct (asc_sep _ _ x c (ho_asc _ _ _ Hok) Hx Hc) as [->|?]; [done|].
    split_and!; [by apply apart_headers|done|done].
  - destruct (ho_al _ _ _ Hok c Hc). pose proof (ho_apart _ _ _ Hok c x Hc Hx). split_and!; [by apply apart_headers|done|done].
Qed.

Lemma asc_nodup lo fs : asc lo fs -> NoDup fs.*1.
Proof.
  revert lo. induction fs as [|b fs IH]; intros lo; [constructor|]. intros (? & ? & Hr). cbn. apply NoDup_cons. split; [|by eapply IH].
  intros (c & E & Hc)%list_elem_of_fmap. destruct (asc_in _ _ c Hr Hc). unfold bend in *. lia.
Qed.

Lemma nodes_nodup h fs al : heap_ok h fs al -> NoDup (base :: fs.*1).
Proof.
  intros Hok. apply NoDup_cons. split; [|by eapply asc_nodup, Hok].
  intros (c & E & Hc)%list_elem_of_fmap. destruct (asc_in _ _ c (ho_asc _ _ _ Hok) Hc). lia.
Qed.

(** The node before a block is the one free_link() would use. *)
Lemma prev_node h f1 x f2 al prevp : heap_ok h (f1 ++ x :: f2) al -> prevp ∈ base :: (f1 ++ x :: f2).*1 -> hptr (hmem h) prevp = x.1 ->
  before f1 (take (length f1) (base :: f1.*1)) prevp.
Proof.
  intros Hok Hp Hx. destruct (before_ex f1) as (L1 & q & Hq). pose proof (nodes_nodup _ _ _ Hok) as Hnd. pose proof (ho_links _ _ _ Hok) as Hl.
  assert (q = prevp) as ->.
  { eapply (links_inj (hmem h)); [exact Hl|exact Hnd|by apply NoDup_cons in Hnd as [? _]| |exact Hp|].
    - rewrite fmap_app, app_comm_cons, Hq. apply elem_of_app. left. apply elem_of_app. right. by left.
    - rewrite fmap_app in Hl. cbn [fmap list_fmap] in Hl. rewrite app_comm_cons, Hq, <- app_assoc in Hl. apply links_app in Hl as [_ [E _]].
      rewrite E, Hx. done. }
  unfold before in *. rewrite Hq. f_equal. symmetry. apply take_app_length'. apply (f_equal length) in Hq.
  cbn in Hq. rewrite length_fmap, length_app in Hq. cbn in Hq. lia.
Qed.

(** Unlinking a block that is taken whole. *)
Lemma unlink_spec h f1 x f2 al prevp :
  heap_ok h (f1 ++ x :: f2) al -> prevp ∈ base :: (f1 ++ x :: f2).*1 -> hptr (hmem h) prevp = x.1 ->
  let m' := set_ptr (hmem h) prevp (hptr (hmem h) x.1) in
  links m' (base :: (f1 ++ f2).*1) base /\ prevp ∈ base :: (f1 ++ f2).*1.
Proof.
  intros Hok Hp Hx m'. pose proof (prev_node _ _ _ _ _ _ Hok Hp Hx) as Hq. set (L1 := take _ _) in Hq.
  pose proof (ho_links _ _ _ Hok) as Hl. pose proof (nodes_nodup _ _ _ Hok) as Hnd.
  assert (Hin : prevp ∈ base :: (f1 ++ f2).*1).
  { rewrite fmap_app, app_comm_cons, Hq. apply elem_of_app. left. apply elem_of_app. right. by left. }
  rewrite fmap_app in Hl, Hnd. cbn [fmap list_fmap] in Hl, Hnd. rewrite app_comm_cons, Hq, <- app_assoc in Hl, Hnd. cbn [app] in Hl, Hnd.
  apply links_app in Hl as [Hl1 [_ [Ex Hl2]]]. cbn [hd] in Hl1.
  assert (Hap : forall p, p ∈ L1 \/ p ∈ f2.*1 -> apart_at prevp p).
  { intros p Hpi. assert (Hpp : p ∈ base :: (f1 ++ x :: f2).*1).
    { rewrite fmap_app, app_comm_cons, Hq. cbn. rewrite !elem_of_app, !elem_of_cons. tauto. }
    assert (p <> prevp).
    { intros ->. apply NoDup_app in Hnd as (_ & Hd & Hnd). destruct Hpi as [Hpi|Hpi]; [apply (Hd _ Hpi); by left|].
      apply NoDup_cons in Hnd as [Hnd _]. apply Hnd. by right. }
    apply elem_of_cons in Hp as [->|(c & -> & Hc)%list_elem_of_fmap]; apply elem_of_cons in Hpp as [->|(d & -> & Hd)%list_elem_of_fmap]; try done.
    - destruct (asc_in _ _ d (ho_asc _ _ _ Hok) Hd). unfold apart_at. lia.
    - destruct (asc_in _ _ c (ho_asc _ _ _ Hok) Hc). unfold apart_at. lia.
    - eapply header_apart; [done|done|apply elem_of_app; by left|congruence]. }
  split; [|done]. rewrite fmap_app, app_comm_cons, Hq, <- app_assoc. cbn [app]. apply links_app. cbn [hd links]. split_and!.
  - eapply links_ext; [|exact Hl1]. intros p Hpi. apply hptr_set_ptr_ne. by apply Hap; left.
  - unfold m'. rewrite hptr_set_ptr, <- Ex. apply u64_small, hptr_range.
  - eapply links_ext; [|exact Hl2]. intros p Hpi. apply hptr_set_ptr_ne. by apply Hap; right.
Qed.

Lemma node_header h fs al p c : heap_ok h fs al -> p ∈ base :: fs.*1 -> c ∈ fs ++ al -> p = c.1 \/ apart_at p c.1.
Proof.
  intros Hok Hp Hc. assert (Hcb : base + 16 <= c.1).
  { apply elem_of_app in Hc as [Hc|Hc]; [destruct (asc_in _ _ c (ho_asc _ _ _ Hok) Hc); lia|by apply (ho_al _ _ _ Hok)]. }
  apply elem_of_cons in Hp as [->|(d & -> & Hd)%list_elem_of_fmap]; [right; unfold apart_at; lia|].
  destruct (decide (c = d)) as [->|Hne]; [by left|]. right. by eapply header_apart.
Qed.

Lemma asc_remove lo f1 x f2 : asc lo (f1 ++ x :: f2) -> asc lo (f1 ++ f2).
Proof.
  revert lo. induction f1 as [|f f1 IH]; cbn; intros lo (H1 & H2 & H3); [|split_and!; [done|done|by apply IH]].
  eapply asc_weaken; [|exact H3]. unfold bend. lia.
Qed.

Lemma asc_shrink lo f1 x f2 n : asc lo (f1 ++ x :: f2) -> 1 <= n < x.2 -> asc lo (f1 ++ (x.1, x.2 - n) :: f2).
Proof.
  intros Ha Hn. revert lo Ha. induction f1 as [|f f1 IH]; cbn; intros lo (H1 & H2 & H3); [|split_and!; [done|done|by apply IH]].
  split_and!; [done|lia|]. eapply asc_weaken; [|exact H3]. unfold bend. cbn. lia.
Qed.

Lemma asc_not_in lo f1 x f2 : asc lo (f1 ++ x :: f2) -> x ∉ f1 ++ f2.
Proof.
  intros Ha%asc_nodup Hx. rewrite fmap_app in Ha. cbn in Ha. rewrite <- Permutation_middle in Ha. apply NoDup_cons in Ha as [Hn _].
  apply Hn. rewrite <- fmap_app. by apply list_elem_of_fmap_2.
Qed.

Lemma apart_self x : 1 <= x.2 -> apart x x -> False.
Proof. unfold apart, bend. lia. Qed.

Lemma take_whole h f1 x f2 al prevp :
  heap_ok h (f1 ++ x :: f2) al -> prevp ∈ base :: (f1 ++ x :: f2).*1 -> hptr (hmem h) prevp = x.1 ->
  heap_ok (Heap (set_ptr (hmem h) prevp (hptr (hmem h) x.1)) prevp (brk h)) (f1 ++ f2) (x :: al).
Proof.
  intros Hok Hp Hx. destruct (unlink_spec _ _ _ _ _ _ Hok Hp Hx) as [Hl Hin]. pose proof (ho_asc _ _ _ Hok) as Hasc.
  assert (Hxi : x ∈ f1 ++ x :: f2) by (apply elem_of_app; right; by left).
  assert (Hsub : forall c, c ∈ f1 ++ f2 -> c ∈ f1 ++ x :: f2 /\ c <> x).
  { intros c Hc. split; [rewrite elem_of_app, elem_of_cons in *; tauto|]. intros ->. by apply asc_not_in in Hasc. }
  assert (Hall : forall c, c ∈ (f1 ++ f2) ++ x :: al -> c ∈ (f1 ++ x :: f2) ++ al).
  { intros c. rewrite !elem_of_app, !elem_of_cons. tauto. }
  destruct (asc_in _ _ x Hasc Hxi) as [Hx1 Hx2].
  assert (Hxa : forall c, c ∈ al -> apart x c) by (intros c Hc; by apply (ho_apart _ _ _ Hok)).
  constructor; cbn [hmem freep brk]; try done.
  - rewrite hsize_set_ptr; [apply (ho_base _ _ _ Hok)|].
    apply elem_of_cons in Hp as [->|(c & -> & Hc)%list_elem_of_fmap]; [by left|]. right. destruct (asc_in _ _ c Hasc Hc). unfold apart_at. lia.
  - intros c Hc. apply Hall in Hc. rewrite hsize_set_ptr by (by eapply node_header). by apply (ho_size _ _ _ Hok).
  - by eapply asc_remove.
  - intros c [->|Hc]%elem_of_cons; [lia|by apply (ho_al _ _ _ Hok)].
  - intros b c [->|Hb]%elem_of_cons Hc; apply Hsub in Hc as [Hc Hne]; [|by apply (ho_apart _ _ _ Hok)].
    destruct (asc_sep _ _ c x Hasc Hc Hxi); [done|done].
  - intros b c [->|Hb]%elem_of_cons [->|Hc]%elem_of_cons; [by left|right; by apply Hxa| |by apply (ho_sep _ _ _ Hok)].
    right. destruct (Hxa b Hb); [by right|by left].
  - apply NoDup_cons. split; [|apply (ho_nodup _ _ _ Hok)]. intros Hin'. by apply (apart_self x); [|apply Hxa].
  - intros c Hc. by apply (ho_brk _ _ _ Hok), Hall.
  - apply (ho_top _ _ _ Hok).
Qed.

(** The last [n] units of a larger block. *)
Definition tail_of (x : blk) (n : Z) : blk := (x.1 + 16 * (x.2 - n), n).

Lemma tail_memory h f1 x f2 al n : heap_ok h (f1 ++ x :: f2) al -> 1 <= n < x.2 ->
  let m' := set_size (set_size (hmem h) x.1 (x.2 - n)) (tail_of x n).1 n in
  (forall p, p ∈ base :: (f1 ++ x :: f2).*1 -> hptr m' p = hptr (hmem h) p) /\ hsize m' base = 0 /\ hsize m' x.1 = x.2 - n /\
  hsize m' (tail_of x n).1 = n /\ (forall c, c ∈ (f1 ++ x :: f2) ++ al -> c <> x -> hsize m' c.1 = c.2) /\
  (forall y, ~ covers x y -> load8 m' y = load8 (hmem h) y).
Proof using Hbase Hlimit.
  intros Hok Hn m'. assert (Hxi : x ∈ f1 ++ x :: f2) by (apply elem_of_app; right; by left).
  destruct (asc_in _ _ x (ho_asc _ _ _ Hok) Hxi) as [Hx1 Hx2]. pose proof (ho_top _ _ _ Hok) as Htop.
  assert (Hxb : bend x <= brk h) by (apply (ho_brk _ _ _ Hok), elem_of_app; by left). unfold bend in Hxb.
  assert (Hxt : apart_at (tail_of x n).1 x.1) by (unfold apart_at; cbn; lia).
  assert (Hct : forall c, c ∈ (f1 ++ x :: f2) ++ al -> c <> x -> apart_at x.1 c.1 /\ apart_at (tail_of x n).1 c.1).
  { intros c Hc Hne. destruct (header_apart _ _ _ x c Hok Hxi Hc Hne) as (H1 & H2 & H3). split; [done|]. cbn. unfold apart, apart_at, bend in *. lia. }
  assert (Hbt : apart_at x.1 base /\ apart_at (tail_of x n).1 base) by (unfold apart_at; cbn; lia). subst m'. split_and!.
  - intros p [->|(c & -> & Hc)%list_elem_of_fmap]%elem_of_cons.
    + rewrite !hptr_set_size by (right; tauto). done.
    + destruct (decide (c = x)) as [->|Hne]; [by rewrite !hptr_set_size by tauto|].
      destruct (Hct c) as [H1 H2]; [apply elem_of_app; by left|done|]. by rewrite !hptr_set_size by (by right).
  - rewrite !hsize_set_size_ne by tauto. apply (ho_base _ _ _ Hok).
  - rewrite hsize_set_size_ne, hsize_set_size by done. apply u32_small. lia.
  - rewrite hsize_set_size. apply u32_small. lia.
  - intros c Hc Hne. destruct (Hct c Hc Hne). rewrite !hsize_set_size_ne by done. by apply (ho_size _ _ _ Hok).
  - intros y Hy. unfold covers, bend in Hy. unfold set_size. cbn. rewrite !load8_store32_out by lia. done.
Qed.

Lemma take_tail h f1 x f2 al n prevp :
  heap_ok h (f1 ++ x :: f2) al -> prevp ∈ base :: (f1 ++ x :: f2).*1 -> 1 <= n < x.2 ->
  heap_ok (Heap (set_size (set_size (hmem h) x.1 (x.2 - n)) (tail_of x n).1 n) prevp (brk h))
    (f1 ++ (x.1, x.2 - n) :: f2) (tail_of x n :: al).
Proof using Hbase Hlimit.
  intros Hok Hp Hn. destruct (tail_memory _ _ _ _ _ _ Hok Hn) as (Hm1 & Hm2 & Hm3 & Hm4 & Hm5 & _).
  pose proof (ho_asc _ _ _ Hok) as Hasc. assert (Hxi : x ∈ f1 ++ x :: f2) by (apply elem_of_app; right; by left).
  destruct (asc_in _ _ x Hasc Hxi) as [Hx1 Hx2]. pose proof (asc_shrink _ _ _ _ _ Hasc Hn) as Hasc'.
  assert (Hnodes : (f1 ++ (x.1, x.2 - n) :: f2).*1 = (f1 ++ x :: f2).*1) by (by rewrite !fmap_app).
  assert (Hsub : forall c, c ∈ f1 ++ (x.1, x.2 - n) :: f2 -> c = (x.1, x.2 - n) \/ c ∈ f1 ++ x :: f2 /\ c <> x).
  { intros c Hc. rewrite elem_of_app, elem_of_cons in Hc. destruct Hc as [Hc|[->|Hc]]; [right|by left|right];
      (split; [apply elem_of_app; rewrite elem_of_cons; tauto|]); intros ->; apply asc_not_in in Hasc; apply Hasc, elem_of_app; tauto. }
  assert (Hta : forall c, apart x c -> 1 <= c.2 -> apart (tail_of x n) c) by (intros c; unfold apart, bend; cbn; lia).
  assert (Hxa : forall c, c ∈ al -> apart x c /\ 1 <= c.2) by (intros c Hc; split; [by apply (ho_apart _ _ _ Hok)|by apply (ho_al _ _ _ Hok)]).
  constructor; cbn [hmem freep brk]; try done.
  - rewrite Hnodes. eapply links_ext; [|exact (ho_links _ _ _ Hok)]. done.
  - intros c [Hc|[->|Hc]%elem_of_cons]%elem_of_app; [|done|].
    + apply Hsub in Hc as [->|[Hc Hne]]; [done|]. apply Hm5; [apply elem_of_app; by left|done].
    + apply Hm5; [apply elem_of_app; by right|]. intros ->. destruct (Hxa x Hc). by eapply apart_self.
  - intros c [->|Hc]%elem_of_cons; [cbn; lia|by apply (ho_al _ _ _ Hok)].
  - intros b c [->|Hb]%elem_of_cons Hc; apply Hsub in Hc as [->|[Hc Hne]].
    + left. unfold bend. cbn. lia.
    + destruct (asc_in _ _ c Hasc Hc). destruct (asc_sep _ _ x c Hasc Hxi Hc) as [->|Ha]; [done|]. apply Hta in Ha; [|done]. unfold apart in *. tauto.
    + destruct (Hxa b Hb) as [[Ha|Ha] ?]; [left|right]; unfold bend in *; cbn; lia.
    + by apply (ho_apart _ _ _ Hok).
  - intros b c [->|Hb]%elem_of_cons [->|Hc]%elem_of_cons; [by left|right; by apply Hta; apply Hxa| |by apply (ho_sep _ _ _ Hok)].
    right. destruct (Hta b); [by apply Hxa|by apply Hxa|by right|by left].
  - apply NoDup_cons. split; [|apply (ho_nodup _ _ _ Hok)]. intros Hin. destruct (Hxa _ Hin). apply (apart_self (tail_of x n)); [done|by apply Hta].
  - intros c [Hc|[->|Hc]%elem_of_cons]%elem_of_app; [|pose proof (ho_brk _ _ _ Hok x ltac:(apply elem_of_app; by left)) as H; unfold bend in *; cbn; lia|].
    + apply Hsub in Hc as [->|[Hc Hne]]; [|apply (ho_brk _ _ _ Hok), elem_of_app; by left].
      pose proof (ho_brk _ _ _ Hok x ltac:(apply elem_of_app; by left)) as H. unfold bend in *. cbn. lia.
    + apply (ho_brk _ _ _ Hok), elem_of_app. by right.
  - apply (ho_top _ _ _ Hok).
  - by rewrite Hnodes.
Qed.

(** What a successful malloc() does to a heap with free blocks [fs]. *)
Record took (fs al : list blk) (n : Z) (h : heap) (p : Z) (h' : heap) (fs' : list blk) : Prop := {
  tk_ok : heap_ok h' fs' ((p - 16, n) :: al);
  tk_brk : brk h' = brk h;
  tk_pos : 0 < p;
  tk_points : forall y, covered fs y <-> covered fs' y \/ covers (p - 16, n) y;
  tk_same : untouched fs [] h h'
}.

Lemma take_block_spec h fs al x prevp n :
  heap_ok h fs al -> x ∈ fs -> 1 <= n <= x.2 -> prevp ∈ base :: fs.*1 -> hptr (hmem h) prevp = x.1 ->
  exists p h' fs', take_block n prevp x.1 h = (p, h') /\ took fs al n h p h' fs'.
Proof using Hbase Hlimit.
  intros Hok Hx Hn Hp Hpx. destruct (asc_in _ _ x (ho_asc _ _ _ Hok) Hx) as [Hx1 Hx2].
  assert (Hsx : hsize (hmem h) x.1 = x.2) by (apply (ho_size _ _ _ Hok), elem_of_app; by left).
  apply list_elem_of_split in Hx as (f1 & f2 & ->). unfold take_block, HEADER. rewrite Hsx. destruct (Z.eqb_spec x.2 n) as [<-|E].
  - assert (Hpe : (x.1 + 16 - 16, x.2) = x) by (destruct x; cbn; f_equal; lia).
    eexists _, _, (f1 ++ f2). split; [done|]. split; rewrite ?Hpe; cbn [brk]; [by apply take_whole|done|lia| |].
    + intros y. rewrite !covered_app, covered_cons. tauto.
    + intros y Hy _ Hy2. apply load8_store64_out. intros Hr.
      apply elem_of_cons in Hp as [->|(c & -> & Hc)%list_elem_of_fmap]; [lia|]. apply Hy. exists c. split; [done|].
      destruct (asc_in _ _ c (ho_asc _ _ _ Hok) Hc). unfold covers, bend. lia.
  - destruct (tail_memory _ _ _ _ _ n Hok ltac:(lia)) as (_ & _ & _ & _ & _ & Hsame).
    assert (Ht : hsize (set_size (hmem h) x.1 (x.2 - n)) x.1 = x.2 - n).
    { rewrite hsize_set_size. apply u32_small. pose proof (ho_brk _ _ _ Hok x ltac:(apply elem_of_app; left; apply elem_of_app; right; by left)) as H.
      pose proof (ho_top _ _ _ Hok). unfold bend in H. lia. }
    cbv zeta. rewrite Ht. change (x.1 + 16 * (x.2 - n)) with (tail_of x n).1.
    eexists _, _, (f1 ++ (x.1, x.2 - n) :: f2). split; [done|].
    assert (Hpe : ((tail_of x n).1 + 16 - 16, n) = tail_of x n) by (unfold tail_of; cbn; f_equal; lia).
    split; rewrite ?Hpe; cbn [brk]; [by apply take_tail; [..|lia]|done|cbn; lia| |].
    + intros y. rewrite !covered_app, !covered_cons. unfold covers, bend. cbn. intuition lia.
    + intros y Hy _ _. apply Hsame. intros Hc. apply Hy. exists x. split; [apply elem_of_app; right; by left|done].
Qed.

(** The search loop of malloc(). *)
Lemma walk_found h n R1 x R2 f prevp fuel :
  links (hmem h) (R1 ++ x :: R2) f -> (forall p, p ∈ R1 -> hsize (hmem h) p < n /\ p <> freep h) -> n <= hsize (hmem h) x ->
  hptr (hmem h) prevp = hd f (R1 ++ x :: R2) -> (length R1 < fuel)%nat ->
  exists q, q ∈ prevp :: R1 /\ hptr (hmem h) q = x /\ malloc_loop limit fuel n prevp (hd f (R1 ++ x :: R2)) h = Some (take_block n q x h).
Proof.
  revert prevp fuel. induction R1 as [|a R1 IH]; intros prevp fuel Hl Hsm Hx Hp Hf; (destruct fuel as [|fuel]; [lia|]); cbn [app hd malloc_loop] in *.
  - destruct (Z.leb_spec n (hsize (hmem h) x)); [|lia]. exists prevp. split; [by left|done].
  - destruct (Hsm a ltac:(by left)) as [Ha1 Ha2]. destruct (Z.leb_spec n (hsize (hmem h) a)); [lia|].
    destruct (Z.eqb_spec a (freep h)); [done|]. destruct Hl as [Ea Hl]. rewrite Ea.
    destruct (IH a fuel) as (q & Hq & Eq & E); [done|intros p Hpi; apply Hsm; by right|done|done|cbn in Hf; lia|].
    exists q. split; [by right|done].
Qed.

Lemma walk_none h n R1 prevp k :
  links (hmem h) R1 (freep h) -> (forall p, p ∈ R1 -> hsize (hmem h) p < n /\ p <> freep h) -> hsize (hmem h) (freep h) < n ->
  malloc_loop limit (length R1 + S k) n prevp (hd (freep h) R1) h =
    match morecore limit k n h with
    | None => None
    | Some (p, h) => if p =? 0 then Some (0, h) else malloc_loop limit k n p (hptr (hmem h) p) h
    end.
Proof.
  revert prevp. induction R1 as [|a R1 IH]; intros prevp Hl Hsm Hx; cbn [length Nat.add hd malloc_loop].
  - destruct (Z.leb_spec n (hsize (hmem h) (freep h))); [lia|]. by rewrite Z.eqb_refl.
  - destruct (Hsm a ltac:(by left)) as [Ha1 Ha2]. destruct (Z.leb_spec n (hsize (hmem h) a)); [lia|].
    destruct (Z.eqb_spec a (freep h)); [done|]. destruct Hl as [Ea Hl]. rewrite Ea. apply IH; [done| |done]. intros p Hpi. apply Hsm. by right.
Qed.

(** The free list as the loop walks it: from the node after freep to freep. *)
Lemma tour h fs al : heap_ok h fs al ->
  exists R, R ++ [freep h] ≡ₚ base :: fs.*1 /\ freep h ∉ R /\ links (hmem h) (R ++ [freep h]) (hd 0 (R ++ [freep h])) /\
    hptr (hmem h) (freep h) = hd 0 (R ++ [freep h]).
Proof.
  intros Hok. pose proof (nodes_nodup _ _ _ Hok) as Hnd. pose proof (ho_links _ _ _ Hok) as Hl.
  pose proof (ho_freep _ _ _ Hok) as Hp. apply list_elem_of_split in Hp as (A & B & E). exists (B ++ A). rewrite E in Hnd.
  assert (Hl' : links (hmem h) (B ++ A ++ [freep h]) (hd base (B ++ A ++ [freep h]))).
  { apply links_rotate; [|rewrite <- app_assoc; cbn; by rewrite <- E]. rewrite <- app_assoc. cbn. by rewrite <- E. }
  assert (Hh : forall f g, hd f (B ++ A ++ [freep h]) = hd g (B ++ A ++ [freep h])) by (intros; destruct B; [destruct A|]; done).
  rewrite (Hh base 0) in Hl'. split_and!.
  - rewrite E. rewrite (Permutation_app_comm B A), <- app_assoc. by rewrite <- Permutation_cons_append.
  - apply NoDup_app in Hnd as (_ & Hd & Hnd). apply NoDup_cons in Hnd as [Hn _]. rewrite elem_of_app. intros [?|Hin]; [done|].
    apply (Hd _ Hin). by left.
  - by rewrite <- app_assoc.
  - rewrite <- app_assoc. rewrite app_assoc in Hl'. apply links_app in Hl' as [_ [El _]]. rewrite El. cbn [hd]. by rewrite <- app_assoc.
Qed.

Lemma first_such (P : Z -> Prop) `{!forall x, Decision (P x)} (L : list Z) x : x ∈ L -> P x ->
  exists R1 y R2, L = R1 ++ y :: R2 /\ P y /\ (forall z, z ∈ R1 -> ~ P z).
Proof.
  induction L as [|a L IH]; [by intros ?%elem_of_nil|]. intros Hx HP. destruct (decide (P a)) as [Ha|Ha].
  - exists [], a, L. split_and!; [done|done|by intros ? ?%elem_of_nil].
  - apply elem_of_cons in Hx as [->|Hx]; [done|]. destruct (IH Hx HP) as (R1 & y & R2 & -> & Hy & Hn).
    exists (a :: R1), y, R2. split_and!; [done|done|]. intros z [->|Hz]%elem_of_cons; auto.
Qed.

Lemma tour_front {A} (R R1 R2 : list A) e x : R ++ [e] = R1 ++ x :: R2 -> e ∉ R -> e ∉ R1.
Proof.
  intros E He. destruct R2 as [|z R2 _] using rev_ind; [by apply app_inj_tail in E as [-> _]|].
  rewrite app_comm_cons, app_assoc in E. apply app_inj_tail in E as [-> _]. intros Hin. apply He, elem_of_app. by left.
Qed.

Lemma search_spec h fs al n fuel : heap_ok h fs al -> 1 <= n -> (exists x, x ∈ fs /\ n <= x.2) -> (length fs < fuel)%nat ->
  exists p h' fs', malloc_loop limit fuel n (freep h) (hptr (hmem h) (freep h)) h = Some (p, h') /\ took fs al n h p h' fs'.
Proof using Hbase Hlimit.
  intros Hok Hn (x & Hx & Hxn) Hf. destruct (tour _ _ _ Hok) as (R & Hp & He & Hl & Ef).
  assert (Hnode : forall p, p ∈ R ++ [freep h] <-> p ∈ base :: fs.*1) by (intros p; by rewrite Hp).
  assert (Hsz : forall c, c ∈ fs -> hsize (hmem h) c.1 = c.2) by (intros c ?; apply (ho_size _ _ _ Hok), elem_of_app; by left).
  destruct (first_such (fun p => n <= hsize (hmem h) p) (R ++ [freep h]) x.1) as (R1 & y & R2 & E & Hy & Hsm).
  { apply Hnode. right. by apply list_elem_of_fmap_2. }
  { by rewrite Hsz. }
  pose proof (tour_front _ _ _ _ _ E He) as He1. rewrite E in Hl, Ef, Hnode. apply (f_equal length) in E. apply Permutation_length in Hp.
  rewrite E in Hp. rewrite length_app in Hp. cbn in Hp. rewrite length_fmap in Hp.
  assert (Hyc : exists c, c ∈ fs /\ y = c.1).
  { assert (Hyn : y ∈ base :: fs.*1) by (apply Hnode, elem_of_app; right; by left).
    apply elem_of_cons in Hyn as [->|(c & -> & Hc)%list_elem_of_fmap]; [rewrite (ho_base _ _ _ Hok) in Hy; lia|by exists c]. }
  destruct Hyc as (c & Hc & ->). rewrite Hsz in Hy by done.
  destruct (walk_found h n R1 c.1 R2 (hd 0 (R1 ++ c.1 :: R2)) (freep h) fuel) as (q & Hq & Eq & Ew).
  - done.
  - intros p Hpi. split; [specialize (Hsm p Hpi); lia|congruence].
  - by rewrite Hsz.
  - rewrite Ef. by destruct R1.
  - lia.
  - replace (hptr (hmem h) (freep h)) with (hd (hd 0 (R1 ++ c.1 :: R2)) (R1 ++ c.1 :: R2)) by (rewrite Ef; by destruct R1). rewrite Ew.
    destruct (take_block_spec h fs al c q n) as (p & h' & fs' & -> & Ht); try done; [|by exists p, h', fs'].
    apply elem_of_cons in Hq as [->|Hq]; [apply (ho_freep _ _ _ Hok)|]. apply Hnode, elem_of_app. by left.
Qed.

Lemma search_none h fs al n k : heap_ok h fs al -> 1 <= n -> (forall x, x ∈ fs -> x.2 < n) ->
  malloc_loop limit (length fs + S k) n (freep h) (hptr (hmem h) (freep h)) h =
    match morecore limit k n h with
    | None => None
    | Some (p, h) => if p =? 0 then Some (0, h) else malloc_loop limit k n p (hptr (hmem h) p) h
    end.
Proof.
  intros Hok Hn Hsm. destruct (tour _ _ _ Hok) as (R & Hp & He & Hl & Ef).
  assert (Hsz : forall p, p ∈ R ++ [freep h] -> hsize (hmem h) p < n).
  { intros p. rewrite Hp. intros [->|(c & -> & Hc)%list_elem_of_fmap]%elem_of_cons; [rewrite (ho_base _ _ _ Hok); lia|].
    rewrite (ho_size _ _ _ Hok) by (apply elem_of_app; by left). by apply Hsm. }
  assert (Hlen : length fs = length R) by (apply Permutation_length in Hp; rewrite length_app in Hp; cbn in Hp; rewrite length_fmap in Hp; lia).
  rewrite Hlen, Ef. replace (hd 0 (R ++ [freep h])) with (hd (freep h) R) by (by destruct R). apply walk_none.
  - by apply links_app in Hl as [Hl _].
  - intros p Hpi. split; [apply Hsz, elem_of_app; by left|congruence].
  - apply Hsz, elem_of_app. right. by left.
Qed.

Lemma insert_max fs b : 1 <= b.2 -> (forall f, f ∈ fs -> 1 <= f.2) -> exists c, c ∈ insert_block fs b /\ b.2 <= c.2.
Proof.
  intros Hb. assert (Hj : forall x t y, 1 <= x.2 -> (forall f, f ∈ t -> 1 <= f.2) -> y ∈ x :: t -> exists c, c ∈ join x t /\ y.2 <= c.2).
  { intros x t y Hx Ht Hy. destruct t as [|u t]; cbn [join]; [by exists y|]. case_match; [|by exists y].
    specialize (Ht u ltac:(by left)) as Hu. rewrite !elem_of_cons in Hy. destruct Hy as [->|[->|Hy]].
    - eexists. split; [by left|]. cbn. lia.
    - eexists. split; [by left|]. cbn. lia.
    - exists y. split; [by right|done]. }
  assert (Hpos : forall t x, 1 <= x.2 -> (forall f, f ∈ t -> 1 <= f.2) -> forall f, f ∈ join x t -> 1 <= f.2).
  { intros t x Hx Ht f. destruct t as [|u t]; cbn [join]; [by intros ->%list_elem_of_singleton|]. specialize (Ht u ltac:(by left)) as Hu.
    case_match; rewrite !elem_of_cons; [intros [->|?]; cbn; [lia|apply Ht; by right]|intros [->|[->|?]]; [done|done|apply Ht; by right]]. }
  assert (Hins : forall t, (forall f, f ∈ t -> 1 <= f.2) -> (forall f, f ∈ insert_block t b -> 1 <= f.2) /\ exists c, c ∈ insert_block t b /\ b.2 <= c.2).
  { induction t as [|f t IH]; cbn [insert_block]; intros Ht.
    - split; [by intros f ->%list_elem_of_singleton|]. exists b. split; [by left|done].
    - destruct IH as [IH1 (c & Hc & Hbc)]; [intros g ?; apply Ht; by right|]. specialize (Ht f ltac:(by left)) as Hf. destruct (f.1 <? b.1).
      + split; [by apply Hpos|]. destruct (Hj f (insert_block t b) c) as (d & Hd & ?); [done|done|by right|]. exists d. split; [done|lia].
      + split; [by apply Hpos|]. apply (Hj b (f :: t) b); [done|done|by left]. }
  intros Hfs. by apply Hins.
Qed.

Lemma length_join x t : (length (join x t) <= S (length t))%nat.
Proof. destruct t as [|u t]; cbn; [lia|]. case_match; cbn; lia. Qed.

Lemma length_insert fs b : (length (insert_block fs b) <= S (length fs))%nat.
Proof.
  induction fs as [|f fs IH]; cbn [insert_block]; [cbn; lia|]. case_match.
  - pose proof (length_join f (insert_block fs b)). cbn. lia.
  - pose proof (length_join b (f :: fs)). cbn in *. lia.
Qed.

(** Memory from the system is an allocated block at the old break. *)
Lemma grown h fs al nu : heap_ok h fs al -> 1 <= nu < 2 ^ 32 -> brk h + 16 * nu <= limit ->
  heap_ok (set_hmem (set_size (hmem h) (brk h) nu) (set_brk (brk h + 16 * nu) h)) fs ((brk h, nu) :: al).
Proof.
  intros Hok Hnu Hlim. pose proof (ho_top _ _ _ Hok) as Htop.
  assert (Hb : forall c, c ∈ fs ++ al -> 1 <= c.2 /\ base + 16 <= c.1 /\ bend c <= brk h).
  { intros c Hc. split_and!; try (by apply (ho_brk _ _ _ Hok)); apply elem_of_app in Hc as [Hc|Hc];
      try (destruct (asc_in _ _ c (ho_asc _ _ _ Hok) Hc); lia); by apply (ho_al _ _ _ Hok). }
  assert (Hap : forall c, c ∈ fs ++ al -> apart c (brk h, nu)) by (intros c Hc; left; cbn; by apply Hb).
  assert (Hc : forall c, c ∈ base :: (fs ++ al).*1 -> apart_at (brk h) c).
  { intros c [->|(d & -> & Hd)%list_elem_of_fmap]%elem_of_cons; [unfold apart_at; lia|]. destruct (Hb d Hd) as (? & ? & ?). unfold apart_at, bend in *. lia. }
  constructor; cbn [set_hmem set_brk hmem freep brk].
  - eapply links_ext; [|exact (ho_links _ _ _ Hok)]. intros x Hx. apply hptr_set_size. right. apply Hc.
    rewrite fmap_app, app_comm_cons. apply elem_of_app. by left.
  - rewrite hsize_set_size_ne by (apply Hc; by left). apply (ho_base _ _ _ Hok).
  - intros c. rewrite elem_of_app, elem_of_cons. intros Hcc. destruct (decide (c = (brk h, nu))) as [->|Hne].
    + cbn. rewrite hsize_set_size. apply u32_small. lia.
    + rewrite hsize_set_size_ne; [apply (ho_size _ _ _ Hok), elem_of_app; tauto|]. apply Hc. right. apply list_elem_of_fmap_2, elem_of_app. tauto.
  - apply (ho_asc _ _ _ Hok).
  - intros c [->|Hca]%elem_of_cons; [cbn; lia|by apply (ho_al _ _ _ Hok)].
  - intros b c [->|Hba]%elem_of_cons Hcf; [apply Hap, elem_of_app; by left|by apply (ho_apart _ _ _ Hok)].
  - intros b c [->|Hba]%elem_of_cons [->|Hca]%elem_of_cons; [by left| | |by apply (ho_sep _ _ _ Hok)]; right.
    + destruct (Hap c); [apply elem_of_app; by right|by right|by left].
    + apply Hap, elem_of_app. by right.
  - apply NoDup_cons. split; [|apply (ho_nodup _ _ _ Hok)]. intros Hin. destruct (Hb (brk h, nu)) as (_ & _ & Hbad); [apply elem_of_app; by right|].
    unfold bend in Hbad. cbn in Hbad. lia.
  - intros c. rewrite elem_of_app, elem_of_cons. intros [Hcf|[->|Hca]]; [|unfold bend; cbn; lia|];
      (destruct (Hb c) as (_ & _ & ?); [apply elem_of_app; tauto|lia]).
  - lia.
  - apply (ho_freep _ _ _ Hok).
Qed.

Lemma morecore_spec h fs al n k : heap_ok h fs al -> 1 <= n -> 16 * n < 2 ^ 31 -> (length fs < k)%nat ->
  let nu := Z.max 4096 n in
  if limit <? brk h + 16 * nu then morecore limit k n h = Some (0, h)
  else exists h', morecore limit k n h = Some (freep h', h') /\ heap_ok h' (insert_block fs (brk h, nu)) al /\
    brk h' = brk h + 16 * nu /\ untouched fs [(brk h, nu)] h h'.
Proof using Hbase Hlimit.
  intros Hok Hn Hsm Hk nu. unfold morecore. assert ((if n <? 4096 then 4096 else n) = nu) as -> by (unfold nu; case_match; lia).
  unfold sbrk, HEADER. assert (Hnu : 1 <= nu < 2 ^ 32 /\ nu * 16 < 2 ^ 31 /\ 0 < nu * 16) by (unfold nu; lia).
  rewrite s32_small by lia. destruct (Z.ltb_spec 0 (nu * 16)); [|lia]. rewrite (Z.mul_comm nu 16).
  destruct (Z.ltb_spec limit (brk h + 16 * nu)) as [Hb|Hb]; [done|]. pose proof (ho_top _ _ _ Hok) as Htop.
  destruct (Z.eqb_spec (brk h) (-1)); [lia|].
  pose proof (grown h fs al nu Hok ltac:(lia) ltac:(lia)) as Hg.
  destruct (free_spec _ _ _ _ k Hg Hk) as (h' & E & Hok' & Ebrk & Hsame).
  change (free k (brk h + 16) (set_hmem (set_size (hmem (set_brk (brk h + 16 * nu) h)) (brk h) nu) (set_brk (brk h + 16 * nu) h)) = Some h') in E.
  rewrite E. exists h'. split_and!; try done.
  intros x Hx1 Hx2 Hx3. rewrite Hsame by done. cbn. apply load8_store32_out. intros Hr. apply Hx2. exists (brk h, nu).
  split; [by left|]. unfold covers, bend. cbn. lia.
Qed.

(** ** The two theorems *)

Definition heap_inv (h : heap) (fs al : list blk) : Prop :=
  if freep h =? 0 then fs = [] /\ al = [] /\ base + 16 <= brk h <= limit else heap_ok h fs al.

(** The bytes of the blocks [al] are the same in both heaps. *)
Definition contents_kept (al : list blk) (h h' : heap) : Prop :=
  forall b x, b ∈ al -> covers b x -> load8 (hmem h') x = load8 (hmem h) x.

Lemma untouched_contents h h' fs bs al : heap_ok h fs al -> (forall b c, b ∈ al -> c ∈ bs -> apart c b) ->
  untouched fs bs h h' -> contents_kept al h h'.
Proof.
  intros Hok Hap Hu b x Hb Hx. apply Hu.
  - intros (c & Hc & Hcx). eapply points_apart; [by apply (ho_apart _ _ _ Hok b c)|done|done].
  - intros (c & Hc & Hcx). eapply points_apart; [by apply (Hap b c)|done|done].
  - destruct (ho_al _ _ _ Hok b Hb). unfold covers in Hx. lia.
Qed.

Lemma nunits_spec nbytes : 0 <= nbytes <= 2 ^ 31 - 64 ->
  let n := nunits_of nbytes in 1 <= n /\ 16 * n < 2 ^ 31 /\ nbytes <= 16 * (n - 1) < nbytes + 16.
Proof.
  intros H. unfold nunits_of, HEADER. rewrite u32_small by (Z.div_mod_to_equations; lia). cbv zeta. Z.div_mod_to_equations; lia.
Qed.

Lemma initial_heap m b : base + 16 <= b <= limit -> heap_ok (Heap (set_size (set_ptr m base base) base 0) base b) [] [].
Proof using Hbase Hlimit.
  intros Hb. constructor; cbn [hmem freep brk]; try done; try (by intros ? ?%elem_of_nil); try (by intros ? ? ?%elem_of_nil).
  - cbn. split; [|done]. rewrite hptr_set_size, hptr_set_ptr by (by left). apply u64_small. lia.
  - by rewrite hsize_set_size.
  - constructor.
  - by left.
Qed.

(** The heap after malloc() has returned the block of [n] units at p - 16. *)
Record allocated (h : heap) (fs al : list blk) (n p : Z) (h' : heap) (fs' : list blk) : Prop := {
  al_ok : heap_ok h' fs' ((p - 16, n) :: al);
  al_brk : brk h <= brk h';
  al_points : forall y, covered fs' y \/ covers (p - 16, n) y <-> covered fs y \/ brk h <= y < brk h';
  al_kept : contents_kept al h h'
}.

Lemma took_allocated h fs al n p h' fs' : heap_ok h fs al -> took fs al n h p h' fs' -> allocated h fs al n p h' fs'.
Proof.
  intros Hok []. constructor; [done|lia| |].
  - intros y. rewrite tk_brk0, tk_points0. split; [tauto|]. intros [?|?]; [done|lia].
  - eapply untouched_contents; [done| |done]. by intros ? ? _ ?%elem_of_nil.
Qed.

Lemma malloc_loop_spec h fs al n fuel : heap_ok h fs al -> 1 <= n -> 16 * n < 2 ^ 31 -> (2 * length fs + 3 <= fuel)%nat ->
  exists p h' fs', malloc_loop limit fuel n (freep h) (hptr (hmem h) (freep h)) h = Some (p, h') /\
    if p =? 0 then h' = h /\ fs' = fs /\ (forall b, b ∈ fs -> b.2 < n) /\ limit < brk h + 16 * Z.max 4096 n
    else allocated h fs al n p h' fs'.
Proof using Hbase Hlimit.
  intros Hok Hn Hsm Hf. destruct (decide (Exists (fun b : blk => n <= b.2) fs)) as [Hex|Hno].
  - apply list.Exists_exists in Hex as (x & Hx & Hxn). destruct (search_spec h fs al n fuel) as (p & h' & fs' & E & Ht); [done|done|by exists x|lia|].
    exists p, h', fs'. split; [done|]. pose proof (tk_pos _ _ _ _ _ _ _ Ht). destruct (Z.eqb_spec p 0); [lia|]. by apply took_allocated.
  - assert (Hall : forall b, b ∈ fs -> b.2 < n).
    { intros b Hb. apply Z.lt_nge. intros Hge. apply Hno, list.Exists_exists. by exists b. }
    destruct (Nat.le_exists_sub (length fs + 1) fuel ltac:(lia)) as (k & -> & _).
    replace (k + (length fs + 1))%nat with (length fs + S k)%nat by lia. rewrite (search_none h fs al) by done.
    pose proof (morecore_spec h fs al n k Hok Hn Hsm ltac:(lia)) as Hm. cbv zeta in Hm. destruct (Z.ltb_spec limit (brk h + 16 * Z.max 4096 n)).
    + rewrite Hm. exists 0, h, fs. done.
    + destruct Hm as (h1 & -> & Hok1 & Eb & Hu). set (b := (brk h, Z.max 4096 n)) in *. pose proof (ho_asc _ _ _ Hok) as Hasc.
      assert (Hfp : 0 < freep h1).
      { pose proof (ho_freep _ _ _ Hok1) as Hp. apply elem_of_cons in Hp as [->|(c & -> & Hc)%list_elem_of_fmap]; [done|].
        destruct (asc_in _ _ c (ho_asc _ _ _ Hok1) Hc). lia. }
      destruct (Z.eqb_spec (freep h1) 0); [lia|]. destruct (insert_max fs b) as (c & Hc & Hcn); [cbn; lia|intros f Hfi; by apply (asc_in _ _ f Hasc)|].
      destruct (search_spec h1 (insert_block fs b) al n k) as (p & h' & fs' & E & Ht); [done|done|exists c; cbn in Hcn; split; [done|lia]|pose proof (length_insert fs b); lia|].
      exists p, h', fs'. split; [done|]. destruct (took_allocated _ _ _ _ _ _ _ Hok1 Ht) as [H1 H2 H3 H4].
      pose proof (tk_pos _ _ _ _ _ _ _ Ht). pose proof (tk_brk _ _ _ _ _ _ _ Ht) as Hbk. destruct (Z.eqb_spec p 0); [lia|]. constructor; [done|lia| |].
      * intros y. rewrite H3, (insert_covered (base + 15)), Hbk, Eb; try done; [|pose proof (ho_top _ _ _ Hok); cbn; lia|cbn; lia|].
        -- unfold covers, bend. cbn. split; [|tauto]. intros [[?|?]|?]; [right; lia|by left|lia].
        -- intros f Hfi. left. cbn. apply (ho_brk _ _ _ Hok), elem_of_app. by left.
      * intros d x Hd Hx. rewrite (H4 d x Hd Hx). eapply (untouched_contents h h1 fs [b]); try done.
        intros e f He ->%list_elem_of_singleton. right. cbn. apply (ho_brk _ _ _ Hok), elem_of_app. by right.
Qed.

(** C34: malloc() is total and safe for requests of at most 2^31 - 64 bytes
    (for larger ones the size passed to sbrk(int) no longer fits, and near 2^32
    the number of units wraps).  Its search ends, within the turns given,
    and either finds no room in the free list and none to be had from the
    system, returning 0 with nothing changed for the program; or returns a
    block large enough for the request that overlaps no other allocated block,
    made of free memory or of memory the process has just been given, with
    every byte of the other allocated blocks as it was and the free list again
    in address order with no two blocks adjacent. *)
Theorem malloc_correct h fs al nbytes fuel :
  heap_inv h fs al -> 0 <= nbytes <= 2 ^ 31 - 64 -> (2 * length fs + 3 <= fuel)%nat ->
  let n := nunits_of nbytes in nbytes <= 16 * (n - 1) < nbytes + 16 /\
  exists p h' fs', malloc base limit fuel nbytes h = Some (p, h') /\
    if p =? 0 then heap_inv h' fs al /\ contents_kept al h h' /\ brk h' = brk h /\
      (forall b, b ∈ fs -> b.2 < n) /\ limit < brk h + 16 * Z.max 4096 n
    else allocated h fs al n p h' fs'.
Proof using Hbase Hlimit.
  intros Hinv Hnb Hf n. destruct (nunits_spec nbytes Hnb) as (Hn1 & Hn2 & Hn3). fold n in Hn1, Hn2, Hn3. split; [done|].
  unfold malloc, heap_inv in *. fold n. destruct (Z.eqb_spec (freep h) 0) as [E0|E0].
  - destruct Hinv as (-> & -> & Hb). pose proof (initial_heap (hmem h) (brk h) Hb) as Hok. set (h0 := Heap _ base (brk h)) in *.
    destruct (malloc_loop_spec h0 [] [] n fuel) as (p & h' & fs' & E & Hp); try done. exists p, h', fs'. split; [done|].
    destruct (p =? 0).
    + destruct Hp as (-> & -> & H1 & H2). destruct (Z.eqb_spec (freep h0) 0) as [Hz|_]; [cbn in Hz; lia|]. split_and!; try done. by intros ? ? ?%elem_of_nil.
    + destruct Hp as [H1 H2 H3 H4]. constructor; [done|done|done|]. by intros ? ? ?%elem_of_nil.
  - destruct (malloc_loop_spec h fs al n fuel) as (p & h' & fs' & E & Hp); try done. exists p, h', fs'. split; [done|].
    destruct (p =? 0); [|done]. destruct Hp as (-> & -> & H1 & H2). destruct (Z.eqb_spec (freep h) 0); [done|]. split_and!; done.
Qed.

(** C35: free() is total and gives back exactly the block.  The search for its
    place in the circular list ends; afterwards the free memory is what was
    free before and the block's bytes, in address order with no two free
    blocks adjacent, so neighbours have been merged; the other allocated
    blocks and their bytes are untouched. *)
Theorem free_correct h fs al1 b al2 fuel :
  heap_inv h fs (al1 ++ b :: al2) -> (length fs < fuel)%nat ->
  exists h' fs', free fuel (b.1 + 16) h = Some h' /\ heap_inv h' fs' (al1 ++ al2) /\ brk h' = brk h /\
    (forall y, covered fs' y <-> covered fs y \/ covers b y) /\ asc (base + 15) fs' /\
    contents_kept (al1 ++ al2) h h'.
Proof using Hbase Hlimit.
  intros Hinv Hf. unfold heap_inv in Hinv. destruct (Z.eqb_spec (freep h) 0) as [_|E0]; [by destruct Hinv as (_ & ?%eq_sym%app_cons_not_nil & _)|].
  assert (Hok : heap_ok h fs (b :: al1 ++ al2)) by (eapply heap_ok_perm; [|exact Hinv]; by rewrite Permutation_middle).
  destruct (free_spec h fs b _ fuel Hok Hf) as (h' & E & Hok' & Eb & Hu). exists h', (insert_block fs b).
  pose proof (ho_al _ _ _ Hok b ltac:(by left)) as [Hb1 Hb2]. pose proof (ho_asc _ _ _ Hok') as Hasc'. split_and!; try done.
  - unfold heap_inv. pose proof (ho_freep _ _ _ Hok') as Hp. destruct (Z.eqb_spec (freep h') 0) as [Hz|]; [|done]. exfalso. rewrite Hz in Hp.
    apply elem_of_cons in Hp as [Hp|(c & Hp & Hc)%list_elem_of_fmap]; [lia|]. destruct (asc_in _ _ c Hasc' Hc). lia.
  - intros y. rewrite (insert_covered (base + 15)); [tauto|lia|done|apply Hok|]. intros f Hfi. apply (ho_apart _ _ _ Hok); [by left|done].
  - intros c x Hc Hx. apply Hu.
    + intros (d & Hd & Hdx). eapply points_apart; [apply (ho_apart _ _ _ Hok c d); [by right|done]|done|done].
    + intros (d & Hd%list_elem_of_singleton & Hdx). subst d. destruct (ho_sep _ _ _ Hok b c ltac:(by left) ltac:(by right)) as [->|Ha].
      * by apply (NoDup_cons_1_1 _ _ (ho_nodup _ _ _ Hok)).
      * by eapply points_apart.
    + destruct (ho_al _ _ _ Hok c ltac:(by right)). unfold covers in Hx. lia.
Qed.
End Heap.

(** A process with 1 MB to grow into, and its heap after one malloc(). *)
Module MallocSample.
Definition base : Z := 0x2000.
Definition limit : Z := 0x100000.
Definition start : heap := Heap ∅ 0 0x3000.
(** 4096 units from the system, the last 8 of them allocated. *)
Definition rest : blk := (0x3000, 4088).
Definition mine : blk := (0x12f80, 8).
Definition later : heap :=
  let m := set_size (set_ptr ∅ base 0x3000) base 0 in
  let m := set_size (set_ptr m 0x3000 base) 0x3000 4088 in
  Heap (set_size m 0x12f80 8) base 0x13000.

Lemma later_ok : heap_ok base limit later [rest] [mine].
Proof.
  constructor.
  - split; [by vm_compute|split; [by vm_compute|done]].
  - by vm_compute.
  - intros b Hb. cbn [app] in Hb. rewrite !elem_of_cons in Hb. destruct Hb as [->|[->|?%elem_of_nil]]; [by vm_compute|by vm_compute|done].
  - split_and!; done.
  - intros b ->%list_elem_of_singleton. done.
  - intros b c ->%list_elem_of_singleton ->%list_elem_of_singleton. left. by vm_compute.
  - intros b c ->%list_elem_of_singleton ->%list_elem_of_singleton. by left.
  - apply NoDup_singleton.
  - intros b Hb. cbn [app] in Hb. rewrite !elem_of_cons in Hb. destruct Hb as [->|[->|?%elem_of_nil]]; [by vm_compute|by vm_compute|done].
  - done.
  - by left.
Qed.
End MallocSample.

Lemma malloc_correct_witness : exists p h' fs', malloc MallocSample.base MallocSample.limit 3 100 MallocSample.start = Some (p, h') /\
  p <> 0 /\ allocated MallocSample.base MallocSample.limit MallocSample.start [] [] 8 p h' fs'.
Proof.
  destruct (malloc_correct MallocSample.base MallocSample.limit ltac:(by vm_compute) ltac:(by vm_compute)
    MallocSample.start [] [] 100 3) as (_ & p & h' & fs' & E & Hp).
  - split_and!; done.
  - lia.
  - cbn. lia.
  - exists p, h', fs'. destruct (Z.eqb_spec p 0) as [->|Hne]; [|by split_and!]. destruct Hp as (_ & _ & _ & _ & Hbad). by vm_compute in Hbad.
Defined.

Lemma free_correct_witness : exists h' fs', free 2 (MallocSample.mine.1 + 16) MallocSample.later = Some h' /\
  heap_inv MallocSample.base MallocSample.limit h' fs' [] /\
  (forall y, covered fs' y <-> 0x3000 <= y < 0x13000) /\ hsize (hmem h') 0x3000 = 4096.
Proof.
  destruct (free_correct MallocSample.base MallocSample.limit ltac:(by vm_compute) ltac:(by vm_compute)
    MallocSample.later [MallocSample.rest] [] MallocSample.mine [] 2) as (h' & fs' & E & Hi & _ & Hy & _).
  - exact MallocSample.later_ok.
  - cbn. lia.
  - exists h', fs'. split_and!; [done|done| |].
    + intros y. rewrite Hy, covered_cons, covered_nil. unfold covers, bend, MallocSample.rest, MallocSample.mine. cbn [fst snd]. lia.
    + assert (Hz : (fun h => hsize (hmem h) 0x3000) <$> free 2 (MallocSample.mine.1 + 16) MallocSample.later = Some 4096) by (by vm_compute).
      rewrite E in Hz. by injection Hz.
Defined.

(** A request near 2^32 bytes: nu * sizeof(Header) is cut to an int for
    sbrk(), which adds 16 bytes to the process for a block of 4 GB. *)
Theorem malloc_wraps :
  match malloc MallocSample.base MallocSample.limit 5 0xfffffff1 MallocSample.start with
  | Some (p, h') => p = 0x3010 /\ brk h' = 0x3010 /\ hsize (hmem h') 0x3000 = 2 ^ 28 + 1
  | None => False
  end.
Proof. vm_compute. repeat split. Qed.
