(* ===== verification/Sh.v ===== *)
(** * The shell (user/sh.c)

    A pointer into the command line is the rest of the line from there: [*s]
    is [chr s], [s < es] is [s <> []].  A counted string is the pair of its
    first pointer and the one just past it.  The parser's functions return a
    command and the new pointer, or what they print before they exit. *)

From Stdlib Require Import ZArith Lia.
From stdpp Require Import base numbers list list_numbers gmap strings.
From S2P Require Import Prelude Cstring Console User Ulib Sysfile.

Module Sh.
Definition MAXARGS : nat := 10.

Definition token : Type := list Z * list Z.

(** redircmd without its command: file and efile, mode, fd. *)
Record redir (W : Type) := Redir { r_file : W; r_mode : Z; r_fd : Z }.
#[global] Arguments Redir {W} r_file r_mode r_fd.
#[global] Arguments r_file {W} r.
#[global] Arguments r_mode {W} r.
#[global] Arguments r_fd {W} r.

(** struct cmd, over words [W]. *)
Inductive cmd (W : Type) :=
| EXEC (argv : list W)
| REDIR (c : cmd W) (r : redir W)
| PIPE (left right : cmd W)
| LIST (left right : cmd W)
| BACK (c : cmd W).
#[global] Arguments EXEC {W} argv.
#[global] Arguments REDIR {W} c r.
#[global] Arguments PIPE {W} left right.
#[global] Arguments LIST {W} left right.
#[global] Arguments BACK {W} c.

Inductive parsed (A : Type) := Parsed (a : A) (s : list Z) | Syntax (out : list Z) | NoFuel.
#[global] Arguments Parsed {A} a s.
#[global] Arguments Syntax {A} out.
#[global] Arguments NoFuel {A}.

Definition pbind {A B} (r : parsed A) (k : A -> list Z -> parsed B) : parsed B :=
  match r with
  | Parsed a s => k a s
  | Syntax m => Syntax m
  | NoFuel => NoFuel
  end.

(** panic(s). *)
Definition panic {A} (s : string) : parsed A := Syntax (lit s ++ [10]).

Definition whitespace : list Z := [32; 9; 13; 10; 11].
Definition symbols : list Z := [60; 124; 62; 38; 59; 40; 41].
Definition has (toks : list Z) (c : Z) : bool := match Ulib.strchr toks c with Some _ => true | None => false end.

(** while(s < es && strchr(whitespace, *s)) s++ *)
Fixpoint skip (s : list Z) : list Z :=
  match s with
  | [] => []
  | c :: s' => if has whitespace c then skip s' else s
  end.

Fixpoint skip_word (s : list Z) : list Z :=
  match s with
  | [] => []
  | c :: s' => if negb (has whitespace c) && negb (has symbols c) then skip_word s' else s
  end.

(** The kind of token, its first and last pointer, and the new *ps. *)
Definition gettoken (s : list Z) : Z * token * list Z :=
  let s := skip s in
  let q := s in
  let '(ret, s) :=
    if chr s =? 0 then (0, s)
    else if has [124; 40; 41; 59; 38; 60] (chr s) then (chr s, nxt s)
    else if chr s =? 62 then
      let s := nxt s in
      if chr s =? 62 then (43, nxt s) else (62, s)
    else (97, skip_word s) in
  (ret, (q, s), skip s).

Definition peek (s : list Z) (toks : list Z) : list Z * bool :=
  let s := skip s in (s, negb (chr s =? 0) && has toks (chr s)).

Definition redir_of (tok : Z) (w : token) : option (redir token) :=
  if tok =? 60 then Some (Redir w O_RDONLY 0)
  else if tok =? 62 then Some (Redir w (Z.lor (Z.lor O_WRONLY O_CREATE) O_TRUNC) 1)
  else if tok =? 43 then Some (Redir w (Z.lor O_WRONLY O_CREATE) 1)
  else None.

Definition redir_opt {W} (c : cmd W) (r : option (redir W)) : cmd W :=
  match r with Some r => REDIR c r | None => c end.

Fixpoint parseredirs (fuel : nat) (c : cmd token) (s : list Z) : parsed (cmd token) :=
  match fuel with
  | O => NoFuel
  | S k =>
      let '(s, more) := peek s [60; 62] in
      if more then
        let '(tok, _, s) := gettoken s in
        let '(t2, w, s) := gettoken s in
        if t2 =? 97 then parseredirs k (redir_opt c (redir_of tok w)) s
        else panic "missing file for redirection"
      else Parsed c s
  end.

(** cmd->argv[argc] = q: the execcmd may already be inside redirections, which
    point to it. *)
Fixpoint add_arg (c : cmd token) (w : token) : cmd token :=
  match c with
  | EXEC argv => EXEC (argv ++ [w])
  | REDIR c r => REDIR (add_arg c w) r
  | c => c
  end.

(** The loop of parseexec(), with argc arguments already stored. *)
Fixpoint parseargs (fuel : nat) (argc : nat) (ret : cmd token) (s : list Z) : parsed (cmd token) :=
  match fuel with
  | O => NoFuel
  | S k =>
      let '(s, stop) := peek s [124; 41; 38; 59] in
      if stop then Parsed ret s
      else
        let '(tok, w, s) := gettoken s in
        if tok =? 0 then Parsed ret s
        else if negb (tok =? 97) then panic "syntax"
        else
          let ret := add_arg ret w in
          if (MAXARGS <=? S argc)%nat then panic "too many args"
          else pbind (parseredirs k ret s) (fun ret s => parseargs k (S argc) ret s)
  end.

(** while(peek(ps, es, "&")){ gettoken; cmd = backcmd(cmd); } *)
Fixpoint parsebacks (fuel : nat) (c : cmd token) (s : list Z) : parsed (cmd token) :=
  match fuel with
  | O => NoFuel
  | S k =>
      let '(s, more) := peek s [38] in
      if more then let '(_, _, s) := gettoken s in parsebacks k (BACK c) s
      else Parsed c s
  end.

Fixpoint parseline (fuel : nat) (s : list Z) : parsed (cmd token) :=
  match fuel with
  | O => NoFuel
  | S k =>
      pbind (parsepipe k s) (fun c s =>
      pbind (parsebacks k c s) (fun c s =>
      let '(s, more) := peek s [59] in
      if more then
        let '(_, _, s) := gettoken s in
        pbind (parseline k s) (fun right s => Parsed (LIST c right) s)
      else Parsed c s))
  end
with parsepipe (fuel : nat) (s : list Z) : parsed (cmd token) :=
  match fuel with
  | O => NoFuel
  | S k =>
      pbind (parseexec k s) (fun c s =>
      let '(s, more) := peek s [124] in
      if more then
        let '(_, _, s) := gettoken s in
        pbind (parsepipe k s) (fun right s => Parsed (PIPE c right) s)
      else Parsed c s)
  end
with parseexec (fuel : nat) (s : list Z) : parsed (cmd token) :=
  match fuel with
  | O => NoFuel
  | S k =>
      let '(s, block) := peek s [40] in
      if block then parseblock k s
      else pbind (parseredirs k (EXEC []) s) (fun ret s => parseargs k 0 ret s)
  end
with parseblock (fuel : nat) (s : list Z) : parsed (cmd token) :=
  match fuel with
  | O => NoFuel
  | S k =>
      let '(s, open) := peek s [40] in
      if negb open then panic "parseblock"
      else
        let '(_, _, s) := gettoken s in
        pbind (parseline k s) (fun c s =>
        let '(s, close) := peek s [41] in
        if negb close then panic "syntax - missing )"
        else
          let '(_, _, s) := gettoken s in
          parseredirs k c s)
  end.

(** nulterminate(): NULs at the end pointers, in the bytes of the line
    [n] long. *)
Definition nul_at (n : nat) (b : list Z) (w : token) : list Z := <[(n - length w.2)%nat := 0]> b.

Fixpoint nulterminate (n : nat) (c : cmd token) (b : list Z) : list Z :=
  match c with
  | EXEC argv => fold_left (nul_at n) argv b
  | REDIR c r => nul_at n (nulterminate n c b) (r_file r)
  | PIPE l r => nulterminate n r (nulterminate n l b)
  | LIST l r => nulterminate n r (nulterminate n l b)
  | BACK c => nulterminate n c b
  end.

(** parsecmd(): the command and the bytes of the line afterwards, its NUL
    included.  Each call of the recursion uses one unit of fuel; four of them,
    parseline() to parseblock(), may precede a token. *)
Definition parsecmd (line : list Z) : parsed (cmd token * list Z) :=
  pbind (parseline (4 * length line + 4) line) (fun c s =>
  let '(s, _) := peek s [] in
  if bool_decide (s = []) then Parsed (c, nulterminate (length line) c (line ++ [0])) s
  else Syntax (lit "leftovers: " ++ s ++ [10] ++ lit "syntax" ++ [10])).
End Sh.

(** ** Termination *)

Lemma skip_le s : (length (Sh.skip s) <= length s)%nat.
Proof. induction s as [|c s IH]; cbn; [lia|]. case_match; cbn; lia. Qed.

Lemma skip_word_le s : (length (Sh.skip_word s) <= length s)%nat.
Proof. induction s as [|c s IH]; cbn; [lia|]. case_match; cbn; lia. Qed.

Lemma skip_skip s : Sh.skip (Sh.skip s) = Sh.skip s.
Proof. induction s as [|c s IH]; cbn; [done|]. destruct (Sh.has Sh.whitespace c) eqn:E; [done|]. cbn. by rewrite E. Qed.

Lemma skip_head s c s' : Sh.skip s = c :: s' -> Sh.has Sh.whitespace c = false.
Proof. induction s as [|x s IH]; cbn; [done|]. destruct (Sh.has Sh.whitespace x) eqn:E; [done|]. intros H. by injection H as <- <-. Qed.

Lemma has_elem toks c : Sh.has toks c = bool_decide (c ∈ toks).
Proof.
  unfold Sh.has. induction toks as [|t toks IH]; cbn; [done|]. destruct (Z.eqb_spec t c) as [->|Hc].
  - symmetry. apply bool_decide_eq_true_2. by left.
  - rewrite IH. apply bool_decide_ext. rewrite elem_of_cons. naive_solver.
Qed.

Lemma has_true toks c : Sh.has toks c = true <-> c ∈ toks.
Proof. rewrite has_elem. apply bool_decide_eq_true. Qed.

Lemma has_false toks c : Sh.has toks c = false <-> c ∉ toks.
Proof. rewrite has_elem. apply bool_decide_eq_false. Qed.

(** gettoken() moves on, unless it is at the end. *)
Lemma gettoken_le s :
  let '(t, _, s') := Sh.gettoken s in (length s' <= length (Sh.skip s))%nat /\ (t <> 0 -> (length s' < length (Sh.skip s))%nat).
Proof.
  unfold Sh.gettoken. destruct (Sh.skip s) as [|c r] eqn:Es; [cbn; done|]. cbn [chr nxt]. pose proof (skip_head _ _ _ Es) as Hw.
  destruct (Z.eqb_spec c 0); [split; [apply skip_le|done]|].
  destruct (Sh.has [124; 40; 41; 59; 38; 60] c) eqn:E1; [pose proof (skip_le r); cbn; lia|].
  destruct (Z.eqb_spec c 62).
  - destruct (chr r =? 62); [|pose proof (skip_le r); cbn; lia].
    pose proof (skip_le (nxt r)). destruct r; cbn in *; lia.
  - assert (Hsym : Sh.has Sh.symbols c = false).
    { apply has_false. apply has_false in E1. unfold Sh.symbols. rewrite !elem_of_cons, elem_of_nil in *. naive_solver. }
    cbn [Sh.skip_word]. rewrite Hw, Hsym. cbn. pose proof (skip_le (Sh.skip_word r)). pose proof (skip_word_le r). cbn. lia.
Qed.

Lemma gettoken_nonzero s : chr (Sh.skip s) <> 0 -> let '(t, _, _) := Sh.gettoken s in t <> 0.
Proof.
  unfold Sh.gettoken. intros Hc. destruct (Z.eqb_spec (chr (Sh.skip s)) 0); [done|].
  destruct (Sh.has _ _); [done|]. destruct (_ =? 62); [destruct (_ =? 62); done|done].
Qed.

(** After peek() has seen a token, gettoken() takes it. *)
Lemma peek_cases s toks :
  Sh.peek s toks = (Sh.skip s, false) \/
  Sh.peek s toks = (Sh.skip s, true) /\ exists t w s', Sh.gettoken (Sh.skip s) = (t, w, s') /\ (length s' < length s)%nat.
Proof.
  unfold Sh.peek. destruct (negb _ && _) eqn:E; [right|by left]. apply andb_true_iff in E as [Hc _]. apply negb_true_iff, Z.eqb_neq in Hc.
  pose proof (gettoken_le (Sh.skip s)) as Hl. pose proof (gettoken_nonzero (Sh.skip s)) as Hz. rewrite skip_skip in Hl, Hz.
  destruct (Sh.gettoken (Sh.skip s)) as [[t w] s']. specialize (Hz Hc). split; [done|]. exists t, w, s'. split; [done|].
  pose proof (skip_le s). destruct Hl as [_ Hl]. specialize (Hl Hz). lia.
Qed.

(** A result that is not out of fuel, with no more text left than before. *)
Definition ends {A} (n : nat) (r : Sh.parsed A) : Prop :=
  match r with
  | Sh.Parsed _ s => (length s <= n)%nat
  | Sh.Syntax _ => True
  | Sh.NoFuel => False
  end.

Lemma ends_weaken {A} n m (r : Sh.parsed A) : (n <= m)%nat -> ends n r -> ends m r.
Proof. destruct r; cbn; lia. Qed.

Lemma ends_bind {A B} n m (r : Sh.parsed A) (k : A -> list Z -> Sh.parsed B) :
  ends n r -> (forall a s, (length s <= n)%nat -> ends m (k a s)) -> ends m (Sh.pbind r k).
Proof. destruct r; cbn; auto; tauto. Qed.

Lemma parseredirs_ends fuel : forall c s, (length s < fuel)%nat -> ends (length s) (Sh.parseredirs fuel c s).
Proof.
  induction fuel as [|fuel IH]; intros c s Hf; [lia|]. cbn [Sh.parseredirs].
  destruct (peek_cases s [60; 62]) as [->|(-> & t & w & s2 & -> & Hl)]; [apply skip_le|].
  pose proof (gettoken_le s2) as T2. pose proof (skip_le s2).
  destruct (Sh.gettoken s2) as [[t2 w2] s3]. destruct (t2 =? 97); [|done]. eapply ends_weaken; [|apply IH]; lia.
Qed.

Lemma parseargs_ends fuel : forall argc c s, (length s < fuel)%nat -> ends (length s) (Sh.parseargs fuel argc c s).
Proof.
  induction fuel as [|fuel IH]; intros argc c s Hf; [lia|]. cbn [Sh.parseargs]. pose proof (skip_le s) as Hs.
  unfold Sh.peek. destruct (negb _ && _); [done|]. pose proof (gettoken_le (Sh.skip s)) as T. rewrite skip_skip in T.
  destruct (Sh.gettoken (Sh.skip s)) as [[t w] s2]. destruct T as [T1 T2]. destruct (Z.eqb_spec t 0); [cbn; lia|]. specialize (T2 ltac:(done)).
  destruct (negb (t =? 97)); [done|]. destruct (Sh.MAXARGS <=? S argc)%nat; [done|].
  eapply (ends_bind (length s2)); [apply parseredirs_ends; lia|]. intros a s3 H3. eapply ends_weaken; [|apply IH]; lia.
Qed.

Lemma parsebacks_ends fuel : forall c s, (length s < fuel)%nat -> ends (length s) (Sh.parsebacks fuel c s).
Proof.
  induction fuel as [|fuel IH]; intros c s Hf; [lia|]. cbn [Sh.parsebacks].
  destruct (peek_cases s [38]) as [->|(-> & t & w & s2 & -> & Hl)]; [apply skip_le|]. eapply ends_weaken; [|apply IH]; lia.
Qed.

Lemma parse_ends fuel : forall s, let n := length s in
  ((4 * n + 3 < fuel)%nat -> ends n (Sh.parseline fuel s)) /\ ((4 * n + 2 < fuel)%nat -> ends n (Sh.parsepipe fuel s)) /\
  ((4 * n + 1 < fuel)%nat -> ends n (Sh.parseexec fuel s)) /\ ((4 * n < fuel)%nat -> ends n (Sh.parseblock fuel s)).
Proof.
  induction fuel as [|fuel IH]; intros s n; [lia|]. pose proof (skip_le s) as Hs. fold n in Hs.
  split_and!; intros Hf; cbn [Sh.parseline Sh.parsepipe Sh.parseexec Sh.parseblock].
  - eapply (ends_bind n); [apply IH; lia|]. intros c s1 H1. eapply (ends_bind n); [eapply ends_weaken; [|apply parsebacks_ends]; lia|].
    intros c2 s2 H2. pose proof (skip_le s2). destruct (peek_cases s2 [59]) as [->|(-> & t & w & s3 & -> & Hl)]; [cbn; lia|].
    eapply (ends_bind (length s3)); [apply IH; lia|]. intros r s4 H4. cbn. lia.
  - eapply (ends_bind n); [apply IH; lia|]. intros c s1 H1. pose proof (skip_le s1).
    destruct (peek_cases s1 [124]) as [->|(-> & t & w & s2 & -> & Hl)]; [cbn; lia|].
    eapply (ends_bind (length s2)); [apply IH; lia|]. intros r s3 H3. cbn. lia.
  - destruct (peek_cases s [40]) as [->|(-> & _)].
    + eapply (ends_bind (length (Sh.skip s))); [apply parseredirs_ends; lia|]. intros a s1 H1. eapply ends_weaken; [|apply parseargs_ends]; lia.
    + eapply (ends_weaken (length (Sh.skip s))); [done|]. apply IH. lia.
  - destruct (peek_cases s [40]) as [->|(-> & t & w & s1 & -> & Hl)]; [done|]. cbn [negb].
    eapply (ends_bind (length s1)); [apply IH; lia|]. intros c s2 H2. destruct (peek_cases s2 [41]) as [->|(-> & t2 & w2 & s3 & -> & Hl2)]; [done|].
    cbn [negb]. eapply ends_weaken; [|apply parseredirs_ends]; lia.
Qed.

(** C36: the parser terminates on every line: the recursion of parseline(),
    parsepipe(), parseexec() and parseblock() and the loops inside them end
    with a command or an error message, never for want of fuel. *)
Theorem parsecmd_total line : Sh.parsecmd line <> Sh.NoFuel.
Proof.
  unfold Sh.parsecmd. pose proof (proj1 (parse_ends (4 * length line + 4) line) ltac:(lia)) as H.
  destruct (Sh.parseline _ line); [|done|done]. cbn. by case_bool_decide.
Qed.

(** ** Words *)

(** The counted strings of a command. *)
Fixpoint tokens (c : Sh.cmd Sh.token) : list Sh.token :=
  match c with
  | Sh.EXEC argv => argv
  | Sh.REDIR c r => Sh.r_file r :: tokens c
  | Sh.PIPE l r => tokens l ++ tokens r
  | Sh.LIST l r => tokens l ++ tokens r
  | Sh.BACK c => tokens c
  end.

Definition special (c : Z) : Prop := c ∈ Sh.whitespace \/ c ∈ Sh.symbols.
Definition wordchar (c : Z) : Prop := c <> 0 /\ ~ special c.
Definition boundary (s : list Z) : Prop := match s with [] => True | c :: _ => special c end.

(** [w] delimits a word of the line. *)
Definition token_ok (line : list Z) (w : Sh.token) : Prop :=
  exists x, w.1 = x ++ w.2 /\ w.1 `suffix_of` line /\ Forall wordchar x /\ boundary w.2.

Lemma skip_suffix s : Sh.skip s `suffix_of` s.
Proof. induction s as [|c s IH]; cbn; [done|]. case_match; [|done]. by apply suffix_cons_r. Qed.

Lemma skip_word_spec s : 0 ∉ s -> exists x, s = x ++ Sh.skip_word s /\ Forall wordchar x /\ boundary (Sh.skip_word s).
Proof.
  induction s as [|c s IH]; cbn; intros H0; [by exists []|]. apply not_elem_of_cons in H0 as [Hc H0].
  destruct (negb _ && negb _) eqn:E.
  - destruct (IH H0) as (x & Ex & Hx & Hb). exists (c :: x). split_and!; [by rewrite Ex at 1|constructor; [|done]|done].
    apply andb_true_iff in E as [E1 E2]. apply negb_true_iff, has_false in E1. apply negb_true_iff, has_false in E2.
    split; [congruence|]. unfold special. tauto.
  - exists []. split_and!; [done|constructor|]. cbn. unfold special. apply andb_false_iff in E as [E|E]; apply negb_false_iff, has_true in E; tauto.
Qed.

Lemma nxt_suffix s : nxt s `suffix_of` s.
Proof. destruct s; cbn; [done|]. by apply suffix_cons_r. Qed.

Lemma gettoken_ok line s : 0 ∉ line -> s `suffix_of` line ->
  let '(t, w, s') := Sh.gettoken s in s' `suffix_of` line /\ (t = 97 -> token_ok line w).
Proof.
  intros H0 Hs. unfold Sh.gettoken. assert (Hk : Sh.skip s `suffix_of` line) by (etrans; [apply skip_suffix|done]).
  assert (H0k : 0 ∉ Sh.skip s) by (destruct Hk as [l ->]; set_solver).
  destruct (Z.eqb_spec (chr (Sh.skip s)) 0); [split; [etrans; [apply skip_suffix|done]|done]|].
  destruct (Sh.has _ _) eqn:E1.
  - split; [etrans; [apply skip_suffix|]; etrans; [apply nxt_suffix|done]|]. intros E. rewrite E in E1. by vm_compute in E1.
  - destruct (Z.eqb_spec (chr (Sh.skip s)) 62).
    + destruct (_ =? 62); (split; [|done]); (etrans; [apply skip_suffix|]); [|etrans; [apply nxt_suffix|done]].
      etrans; [apply nxt_suffix|]. etrans; [apply nxt_suffix|done].
    + destruct (skip_word_spec _ H0k) as (x & Ex & Hx & Hb). split.
      * etrans; [apply skip_suffix|]. etrans; [|exact Hk]. exists x. done.
      * intros _. exists x. split_and!; done.
Qed.

(** A parse whose words are words of the line. *)
Definition good (line : list Z) (r : Sh.parsed (Sh.cmd Sh.token)) : Prop :=
  match r with
  | Sh.Parsed c s => Forall (token_ok line) (tokens c) /\ s `suffix_of` line
  | _ => True
  end.

Lemma good_bind line r (k : Sh.cmd Sh.token -> list Z -> Sh.parsed (Sh.cmd Sh.token)) :
  good line r -> (forall c s, Forall (token_ok line) (tokens c) -> s `suffix_of` line -> good line (k c s)) -> good line (Sh.pbind r k).
Proof. destruct r; cbn; [|done|done]. intros [H1 H2] Hk. by apply Hk. Qed.

Section Words.
Variable line : list Z.
Hypothesis Hline : 0 ∉ line.

Lemma skip_line s : s `suffix_of` line -> Sh.skip s `suffix_of` line.
Proof. intros. etrans; [apply skip_suffix|done]. Qed.
Local Hint Resolve skip_line : core.

Lemma parseredirs_good fuel : forall c s, Forall (token_ok line) (tokens c) -> s `suffix_of` line -> good line (Sh.parseredirs fuel c s).
Proof using Hline.
  induction fuel as [|fuel IH]; intros c s Hc Hs; [done|]. cbn [Sh.parseredirs]. unfold Sh.peek. destruct (negb _ && _); [|by split; auto].
  pose proof (gettoken_ok line (Sh.skip s) Hline ltac:(auto)) as T. destruct (Sh.gettoken (Sh.skip s)) as [[t w] s1]. destruct T as [T1 _].
  pose proof (gettoken_ok line s1 Hline T1) as T2. destruct (Sh.gettoken s1) as [[t2 w2] s2]. destruct T2 as [T2 Tw].
  destruct (Z.eqb_spec t2 97); [|done]. apply IH; [|done]. unfold Sh.redir_of. repeat case_match; cbn; auto.
Qed.

Lemma add_arg_tokens c w : Forall (token_ok line) (tokens c) -> token_ok line w -> Forall (token_ok line) (tokens (Sh.add_arg c w)).
Proof.
  intros Hc Hw. induction c; cbn in *; try done.
  - apply Forall_app. split; [done|]. by constructor.
  - inversion Hc; subst. constructor; auto.
Qed.

Lemma parseargs_good fuel : forall argc c s, Forall (token_ok line) (tokens c) -> s `suffix_of` line -> good line (Sh.parseargs fuel argc c s).
Proof using Hline.
  induction fuel as [|fuel IH]; intros argc c s Hc Hs; [done|]. cbn [Sh.parseargs]. unfold Sh.peek. destruct (negb _ && _); [by split; auto|].
  pose proof (gettoken_ok line (Sh.skip s) Hline ltac:(auto)) as T. destruct (Sh.gettoken (Sh.skip s)) as [[t w] s1]. destruct T as [T1 Tw].
  destruct (t =? 0); [done|]. destruct (Z.eqb_spec t 97); [|done]. cbn [negb]. destruct (_ <=? _)%nat; [done|].
  apply good_bind; [apply parseredirs_good; [|done]|auto]. apply add_arg_tokens; auto.
Qed.

Lemma parsebacks_good fuel : forall c s, Forall (token_ok line) (tokens c) -> s `suffix_of` line -> good line (Sh.parsebacks fuel c s).
Proof using Hline.
  induction fuel as [|fuel IH]; intros c s Hc Hs; [done|]. cbn [Sh.parsebacks]. unfold Sh.peek. destruct (negb _ && _); [|by split; auto].
  pose proof (gettoken_ok line (Sh.skip s) Hline ltac:(auto)) as T. destruct (Sh.gettoken (Sh.skip s)) as [[t w] s1].
  apply IH; [done|apply T].
Qed.

Lemma token_line s : s `suffix_of` line -> exists t w s', Sh.gettoken (Sh.skip s) = (t, w, s') /\ s' `suffix_of` line.
Proof using Hline.
  intros Hs. pose proof (gettoken_ok line (Sh.skip s) Hline ltac:(auto)) as T. destruct (Sh.gettoken (Sh.skip s)) as [[t w] s1].
  exists t, w, s1. split; [done|apply T].
Qed.

Lemma parse_good fuel : forall s, s `suffix_of` line ->
  good line (Sh.parseline fuel s) /\ good line (Sh.parsepipe fuel s) /\ good line (Sh.parseexec fuel s) /\ good line (Sh.parseblock fuel s).
Proof using Hline.
  induction fuel as [|fuel IH]; intros s Hs; [done|]. cbn [Sh.parseline Sh.parsepipe Sh.parseexec Sh.parseblock]. unfold Sh.peek. split_and!.
  - apply good_bind; [by apply IH|]. intros c s1 Hc H1. apply good_bind; [by apply parsebacks_good|]. intros c2 s2 Hc2 H2.
    destruct (negb _ && _); [|by split; auto]. destruct (token_line s2 H2) as (t & w & s3 & -> & H3).
    apply good_bind; [by apply IH|]. intros r s4 Hr H4. split; [by apply Forall_app|done].
  - apply good_bind; [by apply IH|]. intros c s1 Hc H1. destruct (negb _ && _); [|by split; auto].
    destruct (token_line s1 H1) as (t & w & s3 & -> & H3). apply good_bind; [by apply IH|]. intros r s4 Hr H4. split; [by apply Forall_app|done].
  - destruct (negb _ && _); [apply IH; auto|]. apply good_bind; [apply parseredirs_good; [constructor|auto]|]. intros c s1 Hc H1. by apply parseargs_good.
  - destruct (negb (negb _ && _)); [done|]. destruct (token_line s Hs) as (t & w & s1 & -> & H1). apply good_bind; [by apply IH|].
    intros c s2 Hc H2. destruct (negb (negb _ && _)); [done|]. destruct (token_line s2 H2) as (t2 & w2 & s3 & -> & H3). by apply parseredirs_good.
Qed.
End Words.

(** Which bytes nulterminate() clears. *)
Definition cleared (n : nat) (ws : list Sh.token) (i : nat) : Prop := exists w, w ∈ ws /\ (n - length w.2)%nat = i.

Lemma cleared_cons n w ws i : cleared n (w :: ws) i <-> (n - length w.2)%nat = i \/ cleared n ws i.
Proof. unfold cleared. setoid_rewrite elem_of_cons. naive_solver. Qed.

Lemma cleared_app n A B i : cleared n (A ++ B) i <-> cleared n A i \/ cleared n B i.
Proof. unfold cleared. setoid_rewrite elem_of_app. naive_solver. Qed.

(** [b'] is [b] with the bytes of [ws] cleared. *)
Definition clears (n : nat) (ws : list Sh.token) (b b' : list Z) : Prop :=
  length b' = length b /\ (forall i, cleared n ws i -> (i < length b)%nat -> b' !! i = Some 0) /\
  (forall i, ~ cleared n ws i -> b' !! i = b !! i).

Lemma clears_nil n b : clears n [] b b.
Proof. split_and!; [done| |done]. intros i (w & Hw%elem_of_nil & _). done. Qed.

Lemma clears_nul n w b : clears n [w] b (Sh.nul_at n b w).
Proof.
  unfold Sh.nul_at. split_and!; [by rewrite length_insert| |].
  - intros i [->|(? & ?%elem_of_nil & _)]%cleared_cons Hi; [|done]. by apply list_lookup_insert_eq.
  - intros i Hi. apply list_lookup_insert_ne. intros E. apply Hi, cleared_cons. by left.
Qed.

Lemma clears_trans n A B b1 b2 b3 : clears n A b1 b2 -> clears n B b2 b3 -> clears n (A ++ B) b1 b3.
Proof.
  intros (L1 & Z1 & K1) (L2 & Z2 & K2). split_and!; [congruence| |].
  - intros i Hi Hl. rewrite <- L1 in Hl. assert (Hd : {cleared n B i} + {~ cleared n B i}).
    { destruct (decide (Exists (fun w : Sh.token => (n - length w.2)%nat = i) B)) as [H|H]; [left|right];
        unfold cleared; rewrite list.Exists_exists in H; naive_solver. }
    destruct Hd as [Hd|Hd]; [by apply Z2|]. rewrite K2 by done. apply cleared_app in Hi as [Hi|Hi]; [|done]. apply Z1; [done|lia].
  - intros i Hi. rewrite cleared_app in Hi. rewrite K2, K1 by tauto. done.
Qed.

Lemma clears_perm n A B b b' : (forall w, w ∈ A <-> w ∈ B) -> clears n A b b' -> clears n B b b'.
Proof.
  intros HAB (L & Z1 & K). assert (Hc : forall i, cleared n B i <-> cleared n A i) by (intros i; unfold cleared; by setoid_rewrite HAB).
  split_and!; [done| |]; intros i; rewrite Hc; auto.
Qed.

Lemma fold_clears n argv : forall b, clears n argv b (fold_left (Sh.nul_at n) argv b).
Proof.
  induction argv as [|w argv IH]; intros b; [apply clears_nil|]. cbn [fold_left]. change (w :: argv) with ([w] ++ argv).
  eapply clears_trans; [apply clears_nul|apply IH].
Qed.

Lemma nulterminate_clears n c : forall b, clears n (tokens c) b (Sh.nulterminate n c b).
Proof.
  induction c as [argv|c IH r|l IHl r IHr|l IHl r IHr|c IH]; intros b; cbn [tokens Sh.nulterminate].
  - apply fold_clears.
  - eapply (clears_perm n (tokens c ++ [Sh.r_file r])); [set_solver|]. eapply clears_trans; [apply IH|apply clears_nul].
  - eapply clears_trans; [apply IHl|apply IHr].
  - eapply clears_trans; [apply IHl|apply IHr].
  - apply IH.
Qed.

Lemma cstr_lookup (w l : list Z) : 0 ∉ w -> (forall i, (i < length w)%nat -> l !! i = w !! i) -> l !! length w = Some 0 -> cstr l = w.
Proof.
  revert l. induction w as [|c w IH]; intros l H0 Hi Hl.
  - destruct l as [|x l]; [done|]. cbn in Hl. injection Hl as ->. done.
  - apply not_elem_of_cons in H0 as [Hc H0]. pose proof (Hi 0%nat ltac:(cbn; lia)) as E. destruct l as [|x l]; [done|]. cbn in E. injection E as ->.
    cbn. destruct (Z.eqb_spec c 0); [congruence|]. f_equal. apply IH; [done| |done]. intros i Hlt. apply (Hi (S i)). cbn. lia.
Qed.

(** The string a pointer of the parsed command points to. *)
Definition string_at (line b : list Z) (w : Sh.token) : list Z := cstr (drop (length line - length w.1) b).
Definition word_of (w : Sh.token) : list Z := take (length w.1 - length w.2) w.1.

(** A suffix, as bytes of the line. *)
Lemma suffix_lookup (s line : list Z) i : s `suffix_of` line -> line !! (length line - length s + i)%nat = s !! i.
Proof. intros [k ->]. rewrite length_app. rewrite lookup_app_r by lia. f_equal. lia. Qed.

Lemma token_string line ws b w : Forall (token_ok line) ws -> clears (length line) ws (line ++ [0]) b -> w ∈ ws -> string_at line b w = word_of w.
Proof.
  intros Hok (Hlen & Hz & Hk) Hw. rewrite Forall_forall in Hok. destruct (Hok w Hw) as (x & Ex & Hsuf & Hx & Hbd).
  assert (Hl1 : (length w.1 <= length line)%nat) by (by apply suffix_length).
  assert (Hxl : (length w.1 = length x + length w.2)%nat) by (rewrite Ex at 1; apply length_app).
  assert (Hword : word_of w = x) by (unfold word_of; rewrite Hxl, Ex; rewrite Nat.add_sub; apply take_app_length). rewrite Hword.
  assert (H0 : 0 ∉ x) by (intros Hin; rewrite Forall_forall in Hx; by destruct (Hx 0 Hin)). rewrite length_app in *. cbn [length] in *.
  unfold string_at. apply cstr_lookup; [done| |].
  - intros i Hi. rewrite lookup_drop. assert (Hc : line !! (length line - length w.1 + i)%nat = x !! i).
    { rewrite suffix_lookup by done. rewrite Ex. by apply lookup_app_l. }
    rewrite Hk; [rewrite lookup_app_l by lia; done|]. intros (w2 & Hw2 & E). destruct (Hok w2 Hw2) as (y & Ey & Hsuf2 & _ & Hb2).
    assert (Hs2 : w2.2 `suffix_of` line) by (etrans; [|exact Hsuf2]; by exists y). pose proof (suffix_length _ _ Hs2).
    pose proof (suffix_lookup _ _ 0 Hs2) as Hh. rewrite Nat.add_0_r, E, Hc in Hh. destruct w2.2 as [|c e] eqn:Ee.
    + cbn in E. lia.
    + cbn in Hh. rewrite Forall_lookup in Hx. by destruct (Hx _ _ Hh) as [_ []].
  - rewrite lookup_drop. apply Hz; [exists w; split; [done|lia]|lia].
Qed.

(** C37: every string of a parsed command ends where its word ends.  After
    parsecmd() the buffer holds, at each pointer stored for an argument or a
    file, exactly the characters of that word and then a NUL, although the NULs
    are written over the separators all words share; and no word is lost or cut
    by another one's NUL. *)
Theorem parsecmd_strings line c b s : 0 ∉ line -> Sh.parsecmd line = Sh.Parsed (c, b) s ->
  length b = S (length line) /\
  forall w, w ∈ tokens c -> token_ok line w /\ string_at line b w = word_of w.
Proof.
  intros H0 E. unfold Sh.parsecmd in E. pose proof (proj1 (parse_good line H0 (4 * length line + 4) line ltac:(done))) as Hg.
  destruct (Sh.parseline _ line) as [c' s'| |]; cbn in E; [|done|done]. destruct Hg as [Hg _]. case_bool_decide; [|done].
  injection E as -> <- <-. pose proof (nulterminate_clears (length line) c (line ++ [0])) as Hc. split.
  - destruct Hc as (-> & _). rewrite length_app. cbn. lia.
  - intros w Hw. split; [by apply (Forall_forall (token_ok line) (tokens c))|]. by eapply token_string.
Qed.

Lemma parsecmd_strings_witness : exists c b, Sh.parsecmd (lit "cat<in|wc >out&") = Sh.Parsed (c, b) [] /\
  (fun w => string_at (lit "cat<in|wc >out&") b w) <$> tokens c = [lit "in"; lit "cat"; lit "out"; lit "wc"].
Proof.
  destruct (Sh.parsecmd (lit "cat<in|wc >out&")) as [[c b] s| |] eqn:E; [|by vm_compute in E|by vm_compute in E].
  destruct (parsecmd_strings (lit "cat<in|wc >out&") c b s) as [_ Hw]; [by apply (bool_decide_unpack (0 ∉ lit "cat<in|wc >out&")); vm_compute|done|].
  exists c, b. assert (s = []) as -> by (vm_compute in E; by injection E). split; [done|].
  transitivity (word_of <$> tokens c); [apply list_fmap_ext; intros i w Hi; apply Hw; by eapply list_elem_of_lookup_2|].
  vm_compute in E. by injection E as <- _.
Defined.
