(* ===== verification/ShPrint.v ===== *)
(** * Commands of the shell printed and parsed again

    A printer for commands, with parentheses where the grammar of user/sh.c
    needs them, and the proof that parsecmd() reads back what it prints. *)

From Stdlib Require Import ZArith Lia.
From stdpp Require Import base numbers list list_numbers gmap strings.
From S2P Require Import Prelude Cstring Console Sysfile Sh.

(** ** More fuel changes nothing *)

Definition upto {A} (r r' : Sh.parsed A) : Prop := r = Sh.NoFuel \/ r = r'.

Lemma upto_bind {A B} (r r' : Sh.parsed A) (k k' : A -> list Z -> Sh.parsed B) :
  upto r r' -> (forall a s, upto (k a s) (k' a s)) -> upto (Sh.pbind r k) (Sh.pbind r' k').
Proof. intros [->| ->] Hk; [by left|]. destruct r'; cbn; [apply Hk|by right|by right]. Qed.

Lemma upto_refl {A} (r : Sh.parsed A) : upto r r.
Proof. by right. Qed.
#[export] Hint Resolve upto_refl : core.

Lemma parseredirs_more f : forall f' c s, (f <= f')%nat -> upto (Sh.parseredirs f c s) (Sh.parseredirs f' c s).
Proof.
  induction f as [|f IH]; intros f' c s Hf; [by left|]. destruct f' as [|f']; [lia|]. cbn [Sh.parseredirs].
  destruct (Sh.peek s [60; 62]) as [s1 [|]]; [|done]. destruct (Sh.gettoken s1) as [[t w] s2]. destruct (Sh.gettoken s2) as [[t2 w2] s3].
  case_match; [apply IH; lia|done].
Qed.

Lemma parseargs_more f : forall f' n c s, (f <= f')%nat -> upto (Sh.parseargs f n c s) (Sh.parseargs f' n c s).
Proof.
  induction f as [|f IH]; intros f' n c s Hf; [by left|]. destruct f' as [|f']; [lia|]. cbn [Sh.parseargs].
  destruct (Sh.peek s _) as [s1 [|]]; [done|]. destruct (Sh.gettoken s1) as [[t w] s2]. repeat case_match; try done.
  apply upto_bind; [apply parseredirs_more; lia|]. intros. apply IH. lia.
Qed.

Lemma parsebacks_more f : forall f' c s, (f <= f')%nat -> upto (Sh.parsebacks f c s) (Sh.parsebacks f' c s).
Proof.
  induction f as [|f IH]; intros f' c s Hf; [by left|]. destruct f' as [|f']; [lia|]. cbn [Sh.parsebacks].
  destruct (Sh.peek s [38]) as [s1 [|]]; [|done]. destruct (Sh.gettoken s1) as [[t w] s2]. apply IH. lia.
Qed.

Lemma parse_more f : forall f' s, (f <= f')%nat ->
  upto (Sh.parseline f s) (Sh.parseline f' s) /\ upto (Sh.parsepipe f s) (Sh.parsepipe f' s) /\
  upto (Sh.parseexec f s) (Sh.parseexec f' s) /\ upto (Sh.parseblock f s) (Sh.parseblock f' s).
Proof.
  induction f as [|f IH]; intros f' s Hf; [by split_and!; left|]. destruct f' as [|f']; [lia|].
  cbn [Sh.parseline Sh.parsepipe Sh.parseexec Sh.parseblock]. split_and!.
  - apply upto_bind; [apply IH; lia|]. intros c s1. apply upto_bind; [apply parsebacks_more; lia|]. intros c2 s2.
    destruct (Sh.peek s2 [59]) as [s3 [|]]; [|done]. destruct (Sh.gettoken s3) as [[t w] s4]. apply upto_bind; [apply IH; lia|done].
  - apply upto_bind; [apply IH; lia|]. intros c s1. destruct (Sh.peek s1 [124]) as [s3 [|]]; [|done].
    destruct (Sh.gettoken s3) as [[t w] s4]. apply upto_bind; [apply IH; lia|done].
  - destruct (Sh.peek s [40]) as [s1 [|]]; [apply IH; lia|]. apply upto_bind; [apply parseredirs_more; lia|]. intros. apply parseargs_more. lia.
  - destruct (Sh.peek s [40]) as [s1 [|]]; [|done]. cbn [negb]. destruct (Sh.gettoken s1) as [[t w] s2].
    apply upto_bind; [apply IH; lia|]. intros c s3. destruct (Sh.peek s3 [41]) as [s4 [|]]; [|done]. cbn [negb].
    destruct (Sh.gettoken s4) as [[t2 w2] s5]. apply parseredirs_more. lia.
Qed.

(** The fuel of parsecmd() gives what any fuel that suffices gives. *)
Lemma parseline_fuel f line c s : Sh.parseline f line = Sh.Parsed c s -> Sh.parseline (4 * length line + 4) line = Sh.Parsed c s.
Proof.
  intros E. set (g := (4 * length line + 4)%nat). pose proof (proj1 (parse_ends g line) ltac:(lia)) as Hend.
  destruct (proj1 (parse_more g (f + g) line ltac:(lia))) as [Hn|Hm]; [by rewrite Hn in Hend|].
  destruct (proj1 (parse_more f (f + g) line ltac:(lia))) as [Hn|Hm2]; [congruence|]. congruence.
Qed.

(** ** The printer *)

(** Commands over words. *)
Notation wcmd := (Sh.cmd (list Z)).

Inductive level := Line | Back | Pipe | Exec.

Definition block (t : list Z) : list Z := [32; 40] ++ t ++ [32; 41].

Definition redir_text (r : Sh.redir (list Z)) : list Z :=
  (if Sh.r_fd r =? 0 then [32; 60; 32]
   else if Sh.r_mode r =? Z.lor O_WRONLY O_CREATE then [32; 62; 62; 32] else [32; 62; 32]) ++ Sh.r_file r.

Definition args_text (argv : list (list Z)) : list Z := concat (map (fun w => 32 :: w) argv).

(** The text of a command where a [level] of the grammar is expected. *)
Fixpoint print (c : wcmd) (l : level) : list Z :=
  match c with
  | Sh.EXEC argv => args_text argv
  | Sh.REDIR c r => print c Exec ++ redir_text r
  | Sh.PIPE a b =>
      let t := print a Exec ++ [32; 124] ++ print b Pipe in
      match l with Exec => block t | _ => t end
  | Sh.LIST a b =>
      let t := print a Back ++ [32; 59] ++ print b Line in
      match l with Line => t | _ => block t end
  | Sh.BACK a =>
      let t := print a Back ++ [32; 38] in
      match l with Line | Back => t | _ => block t end
  end.

(** Words of word characters, the three kinds of redirection, at most nine
    arguments. *)
Definition word_ok (w : list Z) : Prop := w <> [] /\ Forall wordchar w.
Definition redir_ok (r : Sh.redir (list Z)) : Prop :=
  word_ok (Sh.r_file r) /\
  (Sh.r_mode r = O_RDONLY /\ Sh.r_fd r = 0 \/
   Sh.r_mode r = Z.lor (Z.lor O_WRONLY O_CREATE) O_TRUNC /\ Sh.r_fd r = 1 \/ Sh.r_mode r = Z.lor O_WRONLY O_CREATE /\ Sh.r_fd r = 1).
Fixpoint cmd_ok (c : wcmd) : Prop :=
  match c with
  | Sh.EXEC argv => Forall word_ok argv /\ (length argv < Sh.MAXARGS)%nat
  | Sh.REDIR c r => cmd_ok c /\ redir_ok r
  | Sh.PIPE a b | Sh.LIST a b => cmd_ok a /\ cmd_ok b
  | Sh.BACK c => cmd_ok c
  end.

(** A parsed command with its words in place of the pointers. *)
Definition redir_map (r : Sh.redir Sh.token) : Sh.redir (list Z) := Sh.Redir (word_of (Sh.r_file r)) (Sh.r_mode r) (Sh.r_fd r).
Fixpoint resolve (c : Sh.cmd Sh.token) : wcmd :=
  match c with
  | Sh.EXEC argv => Sh.EXEC (word_of <$> argv)
  | Sh.REDIR c r => Sh.REDIR (resolve c) (redir_map r)
  | Sh.PIPE a b => Sh.PIPE (resolve a) (resolve b)
  | Sh.LIST a b => Sh.LIST (resolve a) (resolve b)
  | Sh.BACK c => Sh.BACK (resolve c)
  end.

(** ** Tokens of printed text *)

(** What follows a piece of text: nothing, or a space. *)
Definition spaced (rest : list Z) : Prop := match rest with [] => True | c :: _ => c = 32 end.
(** The next token is one of [toks], or there is none. *)
Definition stops (toks rest : list Z) : Prop := match Sh.skip rest with [] => True | c :: _ => c ∈ toks end.

Lemma skip_space s : Sh.skip (32 :: s) = Sh.skip s.
Proof. done. Qed.

Lemma word_head w : word_ok w -> exists c t, w = c :: t /\ wordchar c.
Proof. intros [Hne Hw]. destruct w as [|c t]; [done|]. inversion Hw. eauto. Qed.

Lemma wordchar_has c : wordchar c -> Sh.has Sh.whitespace c = false /\ Sh.has Sh.symbols c = false.
Proof. intros [_ H]. unfold special in H. split; apply has_false; tauto. Qed.

Lemma skip_word_text w rest : word_ok w -> Sh.skip (w ++ rest) = w ++ rest.
Proof. intros (c & t & -> & Hc)%word_head. cbn. destruct (wordchar_has c Hc) as [-> _]. done. Qed.

Lemma skip_word_end w rest : Forall wordchar w -> spaced rest -> Sh.skip_word (w ++ rest) = rest.
Proof.
  intros Hw Hr. induction Hw as [|c w Hc _ IH]; cbn.
  - destruct rest as [|c rest]; [done|]. cbn in Hr. by subst c.
  - destruct (wordchar_has c Hc) as [-> ->]. done.
Qed.

Lemma gettoken_word s w rest : Sh.skip s = w ++ rest -> word_ok w -> spaced rest ->
  Sh.gettoken s = (97, (w ++ rest, rest), Sh.skip rest).
Proof.
  intros Es Hw Hr. destruct (word_head w Hw) as (c & t & -> & Hc). unfold Sh.gettoken. rewrite Es.
  change (chr ((c :: t) ++ rest)) with c. destruct (wordchar_has c Hc) as [_ Hs]. destruct Hc as [H0 Hsp].
  destruct (Z.eqb_spec c 0); [done|]. apply has_false in Hs. unfold Sh.symbols in Hs. rewrite !elem_of_cons, elem_of_nil in Hs.
  assert (Sh.has [124; 40; 41; 59; 38; 60] c = false) as -> by (apply has_false; rewrite !elem_of_cons, elem_of_nil; tauto).
  destruct (Z.eqb_spec c 62); [tauto|]. rewrite skip_word_end by (done || apply Hw). done.
Qed.

Lemma gettoken_sym s c rest : Sh.skip s = c :: rest -> c ∈ [124; 40; 41; 59; 38; 60] -> exists w, Sh.gettoken s = (c, w, Sh.skip rest).
Proof.
  intros Es Hc. unfold Sh.gettoken. rewrite Es. cbn [chr nxt]. destruct (Z.eqb_spec c 0) as [->|_]; [by apply has_true in Hc|].
  apply has_true in Hc as Hh. rewrite Hh. eauto.
Qed.

Lemma word_of_text w rest : word_of (w ++ rest, rest) = w.
Proof. unfold word_of. cbn. rewrite length_app, Nat.add_sub. apply take_app_length. Qed.

Lemma peek_at s toks c r : Sh.skip s = c :: r -> c <> 0 -> Sh.peek s toks = (c :: r, Sh.has toks c).
Proof. intros E Hc. unfold Sh.peek. rewrite E. cbn [chr]. by destruct (Z.eqb_spec c 0). Qed.

Lemma peek_other s toks rest stopset : Sh.skip s = Sh.skip rest -> stops stopset rest -> (forall c, c ∈ stopset -> c ∉ toks) ->
  Sh.peek s toks = (Sh.skip rest, false).
Proof.
  intros E Hs Hn. unfold Sh.peek, stops in *. rewrite E. destruct (Sh.skip rest) as [|c r]; [done|]. cbn [chr].
  specialize (Hn c Hs). apply has_false in Hn. rewrite Hn. by rewrite andb_false_r.
Qed.

Lemma stops_weaken A B rest : (forall c, c ∈ A -> c ∈ B) -> stops A rest -> stops B rest.
Proof. unfold stops. intros HAB. destruct (Sh.skip rest); auto. Qed.

(** ** Redirections and arguments *)

Definition redirs_text (rs : list (Sh.redir (list Z))) : list Z := concat (map redir_text rs).
Definition wrap {W} (c : Sh.cmd W) (rs : list (Sh.redir W)) : Sh.cmd W := fold_left Sh.REDIR rs c.

Lemma redir_text_spaced r t rest : spaced (redir_text r ++ t ++ rest).
Proof. unfold redir_text. by repeat case_match. Qed.

Lemma redirs_spaced rs rest : spaced rest -> spaced (redirs_text rs ++ rest).
Proof. destruct rs as [|r rs]; [done|]. intros _. unfold redirs_text. cbn [map concat]. rewrite <- app_assoc. apply redir_text_spaced. Qed.

Lemma args_spaced args rest : spaced rest -> spaced (args_text args ++ rest).
Proof. by destruct args. Qed.

Lemma redir_read r s t : redir_ok r -> spaced t -> Sh.skip s = Sh.skip (redir_text r ++ t) ->
  exists tok w s2, Sh.peek s [60; 62] = (Sh.skip s, true) /\ Sh.gettoken (Sh.skip s) = (tok, w, s2) /\
    Sh.gettoken s2 = (97, (Sh.r_file r ++ t, t), Sh.skip t) /\
    Sh.redir_of tok (Sh.r_file r ++ t, t) = Some (Sh.Redir (Sh.r_file r ++ t, t) (Sh.r_mode r) (Sh.r_fd r)).
Proof.
  intros [Hw Hm] Ht Es. pose proof (skip_word_text (Sh.r_file r) t Hw) as Hsk. destruct r as [f m d]. cbn in Hw, Hm, Hsk, Es. unfold redir_text in Es.
  cbn [Sh.r_file Sh.r_mode Sh.r_fd] in *.
  assert (Hskip : forall u, Sh.skip (Sh.skip u) = Sh.skip u) by apply skip_skip.
  destruct Hm as [[-> ->]|[[-> ->]|[-> ->]]]; cbn in Es; rewrite Es.
  - exists 60, (60 :: 32 :: f ++ t, 32 :: f ++ t), (f ++ t). split_and!; [by unfold Sh.peek; rewrite Es| |by apply gettoken_word|done].
    transitivity (60, (60 :: 32 :: f ++ t, 32 :: f ++ t), Sh.skip (32 :: f ++ t)); [done|by rewrite skip_space, Hsk].
  - exists 62, (62 :: 32 :: f ++ t, 32 :: f ++ t), (f ++ t). split_and!; [by unfold Sh.peek; rewrite Es| |by apply gettoken_word|done].
    transitivity (62, (62 :: 32 :: f ++ t, 32 :: f ++ t), Sh.skip (32 :: f ++ t)); [done|by rewrite skip_space, Hsk].
  - exists 43, (62 :: 62 :: 32 :: f ++ t, 32 :: f ++ t), (f ++ t). split_and!; [by unfold Sh.peek; rewrite Es| |by apply gettoken_word|done].
    transitivity (43, (62 :: 62 :: 32 :: f ++ t, 32 :: f ++ t), Sh.skip (32 :: f ++ t)); [done|by rewrite skip_space, Hsk].
Qed.

Lemma redirs_read rs : forall fuel c0 s rest stopset, Forall redir_ok rs -> spaced rest -> stops stopset rest -> (forall c, c ∈ stopset -> c ∉ [60; 62]) ->
  Sh.skip s = Sh.skip (redirs_text rs ++ rest) -> (length rs < fuel)%nat ->
  exists rs', Sh.parseredirs fuel c0 s = Sh.Parsed (wrap c0 rs') (Sh.skip rest) /\ redir_map <$> rs' = rs.
Proof.
  induction rs as [|r rs IH]; intros fuel c0 s rest stopset Hrs Hsp Hst Hset Es Hf; (destruct fuel as [|fuel]; [cbn in Hf; lia|]); cbn [Sh.parseredirs].
  - cbn in Es. rewrite (peek_other s _ rest stopset) by done. by exists [].
  - inversion Hrs as [|? ? Hr Hrs']; subst. unfold redirs_text in Es. cbn [map concat] in Es. rewrite <- app_assoc in Es. fold (redirs_text rs) in Es.
    destruct (redir_read r s _ Hr (redirs_spaced rs rest Hsp) Es) as (tok & w & s2 & -> & -> & -> & ->). cbn [Z.eqb Pos.eqb Sh.redir_opt].
    destruct (IH fuel (Sh.REDIR c0 (Sh.Redir (Sh.r_file r ++ redirs_text rs ++ rest, redirs_text rs ++ rest) (Sh.r_mode r) (Sh.r_fd r)))
      (Sh.skip (redirs_text rs ++ rest)) rest stopset) as (rs' & E & Em); try done; [apply skip_skip|cbn in Hf; lia|].
    eexists (_ :: rs'). split; [exact E|]. rewrite fmap_cons, Em. f_equal.
    unfold redir_map. cbn [Sh.r_file Sh.r_mode Sh.r_fd]. rewrite word_of_text. by destruct r.
Qed.

Definition arg_ends : list Z := [124; 41; 38; 59].

Lemma args_stop k argc ret s rest : Sh.skip s = Sh.skip rest -> stops arg_ends rest ->
  Sh.parseargs (S k) argc ret s = Sh.Parsed ret (Sh.skip rest).
Proof.
  intros Es Hst. cbn [Sh.parseargs]. unfold stops in Hst. destruct (Sh.skip rest) as [|c r] eqn:Er.
  - unfold Sh.peek. rewrite Es. cbn. done.
  - assert (c <> 0) by (intros ->; by apply has_true in Hst). rewrite (peek_at s _ c r) by done.
    apply has_true in Hst. unfold arg_ends in Hst. by rewrite Hst.
Qed.

Lemma arg_read k argc pre s w t : word_ok w -> spaced t -> Sh.skip s = Sh.skip (32 :: w ++ t) -> (S argc < Sh.MAXARGS)%nat ->
  Sh.parseargs (S k) argc (Sh.EXEC pre) s =
    Sh.pbind (Sh.parseredirs k (Sh.EXEC (pre ++ [(w ++ t, t)])) (Sh.skip t)) (fun ret s => Sh.parseargs k (S argc) ret s).
Proof.
  intros Hw Ht Es Hn. cbn [Sh.parseargs]. rewrite skip_space, skip_word_text in Es by done.
  destruct (word_head w Hw) as (c & w' & Ew & Hc). destruct (wordchar_has c Hc) as [_ Hsym]. apply has_false in Hsym. unfold Sh.symbols in Hsym.
  rewrite (peek_at s _ c (w' ++ t)); [|by rewrite Es, Ew|apply Hc].
  assert (Sh.has [124; 41; 38; 59] c = false) as -> by (apply has_false; rewrite !elem_of_cons, elem_of_nil in *; tauto).
  change (c :: w' ++ t) with ((c :: w') ++ t). rewrite <- Ew. rewrite (gettoken_word (w ++ t) w t) by (done || by apply skip_word_text).
  cbn [Z.eqb Pos.eqb negb]. destruct (Nat.leb_spec Sh.MAXARGS (S argc)); [lia|]. done.
Qed.

Lemma args_read args : forall k argc pre s rs rest, Forall word_ok args -> Forall redir_ok rs -> spaced rest -> stops arg_ends rest -> (args = [] -> rs = []) ->
  (argc + length args < Sh.MAXARGS)%nat -> Sh.skip s = Sh.skip (args_text args ++ redirs_text rs ++ rest) -> (length args + length rs < k)%nat ->
  exists args' rs', Sh.parseargs k argc (Sh.EXEC pre) s = Sh.Parsed (wrap (Sh.EXEC (pre ++ args')) rs') (Sh.skip rest) /\
    word_of <$> args' = args /\ redir_map <$> rs' = rs.
Proof.
  induction args as [|w args IH]; intros k argc pre s rs rest Ha Hr Hsp Hst Hnil Hn Es Hk; (destruct k as [|k]; [lia|]).
  - rewrite Hnil in * by done. exists [], []. rewrite app_nil_r. split_and!; [|done|done]. by apply args_stop.
  - inversion Ha as [|? ? Hw Ha']; subst. set (t := args_text args ++ redirs_text rs ++ rest).
    assert (Htx : args_text (w :: args) ++ redirs_text rs ++ rest = 32 :: w ++ t) by (unfold t, args_text; cbn; by rewrite <- app_assoc).
    assert (Ht : spaced t) by (apply args_spaced, redirs_spaced, Hsp). rewrite Htx in Es. cbn [length] in Hn, Hk.
    rewrite (arg_read k argc pre s w t) by (done || lia). destruct args as [|w2 args].
    + destruct (redirs_read rs k (Sh.EXEC (pre ++ [(w ++ t, t)])) (Sh.skip t) rest arg_ends) as (rs' & -> & Em); try done;
        [intros c Hc; unfold arg_ends in Hc; rewrite !elem_of_cons, elem_of_nil in *; lia|apply skip_skip|cbn [length] in Hk; lia|].
      exists [(w ++ t, t)], rs'. cbn [Sh.pbind]. split_and!; [|by rewrite fmap_cons, word_of_text|done].
      destruct k as [|k]; [lia|]. by apply args_stop; [apply skip_skip|].
    + inversion Ha' as [|? ? Hw2 _]; subst. destruct (word_head w2 Hw2) as (c & w2' & Ew2 & Hc).
      destruct (redirs_read [] k (Sh.EXEC (pre ++ [(w ++ t, t)])) (Sh.skip t) t [c]) as (rs0 & -> & Em); try done.
      * unfold stops. assert (Et : t = 32 :: w2 ++ args_text args ++ redirs_text rs ++ rest) by (unfold t, args_text; cbn; by rewrite <- app_assoc).
        rewrite Et, skip_space, skip_word_text, Ew2 by done. by left.
      * intros x ->%list_elem_of_singleton. destruct (wordchar_has c Hc) as [_ Hsym]. apply has_false in Hsym. unfold Sh.symbols in Hsym.
        rewrite !elem_of_cons, elem_of_nil in *. tauto.
      * apply skip_skip.
      * cbn. lia.
      * apply fmap_nil_inv in Em. subst rs0. cbn [Sh.pbind wrap fold_left].
        destruct (IH k (S argc) (pre ++ [(w ++ t, t)]) (Sh.skip t) rs rest) as (args' & rs' & E & E1 & E2); try done; [lia|apply skip_skip|lia|].
        exists ((w ++ t, t) :: args'), rs'. rewrite E. rewrite <- app_assoc. split_and!; [done|rewrite fmap_cons, E1; by rewrite word_of_text|done].
Qed.

(** ** The levels of the grammar *)

(** [f] reads [text] as the command [c] when a token of [toks] or nothing
    follows. *)
Definition reads (f : nat -> list Z -> Sh.parsed (Sh.cmd Sh.token)) (c : wcmd) (text toks : list Z) : Prop :=
  exists F, forall fuel s rest, (F <= fuel)%nat -> spaced rest -> stops toks rest -> Sh.skip s = Sh.skip (text ++ rest) ->
  exists c', f fuel s = Sh.Parsed c' (Sh.skip rest) /\ resolve c' = c.

Definition reads_line c := reads Sh.parseline c (print c Line) [41].
Definition reads_pipe c := reads Sh.parsepipe c (print c Pipe) [41; 59; 38].
Definition reads_exec c := reads Sh.parseexec c (print c Exec) [41; 59; 38; 124].

(** The first half of parseline(), where more & may follow. *)
Definition reads_back (c : wcmd) : Prop :=
  exists F n, forall fuel g s rest, (F <= fuel)%nat -> spaced rest -> stops [41; 59; 38] rest -> Sh.skip s = Sh.skip (print c Back ++ rest) ->
  exists c', Sh.pbind (Sh.parsepipe fuel s) (Sh.parsebacks (n + g)) = Sh.parsebacks g c' (Sh.skip rest) /\ resolve c' = c.

Ltac in_set := unfold arg_ends in *; rewrite ?elem_of_cons, ?elem_of_nil in *; lia.

(** Any symbol that follows after a space. *)
Lemma sym_next c rest toks : c ∈ toks -> c ∈ [124; 40; 41; 59; 38; 60] -> spaced (32 :: c :: rest) /\ stops toks (32 :: c :: rest) /\ Sh.skip (32 :: c :: rest) = c :: rest.
Proof.
  intros Hc Hs. assert (Hk : Sh.skip (32 :: c :: rest) = c :: rest).
  { rewrite skip_space. cbn. assert (Sh.has Sh.whitespace c = false) as ->; [|done]. apply has_false. unfold Sh.whitespace. in_set. }
  split_and!; [done|unfold stops; by rewrite Hk|done].
Qed.

(** Seeing and taking it. *)
Lemma sym_take s c rest toks : Sh.skip s = c :: rest -> c ∈ toks -> c ∈ [124; 40; 41; 59; 38; 60] ->
  Sh.peek s toks = (c :: rest, true) /\ exists w, Sh.gettoken (c :: rest) = (c, w, Sh.skip rest).
Proof.
  intros Es Hc Hs. assert (c <> 0) by in_set. rewrite (peek_at s toks c rest) by done. apply has_true in Hc as ->. split; [done|].
  apply (gettoken_sym (c :: rest) c rest); [|done]. rewrite <- Es. apply skip_skip.
Qed.

Lemma pbind_assoc {A B C} (r : Sh.parsed A) (f : A -> list Z -> Sh.parsed B) (k : B -> list Z -> Sh.parsed C) :
  Sh.pbind r (fun a s => Sh.pbind (f a s) k) = Sh.pbind (Sh.pbind r f) k.
Proof. by destruct r. Qed.

Lemma backs_stop g c s rest : Sh.skip s = Sh.skip rest -> stops [41; 59] rest -> Sh.parsebacks (S g) c s = Sh.Parsed c (Sh.skip rest).
Proof. intros Es Hst. cbn [Sh.parsebacks]. by rewrite (peek_other s [38] rest [41; 59]) by (done || (intros x; in_set)). Qed.

Lemma pipe_of_exec c : print c Pipe = print c Exec -> reads_exec c -> reads_pipe c.
Proof.
  intros Ep [F HE]. exists (S F). rewrite Ep. intros fuel s rest Hf Hsp Hst Es. destruct fuel as [|fuel]; [lia|]. cbn [Sh.parsepipe].
  destruct (HE fuel s rest) as (c' & -> & Hr); [lia|done|eapply stops_weaken; [|exact Hst]; intros x; in_set|done|]. cbn [Sh.pbind].
  rewrite (peek_other _ [124] rest [41; 59; 38]) by (done || apply skip_skip || (intros x; in_set)). eauto.
Qed.

Lemma pipe_of_parts a b : reads_exec a -> reads_pipe b -> reads_pipe (Sh.PIPE a b).
Proof.
  intros [F HE] [G HP]. exists (S (F + G)). intros fuel s rest Hf Hsp Hst Es. destruct fuel as [|fuel]; [lia|]. cbn [Sh.parsepipe].
  cbn [print] in Es. rewrite <- !app_assoc in Es. cbn [app] in Es.
  destruct (sym_next 124 (print b Pipe ++ rest) [41; 59; 38; 124]) as (Hsp1 & Hst1 & Hk1); [in_set|in_set|].
  destruct (HE fuel s _ ltac:(lia) Hsp1 Hst1 Es) as (a' & -> & Ha). cbn [Sh.pbind]. rewrite Hk1.
  destruct (sym_take (124 :: print b Pipe ++ rest) 124 (print b Pipe ++ rest) [124]) as (-> & w & ->); [done|in_set|in_set|].
  destruct (HP fuel (Sh.skip (print b Pipe ++ rest)) rest) as (b' & -> & Hb); [lia|done|done|apply skip_skip|].
  eexists. split; [done|]. cbn. congruence.
Qed.

Lemma back_of_pipe c : print c Back = print c Pipe -> reads_pipe c -> reads_back c.
Proof.
  intros Ep [F HP]. exists F, 0%nat. rewrite Ep. intros fuel g s rest Hf Hsp Hst Es.
  destruct (HP fuel s rest Hf Hsp Hst Es) as (c' & -> & Hr). exists c'. done.
Qed.

Lemma back_of_back a : reads_back a -> reads_back (Sh.BACK a).
Proof.
  intros (F & n & HB). exists F, (S n). intros fuel g s rest Hf Hsp Hst Es. cbn [print] in Es. rewrite <- app_assoc in Es. cbn [app] in Es.
  destruct (sym_next 38 rest [41; 59; 38]) as (Hsp1 & Hst1 & Hk1); [in_set|in_set|].
  destruct (HB fuel (S g) s _ Hf Hsp1 Hst1 Es) as (c' & E & Hr). exists (Sh.BACK c').
  replace (S n + g)%nat with (n + S g)%nat by lia. rewrite E, Hk1. cbn [Sh.parsebacks].
  destruct (sym_take (38 :: rest) 38 rest [38]) as (-> & w & ->); [done|in_set|in_set|]. split; [done|]. cbn. congruence.
Qed.

Lemma line_of_back c : print c Line = print c Back -> reads_back c -> reads_line c.
Proof.
  intros Ep (F & n & HB). exists (S (F + n + 1)). rewrite Ep. intros fuel s rest Hf Hsp Hst Es. destruct fuel as [|fuel]; [lia|]. cbn [Sh.parseline].
  rewrite pbind_assoc. destruct (HB fuel (fuel - n)%nat s rest) as (c' & E & Hr); [lia|done|eapply stops_weaken; [|exact Hst]; intros x; in_set|done|].
  replace (n + (fuel - n))%nat with fuel in E by lia. rewrite E. destruct (fuel - n)%nat as [|g] eqn:Eg; [lia|].
  rewrite (backs_stop g c' _ rest) by (apply skip_skip || (eapply stops_weaken; [|exact Hst]; intros x; in_set)). cbn [Sh.pbind].
  rewrite (peek_other _ [59] rest [41]) by (done || apply skip_skip || (intros x; in_set)). eauto.
Qed.

Lemma line_of_list a b : reads_back a -> reads_line b -> reads_line (Sh.LIST a b).
Proof.
  intros (F & n & HB) [G HL]. exists (S (F + n + G + 1)). intros fuel s rest Hf Hsp Hst Es. destruct fuel as [|fuel]; [lia|]. cbn [Sh.parseline].
  cbn [print] in Es. rewrite <- !app_assoc in Es. cbn [app] in Es.
  destruct (sym_next 59 (print b Line ++ rest) [41; 59; 38]) as (Hsp1 & Hst1 & Hk1); [in_set|in_set|].
  rewrite pbind_assoc. destruct (HB fuel (fuel - n)%nat s _ ltac:(lia) Hsp1 Hst1 Es) as (a' & E & Ha).
  replace (n + (fuel - n))%nat with fuel in E by lia. rewrite E. destruct (fuel - n)%nat as [|g] eqn:Eg; [lia|].
  rewrite (backs_stop g a' _ (32 :: 59 :: print b Line ++ rest)); [|apply skip_skip|unfold stops; rewrite Hk1; in_set]. cbn [Sh.pbind]. rewrite Hk1.
  destruct (sym_take (59 :: print b Line ++ rest) 59 (print b Line ++ rest) [59]) as (-> & w & ->); [done|in_set|in_set|].
  destruct (HL fuel (Sh.skip (print b Line ++ rest)) rest) as (b' & -> & Hb); [lia|done|done|apply skip_skip|].
  eexists. split; [done|]. cbn. congruence.
Qed.

(** A command without its outermost redirections, and these, first to last. *)
Fixpoint core (c : wcmd) : wcmd := match c with Sh.REDIR c _ => core c | c => c end.
Fixpoint redirs (c : wcmd) : list (Sh.redir (list Z)) := match c with Sh.REDIR c r => redirs c ++ [r] | _ => [] end.

Lemma wrap_core c : wrap (core c) (redirs c) = c.
Proof. unfold wrap. induction c; cbn; try done. rewrite fold_left_app. cbn. by rewrite IHc. Qed.

Lemma print_core c : print c Exec = print (core c) Exec ++ redirs_text (redirs c).
Proof.
  unfold redirs_text. induction c; cbn [core redirs map concat]; try (by rewrite app_nil_r). cbn [print]. rewrite IHc, map_app, concat_app. cbn.
  by rewrite app_nil_r, app_assoc.
Qed.

Lemma redirs_ok c : cmd_ok c -> Forall redir_ok (redirs c).
Proof. induction c; cbn; try (intros; constructor). intros [Hc Hr]. apply Forall_app. split; [auto|]. by constructor. Qed.

Lemma resolve_wrap c rs : resolve (wrap c rs) = wrap (resolve c) (redir_map <$> rs).
Proof. unfold wrap. revert c. induction rs as [|r rs IH]; intros c; [done|]. cbn. by rewrite IH. Qed.

Lemma exec_of_words c argv : core c = Sh.EXEC argv -> cmd_ok c -> Forall word_ok argv -> (length argv < Sh.MAXARGS)%nat -> reads_exec c.
Proof.
  intros Ec Hok Hargs Hlen. exists (S (S (length argv + length (redirs c)))). intros fuel s rest Hf Hsp Hst Es. destruct fuel as [|fuel]; [lia|].
  pose proof (redirs_ok c Hok) as Hr. rewrite print_core, Ec in Es. cbn [print] in Es. rewrite <- app_assoc in Es. cbn [Sh.parseexec].
  assert (Hst' : stops arg_ends rest) by (eapply stops_weaken; [|exact Hst]; intros x; in_set).
  assert (Hno : Sh.peek s [40] = (Sh.skip s, false)).
  { unfold Sh.peek. f_equal. apply andb_false_iff. right. apply has_false. rewrite Es. destruct argv as [|w argv].
    - destruct (redirs c) as [|r rs] eqn:Er.
      + cbn. unfold stops in Hst. destruct (Sh.skip rest); cbn; in_set.
      + unfold redirs_text, redir_text. cbn [map concat app]. repeat case_match; cbn; in_set.
    - inversion Hargs as [|? ? Hw _]; subst. unfold args_text. cbn [map concat app]. rewrite skip_space, <- app_assoc, skip_word_text by done.
      destruct (word_head w Hw) as (x & t & -> & Hx). destruct (wordchar_has x Hx) as [_ Hsym]. apply has_false in Hsym. unfold Sh.symbols in Hsym.
      cbn. in_set. }
  rewrite Hno. rewrite <- (wrap_core c), Ec. destruct argv as [|w argv].
  - destruct (redirs_read (redirs c) fuel (Sh.EXEC []) (Sh.skip s) rest arg_ends) as (rs' & -> & Em); try done.
    + intros x; in_set.
    + by rewrite skip_skip.
    + cbn [length] in Hf. lia.
    + cbn [Sh.pbind]. destruct fuel as [|fuel]; [lia|]. rewrite (args_stop fuel 0 _ _ rest) by (done || apply skip_skip).
      eexists. split; [done|]. rewrite resolve_wrap, Em. done.
  - inversion Hargs as [|? ? Hw _]; subst. destruct (word_head w Hw) as (x & t & Ew & Hx).
    set (text := args_text (w :: argv) ++ redirs_text (redirs c) ++ rest) in *.
    assert (Hx' : x ∉ [60; 62]) by (destruct (wordchar_has x Hx) as [_ Hsym]; apply has_false in Hsym; unfold Sh.symbols in Hsym; in_set).
    assert (Hstx : stops [x] text).
    { unfold stops, text, args_text. cbn [map concat app]. rewrite skip_space, <- app_assoc, skip_word_text, Ew by done. by left. }
    destruct (redirs_read [] fuel (Sh.EXEC []) (Sh.skip s) text [x]) as (rs0 & -> & E0); try done.
    + by intros y ->%list_elem_of_singleton.
    + by rewrite skip_skip.
    + cbn. lia.
    + apply fmap_nil_inv in E0. subst rs0. cbn [Sh.pbind wrap fold_left].
      destruct (args_read (w :: argv) fuel 0 [] (Sh.skip text) (redirs c) rest) as (args' & rs' & -> & E1 & E2); try done; [apply skip_skip|lia|].
      eexists. split; [done|]. rewrite resolve_wrap, E2. cbn [resolve app]. by rewrite E1.
Qed.

Lemma exec_of_block c : print (core c) Exec = block (print (core c) Line) -> cmd_ok c -> reads_line (core c) -> reads_exec c.
Proof.
  intros Ec Hok [F HL]. exists (S (S (F + S (length (redirs c))))). intros fuel s rest Hf Hsp Hst Es. destruct fuel as [|[|fuel]]; [lia|lia|].
  rewrite print_core, Ec in Es. unfold block in Es. rewrite <- !app_assoc in Es. cbn [app] in Es. rewrite skip_space in Es.
  set (tail := redirs_text (redirs c) ++ rest) in *. set (line := print (core c) Line) in *.
  assert (Es' : Sh.skip s = 40 :: line ++ 32 :: 41 :: tail) by exact Es. cbn [Sh.parseexec Sh.parseblock].
  destruct (sym_take s 40 (line ++ 32 :: 41 :: tail) [40]) as (-> & w & Ht); [done|in_set|in_set|].
  destruct (sym_take (40 :: line ++ 32 :: 41 :: tail) 40 (line ++ 32 :: 41 :: tail) [40]) as (-> & _); [done|in_set|in_set|]. cbn [negb]. rewrite Ht.
  destruct (sym_next 41 tail [41]) as (Hsp1 & Hst1 & Hk1); [in_set|in_set|].
  destruct (HL fuel (Sh.skip (line ++ 32 :: 41 :: tail)) (32 :: 41 :: tail)) as (c' & -> & Hc); [lia|done|done|apply skip_skip|]. cbn [Sh.pbind]. rewrite Hk1.
  destruct (sym_take (41 :: tail) 41 tail [41]) as (-> & w2 & ->); [done|in_set|in_set|]. cbn [negb].
  destruct (redirs_read (redirs c) fuel c' (Sh.skip tail) rest [41; 59; 38; 124]) as (rs' & -> & Em); try done.
  - by apply redirs_ok.
  - intros x; in_set.
  - apply skip_skip.
  - lia.
  - eexists. split; [done|]. rewrite resolve_wrap, Em, Hc. by rewrite wrap_core.
Qed.

(** Every level reads every command. *)
Lemma reads_all c : cmd_ok c ->
  ((exists argv, core c = Sh.EXEC argv /\ Forall word_ok argv /\ (length argv < Sh.MAXARGS)%nat) \/
   print (core c) Exec = block (print (core c) Line) /\ reads_line (core c)) /\
  reads_exec c /\ reads_pipe c /\ reads_back c /\ reads_line c.
Proof.
  induction c as [argv|c IH r|a IHa b IHb|a IHa b IHb|a IHa]; cbn [cmd_ok core]; intros Hok.
  - destruct Hok as [Ha Hl]. assert (He : reads_exec (Sh.EXEC argv)) by (by eapply (exec_of_words _ argv)).
    assert (Hp := pipe_of_exec (Sh.EXEC argv) eq_refl He). assert (Hb := back_of_pipe (Sh.EXEC argv) eq_refl Hp).
    split; [left; by exists argv|]. split_and!; try done. by apply line_of_back.
  - destruct (IH (proj1 Hok)) as [Hcore _].
    assert (He : reads_exec (Sh.REDIR c r)).
    { destruct Hcore as [(argv & E & Ha & Hl)|[E HL]]; [by eapply (exec_of_words _ argv)|by apply exec_of_block]. }
    assert (Hp := pipe_of_exec (Sh.REDIR c r) eq_refl He). assert (Hb := back_of_pipe (Sh.REDIR c r) eq_refl Hp). split; [done|]. split_and!; try done. by apply line_of_back.
  - destruct Hok as [Ha Hb]. destruct (IHa Ha) as (_ & Ea & _). destruct (IHb Hb) as (_ & _ & Pb & _).
    assert (Hp := pipe_of_parts a b Ea Pb). assert (Hbk := back_of_pipe (Sh.PIPE a b) eq_refl Hp).
    assert (Hl := line_of_back (Sh.PIPE a b) eq_refl Hbk). split; [by right|]. split_and!; try done. by apply (exec_of_block (Sh.PIPE a b) eq_refl).
  - destruct Hok as [Ha Hb]. destruct (IHa Ha) as (_ & _ & _ & Ba & _). destruct (IHb Hb) as (_ & _ & _ & _ & Lb).
    assert (Hl := line_of_list a b Ba Lb). assert (He : reads_exec (Sh.LIST a b)) by (by apply (exec_of_block (Sh.LIST a b) eq_refl)).
    assert (Hp := pipe_of_exec (Sh.LIST a b) eq_refl He). split; [by right|]. split_and!; try done. by apply back_of_pipe.
  - destruct (IHa Hok) as (_ & _ & _ & Ba & _). assert (Hb := back_of_back a Ba). assert (Hl := line_of_back (Sh.BACK a) eq_refl Hb).
    assert (He : reads_exec (Sh.BACK a)) by (by apply (exec_of_block (Sh.BACK a) eq_refl)). split; [by right|]. split_and!; try done. by apply pipe_of_exec.
Qed.

(** C38: parsecmd() inverts printing.  For every command (any nesting of
    pipes, lists, background jobs, redirections and argument lists of at most
    nine words) the parser reads its text, parenthesised where the grammar
    needs it, to the end and yields that command: same structure, same words,
    same order of redirections, same modes and descriptors. *)
Theorem parse_print c : cmd_ok c ->
  exists c' b, Sh.parsecmd (print c Line) = Sh.Parsed (c', b) [] /\ resolve c' = c.
Proof.
  intros Hok. destruct (reads_all c Hok) as (_ & _ & _ & _ & F & HL).
  destruct (HL F (print c Line) []) as (c' & E & Hr); [lia|done|done|by rewrite app_nil_r|]. cbn in E.
  unfold Sh.parsecmd. rewrite (parseline_fuel F _ c' []) by done. cbn. eauto.
Qed.

Definition sample_cmd : wcmd :=
  Sh.LIST (Sh.BACK (Sh.PIPE (Sh.REDIR (Sh.EXEC [lit "cat"; lit "-"]) (Sh.Redir (lit "in") O_RDONLY 0))
                            (Sh.REDIR (Sh.LIST (Sh.EXEC [lit "a"]) (Sh.EXEC [lit "b"])) (Sh.Redir (lit "log") (Z.lor O_WRONLY O_CREATE) 1))))
          (Sh.EXEC [lit "echo"; lit "done"]).

Lemma parse_print_witness : exists c' b,
  Sh.parsecmd (lit " cat - < in | ( a ; b ) >> log & ; echo done") = Sh.Parsed (c', b) [] /\ resolve c' = sample_cmd.
Proof.
  apply (parse_print sample_cmd). assert (Hw : forall w, w <> [] -> forallb (fun c => negb (c =? 0) && negb (Sh.has Sh.whitespace c) && negb (Sh.has Sh.symbols c)) w = true -> word_ok w).
  { intros w Hne Hf. split; [done|]. rewrite Forall_forall. intros c Hc. rewrite forallb_forall in Hf.
    specialize (Hf c ltac:(by apply list_elem_of_In)). rewrite !andb_true_iff, !negb_true_iff in Hf. destruct Hf as [[H0 H1] H2].
    apply has_false in H1, H2. split; [lia|]. unfold special. tauto. }
  unfold sample_cmd. cbn [cmd_ok]. unfold redir_ok. cbn [Sh.r_file Sh.r_mode Sh.r_fd].
  repeat match goal with
  | |- _ /\ _ => split
  | |- Forall word_ok (_ :: _) => apply Forall_cons_2
  | |- Forall word_ok [] => apply Forall_nil_2
  | |- word_ok _ => apply Hw; [done|by vm_compute]
  | |- (_ < _)%nat => by vm_compute; lia
  end; first [by left | by right; left | by right; right].
Defined.
