(* ===== verification/ShRun.v ===== *)
(** * Running commands (user/sh.c: runcmd, getcmd, main)

    runcmd() is the tree of what the process and its children do: the system
    calls that can fail branch, fork() has a child and a parent.  Each process
    carries its descriptor table, whose entries name what they refer to: a
    descriptor the shell was given, an opened file, or an end of a pipe, which
    is named by the place of its command. *)

From Stdlib Require Import ZArith Lia.
From stdpp Require Import base numbers list list_numbers gmap strings.
From S2P Require Import Prelude Cstring Kernel Console User Ulib Uprintf Sysfile Sh.

Module ShRun.
Inductive obj :=
| Given (n : Z)
| Opened (name : list Z) (mode : Z)
| PipeR (id : list bool)
| PipeW (id : list bool).

Notation fdt := (gmap Z obj).


(** The lowest free descriptor, as fdalloc() in the kernel finds it. *)
Fixpoint lowest (n : nat) (fd : Z) (fds : fdt) : option Z :=
  match n with
  | O => None
  | S k => match fds !! fd with None => Some fd | Some _ => lowest k (fd + 1) fds end
  end.

(** open(), close(), dup() and pipe() on the table. *)
Definition install (o : obj) (fds : fdt) : option (Z * fdt) :=
  match lowest 16 0 fds with Some fd => Some (fd, <[fd := o]> fds) | None => None end.
Definition close (fd : Z) (fds : fdt) : fdt := delete fd fds.



(** main() first makes sure that three descriptors are open. *)
Fixpoint open_console (fuel : nat) (fds : fdt) : fdt :=
  match fuel with
  | O => fds
  | S k =>
      match install (Opened (lit "console") O_RDWR) fds with
      | Some (fd, fds) => if 3 <=? fd then close fd fds else open_console k fds
      | None => fds
      end
  end.

(** getcmd(buf, nbuf): the line read, without its NUL; None at the end. *)
Definition getcmd (nbuf : Z) : U (option (list Z)) :=
  let! _ := write 2 (lit "$ ") in
  let! buf := Ulib.gets nbuf in
  uret (if chr buf =? 0 then None else Some buf).

(** What main() does with a line: cd in the shell itself, or a child. *)
Inductive job := Cd (dir : list Z) | Run (line : list Z).

Definition job_of (buf : list Z) : job :=
  if (chr buf =? 99) && (chr (nxt buf) =? 100) && (chr (nxt (nxt buf)) =? 32)
  then Cd (drop 3 (cstr (take (length (cstr buf) - 1) buf)))
  else Run (cstr buf).

(** The command loop, with what chdir() answers; [fuel] lines at most. *)
Fixpoint main_loop (fuel : nat) (chdir : list Z -> Z) : U (list job) :=
  match fuel with
  | O => uret []
  | S k =>
      let! l := getcmd 100 in
      match l with
      | None => exit 0
      | Some buf =>
          let! _ := match job_of buf with
                    | Cd d => if chdir d <? 0 then Uprintf.fprintf 2 (lit "cannot cd %s" ++ [10]) [AStr (Some d)] else uret tt
                    | Run _ => uret tt
                    end in
          let! js := main_loop k chdir in
          uret (job_of buf :: js)
      end
  end.
End ShRun.

(** ** What the programs of a command get *)




(** Exactly the three standard descriptors. *)
Definition std (i o e : ShRun.obj) : gmap Z ShRun.obj := {[0 := i; 1 := o; 2 := e]}.


(** Whichever of the three the shell was started with, four turns are enough. *)
Lemma open_console_std (a b c : option ShRun.obj) :
  exists i o e : ShRun.obj, ShRun.open_console 4 (partial_alter (fun _ => a) 0 (partial_alter (fun _ => b) 1 (partial_alter (fun _ => c) 2 ∅))) = std i o e /\
    (forall x, a = Some x -> i = x) /\ (forall x, b = Some x -> o = x) /\ (forall x, c = Some x -> e = x).
Proof.
  exists (default (ShRun.Opened (lit "console") O_RDWR) a), (default (ShRun.Opened (lit "console") O_RDWR) b), (default (ShRun.Opened (lit "console") O_RDWR) c).
  split; [destruct a, b, c; reflexivity|]. split_and!; by intros x ->.
Qed.














