(* ===== verification/Mkfs.v ===== *)
(** * The image builder (mkfs/mkfs.c)

    mkfs runs on the build host.  Its state is the image file, by sectors,
    and its global variables; what it asks of the host is collected in
    [host]: the files to copy, how much each read() returns, whether the
    image can be created and how many sectors the host has room for.  A die()
    or a failed assert() is a [Panic].  The host is little-endian, as the
    conversions of [IBLOCK] and of the superblock's magic number need, and
    the progress messages on stdout are left out. *)

From Stdlib Require Import ZArith Lia.
From stdpp Require Import base numbers list list_numbers gmap strings sorting.
From S2P Require Import Prelude Cstring Riscv Kalloc Vm Uvm Bytes Sleeplock Bio Bcache Log Recovery Store Fs Kernel Console.

Module Mkfs.
Definition NINODES : Z := 200.
Definition FSSIZE : Z := 2000.

Definition nbitmap : Z := FSSIZE / (BSIZE * 8) + 1.
Definition ninodeblocks : Z := NINODES / IPB + 1.
Definition nlog : Z := LOGSIZE.

Record host := Host {
  h_files : gmap (list Z) (list Z);
  h_chunk : nat -> Z;
  h_create : bool;
  h_room : Z
}.

Record mkst := Mkst {
  img : gmap Z (list Z);           (** sectors written so far *)
  img_len : Z;                     (** length of the file, in sectors *)
  m_sb : superblock;
  freeinode : Z;
  freeblock : Z;
  reads : nat
}.

Definition set_img i n (s : mkst) := Mkst i n (m_sb s) (freeinode s) (freeblock s) (reads s).
Definition set_m_sb b (s : mkst) := Mkst (img s) (img_len s) b (freeinode s) (freeblock s) (reads s).
Definition set_freeinode n (s : mkst) := Mkst (img s) (img_len s) (m_sb s) n (freeblock s) (reads s).
Definition set_freeblock n (s : mkst) := Mkst (img s) (img_len s) (m_sb s) (freeinode s) n (reads s).
Definition set_reads n (s : mkst) := Mkst (img s) (img_len s) (m_sb s) (freeinode s) (freeblock s) n.

Definition zeroes : list Z := repeat 0 (Z.to_nat BSIZE).

(** Conversion to riscv byte order: the value whose bytes in memory are these. *)
Definition xshort (x : Z) : Z := le_val [u8 x; u8 (Z.shiftr x 8)].
Definition xint (x : Z) : Z := le_val [u8 x; u8 (Z.shiftr x 8); u8 (Z.shiftr x 16); u8 (Z.shiftr x 24)].

Section Mkfs.
Variable h : host.

Definition die {A} (what : string) : M mkst A := panic what.
Definition assert_ (b : bool) : M mkst unit := if b then ret tt else panic "assert".

(** ** Sectors *)

(** Where lseek(fsfd, sec * BSIZE, 0) leaves the file, in sectors. *)
Definition seek (sec : Z) : Z := u32 (sec * BSIZE) / BSIZE.

Definition wsect (sec : Z) (buf : list Z) : M mkst unit :=
  if h_room h <=? seek sec then die "write"
  else modify (fun s => set_img (<[seek sec := buf]> (img s)) (Z.max (img_len s) (seek sec + 1)) s).

Definition rsect (sec : Z) : M mkst (list Z) :=
  let* n := gets img_len in
  if n <=? seek sec then die "read"
  else gets (fun s => default zeroes (img s !! seek sec)).

(** ** Inodes *)

Definition winode (inum : Z) (ip : inode) : M mkst unit :=
  let* sb := gets m_sb in
  let bn := IBLOCK inum sb in
  let* buf := rsect bn in
  wsect bn (dip_store buf (dip_off inum) ip).

Definition rinode (inum : Z) : M mkst inode :=
  let* sb := gets m_sb in
  let* buf := rsect (IBLOCK inum sb) in
  ret (dip_load buf (dip_off inum) inode0).

Definition ialloc (type : Z) : M mkst Z :=
  let* inum := gets freeinode in
  modify (set_freeinode (u32 (inum + 1))) ;;
  winode inum (set_i_size (xint 0) (set_i_nlink (xshort 1) (set_i_type (xshort type) inode0))) ;;
  ret inum.

(** ** Blocks *)

(** The bitmap with the first [used] bits set. *)
Fixpoint balloc_loop (n : nat) (i : Z) (buf : list Z) : list Z :=
  match n with
  | O => buf
  | S k => balloc_loop k (i + 1) (updZ (i / 8) (u8 (Z.lor (nthZ 0 buf (i / 8)) (Z.shiftl 1 (i mod 8)))) buf)
  end.

Definition balloc (used : Z) : M mkst unit :=
  assert_ (used <? BSIZE * 8) ;;
  let* sb := gets m_sb in
  wsect (sb_bmapstart sb) (balloc_loop (Z.to_nat used) 0 zeroes).

(** freeblock++ *)
Definition newblock : M mkst Z :=
  let* b := gets freeblock in
  modify (set_freeblock (u32 (b + 1))) ;;
  ret b.

(** A new block for din.addrs[i], if it has none. *)
Definition new_addr (din : inode) (i : Z) : M mkst inode :=
  if xint (nthZ 0 (i_addrs din) i) =? 0 then
    let* b := newblock in
    ret (set_i_addrs (updZ i (xint b) (i_addrs din)) din)
  else ret din.

(** The block [x] of block [fbn] of the file, which gets one if it has none. *)
Definition append_block (din : inode) (fbn : Z) : M mkst (inode * Z) :=
  if fbn <? NDIRECT then
    let* din := new_addr din fbn in
    ret (din, xint (nthZ 0 (i_addrs din) fbn))
  else
    let* din := new_addr din NDIRECT in
    let ind := xint (nthZ 0 (i_addrs din) NDIRECT) in
    let o := 4 * (fbn - NDIRECT) in
    let* indirect := rsect ind in
    let* indirect :=
      (if get32 indirect o =? 0 then
         let* b := newblock in
         wsect ind (put32 indirect o (xint b)) ;;
         ret (put32 indirect o (xint b))
       else ret indirect) in
    ret (din, xint (get32 indirect o)).

Fixpoint iappend_loop (fuel : nat) (din : inode) (off : Z) (p : list Z) (n : Z) : M mkst (inode * Z) :=
  match fuel with
  | O => panic "iappend: fuel"
  | S k =>
      if 0 <? n then
        let fbn := off / BSIZE in
        assert_ (fbn <? MAXFILE) ;;
        let* r := append_block din fbn in
        let n1 := Z.min n (u32 ((fbn + 1) * BSIZE - off)) in
        let* buf := rsect (snd r) in
        wsect (snd r) (patch buf (off - fbn * BSIZE) (take (Z.to_nat n1) p)) ;;
        iappend_loop k (fst r) (u32 (off + n1)) (drop (Z.to_nat n1) p) (n - n1)
      else ret (din, off)
  end.

(** The first [n] bytes of [p]; each turn of the loop takes at least one. *)
Definition iappend (inum : Z) (p : list Z) (n : Z) : M mkst unit :=
  let* din := rinode inum in
  let* r := iappend_loop (S (Z.to_nat n)) din (xint (i_size din)) p n in
  winode inum (set_i_size (xint (snd r)) (fst r)).

(** ** main *)

(** One read() of up to BSIZE bytes: the bytes, and what is left. *)
Definition hread (c : list Z) : M mkst (list Z * list Z) :=
  let* k := gets reads in
  modify (set_reads (S k)) ;;
  let m := Z.to_nat (Z.min BSIZE (Z.max 1 (h_chunk h k))) in
  ret (take m c, drop m c).

Fixpoint copy_file (fuel : nat) (inum : Z) (c : list Z) : M mkst unit :=
  match fuel with
  | O => panic "mkfs: fuel"
  | S k =>
      let* r := hread c in
      if 0 <? zlen (fst r) then
        iappend inum (fst r) (zlen (fst r)) ;;
        copy_file k inum (snd r)
      else ret tt
  end.

Definition user_ : list Z := lit "user/".

(** The name in the image of a file named on the command line, before the
    leading underscore is dropped, and after. *)
Definition base_name (arg : list Z) : list Z :=
  if bool_decide (take 5 arg = user_) then drop 5 arg else arg.
Definition short_name (n : list Z) : list Z :=
  match n with c :: n' => if c =? 95 then n' else n | [] => n end.

Definition add_file (rootino : Z) (arg : list Z) : M mkst unit :=
  assert_ (negb (existsb (Z.eqb 47) (base_name arg))) ;;
  match h_files h !! arg with
  | None => die "open"
  | Some c =>
      let* inum := ialloc T_FILE in
      iappend rootino (mk_dirent (short_name (base_name arg)) (xshort inum)) sizeof_dirent ;;
      copy_file (S (length c)) inum c
  end.

Fixpoint add_files (rootino : Z) (args : list (list Z)) : M mkst unit :=
  match args with
  | [] => ret tt
  | a :: args' => add_file rootino a ;; add_files rootino args'
  end.

Fixpoint zero_image (n : nat) (i : Z) : M mkst unit :=
  match n with
  | O => ret tt
  | S k => wsect i zeroes ;; zero_image k (i + 1)
  end.

Definition nmeta : Z := 2 + nlog + ninodeblocks + nbitmap.
Definition nblocks : Z := FSSIZE - nmeta.
Definition mkfs_sb : superblock :=
  Superblock FSMAGIC (xint FSSIZE) (xint nblocks) (xint NINODES) (xint nlog) (xint 2) (xint (2 + nlog))
             (xint (2 + nlog + ninodeblocks)).

(** struct superblock in memory. *)
Definition sb_bytes (b : superblock) : list Z :=
  mjoin (le_bytes 4 <$> [sb_magic b; sb_size b; sb_nblocks b; sb_ninodes b; sb_nlog b; sb_logstart b;
                         sb_inodestart b; sb_bmapstart b]).

(** The size of the root directory, rounded up to whole blocks. *)
Definition fix_root (rootino : Z) : M mkst unit :=
  let* din := rinode rootino in
  let off := xint (i_size din) in
  let off := u32 ((off / BSIZE + 1) * BSIZE) in
  winode rootino (set_i_size (xint off) din).

(** main() with the names of the files to copy, argv[2] on. *)
Definition build (args : list (list Z)) : M mkst unit :=
  assert_ (BSIZE mod sizeof_dinode =? 0) ;;
  assert_ (BSIZE mod sizeof_dirent =? 0) ;;
  (if h_create h then modify (set_img ∅ 0) else die "open") ;;
  modify (set_m_sb mkfs_sb) ;;
  modify (set_freeblock nmeta) ;;
  zero_image (Z.to_nat FSSIZE) 0 ;;
  wsect 1 (patch zeroes 0 (sb_bytes mkfs_sb)) ;;
  let* rootino := ialloc T_DIR in
  assert_ (rootino =? ROOTINO) ;;
  iappend rootino (mk_dirent (lit ".") (xshort rootino)) sizeof_dirent ;;
  iappend rootino (mk_dirent (lit "..") (xshort rootino)) sizeof_dirent ;;
  add_files rootino args ;;
  fix_root rootino ;;
  let* used := gets freeblock in
  balloc used.

(** argv[1] on; the image is argv[1]. *)
Definition main (argv : list (list Z)) : M mkst unit :=
  match argv with
  | [] => die "Usage: mkfs fs.img files..."
  | _ :: args => build args
  end.
End Mkfs.

(** The globals as the program starts. *)
Definition start : mkst := Mkst ∅ 0 (Superblock 0 0 0 0 0 0 0 0) 1 0 0.
End Mkfs.
