(* ===== verification/MkfsProof.v ===== *)
(** * The image mkfs builds: the proofs

    The invariant of the image while it is being built: the blocks the inodes
    point to are distinct blocks below freeblock, they hold the bytes appended
    so far and zeroes after them, and the blocks from freeblock on are zero. *)

From Stdlib Require Import ZArith Lia.
From stdpp Require Import base numbers list list_numbers gmap strings sorting.
From S2P Require Import Prelude Cstring Riscv Kalloc Vm Uvm Bytes Sleeplock Bio Bcache Log Recovery Store Fs FsBlocks FsInode FsFile FsWrite Kernel Console Mkfs.
Import Mkfs.

(** ** Byte order and sectors *)

Lemma xint_eq x : xint x = u32 x.
Proof.
  unfold xint. rewrite !Z.shiftr_div_pow2 by lia. change (2 ^ 8) with 256. change (2 ^ 16) with 65536.
  change (2 ^ 24) with 16777216. cbn [le_val]. word.
Qed.

Lemma xint_small x : 0 <= x < 2 ^ 32 -> xint x = x.
Proof. intros. rewrite xint_eq. by apply u32_small. Qed.

Lemma xshort_small x : 0 <= x < 2 ^ 16 -> xshort x = x.
Proof.
  intros. transitivity (u16 x); [|by apply u16_small]. unfold xshort. rewrite !Z.shiftr_div_pow2 by lia.
  change (2 ^ 8) with 256. cbn [le_val]. word.
Qed.

(** The sectors of the image; those never written read as zeroes. *)
Definition view (s : mkst) (b : Z) : list Z := default zeroes (img s !! b).

(** The complete image [V] with the two counters. *)
Record rep (fi fb : Z) (V : Z -> list Z) (s : mkst) : Prop := {
  r_view : forall b, view s b = V b;
  r_len : img_len s = FSSIZE;
  r_sb : m_sb s = mkfs_sb;
  r_fi : freeinode s = fi;
  r_fb : freeblock s = fb
}.

Definition zset {A} (F : Z -> A) (i : Z) (x : A) (k : Z) : A := if decide (k = i) then x else F k.

Lemma zset_eq {A} (F : Z -> A) i x : zset F i x i = x.
Proof. unfold zset. by rewrite decide_True. Qed.
Lemma zset_ne {A} (F : Z -> A) i x k : k <> i -> zset F i x k = F k.
Proof. intros. unfold zset. by rewrite decide_False. Qed.

Section Sectors.
Variable h : host.
Hypothesis Hroom : FSSIZE <= h_room h.

Lemma seek_sector b : 0 <= b < FSSIZE -> seek b = b.
Proof. unfold seek, FSSIZE, BSIZE. intros. rewrite u32_small by lia. apply Z.div_mul. lia. Qed.

Lemma rsect_ok fi fb V s b : rep fi fb V s -> 0 <= b < FSSIZE -> rsect b s = Ret (V b) s.
Proof.
  intros HR Hb. unfold rsect. erewrite bind_Ret by reflexivity. rewrite seek_sector, (r_len _ _ _ _ HR) by done.
  destruct (Z.leb_spec FSSIZE b); [lia|]. unfold gets. f_equal. apply (r_view _ _ _ _ HR).
Qed.

Lemma wsect_ok fi fb V s b d : rep fi fb V s -> 0 <= b < FSSIZE ->
  exists s', wsect h b d s = Ret tt s' /\ rep fi fb (vset V b d) s'.
Proof.
  intros [Hv Hl Hs Hi Hf] Hb. unfold wsect. rewrite seek_sector by done.
  destruct (Z.leb_spec (h_room h) b); [lia|]. eexists. split; [reflexivity|]. split; try done.
  - intros k. unfold view, vset. cbn [img set_img]. case_decide; [subst; by rewrite lookup_insert_eq|].
    rewrite lookup_insert_ne by done. apply Hv.
  - cbn [img_len set_img]. lia.
Qed.

Lemma newblock_ok fi fb V s : rep fi fb V s -> 0 <= fb < FSSIZE ->
  exists s', newblock s = Ret fb s' /\ rep fi (fb + 1) V s'.
Proof.
  intros [Hv Hl Hs Hi Hf] Hb. unfold newblock, FSSIZE in *. erewrite bind_Ret by reflexivity. rewrite Hf.
  eexists. split; [reflexivity|]. split; try done. cbn. apply u32_small. lia.
Qed.
End Sectors.

(** ** Blocks and files *)

(** The first byte of the file that needs pointer [j], and the pointers a
    file of [n] bytes has. *)
Definition ptr_start (j : Z) : Z := (if j <=? NDIRECT then j else j - 1) * BSIZE.
Definition has_ptr (n j : Z) : bool := ptr_start j <? n.

(** How many that are. *)
Definition nptrs (n : Z) : Z := (n + (BSIZE - 1)) / BSIZE + (if NDIRECT * BSIZE <? n then 1 else 0).

(** Inodes 1 to [n] with block lists [F] hold [L]; pointer [j] of inode [i] is
    set when [sh i j]. *)
Record holds (n : Z) (V : Z -> list Z) (F : Z -> inode) (fb : Z) (L : Z -> list Z) (sh : Z -> Z -> bool) : Prop := {
  h_len : forall b, zlen (V b) = BSIZE;
  h_low : nmeta <= fb;
  h_fresh : forall b, fb <= b -> V b = zeroes;
  h_addrs : forall i, 1 <= i <= n -> zlen (i_addrs (F i)) = NDIRECT + 1;
  h_ptr : forall i j, 1 <= i <= n -> 0 <= j < NPTR ->
    if sh i j then nmeta <= bptr V (F i) j < fb else bptr V (F i) j = 0;
  h_inj : forall i j i' j', 1 <= i <= n -> 0 <= j < NPTR -> 1 <= i' <= n -> 0 <= j' < NPTR ->
    sh i j = true -> sh i' j' = true -> bptr V (F i) j = bptr V (F i') j' -> i = i' /\ j = j';
  h_bytes : forall i o, 1 <= i <= n -> 0 <= o < MAXFILE * BSIZE -> sh i (pidx (o / BSIZE)) = true ->
    fbyte V (F i) o = nthZ 0 (L i) o
}.

Lemma nmeta_pos : 0 < nmeta.
Proof. done. Qed.

Section Holds.
Context (n : Z) (V : Z -> list Z) (F : Z -> inode) (fb : Z) (L : Z -> list Z) (sh : Z -> Z -> bool).
Hypothesis HF : holds n V F fb L sh.
Implicit Types (i j : Z).

Lemma ptr_set i j : 1 <= i <= n -> 0 <= j < NPTR -> sh i j = true -> nmeta <= bptr V (F i) j < fb.
Proof. intros Hi Hj E. pose proof (h_ptr _ _ _ _ _ _ HF i j Hi Hj) as Hp. by rewrite E in Hp. Qed.

Lemma ptr_unset i j : 1 <= i <= n -> 0 <= j < NPTR -> sh i j = false -> bptr V (F i) j = 0.
Proof. intros Hi Hj E. pose proof (h_ptr _ _ _ _ _ _ HF i j Hi Hj) as Hp. by rewrite E in Hp. Qed.

Lemma ptr_nonzero i j : 1 <= i <= n -> 0 <= j < NPTR -> bptr V (F i) j <> 0 <-> sh i j = true.
Proof.
  intros Hi Hj. pose proof nmeta_pos. destruct (sh i j) eqn:E.
  - pose proof (ptr_set i j Hi Hj E). split; [done|lia].
  - rewrite (ptr_unset i j) by done. done.
Qed.

(** The entries of an indirect block need the block. *)
Lemma ptr_indirect i j : 1 <= i <= n -> NDIRECT < j < NPTR -> sh i j = true -> sh i NDIRECT = true.
Proof.
  intros Hi Hj E. destruct (sh i NDIRECT) eqn:E12; [done|]. exfalso.
  pose proof (ptr_unset i NDIRECT Hi ltac:(done) E12) as H0. rewrite bptr_direct in H0 by lia.
  apply (ptr_nonzero i j Hi) in E; [|unfold NDIRECT in *; lia]. by rewrite bptr_no_indirect in E by (done || lia).
Qed.

Lemma indirect_ptr i : bptr V (F i) NDIRECT = nthZ 0 (i_addrs (F i)) NDIRECT.
Proof. by apply bptr_direct. Qed.
End Holds.

(** Only the block lists and the blocks from [nmeta] on matter. *)
Lemma holds_ext n V F fb L sh V' F' :
  holds n V F fb L sh -> (forall b, zlen (V' b) = BSIZE) -> (forall b, nmeta <= b -> V' b = V b) ->
  (forall i, 1 <= i <= n -> i_addrs (F' i) = i_addrs (F i)) -> holds n V' F' fb L sh.
Proof.
  intros HF HV' HV Ha.
  assert (Hp : forall i j, 1 <= i <= n -> bptr V' (F' i) j = bptr V (F i) j).
  { intros i j Hi. rewrite (bptr_addrs _ (F i)) by auto. apply bptr_view_ext. intros Hne.
    apply HV. pose proof (h_ptr _ _ _ _ _ _ HF i NDIRECT Hi ltac:(done)) as Hq. rewrite bptr_direct in Hq by lia.
    destruct (sh i NDIRECT); [lia|done]. }
  destruct HF as [Hl Hlow Hfr Had Hpt Hin Hby]. split; try done.
  - intros b Hb. rewrite HV by lia. by apply Hfr.
  - intros i Hi. rewrite Ha by done. by apply Had.
  - intros i j Hi Hj. rewrite Hp by done. by apply Hpt.
  - intros i j i' j' Hi Hj Hi' Hj'. rewrite !Hp by done. by apply Hin.
  - intros i o Hi Ho Hs. rewrite <- (Hby i o Hi Ho Hs). unfold fbyte. rewrite Hp by done. f_equal. apply HV.
    pose proof (Hpt i _ Hi (pidx_range _ (block_of _ Ho))) as Hq. rewrite Hs in Hq. lia.
Qed.

Definition with_ptr (sh : Z -> Z -> bool) (i j : Z) (k m : Z) : bool :=
  if decide (k = i /\ m = j) then true else sh k m.

Lemma with_ptr_eq sh i j : with_ptr sh i j i j = true.
Proof. unfold with_ptr. by rewrite decide_True. Qed.
Lemma with_ptr_old sh i j k m : sh k m = true -> with_ptr sh i j k m = true.
Proof. unfold with_ptr. by case_decide. Qed.
Lemma with_ptr_ne sh i j k m : k <> i \/ m <> j -> with_ptr sh i j k m = sh k m.
Proof. unfold with_ptr. case_decide; [lia|done]. Qed.

Section Alloc.
Context (n : Z) (V : Z -> list Z) (F : Z -> inode) (fb : Z) (L : Z -> list Z) (sh : Z -> Z -> bool) (i j : Z).
Hypothesis HF : holds n V F fb L sh.
Hypothesis Hi : 1 <= i <= n.
Hypothesis Hj : 0 <= j < NPTR.
Hypothesis Hunset : sh i j = false.
Hypothesis Hind : NDIRECT < j -> sh i NDIRECT = true.
Hypothesis Hfb : fb < 2 ^ 32.
Hypothesis Htail : forall o, 0 <= o -> pidx (o / BSIZE) = j -> zlen (L i) <= o.

Let V' := ptr_view V (F i) j fb.
Let F' := zset F i (ptr_inode (F i) j fb).

(** The only block that may change is the indirect block of inode [i]. *)
Lemma alloc_view_other b : (NDIRECT < j -> b <> bptr V (F i) NDIRECT) -> V' b = V b.
Proof.
  intros Hb. unfold V', ptr_view. destruct (Z.leb_spec j NDIRECT); [done|]. apply vset_ne.
  rewrite <- (bptr_direct V) by lia. auto.
Qed.

Lemma alloc_zlen b : zlen (V' b) = BSIZE.
Proof.
  unfold V', ptr_view. destruct (Z.leb_spec j NDIRECT) as [|Hjn]; [apply (h_len _ _ _ _ _ _ HF)|].
  unfold vset. case_decide; [|apply (h_len _ _ _ _ _ _ HF)]. subst. rewrite zlen_put32; rewrite ?(h_len _ _ _ _ _ _ HF); try done.
  - lia.
  - change NPTR with 269 in Hj. change NDIRECT with 12 in *. unfold BSIZE. lia.
Qed.

Lemma alloc_data k m : 1 <= k <= n -> 0 <= m < NPTR -> sh k m = true -> (k, m) <> (i, NDIRECT) -> V' (bptr V (F k) m) = V (bptr V (F k) m).
Proof.
  intros Hk Hm Hs Hne. apply alloc_view_other. intros Hjn Heq. apply Hne.
  destruct (h_inj _ _ _ _ _ _ HF k m i NDIRECT Hk Hm Hi ltac:(done) Hs (Hind Hjn) Heq). congruence.
Qed.

Lemma alloc_bptr k m : 1 <= k <= n -> 0 <= m < NPTR ->
  bptr V' (F' k) m = if decide (k = i /\ m = j) then fb else bptr V (F k) m.
Proof.
  intros Hk Hm. unfold F'. pose proof nmeta_pos. pose proof (h_low _ _ _ _ _ _ HF). destruct (decide (k = i)) as [->|Hki].
  - rewrite zset_eq. unfold V'. rewrite bptr_set; try done.
    + repeat case_decide; naive_solver.
    + by apply (h_addrs _ _ _ _ _ _ HF).
    + apply (h_len _ _ _ _ _ _ HF).
    + by apply (ptr_unset _ _ _ _ _ _ HF).
    + intros Hjn. rewrite <- (bptr_direct V) by lia. by apply (ptr_nonzero _ _ _ _ _ _ HF); auto.
    + intros _. apply (h_fresh _ _ _ _ _ _ HF). lia.
    + lia.
  - rewrite zset_ne, decide_False by (done || naive_solver). apply bptr_view_ext. rewrite <- (bptr_direct V) by lia. intros Hne.
    apply alloc_data; try done; [|congruence]. by apply (ptr_nonzero _ _ _ _ _ _ HF).
Qed.

Lemma holds_alloc : holds n V' F' (fb + 1) L (with_ptr sh i j).
Proof.
  pose proof HF as [Hl Hlow Hfr Ha Hp Hin Hb]. split.
  - exact alloc_zlen.
  - lia.
  - intros b Hb'. rewrite alloc_view_other; [apply Hfr; lia|]. intros Hjn ->.
    pose proof (ptr_set _ _ _ _ _ _ HF i NDIRECT Hi ltac:(done) (Hind Hjn)). lia.
  - intros k Hk. unfold F'. destruct (decide (k = i)) as [->|]; [|rewrite zset_ne by done; by apply Ha].
    rewrite zset_eq. unfold ptr_inode. destruct (j <=? NDIRECT); [cbn; rewrite zlen_updZ|]; by apply Ha.
  - intros k m Hk Hm. rewrite alloc_bptr by done. unfold with_ptr. case_decide; [lia|].
    pose proof (Hp k m Hk Hm). destruct (sh k m); [lia|done].
  - intros k m k' m' Hk Hm Hk' Hm'. rewrite !alloc_bptr by done. unfold with_ptr.
    repeat case_decide; intros Hs Hs' Heq; try lia.
    + pose proof (ptr_set _ _ _ _ _ _ HF k' m' Hk' Hm' Hs'). lia.
    + pose proof (ptr_set _ _ _ _ _ _ HF k m Hk Hm Hs). lia.
    + by apply Hin.
  - intros k o Hk Ho. pose proof (pidx_range _ (block_of _ Ho)) as Hpr. intros Hs. unfold fbyte. rewrite alloc_bptr by done.
    unfold with_ptr in Hs. case_decide as Hd.
    + destruct Hd as [-> Hd]. rewrite alloc_view_other.
      2:{ intros Hjn E. pose proof (ptr_set _ _ _ _ _ _ HF i NDIRECT Hi ltac:(done) (Hind Hjn)). lia. }
      rewrite Hfr by lia. rewrite (nthZ_overflow 0 (L i)) by (apply Htail; [lia|done]). unfold zeroes. rewrite nthZ_repeat. by case_decide.
    + rewrite alloc_data; try done; [by apply Hb|]. intros [= -> E]. by apply (pidx_not_indirect (o / BSIZE)).
Qed.
End Alloc.

(** Bytes written into a block of the file, right after what it holds. *)
Section Append.
Context (n : Z) (V : Z -> list Z) (F : Z -> inode) (fb : Z) (L : Z -> list Z) (sh : Z -> Z -> bool) (i : Z) (bs : list Z).
Hypothesis HF : holds n V F fb L sh.
Hypothesis Hi : 1 <= i <= n.
Let off := zlen (L i).
Hypothesis Hoff : off + zlen bs <= MAXFILE * BSIZE.
Hypothesis Hbs : 0 < zlen bs.
Hypothesis Hfit : off mod BSIZE + zlen bs <= BSIZE.
Hypothesis Hset : sh i (pidx (off / BSIZE)) = true.

Let b := bptr V (F i) (pidx (off / BSIZE)).
Let V' := vset V b (patch (V b) (off mod BSIZE) bs).

Lemma append_pidx : 0 <= pidx (off / BSIZE) < NPTR.
Proof. apply pidx_range, block_of. pose proof (zlen_nonneg (L i)). unfold off in *. lia. Qed.

Lemma append_other k m : 1 <= k <= n -> 0 <= m < NPTR -> sh k m = true -> (k, m) <> (i, pidx (off / BSIZE)) ->
  V' (bptr V (F k) m) = V (bptr V (F k) m).
Proof.
  intros Hk Hm Hs Hne. apply vset_ne. intros Heq. apply Hne.
  destruct (h_inj _ _ _ _ _ _ HF k m i _ Hk Hm Hi append_pidx Hs Hset Heq). congruence.
Qed.

Lemma append_bptr k m : 1 <= k <= n -> bptr V' (F k) m = bptr V (F k) m.
Proof.
  intros Hk. apply bptr_view_ext. rewrite <- (bptr_direct V) by lia. intros Hne. apply append_other; try done.
  - by apply (ptr_nonzero _ _ _ _ _ _ HF).
  - intros [= _ E]. by apply (pidx_not_indirect (off / BSIZE)).
Qed.

Lemma append_zlen c : zlen (V' c) = BSIZE.
Proof.
  unfold V', vset. case_decide; [|apply (h_len _ _ _ _ _ _ HF)]. pose proof (Z.mod_pos_bound off BSIZE ltac:(done)).
  rewrite zlen_patch; rewrite ?(h_len _ _ _ _ _ _ HF); lia || done.
Qed.

Lemma append_here o : 0 <= o -> o / BSIZE = off / BSIZE ->
  nthZ 0 (V' b) (o mod BSIZE) = nthZ 0 (L i ++ bs) o.
Proof.
  intros Ho Hq. unfold V'. rewrite vset_eq. pose proof (Z.mod_pos_bound off BSIZE ltac:(done)).
  pose proof (Z.mod_pos_bound o BSIZE ltac:(done)) as Hm. assert (Hz : zlen (V b) = BSIZE) by apply (h_len _ _ _ _ _ _ HF).
  pose proof (Z.div_mod o BSIZE ltac:(done)). pose proof (Z.div_mod off BSIZE ltac:(done)). rewrite Hq in *.
  rewrite nthZ_patch by lia. rewrite nthZ_app by lia. fold off.
  assert (Hold : nthZ 0 (V b) (o mod BSIZE) = nthZ 0 (L i) o).
  { rewrite <- (h_bytes _ _ _ _ _ _ HF i o Hi); [unfold fbyte; by rewrite Hq| |by rewrite Hq].
    change (MAXFILE * BSIZE) with 274432 in *. change BSIZE with 1024 in *. lia. }
  destruct (decide _); destruct (Z.ltb_spec o off); try lia.
  - f_equal. lia.
  - rewrite Hold. rewrite !nthZ_overflow by (fold off; lia). done.
Qed.

Lemma holds_append : holds n V' F fb (zset L i (L i ++ bs)) sh.
Proof.
  pose proof HF as [Hl Hlow Hfr Ha Hp Hin Hb]. split; try done.
  - exact append_zlen.
  - intros c Hc. unfold V'. rewrite vset_ne; [by apply Hfr|]. intros ->.
    pose proof (ptr_set _ _ _ _ _ _ HF i _ Hi append_pidx Hset). unfold b in *. lia.
  - intros k m Hk Hm. rewrite append_bptr by done. by apply Hp.
  - intros k m k' m' Hk Hm Hk' Hm'. rewrite !append_bptr by done. by apply Hin.
  - intros k o Hk Ho Hs. pose proof (pidx_range _ (block_of _ Ho)) as Hpr. unfold fbyte. rewrite append_bptr by done.
    destruct (decide ((k, pidx (o / BSIZE)) = (i, pidx (off / BSIZE)))) as [[= -> E]|Hne].
    + rewrite E, zset_eq. fold b. apply append_here; [lia|by apply pidx_inj].
    + rewrite append_other by done. fold (fbyte V (F k) o). rewrite Hb by done.
      destruct (decide (k = i)) as [->|]; [|by rewrite zset_ne]. rewrite zset_eq, nthZ_app by lia. fold off.
      destruct (Z.ltb_spec o off); [done|]. rewrite !nthZ_overflow; [done| |fold off; lia].
      assert (o / BSIZE <> off / BSIZE) by congruence. change BSIZE with 1024 in *. Z.div_mod_to_equations. lia.
Qed.
End Append.

(** ** iappend() *)

Lemma holds_sh n V F fb L sh sh' : holds n V F fb L sh ->
  (forall i j, 1 <= i <= n -> 0 <= j < NPTR -> sh' i j = sh i j) -> holds n V F fb L sh'.
Proof.
  intros [Hl Hlow Hfr Ha Hp Hin Hb] E. split; try done.
  - intros i j Hi Hj. rewrite E by done. by apply Hp.
  - intros i j i' j' Hi Hj Hi' Hj'. rewrite !E by done. by apply Hin.
  - intros i o Hi Ho. rewrite E by (done || by apply pidx_range, block_of). by apply Hb.
Qed.

(** Only the block list of inode [i] differs. *)
Definition only (i : Z) (F F' : Z -> inode) : Prop :=
  (forall k, k <> i -> F' k = F k) /\ F' i = set_i_addrs (i_addrs (F' i)) (F i).

Lemma only_refl i F : only i F F.
Proof. split; [done|]. by destruct (F i). Qed.

Lemma only_trans i F F1 F2 : only i F F1 -> only i F1 F2 -> only i F F2.
Proof.
  intros [H1 E1] [H2 E2]. split; [intros k Hk; by rewrite H2, H1|]. rewrite E2. rewrite E1. by destruct (F i).
Qed.

Lemma only_set i F X : X = set_i_addrs (i_addrs X) (F i) -> only i F (zset F i X).
Proof. intros E. split; [intros k Hk; by apply zset_ne|by rewrite zset_eq]. Qed.

Definition missing (b : bool) : Z := if b then 0 else 1.

Section Iappend.
Variable h : host.
Hypothesis Hroom : FSSIZE <= h_room h.

Lemma new_addr_ok n V F fb L sh fi s i j :
  rep fi fb V s -> holds n V F fb L sh -> 1 <= i <= n -> 0 <= j <= NDIRECT -> fb + missing (sh i j) <= FSSIZE ->
  (sh i j = false -> forall o, 0 <= o -> pidx (o / BSIZE) = j -> zlen (L i) <= o) ->
  exists s' F', new_addr (F i) j s = Ret (F' i) s' /\ rep fi (fb + missing (sh i j)) V s' /\
    holds n V F' (fb + missing (sh i j)) L (with_ptr sh i j) /\ only i F F'.
Proof.
  intros HR HF Hi Hj Hfb Ht. pose proof nmeta_pos. pose proof (h_low _ _ _ _ _ _ HF).
  assert (Hjp : 0 <= j < NPTR) by (change NPTR with 269; change NDIRECT with 12 in *; lia).
  unfold new_addr. rewrite <- (bptr_direct V) by lia. pose proof (h_ptr _ _ _ _ _ _ HF i j Hi Hjp) as Hp.
  unfold missing, FSSIZE in *. destruct (sh i j) eqn:E.
  - rewrite xint_small by lia. destruct (Z.eqb_spec (bptr V (F i) j) 0); [lia|]. rewrite Z.add_0_r.
    exists s, F. split; [done|]. split; [done|]. split; [|apply only_refl].
    eapply holds_sh; [exact HF|]. intros k m _ _. unfold with_ptr. case_decide as Hd; [destruct Hd as [-> ->]; done|done].
  - rewrite Hp. change (xint 0 =? 0) with true. cbv iota.
    destruct (newblock_ok fi fb V s HR) as (s' & En & HR'); [unfold FSSIZE; lia|]. erewrite bind_Ret by exact En.
    rewrite xint_small by lia.
    pose proof (holds_alloc n V F fb L sh i j HF Hi Hjp E ltac:(lia) ltac:(lia) (Ht eq_refl)) as HF'.
    unfold ptr_view, ptr_inode in HF'. destruct (Z.leb_spec j NDIRECT); [|lia].
    eexists s', _. split; [|split; [done|split; [exact HF'|]]]; [by rewrite zset_eq|]. apply only_set. by destruct (F i).
Qed.

Definition with_block (sh : Z -> Z -> bool) (i fbn : Z) : Z -> Z -> bool :=
  with_ptr (if fbn <? NDIRECT then sh else with_ptr sh i NDIRECT) i (pidx fbn).
Definition block_cost (sh : Z -> Z -> bool) (i fbn : Z) : Z :=
  (if fbn <? NDIRECT then 0 else missing (sh i NDIRECT)) + missing (sh i (pidx fbn)).

(** The entry of an indirect block. *)
Lemma append_entry n V F fb L sh fi s i fbn :
  rep fi fb V s -> holds n V F fb L sh -> 1 <= i <= n -> NDIRECT <= fbn < MAXFILE -> sh i NDIRECT = true -> fb <= FSSIZE ->
  fb + missing (sh i (pidx fbn)) <= FSSIZE ->
  (sh i (pidx fbn) = false -> forall o, 0 <= o -> pidx (o / BSIZE) = pidx fbn -> zlen (L i) <= o) ->
  let ind := bptr V (F i) NDIRECT in
  let o := 4 * (fbn - NDIRECT) in
  exists s' V' d, (if get32 (V ind) o =? 0 then
         let* b := newblock in
         wsect h ind (put32 (V ind) o (xint b)) ;;
         ret (put32 (V ind) o (xint b))
       else ret (V ind)) s = Ret d s' /\ get32 d o = bptr V' (F i) (pidx fbn) /\
    rep fi (fb + missing (sh i (pidx fbn))) V' s' /\
    holds n V' F (fb + missing (sh i (pidx fbn))) L (with_ptr sh i (pidx fbn)) /\
    (forall b, b < nmeta -> V' b = V b).
Proof.
  intros HR HF Hi Hbn H12 Hfb0 Hfb Ht ind o. pose proof nmeta_pos. pose proof (h_low _ _ _ _ _ _ HF).
  assert (Hj : pidx fbn = fbn + 1) by (unfold pidx; destruct (Z.ltb_spec fbn NDIRECT); lia).
  assert (Hjp : 0 <= pidx fbn < NPTR) by (apply pidx_range; unfold NDIRECT in *; lia).
  pose proof (ptr_set _ _ _ _ _ _ HF i NDIRECT Hi ltac:(done) H12) as Hind. fold ind in Hind.
  assert (Hent : forall W, nthZ 0 (i_addrs (F i)) NDIRECT = ind -> bptr W (F i) (pidx fbn) = get32 (W ind) o).
  { intros W E. rewrite bptr_indirect, E by (lia || congruence). f_equal. lia. }
  assert (Ei : nthZ 0 (i_addrs (F i)) NDIRECT = ind) by (symmetry; by apply bptr_direct).
  rewrite <- (Hent V Ei). pose proof (h_ptr _ _ _ _ _ _ HF i (pidx fbn) Hi Hjp) as Hp.
  unfold missing in *. destruct (sh i (pidx fbn)) eqn:E.
  - destruct (Z.eqb_spec (bptr V (F i) (pidx fbn)) 0); [lia|]. rewrite Z.add_0_r. exists s, V, (V ind).
    split; [done|]. split; [by rewrite Hent|]. split; [done|]. split; [|done].
    eapply holds_sh; [exact HF|]. intros k m _ _. unfold with_ptr. case_decide as Hd; [destruct Hd as [-> ->]; done|done].
  - rewrite Hp. cbn [Z.eqb]. destruct (newblock_ok fi fb V s HR) as (s1 & E1 & HR1); [lia|]. erewrite bind_Ret by exact E1.
    unfold FSSIZE in *. rewrite xint_small by lia.
    destruct (wsect_ok h Hroom fi (fb + 1) V s1 ind (put32 (V ind) o fb) HR1) as (s2 & E2 & HR2); [unfold FSSIZE; lia|].
    erewrite bind_Ret by exact E2.
    pose proof (holds_alloc n V F fb L sh i (pidx fbn) HF Hi Hjp E ltac:(done) ltac:(lia) (Ht eq_refl)) as HF'.
    unfold ptr_view, ptr_inode in HF'. destruct (Z.leb_spec (pidx fbn) NDIRECT); [lia|].
    rewrite Ei in HF'. replace (4 * (pidx fbn - NDIRECT - 1)) with o in HF' by lia.
    exists s2, (vset V ind (put32 (V ind) o fb)), (put32 (V ind) o fb). split; [done|].
    split; [rewrite Hent by done; by rewrite vset_eq|]. split; [done|]. split.
    + eapply holds_ext; [exact HF'|apply (h_len _ _ _ _ _ _ HF')|done|]. intros k Hk.
      destruct (decide (k = i)) as [->|]; [by rewrite zset_eq|by rewrite zset_ne].
    + intros b Hb. apply vset_ne. lia.
Qed.

Lemma append_block_ok n V F fb L sh fi s i fbn :
  rep fi fb V s -> holds n V F fb L sh -> 1 <= i <= n -> 0 <= fbn < MAXFILE -> fb + block_cost sh i fbn <= FSSIZE ->
  (sh i (pidx fbn) = false -> forall o, 0 <= o -> pidx (o / BSIZE) = pidx fbn -> zlen (L i) <= o) ->
  exists s' V' F', append_block h (F i) fbn s = Ret (F' i, bptr V' (F' i) (pidx fbn)) s' /\
    rep fi (fb + block_cost sh i fbn) V' s' /\ holds n V' F' (fb + block_cost sh i fbn) L (with_block sh i fbn) /\
    only i F F' /\ (forall b, b < nmeta -> V' b = V b).
Proof.
  intros HR HF Hi Hbn Hfb Ht. pose proof nmeta_pos. unfold append_block, with_block, block_cost in *.
  assert (Hpr := pidx_range fbn Hbn). assert (Hm : forall b, 0 <= missing b) by (intros []; done).
  destruct (Z.ltb_spec fbn NDIRECT) as [Hd|Hd].
  - assert (Hj : pidx fbn = fbn) by (unfold pidx; destruct (Z.ltb_spec fbn NDIRECT); lia). rewrite !Hj in *.
    destruct (new_addr_ok n V F fb L sh fi s i fbn HR HF Hi) as (s1 & F1 & E1 & HR1 & HF1 & Ho1); [lia..|done|].
    erewrite bind_Ret by exact E1. exists s1, V, F1. rewrite Z.add_0_l.
    pose proof (ptr_set _ _ _ _ _ _ HF1 i fbn Hi Hpr (with_ptr_eq _ _ _)) as Hp. unfold FSSIZE in *.
    rewrite <- (bptr_direct V) by lia. rewrite xint_small by lia. done.
  - destruct (new_addr_ok n V F fb L sh fi s i NDIRECT HR HF Hi) as (s1 & F1 & E1 & HR1 & HF1 & Ho1).
    { done. } { pose proof (Hm (sh i (pidx fbn))). lia. } { intros _ o Ho Hc. by destruct (pidx_not_indirect (o / BSIZE)). }
    erewrite bind_Ret by exact E1. set (fb1 := fb + missing (sh i NDIRECT)) in *.
    assert (Hs : with_ptr sh i NDIRECT i (pidx fbn) = sh i (pidx fbn)) by (apply with_ptr_ne; right; apply pidx_not_indirect).
    pose proof (ptr_set _ _ _ _ _ _ HF1 i NDIRECT Hi ltac:(done) (with_ptr_eq _ _ _)) as Hp.
    pose proof (Hm (sh i (pidx fbn))). rewrite <- (bptr_direct V) by lia. unfold FSSIZE in *. rewrite xint_small by lia. cbv zeta.
    erewrite bind_Ret by (eapply rsect_ok; [exact HR1|unfold FSSIZE; lia]).
    destruct (append_entry n V F1 fb1 L (with_ptr sh i NDIRECT) fi s1 i fbn HR1 HF1 Hi) as (s2 & V2 & d & E2 & Hd2 & HR2 & HF2 & Hlow);
      rewrite ?Hs; unfold FSSIZE; try done; try lia; [apply with_ptr_eq|].
    erewrite bind_Ret by exact E2. rewrite Hs in *. exists s2, V2, F1. rewrite Hd2.
    replace (fb + (missing (sh i NDIRECT) + missing (sh i (pidx fbn)))) with (fb1 + missing (sh i (pidx fbn))) by lia.
    pose proof (ptr_set _ _ _ _ _ _ HF2 i (pidx fbn) Hi Hpr (with_ptr_eq _ _ _)). rewrite xint_small by lia. done.
Qed.

(** Appending [m] bytes that stay within the block needs the pointers of that
    block. *)
Lemma has_ptr_step off m j : 0 <= off -> 0 < m -> off mod BSIZE + m <= BSIZE -> 0 <= j ->
  has_ptr (off + m) j = if decide (j = pidx (off / BSIZE) \/ (NDIRECT <= off / BSIZE /\ j = NDIRECT)) then true else has_ptr off j.
Proof.
  unfold has_ptr, ptr_start, pidx. change NDIRECT with 12. change BSIZE with 1024. intros Ho Hm Hf Hj.
  destruct (Z.ltb_spec (off / 1024) 12), (Z.leb_spec j 12); case_decide;
    repeat match goal with |- context [?a <? ?b] => destruct (Z.ltb_spec a b) end; try done; exfalso; Z.div_mod_to_equations; lia.
Qed.

Lemma nptrs_step off m : 0 <= off -> 0 < m -> off mod BSIZE + m <= BSIZE ->
  nptrs (off + m) = nptrs off + block_cost (fun _ => has_ptr off) 0 (off / BSIZE).
Proof.
  unfold nptrs, block_cost, missing, has_ptr, ptr_start, pidx. change NDIRECT with 12. change BSIZE with 1024. intros Ho Hm Hf.
  destruct (Z.ltb_spec (off / 1024) 12); change (12 <=? 12) with true; cbv iota;
    [destruct (Z.leb_spec (off / 1024) 12)|destruct (Z.leb_spec (off / 1024 + 1) 12)]; try lia;
    repeat match goal with |- context [?a <? ?b] => destruct (Z.ltb_spec a b) end; Z.div_mod_to_equations; lia.
Qed.

Lemma nptrs_mono a b : 0 <= a <= b -> nptrs a <= nptrs b.
Proof.
  unfold nptrs. intros. assert ((a + (BSIZE - 1)) / BSIZE <= (b + (BSIZE - 1)) / BSIZE) by (apply Z.div_le_mono; [done|lia]).
  destruct (Z.ltb_spec (NDIRECT * BSIZE) a), (Z.ltb_spec (NDIRECT * BSIZE) b); lia.
Qed.

(** The pointers are those of the contents. *)
Definition exactly (n : Z) (L : Z -> list Z) (sh : Z -> Z -> bool) : Prop :=
  forall i j, 1 <= i <= n -> 0 <= j < NPTR -> sh i j = has_ptr (zlen (L i)) j.

(** One turn of the loop. *)
Lemma append_turn n V F fb L sh fi s i p m :
  let off := zlen (L i) in
  let m1 := Z.min m (BSIZE - off mod BSIZE) in
  rep fi fb V s -> holds n V F fb L sh -> exactly n L sh -> 1 <= i <= n -> 0 < m <= zlen p -> off + m <= MAXFILE * BSIZE ->
  fb + (nptrs (off + m1) - nptrs off) <= FSSIZE ->
  exists s' V' F' sh', (forall k, iappend_loop h (S k) (F i) off p m s =
      iappend_loop h k (F' i) (off + m1) (drop (Z.to_nat m1) p) (m - m1) s') /\
    let fb' := fb + (nptrs (off + m1) - nptrs off) in
    let L' := zset L i (L i ++ take (Z.to_nat m1) p) in
    rep fi fb' V' s' /\ holds n V' F' fb' L' sh' /\ exactly n L' sh' /\ only i F F' /\ (forall b, b < nmeta -> V' b = V b).
Proof.
  intros off m1 HR HF Hex Hi Hm Hmax Hfb. pose proof (zlen_nonneg (L i)) as Hoff. fold off in Hoff.
  destruct (block_step off m Hoff ltac:(lia)) as (Hm1 & Hfit & Hmod & _). fold m1 in Hm1, Hfit.
  assert (Hbn : 0 <= off / BSIZE < MAXFILE) by (apply block_of; lia).
  assert (Hpr := pidx_range _ Hbn). assert (Hcost : block_cost sh i (off / BSIZE) = nptrs (off + m1) - nptrs off).
  { rewrite nptrs_step by lia. unfold block_cost. rewrite !Hex by done. fold off. destruct (_ <? NDIRECT); lia. }
  rewrite <- Hcost in *.
  destruct (append_block_ok n V F fb L sh fi s i (off / BSIZE) HR HF Hi Hbn Hfb) as (s1 & V1 & F1 & E1 & HR1 & HF1 & Ho1 & Hl1).
  { intros Hs o Ho Hq%pidx_inj. fold off. rewrite Hex in Hs by done. fold off in Hs. revert Hs.
    unfold has_ptr, ptr_start, pidx. clear -Hq Ho Hoff. change BSIZE with 1024 in *. change NDIRECT with 12.
    destruct (Z.ltb_spec (off / 1024) 12); [destruct (Z.leb_spec (off / 1024) 12)|destruct (Z.leb_spec (off / 1024 + 1) 12)]; try lia;
      intros Hs%Z.ltb_ge; Z.div_mod_to_equations; lia. }
  set (fb1 := fb + block_cost sh i (off / BSIZE)) in *. set (b := bptr V1 (F1 i) (pidx (off / BSIZE))) in *.
  assert (Hset : with_block sh i (off / BSIZE) i (pidx (off / BSIZE)) = true) by apply with_ptr_eq.
  pose proof (ptr_set _ _ _ _ _ _ HF1 i _ Hi Hpr Hset) as Hb. fold b in Hb. pose proof nmeta_pos.
  set (bs := take (Z.to_nat m1) p). assert (Hbs : zlen bs = m1) by (unfold bs; rewrite zlen_take; lia).
  destruct (wsect_ok h Hroom fi fb1 V1 s1 b (patch (V1 b) (off mod BSIZE) bs) HR1 ltac:(lia)) as (s2 & E2 & HR2).
  exists s2, (vset V1 b (patch (V1 b) (off mod BSIZE) bs)), F1, (with_block sh i (off / BSIZE)). split; [|cbv zeta; split_and!; try done].
  - intros k. cbn [iappend_loop]. destruct (Z.ltb_spec 0 m); [|lia]. cbv zeta. unfold assert_ at 1.
    destruct (Z.ltb_spec (off / BSIZE) MAXFILE); [|lia]. erewrite bind_Ret by reflexivity. erewrite bind_Ret by exact E1.
    assert (Hn1 : Z.min m (u32 ((off / BSIZE + 1) * BSIZE - off)) = m1).
    { unfold m1. rewrite u32_small; change BSIZE with 1024 in *; [|Z.div_mod_to_equations; lia]. Z.div_mod_to_equations. lia. }
    rewrite Hn1. cbn [fst snd]. erewrite bind_Ret by (eapply rsect_ok; [exact HR1|lia]).
    replace (off - off / BSIZE * BSIZE) with (off mod BSIZE) by (change BSIZE with 1024; Z.div_mod_to_equations; lia).
    fold bs. erewrite bind_Ret by exact E2. rewrite u32_small; [done|]. change (MAXFILE * BSIZE) with 274432 in Hmax. lia.
  - apply holds_append; rewrite ?Hbs; try done; fold off; lia.
  - intros k j Hk Hj. unfold with_block. destruct (decide (k = i)) as [->|Hki].
    + rewrite zset_eq, zlen_app, Hbs. fold off. rewrite has_ptr_step by lia. pose proof (Hex i j Hk Hj) as Hx. fold off in Hx. rewrite <- Hx. unfold with_ptr.
      destruct (Z.ltb_spec (off / BSIZE) NDIRECT); repeat case_decide; done || lia.
    + rewrite zset_ne by done. rewrite with_ptr_ne by tauto. destruct (_ <? _); [by apply Hex|]. rewrite with_ptr_ne by tauto. by apply Hex.
  - intros c Hc. rewrite vset_ne by lia. by apply Hl1.
Qed.

(** Contents [bs] added to inode [i]. *)
Definition appended (i : Z) (bs : list Z) (L L' : Z -> list Z) : Prop :=
  L' i = L i ++ bs /\ forall k, k <> i -> L' k = L k.

Lemma appended_app i bs bs' L L1 L2 : appended i bs L L1 -> appended i bs' L1 L2 -> appended i (bs ++ bs') L L2.
Proof. intros [E1 H1] [E2 H2]. split; [by rewrite E2, E1, app_assoc|]. intros k Hk. by rewrite H2, H1. Qed.

Lemma appended_nil i L : appended i [] L L.
Proof. split; [by rewrite app_nil_r|done]. Qed.

Lemma iappend_loop_ok n fi i fuel : forall V F fb L sh s p m,
  let off := zlen (L i) in
  rep fi fb V s -> holds n V F fb L sh -> exactly n L sh -> 1 <= i <= n -> 0 <= m <= zlen p -> m < Z.of_nat fuel ->
  off + m <= MAXFILE * BSIZE -> fb + (nptrs (off + m) - nptrs off) <= FSSIZE ->
  exists s' V' F' L' sh', iappend_loop h fuel (F i) off p m s = Ret (F' i, off + m) s' /\
    appended i (take (Z.to_nat m) p) L L' /\
    rep fi (fb + (nptrs (off + m) - nptrs off)) V' s' /\ holds n V' F' (fb + (nptrs (off + m) - nptrs off)) L' sh' /\
    exactly n L' sh' /\ only i F F' /\ (forall b, b < nmeta -> V' b = V b).
Proof.
  induction fuel as [|fuel IH]; intros V F fb L sh s p m off HR HF Hex Hi Hm Hfuel Hmax Hfb; [lia|].
  destruct (decide (m = 0)) as [->|Hm0].
  { exists s, V, F, L, sh. rewrite Z.add_0_r, Z.sub_diag, Z.add_0_r. split; [done|]. split; [apply appended_nil|].
    split_and!; try done; apply only_refl. }
  pose proof (zlen_nonneg (L i)) as Hoff. fold off in Hoff.
  destruct (block_step off m Hoff ltac:(lia)) as (Hm1 & _). set (m1 := Z.min m (BSIZE - off mod BSIZE)) in *.
  pose proof (nptrs_mono (off + m1) (off + m) ltac:(lia)).
  destruct (append_turn n V F fb L sh fi s i p m HR HF Hex Hi ltac:(lia) Hmax) as (s1 & V1 & F1 & sh1 & E1 & HR1 & HF1 & Hex1 & Ho1 & Hl1).
  { fold off m1. lia. }
  fold off m1 in E1, HR1, HF1, Hex1. rewrite E1. set (L1 := zset L i (L i ++ take (Z.to_nat m1) p)) in *.
  assert (HL1 : L1 i = L i ++ take (Z.to_nat m1) p) by apply zset_eq.
  assert (Hz1 : zlen (L1 i) = off + m1) by (rewrite HL1, zlen_app, zlen_take; fold off; lia).
  pose proof (IH V1 F1 _ L1 sh1 s1 (drop (Z.to_nat m1) p) (m - m1) HR1 HF1 Hex1 Hi) as IH'. cbv zeta in IH'. rewrite Hz1 in IH'.
  replace (off + m1 + (m - m1)) with (off + m) in IH' by lia.
  replace (fb + (nptrs (off + m1) - nptrs off) + (nptrs (off + m) - nptrs (off + m1))) with (fb + (nptrs (off + m) - nptrs off)) in IH' by lia.
  destruct IH' as (s2 & V2 & F2 & L2 & sh2 & E2 & Ha2 & HR2 & HF2 & Hex2 & Ho2 & Hl2); try lia; [rewrite zlen_drop; lia|].
  exists s2, V2, F2, L2, sh2. split; [exact E2|]. split.
  - replace (take (Z.to_nat m) p) with (take (Z.to_nat m1) p ++ take (Z.to_nat (m - m1)) (drop (Z.to_nat m1) p)).
    + eapply appended_app; [|exact Ha2]. split; [done|]. intros k Hk. by apply zset_ne.
    + rewrite take_take_drop. f_equal. lia.
  - split_and!; try done.
    + by eapply only_trans.
    + intros b Hb. by rewrite Hl2, Hl1.
Qed.
End Iappend.

(** ** Inodes on the image *)

(** Inode [i] as the kernel will read it. *)
Definition ino (V : Z -> list Z) (i : Z) : inode :=
  dip_load (V (IBLOCK i mkfs_sb)) (dip_off i) (set_i_id ROOTDEV i inode0).

(** The inodes there is room for before the bitmap. *)
Definition MAXINUM : Z := ninodeblocks * IPB.

Lemma IBLOCK_range i : 0 <= i < MAXINUM -> IBLOCK i mkfs_sb = i / 16 + 32 /\ 32 <= IBLOCK i mkfs_sb < 45.
Proof.
  intros Hi. change MAXINUM with 208 in Hi. unfold IBLOCK. change (sb_inodestart mkfs_sb) with 32. change IPB with 16.
  rewrite u32_small; Z.div_mod_to_equations; lia.
Qed.

Lemma dip_load_slice d d' o x : slice d o sizeof_dinode = slice d' o sizeof_dinode -> 0 <= o -> o + sizeof_dinode <= zlen d ->
  zlen d' = zlen d -> dip_load d o x = dip_load d' o x.
Proof.
  unfold sizeof_dinode. intros E Ho Hl Hz.
  assert (Hs : forall q k, o <= q -> 0 <= k -> q + k <= o + 64 -> slice d q k = slice d' q k).
  { intros q k Hq Hk Hqk. apply slice_ext; try lia. intros j Hj.
    replace j with (o + (j - o)) by lia. rewrite <- (nthZ_slice d o 64), <- (nthZ_slice d' o 64) by lia. by rewrite E. }
  unfold dip_load, dip_type, dip_major, dip_minor, dip_nlink, dip_size. f_equal;
    try (f_equal; apply get16_slice, Hs; lia); try (apply get32_slice, Hs; lia).
  unfold dip_addrs. apply list_fmap_ext. intros k j [-> Hk]%lookup_seqZ. apply get32_slice, Hs; change NDIRECT with 12 in *; lia.
Qed.

Lemma dip_off_other i k : 0 <= i -> 0 <= k -> i <> k -> i / 16 = k / 16 ->
  dip_off k + sizeof_dinode <= dip_off i \/ dip_off i + sizeof_dinode <= dip_off k.
Proof. unfold dip_off, sizeof_dinode. change IPB with 16. intros. Z.div_mod_to_equations. lia. Qed.

(** Storing inode [i]: the others and the data blocks stay. *)
Lemma ino_store V i X :
  (forall b, zlen (V b) = BSIZE) -> 0 <= i < MAXINUM -> inode_range X ->
  let V' := vset V (IBLOCK i mkfs_sb) (dip_store (V (IBLOCK i mkfs_sb)) (dip_off i) X) in
  disk_fields (ino V' i) = disk_fields X /\
  (forall k, 0 <= k < MAXINUM -> k <> i -> ino V' k = ino V k) /\
  (forall b, zlen (V' b) = BSIZE) /\ (forall b, ~ (32 <= b < 45) -> V' b = V b).
Proof.
  intros HV Hi HX V'. destruct (IBLOCK_range i Hi) as [Ei Ri]. pose proof (dip_off_range i) as [Ho1 Ho2].
  assert (Ha : zlen (i_addrs X) = NDIRECT + 1) by apply HX.
  assert (Hz : forall b, zlen (V' b) = BSIZE).
  { intros b. unfold V', vset. case_decide; [|done]. subst. rewrite zlen_dip_store; rewrite ?HV; done. }
  split; [|split; [|split; [done|]]].
  - unfold ino, V'. rewrite vset_eq. apply dip_load_store; rewrite ?HV; done.
  - intros k Hk Hne. destruct (IBLOCK_range k Hk) as [Ek _]. unfold ino. pose proof (dip_off_range k) as [Hk1 Hk2].
    apply dip_load_slice; rewrite ?HV, ?Hz; try done. unfold V'.
    destruct (decide (IBLOCK k mkfs_sb = IBLOCK i mkfs_sb)) as [E|E]; [|by rewrite vset_ne]. rewrite E, vset_eq.
    apply dip_store_other; rewrite ?HV; try done. apply dip_off_other; lia.
  - intros b Hb. apply vset_ne. lia.
Qed.

(** ** The image under construction *)

Definition sb_block : list Z := patch zeroes 0 (sb_bytes mkfs_sb).

(** Inodes 1 to [n] of types [T] hold [L]; the rest of the metadata is in its
    initial state. *)
Record image (n fb : Z) (V : Z -> list Z) (T : Z -> Z) (L : Z -> list Z) : Prop := {
  im_n : 0 <= n < MAXINUM;
  im_fb : fb <= FSSIZE;
  im_holds : holds n V (ino V) fb L (fun i => has_ptr (zlen (L i)));
  im_type : forall i, 1 <= i <= n -> i_type (ino V i) = T i /\ - 2 ^ 15 <= T i < 2 ^ 15;
  im_meta : forall i, 1 <= i <= n -> i_major (ino V i) = 0 /\ i_minor (ino V i) = 0 /\ i_nlink (ino V i) = 1;
  im_size : forall i, 1 <= i <= n -> i_size (ino V i) = zlen (L i) /\ zlen (L i) <= MAXFILE * BSIZE;
  im_free : forall i, n < i < MAXINUM -> i_type (ino V i) = 0;
  im_super : V 1 = sb_block;
  im_zero : forall b, b = 0 \/ 2 <= b < 32 \/ b = 45 -> V b = zeroes
}.

Lemma holds_range n V F fb L sh i : holds n V F fb L sh -> fb <= FSSIZE -> 1 <= i <= n ->
  forall k, 0 <= k < NDIRECT + 1 -> 0 <= nthZ 0 (i_addrs (F i)) k < 2 ^ 32.
Proof.
  intros HF Hfb Hi k Hk. pose proof nmeta_pos. rewrite <- (bptr_direct V) by lia.
  pose proof (h_ptr _ _ _ _ _ _ HF i k Hi ltac:(change NPTR with 269; change NDIRECT with 12 in *; lia)) as Hp.
  unfold FSSIZE in *. destruct (sh i k); lia.
Qed.

Lemma disk_fields_eq X Y : disk_fields X = disk_fields Y ->
  i_type X = i_type Y /\ i_major X = i_major Y /\ i_minor X = i_minor Y /\ i_nlink X = i_nlink Y /\
  i_size X = i_size Y /\ i_addrs X = i_addrs Y.
Proof. destruct X, Y. cbn. intros [=]. done. Qed.

Section Build.
Variable h : host.
Hypothesis Hroom : FSSIZE <= h_room h.

Lemma rinode_ok fi fb V s i : rep fi fb V s -> 0 <= i < MAXINUM -> rinode i s = Ret (set_i_id 0 0 (ino V i)) s.
Proof.
  intros HR Hi. destruct (IBLOCK_range i Hi) as [_ Hr]. unfold rinode. erewrite bind_Ret by reflexivity.
  rewrite (r_sb _ _ _ _ HR). by erewrite bind_Ret by (eapply rsect_ok; [exact HR|unfold FSSIZE; lia]).
Qed.

Lemma winode_ok fi fb V s i X : rep fi fb V s -> 0 <= i < MAXINUM ->
  exists s', winode h i X s = Ret tt s' /\
    rep fi fb (vset V (IBLOCK i mkfs_sb) (dip_store (V (IBLOCK i mkfs_sb)) (dip_off i) X)) s'.
Proof.
  intros HR Hi. destruct (IBLOCK_range i Hi) as [_ Hr]. unfold winode. erewrite bind_Ret by reflexivity.
  rewrite (r_sb _ _ _ _ HR). erewrite bind_Ret by (eapply rsect_ok; [exact HR|unfold FSSIZE; lia]).
  apply wsect_ok; try done. unfold FSSIZE. lia.
Qed.

(** What an inode keeps when another is stored or its block list grows. *)
Lemma image_store n fb V T L n' fb' V' L' T' i X :
  image n fb V T L -> n <= n' < MAXINUM -> 1 <= i <= n' -> (forall k, n < k <= n' -> k = i) -> fb' <= FSSIZE ->
  (forall b, zlen (V' b) = BSIZE) -> (forall b, b < nmeta -> V' b = V b) -> inode_range X ->
  let W := vset V' (IBLOCK i mkfs_sb) (dip_store (V' (IBLOCK i mkfs_sb)) (dip_off i) X) in
  (forall k, k <> i -> L' k = L k /\ T' k = T k) ->
  i_type X = T' i -> i_major X = 0 -> i_minor X = 0 -> i_nlink X = 1 -> i_size X = zlen (L' i) -> zlen (L' i) <= MAXFILE * BSIZE ->
  holds n' W (ino W) fb' L' (fun i => has_ptr (zlen (L' i))) ->
  image n' fb' W T' L'.
Proof.
  intros [Hn Hfb HF Ht Hm Hs Hfree Hsup Hz] Hn' Hi Hnew Hfb' HV' Hlow HX W HL Ext Exm Exn Exl Exs Hmax HW.
  destruct (ino_store V' i X HV' ltac:(lia) HX) as (E1 & E2 & HWz & HWb). fold W in E1, E2, HWz, HWb.
  apply disk_fields_eq in E1 as (Et & Em & En & El & Es & Ea).
  assert (Hino : forall k, 0 <= k < MAXINUM -> k <> i -> ino W k = ino V k).
  { intros k Hk Hne. rewrite E2 by done. unfold ino. destruct (IBLOCK_range k Hk) as [_ Hr].
    rewrite Hlow; [done|]. change nmeta with 46. lia. }
  assert (Hold : forall k, 1 <= k <= n' -> k <> i -> 1 <= k <= n) by (intros k Hk Hne; destruct (decide (k <= n)); [lia|by destruct Hne; apply Hnew; lia]).
  split; try done.
  - lia.
  - intros k Hk. destruct (decide (k = i)) as [->|Hne]; [rewrite Et; split; [done|]; rewrite <- Ext; apply HX|].
    rewrite Hino by (done || lia). destruct (HL k Hne) as [_ ->]. by apply Ht, Hold.
  - intros k Hk. destruct (decide (k = i)) as [->|Hne]; [by rewrite Em, En, El|]. rewrite Hino by (done || lia). by apply Hm, Hold.
  - intros k Hk. destruct (decide (k = i)) as [->|Hne]; [by rewrite Es|]. rewrite Hino by (done || lia).
    destruct (HL k Hne) as [-> _]. by apply Hs, Hold.
  - intros k Hk. rewrite Hino by lia. apply Hfree. lia.
  - rewrite HWb by lia. by rewrite Hlow.
  - intros b Hb. rewrite HWb by lia. rewrite Hlow by (change nmeta with 46; lia). by apply Hz.
Qed.

Lemma iappend_ok n fb V T L s i p m :
  let off := zlen (L i) in
  let fb' := fb + (nptrs (off + m) - nptrs off) in
  rep (n + 1) fb V s -> image n fb V T L -> 1 <= i <= n -> 0 <= m <= zlen p ->
  off + m <= MAXFILE * BSIZE -> fb' <= FSSIZE ->
  exists s' V' L', iappend h i p m s = Ret tt s' /\ appended i (take (Z.to_nat m) p) L L' /\
    rep (n + 1) fb' V' s' /\ image n fb' V' T L'.
Proof.
  intros off fb' HR HI Hi Hm Hmax Hfb. pose proof (zlen_nonneg (L i)) as Hoff. fold off in Hoff.
  pose proof (im_n _ _ _ _ _ HI) as Hn. destruct (im_size _ _ _ _ _ HI i Hi) as [Hsz _]. unfold iappend.
  erewrite bind_Ret by (eapply rinode_ok; [exact HR|lia]). cbn [i_size set_i_id].
  replace (xint (i_size (ino V i))) with off by (rewrite Hsz; fold off; rewrite xint_small; [done|]; change (MAXFILE * BSIZE) with 274432 in Hmax; lia).
  set (F := fun k => set_i_id 0 0 (ino V k)).
  assert (HF : holds n V F fb L (fun i => has_ptr (zlen (L i)))).
  { eapply holds_ext; [apply (im_holds _ _ _ _ _ HI)|apply (h_len _ _ _ _ _ _ (im_holds _ _ _ _ _ HI))|done|done]. }
  destruct (iappend_loop_ok h Hroom n (n + 1) i (S (Z.to_nat m)) V F fb L _ s p m HR HF ltac:(done) Hi Hm ltac:(lia) Hmax Hfb)
    as (s1 & V1 & F1 & L1 & sh1 & E1 & HL1 & HR1 & HF1 & Hex1 & Ho1 & Hl1).
  erewrite bind_Ret by exact E1. cbn [fst snd]. fold off fb' in HR1, HF1. rewrite xint_small by (change (MAXFILE * BSIZE) with 274432 in Hmax; lia).
  set (X := set_i_size (off + m) (F1 i)). destruct (winode_ok _ _ _ _ i X HR1 ltac:(lia)) as (s2 & E2 & HR2).
  destruct Ho1 as [Hoth Hmeta]. destruct (im_type _ _ _ _ _ HI i Hi) as [Et Htr]. destruct (im_meta _ _ _ _ _ HI i Hi) as (Emj & Emn & Enl).
  assert (HXf : i_type X = T i /\ i_major X = 0 /\ i_minor X = 0 /\ i_nlink X = 1) by (unfold X; rewrite Hmeta; unfold F; cbn [i_type i_major i_minor i_nlink set_i_size set_i_addrs set_i_id]; rewrite Et, Emj, Emn, Enl; done).
  destruct HXf as (Xt & Xmj & Xmn & Xnl).
  assert (HX : inode_range X).
  { split; [by rewrite Xt|]. rewrite Xmj, Xmn, Xnl. split_and!; try done; cbn [X i_size set_i_size i_addrs].
    - lia.
    - change (MAXFILE * BSIZE) with 274432 in Hmax. lia.
    - by apply (h_addrs _ _ _ _ _ _ HF1).
    - intros k Hk. by apply (holds_range _ _ _ _ _ _ i HF1). }
  assert (Hz : zlen (L1 i) = off + m) by (destruct HL1 as [-> _]; rewrite zlen_app, zlen_take; fold off; lia).
  exists s2, (vset V1 (IBLOCK i mkfs_sb) (dip_store (V1 (IBLOCK i mkfs_sb)) (dip_off i) X)), L1.
  split; [exact E2|]. split; [done|]. split; [exact HR2|].
  apply (image_store n fb V T L n fb' V1 L1 T i X); try done; try lia; [apply (h_len _ _ _ _ _ _ HF1)| |].
  - intros k Hk. split; [|done]. by apply HL1.
  - destruct (ino_store V1 i X (h_len _ _ _ _ _ _ HF1) ltac:(lia) HX) as (Ef & Eo & Hwz & Hwb). apply disk_fields_eq in Ef as (_ & _ & _ & _ & _ & Ea).
    eapply holds_sh; [|symmetry; by apply Hex1]. eapply holds_ext; [exact HF1|exact Hwz| |].
    + intros b Hb. apply Hwb. change nmeta with 46 in Hb. lia.
    + intros k Hk. destruct (decide (k = i)) as [->|Hne]; [by rewrite Ea|]. rewrite Eo by (done || lia). rewrite Hoth by done.
      unfold F, ino. cbn [i_addrs set_i_id dip_load]. rewrite Hl1; [done|]. destruct (IBLOCK_range k ltac:(lia)) as [_ ?]. change nmeta with 46. lia.
Qed.

(** A new inode with no blocks. *)
Lemma holds_new n V F fb L sh : holds n V F fb L sh -> 0 <= n -> zlen (i_addrs (F (n + 1))) = NDIRECT + 1 ->
  (forall k, nthZ 0 (i_addrs (F (n + 1))) k = 0) ->
  holds (n + 1) V F fb (zset L (n + 1) []) (fun i j => if decide (i = n + 1) then false else sh i j).
Proof.
  intros [Hl Hlow Hfr Ha Hp Hin Hb] Hn Hz H0.
  assert (Hr : forall i, 1 <= i <= n + 1 -> i <> n + 1 -> 1 <= i <= n) by lia. split; try done.
  - intros i Hi. destruct (decide (i = n + 1)) as [->|]; [done|]. apply Ha. lia.
  - intros i j Hi Hj. case_decide; [subst|by apply Hp; auto]. unfold bptr. rewrite !H0. by destruct (j <=? NDIRECT).
  - intros i j i' j' Hi Hj Hi' Hj'. repeat case_decide; try done. apply Hin; auto.
  - intros i o Hi Ho. case_decide; [done|]. rewrite zset_ne by done. apply Hb; auto.
Qed.

Lemma ialloc_ok n fb V T L s type :
  rep (n + 1) fb V s -> image n fb V T L -> n + 1 < MAXINUM -> 0 <= type < 2 ^ 15 ->
  exists s' V', ialloc h type s = Ret (n + 1) s' /\ rep (n + 1 + 1) fb V' s' /\
    image (n + 1) fb V' (zset T (n + 1) type) (zset L (n + 1) []).
Proof.
  intros HR HI Hn Ht. pose proof (im_n _ _ _ _ _ HI) as Hn0. pose proof (im_holds _ _ _ _ _ HI) as HF. unfold ialloc. erewrite bind_Ret by reflexivity.
  rewrite (r_fi _ _ _ _ HR). erewrite bind_Ret by reflexivity. change MAXINUM with 208 in *. rewrite u32_small by lia.
  assert (HR1 : rep (n + 1 + 1) fb V (set_freeinode (n + 1 + 1) s)) by (destruct HR; by split).
  set (X := set_i_size _ _). destruct (winode_ok _ _ _ _ (n + 1) X HR1 ltac:(change MAXINUM with 208; lia)) as (s2 & E2 & HR2).
  erewrite bind_Ret by exact E2. eexists s2, _. split; [done|]. split; [exact HR2|].
  assert (Xt : i_type X = type) by (cbn; apply xshort_small; lia).
  assert (H0 : forall k, nthZ 0 (i_addrs X) k = 0) by (intros k; cbn [X i_addrs set_i_size set_i_nlink set_i_type inode0]; rewrite nthZ_repeat; by case_decide).
  assert (HX : inode_range X).
  { split; [rewrite Xt; lia|]. split_and!; try done. intros k _. by rewrite H0. }
  destruct (ino_store V (n + 1) X (h_len _ _ _ _ _ _ HF) ltac:(change MAXINUM with 208; lia) HX) as (Ef & Eo & Hwz & Hwb).
  apply disk_fields_eq in Ef as (_ & _ & _ & _ & _ & Ea).
  apply (image_store n fb V T L (n + 1) fb V _ _ (n + 1) X); try done; try (change MAXINUM with 208; lia); rewrite ?zset_eq; try done.
  - apply (im_fb _ _ _ _ _ HI).
  - apply (h_len _ _ _ _ _ _ HF).
  - intros k Hk. by rewrite !zset_ne.
  - eapply holds_sh; [apply holds_new|]; try rewrite Ea; try done; [|lia|].
    + eapply holds_ext; [exact HF|exact Hwz| |].
      * intros b Hb. apply Hwb. change nmeta with 46 in Hb. lia.
      * intros k Hk. rewrite Eo by (change MAXINUM with 208; lia). done.
    + intros k j Hk Hj. cbv beta. case_decide as Ek; [rewrite Ek, zset_eq|by rewrite zset_ne].
      unfold has_ptr, ptr_start. apply Z.ltb_ge. change (zlen []) with 0. change BSIZE with 1024. change NDIRECT with 12 in *. destruct (Z.leb_spec j 12); lia.
Qed.

(** ** Copying files *)

Lemma copy_file_ok n T i fuel : forall V fb L s c,
  let off := zlen (L i) in
  let fb' := fb + (nptrs (off + zlen c) - nptrs off) in
  rep (n + 1) fb V s -> image n fb V T L -> 1 <= i <= n -> zlen c < Z.of_nat fuel ->
  off + zlen c <= MAXFILE * BSIZE -> fb' <= FSSIZE ->
  exists s' V' L', copy_file h fuel i c s = Ret tt s' /\ appended i c L L' /\ rep (n + 1) fb' V' s' /\ image n fb' V' T L'.
Proof.
  induction fuel as [|fuel IH]; intros V fb L s c off fb' HR HI Hi Hfuel Hmax Hfb; [pose proof (zlen_nonneg c); lia|].
  cbn [copy_file]. unfold hread at 1. rewrite bind_assoc. erewrite bind_Ret by reflexivity. rewrite bind_assoc. erewrite bind_Ret by reflexivity.
  erewrite bind_Ret by reflexivity. cbn [fst snd]. set (s1 := set_reads _ s). assert (HR1 : rep (n + 1) fb V s1) by (destruct HR; by split).
  set (m := Z.to_nat _). assert (Hm : 0 < Z.of_nat m) by (unfold m, BSIZE; lia). clearbody m s1. clear HR.
  destruct c as [|x c].
  { rewrite take_nil. cbn [zlen length]. exists s1, V, L. split; [done|]. split; [apply appended_nil|].
    unfold fb'. change (zlen []) with 0. rewrite Z.add_0_r, Z.sub_diag, Z.add_0_r. done. }
  set (d := take m (x :: c)). set (r := drop m (x :: c)). assert (Ec : x :: c = d ++ r) by (symmetry; apply take_drop).
  assert (Hd : 0 < zlen d) by (unfold d; destruct m; [lia|]; unfold zlen; cbn; lia).
  destruct (Z.ltb_spec 0 (zlen d)); [|lia]. assert (Hlen : zlen (x :: c) = zlen d + zlen r) by (by rewrite Ec, zlen_app).
  unfold fb' in *. clear fb'. rewrite Hlen in *. pose proof (zlen_nonneg r). pose proof (zlen_nonneg (L i)) as Hoff. fold off in Hoff.
  pose proof (nptrs_mono (off + zlen d) (off + (zlen d + zlen r)) ltac:(lia)).
  destruct (iappend_ok n fb V T L s1 i d (zlen d) HR1 HI Hi ltac:(lia)) as (s2 & V2 & L2 & E2 & HL2 & HR2 & HI2); [fold off; lia..|].
  erewrite bind_Ret by exact E2. fold off in HR2, HI2. replace (Z.to_nat (zlen d)) with (length d) in HL2 by (unfold zlen; lia). rewrite firstn_all in HL2.
  assert (Hz : zlen (L2 i) = off + zlen d) by (destruct HL2 as [-> _]; by rewrite zlen_app).
  pose proof (IH V2 _ L2 s2 r HR2 HI2 Hi) as IH'. cbv zeta in IH'. rewrite Hz in IH'.
  replace (off + zlen d + zlen r) with (off + (zlen d + zlen r)) in IH' by lia.
  replace (fb + (nptrs (off + zlen d) - nptrs off) + (nptrs (off + (zlen d + zlen r)) - nptrs (off + zlen d))) with
    (fb + (nptrs (off + (zlen d + zlen r)) - nptrs off)) in IH' by lia.
  destruct IH' as (s3 & V3 & L3 & E3 & HL3 & HR3 & HI3); [lia..|]. exists s3, V3, L3. split; [done|]. split; [|done].
  rewrite Ec. by eapply appended_app.
Qed.
End Build.
