(* ===== verification/MkfsImage.v ===== *)
(** * The image mkfs builds: what is on it

    main() from the empty image to the last block, and the image it leaves as
    the kernel sees it. *)

From Stdlib Require Import ZArith Lia.
From stdpp Require Import base numbers list list_numbers gmap strings sorting.
From S2P Require Import Prelude Cstring Riscv Kalloc Vm Uvm Bytes Sleeplock Bio Bcache Log Recovery Store Fs FsBlocks FsInode FsFile FsWrite FsDir Kernel Console Mkfs MkfsProof.
Import Mkfs.

(** A file of the image: its name and its contents. *)
Definition file_of (h : host) (arg : list Z) : list Z * list Z :=
  (short_name (base_name arg), default [] (h_files h !! arg)).

(** The entries of the root directory, and its contents. *)
Definition entry_of (k : Z) (f : list Z * list Z) : list Z := mk_dirent f.1 (2 + k).
Fixpoint dir_entries (k : Z) (fs : list (list Z * list Z)) : list Z :=
  match fs with [] => [] | f :: fs' => entry_of k f ++ dir_entries (k + 1) fs' end.
Definition dots : list Z := mk_dirent (lit ".") 1 ++ mk_dirent (lit "..") 1.
Definition root_bytes (fs : list (list Z * list Z)) : list Z := dots ++ dir_entries 0 fs.

(** The blocks the contents take. *)
Definition data_blocks (fs : list (list Z * list Z)) : Z := foldr (fun f n => nptrs (zlen f.2) + n) 0 fs.
Definition blocks_needed (fs : list (list Z * list Z)) : Z := nptrs (zlen (root_bytes fs)) + data_blocks fs.

(** A name mkfs accepts, of a file that is not too large. *)
Record acceptable (h : host) (arg : list Z) : Prop := {
  ac_name : existsb (Z.eqb 47) (base_name arg) = false;
  ac_open : is_Some (h_files h !! arg);
  ac_size : zlen (file_of h arg).2 <= MAXFILE * BSIZE
}.

Lemma dir_entries_app fs fs' k : dir_entries k (fs ++ fs') = dir_entries k fs ++ dir_entries (k + zlen fs) fs'.
Proof.
  revert k. induction fs as [|f fs IH]; intros k; cbn [dir_entries app]; [by rewrite Z.add_0_r|].
  rewrite IH, <- app_assoc. do 3 f_equal. unfold zlen. cbn [length]. lia.
Qed.

Lemma zlen_dir_entries fs k : zlen (dir_entries k fs) = sizeof_dirent * zlen fs.
Proof.
  revert k. induction fs as [|f fs IH]; intros k; [done|]. cbn [dir_entries].
  rewrite zlen_app, IH. unfold entry_of. rewrite zlen_dirent. unfold zlen. cbn [length]. unfold sizeof_dirent. lia.
Qed.

Lemma zlen_root fs : zlen (root_bytes fs) = sizeof_dirent * (2 + zlen fs).
Proof. unfold root_bytes, dots. rewrite !zlen_app, !zlen_dirent, zlen_dir_entries. lia. Qed.

Lemma root_bytes_snoc fs f : root_bytes (fs ++ [f]) = root_bytes fs ++ entry_of (zlen fs) f.
Proof. unfold root_bytes. rewrite dir_entries_app, app_assoc. cbn. by rewrite app_nil_r, Z.add_0_l. Qed.

Lemma data_blocks_app fs fs' : data_blocks (fs ++ fs') = data_blocks fs + data_blocks fs'.
Proof. unfold data_blocks. induction fs as [|f fs IH]; [done|]. cbn [app foldr]. rewrite IH. lia. Qed.

Lemma nptrs_nonneg n : 0 <= n -> 0 <= nptrs n.
Proof. intros. change 0 with (nptrs 0). apply nptrs_mono. lia. Qed.

Lemma data_blocks_nonneg fs : 0 <= data_blocks fs.
Proof. induction fs as [|f fs IH]; [done|]. unfold data_blocks in *. cbn [foldr]. pose proof (nptrs_nonneg (zlen f.2) (zlen_nonneg _)). lia. Qed.

Section Image.
Variable h : host.
Hypothesis Hroom : FSSIZE <= h_room h.

(** The image with the files [fs] on it. *)
Record built (fs : list (list Z * list Z)) (V : Z -> list Z) (T : Z -> Z) (L : Z -> list Z) : Prop := {
  bu_image : image (1 + zlen fs) (nmeta + blocks_needed fs) V T L;
  bu_root : L 1 = root_bytes fs /\ T 1 = T_DIR;
  bu_files : forall k f, fs !! k = Some f -> L (2 + Z.of_nat k) = f.2 /\ T (2 + Z.of_nat k) = T_FILE
}.

Lemma add_file_ok fs V T L s arg :
  rep (2 + zlen fs) (nmeta + blocks_needed fs) V s -> built fs V T L -> acceptable h arg ->
  let fs' := fs ++ [file_of h arg] in
  2 + zlen fs < MAXINUM -> nmeta + blocks_needed fs' <= FSSIZE ->
  exists s' V' T' L', add_file h 1 arg s = Ret tt s' /\ rep (2 + zlen fs') (nmeta + blocks_needed fs') V' s' /\ built fs' V' T' L'.
Proof.
  intros HR [HI [HL1 HT1] Hfs] [Hname [c Hc] Hsz] fs' Hn Hfb. pose proof (zlen_nonneg fs) as Hlen. unfold add_file.
  rewrite Hname. cbn [negb assert_]. erewrite bind_Ret by reflexivity. rewrite Hc.
  assert (Ef : (file_of h arg).2 = c) by (cbn; by rewrite Hc). rewrite Ef in Hsz.
  replace (2 + zlen fs) with (1 + zlen fs + 1) in HR by lia.
  destruct (ialloc_ok h Hroom _ _ _ _ _ s T_FILE HR HI ltac:(lia) ltac:(done)) as (s1 & V1 & E1 & HR1 & HI1).
  erewrite bind_Ret by exact E1. change MAXINUM with 208 in Hn. rewrite xshort_small by lia.
  replace (1 + zlen fs + 1) with (2 + zlen fs) in * by lia. set (n := 2 + zlen fs) in *.
  set (T1 := zset T n T_FILE) in *. set (L1 := zset L n []) in *. set (e := mk_dirent _ n).
  assert (Hez : zlen e = sizeof_dirent) by apply zlen_dirent.
  assert (He : e = entry_of (zlen fs) (file_of h arg)) by done.
  assert (HL1r : L1 1 = root_bytes fs) by (unfold L1; rewrite zset_ne by lia; done).
  assert (Hroot' : zlen (root_bytes fs) + sizeof_dirent = zlen (root_bytes fs')) by (unfold fs'; rewrite root_bytes_snoc, zlen_app, <- He, Hez; done).
  pose proof (nptrs_nonneg (zlen c) (zlen_nonneg _)) as Hnc.
  assert (Hcost : blocks_needed fs' = nptrs (zlen (root_bytes fs')) + data_blocks fs + nptrs (zlen c)).
  { unfold blocks_needed, fs'. rewrite data_blocks_app. cbn [data_blocks foldr]. rewrite Ef. lia. }
  destruct (iappend_ok h Hroom n _ V1 T1 L1 s1 1 e sizeof_dirent HR1 HI1) as (s2 & V2 & L2 & E2 & [HL2 HL2o] & HR2 & HI2); rewrite ?HL1r.
  { lia. } { by rewrite Hez. }
  { rewrite zlen_root. unfold sizeof_dirent. change (MAXFILE * BSIZE) with 274432. lia. }
  { rewrite Hroot'. unfold blocks_needed in *. lia. }
  erewrite bind_Ret by exact E2. rewrite HL1r, Hroot' in *.
  assert (HL2n : L2 n = []) by (rewrite HL2o by lia; apply zset_eq).
  destruct (copy_file_ok h Hroom n T1 n (S (length c)) V2 _ L2 s2 c HR2 HI2) as (s3 & V3 & L3 & E3 & [HL3 HL3o] & HR3 & HI3); rewrite ?HL2n.
  { lia. } { unfold zlen. lia. } { by rewrite Z.add_0_l. } { change (zlen []) with 0. change (nptrs 0) with 0. rewrite Z.add_0_l. unfold blocks_needed in *. lia. }
  rewrite HL2n in HL3, HR3, HI3. change (zlen []) with 0 in *. change (nptrs 0) with 0 in *. rewrite !Z.add_0_l in *. cbn [app] in HL3.
  replace (_ + (nptrs (zlen c) - 0)) with (nmeta + blocks_needed fs') in HR3, HI3 by (unfold blocks_needed in *; lia).
  assert (Hz' : zlen fs' = zlen fs + 1) by (unfold fs'; by rewrite zlen_app).
  exists s3, V3, T1, L3. split; [exact E3|]. split; [by replace (2 + zlen fs') with (n + 1) by lia|]. split.
  - by replace (1 + zlen fs') with n by lia.
  - rewrite HL3o by lia. rewrite HL2, take_ge by (unfold zlen, sizeof_dirent in *; lia).
    split; [unfold fs'; by rewrite root_bytes_snoc, <- He|unfold T1; by rewrite zset_ne by lia].
  - intros k f Hk. unfold fs' in Hk. apply lookup_app_Some in Hk as [Hk|[Hk1 Hk2]].
    + pose proof (lookup_lt_Some _ _ _ Hk). unfold n, zlen in *. rewrite HL3o, HL2o by lia. unfold T1, L1. rewrite !zset_ne by lia. by apply Hfs.
    + apply list_lookup_singleton_Some in Hk2 as [Hk2 <-]. replace (2 + Z.of_nat k) with n by (unfold n, zlen; lia).
      rewrite HL3, Ef. split; [done|]. apply zset_eq.
Qed.

Lemma add_files_ok args : forall fs V T L s,
  rep (2 + zlen fs) (nmeta + blocks_needed fs) V s -> built fs V T L -> Forall (acceptable h) args ->
  let fs' := fs ++ (file_of h <$> args) in
  1 + zlen fs' < MAXINUM -> nmeta + blocks_needed fs' <= FSSIZE ->
  exists s' V' T' L', add_files h 1 args s = Ret tt s' /\ rep (2 + zlen fs') (nmeta + blocks_needed fs') V' s' /\ built fs' V' T' L'.
Proof.
  induction args as [|a args IH]; intros fs V T L s HR HB Hok fs' Hn Hfb.
  - unfold fs'. cbn [fmap list_fmap]. rewrite app_nil_r. by exists s, V, T, L.
  - apply Forall_cons in Hok as [Ha Hok]. cbn [add_files].
    assert (Efs : fs' = (fs ++ [file_of h a]) ++ (file_of h <$> args)) by (unfold fs'; by rewrite <- app_assoc).
    pose proof (zlen_nonneg (file_of h <$> args)). pose proof (data_blocks_nonneg (file_of h <$> args)).
    assert (Hz : zlen fs' = zlen fs + 1 + zlen (file_of h <$> args)) by (rewrite Efs, !zlen_app; change (zlen [file_of h a]) with 1; lia).
    destruct (add_file_ok fs V T L s a HR HB Ha) as (s1 & V1 & T1 & L1 & E1 & HR1 & HB1); [lia| |].
    { revert Hfb. rewrite Efs. set (g := fs ++ [file_of h a]). unfold blocks_needed. rewrite data_blocks_app, !zlen_root, zlen_app.
      pose proof (zlen_nonneg g). set (q := zlen (file_of h <$> args)) in *. unfold sizeof_dirent.
      pose proof (nptrs_mono (16 * (2 + zlen g)) (16 * (2 + (zlen g + q))) ltac:(lia)). lia. }
    erewrite bind_Ret by exact E1. rewrite Efs in *. by apply (IH _ V1 T1 L1).
Qed.

(** ** The empty image *)

Lemma zero_image_ok n : forall i s, 0 <= i -> i + Z.of_nat n <= FSSIZE -> img_len s = i -> (forall b, view s b = zeroes) ->
  exists s', zero_image h n i s = Ret tt s' /\ img_len s' = i + Z.of_nat n /\ (forall b, view s' b = zeroes) /\
    m_sb s' = m_sb s /\ freeinode s' = freeinode s /\ freeblock s' = freeblock s.
Proof.
  induction n as [|n IH]; intros i s Hi Hn Hl Hz; [exists s; by rewrite Z.add_0_r|]. cbn [zero_image].
  unfold wsect at 1. rewrite seek_sector by lia. destruct (Z.leb_spec (h_room h) i); [lia|]. erewrite bind_Ret by reflexivity.
  destruct (IH (i + 1) (set_img (<[i := zeroes]> (img s)) (Z.max (img_len s) (i + 1)) s)) as (s' & E & Hl' & Hz' & Hr); try lia.
  - cbn [img_len set_img]. lia.
  - intros b. unfold view. cbn [img set_img]. destruct (decide (b = i)) as [->|]; [by rewrite lookup_insert_eq|].
    rewrite lookup_insert_ne by done. apply Hz.
  - exists s'. split; [exact E|]. split; [lia|]. done.
Qed.

Definition empty_view : Z -> list Z := vset (fun _ => zeroes) 1 sb_block.

Lemma empty_image : image 0 nmeta empty_view (fun _ => 0) (fun _ => []).
Proof.
  assert (Hz : forall b, zlen (empty_view b) = BSIZE) by (intros b; unfold empty_view, vset; by case_decide).
  assert (H0 : forall b, b <> 1 -> empty_view b = zeroes) by (intros b Hb; by apply vset_ne).
  split; try done; try (intros; lia).
  - split; try done; try (intros; lia). intros b Hb. apply H0. change nmeta with 46 in Hb. lia.
  - intros i Hi. destruct (IBLOCK_range i ltac:(lia)) as [_ Hr]. unfold ino. rewrite H0 by lia.
    cbn [i_type dip_load]. unfold dip_type, zeroes. pose proof (dip_off_range i) as [? ?]. rewrite get16_zero; [done|lia|]. change (Z.of_nat (Z.to_nat BSIZE)) with BSIZE. unfold sizeof_dinode in *. lia.
  - intros b Hb. apply H0. lia.
Qed.

(** main() up to the two entries of the root directory. *)
Lemma main_root s : rep 1 nmeta empty_view s ->
  exists s' V' T' L', (let* rootino := ialloc h T_DIR in
    assert_ (rootino =? ROOTINO) ;;
    iappend h rootino (mk_dirent (lit ".") (xshort rootino)) sizeof_dirent ;;
    iappend h rootino (mk_dirent (lit "..") (xshort rootino)) sizeof_dirent ;; ret rootino) s = Ret 1 s' /\
    rep 2 (nmeta + blocks_needed []) V' s' /\ built [] V' T' L'.
Proof.
  intros HR. destruct (ialloc_ok h Hroom 0 nmeta _ _ _ s T_DIR HR empty_image ltac:(done) ltac:(done)) as (s1 & V1 & E1 & HR1 & HI1).
  erewrite bind_Ret by exact E1. change (xshort (0 + 1)) with 1. change (0 + 1) with 1 in *. erewrite bind_Ret by reflexivity.
  set (L1 := zset _ 1 []) in *. assert (HL1 : L1 1 = []) by apply zset_eq.
  destruct (iappend_ok h Hroom 1 nmeta V1 _ L1 s1 1 (mk_dirent (lit ".") 1) sizeof_dirent HR1 HI1) as (s2 & V2 & L2 & E2 & [HL2 _] & HR2 & HI2);
    rewrite ?HL1, ?zlen_dirent; try done.
  erewrite bind_Ret by exact E2. rewrite HL1 in *. change (nmeta + (nptrs (zlen [] + sizeof_dirent) - nptrs (zlen []))) with (nmeta + 1) in *.
  rewrite take_ge in HL2 by done. cbn [app] in HL2.
  destruct (iappend_ok h Hroom 1 (nmeta + 1) V2 _ L2 s2 1 (mk_dirent (lit "..") 1) sizeof_dirent HR2 HI2) as (s3 & V3 & L3 & E3 & [HL3 _] & HR3 & HI3);
    rewrite ?HL2, ?zlen_dirent; try done.
  erewrite bind_Ret by exact E3. rewrite HL2, zlen_dirent in *. rewrite take_ge in HL3 by done.
  eexists s3, V3, _, L3. split; [done|]. split; [exact HR3|]. split; [exact HI3| |done].
  split; [|by rewrite zset_eq]. by rewrite HL3.
Qed.
End Image.

(** ** The finished image *)

(** What inode [i] holds. *)
Definition contents (fs : list (list Z * list Z)) (i : Z) : list Z :=
  if decide (i = 1) then root_bytes fs else (default ([], []) (fs !! Z.to_nat (i - 2))).2.

Record mkfs_image (fs : list (list Z * list Z)) (V : Z -> list Z) : Prop := {
  mi_len : forall b, zlen (V b) = BSIZE;
  mi_super : sb_decode (V 1) = mkfs_sb;
  mi_log : forall b, 2 <= b < 2 + LOGSIZE -> V b = zeroes;
  mi_root : i_type (ino V ROOTINO) = T_DIR /\ i_nlink (ino V ROOTINO) = 1 /\
    i_size (ino V ROOTINO) = (zlen (root_bytes fs) / BSIZE + 1) * BSIZE;
  mi_files : forall k f, fs !! k = Some f -> let X := ino V (2 + Z.of_nat k) in
    i_type X = T_FILE /\ i_nlink X = 1 /\ i_size X = zlen f.2;
  mi_free : forall i, 1 + zlen fs < i < NINODES -> i_type (ino V i) = 0;
  mi_blocks : forall i j, 1 <= i <= 1 + zlen fs -> 0 <= j < NPTR ->
    if has_ptr (zlen (contents fs i)) j then nmeta <= bptr V (ino V i) j < nmeta + blocks_needed fs else bptr V (ino V i) j = 0;
  mi_apart : forall i j i' j', 1 <= i <= 1 + zlen fs -> 0 <= j < NPTR -> 1 <= i' <= 1 + zlen fs -> 0 <= j' < NPTR ->
    bptr V (ino V i) j <> 0 -> bptr V (ino V i) j = bptr V (ino V i') j' -> i = i' /\ j = j';
  mi_bytes : forall i, 1 <= i <= 1 + zlen fs -> fbytes V (ino V i) 0 (zlen (contents fs i)) = contents fs i;
  mi_tail : forall i o, 1 <= i <= 1 + zlen fs -> zlen (contents fs i) <= o < MAXFILE * BSIZE ->
    bptr V (ino V i) (pidx (o / BSIZE)) <> 0 -> fbyte V (ino V i) o = 0;
  mi_used : forall b, 0 <= b < FSSIZE -> used mkfs_sb V b = (b <? nmeta + blocks_needed fs)
}.

(** The bitmap of balloc(). *)
Lemma balloc_loop_bits n : forall i buf, zlen buf = BSIZE -> 0 <= i -> i + Z.of_nat n <= BPB ->
  zlen (balloc_loop n i buf) = BSIZE /\
  forall k, 0 <= k < BPB -> bit_set (balloc_loop n i buf) k = ((i <=? k) && (k <? i + Z.of_nat n)) || bit_set buf k.
Proof.
  induction n as [|n IH]; intros i buf Hz Hi Hn.
  - split; [done|]. intros k Hk. destruct (Z.leb_spec i k), (Z.ltb_spec k (i + Z.of_nat 0)); try done; lia.
  - cbn [balloc_loop]. fold (set_bit buf i). destruct (IH (i + 1) (set_bit buf i)) as [Hz' Hb]; [by rewrite zlen_set_bit|lia|lia|].
    split; [done|]. intros k Hk. rewrite Hb, bit_set_bit by (done || lia). rewrite orb_assoc. f_equal.
    destruct (Z.leb_spec (i + 1) k), (Z.ltb_spec k (i + 1 + Z.of_nat n)), (Z.eqb_spec k i), (Z.leb_spec i k), (Z.ltb_spec k (i + Z.of_nat (S n))); try done; lia.
Qed.

Lemma bit_set_zeroes k : bit_set zeroes k = false.
Proof. unfold bit_set, zeroes. rewrite nthZ_repeat. case_decide; apply Z.bits_0. Qed.

Lemma BBLOCK_mkfs b : 0 <= b < FSSIZE -> BBLOCK b mkfs_sb = 45 /\ b mod BPB = b.
Proof.
  unfold FSSIZE, BBLOCK. change (sb_bmapstart mkfs_sb) with 45. change BPB with 8192. intros.
  rewrite u32_small; Z.div_mod_to_equations; lia.
Qed.

(** The fields of the inodes as main() leaves them. *)
Lemma built_meta fs V T L k f : built fs V T L -> fs !! k = Some f -> let X := ino V (2 + Z.of_nat k) in
  i_type X = T_FILE /\ i_nlink X = 1 /\ i_size X = zlen f.2.
Proof.
  intros [HI _ Hfs] Hk X. pose proof (lookup_lt_Some _ _ _ Hk). destruct (Hfs k f Hk) as [EL ET].
  assert (Hr : 1 <= 2 + Z.of_nat k <= 1 + zlen fs) by (unfold zlen; lia).
  destruct (im_type _ _ _ _ _ HI _ Hr) as [Et _]. destruct (im_meta _ _ _ _ _ HI _ Hr) as (_ & _ & En).
  destruct (im_size _ _ _ _ _ HI _ Hr) as [Es _]. unfold X. by rewrite Et, ET, En, Es, EL.
Qed.

Lemma built_contents fs V T L i : built fs V T L -> 1 <= i <= 1 + zlen fs -> L i = contents fs i.
Proof.
  intros [_ [H1 _] Hfs] Hi. unfold contents. case_decide; [by subst|].
  destruct (lookup_lt_is_Some_2 fs (Z.to_nat (i - 2))) as [f Hf]; [unfold zlen in *; lia|]. rewrite Hf.
  destruct (Hfs _ _ Hf) as [E _]. by replace (2 + Z.of_nat (Z.to_nat (i - 2))) with i in E by lia.
Qed.

Lemma image_range n fb V T L i m : image n fb V T L -> 1 <= i <= n -> 0 <= m < 2 ^ 32 -> inode_range (set_i_size m (set_i_id 0 0 (ino V i))).
Proof.
  intros HI Hi Hm. destruct (im_type _ _ _ _ _ HI i Hi) as [Et Ht]. destruct (im_meta _ _ _ _ _ HI i Hi) as (Emj & Emn & Enl).
  unfold inode_range. cbn [i_type i_major i_minor i_nlink i_size i_addrs set_i_size set_i_id]. rewrite Et, Emj, Emn, Enl.
  split_and!; try done; try lia.
  intros k Hk. apply (holds_range _ _ _ _ _ _ i (im_holds _ _ _ _ _ HI)); try done. apply (im_fb _ _ _ _ _ HI).
Qed.

(** The blocks and the contents, from the invariant on the final view. *)
Lemma mkfs_contents fs V L :
  holds (1 + zlen fs) V (ino V) (nmeta + blocks_needed fs) L (fun i => has_ptr (zlen (L i))) ->
  (forall i, 1 <= i <= 1 + zlen fs -> L i = contents fs i /\ zlen (L i) <= MAXFILE * BSIZE) ->
  (forall i j, 1 <= i <= 1 + zlen fs -> 0 <= j < NPTR ->
    if has_ptr (zlen (contents fs i)) j then nmeta <= bptr V (ino V i) j < nmeta + blocks_needed fs else bptr V (ino V i) j = 0) /\
  (forall i j i' j', 1 <= i <= 1 + zlen fs -> 0 <= j < NPTR -> 1 <= i' <= 1 + zlen fs -> 0 <= j' < NPTR ->
    bptr V (ino V i) j <> 0 -> bptr V (ino V i) j = bptr V (ino V i') j' -> i = i' /\ j = j') /\
  (forall i, 1 <= i <= 1 + zlen fs -> fbytes V (ino V i) 0 (zlen (contents fs i)) = contents fs i) /\
  (forall i o, 1 <= i <= 1 + zlen fs -> zlen (contents fs i) <= o < MAXFILE * BSIZE ->
    bptr V (ino V i) (pidx (o / BSIZE)) <> 0 -> fbyte V (ino V i) o = 0).
Proof.
  intros HF HL. split_and!.
  - intros i j Hi Hj. destruct (HL i Hi) as [<- _]. by apply (h_ptr _ _ _ _ _ _ HF).
  - intros i j i' j' Hi Hj Hi' Hj' Hne Heq.
    apply (h_inj _ _ _ _ _ _ HF); try done; apply (ptr_nonzero _ _ _ _ _ _ HF); try done. by rewrite <- Heq.
  - intros i Hi. destruct (HL i Hi) as [<- Hmax]. apply (nthZ_ext 0).
    + apply Nat2Z.inj. change (zlen (fbytes V (ino V i) 0 (zlen (L i))) = zlen (L i)). apply zlen_fbytes, zlen_nonneg.
    + intros o Ho. rewrite zlen_fbytes in Ho by apply zlen_nonneg. rewrite nthZ_fbytes, Z.add_0_l by lia.
      apply (h_bytes _ _ _ _ _ _ HF); [done|lia|]. unfold has_ptr, ptr_start, pidx. apply Z.ltb_lt.
      change NDIRECT with 12. change BSIZE with 1024.
      destruct (Z.ltb_spec (o / 1024) 12); [destruct (Z.leb_spec (o / 1024) 12)|destruct (Z.leb_spec (o / 1024 + 1) 12)]; Z.div_mod_to_equations; lia.
  - intros i o Hi Ho Hne. destruct (HL i Hi) as [E Hmax]. rewrite <- E in Ho. pose proof (zlen_nonneg (L i)).
    assert (Ho' : 0 <= o < MAXFILE * BSIZE) by lia.
    rewrite (h_bytes _ _ _ _ _ _ HF i o Hi Ho'); [apply nthZ_overflow; lia|].
    apply (ptr_nonzero _ _ _ _ _ _ HF); try done. by apply pidx_range, block_of.
Qed.

Section Main.
Variable h : host.
Hypothesis Hroom : FSSIZE <= h_room h.

Lemma fix_root_ok fs V T L s fi :
  rep fi (nmeta + blocks_needed fs) V s -> built fs V T L ->
  let X := set_i_size ((zlen (root_bytes fs) / BSIZE + 1) * BSIZE) (set_i_id 0 0 (ino V 1)) in
  exists s', fix_root h 1 s = Ret tt s' /\ inode_range X /\
    rep fi (nmeta + blocks_needed fs) (vset V (IBLOCK 1 mkfs_sb) (dip_store (V (IBLOCK 1 mkfs_sb)) (dip_off 1) X)) s'.
Proof.
  intros HR [HI [HL _] _] X. pose proof (im_n _ _ _ _ _ HI). pose proof (zlen_nonneg fs).
  destruct (im_size _ _ _ _ _ HI 1 ltac:(lia)) as [Es Hmax]. rewrite HL in Es, Hmax.
  assert (Hr : 0 <= zlen (root_bytes fs) < 2 ^ 31) by (pose proof (zlen_nonneg (root_bytes fs)); change (MAXFILE * BSIZE) with 274432 in Hmax; lia).
  assert (Hsz : 0 <= (zlen (root_bytes fs) / BSIZE + 1) * BSIZE < 2 ^ 32).
  { change BSIZE with 1024. change (2 ^ 31) with 2147483648 in Hr. change (2 ^ 32) with 4294967296. Z.div_mod_to_equations. lia. }
  unfold fix_root. erewrite bind_Ret by (eapply rinode_ok; [exact HR|done]). cbn [i_size set_i_id]. rewrite Es.
  rewrite (xint_small (zlen _)) by lia. rewrite u32_small, xint_small by done.
  destruct (winode_ok h Hroom _ _ _ _ 1 X HR ltac:(done)) as (s' & E & HR'). exists s'. split; [done|]. split; [|done].
  apply (image_range _ _ _ _ _ 1 _ HI); [lia|done].
Qed.

Lemma finish_ok fs V T L s fi :
  rep fi (nmeta + blocks_needed fs) V s -> built fs V T L ->
  exists s', (fix_root h 1 ;; let* used := gets freeblock in balloc h used) s = Ret tt s' /\ mkfs_image fs (view s').
Proof.
  intros HR HB. pose proof (bu_image _ _ _ _ HB) as HI. pose proof (im_n _ _ _ _ _ HI) as Hn. pose proof (im_fb _ _ _ _ _ HI) as Hfb.
  pose proof (zlen_nonneg fs) as Hlen. pose proof (im_holds _ _ _ _ _ HI) as HF. pose proof (h_low _ _ _ _ _ _ HF) as Hlow.
  destruct (fix_root_ok fs V T L s fi HR HB) as (s1 & E1 & HX & HR1). erewrite bind_Ret by exact E1. set (X := set_i_size _ _) in *.
  set (W := vset V _ _) in *. destruct (ino_store V 1 X (h_len _ _ _ _ _ _ HF) ltac:(done) HX) as (Ef & Eo & HWz & HWb). fold W in Ef, Eo, HWz, HWb.
  apply disk_fields_eq in Ef as (Et & _ & _ & El & Es & Ea). cbn [X i_type i_nlink i_size i_addrs set_i_size set_i_id] in Et, El, Es, Ea.
  erewrite bind_Ret by reflexivity. rewrite (r_fb _ _ _ _ HR1). set (fb := nmeta + blocks_needed fs) in *. unfold balloc.
  destruct (Z.ltb_spec fb (BSIZE * 8)) as [_|Hc]; [|unfold FSSIZE, BSIZE in *; lia]. erewrite bind_Ret by reflexivity.
  erewrite bind_Ret by reflexivity. rewrite (r_sb _ _ _ _ HR1). change (sb_bmapstart mkfs_sb) with 45.
  destruct (wsect_ok h Hroom _ _ _ _ 45 (balloc_loop (Z.to_nat fb) 0 zeroes) HR1 ltac:(done)) as (s2 & E2 & HR2).
  exists s2. split; [exact E2|]. change nmeta with 46 in Hlow.
  destruct (balloc_loop_bits (Z.to_nat fb) 0 zeroes ltac:(done) ltac:(done) ltac:(change BPB with 8192; unfold FSSIZE in Hfb; lia)) as [Hbz Hbits].
  set (U := view s2). assert (HU : forall b, U b = vset W 45 (balloc_loop (Z.to_nat fb) 0 zeroes) b) by apply (r_view _ _ _ _ HR2).
  assert (HUb : forall b, b <> 45 -> U b = W b) by (intros b Hb; rewrite HU; by apply vset_ne).
  assert (HUi : forall i, 0 <= i < MAXINUM -> ino U i = ino W i).
  { intros i Hi. destruct (IBLOCK_range i Hi) as [_ Hr]. unfold ino. rewrite HUb by lia. done. }
  assert (HUz : forall b, zlen (U b) = BSIZE) by (intros b; rewrite HU; unfold vset; by case_decide).
  assert (HUF : holds (1 + zlen fs) U (ino U) fb L (fun i => has_ptr (zlen (L i)))).
  { eapply holds_ext; [exact HF|exact HUz| |].
    - intros b Hb. change nmeta with 46 in Hb. rewrite HUb, HWb by lia. done.
    - intros i Hi. rewrite HUi by lia. destruct (decide (i = 1)) as [->|]; [by rewrite Ea|]. by rewrite Eo by lia. }
  destruct (mkfs_contents fs U L HUF) as (Hp & Hinj & Hby & Htl).
  { intros i Hi. split; [by apply (built_contents _ _ _ _ _ HB)|]. by apply (im_size _ _ _ _ _ HI). }
  assert (Hr1 : 1 <= 1 <= 1 + zlen fs) by lia. destruct (im_type _ _ _ _ _ HI 1 Hr1) as [Et1 _]. destruct (im_meta _ _ _ _ _ HI 1 Hr1) as (_ & _ & En1).
  split; try done.
  - rewrite HUb, HWb by lia. rewrite (im_super _ _ _ _ _ HI). vm_compute. reflexivity.
  - intros b Hb. change (2 + LOGSIZE) with 32 in Hb. rewrite HUb, HWb by lia. apply (im_zero _ _ _ _ _ HI). lia.
  - change ROOTINO with 1. rewrite HUi by done. rewrite Et, El, Es, Et1, En1. by destruct (bu_root _ _ _ _ HB) as [_ ->].
  - intros k f Hk. pose proof (lookup_lt_Some _ _ _ Hk). cbv zeta. rewrite HUi, Eo by (unfold zlen in *; lia). by apply (built_meta fs V T L).
  - intros i Hi. change NINODES with 200 in Hi. change MAXINUM with 208 in *. rewrite HUi, Eo by (change MAXINUM with 208; lia).
    apply (im_free _ _ _ _ _ HI). change MAXINUM with 208. lia.
  - intros b Hb. unfold used. destruct (BBLOCK_mkfs b Hb) as [-> ->]. rewrite HU, vset_eq, Hbits, bit_set_zeroes, orb_false_r by (change BPB with 8192; unfold FSSIZE in Hb; lia).
    destruct (Z.leb_spec 0 b); [|lia]. cbn [andb]. rewrite Z2Nat.id by lia. done.
Qed.
End Main.

(** The kernel finds on it a file system it can work with. *)
Section Kernel.
Context {S : Type} {ops : BlockOps S} {BS : BlockStore S}.

Lemma mkfs_kernel fs V : mkfs_image fs V -> nmeta + blocks_needed fs <= FSSIZE -> (forall b, 32 <= b < FSSIZE -> bs_home b) ->
  bitmap_ok mkfs_sb V ∅ /\ forall i, 1 <= i <= 1 + zlen fs -> fwf mkfs_sb V ∅ (ino V i).
Proof.
  intros HI Hfb Hh. change nmeta with 46 in Hfb. assert (Hun : forall b, unheld ∅ b) by (intros b i; by rewrite lookup_empty).
  assert (Hn : forall fs, 0 <= blocks_needed fs).
  { intros g. unfold blocks_needed. pose proof (nptrs_nonneg _ (zlen_nonneg (root_bytes g))). pose proof (data_blocks_nonneg g). lia. }
  specialize (Hn fs). split.
  - split; try done; change (sb_size mkfs_sb) with FSSIZE.
    + intros n Hb. destruct (BBLOCK_mkfs n Hb) as [-> _]. split; [|done]. by apply Hh.
    + intros n Hb. rewrite (mi_used _ _ HI) by done. intros Hu%Z.ltb_ge. change nmeta with 46 in Hu.
      split; [lia|]. split; [apply Hh; lia|]. split; [done|]. intros k Hk. destruct (BBLOCK_mkfs k Hk) as [-> _]. lia.
  - intros i Hi. split; try done; change (sb_size mkfs_sb) with FSSIZE.
    + intros j Hj Hne. pose proof (mi_blocks _ _ HI i j Hi Hj) as Hb. destruct (has_ptr _ j); [|done]. change nmeta with 46 in Hb.
      split; [lia|]. split; [rewrite (mi_used _ _ HI) by lia; apply Z.ltb_lt; change nmeta with 46; lia|].
      split; [apply Hh; lia|]. split; [done|]. intros n Hn'. destruct (BBLOCK_mkfs n Hn') as [-> _]. lia.
    + intros j j' Hj Hj' Hne Heq. by destruct (mi_apart _ _ HI i j i j' Hi Hj Hi Hj' Hne Heq).
Qed.
End Kernel.

(** ** Names *)

(** The root directory, entry by entry. *)
Definition root_entries (fs : list (list Z * list Z)) : list (list Z * Z) :=
  (lit ".", 1) :: (lit "..", 1) :: imap (fun k f => (f.1, 2 + Z.of_nat k)) fs.

Lemma root_bytes_entries fs : root_bytes fs = mjoin ((fun e => mk_dirent e.1 e.2) <$> root_entries fs).
Proof.
  unfold root_bytes, root_entries, dots. cbn [fmap list_fmap mjoin list_join fst snd]. rewrite <- app_assoc. do 2 f_equal.
  change (fun k f => (f.1, 2 + Z.of_nat k)) with (fun k (f : list Z * list Z) => (f.1, 2 + (0 + Z.of_nat k))). generalize 0 as k.
  induction fs as [|f fs IH]; intros k; [done|]. cbn [dir_entries imap fmap list_fmap mjoin list_join fst snd]. unfold entry_of.
  rewrite Z.add_0_r, IH. do 3 f_equal. apply imap_ext. intros i x _. cbn. f_equal. lia.
Qed.

Lemma length_root_entries fs : zlen (root_entries fs) = 2 + zlen fs.
Proof. unfold root_entries, zlen. cbn [length]. rewrite length_imap. lia. Qed.

(** The directory the kernel reads starts with these entries. *)
Lemma root_dirents fs V : mkfs_image fs V ->
  exists rest, dirents V (ino V 1) = ((fun e => mk_dirent e.1 e.2) <$> root_entries fs) ++ rest.
Proof.
  intros HI. set (es := (fun e => mk_dirent e.1 e.2) <$> root_entries fs). exists (drop (length es) (dirents V (ino V 1))).
  rewrite <- (take_drop (length es) (dirents V (ino V 1))) at 1. f_equal.
  assert (Hes : Forall (fun e => zlen e = sizeof_dirent) es) by (apply Forall_fmap, Forall_true; intros e; apply zlen_dirent).
  assert (Hlen : Z.of_nat (length es) = 2 + zlen fs) by (unfold es; rewrite length_fmap; apply length_root_entries).
  pose proof (zlen_nonneg fs) as Hn. destruct (mi_root _ _ HI) as (_ & _ & Hsz). change ROOTINO with 1 in Hsz. rewrite zlen_root in Hsz.
  assert (Hby := mi_bytes _ _ HI 1 ltac:(lia)). change (contents fs 1) with (root_bytes fs) in Hby. rewrite zlen_root in Hby.
  assert (Hcap : 2 + zlen fs <= i_size (ino V 1) / sizeof_dirent).
  { rewrite Hsz. unfold sizeof_dirent, BSIZE. Z.div_mod_to_equations. lia. }
  apply list_eq. intros j. destruct (decide (Z.of_nat j < 2 + zlen fs)) as [Hj|Hj].
  - rewrite lookup_take_lt by lia. destruct (lookup_lt_is_Some_2 es j) as [e He]; [lia|]. rewrite He.
    unfold dirents. rewrite list_lookup_fmap, lookup_seqZ_lt by lia. cbn [fmap option_fmap option_map]. rewrite Z.add_0_l. f_equal.
    rewrite <- (slice_mjoin sizeof_dirent es j e ltac:(done) Hes He). unfold es. rewrite <- root_bytes_entries, <- Hby. apply (nthZ_ext 0).
    + apply Nat2Z.inj. change (zlen (fbytes V (ino V 1) (sizeof_dirent * Z.of_nat j) sizeof_dirent) =
        zlen (slice (fbytes V (ino V 1) 0 (sizeof_dirent * (2 + zlen fs))) (sizeof_dirent * Z.of_nat j) sizeof_dirent)).
      unfold sizeof_dirent. rewrite zlen_fbytes, zlen_slice by (rewrite ?zlen_fbytes; lia). done.
    + intros i Hi. unfold sizeof_dirent in *. rewrite zlen_fbytes in Hi by lia. rewrite nthZ_slice, !nthZ_fbytes by lia. f_equal.
  - rewrite lookup_take_ge, lookup_ge_None_2 by lia. done.
Qed.

Lemma dir_find_first (es : list (list Z * Z)) rest : forall k j e, NoDup (dname ∘ fst <$> es) -> Forall (fun e => 0 < e.2 < 2 ^ 16) es ->
  es !! j = Some e -> dir_find e.1 k (((fun e => mk_dirent e.1 e.2) <$> es) ++ rest) = Some (k + Z.of_nat j, e.2).
Proof.
  induction es as [|x es IH]; intros k j e Hnd Hall Hj; [done|]. apply Forall_cons in Hall as [Hx Hall]. cbn [fmap list_fmap app dir_find].
  cbn [fmap list_fmap] in Hnd. apply NoDup_cons in Hnd as [Hni Hnd]. rewrite entry_is_new by done. destruct j as [|j].
  - injection Hj as ->. rewrite bool_decide_true by done. destruct (de_mk_dirent e.1 e.2 ltac:(lia)) as [-> _]. by rewrite Z.add_0_r.
  - cbn in Hj. rewrite bool_decide_false.
    + rewrite (IH (k + 1) j e) by done. do 2 f_equal. lia.
    + intros E. apply Hni. cbn [compose]. change ((dname ∘ fst) x) with (dname x.1). rewrite <- E. apply list_elem_of_fmap. exists e. split; [done|]. by eapply list_elem_of_lookup_2.
Qed.

(** Looking up a file's name in the root directory gives its inode. *)
Lemma mkfs_lookup fs V k f : mkfs_image fs V -> zlen fs < NINODES -> NoDup (dname ∘ fst <$> root_entries fs) ->
  fs !! k = Some f -> dir_find f.1 0 (dirents V (ino V 1)) = Some (2 + Z.of_nat k, 2 + Z.of_nat k).
Proof.
  intros HI Hn Hnd Hk. destruct (root_dirents fs V HI) as [rest ->]. change NINODES with 200 in Hn.
  change f.1 with (f.1, 2 + Z.of_nat k).1. rewrite (dir_find_first (root_entries fs) rest 0 (S (S k))) with (e := (f.1, 2 + Z.of_nat k)); try done.
  - do 2 f_equal. lia.
  - apply Forall_forall. intros e He. apply list_elem_of_lookup in He as [j Hj]. destruct j as [|[|j]]; [by injection Hj as <-..|].
    cbn in Hj. apply list_lookup_imap_Some in Hj as (g & Hg & ->). apply lookup_lt_Some in Hg. cbn. unfold zlen in Hn. lia.
  - change (imap (fun k (f : list Z * list Z) => (f.1, 2 + Z.of_nat k)) fs !! k = Some (f.1, 2 + Z.of_nat k)). by rewrite list_lookup_imap, Hk.
Qed.

(** C16: mkfs with the files [args] of the host, whatever the sizes of its
    read()s.  When every file can be opened and is not too large, and there
    are inodes and blocks enough, it builds an image with exactly these files:
    the superblock describes the layout, the log is clean, the root directory
    lists ., .. and the files under their short names, each inode's blocks
    hold its file's bytes and zeroes after them, no block belongs to two
    files, and the bitmap marks exactly the metadata and these blocks; so the
    kernel's invariants of files and of the bitmap hold on it, and a lookup of
    each name in the root directory gives its inode when the names differ. *)
Theorem mkfs_correct (h : host) (image : list Z) (args : list (list Z)) :
  let fs := file_of h <$> args in
  h_create h = true -> FSSIZE <= h_room h -> Forall (acceptable h) args ->
  1 + zlen args < NINODES -> nmeta + blocks_needed fs <= FSSIZE ->
  exists s, main h (image :: args) start = Ret tt s /\ mkfs_image fs (view s) /\
    (NoDup (dname ∘ fst <$> root_entries fs) -> forall k f, fs !! k = Some f ->
       dir_find f.1 0 (dirents (view s) (ino (view s) ROOTINO)) = Some (2 + Z.of_nat k, 2 + Z.of_nat k)) /\
    forall S (ops : BlockOps S) (BS : BlockStore S), (forall b, 32 <= b < FSSIZE -> bs_home b) ->
      bitmap_ok mkfs_sb (view s) ∅ /\ forall i, 1 <= i <= 1 + zlen fs -> fwf mkfs_sb (view s) ∅ (ino (view s) i).
Proof.
  intros fs Hc Hroom Hok Hn Hfb. unfold main, build. erewrite bind_Ret by reflexivity. erewrite bind_Ret by reflexivity.
  rewrite Hc. do 3 (erewrite bind_Ret by reflexivity).
  destruct (zero_image_ok h Hroom (Z.to_nat FSSIZE) 0 (set_freeblock nmeta (set_m_sb mkfs_sb (set_img ∅ 0 start)))) as (s1 & E1 & Hl1 & Hv1 & Hs1 & Hi1 & Hb1); try done.
  erewrite bind_Ret by exact E1. assert (HR1 : rep 1 nmeta (fun _ => zeroes) s1) by (by split).
  destruct (wsect_ok h Hroom _ _ _ _ 1 sb_block HR1 ltac:(done)) as (s2 & E2 & HR2). erewrite bind_Ret by exact E2.
  destruct (main_root h Hroom s2 HR2) as (s3 & V3 & T3 & L3 & E3 & HR3 & HB3).
  destruct (add_files_ok h Hroom args [] V3 T3 L3 s3 HR3 HB3 Hok) as (s4 & V4 & T4 & L4 & E4 & HR4 & HB4).
  { cbn [app]. unfold zlen in *. rewrite length_fmap. change NINODES with 200 in Hn. change MAXINUM with 208. lia. }
  { done. }
  destruct (finish_ok h Hroom fs V4 T4 L4 s4 _ HR4 HB4) as (s5 & E5 & HI). exists s5.
  split; [|split; [done|split]]; [|intros Hnd k f; apply (mkfs_lookup fs); try done; unfold fs, zlen in *; rewrite length_fmap; lia|intros S ops BS Hh; by apply mkfs_kernel].
  apply bind_inv in E3 as (r & s6 & Ea & E3). erewrite bind_Ret by exact Ea.
  apply bind_inv in E3 as ([] & s7 & Eb & E3). erewrite bind_Ret by exact Eb.
  apply bind_inv in E3 as ([] & s8 & Ec & E3). erewrite bind_Ret by exact Ec.
  apply bind_inv in E3 as ([] & s9 & Ed & [= -> ->]). erewrite bind_Ret by exact Ed.
  erewrite bind_Ret by exact E4. exact E5.
Qed.

(** A host with two files. *)
Definition sample_host : host :=
  Host {[ lit "README" := lit "xv6"; lit "user/_cat" := repeat 7 3000 ]} (fun k => Z.of_nat k * 100) true 2000.
Definition sample_args : list (list Z) := [lit "README"; lit "user/_cat"].

Lemma sample_acceptable : Forall (acceptable sample_host) sample_args.
Proof.
  repeat apply Forall_cons_2; [| |apply Forall_nil_2]; (split; [vm_compute; reflexivity|vm_compute; eexists; reflexivity|vm_compute; discriminate]).
Qed.

Lemma mkfs_correct_witness :
  let fs := [(lit "README", lit "xv6"); (lit "cat", repeat 7 3000)] in
  exists s, main sample_host (lit "fs.img" :: sample_args) start = Ret tt s /\ mkfs_image fs (view s) /\
    (NoDup (dname ∘ fst <$> root_entries fs) -> forall k f, fs !! k = Some f ->
       dir_find f.1 0 (dirents (view s) (ino (view s) ROOTINO)) = Some (2 + Z.of_nat k, 2 + Z.of_nat k)) /\
    forall S (ops : BlockOps S) (BS : BlockStore S), (forall b, 32 <= b < FSSIZE -> bs_home b) ->
      bitmap_ok mkfs_sb (view s) ∅ /\ forall i, 1 <= i <= 3 -> fwf mkfs_sb (view s) ∅ (ino (view s) i).
Proof.
  apply (mkfs_correct sample_host (lit "fs.img") sample_args eq_refl ltac:(done) sample_acceptable); [done|vm_compute; discriminate].
Defined.
