(* ===== verification/Oxo.v ===== *)
(** * Tic-tac-toe (user/oxo.c)

    Three processes and four pipes: the referee asks the two players in turn.
    Every process is a state machine; a run interleaves their steps in any
    order, and each uptime() a player seeds its generator with is arbitrary.
    A read() blocks on an empty pipe while the process at the other end lives
    and returns 0 once it has exited; a write() appends its bytes, or fails
    when the reader has exited.  The pipes hold at most one message at a time,
    as the invariant of OxoProof.v shows, so PIPESIZE plays no role. *)

From Stdlib Require Import ZArith Lia.
From stdpp Require Import base numbers list list_numbers gmap strings.
From S2P Require Import Prelude Cstring Bytes Kernel Console User Ulib Uprintf.

Module Oxo.
Definition BOARD_SIZE : Z := 9.
Definition EMPTY : Z := 9.
Definition PLAYER_X : Z := -1.
Definition PLAYER_O : Z := 1.
Definition WINNING_SUM : Z := 3.

Notation cell b i := (nthZ 0 b i).

Fixpoint printBoard_loop (n : nat) (i : Z) (board : list Z) : list Z :=
  match n with
  | O => []
  | S k =>
      (if (0 <? i) && (i mod 3 =? 0) then [10] else []) ++
      (if cell board i =? EMPTY then lit "_ "
       else if cell board i =? PLAYER_X then lit "X "
       else if cell board i =? PLAYER_O then lit "O " else []) ++
      (if (i + 1) mod 3 =? 0 then [10] else []) ++
      printBoard_loop k (i + 1) board
  end.
Definition printBoard (board : list Z) : list Z := printBoard_loop (Z.to_nat BOARD_SIZE) 0 board ++ [10].

(** The loops over rows and columns: the winner of the first full line. *)
Fixpoint rows (n : nat) (i : Z) (board : list Z) : option Z :=
  match n with
  | O => None
  | S k =>
      let rowSum := cell board (i * 3) + cell board (i * 3 + 1) + cell board (i * 3 + 2) in
      if Ulib.abs rowSum =? WINNING_SUM then Some (Z.quot rowSum WINNING_SUM) else rows k (i + 1) board
  end.

Fixpoint columns (n : nat) (i : Z) (board : list Z) : option Z :=
  match n with
  | O => None
  | S k =>
      let colSum := cell board i + cell board (i + 3) + cell board (i + 6) in
      if Ulib.abs colSum =? WINNING_SUM then Some (Z.quot colSum WINNING_SUM) else columns k (i + 1) board
  end.

Definition checkWin (board : list Z) : Z :=
  match rows 3 0 board with
  | Some w => w
  | None =>
      match columns 3 0 board with
      | Some w => w
      | None =>
          let diag1 := cell board 0 + cell board 4 + cell board 8 in
          let diag2 := cell board 2 + cell board 4 + cell board 6 in
          if Ulib.abs diag1 =? WINNING_SUM then Z.quot diag1 WINNING_SUM
          else if Ulib.abs diag2 =? WINNING_SUM then Z.quot diag2 WINNING_SUM
          else 0
      end
  end.

Fixpoint sum_loop (n : nat) (i sum : Z) (board : list Z) : Z :=
  match n with
  | O => sum
  | S k => sum_loop k (i + 1) (sum + cell board i) board
  end.
Definition isDraw (board : list Z) : bool :=
  Ulib.abs (sum_loop (Z.to_nat BOARD_SIZE) 0 0 board) =? 1.

Definition isGameOver (board : list Z) : bool := negb (checkWin board =? 0) || isDraw board.

(** emptyCells[0..count) *)
Fixpoint empty_cells (n : nat) (i : Z) (board : list Z) : list Z :=
  match n with
  | O => []
  | S k => (if cell board i =? EMPTY then [i] else []) ++ empty_cells k (i + 1) board
  end.

Definition getValidRandomMove (board : list Z) (seed : Z) : Z :=
  let emptyCells := empty_cells (Z.to_nat BOARD_SIZE) 0 board in
  let count := zlen emptyCells in
  if count =? 0 then -1
  else
    let r := u32 (snd (Ulib.rand (Ulib.srand seed))) in
    nthZ 0 emptyCells (r mod count).

(** ** The processes *)

(** int board[BOARD_SIZE] and the bytes of it. *)
Definition encode (ints : list Z) : list Z := mjoin (le_bytes 4 <$> ints).
Definition int_at (bs : list Z) (i : Z) : Z := s32 (get32 bs (4 * i)).
Definition decode (bs : list Z) : list Z := int_at bs <$> seqZ 0 BOARD_SIZE.

Inductive rpc := Loop | Asked | End1 | End2 | Wait1 | Wait2 | Exited.
Inductive ppc := Reading | Moving | Left_.

Record referee := Referee { r_pc : rpc; r_board : list Z; r_current : Z; r_move : Z }.
Record player := Player { p_pc : ppc; p_buf : list Z }.

Record game := Game {
  ref : referee;
  pl : bool -> player;              (** [true] is player A *)
  to : bool -> list Z;              (** the pipes to the players *)
  from : bool -> list Z;            (** and from them *)
  out : list Z
}.

Definition bset {A} (f : bool -> A) (b : bool) (x : A) (c : bool) : A := if Bool.eqb b c then x else f c.

Definition endSignal : Z := -99.

(** A write to player [b]; it fails, unnoticed, when the player has exited. *)
Definition tell (b : bool) (bs : list Z) (g : game) : bool -> list Z :=
  match p_pc (pl g b) with Left_ => to g | _ => bset (to g) b (to g b ++ bs) end.

Definition turn_of (r : referee) : bool := r_current r =? PLAYER_X.

(** The move is made when it is a valid one; the players change turns anyway. *)
Definition accept (b : bool) (move : Z) (board : list Z) : list Z * list Z :=
  if (0 <=? move) && (move <? BOARD_SIZE) && (cell board move =? EMPTY) then
    (updZ move (if b then PLAYER_X else PLAYER_O) board,
     text (lit (if b then "Joueur A : à vous de joueur! Position %d" else "Joueur B : à vous de joueur! Position %d") ++ [10])
          [AInt (move + 1)])
  else (board, []).

Definition verdict (board : list Z) : list Z :=
  let winner := checkWin board in
  lit (if winner =? PLAYER_X then "Bravo Joueur A: vous avez gagné la partie!"
       else if winner =? PLAYER_O then "Bravo Joueur B: vous avez gagné la partie!"
       else "C'est un match nul!") ++ [10].

(** playAsReferee() after its first printBoard(), and the two wait()s. *)
Definition ref_step (g : game) : option game :=
  let r := ref g in
  match r_pc r with
  | Loop =>
      if isGameOver (r_board r) then
        Some (Game (Referee End1 (r_board r) (r_current r) (r_move r)) (pl g) (to g) (from g) (out g ++ verdict (r_board r)))
      else
        Some (Game (Referee Asked (r_board r) (r_current r) (r_move r)) (pl g)
                (tell (turn_of r) (encode (r_board r)) g) (from g) (out g))
  | Asked =>
      let b := turn_of r in
      let reply (bs : list Z) :=
        let move := match bs with [] => r_move r | _ => s32 (le_val (take 4 bs)) end in
        let '(board, line) := accept b move (r_board r) in
        Some (Game (Referee Loop board (- r_current r) move) (pl g) (to g) (bset (from g) b (drop 4 bs))
                (out g ++ line ++ printBoard board)) in
      match from g b with
      | [] => match p_pc (pl g b) with Left_ => reply [] | _ => None end
      | bs => reply bs
      end
  | End1 => Some (Game (Referee End2 (r_board r) (r_current r) (r_move r)) (pl g) (tell true (le_bytes 4 endSignal) g) (from g) (out g))
  | End2 => Some (Game (Referee Wait1 (r_board r) (r_current r) (r_move r)) (pl g) (tell false (le_bytes 4 endSignal) g) (from g) (out g))
  | Wait1 =>
      match p_pc (pl g true), p_pc (pl g false) with
      | Left_, _ | _, Left_ => Some (Game (Referee Wait2 (r_board r) (r_current r) (r_move r)) (pl g) (to g) (from g) (out g))
      | _, _ => None
      end
  | Wait2 =>
      match p_pc (pl g true), p_pc (pl g false) with
      | Left_, Left_ => Some (Game (Referee Exited (r_board r) (r_current r) (r_move r)) (pl g) (to g) (from g) (out g))
      | _, _ => None
      end
  | Exited => None
  end.

(** playAsPlayerA() and playAsPlayerB(), which differ in their pipes only. *)
Definition player_step (b : bool) (seed : Z) (g : game) : option game :=
  let p := pl g b in
  match p_pc p with
  | Reading =>
      match to g b with
      | [] => match r_pc (ref g) with
              | Exited => Some (Game (ref g) (bset (pl g) b (Player Left_ (p_buf p))) (to g) (from g) (out g))
              | _ => None
              end
      | bs =>
          let got := take (Z.to_nat (4 * BOARD_SIZE)) bs in
          let buf := patch (p_buf p) 0 got in
          let pc := if int_at buf 0 =? endSignal then Left_ else Moving in
          Some (Game (ref g) (bset (pl g) b (Player pc buf)) (bset (to g) b (drop (Z.to_nat (4 * BOARD_SIZE)) bs)) (from g) (out g))
      end
  | Moving =>
      let move := getValidRandomMove (decode (p_buf p)) seed in
      Some (Game (ref g) (bset (pl g) b (Player Reading (p_buf p))) (to g) (bset (from g) b (from g b ++ le_bytes 4 move)) (out g))
  | Left_ => None
  end.

Inductive step (g : game) : game -> Prop :=
| RefStep g' : ref_step g = Some g' -> step g g'
| PlayerStep b seed g' : 0 <= seed < 2 ^ 32 -> player_step b seed g = Some g' -> step g g'.

(** main() with the results of its calls: pipe() four times, fork() twice. *)
Definition empty_board : list Z := repeat EMPTY (Z.to_nat BOARD_SIZE).

(** The ends of the pipes: from or to the parent, whose player's, and which
    end; pipeParentToA[WRITE] is [PEnd true true true]. *)
Inductive pend := PEnd (to_player player write : bool).
#[global] Instance pend_eq_dec : EqDecision pend.
Proof. solve_decision. Defined.

(** After the four pipe() calls, and what fork() leaves to both sides. *)
Definition all_ends : list pend :=
  [PEnd true true false; PEnd true true true; PEnd false true false; PEnd false true true;
   PEnd true false false; PEnd true false true; PEnd false false false; PEnd false false true].
Definition close (e : pend) (l : list pend) : list pend := filter (fun x => x <> e) l.

(** Player [b]: the far ends of its own pipes, then both pipes of the other. *)
Definition player_ends (b : bool) : list pend :=
  close (PEnd false (negb b) true) (close (PEnd false (negb b) false)
    (close (PEnd true (negb b) true) (close (PEnd true (negb b) false)
      (close (PEnd false b false) (close (PEnd true b true) all_ends))))).
Definition referee_ends : list pend :=
  close (PEnd false false true) (close (PEnd true false false)
    (close (PEnd false true true) (close (PEnd true true false) all_ends))).

Inductive started :=
| Failed (message : list Z) (killed : option Z) (status : Z)
| Running (g : game) (referee_fds : list pend) (player_fds : bool -> list pend).

(** The local variables of the processes are uninitialised: [junk] are the
    bytes of the players' boards, [move0] the move of the referee. *)
Definition main (pipes : bool) (pid1 pid2 : Z) (junk : bool -> list Z) (move0 : Z) : started :=
  if negb pipes then Failed (lit "Erreur lors de la création des pipes" ++ [10]) None 1
  else if pid1 <? 0 then Failed (lit "Erreur lors de la création du joueur X" ++ [10]) None 1
  else if pid2 <? 0 then Failed (lit "Erreur lors de la création du joueur B" ++ [10]) (Some pid1) 1
  else Running (Game (Referee Loop empty_board PLAYER_X move0) (fun b => Player Reading (junk b)) (fun _ => []) (fun _ => [])
                 (printBoard empty_board)) referee_ends player_ends.
End Oxo.
