(* ===== verification/OxoProof.v ===== *)
(** * Tic-tac-toe: the proofs

    Whatever the order in which the three processes run and whatever the
    clock says, the game is a legal one, it ends, and the verdict is right. *)

From Stdlib Require Import ZArith Lia.
From stdpp Require Import base numbers list list_numbers gmap strings relations.
From S2P Require Import Prelude Cstring Bytes Kernel Console User Ulib Uprintf Oxo.
Import Oxo.

(** ** Boards *)

Definition mark (c : Z) : Prop := c = PLAYER_X \/ c = PLAYER_O \/ c = EMPTY.
Definition board_ok (b : list Z) : Prop := zlen b = BOARD_SIZE /\ Forall mark b.

(** Comparisons of constants. *)
Ltac marks := repeat match goal with
  | |- context [?a =? ?b] => let v := eval vm_compute in (a =? b) in match v with true => idtac | false => idtac end; change (a =? b) with v
  end.

(** How often [p] occurs. *)
Definition count (p : Z) (b : list Z) : Z := foldr (fun c n => (if c =? p then 1 else 0) + n) 0 b.

(** Three in a row. *)
Definition triples : list (Z * Z * Z) :=
  [(0, 1, 2); (3, 4, 5); (6, 7, 8); (0, 3, 6); (1, 4, 7); (2, 5, 8); (0, 4, 8); (2, 4, 6)].
Definition line (p : Z) (b : list Z) : Prop :=
  Exists (fun t => cell b t.1.1 = p /\ cell b t.1.2 = p /\ cell b t.2 = p) triples.

Lemma count_nonneg p b : 0 <= count p b.
Proof. unfold count. induction b as [|c b IH]; cbn [foldr]; [done|]. destruct (c =? p); lia. Qed.

Lemma count_total b : Forall mark b -> count PLAYER_X b + count PLAYER_O b + count EMPTY b = zlen b.
Proof.
  unfold zlen, count. induction 1 as [|c b Hc _ IH]; [done|]. cbn [foldr length].
  destruct Hc as [->|[->| ->]]; marks; lia.
Qed.

Lemma sum_counts b : Forall mark b -> foldr Z.add 0 b = 9 * count EMPTY b + count PLAYER_O b - count PLAYER_X b.
Proof.
  unfold count. induction 1 as [|c b Hc _ IH]; [done|]. cbn [foldr]. rewrite IH.
  destruct Hc as [->|[->| ->]]; marks; unfold PLAYER_X, PLAYER_O, EMPTY; lia.
Qed.

Lemma count_insert p q b i : 0 <= i < zlen b -> cell b i = q -> p <> q ->
  count p (updZ i p b) = count p b + 1 /\ count q (updZ i p b) = count q b - 1 /\
  forall r, r <> p -> r <> q -> count r (updZ i p b) = count r b.
Proof.
  unfold zlen, updZ, nthZ, count. intros Hi. destruct (Z.ltb_spec i 0); [lia|]. assert (Hn : (Z.to_nat i < length b)%nat) by lia. clear Hi H.
  revert Hn. generalize (Z.to_nat i) as n. induction b as [|c b IH]; intros n Hn Hc Hpq; [cbn in Hn; lia|]. destruct n as [|n].
  - cbn in Hc. subst c. cbn [insert list_insert foldr]. split_and!.
    + rewrite Z.eqb_refl. destruct (Z.eqb_spec q p); [congruence|lia].
    + rewrite Z.eqb_refl. destruct (Z.eqb_spec p q); [congruence|lia].
    + intros r Hp Hq. destruct (Z.eqb_spec p r), (Z.eqb_spec q r); congruence || lia.
  - cbn in Hn, Hc. destruct (IH n ltac:(lia) Hc Hpq) as (H1 & H2 & H3). change (<[S n := p]> (c :: b)) with (c :: <[n := p]> b). cbn [foldr].
    split_and!; [destruct (c =? p); lia|destruct (c =? q); lia|]. intros r Hp Hq. rewrite H3 by done. done.
Qed.

Lemma board_cell b i : board_ok b -> 0 <= i < 9 -> mark (cell b i).
Proof.
  intros [Hz Hb] Hi. rewrite Forall_forall in Hb. apply Hb. eapply list_elem_of_lookup_2. apply lookup_nthZ. unfold BOARD_SIZE in Hz. lia.
Qed.

Lemma board_set b i p : board_ok b -> mark p -> board_ok (updZ i p b).
Proof.
  intros [Hz Hb] Hp. split; [by rewrite zlen_updZ|]. unfold updZ. destruct (i <? 0); [done|]. by apply Forall_insert.
Qed.

(** ** The end of the game *)

Lemma triple a b c : mark a -> mark b -> mark c ->
  (Ulib.abs (a + b + c) =? WINNING_SUM) = bool_decide (a <> EMPTY /\ a = b /\ b = c) /\
  (a = b -> b = c -> Z.quot (a + b + c) WINNING_SUM = a).
Proof. intros [->|[->| ->]] [->|[->| ->]] [->|[->| ->]]; by vm_compute. Qed.

(** checkWin() looks at the eight lines in order. *)
Fixpoint first_line (ts : list (Z * Z * Z)) (b : list Z) : Z :=
  match ts with
  | [] => 0
  | t :: ts' => if bool_decide (cell b t.1.1 <> EMPTY /\ cell b t.1.1 = cell b t.1.2 /\ cell b t.1.2 = cell b t.2) then cell b t.1.1
               else first_line ts' b
  end.

Lemma checkWin_lines b : board_ok b -> checkWin b = first_line triples b.
Proof.
  intros Hb. assert (Hm : forall i, 0 <= i < 9 -> mark (cell b i)) by (intros; by apply board_cell).
  assert (Ht : forall i j k, 0 <= i < 9 -> 0 <= j < 9 -> 0 <= k < 9 -> forall (A : Type) (f : Z -> A) (r : A),
    (if Ulib.abs (cell b i + cell b j + cell b k) =? WINNING_SUM then f (Z.quot (cell b i + cell b j + cell b k) WINNING_SUM) else r) =
    (if bool_decide (cell b i <> EMPTY /\ cell b i = cell b j /\ cell b j = cell b k) then f (cell b i) else r)).
  { intros i j k Hi Hj Hk A f r. destruct (triple (cell b i) (cell b j) (cell b k) (Hm i Hi) (Hm j Hj) (Hm k Hk)) as [-> Hq].
    case_bool_decide as Hd; [|done]. destruct Hd as (_ & E1 & E2). by rewrite (Hq E1 E2). }
  unfold checkWin. cbn [rows columns]. cbn [Z.mul Z.add Pos.add Pos.mul].
  pose proof (fun i j k Hi Hj Hk => Ht i j k Hi Hj Hk (option Z) Some) as Hs. pose proof (fun i j k Hi Hj Hk => Ht i j k Hi Hj Hk Z (fun z => z)) as Hz.
  cbv beta in Hs, Hz. rewrite !Hs by lia. rewrite !Hz by lia. unfold first_line, triples. cbn [fst snd].
  repeat case_bool_decide; done.
Qed.

Lemma first_line_spec ts b :
  Forall (fun t => (0 <= t.1.1 < 9) /\ (0 <= t.1.2 < 9) /\ (0 <= t.2 < 9)) ts -> board_ok b ->
  let w := first_line ts b in
  let here p := Exists (fun t => cell b t.1.1 = p /\ cell b t.1.2 = p /\ cell b t.2 = p) ts in
  (w = PLAYER_X \/ w = PLAYER_O) /\ here w \/ w = 0 /\ ~ here PLAYER_X /\ ~ here PLAYER_O.
Proof.
  intros Hr Hb. induction Hr as [|t ts (H1 & H2 & H3) _ IH]; cbn [first_line].
  { right. split; [done|]. split; intros Hx; inversion Hx. }
  case_bool_decide as Hd.
  - destruct Hd as (Hne & E1 & E2). left. split; [destruct (board_cell b t.1.1 Hb H1) as [?|[?|?]]; tauto|]. left. by rewrite <- E2, <- E1.
  - destruct IH as [[Hw Hh]|(Hw & Hx & Ho)]; [left; split; [done|by right]|right].
    split; [done|]. split; intros Hc; apply Exists_cons in Hc as [(E1 & E2 & E3)|?]; try done; apply Hd; rewrite E1, E2, E3; done.
Qed.

Lemma checkWin_spec b : board_ok b ->
  (checkWin b = PLAYER_X \/ checkWin b = PLAYER_O) /\ line (checkWin b) b \/
  checkWin b = 0 /\ ~ line PLAYER_X b /\ ~ line PLAYER_O b.
Proof.
  intros Hb. rewrite checkWin_lines by done. apply first_line_spec; [|done]. unfold triples. repeat constructor; cbn; lia.
Qed.

(** The balance of marks when it is [p]'s turn. *)
Definition balanced (p : Z) (b : list Z) : Prop :=
  p = PLAYER_X /\ count PLAYER_X b = count PLAYER_O b \/ p = PLAYER_O /\ count PLAYER_X b = count PLAYER_O b + 1.

Lemma sum_loop_eq b n : forall i s, 0 <= i -> i + Z.of_nat n <= zlen b ->
  sum_loop n i s b = s + foldr Z.add 0 (take n (drop (Z.to_nat i) b)).
Proof.
  induction n as [|n IH]; intros i s Hi Hn; cbn [sum_loop]; [symmetry; apply Z.add_0_r|]. rewrite IH by lia.
  rewrite (drop_S b (cell b i) (Z.to_nat i)) by (apply lookup_nthZ; lia). cbn [take foldr].
  replace (Z.to_nat (i + 1)) with (S (Z.to_nat i)) by lia. lia.
Qed.

Lemma isDraw_full p b : board_ok b -> balanced p b -> isDraw b = bool_decide (count EMPTY b = 0).
Proof.
  intros [Hz Hm] Hbal. unfold isDraw. assert (Hs : sum_loop (Z.to_nat BOARD_SIZE) 0 0 b = foldr Z.add 0 b).
  { rewrite sum_loop_eq by (rewrite ?Hz; done). change (Z.to_nat 0) with 0%nat. rewrite drop_0, take_ge, Z.add_0_l; [done|unfold zlen in Hz; lia]. }
  rewrite Hs, sum_counts by done. pose proof (count_total b Hm) as Ht. rewrite Hz in Ht. unfold BOARD_SIZE in Ht.
  pose proof (count_nonneg PLAYER_X b). pose proof (count_nonneg PLAYER_O b). pose proof (count_nonneg EMPTY b).
  assert (Hd : count PLAYER_X b = count PLAYER_O b \/ count PLAYER_X b = count PLAYER_O b + 1) by (destruct Hbal as [[_ ?]|[_ ?]]; tauto).
  unfold Ulib.abs. set (e := count EMPTY b) in *. set (x := count PLAYER_X b) in *. set (o := count PLAYER_O b) in *.
  destruct (Z.ltb_spec (9 * e + o - x) 0); case_bool_decide as He.
  - apply Z.eqb_eq. rewrite s32_small; lia.
  - lia.
  - lia.
  - apply Z.eqb_neq. lia.
Qed.

Lemma isGameOver_spec p b : board_ok b -> balanced p b ->
  isGameOver b = false <-> checkWin b = 0 /\ count EMPTY b <> 0.
Proof.
  intros Hb Hp. unfold isGameOver. rewrite (isDraw_full p) by done. rewrite orb_false_iff, negb_false_iff, Z.eqb_eq, bool_decide_eq_false. done.
Qed.

(** ** The players' moves *)

Lemma empty_cells_spec b n : forall i j, j ∈ empty_cells n i b <-> i <= j < i + Z.of_nat n /\ cell b j = EMPTY.
Proof.
  induction n as [|n IH]; intros i j; cbn [empty_cells]; [split; [intros []%not_elem_of_nil|lia]|].
  rewrite elem_of_app, IH. destruct (Z.eqb_spec (cell b i) EMPTY) as [E|E].
  - rewrite list_elem_of_singleton. split; [intros [->|?]; [split; [lia|done]|split; [lia|tauto]]|]. intros [Hr Hc]. destruct (decide (j = i)); [by left|right; split; [lia|done]].
  - split; [intros [[]%not_elem_of_nil|?]; split; [lia|tauto]|]. intros [Hr Hc]. right. split; [|done]. destruct (decide (j = i)); [congruence|lia].
Qed.

Lemma count_zero p b : count p b = 0 <-> p ∉ b.
Proof.
  unfold count. induction b as [|c b IH]; cbn [foldr]; [split; [intros _; apply not_elem_of_nil|done]|].
  rewrite not_elem_of_cons, <- IH. pose proof (count_nonneg p b). unfold count in *. destruct (Z.eqb_spec c p); split; intros; try lia; naive_solver.
Qed.

Lemma move_valid b seed : zlen b = BOARD_SIZE -> count EMPTY b <> 0 ->
  let m := getValidRandomMove b seed in 0 <= m < BOARD_SIZE /\ cell b m = EMPTY.
Proof.
  intros Hz Hc m. unfold m, getValidRandomMove. set (l := empty_cells _ 0 b).
  assert (Hl : forall j, j ∈ l -> 0 <= j < BOARD_SIZE /\ cell b j = EMPTY) by (intros j; unfold l; rewrite empty_cells_spec; done).
  assert (Hne : l <> []).
  { intros E. apply Hc, count_zero. intros Hin. apply list_elem_of_lookup in Hin as [k Hk]. pose proof (lookup_lt_Some _ _ _ Hk).
    assert (Z.of_nat k ∈ l); [|rewrite E in *; by eapply not_elem_of_nil]. apply empty_cells_spec. split; [unfold zlen in Hz; change (Z.of_nat (Z.to_nat BOARD_SIZE)) with BOARD_SIZE; lia|].
    apply nthZ_lookup; [lia|]. by rewrite Nat2Z.id. }
  assert (Hp : 0 < zlen l) by (destruct l; [done|unfold zlen; cbn; lia]). destruct (Z.eqb_spec (zlen l) 0); [lia|].
  apply Hl. eapply list_elem_of_lookup_2. apply lookup_nthZ. apply Z.mod_pos_bound. lia.
Qed.

(** ** Legal games *)

Definition mark_of (b : bool) : Z := if b then PLAYER_X else PLAYER_O.

(** What the referee prints for a move of player [b]. *)
Definition move_text (b : bool) (m : Z) : list Z :=
  text (lit (if b then "Joueur A : à vous de joueur! Position %d" else "Joueur B : à vous de joueur! Position %d") ++ [10]) [AInt (m + 1)].

(** The games: player [b] is next on the board, after the transcript. *)
Inductive played : bool -> list Z -> list Z -> Prop :=
| P_start : played true empty_board (printBoard empty_board)
| P_move b board t m : played b board t -> isGameOver board = false -> 0 <= m < BOARD_SIZE -> cell board m = EMPTY ->
    played (negb b) (updZ m (mark_of b) board) (t ++ move_text b m ++ printBoard (updZ m (mark_of b) board)).

Lemma mark_of_ok b : mark (mark_of b).
Proof. destruct b; unfold mark; tauto. Qed.

Lemma line_other b m p q : p <> q -> line q (updZ m p b) -> zlen b = BOARD_SIZE -> 0 <= m < BOARD_SIZE -> line q b.
Proof.
  intros Hpq Hl Hz Hm. unfold line in *. eapply Exists_impl; [exact Hl|]. intros t (H1 & H2 & H3).
  assert (Hc : forall i, cell (updZ m p b) i = q -> cell b i = q).
  { intros i Hi. destruct (decide (m = i)) as [->|]; [rewrite nthZ_updZ_eq in Hi by lia; congruence|by rewrite nthZ_updZ_ne in Hi]. }
  auto.
Qed.

(** The player to move has no line yet, so a line ends the game. *)
Lemma played_ok b board t : played b board t -> board_ok board /\ balanced (mark_of b) board /\ ~ line (mark_of b) board.
Proof.
  induction 1 as [|b board t m Hp (Hok & Hbal & _) Hover Hm He].
  - split; [|split; [left; split; reflexivity|]]; [split; [done|]; repeat constructor; unfold mark; tauto|].
    unfold line, triples. rewrite !Exists_cons, Exists_nil. vm_compute. intuition congruence.
  - apply (isGameOver_spec _ _ Hok Hbal) in Hover as [Hw _]. destruct (checkWin_spec board Hok) as [[[E|E] _]|(_ & Hx & Ho)]; [rewrite E in Hw; done..|].
    destruct Hok as [Hz Hf]. split; [apply board_set; [done|apply mark_of_ok]|]. split.
    + destruct (count_insert (mark_of b) EMPTY board m ltac:(lia) He ltac:(by destruct b)) as (H1 & H2 & H3).
      destruct Hbal as [[Hp1 Hc]|[Hp1 Hc]]; destruct b; try done; cbn [mark_of negb] in *; [right|left]; (split; [done|]).
      * rewrite H1, (H3 PLAYER_O) by done. lia.
      * rewrite H1, (H3 PLAYER_X) by done. lia.
    + intros Hl. assert (Hl' : line (mark_of (negb b)) board) by (eapply (line_other _ m (mark_of b)); try done; by destruct b). destruct b; done.
Qed.

(** The verdict: the last player to move has three in a row and wins, or the
    board is full and nobody has. *)
Lemma verdict_spec b board t : played b board t -> isGameOver board = true ->
  checkWin board = mark_of (negb b) /\ line (mark_of (negb b)) board /\ ~ line (mark_of b) board \/
  checkWin board = 0 /\ ~ line PLAYER_X board /\ ~ line PLAYER_O board /\ count EMPTY board = 0.
Proof.
  intros Hp Hover. destruct (played_ok b board t Hp) as (Hok & Hbal & Hno). destruct (checkWin_spec board Hok) as [[Hw Hl]|(Hw & Hx & Ho)].
  - left. assert (E : checkWin board = mark_of (negb b)); [|by rewrite <- E]. destruct Hw as [E|E], b; rewrite E in *; done.
  - right. split_and!; try done. destruct (decide (count EMPTY board = 0)) as [|Hne]; [done|].
    assert (Hf : isGameOver board = false) by (by apply (isGameOver_spec (mark_of b))). congruence.
Qed.

(** ** Messages *)

Lemma zlen_encode l : zlen (encode l) = 4 * zlen l.
Proof.
  induction l as [|x l IH]; [done|]. change (encode (x :: l)) with (le_bytes 4 x ++ encode l). rewrite zlen_app, zlen_le_bytes, IH. unfold zlen. cbn [length]. lia.
Qed.

Lemma mark_small c : mark c -> s32 (u32 c) = c /\ c <> endSignal.
Proof. intros [->|[->| ->]]; by vm_compute. Qed.

Lemma int_encode board i : board_ok board -> 0 <= i < BOARD_SIZE -> int_at (encode board) i = cell board i.
Proof.
  intros Hok Hi. destruct Hok as [Hz Hf] eqn:E. unfold int_at, encode. pose proof (lookup_nthZ 0 board i ltac:(lia)) as Hl.
  rewrite <- (Z2Nat.id i) at 1 by lia. rewrite (get32_mjoin board _ _ Hl). apply mark_small. by apply board_cell.
Qed.

Lemma decode_encode board : board_ok board -> decode (encode board) = board.
Proof.
  intros Hok. unfold decode. apply (nthZ_ext 0).
  - rewrite length_fmap, length_seqZ. destruct Hok as [Hz _]. unfold zlen in Hz. lia.
  - intros i Hi. unfold zlen in Hi. rewrite length_fmap, length_seqZ in Hi. change (Z.of_nat (Z.to_nat BOARD_SIZE)) with BOARD_SIZE in Hi.
    rewrite (nthZ_lookup 0 _ i (int_at (encode board) i)); [by apply int_encode|lia|].
    rewrite list_lookup_fmap, lookup_seqZ_lt by lia. cbn [fmap option_fmap option_map]. by rewrite Z.add_0_l, Z2Nat.id by lia.
Qed.

Lemma patch_all d bs : zlen bs = zlen d -> patch d 0 bs = bs.
Proof.
  intros Hz. apply (nthZ_ext 0).
  - apply Nat2Z.inj. change (zlen (patch d 0 bs) = zlen bs). rewrite zlen_patch; lia.
  - intros i Hi. rewrite zlen_patch in Hi by lia. rewrite nthZ_patch by lia. rewrite decide_True by lia. f_equal. lia.
Qed.

Lemma end_signal d : zlen d = 36 -> int_at (patch d 0 (le_bytes 4 endSignal)) 0 = endSignal /\ zlen (patch d 0 (le_bytes 4 endSignal)) = 36.
Proof.
  intros Hz. change (patch d 0 (le_bytes 4 endSignal)) with (put32 d 0 endSignal). split; [|rewrite zlen_put32; lia].
  unfold int_at. change (4 * 0) with 0. rewrite get32_put32_same by lia. by vm_compute.
Qed.

Lemma move_bytes m : 0 <= m < BOARD_SIZE -> s32 (le_val (take 4 (le_bytes 4 m))) = m.
Proof.
  unfold BOARD_SIZE. intros Hm. rewrite take_ge by done. rewrite le_val_bytes. change (2 ^ (8 * Z.of_nat 4)) with (2 ^ 32).
  rewrite Z.mod_small by lia. apply s32_small. lia.
Qed.

(** ** Every interleaving *)

#[local] Opaque text printBoard verdict isGameOver empty_board encode decode getValidRandomMove.

Definition quiet (g : game) (c : bool) : Prop :=
  p_pc (pl g c) = Reading /\ zlen (p_buf (pl g c)) = 36 /\ to g c = [] /\ from g c = [].

(** The player has been asked for a move, has the board, or has answered. *)
Inductive asked (g : game) (c : bool) (board : list Z) : Prop :=
| A_sent : p_pc (pl g c) = Reading -> to g c = encode board -> from g c = [] -> asked g c board
| A_thinking : p_pc (pl g c) = Moving -> to g c = [] -> from g c = [] -> decode (p_buf (pl g c)) = board -> asked g c board
| A_answered m : p_pc (pl g c) = Reading -> to g c = [] -> from g c = le_bytes 4 m ->
    0 <= m < BOARD_SIZE -> cell board m = EMPTY -> asked g c board.

(** The player is told to stop, or has. *)
Inductive leaving (g : game) (c : bool) : Prop :=
| L_told : p_pc (pl g c) = Reading -> zlen (p_buf (pl g c)) = 36 -> to g c = le_bytes 4 endSignal -> from g c = [] -> leaving g c
| L_left : p_pc (pl g c) = Left_ -> to g c = [] -> from g c = [] -> leaving g c.

Definition over (g : game) (t : list Z) : Prop :=
  isGameOver (r_board (ref g)) = true /\ out g = t ++ verdict (r_board (ref g)).

Definition phase (g : game) (b : bool) (t : list Z) : Prop :=
  match r_pc (ref g) with
  | Loop => out g = t /\ forall c, quiet g c
  | Asked => out g = t /\ isGameOver (r_board (ref g)) = false /\ quiet g (negb b) /\
      zlen (p_buf (pl g b)) = 36 /\ asked g b (r_board (ref g))
  | End1 => over g t /\ forall c, quiet g c
  | End2 => over g t /\ leaving g true /\ quiet g false
  | Wait1 | Wait2 => over g t /\ forall c, leaving g c
  | Exited => over g t /\ forall c, p_pc (pl g c) = Left_ /\ to g c = [] /\ from g c = []
  end.

Definition inv (g : game) : Prop :=
  exists b t, played b (r_board (ref g)) t /\ r_current (ref g) = mark_of b /\ phase g b t.

(** How many steps are left at most. *)
Definition alive (p : player) : nat := match p_pc p with Left_ => 0 | _ => 1 end.
Definition measure (g : game) : nat :=
  let e := Z.to_nat (count EMPTY (r_board (ref g))) in
  let n := (alive (pl g true) + alive (pl g false))%nat in
  let b := turn_of (ref g) in
  match r_pc (ref g) with
  | Loop => 4 * e + 12
  | Asked => 4 * e + 9 + match p_pc (pl g b), to g b with Moving, _ => 1 | _, [] => 0 | _, _ => 2 end
  | End1 => 4 + n
  | End2 => 3 + n
  | Wait1 => 2 + n
  | Wait2 => 1 + n
  | Exited => n
  end.

Lemma turn_mark b board m pc : turn_of (Referee pc board (mark_of b) m) = b.
Proof. by destruct b. Qed.

Lemma bset_eq {A} (f : bool -> A) b x : bset f b x b = x.
Proof. unfold bset. by rewrite Bool.eqb_reflx. Qed.
Lemma bset_ne {A} (f : bool -> A) b x : bset f b x (negb b) = f (negb b).
Proof. unfold bset. by destruct b. Qed.

Lemma both (P : bool -> Prop) b : P b -> P (negb b) -> forall c, P c.
Proof. intros H1 H2 c. by destruct b, c. Qed.

Lemma encode_cons board : board_ok board -> exists x l, encode board = x :: l.
Proof.
  intros [Hz _]. pose proof (zlen_encode board) as He. destruct (encode board) as [|x l]; [|by eexists _, _].
  rewrite Hz in He. by vm_compute in He.
Qed.

Lemma accept_valid b m board : 0 <= m < BOARD_SIZE -> cell board m = EMPTY ->
  accept b m board = (updZ m (mark_of b) board, move_text b m).
Proof.
  intros Hm He. unfold accept. destruct (Z.leb_spec 0 m); [|lia]. destruct (Z.ltb_spec m BOARD_SIZE); [|lia]. rewrite He, Z.eqb_refl. by destruct b.
Qed.

Lemma count_drops b board t m : played b board t -> 0 <= m < BOARD_SIZE -> cell board m = EMPTY ->
  0 <= count EMPTY (updZ m (mark_of b) board) /\ count EMPTY (updZ m (mark_of b) board) = count EMPTY board - 1.
Proof.
  intros Hp Hm He. destruct (played_ok b board t Hp) as ([Hz _] & _). split; [apply count_nonneg|].
  by destruct (count_insert (mark_of b) EMPTY board m ltac:(lia) He ltac:(by destruct b)) as (_ & H2 & _).
Qed.

(** The referee in its loop. *)
Lemma ref_loop_step g g' b t : played b (r_board (ref g)) t -> r_current (ref g) = mark_of b -> phase g b t ->
  r_pc (ref g) = Loop -> ref_step g = Some g' -> inv g' /\ (measure g' < measure g)%nat.
Proof.
  intros Hp Hc Hph Hpc. unfold ref_step, phase in *. rewrite Hpc in *. destruct Hph as [Ho Hq].
  destruct (played_ok _ _ _ Hp) as (Hok & _). destruct g as [[pc board cur mv] P T F o]. cbn [ref r_board r_current r_pc r_move pl to from out] in *. subst pc cur o.
  destruct (isGameOver board) eqn:Eo; intros [= <-].
  - split; [exists b, t; split; [done|]; split; [done|]; by split|]. unfold measure. cbn [ref r_pc r_board pl]. unfold alive.
    destruct (p_pc (P true)), (p_pc (P false)); lia.
  - destruct (Hq b) as (H1 & H2 & H3 & H4). cbn [pl to from] in H1, H2, H3, H4. unfold tell. rewrite turn_mark. cbn [pl to]. rewrite H1.
    split.
    + exists b, t. split; [done|]. split; [done|]. cbn [phase ref r_pc out]. split; [done|]. split; [done|]. split; [|split; [done|]].
      * destruct (Hq (negb b)) as (? & ? & ? & ?). split; [done|]. split; [done|]. split; [|done]. cbn [to]. by rewrite bset_ne.
      * apply A_sent; [done| |done]. cbn [to]. by rewrite bset_eq, H3.
    + unfold measure. cbn [ref r_pc r_board pl to]. rewrite turn_mark, bset_eq, H3, H1.
      destruct (encode_cons board Hok) as (x & l & ->). cbn [app]. lia.
Qed.

(** The referee with an answer. *)
Lemma ref_asked_step g g' b t : played b (r_board (ref g)) t -> r_current (ref g) = mark_of b -> phase g b t ->
  r_pc (ref g) = Asked -> ref_step g = Some g' -> inv g' /\ (measure g' < measure g)%nat.
Proof.
  intros Hp Hc Hph Hpc. unfold ref_step, phase in *. rewrite Hpc in *. destruct Hph as (Ho & Hover & Hq & Hz & Ha).
  destruct g as [[pc board cur mv] P T F o]. cbn [ref r_board r_current r_pc r_move pl to from out] in *. subst pc cur o. rewrite turn_mark.
  destruct Ha as [H1 H2 H3|H1 H2 H3 H4|m H1 H2 H3 Hm He]; cbn [pl to from] in *; rewrite H3; [by rewrite H1..|].
  change (le_bytes 4 m) with (u8 m :: le_bytes 3 (m / 256)) at 1. cbv iota. change (u8 m :: le_bytes 3 (m / 256)) with (le_bytes 4 m).
  rewrite move_bytes, accept_valid by done. intros [= <-]. destruct (count_drops b board t m Hp Hm He) as [Hd1 Hd2]. split.
  - exists (negb b), (t ++ move_text b m ++ printBoard (updZ m (mark_of b) board)). cbn [ref r_board r_current]. split; [by apply P_move|].
    split; [by destruct b|]. cbn [phase ref r_pc out]. split; [done|]. apply (both _ b).
    + split; [done|]. split; [done|]. split; [done|]. cbn [from]. by rewrite bset_eq.
    + destruct Hq as (? & ? & ? & ?). split; [done|]. split; [done|]. split; [done|]. cbn [from]. by rewrite bset_ne.
  - unfold measure. cbn [ref r_pc r_board pl to]. rewrite Hd2. lia.
Qed.

(** The referee after the game. *)
Lemma ref_end_step g g' b t : played b (r_board (ref g)) t -> r_current (ref g) = mark_of b -> phase g b t ->
  r_pc (ref g) <> Loop -> r_pc (ref g) <> Asked -> ref_step g = Some g' -> inv g' /\ (measure g' < measure g)%nat.
Proof.
  intros Hp Hc Hph Hn1 Hn2. unfold ref_step, phase in *.
  destruct g as [[pc board cur mv] P T F o]. cbn [ref r_board r_current r_pc r_move pl to from out] in *. subst cur. unfold tell. cbn [pl to].
  destruct pc; try done.
  - destruct Hph as [Hov Hq]. destruct (Hq true) as (H1 & H2 & H3 & H4). destruct (Hq false) as (H1' & H2' & H3' & H4'). cbn [pl to from] in *. rewrite H1. intros [= <-].
    split; [|unfold measure; cbn [ref r_pc pl]; lia]. exists b, t. split; [done|]. split; [done|]. split; [done|]. split.
    + apply L_told; try done. cbn [to]. by rewrite (bset_eq T true), H3.
    + split; [done|]. split; [done|]. split; [|done]. cbn [to]. by rewrite (bset_ne T true).
  - destruct Hph as (Hov & Hl & H1 & H2 & H3 & H4). cbn [pl to from] in *. rewrite H1. intros [= <-].
    split; [|unfold measure; cbn [ref r_pc pl]; lia]. exists b, t. split; [done|]. split; [done|]. split; [done|]. apply (both _ true); cbn [negb].
    + destruct Hl as [L1 L2 L3 L4|L1 L2 L3]; cbn [pl to from] in *; [apply L_told|apply L_left]; try done; cbn [to]; by rewrite (bset_ne T false).
    + apply L_told; try done. cbn [to]. by rewrite (bset_eq T false), H3.
  - destruct Hph as (Hov & Hl). intros E. assert (g' = Game (Referee Wait2 board (mark_of b) mv) P T F o) as -> by (destruct (p_pc (P true)), (p_pc (P false)); congruence).
    split; [|unfold measure; cbn [ref r_pc pl]; lia]. exists b, t. split; [done|]. split; [done|]. split; [done|].
    intros c. destruct (Hl c); [by apply L_told|by apply L_left].
  - destruct Hph as (Hov & Hl). destruct (p_pc (P true)) eqn:E1, (p_pc (P false)) eqn:E2; try done. intros [= <-].
    split; [|unfold measure; cbn [ref r_pc pl]; lia]. exists b, t. split; [done|]. split; [done|]. split; [done|].
    intros c. destruct (Hl c) as [L1 _ _ _|L1 L2 L3]; cbn [pl to from] in *; [destruct c; congruence|done].
Qed.

(** A player's step. *)
Lemma player_asked_step g g' b t seed : played b (r_board (ref g)) t -> r_current (ref g) = mark_of b -> phase g b t ->
  r_pc (ref g) = Asked -> player_step b seed g = Some g' -> inv g' /\ (measure g' < measure g)%nat.
Proof.
  intros Hp Hc Hph Hpc. unfold player_step, phase in *. rewrite Hpc in *. destruct Hph as (Ho & Hover & (Q1 & Q2 & Q3 & Q4) & Hz & Ha).
  destruct (played_ok _ _ _ Hp) as (Hok & Hbal & _).
  destruct g as [[pc board cur mv] P T F o]. cbn [ref r_board r_current r_pc r_move pl to from out] in *. subst pc cur o.
  destruct Ha as [H1 H2 H3|H1 H2 H3 H4|m H1 H2 H3 Hm He]; cbn [pl to from] in *; rewrite H1; [| |by rewrite H2].
  - rewrite H2. destruct (encode_cons board Hok) as (x & l & El). rewrite El. cbv iota zeta. rewrite <- El.
    assert (Hlen : zlen (encode board) = 36) by (rewrite zlen_encode, (proj1 Hok); done).
    change (Z.to_nat (4 * BOARD_SIZE)) with 36%nat. rewrite take_ge, drop_ge by (unfold zlen in Hlen; lia). rewrite patch_all by lia.
    rewrite int_encode by done. destruct (mark_small _ (board_cell board 0 Hok ltac:(lia))) as [_ Hne]. destruct (Z.eqb_spec (cell board 0) endSignal); [done|].
    intros [= <-]. split.
    + exists b, t. split; [done|]. split; [done|]. cbn [phase ref r_pc out r_board]. split; [done|]. split; [done|]. split; [|split].
      * split; cbn [pl to from]; rewrite ?bset_ne; done.
      * cbn [pl]. rewrite bset_eq. done.
      * apply A_thinking; cbn [pl to from]; rewrite ?bset_eq; try done. by apply decode_encode.
    + unfold measure. cbn [ref r_pc r_board pl to]. rewrite turn_mark, !bset_eq, H1, H2, El. cbn [p_pc]. lia.
  - rewrite H4, H3. intros [= <-]. apply (isGameOver_spec _ _ Hok Hbal) in Hover as Hov. destruct Hov as [_ Hemp].
    destruct (move_valid board seed (proj1 Hok) Hemp) as [Hm He]. split.
    + exists b, t. split; [done|]. split; [done|]. cbn [phase ref r_pc out r_board]. split; [done|]. split; [done|]. split; [|split].
      * split; cbn [pl to from]; rewrite ?bset_ne; done.
      * cbn [pl]. rewrite bset_eq. done.
      * eapply A_answered; cbn [pl to from]; rewrite ?bset_eq; done.
    + unfold measure. cbn [ref r_pc r_board pl to]. rewrite turn_mark, !bset_eq, H1, H2. cbn [p_pc]. lia.
Qed.

Lemma quiet_stuck g c seed : quiet g c -> r_pc (ref g) <> Exited -> player_step c seed g = None.
Proof. intros (H1 & _ & H3 & _) Hpc. unfold player_step. rewrite H1, H3. by destruct (r_pc (ref g)). Qed.

(** A player that is told to stop stops. *)
Lemma leaving_step g g' c seed : leaving g c -> player_step c seed g = Some g' -> r_pc (ref g) <> Exited ->
  g' = Game (ref g) (pl g') (to g') (from g) (out g) /\ p_pc (pl g' c) = Left_ /\ to g' c = [] /\ from g c = [] /\
  pl g' (negb c) = pl g (negb c) /\ to g' (negb c) = to g (negb c) /\ p_pc (pl g c) = Reading.
Proof.
  intros Hl Hs Hpc. unfold player_step in Hs. destruct Hl as [H1 H2 H3 H4|H1 H2 H3]; rewrite H1 in Hs; [|done]. rewrite H3 in Hs.
  change (le_bytes 4 endSignal) with (157 :: 255 :: 255 :: 255 :: @nil Z) in Hs. cbv iota zeta in Hs.
  change (157 :: 255 :: 255 :: 255 :: @nil Z) with (le_bytes 4 endSignal) in Hs. change (Z.to_nat (4 * BOARD_SIZE)) with 36%nat in Hs.
  rewrite take_ge in Hs by (rewrite length_le_bytes; lia). destruct (end_signal (p_buf (pl g c)) H2) as [E _]. rewrite E, Z.eqb_refl in Hs. injection Hs as <-.
  cbn [ref pl to from out]. rewrite !bset_eq, !bset_ne. done.
Qed.

Lemma leaving_other g c x : ref x = ref g -> pl x (negb c) = pl g (negb c) -> to x (negb c) = to g (negb c) -> from x = from g ->
  leaving g (negb c) -> leaving x (negb c).
Proof. intros _ Hp Ht Hf [H1 H2 H3 H4|H1 H2 H3]; [apply L_told|apply L_left]; by rewrite ?Hp, ?Ht, ?Hf. Qed.

Lemma alive_drops p q p' q' : p_pc p = Reading -> p_pc p' = Left_ -> q' = q -> (alive p' + alive q' < alive p + alive q)%nat.
Proof. intros H1 H2 ->. unfold alive. rewrite H1, H2. lia. Qed.

Lemma player_leaves g g' b t c seed : played b (r_board (ref g)) t -> r_current (ref g) = mark_of b -> phase g b t -> leaving g c ->
  r_pc (ref g) = Wait1 \/ r_pc (ref g) = Wait2 \/ (r_pc (ref g) = End2 /\ c = true) ->
  player_step c seed g = Some g' -> inv g' /\ (measure g' < measure g)%nat.
Proof.
  intros Hp Hc Hph Hl Hpc Hs. assert (Hne : r_pc (ref g) <> Exited) by (destruct Hpc as [->|[->|[-> _]]]; done).
  destruct (leaving_step g g' c seed Hl Hs Hne) as (-> & Hleft & Hto & Hfrom & Hpl & Hto' & Hrd). set (x := Game _ _ _ _ _) in *.
  assert (Hlc : leaving x c) by (by apply L_left).
  assert (Hm : (measure x < measure g)%nat).
  { assert (Ha : (alive (pl x true) + alive (pl x false) < alive (pl g true) + alive (pl g false))%nat).
    { destruct c; [by apply alive_drops|]. rewrite (Nat.add_comm (alive (pl x true))), (Nat.add_comm (alive (pl g true))). by apply alive_drops. }
    unfold measure. change (ref x) with (ref g). destruct Hpc as [->|[->|[-> _]]]; lia. }
  split; [|done]. exists b, t. split; [done|]. split; [done|]. unfold phase in *. change (ref x) with (ref g).
  assert (Hov : over g t -> over x t) by done.
  destruct Hpc as [E|[E|[E ->]]]; rewrite E in *.
  - destruct Hph as [Ho Hall]. split; [auto|]. apply (both _ c); [done|]. by apply (leaving_other g).
  - destruct Hph as [Ho Hall]. split; [auto|]. apply (both _ c); [done|]. by apply (leaving_other g).
  - destruct Hph as (Ho & _ & Q1 & Q2 & Q3 & Q4). split; [auto|]. split; [done|]. cbn [negb] in *.
    split; [by rewrite Hpl|]. split; [by rewrite Hpl|]. split; [by rewrite Hto'|done].
Qed.

(** Every step keeps the invariant and comes closer to the end. *)
Lemma inv_step g g' : inv g -> step g g' -> inv g' /\ (measure g' < measure g)%nat.
Proof.
  intros (b & t & Hp & Hc & Hph) Hs. destruct (r_pc (ref g)) eqn:Hpc; destruct Hs as [g' Hs|c seed g' _ Hs];
    try (by eapply ref_end_step; [done..|by rewrite Hpc|by rewrite Hpc|exact Hs]).
  - by eapply ref_loop_step.
  - unfold phase in Hph. rewrite Hpc in Hph. rewrite quiet_stuck in Hs; [done|by apply Hph|by rewrite Hpc].
  - by eapply ref_asked_step.
  - destruct (decide (c = b)) as [->|Hne]; [by eapply player_asked_step|].
    unfold phase in Hph. rewrite Hpc in Hph. replace c with (negb b) in Hs by (by destruct b, c).
    rewrite quiet_stuck in Hs; [done|by apply Hph|by rewrite Hpc].
  - unfold phase in Hph. rewrite Hpc in Hph. rewrite quiet_stuck in Hs; [done|by apply Hph|by rewrite Hpc].
  - assert (Hph' := Hph). unfold phase in Hph'. rewrite Hpc in Hph'. destruct Hph' as (_ & Hl & Hq). destruct c.
    + eapply player_leaves; try done. tauto.
    + rewrite quiet_stuck in Hs; [done|done|by rewrite Hpc].
  - assert (Hph' := Hph). unfold phase in Hph'. rewrite Hpc in Hph'. eapply player_leaves; try done; [apply Hph'|tauto].
  - assert (Hph' := Hph). unfold phase in Hph'. rewrite Hpc in Hph'. eapply player_leaves; try done; [apply Hph'|tauto].
  - unfold phase in Hph. rewrite Hpc in Hph. destruct Hph as [_ Hall]. destruct (Hall c) as [E _]. unfold player_step in Hs. by rewrite E in Hs.
Qed.

(** The end: all three have exited, and what was printed is the transcript of
    a legal game and its verdict. *)
Definition finished (g : game) : Prop :=
  r_pc (ref g) = Exited /\ (forall c, p_pc (pl g c) = Left_) /\
  exists b t, played b (r_board (ref g)) t /\ out g = t ++ verdict (r_board (ref g)) /\
    (checkWin (r_board (ref g)) = mark_of (negb b) /\ line (mark_of (negb b)) (r_board (ref g)) /\ ~ line (mark_of b) (r_board (ref g)) \/
     checkWin (r_board (ref g)) = 0 /\ ~ line PLAYER_X (r_board (ref g)) /\ ~ line PLAYER_O (r_board (ref g)) /\ count EMPTY (r_board (ref g)) = 0).

Lemma asked_step g c board : asked g c board -> board_ok board -> from g c = [] -> exists g', player_step c 0 g = Some g'.
Proof.
  intros Ha Hok Hf. unfold player_step. destruct Ha as [H1 H2 H3|H1 H2 H3 H4|m H1 H2 H3 Hm He]; rewrite H1.
  - rewrite H2. destruct (encode_cons board Hok) as (x & l & ->). by eexists.
  - by eexists.
  - rewrite Hf in H3. apply (f_equal length) in H3. by rewrite length_le_bytes in H3.
Qed.

Lemma leaving_can g c : leaving g c -> p_pc (pl g c) = Left_ \/ exists g', player_step c 0 g = Some g'.
Proof.
  intros [H1 H2 H3 H4|H1 H2 H3]; [right|by left]. unfold player_step. rewrite H1, H3.
  change (le_bytes 4 endSignal) with (157 :: 255 :: 255 :: 255 :: @nil Z). by eexists.
Qed.

(** Before that, some process can go on. *)
Lemma inv_progress g : inv g -> finished g \/ exists g', step g g'.
Proof.
  intros (b & t & Hp & Hc & Hph). unfold phase in Hph. assert (Hstep : (exists g', ref_step g = Some g') -> exists g', step g g') by (intros [g' E]; exists g'; by constructor).
  assert (Hpl : forall c, (exists g', player_step c 0 g = Some g') -> exists g', step g g') by (intros c [g' E]; exists g'; by apply (PlayerStep g c 0)).
  destruct (r_pc (ref g)) eqn:Hpc.
  - right. apply Hstep. unfold ref_step. rewrite Hpc. destruct (isGameOver _); by eexists.
  - right. destruct Hph as (_ & _ & _ & _ & Ha). destruct (from g b) as [|x l] eqn:Ef.
    + apply (Hpl b), (asked_step g b (r_board (ref g))); try done. by destruct (played_ok _ _ _ Hp).
    + apply Hstep. unfold ref_step. rewrite Hpc. replace (turn_of (ref g)) with b by (unfold turn_of; rewrite Hc; by destruct b). rewrite Ef.
      destruct (accept _ _ _). by eexists.
  - right. apply Hstep. unfold ref_step. rewrite Hpc. by eexists.
  - right. apply Hstep. unfold ref_step. rewrite Hpc. by eexists.
  - right. destruct Hph as [_ Hl]. destruct (leaving_can g true (Hl true)) as [E|E]; [|by apply (Hpl true)].
    apply Hstep. unfold ref_step. rewrite Hpc, E. by eexists.
  - right. destruct Hph as [_ Hl]. destruct (leaving_can g true (Hl true)) as [E1|E1]; [|by apply (Hpl true)].
    destruct (leaving_can g false (Hl false)) as [E2|E2]; [|by apply (Hpl false)]. apply Hstep. unfold ref_step. rewrite Hpc, E1, E2. by eexists.
  - left. destruct Hph as [[Ho Eout] Hall]. split; [done|]. split; [intros c; by destruct (Hall c)|]. exists b, t. split; [done|]. split; [done|]. by eapply verdict_spec.
Qed.

(** C40: the game of tic-tac-toe.  In every interleaving of the referee and
    the two players, with any seeds of their generators, the game takes at most
    48 steps, no process is ever stuck before the end, and at the end all three
    have exited and the terminal shows a legal game: moves on empty squares
    in turn until a line or a full board, then the right verdict, the winner
    being the last to move and the only one with three in a row.  Each pipe
    end is open in exactly one of the processes, so that the exit of one is
    seen at the other end. *)
Theorem oxo_correct (pid1 pid2 move0 : Z) (junk : bool -> list Z) (g0 g : game) (rf : list pend) (pf : bool -> list pend) (k : nat) :
  main true pid1 pid2 junk move0 = Running g0 rf pf -> (forall c, zlen (junk c) = 4 * BOARD_SIZE) -> nsteps step k g0 g ->
  (k <= 48)%nat /\ (finished g \/ exists g', step g g') /\ rf ++ pf true ++ pf false ≡ₚ all_ends.
Proof.
  intros Hm Hj Hrun. assert (Hends : rf ++ pf true ++ pf false ≡ₚ all_ends).
  { unfold main in Hm. cbn [negb] in Hm. destruct (pid1 <? 0); [done|]. destruct (pid2 <? 0); [done|]. injection Hm as _ <- <-.
    refine (bool_decide_unpack _ _). vm_compute. exact I. }
  assert (H0 : inv g0 /\ measure g0 = 48%nat).
  { unfold main in Hm. cbn [negb] in Hm. destruct (pid1 <? 0); [done|]. destruct (pid2 <? 0); [done|]. injection Hm as <- _ _.
    split; [|reflexivity]. exists true, (printBoard empty_board). split; [apply P_start|]. split; [done|]. split; [done|]. intros c. split; [done|]. split; [exact (Hj c)|done]. }
  destruct H0 as [Hi Hm0]. rewrite <- Hm0. clear Hm Hm0 Hj.
  assert (Hall : inv g /\ (k + measure g <= measure g0)%nat); [|destruct Hall; split; [lia|split; [by apply inv_progress|exact Hends]]].
  induction Hrun as [x|n x y z Hs _ IH]; [done|]. destruct (inv_step x y Hi Hs) as [Hy Hlt]. destruct (IH Hy). split; [done|lia].
Qed.

Lemma oxo_correct_witness :
  exists g0 g', main true 3 4 (fun _ => repeat 0 36) 0 = Running g0 referee_ends player_ends /\ ref_step g0 = Some g' /\
    (1 <= 48)%nat /\ (finished g' \/ exists g2, step g' g2) /\ referee_ends ++ player_ends true ++ player_ends false ≡ₚ all_ends.
Proof.
  eexists _, _. split; [reflexivity|]. split; [reflexivity|].
  apply (oxo_correct 3 4 0 (fun _ => repeat 0 36) _ _ _ _ 1 eq_refl ltac:(done)). apply nsteps_once. apply RefStep. reflexivity.
Defined.
