(* ===== verification/Devine.v ===== *)
(** * The guessing game (user/devine.c)

    The parent draws a number, the child guesses it by bisection; guesses and
    answers go through two pipes.  As in Oxo.v the processes are state machines
    whose steps interleave in any order; the two share the terminal, so each
    has an output of its own here.  The messages of the error exits are left
    out. *)

From Stdlib Require Import ZArith Lia.
From stdpp Require Import base numbers list list_numbers gmap strings.
From S2P Require Import Prelude Cstring Bytes Kernel Console User Ulib Uprintf.

Module Devine.
Definition MAX_NUMBER : Z := 100.
Definition MIN_NUMBER : Z := 1.

Definition generate_random_number (seed : Z) : Z :=
  let r := u32 (snd (Ulib.rand (Ulib.srand seed))) in
  r mod (MAX_NUMBER - MIN_NUMBER + 1) + MIN_NUMBER.

Inductive ppc := PRead | PWrite (feedback : Z) | PEnd | PWait | PExit (status : Z).
Inductive cpc := CLoop | CRead (guess : Z) | CExit (status : Z).

Record game := Game {
  parent : ppc;
  p_tries : Z;
  child : cpc;
  c_tries : Z;
  c_min : Z;
  c_max : Z;
  p1 : list Z;                       (** guesses, to the parent *)
  p2 : list Z;                       (** answers, to the child *)
  p_out : list Z;
  c_out : list Z
}.

Section Run.
(** The pids, max_tries and the number to guess. *)
Context (ppid cpid max_tries mystery : Z).

Definition nl : list Z := [10].
Definition start_text : list Z :=
  text (lit "<parent - PID : %d> : Game start - mystery number between 1 to 100 : %d" ++ nl) [AInt ppid; AInt mystery].
Definition guess_text (guess : Z) : list Z :=
  text (lit "<child - PID : %d> : send number (0 to 100) to parent --> %d" ++ nl) [AInt cpid; AInt guess].

(** The parent's answer to a guess, and what it prints. *)
Definition feedback_of (guess : Z) : Z :=
  if mystery <? guess then 1 else if guess <? mystery then -1 else 0.
Definition answer_text (guess tries : Z) : list Z :=
  if mystery <? guess then
    text (lit "<parent - PID : %d> : number given %d higher than mystery %d" ++ nl) [AInt ppid; AInt guess; AInt mystery]
  else if guess <? mystery then
    text (lit "<parent - PID : %d> : number given %d lesser than mystery %d" ++ nl) [AInt ppid; AInt guess; AInt mystery]
  else
    text (lit "<parent - PID : %d> : number found %d == %d in %d %s!!!" ++ nl)
      [AInt ppid; AInt guess; AInt mystery; AInt tries; AStr (Some (lit (if 1 <? tries then "tries" else "try")))].
Definition not_found_text : list Z :=
  text (lit "<parent - PID : %d> : number not found in %d tries" ++ nl) [AInt ppid; AInt max_tries].

Definition child_exited (g : game) : bool := match child g with CExit _ => true | _ => false end.
(** After its loop the parent closes its ends, then waits. *)
Definition parent_closed (g : game) : bool := match parent g with PWait | PExit _ => true | _ => false end.

Definition set_parent pc (g : game) := Game pc (p_tries g) (child g) (c_tries g) (c_min g) (c_max g) (p1 g) (p2 g) (p_out g) (c_out g).
Definition set_child pc (g : game) := Game (parent g) (p_tries g) pc (c_tries g) (c_min g) (c_max g) (p1 g) (p2 g) (p_out g) (c_out g).

(** An int from a pipe: the value, if the read() is complete, and the rest;
    [None] when it blocks. *)
Definition read_int (pipe : list Z) (writer_gone : bool) : option (option Z * list Z) :=
  match pipe with
  | [] => if writer_gone then Some (None, []) else None
  | bs => Some (if zlen (take 4 bs) =? 4 then Some (s32 (le_val (take 4 bs))) else None, drop 4 bs)
  end.

(** The parent from its loop to its exit(). *)
Definition parent_step (g : game) : option game :=
  match parent g with
  | PRead =>
      if p_tries g <? max_tries then
        match read_int (p1 g) (child_exited g) with
        | None => None
        | Some (None, _) => Some (set_parent (PExit 1) g)                       (* read error *)
        | Some (Some guess, rest) =>
            let tries := p_tries g + 1 in
            Some (Game (PWrite (feedback_of guess)) tries (child g) (c_tries g) (c_min g) (c_max g) rest (p2 g)
                    (p_out g ++ answer_text guess tries) (c_out g))
        end
      else Some (set_parent PEnd g)
  | PWrite feedback =>
      if child_exited g then Some (set_parent (PExit 1) g)                      (* write error *)
      else Some (Game (if feedback =? 0 then PEnd else PRead) (p_tries g) (child g) (c_tries g) (c_min g) (c_max g)
                   (p1 g) (p2 g ++ le_bytes 4 feedback) (p_out g) (c_out g))
  | PEnd =>
      Some (Game PWait (p_tries g) (child g) (c_tries g) (c_min g) (c_max g) (p1 g) (p2 g)
              (p_out g ++ (if p_tries g =? max_tries then not_found_text else [])) (c_out g))
  | PWait => if child_exited g then Some (set_parent (PExit 0) g) else None
  | PExit _ => None
  end.

Definition child_step (g : game) : option game :=
  match child g with
  | CLoop =>
      if c_tries g <? max_tries then
        let guess := Z.quot (c_min g + c_max g) 2 in
        if parent_closed g then                                                 (* write error *)
          Some (Game (parent g) (p_tries g) (CExit 1) (c_tries g + 1) (c_min g) (c_max g) (p1 g) (p2 g) (p_out g) (c_out g ++ guess_text guess))
        else Some (Game (parent g) (p_tries g) (CRead guess) (c_tries g + 1) (c_min g) (c_max g)
                     (p1 g ++ le_bytes 4 guess) (p2 g) (p_out g) (c_out g ++ guess_text guess))
      else Some (set_child (CExit 0) g)
  | CRead guess =>
      match read_int (p2 g) (parent_closed g) with
      | None => None
      | Some (None, _) => Some (set_child (CExit 1) g)                          (* read error *)
      | Some (Some feedback, rest) =>
          let go pc min max := Game (parent g) (p_tries g) pc (c_tries g) min max (p1 g) rest (p_out g) (c_out g) in
          Some (if feedback =? 1 then go CLoop (c_min g) (guess - 1)
                else if feedback =? -1 then go CLoop (guess + 1) (c_max g)
                else go (CExit 0) (c_min g) (c_max g))
      end
  | CExit _ => None
  end.

Inductive step (g : game) : game -> Prop :=
| ParentStep g' : parent_step g = Some g' -> step g g'
| ChildStep g' : child_step g = Some g' -> step g g'.

Definition start : game := Game PRead 0 CLoop 0 MIN_NUMBER MAX_NUMBER [] [] start_text [].
End Run.

Inductive started :=
| Failed (message : list Z) (status : Z)
| Running (ppid cpid max_tries mystery : Z) (g : game).

Definition usage : started := Failed (lit "Usage: devine <number of tries (> 0)>" ++ [10]) 1.

(** main() with its argument, what pipe() and fork() return, the pids and the
    clock. *)
Definition main (argv : list (list Z)) (pipes : bool) (pid ppid seed : Z) : started :=
  match argv with
  | [arg] =>
      let tries := Ulib.atoi arg in
      if tries <=? 0 then usage
      else if negb pipes then Failed (lit "pipe error" ++ [10]) 1
      else if pid <? 0 then Failed (lit "fork error" ++ [10]) 1
      else let mystery := generate_random_number seed in Running ppid pid tries mystery (start ppid mystery)
  | _ => usage
  end.
End Devine.
