(* ===== verification/DevineProof.v ===== *)
(** * The guessing game: the proofs

    In every interleaving the child's guesses are those of a bisection, which
    finds the number in at most seven tries. *)

From Stdlib Require Import ZArith Lia.
From stdpp Require Import base numbers list list_numbers gmap strings relations.
From S2P Require Import Prelude Cstring Bytes Kernel Console User Ulib Uprintf Devine.
Import Devine.

(** ** Bisection *)

(** The guesses of [n] tries. *)
Fixpoint bisect (n : nat) (lo hi m : Z) : list Z :=
  match n with
  | O => []
  | S k =>
      let g := Z.quot (lo + hi) 2 in
      g :: (if m <? g then bisect k lo (g - 1) m else if g <? m then bisect k (g + 1) hi m else [])
  end.

(** The last guess is the number once there are enough tries. *)
Lemma bisect_finds n : forall lo hi m, 0 <= lo -> lo <= m <= hi -> hi - lo + 1 < 2 ^ Z.of_nat n ->
  last (bisect n lo hi m) = Some m.
Proof.
  induction n as [|n IH]; intros lo hi m H0 Hm Hn; [change (2 ^ Z.of_nat 0) with 1 in Hn; lia|].
  rewrite Nat2Z.inj_succ, Z.pow_succ_r in Hn by lia. cbn [bisect]. set (g := Z.quot (lo + hi) 2).
  assert (Hg : g = (lo + hi) / 2) by (unfold g; apply Z.quot_div_nonneg; lia).
  assert (Hgr : lo <= g <= hi /\ 2 * g <= lo + hi <= 2 * g + 1) by (rewrite Hg; Z.div_mod_to_equations; lia). clearbody g. clear Hg.
  assert (Hne : forall l, last l = Some m -> last (g :: l) = Some m) by (intros [|x l]; [done|]; by intros E).
  destruct (Z.ltb_spec m g); [apply Hne, IH; lia|]. destruct (Z.ltb_spec g m); [apply Hne, IH; lia|]. cbn. f_equal. lia.
Qed.

Lemma bisect_length n lo hi m : (length (bisect n lo hi m) <= n)%nat.
Proof.
  revert lo hi. induction n as [|n IH]; intros lo hi; [done|]. cbn [bisect length]. destruct (m <? _); [specialize (IH lo (Z.quot (lo + hi) 2 - 1)); lia|].
  destruct (_ <? m); [specialize (IH (Z.quot (lo + hi) 2 + 1) hi); lia|cbn; lia].
Qed.

(** ** The game *)

Section Game.
Context (ppid cpid max m : Z).
Hypothesis Hmax : 0 < max.
Hypothesis Hm : MIN_NUMBER <= m <= MAX_NUMBER.

Notation pstep := (parent_step ppid max m).
Notation cstep := (child_step cpid max).
Notation gstep := (step ppid cpid max m).

(** What the two processes print for the guesses from try [k] on. *)
Fixpoint answers (k : Z) (gs : list Z) : list Z :=
  match gs with [] => [] | g :: gs' => answer_text ppid m g (k + 1) ++ answers (k + 1) gs' end.
Fixpoint guesses (gs : list Z) : list Z :=
  match gs with [] => [] | g :: gs' => guess_text cpid g ++ guesses gs' end.

Definition all : list Z := bisect (Z.to_nat max) MIN_NUMBER MAX_NUMBER m.
Definition shown : list Z := start_text ppid m ++ answers 0 all.
Definition rest (k lo hi : Z) : list Z := bisect (Z.to_nat (max - k)) lo hi m.
Definition final (tries : Z) : list Z := if tries =? max then not_found_text ppid max else [].

Definition said : list Z := guesses all.
Definition guess (lo hi : Z) : Z := Z.quot (lo + hi) 2.

(** The child has [lo, hi] to search after [k] tries. *)
Record round (g : game) (k lo hi : Z) : Prop := {
  ro_k : 0 <= k < max;
  ro_range : MIN_NUMBER <= lo /\ lo <= m <= hi /\ hi <= MAX_NUMBER;
  ro_min : c_min g = lo;
  ro_max : c_max g = hi;
  ro_count : k + zlen (rest k lo hi) = zlen all
}.

(** The parent is through with its loop: [k] tries, and how far it is. *)
Inductive parent_done (g : game) : Prop :=
| PD_loop : parent g = PRead -> p_tries g = max -> p_out g = shown -> parent_done g
| PD_end : parent g = PEnd -> p_out g = shown -> parent_done g
| PD_wait : parent g = PWait -> p_out g = shown ++ final (p_tries g) -> parent_done g
| PD_exit : parent g = PExit 0 -> child g = CExit 0 -> p_out g = shown ++ final (p_tries g) -> parent_done g.

(** So is the child, or will be after the last answer. *)
Inductive child_done (g : game) : Prop :=
| CD_read x fb : child g = CRead x -> p2 g = le_bytes 4 fb -> fb = 0 \/ c_tries g = max /\ (fb = 1 \/ fb = -1) -> child_done g
| CD_loop : child g = CLoop -> c_tries g = max -> p2 g = [] -> child_done g
| CD_exit : child g = CExit 0 -> p2 g = [] -> child_done g.

(** A round: the child is about to guess, the guess is in the pipe, the parent
    has judged it, the answer is in the pipe; or the game is over. *)
Inductive inv (g : game) : Prop :=
| I_top k lo hi : round g k lo hi -> parent g = PRead -> p_tries g = k -> child g = CLoop -> c_tries g = k ->
    p1 g = [] -> p2 g = [] -> p_out g ++ answers k (rest k lo hi) = shown -> c_out g ++ guesses (rest k lo hi) = said -> inv g
| I_sent k lo hi : round g k lo hi -> parent g = PRead -> p_tries g = k -> child g = CRead (guess lo hi) -> c_tries g = k + 1 ->
    p1 g = le_bytes 4 (guess lo hi) -> p2 g = [] ->
    p_out g ++ answers k (rest k lo hi) = shown -> c_out g ++ guesses (tail (rest k lo hi)) = said -> inv g
| I_judged k lo hi : round g k lo hi -> parent g = PWrite (feedback_of m (guess lo hi)) -> p_tries g = k + 1 ->
    child g = CRead (guess lo hi) -> c_tries g = k + 1 -> p1 g = [] -> p2 g = [] ->
    p_out g ++ answers (k + 1) (tail (rest k lo hi)) = shown -> c_out g ++ guesses (tail (rest k lo hi)) = said -> inv g
| I_answered k lo hi : round g k lo hi -> k + 1 < max -> guess lo hi <> m -> parent g = PRead -> p_tries g = k + 1 ->
    child g = CRead (guess lo hi) -> c_tries g = k + 1 -> p1 g = [] -> p2 g = le_bytes 4 (feedback_of m (guess lo hi)) ->
    p_out g ++ answers (k + 1) (tail (rest k lo hi)) = shown -> c_out g ++ guesses (tail (rest k lo hi)) = said -> inv g
| I_done : parent_done g -> child_done g -> p1 g = [] -> p_tries g = zlen all -> c_out g = said -> inv g.

Definition measure (g : game) : nat :=
  match parent g, child g with
  | PRead, CLoop => if p_tries g =? max then 4 else 4 * Z.to_nat (max - p_tries g) + 10
  | PRead, CRead _ => if p_tries g =? max then 5 else
      match p1 g with [] => 4 * Z.to_nat (max - p_tries g) + 11 | _ => 4 * Z.to_nat (max - p_tries g) + 9 end
  | PRead, CExit _ => 3
  | PWrite _, _ => 4 * Z.to_nat (max - p_tries g) + 12
  | PEnd, CLoop => 3 | PEnd, CRead _ => 4 | PEnd, CExit _ => 2
  | PWait, CLoop => 2 | PWait, CRead _ => 3 | PWait, CExit _ => 1
  | PExit _, _ => 0
  end.

(** ** Facts about a round *)

Lemma guess_range g k lo hi : round g k lo hi -> lo <= guess lo hi <= hi /\ 1 <= guess lo hi <= 100.
Proof.
  intros [_ Hr _ _ _]. unfold guess, MIN_NUMBER, MAX_NUMBER in *. rewrite Z.quot_div_nonneg by lia. Z.div_mod_to_equations. lia.
Qed.

Lemma rest_cons k lo hi : 0 <= k < max ->
  rest k lo hi = guess lo hi :: (if m <? guess lo hi then rest (k + 1) lo (guess lo hi - 1)
                               else if guess lo hi <? m then rest (k + 1) (guess lo hi + 1) hi else []).
Proof.
  intros Hk. unfold rest. replace (Z.to_nat (max - k)) with (S (Z.to_nat (max - (k + 1)))) by lia. reflexivity.
Qed.

Lemma rest_last k lo hi : k = max -> rest k lo hi = [].
Proof. intros ->. unfold rest. by rewrite Z.sub_diag. Qed.

Lemma int_bytes x : - 2 ^ 31 <= x < 2 ^ 31 -> s32 (le_val (take 4 (le_bytes 4 x))) = x.
Proof.
  intros Hx. rewrite take_ge by (rewrite length_le_bytes; lia). rewrite le_val_bytes. change (2 ^ (8 * Z.of_nat 4)) with (2 ^ 32).
  change (2 ^ 31) with 2147483648 in Hx. word.
Qed.

Lemma read_int_ok x gone : - 2 ^ 31 <= x < 2 ^ 31 -> read_int (le_bytes 4 x) gone = Some (Some x, []).
Proof.
  intros Hx. pose proof (int_bytes x Hx) as E. unfold read_int. destruct (le_bytes 4 x) as [|y l] eqn:El; [by apply (f_equal length) in El; rewrite length_le_bytes in El|].
  rewrite <- El in *. rewrite E. rewrite drop_ge, take_ge by (rewrite length_le_bytes; lia). by rewrite zlen_le_bytes.
Qed.

Lemma feedback_range x : feedback_of m x = 1 \/ feedback_of m x = -1 \/ feedback_of m x = 0.
Proof. unfold feedback_of. destruct (m <? x); [tauto|]. destruct (x <? m); tauto. Qed.

Lemma feedback_zero x : feedback_of m x = 0 <-> x = m.
Proof. unfold feedback_of. destruct (Z.ltb_spec m x); [lia|]. destruct (Z.ltb_spec x m); lia. Qed.

Lemma feedback_small x : - 2 ^ 31 <= feedback_of m x < 2 ^ 31.
Proof. destruct (feedback_range x) as [->|[->| ->]]; lia. Qed.

(** ** Steps *)

#[local] Opaque start_text guess_text answer_text not_found_text le_bytes read_int all rest shown said.

Lemma top_step g g' k lo hi : round g k lo hi -> parent g = PRead -> p_tries g = k -> child g = CLoop -> c_tries g = k ->
  p1 g = [] -> p2 g = [] -> p_out g ++ answers k (rest k lo hi) = shown -> c_out g ++ guesses (rest k lo hi) = said ->
  gstep g g' -> inv g' /\ (measure g' < measure g)%nat.
Proof.
  intros Hr H1 H2 H3 H4 H5 H6 Ho Hg Hs. pose proof (ro_k _ _ _ _ Hr) as Hk. destruct Hs as [g' Hs|g' Hs].
  - unfold parent_step in Hs. rewrite H1, H2, H5 in Hs. destruct (Z.ltb_spec k max); [|lia]. unfold child_exited in Hs. by rewrite H3 in Hs.
  - unfold child_step in Hs. rewrite H3, H4 in Hs. destruct (Z.ltb_spec k max); [|lia]. unfold parent_closed in Hs. rewrite H1 in Hs.
    rewrite (ro_min _ _ _ _ Hr), (ro_max _ _ _ _ Hr), H5 in Hs. injection Hs as <-. split.
    + eapply (I_sent _ k lo hi); cbn [parent p_tries child c_tries p1 p2 p_out c_out]; try assumption; try reflexivity; [by destruct Hr; split|].
      rewrite rest_cons in Hg by done. rewrite rest_cons by done. cbn [guesses tail] in *. rewrite <- app_assoc. exact Hg.
    + unfold measure. cbn [parent p_tries child p1]. rewrite H1, H2, H3. destruct (Z.eqb_spec k max); [lia|].
      destruct (le_bytes 4 _) eqn:E; [apply (f_equal length) in E; by rewrite length_le_bytes in E|lia].
Qed.

Lemma sent_step g g' k lo hi : round g k lo hi -> parent g = PRead -> p_tries g = k -> child g = CRead (guess lo hi) -> c_tries g = k + 1 ->
  p1 g = le_bytes 4 (guess lo hi) -> p2 g = [] ->
  p_out g ++ answers k (rest k lo hi) = shown -> c_out g ++ guesses (tail (rest k lo hi)) = said ->
  gstep g g' -> inv g' /\ (measure g' < measure g)%nat.
Proof.
  intros Hr H1 H2 H3 H4 H5 H6 Ho Hg Hs. pose proof (ro_k _ _ _ _ Hr) as Hk. pose proof (guess_range _ _ _ _ Hr) as Hgr. destruct Hs as [g' Hs|g' Hs].
  - unfold parent_step in Hs. rewrite H1, H2, H5 in Hs. destruct (Z.ltb_spec k max); [|lia]. rewrite read_int_ok in Hs by lia. injection Hs as <-. split.
    + eapply (I_judged _ k lo hi); cbn [parent p_tries child c_tries p1 p2 p_out c_out]; try assumption; try reflexivity; [by destruct Hr; split|].
      rewrite rest_cons in Ho by done. rewrite rest_cons by done. cbn [answers tail] in *. rewrite <- app_assoc. exact Ho.
    + unfold measure. cbn [parent p_tries child p1]. rewrite H1, H2, H3, H5. destruct (Z.eqb_spec k max); [lia|].
      destruct (le_bytes 4 _) eqn:E; [apply (f_equal length) in E; by rewrite length_le_bytes in E|lia].
  - unfold child_step in Hs. rewrite H3, H6 in Hs. unfold parent_closed in Hs. by rewrite H1 in Hs.
Qed.

Lemma judged_step g g' k lo hi : round g k lo hi -> parent g = PWrite (feedback_of m (guess lo hi)) -> p_tries g = k + 1 ->
  child g = CRead (guess lo hi) -> c_tries g = k + 1 -> p1 g = [] -> p2 g = [] ->
  p_out g ++ answers (k + 1) (tail (rest k lo hi)) = shown -> c_out g ++ guesses (tail (rest k lo hi)) = said ->
  gstep g g' -> inv g' /\ (measure g' < measure g)%nat.
Proof.
  intros Hr H1 H2 H3 H4 H5 H6 Ho Hg Hs. pose proof (ro_k _ _ _ _ Hr) as Hk. pose proof (ro_count _ _ _ _ Hr) as Hc. destruct Hs as [g' Hs|g' Hs].
  - unfold parent_step, child_exited in Hs. rewrite H1, H3, H6 in Hs. injection Hs as <-. cbn [app].
    set (x := guess lo hi) in *. rewrite rest_cons in Hc, Ho, Hg by done. fold x in Hc, Ho, Hg. cbn [tail] in Ho, Hg.
    destruct (Z.eqb_spec (feedback_of m x) 0) as [Hz|Hz].
    + apply feedback_zero in Hz as Hx. rewrite Hx, Z.ltb_irrefl in Hc, Ho, Hg. cbn [answers guesses] in Ho, Hg. rewrite app_nil_r in Ho, Hg. split.
      * apply I_done; cbn [p1 p_tries c_out]; try assumption; try reflexivity; [by apply PD_end|by eapply CD_read; [done|cbn [p2]; by rewrite Hz|by left]|].
        rewrite H2, <- Hc. done.
      * unfold measure. cbn [parent p_tries child]. rewrite ?H1, ?H3. lia.
    + destruct (decide (k + 1 = max)) as [Hl|Hl].
      * assert (He : (if m <? x then rest (k + 1) lo (x - 1) else if x <? m then rest (k + 1) (x + 1) hi else []) = []).
        { destruct (m <? x); [by apply rest_last|]. destruct (x <? m); [by apply rest_last|done]. }
        rewrite He in Hc, Ho, Hg. cbn [answers guesses] in Ho, Hg. rewrite app_nil_r in Ho, Hg. split.
        -- apply I_done; cbn [p1 p_tries c_out]; try assumption; try reflexivity.
           ++ apply PD_loop; cbn; try done. lia.
           ++ eapply CD_read; cbn [child c_tries p2]; [done|done|]. right. split; [lia|]. pose proof (feedback_range x). tauto.
           ++ rewrite H2, <- Hc. done.
        -- unfold measure. cbn [parent p_tries child]. rewrite ?H1, ?H2, ?H3. destruct (Z.eqb_spec (k + 1) max); lia.
      * split.
        -- eapply (I_answered _ k lo hi); cbn [parent p_tries child c_tries p1 p2 p_out c_out]; try assumption; try reflexivity; try lia.
           ++ destruct Hr; by split.
           ++ fold x. by rewrite <- feedback_zero.
           ++ rewrite rest_cons by done. done.
           ++ rewrite rest_cons by done. done.
        -- unfold measure. cbn [parent p_tries child p1]. rewrite ?H1, ?H2, ?H3, ?H5. destruct (Z.eqb_spec (k + 1) max); lia.
  - unfold child_step in Hs. rewrite H3, H6 in Hs. unfold parent_closed in Hs. by rewrite H1 in Hs.
Qed.

Lemma answered_step g g' k lo hi : round g k lo hi -> k + 1 < max -> guess lo hi <> m -> parent g = PRead -> p_tries g = k + 1 ->
  child g = CRead (guess lo hi) -> c_tries g = k + 1 -> p1 g = [] -> p2 g = le_bytes 4 (feedback_of m (guess lo hi)) ->
  p_out g ++ answers (k + 1) (tail (rest k lo hi)) = shown -> c_out g ++ guesses (tail (rest k lo hi)) = said ->
  gstep g g' -> inv g' /\ (measure g' < measure g)%nat.
Proof.
  intros Hr Hl Hne H1 H2 H3 H4 H5 H6 Ho Hg Hs. pose proof (ro_k _ _ _ _ Hr) as Hk. pose proof (ro_count _ _ _ _ Hr) as Hc.
  pose proof (guess_range _ _ _ _ Hr) as Hgr. pose proof (ro_range _ _ _ _ Hr) as Hrg. set (x := guess lo hi) in *. destruct Hs as [g' Hs|g' Hs].
  - unfold parent_step in Hs. rewrite H1, H2, H5 in Hs. destruct (Z.ltb_spec (k + 1) max); [|lia]. unfold child_exited in Hs. by rewrite H3 in Hs.
  - unfold child_step in Hs. rewrite H3, H6, read_int_ok in Hs by apply feedback_small. injection Hs as Hs.
    rewrite rest_cons in Hc, Ho, Hg by done. fold x in Hc, Ho, Hg. cbn [tail] in Ho, Hg. unfold feedback_of in Hs. split.
    + destruct (Z.ltb_spec m x) as [Hlt|Hge].
      * cbn [Z.eqb Pos.eqb] in Hs. subst g'. eapply (I_top _ (k + 1) lo (x - 1)); cbn [parent p_tries child c_tries p1 p2 p_out c_out]; try assumption; try reflexivity.
        split; cbn [c_min c_max]; [lia|lia|apply (ro_min _ _ _ _ Hr)|reflexivity|]. rewrite <- Hc. unfold zlen. cbn [length]. lia.
      * destruct (Z.ltb_spec x m); [|lia]. change (-1 =? 1) with false in Hs. cbn [Z.eqb Pos.eqb] in Hs. subst g'.
        eapply (I_top _ (k + 1) (x + 1) hi); cbn [parent p_tries child c_tries p1 p2 p_out c_out]; try assumption; try reflexivity.
        split; cbn [c_min c_max]; [lia|lia|reflexivity|apply (ro_max _ _ _ _ Hr)|]. rewrite <- Hc. unfold zlen. cbn [length]. lia.
    + assert (Hp : parent g' = PRead /\ p_tries g' = k + 1 /\ child g' = CLoop).
      { subst g'. destruct (Z.ltb_spec m x) as [Hlt|Hge]; [done|]. destruct (Z.ltb_spec x m); [done|lia]. }
      destruct Hp as (E1 & E2 & E3). unfold measure. rewrite E1, E2, E3, H1, H2, H3, H5. destruct (Z.eqb_spec (k + 1) max); lia.
Qed.

Lemma done_parent g g' : parent_done g -> child_done g -> p1 g = [] -> p_tries g = zlen all -> c_out g = said ->
  pstep g = Some g' -> inv g' /\ (measure g' < measure g)%nat.
Proof.
  intros Hp Hc H1 Ht Ho Hs. unfold parent_step in Hs.
  assert (Hcd : forall x, child x = child g -> p2 x = p2 g -> c_tries x = c_tries g -> child_done x).
  { intros x E1 E2 E3. destruct Hc as [y fb C1 C2 C3|C1 C2 C3|C1 C2]; [eapply CD_read|apply CD_loop|apply CD_exit]; rewrite ?E1, ?E2, ?E3; done. }
  destruct Hp as [P1 P2 P3|P1 P2|P1 P2|P1 P2 P3]; rewrite P1 in Hs; [| | |done].
  - destruct (Z.ltb_spec (p_tries g) max); [lia|]. injection Hs as <-. split; [apply I_done; try done; [by apply PD_end|by apply Hcd]|].
    unfold measure. cbn [parent child set_parent]. rewrite P1, P2, Z.eqb_refl. destruct (child g); lia.
  - injection Hs as <-. split; [apply I_done; try done; [|by apply Hcd]|].
    + apply PD_wait; [done|]. cbn [p_out p_tries]. by rewrite P2.
    + unfold measure. cbn [parent child]. rewrite P1. destruct (child g); lia.
  - unfold child_exited in Hs. destruct Hc as [y fb C1 C2 C3|C1 C2 C3|C1 C2]; rewrite C1 in Hs; try done. injection Hs as <-. split.
    + apply I_done; try done; [|by apply Hcd]. by apply PD_exit.
    + unfold measure. cbn [parent child set_parent]. rewrite P1, C1. lia.
Qed.

Lemma done_child g g' : parent_done g -> child_done g -> p1 g = [] -> p_tries g = zlen all -> c_out g = said ->
  cstep g = Some g' -> inv g' /\ (measure g' < measure g)%nat.
Proof.
  intros Hp Hc H1 Ht Ho Hs. unfold child_step in Hs.
  assert (Hnp : child g <> CExit 0 -> forall x, parent x = parent g -> p_tries x = p_tries g -> p_out x = p_out g -> parent_done x).
  { intros Hne x E1 E2 E3. destruct Hp as [P1 P2 P3|P1 P2|P1 P2|P1 P2 P3]; [apply PD_loop|apply PD_end|apply PD_wait|done]; rewrite ?E1, ?E2, ?E3; done. }
  destruct Hc as [y fb C1 C2 C3|C1 C2 C3|C1 C2]; rewrite C1 in Hs; [| |done].
  - assert (Hfb : - 2 ^ 31 <= fb < 2 ^ 31) by lia. rewrite C2, read_int_ok in Hs by done. injection Hs as <-.
    assert (Hne : child g <> CExit 0) by (by rewrite C1). destruct C3 as [->|[Cm Cf]].
    + cbn [Z.eqb]. split; [apply I_done; try done; [by apply Hnp|by apply CD_exit]|].
      unfold measure. cbn [parent child p_tries p1]. rewrite C1, H1. destruct Hp as [P1 P2 P3|P1 P2|P1 P2|P1 P2 P3]; rewrite P1; [|lia|lia|congruence]. rewrite P2, Z.eqb_refl. lia.
    + set (x := if fb =? 1 then _ else _). assert (Hx : exists lo hi, x = Game (parent g) (p_tries g) CLoop (c_tries g) lo hi (p1 g) [] (p_out g) (c_out g)).
      { unfold x. destruct Cf as [->| ->]; by eexists _, _. }
      destruct Hx as (lo & hi & ->). split; [apply I_done; try done; [by apply Hnp|by apply CD_loop]|].
      unfold measure. cbn [parent child p_tries p1]. rewrite C1, H1. destruct Hp as [P1 P2 P3|P1 P2|P1 P2|P1 P2 P3]; rewrite P1; [|lia|lia|congruence]. rewrite P2, Z.eqb_refl. lia.
  - assert (Hne : child g <> CExit 0) by (by rewrite C1). destruct (Z.ltb_spec (c_tries g) max); [lia|]. injection Hs as <-.
    split; [apply I_done; try done; [by apply Hnp|by apply CD_exit]|].
    unfold measure. cbn [parent child p_tries p1 set_child]. rewrite C1. destruct Hp as [P1 P2 P3|P1 P2|P1 P2|P1 P2 P3]; rewrite P1; [|lia|lia|congruence]. rewrite P2, Z.eqb_refl. lia.
Qed.

Lemma game_inv g g' : inv g -> gstep g g' -> inv g' /\ (measure g' < measure g)%nat.
Proof.
  intros Hi Hs. destruct Hi; [by eapply top_step|by eapply sent_step|by eapply judged_step|by eapply answered_step|].
  destruct Hs; [by eapply done_parent|by eapply done_child].
Qed.

(** The end: both have exited without an error, the child has printed its
    guesses, the parent its answers to them and whether the tries are used up. *)
Definition finished (g : game) : Prop :=
  parent g = PExit 0 /\ child g = CExit 0 /\ c_out g = said /\ p_out g = shown ++ final (zlen all).

#[local] Transparent all rest shown said.

Lemma game_start : inv (start ppid m).
Proof.
  assert (Hall : rest 0 MIN_NUMBER MAX_NUMBER = all) by (unfold rest, all; by rewrite Z.sub_0_r).
  eapply (I_top _ 0 MIN_NUMBER MAX_NUMBER); cbn [start parent p_tries child c_tries p1 p2 p_out c_out]; rewrite ?Hall; try reflexivity.
  split; [lia|unfold MIN_NUMBER, MAX_NUMBER in *; lia|reflexivity|reflexivity|by rewrite Hall].
Qed.

Lemma game_progress g : inv g -> finished g \/ exists g', gstep g g'.
Proof.
  assert (Hp : (exists g', pstep g = Some g') -> exists g', gstep g g') by (intros [g' E]; exists g'; by constructor).
  assert (Hc : (exists g', cstep g = Some g') -> exists g', gstep g g') by (intros [g' E]; exists g'; by apply ChildStep).
  intros [k lo hi Hr H1 H2 H3 H4|k lo hi Hr H1 H2 H3 H4 H5|k lo hi Hr H1 H2 H3 H4 H5|k lo hi Hr Hl Hne H1 H2 H3 H4 H5 H6|HP HC H1 Ht Ho].
  - right. apply Hc. unfold child_step, parent_closed. rewrite H3, H1. destruct (_ <? _); by eexists.
  - right. apply Hp. unfold parent_step. rewrite H1, H5. pose proof (guess_range _ _ _ _ Hr). rewrite read_int_ok by lia. destruct (_ <? _); by eexists.
  - right. apply Hp. unfold parent_step, child_exited. rewrite H1, H3. by eexists.
  - right. apply Hc. unfold child_step. rewrite H3, H6, read_int_ok by apply feedback_small. by eexists.
  - destruct HP as [P1 P2 P3|P1 P2|P1 P2|P1 P2 P3].
    + right. apply Hp. unfold parent_step. rewrite P1, P2, Z.ltb_irrefl. by eexists.
    + right. apply Hp. unfold parent_step. rewrite P1. by eexists.
    + right. destruct HC as [y fb C1 C2 C3|C1 C2 C3|C1 C2].
      * apply Hc. unfold child_step. rewrite C1, C2, read_int_ok by lia. by eexists.
      * apply Hc. unfold child_step, parent_closed. rewrite C1, P1. destruct (_ <? _); by eexists.
      * apply Hp. unfold parent_step, child_exited. rewrite P1, C1. by eexists.
    + left. rewrite Ht in P3. done.
Qed.
End Game.

#[local] Opaque start_text guess_text answer_text not_found_text le_bytes read_int bisect.

Lemma mystery_range seed : MIN_NUMBER <= generate_random_number seed <= MAX_NUMBER.
Proof.
  unfold generate_random_number. change (MAX_NUMBER - MIN_NUMBER + 1) with 100. unfold MIN_NUMBER, MAX_NUMBER.
  pose proof (Z.mod_pos_bound (u32 (Ulib.rand (Ulib.srand seed)).2) 100 ltac:(done)). lia.
Qed.

(** the guessing game.  In every interleaving of parent and child the
    game ends within 4 * tries + 10 steps, neither process is stuck or sees an
    error before, and at the end both have exited with status 0 and printed the
    guesses of a bisection of 1 to 100 and the answers to them; with seven
    tries or more the last guess is the number. *)
Theorem devine_correct (argv : list (list Z)) (pid ppid seed : Z) (ppid' cpid max m : Z) (g0 g : game) (k : nat) :
  main argv true pid ppid seed = Running ppid' cpid max m g0 -> nsteps (step ppid' cpid max m) k g0 g ->
  (k <= 4 * Z.to_nat max + 10)%nat /\ MIN_NUMBER <= m <= MAX_NUMBER /\ (7 <= max -> last (all max m) = Some m) /\
  (finished ppid' cpid max m g \/ exists g', step ppid' cpid max m g g').
Proof.
  intros Hmain Hrun. unfold main in Hmain. destruct argv as [|arg [|]]; try done. destruct (Z.leb_spec (Ulib.atoi arg) 0); [done|].
  cbn [negb] in Hmain. destruct (pid <? 0); [done|]. injection Hmain as <- <- <- <- <-. pose proof (mystery_range seed) as Hm. set (m := generate_random_number seed) in *.
  set (max := Ulib.atoi arg) in *. assert (H0 : inv ppid pid max m (start ppid m)).
  { apply game_start; [lia|done]. }
  assert (Hmeas : measure max (start ppid m) = (4 * Z.to_nat max + 10)%nat).
  { unfold measure. cbn [start parent child p_tries]. destruct (Z.eqb_spec 0 max); [lia|]. by rewrite Z.sub_0_r. }
  rewrite <- Hmeas. assert (Hall : inv ppid pid max m g /\ (k + measure max g <= measure max (start ppid m))%nat).
  { clear Hmeas. induction Hrun as [x|n x y z Hs _ IH]; [done|]. assert (Hxy : inv ppid pid max m y /\ (measure max y < measure max x)%nat) by (eapply game_inv; eassumption). destruct Hxy as [Hy Hlt]. destruct (IH Hy). split; [done|lia]. }
  destruct Hall as [Hi Hk]. split; [lia|]. split; [done|]. split; [|by apply game_progress].
  intros H7. unfold all. apply bisect_finds; unfold MIN_NUMBER, MAX_NUMBER in *; try lia.
  apply Z.lt_le_trans with (2 ^ 7); [done|]. apply Z.pow_le_mono_r; lia.
Qed.
