(* ===== verification/Pingpong.v ===== *)
(** * Ping-pong between two processes (user/pingpong.c)

    Parent and child hand one byte back and forth through two pipes.  Both
    print to the same terminal; their steps interleave in any order. *)

From Stdlib Require Import ZArith Lia.
From stdpp Require Import base numbers list list_numbers gmap strings relations.
From S2P Require Import Prelude Cstring Kernel Console User Ulib Uprintf.

Module Pingpong.
Definition MAX_PING_PONG : Z := 5.

Fixpoint is_number (s : list Z) : bool :=
  match s with
  | [] => true
  | c :: s' => if (c <? 48) || (57 <? c) then false else is_number s'
  end.

(** [PTop i], [CTop i]: the loop heads with their [i]; [PEnd], [CEnd]: after
    the loops; [PWait]: the parent has closed its ends. *)
Inductive ppc := PTop (i : Z) | PWrite (i : Z) | PRead (i : Z) | PEnd | PWait | PExit.
Inductive cpc := CTop (i : Z) | CWrite (i buf : Z) | CEnd | CExit.

Record game := Game {
  parent : ppc;
  child : cpc;
  p1 : list Z;                       (** to the child *)
  p2 : list Z;                       (** to the parent *)
  term : list Z
}.

Section Run.
(** The pids and number_of_ping_pong. *)
Context (ppid cpid number : Z).

Definition ping_text : list Z := text (lit "<parent - PID : %d>  : send ping" ++ [10]) [AInt ppid].
Definition pong_text : list Z := text (lit "<child - PID : %d>  : send pong" ++ [10]) [AInt cpid].

Definition child_closed (g : game) : bool := match child g with CExit => true | _ => false end.
Definition parent_closed (g : game) : bool := match parent g with PWait | PExit => true | _ => false end.

Definition parent_step (g : game) : option game :=
  match parent g with
  | PTop i =>
      Some (if i <? number then Game (PWrite i) (child g) (p1 g) (p2 g) (term g ++ ping_text)
            else Game PEnd (child g) (p1 g) (p2 g) (term g))
  | PWrite i => Some (Game (PRead i) (child g) (if child_closed g then p1 g else p1 g ++ [120]) (p2 g) (term g))
  | PRead i =>
      match p2 g with
      | _ :: rest => Some (Game (PTop (i + 1)) (child g) (p1 g) rest (term g))
      | [] => if child_closed g then Some (Game PEnd (child g) (p1 g) (p2 g) (term g)) else None
      end
  | PEnd => Some (Game PWait (child g) (p1 g) (p2 g) (term g))
  | PWait => if child_closed g then Some (Game PExit (child g) (p1 g) (p2 g) (term g)) else None
  | PExit => None
  end.

Definition child_step (g : game) : option game :=
  match child g with
  | CTop i =>
      if i <? number then
        match p1 g with
        | buf :: rest => Some (Game (parent g) (CWrite i buf) rest (p2 g) (term g ++ pong_text))
        | [] => if parent_closed g then Some (Game (parent g) CEnd (p1 g) (p2 g) (term g)) else None
        end
      else Some (Game (parent g) CEnd (p1 g) (p2 g) (term g))
  | CWrite i buf => Some (Game (parent g) (CTop (i + 1)) (p1 g) (if parent_closed g then p2 g else p2 g ++ [buf]) (term g))
  | CEnd => Some (Game (parent g) CExit (p1 g) (p2 g) (term g))
  | CExit => None
  end.

Inductive step (g : game) : game -> Prop :=
| ParentStep g' : parent_step g = Some g' -> step g g'
| ChildStep g' : child_step g = Some g' -> step g g'.
End Run.

Definition start : game := Game (PTop 0) (CTop 0) [] [] [].

Inductive started := Failed (message : list Z) (status : Z) | Running (ppid cpid number : Z) (g : game).

Definition usage : started := Failed (lit "Usage : pingpong <number of pong>. Default is 5" ++ [10]) 1.

(** main() with its arguments, what pipe() and fork() return and the pids. *)
Definition main (args : list (list Z)) (pipes : bool) (pid ppid : Z) : started :=
  let go number :=
    if negb pipes then Failed (lit "pipe error" ++ [10]) 1
    else if pid <? 0 then Failed (lit "fork error" ++ [10]) 1
    else Running ppid pid number start in
  match args with
  | [] => go MAX_PING_PONG
  | [a] => if negb (is_number a) then usage else go (Ulib.atoi a)
  | _ => usage
  end.
End Pingpong.
Import Pingpong.

Section Proof.
Context (ppid cpid n : Z).
Notation gstep := (step ppid cpid n).
Notation ping := (ping_text ppid).
Notation pong := (pong_text cpid).

(** The terminal after [k] rounds. *)
Fixpoint rounds (k : nat) : list Z := match k with O => [] | S j => rounds j ++ ping ++ pong end.
Definition shown (k : Z) : list Z := rounds (Z.to_nat k).

Lemma shown_succ k : 0 <= k -> shown (k + 1) = shown k ++ ping ++ pong.
Proof. intros Hk. unfold shown. by replace (Z.to_nat (k + 1)) with (S (Z.to_nat k)) by lia. Qed.

#[local] Opaque ping_text pong_text.

(** Where the byte is; at the end it is nowhere. *)
Inductive inv (g : game) : Prop :=
| I_top k : 0 <= k < n -> g = Game (PTop k) (CTop k) [] [] (shown k) -> inv g
| I_write k : 0 <= k < n -> g = Game (PWrite k) (CTop k) [] [] (shown k ++ ping) -> inv g
| I_ping k x : 0 <= k < n -> g = Game (PRead k) (CTop k) [x] [] (shown k ++ ping) -> inv g
| I_got k x : 0 <= k < n -> g = Game (PRead k) (CWrite k x) [] [] (shown (k + 1)) -> inv g
| I_pong k x c : 0 <= k < n -> c = CTop (k + 1) \/ k + 1 = n /\ (c = CEnd \/ c = CExit) ->
    g = Game (PRead k) c [] [x] (shown (k + 1)) -> inv g
| I_end k p c : k = Z.max 0 n -> (p = PTop k \/ p = PEnd \/ p = PWait \/ p = PExit /\ c = CExit) -> (c = CTop k \/ c = CEnd \/ c = CExit) ->
    g = Game p c [] [] (shown k) -> inv g.

Definition measure (g : game) : Z :=
  match parent g with
  | PTop i => 3 * Z.max 0 (n - i) + 3 | PWrite i => 3 * Z.max 0 (n - i) + 2 | PRead i => 3 * Z.max 0 (n - i) + 1
  | PEnd => 2 | PWait => 1 | PExit => 0
  end +
  match child g with
  | CTop i => 2 * Z.max 0 (n - i) + 2 | CWrite i _ => 2 * Z.max 0 (n - i) + 1 | CEnd => 1 | CExit => 0
  end.

(** One round later, or the end. *)
Lemma next_round k c : 0 <= k < n -> c = CTop (k + 1) \/ k + 1 = n /\ (c = CEnd \/ c = CExit) ->
  inv (Game (PTop (k + 1)) c [] [] (shown (k + 1))).
Proof.
  intros Hk Hc. destruct (decide (k + 1 = n)) as [He|Hne].
  - eapply (I_end _ (k + 1)); [lia|by left| |done]. destruct Hc as [->|[_ [->| ->]]]; auto.
  - destruct Hc as [->|[? _]]; [|done]. by apply (I_top _ (k + 1)); [lia|].
Qed.

Lemma parent_ok g g' : inv g -> parent_step ppid n g = Some g' -> inv g' /\ measure g' < measure g.
Proof.
  intros [k Hk ->|k Hk ->|k x Hk ->|k x Hk ->|k x c Hk Hc ->|k p c Hk Hp Hc ->]; unfold parent_step; cbn [parent child p1 p2 term child_closed].
  - destruct (Z.ltb_spec k n); [|lia]. intros [= <-]. split; [by apply (I_write _ k)|unfold measure; cbn; lia].
  - intros [= <-]. split; [by apply (I_ping _ k 120)|unfold measure; cbn; lia].
  - done.
  - done.
  - intros [= <-]. split; [by apply next_round|unfold measure; cbn; lia].
  - destruct Hp as [->|[->|[->|[-> ->]]]].
    + destruct (Z.ltb_spec k n); [lia|]. intros [= <-]. split; [by apply (I_end _ k PEnd c); auto|unfold measure; cbn; lia].
    + intros [= <-]. split; [by apply (I_end _ k PWait c); auto|unfold measure; cbn; lia].
    + destruct Hc as [->|[->| ->]]; try done. intros [= <-]. split; [by apply (I_end _ k PExit CExit); auto|unfold measure; cbn; lia].
    + done.
Qed.

Lemma child_ok g g' : inv g -> child_step cpid n g = Some g' -> inv g' /\ measure g' < measure g.
Proof.
  intros [k Hk ->|k Hk ->|k x Hk ->|k x Hk ->|k x c Hk Hc ->|k p c Hk Hp Hc ->]; unfold child_step; cbn [parent child p1 p2 term].
  - destruct (Z.ltb_spec k n); [done|lia].
  - destruct (Z.ltb_spec k n); [done|lia].
  - destruct (Z.ltb_spec k n); [|lia]. intros [= <-]. split; [|unfold measure; cbn; lia].
    apply (I_got _ k x); [done|]. by rewrite <- app_assoc, shown_succ by lia.
  - intros [= <-]. split; [by eapply (I_pong _ k x); [done|by left|]|unfold measure; cbn; lia].
  - destruct Hc as [->|[He [->| ->]]]; [| |done].
    + destruct (Z.ltb_spec (k + 1) n); [done|]. intros [= <-]. split; [eapply (I_pong _ k x); [done|by right; split; [lia|left]|done]|unfold measure; cbn; lia].
    + intros [= <-]. split; [eapply (I_pong _ k x); [done|by right; split; [|right]|done]|unfold measure; cbn; lia].
  - assert (Hp' : c <> CExit -> p = PTop k \/ p = PEnd \/ p = PWait) by naive_solver.
    destruct Hc as [->|[->| ->]]; [| |done].
    + destruct (Z.ltb_spec k n); [lia|]. intros [= <-]. split; [eapply (I_end _ k p CEnd); [done|naive_solver|auto|done]|unfold measure; cbn; lia].
    + intros [= <-]. split; [eapply (I_end _ k p CExit); [done|naive_solver|auto|done]|unfold measure; cbn; lia].
Qed.

Definition finished (g : game) : Prop := g = Game PExit CExit [] [] (shown n).

Lemma pp_progress g : inv g -> finished g \/ exists g', gstep g g'.
Proof.
  intros [k Hk ->|k Hk ->|k x Hk ->|k x Hk ->|k x c Hk Hc ->|k p c Hk Hp Hc ->].
  - right. eexists. by apply ParentStep.
  - right. eexists. by apply ParentStep.
  - right. eexists. apply ChildStep. unfold child_step. cbn. destruct (Z.ltb_spec k n); [done|lia].
  - right. eexists. by apply ChildStep.
  - right. eexists. by apply ParentStep.
  - destruct Hp as [->|[->|[->|[-> ->]]]]; [right; eexists; by apply ParentStep|right; eexists; by apply ParentStep| |].
    + right. destruct Hc as [->|[->| ->]]; [|by eexists; apply ChildStep|by eexists; apply ParentStep].
      eexists. apply ChildStep. unfold child_step. cbn. destruct (Z.ltb_spec k n); [lia|done].
    + left. unfold finished. subst k. unfold shown. by replace (Z.to_nat (Z.max 0 n)) with (Z.to_nat n) by lia.
Qed.

Lemma pp_start : inv start.
Proof.
  destruct (Z.ltb_spec 0 n).
  - by apply (I_top _ 0); [lia|].
  - eapply (I_end _ 0); [lia|by left|by left|done].
Qed.
End Proof.

(** In every interleaving pings and pongs alternate on the terminal, as many as
    asked for; within 5 * n + 5 steps both processes have exited, and neither
    is ever stuck before. *)
Theorem pingpong_correct args pid ppid ppid' cpid n g0 g k :
  main args true pid ppid = Running ppid' cpid n g0 -> nsteps (step ppid' cpid n) k g0 g ->
  Z.of_nat k <= 5 * Z.max 0 n + 5 /\ (finished ppid' cpid n g \/ exists g', step ppid' cpid n g g').
Proof.
  intros Hm Hr. assert (Hg : g0 = start).
  { unfold main in Hm. destruct args as [|a [|]]; try done; [|destruct (negb _); [done|]]; cbn [negb] in Hm; (destruct (pid <? 0); [done|by injection Hm]). }
  subst g0. assert (H : inv ppid' cpid n g /\ Z.of_nat k + measure n g <= measure n start).
  { generalize (pp_start ppid' cpid n). clear Hm. induction Hr as [x|j x y z Hs _ IH]; intros Hi; [split; [done|lia]|].
    assert (Hy : inv ppid' cpid n y /\ measure n y < measure n x) by (destruct Hs; [by eapply parent_ok|by eapply child_ok]).
    destruct Hy as [Hy Hl]. destruct (IH Hy). split; [done|lia]. }
  destruct H as [Hi Hk]. split; [|by apply pp_progress].
  assert (0 <= measure n g) by (unfold measure; destruct (parent g), (child g); lia). unfold measure in Hk at 2. cbn in Hk. lia.
Qed.
